(* ===== verification/_CoqProject ===== *)
-Q . S2P
Prelude.v
Memory.v
Format.v
Frames.v
Paging.v
CloneSpace.v
PageTree.v
CString.v
HashTable.v
KList.v
Liballoc.v
Heap.v
HeapOps.v
Malloc.v
Slab.v
KTree.v
Vfs.v
Tarfs.v
Ramfs.v
FatVol.v
Fat.v
Mutex.v
RingBuffer.v
Signals.v
Pty.v
Console.v
Procs.v
Scheduler.v
Process.v
UserMem.v
SysFiles.v
SysCalls.v
Elf.v
Ports.v
Interrupts.v
Terminal.v
Pci.v
Boot.v
Exec.v
Ahci.v
TimedMutex.v
ConsoleInit.v
