(* ===== verification/Prelude.v ===== *)
(** * NightOS64: a verification library

    The files of this library model the parts of NightOS64 that carry its own
    logic, written in C under src/kernel and src/libc, and prove what makes them
    correct.  This file is the prelude that every other one requires: outcomes,
    machine integers, loops, arrays.

    ** How C is modelled

    A C function is a Rocq function of the same name from the state it works on
    to an [outcome]: [Done] with the result and the new state, [Fault] for an
    access outside the objects the code owns (and a division by zero),
    [Blocked] when the caller has to wait for another thread, [OutOfFuel] when
    the fuel of a loop is used up.  A pointer is a number and NULL is 0; a kind
    of heap object is a table from the addresses of the live objects to their
    contents, so a use after free or a NULL access shows as a [Fault].  An
    integer is a Z, with the wrap-around of its width written out where the
    code can reach it ([u8] to [u64], [s8] to [s64]).  A function pointer is a
    number and the drivers' functions are a class.  What is not under src/ (the
    numbers of errno.h, signal.h and termios.h, the hardware) is a parameter.

    Fuel: a [for] over a known range needs none.  Every other loop runs under
    [loop], and the theorems give the fuel that is enough (the length of a
    chain, the number of nodes of a tree, the characters of a string) and
    conclude that the run returns; where the code itself never returns, the
    theorem says that no fuel is enough.

    ** The parts

    - libc: Memory and CString (libc/string/string.c: memory and string
      routines on byte-addressed memory), Format (itoa, snprintf, printf),
      HashTable (libc/kernel/hashtable.c), KList (libc/kernel/list.c), KTree
      (libc/kernel/tree.c), RingBuffer (libc/kernel/ring_buffer.c).  Theorems:
      refinement of lists, maps and FIFOs; strtok_r yields the fields of its
      string; printed numbers and bounded output.
    - memory: Frames (the frame bitmap of kernel/arch/amd64/memmgr.c), Paging
      (its page tables, address spaces, mmap and munmap), CloneSpace (what
      memmgr_clone_page_map copies), Liballoc, Heap, HeapOps and Malloc
      (kernel/alloc/liballoc.c: the code, the heap's invariant, its
      preservation, and malloc/free/realloc as operations on the set of
      blocks), Slab (kmalloc of kernel/arch/amd64/alloc.c).
    - files: Vfs (kernel/fs/vfs.c: path resolution, mounting, open, create),
      and its drivers Tarfs (tarfs.c, with the round trip from an archive to
      the files), Ramfs (ramfs.c), FatVol and Fat (fat.c: the table, the
      chains, the directories and the driver).  Vfs calls a driver through the
      class [Drivers], and each driver file gives its instance.
    - terminals: Pty (kernel/fs/pty.c: the line discipline) and Console
      (kernel/fs/console.c: the escape sequences), over RingBuffer; ConsoleInit
      (console_init).
    - threads and processes: Mutex (kernel/lock.h, kernel/sys/mutex.c, wait
      queues; mutual exclusion and the lost wakeup on the interleavings of many
      threads), TimedMutex (mutex_acquire_timeout), Signals (kernel/proc/ipc.c),
      Procs (the objects), Scheduler (schedule, sleeping, the timer) and Process
      (fork, clone, exit, reaping, descriptors) for kernel/proc/process.c.
    - system calls (kernel/sys/syscall.c): UserMem (fields, strings and buffers
      in user memory), SysFiles (descriptors, paths, stat, vectors) and SysCalls
      (memory, signals, waiting, poll, futex, the table and syscall_entry) on the
      kernel state, the user memory and the waiters of sys_futex.  Theorems:
      reading a file to its end, struct stat, the equivalence of pread with a
      seek and a read, the bounds of descriptors and call numbers, what wait4,
      poll and brk do.
    - programs: PageTree (the page tables as a tree: mapping a page keeps every
      other translation), Elf (kernel/program/elf.c: loading a program and a
      kernel module; the exported symbols of kernel.c) and Exec
      (process_create_task and execve of kernel/proc/process.c, with the user
      stack they build).  Theorems: a loaded segment holds the bytes of its
      file, the layout of the first stack.
    - hardware: Ports (pic.c, pit.c and hid/ps2.c of kernel/arch/amd64,
      kernel/serial.c: the interrupt controller, the timer, the keyboard and the
      serial line over a port bus), Interrupts (idt.c, idt.S and gdt.c: the
      descriptor tables, the gates and stubs, the dispatch of traps), Terminal
      (the screen and the kernel printf of kernel/kernel.c), Pci
      (kernel/pci/pci.c: the configuration space, the scan and the ACPI
      tables), and Ahci (kernel/pci/ahci.c: the
      disk controller and its commands).
      What a device does is a class with its documented laws, and each has a
      concrete instance in a witness.  Theorems: what the screen shows, the scan
      of the bus, a read of the disk, the dispatch of a trap.
    - the start: Boot (the tags of the boot loader in kernel_main, memmgr_init).
      Theorems: which frames are reserved, the identity map.

    How they interact: Vfs runs on KTree and CString's fields; the drivers run
    under Vfs; RingBuffer sleeps through Mutex, Pty and Console run on
    RingBuffer; Procs puts the state of Vfs, Paging and the scheduler into one
    kernel state, on which Scheduler and Process work; Elf reads a file through
    Vfs into pages that Paging maps; Exec runs Elf on the kernel state;
    Interrupts reaches the system calls and the handlers of the kernel through
    the class of its machine; Terminal prints through Format's digits to the
    screen and through Ports to the serial line; Ahci maps its registers with
    Paging and mounts its disks through Vfs.

    ** What the theorems show

    - refinement: the hash table is a finite map, the list a sequence, the tree
      an ordered forest, the ring buffer a FIFO, the heap a set of disjoint
      blocks, the page tables a partial map of pages, the frame bitmap a set.
    - invariants: the heap's, the page tables', the descriptor table's, mutual
      exclusion, the reserved frames; each is kept by every operation of its
      part.
    - behaviour on every branch, the errors included: opening, mounting and
      resolving a path, forking, exiting, reaping, scheduling, reading and
      writing of the terminals and the file systems.
    - the processor's side: the page tables are read by memmgr, for which an
      entry is free when it is 0 ([walk]), and by the processor, which tests the
      present bit and the access bits of every entry on the way ([translate]).
      The theorems on mapping a page, on the identity map and on the copy of an
      address space are about both: an access that the flags allow finds the
      page.  A trap is followed from the instruction or the exception through
      the gate that idt.c wrote and the stub of idt.S to the handler and back.
    - deleting a file frees its chain and changes no data cluster, but it
      rewrites the directory: the entry of the file gets the new size and the
      first entry of the cluster is the one that is cleared.
    - where the code does not do what it means to, the theorem states what it
      does (a sleeper that is queued twice, a wakeup that is lost, a copy that
      leaves its buffer, a search that never ends); these are listed with the
      findings.

    ** Not modelled

    Third-party code: the font renderer ssfn.h and the headers multiboot.h and
    multiboot2.h beyond the tags that kernel_main uses.  Assembly beyond
    setjmp, longjmp, the signal entry and the trap stubs: start.S, crt0.S.
    The rest of kernel_main, which calls the parts in order and runs built-in
    tests (test.c), and the page attribute table.  The wrappers of libc that
    only trap into the kernel, srvctl (proc/server.c), which only tests a
    number so far, and the functions that only print (memmgr_dump, list_dump).
    Caches and the translation lookaside buffer are not state: a change of a
    page table counts at once.  Messages that only go to printf are left out of
    the states, except in Terminal, where printf is the subject.  Concurrency
    on more than one processor is modelled for the mutex only; elsewhere a call
    runs to its end or to the point where it sleeps. *)
From stdpp Require Import base list gmap strings.
From Stdlib Require Import ZArith Lia.

#[local] Open Scope Z_scope.

(** ** Outcomes of C code

    [Done a] is a call that returns; [Fault] is an access outside the objects
    the code owns (a null or dangling pointer, an index out of range);
    [Blocked] is a call that cannot go on until another thread acts (a spin
    lock that is held, a sleep); [OutOfFuel] is a loop cut by the fuel of the
    model.  The four are kept apart so that a theorem on faults or blocking
    never speaks of fuel. *)

Inductive outcome (A : Type) : Type :=
| Done (a : A)
| Fault
| Blocked
| OutOfFuel.
Arguments Done {A} a.
Arguments Fault {A}.
Arguments Blocked {A}.
Arguments OutOfFuel {A}.

#[export] Instance outcome_ret : MRet outcome := fun A a => Done a.

#[export] Instance outcome_bind : MBind outcome := fun A B f o =>
  match o with
  | Done a => f a
  | Fault => Fault
  | Blocked => Blocked
  | OutOfFuel => OutOfFuel
  end.

Definition of_option {A} (o : option A) : outcome A :=
  match o with Some a => Done a | None => Fault end.

(** [guard_not_null p] is the access through a pointer: null faults. *)
Definition guard_not_null (p : Z) : outcome unit :=
  if decide (p = 0) then Fault else Done tt.

Lemma outcome_bind_done {A B} (o : outcome A) (f : A -> outcome B) b :
  o ≫= f = Done b <-> exists a, o = Done a /\ f a = Done b.
Proof.
  split; [|by intros (a & -> & ?)].
  destruct o as [a| | |]; simpl; intros; [by exists a|done..].
Qed.

Lemma outcome_bind_assoc {A B C} (o : outcome A) (f : A -> outcome B) (g : B -> outcome C) :
  (o ≫= f) ≫= g = o ≫= (fun a => f a ≫= g).
Proof. by destruct o. Qed.

(** ** Machine integers *)

Definition u8 (z : Z) : Z := z mod 2 ^ 8.
Definition u16 (z : Z) : Z := z mod 2 ^ 16.
Definition u32 (z : Z) : Z := z mod 2 ^ 32.
Definition u64 (z : Z) : Z := z mod 2 ^ 64.

(** Two's complement reading of the low [w] bits. *)
Definition sw (w z : Z) : Z := (z + 2 ^ (w - 1)) mod 2 ^ w - 2 ^ (w - 1).
Definition s8 (z : Z) : Z := sw 8 z.
Definition s32 (z : Z) : Z := sw 32 z.
Definition s64 (z : Z) : Z := sw 64 z.

Declare Scope cint_scope.
Delimit Scope cint_scope with C.
Notation "x + y" := (u64 (x + y)) : cint_scope.
Notation "x - y" := (u64 (x - y)) : cint_scope.
Notation "x * y" := (u64 (x * y)) : cint_scope.

Lemma u8_small z : 0 <= z < 256 -> u8 z = z.
Proof. intros. unfold u8. rewrite Z.mod_small; lia. Qed.
Lemma u16_small z : 0 <= z < 65536 -> u16 z = z.
Proof. intros. unfold u16. rewrite Z.mod_small; lia. Qed.
Lemma u32_small z : 0 <= z < 4294967296 -> u32 z = z.
Proof. intros. unfold u32. rewrite Z.mod_small; lia. Qed.
Lemma u64_small z : 0 <= z < 18446744073709551616 -> u64 z = z.
Proof. intros. unfold u64. rewrite Z.mod_small; lia. Qed.
Lemma s32_small z : - 2147483648 <= z < 2147483648 -> s32 z = z.
Proof. intros. unfold s32, sw. rewrite Z.mod_small; lia. Qed.
Lemma s64_small z : - 9223372036854775808 <= z < 9223372036854775808 -> s64 z = z.
Proof. intros. unfold s64, sw. rewrite Z.mod_small; lia. Qed.
Lemma s8_small z : - 128 <= z < 128 -> s8 z = z.
Proof. intros. unfold s8, sw. rewrite Z.mod_small; lia. Qed.
Lemma u64_range z : 0 <= u64 z < 2 ^ 64.
Proof. apply Z.mod_pos_bound. lia. Qed.
Lemma u32_range z : 0 <= u32 z < 2 ^ 32.
Proof. apply Z.mod_pos_bound. lia. Qed.
Lemma u8_range z : 0 <= u8 z < 256.
Proof. apply Z.mod_pos_bound. lia. Qed.

Create HintDb cint.
#[export] Hint Rewrite u8_small u16_small u32_small u64_small s8_small s32_small s64_small
  using lia : cint.
#[export] Hint Resolve u64_range u32_range u8_range : cint.

(** ** Loops

    [loop fuel step s] runs [step] from [s] until it breaks.  [inl] continues,
    [inr] leaves the loop (a false condition, a break or a return). *)

Fixpoint loop {St A} (fuel : nat) (step : St -> outcome (St + A)) (s : St) : outcome A :=
  match fuel with
  | O => OutOfFuel
  | S fuel' =>
      r ← step s;
      match r with
      | inl s' => loop fuel' step s'
      | inr a => Done a
      end
  end.

(** Total correctness: an invariant, a decreasing measure, a postcondition. *)
Lemma loop_total {St A} (I : St -> Prop) (mu : St -> nat) (Q : A -> Prop)
    (step : St -> outcome (St + A)) fuel s :
  (forall s, I s ->
     match step s with
     | Done (inl s') => I s' /\ (mu s' < mu s)%nat
     | Done (inr a) => Q a
     | _ => False
     end) ->
  I s -> (mu s < fuel)%nat -> exists a, loop fuel step s = Done a /\ Q a.
Proof.
  intros Hstep. revert s. induction fuel as [|fuel IH]; intros s HI Hmu; [lia|].
  simpl. specialize (Hstep s HI). destruct (step s) as [[s'|a]| | |]; try done; simpl.
  - destruct Hstep. apply IH; [done | lia].
  - eauto.
Qed.

(** [for_ n i body s] is [for(k = i; k < i + n; k++) body]: bounded, so it
    needs no fuel; [body] leaves the loop early with [inr]. *)
Fixpoint for_ {St A} (n : nat) (i : Z) (body : Z -> St -> outcome (St + A)) (s : St)
    : outcome (St + A) :=
  match n with
  | O => Done (inl s)
  | S n' =>
      r ← body i s;
      match r with
      | inl s' => for_ n' (i + 1) body s'
      | inr a => Done (inr a)
      end
  end.

(** The rule of a bounded loop: the invariant holds at every index, or the
    loop left early with [Q]. *)
Lemma for_inv {St A} (I : Z -> St -> Prop) (Q : A -> Prop) n i
    (body : Z -> St -> outcome (St + A)) s :
  (forall k s, i <= k < i + Z.of_nat n -> I k s ->
     match body k s with
     | Done (inl s') => I (k + 1) s'
     | Done (inr a) => Q a
     | _ => False
     end) ->
  I i s ->
  match for_ n i body s with
  | Done (inl s') => I (i + Z.of_nat n) s'
  | Done (inr a) => Q a
  | _ => False
  end.
Proof.
  revert i s. induction n as [|n IH]; intros i s Hb HI.
  - simpl. by replace (i + Z.of_nat 0) with i by lia.
  - simpl. pose proof (Hb i s ltac:(lia) HI) as H1.
    destruct (body i s) as [[s'|a]| | |]; try done; simpl.
    replace (i + Z.of_nat (S n)) with (i + 1 + Z.of_nat n) by lia.
    apply IH; [|done]. intros k s0 Hk. apply Hb. lia.
Qed.

(** The rule of a loop without early exit. *)
Lemma for_total {St A} (I : Z -> St -> Prop) n i (body : Z -> St -> outcome (St + A)) s :
  (forall k s, i <= k < i + Z.of_nat n -> I k s ->
     exists s', body k s = Done (inl s') /\ I (k + 1) s') ->
  I i s ->
  exists s', for_ n i body s = Done (inl s') /\ I (i + Z.of_nat n) s'.
Proof.
  intros Hb HI. pose proof (for_inv I (fun _ => False) n i body s) as H.
  destruct (for_ n i body s) as [[s'|a]| | |]; try (exfalso; apply H; [|done]);
    try (intros k s0 Hk Hs; destruct (Hb k s0 Hk Hs) as (? & -> & ?); done).
  exists s'. split; [done|]. apply H; [|done].
  intros k s0 Hk Hs. by destruct (Hb k s0 Hk Hs) as (? & -> & ?).
Qed.

(** ** Lists indexed by [Z], as C arrays *)

Definition zlookup {A} (l : list A) (i : Z) : option A :=
  if decide (0 <= i) then l !! Z.to_nat i else None.

Definition zinsert {A} (l : list A) (i : Z) (a : A) : option (list A) :=
  if decide (0 <= i < Z.of_nat (length l)) then Some (<[Z.to_nat i := a]> l) else None.

(** Array reads and writes: out of range is a fault. *)
Definition aget {A} (l : list A) (i : Z) : outcome A := of_option (zlookup l i).
Definition aset {A} (l : list A) (i : Z) (a : A) : outcome (list A) := of_option (zinsert l i a).

Lemma aget_done {A} (l : list A) i a :
  aget l i = Done a <-> 0 <= i /\ l !! Z.to_nat i = Some a.
Proof.
  unfold aget, zlookup. case_decide; simpl; [|split; [done|lia]].
  destruct (l !! Z.to_nat i); simpl; split; [|intros [_ ?]|..]; (done || congruence || idtac).
  - intros [= ->]. done.
  - by intros [_ ?].
Qed.

Lemma aget_in_range {A} (l : list A) i :
  0 <= i < Z.of_nat (length l) -> exists a, aget l i = Done a /\ l !! Z.to_nat i = Some a.
Proof.
  intros Hi. destruct (lookup_lt_is_Some_2 l (Z.to_nat i)) as [a Ha]; [lia|].
  exists a. split; [|done]. apply aget_done. split; [lia|done].
Qed.

Lemma aset_in_range {A} (l : list A) i a :
  0 <= i < Z.of_nat (length l) -> aset l i a = Done (<[Z.to_nat i := a]> l).
Proof. intros Hi. unfold aset, zinsert. by rewrite decide_True. Qed.

(** memcpy into the middle of an array. *)
Definition overwrite {A} (b : list A) (off : Z) (bytes : list A) : list A :=
  take (Z.to_nat off) b ++ bytes ++ drop (Z.to_nat off + length bytes) b.

Lemma length_overwrite {A} (b : list A) off bytes : 0 <= off -> off + Z.of_nat (length bytes) <= Z.of_nat (length b) -> length (overwrite b off bytes) = length b.
Proof. intros Ho Hl. unfold overwrite. rewrite !length_app, length_take, length_drop. lia. Qed.

Lemma overwrite_slice {A} (b : list A) off bytes : 0 <= off -> off + Z.of_nat (length bytes) <= Z.of_nat (length b) ->
  take (length bytes) (drop (Z.to_nat off) (overwrite b off bytes)) = bytes.
Proof.
  intros Ho Hl. unfold overwrite. rewrite drop_app_length' by (rewrite length_take; lia). by rewrite take_app_length.
Qed.

Lemma overwrite_lookup_out {A} (b : list A) off bytes i : 0 <= off -> off + Z.of_nat (length bytes) <= Z.of_nat (length b) ->
  (i < Z.to_nat off)%nat \/ (Z.to_nat off + length bytes <= i)%nat -> overwrite b off bytes !! i = b !! i.
Proof.
  intros Ho Hl Hi. unfold overwrite. destruct Hi as [Hi|Hi].
  - rewrite lookup_app_l by (rewrite length_take; lia). by rewrite lookup_take_lt.
  - rewrite lookup_app_r by (rewrite length_take; lia). rewrite length_take, lookup_app_r by lia. rewrite lookup_drop. f_equal. lia.
Qed.

(** ** Little-endian integers *)

Definition le (l : list Z) : Z := foldr (fun b n => b + 256 * n) 0 l.
Fixpoint to_le (n : nat) (v : Z) : list Z :=
  match n with O => [] | S n => v mod 256 :: to_le n (v / 256) end.

Lemma to_le_length n v : length (to_le n v) = n.
Proof. revert v. induction n; simpl; auto. Qed.

Lemma le_to_le n v : 0 <= v < 256 ^ Z.of_nat n -> le (to_le n v) = v.
Proof.
  revert v. induction n as [|n IH]; intros v Hv; [simpl in *; lia|].
  cbn [to_le le foldr]. fold (le (to_le n (v / 256))). rewrite IH; [symmetry; rewrite Z.add_comm; apply Z.div_mod; lia|].
  rewrite Nat2Z.inj_succ, Z.pow_succ_r in Hv by lia. split; [apply Z.div_pos; lia|apply Z.div_lt_upper_bound; lia].
Qed.

Lemma snoc_cases {A} (l : list A) : l = [] \/ exists l' x, l = l' ++ [x].
Proof. induction l using rev_ind; eauto. Qed.

(** ** Fresh addresses

    A concrete allocator of table entries, for the examples. *)

Definition next_key {A} (m : gmap Z A) : Z := map_fold (fun p _ a => Z.max (p + 1) a) 1 m.

Lemma next_key_fresh {A} (m : gmap Z A) : next_key m <> 0 /\ m !! next_key m = None.
Proof.
  assert (H : 0 < next_key m /\ forall p n, m !! p = Some n -> p < next_key m).
  { unfold next_key. apply (map_fold_weak_ind (fun a (m : gmap Z A) => 0 < a /\ forall p n, m !! p = Some n -> p < a)).
    - split; [lia|]. intros p n. by rewrite lookup_empty.
    - intros p x m' a _ [IH1 IH2]. split; [lia|]. intros q n [[-> _]|[_ Hq]]%lookup_insert_Some; [lia|].
      specialize (IH2 q n Hq). lia. }
  destruct H as [Hpos Hbig]. split; [lia|]. destruct (m !! next_key m) eqn:E; [|done]. apply Hbig in E. lia.
Qed.

(** ** Tactics *)

(** Evaluate the binds whose first computation is known. *)
Ltac obind :=
  repeat match goal with
  | H : ?e = Done _ |- context [?e] => rewrite H
  | _ => progress simpl
  end.

(** Invert a run that is known to return. *)
Ltac run_inv :=
  repeat match goal with
  | H : _ ≫= _ = Done _ |- _ => apply outcome_bind_done in H as (? & ? & ?)
  | H : Done _ = Done _ |- _ => injection H as H; subst
  | H : mret _ = Done _ |- _ => injection H as H; subst
  | H : Fault = Done _ |- _ => discriminate H
  | H : Blocked = Done _ |- _ => discriminate H
  | H : OutOfFuel = Done _ |- _ => discriminate H
  | p : _ * _ |- _ => destruct p
  end; simpl in *.
