(* ===== verification/Memory.v ===== *)
(** Byte-addressed C memory: loads, stores, byte arrays and C strings.

    [mem] holds the bytes that belong to some object; an access outside its
    domain is a fault.  [bytes_at m p l] says that the bytes [l] lie from
    address [p] on, [cstring m p s] that a null-terminated string with the
    characters [s] does.  [write_bytes] is the pure update that the copying
    routines of libc are compared with. *)
From S2P Require Import Prelude.
From stdpp Require Import base list gmap.
From Stdlib Require Import ZArith Lia.

#[local] Open Scope Z_scope.

Abbreviation mem := (gmap Z Z).

Definition load (m : mem) (p : Z) : outcome Z :=
  match m !! p with Some b => Done b | None => Fault end.

Definition store (m : mem) (p b : Z) : outcome mem :=
  match m !! p with Some _ => Done (<[p := b]> m) | None => Fault end.

Definition bytes_at (m : mem) (p : Z) (l : list Z) : Prop :=
  forall i b, l !! i = Some b -> m !! (p + Z.of_nat i) = Some b.

Definition mapped (m : mem) (p n : Z) : Prop :=
  forall q, p <= q < p + n -> is_Some (m !! q).

Definition cstring (m : mem) (p : Z) (s : list Z) : Prop :=
  bytes_at m p (s ++ [0]) /\ Forall (fun b => 0 < b < 256) s.

Fixpoint write_bytes (m : mem) (p : Z) (l : list Z) : mem :=
  match l with
  | [] => m
  | b :: l' => write_bytes (<[p := b]> m) (p + 1) l'
  end.

(** ** Loads and stores *)

Lemma load_done m p b : m !! p = Some b -> load m p = Done b.
Proof. unfold load. by intros ->. Qed.

Lemma store_done m p b : is_Some (m !! p) -> store m p b = Done (<[p := b]> m).
Proof. unfold store. by intros [? ->]. Qed.

(** ** Byte arrays *)

Lemma bytes_at_nil m p : bytes_at m p [].
Proof. intros i b. by rewrite lookup_nil. Qed.

Lemma bytes_at_cons m p b l :
  bytes_at m p (b :: l) <-> m !! p = Some b /\ bytes_at m (p + 1) l.
Proof.
  split.
  - intros H. split; [|intros i c Hi].
    + rewrite <-(Z.add_0_r p). by apply (H 0%nat).
    + replace (p + 1 + Z.of_nat i) with (p + Z.of_nat (S i)) by lia. by apply H.
  - intros [H1 H2] [|i] c Hi; simpl in Hi.
    + simplify_eq. by rewrite Z.add_0_r.
    + replace (p + Z.of_nat (S i)) with (p + 1 + Z.of_nat i) by lia. by apply H2.
Qed.

Lemma bytes_at_app m p l1 l2 :
  bytes_at m p (l1 ++ l2) <-> bytes_at m p l1 /\ bytes_at m (p + Z.of_nat (length l1)) l2.
Proof.
  revert p. induction l1 as [|b l1 IH]; intros p; simpl.
  - rewrite Z.add_0_r. pose proof (bytes_at_nil m p). naive_solver.
  - rewrite !bytes_at_cons, IH.
    replace (p + Z.of_nat (S (length l1))) with (p + 1 + Z.of_nat (length l1)) by lia. tauto.
Qed.

Lemma bytes_at_lookup m p l i b :
  bytes_at m p l -> l !! i = Some b -> m !! (p + Z.of_nat i) = Some b.
Proof. intros H. apply H. Qed.

Lemma bytes_at_mapped m p l : bytes_at m p l -> mapped m p (Z.of_nat (length l)).
Proof.
  intros H q Hq. destruct (lookup_lt_is_Some_2 l (Z.to_nat (q - p))) as [b Hb]; [lia|].
  exists b. replace q with (p + Z.of_nat (Z.to_nat (q - p))) by lia. by apply H.
Qed.

Lemma bytes_at_agree m m' p l :
  (forall q, p <= q < p + Z.of_nat (length l) -> m' !! q = m !! q) ->
  bytes_at m p l -> bytes_at m' p l.
Proof.
  intros Ha H i b Hi. pose proof (lookup_lt_Some _ _ _ Hi). rewrite Ha by lia. by apply H.
Qed.

Lemma bytes_at_insert_out m p l q b :
  ~ (p <= q < p + Z.of_nat (length l)) -> bytes_at m p l -> bytes_at (<[q := b]> m) p l.
Proof. intros Hq. apply bytes_at_agree. intros r Hr. apply lookup_insert_ne. lia. Qed.

Lemma mapped_insert m p n q b : mapped m p n -> mapped (<[q := b]> m) p n.
Proof.
  intros H r Hr. destruct (decide (q = r)) as [->|Hne].
  - rewrite lookup_insert_eq. by eexists.
  - rewrite lookup_insert_ne by done. by apply H.
Qed.

Lemma mapped_weaken m p n p' n' : mapped m p n -> p <= p' -> p' + n' <= p + n -> mapped m p' n'.
Proof. intros H ?? q Hq. apply H. lia. Qed.

(** ** The pure update *)

Lemma write_bytes_lookup_out m p l q :
  ~ (p <= q < p + Z.of_nat (length l)) -> write_bytes m p l !! q = m !! q.
Proof.
  revert m p. induction l as [|b l IH]; intros m p Hq; simpl in *; [done|].
  rewrite IH by lia. apply lookup_insert_ne. lia.
Qed.

Lemma write_bytes_at m p l : bytes_at (write_bytes m p l) p l.
Proof.
  revert m p. induction l as [|b l IH]; intros m p; simpl; [apply bytes_at_nil|].
  apply bytes_at_cons. split; [|done].
  rewrite write_bytes_lookup_out by lia. apply lookup_insert_eq.
Qed.

Lemma write_bytes_app m p l1 l2 :
  write_bytes m p (l1 ++ l2) = write_bytes (write_bytes m p l1) (p + Z.of_nat (length l1)) l2.
Proof.
  revert m p. induction l1 as [|b l1 IH]; intros m p; simpl; [by rewrite Z.add_0_r|].
  rewrite IH. f_equal. lia.
Qed.

Lemma write_bytes_snoc m p l b :
  write_bytes m p (l ++ [b]) = <[p + Z.of_nat (length l) := b]> (write_bytes m p l).
Proof. by rewrite write_bytes_app. Qed.

Lemma write_bytes_insert_comm m p l q b :
  ~ (p <= q < p + Z.of_nat (length l)) ->
  <[q := b]> (write_bytes m p l) = write_bytes (<[q := b]> m) p l.
Proof.
  revert m p. induction l as [|c l IH]; intros m p Hq; simpl in *; [done|].
  rewrite IH by lia. f_equal. apply insert_insert_ne. lia.
Qed.

Lemma mapped_write_bytes m p l q n : mapped m q n -> mapped (write_bytes m p l) q n.
Proof.
  revert m p. induction l as [|b l IH]; intros m p H; simpl; [done|].
  apply IH. by apply mapped_insert.
Qed.

Lemma bytes_at_write_out m p l q k :
  p + Z.of_nat (length l) <= q \/ q + Z.of_nat (length k) <= p ->
  bytes_at m q k -> bytes_at (write_bytes m p l) q k.
Proof. intros Hd. apply bytes_at_agree. intros r Hr. apply write_bytes_lookup_out. lia. Qed.

(** ** C strings *)

Lemma cstring_nil m p : cstring m p [] <-> m !! p = Some 0.
Proof.
  unfold cstring. simpl. rewrite bytes_at_cons. pose proof (bytes_at_nil m (p + 1)). naive_solver.
Qed.

Lemma cstring_cons m p c s :
  cstring m p (c :: s) <-> m !! p = Some c /\ 0 < c < 256 /\ cstring m (p + 1) s.
Proof. unfold cstring. simpl. rewrite bytes_at_cons, Forall_cons. tauto. Qed.

Lemma cstring_agree m m' p s :
  (forall q, p <= q <= p + Z.of_nat (length s) -> m' !! q = m !! q) ->
  cstring m p s -> cstring m' p s.
Proof.
  intros Ha [H ?]. split; [|done]. eapply bytes_at_agree; [|done].
  intros q. rewrite length_app. simpl. intros. apply Ha. lia.
Qed.

Lemma cstring_app_r m p s1 s2 :
  cstring m p (s1 ++ s2) -> cstring m (p + Z.of_nat (length s1)) s2.
Proof.
  unfold cstring. rewrite <-app_assoc, bytes_at_app, Forall_app. tauto.
Qed.

Lemma cstring_insert_out m p s q b :
  ~ (p <= q <= p + Z.of_nat (length s)) -> cstring m p s -> cstring (<[q := b]> m) p s.
Proof. intros Hq. apply cstring_agree. intros r Hr. apply lookup_insert_ne. lia. Qed.

(** The first character of a C string, the terminator included. *)
Lemma cstring_head m p s : cstring m p s -> m !! p = Some (default 0 (head s)).
Proof. destruct s; [by rewrite cstring_nil | rewrite cstring_cons; naive_solver]. Qed.

Create HintDb mem.
#[export] Hint Resolve bytes_at_nil load_done store_done mapped_insert write_bytes_at
  mapped_write_bytes : mem.

(** Concrete memories, for the examples: evaluate the bytes one by one. *)
Ltac solve_bytes := repeat (apply bytes_at_cons; split; [vm_compute; reflexivity|]); apply bytes_at_nil.
Ltac solve_cstring := split; [solve_bytes | repeat (constructor; [lia|]); constructor].

(** [mapped] on a concrete range, byte by byte. *)
Fixpoint mapped_b (m : mem) (p : Z) (n : nat) : bool :=
  match n with
  | O => true
  | S n' => match m !! p with Some _ => mapped_b m (p + 1) n' | None => false end
  end.

Lemma mapped_b_spec m p n : mapped_b m p n = true -> mapped m p (Z.of_nat n).
Proof.
  revert p. induction n as [|n IH]; intros p Hb q Hq; simpl in Hb; [lia|].
  destruct (m !! p) as [b|] eqn:E; [|done].
  destruct (decide (q = p)) as [->|]; [by eexists|]. apply (IH (p + 1)); [done|lia].
Qed.
