(* ===== verification/Format.v ===== *)
(** Number formatting and printf: libc/stdlib/itoa.c, long_to_str and snprintf
    of libc/string/string.c, libc/stdio/printf.c.

    A char array is a list of bytes with C's bounds: an index outside it is a
    fault.  A pointer into the format string is the rest of its bytes, the
    terminator included; reading behind them is a fault.  The variable
    arguments are a list of typed values, and taking one of another type, or
    one that was not passed, is a fault. *)
From stdpp Require Import base list gmap strings.
From Stdlib Require Import ZArith Lia.
From S2P Require Import Prelude.

#[local] Open Scope Z_scope.

(** ** Digits *)

Definition digit_char (r : Z) : Z := if decide (r < 10) then r + 48 else r + 97 - 10.

(** [do { *p++ = digit(ud % divisor); } while (ud /= divisor);] *)
Definition digits_loop (fuel : nat) (divisor : Z) (buf : list Z) (p ud : Z) : outcome (list Z * Z) :=
  loop fuel (fun '(buf, p, ud) =>
    buf ← aset buf p (digit_char (ud mod divisor));
    let ud := ud / divisor in
    Done (if decide (ud = 0) then inr (buf, p + 1) else inl (buf, p + 1, ud))) (buf, p, ud).

(** The in-place reversal of [buf[p1..p2]]. *)
Definition reverse_loop (fuel : nat) (buf : list Z) (p1 p2 : Z) : outcome (list Z) :=
  loop fuel (fun '(buf, p1, p2) =>
    if decide (p1 < p2) then
      tmp ← aget buf p1;
      x ← aget buf p2;
      buf ← aset buf p1 x;
      buf ← aset buf p2 tmp;
      Done (inl (buf, p1 + 1, p2 - 1))
    else Done (inr buf)) (buf, p1, p2).

(** The common body: [ud] and [neg] are what the head of the function made of
    the number; the characters 'd' and 'x' are 100 and 120. *)
Definition number_to_str (fuel : nat) (neg : bool) (ud base : Z) (buf : list Z) : outcome (list Z) :=
  buf ← (if neg then aset buf 0 45 else Done buf);
  let start := if neg then 1 else 0 in
  let divisor := if negb neg && (base =? 120) then 16 else 10 in
  '(buf, p) ← digits_loop fuel divisor buf start ud;
  buf ← aset buf p 0;
  reverse_loop fuel buf start (p - 1).

(** [int d]: the minus is taken in int, before the conversion to unsigned long. *)
Definition itoa (fuel : nat) (d : Z) (buf : list Z) (base : Z) : outcome (list Z) :=
  if decide (base = 100 /\ d < 0) then number_to_str fuel true (u64 (s32 (- d))) base buf
  else number_to_str fuel false (u64 d) base buf.

Definition long_to_str (fuel : nat) (d : Z) (buf : list Z) (base : Z) : outcome (list Z) :=
  if decide (base = 100 /\ d < 0) then number_to_str fuel true (u64 (- d)) base buf
  else number_to_str fuel false (u64 d) base buf.

(** ** snprintf *)

Inductive arg := ALong (z : Z) | AStr (s : list Z) | AChar (c : Z).

Definition va_long (args : list arg) : outcome (Z * list arg) :=
  match args with ALong z :: args => Done (z, args) | _ => Fault end.
Definition va_str (args : list arg) : outcome (list Z * list arg) :=
  match args with AStr s :: args => Done (s, args) | _ => Fault end.
Definition va_char (args : list arg) : outcome (Z * list arg) :=
  match args with AChar c :: args => Done (c, args) | _ => Fault end.

Definition deref (p : list Z) : outcome Z := of_option (head p).

(** strlen of a byte list: the distance to its terminator. *)
Fixpoint str_len (s : list Z) : outcome Z :=
  match s with
  | [] => Fault
  | c :: s => if decide (c = 0) then Done 0 else n ← str_len s; Done (n + 1)
  end.

(** The output side of the first loop: buffer, output index, count, remaining. *)
Record sink := mk_sink { k_str : list Z; k_out : Z; k_count : Z; k_rem : Z }.

Definition put (c : Z) (k : sink) : outcome sink :=
  s ← aset (k_str k) (k_out k) c;
  Done (mk_sink s (k_out k + 1) (s32 (k_count k + 1)) (u64 (k_rem k - 1))).

(** [for (int i = 0; i < len; i++) *output++ = buf[i];] *)
Definition put_number (len : Z) (buf : list Z) (k : sink) : outcome sink :=
  r ← for_ (Z.to_nat len) 0 (fun i st =>
    c ← aget buf i; s ← aset st.1 st.2 c; Done (inl (A := list Z * Z) (B := unit) (s, st.2 + 1))) (k_str k, k_out k);
  match r with
  | inl (s, out) => Done (mk_sink s out (s32 (k_count k + len)) (u64 (k_rem k - len)))
  | inr _ => Fault
  end.

(** [while ( *s != 0 && remaining > 1)] *)
Fixpoint put_string (s : list Z) (k : sink) : outcome sink :=
  match s with
  | [] => Fault
  | c :: s => if decide (c <> 0 /\ 1 < k_rem k) then k ← put c k; put_string s k else Done k
  end.

(** One conversion of the first loop, [ptr] behind the percent sign. *)
Definition conversion (ptr : list Z) (args : list arg) (k : sink) : outcome (list Z * list arg * sink) :=
  c ← deref ptr;
  if decide (c = 100 \/ c = 108) then
    '(val, args) ← va_long args;
    buf ← long_to_str 65 val (replicate 21 0) 10;
    len ← str_len buf;
    k ← (if decide (len < k_rem k) then put_number len buf k
         else Done (mk_sink (k_str k) (k_out k) (s32 (k_count k + len)) (k_rem k)));
    Done (if decide (c = 108) then tail ptr else ptr, args, k)
  else if decide (c = 115) then
    '(s, args) ← va_str args; k ← put_string s k; Done (ptr, args, k)
  else k ← put c k; Done (ptr, args, k).

Definition write_pass (fuel : nat) (ptr : list Z) (args : list arg) (k : sink)
    : outcome (list Z * list arg * sink) :=
  loop fuel (fun '(ptr, args, k) =>
    c ← deref ptr;
    if decide (c <> 0 /\ 1 < k_rem k) then
      if decide (c <> 37) then k ← put c k; Done (inl (tail ptr, args, k))
      else
        '(ptr, args, k) ← conversion (tail ptr) args k;
        Done (inl (tail ptr, args, k))
    else Done (inr (ptr, args, k))) (ptr, args, k).

(** The second loop only counts. *)
Definition count_pass (fuel : nat) (ptr : list Z) (args : list arg) (count : Z) : outcome Z :=
  loop fuel (fun '(ptr, args, count) =>
    c ← deref ptr;
    if decide (c <> 0) then
      if decide (c <> 37) then Done (inl (tail ptr, args, s32 (count + 1)))
      else
        let ptr := tail ptr in
        c ← deref ptr;
        if decide (c = 100 \/ c = 108) then
          '(_, args) ← va_long args;
          let ptr := if decide (c = 108) then tail ptr else ptr in
          Done (inl (tail ptr, args, s32 (count + 21)))
        else if decide (c = 115) then
          '(s, args) ← va_str args; n ← str_len s; Done (inl (tail ptr, args, s32 (count + n)))
        else Done (inl (tail ptr, args, count))
    else Done (inr count)) (ptr, args, count).

Definition snprintf (fuel : nat) (str : list Z) (size : Z) (format : list Z) (args : list arg)
    : outcome (Z * list Z) :=
  '(ptr, args, k) ← write_pass fuel format args (mk_sink str 0 0 size);
  str ← (if decide (0 < size) then aset (k_str k) (k_out k) 0 else Done (k_str k));
  count ← count_pass fuel ptr args (k_count k);
  Done (count, str).

(** ** printf

    [out] is what putchar was called with; it never returns EOF on an unsigned
    char. *)
Definition INT_MAX : Z := 2147483647.

(** [amount = 1; while (format[amount] && format[amount] != '%') amount++;] *)
Fixpoint run_length (f : list Z) : outcome Z :=
  match f with
  | [] => Fault
  | c :: f => if decide (c <> 0 /\ c <> 37) then n ← run_length f; Done (n + 1) else Done 0
  end.

Definition printf_step (st : list Z * list arg * Z * list Z)
    : outcome ((list Z * list arg * Z * list Z) + (Z * list Z)) :=
  let '(format, args, written, out) := st in
  c ← deref format;
  if decide (c = 0) then Done (inr (written, out))
  else
    let maxrem := u64 (INT_MAX - written) in
    c1 ← (if decide (c <> 37) then Done 0 else deref (tail format));
    if decide (c <> 37 \/ c1 = 37) then
      let format := if decide (c = 37) then tail format else format in
      n ← run_length (tail format);
      let amount := n + 1 in
      if decide (maxrem < amount) then Done (inr (-1, out))
      else Done (inl (drop (Z.to_nat amount) format, args, s32 (written + amount),
                      out ++ take (Z.to_nat amount) format))
    else
      let begun := format in
      let format := tail format in
      if decide (c1 = 99) then
        '(ch, args) ← va_char args;
        if decide (maxrem = 0) then Done (inr (-1, out))
        else Done (inl (tail format, args, s32 (written + 1), out ++ [ch]))
      else if decide (c1 = 115) then
        '(s, args) ← va_str args;
        len ← str_len s;
        if decide (maxrem < len) then Done (inr (-1, out))
        else Done (inl (tail format, args, s32 (written + len), out ++ take (Z.to_nat len) s))
      else
        len ← str_len begun;
        if decide (maxrem < len) then Done (inr (-1, out))
        else Done (inl (drop (Z.to_nat len) begun, args, s32 (written + len), out ++ take (Z.to_nat len) begun)).

Definition printf (fuel : nat) (format : list Z) (args : list arg) : outcome (Z * list Z) :=
  loop fuel printf_step (format, args, 0, []).

Example printf_demo :
  printf 9 [104; 37; 99; 37; 37; 37; 115; 10; 0] [AChar 105; AStr [97; 98; 0]]
  = Done (6, [104; 105; 37; 97; 98; 10]).
Proof. reflexivity. Qed.
Example snprintf_demo :
  snprintf 9 (replicate 8 1) 8 [120; 61; 37; 100; 59; 37; 115; 0] [ALong 42; AStr [97; 98; 99; 100; 0]]
  = Done (7, [120; 61; 52; 50; 59; 97; 98; 0]).
Proof. reflexivity. Qed.
Example snprintf_negative :
  snprintf 9 (replicate 24 1) 24 [37; 100; 0] [ALong (-1)]
  = Done (20, [49; 56; 52; 52; 54; 55; 52; 52; 48; 55; 51; 55; 48; 57; 53; 53; 49; 54; 49; 53; 0; 1; 1; 1]).
Proof. reflexivity. Qed.

(** ** The number a digit string stands for *)

Fixpoint value_le (b : Z) (ds : list Z) : Z :=
  match ds with [] => 0 | d :: ds => d + b * value_le b ds end.

(** Most significant digit first, as it is printed. *)
Definition value (b : Z) (ds : list Z) : Z := foldl (fun v d => v * b + d) 0 ds.

Lemma value_rev b ds : value b (reverse ds) = value_le b ds.
Proof.
  unfold value. induction ds as [|d ds IH]; [done|].
  rewrite reverse_cons, foldl_app. simpl. rewrite IH. lia.
Qed.

(** Writing a cell splits the buffer around it. *)
Lemma aset_split {A} (l : list A) (k : nat) a : (k < length l)%nat ->
  aset l (Z.of_nat k) a = Done (take k l ++ a :: drop (S k) l).
Proof.
  intros Hk. rewrite aset_in_range by lia. rewrite Nat2Z.id. f_equal. by apply insert_take_drop.
Qed.

Lemma digits_loop_ok b : 2 <= b <= 16 -> forall k fuel buf p ud,
  0 <= ud < b ^ Z.of_nat (S k) -> (p + S k <= length buf)%nat -> (S k <= fuel)%nat ->
  exists ds, (1 <= length ds <= S k)%nat /\ Forall (fun d => 0 <= d < b) ds /\ value_le b ds = ud /\
    (ds = [0] \/ last ds <> Some 0) /\
    digits_loop fuel b buf (Z.of_nat p) ud
      = Done (take p buf ++ (digit_char <$> ds) ++ drop (p + length ds) buf, Z.of_nat (p + length ds)).
Proof.
  intros Hb. induction k as [|k IH]; intros fuel buf p ud Hud Hbuf Hf; destruct fuel as [|fuel]; try lia;
    unfold digits_loop; cbn [loop]; rewrite aset_split by lia; cbn [mbind outcome_bind];
    pose proof (Z.mod_pos_bound ud b ltac:(lia)); pose proof (Z.div_mod ud b ltac:(lia)).
  - assert (ud / b = 0) as -> by (apply Z.div_small; simpl in Hud; lia). rewrite decide_True by done.
    cbn [mbind outcome_bind]. assert (ud mod b = ud) as Em by (apply Z.mod_small; simpl in Hud; lia).
    exists [ud]. rewrite Em. split_and!; simpl; try lia.
    + repeat constructor; lia.
    + destruct (decide (ud = 0)) as [->|]; [by left|right; congruence].
    + f_equal. f_equal; [|lia]. by rewrite Nat.add_1_r.
  - case_decide as E; cbn [mbind outcome_bind].
    + assert (ud mod b = ud) as Em by lia. exists [ud]. rewrite Em. split_and!; simpl; try lia.
      * repeat constructor; lia.
      * destruct (decide (ud = 0)) as [->|]; [by left|right; congruence].
      * f_equal. f_equal; [|lia]. by rewrite Nat.add_1_r.
    + assert (0 <= ud / b < b ^ Z.of_nat (S k)).
      { split; [apply Z.div_pos; lia|]. apply Z.div_lt_upper_bound; [lia|].
        rewrite <-Z.pow_succ_r by lia. rewrite <-Nat2Z.inj_succ. lia. }
      set (buf1 := take p buf ++ digit_char (ud mod b) :: drop (S p) buf).
      assert (Hl1 : length buf1 = length buf).
      { unfold buf1. rewrite length_app, length_take. simpl. rewrite length_drop. lia. }
      destruct (IH fuel buf1 (S p) (ud / b)) as (ds & Hlen & Hds & Hval & Hlast & Hrun); [done|lia|lia|].
      unfold digits_loop in Hrun. replace (Z.of_nat (S p)) with (Z.of_nat p + 1) in Hrun by lia.
      exists (ud mod b :: ds). split_and!; simpl; try lia.
      * by constructor.
      * right. destruct ds as [|d ds]; [simpl in Hlen; lia|]. destruct Hlast as [Hlast|Hlast]; [|done].
        rewrite Hlast in Hval. simpl in Hval. lia.
      * rewrite Hrun. f_equal. f_equal; [|lia].
        unfold buf1. rewrite take_app, length_take. replace (S p - min p (length buf))%nat with 1%nat by lia.
        simpl. rewrite take_take. replace (min (S p) p) with p by lia.
        rewrite take_0, <-app_assoc. cbn [app]. do 3 f_equal.
        rewrite drop_app_ge by (rewrite length_take; lia). rewrite length_take.
        replace (S (p + length ds) - min p (length buf))%nat with (S (length ds)) by lia. simpl.
        rewrite drop_drop. f_equal. lia.
Qed.

Lemma reverse_loop_ok n : forall fuel a l c, (length l <= n)%nat -> (n < fuel)%nat ->
  reverse_loop fuel (a ++ l ++ c) (Z.of_nat (length a)) (Z.of_nat (length a + length l) - 1)
  = Done (a ++ reverse l ++ c).
Proof.
  induction n as [n IH] using lt_wf_ind. intros fuel a l c Hl Hf.
  destruct fuel as [|fuel]; [lia|]. unfold reverse_loop. cbn [loop].
  destruct l as [|x l]; [simpl; rewrite decide_False by lia; done|].
  destruct l as [|y l _] using rev_ind.
  { simpl. rewrite decide_False by lia. done. }
  rewrite decide_True by (simpl; rewrite length_app; simpl; lia).
  assert (aget (a ++ (x :: l ++ [y]) ++ c) (Z.of_nat (length a)) = Done x) as ->.
  { apply aget_done. split; [lia|]. rewrite Nat2Z.id. by apply list_lookup_middle. }
  cbn [mbind outcome_bind].
  assert (Ey : Z.of_nat (length a + length (x :: l ++ [y])) - 1 = Z.of_nat (length (a ++ x :: l))).
  { rewrite !length_app. simpl. rewrite length_app. simpl. lia. }
  assert (aget (a ++ (x :: l ++ [y]) ++ c) (Z.of_nat (length a + length (x :: l ++ [y])) - 1) = Done y) as ->.
  { rewrite Ey. apply aget_done. split; [lia|]. rewrite Nat2Z.id.
    replace (a ++ (x :: l ++ [y]) ++ c) with ((a ++ x :: l) ++ y :: c) by (by rewrite <-!app_assoc; simpl; rewrite <-app_assoc).
    by apply list_lookup_middle. }
  cbn [mbind outcome_bind].
  rewrite aset_split by (rewrite !length_app; simpl; lia). cbn [mbind outcome_bind].
  replace (take (length a) (a ++ (x :: l ++ [y]) ++ c) ++ y :: drop (S (length a)) (a ++ (x :: l ++ [y]) ++ c))
    with ((a ++ y :: l) ++ y :: c).
  2:{ rewrite take_app_length. rewrite drop_app_ge by lia. replace (S (length a) - length a)%nat with 1%nat by lia.
      simpl. rewrite drop_0. by rewrite <-!app_assoc. }
  rewrite Ey. replace (length (a ++ x :: l)) with (length (a ++ y :: l)) by (rewrite !length_app; done).
  rewrite aset_split by (rewrite !length_app; simpl; lia). cbn [mbind outcome_bind].
  rewrite take_app_length. rewrite drop_app_ge by lia.
  replace (S (length (a ++ y :: l)) - length (a ++ y :: l))%nat with 1%nat by lia. simpl. rewrite drop_0.
  specialize (IH (length l) ltac:(simpl in Hl; rewrite length_app in Hl; simpl in Hl; lia) fuel (a ++ [y]) l (x :: c)).
  unfold reverse_loop in IH. rewrite length_app in IH. simpl in IH.
  replace (Z.of_nat (length a) + 1) with (Z.of_nat (length a + 1)) by lia.
  replace (Z.of_nat (length (a ++ y :: l)) - 1) with (Z.of_nat (length a + 1 + length l) - 1)
    by (rewrite length_app; simpl; lia).
  replace ((a ++ y :: l) ++ x :: c) with ((a ++ [y]) ++ l ++ x :: c) by (by rewrite <-!app_assoc).
  rewrite IH; [|lia|simpl in Hl; rewrite length_app in Hl; simpl in Hl; lia].
  f_equal. rewrite reverse_cons, reverse_app. simpl. rewrite <-!app_assoc. done.
Qed.

Lemma number_to_str_ok k fuel (neg : bool) ud base buf :
  let b := if negb neg && (base =? 120) then 16 else 10 in
  0 <= ud < b ^ Z.of_nat (S k) -> ((if neg then 1 else 0) + S (S k) <= length buf)%nat -> (S k < fuel)%nat ->
  exists ds, (1 <= length ds <= S k)%nat /\ Forall (fun d => 0 <= d < b) ds /\ value b ds = ud /\
    (ds = [0] \/ head ds <> Some 0) /\
    number_to_str fuel neg ud base buf
      = Done ((if neg then [45] else []) ++ (digit_char <$> ds) ++ 0 ::
              drop ((if neg then 1 else 0) + S (length ds)) buf).
Proof.
  intros b Hud Hbuf Hf. unfold number_to_str. fold b.
  assert (Hb : 2 <= b <= 16) by (unfold b; destruct (negb neg && (base =? 120)); lia).
  set (s := if neg then 1%nat else 0%nat) in *.
  assert (Hstart : (if neg then aset buf 0 45 else Done buf)
    = Done ((if neg then [45] else []) ++ drop s buf)).
  { unfold s. destruct neg; [|by rewrite drop_0]. destruct buf as [|x buf]; [simpl in Hbuf; lia|].
    change 0 with (Z.of_nat 0). by rewrite aset_split by (simpl; lia). }
  rewrite Hstart. cbn [mbind outcome_bind]. set (pre := if neg then [45] else [] : list Z).
  assert (Hpre : length pre = s) by (unfold pre, s; by destruct neg).
  set (buf1 := pre ++ drop s buf).
  assert (Hl1 : length buf1 = length buf) by (unfold buf1; rewrite length_app, length_drop, Hpre; lia).
  replace (if neg then 1 else 0) with (Z.of_nat s) by (unfold s; by destruct neg).
  destruct (digits_loop_ok b Hb k fuel buf1 s ud Hud) as (ds & Hlen & Hds & Hval & Hlast & ->); [lia|lia|].
  cbn [mbind outcome_bind]. assert (Et : take s buf1 = pre) by (unfold buf1; by rewrite <-Hpre, take_app_length).
  rewrite Et. assert (Ed : drop (s + length ds) buf1 = drop (s + length ds) buf).
  { unfold buf1. rewrite drop_app_ge by lia. rewrite Hpre, drop_drop. f_equal. lia. }
  rewrite Ed. rewrite aset_split by (rewrite !length_app, length_fmap, length_drop, Hpre; lia).
  cbn [mbind outcome_bind]. exists (reverse ds). rewrite length_reverse. split_and!; try lia.
  - by apply Forall_reverse.
  - by rewrite value_rev.
  - destruct Hlast as [->|Hlast]; [by left|right]. by rewrite head_reverse.
  - assert (E1 : take (s + length ds) (pre ++ (digit_char <$> ds) ++ drop (s + length ds) buf)
      = pre ++ (digit_char <$> ds)).
    { rewrite app_assoc, take_app_le by (rewrite length_app, length_fmap, Hpre; lia).
      apply take_ge. rewrite length_app, length_fmap, Hpre. lia. }
    assert (E2 : drop (S (s + length ds)) (pre ++ (digit_char <$> ds) ++ drop (s + length ds) buf)
      = drop (s + S (length ds)) buf).
    { rewrite app_assoc, drop_app_ge by (rewrite length_app, length_fmap, Hpre; lia).
      rewrite length_app, length_fmap, Hpre, drop_drop. f_equal. lia. }
    rewrite E1, E2, <-app_assoc.
    pose proof (reverse_loop_ok (length ds) fuel pre (digit_char <$> ds) (0 :: drop (s + S (length ds)) buf)) as Hrev.
    rewrite length_fmap, Hpre in Hrev.
    replace (Z.of_nat (s + length ds) - 1) with (Z.of_nat (s + length ds) - 1) by lia.
    rewrite Hrev by lia. by rewrite fmap_reverse.
Qed.

(** ** Properties of the numbers *)

(** What a call prints: the sign and the magnitude. *)
Definition printed (base d : Z) (narrow : bool) : bool * Z :=
  if decide (base = 100 /\ d < 0) then (true, u64 (if narrow then s32 (- d) else - d)) else (false, u64 d).

(** Itoa and long_to_str print a number back exactly.  For every int or
    long the buffer holds the minus sign when base is 'd' and the number is
    negative, then the digits of the magnitude without leading zeros, most
    significant first, in base 16 for 'x' and 10 otherwise, then the
    terminator; the rest of the buffer is untouched and 22 bytes always
    suffice.  The magnitude of a negative number in another base is its
    unsigned 64-bit value. *)
Theorem number_formatting d base buf fuel (narrow : bool) :
  (if narrow then - 2 ^ 31 <= d < 2 ^ 31 else - 2 ^ 63 <= d < 2 ^ 63) -> (22 <= length buf)%nat -> (21 < fuel)%nat ->
  let '(neg, n) := printed base d narrow in
  let b := if negb neg && (base =? 120) then 16 else 10 in
  exists ds, (1 <= length ds <= 20)%nat /\ Forall (fun d => 0 <= d < b) ds /\ value b ds = n /\
    (ds = [0] \/ head ds <> Some 0) /\
    (if narrow then itoa else long_to_str) fuel d buf base
      = Done ((if neg then [45] else []) ++ (digit_char <$> ds) ++ 0 ::
              drop ((if neg then 1 else 0) + S (length ds)) buf).
Proof.
  intros Hd Hbuf Hf.
  assert (Hp : (if narrow then itoa else long_to_str) fuel d buf base
    = number_to_str fuel (printed base d narrow).1 (printed base d narrow).2 base buf).
  { unfold printed. destruct narrow; unfold itoa, long_to_str; by case_decide. }
  rewrite Hp. destruct (printed base d narrow) as [neg n] eqn:En. simpl.
  assert (Hn : 0 <= n < 2 ^ 64).
  { unfold printed in En. case_decide; injection En as <- <-; apply u64_range. }
  set (b := if negb neg && (base =? 120) then 16 else 10).
  assert (Hpow : 2 ^ 64 < b ^ Z.of_nat 20) by (unfold b; destruct (negb neg && _); reflexivity).
  apply (number_to_str_ok 19 fuel neg n base buf); [fold b; lia|destruct neg; lia|lia].
Qed.

Example number_formatting_witness :
  exists ds, (1 <= length ds <= 20)%nat /\ Forall (fun d => 0 <= d < 10) ds /\ value 10 ds = 37 /\
    (ds = [0] \/ head ds <> Some 0) /\
    itoa 22 (-37) (replicate 22 9) 100
      = Done ([45] ++ (digit_char <$> ds) ++ 0 :: drop (1 + S (length ds)) (replicate 22 9)).
Proof.
  exact (number_formatting (-37) 100 (replicate 22 9) 22 true ltac:(simpl; lia) ltac:(simpl; lia) ltac:(lia)).
Defined.

(** ** snprintf stays inside its buffer *)

(** Formats whose conversions have their arguments, from [ptr] on. *)
Inductive fmt_ok : list Z -> list arg -> Prop :=
| fmt_end rest args : fmt_ok (0 :: rest) args
| fmt_char c f args : c <> 0 -> c <> 37 -> fmt_ok f args -> fmt_ok (c :: f) args
| fmt_d f z args : fmt_ok f args -> fmt_ok (37 :: 100 :: f) (ALong z :: args)
| fmt_l x f z args : fmt_ok f args -> fmt_ok (37 :: 108 :: x :: f) (ALong z :: args)
| fmt_s f s args : (0 : Z) ∈ s -> fmt_ok f args -> fmt_ok (37 :: 115 :: f) (AStr s :: args)
| fmt_other c f args : c <> 0 -> c <> 100 -> c <> 108 -> c <> 115 -> fmt_ok f args ->
    fmt_ok (37 :: c :: f) args.

Record sink_ok (size : Z) (str0 : list Z) (k : sink) : Prop := {
  so_len : length (k_str k) = length str0;
  so_size : 0 <= size <= Z.of_nat (length str0) /\ size < 2 ^ 64;
  so_out : 0 <= k_out k /\ k_out k + k_rem k = size;
  so_rest : drop (Z.to_nat size) (k_str k) = drop (Z.to_nat size) str0
}.

Lemma store_ok size (str0 s : list Z) i c : 0 <= i < size -> size <= Z.of_nat (length str0) ->
  length s = length str0 -> drop (Z.to_nat size) s = drop (Z.to_nat size) str0 ->
  exists s', aset s i c = Done s' /\ length s' = length str0 /\
    drop (Z.to_nat size) s' = drop (Z.to_nat size) str0 /\ s' !! Z.to_nat i = Some c.
Proof.
  intros Hi Hsz Hl Hd. rewrite aset_in_range by lia. eexists. split; [done|].
  rewrite length_insert. split; [done|]. split; [rewrite drop_insert_lt by lia; done|].
  apply list_lookup_insert_eq. lia.
Qed.

Lemma put_ok size str0 k c : sink_ok size str0 k -> 1 < k_rem k ->
  exists k', put c k = Done k' /\ sink_ok size str0 k' /\ 1 <= k_rem k'.
Proof.
  intros [Hl Hsz Ho Hd] Hr. unfold put.
  destruct (store_ok size str0 (k_str k) (k_out k) c) as (s & -> & Hl' & Hd' & _); try done; try lia.
  cbn [mbind outcome_bind]. eexists. split; [done|]. rewrite u64_small by lia.
  split; [constructor; simpl; (done || lia)|simpl; lia].
Qed.

Lemma put_string_ok size str0 s : forall k, sink_ok size str0 k -> 1 <= k_rem k -> (0 : Z) ∈ s ->
  exists k', put_string s k = Done k' /\ sink_ok size str0 k' /\ 1 <= k_rem k'.
Proof.
  induction s as [|c s IH]; intros k Hk Hr Hin; [inversion Hin|]. simpl. case_decide as E; [|by exists k].
  destruct (put_ok size str0 k c Hk) as (k1 & -> & Hk1 & Hr1); [lia|]. cbn [mbind outcome_bind].
  apply IH; try done. apply elem_of_cons in Hin as [<-|Hin]; [lia|done].
Qed.

Lemma put_number_ok size str0 len buf k : sink_ok size str0 k -> 0 <= len < k_rem k ->
  len <= Z.of_nat (length buf) ->
  exists k', put_number len buf k = Done k' /\ sink_ok size str0 k' /\ 1 <= k_rem k'.
Proof.
  intros [Hl Hsz Ho Hd] Hlen Hbuf. unfold put_number.
  edestruct (for_total (A := unit) (fun i (st : list Z * Z) => st.2 = k_out k + i /\ length st.1 = length str0 /\
    drop (Z.to_nat size) st.1 = drop (Z.to_nat size) str0) (Z.to_nat len) 0)
    as ([s out] & -> & Hout & Hl' & Hd').
  - intros i [s out] Hi (Hout & Hl' & Hd'). simpl in *.
    destruct (aget_in_range buf i) as (c & -> & _); [lia|]. cbn [mbind outcome_bind].
    destruct (store_ok size str0 s out c) as (s' & -> & Hl2 & Hd2 & _); try done; try lia.
    cbn [mbind outcome_bind]. eexists. split; [done|]. simpl. split_and!; (done || lia).
  - simpl. split_and!; (done || lia).
  - cbn [mbind outcome_bind]. eexists. split; [done|]. simpl in *. rewrite u64_small by lia.
    split; [constructor; simpl; (done || lia)|simpl; lia].
Qed.

Lemma str_len_ok s : (0 : Z) ∈ s -> exists n, str_len s = Done n /\ 0 <= n < Z.of_nat (length s).
Proof.
  induction s as [|c s IH]; intros Hin; [inversion Hin|]. simpl. case_decide as E.
  - exists 0. split; [done|lia].
  - apply elem_of_cons in Hin as [<-|Hin]; [done|]. destruct (IH Hin) as (n & -> & Hn).
    cbn [mbind outcome_bind]. exists (n + 1). split; [done|lia].
Qed.

(** The number conversion fits the 21 bytes of [buf]. *)
Lemma long_buf_ok z : exists buf len, long_to_str 65 z (replicate 21 0) 10 = Done buf /\
  str_len buf = Done len /\ 0 <= len <= Z.of_nat (length buf).
Proof.
  unfold long_to_str. rewrite decide_False by lia.
  destruct (number_to_str_ok 19 65 false (u64 z) 10 (replicate 21 0)) as (ds & Hlen & Hds & _ & _ & ->);
    [pose proof (u64_range z); simpl; lia|simpl; lia|lia|].
  cbn [app]. set (buf := _ ++ _). destruct (str_len_ok buf) as (n & Hn & Hr).
  - unfold buf. apply elem_of_app. right. by left.
  - exists buf, n. split_and!; (done || lia).
Qed.

Lemma write_pass_ok size str0 : forall fuel ptr args k,
  fmt_ok ptr args -> sink_ok size str0 k -> 1 <= k_rem k -> (length ptr <= fuel)%nat ->
  exists ptr' args' k', write_pass fuel ptr args k = Done (ptr', args', k') /\
    fmt_ok ptr' args' /\ sink_ok size str0 k' /\ 1 <= k_rem k' /\ (length ptr' <= length ptr)%nat.
Proof.
  intros fuel. induction fuel as [|fuel IH]; intros ptr args k Hf Hk Hr Hfuel.
  { destruct Hf; simpl in Hfuel; lia. }
  assert (Hnext : forall ptr2 args2 k2, fmt_ok ptr2 args2 -> sink_ok size str0 k2 -> 1 <= k_rem k2 ->
    (length ptr2 < length ptr)%nat -> exists ptr' args' k', write_pass fuel ptr2 args2 k2 = Done (ptr', args', k') /\
    fmt_ok ptr' args' /\ sink_ok size str0 k' /\ 1 <= k_rem k' /\ (length ptr' <= length ptr)%nat).
  { intros ptr2 args2 k2 H1 H2 H3 H4. destruct (IH ptr2 args2 k2 H1 H2 H3) as (p & a & k' & ? & ? & ? & ? & ?);
      [lia|]. exists p, a, k'. split_and!; (done || lia). }
  unfold write_pass. cbn [loop]. fold (write_pass fuel) in *.
  destruct (decide (1 < k_rem k)) as [Hrem|Hrem].
  2:{ exists ptr, args, k. destruct Hf; cbn [deref head of_option mbind option_ret outcome_bind];
      rewrite decide_False by lia; cbn [mbind outcome_bind]; split_and!; try done; by constructor. }
  destruct Hf as [rest args|c f args Hc0 Hc37 Hf|f z args Hf|x f z args Hf|f s args Hs Hf|c f args H0 Hd Hl Hs Hf];
    cbn [deref head of_option mbind outcome_bind].
  - rewrite decide_False by lia. cbn [mbind outcome_bind]. eexists _, _, k. split; [done|].
    split_and!; try done. constructor.
  - rewrite decide_True, decide_True by done. destruct (put_ok size str0 k c Hk Hrem) as (k1 & -> & Hk1 & Hr1).
    cbn [mbind outcome_bind]. apply Hnext; (done || simpl; lia).
  - rewrite decide_True, decide_False by lia. unfold conversion. cbn [deref head tail of_option mbind outcome_bind].
    rewrite decide_True by lia. cbn [va_long mbind outcome_bind].
    destruct (long_buf_ok z) as (buf & len & -> & Hl & Hlen). cbn [mbind outcome_bind]. rewrite Hl.
    cbn [mbind outcome_bind]. rewrite (decide_False (P := 100 = 108)) by lia. case_decide.
    + destruct (put_number_ok size str0 len buf k Hk) as (k1 & -> & Hk1 & Hr1); [lia|lia|].
      cbn [mbind outcome_bind]. apply Hnext; (done || simpl; lia).
    + cbn [mbind outcome_bind]. apply Hnext; try done; [by destruct Hk; constructor|simpl; lia].
  - rewrite decide_True, decide_False by lia. unfold conversion. cbn [deref head tail of_option mbind outcome_bind].
    rewrite decide_True by lia. cbn [va_long mbind outcome_bind].
    destruct (long_buf_ok z) as (buf & len & -> & Hl & Hlen). cbn [mbind outcome_bind]. rewrite Hl.
    cbn [mbind outcome_bind]. rewrite (decide_True (P := 108 = 108)) by lia. case_decide.
    + destruct (put_number_ok size str0 len buf k Hk) as (k1 & -> & Hk1 & Hr1); [lia|lia|].
      cbn [mbind outcome_bind tail]. apply Hnext; (done || simpl; lia).
    + cbn [mbind outcome_bind tail]. apply Hnext; try done; [by destruct Hk; constructor|simpl; lia].
  - rewrite decide_True, decide_False by lia. unfold conversion. cbn [deref head tail of_option mbind outcome_bind].
    rewrite decide_False, decide_True by lia. cbn [va_str mbind outcome_bind].
    destruct (put_string_ok size str0 s k Hk Hr Hs) as (k1 & -> & Hk1 & Hr1).
    cbn [mbind outcome_bind]. apply Hnext; (done || simpl; lia).
  - rewrite decide_True, decide_False by lia. unfold conversion. cbn [deref head tail of_option mbind outcome_bind].
    rewrite decide_False, decide_False by lia. destruct (put_ok size str0 k c Hk Hrem) as (k1 & -> & Hk1 & Hr1).
    cbn [mbind outcome_bind]. apply Hnext; (done || simpl; lia).
Qed.

Lemma count_pass_ok : forall fuel ptr args count, fmt_ok ptr args -> (length ptr <= fuel)%nat ->
  exists n, count_pass fuel ptr args count = Done n.
Proof.
  induction fuel as [|fuel IH]; intros ptr args count Hf Hfuel; [destruct Hf; simpl in Hfuel; lia|].
  unfold count_pass. cbn [loop]. fold (count_pass fuel).
  destruct Hf as [rest args|c f args Hc0 Hc37 Hf|f z args Hf|x f z args Hf|f s args Hs Hf|c f args H0 Hd Hl Hs Hf];
    cbn [deref head tail of_option mbind outcome_bind].
  - rewrite decide_False by lia. by eexists.
  - rewrite !decide_True by done. apply IH; [done|simpl in Hfuel; lia].
  - rewrite decide_True, decide_False by lia. cbn [mbind outcome_bind]. rewrite decide_True by lia.
    cbn [va_long mbind outcome_bind]. rewrite decide_False by lia. cbn [tail].
    apply IH; [done|simpl in Hfuel; lia].
  - rewrite decide_True, decide_False by lia. cbn [mbind outcome_bind]. rewrite decide_True by lia.
    cbn [va_long mbind outcome_bind]. rewrite decide_True by lia. cbn [tail].
    apply IH; [done|simpl in *; lia].
  - rewrite decide_True, decide_False by lia. cbn [mbind outcome_bind].
    rewrite decide_False, decide_True by lia. cbn [va_str mbind outcome_bind].
    destruct (str_len_ok s Hs) as (n & -> & _). cbn [mbind outcome_bind].
    apply IH; [done|simpl in Hfuel; lia].
  - rewrite decide_True, decide_False by lia. cbn [mbind outcome_bind].
    rewrite decide_False, decide_False by lia. apply IH; [done|simpl in Hfuel; lia].
Qed.

(** C40: snprintf never writes outside its buffer and always terminates it.
    For every format whose conversions have their arguments, every length of
    argument and every size, the call returns; with a positive size a
    terminator is stored below [size], bytes from [size] on are untouched, and
    with size 0 nothing is written. *)
Theorem snprintf_bounded fuel str size format args :
  fmt_ok format args -> 0 <= size <= Z.of_nat (length str) -> size < 2 ^ 64 ->
  (length format <= fuel)%nat ->
  exists count str', snprintf fuel str size format args = Done (count, str') /\
    length str' = length str /\ drop (Z.to_nat size) str' = drop (Z.to_nat size) str /\
    (0 < size -> exists n, 0 <= n < size /\ str' !! Z.to_nat n = Some 0) /\
    (size = 0 -> str' = str).
Proof.
  intros Hf Hsz H64 Hfuel. unfold snprintf. destruct (decide (size = 0)) as [->|Hne].
  - assert (Hw : write_pass fuel format args (mk_sink str 0 0 0) = Done (format, args, mk_sink str 0 0 0)).
    { destruct fuel as [|fuel]; [destruct Hf; simpl in Hfuel; lia|]. unfold write_pass. cbn [loop].
      assert (exists c, deref format = Done c) as (c & ->) by (destruct Hf; by eexists).
      cbn [mbind outcome_bind k_rem]. by rewrite decide_False by lia. }
    rewrite Hw. cbn [mbind outcome_bind k_str k_out k_count].
    destruct (count_pass_ok fuel format args 0 Hf Hfuel) as (n & Hn).
    rewrite decide_False by lia. cbn [mbind outcome_bind]. rewrite Hn. cbn [mbind outcome_bind].
    eexists _, _. split; [done|]. split_and!; (done || lia).
  - destruct (write_pass_ok size str fuel format args (mk_sink str 0 0 size) Hf)
      as (ptr & args' & k & -> & Hf' & Hk & Hr & Hlen); [constructor; simpl; (done || lia)|simpl; lia|done|].
    cbn [mbind outcome_bind]. rewrite decide_True by lia. destruct Hk as [Hl Hs Ho Hd].
    destruct (store_ok size str (k_str k) (k_out k) 0) as (s & -> & Hl' & Hd' & Hz); try done; try lia.
    cbn [mbind outcome_bind]. destruct (count_pass_ok fuel ptr args' (k_count k) Hf') as (n & ->); [lia|].
    cbn [mbind outcome_bind]. eexists _, _. split; [done|]. split_and!; try done.
    intros _. exists (k_out k). split; [lia|done].
Qed.

Example snprintf_bounded_witness :
  exists count str', snprintf 9 (replicate 6 1) 4 [120; 37; 100; 37; 115; 0] [ALong (-3); AStr [97; 98; 99; 100; 0]]
      = Done (count, str') /\
    length str' = 6%nat /\ drop 4 str' = drop 4 (replicate 6 1) /\
    (0 < 4 -> exists n, 0 <= n < 4 /\ str' !! Z.to_nat n = Some 0) /\
    (4 = 0 -> str' = replicate 6 1).
Proof.
  apply (snprintf_bounded 9 (replicate 6 1) 4 [120; 37; 100; 37; 115; 0] [ALong (-3); AStr [97; 98; 99; 100; 0]]).
  - apply fmt_char; [lia|lia|]. apply fmt_d. apply fmt_s; [|constructor].
    repeat (first [left | right]).
  - simpl. lia.
  - lia.
  - simpl. lia.
Defined.

(** ** printf prints what its format says *)

(** [renders format args out]: the bytes [out] a format stands for. *)
Inductive renders : list Z -> list arg -> list Z -> Prop :=
| r_end rest args : renders (0 :: rest) args []
| r_text c f args o : c <> 0 -> c <> 37 -> renders f args o -> renders (c :: f) args (c :: o)
| r_percent f args o : renders f args o -> renders (37 :: 37 :: f) args (37 :: o)
| r_char f ch args o : renders f args o -> renders (37 :: 99 :: f) (AChar ch :: args) (ch :: o)
| r_str f s args n o : str_len s = Done n -> renders f args o ->
    renders (37 :: 115 :: f) (AStr s :: args) (take (Z.to_nat n) s ++ o)
| r_other c f args n : c <> 37 -> c <> 99 -> c <> 115 -> str_len (37 :: c :: f) = Done n ->
    renders (37 :: c :: f) args (take (Z.to_nat n) (37 :: c :: f)).

Lemma run_length_renders f args o : renders f args o ->
  exists n o', run_length f = Done (Z.of_nat n) /\ (n <= length f)%nat /\ o = take n f ++ o' /\
    renders (drop n f) args o'.
Proof.
  induction 1 as [rest args|c f args o H0 H37 Hr IH|f args o Hr IH|f ch args o Hr IH|f s args n o Hs Hr IH|c f args n];
    try (eexists 0%nat, _; cbn [run_length]; rewrite decide_False by lia; split; [done|]; split; [lia|];
         split; [reflexivity|]; rewrite drop_0; eauto using renders; done).
  destruct IH as (n & o' & Hn & Hpos & -> & Hr'). exists (S n), o'. cbn [run_length].
  rewrite decide_True, Hn by done. cbn [mbind outcome_bind]. simpl. split_and!; try done; [|lia].
  f_equal. lia.
Qed.

Lemma str_len_drop s n : str_len s = Done n -> head (drop (Z.to_nat n) s) = Some 0 /\ 0 <= n /\
  n = Z.of_nat (length (take (Z.to_nat n) s)).
Proof.
  revert n. induction s as [|c s IH]; intros n; simpl; [done|]. case_decide as E.
  - intros [= <-]. subst. done.
  - destruct (str_len s) as [m| | |]; simpl; try done. intros [= <-].
    destruct (IH m eq_refl) as (Hh & Hp & Hl). replace (Z.to_nat (m + 1)) with (S (Z.to_nat m)) by lia.
    simpl. split_and!; (done || lia).
Qed.

Lemma printf_run : forall fuel f args o w out, renders f args o -> (length f < fuel)%nat ->
  0 <= w -> w + Z.of_nat (length o) <= INT_MAX ->
  loop fuel printf_step (f, args, w, out) = Done (w + Z.of_nat (length o), out ++ o).
Proof.
  unfold INT_MAX. induction fuel as [|fuel IH]; intros f args o w out Hr Hf Hw Hmax; [lia|].
  assert (Hend : forall g args w out, head g = Some 0 -> (0 < fuel)%nat ->
    loop fuel printf_step (g, args, w, out) = Done (w, out)).
  { intros g ? ? ? Hg Hpos. destruct g as [|z g]; [done|]. injection Hg as ->. destruct fuel; [lia|]. done. }
  cbn [loop]. set (L := loop fuel printf_step) in *. unfold printf_step.
  destruct Hr as [rest args|c f args o H0 H37 Hr|f args o Hr|f ch args o Hr|f s args n o Hs Hr|c f args n H37 H99 H115 Hs];
    cbn [deref head tail of_option mbind outcome_bind].
  - cbn [decide]. simpl. by rewrite Z.add_0_r, app_nil_r.
  - rewrite (decide_False (P := c = 0)), (decide_True (P := c <> 37)) by done. cbn [mbind outcome_bind].
    rewrite (decide_True (P := c <> 37 \/ 0 = 37)), (decide_False (P := c = 37)) by lia.
    destruct (run_length_renders f args o Hr) as (n & o' & Hn & Hpos & -> & Hr').
    cbn [tail]. rewrite Hn. cbn [mbind outcome_bind]. cbn [length] in Hmax, Hf.
    rewrite length_app, length_take, Nat.min_l in Hmax by done.
    unfold INT_MAX. rewrite u64_small by lia. rewrite decide_False by lia. cbn [mbind outcome_bind].
    rewrite s32_small by lia. replace (Z.to_nat (Z.of_nat n + 1)) with (S n) by lia. cbn [drop take].
    rewrite (IH _ _ o'); try done; rewrite ?length_drop; try lia.
    f_equal. cbn [length]. rewrite length_app, length_take, Nat.min_l, <-app_assoc by done. f_equal. lia.
  - rewrite (decide_False (P := 37 = 0)), (decide_False (P := 37 <> 37)) by lia. cbn [mbind outcome_bind].
    rewrite (decide_True (P := 37 <> 37 \/ 37 = 37)), (decide_True (P := 37 = 37)) by lia.
    destruct (run_length_renders f args o Hr) as (n & o' & Hn & Hpos & -> & Hr').
    cbn [tail]. rewrite Hn. cbn [mbind outcome_bind]. cbn [length] in Hmax, Hf.
    rewrite length_app, length_take, Nat.min_l in Hmax by done.
    unfold INT_MAX. rewrite u64_small by lia. rewrite decide_False by lia. cbn [mbind outcome_bind].
    rewrite s32_small by lia. replace (Z.to_nat (Z.of_nat n + 1)) with (S n) by lia. cbn [drop take].
    rewrite (IH _ _ o'); try done; rewrite ?length_drop; try lia.
    f_equal. cbn [length]. rewrite length_app, length_take, Nat.min_l, <-app_assoc by done. f_equal. lia.
  - rewrite (decide_False (P := 37 = 0)), (decide_False (P := 37 <> 37)) by lia. cbn [mbind outcome_bind].
    rewrite (decide_False (P := 37 <> 37 \/ 99 = 37)), (decide_True (P := 99 = 99)) by lia.
    cbn [va_char mbind outcome_bind tail length] in *.
    unfold INT_MAX. rewrite u64_small by lia. rewrite decide_False by lia. cbn [mbind outcome_bind].
    rewrite s32_small by lia. rewrite (IH _ _ o); try done; try lia. f_equal. rewrite <-app_assoc. f_equal. lia.
  - rewrite (decide_False (P := 37 = 0)), (decide_False (P := 37 <> 37)) by lia. cbn [mbind outcome_bind].
    rewrite (decide_False (P := 37 <> 37 \/ 115 = 37)), (decide_False (P := 115 = 99)),
      (decide_True (P := 115 = 115)) by lia.
    cbn [va_str mbind outcome_bind tail length] in *. rewrite Hs. cbn [mbind outcome_bind].
    destruct (str_len_drop s n Hs) as (_ & Hn0 & Hnl). rewrite length_app in Hmax.
    unfold INT_MAX. rewrite u64_small by lia. rewrite decide_False by lia. cbn [mbind outcome_bind].
    rewrite s32_small by lia. rewrite (IH _ _ o); try done; try lia.
    f_equal. rewrite <-app_assoc, length_app. f_equal. lia.
  - rewrite (decide_False (P := 37 = 0)), (decide_False (P := 37 <> 37)) by lia. cbn [mbind outcome_bind].
    rewrite (decide_False (P := 37 <> 37 \/ c = 37)), (decide_False (P := c = 99)),
      (decide_False (P := c = 115)) by lia. rewrite Hs. cbn [mbind outcome_bind].
    destruct (str_len_drop _ n Hs) as (Hh & Hn0 & Hnl).
    unfold INT_MAX. rewrite u64_small by lia. rewrite decide_False by lia. cbn [mbind outcome_bind].
    rewrite s32_small by lia. cbn [length] in Hf. rewrite Hend by (done || lia). by rewrite <-Hnl.
Qed.

(** Printf prints exactly the bytes its format stands for and returns
    their number: literal text, a percent for a double one, the %c and %s
    arguments in order, and, at the first conversion it does not know, the rest
    of the format as it is.  This holds for every format whose conversions have
    their arguments and whose output fits an int. *)
Theorem printf_renders fuel format args o :
  renders format args o -> (length format < fuel)%nat -> Z.of_nat (length o) <= INT_MAX ->
  printf fuel format args = Done (Z.of_nat (length o), o).
Proof. intros Hr Hf Hmax. unfold printf. by rewrite (printf_run fuel format args o). Qed.

Example printf_renders_witness :
  printf 11 [104; 37; 99; 37; 37; 37; 115; 37; 100; 0] [AChar 105; AStr [97; 98; 0]]
  = Done (7, [104; 105; 37; 97; 98; 37; 100]).
Proof.
  apply (printf_renders 11 [104; 37; 99; 37; 37; 37; 115; 37; 100; 0] [AChar 105; AStr [97; 98; 0]]
    [104; 105; 37; 97; 98; 37; 100]).
  - apply r_text; [lia|lia|]. apply r_char, r_percent. apply (r_str _ [97; 98; 0] [] 2 [37; 100]); [reflexivity|].
    apply (r_other 100 [0] [] 2); [lia|lia|lia|reflexivity].
  - simpl; lia.
  - unfold INT_MAX. simpl. lia.
Defined.
