(* ===== verification/Frames.v ===== *)
(** The physical frame allocator of kernel/arch/amd64/memmgr.c: the bitmap
    [memory_map], the search index [idx] and the lock.

    [memory_map] has BITMAP_SIZE words; a word not in the map of the model is 0,
    a free frame.  kalloc_frame reads memory_map[BITMAP_SIZE] before it tests
    the index: that read does not trap, so its value is the parameter [behind].
    A negative index is a fault.  The class [FrameAllocator] is what the page
    tables rely on, and the bitmap is an instance of it. *)
From stdpp Require Import base list gmap strings.
From Stdlib Require Import ZArith Lia.
From S2P Require Import Prelude.

#[local] Open Scope Z_scope.

Definition BITMAP_SIZE : Z := 524288.

Lemma bitmap_pos : 1 < BITMAP_SIZE.
Proof. reflexivity. Qed.

Record frames := mk_frames { memory_map : gmap Z Z; idx : Z; phys_lock : bool }.

Definition with_idx (i : Z) (f : frames) : frames := mk_frames (memory_map f) i (phys_lock f).
Definition with_plock (l : bool) (f : frames) : frames := mk_frames (memory_map f) (idx f) l.
Definition with_map (m : gmap Z Z) (f : frames) : frames := mk_frames m (idx f) (phys_lock f).

(** The shift is made in int. *)
Definition PAGE_TO_ADDRESS (page : Z) : Z := u64 (s32 (Z.shiftl page 12)).
Definition ADDRESS_TO_PAGE (addr : Z) : Z := Z.shiftr addr 12.

(** A frame number as the bitmap answers for it. *)
Definition frame_word (f : frames) (i : Z) : Z := default 0 (memory_map f !! i).

Definition memmgr_phys_mark_page (i : Z) (f : frames) : outcome frames :=
  if decide (BITMAP_SIZE <= i) then Done f
  else if decide (i < 0) then Fault
  else Done (with_map (<[i := 1]> (memory_map f)) f).

Definition memmgr_phys_free_page (i : Z) (f : frames) : outcome frames :=
  if decide (BITMAP_SIZE <= i) then Done f
  else if decide (i < 0) then Fault
  else Done (with_map (<[i := 0]> (memory_map f)) f).

Definition lock_frames (f : frames) : outcome frames :=
  if phys_lock f then Blocked else Done (with_plock true f).

Section Alloc.
Context (behind : Z).

(** memory_map[i]: one word behind the array can be read. *)
Definition read_map (f : frames) (i : Z) : outcome Z :=
  if decide (i < 0) then Fault
  else if decide (i < BITMAP_SIZE) then Done (frame_word f i)
  else if decide (i = BITMAP_SIZE) then Done behind
  else Fault.

Definition kalloc_step (st : bool * frames) : outcome (bool * frames + Z * frames) :=
  let '(restart, f) := st in
  w ← read_map f (idx f);
  if decide (w = 0) then
    f ← memmgr_phys_mark_page (idx f) f;
    Done (inr (PAGE_TO_ADDRESS (idx f), with_plock false f))
  else if decide (BITMAP_SIZE <= idx f) then
    if (restart : bool) then Done (inl (false, with_idx (0 + 1) f))
    else Done (inr (0, with_plock false f))
  else Done (inl (restart, with_idx (idx f + 1) f)).

Definition kalloc_frame (fuel : nat) (f : frames) : outcome (Z * frames) :=
  f ← lock_frames f;
  let restart := bool_decide (0 < idx f) in
  loop fuel kalloc_step (restart, f).

Definition kfree_frame (addr : Z) (f : frames) : outcome frames :=
  f ← lock_frames f;
  let frame_idx := s32 (ADDRESS_TO_PAGE (u64 addr)) in
  f ← memmgr_phys_free_page frame_idx f;
  let f := if decide (idx f = frame_idx) then with_idx (idx f - 1) f
           else if decide (frame_idx < idx f) then with_idx frame_idx f else f in
  Done (with_plock false f).

(** ** What the bitmap says *)

Definition in_use (f : frames) (i : Z) : Prop := frame_word f i <> 0.

Record frames_wf (f : frames) : Prop := {
  fw_idx : 0 <= idx f <= BITMAP_SIZE;
  fw_lock : phys_lock f = false
}.

Lemma mark_word i f f' j : memmgr_phys_mark_page i f = Done f' -> 0 <= i < BITMAP_SIZE ->
  frame_word f' j = if decide (j = i) then 1 else frame_word f j.
Proof.
  unfold memmgr_phys_mark_page. intros Hm Hi. rewrite !decide_False in Hm by lia. injection Hm as <-.
  unfold frame_word. simpl. case_decide; [subst; by rewrite lookup_insert_eq|by rewrite lookup_insert_ne].
Qed.

Lemma free_word i f f' j : memmgr_phys_free_page i f = Done f' -> 0 <= i < BITMAP_SIZE ->
  frame_word f' j = if decide (j = i) then 0 else frame_word f j.
Proof.
  unfold memmgr_phys_free_page. intros Hm Hi. rewrite !decide_False in Hm by lia. injection Hm as <-.
  unfold frame_word. simpl. case_decide; [subst; by rewrite lookup_insert_eq|by rewrite lookup_insert_ne].
Qed.

Lemma page_address i : 0 <= i < BITMAP_SIZE -> PAGE_TO_ADDRESS i = i * 4096.
Proof.
  unfold BITMAP_SIZE, PAGE_TO_ADDRESS. intros. rewrite Z.shiftl_mul_pow2 by lia. change (2 ^ 12) with 4096.
  rewrite s32_small by lia. by rewrite u64_small by lia.
Qed.

Lemma address_page i : 0 <= i < BITMAP_SIZE -> s32 (ADDRESS_TO_PAGE (u64 (i * 4096))) = i.
Proof.
  unfold BITMAP_SIZE, ADDRESS_TO_PAGE. intros. rewrite u64_small by lia.
  rewrite Z.shiftr_div_pow2 by lia. change (2 ^ 12) with 4096. rewrite Z.div_mul by lia. by rewrite s32_small by lia.
Qed.

(** Scanning over frames in use. *)
Lemma kalloc_scan n : forall fuel restart f, 0 <= idx f -> idx f + Z.of_nat n <= BITMAP_SIZE ->
  (forall i, idx f <= i < idx f + Z.of_nat n -> in_use f i) ->
  loop (n + fuel) kalloc_step (restart, f) = loop fuel kalloc_step (restart, with_idx (idx f + Z.of_nat n) f).
Proof.
  induction n as [|n IH]; intros fuel restart f H0 Hn Hu.
  - simpl. rewrite Z.add_0_r. by destruct f.
  - change (S n + fuel)%nat with (S (n + fuel)). cbn [loop]. set (L := loop (n + fuel) kalloc_step).
    unfold kalloc_step, read_map. rewrite !(decide_False (P := idx f < 0)), (decide_True (P := idx f < BITMAP_SIZE)) by lia.
    cbn [mbind outcome_bind]. rewrite (decide_False (P := frame_word f (idx f) = 0)) by (apply Hu; lia).
    rewrite (decide_False (P := BITMAP_SIZE <= idx f)) by lia. cbn [mbind outcome_bind]. unfold L.
    rewrite IH; simpl; [|lia|lia|].
    + unfold with_idx. simpl. by replace (idx f + 1 + Z.of_nat n) with (idx f + Z.of_nat (S n)) by lia.
    + intros i Hi. apply Hu. lia.
Qed.

(** The frame found at the index. *)
Lemma kalloc_found fuel restart f : 0 <= idx f < BITMAP_SIZE -> ~ in_use f (idx f) ->
  exists f', loop (S fuel) kalloc_step (restart, f) = Done (idx f * 4096, f') /\ phys_lock f' = false /\
    idx f' = idx f /\ (forall j, frame_word f' j = if decide (j = idx f) then 1 else frame_word f j).
Proof.
  intros Hi Hfree. cbn [loop]. set (L := loop fuel kalloc_step).
  unfold kalloc_step, read_map. rewrite !(decide_False (P := idx f < 0)), (decide_True (P := idx f < BITMAP_SIZE)) by lia.
  cbn [mbind outcome_bind]. unfold in_use in Hfree.
  rewrite (decide_True (P := frame_word f (idx f) = 0)) by (destruct (decide (frame_word f (idx f) = 0)); tauto).
  destruct (memmgr_phys_mark_page (idx f) f) as [f'| | |] eqn:Em;
    try (unfold memmgr_phys_mark_page in Em; rewrite !decide_False in Em by lia; done).
  cbn [mbind outcome_bind].
  assert (idx f' = idx f) as Ei.
  { unfold memmgr_phys_mark_page in Em. rewrite !decide_False in Em by lia. by injection Em as <-. }
  rewrite Ei, page_address by lia. eexists. split; [done|]. split; [done|]. split; [exact Ei|].
  intros j. apply (mark_word (idx f) f f' j Em Hi).
Qed.

(** The lowest free frame from [lo] on. *)
Definition least_free (f : frames) (lo k : Z) : Prop :=
  lo <= k < BITMAP_SIZE /\ ~ in_use f k /\ (forall i, lo <= i < k -> in_use f i).

(** What an allocation of frame [k] leaves. *)
Definition takes (f : frames) (k : Z) (f' : frames) : Prop :=
  phys_lock f' = false /\ idx f' = k /\
  (forall j, frame_word f' j = if decide (j = k) then 1 else frame_word f j).

Lemma kalloc_run_least fuel restart f k : 0 <= idx f -> least_free f (idx f) k ->
  (Z.to_nat BITMAP_SIZE < fuel)%nat ->
  exists f', loop fuel (kalloc_step) (restart, f) = Done (k * 4096, f') /\ takes f k f'.
Proof.
  intros H0 (Hk & Hfree & Hlow) Hf.
  replace fuel with (Z.to_nat (k - idx f) + S (fuel - Z.to_nat (k - idx f) - 1))%nat by (pose proof bitmap_pos; lia).
  rewrite kalloc_scan by (lia || (intros; apply Hlow; lia)).
  replace (idx f + Z.of_nat (Z.to_nat (k - idx f))) with k by lia.
  destruct (kalloc_found (fuel - Z.to_nat (k - idx f) - 1) restart (with_idx k f)) as (f' & Hrun & Hl & Hi & Hw);
    [simpl; lia|done|]. exists f'. done.
Qed.

(** Nothing free from the index on: the search ends at the size. *)
Lemma kalloc_run_end n restart f : 0 <= idx f <= BITMAP_SIZE ->
  (forall i, idx f <= i < BITMAP_SIZE -> in_use f i) -> behind <> 0 ->
  loop (Z.to_nat (BITMAP_SIZE - idx f) + S n) kalloc_step (restart, f)
  = if (restart : bool) then loop n kalloc_step (false, with_idx 1 f)
    else Done (0, with_plock false (with_idx BITMAP_SIZE f)).
Proof.
  intros Hi Hu Hb. rewrite kalloc_scan by (lia || (intros; apply Hu; lia)).
  replace (idx f + Z.of_nat (Z.to_nat (BITMAP_SIZE - idx f))) with BITMAP_SIZE by lia.
  cbn [loop]. set (L := loop n kalloc_step). unfold kalloc_step, read_map. cbn [idx with_idx].
  rewrite (decide_False (P := BITMAP_SIZE < 0)) by done. rewrite (decide_False (P := BITMAP_SIZE < BITMAP_SIZE)) by lia.
  rewrite (decide_True (P := BITMAP_SIZE = BITMAP_SIZE)) by done. cbn [mbind outcome_bind].
  rewrite (decide_False (P := behind = 0)) by done. rewrite (decide_True (P := BITMAP_SIZE <= BITMAP_SIZE)) by lia.
  by destruct restart.
Qed.

Lemma kalloc_frame_unfold fuel f : phys_lock f = false ->
  kalloc_frame fuel f = loop fuel kalloc_step (bool_decide (0 < idx f), with_plock true f).
Proof. intros Hl. unfold kalloc_frame, lock_frames. by rewrite Hl. Qed.

Lemma kalloc_frame_cases fuel f :
  frames_wf f -> behind <> 0 -> 2 * BITMAP_SIZE + 4 <= Z.of_nat fuel ->
  (forall k, least_free f (idx f) k ->
     exists f', kalloc_frame fuel f = Done (k * 4096, f') /\ takes f k f') /\
  ((forall i, idx f <= i < BITMAP_SIZE -> in_use f i) -> forall k, 0 < idx f -> least_free f 1 k ->
     exists f', kalloc_frame fuel f = Done (k * 4096, f') /\ takes f k f') /\
  ((forall i, idx f <= i < BITMAP_SIZE -> in_use f i) ->
   (0 < idx f -> forall i, 1 <= i < BITMAP_SIZE -> in_use f i) ->
     exists f', kalloc_frame fuel f = Done (0, f') /\ phys_lock f' = false /\ idx f' = BITMAP_SIZE /\
       forall j, frame_word f' j = frame_word f j).
Proof.
  intros [Hi Hl] Hb Hfuel. rewrite (kalloc_frame_unfold fuel f Hl). set (f1 := with_plock true f).
  assert (Hend : (forall i, idx f <= i < BITMAP_SIZE -> in_use f i) ->
    exists n, (Z.to_nat BITMAP_SIZE + 1 < n)%nat /\
      loop fuel kalloc_step (bool_decide (0 < idx f), f1)
      = if bool_decide (0 < idx f) then loop n kalloc_step (false, with_idx 1 f1)
        else Done (0, with_plock false (with_idx BITMAP_SIZE f1))).
  { intros Hu. exists (fuel - Z.to_nat (BITMAP_SIZE - idx f) - 1)%nat. split; [pose proof bitmap_pos; lia|].
    rewrite <-(kalloc_run_end _ (bool_decide (0 < idx f)) f1) by (done || simpl; lia).
    f_equal. cbn [idx with_plock f1]. pose proof bitmap_pos. lia. }
  split; [|split].
  - intros k Hk. apply (kalloc_run_least fuel _ f1 k); [simpl; lia|done|pose proof bitmap_pos; lia].
  - intros Hu k Hpos Hk. destruct (Hend Hu) as (n & Hn & ->). rewrite bool_decide_true by done.
    apply (kalloc_run_least n false (with_idx 1 f1) k); [simpl; lia|done|lia].
  - intros Hu Hall. destruct (Hend Hu) as (n & Hn & ->). case_bool_decide as Hpos; [|by eexists].
    pose proof (kalloc_run_end (n - Z.to_nat (BITMAP_SIZE - 1) - 1) false (with_idx 1 f1)) as He.
    cbn [idx with_idx] in He. replace (Z.to_nat (BITMAP_SIZE - 1) + S (n - Z.to_nat (BITMAP_SIZE - 1) - 1))%nat with n in He
      by (pose proof bitmap_pos; lia).
    rewrite He; [|pose proof bitmap_pos; lia|exact (Hall Hpos)|done]. eexists. split; [done|]. done.
Qed.

Lemma kfree_frame_ok f k : frames_wf f -> 0 <= k < BITMAP_SIZE ->
  exists f', kfree_frame (k * 4096) f = Done f' /\ phys_lock f' = false /\
    idx f' = (if decide (idx f = k) then k - 1 else if decide (k < idx f) then k else idx f) /\
    (forall j, frame_word f' j = if decide (j = k) then 0 else frame_word f j).
Proof.
  intros [Hi Hl] Hk. unfold kfree_frame, lock_frames. rewrite Hl. cbn [mbind outcome_bind].
  rewrite address_page by done.
  destruct (memmgr_phys_free_page k (with_plock true f)) as [f1| | |] eqn:Em;
    try (unfold memmgr_phys_free_page in Em; rewrite !decide_False in Em by lia; done).
  cbn [mbind outcome_bind]. pose proof (free_word k (with_plock true f) f1) as Hw.
  assert (idx f1 = idx f) as Ei.
  { unfold memmgr_phys_free_page in Em. rewrite !decide_False in Em by lia. by injection Em as <-. }
  rewrite Ei. eexists. split; [done|]. split; [done|]. split.
  - repeat case_decide; simpl; lia.
  - intros j. replace (frame_word f j) with (frame_word (with_plock true f) j) by done.
    rewrite <-(Hw j Em Hk). repeat case_decide; done.
Qed.

End Alloc.

(** Either some frame of a stretch is free, and then a lowest one, or none is. *)
Lemma least_free_or_none f n : forall lo, lo + Z.of_nat n = BITMAP_SIZE ->
  (exists k, least_free f lo k) \/ (forall i, lo <= i < BITMAP_SIZE -> in_use f i).
Proof.
  induction n as [|n IH]; intros lo Hn; [right; lia|].
  destruct (decide (frame_word f lo = 0)) as [E|E].
  - left. exists lo. split; [lia|]. split; [by intros H|lia].
  - destruct (IH (lo + 1) ltac:(lia)) as [(k & Hk & Hf & Hl)|Hu].
    + left. exists k. split; [lia|]. split; [done|]. intros i Hi.
      destruct (decide (i = lo)) as [->|]; [done|]. apply Hl. lia.
    + right. intros i Hi. destruct (decide (i = lo)) as [->|]; [done|]. apply Hu. lia.
Qed.

(** ** What the page tables rely on *)

(** An allocator of aligned frames below 2^39: a frame it hands out was not in
    use and is in use until it is freed; 0 says that there is none. *)
Class FrameAllocator (F : Type) := {
  fr_ok : F -> Prop;
  fr_used : F -> Z -> Prop;
  fr_alloc : F -> outcome (Z * F);
  fr_free : Z -> F -> outcome F;
  fr_alloc_ok : forall f, fr_ok f -> exists a f', fr_alloc f = Done (a, f') /\ fr_ok f' /\
    (a = 0 \/ (0 < a < 2 ^ 39 /\ a mod 4096 = 0 /\ ~ fr_used f a)) /\
    (forall x, fr_used f' x <-> fr_used f x \/ (a <> 0 /\ x = a));
  fr_free_ok : forall f a, fr_ok f -> fr_used f a -> 0 < a -> exists f', fr_free a f = Done f' /\ fr_ok f' /\
    (forall x, fr_used f' x <-> fr_used f x /\ x <> a)
}.

Definition frame_in_use (f : frames) (a : Z) : Prop :=
  exists i, a = i * 4096 /\ 0 <= i < BITMAP_SIZE /\ in_use f i.

Lemma frame_in_use_ext f f' : (forall j, frame_word f' j = frame_word f j) ->
  forall x, frame_in_use f' x <-> frame_in_use f x.
Proof.
  intros Hw x. unfold frame_in_use, in_use.
  split; intros (i & Hx & Hi & Hu); exists i; split_and!; try done; try lia; by rewrite Hw in *.
Qed.

Definition kalloc_fuel : nat := Z.to_nat (2 * BITMAP_SIZE + 4).

(** The bitmap is such an allocator once frame 0 is in use, as memmgr_init
    leaves it; the word behind the array is taken not to be 0. *)
#[export, refine] Instance bitmap_allocator : FrameAllocator frames := {|
  fr_ok := fun f => frames_wf f /\ in_use f 0;
  fr_used := frame_in_use;
  fr_alloc := kalloc_frame 1 kalloc_fuel;
  fr_free := kfree_frame
|}.
Proof.
  - intros f [Hwf H0].
    assert (Hfuel : 2 * BITMAP_SIZE + 4 <= Z.of_nat kalloc_fuel) by (unfold kalloc_fuel; pose proof bitmap_pos; lia).
    destruct (kalloc_frame_cases 1 kalloc_fuel f Hwf ltac:(lia) Hfuel) as (H1 & H2 & H3).
    assert (Htake : forall k lo, 0 <= lo -> least_free f lo k ->
      (exists f', kalloc_frame 1 kalloc_fuel f = Done (k * 4096, f') /\ takes f k f') ->
      exists a f', kalloc_frame 1 kalloc_fuel f = Done (a, f') /\ (frames_wf f' /\ in_use f' 0) /\
        (a = 0 \/ (0 < a < 2 ^ 39 /\ a mod 4096 = 0 /\ ~ frame_in_use f a)) /\
        (forall x, frame_in_use f' x <-> frame_in_use f x \/ (a <> 0 /\ x = a))).
    { intros k lo Hlo (Hk & Hfree & _) (f' & Hrun & Hl & Hi & Hw). exists (k * 4096), f'.
      assert (k <> 0) by (intros ->; done).
      assert (BITMAP_SIZE * 4096 < 2 ^ 39) by reflexivity.
      split; [done|]. split.
      { split; [constructor; [lia|done]|]. unfold in_use. rewrite Hw. by case_decide. }
      split.
      { right. split; [lia|]. split; [by rewrite Z.mod_mul|]. intros (i & Ei & Hir & Hu).
        assert (i = k) as -> by lia. done. }
      intros x. unfold frame_in_use, in_use. split.
      - intros (i & -> & Hir & Hu). rewrite Hw in Hu. case_decide; [right; split; lia|left; by exists i].
      - intros [(i & -> & Hir & Hu)|[_ ->]]; [exists i|exists k]; rewrite Hw; split_and!; try done; try lia;
          by case_decide. }
    destruct Hwf as [Hidx Hlock].
    destruct (least_free_or_none f (Z.to_nat (BITMAP_SIZE - idx f)) (idx f)) as [(k & Hk)|Hu]; [lia| |].
    { apply (Htake k (idx f)); [lia|done|]. by apply H1. }
    destruct (decide (0 < idx f)) as [Hpos|Hpos].
    + destruct (least_free_or_none f (Z.to_nat (BITMAP_SIZE - 1)) 1) as [(k & Hk)|Hu1];
        [pose proof bitmap_pos; lia| |].
      * apply (Htake k 1); [lia|done|]. by apply H2.
      * destruct (H3 Hu) as (f' & Hrun & Hl & Hi & Hw); [by intros _|]. exists 0, f'. split; [done|].
        split; [split; [constructor; [rewrite Hi; pose proof bitmap_pos; lia|done]|unfold in_use; by rewrite Hw]|].
        split; [by left|]. intros x. rewrite (frame_in_use_ext f f' Hw x). intuition congruence.
    + destruct (H3 Hu) as (f' & Hrun & Hl & Hi & Hw); [by intros ?|]. exists 0, f'. split; [done|].
      split; [split; [constructor; [rewrite Hi; pose proof bitmap_pos; lia|done]|unfold in_use; by rewrite Hw]|].
      split; [by left|]. intros x. rewrite (frame_in_use_ext f f' Hw x). intuition congruence.
  - intros f a [Hwf H0] (k & -> & Hk & Hu) Hpos.
    destruct (kfree_frame_ok f k Hwf Hk) as (f' & Hrun & Hl & Hi & Hw). exists f'. split; [done|].
    destruct Hwf as [Hidx _]. split.
    + split; [constructor; [|done]; rewrite Hi; repeat case_decide; lia|].
      unfold in_use. rewrite Hw. destruct (decide (0 = k)); [lia|done].
    + intros x. clear Hi. unfold frame_in_use, in_use. split.
      * intros (i & -> & Hir & Hui). rewrite Hw in Hui. case_decide; [done|]. split; [by exists i|lia].
      * intros [(i & -> & Hir & Hui) Hne]. exists i. rewrite Hw. split_and!; try done; try lia.
        case_decide; [subst; done|done].
Defined.

(** ** Properties *)

(** C13: kalloc_frame.  It returns the address of the lowest free frame at or
    after the search index and marks exactly that frame; with none there, and
    the index not 0, it starts again at frame 1 (not 0) and returns the lowest
    free frame from there; with none at all it returns 0 and marks nothing.
    Every path gives the lock back.  The word read behind the bitmap is
    supposed not to be 0. *)
Theorem kalloc_frame_lowest behind fuel f :
  frames_wf f -> behind <> 0 -> 2 * BITMAP_SIZE + 4 <= Z.of_nat fuel ->
  (forall k, least_free f (idx f) k ->
     exists f', kalloc_frame behind fuel f = Done (k * 4096, f') /\ takes f k f') /\
  ((forall i, idx f <= i < BITMAP_SIZE -> in_use f i) -> forall k, 0 < idx f -> least_free f 1 k ->
     exists f', kalloc_frame behind fuel f = Done (k * 4096, f') /\ takes f k f') /\
  ((forall i, idx f <= i < BITMAP_SIZE -> in_use f i) ->
   (0 < idx f -> forall i, 1 <= i < BITMAP_SIZE -> in_use f i) ->
     exists f', kalloc_frame behind fuel f = Done (0, f') /\ phys_lock f' = false /\ idx f' = BITMAP_SIZE /\
       forall j, frame_word f' j = frame_word f j).
Proof. apply kalloc_frame_cases. Qed.

(** Frames 0 to 2 in use, the search at 1. *)
Definition demo_frames : frames := mk_frames {[0 := 1; 1 := 1; 2 := 1]} 1 false.

Example kalloc_frame_lowest_witness :
  (forall k, least_free demo_frames 1 k ->
     exists f', kalloc_frame 1 kalloc_fuel demo_frames = Done (k * 4096, f') /\ takes demo_frames k f') /\
  ((forall i, 1 <= i < BITMAP_SIZE -> in_use demo_frames i) -> forall k, 0 < 1 -> least_free demo_frames 1 k ->
     exists f', kalloc_frame 1 kalloc_fuel demo_frames = Done (k * 4096, f') /\ takes demo_frames k f') /\
  ((forall i, 1 <= i < BITMAP_SIZE -> in_use demo_frames i) ->
   (0 < 1 -> forall i, 1 <= i < BITMAP_SIZE -> in_use demo_frames i) ->
     exists f', kalloc_frame 1 kalloc_fuel demo_frames = Done (0, f') /\ phys_lock f' = false /\
       idx f' = BITMAP_SIZE /\ forall j, frame_word f' j = frame_word demo_frames j).
Proof.
  apply (kalloc_frame_lowest 1 kalloc_fuel demo_frames).
  - constructor; [|reflexivity]. split; [discriminate|]. pose proof bitmap_pos. simpl. lia.
  - lia.
  - unfold kalloc_fuel. pose proof bitmap_pos. lia.
Defined.

(** Freeing.  kfree_frame frees exactly the frame of the address and gives
    the lock back, and the next kalloc_frame hands out a frame no higher than
    it.  Freeing frame 0 while the search is at 0 leaves the index at -1, and
    the next kalloc_frame reads in front of the bitmap. *)
Theorem kfree_then_kalloc behind fuel f k :
  frames_wf f -> 0 <= k < BITMAP_SIZE -> behind <> 0 -> 2 * BITMAP_SIZE + 4 <= Z.of_nat fuel ->
  exists f1, kfree_frame (k * 4096) f = Done f1 /\
    (forall j, frame_word f1 j = if decide (j = k) then 0 else frame_word f j) /\
    (0 < k -> exists a f2, kalloc_frame behind fuel f1 = Done (a, f2) /\
       (idx f <= k -> a <= k * 4096) /\ (k < idx f -> a = k * 4096)) /\
    (k = 0 -> idx f = 0 -> kalloc_frame behind fuel f1 = Fault).
Proof.
  intros Hwf Hk Hb Hfuel. pose proof Hwf as [Hidx Hlock].
  destruct (kfree_frame_ok f k Hwf Hk) as (f1 & Hrun & Hl & Hi & Hw). exists f1. split; [done|].
  split; [done|]. assert (Hfree : ~ in_use f1 k) by (unfold in_use; rewrite Hw, decide_True by done; tauto). split.
  - intros Hpos. assert (Hwf1 : frames_wf f1) by (constructor; [rewrite Hi; repeat case_decide; lia|done]).
    destruct (kalloc_frame_cases behind fuel f1 Hwf1 Hb Hfuel) as (H1 & _ & _).
    destruct (decide (idx f1 <= k)) as [Hle|Hgt]; [|exfalso; apply Hgt; rewrite Hi; repeat case_decide; lia].
    destruct (least_free_or_none f1 (Z.to_nat (BITMAP_SIZE - idx f1)) (idx f1)) as [(m & Hm)|Hu];
      [destruct Hwf1; lia| |exfalso; apply Hfree, Hu; lia].
    destruct (H1 m Hm) as (f2 & Hrun2 & _). destruct Hm as (Hmr & Hmf & Hml).
    assert (m <= k). { destruct (decide (m <= k)); [done|]. exfalso. apply Hfree, Hml. lia. }
    exists (m * 4096), f2. split; [done|]. split; [lia|]. intros Hlt. rewrite Hi in Hmr.
    rewrite (decide_False (P := idx f = k)) in Hmr by lia. rewrite decide_True in Hmr by lia. lia.
  - intros -> Hz. rewrite Hz in Hi. simpl in Hi. rewrite (kalloc_frame_unfold behind fuel f1 Hl).
    destruct fuel as [|fuel]; [pose proof bitmap_pos; simpl in Hfuel; lia|]. cbn [loop]. unfold kalloc_step, read_map.
    cbn [idx with_plock]. rewrite Hi. by rewrite (decide_True (P := 0 - 1 < 0)) by lia.
Qed.

Example kfree_then_kalloc_witness :
  exists f1, kfree_frame (2 * 4096) demo_frames = Done f1 /\
    (forall j, frame_word f1 j = if decide (j = 2) then 0 else frame_word demo_frames j) /\
    (0 < 2 -> exists a f2, kalloc_frame 1 kalloc_fuel f1 = Done (a, f2) /\
       (1 <= 2 -> a <= 2 * 4096) /\ (2 < 1 -> a = 2 * 4096)) /\
    (2 = 0 -> 1 = 0 -> kalloc_frame 1 kalloc_fuel f1 = Fault).
Proof.
  apply (kfree_then_kalloc 1 kalloc_fuel demo_frames 2).
  - constructor; [|reflexivity]. split; [discriminate|]. pose proof bitmap_pos. simpl. lia.
  - split; [lia|reflexivity].
  - lia.
  - unfold kalloc_fuel. pose proof bitmap_pos. lia.
Defined.
