(* ===== verification/Paging.v ===== *)
(** Page tables: the virtual half of kernel/arch/amd64/memmgr.c.

    Physical memory is a function from 8-byte aligned addresses to words.  The
    kernel reaches physical memory through the identity window at KERNEL_MEMORY
    (and frame 0x1000 through its low address); [phys] is the address behind
    such a pointer.  A write through a pointer that is not of this kind is
    logged in [wild].  Frames come from a [FrameAllocator].  [walk] is how
    memmgr reads the tables, [translate] how the processor does, and
    [tables_inv] says that every frame used as a table is one the allocator
    holds. *)
From stdpp Require Import base list gmap strings.
From Stdlib Require Import ZArith Lia.
From S2P Require Import Prelude Frames.

#[local] Open Scope Z_scope.

Definition KERNEL_MEMORY : Z := 0xfffffe8000000000.
Definition MMIO_MEMORY : Z := 0xfffffe0000000000.
Definition LOW_MEMORY : Z := 0x7fffffffff.
Definition PAGE_MASK : Z := 0xfffffffffffff000.
Definition KERNEL_ENTRY : Z := 0xffffff0000000000.
Definition PAGE_SIZE : Z := 4096.
Definition UINT64_MAX : Z := 2 ^ 64 - 1.

Definition PAGE_PRESENT : Z := Z.shiftl 1 0.
Definition PAGE_WRITABLE : Z := Z.shiftl 1 1.
Definition PAGE_USER : Z := Z.shiftl 1 2.
Definition PAGE_LARGE : Z := Z.shiftl 1 7.
Definition MEMMGR_PAGE_FLAG_STACK_GUARD : Z := Z.shiftl 1 1.

Definition PML4_INDEX (addr : Z) : Z := Z.land (Z.shiftr addr 39) 0x1FF.
Definition PDP_INDEX (addr : Z) : Z := Z.land (Z.shiftr addr 30) 0x1FF.
Definition PD_INDEX (addr : Z) : Z := Z.land (Z.shiftr addr 21) 0x1FF.
Definition PT_INDEX (addr : Z) : Z := Z.land (Z.shiftr addr 12) 0x1FF.

Record vm (F : Type) := mk_vm {
  pm : Z -> Z;
  fr : F;
  pml4 : Z;
  heap_len : Z;
  k_end : Z;
  virt_lock : bool;
  wild : list (Z * Z)
}.
Arguments mk_vm {F}.
Arguments pm {F}.
Arguments fr {F}.
Arguments pml4 {F}.
Arguments heap_len {F}.
Arguments k_end {F}.
Arguments virt_lock {F}.
Arguments wild {F}.

(** The address behind a kernel pointer to physical memory. *)
Definition phys (p : Z) : Z := Z.land p LOW_MEMORY.

Definition memmgr_get_from_physical (physAddr : Z) : Z :=
  if decide (physAddr = 0x1000) then 0x1000 else Z.lor physAddr KERNEL_MEMORY.
Definition memmgr_get_from_virtual (virtAddr : Z) : Z := Z.land virtAddr LOW_MEMORY.
Definition memmgr_get_mmio (physAddr : Z) : Z := Z.lor physAddr MMIO_MEMORY.

Section Paging.
Context {F : Type} `{FrameAllocator F}.

Definition set_pm (m : Z -> Z) (s : vm F) : vm F :=
  mk_vm m (fr s) (pml4 s) (heap_len s) (k_end s) (virt_lock s) (wild s).
Definition set_fr (f : F) (s : vm F) : vm F :=
  mk_vm (pm s) f (pml4 s) (heap_len s) (k_end s) (virt_lock s) (wild s).
Definition set_heap (l : Z) (s : vm F) : vm F :=
  mk_vm (pm s) (fr s) (pml4 s) l (k_end s) (virt_lock s) (wild s).
Definition set_vlock (l : bool) (s : vm F) : vm F :=
  mk_vm (pm s) (fr s) (pml4 s) (heap_len s) (k_end s) l (wild s).
Definition log_wild (p : Z) (v : Z) (s : vm F) : vm F :=
  mk_vm (pm s) (fr s) (pml4 s) (heap_len s) (k_end s) (virt_lock s) (wild s ++ [(p, v)]).

(** [table[i]] and [table[i] = v] through a kernel pointer. *)
Definition rd (table i : Z) (s : vm F) : Z := pm s (phys table + 8 * i).
Definition wr (table i v : Z) (s : vm F) : vm F :=
  set_pm (fun a => if decide (a = phys table + 8 * i) then v else pm s a) s.
(** memset(table, 0, 0x1000) *)
Definition zero_page (table : Z) (s : vm F) : vm F :=
  set_pm (fun a => if decide (phys table <= a < phys table + 4096) then 0 else pm s a) s.
(** memcpy(dst, src, 4096) *)
Definition copy_page (dst src : Z) (s : vm F) : vm F :=
  set_pm (fun a => if decide (phys dst <= a < phys dst + 4096) then pm s (phys src + (a - phys dst)) else pm s a) s.

Definition alloc_frame (s : vm F) : outcome (Z * vm F) :=
  '(a, f) ← fr_alloc (fr s); Done (a, set_fr f s).
Definition free_frame (a : Z) (s : vm F) : outcome (vm F) :=
  f ← fr_free a (fr s); Done (set_fr f s).

Definition memmgr_get_current_pml4 (s : vm F) : Z := pml4 s.

(** ** memmgr_create_or_get_page *)

(** One level: the next table, made when the entry is 0 and [create] is set;
    [None] is the early return. *)
Definition next_table (table i bits create : Z) (s : vm F) : outcome (option Z * vm F) :=
  let next := memmgr_get_from_physical (Z.land (rd table i s) PAGE_MASK) in
  if decide (rd table i s = 0) then
    if decide (create = 0) then Done (None, s)
    else
      '(frame, s) ← alloc_frame s;
      let s := wr table i (Z.lor frame bits) s in
      let next := Z.lor frame KERNEL_MEMORY in
      Done (Some next, zero_page next s)
  else Done (Some next, s).

(** [frame | PAGE_PRESENT | PAGE_WRITABLE | flags] *)
Definition page_bits (flags : Z) : Z := Z.lor (Z.lor PAGE_PRESENT PAGE_WRITABLE) flags.

(** The last level: the page of a page table. *)
Definition get_leaf (pageTable i flags create : Z) (s : vm F) : outcome (Z * vm F) :=
  if decide (rd pageTable i s = 0) then
    if decide (create = 0) then Done (0, s)
    else
      '(frame, s) ← alloc_frame s;
      let s := wr pageTable i (Z.lor frame (page_bits flags)) s in
      Done (Z.land (rd pageTable i s) PAGE_MASK, s)
  else Done (Z.land (rd pageTable i s) PAGE_MASK, s).

Definition memmgr_create_or_get_page (virtualAddr flags create : Z) (s : vm F) : outcome (Z * vm F) :=
  let pageMap := memmgr_get_from_physical (memmgr_get_current_pml4 s) in
  '(r, s) ← next_table pageMap (PML4_INDEX virtualAddr) (page_bits flags) create s;
  match r with
  | None => Done (0, s)
  | Some pageDirectoryPointer =>
      '(r, s) ← next_table pageDirectoryPointer (PDP_INDEX virtualAddr) (page_bits flags) create s;
      match r with
      | None => Done (0, s)
      | Some pageDirectory =>
          if decide (Z.land (rd pageDirectoryPointer (PDP_INDEX virtualAddr) s) PAGE_LARGE <> 0) then Done (0, s)
          else
            '(r, s) ← next_table pageDirectory (PD_INDEX virtualAddr) (page_bits flags) create s;
            match r with
            | None => Done (0, s)
            | Some pageTable =>
                if decide (Z.land (rd pageDirectory (PD_INDEX virtualAddr) s) PAGE_LARGE <> 0) then Done (0, s)
                else get_leaf pageTable (PT_INDEX virtualAddr) flags create s
            end
      end
  end.

Definition memmgr_get_page_physical (virtaddr : Z) (s : vm F) : outcome (Z * vm F) :=
  '(a, s) ← memmgr_create_or_get_page virtaddr 0 0 s;
  if decide (a = 0) then Done (0, s) else Done (u64 (a + virtaddr mod 4096), s).

(** ** memmgr_create_or_get_raw

    A level below the wanted one is a table as above (at the top level with the
    flags only); at the wanted level the given frame is entered and cleared. *)
Inductive raw_level := RNull | RDone (frame : Z) | RNext (table : Z).

Definition raw_step (table i frame flags bits create : Z) (make : bool) (s : vm F) : outcome (raw_level * vm F) :=
  if decide (rd table i s = 0) then
    if decide (create = 0) then Done (RNull, s)
    else if make then
      '(f, s) ← alloc_frame s;
      let s := wr table i (Z.lor f bits) s in
      let next := Z.lor f KERNEL_MEMORY in
      Done (RNext next, zero_page next s)
    else
      let s := wr table i (Z.lor frame flags) s in
      let s := zero_page (Z.lor frame KERNEL_MEMORY) s in
      Done (RDone (Z.land (rd table i s) PAGE_MASK), s)
  else Done (RNext (memmgr_get_from_physical (Z.land (rd table i s) PAGE_MASK)), s).

Definition memmgr_create_or_get_raw (virtualAddr frame flags create level : Z) (s : vm F) : outcome (Z * vm F) :=
  let pageMap := memmgr_get_from_physical (memmgr_get_current_pml4 s) in
  '(r, s) ← raw_step pageMap (PML4_INDEX virtualAddr) frame flags flags create (bool_decide (level <= 3)) s;
  match r with
  | RNull => Done (0, s)
  | RDone p => Done (p, s)
  | RNext pdp =>
      '(r, s) ← raw_step pdp (PDP_INDEX virtualAddr) frame flags (page_bits flags) create (bool_decide (level <= 2)) s;
      match r with
      | RNull => Done (0, s)
      | RDone p => Done (p, s)
      | RNext pd =>
          if decide (Z.land (rd pdp (PDP_INDEX virtualAddr) s) PAGE_LARGE <> 0) then Done (0, s)
          else
            '(r, s) ← raw_step pd (PD_INDEX virtualAddr) frame flags (page_bits flags) create (bool_decide (level <= 1)) s;
            match r with
            | RNull => Done (0, s)
            | RDone p => Done (p, s)
            | RNext pt =>
                if decide (Z.land (rd pd (PD_INDEX virtualAddr) s) PAGE_LARGE <> 0) then Done (0, s)
                else if decide (rd pt (PT_INDEX virtualAddr) s = 0 /\ create = 0) then Done (0, s)
                else
                  let s := if decide (rd pt (PT_INDEX virtualAddr) s = 0)
                           then wr pt (PT_INDEX virtualAddr) (Z.lor frame flags) s else s in
                  Done (Z.land (rd pt (PT_INDEX virtualAddr) s) PAGE_MASK, s)
            end
      end
  end.

(** ** Mapping, deleting and testing single pages *)

(** [pageFlags] keeps the int of all flags for the page; the tables get the
    low six bits. *)
Definition memmgr_map_frame_to_virtual (frame_addr virtual_addr flags : Z) (s : vm F) : outcome (vm F) :=
  let pageMap := memmgr_get_from_physical (memmgr_get_current_pml4 s) in
  let pageFlags := u64 (s32 flags) in
  let bits := page_bits (Z.land flags 0x3f) in
  '(r, s) ← next_table pageMap (PML4_INDEX virtual_addr) bits 1 s;
  pdp ← of_option r;
  '(r, s) ← next_table pdp (PDP_INDEX virtual_addr) bits 1 s;
  pd ← of_option r;
  '(r, s) ← next_table pd (PD_INDEX virtual_addr) bits 1 s;
  pt ← of_option r;
  Done (wr pt (PT_INDEX virtual_addr) (Z.lor frame_addr (page_bits pageFlags)) s).

(** The tests against NULL compare pointers that memmgr_get_from_physical
    returned. *)
Definition memmgr_delete_page (virtualAddr : Z) (s : vm F) : outcome (vm F) :=
  let pageMap := memmgr_get_from_physical (memmgr_get_current_pml4 s) in
  let e4 := rd pageMap (PML4_INDEX virtualAddr) s in
  let pdp := memmgr_get_from_physical (Z.land e4 PAGE_MASK) in
  if decide (pdp = 0 \/ Z.land e4 PAGE_LARGE <> 0) then Done s
  else
    let e3 := rd pdp (PDP_INDEX virtualAddr) s in
    let pd := memmgr_get_from_physical (Z.land e3 PAGE_MASK) in
    if decide (pd = 0 \/ Z.land e3 PAGE_LARGE <> 0) then Done s
    else
      let e2 := rd pd (PD_INDEX virtualAddr) s in
      let pt := memmgr_get_from_physical (Z.land e2 PAGE_MASK) in
      if decide (pt = 0 \/ Z.land e2 PAGE_LARGE <> 0) then Done s
      else
        let frame := rd pt (PT_INDEX virtualAddr) s in
        s ← (if decide (Z.land frame PAGE_PRESENT <> 0) then free_frame (Z.land frame PAGE_MASK) s else Done s);
        Done (wr pt (PT_INDEX virtualAddr) 0 s).

Definition memmgr_check_user (virtualAddr : Z) (s : vm F) : bool :=
  let pageMap := memmgr_get_from_physical (memmgr_get_current_pml4 s) in
  let e4 := rd pageMap (PML4_INDEX virtualAddr) s in
  let pdp := memmgr_get_from_physical (Z.land e4 PAGE_MASK) in
  if decide (Z.land e4 PAGE_USER = 0 \/ pdp = 0) then false
  else if decide (Z.land e4 PAGE_LARGE <> 0) then true
  else
    let e3 := rd pdp (PDP_INDEX virtualAddr) s in
    let pd := memmgr_get_from_physical (Z.land e3 PAGE_MASK) in
    if decide (Z.land e3 PAGE_USER = 0 \/ pd = 0) then false
    else if decide (Z.land e3 PAGE_LARGE <> 0) then true
    else
      let e2 := rd pd (PD_INDEX virtualAddr) s in
      let pt := memmgr_get_from_physical (Z.land e2 PAGE_MASK) in
      if decide (Z.land e2 PAGE_USER = 0 \/ pt = 0) then false
      else if decide (Z.land e2 PAGE_LARGE <> 0) then true
      else bool_decide (Z.land (rd pt (PT_INDEX virtualAddr) s) PAGE_USER <> 0).

(** The pointer that [_done] writes through is the entry itself, not its
    address. *)
Definition memmgr_change_flags (virt flags : Z) (s : vm F) : bool * vm F :=
  let pageMap := memmgr_get_from_physical (memmgr_get_current_pml4 s) in
  let e4 := rd pageMap (PML4_INDEX virt) s in
  let pdp := memmgr_get_from_physical (Z.land e4 PAGE_MASK) in
  if decide (pdp = 0) then (false, s)
  else if decide (Z.land e4 PAGE_LARGE <> 0) then (true, log_wild e4 flags s)
  else
    let e3 := rd pdp (PDP_INDEX virt) s in
    let pd := memmgr_get_from_physical (Z.land e3 PAGE_MASK) in
    if decide (pd = 0) then (false, s)
    else if decide (Z.land e3 PAGE_LARGE <> 0) then (true, log_wild e3 flags s)
    else
      let e2 := rd pd (PD_INDEX virt) s in
      let pt := memmgr_get_from_physical (Z.land e2 PAGE_MASK) in
      if decide (pt = 0) then (false, s)
      else if decide (Z.land e2 PAGE_LARGE <> 0) then (true, log_wild e3 flags s)
      else (true, log_wild (rd pt (PT_INDEX virt) s) flags s).

Definition memmgr_get_page_level (virt : Z) (s : vm F) : Z :=
  let pageMap := memmgr_get_from_physical (memmgr_get_current_pml4 s) in
  let e4 := rd pageMap (PML4_INDEX virt) s in
  let pdp := memmgr_get_from_physical (Z.land e4 PAGE_MASK) in
  if decide (pdp = 0) then u8 (-1)
  else if decide (Z.land e4 PAGE_LARGE <> 0) then 3
  else
    let e3 := rd pdp (PDP_INDEX virt) s in
    let pd := memmgr_get_from_physical (Z.land e3 PAGE_MASK) in
    if decide (pd = 0) then u8 (-1)
    else if decide (Z.land e3 PAGE_LARGE <> 0) then 2
    else
      let e2 := rd pd (PD_INDEX virt) s in
      let pt := memmgr_get_from_physical (Z.land e2 PAGE_MASK) in
      if decide (pt = 0) then u8 (-1)
      else if decide (Z.land e2 PAGE_LARGE <> 0) then 1
      else 0.

(** The level asked for is always that of [virt]. *)
Definition memmgr_change_flags_bulk (fuel : nat) (virt size flags : Z) (s : vm F) : outcome (bool * vm F) :=
  loop fuel (fun '(i, s) =>
    if decide (u64 size <= i) then Done (inr (true, s))
    else
      let page_level := memmgr_get_page_level virt s in
      let '(ok, s) := memmgr_change_flags (u64 (virt + i)) flags s in
      if (ok : bool) then
        let i := if decide (page_level = 3) then u64 (i + 0x8000000000)
                 else if decide (page_level = 2) then u64 (i + 0x40000000)
                 else if decide (page_level = 1) then u64 (i + 0x200000)
                 else if decide (page_level = 0) then u64 (i + 0x1000) else i in
        Done (inl (i, s))
      else Done (inr (false, s))) (0, s).

(** ** Regions *)

(** [len / 4096], one more for a rest. *)
Definition page_count (len : Z) : Z := if decide (len mod 4096 <> 0) then len / 4096 + 1 else len / 4096.

Definition align_down (a : Z) : Z := Z.land a (u64 (Z.lnot (PAGE_SIZE - 1))).
(** [(a + PAGE_SIZE) & ~(PAGE_SIZE - 1)] *)
Definition align_up (a : Z) : Z := align_down (u64 (a + PAGE_SIZE)).

(** A loop over pages that only threads the state. *)
Definition each_page (n : Z) (i0 : Z) (body : Z -> vm F -> outcome (vm F)) (s : vm F) : outcome (vm F) :=
  r ← for_ (Z.to_nat n) i0 (fun i s => s ← body i s; Done (inl (B := unit) s)) s;
  match r with inl s => Done s | inr _ => Fault end.

Definition create_pages (start flags n i0 : Z) (s : vm F) : outcome (vm F) :=
  each_page n i0 (fun i s => '(_, s) ← memmgr_create_or_get_page (u64 (start + 0x1000 * i)) flags 1 s; Done s) s.

(** The processor's own translation.  An entry lets an access through when its
    present bit (bit 0) is set and it has the access bits [need] (2 to write, 4
    for the user); a large page ends the way early. *)
Definition grants (need e : Z) : bool := Z.testbit e 0 && bool_decide (Z.land e need = need).

Definition translate (need : Z) (s : vm F) (va : Z) : option Z :=
  let e4 := rd (memmgr_get_from_physical (memmgr_get_current_pml4 s)) (PML4_INDEX va) s in
  if negb (grants need e4) then None
  else
    let e3 := rd (memmgr_get_from_physical (Z.land e4 PAGE_MASK)) (PDP_INDEX va) s in
    if negb (grants need e3) then None
    else if decide (Z.land e3 PAGE_LARGE <> 0) then Some (Z.land e3 PAGE_MASK / 2 ^ 30 * 2 ^ 30 + va mod 2 ^ 30)
    else
      let e2 := rd (memmgr_get_from_physical (Z.land e3 PAGE_MASK)) (PD_INDEX va) s in
      if negb (grants need e2) then None
      else if decide (Z.land e2 PAGE_LARGE <> 0) then Some (Z.land e2 PAGE_MASK / 2 ^ 21 * 2 ^ 21 + va mod 2 ^ 21)
      else
        let e1 := rd (memmgr_get_from_physical (Z.land e2 PAGE_MASK)) (PT_INDEX va) s in
        if grants need e1 then Some (Z.land e1 PAGE_MASK + va mod 4096) else None.

(** memset of a page through its virtual address: the processor translates
    it, and a page that is not there faults. *)
Definition zero_virtual (va : Z) (s : vm F) : outcome (vm F) :=
  '(p, s) ← memmgr_create_or_get_page va 0 0 s;
  if decide (p <> 0) then Done (zero_page (Z.lor p KERNEL_MEMORY) s)
  else p ← of_option (translate PAGE_WRITABLE s va); Done (zero_page (Z.lor p KERNEL_MEMORY) s).

(** The search state of get_free_page: the pocket's start and its size. *)
Definition pocket_add (base step len : Z) (st : Z * Z) : (Z * Z) + Z :=
  let baseAddress := if decide (st.1 = 0) then base else st.1 in
  let freeMemory := u64 (st.2 + step) in
  if decide (len < freeMemory) then inr baseAddress else inl (baseAddress, freeMemory).

Definition scan_pages (pt i j len : Z) (s : vm F) (st : Z * Z) : outcome ((Z * Z) + Z) :=
  for_ 512 0 (fun k st =>
    let page := rd pt k s in
    if decide (page <> 0 /\ page <> KERNEL_MEMORY) then Done (inl (0, 0))
    else Done (pocket_add (u64 (0x40000000 * i + 0x200000 * j + 0x1000 * k)) 0x1000 len st)) st.

Definition scan_tables (pd i len : Z) (s : vm F) (st : Z * Z) : outcome ((Z * Z) + Z) :=
  for_ 512 0 (fun j st =>
    let e := rd pd j s in
    let pt := memmgr_get_from_physical (Z.land e PAGE_MASK) in
    if decide (Z.land pt PAGE_LARGE <> 0) then Done (inl st)
    else if decide (e = 0) then Done (pocket_add (u64 (0x40000000 * i + 0x200000 * j)) 0x200000 len st)
    else if decide (Z.land e PAGE_USER = 0) then Done (inl st)
    else scan_pages pt i j len s st) st.

Definition get_free_page (len : Z) (s : vm F) : outcome Z :=
  let pageMap := memmgr_get_from_physical (memmgr_get_current_pml4 s) in
  let pdp := memmgr_get_from_physical (Z.land (rd pageMap 0 s) PAGE_MASK) in
  if decide (pdp = 0) then Done UINT64_MAX
  else
    r ← for_ 512 0 (fun i st =>
      let e := rd pdp i s in
      let pd := memmgr_get_from_physical (Z.land e PAGE_MASK) in
      if decide (Z.land e PAGE_LARGE <> 0) then Done (inl st)
      else if decide (e = 0) then Done (pocket_add (u64 (0x40000000 * i)) 0x40000000 len st)
      else if decide (Z.land e PAGE_USER = 0) then Done (inl st)
      else scan_tables pd i len s st) (0, 0);
    match r with inl _ => Done UINT64_MAX | inr a => Done a end.

Definition mmap (addr len : Z) (is_kernel : bool) (s : vm F) : outcome (Z * vm F) :=
  let addr := if decide (addr <> 0 /\ addr mod PAGE_SIZE <> 0) then align_down addr else addr in
  let count := page_count len in
  if decide (addr = 0) then
    if is_kernel then
      let start := if decide (k_end s mod PAGE_SIZE <> 0) then align_up (k_end s) else k_end s in
      s ← create_pages start 0 count 0 s; Done (start, s)
    else
      start ← get_free_page len s;
      s ← create_pages start PAGE_USER count 0 s; Done (start, s)
  else
    let flags := if is_kernel then 0 else PAGE_USER in
    r ← for_ (Z.to_nat count) 0 (fun i s =>
      '(p, s) ← memmgr_create_or_get_page (u64 (addr + 0x1000 * i)) flags 0 s;
      Done (if decide (p <> 0) then inr s else inl s)) s;
    match r with
    | inr s => Done (0, s)
    | inl s =>
        s ← each_page count 0 (fun i s =>
          '(_, s) ← memmgr_create_or_get_page (u64 (addr + 0x1000 * i)) flags 1 s;
          zero_virtual (u64 (addr + 0x1000 * i)) s) s;
        Done (addr, s)
    end.

(** The loop runs from page 1 to page [count]. *)
Definition munmap (addr len : Z) (s : vm F) : outcome (vm F) :=
  let addr := if decide (addr <> 0 /\ addr mod PAGE_SIZE <> 0) then align_down addr else addr in
  each_page (page_count len) 1 (fun i s =>
    let va := u64 (addr + 0x1000 * i) in
    if memmgr_check_user va s then memmgr_delete_page va s else Done s) s.

Definition memmgr_map_mmio (addr len flags : Z) (is_kernel : bool) (s : vm F) : outcome (Z * vm F) :=
  let addr := if decide (addr <> 0 /\ addr mod PAGE_SIZE <> 0) then align_up addr else addr in
  let flags := if is_kernel then flags else Z.lor flags PAGE_USER in
  let start := u64 (MMIO_MEMORY + addr) in
  s ← each_page (page_count len + 1) 0 (fun i s =>
    memmgr_map_frame_to_virtual (u64 (addr + 0x1000 * i)) (u64 (start + 0x1000 * i)) flags s) s;
  Done (start, s).

Definition memmgr_create_stack (user : bool) (len : Z) (s : vm F) : outcome (Z * vm F) :=
  let count := page_count len in
  if user then
    start ← get_free_page (u64 (len + 4096)) s;
    '(_, s) ← memmgr_create_or_get_raw start 0 MEMMGR_PAGE_FLAG_STACK_GUARD 1 0 s;
    s ← create_pages start (Z.lor (Z.lor PAGE_USER PAGE_PRESENT) PAGE_WRITABLE) count 1 s;
    Done (u64 (start + 0x1000), s)
  else
    let start := u64 (k_end s + heap_len s) in
    let start := if decide (start mod PAGE_SIZE <> 0) then align_up start else start in
    '(_, s) ← memmgr_create_or_get_raw start 0 MEMMGR_PAGE_FLAG_STACK_GUARD 1 0 s;
    s ← create_pages start (Z.lor PAGE_PRESENT PAGE_WRITABLE) count 1 s;
    Done (u64 (start + 0x1000), set_heap (u64 (heap_len s + len)) s).

(** kfree_frame of every present page, then of its tables, upwards; only the
    first top-level entry is looked at. *)
Definition clear_table (pt : Z) (s : vm F) : outcome (vm F) :=
  each_page 512 0 (fun k s =>
    if decide (Z.land (rd pt k s) PAGE_PRESENT <> 0) then free_frame (Z.land (rd pt k s) PAGE_MASK) s else Done s) s.

Definition clear_directory (pd : Z) (s : vm F) : outcome (vm F) :=
  each_page 512 0 (fun j s =>
    let e := rd pd j s in
    if decide (Z.land e PAGE_PRESENT = 0 \/ Z.land e PAGE_LARGE <> 0) then Done s
    else
      s ← clear_table (memmgr_get_from_physical (Z.land e PAGE_MASK)) s;
      free_frame (Z.land (rd pd j s) PAGE_MASK) s) s.

Definition memmgr_clear_page_map (pageMap : Z) (s : vm F) : outcome (vm F) :=
  let map := memmgr_get_from_physical pageMap in
  let pdp := memmgr_get_from_physical (Z.land (rd map 0 s) PAGE_MASK) in
  s ← each_page 512 0 (fun i s =>
    let e := rd pdp i s in
    if decide (Z.land e PAGE_PRESENT = 0 \/ Z.land e PAGE_LARGE <> 0) then Done s
    else
      s ← clear_directory (memmgr_get_from_physical (Z.land e PAGE_MASK)) s;
      free_frame (Z.land (rd pdp i s) PAGE_MASK) s) s;
  s ← free_frame (rd map 0 s) s;
  free_frame pageMap s.

(** The kernel heap.  [end_addr] is the address of the variable [_end]; adding
    to it moves by its size, 8. *)
Definition end_plus (end_addr n : Z) : Z := u64 (end_addr + 8 * n).

Definition lock_virt (s : vm F) : outcome (vm F) := if virt_lock s then Blocked else Done (set_vlock true s).

Definition sbrk (end_addr len : Z) (s : vm F) : outcome (Z * vm F) :=
  s ← lock_virt s;
  '(ptr, s) ← (if decide (0 < len) then
      '(p, s) ← mmap 0 (u64 (heap_len s + len)) true s; Done (u64 (p + heap_len s), s)
    else
      let a := end_plus end_addr (KERNEL_ENTRY + heap_len s + len) in
      s ← munmap a (u64 len) s; Done (a, s));
  Done (ptr, set_vlock false (set_heap (u64 (heap_len s + len)) s)).

Definition brk (end_addr len : Z) (s : vm F) : outcome (Z * vm F) :=
  s ← lock_virt s;
  let prev := heap_len s in
  let s := set_heap len s in
  s ← (if decide (len < prev) then munmap (end_plus end_addr (KERNEL_ENTRY + len)) (prev - len) s
       else '(_, s) ← mmap 0 len true s; Done s);
  let start := if decide (Z.land end_addr (PAGE_SIZE - 1) = 0) then align_up end_addr else end_addr in
  Done (u64 (start + len), set_vlock false s).

(** memmgr_clone_page_map, a level per definition. *)
Definition user_bits : Z := Z.lor (Z.lor PAGE_PRESENT PAGE_WRITABLE) PAGE_USER.

Definition clone_page (ptOld pt l : Z) (s : vm F) : outcome (vm F) :=
  let page := rd ptOld l s in
  if decide (page = 0) then Done s
  else if decide (Z.land page PAGE_USER <> 0) then
    '(frame, s) ← alloc_frame s;
    let s := wr pt l (Z.lor frame user_bits) s in
    Done (copy_page (memmgr_get_from_physical frame) (memmgr_get_from_physical (Z.land page PAGE_MASK)) s)
  else Done (wr pt l page s).

(** The shape shared by the directory levels: copy a large entry, skip an
    empty one, make a table and descend. *)
Definition clone_level (old new i : Z) (descend : Z -> Z -> vm F -> outcome (vm F)) (s : vm F) : outcome (vm F) :=
  let e := rd old i s in
  let tblOld := memmgr_get_from_physical (Z.land e PAGE_MASK) in
  if decide (Z.land e PAGE_LARGE <> 0) then Done (wr new i e s)
  else if decide (e = 0) then Done s
  else
    '(frame, s) ← alloc_frame s;
    let s := wr new i (Z.lor frame user_bits) s in
    let tbl := memmgr_get_from_physical frame in
    descend tblOld tbl (zero_page tbl s).

Definition clone_table (ptOld pt : Z) (s : vm F) : outcome (vm F) :=
  each_page 512 0 (clone_page ptOld pt) s.
Definition clone_directory (pdOld pd : Z) (s : vm F) : outcome (vm F) :=
  each_page 512 0 (fun k => clone_level pdOld pd k clone_table) s.
Definition clone_pdp (pdpOld pdp : Z) (s : vm F) : outcome (vm F) :=
  each_page 512 0 (fun j => clone_level pdpOld pdp j clone_directory) s.

Definition memmgr_clone_page_map (pageMapOld pageMapNew : Z) (s : vm F) : outcome (vm F) :=
  let s := zero_page pageMapNew s in
  s ← each_page 511 0 (fun i s =>
    let e := rd pageMapOld i s in
    if decide (Z.land e PAGE_LARGE = 0 /\ e <> 0 /\ 508 <= i <= 510) then Done (wr pageMapNew i e s)
    else clone_level pageMapOld pageMapNew i clone_pdp s) s;
  Done (wr pageMapNew 511 (memmgr_get_from_virtual pageMapNew) s).

(** ** The translation *)

(** The word of entry [i] of the table at physical address [t], and the address
    of the table an entry points to. *)
Definition entry (s : vm F) (t i : Z) : Z := pm s (t + 8 * i).
Definition child (e : Z) : Z := Z.land (Z.land e PAGE_MASK) LOW_MEMORY.
Definition root (s : vm F) : Z := phys (memmgr_get_from_physical (pml4 s)).

(** The walk as memmgr does it, for which an entry is free when it is 0; what
    the processor makes of the same entries is [translate]. *)
Inductive walk_result := WMiss | WLarge | WPage (p : Z).

Definition walk (s : vm F) (va : Z) : walk_result :=
  let e4 := entry s (root s) (PML4_INDEX va) in
  if decide (e4 = 0) then WMiss
  else
    let e3 := entry s (child e4) (PDP_INDEX va) in
    if decide (e3 = 0) then WMiss
    else if decide (Z.land e3 PAGE_LARGE <> 0) then WLarge
    else
      let e2 := entry s (child e3) (PD_INDEX va) in
      if decide (e2 = 0) then WMiss
      else if decide (Z.land e2 PAGE_LARGE <> 0) then WLarge
      else
        let e1 := entry s (child e2) (PT_INDEX va) in
        if decide (e1 = 0) then WMiss else WPage (Z.land e1 PAGE_MASK).

(** The tables that can be reached, by level: 4 is the root, 1 a page table. *)
Inductive is_table (s : vm F) : nat -> Z -> Prop :=
| it_root : is_table s 4 (root s)
| it_child n t i : is_table s (S (S n)) t -> 0 <= i < 512 -> entry s t i <> 0 ->
    (S (S n) = 4%nat \/ Z.land (entry s t i) PAGE_LARGE = 0) -> is_table s (S n) (child (entry s t i)).

Record tables_inv (s : vm F) : Prop := {
  ti_alloc : fr_ok (fr s);
  ti_used : forall n t, is_table s n t -> fr_used (fr s) t /\ 0 <= t < 2 ^ 39 /\ t mod 4096 = 0;
  ti_level : forall n m t, is_table s n t -> is_table s m t -> n = m
}.

(** Every entry in use above the page tables lets the access through. *)
Definition upper_grants (need : Z) (s : vm F) : Prop :=
  forall n t i, is_table s (S (S n)) t -> 0 <= i < 512 -> entry s t i <> 0 -> grants need (entry s t i) = true.

(** [s'] keeps every entry of [s] that is in use. *)
Definition extends (s s' : vm F) : Prop :=
  root s' = root s /\
  (forall m u j, is_table s m u -> 0 <= j < 512 -> entry s u j <> 0 -> entry s' u j = entry s u j).

Lemma extends_tables s s' m u : extends s s' -> is_table s m u -> is_table s' m u.
Proof.
  intros [Hr He]. induction 1 as [|m u j Hu IH Hj Hne Hl]; [rewrite <-Hr; constructor|].
  pose proof (He _ _ _ Hu Hj Hne) as E. rewrite <-E. apply it_child; [done|done|by rewrite E|by rewrite E].
Qed.

Lemma extends_refl s : extends s s.
Proof. done. Qed.

Lemma extends_trans s1 s2 s3 : extends s1 s2 -> extends s2 s3 -> extends s1 s3.
Proof.
  intros H12 H23. split; [destruct H12, H23; congruence|]. intros m u j Hu Hj Hne.
  pose proof (proj2 H12 _ _ _ Hu Hj Hne) as E. rewrite <-E.
  apply (proj2 H23 m); [by eapply extends_tables|done|by rewrite E].
Qed.

Lemma low_bits : LOW_MEMORY = Z.ones 39.
Proof. reflexivity. Qed.
Lemma mask_bits : PAGE_MASK = Z.shiftl (Z.ones 52) 12.
Proof. reflexivity. Qed.
Lemma kernel_bits : KERNEL_MEMORY = Z.shiftl (KERNEL_MEMORY / 2 ^ 39) 39.
Proof. reflexivity. Qed.

Lemma phys_small a : 0 <= a < 2 ^ 39 -> phys a = a.
Proof. intros. unfold phys. rewrite low_bits, Z.land_ones by lia. by apply Z.mod_small. Qed.

Lemma phys_kernel a : phys (Z.lor a KERNEL_MEMORY) = phys a.
Proof.
  unfold phys. rewrite Z.land_lor_distr_l. replace (Z.land KERNEL_MEMORY LOW_MEMORY) with 0 by reflexivity.
  apply Z.lor_0_r.
Qed.

Lemma phys_from_physical a : phys (memmgr_get_from_physical a) = phys a.
Proof. unfold memmgr_get_from_physical. case_decide; [by subst|apply phys_kernel]. Qed.

Lemma phys_child e : phys (memmgr_get_from_physical (Z.land e PAGE_MASK)) = child e.
Proof. apply phys_from_physical. Qed.

Lemma index_range a k : 0 <= Z.land (Z.shiftr a k) 0x1FF < 512.
Proof. change 0x1FF with (Z.ones 9). rewrite Z.land_ones by lia. apply Z.mod_pos_bound. lia. Qed.

Lemma land_mask a : Z.land a PAGE_MASK = (a mod 2 ^ 64) / 4096 * 4096.
Proof.
  apply Z.bits_inj'. intros n Hn. rewrite Z.land_spec, mask_bits, Z.shiftl_spec by lia.
  change 4096 with (2 ^ 12). rewrite <-Z.shiftl_mul_pow2, Z.shiftl_spec by lia.
  destruct (Z.lt_ge_cases n 12).
  - rewrite !(Z.testbit_neg_r _ (n - 12)) by lia. by rewrite andb_false_r.
  - rewrite <-Z.shiftr_div_pow2, Z.shiftr_spec by lia. replace (n - 12 + 12) with n by lia.
    destruct (Z.lt_ge_cases n 64).
    + rewrite Z.ones_spec_low by lia. rewrite Z.mod_pow2_bits_low by lia. by rewrite andb_true_r.
    + rewrite Z.ones_spec_high by lia. rewrite Z.mod_pow2_bits_high by lia. by rewrite andb_false_r.
Qed.

(** The address part of a fresh entry is the frame. *)
Lemma land_frame_bits a bits : 0 <= a < 2 ^ 39 -> a mod 4096 = 0 -> 0 <= bits < 4096 ->
  Z.land (Z.lor a bits) PAGE_MASK = a.
Proof.
  intros Ha Hal Hb. assert (El : Z.lor a bits = a + bits).
  { rewrite <-Z.add_lor_land. replace (Z.land a bits) with 0; [lia|]. symmetry. apply Z.bits_inj_0.
    intros n. destruct (Z.lt_ge_cases n 0); [by apply Z.testbit_neg_r|]. rewrite Z.land_spec.
    destruct (Z.lt_ge_cases n 12).
    - replace a with (a / 4096 * 2 ^ 12) by (pose proof (Z.div_mod a 4096); lia).
      by rewrite Z.mul_pow2_bits_low by lia.
    - destruct (decide (bits = 0)) as [->|]; [by rewrite Z.bits_0, andb_false_r|].
      rewrite (Z.bits_above_log2 bits), andb_false_r; [done|lia|]. apply Z.log2_lt_pow2; [lia|].
      apply Z.lt_le_trans with (2 ^ 12); [lia|]. apply Z.pow_le_mono_r; lia. }
  rewrite El, land_mask, Z.mod_small by lia. pose proof (Z.div_mod a 4096 ltac:(lia)) as Hd.
  replace ((a + bits) / 4096) with (a / 4096); [lia|].
  apply (Z.div_unique _ _ _ bits); lia.
Qed.

Lemma lor_nonzero a bits : 0 <= a -> 0 < bits -> Z.lor a bits <> 0.
Proof. intros Ha Hb E. apply Z.lor_eq_0_iff in E. lia. Qed.

(** Addresses of entries determine the table and the index. *)
Lemma entry_addr t i u j : t mod 4096 = 0 -> u mod 4096 = 0 -> 0 <= i < 512 -> 0 <= j < 512 ->
  t + 8 * i = u + 8 * j -> t = u /\ i = j.
Proof.
  intros Ht Hu Hi Hj E. pose proof (Z.div_mod t 4096). pose proof (Z.div_mod u 4096). lia.
Qed.

(** ** Making a table *)

(** The memory after a fresh frame [a] was cleared and entered at (t, i). *)
Record grown (s s' : vm F) (t i a v : Z) : Prop := {
  gr_used : forall x, fr_used (fr s') x <-> fr_used (fr s) x \/ x = a;
  gr_ok : fr_ok (fr s');
  gr_root : pml4 s' = pml4 s;
  gr_entry : entry s' t i = v;
  gr_new : forall j, 0 <= j < 512 -> entry s' a j = 0;
  gr_old : forall u j, u mod 4096 = 0 -> u <> a -> 0 <= j < 512 -> ~ (u = t /\ j = i) -> entry s' u j = entry s u j
}.

Section Grown.
Context (s s' : vm F) (n : nat) (t i a v : Z).
Hypothesis Hinv : tables_inv s.
Hypothesis Htbl : is_table s (S (S n)) t.
Hypothesis Hi : 0 <= i < 512.
Hypothesis Hzero : entry s t i = 0.
Hypothesis Hfresh : ~ fr_used (fr s) a.
Hypothesis Ha : 0 < a < 2 ^ 39.
Hypothesis Hal : a mod 4096 = 0.
Hypothesis Hv : child v = a.
Hypothesis Hvn : v <> 0.
Hypothesis Hvl : Z.land v PAGE_LARGE = 0.
Hypothesis Hg : grown s s' t i a v.

Lemma grown_extends : extends s s'.
Proof.
  split; [unfold root; by rewrite (gr_root _ _ _ _ _ _ Hg)|]. intros m u j Hu Hj Hne.
  destruct (ti_used _ Hinv _ _ Hu) as (Huse & _ & Hual).
  apply (gr_old _ _ _ _ _ _ Hg); try done; [by intros ->|]. intros [-> ->]. done.
Qed.

Lemma grown_tables m u : is_table s m u -> is_table s' m u.
Proof. apply extends_tables, grown_extends. Qed.

Lemma grown_back m u : is_table s' m u -> is_table s m u \/ (u = a /\ m = S n).
Proof.
  induction 1 as [|m u j Hu IH Hj Hne Hl].
  - left. rewrite (proj1 grown_extends). constructor.
  - assert (Hnota : u <> a) by (intros ->; apply Hne, (gr_new _ _ _ _ _ _ Hg); done).
    destruct IH as [IH|[IH _]]; [|done].
    destruct (ti_used _ Hinv _ _ IH) as (Huse & _ & Hual).
    destruct (decide (u = t)) as [->|Hut]; [destruct (decide (j = i)) as [->|Hji]|].
    + right. rewrite (gr_entry _ _ _ _ _ _ Hg), Hv. split; [done|].
      pose proof (ti_level _ Hinv _ _ _ IH Htbl). lia.
    + left. rewrite (gr_old _ _ _ _ _ _ Hg) in * by (done || naive_solver). by apply it_child.
    + left. rewrite (gr_old _ _ _ _ _ _ Hg) in * by (done || naive_solver). by apply it_child.
Qed.

Lemma grown_inv : tables_inv s'.
Proof.
  assert (Hnota : forall m, is_table s m a -> False) by (intros m Hm; apply Hfresh, (ti_used _ Hinv m), Hm).
  constructor; [apply (gr_ok _ _ _ _ _ _ Hg)| |].
  - intros m u Hu. destruct (grown_back m u Hu) as [Hold|[-> _]].
    + destruct (ti_used _ Hinv _ _ Hold) as (Huse & Hr & Hual). split; [|done].
      apply (gr_used _ _ _ _ _ _ Hg). by left.
    + split; [|split; [lia|done]]. apply (gr_used _ _ _ _ _ _ Hg). by right.
  - intros m k u Hm Hk. destruct (grown_back m u Hm) as [Hm1|[-> ->]], (grown_back k _ Hk) as [Hk1|[Ek ->]].
    + by eapply (ti_level _ Hinv).
    + subst. by destruct (Hnota m).
    + by destruct (Hnota k).
    + done.
Qed.

Lemma grown_child : is_table s' (S n) a.
Proof.
  rewrite <-Hv, <-(gr_entry _ _ _ _ _ _ Hg). apply it_child; [by apply grown_tables|done| |];
    rewrite (gr_entry _ _ _ _ _ _ Hg); [done|by right].
Qed.

Lemma grown_upper need : grants need v = true -> upper_grants need s -> upper_grants need s'.
Proof.
  intros Hgv Hup m u j Hu Hj Hne.
  assert (Hnota : u <> a) by (intros ->; apply Hne, (gr_new _ _ _ _ _ _ Hg); done).
  destruct (grown_back _ _ Hu) as [Hold|[]]; [|done]. destruct (ti_used _ Hinv _ _ Hold) as (_ & _ & Hual).
  destruct (decide (u = t /\ j = i)) as [[-> ->]|Hd]; [by rewrite (gr_entry _ _ _ _ _ _ Hg)|].
  rewrite (gr_old _ _ _ _ _ _ Hg) in * by done. by apply (Hup m).
Qed.

End Grown.

(** A write to one entry of a page table, and the same when it enters a page. *)
Record leaf_write (s s' : vm F) (t i : Z) : Prop := {
  lf_root : pml4 s' = pml4 s;
  lf_old : forall u j, u mod 4096 = 0 -> 0 <= j < 512 -> ~ (u = t /\ j = i) -> entry s' u j = entry s u j
}.

Record leafed (s s' : vm F) (t i : Z) : Prop := {
  lf_used : forall x, fr_used (fr s) x -> fr_used (fr s') x;
  lf_ok : fr_ok (fr s');
  lf_write : leaf_write s s' t i
}.

Lemma leafed_back s s' t i : tables_inv s -> is_table s 1 t -> leaf_write s s' t i ->
  forall m u, is_table s' m u -> is_table s m u.
Proof.
  intros Hinv Ht Hl m u. induction 1 as [|m u j Hu IH Hj Hne Hll].
  - replace (root s') with (root s); [constructor|]. unfold root. by rewrite (lf_root _ _ _ _ Hl).
  - destruct (ti_used _ Hinv _ _ IH) as (_ & _ & Hual).
    rewrite (lf_old _ _ _ _ Hl) in * by (done || intros [-> _]; pose proof (ti_level _ Hinv _ _ _ IH Ht); lia).
    by apply it_child.
Qed.

Lemma leafed_inv s s' t i : tables_inv s -> is_table s 1 t -> leafed s s' t i -> tables_inv s'.
Proof.
  intros Hinv Ht Hl. pose proof (leafed_back s s' t i Hinv Ht (lf_write _ _ _ _ Hl)) as Hb.
  constructor; [apply (lf_ok _ _ _ _ Hl)| |].
  - intros m u Hu. destruct (ti_used _ Hinv _ _ (Hb _ _ Hu)) as (Huse & ? & ?).
    split; [by apply (lf_used _ _ _ _ Hl)|done].
  - intros m k u Hm Hk. eapply (ti_level _ Hinv); by apply Hb.
Qed.

Lemma leafed_extends s s' t i : tables_inv s -> leaf_write s s' t i -> entry s t i = 0 -> extends s s'.
Proof.
  intros Hinv Hl Hz. split; [unfold root; by rewrite (lf_root _ _ _ _ Hl)|]. intros m u j Hu Hj Hne.
  destruct (ti_used _ Hinv _ _ Hu) as (_ & _ & Hual).
  apply (lf_old _ _ _ _ Hl); try done. by intros [-> ->].
Qed.

(** A leaf write leaves the way to every page table. *)
Lemma leafed_entry s s' t i m u j : tables_inv s -> is_table s 1 t -> leaf_write s s' t i -> is_table s (S (S m)) u ->
  0 <= j < 512 -> entry s' u j = entry s u j.
Proof.
  intros Hinv Ht Hl Hu Hj. destruct (ti_used _ Hinv _ _ Hu) as (_ & _ & Hual).
  apply (lf_old _ _ _ _ Hl); try done. intros [-> _]. pose proof (ti_level _ Hinv _ _ _ Hu Ht). lia.
Qed.

Lemma leafed_upper s s' t i need : tables_inv s -> is_table s 1 t -> leaf_write s s' t i -> upper_grants need s -> upper_grants need s'.
Proof.
  intros Hinv Ht Hl Hup m u j Hu Hj. pose proof (leafed_back s s' t i Hinv Ht Hl _ _ Hu) as Hold.
  rewrite (leafed_entry s s' t i m u j Hinv Ht Hl Hold Hj). by apply (Hup m).
Qed.

(** The tables on the way to a page, from the translation. *)
Lemma walk_extends s s' va q : extends s s' -> walk s va = WPage q -> walk s' va = WPage q.
Proof.
  intros He. unfold walk. rewrite (proj1 He).
  pose proof (it_root s) as H4. pose proof (index_range va 39) as I4. pose proof (index_range va 30) as I3.
  pose proof (index_range va 21) as I2. pose proof (index_range va 12) as I1.
  fold (PML4_INDEX va) in I4. fold (PDP_INDEX va) in I3. fold (PD_INDEX va) in I2. fold (PT_INDEX va) in I1.
  destruct (decide (entry s (root s) (PML4_INDEX va) = 0)) as [|N4]; [done|].
  rewrite (proj2 He _ _ _ H4 I4 N4). rewrite (decide_False _ _ N4).
  pose proof (it_child s 2 _ _ H4 I4 N4 (or_introl eq_refl)) as H3.
  destruct (decide (entry s (child (entry s (root s) (PML4_INDEX va))) (PDP_INDEX va) = 0)) as [|N3]; [done|].
  rewrite (proj2 He _ _ _ H3 I3 N3). rewrite (decide_False _ _ N3).
  set (e3 := entry s _ (PDP_INDEX va)) in *. destruct (decide (Z.land e3 PAGE_LARGE <> 0)) as [|L3]; [done|].
  assert (Z.land e3 PAGE_LARGE = 0) as Z3 by (destruct (decide (Z.land e3 PAGE_LARGE = 0)); tauto).
  pose proof (it_child s 1 _ _ H3 I3 N3 (or_intror Z3)) as H2. fold e3 in H2.
  destruct (decide (entry s (child e3) (PD_INDEX va) = 0)) as [|N2]; [done|].
  rewrite (proj2 He _ _ _ H2 I2 N2). rewrite (decide_False _ _ N2).
  set (e2 := entry s _ (PD_INDEX va)) in *. destruct (decide (Z.land e2 PAGE_LARGE <> 0)) as [|L2]; [done|].
  assert (Z.land e2 PAGE_LARGE = 0) as Z2 by (destruct (decide (Z.land e2 PAGE_LARGE = 0)); tauto).
  pose proof (it_child s 0 _ _ H2 I2 N2 (or_intror Z2)) as H1. fold e2 in H1.
  destruct (decide (entry s (child e2) (PT_INDEX va) = 0)) as [|N1]; [done|].
  rewrite (proj2 He _ _ _ H1 I1 N1). by rewrite (decide_False _ _ N1).
Qed.

(** The next [n] allocations find a frame. *)
Fixpoint rich (n : nat) (f : F) : Prop :=
  match n with
  | O => True
  | S n => exists a f', fr_alloc f = Done (a, f') /\ a <> 0 /\ rich n f'
  end.

Lemma rich_alloc n f : fr_ok f -> rich (S n) f ->
  exists a f', fr_alloc f = Done (a, f') /\ fr_ok f' /\ 0 < a < 2 ^ 39 /\ a mod 4096 = 0 /\ ~ fr_used f a /\
    (forall x, fr_used f' x <-> fr_used f x \/ x = a) /\ rich n f'.
Proof.
  intros Hok (a & f' & Hrun & Ha & Hr). destruct (fr_alloc_ok f Hok) as (a1 & f1 & Hrun1 & Hok1 & Hcase & Hu).
  rewrite Hrun in Hrun1. injection Hrun1 as <- <-. exists a, f'. destruct Hcase as [|(Har & Hal & Hfr)]; [done|].
  do 5 (split; [done|]). split; [|done]. intros x. rewrite Hu. tauto.
Qed.

Lemma rich_less n m f : (n <= m)%nat -> rich m f -> rich n f.
Proof.
  revert m f. induction n as [|n IH]; intros m f Hle Hr; [done|]. destruct m as [|m]; [lia|].
  destruct Hr as (a & f' & ? & ? & ?). exists a, f'. split_and!; try done. apply (IH m); [lia|done].
Qed.

(** Flag words that neither reach the address bits nor ask for a large page. *)
Definition small_bits (bits : Z) : Prop := 0 < bits < 4096 /\ Z.land bits PAGE_LARGE = 0.

Lemma fresh_entry a bits : 0 < a < 2 ^ 39 -> a mod 4096 = 0 -> small_bits bits ->
  child (Z.lor a bits) = a /\ Z.lor a bits <> 0 /\ Z.land (Z.lor a bits) PAGE_LARGE = 0 /\
  Z.land (Z.lor a bits) PAGE_MASK = a.
Proof.
  intros Ha Hal [Hb Hl]. pose proof (land_frame_bits a bits ltac:(lia) Hal ltac:(lia)) as Hm.
  split; [|split; [apply lor_nonzero; lia|split; [|done]]].
  - unfold child. rewrite Hm. apply phys_small. lia.
  - rewrite Z.land_lor_distr_l, Hl, Z.lor_0_r. apply Z.bits_inj_0. intros k. rewrite Z.land_spec.
    replace a with (a / 4096 * 2 ^ 12) by (pose proof (Z.div_mod a 4096); lia).
    change PAGE_LARGE with (2 ^ 7). rewrite Z.pow2_bits_eqb by lia. destruct (Z.eqb_spec 7 k) as [<-|]; [|apply andb_false_r].
    by rewrite Z.mul_pow2_bits_low by lia.
Qed.

Lemma land_lor_self a n : Z.lor (Z.land a n) n = n.
Proof. apply Z.bits_inj'. intros k _. rewrite Z.lor_spec, Z.land_spec. by destruct (Z.testbit a k), (Z.testbit n k). Qed.

Lemma grants_lor need a bits : grants need bits = true -> grants need (Z.lor a bits) = true.
Proof.
  unfold grants. intros [Hp Hb%bool_decide_eq_true]%andb_true_iff. rewrite Z.lor_spec, Hp, orb_true_r. cbn [andb].
  apply bool_decide_eq_true. rewrite Z.land_lor_distr_l, Hb. apply land_lor_self.
Qed.

(** A frame entered with the flags [flags] can be read, written and used as they say. *)
Lemma page_bits_grant need a flags : Z.land (Z.lor 2 flags) need = need -> grants need (Z.lor a (page_bits flags)) = true.
Proof.
  intros Hn. apply grants_lor. unfold grants. apply andb_true_iff. split.
  - unfold page_bits. by rewrite !Z.lor_spec.
  - apply bool_decide_eq_true. unfold page_bits. rewrite <-Z.lor_assoc, Z.land_lor_distr_l. change PAGE_WRITABLE with 2. rewrite Hn.
    apply land_lor_self.
Qed.

Lemma grow_step s t table i a f bits :
  phys table = t -> t mod 4096 = 0 -> 0 <= t -> fr_used (fr s) t -> 0 <= i < 512 -> 0 < a < 2 ^ 39 -> a mod 4096 = 0 ->
  ~ fr_used (fr s) a -> fr_ok f -> (forall x, fr_used f x <-> fr_used (fr s) x \/ x = a) ->
  grown s (zero_page (Z.lor a KERNEL_MEMORY) (wr table i (Z.lor a bits) (set_fr f s))) t i a (Z.lor a bits).
Proof.
  intros Ht Htal Ht0 Htu Hi Ha Hal Hfresh Hok Hused.
  assert (Hta : t <> a) by (intros ->; done).
  assert (Hsep : forall u j, u mod 4096 = 0 -> u <> a -> 0 <= j < 512 -> ~ (a <= u + 8 * j < a + 4096)).
  { intros u j Hu Hua Hj Hin. apply Hua. pose proof (Z.div_mod u 4096). pose proof (Z.div_mod a 4096). lia. }
  constructor; unfold entry; cbn [pm zero_page wr set_pm set_fr fr pml4];
    rewrite ?phys_kernel, ?Ht, ?phys_small by lia; try done.
  - rewrite decide_False by (apply Hsep; done). by rewrite decide_True.
  - intros j Hj. rewrite ?phys_kernel, ?phys_small by lia. by rewrite decide_True by lia.
  - intros u j Hu Hua Hj Hne. rewrite ?phys_kernel, ?phys_small by lia. rewrite decide_False by (apply Hsep; done).
    rewrite decide_False; [done|]. intros E. apply Hne. apply entry_addr; done.
Qed.

(** One level of the way down: the entry that was there, or a fresh table. *)
Lemma next_table_get s n t table i bits create :
  phys table = t -> is_table s (S (S n)) t -> 0 <= i < 512 -> entry s t i <> 0 ->
  (S (S n) = 4%nat \/ Z.land (entry s t i) PAGE_LARGE = 0) ->
  exists q, next_table table i bits create s = Done (Some q, s) /\ phys q = child (entry s t i) /\
    is_table s (S n) (phys q) /\ rd table i s = entry s t i.
Proof.
  intros Ht Htbl Hi Hne Hl. unfold next_table. assert (Er : rd table i s = entry s t i) by (unfold rd, entry; by rewrite Ht).
  rewrite Er, decide_False by done. eexists. split; [done|]. rewrite phys_child. split; [done|].
  split; [by apply it_child|done].
Qed.

Lemma next_table_make s n t table i bits create k :
  tables_inv s -> phys table = t -> is_table s (S (S n)) t -> 0 <= i < 512 -> entry s t i = 0 -> create <> 0 ->
  small_bits bits -> rich (S k) (fr s) ->
  exists q s', next_table table i bits create s = Done (Some q, s') /\
    tables_inv s' /\ extends s s' /\ is_table s' (S n) (phys q) /\ rich k (fr s') /\
    (forall j, 0 <= j < 512 -> entry s' (phys q) j = 0) /\ rd table i s' = entry s' t i /\
    child (entry s' t i) = phys q /\ entry s' t i <> 0 /\ Z.land (entry s' t i) PAGE_LARGE = 0 /\
    (forall x, fr_used (fr s) x -> fr_used (fr s') x) /\
    (forall need, grants need bits = true -> upper_grants need s -> upper_grants need s').
Proof.
  intros Hinv Ht Htbl Hi Hz Hc Hb Hr. pose proof Hinv as [Hok Hused _].
  destruct (Hused _ _ Htbl) as (Htu & Htr & Htal).
  destruct (rich_alloc k _ Hok Hr) as (a & f & Ha & Hok' & Har & Hal & Hfresh & Hu & Hrk).
  destruct (fresh_entry a bits Har Hal Hb) as (Hch & Hvn & Hvl & _).
  unfold next_table. assert (Er : rd table i s = entry s t i) by (unfold rd, entry; by rewrite Ht).
  rewrite Er, decide_True, decide_False by done. unfold alloc_frame. rewrite Ha. cbn [mbind outcome_bind].
  pose proof (grow_step s t table i a f bits Ht Htal ltac:(lia) Htu Hi Har Hal Hfresh Hok' Hu) as Hg.
  set (s' := zero_page _ _) in *. exists (Z.lor a KERNEL_MEMORY), s'.
  assert (Ep : phys (Z.lor a KERNEL_MEMORY) = a) by (rewrite phys_kernel; apply phys_small; lia).
  rewrite Ep. pose proof (gr_entry _ _ _ _ _ _ Hg) as Ee. split; [done|].
  split; [by eapply (grown_inv s s' n t i a)|]. split; [by eapply (grown_extends s s' t i a)|].
  split; [by eapply (grown_child s s' n t i a)|]. split; [done|]. split; [apply (gr_new _ _ _ _ _ _ Hg)|].
  split; [unfold rd, entry; by rewrite Ht|]. rewrite Ee. split_and!; try done.
  - intros x Hx. apply (gr_used _ _ _ _ _ _ Hg). by left.
  - intros need Hn. eapply (grown_upper s s' n t i a); try done. by apply grants_lor.
Qed.

(** A missing entry that is not to be made ends the walk. *)
Lemma next_table_miss s t table i bits : phys table = t -> entry s t i = 0 ->
  next_table table i bits 0 s = Done (None, s).
Proof.
  intros Ht Hz. unfold next_table. assert (Er : rd table i s = entry s t i) by (unfold rd, entry; by rewrite Ht).
  rewrite Er, decide_True by done. by rewrite decide_True by done.
Qed.

(** The page table of an address: the walk without its last level. *)
Definition path (s : vm F) (va : Z) : walk_result :=
  let e4 := entry s (root s) (PML4_INDEX va) in
  if decide (e4 = 0) then WMiss
  else
    let e3 := entry s (child e4) (PDP_INDEX va) in
    if decide (e3 = 0) then WMiss
    else if decide (Z.land e3 PAGE_LARGE <> 0) then WLarge
    else
      let e2 := entry s (child e3) (PD_INDEX va) in
      if decide (e2 = 0) then WMiss
      else if decide (Z.land e2 PAGE_LARGE <> 0) then WLarge
      else WPage (child e2).

Lemma walk_path s va : walk s va =
  match path s va with
  | WPage t => if decide (entry s t (PT_INDEX va) = 0) then WMiss
               else WPage (Z.land (entry s t (PT_INDEX va)) PAGE_MASK)
  | r => r
  end.
Proof. unfold walk, path. cbv zeta. by repeat case_decide. Qed.

Lemma leafed_path s s' t i va : tables_inv s -> is_table s 1 t -> leaf_write s s' t i -> path s' va = path s va.
Proof.
  intros Hinv Ht Hl. pose proof (index_range va 39) as I4. pose proof (index_range va 30) as I3.
  pose proof (index_range va 21) as I2.
  fold (PML4_INDEX va) in I4. fold (PDP_INDEX va) in I3. fold (PD_INDEX va) in I2.
  unfold path. replace (root s') with (root s) by (unfold root; by rewrite (lf_root _ _ _ _ Hl)).
  rewrite (leafed_entry s s' t i 2 (root s) _ Hinv Ht Hl (it_root s) I4). cbv zeta.
  destruct (decide (entry s (root s) (PML4_INDEX va) = 0)) as [|N4]; [done|].
  pose proof (it_child s 2 _ _ (it_root s) I4 N4 (or_introl eq_refl)) as H3.
  rewrite (leafed_entry s s' t i 1 _ _ Hinv Ht Hl H3 I3). set (e3 := entry s _ (PDP_INDEX va)) in *.
  destruct (decide (e3 = 0)) as [|N3]; [done|]. destruct (decide (Z.land e3 PAGE_LARGE <> 0)) as [|L3]; [done|].
  assert (Z.land e3 PAGE_LARGE = 0) as Z3 by (destruct (decide (Z.land e3 PAGE_LARGE = 0)); tauto).
  pose proof (it_child s 1 _ _ H3 I3 N3 (or_intror Z3)) as H2. fold e3 in H2.
  by rewrite (leafed_entry s s' t i 0 _ _ Hinv Ht Hl H2 I2).
Qed.

Lemma next_table_level s n t table i bits k :
  tables_inv s -> phys table = t -> is_table s (S (S n)) t -> 0 <= i < 512 -> small_bits bits ->
  rich (S k) (fr s) ->
  (S (S n) = 4%nat \/ entry s t i = 0 \/ Z.land (entry s t i) PAGE_LARGE = 0) ->
  exists q s', next_table table i bits 1 s = Done (Some q, s') /\
    tables_inv s' /\ extends s s' /\ is_table s' (S n) (phys q) /\ rich k (fr s') /\
    rd table i s' = entry s' t i /\ child (entry s' t i) = phys q /\ entry s' t i <> 0 /\
    (S (S n) = 4%nat \/ Z.land (entry s' t i) PAGE_LARGE = 0) /\
    (forall x, fr_used (fr s) x -> fr_used (fr s') x) /\
    ((s' = s /\ entry s t i <> 0) \/ (entry s t i = 0 /\ forall j, 0 <= j < 512 -> entry s' (phys q) j = 0)) /\
    (forall need, grants need bits = true -> upper_grants need s -> upper_grants need s').
Proof.
  intros Hinv Ht Htbl Hi Hb Hr Hl. destruct (decide (entry s t i = 0)) as [Hz|Hne].
  - destruct (next_table_make s n t table i bits 1 k Hinv Ht Htbl Hi Hz ltac:(lia) Hb Hr)
      as (q & s' & Hrun & Hinv' & Hext & Hq & Hrk & Hnew & Hrd & Hch & Hne & Hlg & Hu & Hup).
    exists q, s'. split_and!; try done; by right.
  - assert (Hl' : S (S n) = 4%nat \/ Z.land (entry s t i) PAGE_LARGE = 0) by (destruct Hl as [|[|]]; tauto).
    destruct (next_table_get s n t table i bits 1 Ht Htbl Hi Hne Hl') as (q & Hrun & Hq & Htq & Hrd).
    exists q, s. split_and!; try done; [by eapply rich_less; [|exact Hr]; lia|by left].
Qed.

(** The way down to the page table, made where it is missing. *)
Record reached (s s' : vm F) (va bits q : Z) (k : nat) : Prop := {
  re_inv : tables_inv s';
  re_ext : extends s s';
  re_tbl : is_table s' 1 (phys q);
  re_rich : rich k (fr s');
  re_path : path s' va = WPage (phys q);
  re_used : forall x, fr_used (fr s) x -> fr_used (fr s') x;
  re_case : (path s va = WPage (phys q) /\ s' = s) \/ (path s va = WMiss /\ entry s' (phys q) (PT_INDEX va) = 0);
  re_upper : forall need, grants need bits = true -> upper_grants need s -> upper_grants need s'
}.

Lemma descend s va bits k :
  tables_inv s -> small_bits bits -> rich (3 + k) (fr s) -> path s va <> WLarge ->
  exists q3 s1 q2 s2 q s',
    next_table (memmgr_get_from_physical (pml4 s)) (PML4_INDEX va) bits 1 s = Done (Some q3, s1) /\
    next_table q3 (PDP_INDEX va) bits 1 s1 = Done (Some q2, s2) /\
    next_table q2 (PD_INDEX va) bits 1 s2 = Done (Some q, s') /\
    Z.land (rd q3 (PDP_INDEX va) s2) PAGE_LARGE = 0 /\ Z.land (rd q2 (PD_INDEX va) s') PAGE_LARGE = 0 /\
    reached s s' va bits q k.
Proof.
  intros Hinv Hb Hr Hp. pose proof (index_range va 39) as I4. pose proof (index_range va 30) as I3.
  pose proof (index_range va 21) as I2. pose proof (index_range va 12) as I1.
  fold (PML4_INDEX va) in I4. fold (PDP_INDEX va) in I3. fold (PD_INDEX va) in I2. fold (PT_INDEX va) in I1.
  destruct (next_table_level s 2 (root s) (memmgr_get_from_physical (pml4 s)) (PML4_INDEX va) bits (2 + k)
    Hinv eq_refl (it_root s) I4 Hb Hr (or_introl eq_refl))
    as (q3 & s1 & Hrun1 & Hinv1 & Hx1 & Ht3 & Hr1 & _ & Hc4 & Hn4 & _ & Hu1 & Hcase4 & Hup1).
  assert (Hl3 : entry s1 (phys q3) (PDP_INDEX va) = 0 \/ Z.land (entry s1 (phys q3) (PDP_INDEX va)) PAGE_LARGE = 0).
  { destruct Hcase4 as [[-> Hne]|[_ Hnew]]; [|left; by apply Hnew]. unfold path in Hp. rewrite (decide_False _ _ Hne), Hc4 in Hp.
    case_decide; [by left|]. destruct (decide (Z.land (entry s (phys q3) (PDP_INDEX va)) PAGE_LARGE = 0)); [by right|].
    by rewrite decide_True in Hp. }
  destruct (next_table_level s1 1 (phys q3) q3 (PDP_INDEX va) bits (1 + k)
    Hinv1 eq_refl Ht3 I3 Hb Hr1 (or_intror Hl3))
    as (q2 & s2 & Hrun2 & Hinv2 & Hx2 & Ht2 & Hr2 & Hrd3 & Hc3 & Hn3 & Hlg3 & Hu2 & Hcase3 & Hup2).
  destruct Hlg3 as [|Hlg3]; [done|].
  assert (Hl2 : entry s2 (phys q2) (PD_INDEX va) = 0 \/ Z.land (entry s2 (phys q2) (PD_INDEX va)) PAGE_LARGE = 0).
  { destruct Hcase3 as [[-> Hne3]|[_ Hnew]]; [|left; by apply Hnew].
    destruct Hcase4 as [[-> Hne4]|[_ Hnew]]; [|by rewrite Hnew in Hne3].
    unfold path in Hp. rewrite (decide_False _ _ Hne4), Hc4, (decide_False _ _ Hne3), Hc3 in Hp.
    rewrite (decide_False (P := Z.land _ _ <> 0)) in Hp by (rewrite Hlg3; tauto).
    case_decide; [by left|]. destruct (decide (Z.land (entry s (phys q2) (PD_INDEX va)) PAGE_LARGE = 0)); [by right|].
    by rewrite decide_True in Hp. }
  destruct (next_table_level s2 0 (phys q2) q2 (PD_INDEX va) bits k
    Hinv2 eq_refl Ht2 I2 Hb Hr2 (or_intror Hl2))
    as (q1 & s3 & Hrun3 & Hinv3 & Hx3 & Ht1 & Hr3 & Hrd2 & Hc2 & Hn2 & Hlg2 & Hu3 & Hcase2 & Hup3).
  destruct Hlg2 as [|Hlg2]; [done|].
  assert (Hx13 : extends s1 s3) by (by eapply extends_trans).
  assert (E4 : entry s3 (root s) (PML4_INDEX va) = entry s1 (root s) (PML4_INDEX va)).
  { rewrite <-(proj1 Hx1) in *. apply (proj2 Hx13 4%nat); [constructor|done|done]. }
  assert (E3 : entry s3 (phys q3) (PDP_INDEX va) = entry s2 (phys q3) (PDP_INDEX va)).
  { apply (proj2 Hx3 3%nat); [by eapply extends_tables|done|done]. }
  assert (Hpath : path s3 va = WPage (phys q1)).
  { unfold path. rewrite (proj1 Hx3), (proj1 Hx2), (proj1 Hx1), E4, (decide_False _ _ Hn4), Hc4, E3, (decide_False _ _ Hn3).
    rewrite (decide_False (P := Z.land _ _ <> 0)) by (rewrite Hlg3; tauto). rewrite Hc3, (decide_False _ _ Hn2).
    rewrite (decide_False (P := Z.land _ _ <> 0)) by (rewrite Hlg2; tauto). by rewrite Hc2. }
  exists q3, s1, q2, s2, q1, s3. rewrite Hrd3, Hrd2. do 5 (split; [done|]).
  constructor; try done; [by eapply extends_trans|auto| |auto].
  destruct Hcase2 as [[-> Hne2]|[Hz2 Hnew2]].
  - left. destruct Hcase3 as [[-> Hne3]|[_ Hnew]]; [|by rewrite Hnew in Hne2].
    destruct Hcase4 as [[-> Hne4]|[_ Hnew]]; [done|by rewrite Hnew in Hne3].
  - right. split; [|by apply Hnew2]. unfold path.
    destruct Hcase4 as [[-> Hne4]|[Hz4 _]]; [|by rewrite (decide_True _ _ Hz4)].
    rewrite (decide_False _ _ Hne4), Hc4.
    destruct Hcase3 as [[-> Hne3]|[Hz3 _]]; [|by rewrite (decide_True _ _ Hz3)].
    rewrite (decide_False _ _ Hne3), (decide_False (P := Z.land _ _ <> 0)) by (rewrite Hlg3; tauto).
    by rewrite Hc3, (decide_True _ _ Hz2).
Qed.

Lemma create_descends s va flags k :
  tables_inv s -> small_bits (page_bits flags) -> rich (3 + k) (fr s) -> path s va <> WLarge ->
  exists q s', memmgr_create_or_get_page va flags 1 s = get_leaf q (PT_INDEX va) flags 1 s' /\ reached s s' va (page_bits flags) q k.
Proof.
  intros Hinv Hb Hr Hp. destruct (descend s va (page_bits flags) k Hinv Hb Hr Hp)
    as (q3 & s1 & q2 & s2 & q & s' & H1 & H2 & H3 & L3 & L2 & Hre).
  exists q, s'. split; [|done]. unfold memmgr_create_or_get_page, memmgr_get_current_pml4.
  rewrite H1. cbn [mbind outcome_bind]. rewrite H2. cbn [mbind outcome_bind].
  rewrite L3, decide_False by tauto. rewrite H3. cbn [mbind outcome_bind]. by rewrite L2, decide_False by tauto.
Qed.

(** The leaf entry. *)
Lemma get_leaf_make s q i flags k :
  tables_inv s -> is_table s 1 (phys q) -> 0 <= i < 512 -> small_bits (page_bits flags) -> rich (S k) (fr s) ->
  entry s (phys q) i = 0 ->
  exists a s', get_leaf q i flags 1 s = Done (a, s') /\ leafed s s' (phys q) i /\ entry s' (phys q) i <> 0 /\
    Z.land (entry s' (phys q) i) PAGE_MASK = a /\ entry s' (phys q) i = Z.lor a (page_bits flags) /\ ~ fr_used (fr s) a /\ fr_used (fr s') a /\ (0 < a < 2 ^ 39 /\ a mod 4096 = 0) /\ rich k (fr s').
Proof.
  intros Hinv Ht Hi Hb Hr Hz. destruct (ti_used _ Hinv _ _ Ht) as (_ & Htr & Htal).
  destruct (rich_alloc k _ (ti_alloc _ Hinv) Hr) as (a & f & Ha & Hok & Har & Hal & Hfresh & Hu & Hrk).
  destruct (fresh_entry a (page_bits flags) Har Hal Hb) as (_ & Hvn & _ & Hvm).
  unfold get_leaf, alloc_frame. change (rd q i s) with (entry s (phys q) i).
  rewrite (decide_True _ _ Hz), decide_False by lia. rewrite Ha. cbn [mbind outcome_bind].
  set (s' := wr _ _ _ _). assert (Ee : entry s' (phys q) i = Z.lor a (page_bits flags)).
  { unfold entry, s'. cbn [pm wr set_pm]. by rewrite decide_True. }
  exists a, s'. change (rd q i s') with (entry s' (phys q) i). rewrite Ee, Hvm. split; [done|]. split.
  - constructor; [|done|constructor; [done|]].
    + intros x Hx. apply Hu. by left.
    + intros u j Hua Hj Hne. unfold entry, s'. cbn [pm wr set_pm]. rewrite decide_False; [done|].
      intros E. apply Hne. by apply entry_addr.
  - split_and!; try done; [|lia..]. apply Hu. by right.
Qed.

Lemma get_leaf_there s q i flags create : entry s (phys q) i <> 0 ->
  get_leaf q i flags create s = Done (Z.land (entry s (phys q) i) PAGE_MASK, s).
Proof. intros Hne. unfold get_leaf. change (rd q i s) with (entry s (phys q) i). by rewrite decide_False. Qed.

(** The read-only use. *)
Lemma get_page_walk s va flags :
  memmgr_create_or_get_page va flags 0 s = Done (match walk s va with WPage p => p | _ => 0 end, s).
Proof.
  unfold memmgr_create_or_get_page, memmgr_get_current_pml4, next_table, get_leaf, walk.
  repeat (match goal with |- context [rd ?t ?i s] =>
    change (rd t i s) with (entry s (phys t) i) end; rewrite ?phys_child);
    fold (root s); cbv zeta;
    repeat (case_decide; cbn [mbind outcome_bind]; rewrite ?phys_child;
            try match goal with |- context [rd ?t ?i s] =>
              change (rd t i s) with (entry s (phys t) i); rewrite ?phys_child end; fold (root s)); done.
Qed.

(** The processor finds what the walk finds when the entries on the way let the
    access through. *)
Lemma walk_translates need s va t : upper_grants need s -> path s va = WPage t -> grants need (entry s t (PT_INDEX va)) = true ->
  translate need s va = Some (Z.land (entry s t (PT_INDEX va)) PAGE_MASK + va mod 4096).
Proof.
  intros Hup. pose proof (index_range va 39) as I4. pose proof (index_range va 30) as I3. pose proof (index_range va 21) as I2.
  fold (PML4_INDEX va) in I4. fold (PDP_INDEX va) in I3. fold (PD_INDEX va) in I2.
  unfold path, translate, memmgr_get_current_pml4. change (rd (memmgr_get_from_physical (pml4 s)) (PML4_INDEX va) s) with (entry s (root s) (PML4_INDEX va)).
  cbv zeta. set (e4 := entry s (root s) (PML4_INDEX va)). destruct (decide (e4 = 0)) as [|N4]; [done|].
  rewrite (Hup 2%nat _ _ (it_root s) I4 N4 : grants need e4 = true). cbn [negb].
  pose proof (it_child s 2 _ _ (it_root s) I4 N4 (or_introl eq_refl)) as H3. fold e4 in H3.
  change (rd ?p (PDP_INDEX va) s) with (entry s (phys p) (PDP_INDEX va)). rewrite phys_child.
  set (e3 := entry s (child e4) (PDP_INDEX va)) in *. destruct (decide (e3 = 0)) as [|N3]; [done|].
  rewrite (Hup 1%nat _ _ H3 I3 N3 : grants need e3 = true). cbn [negb]. destruct (decide (Z.land e3 PAGE_LARGE <> 0)) as [|L3]; [done|].
  pose proof (it_child s 1 _ _ H3 I3 N3 (or_intror (dec_stable L3))) as H2. fold e3 in H2.
  change (rd ?p (PD_INDEX va) s) with (entry s (phys p) (PD_INDEX va)). rewrite phys_child.
  set (e2 := entry s (child e3) (PD_INDEX va)) in *. destruct (decide (e2 = 0)) as [|N2]; [done|].
  rewrite (Hup 0%nat _ _ H2 I2 N2 : grants need e2 = true). cbn [negb]. destruct (decide (Z.land e2 PAGE_LARGE <> 0)) as [|L2]; [done|].
  change (rd ?p (PT_INDEX va) s) with (entry s (phys p) (PT_INDEX va)). rewrite phys_child. intros [= ->]. by intros ->.
Qed.

Lemma create_upper s va flags need p s' : tables_inv s -> small_bits (page_bits flags) -> rich 4 (fr s) -> walk s va <> WLarge ->
  memmgr_create_or_get_page va flags 1 s = Done (p, s') -> Z.land (Z.lor 2 flags) need = need -> upper_grants need s -> upper_grants need s'.
Proof.
  intros Hinv Hb Hr Hnl Hrun Hn Hup. assert (Hp : path s va <> WLarge) by (intros Hp; apply Hnl; by rewrite walk_path, Hp).
  destruct (create_descends s va flags 1 Hinv Hb Hr Hp) as (q & s1 & E & [Hinv1 _ Ht1 Hr1 _ _ _ Hup1]). rewrite E in Hrun.
  pose proof (index_range va 12) as I1. fold (PT_INDEX va) in I1.
  assert (upper_grants need s1) as Hs1 by (apply Hup1; [rewrite <-(Z.lor_0_l (page_bits flags)); by apply page_bits_grant|done]).
  destruct (decide (entry s1 (phys q) (PT_INDEX va) = 0)) as [Hz|Hne].
  - destruct (get_leaf_make s1 q (PT_INDEX va) flags 0 Hinv1 Ht1 I1 Hb Hr1 Hz) as (a & s2 & E2 & Hlf & _). rewrite E2 in Hrun. injection Hrun as _ <-.
    eapply leafed_upper; [done..|apply (lf_write _ _ _ _ Hlf)|done].
  - rewrite (get_leaf_there s1 q _ flags 1 Hne) in Hrun. by injection Hrun as _ <-.
Qed.

(** ** Properties *)


(** ** Deleting and protecting pages *)

(** A page that the user may access and no large page covers has its tables. *)
Lemma check_user_path s va : tables_inv s -> memmgr_check_user va s = true -> path s va <> WLarge ->
  Z.land (entry s (root s) (PML4_INDEX va)) PAGE_LARGE = 0 ->
  exists t, path s va = WPage t /\ is_table s 1 t.
Proof.
  intros Hinv Hu Hp Hl4. unfold memmgr_check_user, memmgr_get_current_pml4, path in *.
  change (rd (memmgr_get_from_physical (pml4 s)) (PML4_INDEX va) s) with (entry s (root s) (PML4_INDEX va)) in Hu.
  pose proof (index_range va 39) as I4. pose proof (index_range va 30) as I3.
  pose proof (index_range va 21) as I2.
  fold (PML4_INDEX va) in I4. fold (PDP_INDEX va) in I3. fold (PD_INDEX va) in I2.
  set (e4 := entry s (root s) (PML4_INDEX va)) in *. cbv zeta in *.
  assert (Hnz : forall e, Z.land e PAGE_USER <> 0 -> e <> 0) by (intros e He ->; by rewrite Z.land_0_l in He).
  destruct (decide (Z.land e4 PAGE_USER = 0 \/ _)) as [|N4]; [done|].
  assert (e4 <> 0) as Z4 by (apply Hnz; tauto). rewrite (decide_False _ _ Z4) in *.
  rewrite (decide_False (P := Z.land e4 PAGE_LARGE <> 0)) in Hu by tauto.
  pose proof (it_child s 2 _ _ (it_root s) I4 Z4 (or_introl eq_refl)) as H3. fold e4 in H3.
  match type of Hu with context [rd ?p (PDP_INDEX va) s] =>
    change (rd p (PDP_INDEX va) s) with (entry s (phys p) (PDP_INDEX va)) in Hu end. rewrite phys_child in Hu.
  set (e3 := entry s (child e4) (PDP_INDEX va)) in *.
  destruct (decide (Z.land e3 PAGE_USER = 0 \/ _)) as [|N3]; [done|].
  assert (e3 <> 0) as Z3 by (apply Hnz; tauto). rewrite (decide_False _ _ Z3) in *.
  destruct (decide (Z.land e3 PAGE_LARGE <> 0)) as [|L3]; [done|].
  assert (Z.land e3 PAGE_LARGE = 0) as Q3 by (destruct (decide (Z.land e3 PAGE_LARGE = 0)); tauto).
  pose proof (it_child s 1 _ _ H3 I3 Z3 (or_intror Q3)) as H2. fold e3 in H2.
  match type of Hu with context [rd ?p (PD_INDEX va) s] =>
    change (rd p (PD_INDEX va) s) with (entry s (phys p) (PD_INDEX va)) in Hu end. rewrite phys_child in Hu.
  set (e2 := entry s (child e3) (PD_INDEX va)) in *.
  destruct (decide (Z.land e2 PAGE_USER = 0 \/ _)) as [|N2]; [done|].
  assert (e2 <> 0) as Z2 by (apply Hnz; tauto). rewrite (decide_False _ _ Z2) in *.
  destruct (decide (Z.land e2 PAGE_LARGE <> 0)) as [|L2]; [done|].
  assert (Z.land e2 PAGE_LARGE = 0) as Q2 by (destruct (decide (Z.land e2 PAGE_LARGE = 0)); tauto).
  exists (child e2). split; [done|]. by apply (it_child s 0 _ _ H2 I2 Z2 (or_intror Q2)).
Qed.

Lemma delete_page_effect s s' va t : path s va = WPage t -> memmgr_delete_page va s = Done s' ->
  s' = s \/ leaf_write s s' t (PT_INDEX va).
Proof.
  intros Hp. unfold memmgr_delete_page, memmgr_get_current_pml4, path in *.
  change (rd (memmgr_get_from_physical (pml4 s)) (PML4_INDEX va) s) with (entry s (root s) (PML4_INDEX va)).
  cbv zeta in *. set (e4 := entry s (root s) (PML4_INDEX va)) in *.
  destruct (decide (e4 = 0)); [done|]. destruct (decide (memmgr_get_from_physical _ = 0 \/ _)); [intros [= <-]; by left|].
  match goal with |- context [rd ?p (PDP_INDEX va) s] =>
    change (rd p (PDP_INDEX va) s) with (entry s (phys p) (PDP_INDEX va)) end. rewrite phys_child.
  set (e3 := entry s (child e4) (PDP_INDEX va)) in *.
  destruct (decide (e3 = 0)); [done|]. destruct (decide (memmgr_get_from_physical _ = 0 \/ _)); [intros [= <-]; by left|].
  match goal with |- context [rd ?p (PD_INDEX va) s] =>
    change (rd p (PD_INDEX va) s) with (entry s (phys p) (PD_INDEX va)) end. rewrite phys_child.
  set (e2 := entry s (child e3) (PD_INDEX va)) in *.
  destruct (decide (Z.land e3 PAGE_LARGE <> 0)); [done|].
  destruct (decide (e2 = 0)); [done|]. destruct (decide (memmgr_get_from_physical _ = 0 \/ _)); [intros [= <-]; by left|].
  destruct (decide (Z.land e2 PAGE_LARGE <> 0)); [done|].
  injection Hp as <-. intros Hrun. right.
  assert (exists s1, pm s1 = pm s /\ pml4 s1 = pml4 s /\
    s' = wr (memmgr_get_from_physical (Z.land e2 PAGE_MASK)) (PT_INDEX va) 0 s1) as (s1 & Hpm & Hroot & ->).
  { case_decide; cbn [mbind outcome_bind] in Hrun; [|injection Hrun as Hrun; by exists s].
    unfold free_frame in Hrun. destruct (fr_free _ (fr s)) as [f| | |]; cbn [mbind outcome_bind] in Hrun; try done.
    injection Hrun as Hrun. by exists (set_fr f s). }
  constructor; [done|]. intros u j Hu Hj Hne. unfold entry. cbn [pm wr set_pm]. rewrite Hpm, phys_child.
  assert (Hal : child e2 mod 4096 = 0).
  { unfold child. rewrite land_mask, low_bits, Z.land_ones by lia.
    replace (2 ^ 39) with (2 ^ 27 * 4096) by reflexivity. rewrite Z.mul_mod_distr_r by lia. apply Z.mod_mul. lia. }
  rewrite decide_False; [done|]. intros E. apply Hne. apply entry_addr; try done. apply index_range.
Qed.

End Paging.

(** The bitmap is rich when a stretch of frames at its end is free. *)
Lemma bitmap_rich n : forall f m, frames_wf f -> in_use f 0 -> idx f <= m -> 0 < m ->
  (forall j, m <= j < BITMAP_SIZE -> ~ in_use f j) -> m + Z.of_nat n <= BITMAP_SIZE -> rich n f.
Proof.
  induction n as [|n IH]; intros f m Hwf H0 Hm Hpos Hfree Hn; [done|]. simpl.
  assert (Hfuel : 2 * BITMAP_SIZE + 4 <= Z.of_nat kalloc_fuel) by (unfold kalloc_fuel; pose proof bitmap_pos; lia).
  destruct (kalloc_frame_cases 1 kalloc_fuel f Hwf ltac:(lia) Hfuel) as (H1 & _ & _).
  destruct (least_free_or_none f (Z.to_nat (BITMAP_SIZE - idx f)) (idx f)) as [(k & Hk)|Hu];
    [destruct Hwf; lia| |exfalso; apply (Hfree m); [lia|apply Hu; lia]].
  destruct (H1 k Hk) as (f' & Hrun & Hl & Hi & Hw). destruct Hk as (Hkr & Hkf & Hkl).
  exists (k * 4096), f'. split; [done|]. assert (k <> 0) by (intros ->; done). split; [lia|].
  assert (k <= m). { destruct (decide (k <= m)); [done|]. exfalso. apply (Hfree m); [lia|]. apply Hkl. lia. }
  destruct Hwf as [Hidx _]. apply (IH f' (m + 1)); try lia.
  - constructor; [lia|done].
  - unfold in_use. rewrite Hw. destruct (decide (0 = k)); [lia|done].
  - intros j Hj. unfold in_use. rewrite Hw. destruct (decide (j = k)); [lia|]. apply Hfree. lia.
Qed.

(** An empty page map at 0x1000, the frames 0 to 2 in use. *)
Definition boot_vm : vm frames := mk_vm (fun _ => 0) demo_frames 0x1000 0 0 false [].

Lemma boot_frames : frames_wf demo_frames /\ in_use demo_frames 0.
Proof. split; [|done]. constructor; [|done]. pose proof bitmap_pos. simpl. lia. Qed.

Lemma boot_inv : tables_inv boot_vm.
Proof.
  assert (Hr : forall n t, is_table boot_vm n t -> n = 4%nat /\ t = 0x1000).
  { intros n t Ht. induction Ht as [|n t i Ht IH Hi Hne Hl]; [done|]. done. }
  constructor.
  - apply boot_frames.
  - intros n t Ht. destruct (Hr _ _ Ht) as [_ ->]. split; [|split; [lia|done]].
    exists 1. split; [done|]. split; [|done]. pose proof bitmap_pos. lia.
  - intros n m t Hn Hm. destruct (Hr _ _ Hn), (Hr _ _ Hm). congruence.
Qed.

Lemma boot_rich : rich 4 (fr boot_vm).
Proof.
  destruct boot_frames as [Hwf H0]. apply (bitmap_rich 4 demo_frames 3); try done.
  intros j Hj. unfold in_use, frame_word. unfold demo_frames. cbn [memory_map]. rewrite !lookup_insert_ne, lookup_singleton_ne by lia. simpl. lia.
Qed.

Lemma boot_upper need : upper_grants need boot_vm.
Proof. intros n t i Ht Hi Hne. by destruct Hne. Qed.


Section Regions.
Context {F : Type} `{FrameAllocator F}.

Lemma delete_keeps_pm s s' va : path s va <> WLarge -> forall t, path s va = WPage t -> is_table s 1 t ->
  tables_inv s -> memmgr_delete_page va s = Done s' ->
  forall vb, PT_INDEX vb <> PT_INDEX va -> walk s' vb = walk s vb.
Proof.
  intros _ t Hp Ht Hinv Hrun vb Hne. destruct (delete_page_effect s s' va t Hp Hrun) as [->|Hlw]; [done|].
  pose proof (leafed_path s s' t (PT_INDEX va) vb Hinv Ht Hlw) as Ep.
  rewrite !walk_path, Ep. destruct (path s vb) as [| |u] eqn:Eu; [done|done|].
  assert (Hual : u mod 4096 = 0).
  { unfold path in Eu. repeat case_decide; try done. injection Eu as <-. unfold child.
    rewrite land_mask, low_bits, Z.land_ones by lia. replace (2 ^ 39) with (2 ^ 27 * 4096) by reflexivity.
    rewrite Z.mul_mod_distr_r by lia. apply Z.mod_mul. lia. }
  pose proof (index_range vb 12) as I1. fold (PT_INDEX vb) in I1.
  by rewrite (lf_old _ _ _ _ Hlw u (PT_INDEX vb)) by (done || (intros [_ E]; done)).
Qed.

Lemma each_page_one (body : Z -> vm F -> outcome (vm F)) s : each_page 1 1 body s = body 1 s.
Proof. unfold each_page. simpl. by destruct (body 1 s). Qed.

Lemma pt_index_next addr : addr mod 4096 = 0 -> 0 <= addr -> PT_INDEX (addr + 4096) <> PT_INDEX addr.
Proof.
  intros Hal H0 E. unfold PT_INDEX in E. change 0x1FF with (Z.ones 9) in E.
  rewrite !Z.land_ones, !Z.shiftr_div_pow2 in E by lia. change (2 ^ 12) with 4096 in E. change (2 ^ 9) with 512 in E.
  pose proof (Z.div_mod addr 4096 ltac:(lia)) as Hd. rewrite Hal, Z.add_0_r in Hd.
  rewrite Hd in E. replace (4096 * (addr / 4096) + 4096) with ((addr / 4096 + 1) * 4096) in E by lia.
  rewrite Z.div_mul in E by lia. rewrite (Z.mul_comm 4096), Z.div_mul in E by lia.
  pose proof (Z.div_mod (addr / 4096) 512 ltac:(lia)). pose proof (Z.div_mod (addr / 4096 + 1) 512 ltac:(lia)). lia.
Qed.

(** Munmap of one page never unmaps that page.  Its loop counts the pages
    from 1, so the region it works on is one page too high: whatever it
    returns, the page at [addr] translates as before, and when the page behind
    the region is not the user's nothing changes at all. *)
Theorem munmap_skips_first_page s addr len :
  tables_inv s -> 0 < addr -> addr + 4096 < 2 ^ 64 -> addr mod 4096 = 0 -> 0 < len <= 4096 ->
  path s (addr + 4096) <> WLarge ->
  Z.land (entry s (root s) (PML4_INDEX (addr + 4096))) PAGE_LARGE = 0 ->
  (forall s', munmap addr len s = Done s' -> walk s' addr = walk s addr) /\
  (memmgr_check_user (addr + 4096) s = false -> munmap addr len s = Done s).
Proof.
  intros Hinv Ha Ha2 Hal Hlen Hnl Hl4.
  assert (Hm : munmap addr len s
    = (if memmgr_check_user (addr + 4096) s then memmgr_delete_page (addr + 4096) s else Done s) ≫= (fun s => Done s)).
  { unfold munmap. rewrite decide_False by (change PAGE_SIZE with 4096; tauto).
    assert (page_count len = 1) as ->.
    { unfold page_count. destruct (decide (len = 4096)) as [->|]; [done|].
      rewrite Z.div_small by lia. rewrite Z.mod_small by lia. by rewrite decide_True by lia. }
    rewrite each_page_one. change (0x1000 * 1) with 4096. rewrite u64_small by lia.
    destruct (memmgr_check_user (addr + 4096) s); [|done].
    by destruct (memmgr_delete_page (addr + 4096) s). }
  rewrite Hm. split.
  - intros s' Hrun. destruct (memmgr_check_user (addr + 4096) s) eqn:Hu.
    + destruct (check_user_path s (addr + 4096) Hinv Hu Hnl Hl4) as (t & Hp & Ht).
      destruct (memmgr_delete_page (addr + 4096) s) as [s1| | |] eqn:Ed; try done. injection Hrun as <-.
      apply (delete_keeps_pm s s1 (addr + 4096) Hnl t Hp Ht Hinv Ed). intros E. symmetry in E.
      by apply pt_index_next in E; [|done|lia].
    + injection Hrun as <-. done.
  - intros ->. done.
Qed.

(** Memmgr_change_flags changes no page table: it writes through the entry
    as if it were the entry's address.  When it returns true it has written
    once through such a pointer, and memory that the kernel reaches as page
    tables is as before. *)
Theorem change_flags_leaves_tables virt flags (s : vm F) :
  let '(ok, s') := memmgr_change_flags virt flags s in
  pm s' = pm s /\ pml4 s' = pml4 s /\ (forall va, walk s' va = walk s va) /\
  (if ok then exists p, wild s' = wild s ++ [(p, flags)] else wild s' = wild s).
Proof.
  unfold memmgr_change_flags. cbv zeta. repeat case_decide; (split; [done|]; split; [done|]; split; [done|]);
    (done || by eexists).
Qed.

(** ** The kernel heap and the kernel stacks *)

(** The page operations leave the globals of the kernel heap alone. *)
Definition same_heap (s s' : vm F) : Prop := heap_len s' = heap_len s /\ k_end s' = k_end s.

Lemma same_heap_refl s : same_heap s s.
Proof. done. Qed.
Lemma same_heap_trans s1 s2 s3 : same_heap s1 s2 -> same_heap s2 s3 -> same_heap s1 s3.
Proof. unfold same_heap. intros [? ?] [? ?]. split; congruence. Qed.

Lemma alloc_same_heap s a s' : alloc_frame s = Done (a, s') -> same_heap s s'.
Proof. unfold alloc_frame. destruct (fr_alloc (fr s)) as [[? ?]| | |]; simpl; try done. by intros [= <- <-]. Qed.

Lemma next_table_heap t i bits c s r s' : next_table t i bits c s = Done (r, s') -> same_heap s s'.
Proof.
  unfold next_table. destruct (decide (rd t i s = 0)); [|by intros [= <- <-]].
  destruct (decide (c = 0)); [by intros [= <- <-]|].
  destruct (alloc_frame s) as [[a s1]| | |] eqn:E; cbn [mbind outcome_bind]; try done. intros [= <- <-].
  by apply alloc_same_heap in E.
Qed.

Lemma get_leaf_heap t i flags c s r s' : get_leaf t i flags c s = Done (r, s') -> same_heap s s'.
Proof.
  unfold get_leaf. destruct (decide (rd t i s = 0)); [|by intros [= <- <-]].
  destruct (decide (c = 0)); [by intros [= <- <-]|].
  destruct (alloc_frame s) as [[a s1]| | |] eqn:E; cbn [mbind outcome_bind]; try done. intros [= <- <-].
  by apply alloc_same_heap in E.
Qed.

Ltac heap_step L :=
  match goal with
  | |- (?o ≫= _ = Done _) -> _ =>
      let E := fresh "E" in destruct o as [[? ?]| | |] eqn:E; cbn [mbind outcome_bind]; try done; apply L in E
  end.

Lemma create_or_get_page_heap va flags c s p s' : memmgr_create_or_get_page va flags c s = Done (p, s') -> same_heap s s'.
Proof.
  unfold memmgr_create_or_get_page. heap_step next_table_heap. destruct o as [t3|]; [|by intros [= <- <-]].
  heap_step next_table_heap. destruct o as [t2|]; [|intros [= <- <-]; by eapply same_heap_trans].
  destruct (decide _); [intros [= <- <-]; by eapply same_heap_trans|].
  heap_step next_table_heap. assert (same_heap s v1) by (eapply same_heap_trans; [done|by eapply same_heap_trans]).
  destruct o as [t1|]; [|by intros [= <- <-]]. destruct (decide _); [by intros [= <- <-]|].
  intros E2. apply get_leaf_heap in E2. by eapply same_heap_trans.
Qed.

Lemma raw_step_heap t i frame flags bits c make s r s' : raw_step t i frame flags bits c make s = Done (r, s') -> same_heap s s'.
Proof.
  unfold raw_step. destruct (decide (rd t i s = 0)); [|by intros [= <- <-]].
  destruct (decide (c = 0)); [by intros [= <- <-]|]. destruct make; [|by intros [= <- <-]].
  destruct (alloc_frame s) as [[a s1]| | |] eqn:E; cbn [mbind outcome_bind]; try done. intros [= <- <-].
  by apply alloc_same_heap in E.
Qed.

Lemma create_or_get_raw_heap va frame flags c level s p s' :
  memmgr_create_or_get_raw va frame flags c level s = Done (p, s') -> same_heap s s'.
Proof.
  unfold memmgr_create_or_get_raw. heap_step raw_step_heap. destruct r as [|q|t3]; [by intros [= <- <-]..|].
  heap_step raw_step_heap. assert (same_heap s v0) by (by eapply same_heap_trans).
  destruct r as [|q|t2]; [by intros [= <- <-]..|]. destruct (decide _); [by intros [= <- <-]|].
  heap_step raw_step_heap. assert (same_heap s v1) by (by eapply same_heap_trans).
  destruct r as [|q|t1]; [by intros [= <- <-]..|].
  destruct (decide _); [by intros [= <- <-]|]. destruct (decide _); [by intros [= <- <-]|].
  destruct (decide _); by intros [= <- <-].
Qed.

Lemma each_page_heap n i body s s' : (forall k s s', body k s = Done s' -> same_heap s s') ->
  each_page n i body s = Done s' -> same_heap s s'.
Proof.
  intros Hb. unfold each_page. revert i s. induction (Z.to_nat n) as [|m IH]; intros i s; cbn [for_].
  - cbn [mbind outcome_bind]. by intros [= <-].
  - destruct (body i s) as [s1| | |] eqn:E; cbn [mbind outcome_bind]; try done. apply Hb in E. intros Hr.
    eapply same_heap_trans; [exact E|]. by apply (IH (i + 1)).
Qed.

Lemma create_pages_heap start flags n i s s' : create_pages start flags n i s = Done s' -> same_heap s s'.
Proof.
  apply each_page_heap. intros k s1 s2. heap_step create_or_get_page_heap. by intros [= <-].
Qed.

(** A kernel stack and the kernel heap share a page.  memmgr_create_stack
    maps a guard page and then the stack, but adds only the stack's length to
    the length of the heap; so the next memory sbrk hands out begins in the top
    page of the stack, where the stack grows from. *)
Theorem stack_overlaps_heap end_addr len n s p s1 q s2 :
  k_end s mod 4096 = 0 -> heap_len s mod 4096 = 0 -> 0 <= heap_len s -> 0 < len -> 0 < n ->
  0 <= k_end s -> k_end s + heap_len s + len + n + 4096 < 2 ^ 64 ->
  memmgr_create_stack false len s = Done (p, s1) -> sbrk end_addr n s1 = Done (q, s2) ->
  q = p + len - 4096.
Proof.
  intros He Hh Hh0 Hlen Hn He0 Hsum Hst Hsb. unfold memmgr_create_stack in Hst. revert Hst. cbv zeta.
  assert (Hal : (k_end s + heap_len s) mod 4096 = 0) by (rewrite Z.add_mod, He, Hh by lia; done).
  rewrite (u64_small (k_end s + heap_len s)) by lia.
  rewrite (decide_False (P := (k_end s + heap_len s) mod PAGE_SIZE <> 0)) by (change PAGE_SIZE with 4096; tauto).
  heap_step create_or_get_raw_heap.
  destruct (create_pages (k_end s + heap_len s) _ (page_count len) 1 v) as [v1| | |] eqn:Ec; cbn [mbind outcome_bind]; try done.
  apply create_pages_heap in Ec. pose proof (same_heap_trans _ _ _ E Ec) as [H1 H2]. intros [= <- <-].
  revert Hsb. unfold sbrk, lock_virt. simpl virt_lock. destruct (virt_lock v1); [done|]. cbn [mbind outcome_bind].
  rewrite decide_True by lia. simpl. rewrite H1. unfold mmap. rewrite (decide_False (P := 0 <> 0 /\ _)) by tauto.
  rewrite (decide_True (P := 0 = 0)) by done. simpl. rewrite H2.
  rewrite (decide_False (P := k_end s mod PAGE_SIZE <> 0)) by (change PAGE_SIZE with 4096; tauto).
  destruct (create_pages (k_end s) 0 _ 0 _) as [v2| | |] eqn:Ec2; simpl; try done.
  apply create_pages_heap in Ec2 as [H3 _]. simpl in H3. intros [= <- _]. rewrite H3.
  rewrite (u64_small (heap_len s + len)), !u64_small by lia. lia.
Qed.

End Regions.

Example munmap_skips_first_page_witness :
  (forall s', munmap 0x400000 4096 boot_vm = Done s' -> walk s' 0x400000 = walk boot_vm 0x400000) /\
  (memmgr_check_user (0x400000 + 4096) boot_vm = false -> munmap 0x400000 4096 boot_vm = Done boot_vm).
Proof.
  apply (munmap_skips_first_page boot_vm 0x400000 4096); [apply boot_inv|lia|lia|reflexivity|lia|discriminate|reflexivity].
Defined.

(** The boot page map with the kernel ending at 16 MiB and an empty heap: a
    stack of one page, then a page from sbrk.  The stack is at 0x1001000, and so
    is the page. *)
Definition boot_kernel : vm frames := mk_vm (fun _ => 0) demo_frames 0x1000 0 0x1000000 false [].

Example stack_overlaps_heap_witness :
  exists p s1 q s2, memmgr_create_stack false 4096 boot_kernel = Done (p, s1) /\ sbrk 0 4096 s1 = Done (q, s2) /\
    q = p + 4096 - 4096.
Proof.
  assert (H : match memmgr_create_stack false 4096 boot_kernel with
              | Done (p, s1) => match sbrk 0 4096 s1 with Done (q, _) => Z.eqb q p | _ => false end
              | _ => false
              end = true) by (vm_compute; reflexivity).
  destruct (memmgr_create_stack false 4096 boot_kernel) as [[p s1]| | |] eqn:E1; [|discriminate H..].
  destruct (sbrk 0 4096 s1) as [[q s2]| | |] eqn:E2; [|discriminate H..]. clear H.
  exists p, s1, q, s2. split; [done|]. split; [done|].
  apply (stack_overlaps_heap 0 4096 4096 boot_kernel p s1 q s2); try done; simpl; lia.
Defined.
