(* ===== verification/CloneSpace.v ===== *)
(** What memmgr_clone_page_map (kernel/arch/amd64/memmgr.c, in Paging) copies.

    [copied] relates a table and its copy level by level, with the frames the
    copy took; [below] is the processor's translation from any table of any
    level.  [space_copied] puts them together for a whole space: the first 508
    entries of the root are copied, the next three are shared with the original
    and the last one is the root itself. *)
From stdpp Require Import base list gmap.
From Stdlib Require Import ZArith Lia.
From S2P Require Import Prelude Frames Paging.

#[local] Open Scope Z_scope.

Section Clone.
Context {F : Type} `{FA : FrameAllocator F}.
Implicit Types s : vm F.

(** ** Frames and pages *)

Definition frame (x : Z) : Prop := 0 <= x < 2 ^ 39 /\ x mod 4096 = 0.
Definition held s (x : Z) : Prop := frame x /\ fr_used (fr s) x.
Definition same_page s s' (x : Z) : Prop := forall o, 0 <= o < 4096 -> pm s' (x + o) = pm s (x + o).

Lemma frames_apart x y o o' : frame x -> frame y -> x <> y -> 0 <= o < 4096 -> 0 <= o' < 4096 -> x + o <> y + o'.
Proof. intros [_ Hx] [_ Hy] Hne Ho Ho' E. pose proof (Z.div_mod x 4096). pose proof (Z.div_mod y 4096). lia. Qed.

Lemma same_entry s s' x i : same_page s s' x -> 0 <= i < 512 -> entry s' x i = entry s x i.
Proof. intros H Hi. apply H. lia. Qed.

(** [s'] is [s] after writes to the table [new] and to frames that were free;
    [L] are the frames that were taken. *)
Record grows s s' (new : Z) (L : list Z) : Prop := {
  gw_ok : fr_ok (fr s');
  gw_pml4 : pml4 s' = pml4 s;
  gw_nodup : NoDup L;
  gw_fresh : forall f, f ∈ L -> frame f /\ 0 < f /\ ~ fr_used (fr s) f;
  gw_used : forall x, fr_used (fr s') x <-> fr_used (fr s) x \/ x ∈ L;
  gw_page : forall x, held s x -> x <> new -> same_page s s' x
}.

Lemma grows_held s s' new L x : grows s s' new L -> held s x -> held s' x.
Proof. intros Hg [Hx Hu]. split; [done|]. apply (gw_used _ _ _ _ Hg). by left. Qed.

Lemma grows_new s s' new L f : grows s s' new L -> f ∈ L -> held s' f.
Proof. intros Hg Hf. split; [apply (gw_fresh _ _ _ _ Hg f Hf)|]. apply (gw_used _ _ _ _ Hg). by right. Qed.

Lemma grows_trans s s1 s2 new L1 L2 : grows s s1 new L1 -> grows s1 s2 new L2 -> grows s s2 new (L1 ++ L2).
Proof.
  intros G1 G2. pose proof G1 as [O1 P1 N1 F1 U1 M1]. pose proof G2 as [O2 P2 N2 F2 U2 M2]. constructor; [done|congruence|..].
  - apply NoDup_app. split; [done|]. split; [|done]. intros x H1 H2. destruct (F2 x H2) as (_ & _ & Hn). apply Hn, U1. by right.
  - intros f [Hf|Hf]%elem_of_app; [by apply F1|]. destruct (F2 f Hf) as (? & ? & Hn). split; [done|]. split; [done|]. intros Hu. apply Hn, U1. by left.
  - intros x. rewrite U2, U1, elem_of_app. tauto.
  - intros x Hx Hne o Ho. rewrite (M2 x) by (done || by eapply grows_held). by apply M1.
Qed.

(** The same when the second part fills the table that the first one took. *)
Lemma grows_nested s s1 s2 new f L : grows s s1 new [f] -> grows s1 s2 f L -> grows s s2 new (f :: L).
Proof.
  intros G1 G2. pose proof G1 as [O1 P1 N1 F1 U1 M1]. pose proof G2 as [O2 P2 N2 F2 U2 M2].
  assert (Hf : fr_used (fr s1) f) by (apply U1; right; apply list_elem_of_here). constructor; [done|congruence|..].
  - apply NoDup_cons. split; [|done]. intros Hin. destruct (F2 f Hin) as (_ & _ & Hn). done.
  - intros x [->|Hx]%elem_of_cons; [apply F1, list_elem_of_here|]. destruct (F2 x Hx) as (? & ? & Hn). split; [done|]. split; [done|]. intros Hu. apply Hn, U1. by left.
  - intros x. rewrite U2, U1, list_elem_of_singleton, elem_of_cons. tauto.
  - intros x Hx Hne o Ho. rewrite (M2 x); [by apply M1|by eapply grows_held| |done].
    intros ->. destruct (F1 f (list_elem_of_here _ _)) as (_ & _ & Hn). apply Hn, Hx.
Qed.

(** A write to an entry of the new table. *)
Lemma grows_write s pt new i v : fr_ok (fr s) -> phys pt = new -> frame new -> 0 <= i < 512 ->
  grows s (wr pt i v s) new [] /\ entry (wr pt i v s) new i = v /\ (forall j, 0 <= j < 512 -> j <> i -> entry (wr pt i v s) new j = entry s new j).
Proof.
  intros Hok Hp Hn Hi. split; [|split].
  - constructor; [done|done|apply NoDup_nil_2|intros f Hf; by apply elem_of_nil in Hf|intros x; rewrite elem_of_nil; cbn; tauto|].
    intros x [Hx _] Hne o Ho. unfold wr. cbn [pm set_pm]. rewrite Hp. rewrite decide_False; [done|]. apply frames_apart; try done. lia.
  - unfold entry, wr. cbn [pm set_pm]. by rewrite Hp, decide_True.
  - intros j Hj Hne. unfold entry, wr. cbn [pm set_pm]. rewrite Hp, decide_False; [done|lia].
Qed.

(** A frame taken, entered and filled. *)
Lemma grows_take s pt new i f fr' s' : fr_ok fr' -> (forall x, fr_used fr' x <-> fr_used (fr s) x \/ x = f) -> ~ fr_used (fr s) f -> frame f -> 0 < f ->
  phys pt = new -> held s new -> 0 <= i < 512 ->
  (forall a, ~ (f <= a < f + 4096) -> pm s' a = pm (wr pt i (Z.lor f 7) s) a) -> fr s' = fr' -> pml4 s' = pml4 s ->
  grows s s' new [f] /\ entry s' new i = Z.lor f 7 /\ (forall j, 0 <= j < 512 -> j <> i -> entry s' new j = entry s new j).
Proof.
  intros Hok Hu Hfr Hf H0 Hp [Hn Hnu] Hi Hpm Hfs Hps. assert (Hnf : new <> f) by (intros ->; done).
  assert (Hout : forall x o, frame x -> x <> f -> 0 <= o < 4096 -> ~ (f <= x + o < f + 4096)).
  { intros x o Hx Hne Ho Hin. apply (frames_apart x f o (x + o - f)); try done; lia. }
  assert (He : forall j, 0 <= j < 512 -> entry s' new j = entry (wr pt i (Z.lor f 7) s) new j) by (intros j Hj; apply Hpm, Hout; [done|done|lia]).
  split; [|split].
  - constructor; [by rewrite Hfs|done|apply NoDup_singleton| | |].
    + intros x ->%list_elem_of_singleton. done.
    + intros x. rewrite Hfs, Hu, list_elem_of_singleton. done.
    + intros x [Hx Hxu] Hne o Ho. rewrite Hpm by (apply Hout; [done|by intros ->|done]). unfold wr. cbn [pm set_pm]. rewrite Hp, decide_False; [done|].
      apply frames_apart; try done. lia.
  - rewrite He by done. unfold entry, wr. cbn [pm set_pm]. by rewrite Hp, decide_True.
  - intros j Hj Hne. rewrite He by done. unfold entry, wr. cbn [pm set_pm]. rewrite Hp, decide_False; [done|lia].
Qed.

(** ** The original and its copy *)

Definition user (e : Z) : Prop := e <> 0 /\ Z.land e PAGE_USER <> 0.
Definition table (e : Z) : Prop := e <> 0 /\ Z.land e PAGE_LARGE = 0.
#[local] Instance user_dec e : Decision (user e) := ltac:(unfold user; apply _).
#[local] Instance table_dec e : Decision (table e) := ltac:(unfold table; apply _).

(** The tables below a table of level [d] (0 is a page table) and the pages of
    programs in them are frames the allocator holds. *)
Fixpoint owned (d : nat) s (t : Z) : Prop :=
  held s t /\ forall i, 0 <= i < 512 ->
    match d with
    | O => user (entry s t i) -> held s (Z.land (entry s t i) PAGE_MASK)
    | S d => table (entry s t i) -> owned d s (child (entry s t i))
    end.

(** How many frames the copy takes. *)
Fixpoint cost (d : nat) s (t : Z) : nat :=
  sum_list_with (fun i => match d with
    | O => if decide (user (entry s t (Z.of_nat i))) then 1 else 0
    | S d => if decide (table (entry s t (Z.of_nat i))) then S (cost d s (child (entry s t (Z.of_nat i)))) else 0
    end)%nat (seq 0 512).

Fixpoint copied (d : nat) s0 s1 (old new : Z) (L : list Z) : Prop :=
  exists Ls, length Ls = 512%nat /\ L = mjoin Ls /\ forall (j : nat) Lj, Ls !! j = Some Lj ->
    let e := entry s0 old (Z.of_nat j) in
    let e' := entry s1 new (Z.of_nat j) in
    match d with
    | O => if decide (user e) then exists f, e' = Z.lor f 7 /\ Lj = [f] /\ forall o, 0 <= o < 4096 -> pm s1 (f + o) = pm s0 (child e + o)
           else e' = e /\ Lj = []
    | S d => if decide (table e) then exists f L', e' = Z.lor f 7 /\ Lj = f :: L' /\ copied d s0 s1 (child e) f L'
             else e' = e /\ Lj = []
    end.

(** One entry of a copy. *)
Definition entry_copied (d : nat) s0 s1 (old new j : Z) (L : list Z) : Prop :=
  let e := entry s0 old j in
  let e' := entry s1 new j in
  match d with
  | O => if decide (user e) then exists f, e' = Z.lor f 7 /\ L = [f] /\ forall o, 0 <= o < 4096 -> pm s1 (f + o) = pm s0 (child e + o)
         else e' = e /\ L = []
  | S d => if decide (table e) then exists f L', e' = Z.lor f 7 /\ L = f :: L' /\ copied d s0 s1 (child e) f L'
           else e' = e /\ L = []
  end.

Lemma copied_entries d s0 s1 old new L : copied d s0 s1 old new L <->
  exists Ls, length Ls = 512%nat /\ L = mjoin Ls /\ forall (j : nat) Lj, Ls !! j = Some Lj -> entry_copied d s0 s1 old new (Z.of_nat j) Lj.
Proof. by destruct d. Qed.

Lemma elem_of_mjoin_lookup {A} (Ls : list (list A)) j Lj x : Ls !! j = Some Lj -> x ∈ Lj -> x ∈ mjoin Ls.
Proof. intros Hj Hx. apply list_elem_of_join. exists Lj. split; [done|]. by eapply list_elem_of_lookup_2. Qed.

(** A copy stays one when its table and its frames stay. *)
Lemma copied_keep d : forall s0 s1 s2 old new L, (forall f, f = new \/ f ∈ L -> same_page s1 s2 f) -> copied d s0 s1 old new L -> copied d s0 s2 old new L.
Proof.
  induction d as [|d IH]; intros s0 s1 s2 old new L Hs (Ls & Hl & -> & H); exists Ls; split; [done| |done|]; (split; [done|]); intros j Lj Hj.
  all: assert (Hlt : 0 <= Z.of_nat j < 512) by (apply lookup_lt_Some in Hj; lia); specialize (H j Lj Hj); cbn zeta in *.
  all: assert (Hin : forall x, x ∈ Lj -> same_page s1 s2 x) by (intros x Hx; apply Hs; right; by eapply elem_of_mjoin_lookup).
  all: rewrite (same_entry s1 s2 new) by (done || (apply Hs; by left)); case_decide; [|done].
  - destruct H as (f & He & -> & Hp). exists f. split; [done|]. split; [done|]. intros o Ho. rewrite (Hin f (list_elem_of_here _ _) o Ho). by apply Hp.
  - destruct H as (f & L' & He & -> & Hc). exists f, L'. split; [done|]. split; [done|]. apply (IH s0 s1); [|done].
    intros x [->|Hx]; apply Hin; [apply list_elem_of_here|by apply list_elem_of_further].
Qed.

Lemma entry_copied_keep d s0 s1 s2 old new j L : entry s2 new j = entry s1 new j -> (forall f, f ∈ L -> same_page s1 s2 f) ->
  entry_copied d s0 s1 old new j L -> entry_copied d s0 s2 old new j L.
Proof.
  unfold entry_copied. intros -> Hs. destruct d as [|d]; cbn zeta; (case_decide; [|done]).
  - intros (f & He & -> & Hp). exists f. split; [done|]. split; [done|]. intros o Ho. rewrite (Hs f (list_elem_of_here _ _) o Ho). by apply Hp.
  - intros (f & L' & He & -> & Hc). exists f, L'. split; [done|]. split; [done|]. apply (copied_keep d s0 s1); [|done].
    intros x [->|Hx]; apply Hs; [apply list_elem_of_here|by apply list_elem_of_further].
Qed.

(** ** One table *)

(** The pages of the original are still there and what they were. *)
Definition source s0 s : Prop := forall x, held s0 x -> held s x /\ same_page s0 s x.

Lemma source_grows s0 s s' new L : ~ fr_used (fr s0) new -> source s0 s -> grows s s' new L -> source s0 s'.
Proof.
  intros Hn Hs Hg x Hx. destruct (Hs x Hx) as [Hh Hp]. split; [by eapply grows_held|]. intros o Ho.
  rewrite (gw_page _ _ _ _ Hg x) by (done || (intros ->; by apply Hn, Hx)). by apply Hp.
Qed.

Lemma source_entry s0 s t i : source s0 s -> held s0 t -> 0 <= i < 512 -> entry s t i = entry s0 t i.
Proof. intros Hs Ht Hi. apply same_entry; [|done]. by apply Hs. Qed.

(** What one turn of a loop over the entries of [new] does. *)
Record turn s s' (new i : Z) (L : list Z) (k : nat) : Prop := {
  tu_grows : grows s s' new L;
  tu_rich : rich k (fr s');
  tu_rest : forall j, 0 <= j < 512 -> j <> i -> entry s' new j = entry s new j
}.

Record filled s0 s new : Prop := {
  fi_source : source s0 s;
  fi_held : held s new;
  fi_ok : fr_ok (fr s)
}.

Lemma filled_grows s0 s s' new L : ~ fr_used (fr s0) new -> filled s0 s new -> grows s s' new L -> filled s0 s' new.
Proof. intros Hn [Hs Hh _] Hg. constructor; [by eapply source_grows|by eapply grows_held|apply Hg]. Qed.

Lemma loop_grows s0 new (n : nat) body (c : nat -> nat) (R : nat -> vm F -> list Z -> Prop) s k : (n <= 512)%nat -> ~ fr_used (fr s0) new ->
  (forall (i : nat) s k, (i < n)%nat -> filled s0 s new -> entry s new (Z.of_nat i) = 0 -> rich (c i + k) (fr s) ->
     exists s' L, body (Z.of_nat i) s = Done s' /\ turn s s' new (Z.of_nat i) L k /\ R i s' L) ->
  (forall i s s' L, R i s L -> entry s' new (Z.of_nat i) = entry s new (Z.of_nat i) -> (forall f, f ∈ L -> same_page s s' f) -> R i s' L) ->
  filled s0 s new -> (forall j, 0 <= j < 512 -> entry s new j = 0) -> rich (sum_list_with c (seq 0 n) + k) (fr s) ->
  exists s' Ls, each_page (Z.of_nat n) 0 body s = Done s' /\ length Ls = n /\ grows s s' new (mjoin Ls) /\ rich k (fr s') /\
    (forall j Lj, Ls !! j = Some Lj -> R j s' Lj) /\ (forall j, Z.of_nat n <= j < 512 -> entry s' new j = 0).
Proof.
  intros Hn Hnew Hstep Hkeep Hf Hz Hr.
  set (I := fun (i : Z) g => exists Ls, length Ls = Z.to_nat i /\ grows s g new (mjoin Ls) /\ rich (sum_list_with c (seq (Z.to_nat i) (n - Z.to_nat i)) + k) (fr g) /\
    (forall j Lj, Ls !! j = Some Lj -> R j g Lj) /\ (forall j, i <= j < 512 -> entry g new j = 0)).
  unfold each_page. rewrite Nat2Z.id.
  destruct (for_total (A := unit) I n 0 (fun i g => g ← body i g; Done (inl g)) s) as (s' & -> & Ls & Hl & Hg & Hrk & HR & Hz').
  - intros i g Hi (Ls & Hl & Hg & Hrk & HR & Hz'). destruct (Z_of_nat_complete i ltac:(lia)) as [m ->]. rewrite Nat2Z.id in Hl, Hrk.
    replace (n - m)%nat with (S (n - S m)) in Hrk by lia. cbn [seq sum_list_with] in Hrk. rewrite <-Nat.add_assoc in Hrk.
    destruct (Hstep m g _ ltac:(lia) (filled_grows _ _ _ _ _ Hnew Hf Hg) (Hz' (Z.of_nat m) ltac:(lia)) Hrk) as (g' & L & Hb & [Hg2 Hr2 Hrest] & HRm).
    exists g'. rewrite Hb. split; [done|]. exists (Ls ++ [L]). replace (Z.to_nat (Z.of_nat m + 1)) with (S m) by lia.
    assert (Hj : mjoin (Ls ++ [L]) = mjoin Ls ++ L) by (rewrite join_app; cbn [mjoin list_join]; by rewrite app_nil_r).
    rewrite Hj. split; [rewrite length_app; cbn; lia|]. split; [by eapply grows_trans|]. split; [done|]. split.
    + intros j Lj Hlk. destruct (decide (j < length Ls)%nat).
      * rewrite lookup_app_l in Hlk by done. apply (Hkeep j g); [by apply HR|apply Hrest; lia|].
        intros f Hfin. assert (f ∈ mjoin Ls) as Hin by by eapply elem_of_mjoin_lookup. apply (gw_page _ _ _ _ Hg2); [by eapply grows_new|].
        intros ->. destruct (gw_fresh _ _ _ _ Hg new Hin) as (_ & _ & Hnu). apply Hnu, (fi_held _ _ _ Hf).
      * rewrite lookup_app_r in Hlk by lia. destruct (j - length Ls)%nat as [|q] eqn:Eq; [|done]. injection Hlk as <-. by replace j with m by lia.
    + intros j Hj'. rewrite Hrest by lia. apply Hz'. lia.
  - exists []. split; [done|]. split; [constructor; try done; [apply Hf|apply NoDup_nil_2|intros f Hin; by apply elem_of_nil in Hin|intros x; rewrite elem_of_nil; tauto]|].
    rewrite Nat.sub_0_r. split; [done|]. split; [done|]. intros j Hj. apply Hz. lia.
  - exists s', Ls. rewrite Z.add_0_l, Nat2Z.id in Hl. split; [done|]. split; [done|]. split; [done|]. split; [|split; [done|]].
    + rewrite Z.add_0_l, Nat2Z.id, Nat.sub_diag in Hrk. exact Hrk.
    + intros j Hj. apply Hz'. lia.
Qed.

(** The loops of the code, by level. *)
Fixpoint clone_tbl (d : nat) (old new : Z) (s : vm F) : outcome (vm F) :=
  each_page 512 0 (match d with O => clone_page old new | S d => fun k => clone_level old new k (clone_tbl d) end) s.

Lemma grows_refl s new : fr_ok (fr s) -> grows s s new [].
Proof. intros H. constructor; try done; [apply NoDup_nil_2|intros f Hf; by apply elem_of_nil in Hf|intros x; rewrite elem_of_nil; tauto]. Qed.

Lemma rich_take n s : fr_ok (fr s) -> rich (S n) (fr s) -> exists f fr', fr_alloc (fr s) = Done (f, fr') /\ fr_ok fr' /\ frame f /\ 0 < f /\ ~ fr_used (fr s) f /\
  (forall x, fr_used fr' x <-> fr_used (fr s) x \/ x = f) /\ rich n fr'.
Proof. intros Hok Hr. destruct (rich_alloc n _ Hok Hr) as (f & fr' & H1 & H2 & H3 & H4 & H5 & H6 & H7). exists f, fr'. unfold frame. split_and!; done || lia. Qed.

Lemma phys_frame f : frame f -> phys (memmgr_get_from_physical f) = f.
Proof. intros [Hf _]. by rewrite phys_from_physical, phys_small. Qed.

Lemma page_turn s0 s old new po pn i k : filled s0 s new -> ~ fr_used (fr s0) new -> held s0 old -> phys po = old -> phys pn = new -> 0 <= i < 512 ->
  entry s new i = 0 -> (user (entry s0 old i) -> held s0 (child (entry s0 old i))) -> rich ((if decide (user (entry s0 old i)) then 1 else 0) + k) (fr s) ->
  exists s' L, clone_page po pn i s = Done s' /\ turn s s' new i L k /\ entry_copied 0 s0 s' old new i L.
Proof.
  intros [Hs Hh Hok] Hn Ho Hpo Hpn Hi Hz Hc Hr. unfold clone_page. assert (E : rd po i s = entry s0 old i) by (unfold rd; rewrite Hpo; by apply (source_entry s0 s)).
  rewrite E. set (e := entry s0 old i) in *. unfold entry_copied. fold e. cbn zeta. destruct (decide (e = 0)) as [He|He].
  { exists s, []. split; [done|]. rewrite (decide_False (P := user e)) in Hr by (intros [? _]; done); rewrite (decide_False (P := user e)) by (intros [? _]; done). split; [|by rewrite Hz, He]. constructor; [by apply grows_refl|exact Hr|done]. }
  destruct (decide (Z.land e PAGE_USER <> 0)) as [Hu|Hu].
  - rewrite (decide_True (P := user e)) in Hr by done. destruct (rich_take k s Hok Hr) as (f & fr' & Ha & Hok' & Hf & H0 & Hnu & Hus & Hrk). unfold alloc_frame. rewrite Ha. cbn [mbind outcome_bind].
    change user_bits with 7. set (s' := copy_page _ _ _).
    destruct (grows_take s pn new i f fr' s') as (Hg & He' & Hrest); try done.
    { intros a Hout. unfold s', copy_page. cbn [pm set_pm]. rewrite !phys_frame by done. by rewrite decide_False. }
    exists s', [f]. split; [done|]. split; [by constructor|]. rewrite (decide_True (P := user e)) by done. exists f. split; [done|]. split; [done|]. intros o Hor. unfold s', copy_page. cbn [pm set_pm].
    rewrite phys_frame, phys_child by done. rewrite decide_True by lia. replace (f + o - f) with o by lia. destruct (Hc ltac:(done)) as [Hcf Hcu].
    unfold wr. cbn [pm set_pm set_fr]. rewrite Hpn. rewrite decide_False by (apply frames_apart; [done|apply Hh|by intros <-|done|lia]).
    apply (Hs (child e) (conj Hcf Hcu)). done.
  - rewrite (decide_False (P := user e)) in Hr by (intros [_ ?]; done). destruct (grows_write s pn new i e Hok Hpn (proj1 Hh) Hi) as (Hg & He' & Hrest).
    exists (wr pn i e s), []. split; [done|]. split; [by constructor|]. rewrite (decide_False (P := user e)) by (intros [_ ?]; done). done.
Qed.

Lemma table_turn (d : nat) s0 s old new po pn i k :
  (forall s old new po pn k, filled s0 s new -> ~ fr_used (fr s0) new -> owned d s0 old -> phys po = old -> phys pn = new ->
     (forall j, 0 <= j < 512 -> entry s new j = 0) -> rich (cost d s0 old + k) (fr s) ->
     exists s' L, clone_tbl d po pn s = Done s' /\ grows s s' new L /\ rich k (fr s') /\ copied d s0 s' old new L) ->
  filled s0 s new -> ~ fr_used (fr s0) new -> held s0 old -> phys po = old -> phys pn = new -> 0 <= i < 512 ->
  entry s new i = 0 -> (table (entry s0 old i) -> owned d s0 (child (entry s0 old i))) ->
  rich ((if decide (table (entry s0 old i)) then S (cost d s0 (child (entry s0 old i))) else 0) + k) (fr s) ->
  exists s' L, clone_level po pn i (clone_tbl d) s = Done s' /\ turn s s' new i L k /\ entry_copied (S d) s0 s' old new i L.
Proof.
  intros IH [Hs Hh Hok] Hn Ho Hpo Hpn Hi Hz Hc Hr. unfold clone_level. assert (E : rd po i s = entry s0 old i) by (unfold rd; rewrite Hpo; by apply (source_entry s0 s)).
  rewrite E. set (e := entry s0 old i) in *. unfold entry_copied. fold e. cbn zeta. destruct (decide (Z.land e PAGE_LARGE <> 0)) as [Hl|Hl].
  { rewrite (decide_False (P := table e)) in Hr by (intros [_ ?]; done). destruct (grows_write s pn new i e Hok Hpn (proj1 Hh) Hi) as (Hg & He' & Hrest).
    exists (wr pn i e s), []. split; [done|]. split; [by constructor|]. rewrite (decide_False (P := table e)) by (intros [_ ?]; done). done. }
  destruct (decide (e = 0)) as [He|He].
  { exists s, []. split; [done|]. rewrite (decide_False (P := table e)) in Hr by (intros [? _]; done); rewrite (decide_False (P := table e)) by (intros [? _]; done). split; [|by rewrite Hz, He]. constructor; [by apply grows_refl|exact Hr|done]. }
  assert (Ht : table e) by (split; [done|by apply dec_stable]). rewrite (decide_True (P := table e)) in Hr by done.
  destruct (rich_take _ s Hok Hr) as (f & fr' & Ha & Hok' & Hf & H0 & Hnu & Hus & Hrk). unfold alloc_frame. rewrite Ha. cbn [mbind outcome_bind].
  change user_bits with 7. set (s1 := zero_page _ _).
  destruct (grows_take s pn new i f fr' s1) as (Hg & He' & Hrest); try done.
  { intros a Hout. unfold s1, zero_page. cbn [pm set_pm]. rewrite !phys_frame by done. by rewrite decide_False. }
  assert (Hnf : ~ fr_used (fr s0) f) by (intros Hu; apply Hnu, (Hs f (conj Hf Hu))).
  destruct (IH s1 (child e) f (memmgr_get_from_physical (Z.land e PAGE_MASK)) (memmgr_get_from_physical f) k) as (s2 & L & Hrun & Hg2 & Hrk2 & Hcp); try done.
  - constructor; [exact (source_grows s0 s s1 new [f] Hn Hs Hg)|apply (grows_new s s1 new [f]); [done|apply list_elem_of_here]|apply Hg].
  - by apply Hc.
  - apply phys_child.
  - by apply phys_frame.
  - intros j Hj. unfold entry, s1, zero_page. cbn [pm set_pm]. rewrite phys_frame by done. by rewrite decide_True by lia.
  - assert (Hnew : same_page s1 s2 new) by (apply (gw_page _ _ _ _ Hg2); [by eapply grows_held|by intros ->; apply Hnu, Hh]).
    exists s2, (f :: L). split; [done|]. split.
    + constructor; [by eapply grows_nested|done|]. intros j Hj Hne. rewrite (same_entry s1 s2 new j Hnew Hj). by apply Hrest.
    + rewrite (decide_True (P := table e)) by done. exists f, L. rewrite (same_entry s1 s2 new i Hnew Hi). done.
Qed.

Lemma held_child s e : held s (Z.land e PAGE_MASK) -> held s (child e) /\ child e = Z.land e PAGE_MASK.
Proof. intros [[Hf Hal] Hu]. assert (E : child e = Z.land e PAGE_MASK) by by apply phys_small. by rewrite E. Qed.

Lemma clone_tbl_ok d s0 : forall s old new po pn k, filled s0 s new -> ~ fr_used (fr s0) new -> owned d s0 old -> phys po = old -> phys pn = new ->
  (forall j, 0 <= j < 512 -> entry s new j = 0) -> rich (cost d s0 old + k) (fr s) ->
  exists s' L, clone_tbl d po pn s = Done s' /\ grows s s' new L /\ rich k (fr s') /\ copied d s0 s' old new L.
Proof.
  induction d as [|d IH]; intros s old new po pn k Hf Hn [Hh Ho] Hpo Hpn Hz Hr.
  - destruct (loop_grows s0 new 512 (clone_page po pn) (fun i => if decide (user (entry s0 old (Z.of_nat i))) then 1%nat else 0%nat)
      (fun i s L => entry_copied 0 s0 s old new (Z.of_nat i) L) s k) as (s' & Ls & Hrun & Hl & Hg & Hrk & HR & _); try done.
    + intros i g k' Hi Hfg Hzi Hri. apply (page_turn s0 g old new po pn (Z.of_nat i) k'); try done; [lia|]. intros Hus. apply held_child, Ho; [lia|done].
    + intros i g g' L HR He Hp. by apply (entry_copied_keep 0 s0 g).
    + exists s', (mjoin Ls). split; [exact Hrun|]. split; [done|]. split; [done|]. apply copied_entries. by exists Ls.
  - destruct (loop_grows s0 new 512 (fun k => clone_level po pn k (clone_tbl d))
      (fun i => if decide (table (entry s0 old (Z.of_nat i))) then S (cost d s0 (child (entry s0 old (Z.of_nat i)))) else 0%nat)
      (fun i s L => entry_copied (S d) s0 s old new (Z.of_nat i) L) s k) as (s' & Ls & Hrun & Hl & Hg & Hrk & HR & _); try done.
    + intros i g k' Hi Hfg Hzi Hri. apply (table_turn d s0 g old new po pn (Z.of_nat i) k'); try done; [lia|apply Ho; lia].
    + intros i g g' L HR He Hp. by apply (entry_copied_keep (S d) s0 g).
    + exists s', (mjoin Ls). split; [exact Hrun|]. split; [done|]. split; [done|]. apply copied_entries. by exists Ls.
Qed.
(** ** The root *)

(** The current space can be copied: its tables in the user half and the pages
    of programs in them are frames in use, the processor's reserved bit of the
    root's entries is clear and there are frames for the copy. *)
Definition root_cost s : nat :=
  sum_list_with (fun i => if decide (table (entry s (root s) (Z.of_nat i))) then S (cost 2 s (child (entry s (root s) (Z.of_nat i)))) else 0%nat) (seq 0 508).

Record clonable s : Prop := {
  cl_ok : fr_ok (fr s);
  cl_root : held s (root s);
  cl_large : forall i, 0 <= i < 508 -> Z.land (entry s (root s) i) PAGE_LARGE = 0;
  cl_owned : forall i, 0 <= i < 508 -> table (entry s (root s) i) -> owned 2 s (child (entry s (root s) i));
  cl_rich : rich (S (root_cost s)) (fr s)
}.

(** Entry [j] of the new root: a copy in the user half, the same tables above. *)
Definition root_entry s0 (new : Z) (j : nat) s (L : list Z) : Prop :=
  if decide (j < 508)%nat then entry_copied 3 s0 s (root s0) new (Z.of_nat j) L
  else entry s new (Z.of_nat j) = entry s0 (root s0) (Z.of_nat j) /\ L = [].

Lemma kernel_turn s0 s new pn i k : filled s0 s new -> held s0 (root s0) -> phys pn = new -> 0 <= i < 512 -> entry s new i = 0 -> rich k (fr s) ->
  ~ (Z.land (entry s0 (root s0) i) PAGE_LARGE = 0 /\ entry s0 (root s0) i <> 0) ->
  exists s', clone_level (pml4 s0) pn i clone_pdp s = Done s' /\ turn s s' new i [] k /\ entry s' new i = entry s0 (root s0) i.
Proof.
  intros [Hs Hh Hok] Ho Hpn Hi Hz Hr Hne. unfold clone_level.
  assert (E : rd (pml4 s0) i s = entry s0 (root s0) i).
  { unfold rd. rewrite <-phys_from_physical. by apply (source_entry s0 s (root s0)). }
  rewrite E. destruct (decide (Z.land _ PAGE_LARGE <> 0)) as [|Hl%dec_stable].
  - destruct (grows_write s pn new i (entry s0 (root s0) i) Hok Hpn (proj1 Hh) Hi) as (Hg & He' & Hrest). eexists. split; [done|]. split; [by constructor|done].
  - destruct (decide (entry s0 (root s0) i = 0)) as [He|]; [|by destruct Hne]. exists s. split; [done|]. split; [|by rewrite Hz, He].
    constructor; [by apply grows_refl|done|done].
Qed.

Lemma root_turn s0 s new pn (i : nat) k : clonable s0 -> filled s0 s new -> ~ fr_used (fr s0) new -> phys pn = new -> (i < 511)%nat ->
  entry s new (Z.of_nat i) = 0 ->
  rich ((if decide (i < 508)%nat then if decide (table (entry s0 (root s0) (Z.of_nat i))) then S (cost 2 s0 (child (entry s0 (root s0) (Z.of_nat i)))) else 0 else 0)%nat + k) (fr s) ->
  exists s' L, (let e := rd (pml4 s0) (Z.of_nat i) s in
    if decide (Z.land e PAGE_LARGE = 0 /\ e <> 0 /\ 508 <= Z.of_nat i <= 510) then Done (wr pn (Z.of_nat i) e s)
    else clone_level (pml4 s0) pn (Z.of_nat i) clone_pdp s) = Done s' /\ turn s s' new (Z.of_nat i) L k /\ root_entry s0 new i s' L.
Proof.
  intros Hc Hf Hn Hpn Hi Hz Hr. cbn zeta. unfold root_entry. destruct (decide (i < 508)%nat).
  - rewrite decide_False by lia. apply (table_turn 2); try done; [apply clone_tbl_ok|apply Hc|symmetry; apply phys_from_physical|lia|apply (cl_owned _ Hc); lia].
  - assert (E : rd (pml4 s0) (Z.of_nat i) s = entry s0 (root s0) (Z.of_nat i)).
    { unfold rd. rewrite <-phys_from_physical. apply (source_entry s0 s (root s0)); [apply Hf|apply Hc|lia]. }
    rewrite E. case_decide as Hd.
    + destruct (grows_write s pn new (Z.of_nat i) (entry s0 (root s0) (Z.of_nat i)) (fi_ok _ _ _ Hf) Hpn (proj1 (fi_held _ _ _ Hf)) ltac:(lia)) as (Hg & He' & Hrest).
      eexists _, []. split; [done|]. split; [by constructor|done].
    + destruct (kernel_turn s0 s new pn (Z.of_nat i) k) as (s' & Hrun & Ht & He); try done; [apply Hc|lia|naive_solver lia|]. by exists s', [].
Qed.

Record root_copied s0 s new (L : list Z) : Prop := {
  rc_grows : grows s0 s new (new :: L);
  rc_entries : exists Ls, length Ls = 511%nat /\ mjoin Ls = L /\ forall j Lj, Ls !! j = Some Lj -> root_entry s0 new j s Lj;
  rc_last : entry s new 511 = new
}.
Lemma sum_ext (f g : nat -> nat) l : (forall i, i ∈ l -> f i = g i) -> sum_list_with f l = sum_list_with g l.
Proof.
  induction l as [|i l IH]; intros H; [done|]. cbn. rewrite (H i) by apply list_elem_of_here.
  rewrite IH; [done|]. intros j Hj. apply H. by apply list_elem_of_further.
Qed.

Lemma sum_cut (f : nat -> nat) n k : sum_list_with (fun i => if decide (i < n)%nat then f i else 0%nat) (seq 0 (n + k)) = sum_list_with f (seq 0 n).
Proof.
  rewrite seq_app, sum_list_with_app. rewrite (sum_ext _ f (seq 0 n)), (sum_ext _ (fun _ => 0%nat) (seq _ k)).
  - assert (H : forall l, sum_list_with (fun _ : nat => 0%nat) l = 0%nat) by (intros l; induction l; done). rewrite H. lia.
  - intros i Hi%elem_of_seq. rewrite decide_False; [done|lia].
  - intros i Hi%elem_of_seq. rewrite decide_True; [done|lia].
Qed.

Lemma root_entry_keep s0 s s' new j L : entry s' new (Z.of_nat j) = entry s new (Z.of_nat j) -> (forall f, f ∈ L -> same_page s s' f) ->
  root_entry s0 new j s L -> root_entry s0 new j s' L.
Proof. intros He Hp. unfold root_entry. case_decide; [by apply entry_copied_keep|by rewrite He]. Qed.

Lemma clear_root s0 new fr' : fr_ok fr' -> frame new -> 0 < new -> ~ fr_used (fr s0) new -> (forall x, fr_used fr' x <-> fr_used (fr s0) x \/ x = new) ->
  let s := zero_page (memmgr_get_from_physical new) (set_fr fr' s0) in
  grows s0 s new [new] /\ (forall j, 0 <= j < 512 -> entry s new j = 0).
Proof.
  intros Hok Hf H0 Hn Hu s. split.
  - constructor; [done|done|apply NoDup_singleton|by intros f ->%list_elem_of_singleton|intros x; rewrite list_elem_of_singleton; exact (Hu x)|].
    intros x [Hx _] Hne o Ho. unfold s, zero_page. cbn [pm set_pm set_fr]. rewrite phys_frame by done. rewrite decide_False; [done|].
    intros Hin. apply (frames_apart x new o (x + o - new)); try done; lia.
  - intros j Hj. unfold entry, s, zero_page. cbn [pm set_pm]. rewrite phys_frame by done. by rewrite decide_True by lia.
Qed.

Lemma clone_map_ok s0 : clonable s0 -> exists new fr' s1 L, fr_alloc (fr s0) = Done (new, fr') /\
  memmgr_clone_page_map (pml4 s0) (memmgr_get_from_physical new) (set_fr fr' s0) = Done s1 /\ root_copied s0 s1 new L.
Proof.
  intros Hc. destruct (rich_take _ s0 (cl_ok _ Hc) (cl_rich _ Hc)) as (new & fr' & Ha & Hok & Hf & H0 & Hn & Hu & Hr).
  destruct (clear_root s0 new fr' Hok Hf H0 Hn Hu) as [Hg0 Hz]. exists new, fr'. unfold memmgr_clone_page_map. set (pn := memmgr_get_from_physical new) in *.
  set (s := zero_page pn (set_fr fr' s0)) in *. assert (Hpn : phys pn = new) by by apply phys_frame.
  assert (Hfi : filled s0 s new).
  { constructor; [by apply (source_grows s0 s0 s new [new])|apply (grows_new s0 s new [new]); [done|apply list_elem_of_here]|done]. }
  match goal with |- context [each_page 511 0 ?b s] => set (body := b) end.
  destruct (loop_grows s0 new 511 body
    (fun i => if decide (i < 508)%nat then if decide (table (entry s0 (root s0) (Z.of_nat i))) then S (cost 2 s0 (child (entry s0 (root s0) (Z.of_nat i)))) else 0 else 0)%nat
    (root_entry s0 new) s 0) as (s' & Ls & Hrun & Hl & Hg & _ & HR & _); try done.
  - lia.
  - intros i g k Hi Hfg Hzi Hri. by apply (root_turn s0 g new pn i k).
  - intros i g g' L HR He Hp. by apply (root_entry_keep s0 g).
  - rewrite Nat.add_0_r. change 511%nat with (508 + 3)%nat. rewrite sum_cut. exact Hr.
  - change (Z.of_nat 511) with 511 in Hrun. rewrite Hrun. cbn [mbind outcome_bind].
    assert (Hh : held s' new) by exact (grows_held _ _ _ _ _ Hg (fi_held _ _ _ Hfi)).
    destruct (grows_write s' pn new 511 (memmgr_get_from_virtual pn) (gw_ok _ _ _ _ Hg) Hpn (proj1 Hh) ltac:(lia)) as (Hgw & Hlast & Hrest).
    exists (wr pn 511 (memmgr_get_from_virtual pn) s'), (mjoin Ls). split; [done|]. split; [done|]. constructor.
    + change (new :: mjoin Ls) with ([new] ++ mjoin Ls). rewrite <-(app_nil_r (mjoin Ls)). eapply grows_trans; [done|]. by eapply grows_trans.
    + exists Ls. split; [done|]. split; [done|]. intros j Lj Hj. pose proof (lookup_lt_Some _ _ _ Hj). apply (root_entry_keep s0 s'); [apply Hrest; lia| |by apply HR].
      intros f Hfin. assert (f ∈ mjoin Ls) as Hin by by eapply elem_of_mjoin_lookup. apply (gw_page _ _ _ _ Hgw); [by eapply grows_new|].
      intros ->. destruct (gw_fresh _ _ _ _ Hg new Hin) as (_ & _ & Hnu). exact (Hnu (proj2 (fi_held _ _ _ Hfi))).
    + rewrite Hlast. exact Hpn.
Qed.
(** ** What the processor finds *)

Definition level_index (d : nat) (va : Z) : Z := match d with O => PT_INDEX va | S O => PD_INDEX va | _ => PDP_INDEX va end.

(** [translate] and [walk] from a table of level [d]. *)
Fixpoint below (d : nat) (need : Z) s (t va : Z) : option Z :=
  let e := entry s t (level_index d va) in
  match d with
  | O => if grants need e then Some (Z.land e PAGE_MASK + va mod 4096) else None
  | S d' => if negb (grants need e) then None
            else if decide (Z.land e PAGE_LARGE <> 0) then
              let size := match d' with O => 2 ^ 21 | _ => 2 ^ 30 end in Some (Z.land e PAGE_MASK / size * size + va mod size)
            else below d' need s (child e) va
  end.

Fixpoint walk_below (d : nat) s (t va : Z) : walk_result :=
  let e := entry s t (level_index d va) in
  if decide (e = 0) then WMiss
  else match d with
       | O => WPage (Z.land e PAGE_MASK)
       | S d' => if decide (Z.land e PAGE_LARGE <> 0) then WLarge else walk_below d' s (child e) va
       end.

Lemma translate_below need s va : translate need s va =
  let e := entry s (root s) (PML4_INDEX va) in if negb (grants need e) then None else below 2 need s (child e) va.
Proof. unfold translate, rd, memmgr_get_current_pml4. rewrite !phys_child. done. Qed.

Lemma walk_walk_below s va : walk s va =
  let e := entry s (root s) (PML4_INDEX va) in if decide (e = 0) then WMiss else walk_below 2 s (child e) va.
Proof. done. Qed.

Lemma level_index_range d va : 0 <= level_index d va < 512.
Proof. destruct d as [|[|d]]; apply index_range. Qed.

Lemma copied_entry d s0 s1 old new L i : copied d s0 s1 old new L -> 0 <= i < 512 -> exists Li, (forall x, x ∈ Li -> x ∈ L) /\ entry_copied d s0 s1 old new i Li.
Proof.
  intros (Ls & Hl & -> & H)%copied_entries Hi. destruct (lookup_lt_is_Some_2 Ls (Z.to_nat i) ltac:(lia)) as [Li HLi].
  exists Li. split; [intros x Hx; by eapply elem_of_mjoin_lookup|]. specialize (H _ _ HLi). by rewrite Z2Nat.id in H by lia.
Qed.

Lemma grants_present need e : grants need e = true -> e <> 0.
Proof. by intros Hg ->. Qed.
Lemma grants_zero need : grants need 0 = false.
Proof. done. Qed.
Lemma grants_user e : grants 4 e = true -> user e.
Proof.
  intros Hg. split; [by eapply grants_present|]. apply andb_true_iff in Hg as [_ Hg%bool_decide_eq_true].
  unfold PAGE_USER. change (Z.shiftl 1 2) with 4. by rewrite Hg.
Qed.
Lemma grants_new f : grants 6 (Z.lor f 7) = true.
Proof. by apply grants_lor. Qed.
Lemma new_entry f : frame f -> 0 < f -> child (Z.lor f 7) = f /\ Z.land (Z.lor f 7) PAGE_LARGE = 0 /\ Z.land (Z.lor f 7) PAGE_MASK = f.
Proof. intros [Hf Hal] H0. destruct (fresh_entry f 7) as (? & ? & ? & ?); [lia|done|split; [lia|done]|done]. Qed.

Section Copy.
Context s0 s1 (L : list Z).
Hypothesis Hnew : forall f, f ∈ L -> frame f /\ 0 < f.

(** The processor finds a user page of the original as a page of the copy in a
    frame that was taken, with the same bytes; a large page stays the same. *)
Lemma copied_user d va a : forall old new L', (forall f, f ∈ L' -> f ∈ L) -> owned d s0 old -> copied d s0 s1 old new L' -> below d 4 s0 old va = Some a ->
  (exists b, below d 6 s1 new va = Some b /\ pm s1 b = pm s0 a /\ b - va mod 4096 ∈ L) \/
  (walk_below d s0 old va = WLarge /\ below d 4 s1 new va = Some a).
Proof.
  induction d as [|d IH]; intros old new L' Hin [Hh Ho] Hc; pose proof (level_index_range 0 va) as I0; cbn [below walk_below].
  all: [> |pose proof (level_index_range (S d) va) as I].
  - destruct (copied_entry 0 s0 s1 old new L' _ Hc I0) as (Li & HLi & He). unfold entry_copied in He. specialize (Ho _ I0). cbn zeta in *.
    destruct (grants 4 _) eqn:Eg; [|done]. intros [= <-]. pose proof (grants_user _ Eg) as Hu. rewrite decide_True in He by done.
    destruct He as (f & He & -> & Hb). assert (f ∈ L) as Hf by apply Hin, HLi, list_elem_of_here. destruct (Hnew f Hf) as [Hfr H0].
    destruct (new_entry f Hfr H0) as (_ & _ & Em). left. exists (f + va mod 4096). rewrite He, grants_new, Em. split; [done|].
    split; [|by replace (f + va mod 4096 - va mod 4096) with f by lia]. change (PT_INDEX va) with (level_index 0 va). destruct (held_child _ _ (Ho Hu)) as [_ <-]. apply Hb, Z.mod_pos_bound. lia.
  - destruct (copied_entry (S d) s0 s1 old new L' _ Hc I) as (Li & HLi & He). unfold entry_copied in He. specialize (Ho _ I). cbn zeta in *.
    set (e := entry s0 old _) in *. destruct (grants 4 e) eqn:Eg; [|done]. cbn [negb]. pose proof (grants_present _ _ Eg) as Hne. rewrite (decide_False (P := e = 0)) by done.
    destruct (decide (Z.land e PAGE_LARGE <> 0)) as [Hl|Hl%dec_stable].
    + rewrite decide_False in He by (intros [_ ?]; done). destruct He as [-> _]. rewrite Eg. cbn [negb]. rewrite !decide_True by done. intros Hb. by right.
    + rewrite decide_True in He by done. destruct He as (f & L'' & He & -> & Hcp). assert (f ∈ L) as Hf by apply Hin, HLi, list_elem_of_here.
      destruct (Hnew f Hf) as [Hfr H0]. destruct (new_entry f Hfr H0) as (Ec & El & _). intros Hb.
      destruct (IH (child e) f L'') as [H|H]; [intros x Hx; by apply Hin, HLi, list_elem_of_further|by apply Ho|done|done|..]; rewrite He, El, Ec.
      * left. rewrite grants_new. exact H.
      * right. rewrite (grants_lor 4 f 7) by done. exact H.
Qed.

(** What is missing in the original is missing in the copy. *)
Lemma copied_missing d need va : forall old new L', (forall f, f ∈ L' -> f ∈ L) -> copied d s0 s1 old new L' -> walk_below d s0 old va = WMiss ->
  below d need s1 new va = None.
Proof.
  induction d as [|d IH]; intros old new L' Hin Hc; pose proof (level_index_range 0 va) as I0; cbn [below walk_below].
  all: [> |pose proof (level_index_range (S d) va) as I].
  - destruct (copied_entry 0 s0 s1 old new L' _ Hc I0) as (Li & HLi & He). unfold entry_copied in He. cbn zeta in *.
    destruct (decide (entry s0 old (level_index 0 va) = 0)) as [H0|]; [|done]. rewrite decide_False in He by (intros [? _]; done). destruct He as [-> _]. by rewrite H0, grants_zero.
  - destruct (copied_entry (S d) s0 s1 old new L' _ Hc I) as (Li & HLi & He). unfold entry_copied in He. cbn zeta in *.
    set (e := entry s0 old _) in *. destruct (decide (e = 0)) as [E0|Hne].
    + rewrite decide_False in He by (intros [? _]; done). destruct He as [-> _]. by rewrite E0, grants_zero.
    + destruct (decide (Z.land e PAGE_LARGE <> 0)) as [|Hl%dec_stable]; [done|]. rewrite decide_True in He by done. destruct He as (f & L'' & He & -> & Hcp). intros Hw.
      assert (f ∈ L) as Hf by apply Hin, HLi, list_elem_of_here. destruct (Hnew f Hf) as [Hfr H0]. destruct (new_entry f Hfr H0) as (Ec & El & _).
      rewrite He, El, Ec, (IH (child e) f L''); [destruct (grants _ _); cbn [negb]; [by case_decide|done]|intros x Hx; by apply Hin, HLi, list_elem_of_further|done|done].
Qed.
End Copy.

(** The original is translated as before. *)
Lemma source_below d need s0 s1 va : source s0 s1 -> forall old, owned d s0 old -> below d need s1 old va = below d need s0 old va.
Proof.
  intros Hs. induction d as [|d IH]; intros old [Hh Ho]; cbn [below]; rewrite (source_entry s0 s1 old) by (done || apply level_index_range); [done|].
  pose proof (level_index_range (S d) va) as I. specialize (Ho _ I). set (e := entry s0 old _) in *. destruct (grants need e) eqn:Eg; [|done]. cbn [negb].
  destruct (decide (Z.land e PAGE_LARGE <> 0)) as [|Hl%dec_stable]; [done|]. apply IH, Ho. split; [by eapply grants_present|done].
Qed.
(** ** The copied space *)

(** The machine with [pd] as the root. *)
Definition in_space (pd : Z) s : vm F := mk_vm (pm s) (fr s) pd (heap_len s) (k_end s) (virt_lock s) (wild s).

Definition fresh_frame s s' (f : Z) : Prop := frame f /\ 0 < f /\ ~ fr_used (fr s) f /\ fr_used (fr s') f.

(** [pd] is a copy of the current space of [s]: what a program reads through an
    address is the same in both, from a frame that was free before unless it is
    in a large page, what is missing stays missing, the three entries of the kernel
    are shared and the last one is the root itself; the original is kept. *)
Record space_copied s s' (pd : Z) : Prop := {
  sp_root : fresh_frame s s' pd;
  sp_user : forall va a, PML4_INDEX va < 508 -> translate 4 s va = Some a ->
    (exists b, translate 6 (in_space pd s') va = Some b /\ pm s' b = pm s a /\ fresh_frame s s' (b - va mod 4096)) \/
    (walk s va = WLarge /\ translate 4 (in_space pd s') va = Some a);
  sp_missing : forall va need, PML4_INDEX va < 508 -> walk s va = WMiss -> translate need (in_space pd s') va = None;
  sp_kernel : forall i, 508 <= i <= 510 -> entry s' pd i = entry s (root s) i;
  sp_self : entry s' pd 511 = pd;
  sp_current : pml4 s' = pml4 s;
  sp_same : forall va need, PML4_INDEX va < 508 -> translate need s' va = translate need s va;
  sp_kept : forall x o, held s x -> 0 <= o < 4096 -> pm s' (x + o) = pm s (x + o)
}.

Lemma root_in_space s pd : frame pd -> root (in_space pd s) = pd.
Proof. apply phys_frame. Qed.

Lemma root_copied_user s s' pd L va : clonable s -> root_copied s s' pd L -> PML4_INDEX va < 508 ->
  let e := entry s (root s) (PML4_INDEX va) in
  (e = 0 /\ entry s' pd (PML4_INDEX va) = 0) \/
  (e <> 0 /\ owned 2 s (child e) /\ exists f L', entry s' pd (PML4_INDEX va) = Z.lor f 7 /\ (forall x, x ∈ f :: L' -> x ∈ L) /\ copied 2 s s' (child e) f L').
Proof.
  intros Hc [_ (Ls & Hl & <- & H) _] Hva e. pose proof (index_range va 39) as I. fold (PML4_INDEX va) in I.
  destruct (lookup_lt_is_Some_2 Ls (Z.to_nat (PML4_INDEX va)) ltac:(lia)) as [Li HLi]. specialize (H _ _ HLi).
  unfold root_entry in H. rewrite decide_True in H by lia. rewrite Z2Nat.id in H by lia. unfold entry_copied in H. cbn zeta in H. fold e in H.
  destruct (decide (table e)) as [Ht|Hn].
  - destruct H as (f & L' & He & -> & Hcp). right. split; [apply Ht|]. split; [apply (cl_owned _ Hc); [lia|done]|]. exists f, L'. split; [done|].
    split; [|done]. intros x Hx. by eapply elem_of_mjoin_lookup.
  - destruct H as [-> _]. assert (e = 0) as ->; [|by left]. destruct (decide (e = 0)); [done|]. destruct Hn. split; [done|]. apply (cl_large _ Hc). lia.
Qed.

Lemma root_copied_space s s' pd L : clonable s -> root_copied s s' pd L -> space_copied s s' pd.
Proof.
  intros Hc Hr. pose proof (rc_grows _ _ _ _ Hr) as Hg. assert (Hfresh : forall f, f ∈ pd :: L -> fresh_frame s s' f).
  { intros f Hf. destruct (gw_fresh _ _ _ _ Hg f Hf) as (? & ? & ?). split; [done|]. split; [done|]. split; [done|]. apply (gw_used _ _ _ _ Hg). by right. }
  assert (Hpd : fresh_frame s s' pd) by apply Hfresh, list_elem_of_here.
  assert (Hnew : forall f, f ∈ L -> frame f /\ 0 < f) by (intros f Hf; destruct (Hfresh f) as (? & ? & _); [by apply list_elem_of_further|done]).
  assert (Hs : source s s') by (apply (source_grows s s s' pd (pd :: L)); [apply Hpd|done|done]).
  constructor; [done|..|apply Hr|apply Hg| |].
  - intros va a Hva. rewrite !translate_below, walk_walk_below. cbn zeta. rewrite (root_in_space s' pd) by apply Hpd.
    change (entry (in_space pd s') pd (PML4_INDEX va)) with (entry s' pd (PML4_INDEX va)).
    destruct (root_copied_user s s' pd L va Hc Hr Hva) as [[E0 _]|(Hne & Ho & f & L' & He & Hin & Hcp)]; [by rewrite E0|].
    rewrite He, (decide_False (P := _ = 0)) by done. destruct (Hnew f) as [Hf H0]; [apply Hin, list_elem_of_here|].
    destruct (new_entry f Hf H0) as (-> & _ & _). destruct (grants 4 _); [|done]. cbn [negb]. intros Hb.
    rewrite grants_new, (grants_lor 4 f 7) by done.
    destruct (copied_user s s' L Hnew 2 va a (child (entry s (root s) (PML4_INDEX va))) f L') as [(b & H1 & H2 & H3)|H]; [|done..| |].
    + intros x Hx. by apply Hin, list_elem_of_further.
    + left. exists b. split; [exact H1|]. split; [done|]. apply Hfresh. by apply list_elem_of_further.
    + right. exact H.
  - intros va need Hva. rewrite translate_below, walk_walk_below. cbn zeta. rewrite (root_in_space s' pd) by apply Hpd.
    change (entry (in_space pd s') pd (PML4_INDEX va)) with (entry s' pd (PML4_INDEX va)).
    destruct (root_copied_user s s' pd L va Hc Hr Hva) as [[_ ->]|(Hne & Ho & f & L' & He & Hin & Hcp)]; [done|].
    rewrite He, decide_False by done. destruct (Hnew f) as [Hf H0]; [apply Hin, list_elem_of_here|].
    destruct (new_entry f Hf H0) as (-> & _ & _). intros Hw. destruct (grants need _); [|done]. cbn [negb].
    apply (copied_missing s s' L Hnew 2 need va (child (entry s (root s) (PML4_INDEX va))) f L'); [|done..].
    intros x Hx. by apply Hin, list_elem_of_further.
  - intros i Hi. destruct Hr as [_ (Ls & Hl & <- & H) _]. destruct (lookup_lt_is_Some_2 Ls (Z.to_nat i) ltac:(lia)) as [Li HLi]. specialize (H _ _ HLi).
    unfold root_entry in H. rewrite decide_False in H by lia. rewrite Z2Nat.id in H by lia. apply H.
  - intros va need Hva. rewrite !translate_below. cbn zeta.
    assert (Er : root s' = root s) by (unfold root; by rewrite (gw_pml4 _ _ _ _ Hg)). pose proof (index_range va 39) as I. fold (PML4_INDEX va) in I.
    rewrite Er, (source_entry s s' (root s)) by (done || apply Hc). destruct (grants need _) eqn:Eg; [|done]. cbn [negb].
    apply source_below; [done|]. apply (cl_owned _ Hc); [lia|]. split; [by eapply grants_present|]. apply (cl_large _ Hc). lia.
  - intros x o Hx Ho. destruct (Hs x Hx) as [_ Hp]. by apply Hp.
Qed.
(** A space that can be copied is: the call returns and the new root is one. *)
Lemma memmgr_clone_page_map_copies s : clonable s -> exists pd fr' s', fr_alloc (fr s) = Done (pd, fr') /\
  memmgr_clone_page_map (memmgr_get_current_pml4 s) (memmgr_get_from_physical pd) (set_fr fr' s) = Done s' /\ space_copied s s' pd.
Proof.
  intros Hc. destruct (clone_map_ok s Hc) as (pd & fr' & s' & L & Ha & Hrun & Hr). exists pd, fr', s'. split; [done|]. split; [done|].
  by eapply root_copied_space.
Qed.
End Clone.

(** ** A space with one page

    The frames 0 to 5 in use: the root at 0x1000, its tables at 0x2000, 0x3000
    and 0x4000, and the page of a program at 0x5000, which is at 0x400000. *)
Definition loaded_kernel : vm frames :=
  mk_vm (fun a => if decide (a = 0x1000) then 0x2007 else if decide (a = 0x2000) then 0x3007 else if decide (a = 0x3010) then 0x4007
                  else if decide (a = 0x4000) then 0x5007 else if decide (a = 0x5008) then 42 else 0)
    (mk_frames {[0 := 1; 1 := 1; 2 := 1; 3 := 1; 4 := 1; 5 := 1]} 1 false) 0x1000 0 0x1000000 false [].

Lemma loaded_entry t i : entry loaded_kernel t i <> 0 ->
  exists a e, t + 8 * i = a /\ entry loaded_kernel t i = e /\ (a, e) ∈ [(0x1000, 0x2007); (0x2000, 0x3007); (0x3010, 0x4007); (0x4000, 0x5007); (0x5008, 42)].
Proof.
  intros Hne. eexists _, _. split; [done|]. split; [done|]. revert Hne. unfold entry. cbn [pm loaded_kernel]. rewrite !elem_of_cons.
  generalize (t + 8 * i). intros b. repeat match goal with |- context [decide (b = ?x)] => destruct (decide (b = x)) as [->|]; [tauto|] end. done.
Qed.

Lemma loaded_held k : 0 <= k <= 5 -> held loaded_kernel (k * 4096).
Proof.
  intros Hk. split; [split; [lia|by apply Z.mod_mul]|]. exists k. split; [done|]. pose proof bitmap_pos.
  assert (k = 0 \/ k = 1 \/ k = 2 \/ k = 3 \/ k = 4 \/ k = 5) as [->|[->|[->|[->|[->| ->]]]]] by lia; (split; [unfold BITMAP_SIZE; lia|done]).
Qed.

(** The one entry of each table. *)
Lemma loaded_only t i e : 0 <= i < 512 -> t mod 4096 = 0 -> entry loaded_kernel t i = e -> e <> 0 ->
  (t = 0x1000 /\ e = 0x2007) \/ (t = 0x2000 /\ e = 0x3007) \/ (t = 0x3000 /\ e = 0x4007) \/ (t = 0x4000 /\ e = 0x5007) \/ (t = 0x5000 /\ e = 42).
Proof.
  intros Hi Ht <- Hne. destruct (loaded_entry t i Hne) as (a & e & Ha & -> & H). rewrite !elem_of_cons, elem_of_nil in H. pose proof (Z.div_mod t 4096).
  destruct H as [[= -> ->]|[[= -> ->]|[[= -> ->]|[[= -> ->]|[[= -> ->]|[]]]]]]; lia.
Qed.

Lemma loaded_clonable : clonable loaded_kernel.
Proof.
  constructor.
  - split; [|done]. constructor; [|done]. pose proof bitmap_pos. cbn. lia.
  - apply (loaded_held 1). lia.
  - intros i Hi. destruct (decide (entry loaded_kernel 0x1000 i = 0)) as [E|Hne].
    + change (root loaded_kernel) with 0x1000. by rewrite E.
    + destruct (loaded_only 0x1000 i _ ltac:(lia) eq_refl eq_refl Hne) as [[_ E]|[[? _]|[[? _]|[[? _]|[? _]]]]]; [|lia..].
      change (root loaded_kernel) with 0x1000. by rewrite E.
  - intros i Hi [Hne _]. change (root loaded_kernel) with 0x1000 in *.
    destruct (loaded_only 0x1000 i _ ltac:(lia) eq_refl eq_refl Hne) as [[_ ->]|[[? _]|[[? _]|[[? _]|[? _]]]]]; [|lia..].
    change (child 0x2007) with 0x2000. split; [apply (loaded_held 2); lia|]. intros j Hj [Hnj _].
    destruct (loaded_only 0x2000 j _ Hj eq_refl eq_refl Hnj) as [[? _]|[[_ ->]|[[? _]|[[? _]|[? _]]]]]; [lia| |lia..].
    change (child 0x3007) with 0x3000. split; [apply (loaded_held 3); lia|]. intros k Hk [Hnk _].
    destruct (loaded_only 0x3000 k _ Hk eq_refl eq_refl Hnk) as [[? _]|[[? _]|[[_ ->]|[[? _]|[? _]]]]]; [lia..| |lia|lia].
    change (child 0x4007) with 0x4000. split; [apply (loaded_held 4); lia|]. intros l Hl [Hnl _].
    destruct (loaded_only 0x4000 l _ Hl eq_refl eq_refl Hnl) as [[? _]|[[? _]|[[? _]|[[_ ->]|[? _]]]]]; [lia..| |lia].
    apply (loaded_held 5). lia.
  - assert (E : root_cost loaded_kernel = 4%nat) by (vm_compute; reflexivity). rewrite E.
    apply (bitmap_rich 5 _ 6); [| |cbn; lia|lia| |unfold BITMAP_SIZE; lia].
    + constructor; [|done]. pose proof bitmap_pos. cbn. lia.
    + done.
    + intros j Hj. unfold in_use, frame_word. cbn [fr loaded_kernel memory_map]. rewrite !lookup_insert_ne, lookup_singleton_ne by lia. cbn. lia.
Qed.

Example memmgr_clone_page_map_copies_witness : exists pd fr' s' b, fr_alloc (fr loaded_kernel) = Done (pd, fr') /\
  memmgr_clone_page_map 0x1000 (memmgr_get_from_physical pd) (set_fr fr' loaded_kernel) = Done s' /\
  translate 4 loaded_kernel 0x400008 = Some 0x5008 /\ translate 6 (in_space pd s') 0x400008 = Some b /\ pm s' b = 42 /\
  fresh_frame loaded_kernel s' (b - 8) /\ translate 4 (in_space pd s') 0x401000 = None.
Proof.
  destruct (memmgr_clone_page_map_copies loaded_kernel loaded_clonable) as (pd & fr' & s' & Ha & Hrun & Hsp).
  assert (Ht : translate 4 loaded_kernel 0x400008 = Some 0x5008) by (vm_compute; reflexivity).
  destruct (sp_user _ _ _ Hsp 0x400008 0x5008 ltac:(by vm_compute) Ht) as [(b & Hb & Hv & Hf)|[Hw _]]; [|discriminate Hw].
  exists pd, fr', s', b. split; [exact Ha|]. split; [exact Hrun|]. split; [exact Ht|]. split; [exact Hb|]. split; [exact Hv|]. split; [exact Hf|].
  apply (sp_missing _ _ _ Hsp 0x401000); by vm_compute.
Defined.
