(* ===== verification/PageTree.v ===== *)
(** kernel/arch/amd64/memmgr.c, what mmap of one page promises to its callers.

    [tbl s d va] is the table at depth [d] on the way of [va] through the page
    map, and [tree] says that no table is reached on two ways.  On such a page
    map mmap of a page maps that page and leaves the translation of every other
    address as it was; the map stays a tree.  This is the contract on which the
    program loader relies. *)
From stdpp Require Import base list gmap.
From Stdlib Require Import ZArith Lia.
From S2P Require Import Prelude Frames Paging.

#[local] Open Scope Z_scope.

Section Tree.
Context {F : Type} `{FA : FrameAllocator F}.
Implicit Types s : vm F.

(** ** The way of an address *)

Definition idx (d : nat) (va : Z) : Z := Z.land (Z.shiftr va (39 - 9 * Z.of_nat d)) 0x1FF.

(** At depth 0 the entry's large bit is not looked at. *)
Definition leads (d : nat) (e : Z) : Prop := e <> 0 /\ (d = 0%nat \/ Z.land e PAGE_LARGE = 0).
#[local] Instance leads_dec d e : Decision (leads d e).
Proof. unfold leads. apply _. Defined.

Fixpoint tbl s (d : nat) (va : Z) : option Z :=
  match d with
  | O => Some (root s)
  | S d => t ← tbl s d va; if decide (leads d (entry s t (idx d va))) then Some (child (entry s t (idx d va))) else None
  end.

Definition tree s : Prop :=
  forall d va vb t, (d <= 3)%nat -> tbl s d va = Some t -> tbl s d vb = Some t -> forall j, (j < d)%nat -> idx j va = idx j vb.

Lemma idx_range d va : 0 <= idx d va < 512.
Proof. apply index_range. Qed.

Lemma tbl_S s d va u : tbl s (S d) va = Some u <->
  exists t, tbl s d va = Some t /\ leads d (entry s t (idx d va)) /\ u = child (entry s t (idx d va)).
Proof.
  cbn [tbl]. split.
  - intros (t & Ht & H)%bind_Some. case_decide; [|done]. injection H as <-. by exists t.
  - intros (t & -> & Hl & ->). cbn [mbind option_bind]. by rewrite decide_True.
Qed.

Lemma tbl_table s d va t : tbl s d va = Some t -> (d <= 3)%nat -> is_table s (4 - d) t.
Proof.
  revert t. induction d as [|d IH]; intros t; [intros [= <-]; constructor|].
  intros (u & Hu & [Hne Hl] & ->)%tbl_S Hd. apply IH in Hu; [|lia]. destruct (4 - d)%nat as [|[|n]] eqn:E; [lia..|].
  replace (4 - S d)%nat with (S n) by lia. apply it_child; [done|apply idx_range|done|]. destruct Hl; [left|right]; lia || done.
Qed.

(** The translation in these terms. *)
Definition present s (va : Z) : Prop := exists p, walk s va = WPage p.

Lemma walk_page s va p : walk s va = WPage p <->
  exists t, tbl s 3 va = Some t /\ entry s t (PT_INDEX va) <> 0 /\ p = Z.land (entry s t (PT_INDEX va)) PAGE_MASK.
Proof.
  unfold walk. change (PML4_INDEX va) with (idx 0 va). change (PDP_INDEX va) with (idx 1 va). change (PD_INDEX va) with (idx 2 va). cbv zeta.
  split.
  - destruct (decide (entry s (root s) (idx 0 va) = 0)) as [|N4]; [done|]. destruct (decide (entry s (child _) (idx 1 va) = 0)) as [|N3]; [done|].
    destruct (decide (Z.land (entry s (child _) (idx 1 va)) PAGE_LARGE <> 0)) as [|L3]; [done|].
    destruct (decide (entry s (child _) (idx 2 va) = 0)) as [|N2]; [done|].
    destruct (decide (Z.land (entry s (child _) (idx 2 va)) PAGE_LARGE <> 0)) as [|L2]; [done|]. case_decide as N1; [done|]. intros [= <-].
    apply dec_stable in L3, L2. eexists. split; [|by split]. apply tbl_S. eexists. split; [|split; [split; [exact N2|by right]|done]].
    apply tbl_S. eexists. split; [|split; [split; [exact N3|by right]|done]]. apply tbl_S. eexists. split; [done|]. split; [split; [done|by left]|done].
  - intros (t & Ht & Hne & ->). apply tbl_S in Ht as (t2 & Ht & [N2 L2] & ->). apply tbl_S in Ht as (t3 & Ht & [N3 L3] & ->).
    apply tbl_S in Ht as (t4 & [= <-] & [N4 _] & ->). destruct L2 as [|L2], L3 as [|L3]; try done.
    rewrite (decide_False _ _ N4), (decide_False _ _ N3). rewrite (decide_False (P := Z.land _ _ <> 0)) by (rewrite L3; tauto).
    rewrite (decide_False _ _ N2). rewrite (decide_False (P := Z.land _ _ <> 0)) by (rewrite L2; tauto). by rewrite (decide_False _ _ Hne).
Qed.

Lemma tbl_path s va t : tbl s 3 va = Some t -> path s va = WPage t.
Proof.
  intros Ht. apply tbl_S in Ht as (t2 & Ht & [N2 L2] & ->). apply tbl_S in Ht as (t3 & Ht & [N3 L3] & ->).
  apply tbl_S in Ht as (t4 & [= <-] & [N4 _] & ->). destruct L2 as [|L2], L3 as [|L3]; try done.
  unfold path. change (PML4_INDEX va) with (idx 0 va). change (PDP_INDEX va) with (idx 1 va). change (PD_INDEX va) with (idx 2 va). cbv zeta.
  rewrite (decide_False _ _ N4), (decide_False _ _ N3). rewrite (decide_False (P := Z.land _ _ <> 0)) by (rewrite L3; tauto).
  rewrite (decide_False _ _ N2). by rewrite (decide_False (P := Z.land _ _ <> 0)) by (rewrite L2; tauto).
Qed.

Lemma walk_large s va : walk s va = WLarge <->
  exists d t, (d = 1 \/ d = 2)%nat /\ tbl s d va = Some t /\ entry s t (idx d va) <> 0 /\ Z.land (entry s t (idx d va)) PAGE_LARGE <> 0.
Proof.
  unfold walk. change (PML4_INDEX va) with (idx 0 va). change (PDP_INDEX va) with (idx 1 va). change (PD_INDEX va) with (idx 2 va). cbv zeta.
  split.
  - destruct (decide (entry s (root s) (idx 0 va) = 0)) as [|N4]; [done|].
    assert (T1 : tbl s 1 va = Some (child (entry s (root s) (idx 0 va)))) by (apply tbl_S; exists (root s); split; [done|split; [split; [done|by left]|done]]).
    destruct (decide (entry s (child _) (idx 1 va) = 0)) as [|N3]; [done|].
    destruct (decide (Z.land (entry s (child _) (idx 1 va)) PAGE_LARGE <> 0)) as [L3|L3]; [intros _; exists 1%nat; eexists; split; [by left|done]|].
    assert (T2 : tbl s 2 va = Some (child (entry s (child (entry s (root s) (idx 0 va))) (idx 1 va)))).
    { apply tbl_S. eexists. split; [done|]. split; [split; [done|right; by apply dec_stable]|done]. }
    destruct (decide (entry s (child _) (idx 2 va) = 0)) as [|N2]; [done|].
    destruct (decide (Z.land (entry s (child _) (idx 2 va)) PAGE_LARGE <> 0)) as [L2|L2]; [intros _; exists 2%nat; eexists; split; [by right|done]|].
    by case_decide.
  - intros (d & t & Hd & Ht & Hne & Hl). destruct Hd as [-> | ->].
    + apply tbl_S in Ht as (u & [= <-] & [N4 _] & ->). rewrite (decide_False _ _ N4), (decide_False _ _ Hne). by rewrite decide_True.
    + apply tbl_S in Ht as (u & Hu & [N3 L3] & ->). apply tbl_S in Hu as (u0 & [= <-] & [N4 _] & ->).
      rewrite (decide_False _ _ N4), (decide_False _ _ N3). destruct L3 as [|L3]; [done|]. rewrite (decide_False (P := Z.land _ _ <> 0)) by tauto.
      rewrite (decide_False _ _ Hne). by rewrite decide_True.
Qed.

(** Two addresses with the same indices lie in the same page. *)
Lemma same_page va vb : 0 <= va < 2 ^ 48 -> 0 <= vb < 2 ^ 48 -> (forall j, (j < 4)%nat -> idx j va = idx j vb) -> va / 4096 = vb / 4096.
Proof.
  intros Ha Hb H. pose proof (H 0%nat ltac:(lia)) as H0. pose proof (H 1%nat ltac:(lia)) as H1. pose proof (H 2%nat ltac:(lia)) as H2.
  pose proof (H 3%nat ltac:(lia)) as H3. unfold idx in *. change 0x1FF with (Z.ones 9) in *. rewrite !Z.land_ones, !Z.shiftr_div_pow2 in * by lia.
  change (2 ^ (39 - 9 * Z.of_nat 0)) with (4096 * 2 ^ 27) in H0. change (2 ^ (39 - 9 * Z.of_nat 1)) with (4096 * 2 ^ 18) in H1.
  change (2 ^ (39 - 9 * Z.of_nat 2)) with (4096 * 2 ^ 9) in H2. change (2 ^ (39 - 9 * Z.of_nat 3)) with 4096 in H3.
  rewrite <-!Z.div_div in * by lia. assert (0 <= va / 4096 < 2 ^ 36) by (split; [apply Z.div_pos; lia|apply Z.div_lt_upper_bound; lia]).
  assert (0 <= vb / 4096 < 2 ^ 36) by (split; [apply Z.div_pos; lia|apply Z.div_lt_upper_bound; lia]).
  clear Ha Hb H. set (a := va / 4096) in *. set (b := vb / 4096) in *. clearbody a b.
  assert (E : forall x, x / 2 ^ 18 = x / 512 / 512 /\ x / 2 ^ 27 = x / 512 / 512 / 512) by (intros x; rewrite !Z.div_div by lia; done).
  rewrite !(proj1 (E _)), !(proj2 (E _)) in *. change (2 ^ 9) with 512 in *. change (2 ^ 36) with 68719476736 in *.
  clear E. assert (R : forall x, 0 <= x < 68719476736 -> 0 <= x / 512 / 512 / 512 < 512).
  { intros x Hx. rewrite !Z.div_div by lia. split; [apply Z.div_pos; lia|apply Z.div_lt_upper_bound; lia]. }
  rewrite (Z.mod_small (a / 512 / 512 / 512)), (Z.mod_small (b / 512 / 512 / 512)) in H0 by auto.
  assert (J : forall x y, x / 512 = y / 512 -> x mod 512 = y mod 512 -> x = y).
  { intros x y Hq Hm. rewrite (Z.div_mod x 512), (Z.div_mod y 512) by lia. by rewrite Hq, Hm. }
  auto.
Qed.

(** Equal translations, page by page and large page by large page. *)
Lemma walk_same s s' vb : (forall p, walk s' vb = WPage p <-> walk s vb = WPage p) -> (walk s' vb = WLarge <-> walk s vb = WLarge) -> walk s' vb = walk s vb.
Proof.
  intros H1 H2. destruct (walk s vb) as [| |p] eqn:E.
  - destruct (walk s' vb) as [| |p'] eqn:E'; [done|by discriminate (proj1 H2 eq_refl)|by discriminate (proj1 (H1 p') eq_refl)].
  - by apply H2.
  - by apply H1.
Qed.

Lemma extends_tbl s s' d va t : (d <= 3)%nat -> extends s s' -> tbl s d va = Some t -> tbl s' d va = Some t.
Proof.
  intros Hd Hx. revert t. induction d as [|d IH]; intros t; [intros [= <-]; cbn [tbl]; by rewrite (proj1 Hx)|].
  intros (u & Hu & [Hne Hl] & ->)%tbl_S. pose proof (tbl_table _ _ _ _ Hu ltac:(lia)) as Ht.
  pose proof (proj2 Hx _ _ _ Ht (idx_range d va) Hne) as E. apply tbl_S. exists u. rewrite E. split; [apply IH; [lia|done]|done].
Qed.

Lemma extends_large s s' vb : extends s s' -> walk s vb = WLarge -> walk s' vb = WLarge.
Proof.
  intros Hx (d & t & Hd & Ht & Hne & Hl)%walk_large. apply walk_large. exists d, t.
  assert (Hd3 : (d <= 3)%nat) by lia. pose proof (tbl_table _ _ _ _ Ht Hd3) as Htt. pose proof (proj2 Hx _ _ _ Htt (idx_range d vb) Hne) as E.
  rewrite E. split_and!; try done. by apply (extends_tbl s).
Qed.

(** ** A new table *)

(** A table was made at depth [d] on the way of [va]. *)
Inductive grew s s' (d : nat) (va : Z) : Prop :=
| grew_intro t a v (Hd : (d <= 2)%nat) (Ht : tbl s d va = Some t) (Hg : grown s s' t (idx d va) a v) (Hz : entry s t (idx d va) = 0)
    (Hfresh : ~ fr_used (fr s) a) (Ha : 0 < a < 2 ^ 39) (Hal : a mod 4096 = 0)
    (Hv : child v = a) (Hvn : v <> 0) (Hvl : Z.land v PAGE_LARGE = 0).

Section Grew.
Context s s' (d : nat) (va t a v : Z).
Hypothesis Hinv : tables_inv s.
Hypothesis Hd : (d <= 2)%nat.
Hypothesis Ht : tbl s d va = Some t.
Hypothesis Hg : grown s s' t (idx d va) a v.
Hypothesis Hz : entry s t (idx d va) = 0.
Hypothesis Hfresh : ~ fr_used (fr s) a.
Hypothesis Ha : 0 < a < 2 ^ 39.
Hypothesis Hal : a mod 4096 = 0.
Hypothesis Hv : child v = a.
Hypothesis Hvn : v <> 0.
Hypothesis Hvl : Z.land v PAGE_LARGE = 0.

Lemma grew_table : exists n, is_table s (S (S n)) t /\ (4 - d = S (S n))%nat.
Proof. exists (2 - d)%nat. pose proof (tbl_table _ _ _ _ Ht ltac:(lia)) as H. replace (S (S (2 - d))) with (4 - d)%nat by lia. by split; [|lia]. Qed.

Lemma grew_ext : extends s s'.
Proof. destruct grew_table as (n & Hn & _). by eapply (grown_extends s s' t (idx d va) a v). Qed.

Lemma grew_inv : tables_inv s'.
Proof. destruct grew_table as (n & Hn & _). eapply (grown_inv s s' n t (idx d va) a v); try done; apply idx_range. Qed.

Lemma grew_not_table n u : is_table s n u -> u <> a.
Proof. intros Hu ->. by apply Hfresh, (ti_used _ Hinv n). Qed.

(** An entry of an old table is the old one, or the one that was made. *)
Lemma grew_entry n u j : is_table s n u -> 0 <= j < 512 -> (u = t /\ j = idx d va /\ entry s' u j = v /\ entry s u j = 0) \/ entry s' u j = entry s u j.
Proof.
  intros Hu Hj. destruct (ti_used _ Hinv _ _ Hu) as (_ & _ & Hual).
  destruct (decide (u = t /\ j = idx d va)) as [[-> ->]|Hne]; [left; split_and!; try done; apply (gr_entry _ _ _ _ _ _ Hg)|].
  right. apply (gr_old _ _ _ _ _ _ Hg); try done. by eapply grew_not_table.
Qed.

Lemma grew_back e vb u : (e <= 3)%nat -> tbl s' e vb = Some u ->
  tbl s e vb = Some u \/ (e = S d /\ u = a /\ tbl s d vb = Some t /\ idx d vb = idx d va).
Proof.
  revert u. induction e as [|e IH]; intros u He; [intros [= <-]; left; cbn [tbl]; by rewrite (proj1 grew_ext)|].
  intros (w & Hw & [Hne Hl] & ->)%tbl_S. destruct (IH w ltac:(lia) Hw) as [Hold|(-> & -> & _)].
  - pose proof (tbl_table _ _ _ _ Hold ltac:(lia)) as Hwt. destruct (grew_entry _ w (idx e vb) Hwt (idx_range e vb)) as [(-> & Hj & Ev & _)|E].
    + right. rewrite Ev. destruct grew_table as (n & Hn & En). pose proof (ti_level _ Hinv _ _ _ Hwt Hn). assert (e = d) as -> by lia. by rewrite Hj in *.
    + left. rewrite E in *. apply tbl_S. by exists w.
  - exfalso. apply Hne. apply (gr_new _ _ _ _ _ _ Hg), idx_range.
Qed.

Lemma grew_tree : tree s -> tree s'.
Proof.
  intros Htr e va1 vb u He H1 H2. destruct (grew_back e va1 u He H1) as [O1|(E1 & U1 & T1 & I1)], (grew_back e vb u He H2) as [O2|(E2 & U2 & T2 & I2)].
  - by apply (Htr e va1 vb u).
  - exfalso. subst u. by eapply grew_not_table; [eapply tbl_table; [exact O1|lia]|].
  - exfalso. subst u. by eapply grew_not_table; [eapply tbl_table; [exact O2|lia]|].
  - intros j Hj. destruct (decide (j = d)) as [->|]; [congruence|]. apply (Htr d va1 vb t); [lia|done|done|lia].
Qed.

Lemma grew_walk vb : walk s' vb = walk s vb.
Proof.
  apply walk_same; intros; split.
  - intros (u & Hu & Hne & ->)%walk_page. pose proof (index_range vb 12) as I1. fold (PT_INDEX vb) in I1.
    destruct (grew_back 3 vb u ltac:(lia) Hu) as [Hold|(_ & -> & _)]; [|exfalso; apply Hne, (gr_new _ _ _ _ _ _ Hg); done].
    pose proof (tbl_table _ _ _ _ Hold ltac:(lia)) as Hut. destruct (grew_entry _ u (PT_INDEX vb) Hut I1) as [(-> & _)|E].
    + destruct grew_table as (n & Hn & En). pose proof (ti_level _ Hinv _ _ _ Hut Hn). lia.
    + apply walk_page. exists u. by rewrite E in *.
  - apply walk_extends, grew_ext.
  - intros (e & u & He & Hu & Hne & Hl)%walk_large. apply walk_large.
    destruct (grew_back e vb u ltac:(lia) Hu) as [Hold|(_ & -> & _)]; [|exfalso; apply Hne, (gr_new _ _ _ _ _ _ Hg), idx_range].
    pose proof (tbl_table _ _ _ _ Hold ltac:(lia)) as Hut. destruct (grew_entry _ u (idx e vb) Hut (idx_range e vb)) as [(_ & _ & Ev & _)|E].
    + by rewrite Ev in Hl.
    + exists e, u. by rewrite E in *.
  - apply extends_large, grew_ext.
Qed.
End Grew.

(** ** The way down *)

(** [s'] has more tables than [s], all of them empty. *)
Record roomier s s' : Prop := {
  ro_inv : tables_inv s';
  ro_ext : extends s s';
  ro_tree : tree s -> tree s';
  ro_walk : forall vb, walk s' vb = walk s vb;
  ro_used : forall x, fr_used (fr s) x -> fr_used (fr s') x
}.

Lemma roomier_refl s : tables_inv s -> roomier s s.
Proof. by constructor. Qed.

Lemma roomier_trans s1 s2 s3 : roomier s1 s2 -> roomier s2 s3 -> roomier s1 s3.
Proof.
  intros [I1 X1 T1 W1 U1] [I2 X2 T2 W2 U2]. constructor; [done|by eapply extends_trans|auto| |auto].
  intros vb. by rewrite W2, W1.
Qed.

Lemma grew_roomier s s' d va : tables_inv s -> grew s s' d va -> roomier s s'.
Proof.
  intros Hinv [t a v ?? Hg ???????]. constructor.
  - by eapply (grew_inv s s' d va t a v).
  - by eapply (grew_ext s s' d va t a v).
  - by eapply (grew_tree s s' d va t a v).
  - by eapply (grew_walk s s' d va t a v).
  - intros x Hx. apply (gr_used _ _ _ _ _ _ Hg). by left.
Qed.

Lemma next_table_grew s d va table bits k r s' : tables_inv s -> (d <= 2)%nat -> tbl s d va = Some (phys table) -> small_bits bits -> rich (S k) (fr s) ->
  next_table table (idx d va) bits 1 s = Done (r, s') -> s' = s \/ grew s s' d va.
Proof.
  intros Hinv Hd Ht Hb Hr. pose proof (tbl_table _ _ _ _ Ht ltac:(lia)) as Htt. destruct (ti_used _ Hinv _ _ Htt) as (Htu & Htr & Htal).
  unfold next_table. change (rd table (idx d va) s) with (entry s (phys table) (idx d va)).
  destruct (decide (entry s (phys table) (idx d va) = 0)) as [Hz|]; [|intros [= _ <-]; by left]. rewrite decide_False by lia.
  destruct (rich_alloc k _ (ti_alloc _ Hinv) Hr) as (a & f & Ha & Hok & Har & Hal & Hfresh & Hu & _).
  destruct (fresh_entry a bits Har Hal Hb) as (Hch & Hvn & Hvl & _). unfold alloc_frame. rewrite Ha. cbn [mbind outcome_bind]. intros [= _ <-]. right.
  eapply (grew_intro _ _ _ _ (phys table) a (Z.lor a bits)); try done. by apply grow_step; try done; [lia|apply idx_range].
Qed.

Lemma step_down s d va table bits k : tables_inv s -> (d <= 2)%nat -> tbl s d va = Some (phys table) -> small_bits bits -> rich (S k) (fr s) -> walk s va <> WLarge ->
  exists q s', next_table table (idx d va) bits 1 s = Done (Some q, s') /\ roomier s s' /\ rich k (fr s') /\
    tbl s' (S d) va = Some (phys q) /\ (d = 0%nat \/ forall s'', extends s' s'' -> Z.land (rd table (idx d va) s'') PAGE_LARGE = 0).
Proof.
  intros Hinv Hd Ht Hb Hr Hw. pose proof (tbl_table _ _ _ _ Ht ltac:(lia)) as Htt. replace (4 - d)%nat with (S (S (2 - d))) in Htt by lia.
  assert (Hl : S (S (2 - d)) = 4%nat \/ entry s (phys table) (idx d va) = 0 \/ Z.land (entry s (phys table) (idx d va)) PAGE_LARGE = 0).
  { destruct (decide (d = 0%nat)) as [->|]; [by left|]. right. destruct (decide (entry s (phys table) (idx d va) = 0)) as [|Hne]; [by left|right].
    apply dec_stable. intros Hlg. apply Hw, walk_large. exists d, (phys table). split; [lia|done]. }
  destruct (next_table_level s (2 - d) (phys table) table (idx d va) bits k Hinv eq_refl Htt (idx_range d va) Hb Hr Hl)
    as (q & s' & Hrun & Hinv' & Hx & Hq & Hrk & Hrd & Hc & Hn & Hlg & Hu & _ & _).
  exists q, s'. split; [done|]. assert (Hro : roomier s s').
  { destruct (next_table_grew s d va table bits k _ _ Hinv Hd Ht Hb Hr Hrun) as [->|Hg]; [by apply roomier_refl|by eapply grew_roomier]. }
  assert (Hlg' : d = 0%nat \/ Z.land (entry s' (phys table) (idx d va)) PAGE_LARGE = 0) by (destruct Hlg; [left; lia|by right]).
  split; [done|]. split; [done|]. split.
  - apply tbl_S. exists (phys table). split; [by apply (extends_tbl s); [lia|..]|]. by rewrite Hc.
  - destruct Hlg' as [|Hlg']; [by left|right]. intros s'' Hx'. change (rd table (idx d va) s'') with (entry s'' (phys table) (idx d va)).
    assert (Htt' : is_table s' (S (S (2 - d))) (phys table)) by by eapply extends_tables. by rewrite (proj2 Hx' _ _ _ Htt' (idx_range d va) Hn).
Qed.

Lemma create_way s va flags k : tables_inv s -> small_bits (page_bits flags) -> rich (3 + k) (fr s) -> walk s va <> WLarge ->
  exists q s', memmgr_create_or_get_page va flags 1 s = get_leaf q (PT_INDEX va) flags 1 s' /\ roomier s s' /\
    tbl s' 3 va = Some (phys q) /\ rich k (fr s').
Proof.
  intros Hinv Hb Hr Hw. destruct (step_down s 0 va (memmgr_get_from_physical (pml4 s)) (page_bits flags) (2 + k))
    as (q3 & s1 & H1 & R1 & K1 & T1 & _); try done; [lia|].
  destruct (step_down s1 1 va q3 (page_bits flags) (1 + k)) as (q2 & s2 & H2 & R2 & K2 & T2 & L2); try done; [apply R1|lia|by rewrite (ro_walk _ _ R1)|].
  pose proof (roomier_trans _ _ _ R1 R2) as R12.
  destruct (step_down s2 2 va q2 (page_bits flags) k) as (q & s3 & H3 & R3 & K3 & T3 & L3); try done; [apply R2|by rewrite (ro_walk _ _ R12)|].
  exists q, s3. split; [|split; [by eapply roomier_trans|done]]. unfold memmgr_create_or_get_page, memmgr_get_current_pml4.
  change (PML4_INDEX va) with (idx 0 va). change (PDP_INDEX va) with (idx 1 va). change (PD_INDEX va) with (idx 2 va).
  rewrite H1. cbn [mbind outcome_bind]. rewrite H2. cbn [mbind outcome_bind]. destruct L2 as [|L2], L3 as [|L3]; try done.
  rewrite (L2 s2), decide_False by (apply extends_refl || tauto). rewrite H3. cbn [mbind outcome_bind].
  by rewrite (L3 s3), decide_False by (apply extends_refl || tauto).
Qed.

(** ** The page itself *)

Lemma leaf_tbl s s' t i d vb : tables_inv s -> is_table s 1 t -> leaf_write s s' t i -> (d <= 3)%nat -> tbl s' d vb = tbl s d vb.
Proof.
  intros Hinv Ht Hl. induction d as [|d IH]; intros Hd; [cbn [tbl]; unfold root; by rewrite (lf_root _ _ _ _ Hl)|].
  cbn [tbl]. rewrite IH by lia. destruct (tbl s d vb) as [u|] eqn:Hu; [|done]. cbn [mbind option_bind].
  pose proof (tbl_table _ _ _ _ Hu ltac:(lia)) as Hut. replace (4 - d)%nat with (S (S (2 - d))) in Hut by lia.
  by rewrite (leafed_entry s s' t i _ _ _ Hinv Ht Hl Hut (idx_range d vb)).
Qed.

Lemma leaf_walk s s' t va vb : tables_inv s -> tree s -> tbl s 3 va = Some t -> leaf_write s s' t (PT_INDEX va) ->
  0 <= va < 2 ^ 48 -> 0 <= vb < 2 ^ 48 -> vb / 4096 <> va / 4096 -> walk s' vb = walk s vb.
Proof.
  intros Hinv Htr Ht Hl Ha Hb Hne. pose proof (tbl_table _ _ _ _ Ht ltac:(lia)) as Htt.
  assert (E : forall u, tbl s 3 vb = Some u -> entry s' u (PT_INDEX vb) = entry s u (PT_INDEX vb)).
  { intros u Hu. pose proof (tbl_table _ _ _ _ Hu ltac:(lia)) as Hut. destruct (ti_used _ Hinv _ _ Hut) as (_ & _ & Hual).
    apply (lf_old _ _ _ _ Hl); [done|apply index_range|]. intros [-> Hi]. apply Hne, same_page; try done. intros j Hj.
    destruct (decide (j = 3%nat)) as [->|]; [done|]. apply (Htr 3%nat vb va t); try done; lia. }
  apply walk_same; intros; [rewrite !walk_page|rewrite !walk_large].
  - rewrite (leaf_tbl s s' t _ 3 vb Hinv Htt Hl) by lia. split; intros (u & Hu & H); exists u; by rewrite (E u Hu) in *.
  - assert (E' : forall d u, (d = 1 \/ d = 2)%nat -> tbl s d vb = Some u -> entry s' u (idx d vb) = entry s u (idx d vb)).
    { intros d u Hd Hu. pose proof (tbl_table _ _ _ _ Hu ltac:(lia)) as Hut. replace (4 - d)%nat with (S (S (2 - d))) in Hut by lia.
      by apply (leafed_entry s s' t (PT_INDEX va) _ _ _ Hinv Htt Hl Hut (idx_range d vb)). }
    split; intros (d & u & Hd & Hu & H); exists d, u; rewrite (leaf_tbl s s' t _ d vb Hinv Htt Hl) in * by lia; rewrite (E' d u Hd) in * by done; done.
Qed.

(** A change of memory outside the tables. *)
Record same_tables s s' : Prop := {
  st_root : pml4 s' = pml4 s;
  st_fr : fr s' = fr s;
  st_entry : forall n u j, is_table s n u -> 0 <= j < 512 -> entry s' u j = entry s u j
}.

Section Same.
Context s s' (Hs : same_tables s s').

Lemma same_table n u : is_table s' n u -> is_table s n u.
Proof.
  induction 1 as [|n u j Hu IH Hj Hne Hl]; [unfold root; rewrite (st_root _ _ Hs); constructor|].
  rewrite (st_entry _ _ Hs _ _ _ IH Hj) in *. by apply it_child.
Qed.

Lemma same_inv : tables_inv s -> tables_inv s'.
Proof.
  intros [H1 H2 H3]. constructor; rewrite ?(st_fr _ _ Hs); [done|..].
  - intros n t Ht. by apply (H2 n), same_table.
  - intros n m t Hn Hm. by apply (H3 n m t); apply same_table.
Qed.

Lemma same_tbl d vb : (d <= 3)%nat -> tbl s' d vb = tbl s d vb.
Proof.
  induction d as [|d IH]; intros Hd; [cbn [tbl]; unfold root; by rewrite (st_root _ _ Hs)|]. cbn [tbl]. rewrite IH by lia.
  destruct (tbl s d vb) as [u|] eqn:Hu; [|done]. cbn [mbind option_bind].
  by rewrite (st_entry _ _ Hs _ _ _ (tbl_table _ _ _ _ Hu ltac:(lia)) (idx_range d vb)).
Qed.

Lemma same_tree : tree s -> tree s'.
Proof. intros Ht d va vb t Hd. rewrite !same_tbl by done. by apply Ht. Qed.

Lemma same_upper need : upper_grants need s -> upper_grants need s'.
Proof.
  intros Hup n u j Hu Hj. pose proof (same_table _ _ Hu) as Hold. rewrite (st_entry _ _ Hs _ _ _ Hold Hj). by apply (Hup n).
Qed.

Lemma same_walk vb : walk s' vb = walk s vb.
Proof.
  pose proof (index_range vb 12) as I1. fold (PT_INDEX vb) in I1. apply walk_same; intros; [rewrite !walk_page|rewrite !walk_large].
  - rewrite same_tbl by lia. split; intros (u & Hu & H); exists u; by rewrite (st_entry _ _ Hs _ _ _ (tbl_table _ _ _ _ Hu ltac:(lia)) I1) in *.
  - split; intros (d & u & Hd & Hu & H); exists d, u; rewrite same_tbl in * by lia;
      by rewrite (st_entry _ _ Hs _ _ _ (tbl_table _ _ _ _ Hu ltac:(lia)) (idx_range d vb)) in *.
Qed.
End Same.

Lemma zero_same s p : 0 <= p < 2 ^ 39 -> p mod 4096 = 0 -> tables_inv s -> (forall n, ~ is_table s n p) -> same_tables s (zero_page (Z.lor p KERNEL_MEMORY) s).
Proof.
  intros Hp Hal Hinv Hno. constructor; [done|done|]. intros n u j Hu Hj. destruct (ti_used _ Hinv _ _ Hu) as (_ & _ & Hual).
  unfold entry, zero_page. cbn [pm set_pm]. rewrite phys_kernel, phys_small by done. rewrite decide_False; [done|].
  intros Hin. apply (Hno n). assert (u = p) as ->; [|done]. pose proof (Z.div_mod u 4096). pose proof (Z.div_mod p 4096). lia.
Qed.

(** ** mmap of one page *)

Lemma create_page s va flags k : tables_inv s -> tree s -> small_bits (page_bits flags) -> rich (4 + k) (fr s) -> walk s va = WMiss -> 0 <= va < 2 ^ 48 ->
  exists p s', memmgr_create_or_get_page va flags 1 s = Done (p, s') /\ walk s' va = WPage p /\ (0 < p < 2 ^ 39 /\ p mod 4096 = 0) /\
    tables_inv s' /\ tree s' /\ rich k (fr s') /\ (forall n, ~ is_table s' n p) /\
    (forall vb, 0 <= vb < 2 ^ 48 -> vb / 4096 <> va / 4096 -> walk s' vb = walk s vb) /\
    (exists t, tbl s' 3 va = Some t /\ entry s' t (PT_INDEX va) = Z.lor p (page_bits flags)).
Proof.
  intros Hinv Htr Hb Hr Hw Hva. destruct (create_way s va flags (S k)) as (q & s1 & -> & [Hinv1 Hx1 Ht1 Hw1 Hu1] & Hq & Hr1); try done; [by rewrite Hw|].
  specialize (Ht1 Htr). pose proof (tbl_table _ _ _ _ Hq ltac:(lia)) as Hqt. pose proof (index_range va 12) as I1. fold (PT_INDEX va) in I1.
  assert (Hz : entry s1 (phys q) (PT_INDEX va) = 0).
  { apply dec_stable. intros Hne. assert (walk s1 va = WPage (Z.land (entry s1 (phys q) (PT_INDEX va)) PAGE_MASK)) as E by (apply walk_page; by exists (phys q)).
    by rewrite Hw1, Hw in E. }
  destruct (get_leaf_make s1 q (PT_INDEX va) flags k Hinv1 Hqt I1 Hb Hr1 Hz) as (p & s2 & -> & Hlf & Hne & Hmask & Hent & Hfresh & _ & Hp & Hr2).
  pose proof (lf_write _ _ _ _ Hlf) as Hlw. exists p, s2. split; [done|]. split.
  { apply walk_page. exists (phys q). split; [by rewrite (leaf_tbl s1 s2 (phys q) (PT_INDEX va) 3 va)|done]. }
  split; [done|]. split; [by eapply leafed_inv|]. split.
  { intros d v1 v2 t Hd. rewrite !(leaf_tbl s1 s2 (phys q) (PT_INDEX va) d) by done. by apply Ht1. }
  split; [done|]. split.
  { intros n Hn. apply Hfresh. apply (leafed_back s1 s2 (phys q) (PT_INDEX va)) in Hn; try done. by apply (ti_used _ Hinv1 n). }
  split; [intros vb Hvb Hpg; rewrite <-Hw1; by apply (leaf_walk s1 s2 (phys q) va vb)|].
  exists (phys q). split; [by rewrite (leaf_tbl s1 s2 (phys q) (PT_INDEX va) 3 va)|done].
Qed.

Lemma user_bits_small : small_bits (page_bits PAGE_USER).
Proof. split; [by vm_compute|reflexivity]. Qed.

Lemma one_page (body : Z -> vm F -> outcome (vm F)) s : each_page 1 0 body s = body 0 s.
Proof. unfold each_page. change (Z.to_nat 1) with 1%nat. cbn [for_]. destruct (body 0 s); done. Qed.

(** Mmap of a page that is not there. *)
Lemma mmap_makes s a k : tables_inv s -> tree s -> rich (4 + k) (fr s) -> 0 < a < 2 ^ 48 -> a mod 4096 = 0 -> walk s a = WMiss ->
  exists p s', mmap a 0x1000 false s = Done (a, s') /\ walk s' a = WPage p /\ p <> 0 /\ tables_inv s' /\ tree s' /\ rich k (fr s') /\
    (forall vb, 0 <= vb < 2 ^ 48 -> vb / 4096 <> a / 4096 -> walk s' vb = walk s vb) /\
    (forall need, Z.land 6 need = need -> upper_grants need s -> upper_grants need s' /\ translate need s' a = Some p).
Proof.
  intros Hinv Htr Hr Ha Hal Hw. destruct (create_page s a PAGE_USER k Hinv Htr user_bits_small Hr Hw ltac:(lia))
    as (p & s1 & Hrun & Hw1 & [Hp Hpal] & Hinv1 & Htr1 & Hr1 & Hno & Hother & t & Ht & He).
  pose proof (zero_same s1 p ltac:(lia) Hpal Hinv1 Hno) as Hs. exists p, (zero_page (Z.lor p KERNEL_MEMORY) s1). split.
  - unfold mmap. rewrite (decide_False (P := a <> 0 /\ _)) by (unfold PAGE_SIZE; lia). change (page_count 4096) with 1.
    rewrite (decide_False (P := a = 0)) by lia. change (Z.to_nat 1) with 1%nat. cbn [for_]. change (0x1000 * 0) with 0.
    rewrite Z.add_0_r, u64_small by lia. rewrite get_page_walk, Hw. cbn [mbind outcome_bind]. rewrite (decide_False (P := 0 <> 0)) by tauto. cbn [mbind outcome_bind].
    rewrite one_page. change (0x1000 * 0) with 0. rewrite Z.add_0_r, u64_small by lia. rewrite Hrun. cbn [mbind outcome_bind].
    unfold zero_virtual. rewrite get_page_walk, Hw1. cbn [mbind outcome_bind]. by rewrite (decide_True (P := p <> 0)) by lia.
  - split; [by rewrite (same_walk _ _ Hs)|]. split; [lia|]. split; [by apply (same_inv _ _ Hs)|]. split; [by apply (same_tree _ _ Hs)|]. split; [done|].
    split; [intros vb Hvb Hpg; rewrite (same_walk _ _ Hs); by apply Hother|].
    intros need Hn Hup. assert (upper_grants need s1) as Hup1 by (eapply (create_upper s a PAGE_USER); [done|apply user_bits_small|eapply rich_less; [|exact Hr]; lia|by rewrite Hw|done..]).
    split; [by apply (same_upper _ _ Hs)|]. pose proof (tbl_table _ _ _ _ Ht ltac:(lia)) as Htt. pose proof (index_range a 12) as I1. fold (PT_INDEX a) in I1.
    assert (He' : entry (zero_page (Z.lor p KERNEL_MEMORY) s1) t (PT_INDEX a) = Z.lor p (page_bits PAGE_USER)) by (by rewrite (st_entry _ _ Hs _ _ _ Htt I1)).
    rewrite (walk_translates need _ a t); [|by apply (same_upper _ _ Hs)|apply tbl_path; by rewrite (same_tbl _ _ Hs)|rewrite He'; by apply page_bits_grant].
    rewrite He', land_frame_bits by (lia || done). by rewrite Hal, Z.add_0_r.
Qed.

(** Mmap of a page that is there changes nothing and returns 0. *)
Lemma mmap_there s a p : 0 < a < 2 ^ 48 -> a mod 4096 = 0 -> walk s a = WPage p -> p <> 0 -> mmap a 0x1000 false s = Done (0, s).
Proof.
  intros Ha Hal Hw Hp. unfold mmap. rewrite (decide_False (P := a <> 0 /\ _)) by (unfold PAGE_SIZE; lia). change (page_count 4096) with 1.
  rewrite (decide_False (P := a = 0)) by lia. change (Z.to_nat 1) with 1%nat. cbn [for_]. change (0x1000 * 0) with 0.
  rewrite Z.add_0_r, u64_small by lia. rewrite get_page_walk, Hw. cbn [mbind outcome_bind]. by rewrite (decide_True (P := p <> 0)).
Qed.

End Tree.

(** ** An example: a page of the empty page map *)

Lemma boot_miss va : walk boot_vm va = WMiss.
Proof. reflexivity. Qed.

Lemma boot_tree : tree boot_vm.
Proof.
  intros d va vb t Hd H1 H2 j Hj. destruct d as [|d]; [lia|]. exfalso. apply tbl_S in H1 as (u & _ & [Hne _] & _). by apply Hne.
Qed.

Lemma boot_richer n : Z.of_nat n < 1000 -> rich n (fr boot_vm).
Proof.
  intros Hn. destruct boot_frames as [Hwf H0]. apply (bitmap_rich n demo_frames 3); try done; try lia.
  - intros j Hj. unfold in_use, frame_word. unfold demo_frames. cbn [memory_map]. rewrite !lookup_insert_ne, lookup_singleton_ne by lia. simpl. lia.
  - unfold BITMAP_SIZE. lia.
Qed.

