(* ===== verification/CString.v ===== *)
(** libc/string: the memory and string routines, on byte-addressed memory.

    A [char*] is an address, NULL is 0.  A function that writes returns the new
    memory.  The loops that run to a terminator take fuel; a [for] loop over a
    [size_t] is bounded and takes none.  Characters are compared as the bytes
    they are; a character read through [const unsigned char*] is what [load]
    returns. *)
From S2P Require Import Prelude Memory.
From stdpp Require Import base list gmap.
From Stdlib Require Import ZArith Lia.

#[local] Open Scope Z_scope.

(** ** Definitions *)

(** for(i = 0; i < size; i++) dst[i] = src[i]; *)
Definition memcpy (m : mem) (dst src size : Z) : outcome mem :=
  r ← for_ (Z.to_nat size) 0 (fun i m =>
        b ← load m (src + i);
        m' ← store m (dst + i) b;
        mret (inl m')) m;
  match r with inl m' => Done m' | inr m' => Done m' end.

Definition memset (m : mem) (buf value size : Z) : outcome mem :=
  r ← for_ (Z.to_nat size) 0 (fun i m =>
        m' ← store m (buf + i) (u8 value);
        mret (inl m')) m;
  match r with inl m' => Done m' | inr m' => Done m' end.

(** for(i = size; i != 0; i--) dst[i-1] = src[i-1]; *)
Fixpoint memmove_down (m : mem) (dst src : Z) (i : nat) : outcome mem :=
  match i with
  | O => Done m
  | S i' =>
      b ← load m (src + Z.of_nat i');
      m' ← store m (dst + Z.of_nat i') b;
      memmove_down m' dst src i'
  end.

Definition memmove (m : mem) (dst src size : Z) : outcome mem :=
  if decide (dst < src) then memcpy m dst src size
  else memmove_down m dst src (Z.to_nat size).

Definition memcmp (m : mem) (a b size : Z) : outcome Z :=
  r ← for_ (Z.to_nat size) 0 (fun i (_ : unit) =>
        x ← load m (a + i);
        y ← load m (b + i);
        mret (if decide (x < y) then inr (-1)
              else if decide (y < x) then inr 1
              else inl tt)) tt;
  match r with inl _ => Done 0 | inr v => Done v end.

Definition memchr (m : mem) (s c n : Z) : outcome Z :=
  r ← for_ (Z.to_nat n) 0 (fun i (_ : unit) =>
        x ← load m (s + i);
        mret (if decide (x = u8 c) then inr (s + i) else inl tt)) tt;
  match r with inl _ => Done 0 | inr p => Done p end.

Fixpoint strlen_loop (fuel : nat) (m : mem) (str len : Z) : outcome Z :=
  match fuel with
  | O => OutOfFuel
  | S fuel' =>
      c ← load m (str + len);
      if decide (c = 0) then Done len else strlen_loop fuel' m str (len + 1)
  end.
Definition strlen (fuel : nat) (m : mem) (str : Z) : outcome Z := strlen_loop fuel m str 0.

(** [malloc] is a parameter of [strdup]: the block it returns with the memory
    in which that block is mapped. *)
Definition strdup (malloc : mem -> Z -> outcome (Z * mem)) (fuel : nat) (m : mem) (str : Z)
    : outcome (Z * mem) :=
  len ← strlen fuel m str;
  '(new, m1) ← malloc m (len + 1);
  m2 ← memcpy m1 new str (len + 1);
  mret (new, m2).

(** while ( *src) *dest++ = *src++; the loop shared by strcpy and strcat.  The
    address of the terminator to write is returned. *)
Fixpoint copy_loop (fuel : nat) (m : mem) (dest src : Z) : outcome (Z * mem) :=
  match fuel with
  | O => OutOfFuel
  | S fuel' =>
      c ← load m src;
      if decide (c = 0) then Done (dest, m)
      else m' ← store m dest c; copy_loop fuel' m' (dest + 1) (src + 1)
  end.

Definition strcpy (fuel : nat) (m : mem) (dest src : Z) : outcome (Z * mem) :=
  if decide (dest = 0 \/ src = 0) then Done (0, m) else
  '(d, m1) ← copy_loop fuel m dest src;
  m2 ← store m1 d 0;
  mret (dest, m2).

(** The first loop of strncpy; returns the index where it stopped. *)
Fixpoint strncpy_copy (n : nat) (m : mem) (dest src i : Z) : outcome (nat * Z * mem) :=
  match n with
  | O => Done (O, i, m)
  | S n' =>
      c ← load m (src + i);
      if decide (c = 0) then Done (n, i, m)
      else m' ← store m (dest + i) c; strncpy_copy n' m' dest src (i + 1)
  end.

Definition strncpy (m : mem) (dest src n : Z) : outcome (Z * mem) :=
  if decide (dest = 0 \/ src = 0) then Done (0, m) else
  '(rest, i, m1) ← strncpy_copy (Z.to_nat n) m dest src 0;
  r ← for_ rest i (fun k m => m' ← store m (dest + k) 0; mret (inl m')) m1;
  match r with inl m' => Done (dest, m') | inr m' => Done (dest, m') end.

(** while ( *dest) dest++; *)
Fixpoint find_end (fuel : nat) (m : mem) (dest : Z) : outcome Z :=
  match fuel with
  | O => OutOfFuel
  | S fuel' =>
      c ← load m dest;
      if decide (c = 0) then Done dest else find_end fuel' m (dest + 1)
  end.

Definition strcat (fuel : nat) (m : mem) (dest src : Z) : outcome (Z * mem) :=
  if decide (dest = 0 \/ src = 0) then Done (0, m) else
  e ← find_end fuel m dest;
  '(d, m1) ← copy_loop fuel m e src;
  m2 ← store m1 d 0;
  mret (dest, m2).

(** while(n-- && *src) *dest++ = *src++; *)
Fixpoint strncat_copy (n : nat) (m : mem) (dest src : Z) : outcome (Z * mem) :=
  match n with
  | O => Done (dest, m)
  | S n' =>
      c ← load m src;
      if decide (c = 0) then Done (dest, m)
      else m' ← store m dest c; strncat_copy n' m' (dest + 1) (src + 1)
  end.

Definition strncat (fuel : nat) (m : mem) (dest src n : Z) : outcome (Z * mem) :=
  if decide (dest = 0 \/ src = 0) then Done (0, m) else
  e ← find_end fuel m dest;
  '(d, m1) ← strncat_copy (Z.to_nat n) m e src;
  m2 ← store m1 d 0;
  mret (dest, m2).

Fixpoint strcmp_loop (fuel : nat) (m : mem) (s1 s2 : Z) : outcome Z :=
  match fuel with
  | O => OutOfFuel
  | S fuel' =>
      a ← load m s1;
      if decide (a = 0) then b ← load m s2; Done (a - b)
      else
        b ← load m s2;
        if decide (a = b) then strcmp_loop fuel' m (s1 + 1) (s2 + 1) else Done (a - b)
  end.

Definition strcmp (fuel : nat) (m : mem) (s1 s2 : Z) : outcome Z :=
  if decide (s1 = 0 \/ s2 = 0) then
    Done (if decide (s1 = 0 /\ s2 = 0) then 0 else if decide (s2 = 0) then -1 else 1)
  else strcmp_loop fuel m s1 s2.

(** while(--n && *s1 && *s1 == *s2): [n] is what is left after the [--n]. *)
Fixpoint strncmp_loop (n : nat) (m : mem) (s1 s2 : Z) : outcome Z :=
  match n with
  | O => a ← load m s1; b ← load m s2; Done (a - b)
  | S n' =>
      a ← load m s1;
      if decide (a = 0) then b ← load m s2; Done (a - b)
      else
        b ← load m s2;
        if decide (a = b) then strncmp_loop n' m (s1 + 1) (s2 + 1) else Done (a - b)
  end.

Definition strncmp (m : mem) (s1 s2 n : Z) : outcome Z :=
  if decide (s1 = 0 \/ s2 = 0) then Done (s32 (s1 - s2)) else
  if decide (n = 0) then Done 0 else strncmp_loop (Z.to_nat (n - 1)) m s1 s2.

(** while ( *s != (char)c) if(!*s++) return NULL; *)
Fixpoint strchr_loop (fuel : nat) (m : mem) (s c : Z) : outcome Z :=
  match fuel with
  | O => OutOfFuel
  | S fuel' =>
      a ← load m s;
      if decide (a = u8 c) then Done s
      else if decide (a = 0) then Done 0 else strchr_loop fuel' m (s + 1) c
  end.
Definition strchr (fuel : nat) (m : mem) (s c : Z) : outcome Z :=
  if decide (s = 0) then Done 0 else strchr_loop fuel m s c.

(** do { if ( *s == (char)c) last = s; } while ( *s++); *)
Fixpoint strrchr_loop (fuel : nat) (m : mem) (s c last : Z) : outcome Z :=
  match fuel with
  | O => OutOfFuel
  | S fuel' =>
      a ← load m s;
      let last := if decide (a = u8 c) then s else last in
      if decide (a = 0) then Done last else strrchr_loop fuel' m (s + 1) c last
  end.
Definition strrchr (fuel : nat) (m : mem) (s c : Z) : outcome Z :=
  if decide (s = 0) then Done 0 else strrchr_loop fuel m s c 0.

(** The inner loops of strcspn and strspn: is the character [c] in the string
    at [r]? *)
Fixpoint in_set (fuel : nat) (m : mem) (c r : Z) : outcome bool :=
  match fuel with
  | O => OutOfFuel
  | S fuel' =>
      a ← load m r;
      if decide (a = 0) then Done false
      else if decide (c = a) then Done true else in_set fuel' m c (r + 1)
  end.

Fixpoint strcspn_loop (fuel ifuel : nat) (m : mem) (p reject count : Z) : outcome Z :=
  match fuel with
  | O => OutOfFuel
  | S fuel' =>
      c ← load m p;
      if decide (c = 0) then Done count
      else
        hit ← in_set ifuel m c reject;
        if (hit : bool) then Done count else strcspn_loop fuel' ifuel m (p + 1) reject (count + 1)
  end.
Definition strcspn (fuel : nat) (m : mem) (s reject : Z) : outcome Z :=
  if decide (s = 0 \/ reject = 0) then Done 0 else strcspn_loop fuel fuel m s reject 0.

Fixpoint strspn_loop (fuel ifuel : nat) (m : mem) (p accept count : Z) : outcome Z :=
  match fuel with
  | O => OutOfFuel
  | S fuel' =>
      c ← load m p;
      if decide (c = 0) then Done count
      else
        hit ← in_set ifuel m c accept;
        if (hit : bool) then strspn_loop fuel' ifuel m (p + 1) accept (count + 1) else Done count
  end.
Definition strspn (fuel : nat) (m : mem) (s accept : Z) : outcome Z :=
  if decide (s = 0 \/ accept = 0) then Done 0 else strspn_loop fuel fuel m s accept 0.

Definition strpbrk (fuel : nat) (m : mem) (s1 s2 : Z) : outcome Z :=
  n ← strcspn fuel m s1 s2;
  c ← load m (s1 + n);
  Done (if decide (c = 0) then 0 else s1 + n).

(** for(h = haystack, n = needle; *n && *h && *h == *n; ++h, ++n); is the
    needle exhausted? *)
Fixpoint prefix_loop (fuel : nat) (m : mem) (h n : Z) : outcome bool :=
  match fuel with
  | O => OutOfFuel
  | S fuel' =>
      b ← load m n;
      if decide (b = 0) then Done true
      else
        a ← load m h;
        if decide (a = 0) then Done false
        else if decide (a = b) then prefix_loop fuel' m (h + 1) (n + 1) else Done false
  end.

Fixpoint strstr_loop (fuel ifuel : nat) (m : mem) (haystack needle : Z) : outcome Z :=
  match fuel with
  | O => OutOfFuel
  | S fuel' =>
      c ← load m haystack;
      if decide (c = 0) then Done 0
      else
        hit ← prefix_loop ifuel m haystack needle;
        if (hit : bool) then Done haystack else strstr_loop fuel' ifuel m (haystack + 1) needle
  end.
Definition strstr (fuel : nat) (m : mem) (haystack needle : Z) : outcome Z :=
  if decide (haystack = 0 \/ needle = 0) then Done 0 else
  c ← load m needle;
  if decide (c = 0) then Done haystack else strstr_loop fuel fuel m haystack needle.

(** [last] is the static of the source: the new value is returned, it is never
    read before it is written. *)
Definition strtok (fuel : nat) (m : mem) (str delim : Z) : outcome (Z * option Z * mem) :=
  if decide (delim = 0) then Done (0, None, m) else
  if decide (str = 0) then Done (0, None, m) else
  let last := str in
  k ← strspn fuel m last delim;
  let str := last + k in
  n ← strcspn fuel m str delim;
  let last := str + n in
  c ← load m last;
  '(last, m') ← (if decide (c = 0) then Done (0, m)
                 else m' ← store m last 0; Done (last + 1, m'));
  a ← load m' str;
  Done (if decide (a = 0) then 0 else str, Some last, m').

(** Returns the token, the new [*saveptr] and the memory. *)
Definition strtok_r (fuel : nat) (m : mem) (str delim saveptr : Z) : outcome (Z * Z * mem) :=
  if decide (delim = 0) then Done (0, saveptr, m) else
  let str := if decide (str = 0) then saveptr else str in
  if decide (str = 0) then Done (0, saveptr, m) else
  k ← strspn fuel m str delim;
  let str := str + k in
  c ← load m str;
  if decide (c = 0) then Done (0, 0, m) else
  n ← strcspn fuel m str delim;
  let e := str + n in
  d ← load m e;
  if decide (d = 0) then Done (str, 0, m)
  else m' ← store m e 0; Done (str, e + 1, m').

(** ** Reference functions on the characters of a string *)

(** C's comparison: the difference of the first bytes that differ, the
    terminator counting as 0. *)
Fixpoint chars_cmp (s1 s2 : list Z) : Z :=
  match s1, s2 with
  | [], _ => - default 0 (head s2)
  | a :: s1', [] => a
  | a :: s1', b :: s2' => if decide (a = b) then chars_cmp s1' s2' else a - b
  end.

(** The longest prefix whose characters satisfy [P], and what follows. *)
Fixpoint span (P : Z -> bool) (s : list Z) : list Z * list Z :=
  match s with
  | [] => ([], [])
  | c :: s' => if P c then let '(a, b) := span P s' in (c :: a, b) else ([], s)
  end.

Definition mem_set (d : list Z) (c : Z) : bool := bool_decide (c ∈ d).

(** The non-empty fields of [s] between delimiters [d]: what a tokenizer
    returns.  [acc] is the field being read, reversed. *)
Fixpoint fields_acc (d s acc : list Z) : list (list Z) :=
  let flush := match acc with [] => [] | _ => [reverse acc] end in
  match s with
  | [] => flush
  | c :: s' => if mem_set d c then flush ++ fields_acc d s' [] else fields_acc d s' (c :: acc)
  end.
Definition fields (d s : list Z) : list (list Z) := fields_acc d s [].

(** ** Shared lemmas *)

Lemma span_app P s : (span P s).1 ++ (span P s).2 = s.
Proof.
  induction s as [|c s IH]; simpl; [done|].
  destruct (P c); [|done]. destruct (span P s) as [a b]. simpl in *. by rewrite IH.
Qed.

Lemma span_head P s : match (span P s).2 with [] => True | c :: _ => P c = false end.
Proof.
  induction s as [|c s IH]; simpl; [done|].
  destruct (P c) eqn:E; [|done]. by destruct (span P s).
Qed.

Lemma span_all P s : Forall (fun c => P c = true) (span P s).1.
Proof.
  induction s as [|c s IH]; simpl; [constructor|].
  destruct (P c) eqn:E; [|constructor]. destruct (span P s) as [a b]. by constructor.
Qed.

Lemma in_set_spec fuel m c r d :
  cstring m r d -> (length d < fuel)%nat -> in_set fuel m c r = Done (mem_set d c).
Proof.
  revert fuel r. induction d as [|a d IH]; intros [|fuel] r Hd Hf; simpl in *; try lia.
  - apply cstring_nil in Hd. unfold load. rewrite Hd. simpl. done.
  - apply cstring_cons in Hd as (Ha & ? & Hd). rewrite (load_done _ _ _ Ha). simpl.
    rewrite decide_False by lia. unfold mem_set. case_decide as Hc.
    + subst. by rewrite bool_decide_true by set_solver.
    + rewrite (IH fuel) by (done || lia). unfold mem_set.
      rewrite (bool_decide_ext (c ∈ a :: d) (c ∈ d)); [done|set_solver].
Qed.

Lemma strcspn_loop_spec fuel ifuel m p r s d count :
  cstring m p s -> cstring m r d -> (length s < fuel)%nat -> (length d < ifuel)%nat ->
  strcspn_loop fuel ifuel m p r count
    = Done (count + Z.of_nat (length (span (fun c => negb (mem_set d c)) s).1)).
Proof.
  revert fuel p count. induction s as [|c s IH]; intros [|fuel] p count Hs Hd Hf Hi;
    simpl in *; try lia.
  - apply cstring_nil in Hs. rewrite (load_done _ _ _ Hs). simpl. f_equal. lia.
  - apply cstring_cons in Hs as (Hc & ? & Hs). rewrite (load_done _ _ _ Hc). simpl.
    rewrite decide_False by lia. rewrite (in_set_spec _ _ _ _ d) by done. simpl.
    destruct (mem_set d c); simpl; [f_equal; lia|].
    rewrite IH by (done || lia). f_equal. destruct (span _ s). simpl. lia.
Qed.

Lemma strspn_loop_spec fuel ifuel m p r s d count :
  cstring m p s -> cstring m r d -> (length s < fuel)%nat -> (length d < ifuel)%nat ->
  strspn_loop fuel ifuel m p r count = Done (count + Z.of_nat (length (span (mem_set d) s).1)).
Proof.
  revert fuel p count. induction s as [|c s IH]; intros [|fuel] p count Hs Hd Hf Hi;
    simpl in *; try lia.
  - apply cstring_nil in Hs. rewrite (load_done _ _ _ Hs). simpl. f_equal. lia.
  - apply cstring_cons in Hs as (Hc & ? & Hs). rewrite (load_done _ _ _ Hc). simpl.
    rewrite decide_False by lia. rewrite (in_set_spec _ _ _ _ d) by done. simpl.
    destruct (mem_set d c); simpl; [|f_equal; lia].
    rewrite IH by (done || lia). f_equal. destruct (span _ s). simpl. lia.
Qed.

(** Strlen finds the terminator. *)
Lemma strlen_spec fuel m p s :
  cstring m p s -> (length s < fuel)%nat -> strlen fuel m p = Done (Z.of_nat (length s)).
Proof.
  intros Hs Hf. unfold strlen.
  enough (H : forall s p' len, p' = p + len -> cstring m p' s -> (length s < fuel)%nat ->
    strlen_loop fuel m p len = Done (len + Z.of_nat (length s))).
  { apply (H s p); (done || lia). }
  clear s Hs Hf. induction fuel as [|fuel IH]; intros s p' len -> Hs Hf; [lia|].
  simpl. destruct s as [|c s].
  - apply cstring_nil in Hs. rewrite (load_done _ _ _ Hs). simpl. f_equal. lia.
  - apply cstring_cons in Hs as (Hc & ? & Hs). rewrite (load_done _ _ _ Hc). simpl.
    rewrite decide_False by lia. simpl in Hf. rewrite (IH s (p + len + 1)) by (done || lia).
    f_equal. simpl. lia.
Qed.

(** Memcpy, where the destination does not start inside the source. *)
Lemma memcpy_spec m dst src l :
  bytes_at m src l -> mapped m dst (Z.of_nat (length l)) ->
  dst <= src \/ src + Z.of_nat (length l) <= dst ->
  memcpy m dst src (Z.of_nat (length l)) = Done (write_bytes m dst l).
Proof.
  intros Hs Hd Hov. unfold memcpy. rewrite Nat2Z.id.
  edestruct (for_total (A := mem)
    (fun i m' => 0 <= i /\ m' = write_bytes m dst (take (Z.to_nat i) l))
    (length l) 0) as (m' & -> & _ & ->); [| |simpl].
  - intros k m' Hk [_ ->]. destruct (lookup_lt_is_Some_2 l (Z.to_nat k)) as [b Hb]; [lia|].
    assert (Hlen : length (take (Z.to_nat k) l) = Z.to_nat k) by (rewrite length_take; lia).
    exists (write_bytes m dst (take (Z.to_nat (k + 1)) l)). split; [|split; [lia|done]].
    rewrite (load_done _ _ b).
    2:{ rewrite write_bytes_lookup_out by lia. rewrite <-(Z2Nat.id k) by lia. by apply Hs. }
    simpl. rewrite store_done.
    2:{ apply (mapped_write_bytes _ _ _ _ _ Hd). lia. }
    simpl. do 2 f_equal. replace (Z.to_nat (k + 1)) with (S (Z.to_nat k)) by lia.
    rewrite (take_S_r _ _ b) by done. rewrite write_bytes_snoc, Hlen. f_equal. lia.
  - by rewrite take_0.
  - do 2 f_equal. rewrite take_ge; [done|lia].
Qed.

(** The descending loop of memmove, where the destination does not start
    before the source. *)
Lemma memmove_down_spec m dst src l :
  bytes_at m src l -> mapped m dst (Z.of_nat (length l)) -> src <= dst ->
  exists m', memmove_down m dst src (length l) = Done m' /\
    (forall q, m' !! q = write_bytes m dst l !! q).
Proof.
  intros Hs Hd Hle.
  enough (G : forall i m1, (i <= length l)%nat ->
    (forall q, m1 !! q = write_bytes m (dst + Z.of_nat i) (drop i l) !! q) ->
    exists m', memmove_down m1 dst src i = Done m' /\
      (forall q, m' !! q = write_bytes m dst l !! q)).
  { apply G; [done|]. intros q. by rewrite drop_all. }
  induction i as [|i IH]; intros m1 Hi Hm1.
  - exists m1. split; [done|]. intros q. by rewrite Hm1, drop_0, Z.add_0_r.
  - destruct (lookup_lt_is_Some_2 l i) as [b Hb]; [lia|].
    simpl. rewrite (load_done _ _ b).
    2:{ rewrite Hm1, write_bytes_lookup_out by lia. by apply Hs. }
    simpl. rewrite store_done.
    2:{ rewrite Hm1. apply (mapped_write_bytes _ _ _ _ _ Hd). lia. }
    simpl. apply IH; [lia|]. intros q. rewrite (drop_S _ b) by done. simpl.
    replace (dst + Z.of_nat i + 1) with (dst + Z.of_nat (S i)) by lia.
    rewrite <-write_bytes_insert_comm by lia.
    destruct (decide (dst + Z.of_nat i = q)) as [->|Hne].
    + by rewrite !lookup_insert_eq.
    + by rewrite !lookup_insert_ne.
Qed.

(** The copy loop of strcpy and strcat. *)
Lemma copy_loop_spec fuel m dest src s :
  cstring m src s -> mapped m dest (Z.of_nat (length s)) -> (length s < fuel)%nat ->
  dest + Z.of_nat (length s) < src \/ src + Z.of_nat (length s) < dest ->
  copy_loop fuel m dest src
    = Done (dest + Z.of_nat (length s), write_bytes m dest s).
Proof.
  revert m dest src s. induction fuel as [|fuel IH]; intros m dest src s Hs Hd Hf Hov; [lia|].
  simpl. destruct s as [|c s]; simpl in *.
  - apply cstring_nil in Hs. rewrite (load_done _ _ _ Hs). simpl. do 2 f_equal. lia.
  - apply cstring_cons in Hs as (Hc & ? & Hs). rewrite (load_done _ _ _ Hc). simpl.
    rewrite decide_False by lia. rewrite store_done by (apply Hd; lia). simpl.
    rewrite (IH _ _ _ s); try lia.
    + do 2 f_equal. lia.
    + apply cstring_insert_out; [lia|done].
    + apply mapped_insert. eapply mapped_weaken; [done|lia..].
Qed.

Lemma strcmp_loop_spec fuel m p1 p2 s1 s2 :
  cstring m p1 s1 -> cstring m p2 s2 -> (length s1 < fuel)%nat ->
  strcmp_loop fuel m p1 p2 = Done (chars_cmp s1 s2).
Proof.
  revert p1 p2 s1 s2. induction fuel as [|fuel IH]; intros p1 p2 s1 s2 H1 H2 Hf; [lia|].
  simpl. rewrite (load_done _ _ _ (cstring_head _ _ _ H1)). simpl.
  rewrite (load_done _ _ _ (cstring_head _ _ _ H2)). simpl.
  destruct s1 as [|a s1]; simpl; [done|].
  apply cstring_cons in H1 as (_ & ? & H1). rewrite decide_False by lia.
  destruct s2 as [|b s2]; simpl.
  - rewrite decide_False by lia. f_equal. lia.
  - apply cstring_cons in H2 as (_ & ? & H2). case_decide; [|done].
    simpl in Hf. apply IH; (done || lia).
Qed.

Lemma chars_cmp_zero s1 s2 :
  Forall (fun b => 0 < b < 256) s1 -> Forall (fun b => 0 < b < 256) s2 ->
  chars_cmp s1 s2 = 0 <-> s1 = s2.
Proof.
  intros H1. revert s2. induction H1 as [|a s1 Ha H1 IH]; intros s2 H2; simpl.
  - destruct H2; simpl; [done|]. split; [lia|done].
  - destruct H2 as [|b s2 Hb H2]; [split; [lia|done]|]. case_decide.
    + subst. rewrite IH by done. naive_solver.
    + split; [lia|naive_solver].
Qed.

(** ** Tokens *)

(** The loop of the callers of strtok_r: a first call on the string, then
    calls on NULL until NULL comes back.  The tokens in order. *)
Fixpoint strtok_run (n fuel : nat) (m : mem) (str delim saveptr : Z) : outcome (list Z * mem) :=
  match n with
  | O => OutOfFuel
  | S n' =>
      '(t, save, m') ← strtok_r fuel m str delim saveptr;
      if decide (t = 0) then Done ([], m')
      else
        '(ts, m'') ← strtok_run n' fuel m' 0 delim save;
        Done (t :: ts, m'')
  end.

Definition flush (f : list Z) : list (list Z) := match f with [] => [] | _ => [f] end.

Lemma fields_skip d s : fields d s = fields d (span (mem_set d) s).2.
Proof.
  unfold fields. induction s as [|c s IH]; simpl; [done|].
  destruct (mem_set d c) eqn:E; simpl; [|by rewrite E].
  rewrite IH. by destruct (span _ s).
Qed.

Lemma fields_acc_span d s acc :
  fields_acc d s acc =
    let '(tok, rem) := span (fun c => negb (mem_set d c)) s in
    flush (reverse acc ++ tok) ++ match rem with [] => [] | _ :: rem' => fields d rem' end.
Proof.
  revert acc. induction s as [|c s IH]; intros acc; simpl.
  - rewrite !app_nil_r. destruct acc; [done|]. unfold flush.
    by destruct (reverse (z :: acc)) eqn:E; [apply (f_equal length) in E; rewrite length_reverse in E|].
  - destruct (mem_set d c); simpl.
    + rewrite app_nil_r. f_equal. destruct acc; [done|]. unfold flush.
      by destruct (reverse (z :: acc)) eqn:E; [apply (f_equal length) in E; rewrite length_reverse in E|].
    + rewrite IH. destruct (span _ s). by rewrite reverse_cons, <-app_assoc.
Qed.

Lemma fields_tok d c s :
  mem_set d c = false ->
  fields d (c :: s) =
    (span (fun c => negb (mem_set d c)) (c :: s)).1 ::
    match (span (fun c => negb (mem_set d c)) (c :: s)).2 with
    | [] => [] | _ :: rem => fields d rem end.
Proof.
  intros Hc. unfold fields at 1. rewrite fields_acc_span. simpl. rewrite Hc. simpl.
  by destruct (span _ s).
Qed.

(** One call of strtok_r on the string at [p]. *)
Lemma strtok_r_spec fuel m p dp save s d :
  cstring m p s -> cstring m dp d -> 0 < p -> dp <> 0 ->
  (length s < fuel)%nat -> (length d < fuel)%nat ->
  forall skip rest, span (mem_set d) s = (skip, rest) ->
  forall tok rem, span (fun c => negb (mem_set d c)) rest = (tok, rem) ->
  let t := p + Z.of_nat (length skip) in
  let e := t + Z.of_nat (length tok) in
  strtok_r fuel m p dp save =
    match rest, rem with
    | [], _ => Done (0, 0, m)
    | _, [] => Done (t, 0, m)
    | _, _ => Done (t, e + 1, <[e := 0]> m)
    end.
Proof.
  intros Hs Hd Hp Hdp Hf Hf2 skip rest Hsk tok rem Htok t e.
  pose proof (span_app (mem_set d) s) as Es. rewrite Hsk in Es. simpl in Es. subst s.
  pose proof (span_app (fun c => negb (mem_set d c)) rest) as Er. rewrite Htok in Er.
  simpl in Er. subst rest. pose proof (cstring_app_r _ _ _ _ Hs) as Ht.
  pose proof (cstring_app_r _ _ _ _ Ht) as He.
  rewrite !length_app in *. unfold strtok_r, strspn, strcspn.
  rewrite decide_False by done. rewrite (decide_False (P := p = 0)) by lia.
  rewrite !decide_False by lia.
  rewrite (strspn_loop_spec _ _ _ _ _ _ d _ Hs Hd) by (rewrite ?length_app; lia). simpl.
  rewrite Hsk, Z.add_0_l. simpl. rewrite (load_done _ _ _ (cstring_head _ _ _ Ht)). simpl.
  destruct (tok ++ rem) as [|c0 r0] eqn:E; simpl; [done|].
  assert (0 < c0 < 256) by (apply cstring_cons in Ht; tauto).
  rewrite decide_False by lia. rewrite decide_False by lia. rewrite <-E in Ht.
  rewrite (strcspn_loop_spec _ _ _ _ _ _ d _ Ht Hd) by (rewrite ?length_app; lia). simpl.
  rewrite E, Htok, Z.add_0_l. simpl. rewrite (load_done _ _ _ (cstring_head _ _ _ He)). simpl.
  destruct rem as [|c1 rem]; simpl; [done|].
  assert (0 < c1 < 256) by (apply cstring_cons in He; tauto).
  rewrite decide_False by lia. rewrite store_done; [done|].
  rewrite (cstring_head _ _ _ He). by eexists.
Qed.

Lemma strtok_run_spec n fuel m p q dp save s d :
  cstring m p s -> cstring m dp d -> 0 < p -> dp <> 0 ->
  (q = p \/ q = 0 /\ save = p) ->
  dp + Z.of_nat (length d) < p \/ p + Z.of_nat (length s) < dp ->
  (length s < n)%nat -> (length s < fuel)%nat -> (length d < fuel)%nat ->
  exists ts m', strtok_run n fuel m q dp save = Done (ts, m') /\
    (forall r, r < p -> m' !! r = m !! r) /\ Forall2 (cstring m') ts (fields d s).
Proof.
  revert m p q save s. induction n as [|n IH]; intros m p q save s Hs Hd Hp Hdp Hq Hov Hn Hf Hf2;
    [lia|].
  assert (Hcall : strtok_r fuel m q dp save = strtok_r fuel m p dp save).
  { destruct Hq as [->|[-> ->]]; [done|]. unfold strtok_r.
    repeat (case_decide; try (done || lia)). }
  simpl. rewrite Hcall. rewrite fields_skip.
  destruct (span (mem_set d) s) as [skip rest] eqn:Esk.
  destruct (span (fun c => negb (mem_set d c)) rest) as [tok rem] eqn:Etok.
  rewrite (strtok_r_spec _ _ _ _ save _ _ Hs Hd Hp Hdp Hf Hf2 _ _ Esk _ _ Etok).
  pose proof (span_app (mem_set d) s) as Es. rewrite Esk in Es. simpl in Es.
  pose proof (span_app (fun c => negb (mem_set d c)) rest) as Er. rewrite Etok in Er. simpl in Er.
  pose proof (span_head (mem_set d) s) as Hhd. rewrite Esk in Hhd. simpl in *. subst s.
  pose proof (cstring_app_r _ _ _ _ Hs) as Ht. rewrite length_app in *.
  destruct rest as [|c rest]; simpl.
  { exists [], m. split; [done|]. split; [done|]. constructor. }
  rewrite fields_tok by done. rewrite Etok. simpl. simpl in Hn, Hf, Hov.
  destruct rem as [|c1 rem]; simpl.
  - rewrite decide_False by lia. rewrite app_nil_r in Er. subst tok.
    destruct n as [|n]; [lia|]. simpl. unfold strtok_r.
    rewrite (decide_False (P := dp = 0)) by done. simpl.
    eexists _, m. split; [done|]. split; [done|]. constructor; [done|constructor].
  - rewrite decide_False by lia. rewrite <-Er in Ht.
    assert (Hlen : (length tok + S (length rem) = S (length rest))%nat).
    { apply (f_equal length) in Er. rewrite length_app in Er. simpl in Er. lia. }
    pose proof (cstring_app_r _ _ _ _ Ht) as He. apply cstring_cons in He as (_ & _ & He).
    set (t := p + Z.of_nat (length skip)) in *. set (e := t + Z.of_nat (length tok)) in *.
    edestruct (IH (<[e := 0]> m) (e + 1) 0 (e + 1) rem) as (ts & m' & Hrun & Hlow & Hall);
      try lia; [| |].
    + apply cstring_insert_out; [lia|done].
    + apply cstring_insert_out; [lia|done].
    + rewrite Hrun. simpl. exists (t :: ts), m'. split; [done|]. split.
      { intros r Hr. rewrite Hlow by lia. apply lookup_insert_ne. lia. }
      constructor; [|done]. apply (cstring_agree (<[e := 0]> m)).
      { intros r Hr. apply Hlow. lia. }
      destruct Ht as [Ht HF]. apply Forall_app in HF as [HF _]. split; [|done].
      rewrite <-app_assoc, bytes_at_app in Ht. destruct Ht as [Ht _].
      apply bytes_at_app. split.
      * apply bytes_at_insert_out; [lia|done].
      * apply bytes_at_cons. split; [by rewrite lookup_insert_eq|apply bytes_at_nil].
Qed.

(** ** Properties *)

(** Memmove copies the source bytes as they were before the call, whatever
    the overlap of the two regions, and changes no byte outside the
    destination. *)
Theorem memmove_correct m dst src l :
  bytes_at m src l -> mapped m dst (Z.of_nat (length l)) ->
  exists m', memmove m dst src (Z.of_nat (length l)) = Done m' /\
    bytes_at m' dst l /\
    (forall q, ~ (dst <= q < dst + Z.of_nat (length l)) -> m' !! q = m !! q).
Proof.
  intros Hs Hd. unfold memmove. case_decide.
  - rewrite memcpy_spec by (done || lia). eexists. split; [done|].
    split; [apply write_bytes_at|]. intros q Hq. by apply write_bytes_lookup_out.
  - rewrite Nat2Z.id. destruct (memmove_down_spec m dst src l) as (m' & Hm & Hq); [done..|lia|].
    exists m'. split; [done|]. split.
    + eapply bytes_at_agree; [|apply (write_bytes_at m dst l)]. auto.
    + intros q Hout. rewrite Hq. by apply write_bytes_lookup_out.
Qed.

(** Source and destination overlap: the bytes 1 2 3 at 10 are moved to 11. *)
Example memmove_correct_witness :
  exists m', memmove (write_bytes ∅ 10 [1; 2; 3; 4]) 11 10 3 = Done m' /\
    bytes_at m' 11 [1; 2; 3] /\
    (forall q, ~ (11 <= q < 14) -> m' !! q = write_bytes ∅ 10 [1; 2; 3; 4] !! q).
Proof.
  apply (memmove_correct (write_bytes ∅ 10 [1; 2; 3; 4]) 11 10 [1; 2; 3]);
    [solve_bytes | by apply (mapped_b_spec _ _ 3)].
Defined.

(** Strcmp on two C strings returns the difference of the first bytes that
    differ (the terminator counting as 0), and 0 exactly on equal strings. *)
Theorem strcmp_correct fuel m p1 p2 s1 s2 :
  cstring m p1 s1 -> cstring m p2 s2 -> p1 <> 0 -> p2 <> 0 -> (length s1 < fuel)%nat ->
  strcmp fuel m p1 p2 = Done (chars_cmp s1 s2) /\ (chars_cmp s1 s2 = 0 <-> s1 = s2).
Proof.
  intros H1 H2 Hp1 Hp2 Hf. split.
  - unfold strcmp. rewrite decide_False by lia. by apply strcmp_loop_spec.
  - apply chars_cmp_zero; [apply H1|apply H2].
Qed.

Definition cmp_mem : mem := write_bytes (write_bytes ∅ 10 [97; 98; 0]) 20 [97; 99; 0].

Example strcmp_correct_witness :
  strcmp 9 cmp_mem 10 20 = Done (-1) /\ (-1 = 0 <-> [97; 98] = [97; 99]).
Proof.
  apply (strcmp_correct 9 cmp_mem 10 20 [97; 98] [97; 99]);
    [solve_cstring | solve_cstring | lia | lia | simpl; lia].
Defined.

(** Strcat appends the source string to the destination string, writes the
    terminator, and touches nothing else. *)
Theorem strcat_correct fuel m dest src s1 s2 :
  cstring m dest s1 -> cstring m src s2 -> dest <> 0 -> src <> 0 ->
  mapped m dest (Z.of_nat (length s1 + length s2 + 1)) ->
  dest + Z.of_nat (length s1 + length s2) < src \/ src + Z.of_nat (length s2) < dest ->
  (length s1 < fuel)%nat -> (length s2 < fuel)%nat ->
  exists m', strcat fuel m dest src = Done (dest, m') /\ cstring m' dest (s1 ++ s2) /\
    (forall q, ~ (dest + Z.of_nat (length s1) <= q <= dest + Z.of_nat (length s1 + length s2)) ->
       m' !! q = m !! q).
Proof.
  intros H1 H2 Hd Hsrc Hmap Hov Hf1 Hf2. unfold strcat. rewrite decide_False by lia.
  assert (Hend : forall fuel p s, cstring m p s -> (length s < fuel)%nat ->
    find_end fuel m p = Done (p + Z.of_nat (length s))).
  { clear. induction fuel as [|fuel IH]; intros p s Hs Hf; [lia|]. simpl.
    rewrite (load_done _ _ _ (cstring_head _ _ _ Hs)). simpl.
    destruct s as [|c s]; simpl in *; [f_equal; lia|].
    apply cstring_cons in Hs as (_ & ? & Hs). rewrite decide_False by lia.
    rewrite (IH _ s) by (done || lia). f_equal. lia. }
  rewrite (Hend _ _ _ H1 Hf1). simpl.
  rewrite (copy_loop_spec _ _ _ _ s2) by
    (first [done | lia | eapply mapped_weaken; [done|lia..]]).
  simpl. rewrite store_done by (apply (mapped_write_bytes _ _ _ _ _ Hmap); lia). simpl.
  eexists. split; [done|]. split.
  - destruct H1 as [H1 HF1], H2 as [H2 HF2]. split; [|by apply Forall_app].
    apply bytes_at_app in H1 as [H1 _]. rewrite <-app_assoc. apply bytes_at_app. split.
    + apply bytes_at_insert_out; [lia|]. by apply bytes_at_write_out; [lia|].
    + apply bytes_at_app. split.
      * apply bytes_at_insert_out; [lia|]. apply write_bytes_at.
      * apply bytes_at_cons. split; [by rewrite lookup_insert_eq|apply bytes_at_nil].
  - intros q Hq. rewrite lookup_insert_ne by lia. apply write_bytes_lookup_out. lia.
Qed.

Definition cat_mem : mem := write_bytes (write_bytes ∅ 10 [97; 0; 7; 7; 7]) 20 [98; 99; 0].

Example strcat_correct_witness :
  exists m', strcat 9 cat_mem 10 20 = Done (10, m') /\ cstring m' 10 ([97] ++ [98; 99]) /\
    (forall q, ~ (10 + Z.of_nat (length [97]) <= q <= 10 + Z.of_nat (length [97] + length [98; 99])) ->
       m' !! q = cat_mem !! q).
Proof.
  apply (strcat_correct 9 cat_mem 10 20 [97] [98; 99]);
    [solve_cstring | solve_cstring | lia | lia | by apply (mapped_b_spec _ _ 4)
    | simpl; lia | simpl; lia | simpl; lia].
Defined.

(** C15: tokenizing a string with strtok_r, as the path resolution does, returns
    exactly the non-empty fields between delimiters, in order, each a C string
    in the final memory; it always reaches the final NULL. *)
Theorem strtok_r_fields n fuel m p dp s d :
  cstring m p s -> cstring m dp d -> 0 < p -> dp <> 0 ->
  dp + Z.of_nat (length d) < p \/ p + Z.of_nat (length s) < dp ->
  (length s < n)%nat -> (length s < fuel)%nat -> (length d < fuel)%nat ->
  exists ts m', strtok_run n fuel m p dp 0 = Done (ts, m') /\
    Forall2 (cstring m') ts (fields d s).
Proof.
  intros Hs Hd Hp Hdp Hov Hn Hf Hf2.
  destruct (strtok_run_spec n fuel m p p dp 0 s d) as (ts & m' & ? & _ & ?); eauto.
Qed.

(** The path /a//bc/ with delimiter / has the fields a and bc. *)
Definition tok_mem : mem := write_bytes (write_bytes ∅ 10 [47; 97; 47; 47; 98; 99; 47; 0]) 90 [47; 0].

Example strtok_r_fields_witness :
  exists ts m', strtok_run 8 8 tok_mem 10 90 0 = Done (ts, m') /\
    Forall2 (cstring m') ts [[97]; [98; 99]].
Proof.
  apply (strtok_r_fields 8 8 tok_mem 10 90 [47; 97; 47; 47; 98; 99; 47] [47]);
    [solve_cstring | solve_cstring | lia | lia | simpl; lia | simpl; lia | simpl; lia | simpl; lia].
Defined.

(** The non-reentrant strtok forgets its position: a call on NULL, which the C
    standard makes the request for the next token, always answers NULL. *)
Lemma strtok_null_never_continues fuel m delim : strtok fuel m 0 delim = Done (0, None, m).
Proof. unfold strtok. by case_decide. Qed.
