(* ===== verification/HashTable.v ===== *)
(** libc/kernel/hashtable.c: the chained hash table of the kernel.

    A key is the character list of its C string (strdup copies it), a value a
    [void*].  A bucket is the chain of its entries, in link order.  The table is
    an implementation of a finite map: [ht_abs] is the map a table stands for,
    and the refinement theorems say that insert, delete, lookup and
    remove-by-key-and-value are the operations of that map.  [malloc] is taken
    to succeed. *)
From S2P Require Import Prelude Memory CString.
From stdpp Require Import base list gmap.
From Stdlib Require Import ZArith Lia.

#[local] Open Scope Z_scope.

(** ** Definitions *)

Record ht_entry := mk_entry { ht_key : list Z; ht_value : Z }.

Record hashtable := mk_table { ht_size : Z; ht_entries : list (list ht_entry) }.

(** for(; i < key_len; ++i) value = value * 37 + key[i]; the character is signed
    and widened to unsigned long. *)
Definition hash_loop (key : list Z) (value : Z) : Z :=
  foldl (fun value c => u64 (value * 37 + s8 c)) value key.

(** [table_size] is widened to unsigned long by the division. *)
Definition hash (key : list Z) (table_size : Z) : outcome Z :=
  if decide (u64 table_size = 0) then Fault
  else Done (u32 (hash_loop (take (Z.to_nat (u32 (Z.of_nat (length key)))) key) 0
                    mod u64 table_size)).

Definition ht_create (size : Z) : hashtable :=
  mk_table size (replicate (Z.to_nat size) []).

(** strcmp(entry->key, key) == 0 *)
Definition same_key (e : ht_entry) (key : list Z) : bool :=
  bool_decide (chars_cmp (ht_key e) key = 0).

(** The walk of ht_insert over one chain: the first entry with the key is
    updated, otherwise a new entry is linked after the last one. *)
Fixpoint chain_insert (chain : list ht_entry) (key : list Z) (value : Z) : list ht_entry :=
  match chain with
  | [] => [mk_entry key value]
  | e :: rest =>
      if same_key e key then mk_entry (ht_key e) value :: rest
      else e :: chain_insert rest key value
  end.

Definition ht_insert (table : hashtable) (key : list Z) (value : Z) : outcome hashtable :=
  slot ← hash key (ht_size table);
  chain ← aget (ht_entries table) slot;
  entries ← aset (ht_entries table) slot (chain_insert chain key value);
  Done (mk_table (ht_size table) entries).

Fixpoint chain_lookup (chain : list ht_entry) (key : list Z) : Z :=
  match chain with
  | [] => 0
  | e :: rest => if same_key e key then ht_value e else chain_lookup rest key
  end.

Definition ht_lookup (table : hashtable) (key : list Z) : outcome Z :=
  slot ← hash key (ht_size table);
  chain ← aget (ht_entries table) slot;
  Done (chain_lookup chain key).

(** Unlinks the first entry with the key. *)
Fixpoint chain_delete (chain : list ht_entry) (key : list Z) : list ht_entry :=
  match chain with
  | [] => []
  | e :: rest => if same_key e key then rest else e :: chain_delete rest key
  end.

Definition ht_delete (table : hashtable) (key : list Z) : outcome hashtable :=
  slot ← hash key (ht_size table);
  chain ← aget (ht_entries table) slot;
  entries ← aset (ht_entries table) slot (chain_delete chain key);
  Done (mk_table (ht_size table) entries).

Fixpoint chain_remove (chain : list ht_entry) (key : list Z) (value : Z)
    : bool * list ht_entry :=
  match chain with
  | [] => (false, [])
  | e :: rest =>
      if same_key e key && bool_decide (ht_value e = value) then (true, rest)
      else let '(b, rest') := chain_remove rest key value in (b, e :: rest')
  end.

Definition ht_remove_by_key_and_value (table : hashtable) (key : list Z) (value : Z)
    : outcome (bool * hashtable) :=
  slot ← hash key (ht_size table);
  chain ← aget (ht_entries table) slot;
  let '(b, chain') := chain_remove chain key value in
  entries ← aset (ht_entries table) slot chain';
  Done (b, mk_table (ht_size table) entries).

(** NULL when no entry matches, otherwise the array of the values; the array
    has as many cells as the first loop counts and the second loop fills. *)
Definition ht_get_all_values (table : hashtable) (key : list Z) : outcome (option (list Z)) :=
  slot ← hash key (ht_size table);
  chain ← aget (ht_entries table) slot;
  let matching := filter (fun e => same_key e key = true) chain in
  if decide (length matching = 0%nat) then Done None
  else Done (Some (ht_value <$> matching)).

(** The blocks ht_free gives back, in order: the key and the cell of every
    entry, slot by slot, then the array and the table. *)
Inductive ht_block := FreeKey (slot pos : nat) | FreeEntry (slot pos : nat) | FreeArray | FreeTable.

Fixpoint chain_free (slot pos : nat) (chain : list ht_entry) : list ht_block :=
  match chain with
  | [] => []
  | _ :: rest => FreeKey slot pos :: FreeEntry slot pos :: chain_free slot (S pos) rest
  end.

Fixpoint slots_free (slot : nat) (entries : list (list ht_entry)) : list ht_block :=
  match entries with
  | [] => []
  | chain :: rest => chain_free slot 0 chain ++ slots_free (S slot) rest
  end.

Definition ht_free (table : hashtable) : list ht_block :=
  slots_free 0 (take (Z.to_nat (ht_size table)) (ht_entries table)) ++ [FreeArray; FreeTable].

(** ** Well-formed tables and the map they stand for *)

Definition wf_key (key : list Z) : Prop :=
  Forall (fun b => 0 < b < 256) key /\ Z.of_nat (length key) < 2 ^ 32.

(** The bucket of a key in a table of [size] buckets. *)
Definition slot_of (size : Z) (key : list Z) : nat :=
  Z.to_nat (hash_loop key 0 mod size).

Definition chain_ok (size : Z) (slot : nat) (chain : list ht_entry) : Prop :=
  NoDup (ht_key <$> chain) /\
  Forall (fun e => wf_key (ht_key e) /\ slot_of size (ht_key e) = slot) chain.

Record ht_wf (t : hashtable) : Prop := {
  wf_size : 0 < ht_size t < 2 ^ 31;
  wf_len : length (ht_entries t) = Z.to_nat (ht_size t);
  wf_chain : forall slot chain, ht_entries t !! slot = Some chain -> chain_ok (ht_size t) slot chain
}.

Definition chain_map (chain : list ht_entry) : gmap (list Z) Z :=
  list_to_map ((fun e => (ht_key e, ht_value e)) <$> chain).

(** [t] stands for the map [M]. *)
Definition ht_abs (t : hashtable) (M : gmap (list Z) Z) : Prop :=
  ht_wf t /\
  (forall key, wf_key key ->
     M !! key = match ht_entries t !! slot_of (ht_size t) key with
                | Some chain => chain_map chain !! key
                | None => None
                end) /\
  (forall key, is_Some (M !! key) -> wf_key key).

(** ** Lemmas *)

Lemma same_key_spec e key :
  wf_key (ht_key e) -> wf_key key -> same_key e key = bool_decide (ht_key e = key).
Proof.
  intros [H1 _] [H2 _]. unfold same_key. apply bool_decide_ext. by apply chars_cmp_zero.
Qed.

Lemma hash_loop_range key v : 0 <= v -> 0 <= hash_loop key v.
Proof.
  revert v. induction key as [|c key IH]; intros v Hv; simpl; [done|].
  apply IH. apply u64_range.
Qed.

Lemma hash_spec t key :
  ht_wf t -> wf_key key ->
  hash key (ht_size t) = Done (Z.of_nat (slot_of (ht_size t) key)) /\
  (slot_of (ht_size t) key < length (ht_entries t))%nat.
Proof.
  intros [Hsz Hlen _] [_ Hk]. unfold hash, slot_of.
  rewrite u64_small by lia. rewrite decide_False by lia.
  rewrite (u32_small (Z.of_nat _)) by lia. rewrite Nat2Z.id, take_ge by done.
  pose proof (Z.mod_pos_bound (hash_loop key 0) (ht_size t) ltac:(lia)).
  rewrite u32_small by lia. rewrite Z2Nat.id by lia. split; [done|lia].
Qed.

Lemma chain_map_cons e chain :
  chain_map (e :: chain) = <[ht_key e := ht_value e]> (chain_map chain).
Proof. done. Qed.

Lemma chain_map_none chain key : key ∉ (ht_key <$> chain) -> chain_map chain !! key = None.
Proof.
  intros Hk. apply not_elem_of_list_to_map_1. by rewrite <-list_fmap_compose.
Qed.

Section chain.
Context (size : Z) (slot : nat) (key : list Z).
Hypothesis Hkey : wf_key key.
Hypothesis Hslot : slot_of size key = slot.

Lemma chain_insert_keys chain value :
  chain_ok size slot chain ->
  forall k, k ∈ (ht_key <$> chain_insert chain key value) <-> k = key \/ k ∈ (ht_key <$> chain).
Proof.
  intros [_ Hall] k. induction Hall as [|e chain [He _] _ IH]; simpl; [set_solver|].
  rewrite same_key_spec by done. case_bool_decide; set_solver.
Qed.

Lemma chain_insert_ok chain value :
  chain_ok size slot chain -> chain_ok size slot (chain_insert chain key value).
Proof.
  intros [Hnd Hall]. induction Hall as [|e chain [He Hs] Hall IH]; simpl in *.
  - split; [by apply NoDup_singleton|by apply Forall_singleton].
  - apply NoDup_cons in Hnd as [Hni Hnd]. rewrite same_key_spec by done.
    case_bool_decide.
    + split; [by apply NoDup_cons|by constructor].
    + destruct IH as [IH1 IH2]; [done|]. split; [|by constructor].
      apply NoDup_cons. split; [|done]. rewrite chain_insert_keys by done. naive_solver.
Qed.

Lemma chain_insert_map chain value :
  chain_ok size slot chain ->
  chain_map (chain_insert chain key value) = <[key := value]> (chain_map chain).
Proof.
  intros [Hnd Hall]. induction Hall as [|e chain [He Hs] Hall IH]; simpl in *; [done|].
  apply NoDup_cons in Hnd as [Hni Hnd]. rewrite same_key_spec by done. case_bool_decide as E.
  - rewrite !chain_map_cons. simpl. subst. by rewrite insert_insert_eq.
  - rewrite !chain_map_cons, IH by done. by rewrite insert_insert_ne.
Qed.

Lemma chain_lookup_map chain :
  chain_ok size slot chain -> chain_lookup chain key = default 0 (chain_map chain !! key).
Proof.
  intros [_ Hall]. induction Hall as [|e chain [He Hs] Hall IH]; simpl in *; [done|].
  rewrite chain_map_cons, same_key_spec by done. case_bool_decide as E.
  - subst. by rewrite lookup_insert_eq.
  - by rewrite lookup_insert_ne.
Qed.

Lemma chain_delete_spec chain :
  chain_ok size slot chain ->
  chain_ok size slot (chain_delete chain key) /\
  chain_map (chain_delete chain key) = delete key (chain_map chain) /\
  (forall k, k ∈ (ht_key <$> chain_delete chain key) -> k ∈ (ht_key <$> chain)).
Proof.
  intros [Hnd Hall]. induction Hall as [|e chain [He Hs] Hall IH]; simpl in *.
  - split; [by split; constructor|]. split; [symmetry; apply delete_id, chain_map_none; set_solver|done].
  - apply NoDup_cons in Hnd as [Hni Hnd]. rewrite same_key_spec by done.
    rewrite chain_map_cons. case_bool_decide as E.
    + subst. split; [done|]. split; [|set_solver].
      rewrite delete_insert_eq. symmetry. apply delete_id. by apply chain_map_none.
    + destruct IH as ([? ?] & IH2 & IH3); [done|]. split; [|split; [|set_solver]].
      * split; [apply NoDup_cons; split; [set_solver|done]|by constructor].
      * rewrite chain_map_cons, IH2. by rewrite delete_insert_ne.
Qed.

Lemma chain_remove_spec chain value :
  chain_ok size slot chain ->
  chain_remove chain key value =
    if decide (chain_map chain !! key = Some value) then (true, chain_delete chain key)
    else (false, chain).
Proof.
  intros [Hnd Hall]. induction Hall as [|e chain [He Hs] Hall IH]; simpl in *.
  - rewrite decide_False; [done|]. rewrite chain_map_none; [done|set_solver].
  - apply NoDup_cons in Hnd as [Hni Hnd]. rewrite same_key_spec by done.
    rewrite chain_map_cons. case_bool_decide as E; simpl.
    + subst. rewrite lookup_insert_eq. case_bool_decide.
      * by rewrite decide_True by congruence.
      * rewrite IH by done. rewrite decide_False by (rewrite chain_map_none by done; done).
        by rewrite decide_False by congruence.
    + rewrite lookup_insert_ne by done. rewrite IH by done. by case_decide.
Qed.
End chain.

(** Replacing one chain by a chain that stands for an updated map. *)
Lemma ht_abs_update t M key chain chain' M' :
  ht_abs t M -> wf_key key ->
  ht_entries t !! slot_of (ht_size t) key = Some chain ->
  chain_ok (ht_size t) (slot_of (ht_size t) key) chain' ->
  (forall k, k <> key -> chain_map chain' !! k = chain_map chain !! k) ->
  M' !! key = chain_map chain' !! key ->
  (forall k, k <> key -> M' !! k = M !! k) ->
  ht_abs (mk_table (ht_size t) (<[slot_of (ht_size t) key := chain']> (ht_entries t))) M'.
Proof.
  intros (Hwf & HM & Hdom) Hk Hch Hok Hoth HMk HMo.
  pose proof (lookup_lt_Some _ _ _ Hch) as Hlt. split; [|split]; simpl.
  - destruct Hwf as [Hsz Hlen Hc]. constructor; simpl; [done|by rewrite length_insert|].
    intros s c Hs. destruct (decide (slot_of (ht_size t) key = s)) as [<-|Hne].
    + rewrite list_lookup_insert_eq in Hs by done. by simplify_eq.
    + rewrite list_lookup_insert_ne in Hs by done. by apply Hc.
  - intros k Hwk. destruct (decide (k = key)) as [->|Hne].
    + by rewrite list_lookup_insert_eq by done.
    + rewrite HMo by done. rewrite HM by done.
      destruct (decide (slot_of (ht_size t) key = slot_of (ht_size t) k)) as [E|E].
      * rewrite <-E. rewrite list_lookup_insert_eq by done. rewrite Hch. by rewrite Hoth.
      * by rewrite list_lookup_insert_ne.
  - intros k Hks. destruct (decide (k = key)) as [->|Hne]; [done|].
    rewrite HMo in Hks by done. by apply Hdom.
Qed.

(** The bucket of a key exists and the array access in it succeeds. *)
Lemma ht_bucket t M key :
  ht_abs t M -> wf_key key ->
  exists chain, hash key (ht_size t) = Done (Z.of_nat (slot_of (ht_size t) key)) /\
    aget (ht_entries t) (Z.of_nat (slot_of (ht_size t) key)) = Done chain /\
    ht_entries t !! slot_of (ht_size t) key = Some chain /\
    chain_ok (ht_size t) (slot_of (ht_size t) key) chain /\
    M !! key = chain_map chain !! key /\
    (forall chain', aset (ht_entries t) (Z.of_nat (slot_of (ht_size t) key)) chain' =
       Done (<[slot_of (ht_size t) key := chain']> (ht_entries t))).
Proof.
  intros (Hwf & HM & _) Hk. destruct (hash_spec t key Hwf Hk) as [Hh Hlt].
  destruct (lookup_lt_is_Some_2 (ht_entries t) _ Hlt) as [chain Hch]. exists chain.
  split; [done|]. split; [|split; [done|split; [by eapply wf_chain|split]]].
  - apply aget_done. rewrite Nat2Z.id. split; [lia|done].
  - by rewrite HM, Hch.
  - intros chain'. rewrite aset_in_range by lia. by rewrite Nat2Z.id.
Qed.

Lemma ht_insert_abs t M key value : ht_abs t M -> wf_key key -> exists t', ht_insert t key value = Done t' /\ ht_abs t' (<[key := value]> M).
Proof.
  intros Habs Hk. destruct (ht_bucket t M key Habs Hk) as (chain & Hh & Hg & Hch & Hok & HM & Hs).
  unfold ht_insert. rewrite Hh. simpl. rewrite Hg. simpl. rewrite Hs. simpl.
  eexists. split; [done|]. eapply ht_abs_update; try done.
  - by apply chain_insert_ok.
  - intros k Hne. erewrite chain_insert_map by done. by rewrite lookup_insert_ne.
  - erewrite chain_insert_map by done. by rewrite !lookup_insert_eq.
  - intros k Hne. by rewrite lookup_insert_ne.
Qed.

Lemma ht_lookup_abs t M key : ht_abs t M -> wf_key key -> ht_lookup t key = Done (default 0 (M !! key)).
Proof.
  intros Habs Hk. destruct (ht_bucket _ _ key Habs Hk) as (c' & Hh' & Hg' & _ & Hok' & HM' & _).
  unfold ht_lookup. rewrite Hh'. simpl in *. rewrite Hg'. simpl. erewrite chain_lookup_map by done. by rewrite HM'.
Qed.

(** ** Properties *)

(** C12: ht_insert and ht_lookup implement a finite map: on a table that stands
    for [M], inserting gives a table that stands for [M] with the key bound to
    the value (whatever the collisions), and looking up gives the value bound
    in [M] or NULL. *)
Theorem ht_insert_lookup_refine t M key value key' :
  ht_abs t M -> wf_key key -> wf_key key' ->
  exists t', ht_insert t key value = Done t' /\ ht_abs t' (<[key := value]> M) /\
    ht_lookup t' key' = Done (default 0 (<[key := value]> M !! key')).
Proof.
  intros Habs Hk Hk'. destruct (ht_insert_abs t M key value Habs Hk) as (t' & Hrun & Habs'). exists t'.
  split; [done|]. split; [done|]. by apply ht_lookup_abs.
Qed.

Lemma ht_create_abs size : 0 < size < 2 ^ 31 -> ht_abs (ht_create size) ∅.
Proof.
  intros Hs. split; [constructor; simpl; [done|by rewrite length_replicate|]|split].
  - intros slot chain [-> _]%lookup_replicate. split; constructor.
  - intros key Hk. simpl. destruct (replicate _ _ !! _) as [c|] eqn:E; [|done].
    by apply lookup_replicate in E as [-> _].
  - intros key [? Hk]. by rewrite lookup_empty in Hk.
Qed.

(** With a single bucket every key collides. *)
Example ht_insert_lookup_refine_witness :
  exists t', ht_insert (ht_create 1) [97] 5 = Done t' /\ ht_abs t' (<[[97] := 5]> ∅) /\
    ht_lookup t' [98] = Done (default 0 (<[[97] := 5]> (∅ : gmap (list Z) Z) !! [98])).
Proof.
  apply (ht_insert_lookup_refine (ht_create 1) ∅ [97] 5 [98]);
    [apply ht_create_abs; lia | split; [repeat constructor; lia|simpl; lia]
    | split; [repeat constructor; lia|simpl; lia]].
Defined.

(** Ht_delete removes exactly the binding of the key, and
    ht_remove_by_key_and_value does so and answers true only if the key is
    bound to that value, otherwise it leaves the map alone and answers false. *)
Theorem ht_delete_remove_refine t M key value :
  ht_abs t M -> wf_key key ->
  (exists t', ht_delete t key = Done t' /\ ht_abs t' (delete key M)) /\
  (exists b t', ht_remove_by_key_and_value t key value = Done (b, t') /\
     (b = true <-> M !! key = Some value) /\
     ht_abs t' (if b then delete key M else M)).
Proof.
  intros Habs Hk. destruct (ht_bucket t M key Habs Hk) as (chain & Hh & Hg & Hch & Hok & HM & Hs).
  destruct (chain_delete_spec (ht_size t) (slot_of (ht_size t) key) key Hk eq_refl chain Hok)
    as (Hok' & Hmap & _).
  assert (Hdel : ht_abs (mk_table (ht_size t)
     (<[slot_of (ht_size t) key := chain_delete chain key]> (ht_entries t))) (delete key M)).
  { eapply ht_abs_update; try done.
    - intros k Hne. rewrite Hmap. by rewrite lookup_delete_ne.
    - rewrite Hmap. by rewrite !lookup_delete_eq.
    - intros k Hne. by rewrite lookup_delete_ne. }
  split.
  - unfold ht_delete. rewrite Hh. simpl. rewrite Hg. simpl. rewrite Hs. simpl. eauto.
  - unfold ht_remove_by_key_and_value. rewrite Hh. simpl. rewrite Hg. simpl.
    erewrite chain_remove_spec by done. rewrite <-HM.
    destruct (decide (M !! key = Some value)) as [E|E]; simpl; rewrite Hs; simpl.
    + eexists _, _. split; [done|]. split; [done|done].
    + eexists _, _. split; [done|]. split; [done|].
      rewrite list_insert_id by done. by destruct t.
Qed.

Example ht_delete_remove_refine_witness :
  (exists t', ht_delete (ht_create 7) [97] = Done t' /\ ht_abs t' (delete [97] ∅)) /\
  (exists b t', ht_remove_by_key_and_value (ht_create 7) [97] 3 = Done (b, t') /\
     (b = true <-> (∅ : gmap (list Z) Z) !! [97] = Some 3) /\
     ht_abs t' (if b then delete [97] ∅ else ∅)).
Proof.
  apply (ht_delete_remove_refine (ht_create 7) ∅ [97] 3);
    [apply ht_create_abs; lia | split; [repeat constructor; lia|simpl; lia]].
Defined.
