(* ===== verification/KList.v ===== *)
(** libc/kernel/list.c: the doubly-linked list of the kernel, on a heap.

    [heap] maps the address of a live [list_entry_t] to its three words; an
    access to an entry that was given back with kfree is a fault, so a use
    after free shows.  Allocation is the interface [HeapAlloc].  [dll h l xs]
    says that the list header [l] and the heap [h] hold the sequence [xs] of
    (entry address, value) pairs; the refinement theorems state each operation
    as an operation on [xs].  The interface [Queue] at the end is what the
    scheduler and the wait queues use of a list. *)
From S2P Require Import Prelude.
From stdpp Require Import base list gmap fin_maps.
From Stdlib Require Import ZArith Lia.

#[local] Open Scope Z_scope.

(** ** Data *)

Record list_entry := mk_le { e_prev : Z; e_next : Z; e_value : Z }.

Abbreviation heap := (gmap Z list_entry).

Record list_t := mk_list { l_head : Z; l_tail : Z; l_length : Z }.

(** kcalloc(1, sizeof(list_entry_t)): a live, zeroed entry at a new non-null
    address. *)
Class HeapAlloc := {
  halloc : heap -> Z;
  halloc_fresh : forall h, halloc h <> 0 /\ h !! halloc h = None
}.

(** The allocator of the examples: the first address above all live entries. *)
Definition next_addr (h : heap) : Z := map_fold (fun p _ a => Z.max (p + 1) a) 1 h.

Lemma next_addr_above h p e : h !! p = Some e -> p < next_addr h.
Proof.
  revert p e. unfold next_addr.
  apply (map_fold_weak_ind (fun a (h : heap) => forall p e, h !! p = Some e -> p < a)).
  - intros p e. by rewrite lookup_empty.
  - intros q x h' a _ IH p e Hp. apply lookup_insert_Some in Hp as [[-> _]|[_ Hp]]; [lia|].
    specialize (IH p e Hp). lia.
Qed.

Lemma next_addr_pos h : 0 < next_addr h.
Proof. unfold next_addr. apply (map_fold_weak_ind (fun a _ => 0 < a)); [lia|]. intros. lia. Qed.

#[export] Instance bump_alloc : HeapAlloc.
Proof.
  refine {| halloc := next_addr |}. intros h. split; [pose proof (next_addr_pos h); lia|].
  destruct (h !! next_addr h) eqn:E; [|done]. apply next_addr_above in E. lia.
Defined.

(** ** Operations *)

Definition deref (h : heap) (p : Z) : outcome list_entry := of_option (h !! p).

Definition set_prev (h : heap) (p v : Z) : outcome heap :=
  e ← deref h p; Done (<[p := mk_le v (e_next e) (e_value e)]> h).
Definition set_next (h : heap) (p v : Z) : outcome heap :=
  e ← deref h p; Done (<[p := mk_le (e_prev e) v (e_value e)]> h).
Definition kfree (h : heap) (p : Z) : heap := delete p h.

Definition list_create : list_t := mk_list 0 0 0.

(** The loop of list_destroy and list_free: every entry is given back;
    list_destroy also frees each value.  The values freed are returned. *)
Fixpoint free_entries (fuel : nat) (h : heap) (entry : Z) : outcome (heap * list Z) :=
  match fuel with
  | O => OutOfFuel
  | S fuel' =>
      if decide (entry = 0) then Done (h, [])
      else
        e ← deref h entry;
        '(h', vs) ← free_entries fuel' (kfree h entry) (e_next e);
        Done (h', e_value e :: vs)
  end.

Definition list_destroy (fuel : nat) (h : heap) (l : list_t) : outcome (heap * list Z) :=
  free_entries fuel h (l_head l).

Definition list_free (fuel : nat) (h : heap) (l : list_t) : outcome heap :=
  '(h', _) ← free_entries fuel h (l_head l); Done h'.

Definition list_append (h : heap) (l : list_t) (entry : Z) : outcome (heap * list_t) :=
  if decide (l_length l = 0) then Done (h, mk_list entry entry 1)
  else
    h1 ← set_next h (l_tail l) entry;
    h2 ← set_prev h1 entry (l_tail l);
    Done (h2, mk_list (l_head l) entry (u64 (l_length l + 1))).

Definition list_insert `{HeapAlloc} (h : heap) (l : list_t) (item : Z) : outcome (heap * list_t) :=
  let entry := halloc h in
  list_append (<[entry := mk_le 0 0 item]> h) l entry.

Fixpoint find_loop (fuel : nat) (h : heap) (entry item : Z) : outcome Z :=
  match fuel with
  | O => OutOfFuel
  | S fuel' =>
      if decide (entry = 0) then Done 0
      else
        e ← deref h entry;
        if decide (e_value e = item) then Done entry else find_loop fuel' h (e_next e) item
  end.

Definition list_find (fuel : nat) (h : heap) (l : list_t) (item : Z) : outcome Z :=
  if decide (l_length l = 0) then Done 0 else find_loop fuel h (l_head l) item.

Definition list_delete (h : heap) (l : list_t) (entry : Z) : outcome (heap * list_t) :=
  e ← deref h entry;
  let prev := e_prev e in
  let next := e_next e in
  let head := if decide (l_head l = entry) then next else l_head l in
  let tail := if decide (l_tail l = entry) then prev else l_tail l in
  h1 ← (if decide (next <> 0 /\ prev <> 0) then
          h' ← set_prev h next prev; set_next h' prev next
        else
          h' ← (if decide (next <> 0) then set_prev h next 0 else Done h);
          if decide (prev <> 0) then set_next h' prev 0 else Done h');
  h2 ← set_next h1 entry 0;
  h3 ← set_prev h2 entry 0;
  Done (kfree h3 entry, mk_list head tail (u64 (l_length l - 1))).

(** for(i = 1; i < index; i++) { if(!entry->next) return; entry = entry->next; }
    [None] is the early return. *)
Fixpoint walk (n : nat) (h : heap) (entry : Z) : outcome (option Z) :=
  match n with
  | O => Done (Some entry)
  | S n' =>
      e ← deref h entry;
      if decide (e_next e = 0) then Done None else walk n' h (e_next e)
  end.

Definition list_remove_by_index (h : heap) (l : list_t) (index : Z) : outcome (heap * list_t) :=
  if decide (l_length l = 0) then Done (h, l)
  else
    '(h, l) ← (if decide (index = l_length l) then list_delete h l (l_tail l) else Done (h, l));
    let entry := l_head l in
    if decide (index = 0) then list_delete h l entry
    else
      r ← walk (Z.to_nat (index - 1)) h entry;
      match r with
      | None => Done (h, l)
      | Some entry => list_delete h l entry
      end.

Fixpoint copy_entries `{HeapAlloc} (fuel : nat) (h : heap) (new : list_t) (entry : Z)
    : outcome (heap * list_t) :=
  match fuel with
  | O => OutOfFuel
  | S fuel' =>
      if decide (entry = 0) then Done (h, new)
      else
        e ← deref h entry;
        let copy := halloc h in
        '(h', new') ← list_append (<[copy := mk_le 0 0 (e_value e)]> h) new copy;
        copy_entries fuel' h' new' (e_next e)
  end.

Definition list_copy `{HeapAlloc} (fuel : nat) (h : heap) (original : list_t)
    : outcome (heap * list_t) :=
  copy_entries fuel h list_create (l_head original).

Definition list_append_after (h : heap) (l : list_t) (before after : Z)
    : outcome (heap * list_t) :=
  b ← deref h before;
  if decide (e_next b <> 0) then
    h1 ← set_next h after (e_next b);
    h2 ← set_next h1 before after;
    h3 ← set_prev h2 after before;
    a ← deref h3 after;
    h4 ← set_prev h3 (e_next a) after;
    Done (h4, mk_list (l_head l) (l_tail l) (u64 (l_length l + 1)))
  else list_append h l after.

Definition list_insert_after `{HeapAlloc} (h : heap) (l : list_t) (before item : Z)
    : outcome (Z * heap * list_t) :=
  let entry := halloc h in
  '(h', l') ← list_append_after (<[entry := mk_le 0 0 item]> h) l before entry;
  Done (entry, h', l').

Definition list_append_before (h : heap) (l : list_t) (after before : Z)
    : outcome (heap * list_t) :=
  a ← deref h after;
  if decide (e_prev a <> 0) then
    h1 ← set_prev h before (e_prev a);
    h2 ← set_next h1 before after;
    h3 ← set_prev h2 after before;
    b ← deref h3 before;
    h4 ← set_next h3 (e_prev b) before;
    Done (h4, mk_list (l_head l) (l_tail l) (u64 (l_length l + 1)))
  else
    h1 ← set_prev h after before;
    h2 ← set_next h1 before after;
    Done (h2, mk_list before (l_tail l) (u64 (l_length l + 1))).

Definition list_insert_before `{HeapAlloc} (h : heap) (l : list_t) (after item : Z)
    : outcome (Z * heap * list_t) :=
  let entry := halloc h in
  '(h', l') ← list_append_before (<[entry := mk_le 0 0 item]> h) l after entry;
  Done (entry, h', l').

(** ** Representation *)

Definition first_addr (xs : list (Z * Z)) (d : Z) : Z :=
  match xs with [] => d | (p, _) :: _ => p end.
Definition last_addr (xs : list (Z * Z)) (d : Z) : Z :=
  match last xs with None => d | Some (p, _) => p end.

(** The entries [xs] are linked in [h], from the entry [pp] before them to the
    entry [qn] after them. *)
Fixpoint dseg (h : heap) (pp : Z) (xs : list (Z * Z)) (qn : Z) : Prop :=
  match xs with
  | [] => True
  | (p, v) :: xs' => h !! p = Some (mk_le pp (first_addr xs' qn) v) /\ dseg h p xs' qn
  end.

Record dll (h : heap) (l : list_t) (xs : list (Z * Z)) : Prop := {
  dll_head : l_head l = first_addr xs 0;
  dll_tail : l_tail l = last_addr xs 0;
  dll_len : l_length l = Z.of_nat (length xs);
  dll_small : Z.of_nat (length xs) < 2 ^ 64 - 1;
  dll_nodup : NoDup xs.*1;
  dll_nonnull : 0 ∉ xs.*1;
  dll_seg : dseg h 0 xs 0
}.

Lemma last_addr_snoc xs p v d : last_addr (xs ++ [(p, v)]) d = p.
Proof. unfold last_addr. by rewrite last_snoc. Qed.

Lemma last_addr_cons p v xs d : last_addr ((p, v) :: xs) d = last_addr xs p.
Proof. unfold last_addr. rewrite last_cons. by destruct (last xs) as [[]|]. Qed.

Lemma first_addr_app xs ys d : first_addr (xs ++ ys) d = first_addr xs (first_addr ys d).
Proof. by destruct xs as [|[]]. Qed.

Lemma first_addr_in xs d : first_addr xs d = d \/ first_addr xs d ∈ xs.*1.
Proof. destruct xs as [|[p v] xs]; simpl; [by left|right; set_solver]. Qed.

Lemma dseg_app h pp xs ys qn :
  dseg h pp (xs ++ ys) qn <-> dseg h pp xs (first_addr ys qn) /\ dseg h (last_addr xs pp) ys qn.
Proof.
  revert pp. induction xs as [|[p v] xs IH]; intros pp; simpl.
  - unfold last_addr. simpl. tauto.
  - rewrite IH, last_addr_cons, first_addr_app. tauto.
Qed.

Lemma dseg_agree h h' pp xs qn :
  (forall p, p ∈ xs.*1 -> h' !! p = h !! p) -> dseg h pp xs qn -> dseg h' pp xs qn.
Proof.
  revert pp. induction xs as [|[p v] xs IH]; intros pp Ha; simpl; [done|].
  intros [Hp Hs]. split; [rewrite Ha; [done|set_solver]|]. apply IH; [|done].
  intros q Hq. apply Ha. set_solver.
Qed.

Lemma dseg_insert_out h pp xs qn a e :
  a ∉ xs.*1 -> dseg h pp xs qn -> dseg (<[a := e]> h) pp xs qn.
Proof.
  intros Ha. apply dseg_agree. intros p Hp. apply lookup_insert_ne. set_solver.
Qed.

Lemma dseg_delete_out h pp xs qn a :
  a ∉ xs.*1 -> dseg h pp xs qn -> dseg (delete a h) pp xs qn.
Proof.
  intros Ha. apply dseg_agree. intros p Hp. apply lookup_delete_ne. set_solver.
Qed.

Lemma dseg_live h pp xs qn p : dseg h pp xs qn -> p ∈ xs.*1 -> is_Some (h !! p).
Proof.
  revert pp. induction xs as [|[q v] xs IH]; intros pp; simpl; [set_solver|].
  intros [Hq Hs] [->|Hp]%elem_of_cons; [by eexists|]. by eapply IH.
Qed.

(** Writing the links at the two ends of a segment. *)
Lemma dseg_relink_last h pp xs a v qn qn' :
  a ∉ xs.*1 -> dseg h pp (xs ++ [(a, v)]) qn ->
  dseg (<[a := mk_le (last_addr xs pp) qn' v]> h) pp (xs ++ [(a, v)]) qn'.
Proof.
  intros Ha [Hs _]%dseg_app. apply dseg_app. split.
  - by apply dseg_insert_out.
  - simpl. by rewrite lookup_insert_eq.
Qed.

Lemma dseg_relink_first h pp pp' a v xs qn :
  a ∉ xs.*1 -> dseg h pp ((a, v) :: xs) qn ->
  dseg (<[a := mk_le pp' (first_addr xs qn) v]> h) pp' ((a, v) :: xs) qn.
Proof.
  intros Ha [_ Hs]. split; [by rewrite lookup_insert_eq|]. by apply dseg_insert_out.
Qed.

Lemma set_next_done h p e v :
  h !! p = Some e -> set_next h p v = Done (<[p := mk_le (e_prev e) v (e_value e)]> h).
Proof. intros Hp. unfold set_next, deref. by rewrite Hp. Qed.

Lemma set_prev_done h p e v :
  h !! p = Some e -> set_prev h p v = Done (<[p := mk_le v (e_next e) (e_value e)]> h).
Proof. intros Hp. unfold set_prev, deref. by rewrite Hp. Qed.

Lemma deref_done h p e : h !! p = Some e -> deref h p = Done e.
Proof. intros Hp. unfold deref. by rewrite Hp. Qed.

(** Case analysis on the end of a sequence. *)
(** Discharge the lookups of an updated heap. *)
Ltac heap_lookup :=
  repeat first
    [ rewrite lookup_insert_eq
    | rewrite lookup_insert_ne by (set_solver || lia || congruence)
    | rewrite lookup_delete_ne by (set_solver || lia || congruence) ];
  first [done | eassumption].

(** *** Appending *)

Lemma list_append_rep h l xs a v :
  dll h l xs -> h !! a = Some (mk_le 0 0 v) -> a <> 0 -> a ∉ xs.*1 ->
  Z.of_nat (length xs) + 1 < 2 ^ 64 - 1 ->
  exists h' l', list_append h l a = Done (h', l') /\ dll h' l' (xs ++ [(a, v)]) /\
    (forall q, q ∉ xs.*1 -> q <> a -> h' !! q = h !! q).
Proof.
  intros [Hhd Htl Hlen Hsm Hnd Hnn Hseg] Ha Ha0 Hax Hsmall.
  assert (Hnd' : NoDup (xs ++ [(a, v)]).*1).
  { rewrite fmap_app. apply NoDup_app. split; [done|]. split; [set_solver|apply NoDup_singleton]. }
  assert (Hnn' : 0 ∉ (xs ++ [(a, v)]).*1) by (rewrite fmap_app; set_solver).
  unfold list_append. rewrite Hlen.
  destruct (snoc_cases xs) as [->|(xs' & [t tv] & ->)]; simpl.
  - eexists _, _. split; [done|]. split; [|done]. by constructor.
  - rewrite length_app in *. simpl in *. rewrite decide_False by lia.
    rewrite Htl, last_addr_snoc. pose proof Hseg as Hseg0.
    apply dseg_app in Hseg as [Hs1 [Ht _]]. simpl in Ht.
    rewrite fmap_app in Hax, Hnd, Hnn. simpl in *.
    apply NoDup_app in Hnd as (Hnd1 & Hdis & _).
    assert (t ∉ xs'.*1) by (intros Hin; apply (Hdis _ Hin); set_solver).
    assert (t <> a) by set_solver.
    rewrite (set_next_done _ _ _ _ Ht). simpl.
    erewrite set_prev_done by heap_lookup. simpl.
    eexists _, _. split; [done|]. split; [constructor; simpl|].
    + rewrite Hhd. by rewrite !first_addr_app.
    + by rewrite last_addr_snoc.
    + rewrite u64_small by lia. rewrite !length_app. simpl. lia.
    + rewrite !length_app. simpl. lia.
    + done.
    + done.
    + apply dseg_app. rewrite last_addr_snoc. simpl. split; [|split; [by rewrite lookup_insert_eq|done]].
      apply dseg_insert_out; [rewrite fmap_app; set_solver|].
      by apply dseg_relink_last with (qn := 0).
    + intros q Hq Hqa. rewrite fmap_app in Hq. simpl in Hq. heap_lookup.
Qed.

(** *** Deleting *)

(** What list_delete does after the neighbours are linked together. *)
Definition delete_finish (h1 : heap) (l : list_t) (p prev next : Z) : outcome (heap * list_t) :=
  h2 ← set_next h1 p 0;
  h3 ← set_prev h2 p 0;
  Done (kfree h3 p, mk_list (if decide (l_head l = p) then next else l_head l)
                            (if decide (l_tail l = p) then prev else l_tail l)
                            (u64 (l_length l - 1))).

Lemma delete_finish_rep h h1 l xs p v ys :
  dll h l (xs ++ (p, v) :: ys) ->
  h1 !! p = Some (mk_le (last_addr xs 0) (first_addr ys 0) v) ->
  dseg h1 0 xs (first_addr ys 0) -> dseg h1 (last_addr xs 0) ys 0 ->
  (forall q, q ∉ (xs ++ (p, v) :: ys).*1 -> h1 !! q = h !! q) ->
  exists h' l', delete_finish h1 l p (last_addr xs 0) (first_addr ys 0) = Done (h', l') /\
    dll h' l' (xs ++ ys) /\ h' !! p = None /\
    (forall q, q ∉ (xs ++ (p, v) :: ys).*1 -> h' !! q = h !! q).
Proof.
  intros [Hhd Htl Hlen Hsm Hnd Hnn _] H1p H1x H1y H1o.
  unfold delete_finish. rewrite (set_next_done _ _ _ _ H1p). simpl.
  erewrite set_prev_done by heap_lookup. simpl. unfold kfree.
  rewrite fmap_app, length_app in *. simpl in *.
  apply NoDup_app in Hnd as (Hnd1 & Hdis & [Hpy Hnd2]%NoDup_cons).
  assert (Hpx : p ∉ xs.*1) by (intros Hin; apply (Hdis _ Hin), elem_of_cons; by left).
  eexists _, _. split; [done|]. split; [constructor; simpl|].
  - rewrite Hhd, !first_addr_app. simpl. destruct xs as [|[x xv] xs]; simpl in *.
    + by rewrite decide_True.
    + rewrite decide_False; [done|]. intros ->. apply Hpx. by left.
  - rewrite Htl. destruct (snoc_cases ys) as [->|(ys' & [y yv] & ->)].
    + rewrite last_addr_snoc, decide_True, app_nil_r; done.
    + rewrite fmap_app in Hpy. simpl in Hpy.
      change ((p, v) :: ys' ++ [(y, yv)]) with (((p, v) :: ys') ++ [(y, yv)]).
      rewrite !app_assoc, !last_addr_snoc, decide_False; [done|].
      intros ->. apply Hpy, elem_of_app. right. by left.
  - rewrite Hlen, u64_small by lia. rewrite length_app. lia.
  - rewrite length_app. lia.
  - rewrite fmap_app. apply NoDup_app. split; [done|]. split; [|done].
    intros q Hq Hqy. apply (Hdis q Hq). by right.
  - rewrite fmap_app. set_solver.
  - apply dseg_app. split; apply dseg_delete_out; try done;
      apply dseg_insert_out; try done; by apply dseg_insert_out.
  - split; [by rewrite lookup_delete_eq|]. intros q Hq. rewrite <-H1o by done.
    assert (q <> p) by (intros ->; apply Hq, elem_of_app; right; by left).
    by rewrite lookup_delete_ne, !lookup_insert_ne.
Qed.

Lemma list_delete_rep h l xs p v ys :
  dll h l (xs ++ (p, v) :: ys) ->
  exists h' l', list_delete h l p = Done (h', l') /\ dll h' l' (xs ++ ys) /\ h' !! p = None /\
    (forall q, q ∉ (xs ++ (p, v) :: ys).*1 -> h' !! q = h !! q).
Proof.
  intros Hd. pose proof (delete_finish_rep h) as Hfin.
  pose proof Hd as [_ _ _ _ Hnd Hnn Hseg]. rewrite fmap_app in Hnd, Hnn. simpl in Hnd, Hnn.
  apply NoDup_app in Hnd as (Hnd1 & Hdis & [Hpy Hnd2]%NoDup_cons).
  assert (Hpx : p ∉ xs.*1) by (intros Hin; apply (Hdis _ Hin), elem_of_cons; by left).
  assert (Hxy : forall q, q ∈ xs.*1 -> q ∉ ys.*1)
    by (intros q Hq ?; apply (Hdis _ Hq), elem_of_cons; by right).
  apply dseg_app in Hseg as [Hs1 [Hp Hs2]]. unfold list_delete.
  rewrite (deref_done _ _ _ Hp). cbn [mbind outcome_bind e_prev e_next].
  match goal with |- exists _ _, ?rel ≫= _ = _ /\ _ =>
    cut (exists h1, rel = Done h1 /\
      h1 !! p = Some (mk_le (last_addr xs 0) (first_addr ys 0) v) /\
      dseg h1 0 xs (first_addr ys 0) /\ dseg h1 (last_addr xs 0) ys 0 /\
      (forall q, q ∉ (xs ++ (p, v) :: ys).*1 -> h1 !! q = h !! q)) end.
  { intros (h1 & -> & ? & ? & ? & ?). by eapply Hfin. }
  clear Hfin Hd Hdis.
  destruct (snoc_cases xs) as [->|(xs' & [x xv] & ->)]; destruct ys as [|[y yv] ys];
    rewrite ?last_addr_snoc in *; simpl.
  - eauto 10.
  - assert (y <> 0) by (intros ->; apply Hnn; simpl; set_solver).
    rewrite (decide_False (P := _ /\ _)) by (unfold last_addr; simpl; lia).
    rewrite (decide_True (P := y <> 0)) by done. simpl. destruct Hs2 as [Hy Hs2].
    rewrite (set_prev_done _ _ _ _ Hy). simpl. simpl in Hpy.
    apply NoDup_cons in Hnd2 as [Hyy _]. eexists. split; [done|].
    split; [heap_lookup|]. split; [done|]. split; [split; [heap_lookup|by apply dseg_insert_out]|].
    intros q Hq. heap_lookup.
  - assert (x <> 0) by (intros ->; apply Hnn; rewrite fmap_app; simpl; set_solver).
    rewrite ?(decide_False (P := _ /\ _)) by lia. simpl.
    rewrite (decide_True (P := x <> 0)) by done. rewrite fmap_app in *. simpl in *.
    apply NoDup_app in Hnd1 as (_ & Hd1 & _).
    assert (x ∉ xs'.*1) by (intros Hin; apply (Hd1 _ Hin); by left).
    pose proof Hs1 as [_ [Hx _]]%dseg_app. simpl in Hx.
    rewrite (set_next_done _ _ _ _ Hx). simpl. eexists. split; [done|].
    split; [heap_lookup|]. split; [by eapply dseg_relink_last|]. split; [done|].
    intros q Hq. rewrite !fmap_app in Hq. simpl in Hq. heap_lookup.
  - assert (x <> 0) by (intros ->; apply Hnn; rewrite fmap_app; simpl; set_solver).
    assert (y <> 0) by (intros ->; apply Hnn; simpl; set_solver).
    rewrite (decide_True (P := _ /\ _)) by done. destruct Hs2 as [Hy Hs2].
    rewrite fmap_app in *. simpl in *. apply NoDup_app in Hnd1 as (_ & Hd1 & _).
    assert (x ∉ xs'.*1) by (intros Hin; apply (Hd1 _ Hin); by left).
    assert (x <> y) by (intros ->; apply (Hxy y); set_solver).
    apply NoDup_cons in Hnd2 as [Hyy _]. apply not_elem_of_cons in Hpy as [Hpy0 Hpy].
    assert (x ∉ ys.*1) by (intros ?; apply (Hxy x); set_solver).
    assert (y ∉ xs'.*1) by (intros ?; apply (Hxy y); set_solver).
    pose proof Hs1 as [_ [Hx _]]%dseg_app. simpl in Hx.
    rewrite (set_prev_done _ _ _ _ Hy). simpl.
    erewrite set_next_done by heap_lookup. simpl. eexists. split; [done|].
    split; [heap_lookup|]. split; [|split; [split; [heap_lookup|]|]].
    + apply dseg_relink_last with (qn := p); [done|].
      apply dseg_insert_out; [rewrite fmap_app; simpl; set_solver|done].
    + apply dseg_insert_out; [done|]. by apply dseg_insert_out.
    + intros q Hq. rewrite !fmap_app in Hq. simpl in Hq. heap_lookup.
Qed.

(** *** Finding, walking, freeing *)

(** The address of the first entry with the value, NULL without one. *)
Fixpoint first_with (item : Z) (xs : list (Z * Z)) : Z :=
  match xs with
  | [] => 0
  | (p, v) :: xs' => if decide (v = item) then p else first_with item xs'
  end.

Lemma find_loop_rep fuel h pp xs item :
  dseg h pp xs 0 -> 0 ∉ xs.*1 -> (length xs < fuel)%nat ->
  find_loop fuel h (first_addr xs 0) item = Done (first_with item xs).
Proof.
  revert pp xs. induction fuel as [|fuel IH]; intros pp xs Hs Hnn Hf; [lia|].
  destruct xs as [|[p v] xs]; simpl in *; [done|]. destruct Hs as [Hp Hs].
  rewrite decide_False by set_solver. rewrite (deref_done _ _ _ Hp). simpl.
  case_decide; [done|]. apply (IH p); (done || lia || set_solver).
Qed.

Lemma walk_rep n h pp xs :
  dseg h pp xs 0 -> 0 ∉ xs.*1 -> xs <> [] ->
  walk n h (first_addr xs 0) = Done (fst <$> xs !! n).
Proof.
  revert pp xs. induction n as [|n IH]; intros pp xs Hs Hnn Hne;
    (destruct xs as [|[p v] xs]; [done|]); simpl; [done|].
  destruct Hs as [Hp Hs]. rewrite (deref_done _ _ _ Hp). simpl.
  destruct xs as [|[q w] xs]; simpl; [done|].
  rewrite decide_False by (intros ->; apply Hnn; simpl; set_solver).
  apply (IH p ((q, w) :: xs)); [done|set_solver|done].
Qed.

Lemma free_entries_rep fuel h pp xs :
  dseg h pp xs 0 -> 0 ∉ xs.*1 -> NoDup xs.*1 -> (length xs < fuel)%nat ->
  exists h', free_entries fuel h (first_addr xs 0) = Done (h', xs.*2) /\
    (forall q, h' !! q = if decide (q ∈ xs.*1) then None else h !! q).
Proof.
  revert h pp xs. induction fuel as [|fuel IH]; intros h pp xs Hs Hnn Hnd Hf; [lia|].
  destruct xs as [|[p v] xs]; simpl in *.
  { exists h. split; [done|]. intros q. done. }
  destruct Hs as [Hp Hs]. apply NoDup_cons in Hnd as [Hpx Hnd].
  rewrite decide_False by set_solver. rewrite (deref_done _ _ _ Hp). simpl.
  destruct (IH (kfree h p) p xs) as (h' & Hr & Hh').
  { by apply dseg_delete_out. } { set_solver. } { done. } { lia. }
  rewrite Hr. simpl. exists h'. split; [done|]. intros q. rewrite Hh'. unfold kfree.
  destruct (decide (q = p)) as [->|Hne].
  - rewrite lookup_delete_eq. repeat case_decide; (done || set_solver).
  - rewrite lookup_delete_ne by done. repeat case_decide; (done || set_solver).
Qed.

(** *** Inserting next to an entry *)

(** The links after a fresh entry [a] was put between [xs] and [ys]. *)
Lemma dll_splice h' l' l xs a v ys :
  l_head l' = first_addr (xs ++ (a, v) :: ys) 0 -> l_tail l' = last_addr (xs ++ (a, v) :: ys) 0 ->
  l_length l = Z.of_nat (length (xs ++ ys)) -> l_length l' = u64 (l_length l + 1) ->
  Z.of_nat (length (xs ++ ys)) + 1 < 2 ^ 64 - 1 ->
  NoDup (xs ++ ys).*1 -> 0 ∉ (xs ++ ys).*1 -> a ∉ (xs ++ ys).*1 -> a <> 0 ->
  dseg h' 0 xs a -> h' !! a = Some (mk_le (last_addr xs 0) (first_addr ys 0) v) ->
  dseg h' a ys 0 -> dll h' l' (xs ++ (a, v) :: ys).
Proof.
  intros Hhd Htl Hl Hl' Hsm Hnd Hnn Hax Ha0 H1 H2 H3. rewrite length_app in *.
  constructor; try done.
  - rewrite Hl', Hl, u64_small by lia. rewrite length_app. simpl. lia.
  - rewrite length_app. simpl. lia.
  - rewrite fmap_app in *. simpl. apply NoDup_app in Hnd as (Hnd1 & Hdis & Hnd2).
    apply NoDup_app. split; [done|]. split.
    + intros q Hq [->|Hqy]%elem_of_cons; [apply Hax, elem_of_app; by left|by apply (Hdis q)].
    + apply NoDup_cons. split; [|done]. intros ?. apply Hax, elem_of_app. by right.
  - rewrite fmap_app in *. simpl. set_solver.
  - apply dseg_app. simpl. done.
Qed.

Lemma list_append_after_rep h l xs p v ys a w :
  dll h l (xs ++ (p, v) :: ys) -> h !! a = Some (mk_le 0 0 w) -> a <> 0 ->
  a ∉ (xs ++ (p, v) :: ys).*1 -> Z.of_nat (length (xs ++ (p, v) :: ys)) + 1 < 2 ^ 64 - 1 ->
  exists h' l', list_append_after h l p a = Done (h', l') /\
    dll h' l' (xs ++ (p, v) :: (a, w) :: ys).
Proof.
  intros Hd Ha Ha0 Hax Hsm. pose proof Hd as [Hhd Htl Hlen _ Hnd Hnn Hseg].
  pose proof Hseg as [Hs1 [Hp Hs2]]%dseg_app. unfold list_append_after.
  rewrite (deref_done _ _ _ Hp). simpl. destruct ys as [|[y yv] ys]; simpl.
  - destruct (list_append_rep h l _ a w Hd Ha Ha0 Hax Hsm) as (h' & l' & Hr & Hd' & _).
    exists h', l'. split; [done|]. by rewrite <-app_assoc in Hd'.
  - rewrite !fmap_app in *. simpl in *.
    pose proof Hnd as (Hnd1 & Hdis & [Hpy [Hyy _]%NoDup_cons]%NoDup_cons)%NoDup_app.
    assert (p ∉ xs.*1) by (intros Hin; apply (Hdis _ Hin); by left).
    assert (y ∉ xs.*1) by (intros Hin; apply (Hdis _ Hin); right; by left).
    assert (y <> 0) by (intros ->; apply Hnn; set_solver).
    rewrite not_elem_of_app, !not_elem_of_cons in Hax. destruct Hax as (Hax & Hap & Hay & Hays).
    apply not_elem_of_cons in Hpy as [Hpy Hpys]. destruct Hs2 as [Hy Hs2].
    rewrite decide_True by done. rewrite (set_next_done _ _ _ _ Ha). simpl.
    erewrite set_next_done by heap_lookup. simpl. erewrite set_prev_done by heap_lookup. simpl.
    erewrite deref_done by heap_lookup. simpl. erewrite set_prev_done by heap_lookup. simpl.
    eexists _, _. split; [done|].
    replace (xs ++ (p, v) :: (a, w) :: (y, yv) :: ys)
      with ((xs ++ [(p, v)]) ++ (a, w) :: (y, yv) :: ys) by by rewrite <-app_assoc.
    apply (dll_splice _ _ l); rewrite <-?app_assoc; simpl; rewrite ?last_addr_snoc; try done.
    + rewrite Hhd. by rewrite !first_addr_app.
    + rewrite Htl. unfold last_addr. rewrite !last_app. simpl. by destruct (last ys) as [[]|].
    + by rewrite fmap_app.
    + by rewrite fmap_app.
    + rewrite fmap_app. set_solver.
    + apply dseg_app. simpl. split; [by repeat (apply dseg_insert_out; [done|])|].
      split; [heap_lookup|done].
    + heap_lookup.
    + split; [heap_lookup|]. by repeat (apply dseg_insert_out; [done|]).
Qed.

Lemma list_append_before_rep h l xs p v ys a w :
  dll h l (xs ++ (p, v) :: ys) -> h !! a = Some (mk_le 0 0 w) -> a <> 0 ->
  a ∉ (xs ++ (p, v) :: ys).*1 -> Z.of_nat (length (xs ++ (p, v) :: ys)) + 1 < 2 ^ 64 - 1 ->
  exists h' l', list_append_before h l p a = Done (h', l') /\
    dll h' l' (xs ++ (a, w) :: (p, v) :: ys).
Proof.
  intros Hd Ha Ha0 Hax Hsm. pose proof Hd as [Hhd Htl Hlen _ Hnd Hnn Hseg].
  pose proof Hseg as [Hs1 [Hp Hs2]]%dseg_app. unfold list_append_before.
  rewrite (deref_done _ _ _ Hp). simpl.
  pose proof Hnd as Hnd0. rewrite fmap_app in Hnd0. simpl in Hnd0.
  apply NoDup_app in Hnd0 as (Hnd1 & Hdis & [Hpy _]%NoDup_cons).
  assert (Hpx : p ∉ xs.*1) by (intros Hin; apply (Hdis _ Hin); by left).
  pose proof Hax as Hax'. rewrite fmap_app in Hax'. simpl in Hax'.
  rewrite not_elem_of_app, not_elem_of_cons in Hax'. destruct Hax' as (Hax1 & Hap & Hay).
  destruct (snoc_cases xs) as [->|(xs' & [x xv] & ->)]; simpl.
  - unfold last_addr in *. simpl in *.
    rewrite (set_prev_done _ _ _ _ Hp). simpl. erewrite set_next_done by heap_lookup. simpl.
    eexists _, _. split; [done|]. apply (dll_splice _ _ l []); simpl; try done.
    + heap_lookup.
    + split; [heap_lookup|]. by repeat (apply dseg_insert_out; [done|]).
  - rewrite last_addr_snoc in *. rewrite !fmap_app in *. simpl in *.
    assert (x <> 0) by (intros ->; apply Hnn; rewrite elem_of_app; left; set_solver).
    rewrite decide_True by done. apply NoDup_app in Hnd1 as (_ & Hd1 & _).
    assert (x ∉ xs'.*1) by (intros Hin; apply (Hd1 _ Hin); by left).
    assert (x <> p) by set_solver. assert (x <> a) by set_solver. assert (x ∉ ys.*1).
    { intros ?. apply (Hdis x); [rewrite elem_of_app; right; by left|by right]. }
    pose proof Hs1 as [_ [Hx _]]%dseg_app. simpl in Hx.
    rewrite (set_prev_done _ _ _ _ Ha). simpl. erewrite set_next_done by heap_lookup. simpl.
    erewrite set_prev_done by heap_lookup. simpl. erewrite deref_done by heap_lookup. simpl.
    erewrite set_next_done by heap_lookup. simpl. eexists _, _. split; [done|].
    apply (dll_splice _ _ l); rewrite ?fmap_app; simpl; rewrite ?last_addr_snoc; try done.
    + rewrite Hhd. by rewrite !first_addr_app.
    + rewrite Htl. unfold last_addr. rewrite !last_app. simpl. by destruct (last ys) as [[]|].
    + eapply dseg_relink_last with (qn := p); [done|].
      by repeat (apply dseg_insert_out; [rewrite fmap_app; simpl; done|]).
    + heap_lookup.
    + split; [heap_lookup|]. by repeat (apply dseg_insert_out; [done|]).
Qed.

(** *** Copying *)

Lemma copy_entries_rep `{HeapAlloc} fuel h pp xs new zs :
  dseg h pp xs 0 -> 0 ∉ xs.*1 -> NoDup xs.*1 -> dll h new zs ->
  (forall p, p ∈ xs.*1 -> p ∉ zs.*1) -> (length xs < fuel)%nat ->
  Z.of_nat (length zs + length xs) + 1 < 2 ^ 64 - 1 ->
  exists h' new' ys, copy_entries fuel h new (first_addr xs 0) = Done (h', new') /\
    dll h' new' (zs ++ ys) /\ ys.*2 = xs.*2 /\
    (forall q, is_Some (h !! q) -> q ∉ zs.*1 -> h' !! q = h !! q) /\
    (forall q, q ∈ ys.*1 -> h !! q = None).
Proof.
  revert h pp xs new zs. induction fuel as [|fuel IH]; intros h pp xs new zs Hs Hnn Hnd Hd Hdis Hf Hsm;
    [lia|].
  destruct xs as [|[p v] xs]; simpl in *.
  { exists h, new, []. rewrite app_nil_r. set_solver. }
  destruct Hs as [Hp Hs]. apply NoDup_cons in Hnd as [Hpx Hnd].
  rewrite decide_False by set_solver. rewrite (deref_done _ _ _ Hp). simpl.
  destruct (halloc_fresh h) as [Ha0 Ha]. set (a := halloc h) in *.
  assert (Haz : a ∉ zs.*1).
  { intros Hin. destruct Hd. eapply dseg_live in Hin as [? ?]; [|done]. congruence. }
  assert (Hax : a ∉ xs.*1).
  { intros Hin. eapply dseg_live in Hin as [? ?]; [|done]. congruence. }
  assert (Hap : a <> p) by congruence.
  assert (Hd1 : dll (<[a := mk_le 0 0 v]> h) new zs).
  { destruct Hd. constructor; try done. by apply dseg_insert_out. }
  destruct (list_append_rep _ _ _ a v Hd1) as (h1 & n1 & Hr & Hd2 & Hfr); try done;
    [by rewrite lookup_insert_eq|lia|].
  rewrite Hr. simpl.
  assert (Hkeep : forall q, is_Some (h !! q) -> q ∉ zs.*1 -> h1 !! q = h !! q).
  { intros q [e Hq] Hqz. rewrite Hfr by (done || congruence).
    apply lookup_insert_ne. congruence. }
  destruct (IH h1 p xs n1 (zs ++ [(a, v)])) as (h' & n' & ys & Hr' & Hd' & Hys & Hfr' & Hnew);
    try done; try lia.
  { eapply dseg_agree; [|done]. intros q Hq. apply Hkeep; [by eapply dseg_live|].
    apply Hdis. by right. }
  { set_solver. }
  { intros q Hq. rewrite fmap_app. simpl. pose proof (Hdis q). set_solver. }
  { rewrite length_app. simpl. lia. }
  exists h', n', ((a, v) :: ys). rewrite Hr'. split; [done|]. rewrite <-app_assoc in Hd'.
  split; [done|]. split; [by rewrite fmap_cons, Hys|]. split.
  - intros q Hq Hqz. rewrite Hfr'.
    + by apply Hkeep.
    + rewrite Hkeep by done. done.
    + rewrite fmap_app. simpl. intros [?|Hqa]%elem_of_app; [done|].
      apply list_elem_of_singleton in Hqa as ->. destruct Hq. congruence.
  - intros q [->|Hq]%elem_of_cons; [done|]. destruct (h !! q) as [e|] eqn:E; [|done].
    assert (h1 !! q = None) as Hn by by apply Hnew.
    destruct (decide (q ∈ zs.*1)) as [Hin|Hin].
    + destruct Hd2 as [_ _ _ _ _ _ Hsg]. eapply dseg_live in Hsg as [? ?]; [|by rewrite fmap_app, elem_of_app; left].
      congruence.
    + rewrite Hkeep in Hn by (done || by eexists). congruence.
Qed.

(** ** The interface of a kernel queue

    What the scheduler and the wait queues need of [list_t]: insertion at the
    back ([list_insert]), the value at the front, and removal of the front
    ([list_remove_by_index(queue, 0)]).  [qrep s vs] says that the state [s]
    holds the values [vs], front first. *)
Class Queue (St : Type) := {
  qrep : St -> list Z -> Prop;
  q_insert : Z -> St -> outcome St;
  q_front : St -> outcome (option Z);
  q_drop : St -> outcome St;
  q_insert_ok : forall s vs v, qrep s vs -> Z.of_nat (length vs) + 1 < 2 ^ 64 - 1 ->
    exists s', q_insert v s = Done s' /\ qrep s' (vs ++ [v]);
  q_front_ok : forall s vs, qrep s vs -> q_front s = Done (head vs);
  q_drop_ok : forall s v vs, qrep s (v :: vs) -> exists s', q_drop s = Done s' /\ qrep s' vs
}.

Definition list_front (s : heap * list_t) : outcome (option Z) :=
  if decide (l_length s.2 = 0) then Done None
  else e ← deref s.1 (l_head s.2); Done (Some (e_value e)).

(** ** Properties *)

(** List_insert appends the item in a new entry at the end of the list and
    leaves every entry outside the list alone. *)
Theorem list_insert_appends `{HeapAlloc} h l xs item :
  dll h l xs -> Z.of_nat (length xs) + 1 < 2 ^ 64 - 1 ->
  exists h' l', list_insert h l item = Done (h', l') /\ dll h' l' (xs ++ [(halloc h, item)]) /\
    (forall q, q ∉ xs.*1 -> q <> halloc h -> h' !! q = h !! q).
Proof.
  intros Hd Hsm. destruct (halloc_fresh h) as [Ha0 Ha]. unfold list_insert.
  assert (Hax : halloc h ∉ xs.*1).
  { intros Hin. destruct Hd. eapply dseg_live in Hin as [? ?]; [|done]. congruence. }
  destruct (list_append_rep (<[halloc h := mk_le 0 0 item]> h) l xs (halloc h) item)
    as (h' & l' & Hr & Hd' & Hfr); try done.
  - destruct Hd. constructor; try done. by apply dseg_insert_out.
  - by rewrite lookup_insert_eq.
  - exists h', l'. split; [done|]. split; [done|]. intros q Hq Hne.
    rewrite Hfr by done. by rewrite lookup_insert_ne.
Qed.

Lemma dll_empty h : dll h list_create [].
Proof. constructor; simpl; (done || lia || constructor || set_solver). Qed.

Example list_insert_appends_witness :
  exists h' l', list_insert ∅ list_create 7 = Done (h', l') /\ dll h' l' ([] ++ [(halloc ∅, 7)]) /\
    (forall q, q ∉ ([] : list (Z * Z)).*1 -> q <> halloc ∅ -> h' !! q = (∅ : heap) !! q).
Proof. apply (list_insert_appends ∅ list_create [] 7); [apply dll_empty | simpl; lia]. Defined.

(** Two entries, at 1 and 2, with the values 7 and 8. *)
Definition two_heap : heap := <[1 := mk_le 0 2 7]> (<[2 := mk_le 1 0 8]> ∅).
Definition two_list : list_t := mk_list 1 2 2.

Lemma two_dll : dll two_heap two_list [(1, 7); (2, 8)].
Proof.
  constructor; simpl; try done; try lia.
  - repeat constructor; set_solver.
  - set_solver.
Qed.

(** C19: list_delete unlinks exactly the given entry, wherever it is in the
    list, keeps the order of the others and the header consistent, frees the
    entry, and leaves every other entry of the heap alone. *)
Theorem list_delete_unlinks h l xs p v ys :
  dll h l (xs ++ (p, v) :: ys) ->
  exists h' l', list_delete h l p = Done (h', l') /\ dll h' l' (xs ++ ys) /\ h' !! p = None /\
    (forall q, q ∉ (xs ++ (p, v) :: ys).*1 -> h' !! q = h !! q).
Proof. apply list_delete_rep. Qed.

Example list_delete_unlinks_witness :
  exists h' l', list_delete two_heap two_list 2 = Done (h', l') /\
    dll h' l' ([(1, 7)] ++ []) /\ h' !! 2 = None /\
    (forall q, q ∉ ([(1, 7)] ++ (2, 8) :: []).*1 -> h' !! q = two_heap !! q).
Proof. apply (list_delete_unlinks two_heap two_list [(1, 7)] 2 8 []). apply two_dll. Defined.

(** The index of list_remove_by_index.  On a list of at least two entries
    0 and 1 both remove the first entry, k up to the length removes the k-th
    entry (counted from 1), and a larger index removes nothing; on a list of
    one entry index 1 removes the entry and then dereferences NULL. *)
Theorem list_remove_by_index_spec h l xs k :
  dll h l xs -> xs <> [] -> h !! 0 = None -> 0 <= k ->
  if decide (k = 1 /\ length xs = 1%nat) then list_remove_by_index h l k = Fault
  else exists h' l', list_remove_by_index h l k = Done (h', l') /\
    dll h' l' (if decide (k = 0) then tail xs
               else if decide (k <= Z.of_nat (length xs)) then delete (Z.to_nat (k - 1)) xs
               else xs).
Proof.
  intros Hd Hne H0 Hk. pose proof Hd as [Hhd Htl Hlen _ _ Hnn Hseg].
  unfold list_remove_by_index. rewrite (decide_False (P := l_length l = 0)).
  2:{ rewrite Hlen. destruct xs; simpl; [done|lia]. }
  destruct (decide (k = l_length l)) as [Ek|Ek].
  - destruct (snoc_cases xs) as [->|(xs' & [p v] & ->)]; [done|].
    rewrite Htl, last_addr_snoc. rewrite length_app in *. simpl in *.
    destruct (list_delete_rep h l xs' p v [] Hd) as (h' & l' & Hr & Hd' & Hp & Hfr).
    rewrite Hr. simpl. rewrite app_nil_r in Hd'. pose proof Hd' as [Hhd' _ _ _ _ Hnn' Hseg'].
    rewrite !(decide_False (P := k = 0)) by lia. rewrite Hhd'.
    destruct xs' as [|[q w] xs'].
    + simpl in *. rewrite decide_True by lia. subst k. rewrite Hlen. simpl.
      unfold list_delete, deref. rewrite Hfr; [by rewrite H0|set_solver].
    + rewrite decide_False by (simpl in *; lia). erewrite walk_rep by done.
      rewrite lookup_ge_None_2 by (simpl in *; lia). simpl. eexists _, _. split; [done|].
      rewrite decide_True by (simpl in *; lia).
      replace (delete (Z.to_nat (k - 1)) (((q, w) :: xs') ++ [(p, v)])) with ((q, w) :: xs'); [done|].
      rewrite delete_take_drop, take_app_le, take_ge by (simpl in *; lia).
      rewrite drop_ge by (simpl in *; rewrite length_app; simpl; lia). by rewrite app_nil_r.
  - simpl. destruct xs as [|[p v] xs]; [done|]. destruct (decide (k = 0)) as [->|Hk0].
    + rewrite (decide_False (P := 0 = 1 /\ _)) by lia. rewrite Hhd. simpl.
      destruct (list_delete_rep h l [] p v xs Hd) as (h' & l' & Hr & Hd' & _).
      rewrite Hr. eauto.
    + rewrite (decide_False (P := k = 1 /\ _)) by lia. rewrite Hhd. erewrite walk_rep by done.
      destruct (((p, v) :: xs) !! Z.to_nat (k - 1)) as [[q w]|] eqn:E; simpl.
      * pose proof (lookup_lt_Some _ _ _ E) as Hlt. simpl in Hlt.
        rewrite <-(take_drop_middle _ _ _ E) in Hd.
        destruct (list_delete_rep _ _ _ _ _ _ Hd) as (h' & l' & Hr & Hd' & _).
        rewrite Hr. eexists _, _. split; [done|]. rewrite decide_True by lia.
        by rewrite delete_take_drop.
      * apply lookup_ge_None in E. rewrite decide_False by (simpl in *; lia). eauto.
Qed.

Example list_remove_by_index_spec_witness :
  exists h' l', list_remove_by_index two_heap two_list 2 = Done (h', l') /\
    dll h' l' (delete 1%nat [(1, 7); (2, 8)]).
Proof.
  exact (list_remove_by_index_spec two_heap two_list [(1, 7); (2, 8)] 2 two_dll
    ltac:(done) ltac:(vm_compute; reflexivity) ltac:(lia)).
Defined.

(** List_copy makes a list with the same values in the same order in new
    entries, and the original list is unchanged. *)
Theorem list_copy_correct `{HeapAlloc} fuel h l xs :
  dll h l xs -> (length xs < fuel)%nat -> Z.of_nat (length xs) + 1 < 2 ^ 64 - 1 ->
  exists h' l' ys, list_copy fuel h l = Done (h', l') /\ dll h' l' ys /\ ys.*2 = xs.*2 /\
    dll h' l xs /\ (forall q, q ∈ ys.*1 -> h !! q = None).
Proof.
  intros Hd Hf Hsm. unfold list_copy. pose proof Hd as [Hhd Htl Hlen ? Hnd Hnn Hseg].
  destruct (copy_entries_rep fuel h 0 xs list_create []) as (h' & l' & ys & Hr & Hd' & Hys & Hfr & Hnew);
    try done; [apply dll_empty|set_solver|].
  rewrite Hhd. exists h', l', ys. do 3 (split; [done|]). split; [|done].
  constructor; try done. eapply dseg_agree; [|done]. intros q Hq. apply Hfr; [|set_solver].
  by eapply dseg_live.
Qed.

Example list_copy_correct_witness :
  exists h' l' ys, list_copy 3 two_heap two_list = Done (h', l') /\ dll h' l' ys /\
    ys.*2 = [(1, 7); (2, 8)].*2 /\ dll h' two_list [(1, 7); (2, 8)] /\
    (forall q, q ∈ ys.*1 -> two_heap !! q = None).
Proof. apply (list_copy_correct 3 two_heap two_list [(1, 7); (2, 8)]); [apply two_dll|simpl; lia|simpl; lia]. Defined.

(** The list implements the queue interface. *)
#[export] Instance list_queue `{HeapAlloc} : Queue (heap * list_t).
Proof.
  refine {| qrep := fun s vs => s.1 !! 0 = None /\ exists xs, dll s.1 s.2 xs /\ xs.*2 = vs;
            q_insert := fun v s => list_insert s.1 s.2 v;
            q_front := list_front;
            q_drop := fun s => list_remove_by_index s.1 s.2 0 |}.
  - intros [h l] vs v [H0 (xs & Hd & <-)] Hsm. rewrite length_fmap in Hsm. simpl in *.
    destruct (list_append_rep (<[halloc h := mk_le 0 0 v]> h) l xs (halloc h) v)
      as (h' & l' & Hr & Hd' & Hfr); try (by apply halloc_fresh); try done.
    + destruct Hd. constructor; try done. apply dseg_insert_out; [|done].
      intros Hin. eapply dseg_live in Hin as [? Hs]; [|done].
      destruct (halloc_fresh h). congruence.
    + by rewrite lookup_insert_eq.
    + intros Hin. destruct Hd. eapply dseg_live in Hin as [? Hs]; [|done].
      destruct (halloc_fresh h). congruence.
    + exists (h', l'). split; [done|]. simpl. split.
      * destruct Hd. destruct (halloc_fresh h). rewrite Hfr by done. by rewrite lookup_insert_ne.
      * exists (xs ++ [(halloc h, v)]). split; [done|]. by rewrite fmap_app.
  - intros [h l] vs [H0 (xs & Hd & <-)]. simpl in *. unfold list_front. simpl.
    destruct Hd as [Hhd _ Hlen _ _ _ Hseg]. rewrite Hlen. destruct xs as [|[p v] xs]; [done|].
    rewrite decide_False by (simpl; lia). destruct Hseg as [Hp _].
    rewrite Hhd. simpl. by rewrite (deref_done _ _ _ Hp).
  - intros [h l] v vs [H0 (xs & Hd & Hvs)]. simpl in *. destruct xs as [|[p w] xs]; [done|].
    injection Hvs as <- <-. unfold list_remove_by_index. pose proof Hd as [Hhd _ Hlen _ _ Hnn _].
    destruct (list_delete_rep h l [] p w xs Hd) as (h' & l' & Hr & Hd' & _ & Hfr).
    rewrite decide_False by (rewrite Hlen; simpl; lia).
    rewrite decide_False by (rewrite Hlen; simpl; lia). simpl. rewrite Hhd. simpl.
    rewrite Hr. exists (h', l'). split; [done|]. simpl. split; [|by exists xs].
    by rewrite Hfr.
Defined.
