(* ===== verification/Liballoc.v ===== *)
(** kernel/alloc/liballoc.c and its hooks in kernel/arch/amd64/alloc.c: malloc,
    free, calloc and realloc of the kernel.

    [tags] are the boundary tags written in memory, by address; a tag that was
    melted away stays in memory until it is overwritten, so it stays in the
    map, and the ghost set [live] of the invariant says which tags are in
    force.  [bytes] is the rest of memory.  sbrk is the interface [PageSource]:
    an address that was handed out is never handed out again. *)
From stdpp Require Import base list gmap fin_maps.
From Stdlib Require Import ZArith Lia.
From S2P Require Import Prelude.

#[local] Open Scope Z_scope.

(** ** Data *)

Definition LIBALLOC_MAGIC : Z := 0xc001c0de.
Definition MAXCOMPLETE : Z := 65536.
Definition MAXEXP : Z := 32.
Definition MINEXP : Z := 8.
Definition MODE : Z := 0.
Definition l_pageSize : Z := 4096.
Definition l_pageCount : Z := 1.

Record boundary_tag := mk_tag {
  tg_magic : Z; tg_size : Z; tg_real : Z; tg_index : Z;
  tg_left : Z; tg_right : Z; tg_next : Z; tg_prev : Z
}.
(** sizeof(struct boundary_tag) *)
Definition TAG_SIZE : Z := 64.

Definition with_size (v : Z) (t : boundary_tag) := mk_tag (tg_magic t) v (tg_real t) (tg_index t) (tg_left t) (tg_right t) (tg_next t) (tg_prev t).
Definition with_real (v : Z) (t : boundary_tag) := mk_tag (tg_magic t) (tg_size t) v (tg_index t) (tg_left t) (tg_right t) (tg_next t) (tg_prev t).
Definition with_index (v : Z) (t : boundary_tag) := mk_tag (tg_magic t) (tg_size t) (tg_real t) v (tg_left t) (tg_right t) (tg_next t) (tg_prev t).
Definition with_left (v : Z) (t : boundary_tag) := mk_tag (tg_magic t) (tg_size t) (tg_real t) (tg_index t) v (tg_right t) (tg_next t) (tg_prev t).
Definition with_right (v : Z) (t : boundary_tag) := mk_tag (tg_magic t) (tg_size t) (tg_real t) (tg_index t) (tg_left t) v (tg_next t) (tg_prev t).
Definition with_next (v : Z) (t : boundary_tag) := mk_tag (tg_magic t) (tg_size t) (tg_real t) (tg_index t) (tg_left t) (tg_right t) v (tg_prev t).
Definition with_prev (v : Z) (t : boundary_tag) := mk_tag (tg_magic t) (tg_size t) (tg_real t) (tg_index t) (tg_left t) (tg_right t) (tg_next t) v.

(** What liballoc uses of sbrk: a new region, or -1. *)
Class PageSource (P : Type) := {
  ps_sbrk : Z -> P -> outcome (Z * P);
  ps_used : P -> Z -> Prop;
  ps_fresh : forall n p a p', ps_sbrk n p = Done (a, p') -> 0 < n -> a <> 2 ^ 64 - 1 ->
    0 < a /\ a + n <= 2 ^ 64 /\ (forall x, a <= x < a + n -> ~ ps_used p x) /\
    (forall x, ps_used p' x <-> ps_used p x \/ a <= x < a + n);
  ps_failed : forall n p a p', ps_sbrk n p = Done (a, p') -> a = 2 ^ 64 - 1 -> forall x, ps_used p' x <-> ps_used p x;
  ps_total : forall n p, exists r, ps_sbrk n p = Done r
}.

Record arena (P : Type) := mk_arena {
  tags : gmap Z boundary_tag;
  l_freePages : list Z;
  l_completePages : list Z;
  l_initialized : bool;
  la_lock : bool;
  bytes : Z -> Z;
  pages : P
}.
Arguments mk_arena {P}.
Arguments tags {P}.
Arguments l_freePages {P}.
Arguments l_completePages {P}.
Arguments l_initialized {P}.
Arguments la_lock {P}.
Arguments bytes {P}.
Arguments pages {P}.

(** ** Helpers *)

(** [1 << shift] is an int; compared with an unsigned long long it is extended
    by its sign. *)
Definition pow2_int (shift : Z) : Z := u64 (s32 (Z.shiftl 1 shift)).

Definition getexp (size : Z) : Z :=
  if decide (size < pow2_int MINEXP) then -1
  else
    match for_ (Z.to_nat (MAXEXP - MINEXP)) MINEXP (fun shift _ =>
            if decide (size < pow2_int shift) then Done (inr (shift - 1)) else Done (inl tt)) tt with
    | Done (inr r) => r
    | _ => MAXEXP - 1
    end.

Section Liballoc.
Context {P : Type} `{PS : PageSource P}.

Definition set_tags (m : gmap Z boundary_tag) (s : arena P) : arena P :=
  mk_arena m (l_freePages s) (l_completePages s) (l_initialized s) (la_lock s) (bytes s) (pages s).
Definition set_free (l : list Z) (s : arena P) : arena P :=
  mk_arena (tags s) l (l_completePages s) (l_initialized s) (la_lock s) (bytes s) (pages s).
Definition set_complete (l : list Z) (s : arena P) : arena P :=
  mk_arena (tags s) (l_freePages s) l (l_initialized s) (la_lock s) (bytes s) (pages s).
Definition set_lock (b : bool) (s : arena P) : arena P :=
  mk_arena (tags s) (l_freePages s) (l_completePages s) (l_initialized s) b (bytes s) (pages s).
Definition set_bytes (b : Z -> Z) (s : arena P) : arena P :=
  mk_arena (tags s) (l_freePages s) (l_completePages s) (l_initialized s) (la_lock s) b (pages s).
Definition set_pages (p : P) (s : arena P) : arena P :=
  mk_arena (tags s) (l_freePages s) (l_completePages s) (l_initialized s) (la_lock s) (bytes s) p.

Definition tag_at (s : arena P) (p : Z) : outcome boundary_tag := of_option (tags s !! p).
Definition put_tag (p : Z) (t : boundary_tag) (s : arena P) : arena P := set_tags (<[p := t]> (tags s)) s.
(** A store to one field of the tag at [p]. *)
Definition upd (p : Z) (f : boundary_tag -> boundary_tag) (s : arena P) : outcome (arena P) :=
  t ← tag_at s p; Done (put_tag p (f t) s).

Definition liballoc_lock (s : arena P) : outcome (arena P) := if la_lock s then Blocked else Done (set_lock true s).
Definition liballoc_unlock (s : arena P) : arena P := set_lock false s.

Definition page_size : Z := 0x1000.
Definition liballoc_alloc (n : Z) (s : arena P) : outcome (Z * arena P) :=
  let size := u32 (s32 (n * page_size)) in
  '(p2, ps) ← ps_sbrk size (pages s);
  Done (if decide (p2 = 2 ^ 64 - 1) then 0 else p2, set_pages ps s).

Definition liballoc_memset (p c n : Z) (s : arena P) : outcome (arena P) :=
  if decide (p = 0 /\ 0 < n) then Fault
  else Done (set_bytes (fun x => if decide (p <= x < p + n) then u8 c else bytes s x) s).

(** Words of four bytes, then the rest; the regions do not overlap. *)
Definition liballoc_memcpy (s1 s2 n : Z) (s : arena P) : outcome (arena P) :=
  if decide ((s1 = 0 \/ s2 = 0) /\ 0 < n) then Fault
  else
    let words := n / 4 * 4 in
    let b1 x := if decide (s1 <= x < s1 + words) then bytes s (s2 + (x - s1)) else bytes s x in
    let b2 x := if decide (s1 + words <= x < s1 + n) then b1 (s2 + (x - s1)) else b1 x in
    Done (set_bytes b2 s).

Definition insert_tag (tag index : Z) (s : arena P) : outcome (arena P) :=
  t ← tag_at s tag;
  let realIndex :=
    if decide (index < 0) then
      let e := getexp (u64 (tg_real t - TAG_SIZE)) in if decide (e < MINEXP) then MINEXP else e
    else index in
  s ← upd tag (with_index realIndex) s;
  head ← aget (l_freePages s) realIndex;
  s ← (if decide (head <> 0) then s ← upd head (with_prev tag) s; upd tag (with_next head) s else Done s);
  l ← aset (l_freePages s) realIndex tag;
  Done (set_free l s).

Definition remove_tag (tag : Z) (s : arena P) : outcome (arena P) :=
  t ← tag_at s tag;
  head ← aget (l_freePages s) (tg_index t);
  s ← (if decide (head = tag) then l ← aset (l_freePages s) (tg_index t) (tg_next t); Done (set_free l s) else Done s);
  s ← (if decide (tg_prev t <> 0) then upd (tg_prev t) (with_next (tg_next t)) s else Done s);
  s ← (if decide (tg_next t <> 0) then upd (tg_next t) (with_prev (tg_prev t)) s else Done s);
  upd tag (fun t => with_index (-1) (with_prev 0 (with_next 0 t))) s.

Definition melt_left (tag : Z) (s : arena P) : outcome (Z * arena P) :=
  t ← tag_at s tag;
  let left := tg_left t in
  s ← upd left (fun l => with_right (tg_right t) (with_real (u64 (tg_real l + tg_real t)) l)) s;
  s ← (if decide (tg_right t <> 0) then upd (tg_right t) (with_left left) s else Done s);
  Done (left, s).

Definition absorb_right (tag : Z) (s : arena P) : outcome (Z * arena P) :=
  t ← tag_at s tag;
  let right := tg_right t in
  s ← remove_tag right s;
  r ← tag_at s right;
  s ← upd tag (fun t => with_right (tg_right r) (with_real (u64 (tg_real t + tg_real r)) t)) s;
  s ← (if decide (tg_right r <> 0) then upd (tg_right r) (with_left tag) s else Done s);
  Done (tag, s).

(** The new tag's size and index are not set here: insert_tag sets the index,
    the malloc that takes the tag sets the size. *)
Definition split_tag (tag : Z) (s : arena P) : outcome (Z * arena P) :=
  t ← tag_at s tag;
  let remainder := u64 (tg_real t - TAG_SIZE - tg_size t) in
  let new_tag := u64 (tag + TAG_SIZE + tg_size t) in
  let s := put_tag new_tag (mk_tag LIBALLOC_MAGIC 0 remainder 0 tag (tg_right t) 0 0) s in
  s ← (if decide (tg_right t <> 0) then upd (tg_right t) (with_left new_tag) s else Done s);
  s ← upd tag (fun t => with_real (u64 (tg_real t - remainder)) (with_right new_tag t)) s;
  s ← insert_tag new_tag (-1) s;
  Done (new_tag, s).

Definition allocate_new_tag (size : Z) (s : arena P) : outcome (Z * arena P) :=
  let usage := u64 (size + TAG_SIZE) in
  let n := usage / l_pageSize + (if decide (usage mod l_pageSize <> 0) then 1 else 0) in
  let n := if decide (n < l_pageCount) then l_pageCount else n in
  '(tag, s) ← liballoc_alloc n s;
  if decide (tag = 0) then Done (0, s)
  else Done (tag, put_tag tag (mk_tag LIBALLOC_MAGIC size (u64 (n * l_pageSize)) (-1) 0 0 0 0) s).

(** ** malloc and free *)

Definition init_arena (s : arena P) : arena P :=
  if l_initialized s then s
  else mk_arena (tags s) (replicate 32 0) (replicate 32 0) true (la_lock s) (bytes s) (pages s).

(** [while(tag != NULL)]: the first tag of the list with enough space. *)
Definition find_tag (fuel : nat) (s : arena P) (tag size : Z) : outcome Z :=
  loop fuel (fun tag =>
    if decide (tag = 0) then Done (inr 0)
    else
      t ← tag_at s tag;
      if decide (u64 (size + TAG_SIZE) <= u64 (tg_real t - TAG_SIZE)) then Done (inr tag)
      else Done (inl (tg_next t))) tag.

(** The end of malloc: the tag takes the size and gives back what it can. *)
Definition finish_malloc (tag size : Z) (s : arena P) : outcome (Z * arena P) :=
  s ← upd tag (with_size size) s;
  t ← tag_at s tag;
  let remainder := u64 (tg_real t - size - TAG_SIZE * 2) in
  s ← (if decide (0 < s64 remainder /\ 0 <= getexp remainder) then '(_, s) ← split_tag tag s; Done s else Done s);
  Done (u64 (tag + TAG_SIZE), liballoc_unlock s).

Definition malloc (fuel : nat) (size : Z) (s : arena P) : outcome (Z * arena P) :=
  s ← liballoc_lock s;
  let s := init_arena s in
  let index := getexp size + MODE in
  let index := if decide (index < MINEXP) then MINEXP else index in
  head ← aget (l_freePages s) index;
  tag ← find_tag fuel s head size;
  if decide (tag = 0) then
    '(tag, s) ← allocate_new_tag size s;
    if decide (tag = 0) then Done (0, liballoc_unlock s) else finish_malloc tag size s
  else
    s ← remove_tag tag s;
    t ← tag_at s tag;
    s ← (if decide (tg_left t = 0 /\ tg_right t = 0) then
           c ← aget (l_completePages s) index; l ← aset (l_completePages s) index (s32 (c - 1)); Done (set_complete l s)
         else Done s);
    finish_malloc tag size s.

(** [tag->split_left != NULL && tag->split_left->index >= 0] *)
Definition is_free (s : arena P) (p : Z) : outcome bool :=
  if decide (p = 0) then Done false else t ← tag_at s p; Done (bool_decide (0 <= tg_index t)).

Definition melt_loop (fuel : nat) (tag : Z) (s : arena P) : outcome (Z * arena P) :=
  loop fuel (fun '(tag, s) =>
    t ← tag_at s tag;
    b ← is_free s (tg_left t);
    if (b : bool) then '(tag, s) ← melt_left tag s; s ← remove_tag tag s; Done (inl (tag, s))
    else Done (inr (tag, s))) (tag, s).

Definition absorb_loop (fuel : nat) (tag : Z) (s : arena P) : outcome (Z * arena P) :=
  loop fuel (fun '(tag, s) =>
    t ← tag_at s tag;
    b ← is_free s (tg_right t);
    if (b : bool) then '(tag, s) ← absorb_right tag s; Done (inl (tag, s))
    else Done (inr (tag, s))) (tag, s).

(** A whole block is counted; when too many are kept the code loops for ever. *)
Definition free (fuel : nat) (ptr : Z) (s : arena P) : outcome (arena P) :=
  if decide (ptr = 0) then Done s
  else
    s ← liballoc_lock s;
    let tag := u64 (ptr - TAG_SIZE) in
    t ← tag_at s tag;
    if decide (tg_magic t <> LIBALLOC_MAGIC) then Done (liballoc_unlock s)
    else
      '(tag, s) ← melt_loop fuel tag s;
      '(tag, s) ← absorb_loop fuel tag s;
      t ← tag_at s tag;
      let index := getexp (u64 (tg_real t - TAG_SIZE)) in
      let index := if decide (index < MINEXP) then MINEXP else index in
      s ← (if decide (tg_left t = 0 /\ tg_right t = 0) then
             c ← aget (l_completePages s) index;
             if decide (c = MAXCOMPLETE) then loop fuel (fun s => Done (inl (A := arena P) s)) s
             else l ← aset (l_completePages s) index (s32 (c + 1)); Done (set_complete l s)
           else Done s);
      s ← insert_tag tag index s;
      Done (liballoc_unlock s).

Definition calloc (fuel : nat) (nobj size : Z) (s : arena P) : outcome (Z * arena P) :=
  let real_size := u64 (nobj * size) in
  '(p, s) ← malloc fuel real_size s;
  s ← liballoc_memset p 0 real_size s;
  Done (p, s).

(** The tag's address is computed from the low 32 bits of the pointer. *)
Definition realloc (fuel : nat) (p size : Z) (s : arena P) : outcome (Z * arena P) :=
  if decide (size = 0) then s ← free fuel p s; Done (0, s)
  else if decide (p = 0) then malloc fuel size s
  else
    s ← liballoc_lock s;
    tag ← tag_at s (u64 (u32 p - TAG_SIZE));
    let real_size := s32 (tg_size tag) in
    let s := liballoc_unlock s in
    let real_size := if decide (size < u64 real_size) then s32 size else real_size in
    '(ptr, s) ← malloc fuel size s;
    s ← liballoc_memcpy ptr p (u64 real_size) s;
    s ← free fuel p s;
    Done (ptr, s).

(** ** Indices *)

Lemma pow2_int_8 : pow2_int 8 = 256.
Proof. reflexivity. Qed.

Lemma getexp_range size : getexp size = -1 \/ 8 <= getexp size < 32.
Proof.
  unfold getexp. case_decide; [by left|]. right.
  assert (Hloop : forall n i, 8 <= i -> i + Z.of_nat n <= 32 -> (i = 8 -> ~ size < pow2_int 8) ->
    match for_ n i (fun shift (_ : unit) =>
            if decide (size < pow2_int shift) then Done (inr (shift - 1)) else Done (inl tt)) tt with
    | Done (inr r) => 8 <= r < 32 | Done (inl _) => True | _ => False end).
  { induction n as [|n IH]; intros i Hi Hn H8; simpl; [done|]. destruct (decide (size < pow2_int i)); simpl.
    - assert (i <> 8) by (intros ->; by apply H8). lia.
    - apply IH; [lia|lia|lia]. }
  specialize (Hloop (Z.to_nat (MAXEXP - MINEXP)) MINEXP). unfold MINEXP, MAXEXP in *.
  destruct (for_ _ _ _ _) as [[|]| | |]; try lia; apply Hloop; lia.
Qed.

Lemma getexp_big size : 256 <= size -> 8 <= getexp size < 32.
Proof.
  intros Hs. destruct (getexp_range size) as [E|]; [|done]. exfalso. unfold getexp in E.
  rewrite decide_False in E by (change (pow2_int MINEXP) with 256; lia). revert E.
  pose proof (for_inv (fun i (_ : unit) => 8 <= i) (fun r => 8 <= r + 1 /\ 7 < r + 1) (Z.to_nat (MAXEXP - MINEXP)) MINEXP
    (fun shift (_ : unit) => if decide (size < pow2_int shift) then Done (inr (shift - 1)) else Done (inl tt)) tt) as Hf.
  destruct (for_ _ _ _ _) as [[|r]| | |]; try discriminate. intros ->. destruct Hf; [|by unfold MINEXP|lia].
  intros k s0 Hk Hs0. case_decide; lia.
Qed.

End Liballoc.
