(* ===== verification/Heap.v ===== *)
(** The invariant of the kernel heap (kernel/alloc/liballoc.c, modelled in
    Liballoc) and the theorems on malloc, free and realloc.

    The invariant has three parts, each over the fields it reads: [geo], the
    live tags are disjoint regions linked to their neighbours; [flists], the
    free lists hold exactly the free tags; [sizes_ok], an allocated tag has room
    for its block.  A tag is [held] while a call works on it: it is on no list,
    and its size means nothing.  [ablock] is the abstract heap: the allocated
    blocks and their sizes.  Every internal step leaves it as it is. *)
From stdpp Require Import base list gmap fin_maps fin_sets.
From Stdlib Require Import ZArith Lia.
From S2P Require Import Prelude Liballoc.

#[local] Open Scope Z_scope.

(** ** Views of a tag *)

Record gview := mk_g { g_magic : Z; g_real : Z; g_left : Z; g_right : Z }.
Definition geo_of (t : boundary_tag) : gview := mk_g (tg_magic t) (tg_real t) (tg_left t) (tg_right t).
Definition gv (m : gmap Z boundary_tag) (a : Z) : option gview := geo_of <$> m !! a.

Record lview := mk_l { i_index : Z; i_next : Z; i_prev : Z }.
Definition links_of (t : boundary_tag) : lview := mk_l (tg_index t) (tg_next t) (tg_prev t).
Definition lv (m : gmap Z boundary_tag) (a : Z) : option lview := links_of <$> m !! a.

Lemma gv_some m a t : m !! a = Some t -> gv m a = Some (geo_of t).
Proof. unfold gv. by intros ->. Qed.
Lemma lv_some m a t : m !! a = Some t -> lv m a = Some (links_of t).
Proof. unfold lv. by intros ->. Qed.
Lemma gv_insert m p t a : gv (<[p := t]> m) a = if decide (a = p) then Some (geo_of t) else gv m a.
Proof. unfold gv. case_decide as E; [subst; by rewrite lookup_insert_eq|by rewrite lookup_insert_ne]. Qed.
Lemma lv_insert m p t a : lv (<[p := t]> m) a = if decide (a = p) then Some (links_of t) else lv m a.
Proof. unfold lv. case_decide as E; [subst; by rewrite lookup_insert_eq|by rewrite lookup_insert_ne]. Qed.

(** ** Geometry *)

Record geo (g : Z -> option gview) (live : gset Z) : Prop := {
  geo_tag : forall a, a ∈ live -> exists t, g a = Some t /\ g_magic t = LIBALLOC_MAGIC /\ 0 < a /\
    TAG_SIZE <= g_real t /\ a + g_real t <= 2 ^ 64;
  geo_disjoint : forall a b t, a ∈ live -> b ∈ live -> a < b -> g a = Some t -> a + g_real t <= b;
  geo_right : forall a t, a ∈ live -> g a = Some t -> g_right t <> 0 ->
    g_right t = a + g_real t /\ g_right t ∈ live /\ exists r, g (g_right t) = Some r /\ g_left r = a;
  geo_left : forall a t, a ∈ live -> g a = Some t -> g_left t <> 0 ->
    g_left t ∈ live /\ exists l, g (g_left t) = Some l /\ g_right l = a
}.

Lemma geo_ext g g' live : geo g live -> (forall a, a ∈ live -> g' a = g a) -> geo g' live.
Proof.
  intros [G1 G2 G3 G4] E. constructor.
  - intros a Ha. rewrite E by done. by apply G1.
  - intros a b t Ha Hb Hab. rewrite E by done. by apply G2.
  - intros a t Ha. rewrite E by done. intros Ht Hr. destruct (G3 a t Ha Ht Hr) as (H1 & H2 & r & H3 & H4).
    split; [done|]. split; [done|]. exists r. by rewrite E.
  - intros a t Ha. rewrite E by done. intros Ht Hr. destruct (G4 a t Ha Ht Hr) as (H2 & r & H3 & H4).
    split; [done|]. exists r. by rewrite E.
Qed.

(** What one live tag says. *)
Lemma geo_pos g live a t : geo g live -> a ∈ live -> g a = Some t ->
  0 < a /\ TAG_SIZE <= g_real t /\ a + g_real t <= 2 ^ 64 /\ g_magic t = LIBALLOC_MAGIC.
Proof. intros G Ha Ht. destruct (geo_tag _ _ G a Ha) as (t' & Ht' & ? & ? & ? & ?). rewrite Ht in Ht'. by injection Ht' as ->. Qed.

Lemma live_del (live : gset Z) r b : b ∈ live ∖ {[r]} <-> b ∈ live /\ b <> r.
Proof. rewrite elem_of_difference, elem_of_singleton. done. Qed.

(** A tag takes over its right neighbour: melt_left and absorb_right. *)
Definition merged (g g' : Z -> option gview) (live : gset Z) (a r : Z) (ga gr : gview) : Prop :=
  forall b, b ∈ live -> b <> r ->
    g' b = if decide (b = a) then Some (mk_g (g_magic ga) (g_real ga + g_real gr) (g_left ga) (g_right gr))
           else if decide (b = g_right gr) then (fun t => mk_g (g_magic t) (g_real t) a (g_right t)) <$> g b else g b.

Section Merge.
Variables (g g' : Z -> option gview) (live : gset Z) (a r : Z) (ga gr : gview).
Hypotheses (G : geo g live) (Ha : a ∈ live) (Hr : r ∈ live) (Hga : g a = Some ga) (Hgr : g r = Some gr)
  (Hrr : g_right ga = r) (Hm : merged g g' live a r ga gr).

Lemma merge_adjacent : r = a + g_real ga /\ a < r /\ g_left gr = a /\ TAG_SIZE <= g_real gr /\ r + g_real gr <= 2 ^ 64 /\ g_magic ga = LIBALLOC_MAGIC.
Proof.
  destruct (geo_pos _ _ _ _ G Ha Hga) as (Ha0 & Hra & Hea & Hma).
  destruct (geo_pos _ _ _ _ G Hr Hgr) as (Hr0 & Hrr0 & Her & Hmr). unfold TAG_SIZE in *.
  destruct (geo_right _ _ G a ga Ha Hga ltac:(lia)) as (Hadj & _ & r' & Hr' & Hlr). rewrite Hrr in *.
  rewrite Hgr in Hr'. injection Hr' as <-. repeat split; try done; lia.
Qed.

(** The neighbour behind the pair. *)
Lemma merge_next : g_right gr <> 0 -> g_right gr = r + g_real gr /\ g_right gr ∈ live /\ g_right gr <> a /\ g_right gr <> r /\
  exists q, g (g_right gr) = Some q /\ g_left q = r.
Proof.
  intros Hne. pose proof merge_adjacent as (? & ? & _ & Hs & _). unfold TAG_SIZE in *.
  destruct (geo_right _ _ G r gr Hr Hgr Hne) as (E & Hl & q & Hgq & Hlq).
  split; [done|]. split; [done|]. split; [lia|]. split; [lia|]. by exists q.
Qed.

Lemma merge_val b t : b ∈ live -> b <> r -> g' b = Some t -> b <> a -> exists t0, g b = Some t0 /\
  g_magic t = g_magic t0 /\ g_real t = g_real t0 /\ g_right t = g_right t0 /\
  g_left t = if decide (b = g_right gr) then a else g_left t0.
Proof.
  intros Hb Hbr Ht Hba. rewrite (Hm b Hb Hbr), decide_False in Ht by done. destruct (decide (b = g_right gr)).
  - destruct (g b) as [t0|]; [|done]. simpl in Ht. injection Ht as <-. by exists t0.
  - by exists t.
Qed.

Lemma merge_self : g' a = Some (mk_g (g_magic ga) (g_real ga + g_real gr) (g_left ga) (g_right gr)).
Proof. pose proof merge_adjacent. rewrite (Hm a) by (done || lia). by rewrite decide_True. Qed.

Lemma merge_tag b : b ∈ live -> b <> r -> exists t, g' b = Some t /\ g_magic t = LIBALLOC_MAGIC /\ 0 < b /\
  TAG_SIZE <= g_real t /\ b + g_real t <= 2 ^ 64.
Proof.
  pose proof merge_adjacent as (? & ? & _ & ? & ? & _). unfold TAG_SIZE in *. intros Hb Hbr.
  destruct (geo_tag _ _ G b Hb) as (t & Ht & Hmg & Hpos & H64 & Hend). unfold TAG_SIZE in *.
  rewrite (Hm b Hb Hbr). destruct (decide (b = a)) as [->|Hba].
  - eexists. split; [done|]. simpl. rewrite Ht in Hga. injection Hga as <-. repeat split; try done; lia.
  - destruct (decide (b = g_right gr)); rewrite Ht; simpl; eexists; (split; [done|]; simpl; done).
Qed.

Lemma merge_disjoint b c t : b ∈ live -> b <> r -> c ∈ live -> c <> r -> b < c -> g' b = Some t -> b + g_real t <= c.
Proof.
  pose proof merge_adjacent as (? & ? & _). intros Hb Hbr Hc Hcr Hbc Ht. destruct (decide (b = a)) as [->|Hba].
  - rewrite merge_self in Ht. injection Ht as <-. simpl. pose proof (geo_disjoint _ _ G a c ga Ha Hc Hbc Hga) as Hd.
    pose proof (geo_disjoint _ _ G r c gr Hr Hc ltac:(lia) Hgr). lia.
  - destruct (merge_val b t Hb Hbr Ht Hba) as (t0 & Ht0 & _ & -> & _). by apply (geo_disjoint _ _ G b c t0).
Qed.

Lemma merge_right b t : b ∈ live -> b <> r -> g' b = Some t -> g_right t <> 0 ->
  g_right t = b + g_real t /\ g_right t ∈ live /\ g_right t <> r /\ exists q, g' (g_right t) = Some q /\ g_left q = b.
Proof.
  pose proof merge_adjacent as (? & ? & Hlr & _). intros Hb Hbr Ht Hne. destruct (decide (b = a)) as [->|Hba].
  - rewrite merge_self in Ht. injection Ht as <-. simpl in *. destruct (merge_next Hne) as (E & Hl & Hqa & Hqr & q & Hgq & Hlq).
    split; [lia|]. split; [done|]. split; [done|]. rewrite (Hm _ Hl Hqr), decide_False, decide_True, Hgq by done. simpl. by eexists.
  - destruct (merge_val b t Hb Hbr Ht Hba) as (t0 & Ht0 & _ & Er & Eri & _). rewrite Er, Eri in *.
    destruct (geo_right _ _ G b t0 Hb Ht0 Hne) as (E & Hl & q & Hgq & Hlq).
    assert (g_right t0 <> r). { intros Heq. rewrite Heq, Hgr in Hgq. injection Hgq as <-. congruence. }
    split; [done|]. split; [done|]. split; [done|]. rewrite (Hm _ Hl) by done. destruct (decide (g_right t0 = a)) as [Hra'|].
    + rewrite Hra', Hga in Hgq. injection Hgq as <-. eexists. by split.
    + destruct (decide (g_right t0 = g_right gr)) as [Heq|]; [|by exists q].
      exfalso. destruct (merge_next ltac:(congruence)) as (_ & _ & _ & _ & q' & Hgq' & Hlq'). rewrite <- Heq, Hgq in Hgq'.
      injection Hgq' as <-. congruence.
Qed.

Lemma merge_left b t : b ∈ live -> b <> r -> g' b = Some t -> g_left t <> 0 ->
  g_left t ∈ live /\ g_left t <> r /\ exists l, g' (g_left t) = Some l /\ g_right l = b.
Proof.
  pose proof merge_adjacent as (? & ? & Hlr & Hs & _). unfold TAG_SIZE in *. intros Hb Hbr Ht Hne. destruct (decide (b = a)) as [->|Hba].
  - rewrite merge_self in Ht. injection Ht as <-. simpl in *. destruct (geo_left _ _ G a ga Ha Hga Hne) as (Hl & l & Hgl & Hrl).
    destruct (geo_pos _ _ _ _ G Ha Hga) as (Ha0 & _).
    assert (g_left ga <> r). { intros Heq. rewrite Heq, Hgr in Hgl. injection Hgl as <-. destruct merge_next; lia. }
    assert (g_left ga <> a). { intros Heq. rewrite Heq, Hga in Hgl. injection Hgl as <-. lia. }
    split; [done|]. split; [done|]. rewrite (Hm _ Hl), decide_False by done. destruct (decide (g_left ga = g_right gr)); [|by exists l].
    rewrite Hgl. simpl. eexists. by split.
  - destruct (merge_val b t Hb Hbr Ht Hba) as (t0 & Ht0 & _ & _ & _ & El). rewrite El in *. destruct (decide (b = g_right gr)) as [Hbq|Hbq].
    + split; [done|]. split; [lia|]. rewrite merge_self. eexists. by split.
    + destruct (geo_left _ _ G b t0 Hb Ht0 Hne) as (Hl & l & Hgl & Hrl).
      assert (g_left t0 <> r). { intros Heq. rewrite Heq, Hgr in Hgl. injection Hgl as <-. congruence. }
      split; [done|]. split; [done|]. destruct (decide (g_left t0 = a)) as [Hla|Hla].
      * exfalso. rewrite Hla, Hga in Hgl. injection Hgl as <-. congruence.
      * rewrite (Hm _ Hl), decide_False by done. destruct (decide (g_left t0 = g_right gr)); [|by exists l].
        rewrite Hgl. simpl. eexists. by split.
Qed.

Lemma geo_merge : geo g' (live ∖ {[r]}).
Proof.
  constructor.
  - intros b [Hb Hbr]%live_del. by apply merge_tag.
  - intros b c t [Hb Hbr]%live_del [Hc Hcr]%live_del. by apply merge_disjoint.
  - intros b t [Hb Hbr]%live_del Ht Hne. destruct (merge_right b t Hb Hbr Ht Hne) as (? & ? & ? & ?).
    split; [done|]. split; [by apply live_del|done].
  - intros b t [Hb Hbr]%live_del Ht Hne. destruct (merge_left b t Hb Hbr Ht Hne) as (? & ? & ?).
    split; [by apply live_del|done].
Qed.
End Merge.

(** A tag is cut in two: split_tag. *)
Definition cut (g g' : Z -> option gview) (live : gset Z) (a n k : Z) (ga : gview) : Prop :=
  forall b, b ∈ live ∪ {[n]} ->
    g' b = if decide (b = n) then Some (mk_g LIBALLOC_MAGIC (g_real ga - k) a (g_right ga))
           else if decide (b = a) then Some (mk_g (g_magic ga) k (g_left ga) n)
           else if decide (b = g_right ga) then (fun t => mk_g (g_magic t) (g_real t) n (g_right t)) <$> g b else g b.

Section Cut.
Variables (g g' : Z -> option gview) (live : gset Z) (a n k : Z) (ga : gview).
Hypotheses (G : geo g live) (Ha : a ∈ live) (Hga : g a = Some ga) (Hn : n = a + k)
  (Hk : TAG_SIZE <= k) (Hk2 : TAG_SIZE <= g_real ga - k) (Hc : cut g g' live a n k ga).

Lemma cut_fresh : n ∉ live /\ 0 < a /\ a < n /\ a + g_real ga <= 2 ^ 64 /\ g_magic ga = LIBALLOC_MAGIC.
Proof.
  destruct (geo_pos _ _ _ _ G Ha Hga) as (Ha0 & Hra & Hea & Hma). unfold TAG_SIZE in *. repeat split; try done; try lia.
  intros Hin. pose proof (geo_disjoint _ _ G a n ga Ha Hin ltac:(lia) Hga). lia.
Qed.

Lemma cut_next : g_right ga <> 0 -> g_right ga = a + g_real ga /\ g_right ga ∈ live /\ g_right ga <> a /\ g_right ga <> n.
Proof.
  unfold TAG_SIZE in *. intros Hne. destruct (geo_right _ _ G a ga Ha Hga Hne) as (E & Hl & _). repeat split; try done; lia.
Qed.

Lemma cut_old b : b ∈ live -> b <> a -> g' b = if decide (b = g_right ga) then (fun t => mk_g (g_magic t) (g_real t) n (g_right t)) <$> g b else g b.
Proof.
  intros Hb Hba. pose proof cut_fresh as (Hnl & _). rewrite (Hc b) by (by apply elem_of_union_l).
  rewrite (decide_False (P := b = n)) by (by intros ->). by rewrite (decide_False (P := b = a)) by done.
Qed.

Lemma cut_val b t : b ∈ live -> g' b = Some t -> b <> a -> exists t0, g b = Some t0 /\
  g_magic t = g_magic t0 /\ g_real t = g_real t0 /\ g_right t = g_right t0 /\
  g_left t = if decide (b = g_right ga) then n else g_left t0.
Proof.
  intros Hb Ht Hba. rewrite (cut_old b Hb Hba) in Ht.
  destruct (decide (b = g_right ga)).
  - destruct (g b) as [t0|]; [|done]. simpl in Ht. injection Ht as <-. by exists t0.
  - by exists t.
Qed.

Lemma cut_new : g' n = Some (mk_g LIBALLOC_MAGIC (g_real ga - k) a (g_right ga)).
Proof. rewrite (Hc n) by (apply elem_of_union_r, elem_of_singleton; done). by rewrite decide_True. Qed.
Lemma cut_self : g' a = Some (mk_g (g_magic ga) k (g_left ga) n).
Proof. pose proof cut_fresh as (_ & _ & ? & _). rewrite (Hc a) by (by apply elem_of_union_l). by rewrite decide_False, decide_True by lia. Qed.
Lemma cut_tag b : b ∈ live -> exists t, g' b = Some t /\ g_magic t = LIBALLOC_MAGIC /\ 0 < b /\ TAG_SIZE <= g_real t /\ b + g_real t <= 2 ^ 64.
Proof.
  pose proof cut_fresh as (_ & ? & ? & ? & ?). unfold TAG_SIZE in *. intros Hb. destruct (decide (b = a)) as [->|Hba].
  - rewrite cut_self. eexists. split; [done|]. simpl. repeat split; try done; lia.
  - destruct (geo_tag _ _ G b Hb) as (t & Ht & Hrest). rewrite (cut_old b Hb Hba).
    destruct (decide (b = g_right ga)); rewrite Ht; simpl; eexists; (split; [done|]; done).
Qed.

Lemma cut_disjoint b c t : b ∈ live -> c ∈ live -> b < c -> g' b = Some t -> b + g_real t <= c.
Proof.
  unfold TAG_SIZE in *. intros Hb Hcl Hbc Ht. destruct (decide (b = a)) as [->|Hba].
  - rewrite cut_self in Ht. injection Ht as <-. simpl. pose proof (geo_disjoint _ _ G a c ga Ha Hcl Hbc Hga). lia.
  - destruct (cut_val b t Hb Ht Hba) as (t0 & Ht0 & _ & -> & _). by apply (geo_disjoint _ _ G b c t0).
Qed.

Lemma cut_disjoint_new : (forall c, c ∈ live -> n < c -> n + (g_real ga - k) <= c) /\
  (forall b t, b ∈ live -> b < n -> g' b = Some t -> b + g_real t <= n).
Proof.
  pose proof cut_fresh as (_ & ? & ? & _). unfold TAG_SIZE in *. split.
  - intros c Hcl Hnc. pose proof (geo_disjoint _ _ G a c ga Ha Hcl ltac:(lia) Hga). lia.
  - intros b t Hb Hbn Ht. destruct (decide (b = a)) as [->|Hba].
    + rewrite cut_self in Ht. injection Ht as <-. simpl. lia.
    + destruct (cut_val b t Hb Ht Hba) as (t0 & Ht0 & _ & -> & _).
      destruct (decide (b < a)); [pose proof (geo_disjoint _ _ G b a t0 Hb Ha ltac:(lia) Ht0); lia|].
      pose proof (geo_disjoint _ _ G a b ga Ha Hb ltac:(lia) Hga). lia.
Qed.

Lemma cut_right b t : b ∈ live -> g' b = Some t -> g_right t <> 0 ->
  g_right t = b + g_real t /\ g_right t ∈ live ∪ {[n]} /\ exists q, g' (g_right t) = Some q /\ g_left q = b.
Proof.
  intros Hb Ht Hne. destruct (decide (b = a)) as [->|Hba].
  - rewrite cut_self in Ht. injection Ht as <-. simpl in *. split; [done|].
    split; [apply elem_of_union_r, elem_of_singleton; done|]. rewrite cut_new. by eexists.
  - destruct (cut_val b t Hb Ht Hba) as (t0 & Ht0 & _ & Er & Eri & _). rewrite Er, Eri in *.
    destruct (geo_right _ _ G b t0 Hb Ht0 Hne) as (E & Hl & q & Hgq & Hlq). split; [done|]. split; [by apply elem_of_union_l|].
    destruct (decide (g_right t0 = a)) as [Ea|Ea].
    + rewrite Ea in *. rewrite cut_self. rewrite Hga in Hgq. injection Hgq as <-. by eexists.
    + rewrite (cut_old _ Hl Ea). destruct (decide (g_right t0 = g_right ga)) as [Heq|]; [|by exists q].
      exfalso. destruct (geo_right _ _ G a ga Ha Hga ltac:(congruence)) as (_ & _ & q' & Hq' & Hlq'). congruence.
Qed.

Lemma cut_right_new : g_right ga <> 0 ->
  g_right ga = n + (g_real ga - k) /\ g_right ga ∈ live ∪ {[n]} /\ exists q, g' (g_right ga) = Some q /\ g_left q = n.
Proof.
  intros Hne. destruct (cut_next Hne) as (E & Hl & Hqa & Hqn). split; [lia|]. split; [by apply elem_of_union_l|].
  rewrite (cut_old _ Hl Hqa), decide_True by done. destruct (geo_tag _ _ G _ Hl) as (q & -> & _). simpl. by eexists.
Qed.

Lemma cut_left b t : b ∈ live -> g' b = Some t -> g_left t <> 0 ->
  g_left t ∈ live ∪ {[n]} /\ exists l, g' (g_left t) = Some l /\ g_right l = b.
Proof.
  pose proof cut_fresh as (_ & Ha0 & ? & _). intros Hb Ht Hne.
  assert (Hgen : forall t0, g b = Some t0 -> g_left t0 <> 0 -> b <> g_right ga -> g_left t0 ∈ live ∪ {[n]} /\ exists l, g' (g_left t0) = Some l /\ g_right l = b).
  { intros t0 Ht0 Hl0 Hbq. destruct (geo_left _ _ G b t0 Hb Ht0 Hl0) as (Hl & l & Hgl & Hrl). split; [by apply elem_of_union_l|].
    assert (g_left t0 <> a). { intros Ea. rewrite Ea, Hga in Hgl. injection Hgl as <-. congruence. }
    rewrite (cut_old _ Hl) by done. destruct (decide _); [rewrite Hgl; simpl; by eexists|by exists l]. }
  destruct (decide (b = a)) as [->|Hba].
  - rewrite cut_self in Ht. injection Ht as <-. simpl in *. apply Hgen; [done|done|].
    intros Eq. destruct (geo_right _ _ G a ga Ha Hga ltac:(lia)) as (E & _). unfold TAG_SIZE in *. lia.
  - destruct (cut_val b t Hb Ht Hba) as (t0 & Ht0 & _ & _ & _ & El). rewrite El in *. destruct (decide (b = g_right ga)) as [Hbq|Hbq].
    + split; [apply elem_of_union_r, elem_of_singleton; done|]. rewrite cut_new. by eexists.
    + by apply Hgen.
Qed.

Lemma geo_cut : geo g' (live ∪ {[n]}).
Proof.
  pose proof cut_fresh as (Hnl & Ha0 & Han & Hend & _). pose proof cut_disjoint_new as [D1 D2]. unfold TAG_SIZE in *. constructor.
  - intros b [Hb|Hb%elem_of_singleton]%elem_of_union; [by apply cut_tag|subst b].
    rewrite cut_new. eexists. split; [done|]. simpl. unfold TAG_SIZE. repeat split; try done; lia.
  - intros b c t [Hb|Hb%elem_of_singleton]%elem_of_union [Hcl|Hcl%elem_of_singleton]%elem_of_union Hbc Ht; try subst b; try subst c.
    + by apply (cut_disjoint b c t).
    + by apply (D2 b t).
    + rewrite cut_new in Ht. injection Ht as <-. simpl. by apply D1.
    + lia.
  - intros b t [Hb|Hb%elem_of_singleton]%elem_of_union Ht Hne; [by apply cut_right|subst b].
    rewrite cut_new in Ht. injection Ht as <-. simpl in *. by apply cut_right_new.
  - intros b t [Hb|Hb%elem_of_singleton]%elem_of_union Ht Hne; [by apply cut_left|subst b].
    rewrite cut_new in Ht. injection Ht as <-. simpl in *. split; [by apply elem_of_union_l|]. rewrite cut_self. by eexists.
Qed.
End Cut.

(** A new region. *)
Lemma geo_new g g' live a real : geo g live -> 0 < a -> TAG_SIZE <= real -> a + real <= 2 ^ 64 ->
  (forall b t, b ∈ live -> g b = Some t -> b + g_real t <= a \/ a + real <= b) ->
  g' a = Some (mk_g LIBALLOC_MAGIC real 0 0) -> (forall b, b ∈ live -> g' b = g b) -> geo g' (live ∪ {[a]}).
Proof.
  intros G Ha Hr He Hd Hn Ho. constructor.
  - intros b [Hb|Hb%elem_of_singleton]%elem_of_union; [rewrite Ho by done; by apply (geo_tag _ _ G)|subst b]. eexists. split; [done|]. done.
  - intros b c t [Hb|Hb%elem_of_singleton]%elem_of_union [Hc|Hc%elem_of_singleton]%elem_of_union Hbc Ht; try subst b; try subst c.
    + rewrite Ho in Ht by done. by apply (geo_disjoint _ _ G b c t).
    + rewrite Ho in Ht by done. destruct (Hd b t Hb Ht); unfold TAG_SIZE in *; lia.
    + rewrite Hn in Ht. injection Ht as <-. simpl. destruct (geo_tag _ _ G c Hc) as (tc & Htc & _ & _ & H64 & _).
      destruct (Hd c tc Hc Htc); unfold TAG_SIZE in *; lia.
    + lia.
  - intros b t [Hb|Hb%elem_of_singleton]%elem_of_union Ht Hne.
    + rewrite Ho in Ht by done. destruct (geo_right _ _ G b t Hb Ht Hne) as (E & Hl & q & Hq & Hlq).
      split; [done|]. split; [by apply elem_of_union_l|]. exists q. by rewrite Ho.
    + subst b. rewrite Hn in Ht. by injection Ht as <-.
  - intros b t [Hb|Hb%elem_of_singleton]%elem_of_union Ht Hne.
    + rewrite Ho in Ht by done. destruct (geo_left _ _ G b t Hb Ht Hne) as (Hl & q & Hq & Hlq).
      split; [by apply elem_of_union_l|]. exists q. by rewrite Ho.
    + subst b. rewrite Hn in Ht. by injection Ht as <-.
Qed.

(** ** The free lists *)

Definition first (xs : list Z) (d : Z) : Z := match xs with [] => d | x :: _ => x end.
Definition final (pp : Z) (xs : list Z) : Z := default pp (last xs).

(** A doubly-linked list of tags: the addresses [xs] between the neighbours
    [pp] and [qn]. *)
Fixpoint fseg (v : Z -> option lview) (pp : Z) (xs : list Z) (qn : Z) : Prop :=
  match xs with
  | [] => True
  | x :: xs' => (exists t, v x = Some t /\ i_prev t = pp /\ i_next t = first xs' qn) /\ fseg v x xs' qn
  end.

(** [f i] is the list of index [i]. *)
Record flists (v : Z -> option lview) (live held : gset Z) (fp : list Z) (f : Z -> list Z) : Prop := {
  fl_len : length fp = 32%nat;
  fl_head : forall i, 0 <= i < 32 -> fp !! Z.to_nat i = Some (first (f i) 0);
  fl_seg : forall i, 0 <= i < 32 -> fseg v 0 (f i) 0;
  fl_nodup : forall i, 0 <= i < 32 -> NoDup (f i);
  fl_in : forall i a, 0 <= i < 32 -> (a ∈ f i <-> a ∈ live /\ a ∉ held /\ exists t, v a = Some t /\ i_index t = i);
  fl_index : forall a t, a ∈ live -> a ∉ held -> v a = Some t -> i_index t = -1 \/ 0 <= i_index t < 32;
  fl_off : forall a t, a ∈ live -> v a = Some t -> a ∈ held \/ i_index t = -1 -> i_next t = 0 /\ i_prev t = 0;
  fl_held : held ⊆ live
}.

Lemma first_app xs ys d : first (xs ++ ys) d = first xs (first ys d).
Proof. by destruct xs. Qed.
Lemma final_app pp xs ys : final pp (xs ++ ys) = final (final pp xs) ys.
Proof. unfold final. rewrite last_app. destruct (last ys); [done|]. by destruct (last xs). Qed.
Lemma final_cons pp x xs : final pp (x :: xs) = final x xs.
Proof. unfold final. rewrite last_cons. by destruct (last xs). Qed.

Lemma fseg_app v pp xs ys qn : fseg v pp (xs ++ ys) qn <-> fseg v pp xs (first ys qn) /\ fseg v (final pp xs) ys qn.
Proof.
  revert pp. induction xs as [|x xs IH]; intros pp; simpl; [unfold final; simpl; tauto|].
  rewrite IH, first_app, final_cons. tauto.
Qed.

Lemma fseg_ext v v' pp xs qn : (forall x, x ∈ xs -> v' x = v x) -> fseg v pp xs qn -> fseg v' pp xs qn.
Proof.
  revert pp. induction xs as [|x xs IH]; intros pp E; [done|]. simpl. intros [(t & Ht & Hr) Hs]. split.
  - exists t. rewrite E by (apply elem_of_cons; by left). done.
  - apply IH; [|done]. intros y Hy. apply E. apply elem_of_cons. by right.
Qed.

(** The next pointer of the last entry is overwritten. *)
Lemma fseg_set_next v v' pp xs x qn qn' : NoDup (xs ++ [x]) -> fseg v pp (xs ++ [x]) qn ->
  (forall t, v x = Some t -> v' x = Some (mk_l (i_index t) qn' (i_prev t))) ->
  (forall y, y ∈ xs -> v' y = v y) -> fseg v' pp (xs ++ [x]) qn'.
Proof.
  intros Hnd Hs Hx Ho. apply fseg_app in Hs as [H1 H2]. apply fseg_app. split; [by apply (fseg_ext v)|].
  simpl in *. destruct H2 as [(t & Ht & Hp & Hn) _]. split; [|done]. rewrite (Hx t Ht). eexists. split; [done|]. done.
Qed.

(** The prev pointer of the first entry is overwritten. *)
Lemma fseg_set_prev v v' pp pp' x xs qn : NoDup (x :: xs) -> fseg v pp (x :: xs) qn ->
  (forall t, v x = Some t -> v' x = Some (mk_l (i_index t) (i_next t) pp')) ->
  (forall y, y ∈ xs -> v' y = v y) -> fseg v' pp' (x :: xs) qn.
Proof.
  intros Hnd [(t & Ht & Hp & Hn) H2] Hx Ho. split; [|by apply (fseg_ext v)]. rewrite (Hx t Ht). eexists. by split.
Qed.

Lemma flists_ext v v' live held fp f : flists v live held fp f -> (forall a, a ∈ live -> v' a = v a) -> flists v' live held fp f.
Proof.
  intros [F1 F2 F3 F4 F5 F6 F7 F8] E. constructor; try done.
  - intros i Hi. apply (fseg_ext v); [|by apply F3]. intros x Hx. apply E. by apply (F5 i x Hi) in Hx as (? & _).
  - intros i a Hi. rewrite (F5 i a Hi). split; intros (Hl & Hh & t & Ht & He); (split; [done|]; split; [done|]); exists t;
      [by rewrite E|by rewrite <- E].
  - intros a t Ha. rewrite E by done. by apply F6.
  - intros a t Ha. rewrite E by done. by apply F7.
Qed.

(** An allocated tag is taken up, a held one is let go. *)
Lemma flists_hold v live held fp f a : flists v live held fp f -> a ∈ live -> (exists t, v a = Some t /\ i_index t = -1) ->
  flists v live ({[a]} ∪ held) fp f.
Proof.
  intros [F1 F2 F3 F4 F5 F6 F7 F8] Ha (t & Ht & Hi). constructor; try done.
  - intros i b Hi'. rewrite (F5 i b Hi'), not_elem_of_union, not_elem_of_singleton. split; [|tauto].
    intros (Hl & Hh & t' & Ht' & He). split; [done|]. split; [|by exists t']. split; [|done]. intros ->. rewrite Ht in Ht'. injection Ht' as <-. lia.
  - intros b t' Hb [_ Hh]%not_elem_of_union. by apply (F6 b).
  - intros b t' Hb Ht' [[->%elem_of_singleton|Hh]%elem_of_union|He]; [|by apply (F7 b t'); [| |left]|by apply (F7 b t'); [| |right]].
    rewrite Ht in Ht'. injection Ht' as <-. apply (F7 a t); [done|done|by right].
  - intros b [->%elem_of_singleton|Hb]%elem_of_union; [done|by apply F8].
Qed.

Lemma flists_release v live held fp f a : flists v live ({[a]} ∪ held) fp f -> a ∉ held -> (exists t, v a = Some t /\ i_index t = -1) ->
  flists v live held fp f.
Proof.
  intros [F1 F2 F3 F4 F5 F6 F7 F8] Ha (t & Ht & Hi). constructor; try done.
  - intros i b Hi'. rewrite (F5 i b Hi'), not_elem_of_union, not_elem_of_singleton. split; [tauto|].
    intros (Hl & Hh & t' & Ht' & He). split; [done|]. split; [|by exists t']. split; [|done]. intros ->. rewrite Ht in Ht'. injection Ht' as <-. lia.
  - intros b t' Hb Hh Ht'. destruct (decide (b = a)) as [->|Hba]; [rewrite Ht in Ht'; injection Ht' as <-; by left|].
    apply (F6 b); [done| |done]. apply not_elem_of_union. by rewrite not_elem_of_singleton.
  - intros b t' Hb Ht' [Hh|He]; [apply (F7 b t'); [done|done|left; by apply elem_of_union_r]|by apply (F7 b t'); [| |right]].
  - intros b Hb. apply F8. by apply elem_of_union_r.
Qed.

(** A held tag vanishes; a new held tag appears. *)
Lemma flists_drop v live held fp f a : flists v live ({[a]} ∪ held) fp f -> a ∉ held -> flists v (live ∖ {[a]}) held fp f.
Proof.
  intros [F1 F2 F3 F4 F5 F6 F7 F8] Ha. constructor; try done.
  - intros i b Hi. rewrite (F5 i b Hi), live_del, not_elem_of_union, not_elem_of_singleton. tauto.
  - intros b t [Hb Hba]%live_del Hh. apply (F6 b); [done|]. apply not_elem_of_union. by rewrite not_elem_of_singleton.
  - intros b t [Hb Hba]%live_del Ht [Hh|He]; [apply (F7 b t); [done|done|left; by apply elem_of_union_r]|by apply (F7 b t); [| |right]].
  - intros b Hb. apply live_del. split; [apply F8; by apply elem_of_union_r|]. by intros ->.
Qed.

Lemma flists_add v live held fp f a : flists v live held fp f -> a ∉ live -> (exists t, v a = Some t /\ i_next t = 0 /\ i_prev t = 0) ->
  flists v (live ∪ {[a]}) ({[a]} ∪ held) fp f.
Proof.
  intros [F1 F2 F3 F4 F5 F6 F7 F8] Ha (t & Ht & Hz). constructor; try done.
  - intros i b Hi. rewrite (F5 i b Hi), not_elem_of_union, elem_of_union, elem_of_singleton. split.
    + intros (Hl & Hh & Hr). split; [by left|]. split; [|done]. split; [by intros ->|done].
    + intros ([Hl|Hl] & [Hn Hh] & Hr); [done|by subst].
  - intros b t' [Hb|Hb%elem_of_singleton]%elem_of_union [Hn Hh]%not_elem_of_union; [by apply (F6 b)|].
    exfalso. apply Hn. by apply elem_of_singleton.
  - intros b t' Hb Ht' Hor. destruct (decide (b = a)) as [->|Hba]; [rewrite Ht in Ht'; by injection Ht' as <-|].
    apply elem_of_union in Hb as [Hb|Hb%elem_of_singleton]; [|done]. apply (F7 b t' Hb Ht').
    destruct Hor as [[Hb'%elem_of_singleton|Hh]%elem_of_union|He]; [done|by left|by right].
  - intros b [Hb%elem_of_singleton|Hb]%elem_of_union; [subst; by apply elem_of_union_r, elem_of_singleton|].
    apply elem_of_union_l. by apply F8.
Qed.

(** *** Taking a tag off its list *)
Section Unlink.
Variables (v v' : Z -> option lview) (live held : gset Z) (fp fp' : list Z) (f : Z -> list Z) (a : Z) (t : lview) (ys zs : list Z).
Hypotheses (F : flists v live held fp f) (H0 : 0 ∉ live) (Ha : a ∈ live) (Hah : a ∉ held) (Hta : v a = Some t)
  (Hi : 0 <= i_index t < 32) (Hf : f (i_index t) = ys ++ a :: zs)
  (Hfp : fp' = if decide (first (f (i_index t)) 0 = a) then <[Z.to_nat (i_index t) := i_next t]> fp else fp)
  (Hv : forall b, b ∈ live -> v' b =
     if decide (b = a) then Some (mk_l (-1) 0 0)
     else if decide (b = i_prev t) then (fun u => mk_l (i_index u) (i_next t) (i_prev u)) <$> v b
     else if decide (b = i_next t) then (fun u => mk_l (i_index u) (i_next u) (i_prev t)) <$> v b else v b).

Lemma unlink_ends : i_prev t = final 0 ys /\ i_next t = first zs 0 /\ fseg v 0 ys a /\ fseg v a zs 0 /\
  NoDup ys /\ NoDup zs /\ a ∉ ys /\ a ∉ zs /\ (forall y, y ∈ ys -> y ∉ zs).
Proof.
  pose proof (fl_seg _ _ _ _ _ F _ Hi) as Hs. pose proof (fl_nodup _ _ _ _ _ F _ Hi) as Hn. rewrite Hf in Hs, Hn.
  apply fseg_app in Hs as [H1 [(u & Hu & Hp & Hx) H2]]. rewrite Hta in Hu. injection Hu as <-.
  apply NoDup_app in Hn as (N1 & N2 & N3). apply NoDup_cons in N3 as [N3 N4]. split_and!; try done.
  - intros Hay. apply (N2 a Hay). apply elem_of_cons. by left.
  - intros y Hy Hz. apply (N2 y Hy). apply elem_of_cons. by right.
Qed.

Lemma unlink_member j b : 0 <= j < 32 -> b ∈ f j -> b ∈ live /\ b <> 0 /\ b ∉ held /\ exists u, v b = Some u /\ i_index u = j.
Proof.
  intros Hj Hb. apply (fl_in _ _ _ _ _ F j b Hj) in Hb as (Hl & Hh & Hu). split; [done|]. split; [by intros ->|done].
Qed.

Lemma unlink_prev_in : i_prev t <> 0 -> exists ys', ys = ys' ++ [i_prev t].
Proof.
  destruct unlink_ends as (Hp & _). rewrite Hp. unfold final. intros Hne. destruct (last ys) as [y|] eqn:E; [|done].
  apply last_Some in E as [ys' ->]. by exists ys'.
Qed.
Lemma unlink_next_in : i_next t <> 0 -> exists zs', zs = i_next t :: zs'.
Proof. destruct unlink_ends as (_ & Hn & _). rewrite Hn. destruct zs as [|z zs']; [done|]. by exists zs'. Qed.

(** Tags of other lists, and tags inside, are not written. *)
Lemma unlink_other b : b ∈ live -> b <> a -> b <> i_prev t -> b <> i_next t -> v' b = v b.
Proof. intros Hb H1 H2 H3. by rewrite (Hv b Hb), !decide_False by done. Qed.

Lemma unlink_index b u : b ∈ live -> b <> a -> (exists w, v' b = Some w /\ i_index w = u) <-> (exists w, v b = Some w /\ i_index w = u).
Proof.
  intros Hb Hba. rewrite (Hv b Hb), (decide_False (P := b = a)) by done.
  repeat case_decide; try done; (destruct (v b) as [w|]; simpl; [|by split; intros (? & ? & _)]);
    (split; intros (? & [= <-] & <-); by eexists).
Qed.

Lemma unlink_front : fseg v' 0 ys (first zs 0).
Proof.
  destruct unlink_ends as (Hp & Hn & S1 & _ & N1 & _ & Hay & _ & Hd). destruct (snoc_cases ys) as [->|(ys' & y & E)]; [done|].
  assert (Hin : forall b, b ∈ ys -> b ∈ live /\ b <> 0).
  { intros b Hb. destruct (unlink_member _ b Hi) as (? & ? & _); [|done]. rewrite Hf. apply elem_of_app. by left. }
  assert (Ey : i_prev t = y). { rewrite Hp, E. unfold final. by rewrite last_snoc. }
  rewrite E in *. apply (fseg_set_next v v' 0 ys' y a); [done|done| |].
  - intros u Hu. destruct (Hin y) as [Hy _]; [apply elem_of_app; right; apply elem_of_cons; by left|].
    rewrite (Hv y Hy), decide_False, decide_True, Hu by (done || intros ->; apply Hay, elem_of_app; right; apply elem_of_cons; by left).
    simpl. by rewrite Hn.
  - intros b Hb. assert (Hby : b ∈ ys' ++ [y]) by (apply elem_of_app; by left). destruct (Hin b Hby) as [Hbl Hb0].
    apply unlink_other; [done|by intros ->| |].
    + rewrite Ey. intros ->. apply NoDup_app in N1 as (_ & N & _). apply (N y Hb). apply elem_of_cons. by left.
    + intros Eb. rewrite Hn in Eb. destruct zs as [|z zs']; [done|]. simpl in Eb. apply (Hd b Hby). rewrite Eb. apply elem_of_cons. by left.
Qed.

Lemma unlink_back : fseg v' (final 0 ys) zs 0.
Proof.
  destruct unlink_ends as (Hp & Hn & _ & S2 & _ & N2 & _ & Haz & Hd).
  assert (Hz : zs = [] \/ exists z zs', zs = z :: zs') by (destruct zs; eauto).
  destruct Hz as [->|(z & zs' & E)]; [done|]. rewrite E in Hn. simpl in Hn.
  assert (Hin : forall b, b ∈ zs -> b ∈ live /\ b <> 0).
  { intros b Hb. destruct (unlink_member _ b Hi) as (? & ? & _); [|done]. rewrite Hf. apply elem_of_app. right. apply elem_of_cons. by right. }
  assert (Hnp : forall b, b ∈ zs -> b <> i_prev t).
  { intros b Hb Eb. destruct (Hin b Hb) as [_ Hb0]. destruct unlink_prev_in as [ys' Ey]; [by rewrite <- Eb|].
    apply (Hd b); [|done]. rewrite Ey, Eb. apply elem_of_app. right. apply elem_of_cons. by left. }
  rewrite E in S2, N2, Haz |- *. apply (fseg_set_prev v v' a (final 0 ys) z zs' 0); [done|done| |].
  - intros u Hu. assert (Hz : z ∈ zs) by (rewrite E; apply elem_of_cons; by left). destruct (Hin z Hz) as [Hzl _].
    rewrite (Hv z Hzl), decide_False by (intros ->; apply Haz, elem_of_cons; by left). rewrite decide_False by (by apply Hnp).
    rewrite decide_True, Hu by done. simpl. by rewrite Hp.
  - intros b Hb. assert (Hbz : b ∈ zs) by (rewrite E; apply elem_of_cons; by right). destruct (Hin b Hbz) as [Hbl _].
    apply unlink_other; [done|intros ->; apply Haz, elem_of_cons; by right|by apply Hnp|].
    rewrite Hn. intros ->. by apply NoDup_cons in N2 as [? _].
Qed.

Lemma unlink_others j : 0 <= j < 32 -> j <> i_index t -> forall b, b ∈ f j -> v' b = v b.
Proof.
  intros Hj Hne b Hb. destruct (unlink_member j b Hj Hb) as (Hbl & Hb0 & _ & u & Hu & Hiu).
  assert (Hnf : b ∉ f (i_index t)).
  { intros Hin. destruct (unlink_member _ b Hi Hin) as (_ & _ & _ & u' & Hu' & Hi'). congruence. }
  rewrite Hf in Hnf. apply not_elem_of_app in Hnf as [Hy Hz]. apply not_elem_of_cons in Hz as [Hba Hz].
  apply unlink_other; [done|done| |].
  - intros Eb. destruct unlink_prev_in as [ys' Ey]; [by rewrite <- Eb|]. apply Hy. rewrite Ey, Eb. apply elem_of_app. right. apply elem_of_cons. by left.
  - intros Eb. destruct unlink_next_in as [zs' Ez]; [by rewrite <- Eb|]. apply Hz. rewrite Ez, Eb. apply elem_of_cons. by left.
Qed.

Lemma unlink_head : fp' !! Z.to_nat (i_index t) = Some (first (ys ++ zs) 0) /\
  (forall j, 0 <= j < 32 -> j <> i_index t -> fp' !! Z.to_nat j = fp !! Z.to_nat j) /\ length fp' = 32%nat.
Proof.
  destruct unlink_ends as (_ & Hn & _ & _ & _ & _ & Hay & _). pose proof (fl_len _ _ _ _ _ F) as Hl. rewrite Hfp. split_and!.
  - case_decide as E; rewrite Hf in E.
    + rewrite list_lookup_insert_eq by (rewrite Hl; lia). rewrite Hn. destruct ys as [|y ys']; [done|].
      simpl in E. subst. exfalso. apply Hay. apply elem_of_cons. by left.
    + rewrite (fl_head _ _ _ _ _ F _ Hi), Hf. by destruct ys.
  - intros j Hj Hne. case_decide; [|done]. apply list_lookup_insert_ne. lia.
  - case_decide; [|done]. by rewrite length_insert.
Qed.

Lemma flists_unlink : flists v' live ({[a]} ∪ held) fp' (fun j => if decide (j = i_index t) then ys ++ zs else f j).
Proof.
  destruct unlink_ends as (_ & _ & _ & _ & N1 & N2 & Hay & Haz & Hd). destruct unlink_head as (U1 & U2 & U3).
  assert (Hself : v' a = Some (mk_l (-1) 0 0)) by (rewrite (Hv a Ha); by rewrite decide_True).
  constructor; try done.
  - intros j Hj. destruct (decide (j = i_index t)) as [E|E]; [by rewrite E, U1|]. rewrite U2 by done. by apply (fl_head _ _ _ _ _ F).
  - intros j Hj. destruct (decide (j = i_index t)) as [E|E]; [apply fseg_app; split; [apply unlink_front|apply unlink_back]|].
    apply (fseg_ext v); [by apply unlink_others|by apply (fl_seg _ _ _ _ _ F)].
  - intros j Hj. destruct (decide (j = i_index t)) as [E|E]; [apply NoDup_app; split_and!; try done|by apply (fl_nodup _ _ _ _ _ F)].
  - intros j b Hj. rewrite not_elem_of_union, not_elem_of_singleton.
    destruct (decide (b = a)) as [->|Hba].
    { split; [|tauto]. destruct (decide (j = i_index t)) as [E|E]; [intros [?|?]%elem_of_app; done|].
      intros Hin. destruct (unlink_member j a Hj Hin) as (_ & _ & _ & u & Hu & Hiu). congruence. }
    assert (Hiff : b ∈ (if decide (j = i_index t) then ys ++ zs else f j) <-> b ∈ f j).
    { destruct (decide (j = i_index t)) as [E|E]; [|done]. rewrite E, Hf, !elem_of_app, elem_of_cons. tauto. }
    rewrite Hiff, (fl_in _ _ _ _ _ F j b Hj). split.
    + intros (Hl & Hh & Hu). split; [done|]. split; [done|]. by apply unlink_index.
    + intros (Hl & [_ Hh] & Hu). split; [done|]. split; [done|]. by apply unlink_index.
  - intros b u Hb [Hba Hh]%not_elem_of_union Hu. rewrite not_elem_of_singleton in Hba.
    destruct (proj1 (unlink_index b (i_index u) Hb Hba)) as (w & Hw & <-); [by exists u|]. by apply (fl_index _ _ _ _ _ F b).
  - intros b u Hb Hu Hor. destruct (decide (b = a)) as [->|Hba]; [rewrite Hself in Hu; by injection Hu as <-|].
    destruct (proj1 (unlink_index b (i_index u) Hb Hba)) as (w & Hw & Ei); [by exists u|].
    assert (Hoff : b ∈ held \/ i_index w = -1). { rewrite Ei. destruct Hor as [[Hs%elem_of_singleton|Hh]%elem_of_union|Hm]; [done|by left|by right]. }
    assert (Hnf : b ∉ f (i_index t)).
    { intros Hin. destruct (unlink_member _ b Hi Hin) as (_ & _ & Hnh & w' & Hw' & Hiw'). rewrite Hw in Hw'. injection Hw' as <-.
      destruct Hoff; [done|lia]. }
    rewrite Hf in Hnf. apply not_elem_of_app in Hnf as [Hy Hz]. apply not_elem_of_cons in Hz as [_ Hz].
    assert (b <> 0) by (by intros ->). assert (Hsame : v' b = v b).
    { apply unlink_other; [done|done| |].
      - intros Eb. destruct unlink_prev_in as [ys' Ey]; [by rewrite <- Eb|]. apply Hy. rewrite Ey, Eb. apply elem_of_app. right. apply elem_of_cons. by left.
      - intros Eb. destruct unlink_next_in as [zs' Ez]; [by rewrite <- Eb|]. apply Hz. rewrite Ez, Eb. apply elem_of_cons. by left. }
    rewrite Hsame, Hw in Hu. injection Hu as <-. by apply (fl_off _ _ _ _ _ F b w).
  - intros b [Hb%elem_of_singleton|Hb]%elem_of_union; [by subst|by apply (fl_held _ _ _ _ _ F)].
Qed.
End Unlink.

(** *** Putting a held tag on a list *)
Section Link.
Variables (v v' : Z -> option lview) (live held : gset Z) (fp : list Z) (f : Z -> list Z) (a i : Z).
Hypotheses (F : flists v live ({[a]} ∪ held) fp f) (H0 : 0 ∉ live) (Hah : a ∉ held) (Hi : 0 <= i < 32)
  (Hself : v' a = Some (mk_l i (first (f i) 0) 0))
  (Hv : forall b, b ∈ live -> b <> a ->
     v' b = if decide (b = first (f i) 0) then (fun u => mk_l (i_index u) (i_next u) a) <$> v b else v b).

Lemma link_live : a ∈ live.
Proof. apply (fl_held _ _ _ _ _ F), elem_of_union_l, elem_of_singleton. done. Qed.

Lemma link_out j : 0 <= j < 32 -> a ∉ f j.
Proof.
  intros Hj Hin. apply (fl_in _ _ _ _ _ F j a Hj) in Hin as (_ & Hn & _). apply Hn, elem_of_union_l, elem_of_singleton. done.
Qed.

Lemma link_member j b : 0 <= j < 32 -> b ∈ f j -> b ∈ live /\ b <> 0 /\ b <> a /\ exists u, v b = Some u /\ i_index u = j.
Proof.
  intros Hj Hb. assert (b <> a) by (intros ->; by apply (link_out j)).
  apply (fl_in _ _ _ _ _ F j b Hj) in Hb as (Hl & Hh & Hu). split; [done|]. split; [by intros ->|done].
Qed.

Lemma link_index b u : b ∈ live -> b <> a -> (exists w, v' b = Some w /\ i_index w = u) <-> (exists w, v b = Some w /\ i_index w = u).
Proof.
  intros Hb Hba. rewrite (Hv b Hb Hba). destruct (decide (b = first (f i) 0)); [|done].
  destruct (v b) as [w|]; simpl; [|by split; intros (? & ? & _)]. split; intros (? & [= <-] & <-); by eexists.
Qed.

Lemma link_head_in : first (f i) 0 <> 0 -> exists zs, f i = first (f i) 0 :: zs.
Proof. destruct (f i) as [|z zs]; [done|]. by exists zs. Qed.

Lemma link_other b : b ∈ live -> b <> a -> b ∉ f i -> v' b = v b.
Proof.
  intros Hb Hba Hn. rewrite (Hv b Hb Hba). destruct (decide (b = first (f i) 0)) as [E|]; [|done]. exfalso. apply Hn.
  assert (b <> 0) by (by intros ->). destruct link_head_in as [zs Ez]; [congruence|]. rewrite Ez, <- E. apply elem_of_cons. by left.
Qed.

Lemma link_seg : fseg v' 0 (a :: f i) 0.
Proof.
  split; [by eexists|]. pose proof (fl_seg _ _ _ _ _ F i Hi) as Hs. pose proof (fl_nodup _ _ _ _ _ F i Hi) as Hn.
  assert (Hm : forall b, b ∈ f i -> b ∈ live /\ b <> a) by (intros b Hb; destruct (link_member i b Hi Hb) as (? & _ & ? & _); done).
  destruct (f i) as [|z zs]; [done|]. apply (fseg_set_prev v v' 0 a z zs 0); [done|done| |].
  - intros u Hu. destruct (Hm z) as [Hz Hza]; [apply elem_of_cons; by left|]. rewrite (Hv z Hz Hza). simpl. rewrite decide_True by done. by rewrite Hu.
  - intros b Hb. destruct (Hm b) as [Hbl Hba]; [apply elem_of_cons; by right|]. rewrite (Hv b Hbl Hba). simpl.
    apply NoDup_cons in Hn as [Hz _]. rewrite decide_False; [done|]. by intros ->.
Qed.

Lemma flists_link : flists v' live held (<[Z.to_nat i := a]> fp) (fun j => if decide (j = i) then a :: f i else f j).
Proof.
  constructor.
  - rewrite length_insert. apply (fl_len _ _ _ _ _ F).
  - intros j Hj. destruct (decide (j = i)) as [->|E].
    + rewrite list_lookup_insert_eq; [done|]. rewrite (fl_len _ _ _ _ _ F). lia.
    + rewrite list_lookup_insert_ne by lia. by apply (fl_head _ _ _ _ _ F).
  - intros j Hj. destruct (decide (j = i)) as [->|E]; [apply link_seg|]. apply (fseg_ext v); [|by apply (fl_seg _ _ _ _ _ F)].
    intros b Hb. destruct (link_member j b Hj Hb) as (Hl & _ & Hba & u & Hu & Hiu). apply link_other; [done|done|].
    intros Hin. destruct (link_member i b Hi Hin) as (_ & _ & _ & u' & Hu' & Hiu'). congruence.
  - intros j Hj. destruct (decide (j = i)) as [->|E]; [|by apply (fl_nodup _ _ _ _ _ F)].
    apply NoDup_cons. split; [by apply link_out|by apply (fl_nodup _ _ _ _ _ F)].
  - intros j b Hj. destruct (decide (b = a)) as [->|Hba].
    + split.
      * intros Hin. split; [apply link_live|]. split; [done|]. destruct (decide (j = i)) as [->|E]; [by eexists|]. by apply link_out in Hin.
      * intros (_ & _ & u & Hu & Hiu). rewrite Hself in Hu. injection Hu as <-. simpl in Hiu.
        rewrite decide_True by done. apply elem_of_cons. by left.
    + assert (Hiff : b ∈ (if decide (j = i) then a :: f i else f j) <-> b ∈ f j).
      { destruct (decide (j = i)) as [->|E]; [|done]. rewrite elem_of_cons. tauto. }
      rewrite Hiff, (fl_in _ _ _ _ _ F j b Hj), not_elem_of_union, not_elem_of_singleton. split.
      * intros (Hl & [_ Hh] & Hu). split; [done|]. split; [done|]. by apply link_index.
      * intros (Hl & Hh & Hu). split; [done|]. split; [done|]. by apply link_index.
  - intros b u Hb Hh Hu. destruct (decide (b = a)) as [->|Hba]; [rewrite Hself in Hu; injection Hu as <-; by right|].
    destruct (proj1 (link_index b (i_index u) Hb Hba)) as (w & Hw & <-); [by exists u|]. apply (fl_index _ _ _ _ _ F b); [done| |done].
    apply not_elem_of_union. by rewrite not_elem_of_singleton.
  - intros b u Hb Hu Hor. destruct (decide (b = a)) as [->|Hba].
    { rewrite Hself in Hu. injection Hu as <-. simpl in Hor. destruct Hor; [done|lia]. }
    destruct (proj1 (link_index b (i_index u) Hb Hba)) as (w & Hw & Ei); [by exists u|].
    assert (Hnf : b ∉ f i).
    { intros Hin. pose proof Hin as Hin'. apply (fl_in _ _ _ _ _ F i b Hi) in Hin' as (_ & Hnh & w' & Hw' & Hiw').
      rewrite Hw in Hw'. injection Hw' as <-. destruct Hor as [Hh|Hm]; [apply Hnh; by apply elem_of_union_r|lia]. }
    rewrite link_other in Hu by done. apply (fl_off _ _ _ _ _ F b u Hb Hu). destruct Hor as [Hh|Hm]; [left; by apply elem_of_union_r|by right].
  - intros b Hb. apply (fl_held _ _ _ _ _ F). by apply elem_of_union_r.
Qed.
End Link.

(** ** Operations on the lists *)

Definition sv (m : gmap Z boundary_tag) (a : Z) : option Z := tg_size <$> m !! a.
Definition xv (m : gmap Z boundary_tag) (a : Z) : option Z := tg_index <$> m !! a.

Lemma sv_insert m p t a : sv (<[p := t]> m) a = if decide (a = p) then Some (tg_size t) else sv m a.
Proof. unfold sv. case_decide as E; [subst; by rewrite lookup_insert_eq|by rewrite lookup_insert_ne]. Qed.
Lemma xv_insert m p t a : xv (<[p := t]> m) a = if decide (a = p) then Some (tg_index t) else xv m a.
Proof. unfold xv. case_decide as E; [subst; by rewrite lookup_insert_eq|by rewrite lookup_insert_ne]. Qed.
Lemma sv_some m a t : m !! a = Some t -> sv m a = Some (tg_size t).
Proof. unfold sv. by intros ->. Qed.
Lemma xv_some m a t : m !! a = Some t -> xv m a = Some (tg_index t).
Proof. unfold xv. by intros ->. Qed.
Lemma xv_lv m a : xv m a = i_index <$> lv m a.
Proof. unfold xv, lv. by destruct (m !! a). Qed.

Section Ops.
Context {P : Type} {PS : PageSource P}.

(** What the list operations leave alone. *)
Definition frame (s s' : arena P) : Prop :=
  l_completePages s' = l_completePages s /\ l_initialized s' = l_initialized s /\ la_lock s' = la_lock s /\
  bytes s' = bytes s /\ pages s' = pages s.
(** ... and, of the tags, geometry and sizes. *)
Definition same_shape (s s' : arena P) : Prop :=
  (forall b, gv (tags s') b = gv (tags s) b) /\ (forall b, sv (tags s') b = sv (tags s) b) /\ frame s s'.

#[export] Instance frame_preorder : PreOrder frame.
Proof. split; [done|]. intros s1 s2 s3. unfold frame. intros (? & ? & ? & ? & ?) (? & ? & ? & ? & ?). split_and!; congruence. Qed.
#[export] Instance same_shape_preorder : PreOrder same_shape.
Proof.
  split; [done|]. intros s1 s2 s3 (A1 & A2 & A3) (B1 & B2 & B3). split_and!; [congruence|congruence|by etrans].
Qed.

Lemma upd_run p f (s : arena P) t : tags s !! p = Some t -> upd p f s = Done (put_tag p (f t) s).
Proof. intros E. unfold upd, tag_at. by rewrite E. Qed.

(** A store to a link of one tag. *)
Lemma put_shape p (s : arena P) t t' : tags s !! p = Some t -> geo_of t' = geo_of t -> tg_size t' = tg_size t ->
  same_shape s (put_tag p t' s).
Proof.
  intros E Eg Es. unfold same_shape, put_tag, set_tags. simpl. split_and!; [| |done].
  - intros b. rewrite gv_insert. case_decide; [|done]. subst. by rewrite (gv_some _ _ _ E), Eg.
  - intros b. rewrite sv_insert. case_decide; [|done]. subst. by rewrite (sv_some _ _ _ E), Es.
Qed.

(** A conditional store to a link. *)
Definition maybe (c : bool) (p : Z) (f : boundary_tag -> boundary_tag) (s : arena P) : outcome (arena P) :=
  if c then upd p f s else Done s.

Lemma store_link p f (s : arena P) : (p <> 0 -> is_Some (tags s !! p)) ->
  (forall t, geo_of (f t) = geo_of t /\ tg_size (f t) = tg_size t) ->
  exists s', (if decide (p <> 0) then upd p f s else Done s) = Done s' /\ same_shape s s' /\ l_freePages s' = l_freePages s /\
    (forall b, b <> 0 -> tags s' !! b = if decide (b = p) then f <$> tags s !! b else tags s !! b).
Proof.
  intros Hp Hf. case_decide as E.
  - destruct (Hp E) as [t Ht]. exists (put_tag p (f t) s). rewrite (upd_run _ _ _ _ Ht). split_and!; [done| |done|].
    + apply (put_shape p s t); [done|apply Hf..].
    + intros b _. simpl. case_decide; [subst; by rewrite lookup_insert_eq, Ht|by rewrite lookup_insert_ne].
  - exists s. split_and!; [done|done|done|]. intros b Hb. rewrite decide_False; [done|lia].
Qed.

Lemma remove_tag_ok (s : arena P) live held f a t :
  flists (lv (tags s)) live held (l_freePages s) f -> 0 ∉ live -> a ∈ live -> a ∉ held -> tags s !! a = Some t -> 0 <= tg_index t ->
  exists s' f', remove_tag a s = Done s' /\ flists (lv (tags s')) live ({[a]} ∪ held) (l_freePages s') f' /\ same_shape s s' /\
    xv (tags s') a = Some (-1) /\ (forall b, b ∈ live -> b <> a -> xv (tags s') b = xv (tags s) b).
Proof.
  intros F H0 Ha Hh Ht Hi0. assert (Hlt : lv (tags s) a = Some (links_of t)) by (by apply lv_some).
  assert (Hi : 0 <= i_index (links_of t) < 32). { destruct (fl_index _ _ _ _ _ F a _ Ha Hh Hlt) as [E|]; [simpl in E; lia|done]. }
  assert (Hin : a ∈ f (i_index (links_of t))) by (apply (fl_in _ _ _ _ _ F _ _ Hi); split_and!; try done; by eexists).
  apply list_elem_of_split in Hin as (ys & zs & Hf).
  destruct (unlink_ends (lv (tags s)) live held (l_freePages s) f a (links_of t) ys zs F Hlt Hi Hf) as (Hp & Hn & _ & _ & _ & _ & Hay & Haz & Hd).
  simpl in Hp, Hn, Hi, Hf.
  assert (Hmem : forall b, b ∈ ys ++ a :: zs -> is_Some (tags s !! b) /\ b <> 0).
  { intros b Hb. rewrite <- Hf in Hb. apply (fl_in _ _ _ _ _ F _ _ Hi) in Hb as (Hl & _ & u & Hu & _). split; [|by intros ->].
    unfold lv in Hu. destruct (tags s !! b); [by eexists|done]. }
  assert (Hpm : tg_prev t <> 0 -> tg_prev t ∈ ys).
  { rewrite Hp. unfold final. intros Hne. destruct (last ys) eqn:E; [|done]. apply last_Some in E as [? ->]. apply elem_of_app. right. by apply elem_of_cons; left. }
  assert (Hnm : tg_next t <> 0 -> tg_next t ∈ zs).
  { rewrite Hn. destruct zs; [done|]. intros _. by apply elem_of_cons; left. }
  pose proof (fl_len _ _ _ _ _ F) as Hlen. pose proof (fl_head _ _ _ _ _ F _ Hi) as Hhd.
  set (fp' := if decide (first (f (tg_index t)) 0 = a) then <[Z.to_nat (tg_index t) := tg_next t]> (l_freePages s) else l_freePages s).
  assert (H1 : (if decide (first (f (tg_index t)) 0 = a) then l ← aset (l_freePages s) (tg_index t) (tg_next t); Done (set_free l s) else Done s)
     = Done (set_free fp' s)).
  { unfold fp'. case_decide; [rewrite aset_in_range by (rewrite Hlen; lia); done|]. by destruct s. }
  destruct (store_link (tg_prev t) (with_next (tg_next t)) (set_free fp' s)) as (s2 & E2 & S2 & L2 & T2); [|done|].
  { intros Hne. apply Hmem. apply elem_of_app. left. by apply Hpm. }
  assert (Hnx : tg_next t <> 0 -> is_Some (tags s2 !! tg_next t)).
  { intros Hne. rewrite T2 by done. simpl. assert (is_Some (tags s !! tg_next t)) as [u Hu].
    { apply Hmem. apply elem_of_app. right. apply elem_of_cons. right. by apply Hnm. }
    rewrite Hu. destruct (decide (tg_next t = tg_prev t)); apply is_Some_alt; exact I. }
  destruct (store_link (tg_next t) (with_prev (tg_prev t)) s2) as (s3 & E3 & S3 & L3 & T3); [done|done|].
  assert (Ha0 : a <> 0) by (by intros ->).
  assert (T3a : tags s3 !! a = Some t).
  { rewrite T3, T2 by done. simpl. rewrite !decide_False; [done| |]; intros E; [apply Hay|apply Haz]; rewrite E;
      [apply Hpm; by rewrite <- E|apply Hnm; by rewrite <- E]. }
  exists (put_tag a (with_index (-1) (with_prev 0 (with_next 0 t))) s3). eexists. split_and!.
  - unfold remove_tag, tag_at. rewrite Ht. cbn [mbind outcome_bind of_option].
    rewrite (proj2 (aget_done _ _ _) (conj (proj1 Hi) Hhd)). cbn [mbind outcome_bind]. rewrite H1. cbn [mbind outcome_bind].
    rewrite E2. cbn [mbind outcome_bind]. rewrite E3. cbn [mbind outcome_bind]. by rewrite (upd_run _ _ _ _ T3a).
  - apply (flists_unlink (lv (tags s)) _ live held (l_freePages s) _ f a (links_of t) ys zs); try done.
    + simpl. rewrite L3, L2. done.
    + intros b Hb. assert (b <> 0) by (by intros ->). simpl. rewrite lv_insert. destruct (decide (b = a)) as [Eb|Eb]; [done|]. unfold lv. rewrite T3, T2 by done. simpl.
      destruct (decide (b = tg_prev t)) as [E|]; destruct (decide (b = tg_next t)) as [E'|]; try (by destruct (tags s !! b)).
      exfalso. apply (Hd b); [rewrite E; apply Hpm; congruence|rewrite E'; apply Hnm; congruence].
  - etrans; [|by apply (put_shape a s3 t)]. etrans; [|exact S3]. etrans; [|exact S2]. done.
  - simpl. rewrite xv_insert. by rewrite decide_True.
  - intros b Hb Hba. assert (b <> 0) by (by intros ->). simpl. rewrite xv_insert, decide_False by done. unfold xv. rewrite T3, T2 by done. simpl.
    destruct (decide (b = tg_prev t)), (decide (b = tg_next t)); by destruct (tags s !! b).
Qed.

Lemma insert_tag_ok (s : arena P) live held f a t index :
  flists (lv (tags s)) live ({[a]} ∪ held) (l_freePages s) f -> 0 ∉ live -> a ∉ held -> tags s !! a = Some t -> index < 32 ->
  exists s' f' i, insert_tag a index s = Done s' /\ flists (lv (tags s')) live held (l_freePages s') f' /\ same_shape s s' /\
    0 <= i /\ xv (tags s') a = Some i /\ (forall b, b ∈ live -> b <> a -> xv (tags s') b = xv (tags s) b).
Proof.
  intros F H0 Hh Ht Hix. assert (Ha : a ∈ live) by (apply (fl_held _ _ _ _ _ F), elem_of_union_l, elem_of_singleton; done).
  assert (Hlt : lv (tags s) a = Some (links_of t)) by (by apply lv_some).
  destruct (fl_off _ _ _ _ _ F a _ Ha Hlt) as [Hn0 Hp0]; [left; apply elem_of_union_l, elem_of_singleton; done|]. simpl in Hn0, Hp0.
  set (i := if decide (index < 0) then let e := getexp (u64 (tg_real t - TAG_SIZE)) in if decide (e < MINEXP) then MINEXP else e else index).
  assert (Hi : 0 <= i < 32).
  { unfold i. destruct (decide (index < 0)); [|lia]. simpl. pose proof (getexp_range (u64 (tg_real t - TAG_SIZE))). unfold MINEXP.
    destruct (decide _); lia. }
  pose proof (fl_len _ _ _ _ _ F) as Hlen. pose proof (fl_head _ _ _ _ _ F _ Hi) as Hhd. set (h := first (f i) 0) in *.
  assert (Hh0 : h <> 0 -> h ∈ live /\ h <> a /\ is_Some (tags s !! h)).
  { intros Hne. assert (Hin : h ∈ f i) by (unfold h in *; destruct (f i); [done|]; by apply elem_of_cons; left).
    apply (fl_in _ _ _ _ _ F _ _ Hi) in Hin as (Hl & Hnh & u & Hu & _). split; [done|]. split.
    - intros E. apply Hnh. rewrite E. apply elem_of_union_l, elem_of_singleton. done.
    - unfold lv in Hu. destruct (tags s !! h); [by eexists|done]. }
  assert (Ha0 : a <> 0) by (by intros ->).
  set (s1 := put_tag a (with_index i t) s).
  assert (S1 : same_shape s s1) by (by apply (put_shape a s t)).
  assert (T1a : tags s1 !! a = Some (with_index i t)) by (simpl; by rewrite lookup_insert_eq).
  assert (Hbr : exists s2, (if decide (h <> 0) then s ← upd h (with_prev a) s1; upd a (with_next h) s else Done s1) = Done s2 /\
     same_shape s1 s2 /\ l_freePages s2 = l_freePages s /\ tags s2 !! a = Some (with_next h (with_index i t)) /\
     (forall b, b <> 0 -> b <> a -> tags s2 !! b = if decide (b = h) then with_prev a <$> tags s !! b else tags s !! b)).
  { destruct (decide (h <> 0)) as [E|E].
    - destruct (Hh0 E) as (_ & Hha & u & Hu). assert (Hu1 : tags s1 !! h = Some u) by (simpl; by rewrite lookup_insert_ne).
      rewrite (upd_run _ _ _ _ Hu1). cbn [mbind outcome_bind].
      assert (Ta : tags (put_tag h (with_prev a u) s1) !! a = Some (with_index i t)) by (simpl; rewrite lookup_insert_ne by done; by rewrite lookup_insert_eq).
      rewrite (upd_run _ _ _ _ Ta). eexists. split; [done|]. split_and!.
      + etrans; [by apply (put_shape h s1 u (with_prev a u))|]. by apply (put_shape a _ (with_index i t) (with_next h (with_index i t))).
      + done.
      + simpl. by rewrite lookup_insert_eq.
      + intros b Hb0 Hba. simpl. rewrite lookup_insert_ne by done. destruct (decide (b = h)) as [->|Eb]; [by rewrite lookup_insert_eq, Hu|].
        rewrite !lookup_insert_ne by done. done.
    - exists s1. assert (h = 0) by lia. split_and!; try done.
      + rewrite T1a. replace h with (tg_next t) by lia. by destruct t.
      + intros b Hb0 Hba. rewrite decide_False by lia. simpl. by rewrite lookup_insert_ne. }
  destruct Hbr as (s2 & E2 & S2 & L2 & T2a & T2). exists (set_free (<[Z.to_nat i := a]> (l_freePages s2)) s2). eexists. exists i. split_and!.
  - unfold insert_tag, tag_at. rewrite Ht. cbn [mbind outcome_bind of_option]. fold i. rewrite (upd_run _ _ _ _ Ht). cbn [mbind outcome_bind]. fold s1.
    rewrite (proj2 (aget_done (l_freePages s1) i h)) by (split; [lia|exact Hhd]). cbn [mbind outcome_bind]. rewrite E2. cbn [mbind outcome_bind].
    rewrite aset_in_range by (rewrite L2, Hlen; lia). done.
  - simpl. rewrite L2. apply (flists_link (lv (tags s)) _ live held _ f a i); try done.
    + rewrite (lv_some _ _ _ T2a). unfold links_of. simpl. unfold h. rewrite Hp0. done.
    + intros b Hb Hba. assert (b <> 0) by (by intros ->). fold h. unfold lv. rewrite T2 by done. destruct (decide (b = h)); by destruct (tags s !! b).
  - etrans; [exact S1|]. etrans; [exact S2|]. done.
  - lia.
  - simpl. by rewrite (xv_some _ _ _ T2a).
  - intros b Hb Hba. assert (b <> 0) by (by intros ->). simpl. unfold xv. rewrite T2 by done. destruct (decide (b = h)); by destruct (tags s !! b).
Qed.
End Ops.
