(* ===== verification/HeapOps.v ===== *)
(** malloc, free and realloc of the kernel heap (kernel/alloc/liballoc.c):
    each internal step keeps the heap's invariant and its abstract content
    [ablock]; malloc adds one block to it and free takes one block away. *)
From stdpp Require Import base list gmap fin_maps fin_sets.
From Stdlib Require Import ZArith Lia.
From S2P Require Import Prelude Liballoc Heap.

#[local] Open Scope Z_scope.

(** ** The invariant *)

Definition isfree (m : gmap Z boundary_tag) (a : Z) : Prop := exists i, xv m a = Some i /\ 0 <= i.

#[export] Instance isfree_dec m a : Decision (isfree m a).
Proof.
  destruct (xv m a) as [i|] eqn:E; [destruct (decide (0 <= i))|].
  - left. by exists i.
  - right. intros (j & Hj & ?). rewrite E in Hj. by injection Hj as <-.
  - right. intros (j & Hj & _). by rewrite E in Hj.
Defined.

(** No two neighbours are free. *)
Definition coal (m : gmap Z boundary_tag) (live : gset Z) : Prop :=
  forall a g, a ∈ live -> isfree m a -> gv m a = Some g -> g_right g ∈ live -> ~ isfree m (g_right g).

(** ... where [x], a tag in motion, is not looked at. *)
Definition coal_but (m : gmap Z boundary_tag) (live : gset Z) (x : Z) : Prop :=
  forall a g, a ∈ live -> a <> x -> isfree m a -> gv m a = Some g -> g_right g ∈ live -> ~ isfree m (g_right g).

Lemma coal_coal_but m live x : coal m live -> coal_but m live x.
Proof. intros C a g Ha _. by apply C. Qed.
Lemma coal_but_coal m live x : coal_but m live x -> ~ isfree m x -> coal m live.
Proof. intros C Hx a g Ha Hf. apply C; [done| |done]. by intros ->. Qed.

(** The abstract heap: the size of the block whose tag is at [b]. *)
Definition ablock (m : gmap Z boundary_tag) (live held : gset Z) (b : Z) : option Z :=
  if decide (b ∈ live /\ b ∉ held /\ xv m b = Some (-1)) then sv m b else None.

Lemma coal_weaken m m' live live' x : coal_but m live x -> live' ⊆ live ->
  (forall b, b ∈ live' -> isfree m' b -> isfree m b) ->
  (forall b g', b ∈ live' -> b <> x -> gv m' b = Some g' -> exists g, gv m b = Some g /\ g_right g = g_right g') -> coal_but m' live' x.
Proof.
  intros C Hs Hf Hg b g' Hb Hbx Hfb Hgb Hr Hfr. destruct (Hg b g' Hb Hbx Hgb) as (g & Hg' & Er).
  apply (C b g); [by apply Hs|done|by apply Hf|done|rewrite Er; by apply Hs|rewrite Er; by apply Hf].
Qed.

Lemma ablock_ext m m' live live' held held' b :
  (b ∈ live /\ b ∉ held /\ xv m b = Some (-1) <-> b ∈ live' /\ b ∉ held' /\ xv m' b = Some (-1)) ->
  (b ∈ live -> b ∈ live' -> sv m' b = sv m b) -> ablock m' live' held' b = ablock m live held b.
Proof.
  intros Hiff Hs. unfold ablock. destruct (decide _) as [H'|H'], (decide _) as [H|H]; try done; [|tauto..].
  apply Hs; [by apply H|by apply H'].
Qed.

Section Ops.
Context {P : Type} {PS : PageSource P}.

Record hbase (s : arena P) (live held : gset Z) : Prop := {
  hb_geo : geo (gv (tags s)) live;
  hb_lists : exists f, flists (lv (tags s)) live held (l_freePages s) f;
  hb_sizes : forall a g z, a ∈ live -> a ∉ held -> xv (tags s) a = Some (-1) -> gv (tags s) a = Some g ->
    sv (tags s) a = Some z -> 0 <= z /\ z + TAG_SIZE <= g_real g;
  hb_used : forall a g x, a ∈ live -> gv (tags s) a = Some g -> a <= x < a + g_real g -> ps_used (pages s) x;
  hb_complete : length (l_completePages s) = 32%nat;
  hb_init : l_initialized s = true
}.

Definition heap_inv (s : arena P) (live held : gset Z) : Prop := hbase s live held /\ coal (tags s) live.

Lemma hb_zero s live held : hbase s live held -> 0 ∉ live.
Proof. intros H Hin. destruct (geo_tag _ _ (hb_geo _ _ _ H) 0 Hin) as (? & _ & _ & ? & _). lia. Qed.

(** A live tag in memory. *)
Lemma hb_tag s live held a : hbase s live held -> a ∈ live -> exists t, tags s !! a = Some t /\ tg_magic t = LIBALLOC_MAGIC /\
  0 < a /\ TAG_SIZE <= tg_real t /\ a + tg_real t <= 2 ^ 64.
Proof.
  intros H Ha. destruct (geo_tag _ _ (hb_geo _ _ _ H) a Ha) as (g & Hg & ? & ? & ? & ?). unfold gv in Hg.
  destruct (tags s !! a) as [t|]; [|done]. simpl in Hg. injection Hg as <-. by exists t.
Qed.

Lemma hb_index s live held a t : hbase s live held -> a ∈ live -> a ∉ held -> tags s !! a = Some t ->
  tg_index t = -1 \/ 0 <= tg_index t < 32.
Proof.
  intros H Ha Hh Ht. destruct (hb_lists _ _ _ H) as [f F]. apply (fl_index _ _ _ _ _ F a (links_of t) Ha Hh). by apply lv_some.
Qed.

Lemma isfree_tag (m : gmap Z boundary_tag) a t : m !! a = Some t -> isfree m a <-> 0 <= tg_index t.
Proof.
  intros E. unfold isfree. rewrite (xv_some _ _ _ E). split; [intros (i & [= <-] & ?); done|]. intros ?. by eexists.
Qed.

Lemma is_free_ok s live held a : hbase s live held -> a = 0 \/ a ∈ live -> is_free s a = Done (bool_decide (a ∈ live /\ isfree (tags s) a)).
Proof.
  intros H Ha. unfold is_free. destruct (decide (a = 0)) as [->|Hne].
  - rewrite bool_decide_eq_false_2; [done|]. intros [Hin _]. by apply (hb_zero _ _ _ H).
  - destruct Ha as [|Ha]; [done|]. destruct (hb_tag _ _ _ a H Ha) as (t & Ht & _). unfold tag_at. rewrite Ht. simpl. f_equal.
    apply bool_decide_ext. rewrite (isfree_tag _ _ _ Ht). tauto.
Qed.

(** The neighbours of a live tag are live. *)
Lemma hb_right s live held a t : hbase s live held -> a ∈ live -> tags s !! a = Some t ->
  tg_right t = 0 \/ (tg_right t ∈ live /\ tg_right t = a + tg_real t /\ exists r, tags s !! tg_right t = Some r /\ tg_left r = a).
Proof.
  intros H Ha Ht. destruct (decide (tg_right t = 0)) as [|Hne]; [by left|right].
  destruct (geo_right _ _ (hb_geo _ _ _ H) a (geo_of t) Ha (gv_some _ _ _ Ht) Hne) as (E & Hl & g & Hg & Hgl).
  split; [done|]. split; [done|]. unfold gv in Hg. simpl in Hg. destruct (tags s !! tg_right t) as [r|]; [|done].
  injection Hg as <-. by exists r.
Qed.
Lemma hb_left s live held a t : hbase s live held -> a ∈ live -> tags s !! a = Some t ->
  tg_left t = 0 \/ (tg_left t ∈ live /\ exists l, tags s !! tg_left t = Some l /\ tg_right l = a).
Proof.
  intros H Ha Ht. destruct (decide (tg_left t = 0)) as [|Hne]; [by left|right].
  destruct (geo_left _ _ (hb_geo _ _ _ H) a (geo_of t) Ha (gv_some _ _ _ Ht) Hne) as (Hl & g & Hg & Hgl).
  split; [done|]. unfold gv in Hg. simpl in Hg. destruct (tags s !! tg_left t) as [r|]; [|done].
  injection Hg as <-. by exists r.
Qed.

(** Taking a free tag. *)
Lemma take_ok s live held a : hbase s live held -> coal_but (tags s) live a -> a ∈ live -> a ∉ held -> isfree (tags s) a ->
  exists s', remove_tag a s = Done s' /\ heap_inv s' live ({[a]} ∪ held) /\ same_shape s s' /\ xv (tags s') a = Some (-1) /\
    (forall b, b ∈ live -> b <> a -> xv (tags s') b = xv (tags s) b).
Proof.
  intros H C Ha Hh Hf. destruct (hb_tag _ _ _ a H Ha) as (t & Ht & _). destruct (hb_lists _ _ _ H) as [f F].
  destruct (remove_tag_ok s live held f a t F (hb_zero _ _ _ H) Ha Hh Ht) as (s' & f' & E & F' & S & Xa & X); [by apply (isfree_tag (tags s) a)|].
  exists s'. split; [done|]. assert (Hfr : forall b, b ∈ live -> isfree (tags s') b -> isfree (tags s) b).
  { intros b Hb (i & Hi & Hi0). destruct (decide (b = a)) as [->|Hba]; [rewrite Xa in Hi; injection Hi as <-; lia|].
    rewrite X in Hi by done. by exists i. }
  destruct S as (Sg & Ss & Sc & Si & Sl & Sb & Sp). split_and!; try done. constructor.
  - constructor; try (by rewrite ?Sc, ?Si; apply H); [|by eexists| |].
    + apply (geo_ext (gv (tags s))); [apply H|]. intros b _. apply Sg.
    + intros b g z Hb [Hba Hbh]%not_elem_of_union. rewrite not_elem_of_singleton in Hba. rewrite X, Sg, Ss by done. by apply H.
    + intros b g x. rewrite Sg, Sp. apply H.
  - apply (coal_but_coal _ _ a); [|intros (i & Hi & Hi0); rewrite Xa in Hi; injection Hi as <-; lia].
    apply (coal_weaken (tags s) _ live); [done|done|done|]. intros b g' _ _. rewrite Sg. eauto.
Qed.

(** The abstract heap does not see a free tag being taken. *)
Lemma take_ablock m m' live held a : isfree m a -> (forall b, sv m' b = sv m b) -> (forall b, b ∈ live -> b <> a -> xv m' b = xv m b) ->
  forall b, ablock m' live ({[a]} ∪ held) b = ablock m live held b.
Proof.
  intros (i & Hi & Hi0) Hs X b. apply ablock_ext; [|by intros; rewrite Hs]. rewrite not_elem_of_union, not_elem_of_singleton.
  destruct (decide (b = a)) as [->|Hba]; [rewrite Hi; split; [intros (_ & _ & [= ->]); lia|tauto]|].
  split; [intros (Hb & Hh & Hx)|intros (Hb & [_ Hh] & Hx)]; pose proof (X b Hb Hba) as Xb; (split; [done|]; split; [tauto|congruence]).
Qed.

Definition quiet (m : gmap Z boundary_tag) (live : gset Z) (a : Z) : Prop :=
  forall g, gv m a = Some g -> (g_right g ∈ live -> ~ isfree m (g_right g)) /\ (g_left g ∈ live -> ~ isfree m (g_left g)).

(** Putting a held tag on a list. *)
Lemma give_ok s live held a index : hbase s live ({[a]} ∪ held) -> coal_but (tags s) live a -> a ∉ held -> index < 32 -> quiet (tags s) live a ->
  exists s', insert_tag a index s = Done s' /\ heap_inv s' live held /\ same_shape s s' /\ isfree (tags s') a /\
    (forall b, b ∈ live -> b <> a -> xv (tags s') b = xv (tags s) b).
Proof.
  intros H C Hh Hix Hq. destruct (hb_lists _ _ _ H) as [f F].
  assert (Ha : a ∈ live) by (apply (fl_held _ _ _ _ _ F), elem_of_union_l, elem_of_singleton; done).
  destruct (hb_tag _ _ _ a H Ha) as (t & Ht & _ & _ & Hr64 & _).
  destruct (insert_tag_ok s live held f a t index F (hb_zero _ _ _ H) Hh Ht Hix) as (s' & f' & i & E & F' & S & Hi & Xa & X).
  exists s'. split; [done|]. destruct S as (Sg & Ss & Sc & Si & Sl & Sb & Sp).
  assert (Hself : forall g, gv (tags s) a = Some g -> g_right g ∈ live -> g_right g <> a).
  { intros g Hg Hrl Era. rewrite (gv_some _ _ _ Ht) in Hg. injection Hg as <-.
    destruct (hb_right _ _ _ a t H Ha Ht) as [E0|(_ & E0 & _)]; simpl in *; [|unfold TAG_SIZE in *; lia].
    apply (hb_zero _ _ _ H). by rewrite <- E0. }
  split_and!; try done; [constructor|].
  - constructor; try (by rewrite ?Sc, ?Si; apply H); [|by eexists| |].
    + apply (geo_ext (gv (tags s))); [apply H|]. intros b _. apply Sg.
    + intros b g z Hb Hbh. destruct (decide (b = a)) as [->|Hba]; [rewrite Xa; intros [= ->]; lia|].
      rewrite X, Sg, Ss by done. apply H; [done|]. apply not_elem_of_union. by rewrite not_elem_of_singleton.
    + intros b g x. rewrite Sg, Sp. apply H.
  - intros b g Hb (j & Hj & Hj0). rewrite Sg. intros Hg Hrl (k & Hk & Hk0). destruct (decide (b = a)) as [->|Hba].
    + rewrite X in Hk by (done || by apply Hself). destruct (Hq g Hg) as [Hqr _]. apply (Hqr Hrl). by exists k.
    + rewrite X in Hj by done. destruct (decide (g_right g = a)) as [Era|Era].
      * assert (Hne : g_right g <> 0) by (intros E0; apply (hb_zero _ _ _ H); by rewrite <- E0).
        destruct (geo_right _ _ (hb_geo _ _ _ H) b g Hb Hg Hne) as (_ & _ & r & Hr & Hlr). rewrite Era in Hr.
        destruct (Hq r Hr) as [_ Hql]. rewrite Hlr in Hql. apply (Hql Hb). by exists j.
      * rewrite X in Hk by done. apply (C b g Hb); [done|by exists j|done|done|by exists k].
  - exists i. by split.
Qed.

Lemma give_ablock m m' live held a : isfree m' a -> (forall b, sv m' b = sv m b) -> (forall b, b ∈ live -> b <> a -> xv m' b = xv m b) ->
  forall b, ablock m' live held b = ablock m live ({[a]} ∪ held) b.
Proof.
  intros Hf Hs X b. symmetry. apply take_ablock; [done|done|]. intros c Hc Hca. by rewrite X.
Qed.

(** ** Merging neighbours *)

(** The stores that melt_left and absorb_right share. *)
Definition merge_stores (l : Z) (tr : boundary_tag) (s : arena P) : outcome (arena P) :=
  s ← upd l (fun x => with_right (tg_right tr) (with_real (u64 (tg_real x + tg_real tr)) x)) s;
  if decide (tg_right tr <> 0) then upd (tg_right tr) (with_left l) s else Done s.

Lemma merge_run s live held l r tl tr : hbase s live held -> l ∈ live -> r ∈ live -> tags s !! l = Some tl -> tags s !! r = Some tr ->
  tg_right tl = r -> exists s', merge_stores l tr s = Done s' /\
    merged (gv (tags s)) (gv (tags s')) live l r (geo_of tl) (geo_of tr) /\
    (forall b, lv (tags s') b = lv (tags s) b) /\ (forall b, sv (tags s') b = sv (tags s) b) /\ frame s s' /\ l_freePages s' = l_freePages s.
Proof.
  intros H Hl Hr Htl Htr Err. pose proof (hb_geo _ _ _ H) as G.
  pose proof (merge_adjacent _ _ _ _ _ _ G Hl Hr (gv_some _ _ _ Htl) (gv_some _ _ _ Htr) Err) as (Hadj & Hlt & _ & Hs & Hend & _).
  simpl in *. destruct (hb_tag _ _ _ l H Hl) as (tl' & Htl' & _ & Hl0 & _). unfold TAG_SIZE in *.
  assert (Hsum : u64 (tg_real tl + tg_real tr) = tg_real tl + tg_real tr) by (apply u64_small; destruct (hb_tag _ _ _ r H Hr) as (? & ? & ? & ? & ? & ?); lia).
  unfold merge_stores. rewrite (upd_run _ _ _ _ Htl). cbn [mbind outcome_bind]. rewrite Hsum.
  set (tl2 := with_right (tg_right tr) (with_real (tg_real tl + tg_real tr) tl)).
  destruct (decide (tg_right tr <> 0)) as [Hne|Hne].
  - destruct (hb_right _ _ _ r tr H Hr Htr) as [|(Hq & Eq & q & Htq & _)]; [done|].
    assert (Hql : tg_right tr <> l) by lia.
    assert (Htq1 : tags (put_tag l tl2 s) !! tg_right tr = Some q) by (simpl; by rewrite lookup_insert_ne).
    rewrite (upd_run _ _ _ _ Htq1). eexists. split; [done|]. split_and!; try done.
    + intros b Hb Hbr. simpl. rewrite !gv_insert. destruct (decide (b = tg_right tr)) as [->|Hbq].
      * rewrite decide_False by done. by rewrite (gv_some _ _ _ Htq).
      * by destruct (decide (b = l)).
    + intros b. simpl. rewrite !lv_insert. destruct (decide (b = tg_right tr)) as [->|Hbq]; [by rewrite (lv_some _ _ _ Htq)|].
      destruct (decide (b = l)) as [->|]; [by rewrite (lv_some _ _ _ Htl)|done].
    + intros b. simpl. rewrite !sv_insert. destruct (decide (b = tg_right tr)) as [->|Hbq]; [by rewrite (sv_some _ _ _ Htq)|].
      destruct (decide (b = l)) as [->|]; [by rewrite (sv_some _ _ _ Htl)|done].
  - eexists. split; [done|]. split_and!; try done.
    + intros b Hb Hbr. simpl. rewrite !gv_insert. assert (b <> tg_right tr).
      { intros ->. apply (hb_zero _ _ _ H). by replace 0 with (tg_right tr) by lia. }
      destruct (decide (b = l)); [done|]. by rewrite decide_False.
    + intros b. simpl. rewrite !lv_insert. destruct (decide (b = l)) as [->|]; [by rewrite (lv_some _ _ _ Htl)|done].
    + intros b. simpl. rewrite !sv_insert. destruct (decide (b = l)) as [->|]; [by rewrite (sv_some _ _ _ Htl)|done].
Qed.

Lemma xv_of_lv m m' : (forall b, lv m' b = lv m b) -> forall b, xv m' b = xv m b.
Proof. intros E b. by rewrite !xv_lv, E. Qed.
Lemma isfree_of_xv m m' b : xv m' b = xv m b -> isfree m' b <-> isfree m b.
Proof. intros E. unfold isfree. by rewrite E. Qed.

Lemma merge_ok s live held l r tl tr : hbase s live ({[r]} ∪ held) -> r ∉ held -> l ∈ live -> tags s !! l = Some tl -> tags s !! r = Some tr ->
  tg_right tl = r -> exists s', merge_stores l tr s = Done s' /\ hbase s' (live ∖ {[r]}) held /\ frame s s' /\
    (forall b, xv (tags s') b = xv (tags s) b) /\ (forall b, sv (tags s') b = sv (tags s) b) /\
    (forall b g', b ∈ live -> b <> r -> b <> l -> gv (tags s') b = Some g' -> exists g, gv (tags s) b = Some g /\ g_right g = g_right g') /\
    (exists g', gv (tags s') l = Some g' /\ g_left g' = tg_left tl).
Proof.
  intros H Hrh Hl Htl Htr Err. destruct (hb_lists _ _ _ H) as [f F].
  assert (Hr : r ∈ live) by (apply (fl_held _ _ _ _ _ F), elem_of_union_l, elem_of_singleton; done).
  destruct (merge_run s live _ l r tl tr H Hl Hr Htl Htr Err) as (s' & E & Hm & L & S & (Fc & Fi & Fl & Fb & Fp) & Ffp).
  pose proof (hb_geo _ _ _ H) as G. pose proof (gv_some _ _ _ Htl) as Gl. pose proof (gv_some _ _ _ Htr) as Gr.
  pose proof (merge_adjacent _ _ _ _ _ _ G Hl Hr Gl Gr Err) as (Hadj & Hlt & _ & Hs & _). unfold TAG_SIZE in *.
  pose proof (merge_self _ _ _ _ _ _ _ G Hl Hr Gl Gr Err Hm) as Hself. pose proof (xv_of_lv _ _ L) as X.
  pose proof (merge_val _ _ _ _ _ _ _ Hm) as Hval.
  exists s'. split; [done|]. split_and!; try done.
  - constructor; try (by rewrite ?Fc, ?Fi; apply H).
    + by apply (geo_merge (gv (tags s)) _ live l r (geo_of tl) (geo_of tr)).
    + exists f. rewrite Ffp. apply flists_drop; [|done]. by apply (flists_ext (lv (tags s))).
    + intros b g z [Hb Hbr]%live_del Hbh. rewrite X, S. intros Hx Hg Hz.
      assert (Hbh' : b ∉ {[r]} ∪ held) by (apply not_elem_of_union; by rewrite not_elem_of_singleton).
      destruct (decide (b = l)) as [->|Hbl].
      * rewrite Hself in Hg. injection Hg as <-. pose proof (hb_sizes _ _ _ H l (geo_of tl) z Hl Hbh' Hx Gl Hz). unfold TAG_SIZE in *. simpl in *. lia.
      * destruct (Hval b g Hb Hbr Hg Hbl) as (g0 & Hg0 & _ & -> & _). by apply (hb_sizes _ _ _ H b g0).
    + intros b g x [Hb Hbr]%live_del Hg Hx. rewrite Fp. destruct (decide (b = l)) as [->|Hbl].
      * rewrite Hself in Hg. injection Hg as <-. simpl in *. destruct (decide (x < r)).
        -- apply (hb_used _ _ _ H l _ x Hl Gl). simpl. lia.
        -- apply (hb_used _ _ _ H r _ x Hr Gr). simpl. lia.
      * destruct (Hval b g Hb Hbr Hg Hbl) as (g0 & Hg0 & _ & Er & _). rewrite Er in Hx. by apply (hb_used _ _ _ H b g0).
  - intros b g' Hb Hbr Hbl Hg. destruct (Hval b g' Hb Hbr Hg Hbl) as (g0 & Hg0 & _ & _ & Er & _). by exists g0.
  - eexists. split; [exact Hself|done].
Qed.

(** free works on one tag, which is on no list. *)
Definition working (s : arena P) (live : gset Z) (a : Z) : Prop :=
  heap_inv s live ({[a]} ∪ ∅) /\ xv (tags s) a = Some (-1) /\ a ∈ live.

Lemma melt_left_stores a (s : arena P) t : tags s !! a = Some t -> melt_left a s = s' ← merge_stores (tg_left t) t s; Done (tg_left t, s').
Proof. intros E. unfold melt_left, merge_stores, tag_at. rewrite E. cbn [mbind outcome_bind of_option]. by rewrite outcome_bind_assoc. Qed.

Lemma not_free_alloc m a : xv m a = Some (-1) -> ~ isfree m a.
Proof. intros E (i & Hi & Hi0). rewrite E in Hi. injection Hi as <-. lia. Qed.

Lemma melt_step_ok s live a t : working s live a -> tags s !! a = Some t -> tg_left t ∈ live -> isfree (tags s) (tg_left t) ->
  exists s1 s', melt_left a s = Done (tg_left t, s1) /\ remove_tag (tg_left t) s1 = Done s' /\ working s' (live ∖ {[a]}) (tg_left t) /\
    frame s s' /\ forall b, ablock (tags s') (live ∖ {[a]}) ({[tg_left t]} ∪ ∅) b = ablock (tags s) live ({[a]} ∪ ∅) b.
Proof.
  intros ([H C] & Xa & Ha) Ht Hl Hf. set (l := tg_left t) in *. pose proof (hb_zero _ _ _ H) as H0.
  assert (Hla : l <> a) by (intros E; rewrite E in Hf; by apply (not_free_alloc _ _ Xa)).
  destruct (hb_left _ _ _ a t H Ha Ht) as [E|(_ & tl & Htl & Err)]; [by fold l in E; rewrite E in Hl|]. fold l in Htl.
  destruct (merge_ok s live ∅ l a tl t H (not_elem_of_empty a) Hl Htl Ht Err) as (s1 & E1 & H1 & F1 & X1 & S1 & R1 & _).
  assert (Hl1 : l ∈ live ∖ {[a]}) by (by apply live_del). assert (Hf1 : isfree (tags s1) l) by (by apply (isfree_of_xv (tags s))).
  assert (C1 : coal_but (tags s1) (live ∖ {[a]}) l).
  { apply (coal_weaken (tags s) _ live); [by apply coal_coal_but|intros b Hb; by apply live_del in Hb as []| |].
    - intros b _. by apply isfree_of_xv.
    - intros b g' [Hb Hba]%live_del Hbl Hg. by apply R1. }
  destruct (take_ok s1 _ ∅ l H1 C1 Hl1 (not_elem_of_empty l) Hf1) as (s' & E2 & I2 & S2 & Xl & X2).
  exists s1, s'. split_and!; try done.
  - rewrite (melt_left_stores a s t Ht). fold l. by rewrite E1.
  - etrans; [exact F1|]. apply S2.
  - intros b. rewrite (take_ablock (tags s1) (tags s') _ ∅ l Hf1); [|apply S2|done]. apply ablock_ext; [|by intros; rewrite S1].
    rewrite X1, live_del, union_empty_r_L, not_elem_of_singleton. split; [|tauto]. intros (Hb & Hba & Hx). by split_and!.
Qed.

Lemma absorb_right_stores a (s s1 : arena P) t r : tags s !! a = Some t -> remove_tag (tg_right t) s = Done s1 -> tags s1 !! tg_right t = Some r ->
  absorb_right a s = s' ← merge_stores a r s1; Done (a, s').
Proof.
  intros E E1 Er. unfold absorb_right, merge_stores, tag_at. rewrite E. cbn [mbind outcome_bind of_option]. rewrite E1. cbn [mbind outcome_bind].
  rewrite Er. cbn [mbind outcome_bind of_option]. by rewrite outcome_bind_assoc.
Qed.

Lemma absorb_step_ok s live a t : working s live a -> tags s !! a = Some t -> tg_right t ∈ live -> isfree (tags s) (tg_right t) ->
  exists s', absorb_right a s = Done (a, s') /\ working s' (live ∖ {[tg_right t]}) a /\ frame s s' /\
    (forall b, ablock (tags s') (live ∖ {[tg_right t]}) ({[a]} ∪ ∅) b = ablock (tags s) live ({[a]} ∪ ∅) b) /\
    (exists t', tags s' !! a = Some t' /\ tg_left t' = tg_left t) /\
    (forall b, b ∈ live -> b <> tg_right t -> xv (tags s') b = xv (tags s) b).
Proof.
  intros ([H C] & Xa & Ha) Ht Hr Hf. set (r := tg_right t) in *. pose proof (hb_zero _ _ _ H) as H0.
  assert (Hra : r <> a) by (intros E; rewrite E in Hf; by apply (not_free_alloc _ _ Xa)).
  assert (Hrh : r ∉ {[a]} ∪ (∅ : gset Z)) by (rewrite union_empty_r_L; by apply not_elem_of_singleton).
  destruct (take_ok s _ _ r H (coal_coal_but _ _ _ C) Hr Hrh Hf) as (s1 & E1 & [H1 C1] & S1 & Xr & X1).
  destruct (hb_tag _ _ _ a H1 Ha) as (t1 & Ht1 & _). destruct (hb_tag _ _ _ r H1 Hr) as (r1 & Hr1 & _).
  assert (Eg : geo_of t1 = geo_of t). { pose proof (proj1 S1 a) as Eg. rewrite (gv_some _ _ _ Ht1), (gv_some _ _ _ Ht) in Eg. congruence. }
  assert (Err : tg_right t1 = r) by (unfold r; by injection Eg).
  destruct (merge_ok s1 live _ a r t1 r1 H1 Hrh Ha Ht1 Hr1 Err) as (s' & E2 & H2 & F2 & X2 & S2 & R2 & g' & Hg' & Hgl).
  assert (Xa' : xv (tags s') a = Some (-1)) by (by rewrite X2, X1).
  exists s'. split_and!; try done.
  - rewrite (absorb_right_stores a s s1 t r1 Ht E1 Hr1). by rewrite E2.
  - split; [|split; [done|]; apply live_del; split; [done|congruence]]. split; [done|]. apply (coal_but_coal _ _ a); [|by apply not_free_alloc].
    apply (coal_weaken (tags s1) _ live); [by apply coal_coal_but|intros b Hb; by apply live_del in Hb as []| |].
    + intros b _. by apply isfree_of_xv.
    + intros b g [Hb Hbr]%live_del Hba Hg. by apply R2.
  - etrans; [apply S1|exact F2].
  - intros b. rewrite <- (take_ablock (tags s) (tags s1) live _ r Hf); [|apply S1|done]. apply ablock_ext; [|by intros; rewrite S2].
    rewrite X2, live_del, (not_elem_of_union b {[r]}), (not_elem_of_singleton b r). tauto.
  - unfold gv in Hg'. destruct (tags s' !! a) as [t'|]; [|done]. injection Hg' as <-. exists t'. split; [done|]. simpl in Hgl. rewrite Hgl. by injection Eg.
  - intros b Hb Hbr. by rewrite X2, X1.
Qed.

(** *** The loops of free *)

Definition side_busy (s : arena P) (live : gset Z) (n : Z) : Prop := n ∈ live -> ~ isfree (tags s) n.

Lemma working_tag s live a : working s live a -> exists t, tags s !! a = Some t /\ (tg_left t = 0 \/ tg_left t ∈ live) /\ (tg_right t = 0 \/ tg_right t ∈ live).
Proof.
  intros ([H _] & _ & Ha). destruct (hb_tag _ _ _ a H Ha) as (t & Ht & _). exists t. split; [done|].
  split; [destruct (hb_left _ _ _ a t H Ha Ht) as [|[]]|destruct (hb_right _ _ _ a t H Ha Ht) as [|[]]]; tauto.
Qed.

Lemma melt_loop_S fuel tag (s : arena P) : melt_loop (S fuel) tag s =
  t ← tag_at s tag; b ← is_free s (tg_left t);
  if (b : bool) then '(tag, s) ← melt_left tag s; s ← remove_tag tag s; melt_loop fuel tag s else Done (tag, s).
Proof.
  unfold melt_loop. simpl. destruct (tag_at s tag) as [t| | |]; [|done..]. simpl. destruct (is_free s (tg_left t)) as [[|]| | |]; [|done..]. simpl.
  destruct (melt_left tag s) as [[l s1]| | |]; [|done..]. simpl. by destruct (remove_tag l s1).
Qed.
Lemma absorb_loop_S fuel tag (s : arena P) : absorb_loop (S fuel) tag s =
  t ← tag_at s tag; b ← is_free s (tg_right t);
  if (b : bool) then '(tag, s) ← absorb_right tag s; absorb_loop fuel tag s else Done (tag, s).
Proof.
  unfold absorb_loop. simpl. destruct (tag_at s tag) as [t| | |]; [|done..]. simpl. destruct (is_free s (tg_right t)) as [[|]| | |]; [|done..]. simpl.
  by destruct (absorb_right tag s) as [[l s1]| | |].
Qed.

Lemma melt_loop_ok fuel : forall s live a, working s live a -> (size live < fuel)%nat ->
  exists a' s' live' t', melt_loop fuel a s = Done (a', s') /\ working s' live' a' /\ (size live' <= size live)%nat /\ frame s s' /\
    (forall b, ablock (tags s') live' ({[a']} ∪ ∅) b = ablock (tags s) live ({[a]} ∪ ∅) b) /\
    tags s' !! a' = Some t' /\ side_busy s' live' (tg_left t').
Proof.
  induction fuel as [|fuel IH]; intros s live a W Hfu; [lia|]. destruct (working_tag _ _ _ W) as (t & Ht & Hl & _).
  rewrite melt_loop_S. unfold tag_at. rewrite Ht. cbn [mbind outcome_bind of_option]. rewrite (is_free_ok _ _ _ _ (proj1 (proj1 W)) Hl).
  cbn [mbind outcome_bind]. destruct (bool_decide_reflect (tg_left t ∈ live /\ isfree (tags s) (tg_left t))) as [[Hin Hf]|Hn].
  - destruct (melt_step_ok s live a t W Ht Hin Hf) as (s1 & s2 & E1 & E2 & W2 & F2 & B2). rewrite E1. cbn [mbind outcome_bind]. rewrite E2. cbn [mbind outcome_bind].
    assert (Hsz : (size (live ∖ {[a]}) < size live)%nat).
    { apply subset_size. apply subset_difference_elem_of. apply W. }
    destruct (IH s2 _ _ W2 ltac:(lia)) as (a' & s' & live' & t' & E & W' & Hs' & F' & B' & R').
    exists a', s', live', t'. split_and!; try done; [lia|by etrans|intros b; by rewrite B', B2|apply R'|apply R'].
  - exists a, s, live, t. split_and!; try done. intros Hin Hf. by apply Hn.
Qed.

Lemma absorb_loop_ok fuel : forall s live a t, working s live a -> (size live < fuel)%nat -> tags s !! a = Some t -> side_busy s live (tg_left t) ->
  exists s' live' t', absorb_loop fuel a s = Done (a, s') /\ working s' live' a /\ (size live' <= size live)%nat /\ frame s s' /\
    (forall b, ablock (tags s') live' ({[a]} ∪ ∅) b = ablock (tags s) live ({[a]} ∪ ∅) b) /\
    tags s' !! a = Some t' /\ side_busy s' live' (tg_left t') /\ side_busy s' live' (tg_right t').
Proof.
  induction fuel as [|fuel IH]; intros s live a t W Hfu Ht Hq; [lia|]. destruct (working_tag _ _ _ W) as (t0 & Ht0 & _ & Hr).
  rewrite Ht in Ht0. injection Ht0 as <-.
  rewrite absorb_loop_S. unfold tag_at. rewrite Ht. cbn [mbind outcome_bind of_option]. rewrite (is_free_ok _ _ _ _ (proj1 (proj1 W)) Hr).
  cbn [mbind outcome_bind]. destruct (bool_decide_reflect (tg_right t ∈ live /\ isfree (tags s) (tg_right t))) as [[Hin Hf]|Hn].
  - destruct (absorb_step_ok s live a t W Ht Hin Hf) as (s2 & E1 & W2 & F2 & B2 & (t2 & Ht2 & El2) & X2). rewrite E1. cbn [mbind outcome_bind].
    assert (Hsz : (size (live ∖ {[tg_right t]}) < size live)%nat) by (by apply subset_size, subset_difference_elem_of).
    assert (Hq2 : side_busy s2 (live ∖ {[tg_right t]}) (tg_left t2)).
    { rewrite El2. intros [Hl Hlr]%live_del. rewrite (isfree_of_xv (tags s)); [by apply Hq|by apply X2]. }
    destruct (IH s2 _ _ _ W2 ltac:(lia) Ht2 Hq2) as (s' & live' & t' & E & W' & Hs' & F' & B' & R').
    exists s', live', t'. split_and!; try done; [lia|by etrans|intros b; by rewrite B', B2|apply R'..].
  - exists s, live, t. split_and!; try done. intros Hin Hf. by apply Hn.
Qed.
End Ops.
