(* ===== verification/Malloc.v ===== *)
(** The theorems on malloc, free and realloc (kernel/alloc/liballoc.c): what
    each call does to the abstract heap [ablock], over the steps of HeapOps. *)
From stdpp Require Import base list gmap fin_maps fin_sets.
From Stdlib Require Import ZArith Lia.
From S2P Require Import Prelude Liballoc Heap HeapOps.

#[local] Open Scope Z_scope.

Lemma getexp_nonneg r : 0 <= getexp r -> 256 <= r.
Proof.
  unfold getexp. change (pow2_int MINEXP) with 256. destruct (decide (r < 256)); [done|]. intros _. lia.
Qed.

(** A difference of two sizes, read as a signed number. *)
Lemma s64_u64 z : - 2 ^ 63 <= z < 2 ^ 63 -> s64 (u64 z) = z.
Proof. intros Hz. unfold s64, sw, u64. rewrite Z.add_mod_idemp_l by lia. rewrite Z.mod_small; lia. Qed.

Section Malloc.
Context {P : Type} {PS : PageSource P}.

(** ** Cutting a tag *)

Definition cut_stores (a : Z) (t : boundary_tag) (s : arena P) : outcome (arena P) :=
  let remainder := u64 (tg_real t - TAG_SIZE - tg_size t) in
  let new_tag := u64 (a + TAG_SIZE + tg_size t) in
  let s := put_tag new_tag (mk_tag LIBALLOC_MAGIC 0 remainder 0 a (tg_right t) 0 0) s in
  s ← (if decide (tg_right t <> 0) then upd (tg_right t) (with_left new_tag) s else Done s);
  upd a (fun t => with_real (u64 (tg_real t - remainder)) (with_right new_tag t)) s.

Lemma split_tag_stores a (s : arena P) t : tags s !! a = Some t ->
  split_tag a s = s ← cut_stores a t s; s ← insert_tag (u64 (a + TAG_SIZE + tg_size t)) (-1) s; Done (u64 (a + TAG_SIZE + tg_size t), s).
Proof. intros E. unfold split_tag, cut_stores, tag_at. rewrite E. cbn [mbind outcome_bind of_option]. by rewrite outcome_bind_assoc. Qed.

Lemma cut_ok s live held a t : hbase s live held -> a ∈ live -> a ∈ held -> tags s !! a = Some t -> 0 <= tg_size t ->
  2 * TAG_SIZE + tg_size t <= tg_real t ->
  let n := a + TAG_SIZE + tg_size t in
  exists s', cut_stores a t s = Done s' /\ u64 n = n /\ n ∉ live /\ hbase s' (live ∪ {[n]}) ({[n]} ∪ held) /\ frame s s' /\
    (forall b, b ∈ live -> xv (tags s') b = xv (tags s) b /\ sv (tags s') b = sv (tags s) b) /\
    (forall b g', b ∈ live -> b <> a -> gv (tags s') b = Some g' -> exists g, gv (tags s) b = Some g /\ g_right g = g_right g') /\
    gv (tags s') n = Some (mk_g LIBALLOC_MAGIC (tg_real t - TAG_SIZE - tg_size t) a (tg_right t)) /\
    gv (tags s') a = Some (mk_g LIBALLOC_MAGIC (TAG_SIZE + tg_size t) (tg_left t) n).
Proof.
  intros H Ha Hah Ht Hz Hroom n. pose proof (hb_geo _ _ _ H) as G. pose proof (gv_some _ _ _ Ht) as Ga.
  destruct (hb_tag _ _ _ a H Ha) as (t' & Ht' & Hmg & Ha0 & Hr64 & Hend). rewrite Ht in Ht'. injection Ht' as <-. unfold TAG_SIZE in *.
  set (k := 64 + tg_size t). assert (Hn : n = a + k) by (unfold n, k; lia).
  pose proof (cut_fresh _ _ a n k (geo_of t) G Ha Ga Hn ltac:(unfold k; unfold TAG_SIZE; lia) ltac:(unfold k; simpl; unfold TAG_SIZE; lia)) as (Hnl & _ & Han & _).
  assert (Un : u64 n = n) by (apply u64_small; lia). assert (Ur : u64 (tg_real t - 64 - tg_size t) = tg_real t - k) by (rewrite u64_small; unfold k; lia).
  set (s1 := put_tag n (mk_tag LIBALLOC_MAGIC 0 (tg_real t - k) 0 a (tg_right t) 0 0) s).
  assert (T1 : forall b, b <> n -> tags s1 !! b = tags s !! b) by (intros b Hb; simpl; by rewrite lookup_insert_ne).
  assert (Hrn : tg_right t <> 0 -> tg_right t ∈ live /\ tg_right t <> n /\ tg_right t <> a /\ exists q, tags s !! tg_right t = Some q).
  { intros Hne. destruct (hb_right _ _ _ a t H Ha Ht) as [|(Hl & E & q & Hq & _)]; [done|]. split_and!; [done|by intros E'; rewrite E' in Hl|lia|by exists q]. }
  assert (Hstep : exists s2, (if decide (tg_right t <> 0) then upd (tg_right t) (with_left n) s1 else Done s1) = Done s2 /\
     frame s s2 /\ l_freePages s2 = l_freePages s /\ tags s2 !! n = tags s1 !! n /\ tags s2 !! a = Some t /\
     (forall b, b ∈ live -> tags s2 !! b = if decide (b = tg_right t) then with_left n <$> tags s !! b else tags s !! b)).
  { destruct (decide (tg_right t <> 0)) as [Hne|Hne].
    - destruct (Hrn Hne) as (Hl & Hrn' & Hra & q & Hq). rewrite (upd_run _ _ _ q) by (by rewrite T1). eexists. split; [done|].
      split_and!; try done.
      + simpl. by rewrite lookup_insert_ne.
      + simpl. rewrite !lookup_insert_ne by lia. done.
      + intros b Hb. simpl. destruct (decide (b = tg_right t)) as [->|]; [by rewrite lookup_insert_eq, Hq|].
        rewrite !lookup_insert_ne by (done || by intros <-). done.
    - exists s1. split_and!; try done; [rewrite T1 by lia; done|]. intros b Hb. rewrite T1 by (by intros ->).
      rewrite decide_False; [done|]. intros ->. apply (hb_zero _ _ _ H). by replace 0 with (tg_right t) by lia. }
  destruct Hstep as (s2 & E2 & F2 & L2 & T2n & T2a & T2).
  assert (Ek : u64 (tg_real t - (tg_real t - k)) = k) by (rewrite u64_small; unfold k; lia).
  set (t3 := with_real k (with_right n t)).
  assert (E3 : cut_stores a t s = Done (put_tag a t3 s2)).
  { unfold cut_stores, TAG_SIZE. rewrite Ur. fold n. rewrite Un. fold s1. rewrite E2. cbn [mbind outcome_bind]. rewrite (upd_run _ _ _ _ T2a). by rewrite Ek. }
  assert (T3 : forall b, b ∈ live -> b <> a -> tags (put_tag a t3 s2) !! b = if decide (b = tg_right t) then with_left n <$> tags s !! b else tags s !! b).
  { intros b Hb Hba. simpl. rewrite lookup_insert_ne by done. by apply T2. }
  assert (T3n : tags (put_tag a t3 s2) !! n = tags s1 !! n) by (simpl; rewrite lookup_insert_ne by lia; done).
  assert (T3a : tags (put_tag a t3 s2) !! a = Some t3) by (simpl; by rewrite lookup_insert_eq).
  assert (T1n : tags s1 !! n = Some (mk_tag LIBALLOC_MAGIC 0 (tg_real t - k) 0 a (tg_right t) 0 0)) by (simpl; by rewrite lookup_insert_eq).
  rewrite T1n in T3n. set (s3 := put_tag a t3 s2) in *.
  assert (F3 : frame s s3) by exact F2. assert (L3 : l_freePages s3 = l_freePages s) by exact L2. clearbody s3.
  assert (Hc : cut (gv (tags s)) (gv (tags s3)) live a n k (geo_of t)).
  { intros b [Hb|Hb%elem_of_singleton]%elem_of_union; [|subst b].
    - rewrite (decide_False (P := b = n)) by (by intros ->). destruct (decide (b = a)) as [->|Hba]; [by rewrite (gv_some _ _ _ T3a)|].
      unfold gv. rewrite T3 by done. simpl. destruct (decide (b = tg_right t)); [by destruct (tags s !! b)|done].
    - rewrite decide_True by done. by rewrite (gv_some _ _ _ T3n). }
  assert (X3 : forall b, b ∈ live -> lv (tags s3) b = lv (tags s) b /\ sv (tags s3) b = sv (tags s) b).
  { intros b Hb. destruct (decide (b = a)) as [->|Hba].
    - by rewrite (lv_some _ _ _ T3a), (sv_some _ _ _ T3a), (lv_some _ _ _ Ht), (sv_some _ _ _ Ht).
    - unfold lv, sv. rewrite T3 by done. destruct (decide (b = tg_right t)); by destruct (tags s !! b). }
  destruct F3 as (Fc & Fi & Fl & Fb & Fp).
  assert (Hk1 : TAG_SIZE <= k) by (unfold TAG_SIZE, k; lia). assert (Hk2 : TAG_SIZE <= g_real (geo_of t) - k) by (unfold TAG_SIZE, k; simpl; lia).
  exists s3. split_and!; try done.
  - constructor; try (by rewrite ?Fc, ?Fi; apply H).
    + by apply (geo_cut (gv (tags s)) _ live a n k (geo_of t)).
    + destruct (hb_lists _ _ _ H) as [f F]. exists f. rewrite L3. apply flists_add; [|done|].
      * apply (flists_ext (lv (tags s))); [done|]. intros b Hb. by apply X3.
      * exists (mk_l 0 0 0). by rewrite (lv_some _ _ _ T3n).
    + intros b g z [Hb|Hb]%elem_of_union [Hbn Hbh]%not_elem_of_union; [|done]. rewrite xv_lv, (proj1 (X3 b Hb)), <- xv_lv, (proj2 (X3 b Hb)).
      intros Hx Hg Hsz. destruct (decide (b = a)) as [->|Hba]; [done|].
      destruct (cut_val _ _ _ a n k _ G Ha Ga Hn Hk1 Hk2 Hc b g Hb Hg Hba) as (g0 & Hg0 & _ & -> & _). by apply (hb_sizes _ _ _ H b g0 z).
    + intros b g x Hb Hg Hx. rewrite Fp. apply elem_of_union in Hb as [Hb|Hb%elem_of_singleton]; [destruct (decide (b = a)) as [->|Hba]|subst b].
      * rewrite (gv_some _ _ _ T3a) in Hg. injection Hg as <-. simpl in Hx. apply (hb_used _ _ _ H a (geo_of t) x Ha Ga). simpl. unfold k in *. lia.
      * destruct (cut_val _ _ _ a n k _ G Ha Ga Hn Hk1 Hk2 Hc b g Hb Hg Hba) as (g0 & Hg0 & _ & Er & _). rewrite Er in Hx. by apply (hb_used _ _ _ H b g0).
      * rewrite (gv_some _ _ _ T3n) in Hg. injection Hg as <-. simpl in Hx. apply (hb_used _ _ _ H a (geo_of t) x Ha Ga). simpl. unfold k in *. lia.
  - intros b Hb. by rewrite !xv_lv, !(proj1 (X3 b Hb)), (proj2 (X3 b Hb)).
  - intros b g' Hb Hba Hg. destruct (cut_val _ _ _ a n k _ G Ha Ga Hn Hk1 Hk2 Hc b g' Hb Hg Hba) as (g0 & Hg0 & _ & _ & Er & _). by exists g0.
  - rewrite (gv_some _ _ _ T3n). unfold geo_of. simpl. do 2 f_equal. unfold k. lia.
  - rewrite (gv_some _ _ _ T3a). unfold geo_of. simpl. by rewrite Hmg.
Qed.

Lemma gv_inv (m : gmap Z boundary_tag) a g : gv m a = Some g -> exists t, m !! a = Some t /\ geo_of t = g.
Proof. unfold gv. destruct (m !! a) as [t|]; [|done]. intros [= <-]. by exists t. Qed.

(** Split_tag gives the rest of a tag in hand back to the lists. *)
Lemma split_ok s live a t : working s live a -> tags s !! a = Some t -> side_busy s live (tg_right t) -> 0 <= tg_size t ->
  2 * TAG_SIZE + tg_size t <= tg_real t ->
  exists s' live' n, split_tag a s = Done (n, s') /\ working s' live' a /\ frame s s' /\ live ⊆ live' /\
    (forall b, ablock (tags s') live' ({[a]} ∪ ∅) b = ablock (tags s) live ({[a]} ∪ ∅) b) /\
    sv (tags s') a = Some (tg_size t) /\ exists g, gv (tags s') a = Some g /\ g_real g = TAG_SIZE + tg_size t.
Proof.
  intros ([H C] & Xa & Ha) Ht Hq Hz Hroom. set (n := a + TAG_SIZE + tg_size t).
  assert (Hah : a ∈ {[a]} ∪ (∅ : gset Z)) by (apply elem_of_union_l, elem_of_singleton; done).
  destruct (cut_ok s live _ a t H Ha Hah Ht Hz Hroom) as (s1 & E1 & Un & Hnl & H1 & F1 & V1 & R1 & Gn & Ga). fold n in Un, Hnl, H1, Gn, Ga.
  pose proof (hb_zero _ _ _ H) as H0.
  assert (Hn0 : 0 < n). { destruct (hb_tag _ _ _ a H Ha) as (? & _ & _ & ? & _). unfold n, TAG_SIZE. lia. }
  assert (Hna : n <> a) by (by intros E; rewrite E in Hnl).
  assert (Xa1 : xv (tags s1) a = Some (-1)) by (by rewrite (proj1 (V1 a Ha))).
  assert (Hfree : forall b, b ∈ live -> isfree (tags s1) b <-> isfree (tags s) b) by (intros b Hb; by apply isfree_of_xv, V1).
  assert (C1 : coal_but (tags s1) (live ∪ {[n]}) n).
  { intros b g [Hb|Hb%elem_of_singleton]%elem_of_union Hbn Hf Hg Hr Hfr; [|done].
    assert (Hba : b <> a) by (intros ->; by apply (not_free_alloc _ _ Xa1)). destruct (R1 b g Hb Hba Hg) as (g0 & Hg0 & Er).
    assert (Hrl : g_right g ∈ live).
    { rewrite <- Er. destruct (decide (g_right g0 = 0)) as [E|E]; [|by apply (geo_right _ _ (hb_geo _ _ _ H) b g0)].
      rewrite <- Er, E in Hr. apply elem_of_union in Hr as [?|?%elem_of_singleton]; [done|lia]. }
    apply (C b g0); [done|by apply Hfree|done|by rewrite Er|]. rewrite Er. by apply Hfree. }
  assert (Qn : quiet (tags s1) (live ∪ {[n]}) n).
  { intros g Hg. rewrite Gn in Hg. injection Hg as <-. simpl. split; [|intros _; by apply not_free_alloc].
    intros Hr. destruct (hb_right _ _ _ a t H Ha Ht) as [E|(Hl & _)]; [rewrite E in *|rewrite Hfree by done; by apply Hq].
    apply elem_of_union in Hr as [?|?%elem_of_singleton]; [done|lia]. }
  assert (Hnh : n ∉ {[a]} ∪ (∅ : gset Z)) by (rewrite union_empty_r_L; by apply not_elem_of_singleton).
  destruct (give_ok s1 _ _ n (-1) H1 C1 Hnh ltac:(lia) Qn) as (s' & E2 & I2 & S2 & Fn & X2).
  assert (Haw : a ∈ live ∪ {[n]}) by (by apply elem_of_union_l).
  exists s', (live ∪ {[n]}), n. split_and!.
  - rewrite (split_tag_stores a s t Ht), E1. cbn [mbind outcome_bind]. fold n. rewrite Un. by rewrite E2.
  - split; [done|]. split; [|done]. by rewrite X2.
  - etrans; [exact F1|]. apply S2.
  - by apply union_subseteq_l.
  - intros b. rewrite (give_ablock (tags s1) (tags s') _ _ n Fn); [|apply S2|done].
    destruct (decide (b = n)) as [->|Hbn].
    { unfold ablock. rewrite !decide_False; [done|by intros [? _]|]. intros (_ & Hnu & _). apply Hnu, elem_of_union_l, elem_of_singleton. done. }
    apply ablock_ext; [|by intros Hb _; apply V1]. rewrite (not_elem_of_union b {[n]}), (elem_of_union live _ b), !(elem_of_singleton b n).
    split; intros (Hb & Hh & Hx).
    + rewrite (proj1 (V1 b Hb)). tauto.
    + destruct Hb as [Hb|]; [|done]. rewrite (proj1 (V1 b Hb)) in Hx. tauto.
  - rewrite (proj1 (proj2 S2)), (proj2 (V1 a Ha)). by apply sv_some.
  - rewrite (proj1 S2). eexists. split; [exact Ga|done].
Qed.

(** ** Leaving malloc *)

Lemma release_ok s live a z g : working s live a -> sv (tags s) a = Some z -> gv (tags s) a = Some g -> 0 <= z -> z + TAG_SIZE <= g_real g ->
  heap_inv s live ∅ /\ ablock (tags s) live ∅ a = Some z /\
  forall b, b <> a -> ablock (tags s) live ∅ b = ablock (tags s) live ({[a]} ∪ ∅) b.
Proof.
  intros ([H C] & Xa & Ha) Hz Hg Hz0 Hroom. split_and!.
  - split; [|done]. destruct (hb_lists _ _ _ H) as [f F]. constructor; try apply H.
    + exists f. apply (flists_release _ _ _ _ _ a F); [apply not_elem_of_empty|]. destruct (gv_inv _ _ _ Hg) as (t & Ht & _).
      exists (links_of t). split; [by apply lv_some|]. rewrite (xv_some _ _ _ Ht) in Xa. by injection Xa.
    + intros b gb zb Hb _ Hx Hgb Hzb. destruct (decide (b = a)) as [->|Hba]; [split; congruence|].
      apply (hb_sizes _ _ _ H b); try done. rewrite union_empty_r_L. by apply not_elem_of_singleton.
  - unfold ablock. rewrite decide_True; [done|]. split_and!; try done. 
  - intros b Hba. apply ablock_ext; [|done]. rewrite union_empty_r_L, not_elem_of_singleton. split; intros (? & _ & ?); by split_and!.
Qed.

Lemma set_lock_inv s live held l : heap_inv s live held -> heap_inv (set_lock l s) live held.
Proof. intros [H C]. split; [|done]. constructor; apply H. Qed.

(** A tag in hand takes a new size. *)
Lemma put_size_ok s live a t z : working s live a -> tags s !! a = Some t -> working (put_tag a (with_size z t) s) live a /\
  frame s (put_tag a (with_size z t) s) /\ forall b, ablock (tags (put_tag a (with_size z t) s)) live ({[a]} ∪ ∅) b = ablock (tags s) live ({[a]} ∪ ∅) b.
Proof.
  intros ([H C] & Xa & Ha) Ht. set (s' := put_tag a (with_size z t) s).
  assert (G : forall b, gv (tags s') b = gv (tags s) b). { intros b. simpl. rewrite gv_insert. destruct (decide (b = a)) as [->|]; [|done]. by rewrite (gv_some _ _ _ Ht). }
  assert (L : forall b, lv (tags s') b = lv (tags s) b). { intros b. simpl. rewrite lv_insert. destruct (decide (b = a)) as [->|]; [|done]. by rewrite (lv_some _ _ _ Ht). }
  assert (Sz : forall b, b <> a -> sv (tags s') b = sv (tags s) b). { intros b Hb. simpl. rewrite sv_insert. by rewrite decide_False. }
  pose proof (xv_of_lv _ _ L) as X. assert (Hh : forall b, b ∉ {[a]} ∪ (∅ : gset Z) -> b <> a). { intros b. rewrite union_empty_r_L. by rewrite not_elem_of_singleton. }
  split; [|split; [done|]].
  - split; [split|split; [by rewrite X|done]].
    + destruct (hb_lists _ _ _ H) as [f F]. constructor; try apply H.
      * apply (geo_ext (gv (tags s))); [apply H|done].
      * exists f. by apply (flists_ext (lv (tags s))).
      * intros b g zb Hb Hbh. rewrite X, G, Sz by (by apply Hh). by apply H.
      * intros b g x. rewrite G. apply H.
    + apply (coal_but_coal _ _ a); [|by rewrite (isfree_of_xv (tags s)) by done; apply not_free_alloc].
      apply (coal_weaken (tags s) _ live); [by apply coal_coal_but|done| |].
      * intros b _. by apply isfree_of_xv.
      * intros b g' _ _. rewrite G. eauto.
  - intros b. destruct (decide (b = a)) as [->|Hba].
    + unfold ablock. rewrite !decide_False; [done| |]; intros (_ & Hn & _); by apply Hh in Hn.
    + apply ablock_ext; [by rewrite X|intros; by apply Sz].
Qed.

Lemma finish_malloc_ok s live a t size : working s live a -> tags s !! a = Some t -> side_busy s live (tg_right t) -> 0 <= size ->
  size + TAG_SIZE <= tg_real t ->
  exists s' live', finish_malloc a size s = Done (u64 (a + TAG_SIZE), s') /\ la_lock s' = false /\ heap_inv s' live' ∅ /\ live ⊆ live' /\
    bytes s' = bytes s /\ ablock (tags s') live' ∅ a = Some size /\ forall b, b <> a -> ablock (tags s') live' ∅ b = ablock (tags s) live ({[a]} ∪ ∅) b.
Proof.
  intros W Ht Hq Hz Hroom. destruct (put_size_ok s live a t size W Ht) as (W1 & F1 & B1). set (s1 := put_tag a (with_size size t) s) in *.
  assert (Ht1 : tags s1 !! a = Some (with_size size t)) by (simpl; by rewrite lookup_insert_eq).
  assert (Hq1 : side_busy s1 live (tg_right (with_size size t))).
  { intros Hr. rewrite (isfree_of_xv (tags s)); [by apply Hq|]. simpl. rewrite xv_insert. destruct (decide (tg_right t = a)) as [->|]; [|done]. by rewrite (xv_some _ _ _ Ht). }
  unfold finish_malloc. rewrite (upd_run _ _ _ _ Ht). cbn [mbind outcome_bind]. fold s1. unfold tag_at. rewrite Ht1. cbn [mbind outcome_bind of_option].
  set (rem := u64 (tg_real (with_size size t) - size - TAG_SIZE * 2)).
  destruct (decide (0 < s64 rem /\ 0 <= getexp rem)) as [[Hpos Hexp]|_].
  - assert (Hbig : 2 * TAG_SIZE + size <= tg_real t).
    { apply getexp_nonneg in Hexp. destruct (hb_tag _ _ _ a (proj1 (proj1 W)) (proj2 (proj2 W))) as (t' & Ht' & _ & Ha0 & _).
      unfold rem, TAG_SIZE in *. simpl in *. destruct (decide (size + 128 <= tg_real t)) as [|Hlt]; [lia|exfalso].
      rewrite s64_u64 in Hpos by lia. lia. }
    destruct (split_ok s1 live a (with_size size t) W1 Ht1 Hq1 Hz ltac:(simpl; lia)) as (s2 & live' & n & E2 & W2 & F2 & Hsub & B2 & Hs2 & g & Hg & Hgr).
    rewrite E2. cbn [mbind outcome_bind]. simpl in Hs2, Hgr.
    destruct (release_ok s2 live' a size g W2 Hs2 Hg Hz ltac:(lia)) as (I3 & B3 & O3).
    exists (liballoc_unlock s2), live'. split_and!; try done; [by apply set_lock_inv|simpl; by rewrite (proj1 (proj2 (proj2 (proj2 F2))))|].
    intros b Hb. simpl. by rewrite O3, B2, B1.
  - destruct (release_ok s1 live a size _ W1 (sv_some _ _ _ Ht1) (gv_some _ _ _ Ht1) Hz) as (I3 & B3 & O3); [simpl; lia|].
    exists (liballoc_unlock s1), live. split_and!; try done; [by apply set_lock_inv|]. intros b Hb. simpl. by rewrite O3, B1.
Qed.

(** ** Entering malloc *)

Lemma find_tag_S fuel (s : arena P) tag size : find_tag (S fuel) s tag size =
  if decide (tag = 0) then Done 0 else
    t ← tag_at s tag;
    if decide (u64 (size + TAG_SIZE) <= u64 (tg_real t - TAG_SIZE)) then Done tag else find_tag fuel s (tg_next t) size.
Proof.
  unfold find_tag. simpl. destruct (decide (tag = 0)); [done|]. destruct (tag_at s tag) as [t| | |]; [|done..]. simpl.
  by destruct (decide _).
Qed.

Definition fits (s : arena P) (size a : Z) : Prop := exists t, tags s !! a = Some t /\ u64 (size + TAG_SIZE) <= u64 (tg_real t - TAG_SIZE).

Lemma find_tag_ok (s : arena P) size xs : forall fuel pp, fseg (lv (tags s)) pp xs 0 -> (forall x, x ∈ xs -> x <> 0) -> (length xs < fuel)%nat ->
  exists r, find_tag fuel s (first xs 0) size = Done r /\ (r = 0 \/ (r ∈ xs /\ fits s size r)).
Proof.
  induction xs as [|x xs IH]; intros [|fuel] pp Hs H0 Hfu; simpl in *; try lia; rewrite find_tag_S.
  { exists 0. split; [done|by left]. }
  destruct Hs as [(l & Hl & _ & Hn) Hs]. rewrite decide_False by (apply H0, elem_of_cons; by left). unfold tag_at.
  unfold lv in Hl. destruct (tags s !! x) as [t|] eqn:Ht; [|done]. simpl in Hl. injection Hl as <-. simpl in Hn. simpl.
  destruct (decide (u64 (size + TAG_SIZE) <= u64 (tg_real t - TAG_SIZE))) as [Hf|Hf].
  - exists x. split; [done|]. right. split; [apply elem_of_cons; by left|by exists t].
  - rewrite Hn. destruct (IH fuel x Hs) as (r & E & Hr); [intros y Hy; apply H0, elem_of_cons; by right|lia|].
    exists r. split; [done|]. destruct Hr as [|[Hr Hfit]]; [by left|right]. split; [apply elem_of_cons; by right|done].
Qed.

Lemma list_in_live v live held fp f i : flists v live held fp f -> 0 <= i < 32 -> (length (f i) <= size live)%nat.
Proof.
  intros F Hi. rewrite <- (size_list_to_set (C := gset Z) (f i)) by (by apply (fl_nodup _ _ _ _ _ F)).
  apply subseteq_size. intros x Hx%elem_of_list_to_set. by apply (fl_in _ _ _ _ _ F i x Hi) in Hx as [? _].
Qed.

Lemma pages_bound u : 0 < u -> let m := u / 4096 + (if decide (u mod 4096 <> 0) then 1 else 0) in
  let n := if decide (m < 1) then 1 else m in u <= n * 4096 < u + 4096 /\ 1 <= n.
Proof.
  intros Hu m n. unfold n, m. clear n m. pose proof (Z.div_mod u 4096 ltac:(lia)). pose proof (Z.mod_pos_bound u 4096 ltac:(lia)).
  destruct (decide (u mod 4096 <> 0)), (decide _); lia.
Qed.

(** A new region from the page allocator. *)
Lemma allocate_ok s live size : heap_inv s live ∅ -> 0 <= size <= 2 ^ 31 - 8192 ->
  exists a s', allocate_new_tag size s = Done (a, s') /\ frame (set_pages (pages s') s) s' /\
    ((a = 0 /\ heap_inv s' live ∅ /\ tags s' = tags s) \/
     (a ∉ live /\ working s' (live ∪ {[a]}) a /\ (forall b, ablock (tags s') (live ∪ {[a]}) ({[a]} ∪ ∅) b = ablock (tags s) live ∅ b) /\
      exists t, tags s' !! a = Some t /\ tg_right t = 0 /\ size + TAG_SIZE <= tg_real t /\ TAG_SIZE < tg_real t)).
Proof.
  intros [H C] Hs. unfold allocate_new_tag, liballoc_alloc, l_pageSize, l_pageCount, page_size. rewrite (u64_small (size + TAG_SIZE)) by (unfold TAG_SIZE; lia).
  cbn zeta. set (m := (size + TAG_SIZE) / 4096 + _). set (n := if decide (m < 1) then 1 else m).
  assert (Hn : size + TAG_SIZE <= n * 4096 < 2 ^ 31 /\ 1 <= n).
  { pose proof (pages_bound (size + TAG_SIZE) ltac:(unfold TAG_SIZE; lia)) as Hb. cbn zeta in Hb. fold m n in Hb. unfold TAG_SIZE in *. lia. }
  clearbody n. rewrite (s32_small (n * 0x1000)), (u32_small (n * 0x1000)), (u64_small (n * 4096)) by lia.
  destruct (ps_total (n * 0x1000) (pages s)) as [[a p'] E]. rewrite E. cbn [mbind outcome_bind].
  destruct (decide (a = 2 ^ 64 - 1)) as [Ef|Ef].
  - rewrite decide_True by done. exists 0, (set_pages p' s). split; [done|]. split; [done|]. left. split_and!; try done. split; [|done].
    constructor; try apply H. intros b g x Hb Hg Hx. simpl. rewrite (ps_failed _ _ _ _ E Ef). by apply (hb_used _ _ _ H b g).
  - destruct (ps_fresh _ _ _ _ E ltac:(lia) Ef) as (Ha0 & Hend & Hfresh & Huse). rewrite decide_False by lia.
    exists a. eexists. split; [done|]. split; [done|]. right.
    set (t := mk_tag LIBALLOC_MAGIC size (n * 4096) (-1) 0 0 0 0). set (s' := put_tag a t (set_pages p' s)).
    assert (Ha : a ∉ live).
    { intros Hin. destruct (hb_tag _ _ _ a H Hin) as (ta & Hta & _ & _ & Hr & _). apply (Hfresh a); [lia|].
      apply (hb_used _ _ _ H a _ a Hin (gv_some _ _ _ Hta)). unfold TAG_SIZE in *. simpl. lia. }
    assert (Hold : forall b, b ∈ live -> tags s' !! b = tags s !! b) by (intros b Hb; simpl; rewrite lookup_insert_ne; [done|by intros ->]).
    assert (Hself : tags s' !! a = Some t) by (simpl; by rewrite lookup_insert_eq). assert (Hp : pages s' = p') by done.
    assert (Hc : l_completePages s' = l_completePages s /\ l_initialized s' = l_initialized s /\ l_freePages s' = l_freePages s) by done. clearbody s'.
    assert (G : forall b, b ∈ live -> gv (tags s') b = gv (tags s) b) by (intros b Hb; unfold gv; by rewrite Hold).
    assert (Xl : forall b, b ∈ live -> xv (tags s') b = xv (tags s) b) by (intros b Hb; unfold xv; by rewrite Hold).
    pose proof (gv_some _ _ _ Hself) as Ga. pose proof (xv_some _ _ _ Hself) as Xa.
    split_and!; [done|split; [split; [constructor|]|split]| |]; try (by rewrite (proj1 Hc); apply H).
    + apply (geo_new (gv (tags s)) _ live a (n * 4096)); try done; [apply H|unfold TAG_SIZE in *; lia|].
      intros b g Hb Hg. destruct (geo_pos _ _ _ _ (hb_geo _ _ _ H) Hb Hg) as (Hb0 & Hbr & _). unfold TAG_SIZE in *.
      destruct (decide (b + g_real g <= a)) as [|H1]; [by left|]. destruct (decide (a + n * 4096 <= b)) as [|H2]; [by right|exfalso].
      apply (Hfresh (Z.max a b)); [lia|]. apply (hb_used _ _ _ H b g); try done. lia.
    + destruct (hb_lists _ _ _ H) as [f F]. exists f. rewrite (proj2 (proj2 Hc)). apply flists_add; [|done|].
      * apply (flists_ext (lv (tags s))); [done|]. intros b Hb. unfold lv. by rewrite Hold.
      * exists (links_of t). split; [by apply lv_some|done].
    + intros b g z [Hb|Hb%elem_of_singleton]%elem_of_union [Hn1 _]%not_elem_of_union; [|subst b; by rewrite not_elem_of_singleton in Hn1].
      rewrite Xl, G by done. unfold sv. rewrite Hold by done. intros Hx Hg Hz. apply (hb_sizes _ _ _ H b g z); try done. 
    + intros b g x [Hb|Hb%elem_of_singleton]%elem_of_union Hg Hx; rewrite Hp, Huse.
      * left. rewrite G in Hg by done. by apply (hb_used _ _ _ H b g).
      * right. subst b. rewrite Ga in Hg. injection Hg as <-. done.
    + by rewrite (proj1 (proj2 Hc)); apply H.
    + intros b g [Hb|Hb%elem_of_singleton]%elem_of_union Hf Hg Hr Hfr; [|subst b; by apply (not_free_alloc _ _ Xa)].
      apply elem_of_union in Hr as [Hr|Hr%elem_of_singleton]; [|rewrite Hr in Hfr; by apply (not_free_alloc _ _ Xa)].
      rewrite G in Hg by done. apply (C b g); try done; [by apply (isfree_of_xv _ _ _ (Xl b Hb))|by apply (isfree_of_xv _ _ _ (Xl _ Hr))].
    + done.
    + apply elem_of_union_r, elem_of_singleton. done.
    + intros b. rewrite union_empty_r_L. apply ablock_ext; [|by intros; unfold sv; rewrite Hold].
      rewrite not_elem_of_singleton, (elem_of_union live _ b), elem_of_singleton. split.
      * intros (Hb & _ & Hx). rewrite Xl by done. split_and!; [by left|by intros ->|done].
      * intros ([Hb|?] & Hba & Hx); [|done]. rewrite Xl in Hx by done. by split_and!.
    + exists t. split_and!; try done; unfold TAG_SIZE in *; simpl; lia.
Qed.

(** *** Blocks are apart *)
Lemma ablock_some m live held a z : ablock m live held a = Some z -> a ∈ live /\ a ∉ held /\ xv m a = Some (-1) /\ sv m a = Some z.
Proof. unfold ablock. destruct (decide _) as [(? & ? & ?)|]; [|done]. intros ?. by split_and!. Qed.

Lemma blocks_apart s live held a b z w : heap_inv s live held -> ablock (tags s) live held a = Some z -> ablock (tags s) live held b = Some w ->
  a <> b -> a + TAG_SIZE + z <= b \/ b + TAG_SIZE + w <= a.
Proof.
  intros [H _] (Ha & Hah & Xa & Sa)%ablock_some (Hb & Hbh & Xb & Sb)%ablock_some Hne.
  destruct (hb_tag _ _ _ a H Ha) as (ta & Hta & _). destruct (hb_tag _ _ _ b H Hb) as (tb & Htb & _).
  destruct (hb_sizes _ _ _ H a _ z Ha Hah Xa (gv_some _ _ _ Hta) Sa) as [_ Ra].
  destruct (hb_sizes _ _ _ H b _ w Hb Hbh Xb (gv_some _ _ _ Htb) Sb) as [_ Rb].
  destruct (decide (a < b)).
  - left. pose proof (geo_disjoint _ _ (hb_geo _ _ _ H) a b _ Ha Hb ltac:(lia) (gv_some _ _ _ Hta)). unfold TAG_SIZE in *. lia.
  - right. pose proof (geo_disjoint _ _ (hb_geo _ _ _ H) b a _ Hb Ha ltac:(lia) (gv_some _ _ _ Htb)). unfold TAG_SIZE in *. lia.
Qed.

(** *** The two ways malloc finds a tag *)
Lemma working_complete s live a l : working s live a -> length l = 32%nat -> working (set_complete l s) live a.
Proof. intros ([H C] & Xa & Ha) Hl. split; [|done]. split; [|done]. constructor; try apply H. done. Qed.

Lemma malloc_take_ok s live a i t : heap_inv s live ∅ -> 0 <= i < 32 -> a ∈ live -> tags s !! a = Some t -> tg_index t = i ->
  exists s1 s2 t2, remove_tag a s = Done s1 /\ tags s1 !! a = Some t2 /\
    (if decide (tg_left t2 = 0 /\ tg_right t2 = 0) then
       c ← aget (l_completePages s1) i; l ← aset (l_completePages s1) i (s32 (c - 1)); Done (set_complete l s1)
     else Done s1) = Done s2 /\ working s2 live a /\ tags s2 !! a = Some t2 /\ side_busy s2 live (tg_right t2) /\ tg_real t2 = tg_real t /\
    bytes s2 = bytes s /\ forall b, ablock (tags s2) live ({[a]} ∪ ∅) b = ablock (tags s) live ∅ b.
Proof.
  intros [H C] Hi Ha Ht Hix. assert (Hf : isfree (tags s) a) by (apply (isfree_tag _ _ _ Ht); lia).
  destruct (take_ok s live ∅ a H (coal_coal_but _ _ _ C) Ha (not_elem_of_empty a) Hf) as (s1 & E & [H1 C1] & S1 & Xa & X1).
  destruct (hb_tag _ _ _ a H1 Ha) as (t2 & Ht2 & _).
  assert (Eg : geo_of t2 = geo_of t). { pose proof (proj1 S1 a) as Eg. rewrite (gv_some _ _ _ Ht2), (gv_some _ _ _ Ht) in Eg. congruence. }
  assert (Er : tg_right t2 = tg_right t /\ tg_real t2 = tg_real t) by (unfold geo_of in Eg; split; congruence). destruct Er as [Er Ereal].
  assert (Hq : side_busy s1 live (tg_right t2)).
  { intros Hr. rewrite Er in *. destruct (decide (tg_right t = a)) as [Eq|Hne]; [rewrite Eq; by apply not_free_alloc|].
    rewrite (isfree_of_xv (tags s)) by (by apply X1). by apply (C a (geo_of t) Ha Hf (gv_some _ _ _ Ht)). }
  assert (W : working s1 live a) by done. assert (Hb : bytes s1 = bytes s) by apply S1.
  assert (B : forall b, ablock (tags s1) live ({[a]} ∪ ∅) b = ablock (tags s) live ∅ b) by (apply take_ablock; [done|apply S1|done]).
  exists s1. destruct (decide (tg_left t2 = 0 /\ tg_right t2 = 0)) as [D|D].
  - pose proof (hb_complete _ _ _ H1) as Hl. destruct (aget_in_range (l_completePages s1) i) as (c & Ec & _); [rewrite Hl; lia|].
    eexists (set_complete _ s1), t2. rewrite decide_True, Ec by done. cbn [mbind outcome_bind]. rewrite aset_in_range by (rewrite Hl; lia). cbn [mbind outcome_bind].
    split_and!; try done. apply working_complete; [done|]. by rewrite length_insert.
  - exists s1, t2. rewrite decide_False by done. by split_and!.
Qed.

(** The state malloc leaves, seen from a tag in hand. *)
Definition malloc_done (m : gmap Z boundary_tag) (live : gset Z) (size p : Z) (s' : arena P) : Prop :=
  exists live', la_lock s' = false /\ heap_inv s' live' ∅ /\
    ((p = 0 /\ forall b, ablock (tags s') live' ∅ b = ablock m live ∅ b) \/
     (TAG_SIZE < p < 2 ^ 64 /\ ablock m live ∅ (p - TAG_SIZE) = None /\ ablock (tags s') live' ∅ (p - TAG_SIZE) = Some size /\
      forall b, b <> p - TAG_SIZE -> ablock (tags s') live' ∅ b = ablock m live ∅ b)).

Lemma malloc_finish m live live0 s a t size : working s live a -> tags s !! a = Some t -> side_busy s live (tg_right t) -> 0 <= size ->
  size + TAG_SIZE <= tg_real t -> TAG_SIZE < tg_real t ->
  (forall b, ablock (tags s) live ({[a]} ∪ ∅) b = ablock m live0 ∅ b) ->
  exists p s', finish_malloc a size s = Done (p, s') /\ malloc_done m live0 size p s' /\ bytes s' = bytes s.
Proof.
  intros W Ht Hq Hz Hroom Hbig HB. destruct (finish_malloc_ok s live a t size W Ht Hq Hz Hroom) as (s' & live' & E & Hl & I & _ & Hby & Ba & Bo).
  destruct (hb_tag _ _ _ a (proj1 (proj1 W)) (proj2 (proj2 W))) as (t' & Ht' & _ & Ha0 & _ & Hend). rewrite Ht in Ht'. injection Ht' as <-.
  unfold TAG_SIZE in *. rewrite u64_small in E by lia. exists (a + 64), s'. split; [done|]. split; [|done]. exists live'. split_and!; try done. right.
  replace (a + 64 - TAG_SIZE) with a by (unfold TAG_SIZE; lia). split_and!; try done; unfold TAG_SIZE; try lia.
  - rewrite <- HB. unfold ablock. rewrite decide_False; [done|]. intros (_ & Hn & _). apply Hn, elem_of_union_l, elem_of_singleton. done.
  - intros b Hb. by rewrite Bo, HB.
Qed.

Lemma init_lock (s : arena P) : init_arena (set_lock true s) = set_lock true (init_arena s).
Proof. destruct s as [? ? ? [] ? ? ?]; done. Qed.
Lemma init_tags (s : arena P) : tags (init_arena s) = tags s /\ bytes (init_arena s) = bytes s.
Proof. unfold init_arena. by destruct (l_initialized s). Qed.

Lemma malloc_ok fuel size s live : heap_inv (init_arena s) live ∅ -> la_lock s = false -> 0 <= size <= 2 ^ 31 - 8192 ->
  (base.size live < fuel)%nat -> exists p s', malloc fuel size s = Done (p, s') /\ malloc_done (tags s) live size p s' /\ bytes s' = bytes s.
Proof.
  intros I Hlk Hsz Hfu. destruct (init_tags s) as [Et Eb].
  assert (I1 : heap_inv (set_lock true (init_arena s)) live ∅) by (by apply set_lock_inv).
  set (s1 := set_lock true (init_arena s)) in *. assert (Et1 : tags s1 = tags s) by done. assert (Eb1 : bytes s1 = bytes s) by done.
  unfold malloc, liballoc_lock. rewrite Hlk. cbn [mbind outcome_bind]. rewrite init_lock. fold s1. clearbody s1.
  set (i := if decide (getexp size + MODE < MINEXP) then MINEXP else getexp size + MODE).
  assert (Hi : 0 <= i < 32). { unfold i, MODE, MINEXP. pose proof (getexp_range size). destruct (decide (getexp size + 0 < 8)); lia. }
  cbn zeta. fold i. clearbody i. destruct (hb_lists _ _ _ (proj1 I1)) as [f F].
  rewrite (proj2 (aget_done (l_freePages s1) i (first (f i) 0))) by (split; [lia|by apply (fl_head _ _ _ _ _ F)]). cbn [mbind outcome_bind].
  assert (Hmem : forall x, x ∈ f i -> x ∈ live /\ x <> 0 /\ exists t, tags s1 !! x = Some t /\ tg_index t = i).
  { intros x Hx. apply (fl_in _ _ _ _ _ F i x Hi) in Hx as (Hl & _ & u & Hu & Hiu). split; [done|]. split; [intros ->; by apply (hb_zero _ _ _ (proj1 I1))|].
    unfold lv in Hu. destruct (tags s1 !! x) as [t|]; [|done]. injection Hu as <-. by exists t. }
  destruct (find_tag_ok s1 size (f i) fuel 0) as (r & Er & Hr); [by apply (fl_seg _ _ _ _ _ F)|intros x Hx; by apply Hmem| |].
  { pose proof (list_in_live _ _ _ _ _ i F Hi). lia. }
  rewrite Er. cbn [mbind outcome_bind]. destruct (decide (r = 0)) as [->|Hr0].
  - destruct (allocate_ok s1 live size I1 Hsz) as (a & s2 & E2 & (_ & _ & Hl2 & Hb2 & _) & Hcase). rewrite E2. cbn [mbind outcome_bind].
    destruct Hcase as [(-> & I2 & Et2)|(Ha & W & B & t & Ht & Hrt & Hroom & Hbig)].
    + rewrite decide_True by done. exists 0, (liballoc_unlock s2). split; [done|]. split; [|simpl; by rewrite Hb2].
      exists live. split_and!; [done|by apply set_lock_inv|left]. split; [done|]. intros b. simpl. by rewrite Et2, Et1.
    + assert (a <> 0) by (intros ->; apply (hb_zero _ _ _ (proj1 (proj1 W))), W). rewrite decide_False by done.
      destruct (malloc_finish (tags s) (live ∪ {[a]}) live s2 a t size W Ht) as (p & s3 & E3 & D3 & Hb3);
        [intros Hin; rewrite Hrt in Hin; by apply (hb_zero _ _ _ (proj1 (proj1 W))) in Hin|lia|done|done|intros b; by rewrite B, Et1|].
      exists p, s3. split; [done|]. split; [done|]. rewrite Hb3, <- Eb1. done.
  - destruct Hr as [|[Hr (t & Ht & Hfit)]]; [done|]. destruct (Hmem r Hr) as (Hl & _ & t' & Ht' & Hix). rewrite Ht in Ht'. injection Ht' as <-.
    destruct (hb_tag _ _ _ r (proj1 I1) Hl) as (t' & Ht' & _ & Hr00 & Hr64 & Hend). rewrite Ht in Ht'. injection Ht' as <-. unfold TAG_SIZE in *.
    rewrite !u64_small in Hfit by lia.
    destruct (malloc_take_ok s1 live r i t I1 Hi Hl Ht Hix) as (s2 & s3 & t2 & E2 & Ht2 & E3 & W & Ht3 & Hq & Ereal & Hb & B).
    rewrite E2. cbn [mbind outcome_bind]. unfold tag_at. rewrite Ht2. cbn [mbind outcome_bind of_option]. rewrite E3. cbn [mbind outcome_bind].
    destruct (malloc_finish (tags s) live live s3 r t2 size W Ht3 Hq) as (p & s4 & E4 & D4 & Hb4); try (unfold TAG_SIZE; lia); [intros b; by rewrite B, Et1|].
    exists p, s4. split; [done|]. split; [done|]. congruence.
Qed.

(** C2: malloc of up to 2 GiB returns, with the invariant kept and no byte changed.
    It returns 0, and nothing is allocated or lost; or it returns the address
    of a new block of the requested size, every other block is kept, and none
    of them overlaps the new one or its tag. *)
Theorem malloc_spec fuel size s live : heap_inv (init_arena s) live ∅ -> la_lock s = false -> 0 <= size <= 2 ^ 31 - 8192 ->
  (base.size live < fuel)%nat -> exists p s' live', malloc fuel size s = Done (p, s') /\ la_lock s' = false /\ heap_inv s' live' ∅ /\ bytes s' = bytes s /\
   ((p = 0 /\ forall b, ablock (tags s') live' ∅ b = ablock (tags s) live ∅ b) \/
    (TAG_SIZE < p < 2 ^ 64 /\ ablock (tags s) live ∅ (p - TAG_SIZE) = None /\ ablock (tags s') live' ∅ (p - TAG_SIZE) = Some size /\
     (forall b, b <> p - TAG_SIZE -> ablock (tags s') live' ∅ b = ablock (tags s) live ∅ b) /\
     (forall b z, b <> p - TAG_SIZE -> ablock (tags s') live' ∅ b = Some z -> p + size <= b \/ b + TAG_SIZE + z <= p - TAG_SIZE))).
Proof.
  intros I Hlk Hsz Hfu. destruct (malloc_ok fuel size s live I Hlk Hsz Hfu) as (p & s' & E & (live' & L & I' & Hcase) & Hb).
  exists p, s', live'. split_and!; try done. destruct Hcase as [|(Hp & Hn & Hy & Ho)]; [by left|right]. do 4 (split; [done|]).
  intros b z Hbp Hbz. destruct (blocks_apart s' live' ∅ _ b _ _ I' Hy Hbz); [congruence|left; lia|by right].
Qed.

(** ** free *)

Lemma hold_ok s live a : heap_inv s live ∅ -> a ∈ live -> xv (tags s) a = Some (-1) -> working s live a /\
  ablock (tags s) live ({[a]} ∪ ∅) a = None /\ forall b, b <> a -> ablock (tags s) live ({[a]} ∪ ∅) b = ablock (tags s) live ∅ b.
Proof.
  intros [H C] Ha Xa. destruct (hb_tag _ _ _ a H Ha) as (t & Ht & _). split_and!.
  - split; [|done]. split; [|done]. destruct (hb_lists _ _ _ H) as [f F]. constructor; try apply H.
    + exists f. apply flists_hold; [done|done|]. exists (links_of t). split; [by apply lv_some|]. rewrite (xv_some _ _ _ Ht) in Xa. by injection Xa.
    + intros b g z Hb _. by apply (hb_sizes _ _ _ H b).
  - unfold ablock. rewrite decide_False; [done|]. intros (_ & Hn & _). apply Hn, elem_of_union_l, elem_of_singleton. done.
  - intros b Hba. apply ablock_ext; [|done]. rewrite union_empty_r_L, not_elem_of_singleton. split; intros (? & _ & ?); by split_and!.
Qed.

(** The end of free: the merged tag is counted and put on its list. *)
Definition finish_free (fuel : nat) (tag : Z) (s : arena P) : outcome (arena P) :=
  t ← tag_at s tag;
  let index := getexp (u64 (tg_real t - TAG_SIZE)) in
  let index := if decide (index < MINEXP) then MINEXP else index in
  s ← (if decide (tg_left t = 0 /\ tg_right t = 0) then
         c ← aget (l_completePages s) index;
         if decide (c = MAXCOMPLETE) then loop fuel (fun s => Done (inl (A := arena P) s)) s
         else l ← aset (l_completePages s) index (s32 (c + 1)); Done (set_complete l s)
       else Done s);
  s ← insert_tag tag index s;
  Done (liballoc_unlock s).

Lemma finish_free_ok fuel s live a t : working s live a -> tags s !! a = Some t -> side_busy s live (tg_left t) -> side_busy s live (tg_right t) ->
  (forall c, c ∈ l_completePages s -> c <> MAXCOMPLETE) ->
  exists s', finish_free fuel a s = Done s' /\ la_lock s' = false /\ heap_inv s' live ∅ /\ bytes s' = bytes s /\
    forall b, ablock (tags s') live ∅ b = ablock (tags s) live ({[a]} ∪ ∅) b.
Proof.
  intros W Ht Hql Hqr Hc. unfold finish_free, tag_at. rewrite Ht. cbn [mbind outcome_bind of_option].
  set (e := getexp (u64 (tg_real t - TAG_SIZE))). set (i := if decide (e < MINEXP) then MINEXP else e).
  assert (Hi : 0 <= i < 32). { unfold i, e, MINEXP. pose proof (getexp_range (u64 (tg_real t - TAG_SIZE))). destruct (decide (getexp _ < 8)); lia. }
  cbn zeta. fold i. clearbody i. pose proof (hb_complete _ _ _ (proj1 (proj1 W))) as Hlen.
  assert (Hstep : exists s1, (if decide (tg_left t = 0 /\ tg_right t = 0) then
         c ← aget (l_completePages s) i;
         if decide (c = MAXCOMPLETE) then loop fuel (fun s => Done (inl (A := arena P) s)) s
         else l ← aset (l_completePages s) i (s32 (c + 1)); Done (set_complete l s)
       else Done s) = Done s1 /\ working s1 live a /\ tags s1 = tags s /\ bytes s1 = bytes s).
  { destruct (decide (tg_left t = 0 /\ tg_right t = 0)); [|by exists s].
    destruct (aget_in_range (l_completePages s) i) as (c & Ec & Hcl); [rewrite Hlen; lia|]. rewrite Ec. cbn [mbind outcome_bind].
    rewrite decide_False by (apply Hc; by eapply list_elem_of_lookup_2). rewrite aset_in_range by (rewrite Hlen; lia).
    eexists. split; [done|]. split_and!; try done. apply working_complete; [done|]. by rewrite length_insert. }
  destruct Hstep as (s1 & E1 & ([H1 C1] & X1 & Ha1) & Et & Eb). rewrite E1. cbn [mbind outcome_bind].
  assert (Hq : quiet (tags s1) live a).
  { intros g Hg. rewrite Et in *. rewrite (gv_some _ _ _ Ht) in Hg. injection Hg as <-. simpl. by split. }
  destruct (give_ok s1 live ∅ a i H1 (coal_coal_but _ _ _ C1) (not_elem_of_empty a) ltac:(lia) Hq) as (s2 & E2 & I2 & S2 & F2 & X2).
  rewrite E2. cbn [mbind outcome_bind]. exists (liballoc_unlock s2). split_and!; try done; [by apply set_lock_inv| |].
  - simpl. rewrite <- Eb. apply S2.
  - intros b. simpl. rewrite <- Et. apply give_ablock; [done|apply S2|done].
Qed.

Lemma free_unfold fuel ptr (s : arena P) : free fuel ptr s =
  if decide (ptr = 0) then Done s else
    s ← liballoc_lock s; t ← tag_at s (u64 (ptr - TAG_SIZE));
    if decide (tg_magic t <> LIBALLOC_MAGIC) then Done (liballoc_unlock s) else
      '(tag, s) ← melt_loop fuel (u64 (ptr - TAG_SIZE)) s; '(tag, s) ← absorb_loop fuel tag s; finish_free fuel tag s.
Proof. done. Qed.

(** C3: free of an allocated block returns; that block is gone, every other block
    and every byte is kept, and the invariant holds: in particular no two free
    neighbours are left. *)
Theorem free_spec fuel s live b z : heap_inv s live ∅ -> la_lock s = false -> ablock (tags s) live ∅ b = Some z ->
  (forall c, c ∈ l_completePages s -> c <> MAXCOMPLETE) -> (base.size live < fuel)%nat ->
  exists s' live', free fuel (b + TAG_SIZE) s = Done s' /\ la_lock s' = false /\ heap_inv s' live' ∅ /\ bytes s' = bytes s /\
    ablock (tags s') live' ∅ b = None /\ forall c, c <> b -> ablock (tags s') live' ∅ c = ablock (tags s) live ∅ c.
Proof.
  intros I Hlk (Hb & _ & Xb & _)%ablock_some Hc Hfu. assert (I0 : heap_inv (set_lock true s) live ∅) by (by apply set_lock_inv).
  destruct (hold_ok _ live b I0 Hb Xb) as (W & Bb & Bo). destruct (hb_tag _ _ _ b (proj1 I) Hb) as (t & Ht & Hmg & Hb0 & Hr64 & Hend).
  rewrite free_unfold. unfold TAG_SIZE in *. rewrite decide_False by lia. unfold liballoc_lock. rewrite Hlk. cbn [mbind outcome_bind].
  replace (u64 (b + 64 - 64)) with b by (rewrite u64_small; lia). set (s0 := set_lock true s) in *. unfold tag_at.
  assert (Ht0 : tags s0 !! b = Some t) by done. rewrite Ht0. cbn [mbind outcome_bind of_option]. rewrite decide_False by (intros Hn; by apply Hn).
  destruct (melt_loop_ok fuel s0 live b W Hfu) as (a & s1 & live1 & t1 & E1 & W1 & Hs1 & (Fc1 & _ & _ & Fb1 & _) & B1 & Ht1 & Q1).
  rewrite E1. cbn [mbind outcome_bind].
  destruct (absorb_loop_ok fuel s1 live1 a t1 W1 ltac:(lia) Ht1 Q1) as (s2 & live2 & t2 & E2 & W2 & _ & (Fc2 & _ & _ & Fb2 & _) & B2 & Ht2 & Ql & Qr).
  rewrite E2. cbn [mbind outcome_bind].
  destruct (finish_free_ok fuel s2 live2 a t2 W2 Ht2 Ql Qr) as (s3 & E3 & L3 & I3 & Eb3 & B3).
  { rewrite Fc2, Fc1. exact Hc. }
  exists s3, live2. split_and!; try done; [by rewrite Eb3, Fb2, Fb1|by rewrite B3, B2, B1|]. intros c Hcb. by rewrite B3, B2, B1, Bo.
Qed.

(** ** realloc *)

(** The tag is read at the low 32 bits of the pointer.  When every tag lies
    above 4 GiB, as the kernel's heap does, realloc of a block faults, whatever
    the new size. *)
Theorem realloc_faults fuel s p size : la_lock s = false -> size <> 0 -> TAG_SIZE <= u32 p ->
  (forall a, is_Some (tags s !! a) -> 2 ^ 32 <= a) -> p <> 0 -> realloc fuel p size s = Fault.
Proof.
  intros Hlk Hs Hp Hhigh Hp0. unfold realloc. rewrite !decide_False by done. unfold liballoc_lock. rewrite Hlk. cbn [mbind outcome_bind].
  unfold tag_at. simpl. unfold TAG_SIZE in *. pose proof (u32_range p). rewrite u64_small by lia.
  destruct (tags s !! (u32 p - 64)) as [t|] eqn:E; [|done]. exfalso. specialize (Hhigh (u32 p - 64)). rewrite E in Hhigh.
  specialize (Hhigh (mk_is_Some _ _ eq_refl)). lia.
Qed.

(** The heap before its first use. *)
Lemma heap_start (s : arena P) : l_initialized s = false -> heap_inv (init_arena s) ∅ ∅.
Proof.
  intros E. unfold init_arena. rewrite E. split; [|by intros a g Ha]. constructor; try done.
  exists (fun _ => []). constructor; try done.
  - intros i Hi. cbn [l_freePages]. by rewrite lookup_replicate_2 by lia.
  - intros i _. apply NoDup_nil_2.
  - intros i a _. split; [by intros Hn%elem_of_nil|by intros [Hn%not_elem_of_empty _]].
Qed.
End Malloc.

(** ** A concrete heap *)

Definition bump_base : Z := 2 ^ 39.
Definition bump_sbrk (n p : Z) : outcome (Z * Z) :=
  if decide (0 < n /\ bump_base <= p /\ p + n < 2 ^ 64 - 1) then Done (p, p + n) else Done (2 ^ 64 - 1, p).

#[export] Instance bump_pages : PageSource Z.
Proof.
  refine {| ps_sbrk := bump_sbrk; ps_used := fun p x => bump_base <= x < p |}.
  - unfold bump_sbrk. intros n p a p'. case_decide; intros [= <- <-]; [|done]. unfold bump_base in *. intros Hn _. split; [lia|]. split; [lia|]. split; intros x; lia.
  - unfold bump_sbrk. intros n p a p'. case_decide; intros [= <- <-]; [lia|done].
  - unfold bump_sbrk. intros n p. case_decide; by eexists.
Defined.

Definition heap0 : arena Z := mk_arena ∅ [] [] false false (fun _ => 0) bump_base.

Lemma malloc_spec_witness : la_lock heap0 = false /\ heap_inv (init_arena heap0) ∅ ∅ /\
  exists p s' live', malloc 1 100 heap0 = Done (p, s') /\ heap_inv s' live' ∅ /\ ablock (tags s') live' ∅ (p - TAG_SIZE) = Some 100.
Proof.
  split; [done|]. pose proof (heap_start heap0 eq_refl) as I. split; [done|].
  destruct (malloc_spec 1 100 heap0 ∅ I eq_refl ltac:(lia) ltac:(rewrite size_empty; lia)) as (p & s' & live' & E & _ & I' & _ & Hc).
  exists p, s', live'. split; [done|]. split; [done|]. destruct Hc as [[-> _]|(_ & _ & H & _)]; [|done]. exfalso.
  assert (Ep : match malloc 1 100 heap0 with Done (q, _) => q | _ => 0 end = bump_base + 64) by (vm_compute; reflexivity). rewrite E in Ep. discriminate Ep.
Defined.

Lemma free_spec_witness : exists p s live, malloc 1 100 heap0 = Done (p, s) /\ heap_inv s live ∅ /\ ablock (tags s) live ∅ bump_base = Some 100 /\
  exists fuel s' live', free fuel (bump_base + TAG_SIZE) s = Done s' /\ heap_inv s' live' ∅ /\ ablock (tags s') live' ∅ bump_base = None.
Proof.
  destruct (malloc_ok 1 100 heap0 ∅ (heap_start heap0 eq_refl) eq_refl ltac:(lia) ltac:(rewrite size_empty; lia)) as (p & s & E & (live & L & I & Hc) & _).
  assert (Ep : match malloc 1 100 heap0 with Done (q, s) => (q, l_completePages s) | _ => (0, []) end = (bump_base + 64, replicate 32 0)) by (vm_compute; reflexivity).
  rewrite E in Ep. injection Ep as -> Ec. destruct Hc as [[H _]|(_ & _ & Hy & _)]; [discriminate H|].
  replace (bump_base + 64 - TAG_SIZE) with bump_base in Hy by reflexivity.
  exists (bump_base + 64), s, live. split; [done|]. split; [done|]. split; [done|].
  destruct (free_spec (S (base.size live)) s live bump_base 100 I L Hy) as (s' & live' & E2 & _ & I2 & _ & H2 & _).
  - change (l_completePages s = replicate 32 0) in Ec. rewrite Ec. by intros c [-> _]%elem_of_replicate.
  - lia.
  - exists (S (base.size live)), s', live'. by split_and!.
Defined.

Lemma realloc_faults_witness : exists s, malloc 1 100 heap0 = Done (bump_base + 64, s) /\ realloc 1 (bump_base + 64) 200 s = Fault.
Proof.
  destruct (malloc 1 100 heap0) as [[p s]| | |] eqn:E; try (vm_compute in E; discriminate E).
  assert (Ep : match malloc 1 100 heap0 with Done (q, s) => (q, la_lock s, bool_decide (map_Forall (fun a _ => 2 ^ 32 <= a) (tags s))) | _ => (0, true, false) end
     = (bump_base + 64, false, true)) by (vm_compute; reflexivity).
  rewrite E in Ep. injection Ep as -> L Ht. apply bool_decide_eq_true in Ht. exists s. split; [done|].
  apply realloc_faults; [done|done|by vm_compute| |done]. intros a [t Hta]. by apply (Ht a t).
Defined.
