(* ===== verification/Slab.v ===== *)
(** kernel/arch/amd64/alloc.c: the object allocator kmalloc/kfree on slabs of
    one page, over the kernel heap (Liballoc) and sbrk.

    The slabs of a class are a list that only grows at its end, so the chain of
    [next] pointers is a Rocq list; the bitmap of a slab is the list of its
    64-bit words, as many as calloc reserved, and an access past it is a
    [Fault], as is a shift of an int by 32 or more. *)
From stdpp Require Import base list gmap fin_maps.
From Stdlib Require Import ZArith Lia.
From S2P Require Import Prelude Liballoc Heap HeapOps Malloc.

#[local] Open Scope Z_scope.

(** ** Data *)

Definition MAX_SIZE_CLASSES : Z := 512.
Definition DEFAULT_SIZE_CLASSES : Z := 10.

Record slab := mk_slab {
  sl_memory : Z; sl_object_size : Z; sl_total_objects : Z; sl_free_objects : Z; sl_bitmap : list Z
}.
(** sizeof(struct slab) *)
Definition SLAB_SIZE : Z := 40.

Record size_class := mk_class { cl_size : Z; cl_slabs : list slab }.

Definition default_classes : list size_class :=
  (fun n => mk_class n []) <$> [8; 16; 32; 64; 128; 256; 512; 1024; 2048; 4096].

Record kheap (P : Type) := mk_kheap {
  k_arena : arena P;
  registeredSizeClasses : list size_class;
  defaultSizeClasses : list size_class;
  registeredSizeClassesCount : Z
}.
Arguments mk_kheap {P}.
Arguments k_arena {P}.
Arguments registeredSizeClasses {P}.
Arguments defaultSizeClasses {P}.
Arguments registeredSizeClassesCount {P}.

(** ** Bits *)

(** [1 << bit], an int, as an operand of an unsigned long. *)
Definition shl1 (bit : Z) : outcome Z := if decide (bit < 32) then Done (u64 (s32 (Z.shiftl 1 bit))) else Fault.

(** The search for an object whose bit is clear. *)
Definition find_clear (sl : slab) : outcome (unit + Z) :=
  for_ (Z.to_nat (sl_total_objects sl)) 0 (fun j _ =>
    w ← aget (sl_bitmap sl) (j / 64);
    b ← shl1 (j mod 64);
    if decide (Z.land w b = 0) then Done (inr j) else Done (inl tt)) tt.

Definition take_object (sl : slab) (j : Z) : outcome (Z * slab) :=
  let index := j / 64 in let bit := j mod 64 in
  w ← aget (sl_bitmap sl) index;
  b ← shl1 bit;
  bm ← aset (sl_bitmap sl) index (Z.lor w b);
  Done (u64 (sl_memory sl + 64 * index * sl_object_size sl + bit * sl_object_size sl),
        mk_slab (sl_memory sl) (sl_object_size sl) (sl_total_objects sl) (u8 (sl_free_objects sl - 1)) bm).

Section Slab.
Context {P : Type} {PS : PageSource P}.

Definition set_arena (a : arena P) (k : kheap P) : kheap P :=
  mk_kheap a (registeredSizeClasses k) (defaultSizeClasses k) (registeredSizeClassesCount k).

(** ** kmalloc *)

Definition kmalloc_for_size (fuel : nat) (c : size_class) (a : arena P) : outcome (slab * size_class * arena P) :=
  if decide (cl_size c = 0) then Fault
  else
    let perPage := u8 (4096 / cl_size c) in
    let bitmapSize := perPage / 8 in
    let bitmapSize := if decide (bitmapSize mod 8 <> 0) then u8 (Z.land (bitmapSize + 8) (Z.lnot 7)) else bitmapSize in
    '(p, a) ← malloc fuel SLAB_SIZE a;
    _ ← guard_not_null p;
    '(mem, pg) ← ps_sbrk 4096 (pages a);
    '(b, a) ← calloc fuel 1 bitmapSize (set_pages pg a);
    let sl := mk_slab mem (cl_size c) perPage perPage (replicate (Z.to_nat (bitmapSize / 8)) 0) in
    Done (sl, mk_class (cl_size c) (cl_slabs c ++ [sl]), a).

(** [while(slab)]: position [k] in the class.  A slab that claims free objects
    and shows no clear bit is looked at for ever. *)
Definition class_search (fuel : nat) (c : size_class) : outcome (option (Z * size_class)) :=
  loop fuel (fun k : nat =>
    match cl_slabs c !! k with
    | None => Done (inr None)
    | Some sl =>
        if decide (0 < sl_free_objects sl) then
          r ← find_clear sl;
          match r with
          | inr j =>
              '(p, sl') ← take_object sl j;
              Done (inr (Some (p, mk_class (cl_size c) (<[k := sl']> (cl_slabs c)))))
          | inl _ => Done (inl k)
          end
        else Done (inl (S k))
    end) 0%nat.

(** No slab has room: a new one, whose first object is taken. *)
Definition class_grow (fuel : nat) (c : size_class) (a : arena P) : outcome (Z * size_class * arena P) :=
  match cl_slabs c with
  | [] => Fault
  | _ =>
      '(sl, _, a) ← kmalloc_for_size fuel c a;
      w ← aget (sl_bitmap sl) 0;
      bm ← aset (sl_bitmap sl) 0 (Z.lor w 1);
      let sl := mk_slab (sl_memory sl) (sl_object_size sl) (sl_total_objects sl) (u8 (sl_free_objects sl - 1)) bm in
      Done (sl_memory sl, mk_class (cl_size c) (cl_slabs c ++ [sl]), a)
  end.

Definition class_alloc (fuel : nat) (c : size_class) (a : arena P) : outcome (Z * size_class * arena P) :=
  r ← class_search fuel c;
  match r with
  | Some (p, c) => Done (p, c, a)
  | None => class_grow fuel c a
  end.

(** The first registered class of this size. *)
Definition find_class (k : kheap P) (size : Z) : outcome (unit + Z) :=
  for_ (Z.to_nat (registeredSizeClassesCount k)) 0 (fun i _ =>
    c ← aget (registeredSizeClasses k) i;
    if decide (cl_size c = size) then Done (inr i) else Done (inl tt)) tt.

(** [while(shift < 10)] *)
Definition find_shift (k : kheap P) (size : Z) : outcome Z :=
  r ← for_ 10 0 (fun shift _ =>
    c ← aget (defaultSizeClasses k) shift;
    if decide (size < cl_size c) then Done (inr shift) else Done (inl tt)) tt;
  Done (match r with inr shift => shift | inl _ => 10 end).

Definition kmalloc (fuel : nat) (size : Z) (k : kheap P) : outcome (Z * kheap P) :=
  r ← find_class k size;
  match r with
  | inr i =>
      c ← aget (registeredSizeClasses k) i;
      '(p, c, a) ← class_alloc fuel c (k_arena k);
      l ← aset (registeredSizeClasses k) i c;
      Done (p, mk_kheap a l (defaultSizeClasses k) (registeredSizeClassesCount k))
  | inl _ =>
      shift ← find_shift k size;
      c ← aget (defaultSizeClasses k) shift;
      if decide (size < cl_size c) then Done (0, k)
      else
        '(c, a) ← (match cl_slabs c with
                   | [] => '(_, c, a) ← kmalloc_for_size fuel c (k_arena k); Done (c, a)
                   | _ => Done (c, k_arena k)
                   end);
        '(p, c, a) ← class_alloc fuel c a;
        l ← aset (defaultSizeClasses k) shift c;
        Done (p, mk_kheap a (registeredSizeClasses k) l (registeredSizeClassesCount k))
  end.

(** ** kfree *)

Definition release_object (ptr : Z) (sl : slab) : outcome slab :=
  if decide (sl_object_size sl = 0) then Fault
  else
    let objectIndex := s32 ((ptr - sl_memory sl) / sl_object_size sl) in
    let bitmapIndex := objectIndex / 64 in
    let bitOffset := objectIndex mod 64 in
    w ← aget (sl_bitmap sl) bitmapIndex;
    bm ← aset (sl_bitmap sl) bitmapIndex (Z.land w (u64 (Z.lnot (Z.shiftl 1 bitOffset))));
    Done (mk_slab (sl_memory sl) (sl_object_size sl) (sl_total_objects sl) (u8 (sl_free_objects sl + 1)) bm).

(** The slab of the list that holds [ptr]. *)
Fixpoint release_in (ptr : Z) (sls : list slab) : outcome (option (list slab)) :=
  match sls with
  | [] => Done None
  | sl :: sls' =>
      if decide (sl_memory sl <= ptr < sl_memory sl + 4096) then
        sl ← release_object ptr sl; Done (Some (sl :: sls'))
      else
        r ← release_in ptr sls'; Done (match r with Some l => Some (sl :: l) | None => None end)
  end.

(** Both loops look through registeredSizeClasses. *)
Definition kfree_step (ptr i : Z) (k : kheap P) : outcome (kheap P + kheap P) :=
  c ← aget (registeredSizeClasses k) i;
  r ← release_in ptr (cl_slabs c);
  match r with
  | Some sls =>
      l ← aset (registeredSizeClasses k) i (mk_class (cl_size c) sls);
      Done (inr (mk_kheap (k_arena k) l (defaultSizeClasses k) (registeredSizeClassesCount k)))
  | None => Done (inl k)
  end.

Definition kfree (ptr : Z) (k : kheap P) : outcome (kheap P) :=
  if decide (ptr = 0) then Done k
  else
    r ← for_ (Z.to_nat DEFAULT_SIZE_CLASSES) 0 (fun i k =>
      d ← aget (defaultSizeClasses k) i;
      if decide (0 < cl_size d) then kfree_step ptr i k else Done (inl k)) k;
    match r with
    | inr k => Done k
    | inl k =>
        r ← for_ (Z.to_nat MAX_SIZE_CLASSES) 0 (fun i k =>
          c ← aget (registeredSizeClasses k) i;
          if decide (0 < cl_size c) then kfree_step ptr i k else Done (inl k)) k;
        Done (match r with inr k => k | inl k => k end)
    end.

(** [nobj * size] is computed in size_t; the result of kmalloc is not tested. *)
Definition kcalloc (fuel : nat) (nobj size : Z) (k : kheap P) : outcome (Z * kheap P) :=
  let real_size := u64 (u64 nobj * size) in
  '(p, k) ← kmalloc fuel real_size k;
  a ← liballoc_memset p 0 real_size (k_arena k);
  Done (p, set_arena a k).

(** ** alloc_register_object_size *)

Definition alloc_register_object_size (fuel : nat) (size : Z) (k : kheap P) : outcome (kheap P) :=
  known ← for_ (Z.to_nat MAX_SIZE_CLASSES) 0 (fun i _ =>
    c ← aget (registeredSizeClasses k) i;
    if decide (cl_size c = size) then Done (inr tt) else Done (inl tt)) tt;
  match known with
  | inr _ => Done k
  | inl _ =>
      r ← for_ (Z.to_nat MAX_SIZE_CLASSES) 0 (fun i _ =>
        c ← aget (registeredSizeClasses k) i;
        if decide (cl_size c = 0) then Done (inr i) else Done (inl tt)) tt;
      match r with
      | inl _ => Done k
      | inr i =>
          '(_, c, a) ← kmalloc_for_size fuel (mk_class size []) (k_arena k);
          l ← aset (registeredSizeClasses k) i c;
          Done (mk_kheap a l (defaultSizeClasses k) (s32 (registeredSizeClassesCount k + 1)))
      end
  end.

(** ** Searches *)

Lemma for_first {St A} (body : Z -> St -> outcome (St + A)) (r : A) (s : St) n i j : i <= j < i + Z.of_nat n ->
  (forall k, i <= k < j -> body k s = Done (inl s)) -> body j s = Done (inr r) -> for_ n i body s = Done (inr r).
Proof.
  revert i. induction n as [|n IH]; intros i Hj Hb Hr; [lia|]. simpl. destruct (decide (i = j)) as [->|Hne].
  - by rewrite Hr.
  - rewrite Hb by lia. simpl. apply IH; [lia| |done]. intros k Hk. apply Hb. lia.
Qed.
Lemma for_none {St A} (body : Z -> St -> outcome (St + A)) (s : St) n i :
  (forall k, i <= k < i + Z.of_nat n -> body k s = Done (inl s)) -> for_ n i body s = Done (inl s).
Proof.
  revert i. induction n as [|n IH]; intros i Hb; [done|]. simpl. rewrite Hb by lia. simpl. apply IH. intros k Hk. apply Hb. lia.
Qed.
Lemma for_fault {St A} (body : Z -> St -> outcome (St + A)) (s : St) n i j : i <= j < i + Z.of_nat n ->
  (forall k, i <= k < j -> body k s = Done (inl s)) -> body j s = Fault -> for_ n i body s = Fault.
Proof.
  revert i. induction n as [|n IH]; intros i Hj Hb Hr; [lia|]. simpl. destruct (decide (i = j)) as [->|Hne].
  - by rewrite Hr.
  - rewrite Hb by lia. simpl. apply IH; [lia| |done]. intros k Hk. apply Hb. lia.
Qed.

Lemma shl1_small b : 0 <= b < 31 -> shl1 b = Done (2 ^ b).
Proof.
  intros Hb. unfold shl1. rewrite decide_True by lia. rewrite Z.shiftl_1_l. assert (0 < 2 ^ b < 2 ^ 31) by (split; [lia|apply Z.pow_lt_mono_r; lia]).
  rewrite s32_small, u64_small; [done|lia..].
Qed.

Lemma land_pow2 w b : 0 <= b -> Z.land w (2 ^ b) = if Z.testbit w b then 2 ^ b else 0.
Proof.
  intros Hb. apply Z.bits_inj'. intros n Hn. rewrite Z.land_spec, Z.pow2_bits_eqb by done.
  destruct (Z.eqb_spec b n) as [->|Hne].
  - rewrite andb_true_r. destruct (Z.testbit w n); [by rewrite Z.pow2_bits_true|by rewrite Z.bits_0].
  - rewrite andb_false_r. destruct (Z.testbit w b); [by rewrite Z.pow2_bits_false|by rewrite Z.bits_0].
Qed.

(** *** The slab that serves a request *)

(** The first word of [sl] has objects 0 to [j - 1] in use and [j] free. *)
Definition first_clear (sl : slab) (w j : Z) : Prop :=
  sl_bitmap sl !! 0%nat = Some w /\ 0 <= j < 31 /\ j < sl_total_objects sl /\ (forall k, 0 <= k < j -> Z.testbit w k = true) /\ Z.testbit w j = false.

Lemma find_clear_step sl w k : sl_bitmap sl !! 0%nat = Some w -> 0 <= k < 31 ->
  (w' ← aget (sl_bitmap sl) (k / 64); b ← shl1 (k mod 64); if decide (Z.land w' b = 0) then Done (inr k) else Done (inl tt))
  = Done (if Z.testbit w k then inl tt else inr k).
Proof.
  intros Hw Hk. rewrite (Z.div_small k 64), (Z.mod_small k 64) by lia. rewrite (proj2 (aget_done (sl_bitmap sl) 0 w)) by done. simpl.
  rewrite shl1_small by lia. simpl. rewrite land_pow2 by lia. destruct (Z.testbit w k); [|done].
  rewrite decide_False; [done|]. assert (0 < 2 ^ k) by lia. lia.
Qed.

Lemma find_clear_first sl w j : first_clear sl w j -> find_clear sl = Done (inr j).
Proof.
  intros (Hw & Hj & Ht & Hset & Hclr). unfold find_clear. apply (for_first _ _ _ _ _ j); [lia| |].
  - intros k Hk. rewrite (find_clear_step sl w k Hw) by lia. by rewrite Hset.
  - rewrite (find_clear_step sl w j Hw) by lia. by rewrite Hclr.
Qed.

Definition taken (sl : slab) (w j : Z) : slab :=
  mk_slab (sl_memory sl) (sl_object_size sl) (sl_total_objects sl) (sl_free_objects sl - 1) (<[0%nat := Z.lor w (2 ^ j)]> (sl_bitmap sl)).

Lemma take_object_first sl w j : first_clear sl w j -> 0 < sl_free_objects sl < 256 -> 0 <= sl_memory sl + j * sl_object_size sl < 2 ^ 64 ->
  take_object sl j = Done (sl_memory sl + j * sl_object_size sl, taken sl w j).
Proof.
  intros (Hw & Hj & _) Hf Hm. unfold take_object. rewrite (Z.div_small j 64), (Z.mod_small j 64) by lia.
  rewrite (proj2 (aget_done (sl_bitmap sl) 0 w)) by done. cbn [mbind outcome_bind]. rewrite shl1_small by lia. cbn [mbind outcome_bind].
  rewrite aset_in_range. 2:{ apply lookup_lt_Some in Hw. lia. } cbn [mbind outcome_bind].
  rewrite u8_small by lia. replace (sl_memory sl + 64 * 0 * sl_object_size sl + j * sl_object_size sl) with (sl_memory sl + j * sl_object_size sl) by lia.
  by rewrite u64_small by lia.
Qed.

Definition full (sl : slab) : Prop := sl_free_objects sl = 0.

Lemma class_search_first fuel c ys sl zs w j : cl_slabs c = ys ++ sl :: zs -> Forall full ys -> first_clear sl w j -> 0 < sl_free_objects sl < 256 ->
  0 <= sl_memory sl + j * sl_object_size sl < 2 ^ 64 -> (length ys < fuel)%nat ->
  class_search fuel c = Done (Some (sl_memory sl + j * sl_object_size sl, mk_class (cl_size c) (ys ++ taken sl w j :: zs))).
Proof.
  intros Hc Hf Hj Hfr Hm Hfu. unfold class_search.
  assert (Hgen : forall n k, (k + n = length ys)%nat -> forall fuel, (n < fuel)%nat -> loop fuel (fun k : nat =>
    match cl_slabs c !! k with
    | None => Done (inr None)
    | Some sl =>
        if decide (0 < sl_free_objects sl) then
          r ← find_clear sl;
          match r with
          | inr j =>
              '(p, sl') ← take_object sl j;
              Done (inr (Some (p, mk_class (cl_size c) (<[k := sl']> (cl_slabs c)))))
          | inl _ => Done (inl k)
          end
        else Done (inl (S k))
    end) k = Done (Some (sl_memory sl + j * sl_object_size sl, mk_class (cl_size c) (ys ++ taken sl w j :: zs)))).
  { induction n as [|n IH]; intros k Hk [|fuel'] Hfu'; try lia; simpl.
    - replace k with (length ys) by lia. rewrite Hc, list_lookup_middle by done. rewrite decide_True by lia.
      rewrite (find_clear_first sl w j Hj). simpl. rewrite (take_object_first sl w j Hj Hfr Hm). simpl. do 4 f_equal.
      by rewrite insert_app_r_alt, Nat.sub_diag by lia.
    - assert (exists y, ys !! k = Some y) as [y Hy] by (apply lookup_lt_is_Some_2; lia). rewrite Hc, lookup_app_l, Hy by lia.
      pose proof (Forall_lookup_1 _ _ _ _ Hf Hy) as Hz. unfold full in Hz. rewrite decide_False by lia. simpl. rewrite <- Hc. apply IH; lia. }
  by apply (Hgen (length ys)).
Qed.

(** The registered class that serves a size. *)
Definition serves (k : kheap P) (size : Z) (i : nat) (c : size_class) : Prop :=
  registeredSizeClasses k !! i = Some c /\ cl_size c = size /\ Z.of_nat i < registeredSizeClassesCount k /\
  (forall j c', (j < i)%nat -> registeredSizeClasses k !! j = Some c' -> cl_size c' <> size).

Lemma find_class_serves k size i c : serves k size i c -> find_class k size = Done (inr (Z.of_nat i)).
Proof.
  intros (Hc & Hs & Hn & Hl). unfold find_class. apply (for_first _ _ _ _ _ (Z.of_nat i)); [lia| |].
  - intros j Hj. destruct (lookup_lt_is_Some_2 (registeredSizeClasses k) (Z.to_nat j)) as [c' Hc']; [apply lookup_lt_Some in Hc; lia|].
    rewrite (proj2 (aget_done _ j c')) by (split; [lia|done]). simpl. rewrite decide_False; [done|]. apply (Hl (Z.to_nat j)); [lia|done].
  - rewrite (proj2 (aget_done _ (Z.of_nat i) c)) by (split; [lia|by rewrite Nat2Z.id]). simpl. by rewrite decide_True.
Qed.

Definition with_slabs (k : kheap P) (i : nat) (c : size_class) (sls : list slab) : kheap P :=
  mk_kheap (k_arena k) (<[i := mk_class (cl_size c) sls]> (registeredSizeClasses k)) (defaultSizeClasses k) (registeredSizeClassesCount k).

(** Kmalloc of a registered size takes the first free object of the first slab
    that has one; nothing else changes. *)
Theorem kmalloc_takes_object fuel k size i c ys sl zs w j : serves k size i c -> cl_slabs c = ys ++ sl :: zs -> Forall full ys ->
  first_clear sl w j -> 0 < sl_free_objects sl < 256 -> 0 <= sl_memory sl + j * sl_object_size sl < 2 ^ 64 -> (length ys < fuel)%nat ->
  kmalloc fuel size k = Done (sl_memory sl + j * sl_object_size sl, with_slabs k i c (ys ++ taken sl w j :: zs)).
Proof.
  intros Hs Hc Hf Hj Hfr Hm Hfu. unfold kmalloc. rewrite (find_class_serves k size i c Hs). cbn [mbind outcome_bind].
  destruct Hs as (Hi & _). rewrite (proj2 (aget_done _ (Z.of_nat i) c)) by (split; [lia|by rewrite Nat2Z.id]). cbn [mbind outcome_bind].
  unfold class_alloc. rewrite (class_search_first fuel c ys sl zs w j) by done. cbn [mbind outcome_bind].
  rewrite aset_in_range by (apply lookup_lt_Some in Hi; lia). cbn [mbind outcome_bind]. by rewrite Nat2Z.id.
Qed.

(** *** Giving the object back *)

Lemma clear_bit w j : 0 <= w < 2 ^ 64 -> 0 <= j < 64 -> Z.testbit w j = false ->
  Z.land (Z.lor w (2 ^ j)) (u64 (Z.lnot (Z.shiftl 1 j))) = w.
Proof.
  intros Hw Hj Hb. apply Z.bits_inj'. intros n Hn. unfold u64. rewrite Z.shiftl_1_l, Z.land_spec, Z.lor_spec, Z.pow2_bits_eqb by lia.
  destruct (decide (n < 64)) as [Hlt|Hge].
  - rewrite Z.mod_pow2_bits_low, Z.lnot_spec, Z.pow2_bits_eqb by lia. destruct (Z.eqb_spec j n) as [->|_]; [by rewrite Hb|].
    by rewrite orb_false_r, andb_true_r.
  - rewrite Z.mod_pow2_bits_high by lia. rewrite andb_false_r. symmetry. apply Z.bits_above_log2; [lia|].
    destruct (decide (w = 0)) as [->|]; [simpl; lia|]. assert (Z.log2 w < 64) by (apply Z.log2_lt_pow2; lia). lia.
Qed.

Lemma release_taken sl w j : first_clear sl w j -> 0 < sl_free_objects sl < 256 -> 0 <= w < 2 ^ 64 -> 0 < sl_object_size sl ->
  release_object (sl_memory sl + j * sl_object_size sl) (taken sl w j) = Done sl.
Proof.
  intros (Hw & Hj & _ & _ & Hclr) Hf Hw64 Hsz. unfold release_object, taken. simpl. rewrite decide_False by lia.
  replace (sl_memory sl + j * sl_object_size sl - sl_memory sl) with (j * sl_object_size sl) by lia. rewrite Z.div_mul by lia.
  rewrite s32_small by lia. rewrite (Z.div_small j 64), (Z.mod_small j 64) by lia. apply lookup_lt_Some in Hw as Hlen.
  rewrite (proj2 (aget_done _ 0 (Z.lor w (2 ^ j)))) by (split; [lia|by apply list_lookup_insert_eq]). cbn [mbind outcome_bind].
  rewrite aset_in_range by (rewrite length_insert; lia). cbn [mbind outcome_bind]. rewrite clear_bit by (done || lia).
  simpl. rewrite list_insert_insert_eq, list_insert_id by done. replace (sl_free_objects sl - 1 + 1) with (sl_free_objects sl) by lia.
  rewrite u8_small by lia. by destruct sl.
Qed.

(** No slab of [sls] has [ptr] in its page. *)
Definition outside (ptr : Z) (sls : list slab) : Prop := Forall (fun sl => ~ (sl_memory sl <= ptr < sl_memory sl + 4096)) sls.

Lemma release_in_outside ptr sls : outside ptr sls -> release_in ptr sls = Done None.
Proof. induction 1 as [|sl sls Hn _ IH]; [done|]. simpl. rewrite decide_False by done. by rewrite IH. Qed.

Lemma release_in_app ptr ys sl sl' zs : outside ptr ys -> sl_memory sl <= ptr < sl_memory sl + 4096 -> release_object ptr sl = Done sl' ->
  release_in ptr (ys ++ sl :: zs) = Done (Some (ys ++ sl' :: zs)).
Proof.
  intros Ho Hin Hr. induction Ho as [|y ys Hn _ IH]; simpl.
  - rewrite decide_True by done. by rewrite Hr.
  - rewrite decide_False by done. by rewrite IH.
Qed.

(** Kfree undoes kmalloc: it finds the object among the first ten registered
    classes, the only ones its first loop reads, and restores the state. *)
Theorem kmalloc_then_kfree fuel k size i c ys sl zs w j : serves k size i c -> cl_slabs c = ys ++ sl :: zs -> Forall full ys ->
  first_clear sl w j -> 0 < sl_free_objects sl < 256 -> 0 <= w < 2 ^ 64 -> 0 < sl_memory sl < 2 ^ 64 - 4096 -> 0 < sl_object_size sl ->
  (j + 1) * sl_object_size sl <= 4096 -> (length ys < fuel)%nat -> (i < 10)%nat -> defaultSizeClasses k = default_classes ->
  outside (sl_memory sl + j * sl_object_size sl) ys ->
  (forall i' c', (i' < i)%nat -> registeredSizeClasses k !! i' = Some c' -> outside (sl_memory sl + j * sl_object_size sl) (cl_slabs c')) ->
  exists p k', kmalloc fuel size k = Done (p, k') /\ kfree p k' = Done k.
Proof.
  intros Hs Hc Hf Hj Hfr Hw Hm Hsz Hfit Hfu Hi10 Hd Hout Hbefore. set (p := sl_memory sl + j * sl_object_size sl) in *.
  assert (Hp : 0 < p < sl_memory sl + 4096) by (unfold p; destruct Hj as (_ & ? & _); lia).
  exists p, (with_slabs k i c (ys ++ taken sl w j :: zs)). split; [apply (kmalloc_takes_object fuel k size i c); try done; fold p; lia|].
  unfold kfree. rewrite decide_False by lia. destruct Hs as (Hi & _ & _ & _). apply lookup_lt_Some in Hi as Hlen.
  set (k' := with_slabs k i c (ys ++ taken sl w j :: zs)).
  assert (Hdef : forall n, 0 <= n < 10 -> exists d, aget (defaultSizeClasses k') n = Done d /\ 0 < cl_size d).
  { intros n Hn. simpl. rewrite Hd. unfold default_classes. destruct (aget_in_range ((fun n => mk_class n []) <$> [8; 16; 32; 64; 128; 256; 512; 1024; 2048; 4096]) n) as (d & Ed & Hl);
      [simpl; lia|]. exists d. split; [done|]. apply list_lookup_fmap_Some in Hl as (x & -> & Hx). simpl. apply list_elem_of_lookup_2 in Hx.
    repeat (apply elem_of_cons in Hx as [->|Hx]; [lia|]). by apply elem_of_nil in Hx. }
  assert (Hloop : for_ (Z.to_nat DEFAULT_SIZE_CLASSES) 0 (fun i k =>
      d ← aget (defaultSizeClasses k) i; if decide (0 < cl_size d) then kfree_step p i k else Done (inl k)) k' = Done (inr k)).
  { apply (for_first _ _ _ _ _ (Z.of_nat i)); [unfold DEFAULT_SIZE_CLASSES; lia| |].
    - intros n Hn. destruct (Hdef n ltac:(lia)) as (d & -> & Hpos). simpl. rewrite decide_True by done. unfold kfree_step, k', with_slabs. simpl.
      destruct (lookup_lt_is_Some_2 (registeredSizeClasses k) (Z.to_nat n)) as [c' Hc']; [lia|].
      rewrite (proj2 (aget_done _ n c')) by (split; [lia|rewrite list_lookup_insert_ne by lia; done]). simpl.
      rewrite release_in_outside by (apply (Hbefore (Z.to_nat n)); [lia|done]). done.
    - destruct (Hdef (Z.of_nat i) ltac:(lia)) as (d & -> & Hpos). simpl. rewrite decide_True by done. unfold kfree_step, k', with_slabs. simpl.
      rewrite (proj2 (aget_done _ (Z.of_nat i) (mk_class (cl_size c) (ys ++ taken sl w j :: zs))))
        by (split; [lia|rewrite Nat2Z.id; by apply list_lookup_insert_eq]). simpl.
      rewrite (release_in_app p ys (taken sl w j) sl zs); [|done|simpl; unfold p; destruct Hj as (_ & ? & _); lia|by apply release_taken]. simpl.
      rewrite aset_in_range by (rewrite length_insert; lia). simpl. rewrite Nat2Z.id, list_insert_insert_eq, <- Hc.
      rewrite list_insert_id by (destruct c; done). by destruct k. }
  rewrite Hloop. done.
Qed.

(** ** What kmalloc refuses *)

(** The test after the search for a default class is inverted: a size below a
    page that is not registered is refused, and kcalloc then clears at NULL. *)
Theorem kmalloc_unregistered fuel size k : 0 < size < 4096 -> defaultSizeClasses k = default_classes ->
  (forall i c, Z.of_nat i < registeredSizeClassesCount k -> registeredSizeClasses k !! i = Some c -> cl_size c <> size) ->
  registeredSizeClassesCount k <= Z.of_nat (length (registeredSizeClasses k)) ->
  kmalloc fuel size k = Done (0, k) /\ kcalloc fuel 1 size k = Fault.
Proof.
  intros Hs Hd Hu Hn. assert (E : kmalloc fuel size k = Done (0, k)).
  { unfold kmalloc. assert (find_class k size = Done (inl tt)) as ->.
    { apply for_none. intros i Hi. destruct (lookup_lt_is_Some_2 (registeredSizeClasses k) (Z.to_nat i)) as [c Hc]; [lia|].
      rewrite (proj2 (aget_done _ i c)) by (split; [lia|done]). simpl. rewrite decide_False; [done|]. apply (Hu (Z.to_nat i)); [lia|done]. }
    cbn [mbind outcome_bind]. assert (Hshift : exists shift c, find_shift k size = Done shift /\ aget (defaultSizeClasses k) shift = Done c /\ size < cl_size c).
    { unfold find_shift. rewrite Hd. unfold default_classes. simpl.
      repeat match goal with |- context [decide (size < ?n)] =>
        destruct (decide (size < n)) as [H|?]; [eexists _, _; split; [reflexivity|split; [reflexivity|exact H]]|simpl] end. lia. }
    destruct Hshift as (shift & c & -> & Hc & Hlt). cbn [mbind outcome_bind]. rewrite Hc. cbn [mbind outcome_bind]. by rewrite decide_True. }
  split; [done|]. unfold kcalloc. rewrite (u64_small 1), (u64_small (1 * size)) by lia. replace (1 * size) with size by lia. rewrite E. cbn [mbind outcome_bind].
  unfold liballoc_memset. by rewrite decide_True by lia.
Qed.

(** The bit of an object is [1 << bit], an int.  With the first 32 objects of a
    slab in use the 33rd request shifts by 32, which is undefined. *)
Theorem kmalloc_33rd_object fuel k size i c sl zs w : serves k size i c -> cl_slabs c = sl :: zs -> 0 < sl_free_objects sl ->
  sl_bitmap sl !! 0%nat = Some w -> (forall b, 0 <= b < 32 -> Z.testbit w b = true) -> 32 < sl_total_objects sl ->
  kmalloc (S fuel) size k = Fault.
Proof.
  intros Hs Hc Hf Hw Hset Ht. unfold kmalloc. rewrite (find_class_serves k size i c Hs). cbn [mbind outcome_bind].
  destruct Hs as (Hi & _). rewrite (proj2 (aget_done _ (Z.of_nat i) c)) by (split; [lia|by rewrite Nat2Z.id]). cbn [mbind outcome_bind].
  unfold class_alloc, class_search. simpl. rewrite Hc. simpl. rewrite decide_True by done.
  assert (find_clear sl = Fault) as ->; [|done]. unfold find_clear. apply (for_fault _ _ _ _ 32); [lia| |].
  - intros b Hb. destruct (decide (b < 31)); [rewrite (find_clear_step sl w b Hw) by lia; rewrite Hset by lia; done|].
    replace b with 31 by lia. rewrite (proj2 (aget_done (sl_bitmap sl) (31 / 64) w)) by done. simpl.
    rewrite decide_False; [done|]. intros E. assert (Hb31 : Z.testbit (Z.land w (u64 (s32 (Z.shiftl 1 (31 mod 64))))) 31 = true).
    { rewrite Z.land_spec, Hset by lia. reflexivity. }
    rewrite E in Hb31. discriminate Hb31.
  - rewrite (proj2 (aget_done (sl_bitmap sl) (32 / 64) w)) by done. done.
Qed.
End Slab.

(** ** A concrete state: one class of 24-byte objects *)

Definition demo_class (w free : Z) : size_class := mk_class 24 [mk_slab (2 ^ 39) 24 170 free [w; 0; 0]].
Definition demo_kheap (w free : Z) : kheap Z :=
  mk_kheap heap0 (demo_class w free :: replicate 511 (mk_class 0 [])) default_classes 1.

Lemma demo_serves w free : serves (demo_kheap w free) 24 0 (demo_class w free).
Proof. split; [done|]. split; [done|]. split; [simpl; lia|]. intros j c' Hj. lia. Qed.

Lemma kmalloc_takes_object_witness : kmalloc 1 24 (demo_kheap 3 168) =
  Done (2 ^ 39 + 2 * 24, with_slabs (demo_kheap 3 168) 0 (demo_class 3 168) [taken (mk_slab (2 ^ 39) 24 170 168 [3; 0; 0]) 3 2]).
Proof.
  apply (kmalloc_takes_object 1 (demo_kheap 3 168) 24 0 (demo_class 3 168) [] (mk_slab (2 ^ 39) 24 170 168 [3; 0; 0]) [] 3 2).
  - apply demo_serves.
  - done.
  - done.
  - split; [done|]. split; [lia|]. split; [simpl; lia|]. split; [|done]. intros k Hk. assert (k = 0 \/ k = 1) as [-> | ->] by lia; done.
  - simpl. lia.
  - simpl. lia.
  - simpl. lia.
Defined.

Lemma kmalloc_then_kfree_witness : exists p k', kmalloc 1 24 (demo_kheap 0 170) = Done (p, k') /\ kfree p k' = Done (demo_kheap 0 170).
Proof.
  apply (kmalloc_then_kfree 1 (demo_kheap 0 170) 24 0 (demo_class 0 170) [] (mk_slab (2 ^ 39) 24 170 170 [0; 0; 0]) [] 0 0); simpl; try lia; try done.
  - apply demo_serves.
  - split; [done|]. split; [lia|]. split; [simpl; lia|]. split; [intros k Hk; lia|done].
  - constructor.
Defined.

Lemma kmalloc_unregistered_witness : kmalloc 1 25 (demo_kheap 0 170) = Done (0, demo_kheap 0 170) /\ kcalloc 1 1 25 (demo_kheap 0 170) = Fault.
Proof.
  apply (kmalloc_unregistered 1 25 (demo_kheap 0 170)); [lia|done| |].
  - intros i c Hi Hc. simpl in Hi. assert (i = 0%nat) by lia. subst i. simpl in Hc. injection Hc as <-. done.
  - simpl. lia.
Defined.

Lemma kmalloc_33rd_object_witness : kmalloc 5 24 (demo_kheap (2 ^ 64 - 1) 138) = Fault.
Proof.
  apply (kmalloc_33rd_object 4 (demo_kheap (2 ^ 64 - 1) 138) 24 0 (demo_class (2 ^ 64 - 1) 138) (mk_slab (2 ^ 39) 24 170 138 [2 ^ 64 - 1; 0; 0]) [] (2 ^ 64 - 1)).
  - apply demo_serves.
  - done.
  - simpl. lia.
  - done.
  - intros b Hb. change (2 ^ 64 - 1) with (Z.ones 64). apply Z.ones_spec_low. lia.
  - simpl. lia.
Defined.
