(* ===== verification/KTree.v ===== *)
(** libc/kernel/tree.c: the tree of the kernel (the file tree, the process tree).

    [nodes] maps the address of a live [tree_node_t] to its fields.  The
    [list_t] of a node's children is the sequence it holds: KList proves that
    list_create, list_insert and list_delete are the empty sequence, the append
    and the removal.  Node addresses come from the interface [NodeAlloc].
    The recursive functions take fuel; as many units as the tree has nodes are
    enough, which the theorems show.  tree_remove reads the next pointer of the
    list entry it has just freed: [stale] says whether that word is still the
    NULL list_delete stored there; if it is not, the read is a fault. *)
From stdpp Require Import base list gmap fin_maps.
From Stdlib Require Import ZArith Lia.
From S2P Require Import Prelude.

#[local] Open Scope Z_scope.

(** ** Data *)

Record tree_node := mk_tn { t_value : Z; t_children : list Z; t_parent : Z }.
Abbreviation nodes := (gmap Z tree_node).
Record tree_t := mk_tree { t_head : Z; t_height : Z }.

(** kcalloc(1, sizeof(tree_node_t)) *)
Class NodeAlloc := {
  nalloc : nodes -> Z;
  nalloc_fresh : forall ns, nalloc ns <> 0 /\ ns !! nalloc ns = None
}.

Definition node_at (ns : nodes) (p : Z) : outcome tree_node := of_option (ns !! p).
Definition set_children (ns : nodes) (p : Z) (cs : list Z) : outcome nodes :=
  n ← node_at ns p; Done (<[p := mk_tn (t_value n) cs (t_parent n)]> ns).
Definition set_parent (ns : nodes) (p q : Z) : outcome nodes :=
  n ← node_at ns p; Done (<[p := mk_tn (t_value n) (t_children n) q]> ns).

(** for(entry = children->head; entry != NULL; entry = entry->next) body *)
Fixpoint each_child {St} (body : Z -> St -> outcome St) (cs : list Z) (s : St) : outcome St :=
  match cs with
  | [] => Done s
  | c :: cs => s ← body c s; each_child body cs s
  end.

(** The same loop, left with the first result that is not NULL. *)
Fixpoint first_child (body : Z -> outcome Z) (cs : list Z) : outcome Z :=
  match cs with
  | [] => Done 0
  | c :: cs => r ← body c; if decide (r = 0) then first_child body cs else Done r
  end.

(** ** Operations *)

Definition tree_create : tree_t := mk_tree 0 0.

(** tree_destroy_node also frees the values; they are collected. *)
Fixpoint tree_destroy_node (fuel : nat) (node : Z) (st : nodes * list Z) : outcome (nodes * list Z) :=
  match fuel with
  | O => OutOfFuel
  | S fuel' =>
      if decide (node = 0) then Done st
      else
        n ← node_at st.1 node;
        '(ns, freed) ← each_child (tree_destroy_node fuel') (t_children n) st;
        Done (delete node ns, freed ++ [t_value n])
  end.
Definition tree_destroy (fuel : nat) (t : tree_t) (ns : nodes) : outcome (nodes * list Z) :=
  tree_destroy_node fuel (t_head t) (ns, []).

Fixpoint tree_free_node (fuel : nat) (node : Z) (ns : nodes) : outcome nodes :=
  match fuel with
  | O => OutOfFuel
  | S fuel' =>
      if decide (node = 0) then Done ns
      else
        n ← node_at ns node;
        ns ← each_child (tree_free_node fuel') (t_children n) ns;
        Done (delete node ns)
  end.
Definition tree_free (fuel : nat) (t : tree_t) (ns : nodes) : outcome nodes :=
  tree_free_node fuel (t_head t) ns.

(** The tree's height is a size_t, [height] an int: the comparison is unsigned.
    The field is threaded through the recursion. *)
Fixpoint tree_calculate_height (fuel : nat) (ns : nodes) (node height : Z) (h : Z) : outcome Z :=
  match fuel with
  | O => OutOfFuel
  | S fuel' =>
      n ← node_at ns node;
      h ← each_child (fun c h => tree_calculate_height fuel' ns c (height + 1) h) (t_children n) h;
      Done (if decide (h < u64 height) then u64 height else h)
  end.

Definition tree_set_root_node (fuel : nat) (ns : nodes) (t : tree_t) (node : Z) : outcome tree_t :=
  h ← tree_calculate_height fuel ns node 1 (t_height t); Done (mk_tree node h).

(** for(other = tree_node->parent; other != null; other = other->parent) ... *)
Fixpoint climb_height (fuel : nat) (ns : nodes) (t : tree_t) (other height : Z) : outcome tree_t :=
  match fuel with
  | O => OutOfFuel
  | S fuel' =>
      if decide (other = 0) then Done t
      else if decide (other = t_head t) then
        Done (if decide (t_height t < u64 height) then mk_tree (t_head t) (u64 height) else t)
      else
        n ← node_at ns other;
        climb_height fuel' ns t (t_parent n) (height + 1)
  end.

Definition tree_insert_child `{NodeAlloc} (fuel : nat) (ns : nodes) (t : tree_t) (node value : Z)
    : outcome (Z * nodes * tree_t) :=
  let tree_node := nalloc ns in
  let ns := <[tree_node := mk_tn value [] 0]> ns in
  '(ns, t) ← (if decide (node = 0 /\ t_head t <> 0) then
      '(ns, _) ← tree_destroy_node fuel (t_head t) (ns, []); Done (ns, mk_tree 0 (t_height t))
    else Done (ns, t));
  if decide (t_head t = 0) then
    t ← tree_set_root_node fuel ns t tree_node; Done (tree_node, ns, t)
  else
    ns ← set_parent ns tree_node node;
    n ← node_at ns node;
    ns ← set_children ns node (t_children n ++ [tree_node]);
    t ← climb_height fuel ns t node 0;
    Done (tree_node, ns, t).

(** The scan of the parent's children: the entry is deleted, then its next
    pointer is read. *)
Fixpoint unlink_child (stale : bool) (cs : list Z) (node : Z) : outcome (list Z) :=
  match cs with
  | [] => Done []
  | c :: cs' =>
      if decide (c = node) then (if stale then Done cs' else Fault)
      else r ← unlink_child stale cs' node; Done (c :: r)
  end.

Definition tree_remove (stale : bool) (fuel : nat) (ns : nodes) (t : tree_t) (node : Z) : outcome (nodes * tree_t) :=
  n ← node_at ns node;
  if decide (t_parent n = 0) then
    Done (ns, if decide (t_head t <> node) then t else mk_tree 0 0)
  else
    p ← node_at ns (t_parent n);
    cs ← unlink_child stale (t_children p) node;
    ns ← set_children ns (t_parent n) cs;
    ns ← set_parent ns node 0;
    h ← tree_calculate_height fuel ns (t_head t) 0 (t_height t);
    Done (ns, mk_tree (t_head t) h).

Fixpoint tree_find_child (fuel : nat) (ns : nodes) (node value : Z) : outcome Z :=
  match fuel with
  | O => OutOfFuel
  | S fuel' =>
      n ← node_at ns node;
      if decide (t_value n = value) then Done node
      else first_child (fun other =>
        o ← node_at ns other;
        if decide (t_value o = value) then Done other else tree_find_child fuel' ns other value) (t_children n)
  end.

Definition tree_find_child_root (fuel : nat) (ns : nodes) (t : tree_t) (value : Z) : outcome Z :=
  tree_find_child fuel ns (t_head t) value.

(** What tree_dump prints: a value and a number of children per node. *)
Inductive dump_line := DumpNoHead | DumpNode (value nchildren : Z).

Fixpoint tree_dump_preorder (fuel : nat) (ns : nodes) (node : Z) (out : list dump_line) : outcome (list dump_line) :=
  match fuel with
  | O => OutOfFuel
  | S fuel' =>
      n ← node_at ns node;
      each_child (tree_dump_preorder fuel' ns) (t_children n)
        (out ++ [DumpNode (t_value n) (Z.of_nat (length (t_children n)))])
  end.

Definition tree_dump (fuel : nat) (ns : nodes) (t : tree_t) : outcome (list dump_line) :=
  if decide (t_head t = 0) then Done [DumpNoHead] else tree_dump_preorder fuel ns (t_head t) [].

(** ** The tree a node table holds

    [tree_at ns par p l]: at [p] there is a node with parent pointer [par]
    whose subtree, in preorder, is the list [l] of (address, value). *)
Inductive tree_at (ns : nodes) : Z -> Z -> list (Z * Z) -> Prop :=
| tree_at_node par p v cs l :
    p <> 0 -> ns !! p = Some (mk_tn v cs par) -> forest_at ns p cs l -> tree_at ns par p ((p, v) :: l)
with forest_at (ns : nodes) : Z -> list Z -> list (Z * Z) -> Prop :=
| forest_nil par : forest_at ns par [] []
| forest_cons par c cs l1 l2 :
    tree_at ns par c l1 -> forest_at ns par cs l2 -> forest_at ns par (c :: cs) (l1 ++ l2).

Scheme tree_at_mut := Induction for tree_at Sort Prop
with forest_at_mut := Induction for forest_at Sort Prop.

(** The two inductions at once, for a property that does not depend on the
    derivation. *)
Lemma tree_forest_ind ns (P : Z -> Z -> list (Z * Z) -> Prop) (Q : Z -> list Z -> list (Z * Z) -> Prop) :
  (forall par p v cs l, p <> 0 -> ns !! p = Some (mk_tn v cs par) -> forest_at ns p cs l -> Q p cs l ->
     P par p ((p, v) :: l)) ->
  (forall par, Q par [] []) ->
  (forall par c cs l1 l2, tree_at ns par c l1 -> P par c l1 -> forest_at ns par cs l2 -> Q par cs l2 ->
     Q par (c :: cs) (l1 ++ l2)) ->
  (forall par p l, tree_at ns par p l -> P par p l) /\ (forall par cs l, forest_at ns par cs l -> Q par cs l).
Proof.
  intros H1 H2 H3. split; intros par p l Ht.
  - apply (tree_at_mut ns (fun par p l _ => P par p l) (fun par cs l _ => Q par cs l)); eauto.
  - apply (forest_at_mut ns (fun par p l _ => P par p l) (fun par cs l _ => Q par cs l)); eauto.
Qed.

(** The whole tree: empty, or a root without a parent and its subtree; no
    address occurs twice. *)
Record tree_rep (ns : nodes) (t : tree_t) (l : list (Z * Z)) : Prop := {
  tr_root : t_head t = 0 /\ l = [] \/ tree_at ns 0 (t_head t) l;
  tr_nodup : NoDup l.*1
}.

(** The first node of the preorder that holds the value; 0 when none does. *)
Fixpoint find_value (value : Z) (l : list (Z * Z)) : Z :=
  match l with
  | [] => 0
  | (p, v) :: l => if decide (v = value) then p else find_value value l
  end.

Lemma find_value_app value l1 l2 : (forall p, p ∈ l1.*1 -> p <> 0) ->
  find_value value (l1 ++ l2) = if decide (find_value value l1 = 0) then find_value value l2 else find_value value l1.
Proof.
  induction l1 as [|[p v] l1 IH]; intros Hne; simpl; [done|].
  assert (p <> 0) by (apply Hne; simpl; apply elem_of_cons; by left).
  destruct (decide (v = value)); [by rewrite decide_False|].
  apply IH. intros q Hq. apply Hne. apply elem_of_cons. by right.
Qed.

Lemma tree_nonzero ns :
  (forall par p l, tree_at ns par p l -> forall q, q ∈ l.*1 -> q <> 0) /\
  (forall par cs l, forest_at ns par cs l -> forall q, q ∈ l.*1 -> q <> 0).
Proof.
  apply tree_forest_ind.
  - intros par p v cs l Hp _ _ IH q Hq. apply elem_of_cons in Hq as [->|Hq]; eauto.
  - intros par q Hq. by apply elem_of_nil in Hq.
  - intros par c cs l1 l2 _ IH1 _ IH2 q Hq. rewrite fmap_app in Hq. apply elem_of_app in Hq as [Hq|Hq]; eauto.
Qed.

(** A subtree is read at its own addresses only. *)
Lemma tree_agree ns ns' :
  (forall par p l, tree_at ns par p l -> (forall q, q ∈ l.*1 -> ns' !! q = ns !! q) -> tree_at ns' par p l) /\
  (forall par cs l, forest_at ns par cs l -> (forall q, q ∈ l.*1 -> ns' !! q = ns !! q) -> forest_at ns' par cs l).
Proof.
  apply tree_forest_ind.
  - intros par p v cs l Hp Hl _ IH Hag. econstructor; [done| |].
    + rewrite Hag; [done|]. apply elem_of_cons. by left.
    + apply IH. intros q Hq. apply Hag. apply elem_of_cons. by right.
  - intros par _. constructor.
  - intros par c cs l1 l2 _ IH1 _ IH2 Hag. constructor; [apply IH1|apply IH2];
      intros q Hq; apply Hag; rewrite fmap_app; apply elem_of_app; [by left|by right].
Qed.

Lemma tree_live ns :
  (forall par p l, tree_at ns par p l -> forall q, q ∈ l.*1 -> is_Some (ns !! q)) /\
  (forall par cs l, forest_at ns par cs l -> forall q, q ∈ l.*1 -> is_Some (ns !! q)).
Proof.
  apply tree_forest_ind.
  - intros par p v cs l Hp Hl _ IH q Hq. apply elem_of_cons in Hq as [->|Hq]; eauto.
  - intros par q Hq. by apply elem_of_nil in Hq.
  - intros par c cs l1 l2 _ IH1 _ IH2 q Hq. rewrite fmap_app in Hq. apply elem_of_app in Hq as [Hq|Hq]; eauto.
Qed.

Lemma node_at_done ns p n : ns !! p = Some n -> node_at ns p = Done n.
Proof. unfold node_at. by intros ->. Qed.

(** Fuel for the nodes of the subtree is enough. *)
Lemma find_child_rep ns value :
  (forall par p l, tree_at ns par p l -> forall fuel, (length l <= fuel)%nat ->
     tree_find_child fuel ns p value = Done (find_value value l)) /\
  (forall par cs l, forest_at ns par cs l -> forall fuel, (length l <= fuel)%nat ->
     first_child (fun other =>
        o ← node_at ns other;
        if decide (t_value o = value) then Done other else tree_find_child fuel ns other value) cs
     = Done (find_value value l)).
Proof.
  apply tree_forest_ind.
  - intros par p v cs l Hp Hl _ IH [|fuel] Hf; simpl in Hf; [lia|]. cbn [tree_find_child]. rewrite (node_at_done _ _ _ Hl). cbn [mbind outcome_bind t_value t_children find_value].
    destruct (decide (v = value)); [done|]. rewrite <- (IH fuel) by lia. done.
  - done.
  - intros par c cs l1 l2 Ht IH1 _ IH2 fuel Hf. rewrite length_app in Hf.
    rewrite find_value_app by apply (proj1 (tree_nonzero ns) _ _ _ Ht).
    assert (Hc : (o ← node_at ns c; if decide (t_value o = value) then Done c else tree_find_child fuel ns c value)
      = Done (find_value value l1)).
    { rewrite (IH1 fuel) by lia. destruct Ht as [par c v cs' l Hp Hl Hfo]. rewrite (node_at_done _ _ _ Hl). simpl. by case_decide. }
    cbn [first_child]. rewrite Hc. simpl. destruct (decide (find_value value l1 = 0)); [|done].
    apply IH2. lia.
Qed.

(** ** Inserting *)

Lemma forest_snoc ns par cs l new v :
  forest_at ns par cs l -> new <> 0 -> ns !! new = Some (mk_tn v [] par) ->
  forest_at ns par (cs ++ [new]) (l ++ [(new, v)]).
Proof.
  intros Hf Hne Hl. induction Hf as [par|par c cs l1 l2 Ht Hf IH]; simpl.
  - change [(new, v)] with ([(new, v)] ++ []). constructor; [|constructor].
    econstructor; [done|done|constructor].
  - rewrite <- (assoc_L (++)). constructor; [done|by apply IH].
Qed.

Lemma nodup_app_l (l1 l2 : list (Z * Z)) : NoDup (l1 ++ l2).*1 -> NoDup l1.*1.
Proof. rewrite fmap_app. intros Hn. by apply NoDup_app in Hn as (? & _ & _). Qed.
Lemma nodup_app_r (l1 l2 : list (Z * Z)) : NoDup (l1 ++ l2).*1 -> NoDup l2.*1.
Proof. rewrite fmap_app. intros Hn. by apply NoDup_app in Hn as (_ & _ & ?). Qed.
Lemma nodup_app_disj (l1 l2 : list (Z * Z)) q : NoDup (l1 ++ l2).*1 -> q ∈ l1.*1 -> q ∉ l2.*1.
Proof. rewrite fmap_app. intros Hn. apply NoDup_app in Hn as (_ & Hd & _). apply Hd. Qed.

Lemma insert_below ns new v q vq cq pq :
  ns !! q = Some (mk_tn vq cq pq) -> ns !! new = None -> new <> 0 ->
  let ns' := <[q := mk_tn vq (cq ++ [new]) pq]> (<[new := mk_tn v [] q]> ns) in
  (forall par p l, tree_at ns par p l -> NoDup l.*1 -> q ∈ l.*1 ->
     exists l1 l2, l = l1 ++ l2 /\ q ∈ l1.*1 /\ tree_at ns' par p (l1 ++ (new, v) :: l2)) /\
  (forall par cs l, forest_at ns par cs l -> NoDup l.*1 -> q ∈ l.*1 ->
     exists l1 l2, l = l1 ++ l2 /\ q ∈ l1.*1 /\ forest_at ns' par cs (l1 ++ (new, v) :: l2)).
Proof.
  intros Hq Hnew Hne ns'. assert (Hqn : q <> new) by congruence.
  assert (Hag : forall a, a <> q -> is_Some (ns !! a) -> ns' !! a = ns !! a).
  { intros a Ha [x Hx]. unfold ns'. rewrite !lookup_insert_ne by congruence. done. }
  apply tree_forest_ind.
  - intros par p w cs l Hp Hl Hf IH Hnd Hin. apply NoDup_cons in Hnd as [Hpl Hnd].
    destruct (decide (q = p)) as [->|Hqp].
    + rewrite Hl in Hq. injection Hq as -> -> ->. exists ((p, vq) :: l), []. rewrite app_nil_r.
      split; [done|]. split; [apply elem_of_cons; by left|]. simpl. econstructor; [done|apply lookup_insert_eq|].
      apply forest_snoc; [|done|unfold ns'; by rewrite lookup_insert_ne, lookup_insert_eq by done].
      apply (proj2 (tree_agree ns ns') _ _ _ Hf). intros a Ha.
      apply Hag; [by intros ->|by apply (proj2 (tree_live ns) _ _ _ Hf)].
    + apply elem_of_cons in Hin as [|Hin]; [done|]. destruct (IH Hnd Hin) as (l1 & l2 & -> & H1 & H2).
      exists ((p, w) :: l1), l2. split; [done|]. split; [apply elem_of_cons; by right|]. simpl.
      econstructor; [done| |done]. rewrite Hag; [done|congruence|by eexists].
  - intros par _ Hin. by apply elem_of_nil in Hin.
  - intros par c cs l1 l2 Ht IH1 Hf IH2 Hnd Hin. pose proof Hin as Hin'. rewrite fmap_app in Hin'.
    destruct (decide (q ∈ l1.*1)) as [H1|H1].
    + destruct (IH1 (nodup_app_l _ _ Hnd) H1) as (a & b & -> & Hqa & Hab). exists a, (b ++ l2).
      rewrite <- (assoc_L (++)). split; [done|]. split; [done|].
      change ((new, v) :: b ++ l2) with (((new, v) :: b) ++ l2). rewrite (assoc_L (++)). constructor; [done|].
      apply (proj2 (tree_agree ns ns') _ _ _ Hf). intros x Hx.
      apply Hag; [intros ->; by apply (nodup_app_disj _ _ _ Hnd H1)|by apply (proj2 (tree_live ns) _ _ _ Hf)].
    + apply elem_of_app in Hin' as [|H2]; [done|].
      destruct (IH2 (nodup_app_r _ _ Hnd) H2) as (a & b & -> & Hqa & Hab). exists (l1 ++ a), b.
      rewrite <- !(assoc_L (++)). split; [done|]. split; [rewrite fmap_app; apply elem_of_app; by right|].
      constructor; [|done].
      apply (proj1 (tree_agree ns ns') _ _ _ Ht). intros x Hx.
      apply Hag; [by intros ->|by apply (proj1 (tree_live ns) _ _ _ Ht)].
Qed.

(** [chain ns top q d]: [d] parent pointers lead from [q] to [top]. *)
Inductive chain (ns : nodes) (top : Z) : Z -> nat -> Prop :=
| chain_top : top <> 0 -> chain ns top top 0
| chain_up q n d : q <> 0 -> q <> top -> ns !! q = Some n -> chain ns top (t_parent n) d -> chain ns top q (S d).

Lemma chain_below ns top :
  (forall par p l, tree_at ns par p l -> top ∉ l.*1 -> forall k q, chain ns top par k -> q ∈ l.*1 ->
     exists d, chain ns top q d /\ (d <= k + length l)%nat) /\
  (forall par cs l, forest_at ns par cs l -> top ∉ l.*1 -> forall k q, chain ns top par k -> q ∈ l.*1 ->
     exists d, chain ns top q d /\ (d <= k + length l)%nat).
Proof.
  apply tree_forest_ind.
  - intros par p v cs l Hp Hl Hf IH Htop k q Hk Hq. apply not_elem_of_cons in Htop as [Htp Htl].
    assert (Hc : chain ns top p (S k)) by (eapply chain_up; [done|by intros ->|done|done]).
    apply elem_of_cons in Hq as [->|Hq]; simpl; [exists (S k); split; [done|lia]|].
    destruct (IH Htl _ _ Hc Hq) as (d & Hd & Hle). exists d. split; [done|lia].
  - intros par _ k q _ Hq. by apply elem_of_nil in Hq.
  - intros par c cs l1 l2 _ IH1 _ IH2 Htop k q Hk Hq. rewrite fmap_app, not_elem_of_app in Htop.
    destruct Htop as [Ht1 Ht2]. rewrite fmap_app in Hq. rewrite length_app.
    apply elem_of_app in Hq as [Hq|Hq]; [destruct (IH1 Ht1 _ _ Hk Hq) as (d & Hd & Hle)|
      destruct (IH2 Ht2 _ _ Hk Hq) as (d & Hd & Hle)]; exists d; (split; [done|lia]).
Qed.

Lemma chain_root ns par top l q : tree_at ns par top l -> NoDup l.*1 -> q ∈ l.*1 ->
  exists d, chain ns top q d /\ (d < length l)%nat.
Proof.
  intros Ht. destruct Ht as [par top v cs l Hp Hl Hf]. intros [Hnd _]%NoDup_cons Hq.
  apply elem_of_cons in Hq as [->|Hq]; [exists 0%nat; split; [by constructor|simpl; lia]|].
  destruct (proj2 (chain_below ns top) _ _ _ Hf Hnd 0%nat q (chain_top ns top Hp) Hq) as (d & Hd & Hle).
  exists d. split; [done|simpl; lia].
Qed.

Lemma climb_height_chain fuel ns t q d k : chain ns (t_head t) q d -> (d < fuel)%nat ->
  climb_height fuel ns t q k
  = Done (mk_tree (t_head t) (Z.max (t_height t) (u64 (k + Z.of_nat d)))).
Proof.
  intros Hc. revert fuel k. induction Hc as [Hne|q n d Hq Hqt Hl Hc IH]; intros [|fuel] k Hf; try lia.
  - simpl. rewrite decide_False, decide_True by done. rewrite Z.add_0_r.
    destruct (decide (t_height t < u64 k)).
    + by rewrite Z.max_r by lia.
    + rewrite Z.max_l by lia. by destruct t.
  - simpl. rewrite !decide_False by done. rewrite (node_at_done _ _ _ Hl). simpl. rewrite IH by lia.
    do 4 f_equal. lia.
Qed.

Lemma calculate_height_grows ns :
  (forall par p l, tree_at ns par p l -> forall fuel k h, (length l <= fuel)%nat ->
     exists h', tree_calculate_height fuel ns p k h = Done h' /\ h <= h') /\
  (forall par cs l, forest_at ns par cs l -> forall fuel k h, (length l <= fuel)%nat ->
     exists h', each_child (fun c h => tree_calculate_height fuel ns c k h) cs h = Done h' /\ h <= h').
Proof.
  apply tree_forest_ind.
  - intros par p v cs l Hp Hl _ IH [|fuel] k h Hf; simpl in Hf; [lia|]. cbn [tree_calculate_height].
    rewrite (node_at_done _ _ _ Hl). cbn [mbind outcome_bind t_children].
    destruct (IH fuel (k + 1) h ltac:(lia)) as (h1 & -> & Hle). simpl. eexists. split; [done|]. case_decide; lia.
  - intros par fuel k h _. exists h. split; [done|lia].
  - intros par c cs l1 l2 _ IH1 _ IH2 fuel k h Hf. rewrite length_app in Hf. simpl.
    destruct (IH1 fuel k h ltac:(lia)) as (h1 & -> & H1). simpl.
    destruct (IH2 fuel k h1 ltac:(lia)) as (h2 & -> & H2). exists h2. split; [done|lia].
Qed.

Lemma insert_preorder_nodup (l1 l2 : list (Z * Z)) new v :
  NoDup (l1 ++ l2).*1 -> new ∉ (l1 ++ l2).*1 -> NoDup (l1 ++ (new, v) :: l2).*1.
Proof.
  rewrite !fmap_app, fmap_cons. simpl. intros Hnd Hni. rewrite <- Permutation_middle. by apply NoDup_cons.
Qed.

Lemma insert_child_rep `{NodeAlloc} fuel ns t l q value :
  tree_rep ns t l -> q ∈ l.*1 -> (length l < fuel)%nat ->
  exists new ns' t' l1 l2 nq d,
    tree_insert_child fuel ns t q value = Done (new, ns', t') /\
    l = l1 ++ l2 /\ q ∈ l1.*1 /\ tree_rep ns' t' (l1 ++ (new, value) :: l2) /\
    ns !! new = None /\ ns' !! new = Some (mk_tn value [] q) /\
    ns !! q = Some nq /\ ns' !! q = Some (mk_tn (t_value nq) (t_children nq ++ [new]) (t_parent nq)) /\
    (forall p, p <> q -> p <> new -> ns' !! p = ns !! p) /\
    chain ns' (t_head t) q d /\ t' = mk_tree (t_head t) (Z.max (t_height t) (u64 (Z.of_nat d))).
Proof.
  intros [Hroot Hnd] Hq Hf. destruct Hroot as [[_ ->]|Ht]; [by apply elem_of_nil in Hq|].
  destruct (nalloc_fresh ns) as [Hne Hfresh]. set (new := nalloc ns) in *.
  destruct (proj1 (tree_live ns) _ _ _ Ht q Hq) as [[vq cq pq] Hlq].
  assert (Hqn : q <> new) by congruence.
  destruct (proj1 (insert_below ns new value q vq cq pq Hlq Hfresh Hne) _ _ _ Ht Hnd Hq) as (l1 & l2 & -> & Hql & Ht').
  set (ns' := <[q := mk_tn vq (cq ++ [new]) pq]> (<[new := mk_tn value [] q]> ns)) in *.
  assert (Hni : new ∉ (l1 ++ l2).*1).
  { intros Hi. destruct (proj1 (tree_live ns) _ _ _ Ht new Hi) as [x Hx]. congruence. }
  assert (Hhead : t_head t <> 0) by (by inversion Ht).
  assert (Hnd' := insert_preorder_nodup l1 l2 new value Hnd Hni).
  assert (Hqin : q ∈ (l1 ++ (new, value) :: l2).*1) by (rewrite fmap_app; apply elem_of_app; by left).
  destruct (chain_root ns' 0 (t_head t) _ q Ht' Hnd' Hqin) as (d & Hd & Hdl).
  rewrite length_app in Hf, Hdl. simpl in Hdl.
  exists new, ns', (mk_tree (t_head t) (Z.max (t_height t) (u64 (Z.of_nat d)))), l1, l2, (mk_tn vq cq pq), d.
  assert (Hq0 : q <> 0) by (apply (proj1 (tree_nonzero ns) _ _ _ Ht); done).
  split_and!; try done.
  - unfold tree_insert_child. fold new. cbv zeta. rewrite decide_False by tauto. cbn [mbind outcome_bind].
    rewrite decide_False by done. unfold set_parent. rewrite (node_at_done _ new (mk_tn value [] 0)) by apply lookup_insert_eq.
    cbn [mbind outcome_bind t_value t_children]. rewrite insert_insert_eq.
    rewrite (node_at_done _ q (mk_tn vq cq pq)) by (rewrite lookup_insert_ne by done; exact Hlq). cbn [mbind outcome_bind t_children].
    unfold set_children. rewrite (node_at_done _ q (mk_tn vq cq pq)) by (rewrite lookup_insert_ne by done; exact Hlq).
    cbn [mbind outcome_bind t_value t_parent]. fold ns'. rewrite (climb_height_chain _ _ _ _ _ _ Hd) by lia. done.
  - constructor; [by right|done].
  - unfold ns'. by rewrite lookup_insert_ne, lookup_insert_eq by done.
  - apply lookup_insert_eq.
  - intros p Hp Hpn. unfold ns'. by rewrite !lookup_insert_ne by done.
Qed.

(** Tree_insert_child appends a new leaf to the children of the node: the
    preorder gains exactly the new node, right behind the subtree of its
    parent; every other node keeps its value, parent and children; and the call
    returns with the new node's depth below the root taken into the height. *)
Theorem tree_insert_child_spec `{NodeAlloc} fuel ns t l q value :
  tree_rep ns t l -> q ∈ l.*1 -> (length l < fuel)%nat ->
  exists new ns' t' l1 l2 nq d,
    tree_insert_child fuel ns t q value = Done (new, ns', t') /\
    l = l1 ++ l2 /\ q ∈ l1.*1 /\ tree_rep ns' t' (l1 ++ (new, value) :: l2) /\
    ns !! new = None /\ ns' !! new = Some (mk_tn value [] q) /\
    ns !! q = Some nq /\ ns' !! q = Some (mk_tn (t_value nq) (t_children nq ++ [new]) (t_parent nq)) /\
    (forall p, p <> q -> p <> new -> ns' !! p = ns !! p) /\
    chain ns' (t_head t) q d /\ t' = mk_tree (t_head t) (Z.max (t_height t) (u64 (Z.of_nat d))).
Proof. apply insert_child_rep. Qed.

(** Searching.  tree_find_child_root returns, in every tree, the first node
    in preorder that holds the value, and NULL exactly when no node holds it. *)
Theorem tree_find_child_root_spec fuel ns t l value :
  tree_rep ns t l -> t_head t <> 0 -> (length l <= fuel)%nat ->
  tree_find_child_root fuel ns t value = Done (find_value value l) /\
  (find_value value l = 0 <-> value ∉ l.*2) /\
  (find_value value l <> 0 -> (find_value value l, value) ∈ l).
Proof.
  intros [Hroot Hnd] Hh Hf. destruct Hroot as [[? _]|Ht]; [done|].
  split; [by apply (proj1 (find_child_rep ns value) _ _ _ Ht)|].
  pose proof (proj1 (tree_nonzero ns) _ _ _ Ht) as Hnz. clear Ht Hf Hnd. induction l as [|[p v] l IH]; cbn [find_value].
  - split; [|done]. split; [|done]. intros _. apply not_elem_of_nil.
  - rewrite elem_of_cons. destruct IH as [IH1 IH2]; [intros q Hq; apply Hnz; apply elem_of_cons; by right|].
    destruct (decide (v = value)) as [->|Hv].
    + assert (p <> 0) by (apply Hnz; apply elem_of_cons; by left). split; [split; [done|]|by left].
      intros Hni. exfalso. apply Hni. apply elem_of_cons. by left.
    + split; [|intros Hz; right; by apply IH2]. rewrite IH1, fmap_cons, not_elem_of_cons. simpl. split; [|tauto]. intros Hni. by split.
Qed.

(** ** Destroying *)

Definition gone (ns ns' : nodes) (l : list (Z * Z)) : Prop :=
  forall a, (a ∈ l.*1 -> ns' !! a = None) /\ (a ∉ l.*1 -> ns' !! a = ns !! a).

Lemma destroy_rep ns :
  (forall par p l, tree_at ns par p l -> forall fuel ns0 fr, NoDup l.*1 -> (length l <= fuel)%nat ->
     (forall q, q ∈ l.*1 -> ns0 !! q = ns !! q) ->
     exists ns' vs, tree_destroy_node fuel p (ns0, fr) = Done (ns', fr ++ vs) /\ vs ≡ₚ l.*2 /\ gone ns0 ns' l) /\
  (forall par cs l, forest_at ns par cs l -> forall fuel ns0 fr, NoDup l.*1 -> (length l <= fuel)%nat ->
     (forall q, q ∈ l.*1 -> ns0 !! q = ns !! q) ->
     exists ns' vs, each_child (tree_destroy_node fuel) cs (ns0, fr) = Done (ns', fr ++ vs) /\ vs ≡ₚ l.*2 /\ gone ns0 ns' l).
Proof.
  apply tree_forest_ind.
  - intros par p v cs l Hp Hl _ IH [|fuel] ns0 fr Hnd Hf Hag; simpl in Hf; [lia|]. cbn [tree_destroy_node].
    rewrite decide_False by done.
    assert (Hl0 : ns0 !! p = Some (mk_tn v cs par)) by (rewrite Hag; [done|apply elem_of_cons; by left]).
    cbn [fst]. rewrite (node_at_done _ _ _ Hl0). cbn [mbind outcome_bind t_children].
    apply NoDup_cons in Hnd as [Hpl Hnd].
    destruct (IH fuel ns0 fr Hnd ltac:(lia)) as (ns' & vs & -> & Hperm & Hgone);
      [intros q Hq; apply Hag; apply elem_of_cons; by right|].
    exists (delete p ns'), (vs ++ [v]). simpl. rewrite (assoc_L (++)). split; [done|]. split.
    + rewrite Hperm. by rewrite Permutation_app_comm.
    + intros a. split.
      * intros [->|Ha]%elem_of_cons; [apply lookup_delete_eq|].
        destruct (decide (a = p)) as [->|Hap]; [apply lookup_delete_eq|].
        rewrite lookup_delete_ne by done. by apply (proj1 (Hgone a)).
      * intros [Hap Ha]%not_elem_of_cons. simpl in Hap. rewrite lookup_delete_ne by done. by apply (proj2 (Hgone a)).
  - intros par fuel ns0 fr _ _ _. exists ns0, []. rewrite app_nil_r. split; [done|]. split; [done|].
    intros a. split; [|done]. intros Ha. by apply elem_of_nil in Ha.
  - intros par c cs l1 l2 _ IH1 _ IH2 fuel ns0 fr Hnd Hf Hag. rewrite length_app in Hf. cbn [each_child].
    destruct (IH1 fuel ns0 fr (nodup_app_l _ _ Hnd) ltac:(lia)) as (ns1 & vs1 & -> & Hp1 & Hg1);
      [intros q Hq; apply Hag; rewrite fmap_app; apply elem_of_app; by left|]. cbn [mbind outcome_bind].
    destruct (IH2 fuel ns1 (fr ++ vs1) (nodup_app_r _ _ Hnd) ltac:(lia)) as (ns2 & vs2 & -> & Hp2 & Hg2).
    { intros q Hq. rewrite (proj2 (Hg1 q)); [apply Hag; rewrite fmap_app; apply elem_of_app; by right|].
      intros Hq1. by apply (nodup_app_disj _ _ q Hnd). }
    exists ns2, (vs1 ++ vs2). rewrite (assoc_L (++)). split; [done|]. rewrite fmap_app, Hp1, Hp2. split; [done|].
    intros a. rewrite fmap_app. split.
    + intros [Ha|Ha]%elem_of_app; [|by apply (proj1 (Hg2 a))].
      rewrite (proj2 (Hg2 a)); [by apply (proj1 (Hg1 a))|]. by apply (nodup_app_disj _ _ a Hnd).
    + intros [Ha1 Ha2]%not_elem_of_app. rewrite (proj2 (Hg2 a)) by done. by apply (proj2 (Hg1 a)).
Qed.

(** Tree_destroy gives every node of the tree back once, frees every value
    once, and touches no other node. *)
Theorem tree_destroy_complete fuel ns t l : tree_rep ns t l -> (length l < fuel)%nat ->
  exists ns' freed, tree_destroy fuel t ns = Done (ns', freed) /\ freed ≡ₚ l.*2 /\ gone ns ns' l.
Proof.
  intros [[[Hh ->]|Ht] Hnd] Hf; unfold tree_destroy.
  - destruct fuel; [simpl in Hf; lia|]. rewrite Hh. exists ns, []. split; [done|]. split; [done|].
    intros a. split; [|done]. intros Ha. by apply elem_of_nil in Ha.
  - apply (proj1 (destroy_rep ns) _ _ _ Ht fuel ns []); [done|lia|done].
Qed.

(** ** Removing *)

Lemma forest_roots ns par cs l q : forest_at ns par cs l -> q ∈ cs -> q ∈ l.*1.
Proof.
  intros Hf Hq. induction Hf as [|par c cs l1 l2 Ht Hf IH]; [by apply elem_of_nil in Hq|].
  rewrite fmap_app. apply elem_of_app. apply elem_of_cons in Hq as [->|Hq]; [left|right; by apply IH].
  inversion Ht; subst. apply elem_of_cons. by left.
Qed.

Lemma unlink_child_none stale cs q : q ∉ cs -> unlink_child stale cs q = Done cs.
Proof.
  induction cs as [|c cs IH]; intros Hq; [done|]. apply not_elem_of_cons in Hq as [Hc Hq].
  simpl. rewrite decide_False by done. by rewrite IH.
Qed.
Lemma unlink_child_first stale cs1 q cs2 : q ∉ cs1 ->
  unlink_child stale (cs1 ++ q :: cs2) q = if stale then Done (cs1 ++ cs2) else Fault.
Proof.
  induction cs1 as [|c cs1 IH]; intros Hq; simpl.
  - by rewrite decide_True.
  - apply not_elem_of_cons in Hq as [Hc Hq]. rewrite decide_False by done. rewrite IH by done. by destruct stale.
Qed.

(** A node below the root is a child of the node its parent pointer names. *)
Lemma child_of_parent ns :
  (forall par p l, tree_at ns par p l -> forall q n, q ∈ l.*1 -> q <> p -> ns !! q = Some n ->
     t_parent n ∈ l.*1 /\ exists m, ns !! t_parent n = Some m /\ q ∈ t_children m) /\
  (forall par cs l, forest_at ns par cs l -> forall q n, q ∈ l.*1 -> ns !! q = Some n ->
     (q ∈ cs /\ t_parent n = par) \/
     (t_parent n ∈ l.*1 /\ exists m, ns !! t_parent n = Some m /\ q ∈ t_children m)).
Proof.
  apply tree_forest_ind.
  - intros par p v cs l Hp Hl Hf IH q n Hq Hqp Hn. apply elem_of_cons in Hq as [|Hq]; [done|].
    destruct (IH q n Hq Hn) as [[Hc Hpar]|(Hpl & m & Hm & Hc)].
    + rewrite Hpar. split; [apply elem_of_cons; by left|]. eexists. by split.
    + split; [apply elem_of_cons; by right|]. by exists m.
  - intros par q n Hq. by apply elem_of_nil in Hq.
  - intros par c cs l1 l2 Ht IH1 _ IH2 q n Hq Hn. rewrite fmap_app in *. apply elem_of_app in Hq as [Hq|Hq].
    + destruct (decide (q = c)) as [->|Hqc].
      * left. split; [apply elem_of_cons; by left|]. destruct Ht as [par c v cs' l Hp Hl Hf].
        rewrite Hl in Hn. by injection Hn as <-.
      * right. destruct (IH1 q n Hq Hqc Hn) as (Hp & Hm). split; [apply elem_of_app; by left|done].
    + destruct (IH2 q n Hq Hn) as [[Hc Hp]|[Hp Hm]].
      * left. split; [apply elem_of_cons; by right|done].
      * right. split; [apply elem_of_app; by right|done].
Qed.

Section Detach.
Variables (ns : nodes) (q pq vq vp pp : Z) (csq cs1 cs2 : list Z).
Hypotheses (Hq : ns !! q = Some (mk_tn vq csq pq)) (Hpq : ns !! pq = Some (mk_tn vp (cs1 ++ q :: cs2) pp))
  (Hfirst : q ∉ cs1).

#[local] Abbreviation ns' := (<[q := mk_tn vq csq 0]> (<[pq := mk_tn vp (cs1 ++ cs2) pp]> ns)).

Lemma detach_other a : a <> q -> a <> pq -> ns' !! a = ns !! a.
Proof. intros Ha Hb. by rewrite !lookup_insert_ne by done. Qed.

Lemma detached_root par lq : tree_at ns par q lq -> pq ∉ lq.*1 -> NoDup lq.*1 -> tree_at ns' 0 q lq.
Proof.
  intros Ht Hpl Hnd. inversion Ht as [? ? v cs l Hqz Hl Hf]; subst. rewrite Hq in Hl. injection Hl as <- <- <-.
  rewrite fmap_cons in *. apply NoDup_cons in Hnd as [Hql _]. apply not_elem_of_cons in Hpl as [_ Hpl].
  econstructor; [done|apply lookup_insert_eq|].
  apply (proj2 (tree_agree ns ns') _ _ _ Hf). intros a Ha. apply detach_other; by intros ->.
Qed.

Lemma first_split (a1 a2 b1 b2 : list Z) : q ∉ a1 -> q ∉ b1 -> a1 ++ q :: a2 = b1 ++ q :: b2 -> a1 = b1 /\ a2 = b2.
Proof.
  revert b1. induction a1 as [|x a1 IH]; intros [|y b1] Ha Hb E; simpl in E; try (injection E as -> E).
  - by injection E as ->.
  - exfalso. apply Hb. apply elem_of_cons. by left.
  - exfalso. apply Ha. apply elem_of_cons. by left.
  - apply not_elem_of_cons in Ha as [_ Ha], Hb as [_ Hb]. by destruct (IH b1 Ha Hb E) as [-> ->].
Qed.

Lemma detach_rep :
  (forall par p l, tree_at ns par p l -> NoDup l.*1 -> q ∈ l.*1 -> q <> p ->
     exists l1 lq l2, l = l1 ++ lq ++ l2 /\ tree_at ns' 0 q lq /\ tree_at ns' par p (l1 ++ l2)) /\
  (forall par cs l, forest_at ns par cs l -> par ∉ l.*1 -> NoDup l.*1 -> q ∈ l.*1 ->
     (exists a b l1 lq l2, cs = a ++ q :: b /\ q ∉ a /\ l = l1 ++ lq ++ l2 /\
        tree_at ns par q lq /\ forest_at ns par (a ++ b) (l1 ++ l2)) \/
     (q ∉ cs /\ exists l1 lq l2, l = l1 ++ lq ++ l2 /\ tree_at ns' 0 q lq /\ forest_at ns' par cs (l1 ++ l2))).
Proof.
  apply tree_forest_ind.
  - intros par p v cs l Hp Hl Hf IH Hnd Hin Hqp.
    rewrite fmap_cons in Hnd, Hin. apply NoDup_cons in Hnd as [Hpl Hnd].
    apply elem_of_cons in Hin as [|Hin]; [done|].
    destruct (IH Hpl Hnd Hin) as [(a & b & l1 & lq & l2 & -> & Ha & -> & Ht & Hf2)|(Hni & l1 & lq & l2 & -> & Ht & Hf2)].
    + assert (p = pq) as ->. { inversion Ht as [? ? w cs' l' _ Hl' _]; subst. rewrite Hq in Hl'. by injection Hl'. }
      rewrite Hpq in Hl. injection Hl as <- E <-. apply first_split in E as [<- <-]; [|done|done].
      rewrite !fmap_app, !not_elem_of_app in Hpl. destruct Hpl as (Hp1 & Hpq' & Hp2).
      exists ((pq, vp) :: l1), lq, l2. split; [done|]. split.
      * eapply detached_root; [exact Ht|done|]. apply nodup_app_r in Hnd. by apply nodup_app_l in Hnd.
      * simpl. econstructor; [done|rewrite lookup_insert_ne by done; apply lookup_insert_eq|].
        apply (proj2 (tree_agree ns ns') _ _ _ Hf2). intros x Hx. apply detach_other.
        -- intros ->. assert (Hqlq : q ∈ lq.*1) by (inversion Ht; subst; apply elem_of_cons; by left).
           rewrite fmap_app in Hx. apply elem_of_app in Hx as [Hx|Hx].
           ++ apply (nodup_app_disj _ _ q Hnd Hx). rewrite fmap_app. apply elem_of_app. by left.
           ++ apply nodup_app_r in Hnd. by apply (nodup_app_disj _ _ q Hnd Hqlq).
        -- intros ->. rewrite fmap_app in Hx. by apply elem_of_app in Hx as [|].
    + exists ((p, v) :: l1), lq, l2. split; [done|]. split; [done|]. simpl. econstructor; [done| |done].
      rewrite detach_other; [done|done|]. intros ->. rewrite Hpq in Hl. injection Hl as <- <- <-.
      apply Hni. apply elem_of_app. right. apply elem_of_cons. by left.
  - intros par _ _ Hin. by apply elem_of_nil in Hin.
  - intros par c cs l1 l2 Ht IH1 Hf IH2 Hpar Hnd Hin. rewrite fmap_app in Hpar, Hin.
    apply not_elem_of_app in Hpar as [Hpar1 Hpar2].
    destruct (decide (q = c)) as [->|Hqc].
    + left. exists [], cs, [], l1, l2. split_and!; try done. apply not_elem_of_nil.
    + assert (Hag : forall l : list (Z * Z), (q ∉ l.*1) -> (pq ∉ l.*1) -> forall x, x ∈ l.*1 -> ns' !! x = ns !! x).
      { intros l H1 H2 x Hx. apply detach_other; by intros ->. }
      destruct (decide (q ∈ l1.*1)) as [H1|H1].
      * right. destruct (IH1 (nodup_app_l _ _ Hnd) H1 Hqc) as (a & lq & b & -> & Hdq & Hrest).
        destruct (proj1 (child_of_parent ns) _ _ _ Ht q _ H1 Hqc Hq) as (Hp & m & Hm & Hc). simpl in Hp.
        pose proof (nodup_app_disj _ _ _ Hnd H1) as Hq2. pose proof (nodup_app_disj _ _ _ Hnd Hp) as Hp2.
        split.
        -- intros Hqcs. apply elem_of_cons in Hqcs as [->|Hqcs]; [done|]. by apply Hq2, (forest_roots _ _ _ _ _ Hf).
        -- exists a, lq, (b ++ l2). rewrite <- !(assoc_L (++)). split; [done|]. split; [done|]. rewrite (assoc_L (++)).
           constructor; [done|]. by apply (proj2 (tree_agree ns ns') _ _ _ Hf), Hag.
      * apply elem_of_app in Hin as [|Hin]; [done|].
        destruct (IH2 Hpar2 (nodup_app_r _ _ Hnd) Hin) as
          [(a & b & m1 & lq & m2 & -> & Ha & -> & Hdq & Hrest)|(Hni & m1 & lq & m2 & -> & Hdq & Hrest)].
        -- left. exists (c :: a), b, (l1 ++ m1), lq, m2. rewrite <- !(assoc_L (++)). split_and!; try done.
           ++ by apply not_elem_of_cons.
           ++ simpl. by constructor.
        -- right. split; [by apply not_elem_of_cons|]. exists (l1 ++ m1), lq, m2. rewrite <- !(assoc_L (++)).
           split; [done|]. split; [done|]. constructor; [|done].
           apply (proj1 (tree_agree ns ns') _ _ _ Ht), Hag; [done|]. intros Hp1.
           destruct (proj2 (child_of_parent ns) _ _ _ Hf q _ Hin Hq) as [[Hc Hp]|(Hp & _)]; simpl in Hp.
           ++ by rewrite Hp in Hp1.
           ++ by apply (nodup_app_disj _ _ pq Hnd).
Qed.

End Detach.

Lemma tree_remove_rep fuel ns t l q nq :
  tree_rep ns t l -> q ∈ l.*1 -> q <> t_head t -> ns !! q = Some nq -> (length l <= fuel)%nat ->
  (exists ns' h l1 lq l2,
    tree_remove true fuel ns t q = Done (ns', mk_tree (t_head t) h) /\ t_height t <= h /\
    l = l1 ++ lq ++ l2 /\ tree_at ns' 0 q lq /\ tree_rep ns' (mk_tree (t_head t) h) (l1 ++ l2)) /\
  tree_remove false fuel ns t q = Fault.
Proof.
  intros [Hroot Hnd] Hq Hqh Hlq Hf. destruct Hroot as [[_ ->]|Ht]; [by apply elem_of_nil in Hq|].
  destruct (proj1 (child_of_parent ns) _ _ _ Ht q nq Hq Hqh Hlq) as (Hpl & [vp cp pp] & Hm & Hc). simpl in Hc.
  destruct nq as [vq csq pq]. simpl in *.
  assert (Hp0 : pq <> 0) by (by apply (proj1 (tree_nonzero ns) _ _ _ Ht)).
  assert (Hs : exists cs1 cs2, cp = cs1 ++ q :: cs2 /\ q ∉ cs1).
  { apply list_elem_of_split_l in Hc as (cs1 & cs2 & -> & Hc). by exists cs1, cs2. }
  destruct Hs as (cs1 & cs2 & -> & Hfst).
  assert (Hrun : forall stale, tree_remove stale fuel ns t q =
    if stale : bool then
      ns' ← set_parent (<[pq := mk_tn vp (cs1 ++ cs2) pp]> ns) q 0;
      h ← tree_calculate_height fuel ns' (t_head t) 0 (t_height t); Done (ns', mk_tree (t_head t) h)
    else Fault).
  { intros stale. unfold tree_remove. rewrite (node_at_done _ _ _ Hlq). cbn [mbind outcome_bind t_parent].
    rewrite decide_False by done. rewrite (node_at_done _ _ _ Hm). cbn [mbind outcome_bind t_children].
    rewrite unlink_child_first by done. destruct stale; [|done]. cbn [mbind outcome_bind]. unfold set_children.
    by rewrite (node_at_done _ _ _ Hm). }
  split; [|by rewrite Hrun]. rewrite Hrun.
  destruct (proj1 (detach_rep ns q pq vq vp pp csq cs1 cs2 Hlq Hm Hfst) _ _ _ Ht Hnd Hq Hqh)
    as (l1 & lq & l2 & -> & Hdq & Hrest).
  assert (Hqp : q <> pq).
  { intros <-.
    destruct (chain_root ns 0 _ _ q Ht Hnd Hq) as (d & Hd & _). clear -Hd Hlq Hqh.
    induction Hd as [|? n d H0 Hne Hl Hd IH]; [done|]. rewrite Hlq in Hl. injection Hl as <-. simpl in IH. by apply IH. }
  unfold set_parent. rewrite (node_at_done _ q (mk_tn vq csq pq)) by (rewrite lookup_insert_ne by congruence; done).
  cbn [mbind outcome_bind t_value t_children]. rewrite !length_app in Hf.
  destruct (proj1 (calculate_height_grows _) _ _ _ Hrest fuel 0 (t_height t)) as (h & -> & Hle);
    [rewrite length_app; lia|]. cbn [mbind outcome_bind].
  eexists _, h, l1, lq, l2. split; [done|]. split; [done|]. split; [done|]. split; [done|].
  constructor; [by right|]. rewrite !fmap_app in *. apply NoDup_app in Hnd as (N1 & N2 & N3).
  apply NoDup_app in N3 as (_ & _ & N3). apply NoDup_app. split_and!; try done.
  intros x Hx Hx2. apply (N2 x Hx). apply elem_of_app. by right.
Qed.

(** C20: removing.  tree_remove detaches the node with its whole subtree: the
    remaining nodes form the tree without it, in their old preorder, and the
    detached nodes a tree of their own.  The recorded height never shrinks.
    The loop reads the freed list entry: if its word no longer holds NULL the
    call does not return. *)
Theorem tree_remove_spec fuel ns t l q nq :
  tree_rep ns t l -> q ∈ l.*1 -> q <> t_head t -> ns !! q = Some nq -> (length l <= fuel)%nat ->
  (exists ns' h l1 lq l2,
    tree_remove true fuel ns t q = Done (ns', mk_tree (t_head t) h) /\ t_height t <= h /\
    l = l1 ++ lq ++ l2 /\ tree_at ns' 0 q lq /\ tree_rep ns' (mk_tree (t_head t) h) (l1 ++ l2)) /\
  tree_remove false fuel ns t q = Fault.
Proof. apply tree_remove_rep. Qed.

(** ** Examples *)

(** The root 1 with the children 2 and 4; 3 is a child of 2. *)
Definition demo_nodes : nodes :=
  <[1 := mk_tn 10 [2; 4] 0]> (<[2 := mk_tn 20 [3] 1]> (<[3 := mk_tn 30 [] 2]> (<[4 := mk_tn 40 [] 1]> ∅))).
Definition demo_tree : tree_t := mk_tree 1 3.
Definition demo_preorder : list (Z * Z) := [(1, 10); (2, 20); (3, 30); (4, 40)].

Lemma demo_tree_rep : tree_rep demo_nodes demo_tree demo_preorder.
Proof.
  assert (H3 : tree_at demo_nodes 2 3 [(3, 30)]) by (econstructor; [done|reflexivity|constructor]).
  assert (H4 : tree_at demo_nodes 1 4 [(4, 40)]) by (econstructor; [done|reflexivity|constructor]).
  assert (H2 : tree_at demo_nodes 1 2 [(2, 20); (3, 30)]).
  { econstructor; [done|reflexivity|]. apply (forest_cons _ _ 3 [] [(3, 30)] []); [done|constructor]. }
  constructor.
  - right. econstructor; [done|reflexivity|]. apply (forest_cons _ _ 2 [4] [(2, 20); (3, 30)] [(4, 40)]); [done|].
    apply (forest_cons _ _ 4 [] [(4, 40)] []); [done|constructor].
  - apply (bool_decide_unpack _). vm_compute. exact I.
Qed.

(** The address one above every node. *)
Definition next_node (ns : nodes) : Z := map_fold (fun p _ a => Z.max (p + 1) a) 1 ns.

#[export] Instance bump_nodes : NodeAlloc.
Proof.
  refine {| nalloc := next_node |}. intros ns.
  assert (H : (0 < next_node ns) /\ forall p n, ns !! p = Some n -> p < next_node ns).
  { unfold next_node. apply (map_fold_weak_ind (fun a (ns : nodes) => 0 < a /\ forall p n, ns !! p = Some n -> p < a)).
    - split; [lia|]. intros p n. by rewrite lookup_empty.
    - intros p x m a _ [IH1 IH2]. split; [lia|]. intros q n [[-> _]|[_ Hq]]%lookup_insert_Some; [lia|].
      specialize (IH2 q n Hq). lia. }
  destruct H as [Hpos Hbig]. split; [lia|]. destruct (ns !! next_node ns) eqn:E; [|done]. apply Hbig in E. lia.
Defined.

Example tree_insert_child_spec_witness :
  exists new ns' t' l1 l2 nq d,
    tree_insert_child 5 demo_nodes demo_tree 3 50 = Done (new, ns', t') /\
    demo_preorder = l1 ++ l2 /\ 3 ∈ l1.*1 /\ tree_rep ns' t' (l1 ++ (new, 50) :: l2) /\
    demo_nodes !! new = None /\ ns' !! new = Some (mk_tn 50 [] 3) /\
    demo_nodes !! 3 = Some nq /\ ns' !! 3 = Some (mk_tn (t_value nq) (t_children nq ++ [new]) (t_parent nq)) /\
    (forall p, p <> 3 -> p <> new -> ns' !! p = demo_nodes !! p) /\
    chain ns' (t_head demo_tree) 3 d /\ t' = mk_tree (t_head demo_tree) (Z.max (t_height demo_tree) (u64 (Z.of_nat d))).
Proof.
  apply (tree_insert_child_spec 5 demo_nodes demo_tree demo_preorder 3 50).
  - apply demo_tree_rep.
  - apply (bool_decide_unpack _). vm_compute. exact I.
  - simpl. lia.
Defined.

Example tree_find_child_root_spec_witness :
  tree_find_child_root 4 demo_nodes demo_tree 30 = Done (find_value 30 demo_preorder) /\
  (find_value 30 demo_preorder = 0 <-> 30 ∉ demo_preorder.*2) /\
  (find_value 30 demo_preorder <> 0 -> (find_value 30 demo_preorder, 30) ∈ demo_preorder).
Proof. apply (tree_find_child_root_spec 4 demo_nodes demo_tree); [apply demo_tree_rep|done|simpl; lia]. Defined.

Example tree_remove_spec_witness :
  (exists ns' h l1 lq l2,
    tree_remove true 4 demo_nodes demo_tree 2 = Done (ns', mk_tree (t_head demo_tree) h) /\ t_height demo_tree <= h /\
    demo_preorder = l1 ++ lq ++ l2 /\ tree_at ns' 0 2 lq /\ tree_rep ns' (mk_tree (t_head demo_tree) h) (l1 ++ l2)) /\
  tree_remove false 4 demo_nodes demo_tree 2 = Fault.
Proof.
  apply (tree_remove_spec 4 demo_nodes demo_tree demo_preorder 2 (mk_tn 20 [3] 1)).
  - apply demo_tree_rep.
  - apply (bool_decide_unpack _). vm_compute. exact I.
  - done.
  - reflexivity.
  - simpl. lia.
Defined.

(** The height recorded by an insertion counts the root as 0, the one
    recomputed by tree_set_root_node counts it as 1. *)
Example heights_differ :
  (exists ns', tree_insert_child 9 ∅ tree_create 0 10 = Done (1, ns', mk_tree 1 1) /\
   exists ns2, tree_insert_child 9 ns' (mk_tree 1 1) 1 20 = Done (2, ns2, mk_tree 1 1) /\
   tree_set_root_node 9 ns2 (mk_tree 1 1) 1 = Done (mk_tree 1 2)).
Proof. eexists. split; [vm_compute; reflexivity|]. eexists. split; vm_compute; reflexivity. Qed.

(** ** Lemmas for the clients *)

Lemma tree_value ns :
  (forall par p l, tree_at ns par p l -> forall q n, q ∈ l.*1 -> ns !! q = Some n -> (q, t_value n) ∈ l) /\
  (forall par cs l, forest_at ns par cs l -> forall q n, q ∈ l.*1 -> ns !! q = Some n -> (q, t_value n) ∈ l).
Proof.
  apply tree_forest_ind.
  - intros par p v cs l Hp Hl _ IH q n Hq Hn. apply elem_of_cons. apply elem_of_cons in Hq as [->|Hq].
    + left. simpl in Hn. rewrite Hl in Hn. by injection Hn as <-.
    + right. by apply IH.
  - intros par q n Hq. by apply elem_of_nil in Hq.
  - intros par c cs l1 l2 _ IH1 _ IH2 q n Hq Hn. rewrite fmap_app in Hq.
    apply elem_of_app. apply elem_of_app in Hq as [Hq|Hq]; [left; by apply IH1|right; by apply IH2].
Qed.

Lemma find_value_unique v l p : NoDup l.*2 -> (p, v) ∈ l -> find_value v l = p.
Proof.
  induction l as [|[q w] l IH]; intros Hnd Hin; [by apply elem_of_nil in Hin|]. rewrite fmap_cons in Hnd.
  apply NoDup_cons in Hnd as [Hw Hnd]. simpl in *. apply elem_of_cons in Hin as [[= -> ->]|Hin].
  - by rewrite decide_True.
  - rewrite decide_False; [by apply IH|]. intros ->. apply Hw. by apply (list_elem_of_fmap_2 snd _ (p, v)).
Qed.

Lemma tree_children ns :
  (forall par p l, tree_at ns par p l -> forall q n c, q ∈ l.*1 -> ns !! q = Some n -> c ∈ t_children n -> c ∈ l.*1) /\
  (forall par cs l, forest_at ns par cs l -> forall q n c, q ∈ l.*1 -> ns !! q = Some n -> c ∈ t_children n -> c ∈ l.*1).
Proof.
  apply tree_forest_ind.
  - intros par p v cs l Hp Hl Hf IH q n c Hq Hn Hc. apply elem_of_cons. right. apply elem_of_cons in Hq as [->|Hq].
    + simpl in Hn. rewrite Hl in Hn. injection Hn as <-. by apply (forest_roots _ _ _ _ _ Hf).
    + by apply (IH q n).
  - intros par q n c Hq. by apply elem_of_nil in Hq.
  - intros par c cs l1 l2 _ IH1 _ IH2 q n d Hq Hn Hd. rewrite fmap_app in *.
    apply elem_of_app. apply elem_of_app in Hq as [Hq|Hq]; [left; by apply (IH1 q n)|right; by apply (IH2 q n)].
Qed.

(** What the operations need of a non-empty tree. *)
Lemma tree_rep_node ns t l p : tree_rep ns t l -> p ∈ l.*1 ->
  p <> 0 /\ exists n, ns !! p = Some n /\ (p, t_value n) ∈ l /\ forall c, c ∈ t_children n -> c ∈ l.*1.
Proof.
  intros [[[_ ->]|Ht] _] Hp; [by apply elem_of_nil in Hp|]. split; [by apply (proj1 (tree_nonzero ns) _ _ _ Ht)|].
  destruct (proj1 (tree_live ns) _ _ _ Ht p Hp) as [n Hn]. exists n. split; [done|].
  split; [by apply (proj1 (tree_value ns) _ _ _ Ht)|]. intros c Hc. by apply (proj1 (tree_children ns) _ _ _ Ht p n).
Qed.

Lemma tree_rep_head ns t l p : tree_rep ns t l -> p ∈ l.*1 -> t_head t ∈ l.*1.
Proof. intros [[[_ ->]|Ht] _] Hp; [by apply elem_of_nil in Hp|]. inversion Ht; subst. apply elem_of_cons. by left. Qed.

Lemma find_child_root_unique fuel ns t l p n : tree_rep ns t l -> NoDup l.*2 -> p ∈ l.*1 -> ns !! p = Some n ->
  (length l <= fuel)%nat -> tree_find_child_root fuel ns t (t_value n) = Done p.
Proof.
  intros Hrep Hnd Hp Hn Hf. pose proof (tree_rep_node _ _ _ _ Hrep Hp) as (_ & n' & Hn' & Hv & _).
  rewrite Hn in Hn'. injection Hn' as <-. destruct Hrep as [[[_ ->]|Ht] _]; [by apply elem_of_nil in Hp|].
  unfold tree_find_child_root. rewrite (proj1 (find_child_rep ns _) _ _ _ Ht) by done. by rewrite (find_value_unique _ _ p).
Qed.
