(* ===== verification/Vfs.v ===== *)
(** kernel/fs/vfs.c: the virtual file system over the file tree.

    The state [vfs] holds the node table of the file tree (KTree), the live
    [file_node_t]s by address and the globals.  A [char[256]] name is its 256
    bytes; C strings in calls are their bytes without the terminator; the
    tokens strtok_r yields on "/" are [fields] (CString proves it).  A file
    operation is a function pointer, 0 is NULL; what the drivers' functions do
    is the interface [Drivers], over the whole state, since drivers insert into
    the file tree.  The errno and poll values and process_open_fd come from
    elsewhere: they are [VfsEnv].  The working directory is a field. *)
From stdpp Require Import base list gmap fin_maps.
From Stdlib Require Import ZArith Lia.
From S2P Require Import Prelude CString KTree.

#[local] Open Scope Z_scope.

(** ** Data *)

Definition FILE_TYPE_FILE : Z := 0x0.
Definition FILE_TYPE_BLOCK_DEVICE : Z := 0x3.
Definition FILE_TYPE_VIRTUAL_DEVICE : Z := 0x4.
Definition FILE_TYPE_DIR : Z := 0x5.
Definition FILE_TYPE_MOUNT_POINT : Z := 0x7.

(** libc/include/fcntl.h, in octal there. *)
Definition O_WRONLY : Z := 0x1.
Definition O_CREAT : Z := 0x40.
Definition O_APPEND : Z := 0x400.
Definition O_DIRECTORY : Z := 0x10000.

Record file_operations := mk_ops {
  op_read : Z; op_write : Z; op_open : Z; op_read_dir : Z; op_mkdir : Z; op_find_dir : Z; op_get_size : Z;
  op_create : Z; op_poll : Z; op_rename : Z; op_delete : Z; op_link : Z
}.
Definition no_ops : file_operations := mk_ops 0 0 0 0 0 0 0 0 0 0 0 0.

Record file_node := mk_fn {
  f_name : list Z; f_id : Z; f_type : Z; f_size : Z; f_cached : bool; f_fs : Z; file_ops : file_operations; f_ref : Z
}.

Record file_handle := mk_fh { h_node : Z; h_mode : Z; h_offset : Z }.

Record list_dir := mk_ld { d_name : list Z; d_type : Z; d_size : Z }.

(** The addresses of the two operations of vfs.c itself. *)
Definition VFS_READ_DIR : Z := 1.
Definition VFS_CREATE : Z := 2.

Record vfs (D : Type) := mk_vfs {
  tnodes : nodes; file_tree : tree_t; files : gmap Z file_node; root_node : Z; id_generator : Z; cwd : list Z; drv : D
}.
Arguments mk_vfs {D}.
Arguments tnodes {D}.
Arguments file_tree {D}.
Arguments files {D}.
Arguments root_node {D}.
Arguments id_generator {D}.
Arguments cwd {D}.
Arguments drv {D}.

(** The functions the drivers put into file_ops; fsdata is the owner that
    [node->fs] points to. *)
Class Drivers (D : Type) := {
  call_find_dir : Z -> Z -> list Z -> vfs D -> outcome (Z * vfs D);
  call_create : Z -> Z -> list Z -> Z -> vfs D -> outcome (bool * vfs D);
  call_mkdir : Z -> Z -> list Z -> vfs D -> outcome (bool * vfs D);
  call_open : Z -> Z -> Z -> vfs D -> outcome (vfs D);
  call_read_dir : Z -> Z -> Z -> list list_dir -> vfs D -> outcome (Z * list list_dir * vfs D);
  call_get_size : Z -> Z -> vfs D -> outcome (Z * vfs D);
  call_read : Z -> Z -> list Z -> Z -> Z -> vfs D -> outcome (Z * list Z * vfs D);
  call_write : Z -> Z -> list Z -> Z -> Z -> vfs D -> outcome (Z * vfs D);
  call_poll : Z -> Z -> Z -> vfs D -> outcome (Z * vfs D);
  call_delete : Z -> Z -> vfs D -> outcome (Z * vfs D);
  call_rename : Z -> Z -> list Z -> vfs D -> outcome (Z * vfs D);
  call_link : Z -> Z -> list Z -> vfs D -> outcome (Z * vfs D);
  fs_owner : D -> Z -> Z
}.

(** calloc(1, sizeof(file_node_t)), the errno values, the poll bits, and
    process_open_fd. *)
Class VfsEnv (D : Type) := {
  falloc : gmap Z file_node -> Z;
  falloc_fresh : forall fs, falloc fs <> 0 /\ fs !! falloc fs = None;
  ENOENT : Z; EEXIST : Z; EINVAL : Z; EXDEV : Z; EISDIR : Z; ENOTDIR : Z; EACCES : Z; EBUSY : Z;
  POLL_MASK : Z;
  errno_pos : 0 < ENOENT /\ 0 < EEXIST /\ 0 < EINVAL /\ 0 < EXDEV /\ 0 < EISDIR /\ 0 < ENOTDIR /\ 0 < EACCES /\ 0 < EBUSY;
  open_fd : Z -> Z -> vfs D -> outcome (Z * vfs D)
}.

(** The C string in a char array (a full array runs into the zero that
    follows it), and strncpy(array, s, strlen(s)). *)
Fixpoint c_str (a : list Z) : list Z :=
  match a with
  | [] => []
  | c :: a => if decide (c = 0) then [] else c :: c_str a
  end.
Definition overlay (s a : list Z) : outcome (list Z) :=
  if decide (length s <= length a)%nat then Done (s ++ drop (length s) a) else Fault.
Definition zero_name : list Z := replicate 256 0.

(** The part of a path behind its last slash; none without a slash. *)
Fixpoint last_component (path acc : list Z) (found : bool) : option (list Z) :=
  match path with
  | [] => if found then Some acc else None
  | c :: path' => if decide (c = 47) then last_component path' [] true else last_component path' (acc ++ [c]) found
  end.

Section Vfs.
Context {D : Type} `{Drv : Drivers D} `{Env : VfsEnv D} `{NA : NodeAlloc}.
(** The fuel of the searches in the tree, what tree_remove reads from the freed
    entry, and what an uninitialised pointer holds. *)
Context (fuel : nat) (stale : bool) (junk : Z).

Definition set_tree (ns : nodes) (t : tree_t) (s : vfs D) : vfs D :=
  mk_vfs ns t (files s) (root_node s) (id_generator s) (cwd s) (drv s).
Definition set_files (f : gmap Z file_node) (s : vfs D) : vfs D :=
  mk_vfs (tnodes s) (file_tree s) f (root_node s) (id_generator s) (cwd s) (drv s).
Definition set_root_node (r : Z) (s : vfs D) : vfs D :=
  mk_vfs (tnodes s) (file_tree s) (files s) r (id_generator s) (cwd s) (drv s).
Definition set_id (i : Z) (s : vfs D) : vfs D :=
  mk_vfs (tnodes s) (file_tree s) (files s) (root_node s) i (cwd s) (drv s).

Definition file_at (s : vfs D) (p : Z) : outcome file_node := if decide (p = 0) then Fault else of_option (files s !! p).
Definition put_file (p : Z) (f : file_node) (s : vfs D) : vfs D := set_files (<[p := f]> (files s)) s.
Definition free_file (p : Z) (s : vfs D) : vfs D := set_files (delete p (files s)) s.
Definition set_size (n : Z) (f : file_node) : file_node :=
  mk_fn (f_name f) (f_id f) (f_type f) n (f_cached f) (f_fs f) (file_ops f) (f_ref f).
Definition set_cached (f : file_node) : file_node :=
  mk_fn (f_name f) (f_id f) (f_type f) (f_size f) true (f_fs f) (file_ops f) (f_ref f).

(** [id_generator++] *)
Definition get_next_file_id (s : vfs D) : Z * vfs D := (id_generator s, set_id (s32 (id_generator s + 1)) s).

Definition find_node (s : vfs D) (file : Z) : outcome Z := tree_find_child_root fuel (tnodes s) (file_tree s) file.

(** tree_insert_child(file_tree, parent, node) *)
Definition insert_node (parent node : Z) (s : vfs D) : outcome (Z * vfs D) :=
  '(t, ns, tree) ← tree_insert_child fuel (tnodes s) (file_tree s) parent node;
  Done (t, set_tree ns tree s).
Definition remove_node (t : Z) (s : vfs D) : outcome (vfs D) :=
  '(ns, tree) ← tree_remove stale fuel (tnodes s) (file_tree s) t;
  Done (set_tree ns tree s).

(** ** Directories of the tree *)

(** The loop of vfs_read_dir takes the value of a list entry for a file node;
    it is a tree node, whose 24 bytes hold none of the fields read. *)
Definition as_file_node (s : vfs D) (p : Z) : outcome file_node :=
  if decide (is_Some (tnodes s !! p)) then Fault else file_at s p.

Fixpoint read_dir_loop (s : vfs D) (children : list Z) (count i : Z) (buffer : list list_dir)
    : outcome (Z * list list_dir) :=
  match children with
  | [] => Done (i, buffer)
  | child :: rest =>
      subNode ← as_file_node s child;
      e ← aget buffer i;
      name ← overlay (c_str (f_name subNode)) (d_name e);
      buffer ← aset buffer i (mk_ld name (f_type subNode) (f_size subNode));
      if decide (count <= i + 1) then Done (i + 1, buffer) else read_dir_loop s rest count (i + 1) buffer
  end.

Definition vfs_read_dir (node : Z) (buffer : list list_dir) (count : Z) (s : vfs D) : outcome (Z * list list_dir) :=
  treeNode ← find_node s node;
  if decide (treeNode = 0) then Done (0, buffer)
  else
    n ← node_at (tnodes s) treeNode;
    read_dir_loop s (t_children n) count 0 buffer.

Definition new_file (name : list Z) (type : Z) (ops : file_operations) (s : vfs D) : outcome (Z * vfs D) :=
  let node := falloc (files s) in
  let '(id, s) := get_next_file_id s in
  name ← overlay name zero_name;
  Done (node, put_file node (mk_fn name (u64 id) type 0 false 0 ops 0) s).

Definition vfs_create (parent : Z) (filename : list Z) (mode : Z) (s : vfs D) : outcome (bool * vfs D) :=
  treeNode ← find_node s parent;
  if decide (treeNode = 0) then Done (false, s)
  else
    '(node, s) ← new_file filename FILE_TYPE_FILE no_ops s;
    '(_, s) ← insert_node treeNode node s;
    Done (true, s).

(** The child of a tree node whose file has the name. *)
Fixpoint find_named (s : vfs D) (children : list Z) (name : list Z) : outcome Z :=
  match children with
  | [] => Done 0
  | c :: rest =>
      n ← node_at (tnodes s) c;
      f ← file_at s (t_value n);
      if decide (name = c_str (f_name f)) then Done c else find_named s rest name
  end.
Definition get_child (s : vfs D) (parent : Z) (name : list Z) : outcome Z :=
  n ← node_at (tnodes s) parent; find_named s (t_children n) name.

Definition cache_node (parent node : Z) (s : vfs D) : outcome (Z * vfs D) :=
  f ← file_at s node;
  insert_node parent node (put_file node (set_cached f) s).

(** ** Path resolution

    [toks] is the current token and the ones strtok_r has still to yield; no
    token is the NULL that strcmp then reads.  A call of resolve_path returns
    the file (0 for NULL) and what it stored through outParent and outFileName,
    if it did. *)
Inductive cwd_result := CwdRoot | CwdAt (current : Z).

Definition cwd_step (st : Z * list (list Z) * vfs D) : outcome ((Z * list (list Z) * vfs D) + (cwd_result * vfs D)) :=
  let '(current, toks, s) := st in
  match toks with
  | [] => Fault
  | pch :: rest =>
      let continue_ current rest s :=
        Done (match rest with [] => inr (CwdAt current, s) | _ => inl (current, rest, s) end) in
      if decide (pch = [46; 46]) then
        if decide (current = t_head (file_tree s)) then Done (inr (CwdRoot, s))
        else
          n ← node_at (tnodes s) current;
          continue_ (if decide (t_parent n <> 0) then t_parent n else current) rest s
      else if decide (pch = [46]) then continue_ current rest s
      else
        child ← get_child s current pch;
        if decide (child = 0) then
          n ← node_at (tnodes s) current;
          f ← file_at s (t_value n);
          '(node, s) ← (if decide (op_find_dir (file_ops f) = 0) then Done (0, s)
                        else call_find_dir (op_find_dir (file_ops f)) (t_value n) pch s);
          if decide (node = 0) then Done (inr (CwdAt (t_head (file_tree s)), s))
          else '(current, s) ← cache_node current node s; Done (inl (current, toks, s))
        else Done (inl (child, toks, s))
  end.

Definition resolve_cwd (cwd_path : list Z) (s : vfs D) : outcome (cwd_result * vfs D) :=
  loop fuel cwd_step (t_head (file_tree s), fields [47] cwd_path, s).

Record resolved := mk_res { r_file : Z; r_out : option (Z * list Z) }.

(** One turn of the second loop; it ends with the value of resolve_path, or
    with the tree node it stands on (NULL when the last token was not found). *)
Definition path_step (st : Z * list (list Z) * vfs D) : outcome ((Z * list (list Z) * vfs D) + (resolved * vfs D)) :=
  let '(current, toks, s) := st in
  match toks with
  | [] => Fault
  | pch :: rest =>
      let continue_ current s :=
        match rest with
        | [] => if decide (current = 0) then Done (inr (mk_res 0 None, s))
                else n ← node_at (tnodes s) current; Done (inr (mk_res (t_value n) None, s))
        | _ => Done (inl (current, rest, s))
        end in
      if decide (pch = [46; 46]) then
        if decide (current = t_head (file_tree s)) then Done (inr (mk_res (root_node s) None, s))
        else
          n ← node_at (tnodes s) current;
          continue_ (if decide (t_parent n <> 0) then t_parent n else current) s
      else if decide (pch = [46]) then continue_ current s
      else
        child ← get_child s current pch;
        if decide (child = 0) then
          n ← node_at (tnodes s) current;
          f ← file_at s (t_value n);
          let last_missing s := Done (inr (mk_res 0 (Some (t_value n, pch)), s)) in
          if decide (op_find_dir (file_ops f) = 0) then
            match rest with [] => last_missing s | _ => continue_ 0 s end
          else
            '(node, s) ← call_find_dir (op_find_dir (file_ops f)) (t_value n) pch s;
            if decide (node = 0) then
              match rest with [] => last_missing s | _ => Done (inr (mk_res 0 None, s)) end
            else '(t, s) ← cache_node current node s; continue_ t s
        else continue_ child s
  end.

Definition resolve_from (start : Z) (file : list Z) (s : vfs D) : outcome (resolved * vfs D) :=
  loop (S (length (fields [47] file))) path_step (start, fields [47] file, s).

Definition resolve_path (cwd_path file : list Z) (s : vfs D) : outcome (resolved * vfs D) :=
  if decide (file = [47]) then Done (mk_res (root_node s) None, s)
  else if decide (head file = Some 47) then resolve_from (t_head (file_tree s)) file s
  else
    '(r, s) ← resolve_cwd cwd_path s;
    match r with
    | CwdRoot => Done (mk_res (root_node s) None, s)
    | CwdAt current => resolve_from current file s
    end.

(** ** get_full_path *)

(** The names from the node up to, not including, the root; the sizes of the
    ancestors' names are summed as the loop goes. *)
Fixpoint ancestor_names (n : nat) (s : vfs D) (parent : Z) : outcome (list (list Z) * Z) :=
  match n with
  | O => OutOfFuel
  | S n =>
      p ← node_at (tnodes s) parent;
      if decide (t_parent p = 0 \/ t_value p = root_node s) then Done ([], 0)
      else
        f ← file_at s (t_value p);
        '(names, size) ← ancestor_names n s (t_parent p);
        Done (c_str (f_name f) :: names, u64 (Z.of_nat (length (c_str (f_name f))) + 1 + size))
  end.

(** [*ptr = '/'; strcpy(ptr + 1, name)] into [size] bytes. *)
Fixpoint write_path (names : list (list Z)) (size : Z) (path : list Z) : outcome (list Z) :=
  match names with
  | [] => Done path
  | name :: rest =>
      if decide (Z.of_nat (length path) + 1 + Z.of_nat (length name) + 1 <= size)
      then write_path rest size (path ++ 47 :: name) else Fault
  end.

Definition get_full_path (node : Z) (s : vfs D) : outcome (option (list Z)) :=
  f ← file_at s node;
  treeNode ← find_node s node;
  if decide (treeNode = 0) then Done None
  else
    t ← node_at (tnodes s) treeNode;
    '(names, pathSize) ← ancestor_names fuel s (t_parent t);
    path ← write_path (reverse (c_str (f_name f) :: names)) pathSize [];
    Done (Some path).

(** ** Mounting *)

Definition mount_directly (name : list Z) (node : Z) (s : vfs D) : outcome (Z * vfs D) :=
  if decide (name = [47]) then
    s ← (if decide (root_node s <> 0) then
           f ← file_at s node; r ← file_at s (root_node s);
           Done (free_file (root_node s) (put_file node (set_size (u64 (f_size f + f_size r)) f) s))
         else Done s);
    let s := set_root_node node s in
    h ← node_at (tnodes s) (t_head (file_tree s));
    Done (0, set_tree (<[t_head (file_tree s) := mk_tn node (t_children h) (t_parent h)]> (tnodes s)) (file_tree s) s)
  else
    '(r, s) ← resolve_path [47] name s;
    match r_out r with
    | None => Done (1, s)
    | Some (parent, _) =>
        treeNode ← find_node s parent;
        if decide (treeNode = 0) then Done (2, s)
        else
          n ← node_at (tnodes s) treeNode;
          p ← file_at s (t_value n);
          '(_, s) ← insert_node treeNode node (put_file (t_value n) (set_size (u64 (f_size p + 1)) p) s);
          Done (0, s)
    end.

Definition register_mount (name : list Z) (func : list Z -> vfs D -> outcome (Z * vfs D)) (s : vfs D) : outcome (Z * vfs D) :=
  '(mount, s) ← func name s; mount_directly name mount s.

Definition mount_empty (name : list Z) (fileType : Z) (s : vfs D) : outcome (Z * vfs D) :=
  let node := falloc (files s) in
  arr ← overlay name zero_name;
  mount_directly name node (put_file node (mk_fn arr 0 fileType 0 false 0 no_ops 0) s).

(** ** Opening and creating *)

(** The last part of open: [node->type] and [node->file_ops] are read without
    a test against NULL. *)
Definition open_finish (node mode : Z) (s : vfs D) : outcome (Z * vfs D) :=
  let go :=
    f ← file_at s node;
    s ← (if decide (op_open (file_ops f) = 0) then Done s else call_open (op_open (file_ops f)) node mode s);
    Done (node, s) in
  if decide (Z.land mode O_DIRECTORY <> 0) then
    f ← file_at s node;
    if decide (f_type f <> FILE_TYPE_DIR \/ f_type f <> FILE_TYPE_MOUNT_POINT) then Done (0, s) else go
  else go.

Definition open_with (create : list Z -> Z -> vfs D -> outcome (Z * vfs D)) (filename : list Z) (mode : Z) (s : vfs D)
    : outcome (Z * vfs D) :=
  if decide (filename = [47]) then Done (root_node s, s)
  else
    '(r, s) ← resolve_path (cwd s) filename s;
    if decide (r_file r = 0) then
      if decide (Z.land mode O_CREAT = 0) then Done (0, s)
      else
        '(node, s) ← create filename (Z.ldiff mode O_CREAT) s;
        open_finish node mode s
    else open_finish (r_file r) mode s.

(** open and create call each other, but create opens without O_CREAT. *)
Definition open_existing : list Z -> Z -> vfs D -> outcome (Z * vfs D) := open_with (fun _ _ _ => OutOfFuel).

Definition create (filename : list Z) (mode : Z) (s : vfs D) : outcome (Z * vfs D) :=
  '(r, s) ← resolve_path [47] filename s;
  if decide (r_file r <> 0) then Done (0, s)
  else
    '(r, s) ← resolve_path [47] filename s;
    match r_out r with
    | None => Done (0, s)
    | Some (parent, name) =>
        if decide (parent = 0) then Done (0, s)
        else
          p ← file_at s parent;
          '(_, s) ← (if decide (op_create (file_ops p) = 0) then Fault
                     else call_create (op_create (file_ops p)) parent name mode s);
          p ← file_at s parent;
          open_existing filename (Z.ldiff mode O_CREAT) (put_file parent (set_size (u64 (f_size p + 1)) p) s)
    end.

Definition open : list Z -> Z -> vfs D -> outcome (Z * vfs D) := open_with create.

(** [strlen(dirname) == 1 && memcmp(dirname, "/", 1)]: a one-letter name that is
    not the root. *)
Definition short_name (dirname : list Z) : bool := bool_decide (length dirname = 1%nat /\ dirname <> [47]).

Definition mkdir (dirname : list Z) (s : vfs D) : outcome (Z * vfs D) :=
  if short_name dirname then Done (0, s)
  else
    '(node, s) ← open dirname 0 s;
    if decide (node <> 0) then Done (0, s)
    else
      '(r, s) ← resolve_path [47] dirname s;
      match r_out r with
      | None => Done (0, s)
      | Some (parent, filename) =>
          p ← file_at s parent;
          '(ok, s) ← (if decide (op_mkdir (file_ops p) = 0) then Fault else call_mkdir (op_mkdir (file_ops p)) parent filename s);
          if (ok : bool) then open filename 0 s else Done (0, s)
      end.

(** The copy into the new name takes strlen(dirname) bytes: the name, then
    zeroes. *)
Definition mkdir_vfs (dirname : list Z) (s : vfs D) : outcome (Z * vfs D) :=
  if short_name dirname then Done (0, s)
  else
    '(node, s) ← open dirname 0 s;
    if decide (node <> 0) then Done (0, s)
    else
      '(r, s) ← resolve_path [47] dirname s;
      match r_out r with
      | None => Done (0, s)
      | Some (parent, filename) =>
          treeNode ← find_node s parent;
          if decide (treeNode = 0) then Done (0, s)
          else
            let name := filename ++ replicate (length dirname - length filename) 0 in
            '(node, s) ← new_file name FILE_TYPE_DIR (mk_ops 0 0 0 VFS_READ_DIR 0 0 0 VFS_CREATE 0 0 0 0) s;
            p ← file_at s parent;
            '(_, s) ← insert_node treeNode node (put_file parent (set_size (u64 (f_size p + 1)) p) s);
            Done (node, s)
      end.

(** The directory buffer is calloc'ed: [count] entries of zeroes. *)
Definition getdents (node count : Z) (s : vfs D) : outcome (Z * list list_dir * vfs D) :=
  if decide (count <= 0) then Done (0, [], s)
  else
    treeNode ← find_node s node;
    if decide (treeNode = 0) then Done (0, [], s)
    else
      f ← file_at s node;
      if decide (op_read_dir (file_ops f) = 0) then Fault
      else call_read_dir (op_read_dir (file_ops f)) node count (replicate (Z.to_nat count) (mk_ld zero_name 0 0)) s.

Definition get_size (node : Z) (s : vfs D) : outcome (Z * vfs D) :=
  f ← file_at s node;
  if decide (op_get_size (file_ops f) = 0) then Done (s32 (f_size f), s)
  else call_get_size (op_get_size (file_ops f)) node s.

Definition read (h : file_handle) (buffer : list Z) (length : Z) (s : vfs D) : outcome (Z * list Z * vfs D) :=
  if decide (Z.land (h_mode h) O_WRONLY <> 0) then Done (-1, buffer, s)
  else
    f ← file_at s (h_node h);
    if decide (op_read (file_ops f) = 0) then Fault
    else call_read (op_read (file_ops f)) (h_node h) buffer (h_offset h) length s.

Definition write (h : file_handle) (buffer : list Z) (length : Z) (s : vfs D) : outcome (Z * file_handle * vfs D) :=
  f ← file_at s (h_node h);
  let h := if decide (Z.land (h_mode h) O_APPEND <> 0) then mk_fh (h_node h) (h_mode h) (f_size f) else h in
  if decide (op_write (file_ops f) = 0) then Fault
  else
    '(r, s) ← call_write (op_write (file_ops f)) (h_node h) buffer (h_offset h) length s;
    Done (r, h, s).

(** ** Deleting, moving, linking *)

(** The driver deletes, then the tree node goes; the code is 0 on success. *)
Definition unlink_node (node : Z) (s : vfs D) : outcome (Z * vfs D) :=
  f ← file_at s node;
  if decide (op_delete (file_ops f) = 0) then Done (0, s)
  else
    '(result, s) ← call_delete (op_delete (file_ops f)) node s;
    if decide (result = 0) then
      treeNode ← find_node s node;
      s ← (if decide (treeNode <> 0) then remove_node treeNode s else Done s);
      Done (0, s)
    else Done (result, s).

Definition delete (filename : list Z) (s : vfs D) : outcome (Z * vfs D) :=
  '(node, s) ← open filename 0 s;
  if decide (node = 0) then Done (- ENOENT, s)
  else
    '(result, s) ← unlink_node node s;
    if decide (result <> 0) then Done (result, s) else Done (0, free_file node s).

(** Is [node] the value of an ancestor? *)
Fixpoint on_path (n : nat) (s : vfs D) (parent node : Z) : outcome bool :=
  match n with
  | O => OutOfFuel
  | S n =>
      if decide (parent = 0) then Done false
      else
        p ← node_at (tnodes s) parent;
        if decide (t_value p = node) then Done true else on_path n s (t_parent p) node
  end.

(** The checks and the rename after the target is out of the way. *)
Definition move_checked (node new : Z) (newpath : list Z) (s : vfs D) : outcome (Z * vfs D) :=
  f ← file_at s node;
  g ← (if decide (f_fs f = 0) then Done f else file_at s new);
  if decide (f_fs f = 0 \/ f_fs g = 0) then Done (- EXDEV, s)
  else if decide (fs_owner (drv s) (f_fs f) <> fs_owner (drv s) (f_fs f)) then Done (- EXDEV, s)
  else if decide (f_type g = FILE_TYPE_DIR /\ f_type f <> f_type g) then Done (- EISDIR, s)
  else if decide (f_type g = FILE_TYPE_FILE /\ f_type f <> f_type g) then Done (- ENOTDIR, s)
  else if decide (op_rename (file_ops f) = 0) then Done (- EACCES, s)
  else
    treeNode ← find_node s node;
    t ← node_at (tnodes s) treeNode;
    up ← on_path fuel s (t_parent t) node;
    if (up : bool) then Done (- EINVAL, s)
    else
      s ← remove_node treeNode s;
      '(newFile, s) ← call_rename (op_rename (file_ops f)) node newpath s;
      Done (if decide (newFile = 0) then - EBUSY else 0, s).

Definition move_file (node : Z) (newpath : list Z) (flags : Z) (s : vfs D) : outcome (Z * vfs D) :=
  '(new, s) ← open newpath 0 s;
  if decide (new = 0) then
    '(r, s) ← resolve_path (cwd s) newpath s;
    let parent := match r_out r with Some (p, _) => p | None => junk end in
    if decide (parent = 0) then Done (- ENOENT, s) else move_checked node new newpath s
  else
    g ← file_at s new;
    '(size, s) ← (if decide (f_type g = FILE_TYPE_DIR) then get_size new s else Done (0, s));
    if decide (0 < size) then Done (- EEXIST, s)
    else
      '(result, s) ← unlink_node node s;
      if decide (result <> 0) then Done (- EINVAL, s)
      else move_checked node new newpath (free_file node s).

Definition fpoll (h : file_handle) (requested : Z) (s : vfs D) : outcome (Z * vfs D) :=
  let requested := Z.land requested POLL_MASK in
  f ← file_at s (h_node h);
  if decide (op_poll (file_ops f) <> 0) then call_poll (op_poll (file_ops f)) (h_node h) requested s
  else if decide (f_type f = FILE_TYPE_FILE \/ f_type f = FILE_TYPE_DIR \/ f_type f = FILE_TYPE_MOUNT_POINT)
       then Done (requested, s) else Done (0, s).

Definition link (h : file_handle) (path : list Z) (s : vfs D) : outcome (Z * vfs D) :=
  f ← file_at s (h_node h);
  if decide (op_link (file_ops f) = 0) then Done (- EINVAL, s)
  else
    '(new, s) ← open path 0 s;
    '(code, new, s) ← (if decide (new = 0) then
        '(r, s) ← resolve_path (cwd s) path s;
        let parent := match r_out r with Some (p, _) => p | None => junk end in
        Done (if decide (parent = 0) then - ENOENT else 0, parent, s)
      else
        g ← file_at s new;
        '(size, s) ← (if decide (f_type g = FILE_TYPE_DIR) then get_size new s else Done (0, s));
        Done (if decide (0 < size) then - EEXIST else 0, new, s));
    if decide (code <> 0) then Done (code, s)
    else
      f ← file_at s (h_node h);
      g ← (if decide (f_fs f = 0) then Done f else file_at s new);
      if decide (f_fs f = 0 \/ f_fs g = 0) then Done (- EXDEV, s)
      else if decide (fs_owner (drv s) (f_fs f) <> fs_owner (drv s) (f_fs g)) then Done (- EXDEV, s)
      else
        '(result, s) ← call_link (op_link (file_ops f)) (h_node h) path s;
        if decide (result <> 0) then Done (result, s)
        else '(new, s) ← open path 0 s; open_fd new 0 s.

Definition create_handle (node : Z) : file_handle := mk_fh node 4 0.

(** The globals at start: an empty tree, the identifiers from 1. *)
Definition vfs_install (s : vfs D) : outcome (vfs D) :=
  let s := set_tree (tnodes s) tree_create s in
  '(node, s) ← new_file [91; 114; 111; 111; 116; 93] FILE_TYPE_MOUNT_POINT (mk_ops 0 0 0 VFS_READ_DIR 0 0 0 0 0 0 0 0) s;
  '(_, s) ← insert_node 0 node (set_root_node node s);
  Done s.

(** ** Resolving paths of the tree *)

Definition dots (name : list Z) : Prop := name = [46] \/ name = [46; 46].

(** The tokens lead from one tree node to another, all of them found in the
    tree. *)
Inductive walks (s : vfs D) : Z -> list (list Z) -> Z -> Prop :=
| walks_nil c : walks s c [] c
| walks_cons c name c' rest e :
    ~ dots name -> get_child s c name = Done c' -> c' <> 0 -> walks s c' rest e -> walks s c (name :: rest) e.

Lemma path_step_found s c name c' rest : ~ dots name -> get_child s c name = Done c' -> c' <> 0 ->
  path_step (c, name :: rest, s) =
    match rest with
    | [] => n ← node_at (tnodes s) c'; Done (inr (mk_res (t_value n) None, s))
    | _ => Done (inl (c', rest, s))
    end.
Proof.
  intros Hd Hc Hne. unfold path_step. rewrite !decide_False by (intros ->; apply Hd; unfold dots; auto).
  rewrite Hc. cbn [mbind outcome_bind]. rewrite decide_False by done. destruct rest; [|done]. by rewrite decide_False.
Qed.

Lemma path_step_missing s c name rest n f : ~ dots name -> get_child s c name = Done 0 ->
  tnodes s !! c = Some n -> file_at s (t_value n) = Done f -> op_find_dir (file_ops f) = 0 ->
  path_step (c, name :: rest, s) =
    match rest with [] => Done (inr (mk_res 0 (Some (t_value n, name)), s)) | _ => Done (inl (0, rest, s)) end.
Proof.
  intros Hd Hc Hn Hf Hop. unfold path_step. rewrite !decide_False by (intros ->; apply Hd; unfold dots; auto).
  rewrite Hc. cbn [mbind outcome_bind]. rewrite (decide_True (P := 0 = 0)) by done. rewrite (node_at_done _ _ _ Hn).
  cbn [mbind outcome_bind]. rewrite Hf. cbn [mbind outcome_bind]. rewrite decide_True by done. by destruct rest.
Qed.

Lemma path_loop_found s c toks e n k : walks s c toks e -> toks <> [] -> tnodes s !! e = Some n -> (length toks < k)%nat ->
  loop k path_step (c, toks, s) = Done (mk_res (t_value n) None, s).
Proof.
  intros Hw. revert k. induction Hw as [c|c name c' rest e Hd Hc Hne Hw IH]; intros [|k] Ht Hn Hk; simpl in Hk; try done; try lia.
  cbn [loop]. rewrite (path_step_found _ _ _ _ _ Hd Hc Hne). destruct rest as [|tok rest].
  - inversion Hw; subst. rewrite (node_at_done _ _ _ Hn). done.
  - cbn [mbind outcome_bind]. apply IH; [done|done|simpl in *; lia].
Qed.

Lemma path_loop_missing s c toks name e n f k : walks s c toks e -> ~ dots name -> get_child s e name = Done 0 ->
  tnodes s !! e = Some n -> file_at s (t_value n) = Done f -> op_find_dir (file_ops f) = 0 -> (length toks + 1 < k)%nat ->
  loop k path_step (c, toks ++ [name], s) = Done (mk_res 0 (Some (t_value n, name)), s).
Proof.
  intros Hw. revert k. induction Hw as [c|c nm c' rest e Hd' Hc' Hne Hw IH]; intros [|k] Hd Hc Hn Hf Hop Hk; simpl in Hk; try lia.
  - cbn [app loop]. by rewrite (path_step_missing _ _ _ _ _ _ Hd Hc Hn Hf Hop).
  - cbn [app loop]. rewrite (path_step_found _ _ _ _ _ Hd' Hc' Hne).
    destruct (rest ++ [name]) as [|tok toks] eqn:E; [by destruct rest|]. cbn [mbind outcome_bind]. apply IH; try done. lia.
Qed.

Lemma absolute_path s cwd_path file toks e n :
  head file = Some 47 -> file <> [47] -> walks s (t_head (file_tree s)) toks e -> tnodes s !! e = Some n ->
  (fields [47] file = toks -> toks <> [] -> resolve_path cwd_path file s = Done (mk_res (t_value n) None, s)) /\
  (forall name f, fields [47] file = toks ++ [name] -> ~ dots name -> get_child s e name = Done 0 ->
     file_at s (t_value n) = Done f -> op_find_dir (file_ops f) = 0 ->
     resolve_path cwd_path file s = Done (mk_res 0 (Some (t_value n, name)), s)).
Proof.
  intros Hh Hne Hw Hn. unfold resolve_path. rewrite decide_False, decide_True by done. unfold resolve_from. split.
  - intros -> Ht. apply (path_loop_found s _ toks e); try done. lia.
  - intros name f -> Hd Hc Hf Hop. apply (path_loop_missing s _ toks name e n f); try done. rewrite length_app. simpl. lia.
Qed.

(** C25: an absolute path.  When every component names a child, resolve_path
    returns the file at the end of the path; when only the last one is missing
    it returns NULL and hands out the directory and the missing name, which is
    where a file can be created.  Both leave the state alone, whatever the
    working directory. *)
Theorem resolve_path_absolute s cwd_path file toks e n :
  head file = Some 47 -> file <> [47] -> walks s (t_head (file_tree s)) toks e -> tnodes s !! e = Some n ->
  (fields [47] file = toks -> toks <> [] -> resolve_path cwd_path file s = Done (mk_res (t_value n) None, s)) /\
  (forall name f, fields [47] file = toks ++ [name] -> ~ dots name -> get_child s e name = Done 0 ->
     file_at s (t_value n) = Done f -> op_find_dir (file_ops f) = 0 ->
     resolve_path cwd_path file s = Done (mk_res 0 (Some (t_value n, name)), s)).
Proof. apply absolute_path. Qed.

(** A token the code looks up twice in the working directory. *)
Lemma cwd_step_lookup s c pch rest : ~ dots pch ->
  cwd_step (c, pch :: rest, s) =
    (child ← get_child s c pch;
     if decide (child = 0) then
       n ← node_at (tnodes s) c;
       f ← file_at s (t_value n);
       '(node, s) ← (if decide (op_find_dir (file_ops f) = 0) then Done (0, s)
                     else call_find_dir (op_find_dir (file_ops f)) (t_value n) pch s);
       if decide (node = 0) then Done (inr (CwdAt (t_head (file_tree s)), s))
       else '(current, s) ← cache_node c node s; Done (inl (current, pch :: rest, s))
     else Done (inl (child, pch :: rest, s))).
Proof. intros Hd. unfold cwd_step. by rewrite !decide_False by (intros ->; apply Hd; unfold dots; auto). Qed.

Lemma cwd_step_missing s c pch rest n f : ~ dots pch -> get_child s c pch = Done 0 ->
  tnodes s !! c = Some n -> file_at s (t_value n) = Done f -> op_find_dir (file_ops f) = 0 ->
  cwd_step (c, pch :: rest, s) = Done (inr (CwdAt (t_head (file_tree s)), s)).
Proof.
  intros Hd Hc Hn Hf Hop. rewrite cwd_step_lookup by done. rewrite Hc. cbn [mbind outcome_bind].
  rewrite (decide_True (P := 0 = 0)) by done. rewrite (node_at_done _ _ _ Hn). cbn [mbind outcome_bind].
  rewrite Hf. cbn [mbind outcome_bind]. rewrite decide_True by done. done.
Qed.

Lemma fields_slash file : fields [47] (47 :: file) = fields [47] file.
Proof. unfold fields. done. Qed.

(** A relative path is not resolved from the working directory.  The loop
    that walks the directory looks its first token up again below the node it
    has just found; the second lookup fails and sends the search back to the
    root of the tree.  So the relative path means the absolute path of the same
    text; and when the working directory is the root itself, the loop compares
    a NULL token. *)
Theorem relative_path_ignores_cwd s cwd_path pch rest file c n f :
  head file <> Some 47 -> file <> [] -> (2 <= fuel)%nat ->
  fields [47] cwd_path = pch :: rest -> ~ dots pch ->
  get_child s (t_head (file_tree s)) pch = Done c -> c <> 0 -> get_child s c pch = Done 0 ->
  tnodes s !! c = Some n -> file_at s (t_value n) = Done f -> op_find_dir (file_ops f) = 0 ->
  resolve_path cwd_path file s = resolve_path cwd_path (47 :: file) s /\
  resolve_path [47] file s = Fault.
Proof.
  intros Hh Hne Hfuel Hcwd Hd Hc Hcne Hc2 Hn Hf Hop.
  assert (Hns : file <> [47]) by (intros ->; done).
  assert (Hns2 : 47 :: file <> [47]) by (intros [= ->]; done). split.
  - unfold resolve_path at 1. rewrite !decide_False by done.
    assert (resolve_cwd cwd_path s = Done (CwdAt (t_head (file_tree s)), s)) as ->.
    { unfold resolve_cwd. rewrite Hcwd. destruct fuel as [|[|k]]; try lia. cbn [loop].
      rewrite cwd_step_lookup by done. rewrite Hc. cbn [mbind outcome_bind]. rewrite decide_False by done.
      cbn [mbind outcome_bind]. by rewrite (cwd_step_missing _ _ _ _ _ _ Hd Hc2 Hn Hf Hop). }
    cbn [mbind outcome_bind]. unfold resolve_path, resolve_from. rewrite (decide_False (P := _ = [47])) by done.
    by rewrite decide_True, fields_slash by done.
  - unfold resolve_path. rewrite !decide_False by done. unfold resolve_cwd. destruct fuel as [|k]; [lia|]. done.
Qed.

(** ** get_full_path and move_file *)

(** The bytes a list of names takes with their slashes. *)
Definition path_bytes (names : list (list Z)) : Z := foldr (fun n a => Z.of_nat (length n) + 1 + a) 0 names.

Lemma path_bytes_app a b : path_bytes (a ++ b) = path_bytes a + path_bytes b.
Proof. unfold path_bytes. induction a as [|x a IH]; simpl; [done|]. rewrite IH. lia. Qed.
Lemma path_bytes_nonneg a : 0 <= path_bytes a.
Proof. unfold path_bytes. induction a as [|x a IH]; simpl; lia. Qed.

Lemma ancestor_names_size n s p names size : ancestor_names n s p = Done (names, size) -> 0 <= size <= path_bytes names.
Proof.
  revert p names size. induction n as [|n IH]; intros p names size; simpl; [done|].
  destruct (node_at (tnodes s) p) as [q| | |]; simpl; try done. case_decide; [by intros [= <- <-]|].
  destruct (file_at s (t_value q)) as [f| | |]; simpl; try done.
  destruct (ancestor_names n s (t_parent q)) as [[nm sz]| | |] eqn:E; simpl; try done. intros [= <- <-].
  apply IH in E. unfold path_bytes in *. simpl. split; [apply u64_range|].
  unfold u64. etransitivity; [apply Z.mod_le; lia|]. lia.
Qed.

Lemma write_path_needs names size path out : write_path names size path = Done out -> names <> [] ->
  Z.of_nat (length path) + path_bytes names + 1 <= size.
Proof.
  revert path. induction names as [|nm names IH]; intros path; [done|]. simpl. case_decide as Hle; [|done].
  intros Hr _. destruct names as [|nm2 names]; [simpl; lia|].
  apply IH in Hr; [|done]. rewrite length_app in Hr. simpl in *. lia.
Qed.

(** Get_full_path always writes outside its buffer: the size it allocates
    counts the names of the directories above the node, not the node's own name
    nor the terminator.  So it never returns a path. *)
Theorem get_full_path_overflows s node path : get_full_path node s <> Done (Some path).
Proof.
  unfold get_full_path. destruct (file_at s node) as [f| | |]; simpl; try done.
  destruct (find_node s node) as [t| | |]; simpl; try done. case_decide; [done|].
  destruct (node_at (tnodes s) t) as [n| | |]; simpl; try done.
  destruct (ancestor_names fuel s (t_parent n)) as [[names size]| | |] eqn:E; simpl; try done.
  destruct (write_path _ size []) as [out| | |] eqn:Ew; simpl; try done. intros _.
  apply ancestor_names_size in E. apply write_path_needs in Ew; [|by rewrite reverse_cons; destruct (reverse names)].
  assert (Hrev : forall l, path_bytes (reverse l) = path_bytes l).
  { intros l. induction l as [|x l IH]; [done|]. rewrite reverse_cons, path_bytes_app, IH. simpl. lia. }
  rewrite Hrev in Ew. simpl in Ew. lia.
Qed.

Lemma move_checked_missing node new newpath s r s' : new = 0 \/ files s !! node = None ->
  move_checked node new newpath s = Done (r, s') -> r = - EXDEV.
Proof.
  unfold move_checked. intros Hm. destruct (file_at s node) as [f| | |] eqn:Ef; cbn [mbind outcome_bind]; try done.
  destruct Hm as [->|Hm]; [|unfold file_at in Ef; rewrite Hm in Ef; by case_decide].
  destruct (decide (f_fs f = 0)); cbn [mbind outcome_bind]; [|done].
  rewrite decide_True by tauto. by intros [= <- _].
Qed.

(** Move_file never moves a file.  Without a file at the new path it reads
    the type of NULL; with one there it deletes and frees the file to be moved
    and then reads it.  Every call that returns, returns an error. *)
Theorem move_file_never_moves node newpath flags s r s' :
  move_file node newpath flags s = Done (r, s') -> r < 0.
Proof.
  intros Hrun. unfold move_file in Hrun. destruct errno_pos as (E1 & E2 & E3 & E4 & _).
  destruct (open newpath 0 s) as [[new s1]| | |] eqn:Eo; cbn [mbind outcome_bind] in Hrun; try done.
  destruct (decide (new = 0)) as [->|Hn].
  - destruct (resolve_path (cwd s1) newpath s1) as [[rr s2]| | |] eqn:Er; cbn [mbind outcome_bind] in Hrun; try done.
    case_decide; [injection Hrun as <- _; lia|]. apply move_checked_missing in Hrun; [lia|].
    by left.
  - destruct (file_at s1 new) as [g| | |]; cbn [mbind outcome_bind] in Hrun; try done.
    destruct (if decide (f_type g = FILE_TYPE_DIR) then get_size new s1 else Done (0, s1)) as [[sz s2]| | |];
      cbn [mbind outcome_bind] in Hrun; try done.
    case_decide; [injection Hrun as <- _; lia|].
    destruct (unlink_node node s2) as [[res s3]| | |]; cbn [mbind outcome_bind] in Hrun; try done.
    case_decide; [injection Hrun as <- _; lia|]. apply move_checked_missing in Hrun; [lia|].
    right. unfold free_file. simpl. apply lookup_delete_eq.
Qed.

(** ** Mounting and resolving *)

(** Tree nodes keep their values, files their names. *)
Record keeps (s s' : vfs D) : Prop := {
  kp_value : forall p n, node_at (tnodes s) p = Done n -> exists n', node_at (tnodes s') p = Done n' /\ t_value n' = t_value n;
  kp_name : forall p f, file_at s p = Done f -> exists f', file_at s' p = Done f' /\ f_name f' = f_name f
}.

Lemma find_named_keeps s s' cs extra name c : keeps s s' -> 0 ∉ cs -> find_named s cs name = Done c ->
  find_named s' (cs ++ extra) name = if decide (c = 0) then find_named s' extra name else Done c.
Proof.
  intros Hk. induction cs as [|d cs IH]; intros H0 Hrun; simpl in Hrun.
  - injection Hrun as <-. done.
  - apply not_elem_of_cons in H0 as [Hd H0]. simpl.
    destruct (node_at (tnodes s) d) as [n| | |] eqn:En; simpl in Hrun; try done.
    destruct (kp_value _ _ Hk d n En) as (n' & -> & Hv). cbn [mbind outcome_bind]. rewrite Hv.
    destruct (file_at s (t_value n)) as [f| | |] eqn:Ef; simpl in Hrun; try done.
    destruct (kp_name _ _ Hk _ f Ef) as (f' & -> & Hn). cbn [mbind outcome_bind]. rewrite Hn.
    destruct (decide (name = c_str (f_name f))); [|by apply IH]. injection Hrun as <-. by rewrite decide_False.
Qed.

Definition tree_ok (s : vfs D) (l : list (Z * Z)) : Prop := tree_rep (tnodes s) (file_tree s) l.

(** A lookup that stays inside the tree survives when children are added. *)
Lemma get_child_keeps s s' l c name r extra n n' : keeps s s' -> tree_ok s l -> c ∈ l.*1 ->
  tnodes s !! c = Some n -> tnodes s' !! c = Some n' -> t_children n' = t_children n ++ extra ->
  get_child s c name = Done r ->
  get_child s' c name = if decide (r = 0) then find_named s' extra name else Done r.
Proof.
  intros Hk Ht Hc Hn Hn' Hch. unfold get_child. rewrite (node_at_done _ _ _ Hn), (node_at_done _ _ _ Hn').
  cbn [mbind outcome_bind]. rewrite Hch. apply (find_named_keeps _ _ _ _ _ _ Hk).
  destruct (tree_rep_node _ _ _ _ Ht Hc) as (_ & m & Hm & _ & Hcl). rewrite Hn in Hm. injection Hm as <-.
  intros H0. by destruct (tree_rep_node _ _ _ _ Ht (Hcl 0 H0)) as (? & _).
Qed.

Lemma find_named_in s cs name c : find_named s cs name = Done c -> c = 0 \/ c ∈ cs.
Proof.
  induction cs as [|d cs IH]; simpl; [intros [= <-]; by left|].
  destruct (node_at (tnodes s) d) as [n| | |]; simpl; try done.
  destruct (file_at s (t_value n)) as [f| | |]; simpl; try done.
  case_decide; [intros [= <-]; right; apply elem_of_cons; by left|].
  intros Hr. destruct (IH Hr); [by left|right; apply elem_of_cons; by right].
Qed.

Lemma get_child_in s l c name r : tree_ok s l -> c ∈ l.*1 -> get_child s c name = Done r -> r <> 0 -> r ∈ l.*1.
Proof.
  intros Ht Hc Hr Hne. destruct (tree_rep_node _ _ _ _ Ht Hc) as (_ & n & Hn & _ & Hcl). unfold get_child in Hr.
  rewrite (node_at_done _ _ _ Hn) in Hr. cbn [mbind outcome_bind] in Hr.
  destruct (find_named_in _ _ _ _ Hr) as [|Hin]; [done|]. by apply Hcl.
Qed.

(** Adding children to one node keeps every walk. *)
Record grown_at (s s' : vfs D) (e new : Z) : Prop := {
  ga_keeps : keeps s s';
  ga_other : forall p, p <> e -> p <> new -> tnodes s' !! p = tnodes s !! p;
  ga_here : exists n n', tnodes s !! e = Some n /\ tnodes s' !! e = Some n' /\ t_children n' = t_children n ++ [new]
}.

Lemma walks_grown s s' l e new c toks d : grown_at s s' e new -> tree_ok s l -> new ∉ l.*1 -> c ∈ l.*1 ->
  walks s c toks d -> walks s' c toks d /\ d ∈ l.*1.
Proof.
  intros Hg Ht Hnew Hc Hw. induction Hw as [c|c name c' rest d Hd Hgc Hne Hw IH]; [by split; [constructor|]|].
  pose proof (get_child_in _ _ _ _ _ Ht Hc Hgc Hne) as Hc'. destruct (IH Hc') as [IHw IHd].
  split; [|done]. apply (walks_cons _ _ _ c'); try done.
  destruct (tree_rep_node _ _ _ _ Ht Hc) as (_ & n & Hn & _ & _).
  assert (exists n' extra, tnodes s' !! c = Some n' /\ t_children n' = t_children n ++ extra) as (n' & extra & Hn' & Hch).
  { destruct (decide (c = e)) as [->|Hce].
    - destruct (ga_here _ _ _ _ Hg) as (m & m' & Hm & Hm' & Hch). rewrite Hn in Hm. injection Hm as <-. by exists m', [new].
    - exists n, []. rewrite (ga_other _ _ _ _ Hg) by (done || by intros ->). split; [done|]. by rewrite app_nil_r. }
  rewrite (get_child_keeps _ _ _ _ _ _ _ _ _ (ga_keeps _ _ _ _ Hg) Ht Hc Hn Hn' Hch Hgc). by rewrite decide_False.
Qed.

(** Inserting a file below a tree node. *)
Lemma insert_grows s l e node : tree_ok s l -> e ∈ l.*1 -> (length l < fuel)%nat ->
  exists new s' l', insert_node e node s = Done (new, s') /\ grown_at s s' e new /\ tree_ok s' l' /\ l'.*2 ≡ₚ node :: l.*2 /\
    new ∉ l.*1 /\ new <> 0 /\ tnodes s' !! new = Some (mk_tn node [] e) /\ t_head (file_tree s') = t_head (file_tree s) /\
    files s' = files s /\ root_node s' = root_node s /\ drv s' = drv s.
Proof.
  intros Ht He Hf. destruct (insert_child_rep fuel _ _ l e node Ht He Hf)
    as (new & ns' & t' & l1 & l2 & nq & d & Hrun & -> & Hel & Hrep & Hfresh & Hnew & Hq & Hq' & Hoth & _ & ->).
  exists new, (set_tree ns' (mk_tree (t_head (file_tree s)) (Z.max (t_height (file_tree s)) (u64 (Z.of_nat d)))) s),
    (l1 ++ (new, node) :: l2).
  assert (Hni : new ∉ (l1 ++ l2).*1).
  { intros Hin. destruct (tree_rep_node _ _ _ _ Ht Hin) as (_ & n & Hn & _). congruence. }
  assert (Hne : new <> 0).
  { apply (tree_rep_node _ _ _ new Hrep). rewrite fmap_app. apply elem_of_app. right. apply elem_of_cons. by left. }
  split; [unfold insert_node; by rewrite Hrun|]. split_and!; try done.
  - constructor; simpl.
    + constructor; simpl; [|by eexists]. intros p n Hp. unfold node_at in *. destruct (decide (p = new)) as [->|Hpn].
      * by rewrite Hfresh in Hp.
      * destruct (decide (p = e)) as [->|Hpe]; [|rewrite Hoth by done; by exists n]. rewrite Hq'. rewrite Hq in Hp.
        injection Hp as <-. simpl. eexists. split; [done|done].
    + intros p Hp Hpn. by apply Hoth.
    + eexists _, _. split; [done|]. split; [done|]. done.
  - rewrite !fmap_app, fmap_cons. simpl. by rewrite Permutation_middle.
Qed.

(** Changing the size of a file is seen by no lookup. *)
Lemma size_keeps s p f n : file_at s p = Done f -> keeps s (put_file p (set_size n f) s).
Proof.
  intros Hf. constructor; [by eexists|]. intros q g Hg. unfold file_at, put_file in *. simpl in *.
  destruct (decide (q = 0)); [done|]. destruct (decide (q = p)) as [->|Hq].
  - rewrite lookup_insert_eq. rewrite (decide_False (P := p = 0)) in Hf by done. rewrite Hf in Hg.
    injection Hg as <-. by eexists.
  - rewrite lookup_insert_ne by done. by exists g.
Qed.

Lemma keeps_trans s1 s2 s3 : keeps s1 s2 -> keeps s2 s3 -> keeps s1 s3.
Proof.
  intros [V1 N1] [V2 N2]. constructor.
  - intros p n Hn. destruct (V1 p n Hn) as (n' & Hn' & E). destruct (V2 p n' Hn') as (n2 & H2 & E2). exists n2. split; [done|congruence].
  - intros p n Hn. destruct (N1 p n Hn) as (n' & Hn' & E). destruct (N2 p n' Hn') as (n2 & H2 & E2). exists n2. split; [done|congruence].
Qed.

Lemma walks_node s l c toks e : tree_ok s l -> c ∈ l.*1 -> walks s c toks e -> e ∈ l.*1.
Proof.
  intros Ht Hc Hw. induction Hw as [c|c name c' rest e Hd Hg Hne Hw IH]; [done|].
  apply IH. by apply (get_child_in _ _ _ _ _ Ht Hc Hg).
Qed.

(** C1: mounting.  When the directory of an absolute path is in the tree and
    its last component is not, mount_directly succeeds; afterwards the path
    resolves to exactly the mounted file, and every path that led somewhere
    still leads there; the tree is well-formed with one file more. *)
Theorem mount_then_resolve s l name toks nm e n f node g :
  tree_ok s l -> NoDup l.*2 -> t_head (file_tree s) ∈ l.*1 -> (length l < fuel)%nat ->
  head name = Some 47 -> name <> [47] -> fields [47] name = toks ++ [nm] -> ~ dots nm ->
  walks s (t_head (file_tree s)) toks e -> tnodes s !! e = Some n -> get_child s e nm = Done 0 ->
  file_at s (t_value n) = Done f -> op_find_dir (file_ops f) = 0 ->
  file_at s node = Done g -> c_str (f_name g) = nm -> node ∉ l.*2 ->
  exists s' l', mount_directly name node s = Done (0, s') /\ tree_ok s' l' /\ l'.*2 ≡ₚ node :: l.*2 /\
    (forall cwd_path, resolve_path cwd_path name s' = Done (mk_res node None, s')) /\
    (forall toks' e', walks s (t_head (file_tree s)) toks' e' -> walks s' (t_head (file_tree s')) toks' e').
Proof.
  intros Ht Hnd Hh Hfuel Hhd Hne Hfields Hd Hw Hn Hmiss Hf Hop Hg Hnm Hfresh.
  pose proof (walks_node _ _ _ _ _ Ht Hh Hw) as He.
  set (s1 := put_file (t_value n) (set_size (u64 (f_size f + 1)) f) s).
  destruct (insert_grows s1 l e node Ht He Hfuel)
    as (new & s' & l' & Hins & Hg1 & Ht' & Hperm & Hni & Hn0 & Hnew & Hhead & Hfiles & _).
  assert (Hk : keeps s s') by (eapply keeps_trans; [apply (size_keeps s _ _ (u64 (f_size f + 1)) Hf)|apply (ga_keeps _ _ _ _ Hg1)]).
  assert (Hg' : grown_at s s' e new) by (constructor; [done|apply (ga_other _ _ _ _ Hg1)|apply (ga_here _ _ _ _ Hg1)]).
  exists s', l'. split; [|split; [done|split; [done|split]]].
  - unfold mount_directly. rewrite decide_False by done.
    rewrite (proj2 (absolute_path s [47] name toks e n Hhd Hne Hw Hn) nm f Hfields Hd Hmiss Hf Hop).
    cbn [mbind outcome_bind r_out]. unfold find_node.
    rewrite (find_child_root_unique _ _ _ _ _ _ Ht Hnd He Hn) by lia. cbn [mbind outcome_bind].
    rewrite decide_False by (apply (tree_rep_node _ _ _ _ Ht He)). rewrite (node_at_done _ _ _ Hn).
    cbn [mbind outcome_bind]. rewrite Hf. cbn [mbind outcome_bind]. fold s1. by rewrite Hins.
  - intros cwd_path. destruct (walks_grown s s' l e new _ toks e Hg' Ht Hni Hh Hw) as [Hw' _].
    assert (Hgc : get_child s' e nm = Done new).
    { destruct (ga_here _ _ _ _ Hg') as (m & m' & Hm & Hm' & Hch). rewrite Hn in Hm. injection Hm as <-.
      rewrite (get_child_keeps _ _ _ _ _ _ _ _ _ Hk Ht He Hn Hm' Hch Hmiss). rewrite decide_True by done. simpl.
      rewrite (node_at_done _ _ _ Hnew). cbn [mbind outcome_bind t_value].
      destruct (kp_name _ _ Hk _ _ Hg) as (g' & -> & Hgn). cbn [mbind outcome_bind]. by rewrite decide_True by congruence. }
    assert (Hw2 : walks s' (t_head (file_tree s')) (toks ++ [nm]) new).
    { rewrite Hhead. change (t_head (file_tree s1)) with (t_head (file_tree s)). clear -Hw' Hgc Hd Hn0.
      induction Hw' as [c|c name c' rest e Hd' Hg Hne Hw IH]; simpl.
      - by apply (walks_cons _ _ _ new); [| | |constructor].
      - apply (walks_cons _ _ _ c'); auto. }
    apply (proj1 (absolute_path s' cwd_path name _ new _ Hhd Hne Hw2 Hnew) Hfields). by destruct toks.
  - intros toks' e' Hw2. rewrite Hhead. by apply (walks_grown s s' l e new _ toks' e' Hg' Ht Hni Hh Hw2).
Qed.

End Vfs.

(** ** Examples: a file system without drivers *)

#[export] Instance no_drivers : Drivers unit := {|
  call_find_dir _ _ _ _ := Fault; call_create _ _ _ _ _ := Fault; call_mkdir _ _ _ _ := Fault; call_open _ _ _ _ := Fault;
  call_read_dir _ _ _ _ _ := Fault; call_get_size _ _ _ := Fault; call_read _ _ _ _ _ _ := Fault;
  call_write _ _ _ _ _ _ := Fault; call_poll _ _ _ _ := Fault; call_delete _ _ _ := Fault; call_rename _ _ _ _ := Fault;
  call_link _ _ _ _ := Fault; fs_owner _ _ := 0
|}.

#[export] Instance demo_env D : VfsEnv D.
Proof.
  refine {| falloc := next_key; falloc_fresh := next_key_fresh; ENOENT := 2; EEXIST := 17; EINVAL := 22; EXDEV := 18; EISDIR := 21; ENOTDIR := 20;
            EACCES := 13; EBUSY := 16; POLL_MASK := 0x2005; open_fd _ _ s := Done (0, s) |}; lia.
Defined.

Definition demo_file (name : list Z) (type size : Z) : file_node :=
  mk_fn (name ++ replicate (256 - length name) 0) 1 type size false 0 no_ops 0.

(** "dev", "home", "tty"; the tree holds / (1), /dev (2) and /home (3). *)
Definition str_dev : list Z := [100; 101; 118].
Definition str_home : list Z := [104; 111; 109; 101].
Definition str_tty : list Z := [116; 116; 121].

Definition demo_vfs : vfs unit := mk_vfs
  (<[1 := mk_tn 100 [2; 3] 0]> (<[2 := mk_tn 101 [] 1]> (<[3 := mk_tn 102 [] 1]> ∅))) (mk_tree 1 1)
  (<[100 := demo_file [91; 114; 93] FILE_TYPE_MOUNT_POINT 2]> (<[101 := demo_file str_dev FILE_TYPE_DIR 0]>
    (<[102 := demo_file str_home FILE_TYPE_DIR 1]> (<[103 := demo_file str_tty FILE_TYPE_VIRTUAL_DEVICE 0]> ∅))))
  100 4 (47 :: str_home) tt.
Definition demo_vfs_nodes : list (Z * Z) := [(1, 100); (2, 101); (3, 102)].

Lemma demo_tree_ok : tree_ok demo_vfs demo_vfs_nodes.
Proof.
  constructor.
  - right. econstructor; [done|reflexivity|].
    apply (forest_cons _ _ 2 [3] [(2, 101)] [(3, 102)]); [econstructor; [done|reflexivity|constructor]|].
    apply (forest_cons _ _ 3 [] [(3, 102)] []); [econstructor; [done|reflexivity|constructor]|constructor].
  - apply (bool_decide_unpack _). vm_compute. exact I.
Qed.

Ltac not_dots := let H := fresh in intros [H|H]; discriminate H.

Lemma demo_walk_dev : walks demo_vfs 1 [str_dev] 2.
Proof. apply (walks_cons _ _ _ 2); [not_dots|reflexivity|done|constructor]. Qed.

Example resolve_path_absolute_witness :
  (fields [47] (47 :: str_dev) = [str_dev] -> [str_dev] <> [] ->
     resolve_path 9 str_home (47 :: str_dev) demo_vfs = Done (mk_res 101 None, demo_vfs)) /\
  (forall name f, fields [47] (47 :: str_dev) = [str_dev] ++ [name] -> ~ dots name -> get_child demo_vfs 2 name = Done 0 ->
     file_at demo_vfs 101 = Done f -> op_find_dir (file_ops f) = 0 ->
     resolve_path 9 str_home (47 :: str_dev) demo_vfs = Done (mk_res 0 (Some (101, name)), demo_vfs)).
Proof.
  apply (resolve_path_absolute 9 demo_vfs str_home (47 :: str_dev) [str_dev] 2 (mk_tn 101 [] 1)); [done|done| |reflexivity].
  apply demo_walk_dev.
Defined.

Example relative_path_ignores_cwd_witness :
  resolve_path 9 (47 :: str_home) str_dev demo_vfs = resolve_path 9 (47 :: str_home) (47 :: str_dev) demo_vfs /\
  resolve_path 9 [47] str_dev demo_vfs = Fault.
Proof.
  apply (relative_path_ignores_cwd 9 demo_vfs (47 :: str_home) str_home [] str_dev 3 (mk_tn 102 [] 1) (demo_file str_home FILE_TYPE_DIR 1));
    first [not_dots | reflexivity | discriminate | lia].
Defined.

Example move_file_never_moves_witness :
  move_file 9 true 0 101 (47 :: str_home) 0 demo_vfs = Done (-17, demo_vfs) /\ -17 < 0.
Proof.
  assert (H : move_file 9 true 0 101 (47 :: str_home) 0 demo_vfs = Done (-17, demo_vfs)) by reflexivity.
  split; [exact H|]. apply (move_file_never_moves 9 true 0 101 (47 :: str_home) 0 demo_vfs (-17) demo_vfs H).
Defined.

Example mount_then_resolve_witness :
  exists s' l', mount_directly 9 (47 :: str_dev ++ 47 :: str_tty) 103 demo_vfs = Done (0, s') /\
    tree_ok s' l' /\ l'.*2 ≡ₚ 103 :: demo_vfs_nodes.*2 /\
    (forall cwd_path, resolve_path 9 cwd_path (47 :: str_dev ++ 47 :: str_tty) s' = Done (mk_res 103 None, s')) /\
    (forall toks' e', walks demo_vfs (t_head (file_tree demo_vfs)) toks' e' -> walks s' (t_head (file_tree s')) toks' e').
Proof.
  apply (mount_then_resolve 9 demo_vfs demo_vfs_nodes (47 :: str_dev ++ 47 :: str_tty) [str_dev] str_tty 2 (mk_tn 101 [] 1)
    (demo_file str_dev FILE_TYPE_DIR 0) 103 (demo_file str_tty FILE_TYPE_VIRTUAL_DEVICE 0)).
  - apply demo_tree_ok.
  - apply (bool_decide_unpack _). vm_compute. exact I.
  - apply (bool_decide_unpack _). vm_compute. exact I.
  - simpl. lia.
  - reflexivity.
  - discriminate.
  - reflexivity.
  - not_dots.
  - apply demo_walk_dev.
  - reflexivity.
  - reflexivity.
  - reflexivity.
  - reflexivity.
  - reflexivity.
  - reflexivity.
  - apply (bool_decide_unpack _). vm_compute. exact I.
Defined.
