(* ===== verification/Tarfs.v ===== *)
(** kernel/fs/tarfs.c: a tar archive in memory as a read-only file system under
    the virtual file system (Vfs).

    [t_mem] is the memory that holds the archive; [archive] is the chain of
    [tar_t] that tarfs_init builds, in order; [contexts] are the live
    [tar_context_t] by address, [node->fs] of the files.  An entry of a chain
    is its position.  calloc of the small structures succeeds. *)
From stdpp Require Import base list gmap fin_maps.
From Stdlib Require Import ZArith Lia.
From S2P Require Import Prelude CString KTree Vfs.

#[local] Open Scope Z_scope.

(** ** Data *)

Record tar := mk_tar { tar_begin : Z; tar_block : list Z }.
Record tar_filesystem := mk_tfs { fs_root : list tar; fs_root_node : Z; fs_len : Z }.
Record tar_context := mk_ctx { ctx_fs : tar_filesystem; ctx_entry : option nat }.

Record tarfs := mk_tarfs { t_mem : Z -> Z; archive : list tar; contexts : gmap Z tar_context }.

(** Fields of the block, by offset and length. *)
Definition field (off len : nat) (t : tar) : list Z := take len (drop off (tar_block t)).
Definition tar_name : tar -> list Z := field 0 100.
Definition tar_size : tar -> list Z := field 124 12.
Definition tar_type (t : tar) : Z := default 0 (tar_block t !! 156%nat).
Definition tar_prefix : tar -> list Z := field 345 155.

(** ** Bytes *)

Fixpoint oct2bin_loop (c : list Z) (n : Z) : Z :=
  match c with
  | [] => n
  | x :: c' => oct2bin_loop c' (s32 (s32 (n * 8) + (s8 x - 48)))
  end.
Definition oct2bin (str : list Z) (size : nat) : Z := oct2bin_loop (take size str) 0.

Definition isBufferZero (buf : list Z) : bool := forallb (Z.eqb 0) buf.

Definition ram_bytes (m : Z -> Z) (p : Z) (n : nat) : list Z := (fun i => m (p + Z.of_nat i)) <$> seq 0 n.

Definition read_mem (m : Z -> Z) (p : Z) (size : nat) : Z * list Z :=
  let buf := ram_bytes m p size in (if isBufferZero buf then 0 else Z.of_nat size, buf).

Definition count_char_occurrences (str : list Z) (c : Z) : Z := Z.of_nat (length (filter (fun x => x = c) str)).

(** strncat(prefix, 155), strncat(name, 100) *)
Definition entry_name (t : tar) : list Z := c_str (tar_prefix t) ++ c_str (tar_name t).

(** [if(s[strlen(s)-1] == '/') s[strlen(s)-1] = 0]: the empty string is read
    before its start. *)
Definition strip_slash (s : list Z) : outcome (list Z) :=
  match last s with
  | None => Fault
  | Some c => Done (if decide (c = 47) then take (length s - 1) s else s)
  end.

(** ** tarfs_init: reading the archive *)

(** An end of archive is a zero block, or two; both end the loop. *)
Definition scan_step (m : Z -> Z) (ptr bufsize : Z) (st : Z * list tar) : outcome ((Z * list tar) + list tar) :=
  let '(buf, entries) := st in
  if decide (buf < u64 (ptr + bufsize)) then
    let '(r, block) := read_mem m buf 512 in
    if decide (r = 0) then
      let buf := u64 (buf + 512) in
      if decide (u64 (ptr + bufsize) < buf) then Done (inr entries)
      else
        let remaining := u64 (u64 (ptr + bufsize) - buf) in
        if decide (512 <= remaining /\ fst (read_mem m buf 512) = 0) then Done (inr entries) else Done (inr entries)
    else
      let current := mk_tar buf block in
      let jump := oct2bin (tar_size current) 11 in
      let jump := if decide (Z.rem jump 512 <> 0) then s32 (jump + (512 - Z.rem jump 512)) else jump in
      Done (inl (u64 (buf + s32 (512 + jump)), entries ++ [current]))
  else Done (inr entries).

Definition tarfs_scan (fuel : nat) (m : Z -> Z) (ptr bufsize : Z) : outcome (list tar) :=
  loop fuel (scan_step m ptr bufsize) (ptr, []).

(** calloc of a tar_context_t *)
Class TarAlloc := {
  ctx_alloc : gmap Z tar_context -> Z;
  ctx_fresh : forall cs, ctx_alloc cs <> 0 /\ cs !! ctx_alloc cs = None
}.

(** The functions tarfs puts into file_ops. *)
Definition TARFS_READ : Z := 16.
Definition TARFS_FIND_DIR : Z := 17.
Definition TARFS_READ_DIR : Z := 18.
Definition TARFS_GET_SIZE : Z := 19.

Section Tarfs.
Context `{TA : TarAlloc} `{Env : VfsEnv tarfs} `{NA : NodeAlloc}.
(** The fuel of the tree search; what readCount, len and a missing return value
    hold. *)
Context (fuel : nat) (readCount0 len0 no_return : Z).

Definition set_drv (t : tarfs) (s : vfs tarfs) : vfs tarfs :=
  mk_vfs (tnodes s) (file_tree s) (files s) (root_node s) (id_generator s) (cwd s) t.

Definition context_of (node : Z) (s : vfs tarfs) : outcome (file_node * tar_context) :=
  f ← file_at s node; c ← of_option (contexts (drv s) !! f_fs f); Done (f, c).
Definition entry_of (c : tar_context) : outcome (option tar) :=
  match ctx_entry c with
  | None => Done None
  | Some i => e ← of_option (fs_root (ctx_fs c) !! i); Done (Some e)
  end.

(** ** Reading *)

Definition tarfs_read (node : Z) (buf : list Z) (offset len : Z) (s : vfs tarfs) : outcome (Z * list Z * vfs tarfs) :=
  '(_, context) ← context_of node s;
  e ← entry_of context;
  match e with
  | None => Done (0, buf, s)
  | Some entry =>
      let pointer := u64 (512 + tar_begin entry) in
      let size := oct2bin (tar_size entry) 11 in
      let end_ := u64 size in
      if decide (end_ < offset) then Done (0, buf, s)
      else
        let len := if decide (end_ < u64 (offset + len)) then u64 (u64 size - offset) else len in
        let pointer := u64 (pointer + offset) in
        buf ← overlay (ram_bytes (t_mem (drv s)) pointer (Z.to_nat len)) buf;
        Done (s32 len, buf, s)
  end.

(** ** Directories *)

(** The file made for an entry that was found. *)
Definition new_tar_node (context : tar_context) (i : nat) (current : tar) (id : Z) (name : list Z) (s : vfs tarfs) : outcome (Z * vfs tarfs) :=
  let cs := contexts (drv s) in
  let c := ctx_alloc cs in
  let s := set_drv (mk_tarfs (t_mem (drv s)) (archive (drv s)) (<[c := mk_ctx (ctx_fs context) (Some i)]> cs)) s in
  let node := falloc (files s) in
  arr ← overlay name zero_name;
  Done (node, put_file node (mk_fn arr (u64 id) (if decide (tar_type current = 48) then FILE_TYPE_FILE else FILE_TYPE_DIR)
                (u64 (oct2bin (tar_size current) 11)) false c
                (mk_ops TARFS_READ 0 0 TARFS_READ_DIR 0 TARFS_FIND_DIR 0 0 0 0 0 0) 0) s).

(** Below the mount point: the entries with at most one slash. *)
Fixpoint find_in_root (context : tar_context) (entries : list tar) (i : nat) (id : Z) (name : list Z) (s : vfs tarfs) : outcome (Z * vfs tarfs) :=
  match entries with
  | [] => Done (0, s)
  | current :: rest =>
      let filename := entry_name current in
      let count := count_char_occurrences filename 47 in
      filename ← strip_slash filename;
      if decide (count <= 1 /\ filename = name) then new_tar_node context i current id name s
      else find_in_root context rest (S i) (s32 (id + 1)) name s
  end.

(** Below a directory: from its own entry on, by the joined name. *)
Fixpoint find_below (context : tar_context) (entries : list tar) (i : nat) (id : Z) (filename name : list Z) (s : vfs tarfs) : outcome (Z * vfs tarfs) :=
  match entries with
  | [] => Done (0, s)
  | current :: rest =>
      filename ← strip_slash filename;
      other ← strip_slash (entry_name current);
      if decide (filename = other) then new_tar_node context i current id name s
      else find_below context rest (S i) (s32 (id + 1)) filename name s
  end.

Definition tarfs_find_dir (node : Z) (name : list Z) (s : vfs tarfs) : outcome (Z * vfs tarfs) :=
  '(f, context) ← context_of node s;
  if decide (f_type f = FILE_TYPE_MOUNT_POINT) then find_in_root context (fs_root (ctx_fs context)) 0 0 name s
  else
    match ctx_entry context with
    | None => Fault
    | Some i =>
        current ← of_option (fs_root (ctx_fs context) !! i);
        let filename := entry_name current ++ name in
        if decide (256 <= length filename)%nat then Fault
        else find_below context (drop i (fs_root (ctx_fs context))) i 0 filename name s
    end.

(** The files already in the tree; tree nodes are read for their values here. *)
Fixpoint read_tree_children (s : vfs tarfs) (children : list Z) (count readCount : Z) (entries : list list_dir) : outcome (bool * Z * list list_dir) :=
  match children with
  | [] => Done (false, readCount, entries)
  | c :: rest =>
      if decide (count <= readCount) then Done (true, readCount, entries)
      else
        n ← node_at (tnodes s) c;
        f ← file_at s (t_value n);
        if (f_cached f : bool) then read_tree_children s rest count readCount entries
        else
          e ← aget entries readCount;
          name ← overlay (c_str (f_name f) ++ [0]) (d_name e);
          entries ← aset entries readCount (mk_ld name (f_type f) (f_size f));
          read_tree_children s rest count (s32 (readCount + 1)) entries
  end.

(** The type of an entry is compared with 0, not with the character 0. *)
Definition list_entry_of (t : tar) (name : list Z) : list_dir :=
  mk_ld name (if decide (tar_type t = 0) then FILE_TYPE_FILE else FILE_TYPE_DIR) (u64 (oct2bin (tar_size t) 11)).

Definition in_root (name : list Z) : bool :=
  negb (bool_decide (2 <= count_char_occurrences name 47 \/ (1 <= count_char_occurrences name 47 /\ last name <> Some 47))).

Fixpoint read_root_entries (next : list tar) (count readCount : Z) (entries : list list_dir) : outcome (Z * list list_dir) :=
  match next with
  | [] => Done (readCount, entries)
  | t :: rest =>
      if decide (count <= readCount) then Done (readCount, entries)
      else
        let name := entry_name t in
        if in_root name then
          e ← aget entries readCount;
          stripped ← strip_slash name;
          arr ← (if decide (last name = Some 47) then overlay stripped (d_name e) else overlay (name ++ [0]) (d_name e));
          entries ← aset entries readCount (list_entry_of t arr);
          read_root_entries rest count (s32 (readCount + 1)) entries
        else read_root_entries rest count readCount entries
  end.

(** The names are appended to [name], the directory's own, and entry_name stays
    empty: strncmp differs at once.  When [name] was empty it compares 0 bytes,
    and entry_name[-1] is read. *)
Fixpoint read_sub_entries (next : list tar) (len : nat) (name : list Z) (count readCount : Z) (entries : list list_dir) : outcome (Z * list list_dir) :=
  match next with
  | [] => Done (readCount, entries)
  | t :: rest =>
      if decide (count <= readCount) then Done (readCount, entries)
      else
        let name := name ++ entry_name t in
        if decide (256 <= length name)%nat then Fault
        else if decide (0 < len)%nat then Done (readCount, entries)
        else Fault
  end.

Definition tarfs_read_dir (node : Z) (count : Z) (entries : list list_dir) (s : vfs tarfs) : outcome (Z * list list_dir * vfs tarfs) :=
  '(f, context) ← context_of node s;
  if decide (f_type f = FILE_TYPE_DIR \/ f_type f = FILE_TYPE_MOUNT_POINT) then
    e ← entry_of context;
    treeNode ← find_node fuel s node;
    if decide (treeNode = 0) then Done (0, entries, s)
    else
      n ← node_at (tnodes s) treeNode;
      '(full, readCount, entries) ← read_tree_children s (t_children n) count readCount0 entries;
      if (full : bool) then Done (readCount, entries, s)
      else
        match e with
        | None => '(r, entries) ← read_root_entries (fs_root (ctx_fs context)) count readCount entries; Done (r, entries, s)
        | Some entry =>
            let name := entry_name entry in
            '(r, entries) ← read_sub_entries (drop (S (default 0%nat (ctx_entry context))) (fs_root (ctx_fs context))) (length name) name count readCount entries;
            Done (r, entries, s)
        end
  else Done (no_return, entries, s).

(** strstr with an empty needle, or with the string itself, is found: the scan of
    the root stops at an entry whose name is empty or a slash. *)
Fixpoint count_root (entries : list tar) (count : Z) : Z :=
  match entries with
  | [] => count
  | t :: rest => if decide (entry_name t = [] \/ entry_name t = [47]) then count else count_root rest (s32 (count + 1))
  end.
Fixpoint count_below (name : list Z) (entries : list tar) (count : Z) : Z :=
  match entries with
  | [] => count
  | t :: rest => if decide (take (length name) (entry_name t) = name) then count_below name rest (s32 (count + 1)) else count
  end.

Definition tarfs_get_size (node : Z) (s : vfs tarfs) : outcome (Z * vfs tarfs) :=
  '(f, context) ← context_of node s;
  e ← entry_of context;
  if decide (f_type f = FILE_TYPE_DIR \/ f_type f = FILE_TYPE_MOUNT_POINT) then
    match e with
    | None => Done (s32 (count_root (fs_root (ctx_fs context)) 0 + f_size f), s)
    | Some entry =>
        Done (s32 (count_below (entry_name entry) (drop (S (default 0%nat (ctx_entry context))) (fs_root (ctx_fs context))) 0 + f_size f), s)
    end
  else if decide (f_type f = FILE_TYPE_FILE) then
    match e with None => Fault | Some entry => Done (oct2bin (tar_size entry) 11, s) end
  else Done (0, s).

(** ** Mounting *)

(** "[root_tarfs]" *)
Definition root_tarfs_name : list Z := [91; 114; 111; 111; 116; 95; 116; 97; 114; 102; 115; 93].

(** full_path holds 4096 bytes; len counts up from what it held. *)
Definition tarfs_mount (name : list Z) (s : vfs tarfs) : outcome (Z * vfs tarfs) :=
  if decide (4096 < length name)%nat then Fault
  else
    let root := falloc (files s) in
    let cs := contexts (drv s) in
    let c := ctx_alloc cs in
    let tfs := mk_tfs (archive (drv s)) root (s32 (len0 + Z.of_nat (length (archive (drv s))))) in
    arr ← overlay root_tarfs_name zero_name;
    let s := put_file root (mk_fn arr 0 FILE_TYPE_MOUNT_POINT 0 false c
               (mk_ops TARFS_READ 0 0 TARFS_READ_DIR 0 TARFS_FIND_DIR TARFS_GET_SIZE 0 0 0 0 0) 0) s in
    Done (root, set_drv (mk_tarfs (t_mem (drv s)) (archive (drv s)) (<[c := mk_ctx tfs None]> cs)) s).

(** The owner of a context is its tar_filesystem; each has a root node of its
    own, which stands for it. *)
#[export] Instance tarfs_drivers : Drivers tarfs := {|
  call_find_dir := fun op node name s => if decide (op = TARFS_FIND_DIR) then tarfs_find_dir node name s else Fault;
  call_create := fun _ _ _ _ _ => Fault;
  call_mkdir := fun _ _ _ _ => Fault;
  call_open := fun _ _ _ _ => Fault;
  call_read_dir := fun op node count entries s => if decide (op = TARFS_READ_DIR) then tarfs_read_dir node count entries s else Fault;
  call_get_size := fun op node s => if decide (op = TARFS_GET_SIZE) then tarfs_get_size node s else Fault;
  call_read := fun op node buf offset len s => if decide (op = TARFS_READ) then tarfs_read node buf offset len s else Fault;
  call_write := fun _ _ _ _ _ _ => Fault;
  call_poll := fun _ _ _ _ => Fault;
  call_delete := fun _ _ _ => Fault;
  call_rename := fun _ _ _ _ => Fault;
  call_link := fun _ _ _ _ => Fault;
  fs_owner := fun t p => match contexts t !! p with Some c => fs_root_node (ctx_fs c) | None => 0 end
|}.

Definition tarfs_init (path : list Z) (ptr bufsize : Z) (s : vfs tarfs) : outcome (Z * vfs tarfs) :=
  tars ← tarfs_scan fuel (t_mem (drv s)) ptr bufsize;
  register_mount fuel path tarfs_mount (set_drv (mk_tarfs (t_mem (drv s)) tars (contexts (drv s))) s).
End Tarfs.

(** ** The archive format

    An encoder for the fields tarfs reads, to state what tarfs_init undoes. *)

Fixpoint oct_digits (k : nat) (n : Z) : list Z :=
  match k with
  | O => []
  | S k' => oct_digits k' (n / 8) ++ [48 + n mod 8]
  end.

Record tfile := mk_tfile { tf_name : list Z; tf_type : Z; tf_data : list Z }.

Definition header (f : tfile) : list Z :=
  (tf_name f ++ replicate (100 - length (tf_name f)) 0) ++ replicate 24 0 ++
  (oct_digits 11 (Z.of_nat (length (tf_data f))) ++ [0]) ++ replicate 20 0 ++ [tf_type f] ++ replicate 355 0.

(** The data fills whole blocks. *)
Definition padding (n : nat) : nat := Z.to_nat ((- Z.of_nat n) mod 512).
Definition encode (f : tfile) : list Z := header f ++ tf_data f ++ replicate (padding (length (tf_data f))) 0.
Definition archive_bytes (fs : list tfile) : list Z := mjoin (encode <$> fs).

Definition valid_file (f : tfile) : Prop :=
  (0 < length (tf_name f) <= 100)%nat /\ Forall (fun c => 0 < c < 256) (tf_name f) /\ 0 <= tf_type f < 256 /\
  Z.of_nat (length (tf_data f)) < 2 ^ 31 - 1024.

(** The chain tarfs_init builds for an archive at [p]. *)
Fixpoint tars_of (p : Z) (fs : list tfile) : list tar :=
  match fs with
  | [] => []
  | f :: fs' => mk_tar p (header f) :: tars_of (p + Z.of_nat (length (encode f))) fs'
  end.

(** *** Octal numbers *)

Lemma oct2bin_loop_app a b n : oct2bin_loop (a ++ b) n = oct2bin_loop b (oct2bin_loop a n).
Proof. revert n. induction a as [|x a IH]; intros n; [done|apply IH]. Qed.

Lemma length_oct_digits k n : length (oct_digits k n) = k.
Proof. revert n. induction k as [|k IH]; intros n; [done|]. simpl. rewrite length_app, IH. simpl. lia. Qed.

Lemma oct2bin_digits k n : 0 <= n < 8 ^ Z.of_nat k -> n < 2 ^ 31 -> oct2bin_loop (oct_digits k n) 0 = n.
Proof.
  revert n. induction k as [|k IH]; intros n Hn H31; [simpl in *; lia|]. cbn [oct_digits].
  replace (8 ^ Z.of_nat (S k)) with (8 * 8 ^ Z.of_nat k) in Hn by (rewrite Nat2Z.inj_succ, Z.pow_succ_r; lia).
  pose proof (Z.div_mod n 8 ltac:(lia)). pose proof (Z.mod_pos_bound n 8 ltac:(lia)).
  assert (0 <= n / 8 < 8 ^ Z.of_nat k) by (split; [apply Z.div_pos; lia|apply Z.div_lt_upper_bound; lia]).
  rewrite oct2bin_loop_app, IH by lia. simpl. rewrite s8_small by lia. rewrite (s32_small (n / 8 * 8)) by lia. rewrite s32_small; lia.
Qed.

(** *** The header *)

Lemma length_header f : valid_file f -> length (header f) = 512%nat.
Proof.
  intros ((_ & Hn) & _). unfold header. rewrite !length_app, !length_replicate, length_oct_digits. simpl. lia.
Qed.

(** Dropping the first fields of a block. *)
Lemma drop_fields {A} (a b : list A) n : length a = n -> drop n (a ++ b) = b.
Proof. intros <-. by rewrite drop_app_length. Qed.
Lemma take_field {A} (a b : list A) n : length a = n -> take n (a ++ b) = a.
Proof. intros <-. by rewrite take_app_length. Qed.

Lemma header_name p f : valid_file f -> tar_name (mk_tar p (header f)) = tf_name f ++ replicate (100 - length (tf_name f)) 0.
Proof.
  intros ((_ & Hn) & _). unfold tar_name, field, header. simpl. rewrite drop_0. apply take_field. rewrite length_app, length_replicate. lia.
Qed.

Lemma header_size p f : valid_file f -> oct2bin (tar_size (mk_tar p (header f))) 11 = Z.of_nat (length (tf_data f)).
Proof.
  intros ((_ & Hn) & _ & _ & Hd). unfold oct2bin, tar_size, field, header. cbn [tar_block]. rewrite (app_assoc _ (replicate 24 0)).
  rewrite drop_fields by (rewrite !length_app, !length_replicate; lia).
  rewrite (take_field (oct_digits 11 _ ++ [0])) by (rewrite length_app, length_oct_digits; done).
  rewrite take_field by (apply length_oct_digits). apply oct2bin_digits; simpl; lia.
Qed.

Lemma header_type p f : valid_file f -> tar_type (mk_tar p (header f)) = tf_type f.
Proof.
  intros ((_ & Hn) & _). unfold tar_type, header. cbn [tar_block]. do 3 rewrite app_assoc. rewrite lookup_app_r by (rewrite !length_app, !length_replicate, length_oct_digits; simpl; lia).
  rewrite !length_app, !length_replicate, length_oct_digits. replace (156 - _)%nat with 0%nat by (simpl; lia). done.
Qed.

Lemma header_prefix p f : valid_file f -> c_str (tar_prefix (mk_tar p (header f))) = [].
Proof.
  intros ((_ & Hn) & _). unfold tar_prefix, field, header. cbn [tar_block]. do 4 rewrite app_assoc. rewrite drop_app_ge by (rewrite !length_app, !length_replicate, length_oct_digits; simpl; lia).
  rewrite !length_app, !length_replicate, length_oct_digits. rewrite drop_replicate, take_replicate. simpl length.
  destruct (Nat.min _ _) eqn:E; done.
Qed.

Lemma header_not_zero f : valid_file f -> isBufferZero (header f) = false.
Proof.
  intros ((Hn & _) & Hb & _). unfold header. destruct (tf_name f) as [|c name]; [simpl in Hn; lia|]. apply Forall_cons in Hb as [Hc _].
  simpl. destruct c; [lia|done..].
Qed.

(** *** Bytes in memory *)

Lemma length_ram_bytes m p n : length (ram_bytes m p n) = n.
Proof. unfold ram_bytes. by rewrite length_fmap, length_seq. Qed.

Lemma ram_bytes_app m p a b : ram_bytes m p (a + b) = ram_bytes m p a ++ ram_bytes m (p + Z.of_nat a) b.
Proof.
  unfold ram_bytes. rewrite seq_app, fmap_app. f_equal. replace (0 + a)%nat with (a + 0)%nat by lia. rewrite <- fmap_add_seq, <- list_fmap_compose.
  apply list_fmap_ext. intros i x _. simpl. f_equal. lia.
Qed.

Definition stored (m : Z -> Z) (p : Z) (l : list Z) : Prop := ram_bytes m p (length l) = l.
#[export] Instance stored_dec m p l : Decision (stored m p l).
Proof. unfold stored. apply _. Defined.

Lemma stored_app m p a b : stored m p (a ++ b) <-> stored m p a /\ stored m (p + Z.of_nat (length a)) b.
Proof.
  unfold stored. rewrite length_app, ram_bytes_app. split; [|by intros [-> ->]]. intros E. apply app_inj_1 in E; [done|apply length_ram_bytes].
Qed.

(** A part of what is stored. *)
Lemma stored_slice m p l i n : stored m p l -> (i + n <= length l)%nat -> ram_bytes m (p + Z.of_nat i) n = take n (drop i l).
Proof.
  intros Hs Hn. rewrite <- (take_drop i l) in Hs. apply stored_app in Hs as [_ Hs]. rewrite length_take_le in Hs by lia.
  rewrite <- (take_drop n (drop i l)) in Hs. apply stored_app in Hs as [Hs _]. unfold stored in Hs. rewrite length_take_le in Hs; [done|].
  rewrite length_drop. lia.
Qed.

(** *** Reading the archive back *)

Lemma padding_spec n : Z.of_nat n + Z.of_nat (padding n) = Z.of_nat n + (if decide (Z.rem (Z.of_nat n) 512 <> 0) then 512 - Z.rem (Z.of_nat n) 512 else 0).
Proof.
  unfold padding. rewrite Z2Nat.id by (apply Z.mod_pos_bound; lia). rewrite Z.rem_mod_nonneg by lia.
  destruct (decide (Z.of_nat n mod 512 <> 0)) as [H|H].
  - rewrite Z.mod_opp_l_nz by lia. done.
  - assert (E : Z.of_nat n mod 512 = 0) by lia. rewrite Z.mod_opp_l_z by lia. done.
Qed.

Lemma length_encode f : valid_file f -> Z.of_nat (length (encode f)) = 512 + Z.of_nat (length (tf_data f)) + Z.of_nat (padding (length (tf_data f))).
Proof. intros Hv. unfold encode. rewrite !length_app, (length_header f Hv), length_replicate. lia. Qed.

Lemma scan_step_file m ptr bufsize p f entries : valid_file f -> stored m p (encode f) -> p < u64 (ptr + bufsize) -> 0 <= p ->
  p + Z.of_nat (length (encode f)) < 2 ^ 64 ->
  scan_step m ptr bufsize (p, entries) = Done (inl (p + Z.of_nat (length (encode f)), entries ++ [mk_tar p (header f)])).
Proof.
  intros Hv Hs Hlt Hp Hend. unfold encode in Hs. apply stored_app in Hs as [Hh _]. unfold stored in Hh. rewrite (length_header f Hv) in Hh.
  unfold scan_step. rewrite decide_True by done. unfold read_mem. rewrite Hh, (header_not_zero f Hv).
  replace (Z.of_nat 512) with 512 by lia. rewrite decide_False by lia. rewrite (header_size p f Hv). pose proof (length_encode f Hv) as Hl.
  pose proof (padding_spec (length (tf_data f))) as Hpad. destruct Hv as (_ & _ & _ & Hd). cbn zeta. set (n := Z.of_nat (length (tf_data f))) in *.
  assert (0 <= Z.rem n 512 < 512) by (apply Z.rem_bound_pos; lia). assert (Hj : (if decide (Z.rem n 512 <> 0) then s32 (n + (512 - Z.rem n 512)) else n) =
    n + Z.of_nat (padding (length (tf_data f)))).
  { rewrite Hpad. destruct (decide _); [apply s32_small; lia|lia]. }
  rewrite Hj. assert (n + Z.of_nat (padding (length (tf_data f))) < 2 ^ 31 - 512) by (rewrite Hpad; destruct (decide _); lia).
  rewrite s32_small by lia. rewrite u64_small by lia. do 3 f_equal. lia.
Qed.

Lemma scan_step_end m ptr bufsize p entries : stored m p (replicate 512 0) -> scan_step m ptr bufsize (p, entries) = Done (inr entries).
Proof.
  intros Hs. unfold scan_step. destruct (decide _); [|done]. unfold stored in Hs. rewrite length_replicate in Hs. unfold read_mem at 1. rewrite Hs.
  simpl. repeat (destruct (decide _); try done).
Qed.

(** Tarfs_init reads an archive back: one tar_t per file, in order, each with
    its header and the address of its data.  The archive ends at the end of the
    buffer or with a zero block. *)
Theorem tarfs_scan_encoded fuel m ptr bufsize fs : Forall valid_file fs -> stored m ptr (archive_bytes fs) -> 0 <= ptr -> ptr + bufsize < 2 ^ 64 ->
  (bufsize = Z.of_nat (length (archive_bytes fs)) \/ (Z.of_nat (length (archive_bytes fs)) <= bufsize /\ stored m (ptr + Z.of_nat (length (archive_bytes fs))) (replicate 512 0))) ->
  (length fs < fuel)%nat -> tarfs_scan fuel m ptr bufsize = Done (tars_of ptr fs).
Proof.
  intros Hv Hs Hp Hend Hstop Hfu. unfold tarfs_scan.
  assert (Hgen : forall fs fuel p entries, Forall valid_file fs -> stored m p (archive_bytes fs) -> ptr <= p -> p + Z.of_nat (length (archive_bytes fs)) <= ptr + bufsize ->
    (p + Z.of_nat (length (archive_bytes fs)) = ptr + bufsize \/ stored m (p + Z.of_nat (length (archive_bytes fs))) (replicate 512 0)) ->
    (length fs < fuel)%nat -> loop fuel (scan_step m ptr bufsize) (p, entries) = Done (entries ++ tars_of p fs)).
  { clear fs fuel Hv Hs Hstop Hfu. induction fs as [|f fs IH]; intros [|fuel] p entries Hv Hs Hpp Hle Hstop Hfu; simpl in Hfu; try lia; cbn [loop tars_of].
    - rewrite app_nil_r. destruct Hstop as [E|Hz].
      + cbn in E. unfold scan_step. rewrite decide_False; [done|]. rewrite u64_small; lia.
      + replace (p + Z.of_nat (length (archive_bytes []))) with p in Hz by (simpl; lia). by rewrite scan_step_end.
    - apply Forall_cons in Hv as [Hvf Hv]. change (archive_bytes (f :: fs)) with (encode f ++ archive_bytes fs) in *. rewrite length_app in *.
      apply stored_app in Hs as [Hsf Hs]. pose proof (length_encode f Hvf).
      rewrite (scan_step_file m ptr bufsize p f entries Hvf Hsf) by (rewrite ?u64_small; lia). simpl.
      rewrite IH; [by rewrite <- app_assoc|done|done|lia|lia| |lia].
      destruct Hstop as [E|Hz]; [left; lia|right]. by replace (p + Z.of_nat (length (encode f)) + Z.of_nat (length (archive_bytes fs))) with (p + Z.of_nat (length (encode f) + length (archive_bytes fs))) by lia. }
  rewrite (Hgen fs fuel ptr []); try done.
  - destruct Hstop as [->|[? _]]; lia.
  - destruct Hstop as [->|[_ ?]]; [by left|by right].
Qed.

(** *** Reading a file *)

Lemma tars_of_lookup fs : forall m p i f, Forall valid_file fs -> stored m p (archive_bytes fs) -> 0 <= p ->
  p + Z.of_nat (length (archive_bytes fs)) < 2 ^ 64 -> fs !! i = Some f ->
  exists q, tars_of p fs !! i = Some (mk_tar q (header f)) /\ stored m q (encode f) /\ 0 <= q /\ q + Z.of_nat (length (encode f)) < 2 ^ 64.
Proof.
  induction fs as [|g fs IH]; intros m p i f Hv Hs Hp Hend Hi; [done|]. apply Forall_cons in Hv as [Hvg Hv].
  change (archive_bytes (g :: fs)) with (encode g ++ archive_bytes fs) in *. rewrite length_app in Hend. apply stored_app in Hs as [Hsg Hs].
  destruct i as [|i]; simpl in Hi; [injection Hi as ->|].
  - exists p. split_and!; try done. lia.
  - simpl. apply (IH m); try done; lia.
Qed.

Section Read.
Context `{TA : TarAlloc} `{Env : VfsEnv tarfs} `{NA : NodeAlloc}.

(** The file a node stands for: entry [i] of the archive at [ptr]. *)
Definition tar_node (s : vfs tarfs) (node : Z) (ptr : Z) (fs : list tfile) (f : tfile) : Prop :=
  exists fn c i, node <> 0 /\ files s !! node = Some fn /\ contexts (drv s) !! f_fs fn = Some c /\
    fs_root (ctx_fs c) = tars_of ptr fs /\ ctx_entry c = Some i /\ fs !! i = Some f.

(** Tarfs_read returns the bytes of the file from the offset on, as many as were
    asked for and are there; the rest of the buffer and the state are kept. *)
Theorem tarfs_read_file s node ptr fs f buf offset len : tar_node s node ptr fs f -> Forall valid_file fs ->
  stored (t_mem (drv s)) ptr (archive_bytes fs) -> 0 <= ptr -> ptr + Z.of_nat (length (archive_bytes fs)) < 2 ^ 64 ->
  0 <= offset -> 0 <= len -> offset + len < 2 ^ 64 ->
  let data := take (Z.to_nat len) (drop (Z.to_nat offset) (tf_data f)) in
  (length data <= length buf)%nat ->
  tarfs_read node buf offset len s = Done (Z.of_nat (length data), data ++ drop (length data) buf, s).
Proof.
  intros (fn & c & i & Hn & Hfn & Hc & Hroot & Hi & Hfi) Hv Hs Hp Hend Ho Hl Hol data Hbuf.
  destruct (tars_of_lookup fs _ ptr i f Hv Hs Hp Hend Hfi) as (q & Hq & Hsq & Hq0 & Hqend).
  assert (Hvf : valid_file f) by (by apply (Forall_lookup_1 _ _ _ _ Hv Hfi)). pose proof (length_encode f Hvf) as Hle.
  unfold tarfs_read, context_of, file_at. rewrite decide_False, Hfn by done. cbn [mbind outcome_bind of_option]. rewrite Hc. cbn [mbind outcome_bind of_option].
  unfold entry_of. rewrite Hi, Hroot, Hq. cbn [mbind outcome_bind of_option tar_begin]. rewrite (header_size q f Hvf). cbn zeta.
  assert (Hd31 : Z.of_nat (length (tf_data f)) < 2 ^ 31 - 1024) by apply Hvf. rewrite (u64_small (Z.of_nat (length (tf_data f)))) by lia.
  assert (Hlen : length data = Nat.min (Z.to_nat len) (length (tf_data f) - Z.to_nat offset)) by (unfold data; by rewrite length_take, length_drop).
  destruct (decide (Z.of_nat (length (tf_data f)) < offset)) as [Hlt|Hge].
  - assert (E : data = []) by (apply nil_length_inv; lia). rewrite E. simpl. by rewrite drop_0.
  - rewrite (u64_small (offset + len)) by lia.
    set (n := if decide (Z.of_nat (length (tf_data f)) < offset + len) then u64 (Z.of_nat (length (tf_data f)) - offset) else len).
    assert (En : n = Z.of_nat (length data)).
    { unfold n. rewrite Hlen. destruct (decide (Z.of_nat (length (tf_data f)) < offset + len)); [rewrite u64_small by lia|]; lia. }
    clearbody n. subst n. rewrite Nat2Z.id. rewrite (u64_small (512 + q)), (u64_small (512 + q + offset)) by lia.
    assert (Hbytes : ram_bytes (t_mem (drv s)) (512 + q + offset) (length data) = data).
    { unfold encode in Hsq. apply stored_app in Hsq as [_ Hsq]. rewrite (length_header f Hvf) in Hsq. apply stored_app in Hsq as [Hsd _].
      replace (512 + q + offset) with (q + Z.of_nat 512 + Z.of_nat (Z.to_nat offset)) by lia.
      rewrite (stored_slice _ _ (tf_data f) (Z.to_nat offset) (length data)) by (done || lia).
      unfold data. rewrite length_take. destruct (Nat.min_spec (Z.to_nat len) (length (drop (Z.to_nat offset) (tf_data f)))) as [[_ ->]|[? ->]]; [done|].
      by rewrite !take_ge by lia. }
    rewrite Hbytes. unfold overlay. rewrite decide_True by lia. cbn [mbind outcome_bind]. by rewrite s32_small by lia.
Qed.
End Read.

(** The size field holds eleven octal digits, which oct2bin reads back: a header
    says how long its data is. *)
Theorem oct2bin_inverts k n rest : 0 <= n < 8 ^ Z.of_nat k -> n < 2 ^ 31 -> oct2bin (oct_digits k n ++ rest) k = n.
Proof. intros Hn H31. unfold oct2bin. rewrite take_field by apply length_oct_digits. by apply oct2bin_digits. Qed.

(** ** tarfs under the virtual file system *)

(** The name of an archive file as a child of the mount point. *)
Definition root_name (n : list Z) : list Z := if decide (last n = Some 47) then take (length n - 1) n else n.
Definition in_archive_root (f : tfile) (name : list Z) : Prop := count_char_occurrences (tf_name f) 47 <= 1 /\ root_name (tf_name f) = name.

Lemma c_str_pad s k : Forall (fun c => 0 < c < 256) s -> c_str (s ++ replicate k 0) = s.
Proof.
  induction 1 as [|c s Hc _ IH]; simpl; [by destruct k|]. rewrite decide_False by lia. by rewrite IH.
Qed.

Lemma entry_name_header q f : valid_file f -> entry_name (mk_tar q (header f)) = tf_name f.
Proof. intros Hv. unfold entry_name. rewrite (header_prefix q f Hv), (header_name q f Hv). apply c_str_pad. apply Hv. Qed.

Lemma strip_root n : n <> [] -> strip_slash n = Done (root_name n).
Proof.
  intros Hn. unfold strip_slash, root_name. destruct (last n) as [c|] eqn:E; [|by apply last_None in E].
  destruct (decide (c = 47)) as [->|Hc]; [by rewrite decide_True|by rewrite decide_False by congruence].
Qed.

Section Mounted.
Context `{TA : TarAlloc} `{Env : VfsEnv tarfs} `{NA : NodeAlloc}.
Context (fuel : nat) (readCount0 len0 no_return : Z).
#[local] Instance drivers : Drivers tarfs := tarfs_drivers fuel readCount0 no_return.

Lemma find_in_root_first context p fs i f name : forall i0 id (s : vfs tarfs), Forall valid_file fs -> fs !! i = Some f -> in_archive_root f name ->
  (forall j g, (j < i)%nat -> fs !! j = Some g -> ~ in_archive_root g name) ->
  exists q id', tars_of p fs !! i = Some (mk_tar q (header f)) /\
    find_in_root context (tars_of p fs) i0 id name s = new_tar_node context (i0 + i) (mk_tar q (header f)) id' name s.
Proof.
  revert p i. induction fs as [|g fs IH]; intros p i i0 id s Hv Hi Hf Hb; [done|]. apply Forall_cons in Hv as [Hvg Hv]. cbn [tars_of find_in_root].
  assert (Hne : tf_name g <> []) by (destruct Hvg as ((Hl & _) & _); intros E; rewrite E in Hl; simpl in Hl; lia).
  rewrite (entry_name_header p g Hvg), (strip_root _ Hne). cbn [mbind outcome_bind]. destruct i as [|i]; simpl in Hi.
  - injection Hi as ->. exists p, id. split; [done|]. rewrite decide_True by done. f_equal. lia.
  - rewrite decide_False by (apply (Hb 0%nat g); [lia|done]).
    destruct (IH (p + Z.of_nat (length (encode g))) i (S i0) (s32 (id + 1)) s Hv Hi Hf) as (q & id' & Hq & E).
    { intros j h Hj Hh. apply (Hb (S j) h); [lia|done]. }
    exists q, id'. split; [done|]. rewrite E. f_equal. lia.
Qed.

(** The tree node [e] is the root of a mounted archive. *)
Definition mounted_at (s : vfs tarfs) (e : Z) (ptr : Z) (fs : list tfile) : Prop :=
  exists n fn c, tnodes s !! e = Some n /\ file_at s (t_value n) = Done fn /\ f_type fn = FILE_TYPE_MOUNT_POINT /\
    op_find_dir (file_ops fn) = TARFS_FIND_DIR /\ contexts (drv s) !! f_fs fn = Some c /\ fs_root (ctx_fs c) = tars_of ptr fs.

Lemma find_dir_mounted s e n ptr fs i f name : mounted_at s e ptr fs -> tnodes s !! e = Some n -> Forall valid_file fs -> fs !! i = Some f ->
  in_archive_root f name -> (forall j g, (j < i)%nat -> fs !! j = Some g -> ~ in_archive_root g name) -> (length name <= 256)%nat ->
  exists node s' fn', call_find_dir TARFS_FIND_DIR (t_value n) name s = Done (node, s') /\
    tnodes s' = tnodes s /\ file_tree s' = file_tree s /\ node = falloc (files s) /\ files s' = <[node := fn']> (files s) /\ tar_node s' node ptr fs f /\ root_node s' = root_node s /\
    t_mem (drv s') = t_mem (drv s) /\ f_size fn' = Z.of_nat (length (tf_data f)) /\ f_name fn' = name ++ drop (length name) zero_name /\
    f_type fn' = (if decide (tf_type f = 48) then FILE_TYPE_FILE else FILE_TYPE_DIR).
Proof.
  intros (n' & fn & c & Hn & Hfn & Hty & _ & Hc & Hroot) Hn' Hv Hi Hf Hb Hname. rewrite Hn in Hn'. injection Hn' as ->.
  destruct (find_in_root_first c ptr fs i f name 0 0 s Hv Hi Hf Hb) as (q & id & Hq & E). assert (Hvf : valid_file f) by (by apply (Forall_lookup_1 _ _ _ _ Hv Hi)).
  unfold call_find_dir, drivers, tarfs_drivers. rewrite decide_True by done. unfold tarfs_find_dir, context_of. rewrite Hfn. cbn [mbind outcome_bind]. rewrite Hc.
  cbn [mbind outcome_bind of_option]. rewrite decide_True by done. rewrite Hroot, E. cbn [Nat.add]. unfold new_tar_node, overlay.
  rewrite (decide_True (P := (length name <= length zero_name)%nat)) by (unfold zero_name; rewrite length_replicate; lia).
  cbn [mbind outcome_bind]. rewrite (header_type q f Hvf), (header_size q f Hvf).
  eexists _, _, _. split; [reflexivity|]. destruct (falloc_fresh (files s)) as [Hf0 Hff]. destruct (ctx_fresh (contexts (drv s))) as [Hc0 Hcf].
  split_and!; try done.
  - eexists _, _, i. split_and!; [done|apply lookup_insert_eq|apply lookup_insert_eq|done|done|done].
  - simpl. apply u64_small. destruct Hvf as (_ & _ & _ & ?). lia.
Qed.

Lemma path_loop_prefix s c toks name e k : walks s c toks e -> (length toks < k)%nat ->
  loop k (path_step (D := tarfs) fuel) (c, toks ++ [name], s) = loop (k - length toks) (path_step fuel) (e, [name], s).
Proof.
  intros Hw. revert k. induction Hw as [c|c nm c' rest e Hd' Hc' Hne Hw IH]; intros [|k] Hk; simpl in Hk; try lia; [done|].
  cbn [app loop]. rewrite (path_step_found fuel _ _ _ _ _ Hd' Hc' Hne).
  destruct (rest ++ [name]) as [|tok toks] eqn:E; [by destruct rest|]. cbn [mbind outcome_bind]. rewrite IH by lia. simpl. done.
Qed.

(** The last token, found by the driver of the directory. *)
Lemma path_step_driver s e name n fn node s1 new s3 m : ~ dots name -> get_child s e name = Done 0 -> tnodes s !! e = Some n ->
  file_at s (t_value n) = Done fn -> op_find_dir (file_ops fn) <> 0 -> call_find_dir (op_find_dir (file_ops fn)) (t_value n) name s = Done (node, s1) ->
  node <> 0 -> cache_node fuel e node s1 = Done (new, s3) -> new <> 0 -> tnodes s3 !! new = Some m ->
  path_step fuel (e, [name], s) = Done (inr (mk_res (t_value m) None, s3)).
Proof.
  intros Hd Hmiss Hn Hfn Hop Hcall Hnode Hins Hnew Hm. unfold path_step. rewrite !decide_False by (intros ->; apply Hd; unfold dots; auto).
  rewrite Hmiss. cbn [mbind outcome_bind]. rewrite (decide_True (P := 0 = 0)) by done. rewrite (node_at_done _ _ _ Hn). cbn [mbind outcome_bind].
  rewrite Hfn. cbn [mbind outcome_bind]. rewrite decide_False by done. rewrite Hcall. cbn [mbind outcome_bind]. rewrite decide_False by done.
  rewrite Hins. cbn [mbind outcome_bind]. rewrite decide_False by done. by rewrite (node_at_done _ _ _ Hm).
Qed.

(** Opening a path into a mounted archive.  When the path leads to the mount
    point and the archive has a file of the last name at its top, resolve_path
    makes a node for the first such file, puts it into the file tree below the
    mount point and returns it; the node reads as that file. *)
Theorem tarfs_resolve s l cwd_path path toks name e ptr fs i f :
  tree_ok s l -> t_head (file_tree s) ∈ l.*1 -> (length l < fuel)%nat -> head path = Some 47 -> path <> [47] ->
  fields [47] path = toks ++ [name] -> walks s (t_head (file_tree s)) toks e -> ~ dots name -> get_child s e name = Done 0 ->
  mounted_at s e ptr fs -> Forall valid_file fs -> fs !! i = Some f -> in_archive_root f name ->
  (forall j g, (j < i)%nat -> fs !! j = Some g -> ~ in_archive_root g name) -> (length name <= 256)%nat ->
  exists node s' l', resolve_path fuel cwd_path path s = Done (mk_res node None, s') /\
    tree_ok s' l' /\ l'.*2 ≡ₚ node :: l.*2 /\ tar_node s' node ptr fs f /\ t_mem (drv s') = t_mem (drv s) /\
    exists fn, files s' = <[node := fn]> (files s) /\ files s !! node = None /\ f_size fn = Z.of_nat (length (tf_data f)) /\ f_cached fn = true.
Proof.
  intros Ht Hh Hfu Hhd Hne Hfields Hw Hd Hmiss Hm Hv Hi Hf Hb Hname. pose proof (walks_node _ _ _ _ _ Ht Hh Hw) as He.
  pose proof Hm as (n & fn & c & Hn & Hfn & Hty & Hop & Hc & Hroot).
  destruct (find_dir_mounted s e n ptr fs i f name Hm Hn Hv Hi Hf Hb Hname) as (node & s1 & fn' & E1 & T1 & T2 & Enode & F1 & N1 & R1 & M1 & Z1 & _).
  destruct (falloc_fresh (files s)) as [Hf0 Hff]. rewrite <- Enode in *.
  set (s2 := put_file node (set_cached fn') s1).
  assert (Ht2 : tree_ok s2 l) by (unfold tree_ok, s2; simpl; by rewrite T1, T2).
  destruct (insert_grows fuel s2 l e node Ht2 He Hfu) as (new & s3 & l' & E3 & _ & Ht3 & Hperm & Hni & Hn0 & Hnew & Hhead & Hfiles & _ & Hdrv).
  exists node, s3, l'. split; [|split; [done|split; [done|split; [|split]]]].
  - unfold resolve_path. rewrite decide_False, decide_True by done. unfold resolve_from. rewrite Hfields, length_app. cbn [length].
    rewrite (path_loop_prefix s _ toks name e _ Hw) by lia. replace (S (length toks + 1) - length toks)%nat with 2%nat by lia. cbn [loop].
    rewrite (path_step_driver s e name n fn node s1 new s3 (mk_tn node [] e)); try done; [by rewrite Hop|by rewrite Hop|].
    unfold cache_node, file_at. rewrite decide_False, F1, lookup_insert_eq by done. cbn [mbind outcome_bind of_option]. fold s2. exact E3.
  - destruct N1 as (g & cg & j & _ & Hg & Hcg & Hrest). rewrite F1, lookup_insert_eq in Hg. injection Hg as <-.
    exists (set_cached fn'), cg, j. split; [done|]. split; [rewrite Hfiles; apply lookup_insert_eq|]. split; [|done].
    rewrite Hdrv. done.
  - rewrite Hdrv. exact M1.
  - exists (set_cached fn'). split_and!; try done. rewrite Hfiles. simpl. by rewrite F1, insert_insert_eq.
Qed.
End Mounted.

(** ** A concrete archive: hello and etc/ *)

#[export] Instance bump_contexts : TarAlloc := {| ctx_alloc := next_key; ctx_fresh := next_key_fresh |}.

Definition str_hello : list Z := [104; 101; 108; 108; 111].
Definition demo_files : list tfile := [mk_tfile [101; 116; 99; 47] 53 []; mk_tfile str_hello 48 [104; 105; 33]].
Definition demo_mem (x : Z) : Z := default 0 (archive_bytes demo_files !! Z.to_nat (x - 4096)).

Lemma demo_valid : Forall valid_file demo_files.
Proof.
  repeat (apply Forall_cons; split); [..|constructor]; (split; [simpl; lia|]); (split; [repeat (apply Forall_cons; split; [lia|]); constructor|]); simpl; lia.
Qed.
Lemma demo_stored : stored demo_mem 4096 (archive_bytes demo_files).
Proof. apply (bool_decide_unpack _). vm_compute. exact I. Qed.

Lemma tarfs_scan_encoded_witness : tarfs_scan 3 demo_mem 4096 2048 = Done (tars_of 4096 demo_files) /\ length (tars_of 4096 demo_files) = 2%nat.
Proof.
  split; [|done]. apply (tarfs_scan_encoded 3 demo_mem 4096 2048 demo_files demo_valid demo_stored); [lia|lia| |simpl; lia].
  right. split; [vm_compute; discriminate|]. apply (bool_decide_unpack _). vm_compute. exact I.
Defined.

(** The archive mounted on the root. *)
Definition demo_root : file_node :=
  mk_fn zero_name 0 FILE_TYPE_MOUNT_POINT 0 false 7 (mk_ops TARFS_READ 0 0 TARFS_READ_DIR 0 TARFS_FIND_DIR TARFS_GET_SIZE 0 0 0 0 0) 0.
Definition demo_hello : file_node :=
  mk_fn (str_hello ++ replicate 251 0) 1 FILE_TYPE_FILE 3 true 8 (mk_ops TARFS_READ 0 0 TARFS_READ_DIR 0 TARFS_FIND_DIR 0 0 0 0 0 0) 0.
Definition demo_tfs : tar_filesystem := mk_tfs (tars_of 4096 demo_files) 100 2.
Definition demo_tarfs : vfs tarfs := mk_vfs (<[1 := mk_tn 100 [] 0]> ∅) (mk_tree 1 1)
  (<[100 := demo_root]> (<[101 := demo_hello]> ∅)) 100 4 [47]
  (mk_tarfs demo_mem (tars_of 4096 demo_files) (<[7 := mk_ctx demo_tfs None]> (<[8 := mk_ctx demo_tfs (Some 1%nat)]> ∅))).

Lemma tarfs_read_file_witness : tarfs_read 101 [0; 0; 0; 0] 1 9 demo_tarfs = Done (2, [105; 33; 0; 0], demo_tarfs).
Proof.
  apply (tarfs_read_file demo_tarfs 101 4096 demo_files (mk_tfile str_hello 48 [104; 105; 33]) [0; 0; 0; 0] 1 9); try lia.
  - exists demo_hello, (mk_ctx demo_tfs (Some 1%nat)), 1%nat. by split_and!.
  - apply demo_valid.
  - apply demo_stored.
  - apply (bool_decide_unpack _). vm_compute. exact I.
  - simpl. lia.
Defined.

Lemma tarfs_resolve_witness : exists node s' l', resolve_path (Drv := tarfs_drivers 5 0 0) 5 [] (47 :: str_hello) demo_tarfs = Done (mk_res node None, s') /\
  tree_ok s' l' /\ l'.*2 ≡ₚ [node; 100] /\ tar_node s' node 4096 demo_files (mk_tfile str_hello 48 [104; 105; 33]) /\ t_mem (drv s') = demo_mem /\
  exists fn, files s' = <[node := fn]> (files demo_tarfs) /\ files demo_tarfs !! node = None /\ f_size fn = 3 /\ f_cached fn = true.
Proof.
  apply (tarfs_resolve 5 0 0 demo_tarfs [(1, 100)] [] (47 :: str_hello) [] str_hello 1 4096 demo_files 1 (mk_tfile str_hello 48 [104; 105; 33])).
  - constructor; [right; econstructor; [done|reflexivity|constructor]|]. apply (bool_decide_unpack _). vm_compute. exact I.
  - apply (bool_decide_unpack _). vm_compute. exact I.
  - simpl. lia.
  - done.
  - discriminate.
  - reflexivity.
  - constructor.
  - not_dots.
  - reflexivity.
  - exists (mk_tn 100 [] 0), demo_root, (mk_ctx demo_tfs None). by split_and!.
  - apply demo_valid.
  - done.
  - split; [vm_compute; discriminate|reflexivity].
  - intros j g Hj Hg [_ H]. assert (j = 0%nat) by lia. subst j. injection Hg as <-. discriminate H.
  - simpl. lia.
Defined.
