(* ===== verification/Ramfs.v ===== *)
(** kernel/fs/ramfs.c: files in memory under the virtual file system (Vfs).

    [blocks] are the malloc'ed buffers by address, [ram_files] the [ram_file_t]
    that [node->fs] points to.  A new buffer holds [uninit]; an access outside
    a buffer is a [Fault].  malloc and calloc succeed. *)
From stdpp Require Import base list gmap fin_maps.
From Stdlib Require Import ZArith Lia.
From S2P Require Import Prelude CString KTree Vfs.

#[local] Open Scope Z_scope.

(** ** Data *)

Record ram_file := mk_ram { ram_owner : Z; ram_begin : Z; ram_size : Z }.
Record ramfs := mk_ramfs { blocks : gmap Z (list Z); ram_files : gmap Z ram_file }.

Definition RAMFS_DELETE : Z := 32.
Definition RAMFS_MKDIR : Z := 33.
Definition RAMFS_CREATE : Z := 34.
Definition RAMFS_READ : Z := 35.
Definition RAMFS_WRITE : Z := 36.
Definition RAMFS_RENAME : Z := 37.

(** malloc of a buffer and calloc of a ram_file_t; O_TRUNC of abi-bits/fcntl.h. *)
Class RamEnv := {
  block_alloc : gmap Z (list Z) -> Z;
  block_fresh : forall m, block_alloc m <> 0 /\ m !! block_alloc m = None;
  ram_alloc : gmap Z ram_file -> Z;
  ram_fresh : forall m, ram_alloc m <> 0 /\ m !! ram_alloc m = None;
  uninit : Z -> Z;
  O_TRUNC : Z
}.

Section Ramfs.
Context `{RE : RamEnv} `{Env : VfsEnv ramfs} `{NA : NodeAlloc}.
Context (fuel : nat).

Definition set_drv (r : ramfs) (s : vfs ramfs) : vfs ramfs :=
  mk_vfs (tnodes s) (file_tree s) (files s) (root_node s) (id_generator s) (cwd s) r.
Definition set_blocks (b : gmap Z (list Z)) (s : vfs ramfs) : vfs ramfs := set_drv (mk_ramfs b (ram_files (drv s))) s.
Definition set_ram_files (r : gmap Z ram_file) (s : vfs ramfs) : vfs ramfs := set_drv (mk_ramfs (blocks (drv s)) r) s.

Definition ram_of (node : Z) (s : vfs ramfs) : outcome (file_node * ram_file) :=
  f ← file_at s node; r ← of_option (ram_files (drv s) !! f_fs f); Done (f, r).

(** malloc(n) *)
Definition new_block (n : Z) (s : vfs ramfs) : Z * vfs ramfs :=
  let p := block_alloc (blocks (drv s)) in
  (p, set_blocks (<[p := (fun i => uninit (Z.of_nat i)) <$> seq 0 (Z.to_nat n)]> (blocks (drv s))) s).

(** memcpy of [n] bytes out of, and into, a buffer. *)
Definition load_block (p off n : Z) (s : vfs ramfs) : outcome (list Z) :=
  b ← of_option (blocks (drv s) !! p);
  if decide (off + n <= Z.of_nat (length b)) then Done (take (Z.to_nat n) (drop (Z.to_nat off) b)) else Fault.
Definition store_block (p off : Z) (bytes : list Z) (s : vfs ramfs) : outcome (vfs ramfs) :=
  b ← of_option (blocks (drv s) !! p);
  if decide (off + Z.of_nat (length bytes) <= Z.of_nat (length b)) then
    Done (set_blocks (<[p := take (Z.to_nat off) b ++ bytes ++ drop (Z.to_nat off + length bytes) b]> (blocks (drv s))) s)
  else Fault.

(** ** Reading and writing *)

Definition ramfs_read (node : Z) (buffer : list Z) (offset len : Z) (s : vfs ramfs) : outcome (Z * list Z * vfs ramfs) :=
  '(_, ramFile) ← ram_of node s;
  if decide (ram_size ramFile < offset) then Done (0, buffer, s)
  else
    let len := if decide (ram_size ramFile < u64 (offset + len)) then u64 (u64 (offset + len) - ram_size ramFile) else len in
    data ← load_block (ram_begin ramFile) offset len s;
    buffer ← overlay data buffer;
    Done (s32 len, buffer, s).

(** A longer buffer takes over the old contents; [ramFile->size] stays. *)
Definition regrow (node offset len : Z) (s : vfs ramfs) : outcome (vfs ramfs) :=
  '(f, ramFile) ← ram_of node s;
  let file := ram_begin ramFile in
  let '(newBuffer, s) := new_block (u64 (offset + len)) s in
  let s := set_ram_files (<[f_fs f := mk_ram (ram_owner ramFile) newBuffer (ram_size ramFile)]> (ram_files (drv s))) s in
  data ← load_block file 0 (ram_size ramFile) s;
  store_block newBuffer 0 data s.

Definition ramfs_write (node : Z) (buffer : list Z) (offset len : Z) (s : vfs ramfs) : outcome (Z * vfs ramfs) :=
  '(_, ramFile) ← ram_of node s;
  s ← (if decide (ram_size ramFile < offset) then regrow node offset len s else Done s);
  s ← (if decide (ram_size ramFile < u64 (offset + len)) then regrow node offset len s else Done s);
  '(f, ramFile) ← ram_of node s;
  if decide (Z.of_nat (length buffer) < len) then Fault
  else
    s ← store_block (ram_begin ramFile) offset (take (Z.to_nat len) buffer) s;
    Done (s32 len, if decide (f_size f < u64 (offset + len)) then put_file node (set_size (u64 (offset + len)) f) s else s).

Definition ramfs_open (node mode : Z) (s : vfs ramfs) : outcome (vfs ramfs) :=
  if decide (Z.land mode O_TRUNC <> 0) then
    '(_, ramFile) ← ram_of node s;
    store_block (ram_begin ramFile) 0 (replicate (Z.to_nat (ram_size ramFile)) 0) s
  else Done s.

(** ** Creating and deleting *)

(** A one-letter name other than the slash is refused. *)
Definition ramfs_mkdir (parent : Z) (dirname : list Z) (s : vfs ramfs) : outcome (bool * vfs ramfs) :=
  if decide (length dirname = 1%nat /\ dirname <> [47]) then Done (false, s)
  else
    treeNode ← find_node fuel s parent;
    if decide (treeNode = 0) then Done (false, s)
    else
      '(node, s) ← new_file dirname FILE_TYPE_DIR (mk_ops RAMFS_READ RAMFS_WRITE 0 0 RAMFS_MKDIR 0 0 RAMFS_CREATE 0 RAMFS_RENAME RAMFS_DELETE 0) s;
      p ← file_at s parent;
      '(_, s) ← insert_node fuel treeNode node (put_file parent (set_size (u64 (f_size p + 1)) p) s);
      Done (true, s).

Definition with_fs (fs : Z) (f : file_node) : file_node :=
  mk_fn (f_name f) (f_id f) (f_type f) (f_size f) (f_cached f) fs (file_ops f) (f_ref f).

Definition ramfs_create (parent : Z) (name : list Z) (mode : Z) (s : vfs ramfs) : outcome (bool * vfs ramfs) :=
  treeNode ← find_node fuel s parent;
  if decide (treeNode = 0) then Done (false, s)
  else
    '(node, s) ← new_file name FILE_TYPE_FILE (mk_ops RAMFS_READ RAMFS_WRITE 0 0 0 0 0 RAMFS_CREATE 0 RAMFS_RENAME RAMFS_DELETE 0) s;
    p ← file_at s parent;
    let s := put_file parent (set_size (u64 (f_size p + 1)) p) s in
    let ramFile := ram_alloc (ram_files (drv s)) in
    let '(b, s) := new_block 4096 s in
    let s := set_ram_files (<[ramFile := mk_ram ramFile b 4096]> (ram_files (drv s))) s in
    f ← file_at s node;
    '(_, s) ← insert_node fuel treeNode node (put_file node (with_fs ramFile f) s);
    Done (true, s).

Definition ramfs_delete (node : Z) (s : vfs ramfs) : outcome (Z * vfs ramfs) :=
  '(f, ramFile) ← ram_of node s;
  let s := set_blocks (base.delete (ram_begin ramFile) (blocks (drv s))) s in
  Done (0, set_ram_files (base.delete (f_fs f) (ram_files (drv s))) s).
End Ramfs.

Section RamfsDriver.
Context `{RE : RamEnv} `{Env : VfsEnv ramfs} `{NA : NodeAlloc}.
(** What an uninitialised pointer holds. *)
Context (fuel : nat) (junk : Z).

(** rename calls back into the virtual file system, which resolves a path with
    the functions that do not. *)
#[local] Instance ramfs_base : Drivers ramfs := {|
  call_find_dir := fun _ _ _ _ => Fault;
  call_create := fun op parent name mode s => if decide (op = RAMFS_CREATE) then ramfs_create fuel parent name mode s else Fault;
  call_mkdir := fun op parent name s => if decide (op = RAMFS_MKDIR) then ramfs_mkdir fuel parent name s else Fault;
  call_open := fun _ _ _ _ => Fault;
  call_read_dir := fun _ _ _ _ _ => Fault;
  call_get_size := fun _ _ _ => Fault;
  call_read := fun op node buf offset len s => if decide (op = RAMFS_READ) then ramfs_read node buf offset len s else Fault;
  call_write := fun op node buf offset len s => if decide (op = RAMFS_WRITE) then ramfs_write node buf offset len s else Fault;
  call_poll := fun _ _ _ _ => Fault;
  call_delete := fun op node s => if decide (op = RAMFS_DELETE) then ramfs_delete node s else Fault;
  call_rename := fun _ _ _ _ => Fault;
  call_link := fun _ _ _ _ => Fault;
  fs_owner := fun r p => match ram_files r !! p with Some f => ram_owner f | None => 0 end
|}.

(** The parent is uninitialised when resolve_path does not store it; the node
    keeps its old name. *)
Definition ramfs_rename (node : Z) (path : list Z) (s : vfs ramfs) : outcome (Z * vfs ramfs) :=
  '(r, s) ← resolve_path (Drv := ramfs_base) fuel (cwd s) path s;
  let parent := match r_out r with Some (parent, _) => parent | None => junk end in
  if decide (parent = 0) then Done (0, s)
  else
    treeNode ← find_node fuel s parent;
    if decide (treeNode = 0) then Done (0, s)
    else '(_, s) ← insert_node fuel treeNode node s; Done (node, s).

#[export] Instance ramfs_drivers : Drivers ramfs := {|
  call_find_dir := fun _ _ _ _ => Fault;
  call_create := fun op parent name mode s => if decide (op = RAMFS_CREATE) then ramfs_create fuel parent name mode s else Fault;
  call_mkdir := fun op parent name s => if decide (op = RAMFS_MKDIR) then ramfs_mkdir fuel parent name s else Fault;
  call_open := fun _ _ _ _ => Fault;
  call_read_dir := fun _ _ _ _ _ => Fault;
  call_get_size := fun _ _ _ => Fault;
  call_read := fun op node buf offset len s => if decide (op = RAMFS_READ) then ramfs_read node buf offset len s else Fault;
  call_write := fun op node buf offset len s => if decide (op = RAMFS_WRITE) then ramfs_write node buf offset len s else Fault;
  call_poll := fun _ _ _ _ => Fault;
  call_delete := fun op node s => if decide (op = RAMFS_DELETE) then ramfs_delete node s else Fault;
  call_rename := fun op node path s => if decide (op = RAMFS_RENAME) then ramfs_rename node path s else Fault;
  call_link := fun _ _ _ _ => Fault;
  fs_owner := fun r p => match ram_files r !! p with Some f => ram_owner f | None => 0 end
|}.

Definition ramfs_init (path : list Z) (s : vfs ramfs) : outcome (Z * vfs ramfs) :=
  match last_component path [] false with
  | None => Fault
  | Some file_name =>
      if decide (4096 < length path)%nat then Fault
      else
        '(root, s) ← new_file file_name FILE_TYPE_MOUNT_POINT (mk_ops RAMFS_READ RAMFS_WRITE 0 0 RAMFS_MKDIR 0 0 RAMFS_CREATE 0 0 RAMFS_DELETE 0) s;
        mount_directly fuel path root s
  end.

End RamfsDriver.

(** ** What is written can be read *)

Section Facts.
Context `{RE : RamEnv} `{Env : VfsEnv ramfs} `{NA : NodeAlloc}.

(** A file, its ram_file_t and its buffer [b]. *)
Definition ram_node (s : vfs ramfs) (node : Z) (f : file_node) (r : ram_file) (b : list Z) : Prop :=
  node <> 0 /\ files s !! node = Some f /\ ram_files (drv s) !! f_fs f = Some r /\ blocks (drv s) !! ram_begin r = Some b /\
  0 <= ram_size r <= Z.of_nat (length b).

Lemma ram_of_done s node f r b : ram_node s node f r b -> ram_of node s = Done (f, r).
Proof.
  intros (Hn & Hf & Hr & _). unfold ram_of, file_at. rewrite decide_False, Hf by done. cbn [mbind outcome_bind of_option]. by rewrite Hr.
Qed.

Lemma block_store_done s p b off bytes : blocks (drv s) !! p = Some b -> 0 <= off -> off + Z.of_nat (length bytes) <= Z.of_nat (length b) ->
  store_block p off bytes s = Done (set_blocks (<[p := overwrite b off bytes]> (blocks (drv s))) s).
Proof. intros Hb Ho Hl. unfold store_block. rewrite Hb. cbn [mbind outcome_bind of_option]. by rewrite decide_True. Qed.

Lemma block_load_done s p b off n : blocks (drv s) !! p = Some b -> off + n <= Z.of_nat (length b) ->
  load_block p off n s = Done (take (Z.to_nat n) (drop (Z.to_nat off) b)).
Proof. intros Hb Hl. unfold load_block. rewrite Hb. cbn [mbind outcome_bind of_option]. by rewrite decide_True. Qed.

(** The node's size after a write of [n] bytes. *)
Definition written_size (f : file_node) (off n : Z) : file_node := if decide (f_size f < off + n) then set_size (off + n) f else f.

Lemma written_size_fs f off n : f_fs (written_size f off n) = f_fs f.
Proof. unfold written_size. by destruct (decide _). Qed.

Definition finish_write (node : Z) (f : file_node) (off n : Z) (s : vfs ramfs) : vfs ramfs :=
  if decide (f_size f < off + n) then put_file node (set_size (off + n) f) s else s.

Lemma finish_write_files node f off n s : files s !! node = Some f -> files (finish_write node f off n s) !! node = Some (written_size f off n) /\
  drv (finish_write node f off n s) = drv s.
Proof. unfold finish_write, written_size. destruct (decide _); [|done]. intros _. simpl. split; [apply lookup_insert_eq|done]. Qed.

Lemma write_within s node f r b data off : ram_node s node f r b -> 0 <= off -> off + Z.of_nat (length data) <= ram_size r ->
  ram_size r < 2 ^ 31 ->
  ramfs_write node data off (Z.of_nat (length data)) s = Done (Z.of_nat (length data),
    finish_write node f off (Z.of_nat (length data)) (set_blocks (<[ram_begin r := overwrite b off data]> (blocks (drv s))) s)).
Proof.
  intros Hn Ho Hl H31. pose proof Hn as (_ & _ & _ & Hb & Hsz). unfold ramfs_write. rewrite (ram_of_done _ _ _ _ _ Hn). cbn [mbind outcome_bind].
  rewrite (decide_False (P := ram_size r < off)) by lia. cbn [mbind outcome_bind]. rewrite u64_small by lia. rewrite (decide_False (P := ram_size r < _)) by lia.
  cbn [mbind outcome_bind]. rewrite (ram_of_done _ _ _ _ _ Hn). cbn [mbind outcome_bind]. rewrite decide_False by lia. rewrite take_ge by lia.
  rewrite (block_store_done s _ b) by (done || lia). cbn [mbind outcome_bind]. by rewrite s32_small by lia.
Qed.

(** Inside the buffer a write is read back: the bytes written come back, the rest
    of the buffer and the other files are kept, and the size grows to cover
    them. *)
Theorem ramfs_write_read s node f r b data off buf : ram_node s node f r b -> 0 <= off -> off + Z.of_nat (length data) <= ram_size r ->
  ram_size r < 2 ^ 31 -> (length data <= length buf)%nat ->
  exists s', ramfs_write node data off (Z.of_nat (length data)) s = Done (Z.of_nat (length data), s') /\
    ramfs_read node buf off (Z.of_nat (length data)) s' = Done (Z.of_nat (length data), data ++ drop (length data) buf, s') /\
    ram_node s' node (written_size f off (Z.of_nat (length data))) r (overwrite b off data) /\
    (forall p, p <> node -> files s' !! p = files s !! p) /\ (forall p, p <> ram_begin r -> blocks (drv s') !! p = blocks (drv s) !! p) /\
    (forall i, (i < Z.to_nat off)%nat \/ (Z.to_nat off + length data <= i)%nat -> overwrite b off data !! i = b !! i).
Proof.
  intros Hn Ho Hl H31 Hbuf. pose proof Hn as (Hn0 & Hf & Hr & Hb & Hsz). eexists. split; [by apply (write_within s node f r b)|].
  set (s1 := set_blocks _ s). destruct (finish_write_files node f off (Z.of_nat (length data)) s1 Hf) as [Hf' Hd'].
  assert (Hn' : ram_node (finish_write node f off (Z.of_nat (length data)) s1) node (written_size f off (Z.of_nat (length data))) r (overwrite b off data)).
  { split; [done|]. rewrite written_size_fs, Hd'. split; [done|]. split; [done|]. split; [apply lookup_insert_eq|]. rewrite length_overwrite; lia. }
  split; [|split; [done|split; [|split]]].
  - unfold ramfs_read. rewrite (ram_of_done _ _ _ _ _ Hn'). cbn [mbind outcome_bind]. rewrite decide_False by lia. rewrite u64_small by lia.
    rewrite decide_False by lia. destruct Hn' as (_ & _ & _ & Hb' & _).
    rewrite (block_load_done _ _ _ _ _ Hb') by (rewrite length_overwrite; lia). cbn [mbind outcome_bind]. rewrite Nat2Z.id, overwrite_slice by lia.
    unfold overlay. rewrite decide_True by done. cbn [mbind outcome_bind]. by rewrite s32_small by lia.
  - intros p Hp. unfold finish_write. destruct (decide _); [|done]. simpl. by rewrite lookup_insert_ne.
  - intros p Hp. rewrite Hd'. simpl. by rewrite lookup_insert_ne.
  - intros i Hi. apply overwrite_lookup_out; [done|lia|done].
Qed.

(** *** Growing *)

Lemma regrow_done s node f r b off n : ram_node s node f r b -> 0 <= off -> 0 <= n -> ram_size r <= off + n -> off + n < 2 ^ 63 ->
  exists s' q b', regrow node off n s = Done s' /\ ram_node s' node f (mk_ram (ram_owner r) q (ram_size r)) b' /\
    length b' = Z.to_nat (off + n) /\ files s' = files s /\ take (Z.to_nat (ram_size r)) b' = take (Z.to_nat (ram_size r)) b.
Proof.
  intros Hn Ho Hn0 Hle H63. pose proof Hn as (Hnode & Hf & Hr & Hb & Hsz). unfold regrow. rewrite (ram_of_done _ _ _ _ _ Hn). cbn [mbind outcome_bind].
  rewrite u64_small by lia. unfold new_block. destruct (block_fresh (blocks (drv s))) as [Hq0 Hq]. set (q := block_alloc (blocks (drv s))) in *.
  set (fresh := (fun i => uninit (Z.of_nat i)) <$> seq 0 (Z.to_nat (off + n))). assert (Hlf : length fresh = Z.to_nat (off + n)) by (unfold fresh; by rewrite length_fmap, length_seq).
  cbn zeta. set (s2 := set_ram_files _ _). assert (Hneq : ram_begin r <> q) by congruence.
  assert (Hb2 : blocks (drv s2) !! ram_begin r = Some b) by (simpl; by rewrite lookup_insert_ne).
  rewrite (block_load_done s2 _ b _ _ Hb2) by lia. cbn [mbind outcome_bind]. rewrite drop_0. set (old := take (Z.to_nat (ram_size r)) b).
  assert (Hlo : length old = Z.to_nat (ram_size r)) by (unfold old; rewrite length_take; lia).
  rewrite (block_store_done s2 q fresh) by (simpl; rewrite ?lookup_insert_eq; done || lia).
  eexists _, q, (overwrite fresh 0 old). split; [reflexivity|]. split_and!.
  - split; [done|]. split; [done|]. split; [simpl; apply lookup_insert_eq|]. split; [simpl; apply lookup_insert_eq|]. simpl. rewrite length_overwrite; lia.
  - rewrite length_overwrite; lia.
  - done.
  - unfold overwrite. simpl. rewrite take_app_le by lia. apply take_ge. lia.
Qed.

(** A write behind the buffer moves the file to a longer one but keeps the old
    [ramFile->size]: the node says the bytes are there, and reading them gives
    none. *)
Theorem ramfs_growth_unreadable s node f r b data off buf : ram_node s node f r b -> ram_size r < off -> (0 < length data)%nat ->
  off + Z.of_nat (length data) < 2 ^ 31 ->
  exists s' f', ramfs_write node data off (Z.of_nat (length data)) s = Done (Z.of_nat (length data), s') /\
    files s' !! node = Some f' /\ off + Z.of_nat (length data) <= f_size f' /\
    ramfs_read node buf off (Z.of_nat (length data)) s' = Done (0, buf, s').
Proof.
  intros Hn Hoff Hpos H31. pose proof Hn as (Hnode & Hf & _ & _ & Hsz). set (n := Z.of_nat (length data)) in *.
  destruct (regrow_done s node f r b off n Hn) as (s1 & q1 & b1 & E1 & Hn1 & Hl1 & Ef1 & _); try lia.
  destruct (regrow_done s1 node f _ b1 off n Hn1) as (s2 & q2 & b2 & E2 & Hn2 & Hl2 & Ef2 & _); try lia; [simpl; lia|].
  simpl in Hn2. pose proof Hn2 as (_ & Hf2 & Hr2 & Hb2 & _). simpl in Hb2.
  set (s3 := set_blocks (<[q2 := overwrite b2 off data]> (blocks (drv s2))) s2).
  exists (finish_write node f off n s3), (written_size f off n). destruct (finish_write_files node f off n s3 Hf2) as [Hf3 Hd3]. split_and!; try done.
  - unfold ramfs_write. rewrite (ram_of_done _ _ _ _ _ Hn). cbn [mbind outcome_bind]. rewrite decide_True by done. rewrite E1. cbn [mbind outcome_bind].
    rewrite (u64_small (off + n)) by lia. rewrite decide_True by lia. rewrite E2. cbn [mbind outcome_bind]. rewrite (ram_of_done _ _ _ _ _ Hn2). cbn [mbind outcome_bind ram_begin].
    rewrite decide_False by lia. rewrite take_ge by lia. rewrite (block_store_done s2 q2 b2) by (done || lia). cbn [mbind outcome_bind]. by rewrite s32_small by lia.
  - unfold written_size. destruct (decide _); simpl; lia.
  - unfold ramfs_read, ram_of, file_at. rewrite decide_False, Hf3 by done. cbn [mbind outcome_bind of_option]. rewrite Hd3, written_size_fs. simpl. rewrite Hr2.
    cbn [mbind outcome_bind of_option ram_size]. by rewrite decide_True.
Qed.
End Facts.

(** ** A concrete file *)

#[export] Instance bump_ram : RamEnv := {|
  block_alloc := next_key; block_fresh := next_key_fresh; ram_alloc := next_key; ram_fresh := next_key_fresh; uninit := fun _ => 204; O_TRUNC := 0x200
|}.

Definition demo_ram_node : file_node := mk_fn zero_name 5 FILE_TYPE_FILE 0 false 7 (mk_ops RAMFS_READ RAMFS_WRITE 0 0 0 0 0 RAMFS_CREATE 0 RAMFS_RENAME RAMFS_DELETE 0) 0.
Definition demo_ramfs : vfs ramfs := mk_vfs ∅ (mk_tree 0 0) {[100 := demo_ram_node]} 0 1 [47] (mk_ramfs {[9 := replicate 16 204]} {[7 := mk_ram 7 9 16]}).

Lemma demo_ram : ram_node demo_ramfs 100 demo_ram_node (mk_ram 7 9 16) (replicate 16 204).
Proof. split; [lia|]. split; [done|]. split; [done|]. split; [done|]. simpl. lia. Qed.

Lemma ramfs_write_read_witness : exists s', ramfs_write 100 [1; 2; 3] 4 3 demo_ramfs = Done (3, s') /\ ramfs_read 100 [0; 0; 0; 0] 4 3 s' = Done (3, [1; 2; 3; 0], s').
Proof.
  destruct (ramfs_write_read demo_ramfs 100 _ _ _ [1; 2; 3] 4 [0; 0; 0; 0] demo_ram) as (s' & H1 & H2 & _); [lia|simpl; lia|simpl; lia|simpl; lia|].
  exists s'. by split.
Defined.

Lemma ramfs_growth_unreadable_witness : exists s' f', ramfs_write 100 [1; 2; 3] 20 3 demo_ramfs = Done (3, s') /\ files s' !! 100 = Some f' /\ 23 <= f_size f' /\
  ramfs_read 100 [0; 0; 0] 20 3 s' = Done (0, [0; 0; 0], s').
Proof. apply (ramfs_growth_unreadable demo_ramfs 100 _ _ _ [1; 2; 3] 20 [0; 0; 0] demo_ram); simpl; lia. Defined.
