(* ===== verification/FatVol.v ===== *)
(** kernel/fs/fat.c, the volume: the file allocation table, the chains of
    clusters and the directory entries on a block device.

    The device is reached through the file_ops of its node: what they do is the
    interface [BlockDevice], which promises transfers of whole 512-byte sectors
    inside the device only.  [fat_fs] is the fat_fs_t, its first 512 bytes (the
    two boot records) as bytes; a buffer is a list of bytes, and what malloc
    leaves in a new one is [stale_bytes].  32-bit sizes and offsets wrap as
    they do in the code. *)
From stdpp Require Import base list gmap.
From Stdlib Require Import ZArith Lia.
From S2P Require Import Prelude Format Vfs.

#[local] Open Scope Z_scope.

(** ** Data *)

Record fat_fs := mk_fat {
  boot : list Z; baseOffset : Z; sectorSize : Z; clusterSize : Z; capacity : Z; fatPointer : Z; dataPointer : Z;
  physicalDevice : Z; rootPointer : Z
}.
Record fat_entry := mk_fe { fatFs : Z; fe_cluster : Z }.

(** The fields of fatBPB_t and fatEBR32_t. *)
Definition field_at (off n : nat) (l : list Z) : Z := le (take n (drop off l)).
Definition bytes_per_sector : list Z -> Z := field_at 11 2.
Definition sectors_per_cluster : list Z -> Z := field_at 13 1.
Definition reserved_sector_count : list Z -> Z := field_at 14 2.
Definition table_count : list Z -> Z := field_at 16 1.
Definition total_sectors_32 : list Z -> Z := field_at 32 4.
Definition table_size_32 : list Z -> Z := field_at 36 4.
Definition root_cluster : list Z -> Z := field_at 44 4.
Definition boot_signature : list Z -> Z := field_at 66 1.

(** Whole sectors. *)
Definition sectors (off n : Z) : Prop := 0 <= off /\ off mod 512 = 0 /\ 0 < n /\ n mod 512 = 0.

Class BlockDevice (B : Type) := {
  dev_bytes : B -> Z -> list Z;
  dev_read : Z -> Z -> Z -> B -> outcome (list Z);
  dev_write : Z -> list Z -> Z -> B -> outcome B;
  dev_read_ok : forall dev off n b, sectors off n -> off + n <= Z.of_nat (length (dev_bytes b dev)) ->
    dev_read dev off n b = Done (take (Z.to_nat n) (drop (Z.to_nat off) (dev_bytes b dev)));
  dev_write_ok : forall dev bytes off b, sectors off (Z.of_nat (length bytes)) ->
    off + Z.of_nat (length bytes) <= Z.of_nat (length (dev_bytes b dev)) ->
    exists b', dev_write dev bytes off b = Done b' /\ dev_bytes b' dev = overwrite (dev_bytes b dev) off bytes /\
      forall d, d <> dev -> dev_bytes b' d = dev_bytes b d
}.

(** malloc'ed bytes before they are written. *)
Class StaleBytes := { stale_bytes : Z -> list Z; stale_length : forall n, length (stale_bytes n) = Z.to_nat n }.

(** A uint32_t array. *)
Definition word_at (l : list Z) (i : Z) : outcome Z :=
  if decide (0 <= i /\ 4 * i + 4 <= Z.of_nat (length l)) then Done (le (take 4 (drop (Z.to_nat (4 * i)) l))) else Fault.
Definition set_word (l : list Z) (i v : Z) : outcome (list Z) :=
  if decide (0 <= i /\ 4 * i + 4 <= Z.of_nat (length l)) then Done (overwrite l (4 * i) (to_le 4 v)) else Fault.

(** Unsigned division and remainder: by zero they trap. *)
Definition quot (a b : Z) : outcome Z := if decide (b = 0) then Fault else Done (a / b).
Definition rem (a b : Z) : outcome Z := if decide (b = 0) then Fault else Done (a mod b).

(** [n] bytes of a buffer from an offset, and a transfer into it. *)
Definition part (l : list Z) (off n : Z) : outcome (list Z) :=
  if decide (off + n <= Z.of_nat (length l)) then Done (take (Z.to_nat n) (drop (Z.to_nat off) l)) else Fault.
Definition put_part (l : list Z) (off : Z) (bytes : list Z) : outcome (list Z) :=
  if decide (off + Z.of_nat (length bytes) <= Z.of_nat (length l)) then Done (overwrite l off bytes) else Fault.

Definition cluster_size (fs : fat_fs) : Z := u32 (clusterSize fs * sectorSize fs).
(** dataPointer is 64 bits wide, the product behind it 32. *)
Definition cluster_offset (fs : fat_fs) (cluster : Z) : Z :=
  u64 (u64 (dataPointer fs * sectorSize fs) + u32 (u32 (cluster - 2) * cluster_size fs)).

Section Volume.
Context {B : Type} `{BD : BlockDevice B} `{SB : StaleBytes}.

(** ** The file allocation table *)

Definition fat_find_free_cluster (fs : fat_fs) (b : B) : outcome Z :=
  let fat_sector := u32 (fatPointer fs) in
  let entries_per_sector := sectorSize fs / 4 in
  clusters ← quot (capacity fs) (clusterSize fs);
  r ← for_ (Z.to_nat (clusters - 2)) 2 (fun i fat =>
    k ← rem i entries_per_sector;
    fat ← (if decide (k = 0) then
             q ← quot i entries_per_sector;
             dev_read (physicalDevice fs) (u32 (u32 (fat_sector + q) * sectorSize fs)) (sectorSize fs) b
           else Done fat);
    w ← word_at fat k;
    Done (if decide (w = 0) then inr i else inl fat)) (stale_bytes (sectorSize fs));
  Done (match r with inr i => i | inl _ => 0 end).

(** The offset on the device of the sector with a cluster's entry, and the
    entry's index in it. *)
Definition fat_place (fs : fat_fs) (cluster : Z) : outcome (Z * Z) :=
  let fat_offset := u32 (cluster * 4) in
  q ← quot fat_offset (sectorSize fs);
  entry_offset ← rem fat_offset (sectorSize fs);
  Done (u32 (u32 (fatPointer fs + q) * sectorSize fs), entry_offset / 4).

Definition fat_update_fat (fs : fat_fs) (cluster value : Z) (b : B) : outcome B :=
  '(off, i) ← fat_place fs cluster;
  fat_sector_data ← dev_read (physicalDevice fs) off (sectorSize fs) b;
  fat_sector_data ← set_word fat_sector_data i value;
  dev_write (physicalDevice fs) fat_sector_data off b.

Definition fat_get_next_cluster (fs : fat_fs) (cluster : Z) (b : B) : outcome Z :=
  '(off, i) ← fat_place fs cluster;
  fat_sector_data ← dev_read (physicalDevice fs) off (sectorSize fs) b;
  w ← word_at fat_sector_data i;
  Done (Z.land w 0x0FFFFFFF).

(** ** File data *)

Definition chunk_size (fs : fat_fs) (done size : Z) : Z := if decide (size - done < cluster_size fs) then size - done else cluster_size fs.

Definition write_file_step (fs : fat_fs) (start_cluster : Z) (data : list Z) (size : Z) (st : Z * Z * B) : outcome ((Z * Z * B) + (Z * B)) :=
  let '(bytes_written, current_cluster, b) := st in
  if decide (bytes_written < size) then
    let chunk := chunk_size fs bytes_written size in
    bytes ← part data bytes_written chunk;
    b ← dev_write (physicalDevice fs) bytes (cluster_offset fs current_cluster) b;
    let bytes_written := bytes_written + chunk in
    if decide (bytes_written < size) then
      next_cluster ← fat_get_next_cluster fs start_cluster b;
      if decide (0x0FFFFFFF <= next_cluster) then
        next_cluster ← fat_find_free_cluster fs b;
        if decide (next_cluster = 0) then Done (inr (-1, b))
        else b ← fat_update_fat fs current_cluster next_cluster b; Done (inl (bytes_written, next_cluster, b))
      else Done (inl (bytes_written, next_cluster, b))
    else Done (inl (bytes_written, current_cluster, b))
  else
    b ← fat_update_fat fs current_cluster 0x0FFFFFFF b;
    Done (inr (0, b)).

Definition fat_write_file_data (fuel : nat) (fs : fat_fs) (start_cluster : Z) (data : list Z) (size : Z) (b : B) : outcome (Z * B) :=
  loop fuel (write_file_step fs start_cluster data size) (0, start_cluster, b).

Definition read_file_step (fs : fat_fs) (size : Z) (b : B) (st : Z * Z * list Z) : outcome ((Z * Z * list Z) + (Z * list Z)) :=
  let '(bytes_read, current_cluster, data) := st in
  if decide (bytes_read < size) then
    let chunk := chunk_size fs bytes_read size in
    bytes ← dev_read (physicalDevice fs) (cluster_offset fs current_cluster) chunk b;
    data ← put_part data bytes_read bytes;
    let bytes_read := bytes_read + chunk in
    if decide (bytes_read < size) then
      next_cluster ← fat_get_next_cluster fs current_cluster b;
      if decide (0x0FFFFFF8 <= next_cluster) then Done (inr (s32 bytes_read, data))
      else Done (inl (bytes_read, next_cluster, data))
    else Done (inl (bytes_read, current_cluster, data))
  else Done (inr (s32 bytes_read, data)).

Definition fat_read_file_data (fuel : nat) (fs : fat_fs) (start_cluster : Z) (data : list Z) (size : Z) (b : B) : outcome (Z * list Z) :=
  loop fuel (read_file_step fs size b) (0, start_cluster, data).

(** The loop of fat_delete, and of fat_open behind the first cluster. *)
Definition release_chain (fuel : nat) (fs : fat_fs) (cluster : Z) (b : B) : outcome B :=
  loop fuel (fun '(current_cluster, b) =>
    if decide (current_cluster < 0x0FFFFFF7) then
      next_cluster ← fat_get_next_cluster fs current_cluster b;
      b ← fat_update_fat fs current_cluster 0 b;
      Done (inl (next_cluster, b))
    else Done (inr b)) (cluster, b).
End Volume.

(** ** Parts of an overwritten buffer *)

Lemma overwrite_slice_other {A} (l : list A) off bytes off' n : 0 <= off -> off + Z.of_nat (length bytes) <= Z.of_nat (length l) -> 0 <= off' -> 0 <= n ->
  off' + n <= off \/ off + Z.of_nat (length bytes) <= off' ->
  take (Z.to_nat n) (drop (Z.to_nat off') (overwrite l off bytes)) = take (Z.to_nat n) (drop (Z.to_nat off') l).
Proof.
  intros Ho Hl Ho' Hn Hd. apply list_eq. intros i. destruct (decide (i < Z.to_nat n)%nat) as [Hi|Hi].
  - rewrite !lookup_take_lt, !lookup_drop by done. apply overwrite_lookup_out; lia.
  - by rewrite !lookup_take_ge by lia.
Qed.

Lemma overwrite_slice_in {A} (l : list A) off bytes off' n : 0 <= off -> off + Z.of_nat (length bytes) <= Z.of_nat (length l) -> off <= off' -> 0 <= n ->
  off' + n <= off + Z.of_nat (length bytes) ->
  take (Z.to_nat n) (drop (Z.to_nat off') (overwrite l off bytes)) = take (Z.to_nat n) (drop (Z.to_nat (off' - off)) bytes).
Proof.
  intros Ho Hl Ho' Hn Hd. unfold overwrite. rewrite drop_app_ge by (rewrite length_take; lia). rewrite length_take.
  replace (Z.to_nat off' - Z.to_nat off `min` length l)%nat with (Z.to_nat (off' - off)) by lia.
  rewrite drop_app_le by lia. apply take_app_le. rewrite length_drop. lia.
Qed.

Lemma overwrite_lookup_in {A} (l : list A) off bytes i : 0 <= off -> off + Z.of_nat (length bytes) <= Z.of_nat (length l) ->
  (Z.to_nat off <= i < Z.to_nat off + length bytes)%nat -> overwrite l off bytes !! i = bytes !! (i - Z.to_nat off)%nat.
Proof.
  intros Ho Hl Hi. unfold overwrite. rewrite lookup_app_r by (rewrite length_take; lia). rewrite length_take, lookup_app_l by lia. f_equal. lia.
Qed.

Lemma overwrite_app {A} (l : list A) off x y : 0 <= off -> off + Z.of_nat (length (x ++ y)) <= Z.of_nat (length l) ->
  overwrite (overwrite l off x) (off + Z.of_nat (length x)) y = overwrite l off (x ++ y).
Proof.
  rewrite length_app. intros Ho Hl. unfold overwrite. set (l1 := take (Z.to_nat off) l).
  assert (H1 : length l1 = Z.to_nat off) by (unfold l1; rewrite length_take; lia).
  replace (Z.to_nat (off + Z.of_nat (length x))) with (length (l1 ++ x)) by (rewrite length_app; lia).
  rewrite (app_assoc l1 x), take_app_length, <-!app_assoc. do 3 f_equal. rewrite !drop_app_ge by (rewrite ?length_app; lia).
  rewrite drop_drop, !length_app. f_equal. lia.
Qed.

(** Overwriting a part of a part. *)
Lemma overwrite_part {A} (l : list A) off n i bytes : 0 <= off -> off + n <= Z.of_nat (length l) -> 0 <= i -> i + Z.of_nat (length bytes) <= n ->
  overwrite l off (overwrite (take (Z.to_nat n) (drop (Z.to_nat off) l)) i bytes) = overwrite l (off + i) bytes.
Proof.
  intros Ho Hl Hi Hb. set (p := take (Z.to_nat n) _). assert (Hp : length p = Z.to_nat n) by (unfold p; rewrite length_take, length_drop; lia).
  assert (Hq : length (overwrite p i bytes) = Z.to_nat n) by (rewrite length_overwrite; lia).
  apply list_eq. intros k. destruct (decide (Z.to_nat off <= k < Z.to_nat off + Z.to_nat n)%nat) as [Hk|Hk].
  - unfold overwrite at 1. rewrite lookup_app_r by (rewrite length_take; lia). rewrite length_take, lookup_app_l by (rewrite Hq; lia).
    replace (k - Z.to_nat off `min` length l)%nat with (k - Z.to_nat off)%nat by lia.
    destruct (decide (Z.to_nat (off + i) <= k < Z.to_nat (off + i) + length bytes)%nat) as [Hin|Hout].
    + rewrite !overwrite_lookup_in by lia. f_equal. lia.
    + rewrite !overwrite_lookup_out by lia. unfold p. rewrite lookup_take_lt, lookup_drop by lia. f_equal. lia.
  - rewrite (overwrite_lookup_out l (off + i)) by lia. apply overwrite_lookup_out; rewrite ?Hq; lia.
Qed.

(** ** The table as an array of 28-bit entries *)

Section Table.
Context {B : Type} `{BD : BlockDevice B} `{SB : StaleBytes}.
Context (fs : fat_fs).

Definition device (b : B) : list Z := dev_bytes b (physicalDevice fs).

Record geometry : Prop := {
  g_sector : 0 < sectorSize fs < 2 ^ 16;
  g_sector_512 : sectorSize fs mod 512 = 0;
  g_cluster : 0 < clusterSize fs < 2 ^ 8;
  g_fat : 0 <= fatPointer fs;
  g_data : 0 <= dataPointer fs < 2 ^ 32
}.

(** The sector with the entry of a cluster lies on the device [len] bytes long
    and below 4 GiB. *)
Definition in_table (len c : Z) : Prop :=
  0 <= c < 2 ^ 28 /\ (fatPointer fs + 4 * c / sectorSize fs + 1) * sectorSize fs <= Z.min len (2 ^ 32).

Definition fat_byte (c : Z) : Z := fatPointer fs * sectorSize fs + 4 * c.
Definition next_of (b : B) (c : Z) : Z := Z.land (le (take 4 (drop (Z.to_nat (fat_byte c)) (device b)))) 0x0FFFFFFF.
Definition dev_len (b : B) : Z := Z.of_nat (length (device b)).

Lemma fat_place_ok len c : geometry -> in_table len c -> exists off i, fat_place fs c = Done (off, i) /\ off + 4 * i = fat_byte c /\
  sectors off (sectorSize fs) /\ 0 <= i /\ 4 * i + 4 <= sectorSize fs /\ off + sectorSize fs <= len.
Proof.
  intros [Hs H512 _ Hf _] [Hc Ht]. unfold fat_place, quot, rem. rewrite u32_small by lia.
  rewrite !(decide_False (P := sectorSize fs = 0)) by lia. cbn [mbind outcome_bind].
  rewrite (Z.mul_comm c 4). set (q := 4 * c / sectorSize fs) in *. assert (0 <= q) by (apply Z.div_pos; lia).
  pose proof (Z.div_mod (4 * c) (sectorSize fs) ltac:(lia)) as Hdm. fold q in Hdm.
  pose proof (Z.mod_pos_bound (4 * c) (sectorSize fs) ltac:(lia)) as Hr. set (r := (4 * c) mod sectorSize fs) in *.
  apply Z.mod_divide in H512 as [k Hk]; [|lia].
  assert (H4 : (4 | r)). { exists (c - q * k * 128). rewrite Hk in Hdm. nia. } destruct H4 as [j Hj].
  rewrite (u32_small (fatPointer fs + q)) by nia. rewrite u32_small by nia.
  replace (r / 4) with j by (rewrite Hj, Z.div_mul; lia).
  eexists _, j. split; [reflexivity|]. unfold fat_byte. split_and!; try nia.
  split; [nia|]. split; [|split; [lia|]].
  - rewrite Hk, Z.mul_assoc. apply Z.mod_mul. lia.
  - rewrite Hk. apply Z.mod_mul. lia.
Qed.

Lemma get_next_ok b c : geometry -> in_table (dev_len b) c -> fat_get_next_cluster fs c b = Done (next_of b c).
Proof.
  intros Hg Hc. destruct (fat_place_ok _ c Hg Hc) as (off & i & Hp & Hb & Hsec & Hi & Hi4 & Hlen).
  unfold fat_get_next_cluster. rewrite Hp. cbn [mbind outcome_bind]. rewrite dev_read_ok by done. cbn [mbind outcome_bind].
  unfold word_at. destruct Hsec as (Hoff & _ & Hn & _). unfold dev_len, device in Hlen.
  rewrite decide_True by (rewrite length_take, length_drop; lia). cbn [mbind outcome_bind]. unfold next_of, device. do 3 f_equal.
  rewrite skipn_firstn_comm, drop_drop, take_take. f_equal; [lia|]. f_equal. lia.
Qed.

Lemma update_ok b c v : geometry -> in_table (dev_len b) c ->
  exists b', fat_update_fat fs c v b = Done b' /\ device b' = overwrite (device b) (fat_byte c) (to_le 4 v) /\
    forall d, d <> physicalDevice fs -> dev_bytes b' d = dev_bytes b d.
Proof.
  intros Hg Hc. destruct (fat_place_ok _ c Hg Hc) as (off & i & Hp & Hb & Hsec & Hi & Hi4 & Hlen).
  unfold fat_update_fat. rewrite Hp. cbn [mbind outcome_bind]. rewrite dev_read_ok by done. cbn [mbind outcome_bind].
  pose proof Hsec as (Hoff & Ho512 & Hn & Hn512). unfold dev_len, device in Hlen. unfold set_word.
  set (p := take _ _). assert (Hl : length p = Z.to_nat (sectorSize fs)) by (unfold p; rewrite length_take, length_drop; lia).
  rewrite decide_True by lia. cbn [mbind outcome_bind].
  assert (Hl' : Z.of_nat (length (overwrite p (4 * i) (to_le 4 v))) = sectorSize fs) by (rewrite length_overwrite; rewrite ?to_le_length; lia).
  destruct (dev_write_ok (physicalDevice fs) (overwrite p (4 * i) (to_le 4 v)) off b) as (b' & Hw & Hd & Ho); [by rewrite Hl'|by rewrite Hl'|].
  exists b'. split; [done|]. split; [|done]. unfold device. rewrite Hd, <-Hb. apply overwrite_part; rewrite ?to_le_length; lia.
Qed.

Lemma update_len b b' c v : geometry -> in_table (dev_len b) c -> device b' = overwrite (device b) (fat_byte c) (to_le 4 v) -> dev_len b' = dev_len b.
Proof.
  intros Hg Hc Hd. destruct (fat_place_ok _ c Hg Hc) as (off & i & Hp & Hb & (Ho & _) & Hi & Hi4 & Hlen).
  unfold dev_len in *. rewrite Hd, length_overwrite; rewrite ?to_le_length; lia.
Qed.

Lemma next_update b b' c c' v : geometry -> in_table (dev_len b) c -> in_table (dev_len b) c' -> 0 <= v < 2 ^ 32 ->
  device b' = overwrite (device b) (fat_byte c) (to_le 4 v) -> next_of b' c' = if decide (c' = c) then Z.land v 0x0FFFFFFF else next_of b c'.
Proof.
  intros Hg Hc Hc' Hv Hd. destruct (fat_place_ok _ c Hg Hc) as (off & i & Hp & Hb & (Ho & _) & Hi & Hi4 & Hlen).
  destruct (fat_place_ok _ c' Hg Hc') as (off' & i' & Hp' & Hb' & (Ho' & _) & Hi' & Hi4' & Hlen').
  unfold next_of. rewrite Hd. unfold dev_len in *. replace 4%nat with (Z.to_nat 4) at 1 by lia. destruct (decide (c' = c)) as [->|Hne].
  - rewrite overwrite_slice_in; rewrite ?to_le_length; try lia. rewrite Z.sub_diag. change (Z.to_nat 0) with 0%nat. rewrite drop_0.
    change (Z.to_nat 4) with 4%nat. rewrite take_ge by (rewrite to_le_length; lia). by rewrite le_to_le by lia.
  - rewrite overwrite_slice_other; rewrite ?to_le_length; try lia; [done|]. unfold fat_byte in *. lia.
Qed.

(** ** Chains of clusters *)

(** A cluster whose table entry lies in the table, in front of the data, and
    whose data lies on a device of [len] bytes, within 32 bits of the data. *)
Definition data_byte (c : Z) : Z := dataPointer fs * sectorSize fs + (c - 2) * cluster_size fs.
Definition on_volume (len c : Z) : Prop :=
  2 <= c < 0x0FFFFFF7 /\ in_table len c /\ (fatPointer fs + 4 * c / sectorSize fs + 1) <= dataPointer fs /\
  (c - 2) * cluster_size fs < 2 ^ 32 /\ data_byte c + cluster_size fs <= len.

Inductive fat_chain (b : B) : Z -> list Z -> Prop :=
| chain_last c : on_volume (dev_len b) c -> 0x0FFFFFF8 <= next_of b c -> fat_chain b c [c]
| chain_next c cs : on_volume (dev_len b) c -> fat_chain b (next_of b c) cs -> fat_chain b c (c :: cs).

Definition cluster_bytes (b : B) (c : Z) : list Z := take (Z.to_nat (cluster_size fs)) (drop (Z.to_nat (data_byte c)) (device b)).
Definition file_bytes (b : B) (cs : list Z) : list Z := mjoin (cluster_bytes b <$> cs).

Lemma cluster_size_ok : geometry -> cluster_size fs = clusterSize fs * sectorSize fs /\ 0 < cluster_size fs < 2 ^ 24 /\ cluster_size fs mod 512 = 0.
Proof.
  intros [Hs H512 Hc _ _]. unfold cluster_size. rewrite u32_small by nia. split_and!; try nia. by rewrite Zmult_mod, H512, Z.mul_0_r.
Qed.

Lemma cluster_offset_ok len c : geometry -> on_volume len c -> cluster_offset fs c = data_byte c /\ 0 <= data_byte c /\ data_byte c mod 512 = 0.
Proof.
  intros Hg (Hc & _ & _ & H32 & _). pose proof (cluster_size_ok Hg) as (_ & Hcs & Hm). pose proof Hg as [Hs H512 _ _ Hd].
  unfold cluster_offset, data_byte. rewrite (u64_small (dataPointer fs * _)) by nia. rewrite (u32_small (c - 2)) by lia. rewrite u32_small by nia.
  rewrite u64_small by nia. split_and!; [done|nia|].
  by rewrite Z.add_mod, (Zmult_mod (dataPointer fs)), H512, (Zmult_mod (c - 2)), Hm, !Z.mul_0_r by lia.
Qed.

Lemma length_cluster_bytes b c : geometry -> on_volume (dev_len b) c -> length (cluster_bytes b c) = Z.to_nat (cluster_size fs).
Proof.
  intros Hg Hv. destruct (cluster_offset_ok _ c Hg Hv) as (_ & H0 & _). destruct Hv as (_ & _ & _ & _ & Hl). unfold dev_len in Hl.
  unfold cluster_bytes. rewrite length_take, length_drop. lia.
Qed.

Lemma read_cluster b c n : geometry -> on_volume (dev_len b) c -> 0 < n <= cluster_size fs -> n mod 512 = 0 ->
  dev_read (physicalDevice fs) (cluster_offset fs c) n b = Done (take (Z.to_nat n) (cluster_bytes b c)).
Proof.
  intros Hg Hv Hn Hm. destruct (cluster_offset_ok _ c Hg Hv) as (-> & H0 & H512). destruct Hv as (_ & _ & _ & _ & Hl). unfold dev_len in Hl.
  unfold device in Hl. rewrite dev_read_ok by (unfold sectors; lia). unfold cluster_bytes. rewrite take_take. do 2 f_equal. lia.
Qed.

Lemma chain_head b c cs : fat_chain b c cs -> on_volume (dev_len b) c /\ exists cs', cs = c :: cs'.
Proof. by inversion 1; eauto. Qed.

Lemma file_bytes_cons b c cs : file_bytes b (c :: cs) = cluster_bytes b c ++ file_bytes b cs.
Proof. done. Qed.

Lemma length_file_bytes b c cs : geometry -> fat_chain b c cs -> Z.of_nat (length (file_bytes b cs)) = Z.of_nat (length cs) * cluster_size fs.
Proof.
  intros Hg. pose proof (cluster_size_ok Hg) as (_ & Hcs & _). induction 1 as [c Hv Hn|c cs Hv Hch IH];
    rewrite file_bytes_cons, length_app, Nat2Z.inj_add, ?IH, length_cluster_bytes by done; simpl length; lia.
Qed.

(** *** Reading along a chain *)

Lemma put_part_ok (l : list Z) off bytes : off + Z.of_nat (length bytes) <= Z.of_nat (length l) -> put_part l off bytes = Done (overwrite l off bytes).
Proof. intros. unfold put_part. by rewrite decide_True. Qed.

(** What is left of a transfer of whole sectors: a whole cluster, or the rest. *)
Lemma chunk_size_ok pos size : geometry -> 0 <= pos < size -> pos mod 512 = 0 -> size mod 512 = 0 ->
  0 < chunk_size fs pos size /\ chunk_size fs pos size mod 512 = 0 /\ chunk_size fs pos size = Z.min (cluster_size fs) (size - pos).
Proof.
  intros Hg Hd Hd5 Hs5. pose proof (cluster_size_ok Hg) as (_ & Hcs & Hcs5). unfold chunk_size.
  destruct (decide _); split_and!; try lia. by rewrite Zminus_mod, Hs5, Hd5.
Qed.

Lemma read_file_step_ok b c pos size buf : geometry -> on_volume (dev_len b) c -> 0 <= pos < size -> pos mod 512 = 0 -> size mod 512 = 0 ->
  size < 2 ^ 31 -> size <= Z.of_nat (length buf) ->
  read_file_step fs size b (pos, c, buf) =
    let chunk := chunk_size fs pos size in
    let buf := overwrite buf pos (take (Z.to_nat chunk) (cluster_bytes b c)) in
    if decide (pos + chunk < size) then
      if decide (0x0FFFFFF8 <= next_of b c) then Done (inr (pos + chunk, buf)) else Done (inl (pos + chunk, next_of b c, buf))
    else Done (inl (pos + chunk, c, buf)).
Proof.
  intros Hg Hv Hd Hd5 Hs5 H31 Hb. destruct (chunk_size_ok pos size Hg Hd Hd5 Hs5) as (Hc & Hc5 & Hmin). unfold read_file_step.
  rewrite decide_True by lia. cbn zeta. set (chunk := chunk_size fs pos size) in *. rewrite read_cluster by (done || lia). cbn [mbind outcome_bind].
  pose proof (length_cluster_bytes b c Hg Hv) as Hlc. unfold put_part. rewrite decide_True by (rewrite length_take; lia). cbn [mbind outcome_bind].
  case_decide as E; [|done]. rewrite get_next_ok by (done || apply Hv). cbn [mbind outcome_bind]. by rewrite s32_small by lia.
Qed.

Lemma read_loop_end fuel b size pos c buf : size <= pos -> (0 < fuel)%nat -> loop fuel (read_file_step fs size b) (pos, c, buf) = Done (s32 pos, buf).
Proof. intros Hd Hf. destruct fuel; [lia|]. cbn [loop]. assert (read_file_step fs size b (pos, c, buf) = Done (inr (s32 pos, buf))) as -> by (unfold read_file_step; by rewrite decide_False by lia). done. Qed.

Lemma read_file_loop b c cs : geometry -> fat_chain b c cs -> forall fuel pos size buf, 0 <= pos < size -> pos mod 512 = 0 -> size mod 512 = 0 ->
  size < 2 ^ 31 -> size <= Z.of_nat (length buf) -> (length cs < fuel)%nat ->
  loop fuel (read_file_step fs size b) (pos, c, buf) =
    Done (Z.min size (pos + Z.of_nat (length cs) * cluster_size fs), overwrite buf pos (take (Z.to_nat (size - pos)) (file_bytes b cs))).
Proof.
  intros Hg. pose proof (cluster_size_ok Hg) as (_ & Hcs & Hcs5). intros Hch.
  induction Hch as [c Hv Hn|c cs Hv Hch IH]; intros fuel pos size buf Hd Hd5 Hs5 H31 Hb Hf;
    (destruct fuel as [|fuel]; [lia|]); cbn [loop]; rewrite read_file_step_ok by done; cbn zeta;
    destruct (chunk_size_ok pos size Hg Hd Hd5 Hs5) as (Hc & Hc5 & Hmin); set (chunk := chunk_size fs pos size) in *;
    pose proof (length_cluster_bytes b c Hg Hv) as Hlc; rewrite file_bytes_cons.
  - destruct (decide (pos + chunk < size)) as [E|E].
    + rewrite decide_True by done. cbn [mbind outcome_bind]. rewrite app_nil_r, !take_ge by lia. do 2 f_equal. cbn [length]. lia.
    + cbn [mbind outcome_bind]. rewrite read_loop_end, s32_small by (cbn [length] in Hf; lia). rewrite take_app_le by lia. do 2 f_equal; [cbn [length]; lia|]. do 2 f_equal. lia.
  - destruct (decide (pos + chunk < size)) as [E|E].
    + destruct (chain_head _ _ _ Hch) as [(Hn & _) _]. rewrite decide_False by lia. cbn [mbind outcome_bind].
      assert (Hck : chunk = cluster_size fs) by lia. rewrite (take_ge (cluster_bytes b c)) by lia. pose proof (length_file_bytes b _ cs Hg Hch) as Hlf.
      rewrite IH; rewrite ?length_overwrite; try lia; [|by rewrite Z.add_mod, Hd5, Hc5 by lia|cbn [length] in Hf; lia].
      do 2 f_equal; [cbn [length]; lia|]. rewrite Hck. replace (cluster_size fs) with (Z.of_nat (length (cluster_bytes b c))) at 1 by lia.
      rewrite overwrite_app by (try rewrite length_app, length_take; lia). f_equal. rewrite take_app_ge by lia. do 2 f_equal. lia.
    + cbn [mbind outcome_bind]. rewrite read_loop_end, s32_small by (cbn [length] in Hf; lia). rewrite take_app_le by lia. do 2 f_equal; [cbn [length]; lia|]. do 2 f_equal. lia.
Qed.

(** *** Giving a chain back *)

(** The device after the entry of a cluster was set. *)
Definition updated (b b' : B) (c v : Z) : Prop :=
  device b' = overwrite (device b) (fat_byte c) (to_le 4 v) /\ forall d, d <> physicalDevice fs -> dev_bytes b' d = dev_bytes b d.

(** The table lies in front of the data. *)
Lemma table_before_data len c : geometry -> on_volume len c -> 0 <= fat_byte c /\ fat_byte c + 4 <= dataPointer fs * sectorSize fs.
Proof.
  intros Hg (Hc & Ht & Hd & _). destruct (fat_place_ok _ c Hg Ht) as (off & i & Hp & Hb & (Ho & _) & Hi & Hi4 & Hlen). pose proof Hg as [Hs H512 _ Hf _].
  split; [lia|]. apply Z.mod_divide in H512 as [k Hk]; [|lia]. pose proof (Z.div_mod (4 * c) (sectorSize fs) ltac:(lia)) as Hdm.
  pose proof (Z.mod_pos_bound (4 * c) (sectorSize fs) ltac:(lia)) as Hr.
  assert (H4 : (4 | (4 * c) mod sectorSize fs)) by (exists (c - (4 * c / sectorSize fs) * k * 128); nia). destruct H4 as [j Hj]. unfold fat_byte. nia.
Qed.

Lemma cluster_bytes_update b b' c v x : geometry -> on_volume (dev_len b) c -> on_volume (dev_len b) x -> updated b b' c v ->
  cluster_bytes b' x = cluster_bytes b x.
Proof.
  intros Hg Hc Hx [Hd _]. pose proof (cluster_size_ok Hg) as (_ & Hcs & _). destruct (cluster_offset_ok _ x Hg Hx) as (_ & H0 & _).
  destruct (table_before_data _ c Hg Hc) as [Hc0 Hc4]. destruct Hc as (Hc & Ht & _).
  destruct (fat_place_ok _ c Hg Ht) as (off & i & _ & Hb & _ & Hi & Hi4 & Hlen). unfold cluster_bytes. rewrite Hd.
  apply overwrite_slice_other; rewrite ?to_le_length; unfold dev_len in *; try lia. right. destruct Hx as (Hx & _). unfold data_byte. nia.
Qed.

Lemma chain_update b b' c v x cs : geometry -> on_volume (dev_len b) c -> 0 <= v < 2 ^ 32 -> updated b b' c v -> c ∉ cs -> fat_chain b x cs -> fat_chain b' x cs.
Proof.
  intros Hg Hc Hv Hu Hnot Hch. assert (Hl : dev_len b' = dev_len b) by (eapply update_len; [done|apply Hc|apply Hu]).
  assert (Hsame : forall y, on_volume (dev_len b) y -> y <> c -> next_of b' y = next_of b y).
  { intros y Hy Hne. rewrite (next_update b b' c y v) by (done || apply Hc || apply Hy || apply Hu). by rewrite decide_False. }
  induction Hch as [x Hx Hn|x cs Hx Hch IH]; apply not_elem_of_cons in Hnot as [Hne Hnot].
  - apply chain_last; [by rewrite Hl|]. by rewrite Hsame.
  - apply chain_next; [by rewrite Hl|]. rewrite Hsame by done. auto.
Qed.

Lemma chain_det b c cs cs' : fat_chain b c cs -> fat_chain b c cs' -> cs = cs'.
Proof.
  intros H. revert cs'. induction H as [c Hv Hn|c cs Hv Hch IH]; inversion 1 as [|? ? _ Hch']; subst; try done.
  - apply chain_head in Hch' as [(Hx & _) _]. lia.
  - apply chain_head in Hch as [(Hx & _) _]. lia.
  - f_equal. by apply IH.
Qed.

Lemma chain_suffix b c cs x : fat_chain b c cs -> x ∈ cs -> exists cs', fat_chain b x cs' /\ (length cs' <= length cs)%nat.
Proof.
  induction 1 as [c Hv Hn|c cs Hv Hch IH]; intros Hx.
  - apply list_elem_of_singleton in Hx as ->. exists [c]. split; [by apply chain_last|done].
  - apply elem_of_cons in Hx as [->|Hx]; [exists (c :: cs); split; [by apply chain_next|done]|].
    destruct (IH Hx) as (cs' & ? & ?). exists cs'. split; [done|simpl; lia].
Qed.

Lemma chain_not_in b c cs : fat_chain b c (c :: cs) -> c ∉ cs.
Proof.
  intros Hch Hin. assert (Hcs : fat_chain b (next_of b c) cs) by (inversion Hch; subst; [by apply not_elem_of_nil in Hin|done]).
  destruct (chain_suffix _ _ _ _ Hcs Hin) as (cs' & H' & Hle). rewrite <-(chain_det _ _ _ _ Hch H') in Hle. simpl in Hle. lia.
Qed.

Lemma chain_second b c n rest : fat_chain b c (c :: n :: rest) -> next_of b c = n /\ fat_chain b n (n :: rest) /\ on_volume (dev_len b) n /\ n <> c.
Proof.
  intros Hch. pose proof (chain_not_in _ _ _ Hch) as Hnot. inversion Hch as [|? ? _ Hch']; subst. destruct (chain_head _ _ _ Hch') as [? (? & [= -> ->])].
  split; [done|]. split; [done|]. split; [done|]. intros E. apply Hnot. rewrite E at 1. apply list_elem_of_here.
Qed.

Lemma chain_volume b c cs x : fat_chain b c cs -> x ∈ cs -> on_volume (dev_len b) x.
Proof. intros Hch Hx. destruct (chain_suffix _ _ _ _ Hch Hx) as (cs' & H & _). by apply (chain_head _ _ _ H). Qed.

Record released (b b' : B) (cs : list Z) : Prop := {
  rel_len : dev_len b' = dev_len b;
  rel_in : forall x, x ∈ cs -> next_of b' x = 0;
  rel_out : forall x, in_table (dev_len b) x -> x ∉ cs -> next_of b' x = next_of b x;
  rel_data : forall x, on_volume (dev_len b) x -> cluster_bytes b' x = cluster_bytes b x;
  rel_other : forall d, d <> physicalDevice fs -> dev_bytes b' d = dev_bytes b d
}.

Lemma updated_released b b' c : geometry -> on_volume (dev_len b) c -> updated b b' c 0 -> released b b' [c].
Proof.
  intros Hg Hc Hu. assert (Hl : dev_len b' = dev_len b) by (eapply update_len; [done|apply Hc|apply Hu]).
  assert (Hnext : forall x, in_table (dev_len b) x -> next_of b' x = if decide (x = c) then 0 else next_of b x).
  { intros x Hx. rewrite (next_update b b' c x 0) by (done || apply Hc || apply Hu || lia). done. }
  split; [done| | | |apply Hu].
  - intros x ->%list_elem_of_singleton. rewrite Hnext by apply Hc. by rewrite decide_True.
  - intros x Hx Hne. rewrite Hnext by done. rewrite decide_False; [done|]. intros ->. apply Hne. by apply list_elem_of_singleton.
  - intros x Hx. by apply (cluster_bytes_update b b' c 0).
Qed.

Lemma released_trans b b1 b2 cs cs' : released b b1 cs -> released b1 b2 cs' -> (forall x, x ∈ cs -> in_table (dev_len b) x /\ x ∉ cs') ->
  released b b2 (cs ++ cs').
Proof.
  intros [L1 I1 O1 D1 R1] [L2 I2 O2 D2 R2] Hdisj. rewrite L1 in *. split; [done| | | |].
  - intros x [Hx|Hx]%elem_of_app; [|auto]. destruct (Hdisj x Hx) as [Ht Hn]. rewrite O2 by done. auto.
  - intros x Ht [Hx Hx']%not_elem_of_app. rewrite O2 by done. auto.
  - intros x Hx. rewrite D2 by done. auto.
  - intros d Hd. rewrite R2 by done. auto.
Qed.

Lemma release_chain_ok cs : forall fuel b c, geometry -> fat_chain b c cs -> (length cs < fuel)%nat ->
  exists b', release_chain fuel fs c b = Done b' /\ released b b' cs.
Proof.
  induction cs as [|x cs IH]; intros fuel b c Hg Hch Hf; [inversion Hch|]. destruct fuel as [|fuel]; [simpl in Hf; lia|].
  destruct (chain_head _ _ _ Hch) as [Hv (cs0 & [= -> <-])]. unfold release_chain. cbn [loop]. rewrite decide_True by apply Hv.
  rewrite get_next_ok by (done || apply Hv). cbn [mbind outcome_bind]. destruct (update_ok b c 0 Hg ltac:(apply Hv)) as (b1 & -> & Hu). cbn [mbind outcome_bind].
  pose proof (updated_released _ _ _ Hg Hv Hu) as Hr1. pose proof (chain_not_in _ _ _ Hch) as Hnot. inversion Hch as [? _ Hn|? ? _ Hch']; subst.
  - exists b1. split; [|done]. destruct fuel; [simpl in Hf; lia|]. cbn [loop]. by rewrite decide_False by lia.
  - assert (Hch1 : fat_chain b1 (next_of b c) cs) by (eapply (chain_update b b1 c 0); done || lia).
    destruct (IH fuel b1 _ Hg Hch1) as (b' & Hb' & Hr2); [simpl in Hf; lia|]. exists b'. split; [exact Hb'|].
    apply (released_trans b b1 b' [c] cs); [done..|]. intros y ->%list_elem_of_singleton. split; [apply Hv|done].
Qed.

(** *** Writing *)

(** The device after [bytes] were written to a cluster. *)
Record stored_at (b b' : B) (c : Z) (bytes : list Z) : Prop := {
  st_len : dev_len b' = dev_len b;
  st_next : forall x, on_volume (dev_len b) x -> next_of b' x = next_of b x;
  st_in : cluster_bytes b' c = bytes ++ drop (length bytes) (cluster_bytes b c);
  st_out : forall x, on_volume (dev_len b) x -> x <> c -> cluster_bytes b' x = cluster_bytes b x;
  st_other : forall d, d <> physicalDevice fs -> dev_bytes b' d = dev_bytes b d
}.

Lemma data_byte_apart c x : geometry -> c <> x -> data_byte x + cluster_size fs <= data_byte c \/ data_byte c + cluster_size fs <= data_byte x.
Proof. intros Hg Hne. pose proof (cluster_size_ok Hg) as (_ & Hcs & _). unfold data_byte. nia. Qed.

Lemma write_cluster b c bytes : geometry -> on_volume (dev_len b) c -> 0 < Z.of_nat (length bytes) <= cluster_size fs -> Z.of_nat (length bytes) mod 512 = 0 ->
  exists b', dev_write (physicalDevice fs) bytes (cluster_offset fs c) b = Done b' /\ stored_at b b' c bytes.
Proof.
  intros Hg Hv Hn Hm. destruct (cluster_offset_ok _ c Hg Hv) as (-> & H0 & H512). pose proof Hv as (Hc & _ & _ & _ & Hl). unfold dev_len, device in Hl.
  destruct (dev_write_ok (physicalDevice fs) bytes (data_byte c) b) as (b' & Hw & Hd & Ho); [unfold sectors; lia|lia|].
  exists b'. split; [done|]. assert (Hin : data_byte c + Z.of_nat (length bytes) <= Z.of_nat (length (device b))) by (unfold device; lia).
  split; [| | | |done].
  - unfold dev_len, device. rewrite Hd, length_overwrite; lia.
  - intros x Hx. destruct (table_before_data _ x Hg Hx) as [Hx0 Hx1]. unfold next_of, device in *. rewrite Hd. change 4%nat with (Z.to_nat 4).
    rewrite overwrite_slice_other; try lia. left. pose proof (cluster_size_ok Hg) as (_ & Hcs & _). unfold data_byte. nia.
  - unfold cluster_bytes, device in *. rewrite Hd. set (n := cluster_size fs) in *. apply list_eq. intros i.
    destruct (decide (i < Z.to_nat n)%nat) as [Hi|Hi]; [|rewrite !lookup_ge_None_2; rewrite ?length_app, ?length_drop, ?length_take, ?length_drop, ?length_overwrite; lia || done].
    rewrite lookup_take_lt, lookup_drop by lia. destruct (decide (i < length bytes)%nat).
    + rewrite overwrite_lookup_in, lookup_app_l by lia. f_equal. lia.
    + rewrite overwrite_lookup_out, lookup_app_r, lookup_drop, lookup_take_lt, lookup_drop by lia. f_equal. lia.
  - intros x Hx Hne. destruct (cluster_offset_ok _ x Hg Hx) as (_ & Hx0 & _). pose proof (cluster_size_ok Hg) as (_ & Hcs & _). unfold cluster_bytes, device in *. rewrite Hd.
    apply overwrite_slice_other; try lia. destruct (data_byte_apart c x Hg); [done|lia..].
Qed.

Lemma write_step_ok start b c pos size data : geometry -> on_volume (dev_len b) c -> 0 <= pos < size -> pos mod 512 = 0 -> size mod 512 = 0 ->
  size <= Z.of_nat (length data) ->
  let chunk := chunk_size fs pos size in
  exists b', stored_at b b' c (take (Z.to_nat chunk) (drop (Z.to_nat pos) data)) /\
    write_file_step fs start data size (pos, c, b) =
      if decide (pos + chunk < size) then
        next_cluster ← fat_get_next_cluster fs start b';
        if decide (0x0FFFFFFF <= next_cluster) then
          next_cluster ← fat_find_free_cluster fs b';
          if decide (next_cluster = 0) then Done (inr (-1, b'))
          else b ← fat_update_fat fs c next_cluster b'; Done (inl (pos + chunk, next_cluster, b))
        else Done (inl (pos + chunk, next_cluster, b'))
      else Done (inl (pos + chunk, c, b')).
Proof.
  intros Hg Hv Hp Hp5 Hs5 Hl. destruct (chunk_size_ok pos size Hg Hp Hp5 Hs5) as (Hc & Hc5 & Hmin). cbn zeta. unfold write_file_step. rewrite decide_True by lia.
  cbn zeta. set (chunk := chunk_size fs pos size) in *. unfold part. rewrite decide_True by lia. cbn [mbind outcome_bind]. set (bytes := take _ _).
  assert (Hlb : Z.of_nat (length bytes) = chunk) by (unfold bytes; rewrite length_take, length_drop; lia).
  destruct (write_cluster b c bytes Hg Hv) as (b' & Hw & Hst); [lia|by rewrite Hlb|]. exists b'. split; [done|]. by rewrite Hw.
Qed.

(** The mark at the end of a write. *)
Record marked (b b' : B) (c : Z) : Prop := {
  mk_len : dev_len b' = dev_len b;
  mk_at : next_of b' c = 0x0FFFFFFF;
  mk_next : forall x, in_table (dev_len b) x -> x <> c -> next_of b' x = next_of b x;
  mk_data : forall x, on_volume (dev_len b) x -> cluster_bytes b' x = cluster_bytes b x;
  mk_other : forall d, d <> physicalDevice fs -> dev_bytes b' d = dev_bytes b d
}.

Lemma write_end fuel start b c pos size data : geometry -> on_volume (dev_len b) c -> size <= pos -> (0 < fuel)%nat ->
  exists b', loop fuel (write_file_step fs start data size) (pos, c, b) = Done (0, b') /\ marked b b' c.
Proof.
  intros Hg Hv Hp Hf. destruct fuel; [lia|]. cbn [loop]. destruct (update_ok b c 0x0FFFFFFF Hg ltac:(apply Hv)) as (b' & Hw & Hu).
  exists b'. assert (write_file_step fs start data size (pos, c, b) = Done (inr (0, b'))) as ->.
  { unfold write_file_step. rewrite decide_False by lia. by rewrite Hw. }
  split; [done|]. assert (Hnext : forall x, in_table (dev_len b) x -> next_of b' x = if decide (x = c) then 0x0FFFFFFF else next_of b x).
  { intros x Hx. rewrite (next_update b b' c x 0x0FFFFFFF) by (done || apply Hv || apply Hu || lia). done. }
  split; [eapply update_len; [done|apply Hv|apply Hu]| | | |apply Hu].
  - rewrite Hnext by apply Hv. by rewrite decide_True.
  - intros x Hx Hne. rewrite Hnext by done. by rewrite decide_False.
  - intros x Hx. by apply (cluster_bytes_update b b' c 0x0FFFFFFF).
Qed.

Lemma marked_chain b b' c : geometry -> on_volume (dev_len b) c -> marked b b' c -> fat_chain b' c [c].
Proof. intros Hg Hv Hm. apply chain_last; [by rewrite (mk_len _ _ _ Hm)|]. rewrite (mk_at _ _ _ Hm). lia. Qed.

(** The first turn of a write that needs a second cluster goes on in the next
    cluster of the chain. *)
Lemma write_first b c n rest size data : geometry -> fat_chain b c (c :: n :: rest) -> cluster_size fs < size -> size mod 512 = 0 -> size <= Z.of_nat (length data) ->
  exists b1, stored_at b b1 c (take (Z.to_nat (cluster_size fs)) data) /\
    write_file_step fs c data size (0, c, b) = Done (inl (cluster_size fs, n, b1)).
Proof.
  intros Hg Hch Hs Hs5 Hl. pose proof (cluster_size_ok Hg) as (_ & Hcs & Hcs5). destruct (chain_head _ _ _ Hch) as [Hv _].
  destruct (chain_second _ _ _ _ Hch) as (Hn & _ & Hvn & _). destruct (chunk_size_ok 0 size Hg) as (_ & _ & Hmin); [lia|done..|].
  destruct (write_step_ok c b c 0 size data Hg Hv) as (b1 & Hst & Hw); [lia|done..|]. cbn zeta in *.
  replace (chunk_size fs 0 size) with (cluster_size fs) in * by lia. change (Z.to_nat 0) with 0%nat in Hst. rewrite drop_0 in Hst.
  exists b1. split; [done|]. rewrite Hw. rewrite decide_True by lia.
  assert (Hv1 : on_volume (dev_len b1) c) by (by rewrite (st_len _ _ _ _ Hst)). rewrite (get_next_ok b1 c Hg) by apply Hv1. cbn [mbind outcome_bind].
  rewrite (st_next _ _ _ _ Hst c Hv), Hn. rewrite decide_False by (destruct Hvn; lia). done.
Qed.

(** The further turns, on whole clusters: each writes to the second cluster. *)
Lemma write_rest m : forall fuel b c n pos data, geometry -> on_volume (dev_len b) c -> on_volume (dev_len b) n -> next_of b c = n -> 0 <= pos ->
  pos mod 512 = 0 -> Z.of_nat (length data) = pos + Z.of_nat (S m) * cluster_size fs -> (S m < fuel)%nat ->
  exists b', loop fuel (write_file_step fs c data (Z.of_nat (length data))) (pos, n, b) = Done (0, b') /\
    dev_len b' = dev_len b /\ next_of b' n = 0x0FFFFFFF /\ (forall x, on_volume (dev_len b) x -> x <> n -> next_of b' x = next_of b x) /\
    cluster_bytes b' n = drop (length data - Z.to_nat (cluster_size fs)) data /\
    (forall x, on_volume (dev_len b) x -> x <> n -> cluster_bytes b' x = cluster_bytes b x).
Proof.
  induction m as [|m IH]; intros fuel b c n pos data Hg Hvc Hvn Hn Hp Hp5 Hl Hf; (destruct fuel as [|fuel]; [lia|]); cbn [loop];
    pose proof (cluster_size_ok Hg) as (_ & Hcs & Hcs5); set (size := Z.of_nat (length data)) in *;
    assert (Hsize : size mod 512 = 0) by (rewrite Hl, Z.add_mod, Zmult_mod, Hp5, Hcs5, Z.mul_0_r by lia; done);
    (destruct (chunk_size_ok pos size Hg) as (_ & _ & Hmin); [lia|done..|]);
    (destruct (write_step_ok c b n pos size data Hg Hvn) as (b1 & Hst & Hw); [lia|done|done|lia|]); cbn zeta in *;
    replace (chunk_size fs pos size) with (cluster_size fs) in * by lia; rewrite Hw; clear Hw;
    pose proof (st_len _ _ _ _ Hst) as Hl1;
    (assert (Hin : cluster_bytes b1 n = take (Z.to_nat (cluster_size fs)) (drop (Z.to_nat pos) data));
      [rewrite (st_in _ _ _ _ Hst), (drop_ge (cluster_bytes b n)), app_nil_r; [done|]; rewrite length_cluster_bytes, length_take, length_drop by done; lia|]).
  - rewrite decide_False by lia. cbn [mbind outcome_bind].
    destruct (write_end fuel c b1 n (pos + cluster_size fs) size data Hg) as (b' & Hw & [ML MA MN MD MO]); [by rewrite Hl1|lia|lia|].
    rewrite Hl1 in *. exists b'. split; [exact Hw|]. split; [done|]. split; [done|]. split_and!.
    + intros x Hx Hne. rewrite MN by (done || apply Hx). by apply (st_next _ _ _ _ Hst).
    + rewrite MD, Hin, take_ge by (done || rewrite length_drop; lia). f_equal. lia.
    + intros x Hx Hne. rewrite MD by done. by apply (st_out _ _ _ _ Hst).
  - rewrite decide_True by lia. rewrite get_next_ok by (done || rewrite Hl1; apply Hvc). cbn [mbind outcome_bind].
    rewrite (st_next _ _ _ _ Hst c Hvc), Hn. rewrite decide_False by (destruct Hvn; lia). cbn [mbind outcome_bind].
    destruct (IH fuel b1 c n (pos + cluster_size fs) data Hg) as (b' & Hw & L' & E' & N' & I' & O'); rewrite ?Hl1; try done; try lia.
    { by rewrite (st_next _ _ _ _ Hst c Hvc). } { by rewrite Z.add_mod, Hp5, Hcs5 by lia. }
    rewrite Hl1 in *. exists b'. split; [exact Hw|]. split_and!; try done.
    + intros x Hx Hne. rewrite N' by done. by apply (st_next _ _ _ _ Hst).
    + intros x Hx Hne. rewrite O' by done. by apply (st_out _ _ _ _ Hst).
Qed.

(** A write of at most one cluster, and of at most two. *)
Lemma write_one b c fuel data : geometry -> on_volume (dev_len b) c -> (0 < length data)%nat -> Z.of_nat (length data) mod 512 = 0 ->
  Z.of_nat (length data) <= cluster_size fs -> (3 < fuel)%nat ->
  exists b' cs', fat_write_file_data fuel fs c data (Z.of_nat (length data)) b = Done (0, b') /\ fat_chain b' c cs' /\ (length cs' < fuel)%nat /\
    take (length data) (file_bytes b' cs') = data.
Proof.
  intros Hg Hv H0 H5 Hone Hf. set (size := Z.of_nat (length data)) in *. destruct fuel as [|fuel]; [lia|].
  destruct (write_step_ok c b c 0 size data Hg Hv) as (b1 & Hst & Hw); [lia|done|done|lia|].
  destruct (chunk_size_ok 0 size Hg) as (_ & _ & Hmin); [lia|done|done|]. cbn zeta in Hw. rewrite decide_False in Hw by lia.
  replace (chunk_size fs 0 size) with size in * by lia. change (Z.to_nat 0) with 0%nat in Hst. rewrite drop_0, take_ge in Hst by lia.
  assert (Hv1 : on_volume (dev_len b1) c) by (by rewrite (st_len _ _ _ _ Hst)).
  destruct (write_end fuel c b1 c (0 + size) size data Hg Hv1) as (b' & Hw' & Hm); [lia|lia|].
  exists b', [c]. unfold fat_write_file_data. cbn [loop]. rewrite Hw. cbn [mbind outcome_bind]. split; [done|].
  split; [by eapply marked_chain|]. split; [simpl; lia|]. rewrite file_bytes_cons, (mk_data _ _ _ Hm), (st_in _ _ _ _ Hst), <-app_assoc by done.
  apply take_app_length.
Qed.

Lemma write_two b c n rest fuel data : geometry -> fat_chain b c (c :: n :: rest) -> Z.of_nat (length data) mod 512 = 0 ->
  cluster_size fs < Z.of_nat (length data) <= 2 * cluster_size fs -> (3 < fuel)%nat ->
  exists b' cs', fat_write_file_data fuel fs c data (Z.of_nat (length data)) b = Done (0, b') /\ fat_chain b' c cs' /\ (length cs' < fuel)%nat /\
    take (length data) (file_bytes b' cs') = data.
Proof.
  intros Hg Hch H5 Htwo Hf. set (size := Z.of_nat (length data)) in *. pose proof (cluster_size_ok Hg) as (_ & Hcs & Hcs5). destruct fuel as [|[|fuel]]; [lia..|].
  destruct (write_first b c n rest size data Hg Hch) as (b1 & Hst & Hw); [lia|done|lia|]. destruct (chain_head _ _ _ Hch) as [Hv _].
  pose proof (st_len _ _ _ _ Hst) as Hl1. destruct (chain_second _ _ _ _ Hch) as (Hn & _ & Hvn & Hne).
  destruct (write_step_ok c b1 n (cluster_size fs) size data Hg) as (b2 & Hst2 & Hw2); [by rewrite Hl1|lia|done|done|lia|].
  pose proof (st_len _ _ _ _ Hst2) as Hl2. rewrite Hl1 in Hl2.
  destruct (chunk_size_ok (cluster_size fs) size Hg) as (_ & _ & Hmin); [lia|done..|]. cbn zeta in Hw2. rewrite decide_False in Hw2 by lia.
  destruct (write_end fuel c b2 n (cluster_size fs + chunk_size fs (cluster_size fs) size) size data Hg) as (b' & Hw' & Hm); [by rewrite Hl2|lia|lia|].
  exists b', [c; n]. unfold fat_write_file_data. cbn [loop]. rewrite Hw. cbn [mbind outcome_bind]. rewrite Hw2. cbn [mbind outcome_bind]. split; [exact Hw'|].
  pose proof (mk_len _ _ _ Hm) as Hl3. rewrite Hl2 in Hl3. split; [|split; [simpl; lia|]].
  - assert (Hnc : next_of b' c = n).
    { rewrite (mk_next _ _ _ Hm c) by (done || rewrite Hl2; apply Hv). rewrite (st_next _ _ _ _ Hst2) by (by rewrite Hl1). by rewrite (st_next _ _ _ _ Hst). }
    apply chain_next; [by rewrite Hl3|]. rewrite Hnc. apply (marked_chain b2 b' n); [done|by rewrite Hl2|done].
  - rewrite !file_bytes_cons, !(mk_data _ _ _ Hm) by (by rewrite Hl2).
    rewrite (st_out _ _ _ _ Hst2 c), (st_in _ _ _ _ Hst), (st_in _ _ _ _ Hst2) by (done || by rewrite Hl1).
    rewrite (drop_ge (cluster_bytes b c)), app_nil_r by (rewrite length_cluster_bytes, length_take by done; lia).
    rewrite (take_ge (drop _ data)) by (rewrite length_drop; lia). rewrite <-app_assoc, (app_assoc (take _ data)), take_drop. apply take_app_length.
Qed.
End Table.

(** ** The theorems *)

Section Theorems.
Context {B : Type} `{BD : BlockDevice B} `{SB : StaleBytes}.

(** Setting an entry of the table is read back, masked to 28 bits, and every
    other entry stays. *)
Theorem fat_update_then_next fs b c v : geometry fs -> in_table fs (dev_len fs b) c -> 0 <= v < 2 ^ 32 ->
  exists b', fat_update_fat fs c v b = Done b' /\ fat_get_next_cluster fs c b' = Done (Z.land v 0x0FFFFFFF) /\
    forall x, in_table fs (dev_len fs b) x -> x <> c -> fat_get_next_cluster fs x b' = fat_get_next_cluster fs x b.
Proof.
  intros Hg Hc Hv. destruct (update_ok fs b c v Hg Hc) as (b' & Hw & Hd & _). exists b'. split; [done|].
  assert (Hl : dev_len fs b' = dev_len fs b) by (by eapply update_len).
  split; [|intros x Hx Hne]; rewrite !get_next_ok by (done || by rewrite Hl).
  - rewrite (next_update fs b b' c c v) by done. by rewrite decide_True.
  - rewrite (next_update fs b b' c x v) by done. by rewrite decide_False.
Qed.

(** Reading a file gives the bytes of its clusters along the chain in the
    table, as many as were asked for, and stops at the chain's end. *)
Theorem fat_read_chain fs b c cs fuel buf size : geometry fs -> fat_chain fs b c cs -> 0 < size -> size mod 512 = 0 -> size < 2 ^ 31 ->
  size <= Z.of_nat (length buf) -> (length cs < fuel)%nat ->
  fat_read_file_data fuel fs c buf size b =
    Done (Z.min size (Z.of_nat (length (file_bytes fs b cs))), overwrite buf 0 (take (Z.to_nat size) (file_bytes fs b cs))).
Proof.
  intros Hg Hch Hs Hs5 H31 Hb Hf. unfold fat_read_file_data. rewrite (read_file_loop fs b c cs) by (done || lia).
  by rewrite (length_file_bytes fs b c cs), Z.sub_0_r by done.
Qed.

(** C27: One cluster, or two when the chain has them: what was written is read. *)
Theorem fat_write_read fs b c cs fuel data buf : geometry fs -> fat_chain fs b c cs -> (0 < length data)%nat -> Z.of_nat (length data) mod 512 = 0 ->
  Z.of_nat (length data) <= Z.min 2 (Z.of_nat (length cs)) * cluster_size fs -> (length data <= length buf)%nat -> (3 < fuel)%nat ->
  exists b', fat_write_file_data fuel fs c data (Z.of_nat (length data)) b = Done (0, b') /\
    fat_read_file_data fuel fs c buf (Z.of_nat (length data)) b' = Done (Z.of_nat (length data), overwrite buf 0 data).
Proof.
  intros Hg Hch H0 H5 Hmax Hbuf Hf. pose proof (cluster_size_ok fs Hg) as (_ & Hcs & _). destruct (chain_head _ _ _ _ Hch) as [Hv (rest & ->)].
  assert (exists b' cs', fat_write_file_data fuel fs c data (Z.of_nat (length data)) b = Done (0, b') /\ fat_chain fs b' c cs' /\ (length cs' < fuel)%nat /\
    take (length data) (file_bytes fs b' cs') = data) as (b' & cs' & Hw & Hch' & Hl & Htake).
  { destruct (decide (Z.of_nat (length data) <= cluster_size fs)); [apply write_one; done || lia|].
    destruct rest as [|c1 rest]; [cbn [length] in Hmax; lia|]. cbn [length] in Hmax. apply (write_two fs b c c1 rest); done || lia. }
  exists b'. split; [done|]. pose proof (length_file_bytes fs b' c cs' Hg Hch') as Hfl. pose proof Htake as Hlen. apply (f_equal length) in Hlen. rewrite length_take in Hlen.
  unfold fat_read_file_data. assert (Z.of_nat (length data) < 2 ^ 31) by nia. rewrite (read_file_loop fs b' c cs') by (done || lia).
  rewrite Z.sub_0_r, Nat2Z.id, Htake. do 2 f_equal. lia.
Qed.

(** A file of two or more whole clusters written over its chain keeps its first
    and its last cluster only: every cluster after the first is written to the
    second one, and the chain ends there. *)
Theorem fat_write_keeps_first_and_last fs b c n rest k fuel data : geometry fs -> fat_chain fs b c (c :: n :: rest) ->
  Z.of_nat (length data) = Z.of_nat (S (S k)) * cluster_size fs -> (S (S k) < fuel)%nat ->
  exists b', fat_write_file_data fuel fs c data (Z.of_nat (length data)) b = Done (0, b') /\ fat_chain fs b' c [c; n] /\
    file_bytes fs b' [c; n] = take (Z.to_nat (cluster_size fs)) data ++ drop (length data - Z.to_nat (cluster_size fs)) data.
Proof.
  intros Hg Hch Hl Hf. pose proof (cluster_size_ok fs Hg) as (_ & Hcs & Hcs5). destruct (chain_head _ _ _ _ Hch) as [Hv _].
  assert (H5 : Z.of_nat (length data) mod 512 = 0) by (rewrite Hl, Zmult_mod, Hcs5, Z.mul_0_r; done).
  destruct (write_first fs b c n rest (Z.of_nat (length data)) data Hg Hch) as (b1 & Hst & Hw); [lia|done|lia|].
  pose proof (st_len _ _ _ _ _ Hst) as Hl1. destruct (chain_second _ _ _ _ _ Hch) as (Hn & _ & Hvn & Hne).
  destruct fuel as [|fuel]; [lia|].
  destruct (write_rest fs k fuel b1 c n (cluster_size fs) data Hg) as (b' & Hw' & L' & E' & N' & I' & O'); rewrite ?Hl1; try done; try lia.
  { by rewrite (st_next _ _ _ _ _ Hst). }
  exists b'. unfold fat_write_file_data. cbn [loop]. rewrite Hw. cbn [mbind outcome_bind]. split; [exact Hw'|]. rewrite Hl1 in *. split.
  - apply chain_next; [by rewrite L'|]. rewrite N', (st_next _ _ _ _ _ Hst), Hn by done. apply chain_last; [by rewrite L'|]. rewrite E'. lia.
  - rewrite !file_bytes_cons, I', O', (st_in _ _ _ _ _ Hst) by done. unfold file_bytes. simpl. rewrite app_nil_r. f_equal.
    rewrite drop_ge, app_nil_r by (rewrite length_cluster_bytes, length_take by done; lia). done.
Qed.
(** *** Looking for a free cluster *)

(** What fat_find_free_cluster takes for the entry of a cluster: the table's
    first sector is never read, the fresh buffer stands for it. *)
Definition seen (fs : fat_fs) (b : B) (i : Z) : Z :=
  if decide (i < sectorSize fs / 4) then le (take 4 (drop (Z.to_nat (4 * i)) (stale_bytes (sectorSize fs))))
  else le (take 4 (drop (Z.to_nat (fat_byte fs i)) (device fs b))).

(** The buffer when cluster [k] is looked at. *)
Definition buffer_at (fs : fat_fs) (b : B) (k : Z) : list Z :=
  if decide (k < sectorSize fs / 4) then stale_bytes (sectorSize fs)
  else take (Z.to_nat (sectorSize fs)) (drop (Z.to_nat ((fatPointer fs + k / (sectorSize fs / 4)) * sectorSize fs)) (device fs b)).

Lemma entries_ok fs k : geometry fs -> 0 <= k ->
  0 < sectorSize fs / 4 /\ 4 * (sectorSize fs / 4) = sectorSize fs /\ k / (sectorSize fs / 4) = 4 * k / sectorSize fs /\
  4 * (k mod (sectorSize fs / 4)) = (4 * k) mod sectorSize fs.
Proof.
  intros [Hs H512 _ _ _] Hk. apply Z.mod_divide in H512 as [m Hm]; [|lia]. assert (He : sectorSize fs / 4 = m * 128).
  { rewrite Hm. replace (m * 512) with (m * 128 * 4) by lia. apply Z.div_mul. lia. }
  rewrite He. split_and!; [lia|lia| |].
  - replace (sectorSize fs) with (4 * (m * 128)) by lia. by rewrite Z.div_mul_cancel_l by lia.
  - replace (sectorSize fs) with (4 * (m * 128)) by lia. by rewrite Z.mul_mod_distr_l by lia.
Qed.

Lemma buffer_word fs b i : geometry fs -> in_table fs (dev_len fs b) i -> word_at (buffer_at fs b i) (i mod (sectorSize fs / 4)) = Done (seen fs b i).
Proof.
  intros Hg Ht. pose proof Ht as [Hi Hle]. destruct (entries_ok fs i Hg) as (He & H4 & Hdiv & Hmod); [lia|]. pose proof (Z.mod_pos_bound i (sectorSize fs / 4) He) as Hr.
  pose proof Hg as [Hs _ _ Hf _]. unfold word_at, buffer_at, seen. destruct (decide (i < sectorSize fs / 4)) as [Hlt|Hge].
  - rewrite Z.mod_small by lia. rewrite decide_True by (rewrite stale_length; lia). done.
  - rewrite Hdiv. set (q := 4 * i / sectorSize fs) in *. assert (0 <= q) by (apply Z.div_pos; lia). pose proof (Z.div_mod (4 * i) (sectorSize fs) ltac:(lia)) as Hdm. fold q in Hdm.
    unfold dev_len in Hle. rewrite decide_True by (rewrite length_take, length_drop; nia). do 2 f_equal.
    rewrite skipn_firstn_comm, drop_drop, take_take. unfold fat_byte. f_equal; [lia|]. f_equal. nia.
Qed.

Lemma buffer_step fs b k : geometry fs -> in_table fs (dev_len fs b) k -> 2 <= k ->
  (if decide (k mod (sectorSize fs / 4) = 0) then
     q ← quot k (sectorSize fs / 4);
     dev_read (physicalDevice fs) (u32 (u32 (u32 (fatPointer fs) + q) * sectorSize fs)) (sectorSize fs) b
   else Done (buffer_at fs b (k - 1))) = Done (buffer_at fs b k).
Proof.
  intros Hg [Hk Ht] H2. pose proof Hg as [Hs H512 _ Hf _]. destruct (entries_ok fs k Hg) as (He & H4 & Hdiv & Hmod); [lia|].
  set (e := sectorSize fs / 4) in *. pose proof (Z.div_mod k e ltac:(lia)) as Hdm. pose proof (Z.mod_pos_bound k e ltac:(lia)) as Hr.
  destruct (decide (k mod e = 0)) as [E|E].
  - unfold quot. rewrite decide_False by lia. cbn [mbind outcome_bind]. rewrite <-Hdiv in Ht. assert (1 <= k / e) by nia.
    rewrite (u32_small (fatPointer fs)), (u32_small (fatPointer fs + _)), u32_small by nia.
    unfold buffer_at. fold e. rewrite decide_False by nia. unfold dev_len, device in *. apply dev_read_ok; [|nia].
    split; [nia|]. split; [by rewrite Zmult_mod, H512, Z.mul_0_r|]. split; [lia|done].
  - unfold buffer_at. fold e. assert (Hr0 : 0 < k mod e) by lia. assert (Hq : (k - 1) / e = k / e).
    { replace (k - 1) with (k mod e - 1 + k / e * e) by lia. rewrite Z.div_add, (Z.div_small (k mod e - 1)) by lia. lia. }
    rewrite Hq. destruct (decide (k - 1 < e)), (decide (k < e)); try done; [|lia].
    assert (k = e) as -> by lia. rewrite Z.mod_same in E by lia. done.
Qed.

(** The first cluster whose entry, as seen, is zero; 0 when there is none.  Below
    the entries of one sector what is seen is the fresh buffer, not the table. *)
Theorem fat_find_free_first fs b : geometry fs ->
  (forall i, 2 <= i < capacity fs / clusterSize fs -> in_table fs (dev_len fs b) i) ->
  exists r, fat_find_free_cluster fs b = Done r /\
    ((r = 0 /\ forall i, 2 <= i < capacity fs / clusterSize fs -> seen fs b i <> 0) \/
     (2 <= r < capacity fs / clusterSize fs /\ seen fs b r = 0 /\ forall i, 2 <= i < r -> seen fs b i <> 0)).
Proof.
  intros Hg Hin. pose proof Hg as [Hs H512 Hc _ _]. unfold fat_find_free_cluster. assert (quot (capacity fs) (clusterSize fs) = Done (capacity fs / clusterSize fs)) as ->
    by (unfold quot; by rewrite decide_False by lia). cbn [mbind outcome_bind]. cbn zeta.
  set (n := capacity fs / clusterSize fs) in *. set (body := fun i (fat : list Z) => _).
  destruct (entries_ok fs 2 Hg) as (He & H4 & _); [lia|]. assert (Hs2 : 512 <= sectorSize fs) by (apply Z.mod_divide in H512 as [m ?]; lia).
  assert (Hbody : forall k fat, 2 <= k < 2 + Z.of_nat (Z.to_nat (n - 2)) -> (fat = buffer_at fs b (k - 1) /\ forall i, 2 <= i < k -> seen fs b i <> 0) ->
    match body k fat with
    | Done (inl fat) => fat = buffer_at fs b (k + 1 - 1) /\ forall i, 2 <= i < k + 1 -> seen fs b i <> 0
    | Done (inr r) => 2 <= r < n /\ seen fs b r = 0 /\ forall i, 2 <= i < r -> seen fs b i <> 0
    | _ => False
    end).
  { intros k fat Hk [-> Hnz]. assert (Htk : in_table fs (dev_len fs b) k) by (apply Hin; lia). unfold body, rem. rewrite decide_False by lia. cbn [mbind outcome_bind].
    rewrite buffer_step by (done || lia). cbn [mbind outcome_bind]. rewrite buffer_word by done. cbn [mbind outcome_bind].
    destruct (decide (seen fs b k = 0)); [split; [lia|done]|]. replace (k + 1 - 1) with k by lia. split; [done|].
    intros i Hi. destruct (decide (i = k)) as [->|]; [done|apply Hnz; lia]. }
  pose proof (for_inv _ _ _ _ _ (stale_bytes (sectorSize fs)) Hbody) as Hfor. cbn beta in Hfor.
  lapply Hfor; [clear Hfor; intros Hfor|split; [unfold buffer_at; by rewrite decide_True by lia|lia]].
  destruct (for_ _ _ body _) as [[fat|r]| | |]; try done; cbn [mbind outcome_bind].
  - exists 0. split; [done|]. left. split; [done|]. intros i Hi. apply Hfor. lia.
  - exists r. split; [done|]. by right.
Qed.
End Theorems.

(** ** A volume in memory *)

#[export] Program Instance memory_disk : BlockDevice (gmap Z (list Z)) := {|
  dev_bytes := fun b dev => default [] (b !! dev);
  dev_read := fun dev off n b => let l := default [] (b !! dev) in
    if decide (off + n <= Z.of_nat (length l)) then Done (take (Z.to_nat n) (drop (Z.to_nat off) l)) else Fault;
  dev_write := fun dev bytes off b => let l := default [] (b !! dev) in
    if decide (off + Z.of_nat (length bytes) <= Z.of_nat (length l)) then Done (<[dev := overwrite l off bytes]> b) else Fault
|}.
Next Obligation. intros dev off n b _ Hl. simpl. by rewrite decide_True. Qed.
Next Obligation.
  intros dev bytes off b _ Hl. simpl. rewrite decide_True by done. eexists. split; [done|]. split; [by rewrite lookup_insert_eq|].
  intros d Hd. by rewrite lookup_insert_ne.
Qed.

#[export] Program Instance stale_ones : StaleBytes := {| stale_bytes := fun n => replicate (Z.to_nat n) 1 |}.
Next Obligation. intros. apply length_replicate. Qed.

(** Six sectors: the boot sector, the table, clusters 2 to 5; a file in the
    clusters 2 and 3. *)
Definition demo_fat : fat_fs := mk_fat [] 0 512 1 6 1 2 9 0.
Definition fat_demo_table : list Z := mjoin (to_le 4 <$> [0x0FFFFFF8; 0x0FFFFFFF; 3; 0x0FFFFFFF; 0; 0]) ++ replicate 488 0.
Definition demo_disk : gmap Z (list Z) := {[9 := replicate 512 0 ++ fat_demo_table ++ replicate 512 65 ++ replicate 512 66 ++ replicate 1024 0]}.

Lemma demo_geometry : geometry demo_fat.
Proof. split; unfold demo_fat; cbn [sectorSize clusterSize fatPointer dataPointer]; done || lia. Qed.

Lemma demo_len : dev_len demo_fat demo_disk = 3072.
Proof. reflexivity. Qed.

Lemma demo_in_table c : 0 <= c < 6 -> in_table demo_fat (dev_len demo_fat demo_disk) c.
Proof. intros Hc. rewrite demo_len. unfold in_table. simpl. rewrite Z.div_small by lia. lia. Qed.

Lemma demo_volume c : 2 <= c < 6 -> on_volume demo_fat (dev_len demo_fat demo_disk) c.
Proof.
  intros Hc. split; [lia|]. split; [apply demo_in_table; lia|]. rewrite demo_len. unfold data_byte.
  change (cluster_size demo_fat) with 512. simpl. rewrite Z.div_small by lia. lia.
Qed.

Lemma demo_chain : fat_chain demo_fat demo_disk 2 [2; 3].
Proof. apply chain_next; [apply demo_volume; lia|]. change (next_of demo_fat demo_disk 2) with 3. apply chain_last; [apply demo_volume; lia|]. by vm_compute. Qed.

Lemma fat_update_then_next_witness : exists b', fat_update_fat demo_fat 4 0xF0000005 demo_disk = Done b' /\ fat_get_next_cluster demo_fat 4 b' = Done 5 /\
  fat_get_next_cluster demo_fat 2 b' = Done 3.
Proof.
  destruct (fat_update_then_next demo_fat demo_disk 4 0xF0000005 demo_geometry) as (b' & H1 & H2 & H3); [apply demo_in_table; lia|lia|].
  exists b'. split; [done|]. split; [exact H2|]. rewrite H3; [reflexivity|apply demo_in_table; lia|lia].
Defined.

Lemma fat_read_chain_witness : fat_read_file_data 3 demo_fat 2 (replicate 2000 0) 1536 demo_disk =
  Done (1024, replicate 512 65 ++ replicate 512 66 ++ replicate 976 0).
Proof. rewrite (fat_read_chain demo_fat demo_disk 2 [2; 3]); [vm_compute; reflexivity|apply demo_geometry|apply demo_chain|(rewrite ?length_replicate; cbn [length]; done || lia)..]. Defined.

Lemma fat_write_read_witness : exists b', fat_write_file_data 4 demo_fat 2 (replicate 1024 7) 1024 demo_disk = Done (0, b') /\
  fat_read_file_data 4 demo_fat 2 (replicate 1024 0) 1024 b' = Done (1024, replicate 1024 7).
Proof.
  apply (fat_write_read demo_fat demo_disk 2 [2; 3] 4 (replicate 1024 7) (replicate 1024 0) demo_geometry demo_chain); rewrite ?length_replicate;
    change (cluster_size demo_fat) with 512; simpl; done || lia.
Defined.

Lemma fat_write_keeps_first_and_last_witness : exists b',
  fat_write_file_data 4 demo_fat 2 (replicate 512 1 ++ replicate 512 2 ++ replicate 512 3) 1536 demo_disk = Done (0, b') /\ fat_chain demo_fat b' 2 [2; 3] /\
  file_bytes demo_fat b' [2; 3] = replicate 512 1 ++ replicate 512 3.
Proof.
  destruct (fat_write_keeps_first_and_last demo_fat demo_disk 2 3 [] 1 4 (replicate 512 1 ++ replicate 512 2 ++ replicate 512 3) demo_geometry demo_chain) as (b' & H1 & H2 & H3);
    [reflexivity|lia|]. exists b'. split; [exact H1|]. split; [exact H2|]. rewrite H3. reflexivity.
Defined.

Lemma fat_find_free_first_witness : exists r, fat_find_free_cluster demo_fat demo_disk = Done r /\ r = 0 /\ next_of demo_fat demo_disk 4 = 0.
Proof.
  destruct (fat_find_free_first demo_fat demo_disk demo_geometry) as (r & H & Hc).
  - change (capacity demo_fat / clusterSize demo_fat) with 6. intros i Hi. apply demo_in_table. lia.
  - exists r. split; [done|]. split; [|reflexivity]. destruct Hc as [[? _]|(Hr & Hs & _)]; [done|exfalso].
    change (capacity demo_fat / clusterSize demo_fat) with 6 in Hr. assert (r = 2 \/ r = 3 \/ r = 4 \/ r = 5) as [->|[->|[->| ->]]] by lia; vm_compute in Hs; discriminate Hs.
Defined.
