(* ===== verification/Fat.v ===== *)
(** kernel/fs/fat.c, the driver: FAT directories and files under the virtual
    file system (Vfs), on the volume of FatVol.

    [fat_disk] is the block devices, [fat_fss] the mounted fat_fs_t and
    [fat_entries] the fat_entry_t by address.  [node->fs] is cast to one or the
    other without a test: a fat_fs_t read as a fat_entry_t gives the first bytes
    of its boot sector ([entry_at]), the reverse leaves the 16 bytes of the
    object, a [Fault].  A directory is the bytes of one cluster; reading past
    them is a [Fault].  Buffers are values, so freeing them (some through a
    pointer that was moved) is not state. *)
From stdpp Require Import base list gmap.
From Stdlib Require Import ZArith Lia.
From S2P Require Import Prelude Format CString KTree Vfs FatVol.

#[local] Open Scope Z_scope.

(** ** Data *)

Record fatD (B : Type) := mk_fatd { fat_disk : B; fat_fss : gmap Z fat_fs; fat_entries : gmap Z fat_entry }.
Arguments mk_fatd {B}.
Arguments fat_disk {B}.
Arguments fat_fss {B}.
Arguments fat_entries {B}.

Definition FAT_FIND_DIR : Z := 64.
Definition FAT_READ : Z := 65.
Definition FAT_WRITE : Z := 66.
Definition FAT_GET_SIZE : Z := 67.
Definition FAT_MKDIR : Z := 68.
Definition FAT_DELETE : Z := 69.
Definition FAT_CREATE : Z := 70.
Definition FAT_READ_DIR : Z := 71.

(** calloc of a fat_fs_t or a fat_entry_t; O_TRUNC of abi-bits/fcntl.h. *)
Class FatEnv := {
  obj_alloc : gmap Z fat_fs -> gmap Z fat_entry -> Z;
  obj_fresh : forall a b, obj_alloc a b <> 0 /\ a !! obj_alloc a b = None /\ b !! obj_alloc a b = None;
  o_trunc : Z
}.

(** ** Names *)

(** At most [n] characters, up to a terminator or a blank. *)
Fixpoint copy_part (n : nat) (input : list Z) : outcome (list Z) :=
  match n with
  | O => Done []
  | S n => c ← deref input; if decide (c = 0 \/ c = 32) then Done [] else rest ← copy_part n (tail input); Done (c :: rest)
  end.

Fixpoint to_lower (output : list Z) : outcome (list Z) :=
  match output with
  | [] => Fault
  | c :: rest =>
      if decide (c = 0) then Done output
      else rest ← to_lower rest; Done ((if decide (65 <= c <= 90) then c + 32 else c) :: rest)
  end.

Definition clean_fat_filename (input output : list Z) : outcome (list Z) :=
  name ← copy_part 8 input;
  ext ← copy_part 3 (drop 8 input);
  output ← (if decide (ext <> []) then
              '(_, output) ← snprintf 6 output 12 [37; 115; 46; 37; 115; 0] [AStr (name ++ [0]); AStr (ext ++ [0])]; Done output
            else overlay (name ++ [0]) output);
  to_lower output.

(** strncmp(a, b, n) == 0. *)
Fixpoint same_prefix (n : nat) (a b : list Z) : outcome bool :=
  match n with
  | O => Done true
  | S n =>
      x ← deref a; y ← deref b;
      if decide (x <> y) then Done false else if decide (x = 0) then Done true else same_prefix n (tail a) (tail b)
  end.

(** ** Directory entries: 32 bytes each *)

Definition de_attributes (dir : list Z) (i : Z) : outcome Z := aget dir (32 * i + 11).
Definition de_cluster (dir : list Z) (i : Z) : outcome Z :=
  high ← part dir (32 * i + 20) 2; low ← part dir (32 * i + 26) 2; Done (Z.lor (u32 (Z.shiftl (le high) 16)) (le low)).
Definition de_size (dir : list Z) (i : Z) : outcome Z := size ← part dir (32 * i + 28) 4; Done (le size).

Inductive slot := EndOfFiles | Skipped | Visible.

(** The three tests at the head of every loop over a directory. *)
Definition slot_at (dir : list Z) (i : Z) : outcome slot :=
  c ← aget dir (32 * i);
  if decide (c = 0) then Done EndOfFiles
  else if decide (c = 0xE5) then Done Skipped
  else a ← de_attributes dir i; Done (if decide (a = 0x0F) then Skipped else Visible).

(** The entry fat_create_dir_entry builds: memset, strncpy, the fields. *)
Definition new_dir_entry (name : list Z) (cluster size attributes : Z) : list Z :=
  take 11 (name ++ replicate 11 0) ++ [u8 attributes] ++ replicate 8 0 ++ to_le 2 (Z.land (Z.shiftr cluster 16) 0xFFFF) ++
  replicate 4 0 ++ to_le 2 (Z.land cluster 0xFFFF) ++ to_le 4 size.

Definition type_of (attributes : Z) : Z := if decide (Z.land attributes 0x10 <> 0) then FILE_TYPE_DIR else FILE_TYPE_FILE.

Section Fat.
Context {B : Type} `{BD : BlockDevice B} `{SB : StaleBytes} `{FE : FatEnv} `{Env : VfsEnv (fatD B)} `{NA : NodeAlloc}.
Context (fuel : nat).

Definition set_fatd (d : fatD B) (s : vfs (fatD B)) : vfs (fatD B) :=
  mk_vfs (tnodes s) (file_tree s) (files s) (root_node s) (id_generator s) (cwd s) d.
Definition set_disk (b : B) (s : vfs (fatD B)) : vfs (fatD B) := set_fatd (mk_fatd b (fat_fss (drv s)) (fat_entries (drv s))) s.
Definition disk (s : vfs (fatD B)) : B := fat_disk (drv s).
Definition put_fs (p : Z) (fs : fat_fs) (s : vfs (fatD B)) : vfs (fatD B) :=
  set_fatd (mk_fatd (disk s) (<[p := fs]> (fat_fss (drv s))) (fat_entries (drv s))) s.
Definition new_entry (e : fat_entry) (s : vfs (fatD B)) : Z * vfs (fatD B) :=
  let p := obj_alloc (fat_fss (drv s)) (fat_entries (drv s)) in
  (p, set_fatd (mk_fatd (disk s) (fat_fss (drv s)) (<[p := e]> (fat_entries (drv s)))) s).

(** [node->fs] taken for a fat_fs_t, and for a fat_entry_t. *)
Definition fs_at (p : Z) (s : vfs (fatD B)) : outcome fat_fs := of_option (fat_fss (drv s) !! p).
Definition entry_at (p : Z) (s : vfs (fatD B)) : outcome fat_entry :=
  match fat_entries (drv s) !! p with
  | Some e => Done e
  | None => fs ← fs_at p s; Done (mk_fe (field_at 0 8 (boot fs)) (field_at 8 4 (boot fs)))
  end.
Definition fat_entry_of (node : Z) (s : vfs (fatD B)) : outcome (file_node * fat_entry) :=
  f ← file_at s node; e ← entry_at (f_fs f) s; Done (f, e).

(** A cluster read into a new buffer, and written back. *)
Definition load_cluster (fs : fat_fs) (cluster : Z) (s : vfs (fatD B)) : outcome (list Z) :=
  dev_read (physicalDevice fs) (cluster_offset fs cluster) (cluster_size fs) (disk s).
Definition store_cluster (fs : fat_fs) (cluster : Z) (dir : list Z) (s : vfs (fatD B)) : outcome (vfs (fatD B)) :=
  b ← dev_write (physicalDevice fs) dir (cluster_offset fs cluster) (disk s); Done (set_disk b s).

(** ** Writing directory entries *)

Definition fat_create_dir_entry (fs : fat_fs) (dir : Z) (name : list Z) (cluster size attributes : Z) (s : vfs (fatD B)) : outcome (Z * vfs (fatD B)) :=
  '(_, e) ← fat_entry_of dir s;
  dir_data ← load_cluster fs (fe_cluster e) s;
  r ← for_ (Z.to_nat (cluster_size fs / 32)) 0 (fun i _ =>
    c ← aget dir_data (32 * i);
    Done (if decide (c = 0 \/ c = 0xE5) then inr i else inl tt)) tt;
  match r with
  | inl _ => Done (-1, s)
  | inr i =>
      dir_data ← put_part dir_data (32 * i) (new_dir_entry name cluster size attributes);
      s ← store_cluster fs (fe_cluster e) dir_data s;
      Done (0, s)
  end.

(** The directory of a file and the slot whose name is the node's: none when
    the file is not in the tree, is its root, or has no such slot. *)
Definition find_dir_entry (fs : fat_fs) (file : Z) (s : vfs (fatD B)) : outcome (option (Z * list Z * Z)) :=
  treeNode ← find_node fuel s file;
  if decide (treeNode = 0) then Done None
  else
    n ← node_at (tnodes s) treeNode;
    if decide (t_parent n = 0) then Done None
    else
      p ← node_at (tnodes s) (t_parent n);
      '(_, parent_entry) ← fat_entry_of (t_value p) s;
      dir_data ← load_cluster fs (fe_cluster parent_entry) s;
      f ← file_at s file;
      r ← for_ (Z.to_nat (cluster_size fs / 32)) 0 (fun i _ =>
        same ← same_prefix 11 (drop (Z.to_nat (32 * i)) dir_data) (f_name f);
        Done (if (same : bool) then inr i else inl tt)) tt;
      Done (match r with inl _ => None | inr i => Some (fe_cluster parent_entry, dir_data, i) end).

Definition fat_update_dir_entry_size (fs : fat_fs) (file : Z) (s : vfs (fatD B)) : outcome (Z * vfs (fatD B)) :=
  r ← find_dir_entry fs file s;
  match r with
  | None => Done (-1, s)
  | Some (parent_cluster, dir_data, i) =>
      f ← file_at s file;
      dir_data ← put_part dir_data (32 * i + 28) (to_le 4 (u32 (f_size f)));
      s ← store_cluster fs parent_cluster dir_data s;
      Done (0, s)
  end.

(** memset(dir_data, ...): the first entry, not the one that was found. *)
Definition fat_remove_dir_entry (fs : fat_fs) (file : Z) (s : vfs (fatD B)) : outcome (Z * vfs (fatD B)) :=
  r ← find_dir_entry fs file s;
  match r with
  | None => Done (-1, s)
  | Some (parent_cluster, dir_data, _) =>
      dir_data ← put_part dir_data 0 (replicate 32 0);
      s ← store_cluster fs parent_cluster dir_data s;
      Done (0, s)
  end.

(** ** Creating *)

(** The node that is built is not linked anywhere. *)
Definition new_fat_node (fs : Z) (cluster : Z) (name : list Z) (type : Z) (ops : file_operations) (s : vfs (fatD B)) : outcome (Z * vfs (fatD B)) :=
  let node := falloc (files s) in
  name ← overlay name zero_name;
  let '(e, s) := new_entry (mk_fe fs cluster) s in
  Done (node, put_file node (mk_fn name 0 type 0 false e ops 0) s).

Definition create_at (dir : Z) (name : list Z) (attributes type : Z) (ops : file_operations) (s : vfs (fatD B)) : outcome (bool * vfs (fatD B)) :=
  '(_, e) ← fat_entry_of dir s;
  fs ← fs_at (fatFs e) s;
  cluster ← fat_find_free_cluster fs (disk s);
  if decide (cluster = 0) then Done (false, s)
  else
    '(r, s) ← fat_create_dir_entry fs dir name cluster 0 attributes s;
    if decide (r <> 0) then Done (false, s)
    else
      b ← fat_update_fat fs cluster 0x0FFFFFFF (disk s);
      '(_, s) ← new_fat_node (fatFs e) cluster name type ops (set_disk b s);
      Done (true, s).

Definition fat_create_file (dir : Z) (name : list Z) (mode : Z) (s : vfs (fatD B)) : outcome (bool * vfs (fatD B)) :=
  create_at dir name 0 FILE_TYPE_FILE (mk_ops FAT_READ FAT_WRITE 0 0 0 0 FAT_GET_SIZE 0 0 0 FAT_DELETE 0) s.

Definition fat_mkdir (dir : Z) (name : list Z) (s : vfs (fatD B)) : outcome (bool * vfs (fatD B)) :=
  d ← file_at s dir;
  if decide (f_type d <> FILE_TYPE_DIR /\ f_type d <> FILE_TYPE_MOUNT_POINT) then Done (false, s)
  else create_at dir name 0x10 FILE_TYPE_DIR (mk_ops FAT_READ FAT_WRITE 0 0 FAT_MKDIR 0 FAT_GET_SIZE 0 0 0 0 0) s.

(** ** Reading and writing *)

(** fat_read and fat_write take the size before the offset; the virtual file
    system passes the offset first. *)
Definition fat_read (file : Z) (data : list Z) (size offset : Z) (s : vfs (fatD B)) : outcome (Z * list Z * vfs (fatD B)) :=
  '(_, entry) ← fat_entry_of file s;
  fs ← fs_at (fatFs entry) s;
  start ← loop fuel (fun '(start_cluster, offset) =>
    if decide (cluster_size fs <= offset) then
      start_cluster ← fat_get_next_cluster fs start_cluster (disk s);
      Done (if decide (0x0FFFFFF8 <= start_cluster) then inr None else inl (start_cluster, offset - cluster_size fs))
    else Done (inr (Some start_cluster))) (fe_cluster entry, offset);
  match start with
  | None => Done (-1, data, s)
  | Some start_cluster => '(r, data) ← fat_read_file_data fuel fs start_cluster data size (disk s); Done (r, data, s)
  end.

Definition write_skip (fs : fat_fs) (file_size : Z) (st : Z * Z * B) : outcome ((Z * Z * B) + (option (Z * Z) * B)) :=
  let '(start_cluster, offset, b) := st in
  if decide (cluster_size fs <= offset) then
    next_cluster ← fat_get_next_cluster fs start_cluster b;
    if decide (0x0FFFFFF8 <= next_cluster) then
      if decide (file_size < offset) then
        next_cluster ← fat_find_free_cluster fs b;
        if decide (next_cluster = 0) then Done (inr (None, b))
        else
          '(_, b) ← fat_write_file_data fuel fs start_cluster (replicate (Z.to_nat (cluster_size fs)) 0) (cluster_size fs) b;
          b ← fat_update_fat fs start_cluster next_cluster b;
          b ← fat_update_fat fs next_cluster 0x0FFFFFFF b;
          Done (inl (next_cluster, offset - cluster_size fs, b))
      else Done (inr (None, b))
    else Done (inl (next_cluster, offset - cluster_size fs, b))
  else Done (inr (Some (start_cluster, offset), b)).

Definition fat_write (file : Z) (data : list Z) (size offset : Z) (s : vfs (fatD B)) : outcome (Z * vfs (fatD B)) :=
  '(f, entry) ← fat_entry_of file s;
  fs ← fs_at (fatFs entry) s;
  '(start, b) ← loop fuel (write_skip fs (f_size f)) (fe_cluster entry, offset, disk s);
  let s := set_disk b s in
  match start with
  | None => Done (-1, s)
  | Some (start_cluster, offset) =>
      '(result, b) ← fat_write_file_data fuel fs start_cluster data size (disk s);
      let s := set_disk b s in
      if decide (result = 0) then
        let n := if decide (size < offset) then u64 (offset + size) else u64 (u64 (f_size f - offset) + size) in
        '(_, s) ← fat_update_dir_entry_size fs file (put_file file (set_size n f) s);
        Done (result, s)
      else Done (result, s)
  end.

(** ** Directories *)

(** The directory a node stands for: the volume and the cluster. *)
Definition dir_of (f : file_node) (s : vfs (fatD B)) : outcome (fat_fs * Z) :=
  if decide (f_type f = FILE_TYPE_MOUNT_POINT) then fs ← fs_at (f_fs f) s; Done (fs, root_cluster (boot fs))
  else e ← entry_at (f_fs f) s; fs ← fs_at (fatFs e) s; Done (fs, fe_cluster e).

Definition no_directory (f : file_node) : bool := bool_decide (f_type f <> FILE_TYPE_DIR /\ f_type f <> FILE_TYPE_MOUNT_POINT).

(** The pointer moves over skipped entries only: a visible entry with another
    name is looked at again. *)
Definition find_step (dir name : list Z) (i : Z) : outcome (Z + option Z) :=
  k ← slot_at dir i;
  match k with
  | EndOfFiles => Done (inr None)
  | Skipped => Done (inl (i + 1))
  | Visible =>
      filename ← clean_fat_filename (drop (Z.to_nat (32 * i)) dir) (replicate 12 0);
      Done (if decide (c_str filename = name) then inr (Some i) else inl i)
  end.

(** A node for the entry [i]; its name differs between the two callers. *)
Definition found_node (fs : Z) (dir : list Z) (i : Z) (arr : list Z) (s : vfs (fatD B)) : outcome (Z * vfs (fatD B)) :=
  attributes ← de_attributes dir i;
  size ← de_size dir i;
  cluster ← de_cluster dir i;
  let node := falloc (files s) in
  let '(e, s) := new_entry (mk_fe fs cluster) s in
  Done (node, put_file node (mk_fn arr 0 (type_of attributes) size false e
    (mk_ops FAT_READ FAT_WRITE 0 0 FAT_MKDIR FAT_FIND_DIR FAT_GET_SIZE FAT_CREATE 0 0 FAT_DELETE 0) 0) s).

(** In the root the name is cleaned from the zeroes of the new node into the
    local buffer; below, the raw name is copied up to a zero byte, and the
    sectors before the data are taken for bytes. *)
Definition fat_find_dir (node : Z) (name : list Z) (s : vfs (fatD B)) : outcome (Z * vfs (fatD B)) :=
  f ← file_at s node;
  if no_directory f then Done (0, s)
  else if decide (f_type f = FILE_TYPE_MOUNT_POINT) then
    fs ← fs_at (f_fs f) s;
    dir ← load_cluster fs (root_cluster (boot fs)) s;
    r ← loop fuel (find_step dir name) 0;
    match r with
    | None => Done (0, s)
    | Some i => _ ← clean_fat_filename zero_name (replicate 12 0); found_node (f_fs f) dir i zero_name s
    end
  else
    e ← entry_at (f_fs f) s;
    fs ← fs_at (fatFs e) s;
    dir ← dev_read (physicalDevice fs) (u64 (dataPointer fs + u32 (u32 (fe_cluster e - 2) * cluster_size fs))) (cluster_size fs) (disk s);
    r ← loop fuel (find_step dir name) 0;
    match r with
    | None => Done (0, s)
    | Some i =>
        n ← str_len (drop (Z.to_nat (32 * i)) dir);
        arr ← overlay (take (Z.to_nat n) (drop (Z.to_nat (32 * i)) dir)) zero_name;
        found_node (f_fs f) dir i arr s
    end.

(** Every turn that goes on moves the pointer, and past the buffer it faults:
    as many turns as the buffer has bytes are enough. *)
Definition read_dir_step (dir : list Z) (count : Z) (st : Z * Z * list list_dir) : outcome ((Z * Z * list list_dir) + (Z * list list_dir)) :=
  let '(p, i, entries) := st in
  if decide (i < count) then
    k ← slot_at dir p;
    match k with
    | EndOfFiles => Done (inr (i, entries))
    | Skipped => Done (inl (p + 1, i, entries))
    | Visible =>
        e ← aget entries i;
        name ← clean_fat_filename (drop (Z.to_nat (32 * p)) dir) (d_name e);
        attributes ← de_attributes dir p;
        size ← de_size dir p;
        entries ← aset entries i (mk_ld name (type_of attributes) size);
        Done (inl (p + 1, i + 1, entries))
    end
  else Done (inr (i, entries)).

Definition fat_read_dir (node : Z) (entries : list list_dir) (count : Z) (s : vfs (fatD B)) : outcome (Z * list list_dir * vfs (fatD B)) :=
  f ← file_at s node;
  if no_directory f then Done (0, entries, s)
  else
    '(fs, cluster) ← dir_of f s;
    dir ← load_cluster fs cluster s;
    '(i, entries) ← loop (S (length dir)) (read_dir_step dir count) (0, 0, entries);
    Done (i, entries, s).

Definition count_step (dir : list Z) (st : Z * Z) : outcome ((Z * Z) + Z) :=
  let '(p, count) := st in
  k ← slot_at dir p;
  Done (match k with EndOfFiles => inr count | Skipped => inl (p + 1, count) | Visible => inl (p + 1, count + 1) end).

Definition fat_get_size (node : Z) (s : vfs (fatD B)) : outcome (Z * vfs (fatD B)) :=
  f ← file_at s node;
  if no_directory f then Done (s32 (f_size f), s)
  else
    '(fs, cluster) ← dir_of f s;
    dir ← load_cluster fs cluster s;
    n ← loop (S (length dir)) (count_step dir) (0, 0);
    Done (n, s).

(** ** Deleting and truncating *)

Definition fat_delete (file : Z) (s : vfs (fatD B)) : outcome (Z * vfs (fatD B)) :=
  '(f, entry) ← fat_entry_of file s;
  fs ← fs_at (fatFs entry) s;
  if decide (f_type f = FILE_TYPE_FILE) then
    b ← release_chain fuel fs (fe_cluster entry) (disk s);
    '(_, s) ← fat_update_dir_entry_size fs file (set_disk b s);
    '(_, s) ← fat_remove_dir_entry fs file s;
    Done (0, s)
  else if decide (f_type f = FILE_TYPE_DIR) then
    '(n, s) ← fat_get_size file s;
    if decide (0 < n) then Done (-2, s)
    else
      b ← release_chain fuel fs (fe_cluster entry) (disk s);
      '(_, s) ← fat_remove_dir_entry fs file (set_disk b s);
      Done (0, s)
  else '(_, s) ← fat_remove_dir_entry fs file s; Done (0, s).

Definition fat_open (node mode : Z) (s : vfs (fatD B)) : outcome (vfs (fatD B)) :=
  f ← file_at s node;
  if decide (f_type f = FILE_TYPE_FILE /\ Z.land mode o_trunc <> 0) then
    entry ← entry_at (f_fs f) s;
    fs ← fs_at (fatFs entry) s;
    current_cluster ← fat_get_next_cluster fs (fe_cluster entry) (disk s);
    b ← release_chain fuel fs current_cluster (disk s);
    '(_, b) ← fat_write_file_data fuel fs (fe_cluster entry) (replicate (Z.to_nat (cluster_size fs)) 0) (cluster_size fs) b;
    '(_, s) ← fat_update_dir_entry_size fs node (put_file node (set_size 0 f) (set_disk b s));
    Done s
  else Done s.
End Fat.

(** ** Mounting *)

Section FatDriver.
Context {B : Type} `{BD : BlockDevice B} `{SB : StaleBytes} `{FE : FatEnv} `{Env : VfsEnv (fatD B)} `{NA : NodeAlloc}.
Context (fuel : nat).

#[export] Instance fat_drivers : Drivers (fatD B) := {|
  call_find_dir := fun op node name s => if decide (op = FAT_FIND_DIR) then fat_find_dir fuel node name s else Fault;
  call_create := fun op dir name mode s => if decide (op = FAT_CREATE) then fat_create_file dir name mode s else Fault;
  call_mkdir := fun op dir name s => if decide (op = FAT_MKDIR) then fat_mkdir dir name s else Fault;
  call_open := fun _ _ _ _ => Fault;
  call_read_dir := fun op node count entries s => if decide (op = FAT_READ_DIR) then fat_read_dir node entries count s else Fault;
  call_get_size := fun op node s => if decide (op = FAT_GET_SIZE) then fat_get_size node s else Fault;
  call_read := fun op node buf offset len s => if decide (op = FAT_READ) then fat_read fuel node buf offset len s else Fault;
  call_write := fun op node buf offset len s => if decide (op = FAT_WRITE) then fat_write fuel node buf offset len s else Fault;
  call_poll := fun _ _ _ _ => Fault;
  call_delete := fun op node s => if decide (op = FAT_DELETE) then fat_delete fuel node s else Fault;
  call_rename := fun _ _ _ _ => Fault;
  call_link := fun _ _ _ _ => Fault;
  fs_owner := fun d p =>
    match fat_entries d !! p, fat_fss d !! p with
    | Some e, _ => fatFs e
    | None, Some fs => field_at 0 8 (boot fs)
    | None, None => 0
    end
|}.
End FatDriver.

Section FatMount.
Context {B : Type} `{BD : BlockDevice B} `{FE : FatEnv} `{Env : VfsEnv (fatD B)} `{Drv : Drivers (fatD B)} `{NA : NodeAlloc}.
Context (fuel : nat).

(** The partition table is copied before the loop; the last FAT32 partition
    wins. *)
Definition read_partitions (dev : Z) (sector : list Z) (b : B) : outcome (Z * list Z) :=
  r ← for_ (A := unit) 4 0 (fun i st =>
    if decide (field_at (Z.to_nat (446 + 16 * i + 4)) 1 sector = 0x0C) then
      let base := field_at (Z.to_nat (446 + 16 * i + 8)) 4 sector in
      boot ← dev_read dev (u32 (base * 512)) 512 b;
      Done (inl (base, boot))
    else Done (inl st)) (0, sector);
  match r with inl st => Done st | inr _ => Fault end.

(** The listing at the end of fat_mount: only its accesses matter here.  The
    bound is tested after a visible entry only. *)
Definition list_step (dir : list Z) (bytes : Z) (p : Z) : outcome (Z + unit) :=
  k ← slot_at dir p;
  match k with
  | EndOfFiles => Done (inr tt)
  | Skipped => Done (inl (p + 1))
  | Visible =>
      _ ← clean_fat_filename (drop (Z.to_nat (32 * p)) dir) (replicate 12 0);
      _ ← de_cluster dir p;
      Done (if decide (bytes <= 32 * (p + 1)) then inr tt else inl (p + 1))
  end.

(** The fields of the mounted volume, from its boot sector. *)
Definition geometry_of (boot : list Z) (base dev : Z) : fat_fs :=
  let fat := u32 (reserved_sector_count boot + base) in
  mk_fat boot base (bytes_per_sector boot) (sectors_per_cluster boot) (total_sectors_32 boot) fat
    (u64 (fat + u32 (table_count boot * table_size_32 boot))) dev 0.

Definition fat_mount (device name : list Z) (s : vfs (fatD B)) : outcome (Z * vfs (fatD B)) :=
  '(deviceNode, s) ← open fuel device 0 s;
  if decide (deviceNode = 0) then Done (0, s)
  else
    d ← file_at s deviceNode;
    if decide (f_type d <> FILE_TYPE_BLOCK_DEVICE) then Done (0, s)
    else
      sector ← dev_read deviceNode 0 512 (disk s);
      '(base, boot) ← (if decide (field_at 510 2 sector = 0xAA55) then read_partitions deviceNode sector (disk s) else Done (0, sector));
      if decide (boot_signature boot <> 0x28 /\ boot_signature boot <> 0x29) then Done (0, s)
      else
        let fs := geometry_of boot base deviceNode in
        dir ← load_cluster fs (root_cluster boot) s;
        _ ← loop (S (length dir)) (list_step dir (cluster_size fs)) 0;
        let node := falloc (files s) in
        last_slash ← of_option (last_component name [] false);
        arr ← overlay last_slash zero_name;
        let p := obj_alloc (fat_fss (drv s)) (fat_entries (drv s)) in
        let fs := mk_fat boot base (sectorSize fs) (clusterSize fs) (capacity fs) (fatPointer fs) (dataPointer fs) deviceNode node in
        Done (node, put_file node (mk_fn arr 0 FILE_TYPE_MOUNT_POINT 0 false p
          (mk_ops 0 0 0 FAT_READ_DIR 0 FAT_FIND_DIR FAT_GET_SIZE 0 0 0 0 0) 0) (put_fs p fs s)).
End FatMount.

(** ** Cleaned names *)

(** The characters of a field: up to [n], a terminator or a blank. *)
Fixpoint field_chars (n : nat) (input : list Z) : list Z :=
  match n, input with
  | S n, c :: input => if decide (c = 0 \/ c = 32) then [] else c :: field_chars n input
  | _, _ => []
  end.
Definition lower (c : Z) : Z := if decide (65 <= c <= 90) then c + 32 else c.

(** The name a directory entry stands for: the eight and the three characters
    without their padding, joined by a point, in lower case, and cut to eleven
    characters: the whole of an 8.3 name has twelve. *)
Definition clean_name (input : list Z) : list Z :=
  let name := field_chars 8 input in
  let ext := field_chars 3 (drop 8 input) in
  lower <$> match ext with [] => name | _ => take 11 (name ++ 46 :: ext) end.

Lemma copy_part_ok n input : (n <= length input)%nat -> copy_part n input = Done (field_chars n input).
Proof.
  revert input. induction n as [|n IH]; intros input Hl; [done|]. destruct input as [|c input]; [simpl in Hl; lia|]. simpl.
  destruct (decide _); [done|]. by rewrite IH by (simpl in Hl; lia).
Qed.

Lemma field_chars_ok n input : Forall (fun c => c <> 0) (field_chars n input) /\ (length (field_chars n input) <= n)%nat.
Proof.
  revert input. induction n as [|n IH]; intros input; [simpl; split; [constructor|lia]|].
  destruct input as [|c input]; simpl; [split; [constructor|lia]|]. destruct (decide _); simpl; [split; [constructor|lia]|].
  destruct (IH input). split; [constructor; [lia|done]|lia].
Qed.

Lemma to_lower_ok t rest : Forall (fun c => c <> 0) t -> to_lower (t ++ 0 :: rest) = Done ((lower <$> t) ++ 0 :: rest).
Proof. induction 1 as [|c t Hc Ht IH]; [done|]. simpl. rewrite decide_False by done. by rewrite IH. Qed.

(** Put_string writes what fits in front of the terminator. *)
Lemma put_string_run t : forall r pre mid suf cnt rem, Forall (fun c => c <> 0) t -> 1 <= rem < 2 ^ 31 -> (length mid = Nat.min (length t) (Z.to_nat (rem - 1)))%nat ->
  exists cnt', put_string (t ++ 0 :: r) (mk_sink (pre ++ mid ++ suf) (Z.of_nat (length pre)) cnt rem) =
    Done (mk_sink (pre ++ take (length mid) t ++ suf) (Z.of_nat (length pre + length mid)) cnt' (rem - Z.of_nat (length mid))).
Proof.
  induction t as [|c t IH]; intros r pre mid suf cnt rem Ht Hrem Hl.
  - destruct mid; [|cbn [length] in Hl; lia]. simpl. exists cnt. do 2 f_equal; simpl; lia.
  - inversion Ht as [|? ? Hc Ht']; subst. cbn [app put_string k_rem]. destruct (decide (1 < rem)) as [H1|H1].
    + rewrite decide_True by done. destruct mid as [|x mid]; [cbn [length] in Hl; lia|].
      unfold put. cbn [k_str k_out k_count k_rem]. rewrite aset_in_range by (rewrite !length_app; simpl; lia). cbn [mbind outcome_bind].
      rewrite Nat2Z.id, insert_app_r_alt, Nat.sub_diag by lia. cbn [app list_insert insert]. rewrite u64_small by lia.
      destruct (IH r (pre ++ [c]) mid suf (s32 (cnt + 1)) (rem - 1)) as (cnt' & E); [done|lia|cbn [length] in Hl; lia|].
      exists cnt'. rewrite <-!app_assoc in E. cbn [app] in E. rewrite length_app in E. simpl in E.
      replace (Z.of_nat (length pre) + 1) with (Z.of_nat (length pre + 1)) by lia. rewrite E. do 2 f_equal; simpl; lia.
    + rewrite decide_False by lia. destruct mid; [|cbn [length] in Hl; lia]. simpl. exists cnt. do 2 f_equal; lia.
Qed.

Lemma write_pass_str fuel f s args k : 1 < k_rem k ->
  write_pass (S fuel) (37 :: 115 :: f) (AStr s :: args) k = k ← put_string s k; write_pass fuel f args k.
Proof. intros H. unfold write_pass at 1. cbn [loop deref head of_option mbind outcome_bind]. rewrite decide_True by lia. unfold conversion. simpl. by destruct (put_string s k). Qed.

Lemma write_pass_char fuel c f args k : c <> 0 -> c <> 37 -> 1 < k_rem k ->
  write_pass (S fuel) (c :: f) args k = k ← put c k; write_pass fuel f args k.
Proof.
  intros H0 H37 H. unfold write_pass at 1. cbn [loop deref head of_option mbind outcome_bind]. rewrite !decide_True by done. simpl. by destruct (put c k).
Qed.

Lemma write_pass_stop fuel f args k : write_pass (S fuel) (0 :: f) args k = Done (0 :: f, args, k).
Proof. unfold write_pass. cbn [loop deref head of_option mbind outcome_bind]. by rewrite decide_False by lia. Qed.

(** Snprintf(output, 12, "%s.%s", name, ext). *)
Lemma join_name name ext out : Forall (fun c => c <> 0) name -> Forall (fun c => c <> 0) ext -> (length name <= 8)%nat -> (length ext <= 3)%nat ->
  (12 <= length out)%nat -> exists cnt rest, length (take 11 (name ++ 46 :: ext) ++ 0 :: rest) = length out /\
    snprintf 6 out 12 [37; 115; 46; 37; 115; 0] [AStr (name ++ [0]); AStr (ext ++ [0])] = Done (cnt, take 11 (name ++ 46 :: ext) ++ 0 :: rest).
Proof.
  intros Hn He Hln Hle Hlo. set (m := Nat.min (length ext) (10 - length name)).
  assert (exists mid1 x mid2 y suf, out = mid1 ++ x :: mid2 ++ y :: suf /\ length mid1 = length name /\ length mid2 = m) as (mid1 & x & mid2 & y & suf & -> & L1 & L2).
  { exists (take (length name) out). destruct (drop (length name) out) as [|x out1] eqn:E1; [apply (f_equal length) in E1; rewrite length_drop in E1; simpl in E1; lia|].
    pose proof (f_equal length E1) as Hd; rewrite length_drop in Hd; simpl in Hd.
    exists x, (take m out1). destruct (drop m out1) as [|y suf] eqn:E2; [apply (f_equal length) in E2; rewrite length_drop in E2; simpl in E2; lia|].
    exists y, suf. rewrite <-E2, take_drop, <-E1, take_drop. rewrite !length_take. split_and!; [done|lia|lia]. }
  destruct (put_string_run name [] [] mid1 (x :: mid2 ++ y :: suf) 0 12 Hn) as (c1 & E1); [lia|lia|]. cbn [app length] in E1. change (Z.of_nat 0) with 0 in E1. rewrite L1, take_ge in E1 by lia.
  destruct (put_string_run ext [] (name ++ [46]) mid2 (y :: suf) (s32 (c1 + 1)) (11 - Z.of_nat (length name)) He) as (c2 & E2); [lia|lia|].
  rewrite length_app in E2. cbn [length] in E2. rewrite L2 in E2.
  assert (Hput : forall cnt, put 46 (mk_sink (name ++ x :: mid2 ++ y :: suf) (Z.of_nat (length name)) cnt (12 - Z.of_nat (length name))) =
    Done (mk_sink ((name ++ [46]) ++ mid2 ++ y :: suf) (Z.of_nat (length name + 1)) (s32 (cnt + 1)) (11 - Z.of_nat (length name)))).
  { intros cnt. unfold put. cbn [k_str k_out k_count k_rem]. rewrite aset_in_range by (rewrite !length_app; simpl; lia). cbn [mbind outcome_bind].
    rewrite Nat2Z.id, insert_app_r_alt, Nat.sub_diag by lia. rewrite u64_small by lia. rewrite <-app_assoc. do 2 f_equal; lia. }
  assert (Htake : take 11 (name ++ 46 :: ext) = name ++ 46 :: take m ext).
  { rewrite take_app_ge by lia. f_equal. destruct (11 - length name)%nat as [|k] eqn:Ek; [lia|]. simpl. f_equal. unfold m.
    destruct (decide (length ext <= k)%nat); [rewrite !take_ge by lia; done|]. f_equal. lia. }
  assert (Hw : write_pass 6 [37; 115; 46; 37; 115; 0] [AStr (name ++ [0]); AStr (ext ++ [0])] (mk_sink (mid1 ++ x :: mid2 ++ y :: suf) 0 0 12) =
    Done ([0], [], mk_sink ((name ++ [46]) ++ take m ext ++ y :: suf) (Z.of_nat (length name + 1 + m)) c2 (11 - Z.of_nat (length name) - Z.of_nat m))).
  { rewrite write_pass_str by (simpl; lia). rewrite E1. cbn [mbind outcome_bind]. rewrite write_pass_char by (simpl; lia). rewrite Hput. cbn [mbind outcome_bind].
    rewrite write_pass_str by (simpl; lia). rewrite E2. cbn [mbind outcome_bind]. by rewrite write_pass_stop. }
  unfold snprintf. rewrite Hw. cbn [mbind outcome_bind k_str k_out k_count]. rewrite decide_True by lia.
  rewrite aset_in_range by (rewrite !length_app, length_take; simpl; lia). cbn [mbind outcome_bind].
  assert (count_pass 6 [0] [] c2 = Done c2) as -> by done. cbn [mbind outcome_bind]. exists c2, suf. rewrite Htake. split.
  - repeat (rewrite length_app || rewrite length_take || cbn [length]). lia.
  - do 2 f_equal. rewrite Nat2Z.id, insert_app_r_alt by (rewrite length_app; simpl; lia). rewrite insert_app_r_alt by (rewrite length_app, length_take; simpl; lia).
    rewrite length_app, length_take. replace (_ - _ - _)%nat with 0%nat by (simpl; lia). by rewrite <-!app_assoc.
Qed.

Lemma clean_fat_filename_ok input out : (11 <= length input)%nat -> (12 <= length out)%nat ->
  exists rest, clean_fat_filename input out = Done (clean_name input ++ 0 :: rest) /\ length (clean_name input ++ 0 :: rest) = length out /\
    Forall (fun c => c <> 0) (clean_name input).
Proof.
  intros Hi Ho. unfold clean_fat_filename, clean_name. rewrite !copy_part_ok by (rewrite ?length_drop; lia). cbn [mbind outcome_bind].
  destruct (field_chars_ok 8 input) as [Hn Hln]. destruct (field_chars_ok 3 (drop 8 input)) as [He Hle].
  set (name := field_chars 8 input) in *. set (ext := field_chars 3 (drop 8 input)) in *.
  set (t := match ext with [] => name | _ => take 11 (name ++ 46 :: ext) end).
  assert (Ht : Forall (fun c => c <> 0) t).
  { unfold t. destruct ext; [done|]. apply Forall_take, Forall_app. split; [done|]. constructor; [lia|done]. }
  assert (exists rest, length (t ++ 0 :: rest) = length out /\
    (if decide (ext <> []) then '(_, output) ← snprintf 6 out 12 [37; 115; 46; 37; 115; 0] [AStr (name ++ [0]); AStr (ext ++ [0])]; Done output
     else overlay (name ++ [0]) out) = Done (t ++ 0 :: rest)) as (rest & Hl & E).
  { destruct (decide (ext <> [])) as [Hne|Hnil].
    - destruct (join_name name ext out) as (cnt & rest & Hl & E); [done..|]. exists rest. rewrite E. unfold t. by destruct ext.
    - assert (t = name) as -> by (unfold t; destruct ext; [done|exfalso; by apply Hnil]). exists (drop (length name + 1) out).
      split; [rewrite length_app; cbn [length]; rewrite length_drop; lia|]. unfold overlay. rewrite decide_True by (rewrite length_app; simpl; lia).
      by rewrite length_app, <-app_assoc. }
  rewrite E. cbn [mbind outcome_bind]. rewrite to_lower_ok by done. exists rest. split; [done|]. rewrite length_app, length_fmap, <-length_app. split; [done|].
  apply Forall_fmap. eapply Forall_impl; [exact Ht|]. intros c Hc. simpl in *. unfold lower. destruct (decide (65 <= c <= 90)); lia.
Qed.

(** ** Directories as lists of visible entries *)

(** The visible entries from slot [p] up to the end mark. *)
Inductive listing (dir : list Z) : Z -> list Z -> Prop :=
| l_end p : slot_at dir p = Done EndOfFiles -> listing dir p []
| l_skip p vs : slot_at dir p = Done Skipped -> listing dir (p + 1) vs -> listing dir p vs
| l_visible p vs : slot_at dir p = Done Visible -> listing dir (p + 1) vs -> listing dir p (p :: vs).

Lemma slot_at_range dir p k : slot_at dir p = Done k -> 0 <= p /\ 32 * p < Z.of_nat (length dir) /\ (k <> EndOfFiles -> True).
Proof.
  unfold slot_at. intros (c & Hc & _)%outcome_bind_done. apply aget_done in Hc as [H0 Hl]. apply lookup_lt_Some in Hl. split_and!; lia || done.
Qed.

Lemma slot_at_visible dir p : slot_at dir p = Done Visible -> exists a, de_attributes dir p = Done a /\ 32 * p + 11 < Z.of_nat (length dir) /\ 0 <= p.
Proof.
  unfold slot_at. intros (c & Hc & H)%outcome_bind_done. apply aget_done in Hc as [H0 _]. destruct (decide (c = 0)); [done|]. destruct (decide (c = 229)); [done|].
  apply outcome_bind_done in H as (a & Ha & _). exists a. split; [done|]. unfold de_attributes in Ha. apply aget_done in Ha as [H1 Hl]. apply lookup_lt_Some in Hl. lia.
Qed.

(** Every step of a loop over the directory leaves less of it. *)
Definition slots_left (dir : list Z) (p : Z) : nat := (length dir - Z.to_nat p)%nat.

Lemma slots_left_next dir p k : slot_at dir p = Done k -> (slots_left dir (p + 1) < slots_left dir p)%nat.
Proof. intros H. apply slot_at_range in H as (H0 & Hl & _). unfold slots_left. lia. Qed.

Lemma count_step_eq dir p n : count_step dir (p, n) =
  k ← slot_at dir p; Done (match k with EndOfFiles => inr n | Skipped => inl (p + 1, n) | Visible => inl (p + 1, n + 1) end).
Proof. done. Qed.

Lemma count_loop dir p vs : listing dir p vs -> forall fuel n, (slots_left dir p < fuel)%nat ->
  loop fuel (count_step dir) (p, n) = Done (n + Z.of_nat (length vs)).
Proof.
  induction 1 as [p Hp|p vs Hp Hl IH|p vs Hp Hl IH]; intros fuel n Hf; (destruct fuel as [|fuel]; [lia|]); cbn [loop]; rewrite count_step_eq, Hp; cbn [mbind outcome_bind]; pose proof (slots_left_next _ _ _ Hp).
  - f_equal. simpl. lia.
  - apply IH. lia.
  - rewrite IH by lia. f_equal. simpl. lia.
Qed.

(** What fat_read_dir stores for the visible entry [p]. *)
Definition lists_entry (dir : list Z) (p : Z) (e : list_dir) : Prop :=
  c_str (d_name e) = clean_name (drop (Z.to_nat (32 * p)) dir) /\
  (exists a, de_attributes dir p = Done a /\ d_type e = type_of a) /\ de_size dir p = Done (d_size e).

Lemma c_str_stop t rest : Forall (fun c => c <> 0) t -> c_str (t ++ 0 :: rest) = t.
Proof. induction 1 as [|c t Hc Ht IH]; simpl; [done|]. rewrite decide_False by done. by rewrite IH. Qed.

Lemma visible_entry dir p arr : slot_at dir p = Done Visible -> Z.of_nat (length dir) mod 32 = 0 -> (12 <= length arr)%nat ->
  exists name a size, clean_fat_filename (drop (Z.to_nat (32 * p)) dir) arr = Done name /\ de_attributes dir p = Done a /\ de_size dir p = Done size /\
    c_str name = clean_name (drop (Z.to_nat (32 * p)) dir).
Proof.
  intros Hp H32 Ha. destruct (slot_at_visible _ _ Hp) as (a & Hat & Hl & H0). apply Z.mod_divide in H32 as [k Hk]; [|lia].
  destruct (clean_fat_filename_ok (drop (Z.to_nat (32 * p)) dir) arr) as (rest & E & _ & Hne); [rewrite length_drop; lia|done|].
  exists (clean_name (drop (Z.to_nat (32 * p)) dir) ++ 0 :: rest), a. unfold de_size, part. rewrite decide_True by lia.
  eexists. split; [done|]. split; [done|]. split; [reflexivity|]. by apply c_str_stop.
Qed.

Lemma visible_cluster dir p : slot_at dir p = Done Visible -> Z.of_nat (length dir) mod 32 = 0 -> exists c, de_cluster dir p = Done c.
Proof.
  intros Hp H32. destruct (slot_at_visible dir p Hp) as (_ & _ & Hi & Hi0). apply Z.mod_divide in H32 as [k Hk]; [|lia].
  unfold de_cluster, part. rewrite !decide_True by lia. cbn [mbind outcome_bind]. by eexists.
Qed.

Lemma read_dir_step_eq dir count p i entries : read_dir_step dir count (p, i, entries) =
  if decide (i < count) then
    k ← slot_at dir p;
    match k with
    | EndOfFiles => Done (inr (i, entries))
    | Skipped => Done (inl (p + 1, i, entries))
    | Visible =>
        e ← aget entries i;
        name ← clean_fat_filename (drop (Z.to_nat (32 * p)) dir) (d_name e);
        attributes ← de_attributes dir p;
        size ← de_size dir p;
        entries ← aset entries i (mk_ld name (type_of attributes) size);
        Done (inl (p + 1, i + 1, entries))
    end
  else Done (inr (i, entries)).
Proof. done. Qed.

Lemma read_dir_loop_ok dir count p vs : listing dir p vs -> Z.of_nat (length dir) mod 32 = 0 -> forall fuel pre rest, (slots_left dir p < fuel)%nat ->
  Z.min (count - Z.of_nat (length pre)) (Z.of_nat (length vs)) <= Z.of_nat (length rest) -> Forall (fun e => (12 <= length (d_name e))%nat) rest ->
  exists es, loop fuel (read_dir_step dir count) (p, Z.of_nat (length pre), pre ++ rest) =
      Done (Z.of_nat (length pre + length es), pre ++ es ++ drop (length es) rest) /\
    Forall2 (lists_entry dir) (take (Z.to_nat (count - Z.of_nat (length pre))) vs) es.
Proof.
  intros Hlist H32. induction Hlist as [p Hp|p vs Hp Hl IH|p vs Hp Hl IH]; intros fuel pre rest Hf Hroom Hnames; (destruct fuel as [|fuel]; [lia|]); cbn [loop];
    rewrite read_dir_step_eq; pose proof (slots_left_next _ _ _ Hp) as Hless;
    (destruct (decide (Z.of_nat (length pre) < count)) as [Hc|Hc]; cbn [mbind outcome_bind];
      [|exists []; rewrite Nat.add_0_r; replace (Z.to_nat (count - Z.of_nat (length pre))) with 0%nat by lia; by split; [|constructor]]);
    rewrite Hp; cbn [mbind outcome_bind].
  - exists []. rewrite Nat.add_0_r, take_nil. by split; [|constructor].
  - apply IH; [lia|done|done].
  - destruct rest as [|e rest]; [cbn [length] in Hroom; lia|]. apply Forall_cons in Hnames as [He Hnames].
    rewrite (proj2 (aget_done _ _ e)) by (split; [lia|rewrite Nat2Z.id; by apply list_lookup_middle]). cbn [mbind outcome_bind].
    destruct (visible_entry dir p (d_name e) Hp H32 He) as (name & a & size & -> & Ha & Hs & Hname). cbn [mbind outcome_bind]. rewrite Ha, Hs. cbn [mbind outcome_bind].
    rewrite aset_in_range by (rewrite length_app; simpl; lia). cbn [mbind outcome_bind]. rewrite Nat2Z.id, insert_app_r_alt, Nat.sub_diag by lia. cbn [list_insert insert].
    destruct (IH fuel (pre ++ [mk_ld name (type_of a) size]) rest) as (es & E & HF); [lia|rewrite length_app; cbn [length] in *; lia|done|].
    exists (mk_ld name (type_of a) size :: es). rewrite length_app, <-!app_assoc in E. cbn [length app] in E.
    replace (Z.of_nat (length pre) + 1) with (Z.of_nat (length pre + 1)) by lia. rewrite E. split; [cbn [length drop]; do 2 f_equal; lia|].
    rewrite length_app in HF. replace (Z.to_nat (count - Z.of_nat (length pre))) with (S (Z.to_nat (count - Z.of_nat (length pre + length [mk_ld name (type_of a) size])))) by (simpl; lia).
    cbn [take]. constructor; [|done]. split; [done|]. split; [by exists a|done].
Qed.

Lemma find_step_eq dir name i : find_step dir name i =
  k ← slot_at dir i;
  match k with
  | EndOfFiles => Done (inr None)
  | Skipped => Done (inl (i + 1))
  | Visible =>
      filename ← clean_fat_filename (drop (Z.to_nat (32 * i)) dir) (replicate 12 0);
      Done (if decide (c_str filename = name) then inr (Some i) else inl i)
  end.
Proof. done. Qed.

(** The search spins on the first visible entry unless it is the one. *)
Lemma find_loop_end dir name p : listing dir p [] -> forall fuel, (slots_left dir p < fuel)%nat -> loop fuel (find_step dir name) p = Done None.
Proof.
  intros Hl. remember [] as vs eqn:Hvs. induction Hl as [p Hp|p vs Hp Hl IH|p vs Hp Hl IH]; intros fuel Hf; [| |done]; (destruct fuel as [|fuel]; [lia|]); cbn [loop];
    rewrite find_step_eq, Hp; cbn [mbind outcome_bind]; [done|]. pose proof (slots_left_next _ _ _ Hp). apply IH; [done|lia].
Qed.

Lemma find_visible dir name i : slot_at dir i = Done Visible -> Z.of_nat (length dir) mod 32 = 0 ->
  find_step dir name i = Done (if decide (clean_name (drop (Z.to_nat (32 * i)) dir) = name) then inr (Some i) else inl i).
Proof.
  intros Hp H32. destruct (visible_entry dir i (replicate 12 0) Hp H32) as (arr & a & size & E & _ & _ & Hn); [done|].
  unfold find_step. rewrite Hp. cbn [mbind outcome_bind]. rewrite E. cbn [mbind outcome_bind]. by rewrite Hn.
Qed.

Lemma find_loop_first dir name p i vs : listing dir p (i :: vs) -> Z.of_nat (length dir) mod 32 = 0 ->
  (clean_name (drop (Z.to_nat (32 * i)) dir) = name -> forall fuel, (slots_left dir p < fuel)%nat -> loop fuel (find_step dir name) p = Done (Some i)) /\
  (clean_name (drop (Z.to_nat (32 * i)) dir) <> name -> forall fuel, loop fuel (find_step dir name) p = OutOfFuel).
Proof.
  intros Hl H32. remember (i :: vs) as l eqn:Hvs. induction Hl as [p Hp|p vs' Hp Hl IH|p vs' Hp Hl IH]; [done| |].
  - destruct (IH Hvs) as [IH1 IH2]. pose proof (slots_left_next _ _ _ Hp). split; intros Hn fuel.
    + intros Hf. destruct fuel as [|fuel]; [lia|]. cbn [loop]. rewrite find_step_eq, Hp. cbn [mbind outcome_bind]. apply IH1; [done|lia].
    + destruct fuel as [|fuel]; [done|]. cbn [loop]. rewrite find_step_eq, Hp. cbn [mbind outcome_bind]. by apply IH2.
  - injection Hvs as -> ->. clear IH. split; intros Hn.
    + intros fuel Hf. destruct fuel as [|fuel]; [lia|]. cbn [loop]. rewrite find_visible by done. by rewrite decide_True.
    + intros fuel. induction fuel as [|fuel IHf]; [done|]. cbn [loop]. rewrite find_visible by done. by rewrite decide_False.
Qed.

(** ** The theorems *)

Section Theorems.
Context {B : Type} `{BD : BlockDevice B} `{SB : StaleBytes} `{FE : FatEnv} `{Env : VfsEnv (fatD B)} `{NA : NodeAlloc}.
Implicit Type s : vfs (fatD B).

(** A directory node, its volume and the bytes of its cluster. *)
Record directory s (node : Z) (f : file_node) (fs : fat_fs) (cluster : Z) (dir : list Z) : Prop := {
  dir_node : file_at s node = Done f;
  dir_type : f_type f = FILE_TYPE_DIR \/ f_type f = FILE_TYPE_MOUNT_POINT;
  dir_volume : dir_of f s = Done (fs, cluster);
  dir_bytes : load_cluster fs cluster s = Done dir;
  dir_length : Z.of_nat (length dir) mod 32 = 0
}.

Lemma is_directory s node f fs cluster dir : directory s node f fs cluster dir -> no_directory f = false.
Proof. intros [_ Ht _ _ _]. unfold no_directory. apply bool_decide_eq_false. intros [H1 H2]. by destruct Ht. Qed.

(** Fat_get_size counts the visible entries of a directory, and fat_read_dir
    stores the first [count] of them, in order, with their cleaned name, type
    and size, and leaves the rest of the buffer as it was. *)
Theorem fat_read_dir_lists s node f fs cluster dir vs entries count : directory s node f fs cluster dir -> listing dir 0 vs ->
  Z.min count (Z.of_nat (length vs)) <= Z.of_nat (length entries) -> Forall (fun e => (12 <= length (d_name e))%nat) entries ->
  fat_get_size node s = Done (Z.of_nat (length vs), s) /\
  exists es, fat_read_dir node entries count s = Done (Z.of_nat (length es), es ++ drop (length es) entries, s) /\
    Forall2 (lists_entry dir) (take (Z.to_nat count) vs) es.
Proof.
  intros Hd Hl Hroom Hnames. pose proof (is_directory _ _ _ _ _ _ Hd) as Hno. destruct Hd as [Hf _ Hvol Hb H32]. split.
  - unfold fat_get_size. rewrite Hf. cbn [mbind outcome_bind]. rewrite Hno, Hvol. cbn [mbind outcome_bind]. rewrite Hb. cbn [mbind outcome_bind].
    by rewrite (count_loop dir 0 vs Hl) by (unfold slots_left; lia).
  - unfold fat_read_dir. rewrite Hf. cbn [mbind outcome_bind]. rewrite Hno, Hvol. cbn [mbind outcome_bind]. rewrite Hb. cbn [mbind outcome_bind].
    destruct (read_dir_loop_ok dir count 0 vs Hl H32 (S (length dir)) [] entries) as (es & E & HF); [unfold slots_left; lia|simpl length; lia|done|].
    exists es. cbn [length app Nat.add] in *. change (Z.of_nat 0) with 0 in *. rewrite E. cbn [mbind outcome_bind]. rewrite Z.sub_0_r in HF. by split.
Qed.

(** The mounted root directory. *)
Definition mounted_root s (node : Z) (f : file_node) (fs : fat_fs) (dir : list Z) : Prop :=
  file_at s node = Done f /\ f_type f = FILE_TYPE_MOUNT_POINT /\ fat_fss (drv s) !! f_fs f = Some fs /\
  load_cluster fs (root_cluster (boot fs)) s = Done dir /\ Z.of_nat (length dir) mod 32 = 0.

(** Looking a name up in the root: an empty directory gives NULL; the first
    visible entry is found when it has the name, with its type, size and first
    cluster (under a node without a name); with any other name the search never
    ends. *)
Theorem fat_find_dir_first s node f fs dir vs name : mounted_root s node f fs dir -> listing dir 0 vs ->
  match vs with
  | [] => forall fuel, (length dir < fuel)%nat -> fat_find_dir fuel node name s = Done (0, s)
  | i :: _ =>
      (clean_name (drop (Z.to_nat (32 * i)) dir) = name -> forall fuel, (length dir < fuel)%nat ->
        exists a size cluster e s', fat_find_dir fuel node name s = Done (falloc (files s), s') /\
          de_attributes dir i = Done a /\ de_size dir i = Done size /\ de_cluster dir i = Done cluster /\
          fat_entries (drv s') !! e = Some (mk_fe (f_fs f) cluster) /\
          files s' !! falloc (files s) = Some (mk_fn zero_name 0 (type_of a) size false e
            (mk_ops FAT_READ FAT_WRITE 0 0 FAT_MKDIR FAT_FIND_DIR FAT_GET_SIZE FAT_CREATE 0 0 FAT_DELETE 0) 0)) /\
      (clean_name (drop (Z.to_nat (32 * i)) dir) <> name -> forall fuel, fat_find_dir fuel node name s = OutOfFuel)
  end.
Proof.
  intros (Hf & Ht & Hfs & Hb & H32) Hl.
  assert (Hrun : forall fuel, fat_find_dir fuel node name s =
    r ← loop fuel (find_step dir name) 0;
    match r with None => Done (0, s) | Some i => found_node (f_fs f) dir i zero_name s end).
  { intros fuel. unfold fat_find_dir. rewrite Hf. cbn [mbind outcome_bind]. unfold no_directory. rewrite bool_decide_eq_false_2 by (rewrite Ht; by intros [_ []]).
    rewrite decide_True by done. unfold fs_at. rewrite Hfs. cbn [mbind outcome_bind of_option]. rewrite Hb. cbn [mbind outcome_bind].
    by destruct (loop fuel (find_step dir name) 0) as [[i|]| | |]. }
  destruct vs as [|i vs].
  - intros fuel Hfu. rewrite Hrun, (find_loop_end dir name 0 Hl) by (unfold slots_left; lia). done.
  - destruct (find_loop_first dir name 0 i vs Hl H32) as [Hyes Hno]. split; intros Hn fuel.
    + intros Hfu. rewrite Hrun, Hyes by (done || unfold slots_left; lia). cbn [mbind outcome_bind]. unfold found_node.
      assert (Hp : slot_at dir i = Done Visible) by (remember (i :: vs) as l eqn:E; clear -Hl E; induction Hl; [done|auto|by injection E as -> ->]).
      destruct (visible_entry dir i (replicate 12 0) Hp H32) as (arr & a & size & _ & Ha & Hs & _); [done|].
      destruct (visible_cluster dir i Hp H32) as (c & Hc).
      rewrite Ha, Hs, Hc. cbn [mbind outcome_bind]. exists a, size, c, (obj_alloc (fat_fss (drv s)) (fat_entries (drv s))). eexists. split; [reflexivity|].
      split; [done|]. split; [done|]. split; [done|]. simpl. by rewrite !lookup_insert_eq.
    + rewrite Hrun. by rewrite Hno.
Qed.

(** A file of the volume with its chain. *)
Record fat_file s (node : Z) (fs : fat_fs) (c : Z) (cs : list Z) : Prop := {
  ff_entry : exists f e, fat_entry_of node s = Done (f, e) /\ fe_cluster e = c /\ fs_at (fatFs e) s = Done fs;
  ff_geometry : geometry fs;
  ff_chain : fat_chain fs (disk s) c cs
}.

(** The virtual file system hands over the offset first, the driver takes it for
    the size: a read of [len] bytes at [offset] gives the first [offset] bytes
    of the file, whatever [len] is (below a cluster); at offset 0 it gives
    none. *)
Theorem fat_read_swapped fuel s node fs c cs buf offset len : fat_file s node fs c cs -> 0 <= offset < 2 ^ 31 -> offset mod 512 = 0 ->
  offset <= Z.of_nat (length buf) -> 0 <= len < cluster_size fs -> (length cs < fuel)%nat ->
  call_read (Drivers := fat_drivers fuel) FAT_READ node buf offset len s =
    Done (Z.min offset (Z.of_nat (length (file_bytes fs (disk s) cs))), overwrite buf 0 (take (Z.to_nat offset) (file_bytes fs (disk s) cs)), s).
Proof.
  intros [(f & e & He & Hc & Hfs) Hg Hch] Ho H5 Hb Hlen Hf. cbn [call_read fat_drivers]. rewrite decide_True by done. unfold fat_read.
  rewrite He. cbn [mbind outcome_bind]. rewrite Hfs. cbn [mbind outcome_bind]. destruct fuel as [|fuel]; [lia|]. cbn [loop]. rewrite decide_False by lia. cbn [mbind outcome_bind].
  rewrite Hc. destruct (decide (offset = 0)) as [->|Hne].
  - unfold fat_read_file_data. rewrite read_loop_end by lia. cbn [mbind outcome_bind]. rewrite Z.min_l by lia. unfold overwrite. simpl. done.
  - unfold fat_read_file_data. rewrite (read_file_loop fs (disk s) c cs) by (done || lia). cbn [mbind outcome_bind].
    by rewrite Z.sub_0_r, (length_file_bytes fs (disk s) c cs) by done.
Qed.
(** *** Deleting a file *)

(** The name in a slot of a directory: at most 11 bytes. *)
Definition slot_name (dir : list Z) (i : Z) : list Z := c_str (take 11 (drop (Z.to_nat (32 * i)) dir)).

(** The first of the slots of a directory that has a name, if one has. *)
Definition first_named (dir key : list Z) (o : option Z) : Prop :=
  match o with
  | Some i => 0 <= i < Z.of_nat (length dir) / 32 /\ slot_name dir i = key /\ forall j, 0 <= j < i -> slot_name dir j <> key
  | None => forall j, 0 <= j < Z.of_nat (length dir) / 32 -> slot_name dir j <> key
  end.

Lemma same_prefix_ok n : forall a b, (n <= length a)%nat -> (n <= length b)%nat ->
  same_prefix n a b = Done (bool_decide (c_str (take n a) = c_str (take n b))).
Proof.
  induction n as [|n IH]; intros [|x a] [|y b] Ha Hb; cbn [length] in *; try lia; cbn [same_prefix take c_str]; try done.
  unfold deref. cbn [head of_option mbind outcome_bind tail]. destruct (decide (x = y)) as [->|Hne].
  - rewrite (decide_False (P := y <> y)) by tauto. destruct (decide (y = 0)); [by rewrite bool_decide_eq_true_2|].
    rewrite IH by lia. f_equal. apply bool_decide_ext. split; congruence.
  - rewrite decide_True by done. f_equal. symmetry. apply bool_decide_eq_false. repeat case_decide; congruence.
Qed.

Lemma search_names dir name o n : Z.of_nat (length dir) = 32 * n -> (11 <= length name)%nat -> first_named dir (c_str (take 11 name)) o ->
  for_ (Z.to_nat n) 0 (fun i _ => same ← same_prefix 11 (drop (Z.to_nat (32 * i)) dir) name; Done (if (same : bool) then inr i else inl tt)) tt =
    Done (match o with Some i => inr i | None => inl tt end).
Proof.
  intros Hl Hn Ho. set (body := fun i _ => _). set (key := c_str (take 11 name)) in *.
  assert (Hdiv : Z.of_nat (length dir) / 32 = n) by (rewrite Hl, Z.mul_comm; apply Z.div_mul; lia). unfold first_named in Ho. rewrite Hdiv in Ho.
  assert (Hb : forall i, 0 <= i < n -> body i tt = Done (if decide (slot_name dir i = key) then inr i else inl tt)).
  { intros i Hi. unfold body. rewrite same_prefix_ok by (rewrite ?length_drop; lia). cbn [mbind outcome_bind]. fold (slot_name dir i) key.
    case_decide as E; [by rewrite bool_decide_eq_true_2|by rewrite bool_decide_eq_false_2]. }
  assert (H : forall k j, 0 <= j -> Z.of_nat k = n - j -> match o with Some i => j <= i | None => True end ->
    for_ k j body tt = Done (match o with Some i => inr i | None => inl tt end)).
  { induction k as [|k IH]; intros j Hj Hk Hle; cbn [for_].
    - destruct o as [i|]; [|done]. destruct Ho as (Hi & _). lia.
    - rewrite Hb by lia. cbn [mbind outcome_bind]. case_decide as E.
      + destruct o as [i|]; [|by destruct (Ho j ltac:(lia))]. destruct Ho as (Hi & _ & Hno). destruct (decide (j = i)) as [->|]; [done|].
        exfalso. apply (Hno j); [lia|done].
      + apply IH; [lia..|]. destruct o as [i|]; [|done]. destruct Ho as (Hi & Hk' & _). destruct (decide (j = i)) as [->|]; [done|lia]. }
  destruct o as [i|]; [apply H|apply H]; try lia; (destruct Ho as ((? & ?) & _); lia) || (pose proof (Nat2Z.is_nonneg (length dir)); lia).
Qed.

(** A file in the tree, in a directory whose cluster is [d]. *)
Definition filed (fuel : nat) s (file d : Z) : Prop := exists t n p f e, find_node fuel s file = Done t /\ t <> 0 /\ node_at (tnodes s) t = Done n /\
  t_parent n <> 0 /\ node_at (tnodes s) (t_parent n) = Done p /\ fat_entry_of (t_value p) s = Done (f, e) /\ fe_cluster e = d.

Lemma find_dir_entry_ok fuel s fs file d f o : filed fuel s file d -> geometry fs -> on_volume fs (dev_len fs (disk s)) d ->
  file_at s file = Done f -> (11 <= length (f_name f))%nat -> first_named (cluster_bytes fs (disk s) d) (c_str (take 11 (f_name f))) o ->
  find_dir_entry fuel fs file s = Done ((fun i => (d, cluster_bytes fs (disk s) d, i)) <$> o).
Proof.
  intros (t & n & p & pf & e & Ht & Ht0 & Hn & Hp0 & Hp & He & Hd) Hg Hv Hf Hlen Ho. pose proof (cluster_size_ok fs Hg) as (_ & Hcs & Hcs5).
  pose proof (length_cluster_bytes fs (disk s) d Hg Hv) as Hl. unfold find_dir_entry. rewrite Ht. cbn [mbind outcome_bind]. rewrite decide_False by done.
  rewrite Hn. cbn [mbind outcome_bind]. rewrite decide_False by done. rewrite Hp. cbn [mbind outcome_bind]. rewrite He. cbn [mbind outcome_bind]. rewrite Hd.
  unfold load_cluster. rewrite read_cluster by (done || lia). cbn [mbind outcome_bind]. rewrite take_ge by lia. rewrite Hf. cbn [mbind outcome_bind].
  rewrite (search_names _ _ o); [by destruct o|..|done|done]. apply Z.mod_divide in Hcs5 as [k Hk]; [|lia]. rewrite Hl, Hk.
  replace (k * 512 / 32) with (k * 16) by (replace (k * 512) with (k * 16 * 32) by lia; by rewrite Z.div_mul). lia.
Qed.

(** The directory of a deleted file: the size of the node goes into the slot with
    its name, and then the first slot is cleared. *)
Definition deleted_dir (dir : list Z) (o : option Z) (size : Z) : list Z :=
  match o with Some i => overwrite (overwrite dir (32 * i + 28) (to_le 4 size)) 0 (replicate 32 0) | None => dir end.

(** What deleting does to the device. *)
Record deleted (fs : fat_fs) (b b' : B) (cs : list Z) (d : Z) (dir' : list Z) : Prop := {
  del_len : dev_len fs b' = dev_len fs b;
  del_freed : forall x, x ∈ cs -> next_of fs b' x = 0;
  del_table : forall x, on_volume fs (dev_len fs b) x -> x ∉ cs -> next_of fs b' x = next_of fs b x;
  del_dir : cluster_bytes fs b' d = dir';
  del_data : forall x, on_volume fs (dev_len fs b) x -> x <> d -> cluster_bytes fs b' x = cluster_bytes fs b x;
  del_other : forall dev, dev <> physicalDevice fs -> dev_bytes b' dev = dev_bytes b dev
}.

Lemma released_deleted fs b b' cs d : on_volume fs (dev_len fs b) d -> released fs b b' cs -> deleted fs b b' cs d (cluster_bytes fs b d).
Proof.
  intros Hv [L I O D R]. split; [done|done| | | |done].
  - intros x Hx Hn. by apply O; [apply Hx|].
  - by apply D.
  - intros x Hx _. by apply D.
Qed.

(** The directory's cluster written once more. *)
Lemma deleted_store fs b b' cs d dir dir' c : geometry fs -> on_volume fs (dev_len fs b) d -> fat_chain fs b c cs -> deleted fs b b' cs d dir ->
  Z.of_nat (length dir') = cluster_size fs ->
  exists b2, dev_write (physicalDevice fs) dir' (cluster_offset fs d) b' = Done b2 /\ deleted fs b b2 cs d dir'.
Proof.
  intros Hg Hv Hch [L I O D C R] Hl. pose proof (cluster_size_ok fs Hg) as (_ & Hcs & Hcs5).
  destruct (write_cluster fs b' d dir' Hg) as (b2 & Hw & [SL SN SI SO SR]); [by rewrite L|lia|by rewrite Hl|]. exists b2. split; [done|]. rewrite L in *. split.
  - congruence.
  - intros x Hx. rewrite SN by (by eapply chain_volume). by apply I.
  - intros x Hx Hn. rewrite SN by done. by apply O.
  - rewrite SI, drop_ge, app_nil_r; [done|]. rewrite length_cluster_bytes by (done || by rewrite L). lia.
  - intros x Hx Hn. rewrite SO by done. by apply C.
  - intros dev Hd. rewrite SR by done. by apply R.
Qed.

Lemma filed_disk fuel s file d b : filed fuel s file d -> filed fuel (set_disk b s) file d.
Proof. exact (fun H => H). Qed.

(** The two calls of fat_delete on the directory. *)
Lemma update_then_remove fuel s fs file d f o b0 cs c : filed fuel s file d -> geometry fs -> on_volume fs (dev_len fs b0) d -> fat_chain fs b0 c cs ->
  deleted fs b0 (disk s) cs d (cluster_bytes fs b0 d) -> file_at s file = Done f -> (11 <= length (f_name f))%nat ->
  first_named (cluster_bytes fs b0 d) (c_str (take 11 (f_name f))) o ->
  exists b' r1 r2, (fat_update_dir_entry_size fuel fs file s ≫= fun '(r, s) => '(r', s) ← fat_remove_dir_entry fuel fs file s; Done (r, r', s)) = Done (r1, r2, set_disk b' s) /\
    deleted fs b0 b' cs d (deleted_dir (cluster_bytes fs b0 d) o (u32 (f_size f))).
Proof.
  intros Hfd Hg Hv Hch Hdel Hf Hlen Ho. set (dir := cluster_bytes fs b0 d) in *. pose proof (cluster_size_ok fs Hg) as (_ & Hcs & Hcs5).
  pose proof (length_cluster_bytes fs b0 d Hg Hv) as Hl. fold dir in Hl. pose proof (del_dir _ _ _ _ _ _ Hdel) as Hdir.
  assert (Hv1 : on_volume fs (dev_len fs (disk s)) d) by (by rewrite (del_len _ _ _ _ _ _ Hdel)).
  unfold fat_update_dir_entry_size. rewrite (find_dir_entry_ok fuel s fs file d f o) by (done || by rewrite Hdir). rewrite Hdir. cbn [mbind outcome_bind].
  destruct o as [i|]; cbn [fmap option_fmap option_map].
  - destruct Ho as (Hi & Hname & Hno). pose proof (Z.div_mod (Z.of_nat (length dir)) 32 ltac:(lia)). pose proof (Z.mod_pos_bound (Z.of_nat (length dir)) 32 ltac:(lia)).
    rewrite Hf. cbn [mbind outcome_bind]. rewrite put_part_ok by (rewrite to_le_length; lia). cbn [mbind outcome_bind].
    set (dir1 := overwrite dir (32 * i + 28) (to_le 4 (u32 (f_size f)))). assert (Hl1 : length dir1 = length dir) by (unfold dir1; rewrite length_overwrite; rewrite ?to_le_length; lia).
    destruct (deleted_store fs b0 (disk s) cs d dir dir1 c Hg Hv Hch Hdel) as (b2 & Hw2 & Hdel2); [lia|]. unfold store_cluster at 1. rewrite Hw2. cbn [mbind outcome_bind].
    assert (Hsame : forall j, 0 <= j -> slot_name dir1 j = slot_name dir j).
    { intros j Hj. unfold slot_name, dir1. f_equal. change 11%nat with (Z.to_nat 11). apply overwrite_slice_other; rewrite ?to_le_length; try lia.
    }
    assert (Hdir2 : cluster_bytes fs (disk (set_disk b2 s)) d = dir1) by apply (del_dir _ _ _ _ _ _ Hdel2).
    assert (Ho1 : first_named dir1 (c_str (take 11 (f_name f))) (Some i)).
    { cbn [first_named]. rewrite Hl1, Hsame by lia. split; [done|]. split; [done|]. intros j Hj. rewrite Hsame by lia. by apply Hno. }
    unfold fat_remove_dir_entry. rewrite (find_dir_entry_ok fuel (set_disk b2 s) fs file d f (Some i));
      [|by apply filed_disk|done|by change (disk (set_disk b2 s)) with b2; rewrite (del_len _ _ _ _ _ _ Hdel2)|done|done|by rewrite Hdir2].
    rewrite Hdir2. cbn [mbind outcome_bind fmap option_fmap option_map]. rewrite put_part_ok by (rewrite length_replicate; lia). cbn [mbind outcome_bind].
    destruct (deleted_store fs b0 b2 cs d dir1 (overwrite dir1 0 (replicate 32 0)) c Hg Hv Hch Hdel2) as (b3 & Hw3 & Hdel3);
      [rewrite length_overwrite by (rewrite ?length_replicate; lia); lia|].
    unfold store_cluster. change (disk (set_disk b2 s)) with b2. rewrite Hw3. cbn [mbind outcome_bind]. by exists b3, 0, 0.
  - cbn [mbind outcome_bind]. exists (disk s), (-1), (-1). unfold fat_remove_dir_entry. rewrite (find_dir_entry_ok fuel s fs file d f None) by (done || by rewrite Hdir).
    cbn [mbind outcome_bind fmap option_fmap option_map]. split; [by destruct s as [? ? ? ? ? ? []]|done].
Qed.

(** C39: Deleting a regular file.  The call returns 0.  Every cluster of the file's
    chain, however long it is, becomes free; the other entries of the table and
    the data of every cluster but the directory's stay, those of the file's own
    clusters included, and so do the other devices.  In the directory, the first
    slot with the node's name gets the node's size and then the FIRST slot of
    the directory is cleared, whichever file it belongs to; when no slot has the
    name the directory stays as it is, and the call returns 0 all the same. *)
Theorem fat_delete_file fuel s fs file f e cs d o : fat_entry_of file s = Done (f, e) -> fs_at (fatFs e) s = Done fs -> f_type f = FILE_TYPE_FILE ->
  (11 <= length (f_name f))%nat -> geometry fs -> fat_chain fs (disk s) (fe_cluster e) cs -> (length cs < fuel)%nat ->
  filed fuel s file d -> on_volume fs (dev_len fs (disk s)) d -> first_named (cluster_bytes fs (disk s) d) (c_str (take 11 (f_name f))) o ->
  exists b', fat_delete fuel file s = Done (0, set_disk b' s) /\
    deleted fs (disk s) b' cs d (deleted_dir (cluster_bytes fs (disk s) d) o (u32 (f_size f))).
Proof.
  intros He Hfs Hty Hlen Hg Hch Hfuel Hfd Hv Ho. destruct (release_chain_ok fs cs fuel (disk s) (fe_cluster e) Hg Hch Hfuel) as (b1 & Hb1 & Hrel).
  assert (Hf : file_at s file = Done f) by (unfold fat_entry_of in He; apply outcome_bind_done in He as (f0 & Hf0 & (e0 & _ & [= -> _])%outcome_bind_done); done).
  destruct (update_then_remove fuel (set_disk b1 s) fs file d f o (disk s) cs (fe_cluster e)) as (b' & r1 & r2 & Hrun & Hdel); try done; [by apply released_deleted|].
  exists b'. split; [|done]. unfold fat_delete. rewrite He. cbn [mbind outcome_bind]. rewrite Hfs. cbn [mbind outcome_bind]. rewrite decide_True by done.
  rewrite Hb1. cbn [mbind outcome_bind]. destruct (fat_update_dir_entry_size fuel fs file (set_disk b1 s)) as [[r s1]| | |]; try done.
  cbn [mbind outcome_bind] in *. destruct (fat_remove_dir_entry fuel fs file s1) as [[r' s2]| | |]; try done. cbn [mbind outcome_bind] in *. by injection Hrun as _ _ ->.
Qed.

(** *** Creating an entry *)

Lemma take_fields {A} (a b : list A) n : length a = n -> take n (a ++ b) = a.
Proof. intros <-. apply take_app_length. Qed.

Lemma length_new_dir_entry name cluster size attributes : length (new_dir_entry name cluster size attributes) = 32%nat.
Proof. unfold new_dir_entry. repeat (rewrite length_app || rewrite length_take || rewrite length_replicate || cbn [length to_le]). lia. Qed.

Lemma lor_halves c : 0 <= c < 2 ^ 32 -> Z.lor (u32 (Z.shiftl (Z.land (Z.shiftr c 16) 0xFFFF) 16)) (Z.land c 0xFFFF) = c.
Proof.
  intros Hc. change 0xFFFF with (Z.ones 16). rewrite !Z.land_ones by lia. rewrite Z.shiftr_div_pow2, Z.shiftl_mul_pow2 by lia.
  rewrite (Z.mod_small (c / 2 ^ 16)) by (split; [apply Z.div_pos; lia|apply Z.div_lt_upper_bound; lia]).
  pose proof (Z.div_mod c (2 ^ 16) ltac:(lia)) as Hdm. pose proof (Z.mod_pos_bound c (2 ^ 16) ltac:(lia)) as Hm. rewrite u32_small by lia.
  pose proof (Z.add_lor_land (c / 2 ^ 16 * 2 ^ 16) (c mod 2 ^ 16)) as Hadd.
  assert (Z.land (c / 2 ^ 16 * 2 ^ 16) (c mod 2 ^ 16) = 0); [|lia]. apply Z.bits_inj'. intros n Hn. rewrite Z.land_spec, Z.bits_0.
  destruct (decide (n < 16)); [by rewrite Z.mul_pow2_bits_low by lia|]. rewrite Z.mod_pow2_bits_high by lia. apply andb_false_r.
Qed.

(** The fields of a directory that holds the new entry at slot [i]. *)
Lemma new_entry_fields dir i name cluster size attributes : 0 <= i -> 32 * i + 32 <= Z.of_nat (length dir) -> 0 <= cluster < 2 ^ 32 -> 0 <= size < 2 ^ 32 ->
  0 <= attributes < 256 ->
  let dir' := overwrite dir (32 * i) (new_dir_entry name cluster size attributes) in
  de_cluster dir' i = Done cluster /\ de_size dir' i = Done size /\ de_attributes dir' i = Done attributes /\
  take 11 (drop (Z.to_nat (32 * i)) dir') = take 11 (name ++ replicate 11 0) /\
  (forall j, 0 <= j -> j <> i -> take 32 (drop (Z.to_nat (32 * j)) dir') = take 32 (drop (Z.to_nat (32 * j)) dir)).
Proof.
  intros Hi Hl Hc Hs Ha. cbn zeta. set (new := new_dir_entry name cluster size attributes). pose proof (length_new_dir_entry name cluster size attributes) as Hn. fold new in Hn.
  assert (Hlen : length (overwrite dir (32 * i) new) = length dir) by (rewrite length_overwrite; lia).
  assert (Hin : forall off n, 0 <= off -> 0 <= n -> off + n <= 32 -> take (Z.to_nat n) (drop (Z.to_nat (32 * i + off)) (overwrite dir (32 * i) new)) = take (Z.to_nat n) (drop (Z.to_nat off) new)).
  { intros off n Ho Hn0 Hon. rewrite overwrite_slice_in by lia. do 3 f_equal. lia. }
  set (nm := take 11 (name ++ replicate 11 0)). assert (Hnm : length nm = 11%nat) by (unfold nm; rewrite length_take, length_app, length_replicate; lia).
  assert (Hnew : new = nm ++ [u8 attributes] ++ replicate 8 0 ++ to_le 2 (Z.land (Z.shiftr cluster 16) 0xFFFF) ++ replicate 4 0 ++ to_le 2 (Z.land cluster 0xFFFF) ++ to_le 4 size) by done.
  assert (Hpart : forall off n x, 0 <= off -> 0 <= n -> off + n <= 32 -> take (Z.to_nat n) (drop (Z.to_nat off) new) = x -> part (overwrite dir (32 * i) new) (32 * i + off) n = Done x).
  { intros off n x Ho Hn0 Hon <-. unfold part. rewrite decide_True by lia. by rewrite Hin. }
  assert (Hland : forall x, 0 <= Z.land x 0xFFFF < 256 ^ Z.of_nat 2) by (intros x; change 0xFFFF with (Z.ones 16); rewrite Z.land_ones by lia; apply Z.mod_pos_bound; lia).
  split_and!.
  - unfold de_cluster. rewrite (Hpart 20 2 (to_le 2 (Z.land (Z.shiftr cluster 16) 0xFFFF))), (Hpart 26 2 (to_le 2 (Z.land cluster 0xFFFF))); try lia.
    + cbn [mbind outcome_bind]. rewrite !le_to_le by apply Hland. by rewrite lor_halves.
    + rewrite Hnew, drop_app_ge, Hnm by lia. done.
    + rewrite Hnew, drop_app_ge, Hnm by lia. done.
  - unfold de_size. rewrite (Hpart 28 4 (to_le 4 size)); try lia; [cbn [mbind outcome_bind]; by rewrite le_to_le by lia|]. rewrite Hnew, drop_app_ge, Hnm by lia. done.
  - unfold de_attributes. apply aget_done. split; [lia|]. rewrite overwrite_lookup_in by lia. replace (_ - _)%nat with 11%nat by lia.
    rewrite Hnew, lookup_app_r, Hnm by lia. simpl. by rewrite u8_small.
  - replace (32 * i) with (32 * i + 0) at 1 by lia. change 11%nat with (Z.to_nat 11) at 1. rewrite Hin by lia. rewrite Hnew. apply take_fields. done.
  - intros j Hj Hne. change 32%nat with (Z.to_nat 32). apply overwrite_slice_other; lia.
Qed.

Definition free_slot_at (dir : list Z) (i : Z) : Prop := exists c, aget dir (32 * i) = Done c /\ (c = 0 \/ c = 0xE5).

Lemma first_free dir n i : (forall j, 0 <= j < n -> exists c, aget dir (32 * j) = Done c) -> 0 <= i < n -> free_slot_at dir i ->
  (forall j, 0 <= j < i -> ~ free_slot_at dir j) ->
  for_ (Z.to_nat n) 0 (fun i _ => c ← aget dir (32 * i); Done (if decide (c = 0 \/ c = 0xE5) then inr i else inl tt)) tt = Done (inr i).
Proof.
  intros Hget Hi Hfree Hno. assert (H : forall k j, 0 <= j <= i -> (Z.of_nat k = n - j) ->
    for_ k j (fun i _ => c ← aget dir (32 * i); Done (if decide (c = 0 \/ c = 0xE5) then inr i else inl tt)) tt = Done (inr i)).
  { induction k as [|k IH]; intros j Hj Hk; [lia|]. cbn [for_]. destruct (Hget j) as (c & Hc); [lia|]. rewrite Hc. cbn [mbind outcome_bind].
    destruct (decide (c = 0 \/ c = 229)) as [E|E]; cbn [mbind outcome_bind].
    - destruct (decide (j = i)) as [->|]; [done|]. exfalso. apply (Hno j); [lia|]. by exists c.
    - destruct (decide (j = i)) as [->|]; [destruct Hfree as (c' & Hc' & Hor); congruence|]. apply IH; lia. }
  apply H; lia.
Qed.

(** C29: A new entry goes into the first free slot of the directory, can be read
    back from the disk with its name, cluster, size and attributes, and leaves
    the other slots alone. *)
Theorem fat_create_dir_entry_reads s dir f e fs i name cluster size attributes : fat_entry_of dir s = Done (f, e) -> geometry fs ->
  on_volume fs (dev_len fs (disk s)) (fe_cluster e) -> 0 <= i < cluster_size fs / 32 -> free_slot_at (cluster_bytes fs (disk s) (fe_cluster e)) i ->
  (forall j, 0 <= j < i -> ~ free_slot_at (cluster_bytes fs (disk s) (fe_cluster e)) j) ->
  0 <= cluster < 2 ^ 32 -> 0 <= size < 2 ^ 32 -> 0 <= attributes < 256 ->
  exists s' dir', fat_create_dir_entry fs dir name cluster size attributes s = Done (0, s') /\ load_cluster fs (fe_cluster e) s' = Done dir' /\
    de_cluster dir' i = Done cluster /\ de_size dir' i = Done size /\ de_attributes dir' i = Done attributes /\
    take 11 (drop (Z.to_nat (32 * i)) dir') = take 11 (name ++ replicate 11 0) /\
    (forall j, 0 <= j -> j <> i -> take 32 (drop (Z.to_nat (32 * j)) dir') = take 32 (drop (Z.to_nat (32 * j)) (cluster_bytes fs (disk s) (fe_cluster e)))).
Proof.
  intros He Hg Hv Hi Hfree Hno Hc Hs Ha. pose proof (cluster_size_ok fs Hg) as (_ & Hcs & Hcs5). set (dirb := cluster_bytes fs (disk s) (fe_cluster e)) in *.
  pose proof (length_cluster_bytes fs (disk s) (fe_cluster e) Hg Hv) as Hl. fold dirb in Hl. pose proof (Z.div_mod (cluster_size fs) 32 ltac:(lia)) as Hdm.
  pose proof (Z.mod_pos_bound (cluster_size fs) 32 ltac:(lia)) as Hm. set (dir' := overwrite dirb (32 * i) (new_dir_entry name cluster size attributes)).
  assert (Hl' : length dir' = length dirb) by (unfold dir'; rewrite length_overwrite; rewrite ?length_new_dir_entry; lia).
  destruct (write_cluster fs (disk s) (fe_cluster e) dir' Hg Hv) as (b' & Hw & Hst); [lia|rewrite Hl', Hl; by rewrite Z2Nat.id by lia|].
  exists (set_disk b' s), dir'. split; [|split; [|by apply new_entry_fields; lia]].
  - unfold fat_create_dir_entry. rewrite He. cbn [mbind outcome_bind]. unfold load_cluster. rewrite read_cluster by (done || lia). cbn [mbind outcome_bind]. fold dirb.
    rewrite take_ge by lia. rewrite (first_free dirb (cluster_size fs / 32) i) by (done || (intros j Hj; destruct (aget_in_range dirb (32 * j)) as (c & Hcj & _); [lia|by exists c])).
    cbn [mbind outcome_bind]. rewrite put_part_ok by (rewrite length_new_dir_entry; lia). cbn [mbind outcome_bind]. fold dir'. unfold store_cluster. rewrite Hw. done.
  - unfold load_cluster. change (disk (set_disk b' s)) with b'. rewrite read_cluster by (done || lia || by rewrite (st_len _ _ _ _ _ Hst)).
    rewrite (st_in _ _ _ _ _ Hst). fold dirb. rewrite drop_ge, app_nil_r by lia. by rewrite take_ge by lia.
Qed.
End Theorems.

(** ** Mounting *)

Section MountFacts.
Context {B : Type} `{BD : BlockDevice B} `{FE : FatEnv} `{Env : VfsEnv (fatD B)} `{Drv : Drivers (fatD B)} `{NA : NodeAlloc}.
Context (fuel : nat).

Definition system_id (sector : list Z) (i : Z) : Z := field_at (Z.to_nat (446 + 16 * i + 4)) 1 sector.
Definition start_lba (sector : list Z) (i : Z) : Z := field_at (Z.to_nat (446 + 16 * i + 8)) 4 sector.

(** The boot sector of the volume: the first sector of the device, or that of
    its only FAT32 partition. *)
Definition boot_of (bytes : list Z) (base : Z) (boot : list Z) : Prop :=
  let sector := take 512 bytes in
  boot = take 512 (drop (Z.to_nat (base * 512)) bytes) /\ 0 <= base /\ base * 512 < 2 ^ 32 /\ base * 512 + 512 <= Z.of_nat (length bytes) /\
  ((base = 0 /\ (field_at 510 2 sector <> 0xAA55 \/ forall i, 0 <= i < 4 -> system_id sector i <> 0x0C)) \/
   (field_at 510 2 sector = 0xAA55 /\ exists k, 0 <= k < 4 /\ system_id sector k = 0x0C /\ start_lba sector k = base /\
      forall i, 0 <= i < 4 -> i <> k -> system_id sector i <> 0x0C)).

Definition part_body (dev : Z) (sector : list Z) (b : B) (i : Z) (st : Z * list Z) : outcome (Z * list Z + unit) :=
  if decide (system_id sector i = 0x0C) then
    boot ← dev_read dev (u32 (start_lba sector i * 512)) 512 b; Done (inl (start_lba sector i, boot))
  else Done (inl st).

Lemma part_body_other dev sector (b : B) i st : system_id sector i <> 0x0C -> part_body dev sector b i st = Done (inl st).
Proof. intros H. unfold part_body. by rewrite decide_False. Qed.

Lemma partitions_none dev sector (b : B) n : forall i st, (forall j, i <= j < i + Z.of_nat n -> system_id sector j <> 0x0C) ->
  for_ n i (part_body dev sector b) st = Done (inl st).
Proof.
  induction n as [|n IH]; intros i st Hno; [done|]. cbn [for_]. rewrite part_body_other by (apply Hno; lia). cbn [mbind outcome_bind].
  apply IH. intros j Hj. apply Hno. lia.
Qed.

Lemma partitions_one dev sector (b : B) k boot n : system_id sector k = 0x0C -> dev_read dev (u32 (start_lba sector k * 512)) 512 b = Done boot ->
  forall i st, i <= k < i + Z.of_nat n -> (forall j, i <= j < i + Z.of_nat n -> j <> k -> system_id sector j <> 0x0C) ->
  for_ n i (part_body dev sector b) st = Done (inl (start_lba sector k, boot)).
Proof.
  intros Hk Hread. induction n as [|n IH]; intros i st Hi Hno; [lia|]. cbn [for_]. destruct (decide (i = k)) as [->|Hne].
  - unfold part_body at 2. rewrite decide_True by done. rewrite Hread. cbn [mbind outcome_bind]. apply partitions_none. intros j Hj. apply Hno; lia.
  - rewrite part_body_other by (apply Hno; lia). cbn [mbind outcome_bind]. apply IH; [lia|]. intros j Hj. apply Hno. lia.
Qed.

(** The boot sector the mount ends up with. *)
Lemma mount_boot dev (b : B) base boot : boot_of (dev_bytes b dev) base boot ->
  exists sector, dev_read dev 0 512 b = Done sector /\
    (if decide (field_at 510 2 sector = 0xAA55) then read_partitions dev sector b else Done (0, sector)) = Done (base, boot).
Proof.
  intros (Hboot & Hb0 & Hb32 & Hlen & Hcase). exists (take 512 (dev_bytes b dev)). split.
  { rewrite dev_read_ok by (unfold sectors; lia || done). by rewrite drop_0. }
  set (sector := take 512 (dev_bytes b dev)) in *.
  assert (Hunfold : read_partitions dev sector b = r ← for_ 4 0 (part_body dev sector b) (0, sector); match r with inl st => Done st | inr _ => Fault end) by done.
  destruct Hcase as [[-> Hno]|(Hsig & k & Hk & Hid & Hlba & Hno)].
  - assert (boot = sector) as -> by (rewrite Hboot; done). destruct (decide _) as [Hs|]; [|done]. destruct Hno as [Hno|Hno]; [done|].
    rewrite Hunfold, partitions_none by (intros j Hj; apply Hno; lia). done.
  - rewrite decide_True by done. rewrite Hunfold. rewrite (partitions_one dev sector b k boot 4 Hid); [by rewrite Hlba| |lia|intros j Hj; apply Hno; lia].
    rewrite Hlba, u32_small by lia. rewrite Hboot. apply dev_read_ok; [|lia]. split; [lia|]. split; [apply Z.mod_mul; lia|done].
Qed.

(** The listing that fat_mount prints ends. *)
Lemma list_loop dir bytes p vs : listing dir p vs -> Z.of_nat (length dir) mod 32 = 0 -> forall n, (slots_left dir p < n)%nat -> loop n (list_step dir bytes) p = Done tt.
Proof.
  intros Hl H32. assert (Heq : forall p, list_step dir bytes p = k ← slot_at dir p;
    match k with
    | EndOfFiles => Done (inr tt)
    | Skipped => Done (inl (p + 1))
    | Visible => _ ← clean_fat_filename (drop (Z.to_nat (32 * p)) dir) (replicate 12 0); _ ← de_cluster dir p;
        Done (if decide (bytes <= 32 * (p + 1)) then inr tt else inl (p + 1))
    end) by done.
  induction Hl as [p Hp|p vs Hp Hl IH|p vs Hp Hl IH]; intros n Hn; (destruct n as [|n]; [lia|]); cbn [loop]; rewrite Heq, Hp; cbn [mbind outcome_bind]; [done| |];
    pose proof (slots_left_next _ _ _ Hp); [apply IH; lia|].
  destruct (visible_entry dir p (replicate 12 0) Hp H32) as (arr & a & size & -> & _); [done|]. cbn [mbind outcome_bind].
  destruct (visible_cluster dir p Hp H32) as (c & ->). cbn [mbind outcome_bind]. destruct (decide (bytes <= 32 * (p + 1))); [done|]. apply IH. lia.
Qed.

(** C28: Mounting a block device with a FAT32 boot sector, its own or that of its
    only FAT32 partition: the geometry is the one the boot sector states, the
    node is a root directory named after the last component of the path, and
    its entries are those of the root cluster on the device. *)
Theorem fat_mount_root device name s dev s1 d base boot dir vs nm : open fuel device 0 s = Done (dev, s1) -> dev <> 0 -> file_at s1 dev = Done d ->
  f_type d = FILE_TYPE_BLOCK_DEVICE -> boot_of (dev_bytes (disk s1) dev) base boot -> boot_signature boot = 0x28 \/ boot_signature boot = 0x29 ->
  geometry (geometry_of boot base dev) -> on_volume (geometry_of boot base dev) (dev_len (geometry_of boot base dev) (disk s1)) (root_cluster boot) ->
  dir = cluster_bytes (geometry_of boot base dev) (disk s1) (root_cluster boot) -> listing dir 0 vs -> last_component name [] false = Some nm -> (length nm <= 256)%nat ->
  exists f fs s', fat_mount fuel device name s = Done (falloc (files s1), s') /\ mounted_root s' (falloc (files s1)) f fs dir /\
    (exists rest, f_name f = nm ++ rest) /\ physicalDevice fs = dev /\ sectorSize fs = bytes_per_sector boot /\ clusterSize fs = sectors_per_cluster boot /\
    fatPointer fs = u32 (reserved_sector_count boot + base) /\ dataPointer fs = u64 (fatPointer fs + u32 (table_count boot * table_size_32 boot)) /\
    rootPointer fs = falloc (files s1).
Proof.
  intros Hopen Hdev Hd Ht Hboot Hsig Hg Hv Hdir Hl Hnm Hlen. destruct (mount_boot dev (disk s1) base boot Hboot) as (sector & Hread & Hparts).
  set (fs0 := geometry_of boot base dev) in *. pose proof (cluster_size_ok fs0 Hg) as (_ & Hcs & Hcs5). pose proof (length_cluster_bytes fs0 (disk s1) (root_cluster boot) Hg Hv) as Hld.
  assert (Hload : load_cluster fs0 (root_cluster boot) s1 = Done dir) by (unfold load_cluster; rewrite read_cluster by (done || lia); rewrite take_ge by lia; by rewrite Hdir).
  assert (H32 : Z.of_nat (length dir) mod 32 = 0).
  { rewrite Hdir, Hld, Z2Nat.id by lia. apply Z.mod_divide; [lia|]. apply Z.mod_divide in Hcs5 as [k Hk]; [|lia]. exists (k * 16). lia. }
  assert (Hoff : sectorSize fs0 = bytes_per_sector boot) by done.
  unfold fat_mount. rewrite Hopen. cbn [mbind outcome_bind]. rewrite (decide_False (P := dev = 0)) by done. rewrite Hd. cbn [mbind outcome_bind].
  rewrite (decide_False (P := f_type d <> FILE_TYPE_BLOCK_DEVICE)) by (rewrite Ht; by intros []). rewrite Hread. cbn [mbind outcome_bind].
  rewrite Hparts. cbn [mbind outcome_bind]. rewrite (decide_False (P := boot_signature boot <> 40 /\ boot_signature boot <> 41)) by lia. cbn zeta. fold fs0.
  rewrite Hload. cbn [mbind outcome_bind]. rewrite (list_loop dir (cluster_size fs0) 0 vs Hl H32) by (unfold slots_left; lia). cbn [mbind outcome_bind].
  rewrite Hnm. cbn [mbind outcome_bind of_option]. unfold overlay. rewrite decide_True by (unfold zero_name; rewrite length_replicate; lia). cbn [mbind outcome_bind].
  set (p := obj_alloc (fat_fss (drv s1)) (fat_entries (drv s1))). exists (mk_fn (nm ++ drop (length nm) zero_name) 0 FILE_TYPE_MOUNT_POINT 0 false p (mk_ops 0 0 0 FAT_READ_DIR 0 FAT_FIND_DIR FAT_GET_SIZE 0 0 0 0 0) 0). eexists
    (mk_fat boot base (sectorSize fs0) (clusterSize fs0) (capacity fs0) (fatPointer fs0) (dataPointer fs0) dev (falloc (files s1))), _.
  split; [reflexivity|]. split; [|split; [by eexists|done]]. pose proof (falloc_fresh (files s1)) as [Hn0 _].
  split; [unfold file_at; rewrite decide_False by done; simpl; by rewrite lookup_insert_eq|]. split; [done|]. split; [simpl; apply lookup_insert_eq|]. split; [exact Hload|done].
Qed.
End MountFacts.

(** ** A small volume *)

#[export] Instance bump_objects : FatEnv.
Proof.
  refine {| obj_alloc := fun a b => Z.max (next_key a) (next_key b); o_trunc := 0x200 |}. intros a b.
  assert (Hbig : forall {A} (m : gmap Z A) k, next_key m <= k -> 0 < k /\ m !! k = None).
  { intros A m k Hk. assert (H : 0 < next_key m /\ forall p x, m !! p = Some x -> p < next_key m).
    { unfold next_key. apply (map_fold_weak_ind (fun n (m : gmap Z A) => 0 < n /\ forall p x, m !! p = Some x -> p < n)).
      - split; [lia|]. intros p x. by rewrite lookup_empty.
      - intros p x m' n _ [IH1 IH2]. split; [lia|]. intros q y [[-> _]|[_ Hq]]%lookup_insert_Some; [lia|]. specialize (IH2 q y Hq). lia. }
    destruct H as [Hpos Hlt]. split; [lia|]. destruct (m !! k) eqn:E; [|done]. apply Hlt in E. lia. }
  destruct (Hbig _ a (Z.max (next_key a) (next_key b))) as [H1 H2]; [lia|]. destruct (Hbig _ b (Z.max (next_key a) (next_key b))) as [_ H3]; [lia|].
  split; [lia|done].
Defined.

Definition readme : list Z := [82; 69; 65; 68; 77; 69; 32; 32; 84; 88; 84].
Definition readme_txt : list Z := [114; 101; 97; 100; 109; 101; 46; 116; 120; 116].
Definition demo_boot : list Z :=
  replicate 11 0 ++ to_le 2 512 ++ [1] ++ to_le 2 1 ++ [1] ++ replicate 15 0 ++ to_le 4 6 ++ to_le 4 1 ++ replicate 4 0 ++ to_le 4 4 ++ replicate 18 0 ++ [0x29] ++ replicate 445 0.
Definition root_table : list Z := mjoin (to_le 4 <$> [0x0FFFFFF8; 0x0FFFFFFF; 3; 0x0FFFFFFF; 0x0FFFFFFF; 0]) ++ replicate 488 0.
(** A deleted entry, a long name, a file and a directory. *)
Definition demo_dir : list Z :=
  (0xE5 :: replicate 31 0) ++ new_dir_entry [65] 0 0 0x0F ++ new_dir_entry readme 2 1024 0x20 ++ new_dir_entry [83; 85; 66; 32; 32; 32; 32; 32; 32; 32; 32] 5 0 0x10 ++ replicate 384 0.
Definition root_disk : gmap Z (list Z) := {[9 := demo_boot ++ root_table ++ replicate 512 65 ++ replicate 512 66 ++ demo_dir ++ replicate 512 0]}.

Definition demo_device : file_node := mk_fn zero_name 1 FILE_TYPE_BLOCK_DEVICE 3072 false 3 no_ops 0.
Definition before_mount : vfs (fatD (gmap Z (list Z))) := mk_vfs ∅ (mk_tree 0 0) {[9 := demo_device]} 9 2 [47] (mk_fatd root_disk ∅ ∅).

Definition mounted_with (root : Z) : fat_fs := mk_fat demo_boot 0 512 1 6 1 2 9 root.
Definition mounted_fs : fat_fs := mounted_with 100.
Definition mounted_node : file_node := mk_fn zero_name 0 FILE_TYPE_MOUNT_POINT 0 false 7 (mk_ops 0 0 0 FAT_READ_DIR 0 FAT_FIND_DIR FAT_GET_SIZE 0 0 0 0 0) 0.
Definition readme_node : file_node :=
  mk_fn zero_name 0 FILE_TYPE_FILE 1024 false 8 (mk_ops FAT_READ FAT_WRITE 0 0 FAT_MKDIR FAT_FIND_DIR FAT_GET_SIZE FAT_CREATE 0 0 FAT_DELETE 0) 0.
Definition sub_node : file_node :=
  mk_fn zero_name 0 FILE_TYPE_DIR 0 false 11 (mk_ops FAT_READ FAT_WRITE 0 0 FAT_MKDIR FAT_FIND_DIR FAT_GET_SIZE FAT_CREATE 0 0 FAT_DELETE 0) 0.
Definition after_mount : vfs (fatD (gmap Z (list Z))) :=
  mk_vfs ∅ (mk_tree 0 0) {[9 := demo_device; 100 := mounted_node; 101 := readme_node; 102 := sub_node]} 9 2 [47]
    (mk_fatd root_disk {[7 := mounted_fs]} {[8 := mk_fe 7 2; 11 := mk_fe 7 5]}).

Lemma mounted_geometry root : geometry (mounted_with root).
Proof. split; cbn [mounted_with sectorSize clusterSize fatPointer dataPointer]; done || lia. Qed.

Lemma mounted_volume root c : 2 <= c < 6 -> on_volume (mounted_with root) (dev_len (mounted_with root) root_disk) c.
Proof.
  intros Hc. change (dev_len (mounted_with root) root_disk) with 3072. split; [lia|]. unfold in_table, data_byte.
  change (cluster_size (mounted_with root)) with 512. simpl. rewrite Z.div_small by lia. lia.
Qed.

Lemma mounted_chain : fat_chain mounted_fs root_disk 2 [2; 3].
Proof. apply chain_next; [apply mounted_volume; lia|]. change (next_of mounted_fs root_disk 2) with 3. apply chain_last; [apply mounted_volume; lia|]. by vm_compute. Qed.

Lemma demo_listing : listing demo_dir 0 [2; 3].
Proof.
  apply l_skip; [reflexivity|]. apply l_skip; [reflexivity|]. apply (l_visible demo_dir 2); [reflexivity|]. apply (l_visible demo_dir 3); [reflexivity|].
  apply l_end. reflexivity.
Qed.

Lemma fat_read_dir_lists_witness : fat_get_size 100 after_mount = Done (2, after_mount) /\
  exists es, fat_read_dir 100 (replicate 4 (mk_ld (replicate 16 7) 0 0)) 1 after_mount = Done (Z.of_nat (length es), es ++ drop (length es) (replicate 4 (mk_ld (replicate 16 7) 0 0)), after_mount) /\
    Forall2 (lists_entry demo_dir) [2] es.
Proof.
  apply (fat_read_dir_lists after_mount 100 mounted_node mounted_fs 4 demo_dir [2; 3] (replicate 4 (mk_ld (replicate 16 7) 0 0)) 1).
  - split; [reflexivity|by right|reflexivity|reflexivity|reflexivity].
  - apply demo_listing.
  - simpl. lia.
  - repeat constructor; simpl; lia.
Defined.

Lemma mounted_demo : mounted_root after_mount 100 mounted_node mounted_fs demo_dir.
Proof. split; [reflexivity|]. split; [done|]. split; [reflexivity|]. split; reflexivity. Qed.

Lemma fat_find_dir_first_witness :
  (exists s', fat_find_dir 513 100 readme_txt after_mount = Done (103, s')) /\ forall fuel, fat_find_dir fuel 100 [115; 117; 98] after_mount = OutOfFuel.
Proof.
  split.
  - destruct (fat_find_dir_first after_mount 100 mounted_node mounted_fs demo_dir [2; 3] readme_txt mounted_demo demo_listing) as [H _].
    destruct (H eq_refl 513%nat) as (a & size & cluster & e & s' & E & _); [vm_compute; lia|]. by exists s'.
  - destruct (fat_find_dir_first after_mount 100 mounted_node mounted_fs demo_dir [2; 3] [115; 117; 98] mounted_demo demo_listing) as [_ H]. apply H. by vm_compute.
Defined.

Lemma fat_read_swapped_witness :
  call_read (Drivers := fat_drivers 3) FAT_READ 101 (replicate 600 0) 0 400 after_mount = Done (0, replicate 600 0, after_mount) /\
  call_read (Drivers := fat_drivers 3) FAT_READ 101 (replicate 600 0) 512 100 after_mount = Done (512, replicate 512 65 ++ replicate 88 0, after_mount).
Proof.
  assert (H : fat_file after_mount 101 mounted_fs 2 [2; 3]) by (split; [exists readme_node, (mk_fe 7 2); split; [reflexivity|]; by split|apply mounted_geometry|apply mounted_chain]).
  split; [rewrite (fat_read_swapped 3 after_mount 101 mounted_fs 2 [2; 3] (replicate 600 0) 0 400 H)|rewrite (fat_read_swapped 3 after_mount 101 mounted_fs 2 [2; 3] (replicate 600 0) 512 100 H)];
    rewrite ?length_replicate; change (cluster_size mounted_fs) with 512; cbn [length]; try lia; try done; vm_compute; reflexivity.
Defined.

Lemma fat_create_dir_entry_reads_witness : exists s' dir', fat_create_dir_entry mounted_fs 102 readme 4 77 0x20 after_mount = Done (0, s') /\ load_cluster mounted_fs 5 s' = Done dir' /\
  de_cluster dir' 0 = Done 4 /\ de_size dir' 0 = Done 77 /\ take 11 dir' = readme.
Proof.
  destruct (fat_create_dir_entry_reads after_mount 102 sub_node (mk_fe 7 5) mounted_fs 0 readme 4 77 0x20) as (s' & dir' & H1 & H2 & H3 & H4 & _ & H5 & _);
    [reflexivity|apply mounted_geometry|apply (mounted_volume 100 5); lia|change (cluster_size mounted_fs / 32) with 16; lia|exists 0; split; [reflexivity|by left]|lia|lia|lia|lia|].
  exists s', dir'. split; [done|]. split; [exact H2|]. split; [done|]. split; [done|]. exact H5.
Defined.

(** A directory with two files, of which the second is deleted. *)
Definition data_bin : list Z := [68; 65; 84; 65; 46; 66; 73; 78].
Definition two_files : list Z := new_dir_entry readme 4 512 0x20 ++ new_dir_entry data_bin 2 700 0x20 ++ replicate 448 0.
Definition delete_disk : gmap Z (list Z) := {[9 := demo_boot ++ root_table ++ replicate 512 65 ++ replicate 512 66 ++ replicate 512 67 ++ two_files]}.
Definition data_node : file_node := mk_fn (data_bin ++ replicate 248 0) 0 FILE_TYPE_FILE 1024 false 8 (mk_ops FAT_READ FAT_WRITE 0 0 FAT_MKDIR FAT_FIND_DIR FAT_GET_SIZE FAT_CREATE 0 0 FAT_DELETE 0) 0.
Definition before_delete : vfs (fatD (gmap Z (list Z))) :=
  mk_vfs {[1 := mk_tn 102 [2] 0; 2 := mk_tn 101 [] 1]} (mk_tree 1 2) {[9 := demo_device; 101 := data_node; 102 := sub_node]} 9 2 [47]
    (mk_fatd delete_disk {[7 := mounted_fs]} {[8 := mk_fe 7 2; 11 := mk_fe 7 5]}).

Lemma delete_volume c : 2 <= c < 6 -> on_volume mounted_fs (dev_len mounted_fs delete_disk) c.
Proof. intros Hc. change (dev_len mounted_fs delete_disk) with (dev_len mounted_fs root_disk). by apply mounted_volume. Qed.

Lemma delete_chain : fat_chain mounted_fs delete_disk 2 [2; 3].
Proof. apply chain_next; [apply delete_volume; lia|]. change (next_of mounted_fs delete_disk 2) with 3. apply chain_last; [apply delete_volume; lia|]. by vm_compute. Qed.

Lemma fat_delete_file_witness : exists b', fat_delete 5 101 before_delete = Done (0, set_disk b' before_delete) /\
  next_of mounted_fs b' 2 = 0 /\ next_of mounted_fs b' 3 = 0 /\ cluster_bytes mounted_fs b' 3 = replicate 512 66 /\
  slot_name (cluster_bytes mounted_fs b' 5) 0 = [] /\ slot_name (cluster_bytes mounted_fs b' 5) 1 = data_bin /\ de_size (cluster_bytes mounted_fs b' 5) 1 = Done 1024.
Proof.
  destruct (fat_delete_file 5 before_delete mounted_fs 101 data_node (mk_fe 7 2) [2; 3] 5 (Some 1)) as (b' & H & Hd).
  - reflexivity.
  - reflexivity.
  - reflexivity.
  - vm_compute. lia.
  - apply mounted_geometry.
  - apply delete_chain.
  - simpl. lia.
  - exists 2, (mk_tn 101 [] 1), (mk_tn 102 [2] 0), sub_node, (mk_fe 7 5). split; [reflexivity|]. split; [lia|]. split; [reflexivity|]. split; [simpl; lia|].
    split; [reflexivity|]. split; [reflexivity|reflexivity].
  - apply delete_volume. lia.
  - split; [vm_compute; split; congruence|]. split; [reflexivity|]. intros j Hj. assert (j = 0) as -> by lia. vm_compute. congruence.
  - exists b'. split; [exact H|]. split; [apply (del_freed _ _ _ _ _ _ Hd); left|]. split; [apply (del_freed _ _ _ _ _ _ Hd); right; left|].
    split; [rewrite (del_data _ _ _ _ _ _ Hd 3); [vm_compute; reflexivity|apply delete_volume; lia|lia]|].
    rewrite (del_dir _ _ _ _ _ _ Hd). split; [vm_compute; reflexivity|]. split; vm_compute; reflexivity.
Defined.

Lemma fat_mount_root_witness : exists f fs s', fat_mount (Drv := fat_drivers 5) 5 [47] [47; 109] before_mount = Done (10, s') /\ mounted_root s' 10 f fs demo_dir /\
  sectorSize fs = 512 /\ dataPointer fs = 2.
Proof.
  destruct (fat_mount_root (Drv := fat_drivers 5) 5 [47] [47; 109] before_mount 9 before_mount demo_device 0 demo_boot demo_dir [2; 3] [109])
    as (f & fs & s' & H1 & H2 & _ & _ & H3 & _ & H4 & H5 & _).
  - reflexivity.
  - lia.
  - reflexivity.
  - reflexivity.
  - split; [reflexivity|]. split; [lia|]. split; [lia|]. split; [vm_compute; discriminate|]. left. split; [done|]. left. by vm_compute.
  - right. reflexivity.
  - apply (mounted_geometry 0).
  - apply (mounted_volume 0 4). lia.
  - reflexivity.
  - apply demo_listing.
  - reflexivity.
  - simpl. lia.
  - exists f, fs, s'. split; [exact H1|]. split; [exact H2|]. split; [by rewrite H3|]. rewrite H5, H4. reflexivity.
Defined.
