(* ===== verification/Mutex.v ===== *)
(** Spin locks, wait queues and mutexes: kernel/lock.h, kernel/sys/mutex.c and
    the sleeping half of kernel/proc/process.c (schedule_process,
    wait_for_object, wakeup_waiting).

    The first section gives the calls as one thread runs them.  A wait queue is
    any implementation of the [Queue] interface of KList.  A call that sleeps
    goes through [resume], a parameter: what the other threads do to the state
    between [schedule(true)] and the moment this thread runs again.  The
    theorems hold for every [resume].

    The second section is the same code cut at its lock operations, as a step
    relation of many threads over one mutex: mutual exclusion is an invariant
    of it, and the wakeup that can be lost between the unlock of mutex_acquire
    and the enqueue of wait_for_object is a reachable state. *)
From stdpp Require Import base list gmap strings.
From Stdlib Require Import ZArith Lia.
From S2P Require Import Prelude KList.

#[local] Open Scope Z_scope.

Definition PROC_FLAG_SLEEP_INTERRUPTIBLE : Z := Z.shiftl 1 3.

(** ** Data *)

Record mutex_t (Q : Type) := mk_mutex { m_lock : bool; m_owner : Z; m_waiting : Q }.
Arguments mk_mutex {Q}.
Arguments m_lock {Q}.
Arguments m_owner {Q}.
Arguments m_waiting {Q}.

(** The globals of process.c the wait queues touch: the flags of the processes
    and the queue of runnable threads. *)
Record sched (Q : Type) := mk_sched { p_flags : gmap Z Z; thread_queue : Q }.
Arguments mk_sched {Q}.
Arguments p_flags {Q}.
Arguments thread_queue {Q}.

(** A mutex inside a larger state [S]. *)
Record mlens (Q S : Type) := mk_mlens { mget : S -> mutex_t Q; mset : mutex_t Q -> S -> S }.
Arguments mk_mlens {Q S}.
Arguments mget {Q S}.
Arguments mset {Q S}.

(** ** spin_lock and spin_unlock: the flag was clear, or the caller spins *)
Definition spin_lock (flag : bool) : outcome bool := if flag then Blocked else Done true.
Definition spin_unlock (flag : bool) : bool := false.

Section Ops.
Context {Q : Type} `{Queue Q}.

Definition with_lock (b : bool) (m : mutex_t Q) : mutex_t Q := mk_mutex b (m_owner m) (m_waiting m).
Definition with_owner (o : Z) (m : mutex_t Q) : mutex_t Q := mk_mutex (m_lock m) o (m_waiting m).
Definition with_waiting (w : Q) (m : mutex_t Q) : mutex_t Q := mk_mutex (m_lock m) (m_owner m) w.

Definition lock_mutex (m : mutex_t Q) : outcome (mutex_t Q) :=
  l ← spin_lock (m_lock m); Done (with_lock l m).
Definition unlock_mutex (m : mutex_t Q) : mutex_t Q := with_lock (spin_unlock (m_lock m)) m.

(** [mutex_init] with the list that list_create returns. *)
Definition mutex_init (empty : Q) (m : mutex_t Q) : mutex_t Q :=
  mk_mutex (spin_unlock (m_lock m)) 0 empty.

(** The flag updates: [flags &= ~b] and [flags |= b] of a live process. *)
Definition clear_flag (p b : Z) (s : sched Q) : outcome (sched Q) :=
  f ← of_option (p_flags s !! p); Done (mk_sched (<[p := Z.ldiff f b]> (p_flags s)) (thread_queue s)).
Definition set_flag (p b : Z) (s : sched Q) : outcome (sched Q) :=
  f ← of_option (p_flags s !! p); Done (mk_sched (<[p := Z.lor f b]> (p_flags s)) (thread_queue s)).

Definition schedule_process (p : Z) (s : sched Q) : outcome (sched Q) :=
  s ← clear_flag p PROC_FLAG_SLEEP_INTERRUPTIBLE s;
  q ← q_insert p (thread_queue s);
  Done (mk_sched (p_flags s) q).

(** [wakeup_waiting]: while the queue has an entry, schedule its process when
    it has one and remove the entry. *)
Definition wakeup_waiting (fuel : nat) (s : sched Q) (queue : Q) : outcome (sched Q * Q) :=
  loop fuel (fun '(s, queue) =>
    f ← q_front queue;
    match f with
    | None => Done (inr (s, queue))
    | Some v =>
        s ← (if decide (v = 0) then Done s else schedule_process v s);
        queue ← q_drop queue;
        Done (inl (s, queue))
    end) (s, queue).

Definition mutex_release (fuel : nat) (s : sched Q) (m : mutex_t Q) : outcome (sched Q * mutex_t Q) :=
  m ← lock_mutex m;
  '(s, w) ← wakeup_waiting fuel s (m_waiting m);
  Done (s, unlock_mutex (with_waiting w (with_owner 0 m))).

Definition mutex_acquire_if_free (cur : Z) (m : mutex_t Q) : outcome (bool * mutex_t Q) :=
  m ← lock_mutex m;
  if decide (m_owner m = 0) then Done (true, unlock_mutex (with_owner cur m))
  else Done (false, unlock_mutex m).

(** The calls that can sleep work on the whole state the mutex lives in. *)
Section Sleeping.
Context {S : Type} (resume : sched Q * S -> outcome (sched Q * S)) (cur : Z) (L : mlens Q S).

Definition wait_for_object (st : sched Q * S) : outcome (sched Q * S) :=
  let '(s, x) := st in
  m ← lock_mutex (mget L x);
  w ← q_insert cur (m_waiting m);
  s ← set_flag cur PROC_FLAG_SLEEP_INTERRUPTIBLE s;
  resume (s, mset L (unlock_mutex (with_waiting w m)) x).

(** [while(mutex->owner) { unlock; wait_for_object; lock; }]: on exit the lock
    is held and the owner is NULL. *)
Definition wait_owner (fuel : nat) (st : sched Q * S) : outcome (sched Q * S) :=
  loop fuel (fun '(s, x) =>
    if decide (m_owner (mget L x) = 0) then Done (inr (s, x))
    else
      '(s, x) ← wait_for_object (s, mset L (unlock_mutex (mget L x)) x);
      m ← lock_mutex (mget L x);
      Done (inl (s, mset L m x))) st.

Definition mutex_acquire (fuel : nat) (st : sched Q * S) : outcome (sched Q * S) :=
  let '(s, x) := st in
  m ← lock_mutex (mget L x);
  '(s, x) ← wait_owner fuel (s, mset L m x);
  Done (s, mset L (unlock_mutex (with_owner cur (mget L x))) x).

Definition mutex_wait (fuel : nat) (st : sched Q * S) : outcome (sched Q * S) :=
  let '(s, x) := st in
  m ← lock_mutex (mget L x);
  '(s, x) ← wait_owner fuel (s, mset L m x);
  Done (s, mset L (unlock_mutex (mget L x)) x).

End Sleeping.

(** ** The interface of the wait queue, lifted to mutexes *)

(** The mutex is unlocked, and its queue holds [ws]. *)
Definition mutex_rep (m : mutex_t Q) (o : Z) (ws : list Z) : Prop :=
  m_lock m = false /\ m_owner m = o /\ qrep (m_waiting m) ws.

(** The runnable queue holds [rs], and every process of [ps] is live. *)
Definition sched_rep (s : sched Q) (rs ps : list Z) : Prop :=
  qrep (thread_queue s) rs /\ (forall p, p ∈ ps -> is_Some (p_flags s !! p)).

(** The flags after the processes [ps] are woken. *)
Definition woken (ps : list Z) (fl : gmap Z Z) : gmap Z Z :=
  foldl (fun fl p => alter (fun f => Z.ldiff f PROC_FLAG_SLEEP_INTERRUPTIBLE) p fl) fl ps.

Lemma schedule_process_ok s rs p ps :
  sched_rep s rs (p :: ps) -> Z.of_nat (length rs) + 1 < 2 ^ 64 - 1 ->
  exists s', schedule_process p s = Done s' /\ sched_rep s' (rs ++ [p]) ps /\
    p_flags s' = alter (fun f => Z.ldiff f PROC_FLAG_SLEEP_INTERRUPTIBLE) p (p_flags s).
Proof.
  intros [Hq Hl] Hlen. destruct (Hl p) as [f Hf]; [by left|].
  destruct (q_insert_ok _ _ p Hq Hlen) as (q' & Hq' & Hr).
  unfold schedule_process, clear_flag. rewrite Hf. simpl. rewrite Hq'. simpl.
  assert (Ea : <[p := Z.ldiff f PROC_FLAG_SLEEP_INTERRUPTIBLE]> (p_flags s)
               = alter (fun f => Z.ldiff f PROC_FLAG_SLEEP_INTERRUPTIBLE) p (p_flags s)).
  { apply map_eq. intros i. destruct (decide (i = p)) as [->|Hne].
    - by rewrite lookup_insert_eq, lookup_alter_eq, Hf.
    - by rewrite lookup_insert_ne, lookup_alter_ne. }
  eexists. split; [done|]. split; [|simpl; by rewrite Ea].
  split; [done|]. intros x Hx. simpl. destruct (decide (x = p)) as [->|Hne].
  - rewrite lookup_insert_eq. eauto.
  - rewrite lookup_insert_ne by done. apply Hl. by right.
Qed.

Lemma wakeup_waiting_ok ws : forall fuel s queue rs,
  qrep queue ws -> sched_rep s rs ws -> Forall (fun p => p <> 0) ws ->
  (length ws < fuel)%nat -> Z.of_nat (length rs) + Z.of_nat (length ws) < 2 ^ 64 - 1 ->
  exists s' queue', wakeup_waiting fuel s queue = Done (s', queue') /\ qrep queue' [] /\
    qrep (thread_queue s') (rs ++ ws) /\ p_flags s' = woken ws (p_flags s).
Proof.
  induction ws as [|w ws IH]; intros fuel s queue rs Hq Hs H0 Hf Hlen;
    destruct fuel as [|fuel]; simpl in *; try lia; unfold wakeup_waiting; simpl;
    rewrite (q_front_ok _ _ Hq); simpl.
  - exists s, queue. rewrite app_nil_r. by destruct Hs.
  - inversion H0; subst. rewrite decide_False by done.
    destruct (schedule_process_ok s rs w ws Hs) as (s1 & Hs1 & Hr1 & Hf1); [lia|].
    rewrite Hs1. simpl. destruct (q_drop_ok _ _ _ Hq) as (q1 & -> & Hq1). simpl.
    destruct (IH fuel s1 q1 (rs ++ [w]) Hq1 Hr1) as (s2 & q2 & Hrun & Hq2 & Ht & Hfl);
      try done; [lia|rewrite length_app; simpl; lia|].
    exists s2, q2. split; [exact Hrun|]. split; [done|].
    rewrite <-app_assoc in Ht. split; [done|]. by rewrite Hfl, Hf1.
Qed.

(** What a client of the wait queues uses: a non-blocking try, and a release
    that cannot block when the mutex is unlocked. *)
Lemma mutex_try_ok cur m o ws :
  mutex_rep m o ws ->
  exists m', mutex_acquire_if_free cur m = Done (bool_decide (o = 0), m') /\
    mutex_rep m' (if decide (o = 0) then cur else o) ws.
Proof.
  intros (Hl & Ho & Hq). unfold mutex_acquire_if_free, lock_mutex, mutex_rep. rewrite Hl, <-Ho. simpl.
  case_decide as E; simpl.
  - rewrite bool_decide_true by done. eexists. split; [done|]. done.
  - rewrite bool_decide_false by done. eexists. split; [done|]. done.
Qed.

Lemma mutex_release_ok fuel s m o ws rs :
  mutex_rep m o ws -> sched_rep s rs ws -> Forall (fun p => p <> 0) ws ->
  (length ws < fuel)%nat -> Z.of_nat (length rs) + Z.of_nat (length ws) < 2 ^ 64 - 1 ->
  exists s' m', mutex_release fuel s m = Done (s', m') /\ mutex_rep m' 0 [] /\
    qrep (thread_queue s') (rs ++ ws) /\ p_flags s' = woken ws (p_flags s).
Proof.
  intros (Hl & Ho & Hq) Hs H0 Hf Hlen. unfold mutex_release, lock_mutex. rewrite Hl. simpl.
  destruct (wakeup_waiting_ok ws fuel s (m_waiting m) rs) as (s' & q' & -> & Hq' & Ht & Hfl); try done.
  simpl. eexists s', _. split; [done|]. done.
Qed.

End Ops.

#[export] Instance seq_queue : Queue (list Z).
Proof.
  refine {| qrep := fun s vs => s = vs; q_insert := fun v s => Done (s ++ [v]);
            q_front := fun s => Done (head s); q_drop := fun s => Done (tail s) |}.
  - intros s vs v -> _. eauto.
  - by intros s vs ->.
  - intros s v vs ->. eauto.
Defined.

(** ** The same code as steps of concurrent threads

    A thread is between calls ([Idle]), or inside mutex_acquire ([AcqSpin] at
    spin_lock, [AcqTest] holding the lock at the loop's test, [WaitSpin] inside
    wait_for_object before its spin_lock, [WaitEnq] holding the lock there,
    [Asleep] after schedule(true)), or holds the mutex ([Holds]), or is inside
    mutex_release ([RelSpin] at spin_lock, [RelBody] holding the lock). *)
Inductive pc := Idle | AcqSpin | AcqTest | WaitSpin | WaitEnq | Asleep | Holds | RelSpin | RelBody.

#[export] Instance pc_eq_dec : EqDecision pc.
Proof. solve_decision. Defined.

Record threads := mk_threads { t_mutex : mutex_t (list Z); t_pc : gmap Z pc }.

(** [wake ws pcs]: schedule_process makes the sleeping threads runnable; they
    go on at the spin_lock after wait_for_object. *)
Definition wake (ws : list Z) (pcs : gmap Z pc) : gmap Z pc :=
  foldl (fun pcs t => alter (fun c => match c with Asleep => AcqSpin | c => c end) t pcs) pcs ws.

(** One step of thread [t]: from one lock operation to the next. *)
Definition step_thread (t : Z) (st : threads) : option threads :=
  let m := t_mutex st in
  let go m c := Some (mk_threads m (<[t := c]> (t_pc st))) in
  match t_pc st !! t with
  | Some Idle => go m AcqSpin
  | Some AcqSpin => match lock_mutex m with Done m => go m AcqTest | _ => None end
  | Some AcqTest =>
      if decide (m_owner m = 0) then go (unlock_mutex (with_owner t m)) Holds
      else go (unlock_mutex m) WaitSpin
  | Some WaitSpin => match lock_mutex m with Done m => go m WaitEnq | _ => None end
  | Some WaitEnq => go (unlock_mutex (with_waiting (m_waiting m ++ [t]) m)) Asleep
  | Some Asleep => None
  | Some Holds => go m RelSpin
  | Some RelSpin => match lock_mutex m with Done m => go m RelBody | _ => None end
  | Some RelBody =>
      Some (mk_threads (unlock_mutex (with_waiting [] (with_owner 0 m)))
              (wake (m_waiting m) (<[t := Idle]> (t_pc st))))
  | None => None
  end.

Inductive reach (s0 : threads) : threads -> Prop :=
| reach_refl : reach s0 s0
| reach_step s t s' : reach s0 s -> step_thread t s = Some s' -> reach s0 s'.

(** The start: a mutex after mutex_init, the threads [1..n] idle. *)
Definition start (n : nat) : threads :=
  mk_threads (mutex_init [] (mk_mutex true 0 []))
             (list_to_map ((fun k => (Z.of_nat k, Idle)) <$> seq 1 n)).

Definition in_lock (c : pc) : bool :=
  match c with AcqTest | WaitEnq | RelBody => true | _ => false end.
Definition in_mutex (c : pc) : bool :=
  match c with Holds | RelSpin | RelBody => true | _ => false end.

Record threads_inv (s : threads) : Prop := {
  ti_id : forall t c, t_pc s !! t = Some c -> t <> 0;
  ti_lock : forall t c, t_pc s !! t = Some c -> in_lock c = true -> m_lock (t_mutex s) = true;
  ti_lock_one : forall t t' c c', t_pc s !! t = Some c -> t_pc s !! t' = Some c' ->
    in_lock c = true -> in_lock c' = true -> t = t';
  ti_held : m_lock (t_mutex s) = true -> exists t c, t_pc s !! t = Some c /\ in_lock c = true;
  ti_owner : forall t c, t_pc s !! t = Some c -> in_mutex c = true -> m_owner (t_mutex s) = t;
  ti_owned : m_owner (t_mutex s) <> 0 ->
    exists c, t_pc s !! (m_owner (t_mutex s)) = Some c /\ in_mutex c = true;
  ti_asleep : forall t, t_pc s !! t = Some Asleep <-> t ∈ m_waiting (t_mutex s);
  ti_nodup : NoDup (m_waiting (t_mutex s))
}.

Definition woken_pc (c : pc) : pc := match c with Asleep => AcqSpin | c => c end.

Lemma woken_pc_idem c : woken_pc (woken_pc c) = woken_pc c.
Proof. by destruct c. Qed.

Lemma wake_lookup ws : forall pcs t,
  wake ws pcs !! t = (if decide (t ∈ ws) then woken_pc <$> (pcs !! t) else pcs !! t).
Proof.
  induction ws as [|w ws IH]; intros pcs t.
  - case_decide as E; [inversion E|done].
  - change (wake (w :: ws) pcs) with (wake ws (alter woken_pc w pcs)). rewrite IH.
    destruct (decide (t = w)) as [->|Hne].
    + rewrite lookup_alter_eq, (decide_True (P := w ∈ w :: ws)) by left.
      case_decide; [|done]. destruct (pcs !! w); simpl; [|done]. by rewrite woken_pc_idem.
    + rewrite lookup_alter_ne by done.
      repeat case_decide; try done; rewrite elem_of_cons in *; naive_solver.
Qed.

Lemma wake_pc ws pcs t c :
  wake ws pcs !! t = Some c ->
  exists c0, pcs !! t = Some c0 /\ c = (if decide (t ∈ ws) then woken_pc c0 else c0).
Proof.
  rewrite wake_lookup. case_decide; [|eauto]. intros Hc. apply fmap_Some in Hc as (c0 & ? & ->). eauto.
Qed.

(** What a step changes besides the program counter of its thread is small
    enough for every field of the invariant to be read off the lookups. *)
Lemma pc_insert_inv (pcs : gmap Z pc) t c t' c' :
  <[t := c]> pcs !! t' = Some c' -> (t' = t /\ c' = c) \/ (t' <> t /\ pcs !! t' = Some c').
Proof. intros Hl. apply lookup_insert_Some in Hl as [[-> ->]|[? ?]]; auto. Qed.

Lemma start_inv n : threads_inv (start n).
Proof.
  assert (Hpc : forall t c, t_pc (start n) !! t = Some c -> t <> 0 /\ c = Idle).
  { intros t c Ht. simpl in Ht. apply elem_of_list_to_map_2 in Ht.
    apply list_elem_of_fmap in Ht as (k & [= -> ->] & Hk). apply elem_of_seq in Hk. split; [lia|done]. }
  constructor; try done.
  - intros t c Ht. apply (Hpc _ _ Ht).
  - intros t c Ht. by destruct (Hpc _ _ Ht) as [_ ->].
  - intros t t' c c' Ht. by destruct (Hpc _ _ Ht) as [_ ->].
  - intros t c Ht. by destruct (Hpc _ _ Ht) as [_ ->].
  - intros t. split; [|inversion 1]. intros Ht. by destruct (Hpc _ _ Ht).
  - constructor.
Qed.

(** Lock acquisition inside the steps. *)
Lemma lock_mutex_done (m m' : mutex_t (list Z)) :
  lock_mutex m = Done m' -> m_lock m = false /\ m' = with_lock true m.
Proof. unfold lock_mutex. destruct (m_lock m); simpl; [done|]. intros [= <-]. done. Qed.

Ltac step_cases Hst :=
  unfold step_thread in Hst;
  match type of Hst with context [t_pc ?s !! ?t] =>
    let c := fresh "c" in let E := fresh "Epc" in
    destruct (t_pc s !! t) as [c|] eqn:E; [destruct c|]; simpl in Hst; try discriminate
  end;
  repeat match type of Hst with context [lock_mutex ?m] =>
    let E := fresh "Elk" in destruct (lock_mutex m) eqn:E; try discriminate;
    apply lock_mutex_done in E as [? ->] end;
  repeat case_decide; simplify_eq; simpl in *.

Ltac pc_inv :=
  repeat match goal with
  | H : <[_ := _]> _ !! _ = Some _ |- _ => apply pc_insert_inv in H as [[-> ->]|[? ?]]
  | H : wake _ _ !! _ = Some _ |- _ => apply wake_pc in H as (? & H & ?)
  end; subst; simpl in *.

Ltac wake_case :=
  repeat match goal with H : context [decide (?t ∈ ?w)] |- _ => destruct (decide (t ∈ w)) end.

Ltac by_inv :=
  intros; pc_inv; wake_case; repeat match goal with c : pc |- _ => destruct c end; simpl in *;
  try done; try congruence; try naive_solver.

Lemma held_step s t s' : threads_inv s -> step_thread t s = Some s' ->
  m_lock (t_mutex s') = true -> exists u c, t_pc s' !! u = Some c /\ in_lock c = true.
Proof.
  intros [_ _ _ Hheld _ _ _ _] Hst Hl.
  assert (Hkeep : forall c0 c, m_lock (t_mutex s) = true -> t_pc s !! t = Some c0 -> in_lock c0 = false ->
    exists u d, <[t := c]> (t_pc s) !! u = Some d /\ in_lock d = true).
  { intros c0 c Hm Ht Hc0. destruct (Hheld Hm) as (u & d & Hu & Hd). exists u, d.
    rewrite lookup_insert_ne; [done|]. intros <-. congruence. }
  step_cases Hst; try (by eapply Hkeep); exists t; eexists; rewrite lookup_insert_eq; split; done.
Qed.

Lemma owner_step s t s' u c : threads_inv s -> step_thread t s = Some s' ->
  t_pc s' !! u = Some c -> in_mutex c = true -> m_owner (t_mutex s') = u.
Proof.
  intros [Hid _ _ _ Hown Howned _ _] Hst Hu Hc. pose proof (Hown u) as Hou. pose proof (Hown t) as Hot.
  pose proof (Hid u) as Hiu. step_cases Hst; pc_inv; wake_case; subst; simpl in *; try done; eauto.
  - exfalso. specialize (Hou _ ltac:(done) Hc). specialize (Hiu _ ltac:(done)). congruence.
  - exfalso. match goal with H : t_pc _ !! u = Some ?x |- _ => specialize (Hou x H); destruct x end;
      simpl in *; try done; specialize (Hot _ ltac:(done) ltac:(done)); rewrite Hou in Hot; done.
  - exfalso. specialize (Hou _ ltac:(done) Hc). specialize (Hot _ ltac:(done) ltac:(done)). congruence.
Qed.

Lemma owned_step s t s' : threads_inv s -> step_thread t s = Some s' ->
  m_owner (t_mutex s') <> 0 -> exists c, t_pc s' !! m_owner (t_mutex s') = Some c /\ in_mutex c = true.
Proof.
  intros [Hid _ _ _ Hown Howned _ _] Hst Hne.
  assert (Hkeep : forall c, m_owner (t_mutex s) <> 0 ->
    (forall d, t_pc s !! t = Some d -> in_mutex d = true -> in_mutex c = true) ->
    exists d, <[t := c]> (t_pc s) !! m_owner (t_mutex s) = Some d /\ in_mutex d = true).
  { intros c Hm Hd. destruct (Howned Hm) as (d & Hd1 & Hd2).
    destruct (decide (t = m_owner (t_mutex s))) as [Ht|Ht].
    - exists c. rewrite Ht, lookup_insert_eq. split; [done|]. rewrite <-Ht in Hd1. eauto.
    - exists d. by rewrite lookup_insert_ne. }
  step_cases Hst; try (apply Hkeep; [done|]; intros d Hd; simplify_eq; done); try done.
  eexists. by rewrite lookup_insert_eq.
Qed.

Lemma asleep_step s t s' u : threads_inv s -> step_thread t s = Some s' ->
  t_pc s' !! u = Some Asleep <-> u ∈ m_waiting (t_mutex s').
Proof.
  intros [_ _ _ _ _ _ Hasl _] Hst. specialize (Hasl u).
  assert (Hkeep : forall c, c <> Asleep -> t_pc s !! t <> Some Asleep ->
    <[t := c]> (t_pc s) !! u = Some Asleep <-> u ∈ m_waiting (t_mutex s)).
  { intros c Hc Ht. rewrite <-Hasl. destruct (decide (t = u)) as [->|Hne].
    - rewrite lookup_insert_eq. split; [congruence|done].
    - by rewrite lookup_insert_ne. }
  step_cases Hst; try (apply Hkeep; congruence).
  - rewrite elem_of_app, list_elem_of_singleton. destruct (decide (t = u)) as [->|Hne].
    + rewrite lookup_insert_eq. tauto.
    + rewrite lookup_insert_ne by done. naive_solver.
  - split; [|inversion 1]. intros Hw. apply wake_pc in Hw as (c & Hc & Hcw). exfalso.
    apply pc_insert_inv in Hc as [[-> ->]|[Hne Hc]].
    + by case_decide.
    + case_decide; [by destruct c|]. subst c. tauto.
Qed.

Lemma nodup_step s t s' : threads_inv s -> step_thread t s = Some s' -> NoDup (m_waiting (t_mutex s')).
Proof.
  intros [_ _ _ _ _ _ Hasl Hnd] Hst. specialize (Hasl t).
  step_cases Hst; try done; try constructor.
  apply NoDup_app. split; [done|]. split.
  - intros x Hx Hx'. apply list_elem_of_singleton in Hx' as ->. apply Hasl in Hx. congruence.
  - apply NoDup_singleton.
Qed.

Lemma step_preserves_inv s t s' : threads_inv s -> step_thread t s = Some s' -> threads_inv s'.
Proof.
  intros HI Hst. constructor; try (by intros; (eapply held_step || eapply owned_step || eapply asleep_step || eapply nodup_step)).
  - destruct HI as [Hid _ _ _ _ _ _ _]. step_cases Hst; by_inv.
  - destruct HI as [_ Hlk Hone _ _ _ _ _]. step_cases Hst; by_inv.
  - destruct HI as [_ Hlk Hone _ _ _ _ _]. step_cases Hst; by_inv.
  - intros. by eapply owner_step.
Qed.

Lemma reach_inv n s : reach (start n) s -> threads_inv s.
Proof. induction 1; [apply start_inv | by eapply step_preserves_inv]. Qed.

(** Runs a schedule: the thread of each step. *)
Fixpoint run_threads (ts : list Z) (s : threads) : option threads :=
  match ts with
  | [] => Some s
  | t :: ts => match step_thread t s with Some s => run_threads ts s | None => None end
  end.

Lemma run_threads_reach ts : forall s0 s s', reach s0 s -> run_threads ts s = Some s' -> reach s0 s'.
Proof.
  induction ts as [|t ts IH]; intros s0 s s' Hr Hrun; simpl in Hrun; [by simplify_eq|].
  destruct (step_thread t s) eqn:E; [|done]. eapply IH; [|done]. by eapply reach_step.
Qed.

(** ** Properties *)

(** C11: in every reachable state of any number of threads that call
    mutex_acquire and mutex_release, at most one thread holds the mutex, and
    the owner field names it. *)
Theorem mutex_mutual_exclusion n s t t' c c' :
  reach (start n) s -> t_pc s !! t = Some c -> t_pc s !! t' = Some c' ->
  in_mutex c = true -> in_mutex c' = true -> t = t' /\ m_owner (t_mutex s) = t.
Proof.
  intros Hr Ht Ht' Hc Hc'. apply reach_inv in Hr.
  pose proof (ti_owner _ Hr _ _ Ht Hc). pose proof (ti_owner _ Hr _ _ Ht' Hc'). split; congruence.
Qed.

(** Thread 2 holds the mutex after three steps, thread 1 is waiting. *)
Definition held_schedule : list Z := [2; 2; 2; 1; 1; 1; 1; 1].

Example mutex_mutual_exclusion_witness :
  exists s, run_threads held_schedule (start 2) = Some s /\ t_pc s !! 1 = Some Asleep /\
    2 = 2 /\ m_owner (t_mutex s) = 2.
Proof.
  eexists. split; [reflexivity|]. split; [reflexivity|].
  eapply (mutex_mutual_exclusion 2 _ 2 2 Holds Holds);
    [eapply (run_threads_reach held_schedule); [apply reach_refl|reflexivity]|reflexivity..].
Defined.

(** A release step leaves the mutex free and unlocked with an empty queue,
    and no thread asleep: every thread that was enqueued is made runnable. *)
Theorem mutex_release_wakes_all n s t s' :
  reach (start n) s -> t_pc s !! t = Some RelBody -> step_thread t s = Some s' ->
  m_owner (t_mutex s') = 0 /\ m_lock (t_mutex s') = false /\ m_waiting (t_mutex s') = [] /\
  (forall u, t_pc s' !! u <> Some Asleep) /\
  (forall u, t_pc s !! u = Some Asleep -> t_pc s' !! u = Some AcqSpin).
Proof.
  intros Hr Ht Hst. apply reach_inv in Hr. pose proof (step_preserves_inv _ _ _ Hr Hst) as Hr'.
  pose proof (ti_asleep _ Hr') as Ha'. pose proof (ti_asleep _ Hr) as Ha. unfold step_thread in Hst.
  rewrite Ht in Hst. injection Hst as <-. simpl in *. do 3 (split; [done|]). split.
  - intros u Hu. apply Ha' in Hu. inversion Hu.
  - intros u Hu. rewrite wake_lookup. pose proof Hu as Hin. apply Ha in Hin.
    rewrite decide_True by done. rewrite lookup_insert_ne; [by rewrite Hu|]. intros <-. congruence.
Qed.

Example mutex_release_wakes_all_witness :
  exists s s', run_threads (held_schedule ++ [2; 2]) (start 2) = Some s /\
    step_thread 2 s = Some s' /\
    m_owner (t_mutex s') = 0 /\ m_lock (t_mutex s') = false /\ m_waiting (t_mutex s') = [] /\
    (forall u, t_pc s' !! u <> Some Asleep) /\
    (forall u, t_pc s !! u = Some Asleep -> t_pc s' !! u = Some AcqSpin).
Proof.
  eexists _, _. split; [reflexivity|]. split; [reflexivity|].
  eapply (mutex_release_wakes_all 2 _ 2);
    [eapply (run_threads_reach (held_schedule ++ [2; 2])); [apply reach_refl|reflexivity]|reflexivity..].
Defined.

(** Mutex_acquire can lose a wakeup.  Two threads reach a state in which
    the mutex is free and unlocked, thread 1 sleeps on its queue, and thread 2
    is outside every call: nobody is left to wake thread 1.  Between the
    unlock of mutex_acquire and the lock of wait_for_object the owner
    released. *)
Theorem mutex_lost_wakeup :
  exists s, reach (start 2) s /\ t_pc s !! 1 = Some Asleep /\ t_pc s !! 2 = Some Idle /\
    m_owner (t_mutex s) = 0 /\ m_lock (t_mutex s) = false /\ m_waiting (t_mutex s) = [1].
Proof.
  eexists. split.
  - eapply (run_threads_reach [2; 2; 2; 1; 1; 1; 2; 2; 2; 1; 1]); [apply reach_refl|reflexivity].
  - repeat split; reflexivity.
Qed.

(** One thread's mutex_acquire and mutex_release.  On a free mutex
    mutex_acquire takes it without sleeping; on a held one it sleeps once with
    the caller at the back of the queue, and takes the mutex if it is free when
    the caller runs again, whatever the other threads did.  mutex_release
    frees the mutex whoever calls it and schedules the waiting processes in
    their order of arrival. *)
Theorem mutex_acquire_release_spec `{Queue Q} resume cur fuel s (m : mutex_t Q) o ws rs f :
  mutex_rep m o ws -> sched_rep s rs (cur :: ws) -> p_flags s !! cur = Some f ->
  Forall (fun p => p <> 0) ws -> (length ws + 2 < fuel)%nat ->
  Z.of_nat (length rs) + Z.of_nat (length ws) + 1 < 2 ^ 64 - 1 ->
  let L := mk_mlens (fun m => m) (fun m _ => m) in
  (o = 0 -> exists m', mutex_acquire resume cur L fuel (s, m) = Done (s, m') /\ mutex_rep m' cur ws) /\
  (o <> 0 -> forall s1 m1 ws1,
    (forall m0, mutex_rep m0 o (ws ++ [cur]) ->
      resume (mk_sched (<[cur := Z.lor f PROC_FLAG_SLEEP_INTERRUPTIBLE]> (p_flags s)) (thread_queue s), m0)
      = Done (s1, m1)) -> mutex_rep m1 0 ws1 ->
    exists m', mutex_acquire resume cur L fuel (s, m) = Done (s1, m') /\ mutex_rep m' cur ws1) /\
  (exists s' m', mutex_release fuel s m = Done (s', m') /\ mutex_rep m' 0 [] /\
    qrep (thread_queue s') (rs ++ ws) /\ p_flags s' = woken ws (p_flags s)).
Proof.
  intros (Hl & Ho & Hq) Hs Hf H0 Hfuel Hlen L. split; [|split].
  - intros ->. unfold mutex_acquire, wait_owner, lock_mutex. simpl. rewrite Hl.
    destruct fuel as [|fuel]; [lia|]. simpl. rewrite decide_True by done. simpl. eexists. split; [done|]. done.
  - intros Ho0 s1 m1 ws1 Hres (Hl1 & Ho1 & Hq1).
    unfold mutex_acquire, wait_owner, wait_for_object, lock_mutex, set_flag. simpl. rewrite Hl.
    destruct fuel as [|[|fuel]]; [lia..|]. simpl. rewrite decide_False by congruence. simpl.
    destruct (q_insert_ok _ _ cur Hq) as (w & -> & Hw); [lia|]. simpl. rewrite Hf. simpl.
    rewrite Hres by done. simpl. rewrite Hl1. simpl. rewrite decide_True by done. simpl.
    eexists. split; [done|]. done.
  - apply (mutex_release_ok fuel s m o ws rs); try done; try lia.
    destruct Hs as [? Hp]. split; [done|]. intros p Hin. apply Hp. by right.
Qed.

Example mutex_acquire_release_spec_witness :
  let s : sched (list Z) := mk_sched {[1 := 2; 2 := 10]} [] in
  let m : mutex_t (list Z) := mk_mutex false 3 [2] in
  let resume := fun st : sched (list Z) * mutex_t (list Z) => mutex_release 9 (fst st) (snd st) in
  let L := mk_mlens (fun m => m) (fun m _ => m) in
  (3 = 0 -> exists m', mutex_acquire resume 1 L 9 (s, m) = Done (s, m') /\ mutex_rep m' 1 [2]) /\
  (3 <> 0 -> forall s1 m1 ws1,
    (forall m0, mutex_rep m0 3 ([2] ++ [1]) ->
      resume (mk_sched (<[1 := Z.lor 2 PROC_FLAG_SLEEP_INTERRUPTIBLE]> (p_flags s)) (thread_queue s), m0)
      = Done (s1, m1)) -> mutex_rep m1 0 ws1 ->
    exists m', mutex_acquire resume 1 L 9 (s, m) = Done (s1, m') /\ mutex_rep m' 1 ws1) /\
  (exists s' m', mutex_release 9 s m = Done (s', m') /\ mutex_rep m' 0 [] /\
    qrep (thread_queue s') ([] ++ [2]) /\ p_flags s' = woken [2] (p_flags s)).
Proof.
  apply (mutex_acquire_release_spec _ 1 9 (mk_sched {[1 := 2; 2 := 10]} []) (mk_mutex false 3 [2]) 3 [2] [] 2).
  - done.
  - split; [done|]. intros p Hp. apply elem_of_cons in Hp as [->|Hp]; [eauto|].
    apply list_elem_of_singleton in Hp as ->. eauto.
  - done.
  - repeat constructor. lia.
  - simpl. lia.
  - simpl. lia.
Defined.
