(* ===== verification/RingBuffer.v ===== *)
(** The ring buffer of libc/kernel/ring_buffer.c over the mutex wait queues of
    Mutex.v.

    The record has the fields of circular_buffer_t; the kernel state [sched] is
    threaded beside it because a write or a read wakes the sleepers of the
    other side.  [resume] is what other threads do while this one sleeps (see
    Mutex.v).  The interrupt flag (cli, sti) is not state here.  [cb_rep]
    relates the buffer to the FIFO it stands for. *)
From stdpp Require Import base list gmap strings.
From Stdlib Require Import ZArith Lia.
From S2P Require Import Prelude KList Mutex.

#[local] Open Scope Z_scope.

(** ** Data *)
Record circular_buffer (Q : Type) := mk_cb {
  cb_buffer : list Z;
  cb_head : Z;
  cb_tail : Z;
  cb_max : Z;
  cb_lock : bool;
  cb_wait_write : mutex_t Q;
  cb_wait_read : mutex_t Q;
  cb_blocking : bool
}.
Arguments mk_cb {Q}.
Arguments cb_buffer {Q}.
Arguments cb_head {Q}.
Arguments cb_tail {Q}.
Arguments cb_max {Q}.
Arguments cb_lock {Q}.
Arguments cb_wait_write {Q}.
Arguments cb_wait_read {Q}.
Arguments cb_blocking {Q}.

Section RingBuffer.
Context {Q : Type} `{Queue Q}.

Definition set_buf (b : list Z) (h t : Z) (cb : circular_buffer Q) : circular_buffer Q :=
  mk_cb b h t (cb_max cb) (cb_lock cb) (cb_wait_write cb) (cb_wait_read cb) (cb_blocking cb).
Definition set_lock (l : bool) (cb : circular_buffer Q) : circular_buffer Q :=
  mk_cb (cb_buffer cb) (cb_head cb) (cb_tail cb) (cb_max cb) l
    (cb_wait_write cb) (cb_wait_read cb) (cb_blocking cb).
Definition set_wait_write (m : mutex_t Q) (cb : circular_buffer Q) : circular_buffer Q :=
  mk_cb (cb_buffer cb) (cb_head cb) (cb_tail cb) (cb_max cb) (cb_lock cb)
    m (cb_wait_read cb) (cb_blocking cb).
Definition set_wait_read (m : mutex_t Q) (cb : circular_buffer Q) : circular_buffer Q :=
  mk_cb (cb_buffer cb) (cb_head cb) (cb_tail cb) (cb_max cb) (cb_lock cb)
    (cb_wait_write cb) m (cb_blocking cb).

Definition lens_write : mlens Q (circular_buffer Q) := mk_mlens cb_wait_write set_wait_write.
Definition lens_read : mlens Q (circular_buffer Q) := mk_mlens cb_wait_read set_wait_read.

Definition cb_spin_lock (cb : circular_buffer Q) : outcome (circular_buffer Q) :=
  l ← spin_lock (cb_lock cb); Done (set_lock l cb).
Definition cb_spin_unlock (cb : circular_buffer Q) : circular_buffer Q :=
  set_lock (spin_unlock (cb_lock cb)) cb.

(** ** Operations *)

(** calloc zeroes the record and the data; [empty] is list_create(). *)
Definition ring_buffer_create (empty : Q) (size : Z) (blockingWrite : bool) : circular_buffer Q :=
  mk_cb (replicate (Z.to_nat size) 0) 0 0 (u64 size) false
    (mutex_init empty (mk_mutex false 0 empty)) (mutex_init empty (mk_mutex false 0 empty)) blockingWrite.

(** The functions return int: the unsigned 64-bit difference is truncated. *)
Definition ring_buffer_writeable (cb : circular_buffer Q) : Z :=
  if decide (cb_head cb = cb_tail cb) then s32 (u64 (cb_max cb - 1))
  else if decide (cb_tail cb < cb_head cb) then s32 (u64 (cb_head cb - cb_tail cb - 1))
  else s32 (u64 ((cb_max cb - cb_tail cb) + cb_head cb - 1)).

Definition ring_buffer_available (cb : circular_buffer Q) : Z :=
  if decide (cb_head cb = cb_tail cb) then 0
  else if decide (cb_tail cb < cb_head cb) then s32 (u64 ((cb_max cb - cb_head cb) + cb_tail cb))
  else s32 (u64 (cb_tail cb - cb_head cb)).

(** One turn of the copy loop of ring_buffer_write, the lock taken and given
    back around it. *)
Definition put_byte (d : Z) (cb : circular_buffer Q) : outcome (circular_buffer Q) :=
  cb ← cb_spin_lock cb;
  b ← aset (cb_buffer cb) (cb_tail cb) d;
  let t := u64 (cb_tail cb + 1) in
  let t := if decide (cb_max cb <= t) then 0 else t in
  Done (cb_spin_unlock (set_buf b (cb_head cb) t cb)).

(** [while(written < size)]: the comparison is unsigned. *)
Definition write_step (size : Z) (data : list Z) (st : Z * circular_buffer Q)
    : outcome (Z * circular_buffer Q + Z * circular_buffer Q) :=
  let '(written, cb) := st in
  if decide (u64 size <= written) then Done (inr (written, cb))
  else d ← aget data written; cb ← put_byte d cb; Done (inl (u64 (written + 1), cb)).

Definition write_loop (fuel : nat) (size : Z) (data : list Z) (cb : circular_buffer Q)
    : outcome (Z * circular_buffer Q) := loop fuel (write_step size data) (0, cb).

(** [if(mutex_acquire_if_free(q)) return; mutex_release(q);] *)
Definition wake_side (fuel : nat) (cur : Z) (L : mlens Q (circular_buffer Q)) (s : sched Q)
    (cb : circular_buffer Q) : outcome (sched Q * circular_buffer Q) :=
  '(free, m) ← mutex_acquire_if_free cur (mget L cb);
  let cb := mset L m cb in
  if (free : bool) then Done (s, cb)
  else '(s, m) ← mutex_release fuel s (mget L cb); Done (s, mset L m cb).

(** [mutex_acquire_if_free(q); mutex_wait(q);] *)
Definition sleep_on (resume : sched Q * circular_buffer Q -> outcome (sched Q * circular_buffer Q))
    (fuel : nat) (cur : Z) (L : mlens Q (circular_buffer Q))
    (s : sched Q) (cb : circular_buffer Q) : outcome (sched Q * circular_buffer Q) :=
  '(_, m) ← mutex_acquire_if_free cur (mget L cb);
  mutex_wait resume cur L fuel (s, mset L m cb).

Definition ring_buffer_write resume (fuel : nat) (cur : Z) (s : sched Q) (cb : circular_buffer Q)
    (size : Z) (data : list Z) : outcome (Z * sched Q * circular_buffer Q) :=
  '(ok, s, cb) ← loop fuel (fun '(s, cb) =>
    if decide (size <= ring_buffer_writeable cb) then Done (inr (true, s, cb))
    else if cb_blocking cb then st ← sleep_on resume fuel cur lens_write s cb; Done (inl st)
    else Done (inr (false, s, cb))) (s, cb);
  if (ok : bool) then
    '(written, cb) ← write_loop fuel size data cb;
    '(s, cb) ← wake_side fuel cur lens_read s cb;
    Done (s32 written, s, cb)
  else Done (0, s, cb).

(** The copy loop of ring_buffer_read; the lock is held. *)
Definition read_step (size : Z) (st : Z * list Z * circular_buffer Q)
    : outcome (Z * list Z * circular_buffer Q + Z * list Z * circular_buffer Q) :=
  let '(written, buffer, cb) := st in
  if decide (0 < ring_buffer_available cb /\ written < u64 size) then
    d ← aget (cb_buffer cb) (cb_head cb);
    buffer ← aset buffer written d;
    Done (inl (u64 (written + 1), buffer,
      set_buf (cb_buffer cb) (u64 (cb_head cb + 1) mod cb_max cb) (cb_tail cb) cb))
  else Done (inr (written, buffer, cb)).

Definition read_loop (fuel : nat) (size : Z) (buffer : list Z) (cb : circular_buffer Q)
    : outcome (Z * list Z * circular_buffer Q) := loop fuel (read_step size) (0, buffer, cb).

(** [while(written == 0)]: a first pass; when it reads nothing, one sleep and
    a second pass, after which the call returns even with nothing read. *)
Definition ring_buffer_read resume (fuel : nat) (cur : Z) (s : sched Q) (cb : circular_buffer Q)
    (size : Z) (buffer : list Z) : outcome (Z * list Z * sched Q * circular_buffer Q) :=
  cb ← cb_spin_lock cb;
  '(written, buffer, cb) ← read_loop fuel size buffer cb;
  if decide (written = 0) then
    '(s, cb) ← sleep_on resume fuel cur lens_read s (cb_spin_unlock cb);
    cb ← cb_spin_lock cb;
    '(written, buffer, cb) ← read_loop fuel size buffer cb;
    let cb := cb_spin_unlock cb in
    if decide (written = 0) then Done (0, buffer, s, cb)
    else '(s, cb) ← wake_side fuel cur lens_write s cb; Done (s32 written, buffer, s, cb)
  else
    '(s, cb) ← wake_side fuel cur lens_write s (cb_spin_unlock cb);
    Done (s32 written, buffer, s, cb).

Definition ring_buffer_pop (fuel : nat) (cur : Z) (s : sched Q) (cb : circular_buffer Q)
    : outcome (Z * sched Q * circular_buffer Q) :=
  cb ← cb_spin_lock cb;
  if decide (ring_buffer_available cb = 0) then Done (0, s, cb_spin_unlock cb)
  else
    let cb := cb_spin_unlock
      (set_buf (cb_buffer cb) (cb_head cb) (u64 (cb_tail cb - 1 + cb_max cb) mod cb_max cb) cb) in
    '(s, cb) ← wake_side fuel cur lens_write s cb;
    Done (1, s, cb).

(** The byte behind the [data] pointer is the second component. *)
Definition ring_buffer_peek (cb : circular_buffer Q) (offset : Z)
    : outcome (Z * option Z * circular_buffer Q) :=
  cb ← cb_spin_lock cb;
  if decide (ring_buffer_available cb <= offset) then Done (0, None, cb_spin_unlock cb)
  else
    d ← aget (cb_buffer cb) (s32 (u64 (cb_head cb + offset) mod cb_max cb));
    Done (1, Some d, cb_spin_unlock cb).

Definition ring_buffer_read_last (cb : circular_buffer Q) : outcome (Z * option Z * circular_buffer Q) :=
  cb ← cb_spin_lock cb;
  if decide (ring_buffer_available cb = 0) then Done (0, None, cb_spin_unlock cb)
  else
    d ← aget (cb_buffer cb) (s32 (u64 (cb_tail cb - 1 + cb_max cb) mod cb_max cb));
    Done (1, Some d, cb_spin_unlock cb).

Definition ring_buffer_discard_readable (cb : circular_buffer Q) : outcome (circular_buffer Q) :=
  cb ← cb_spin_lock cb;
  Done (cb_spin_unlock (set_buf (cb_buffer cb) (cb_tail cb) (cb_tail cb) cb)).

(** ** The FIFO a buffer stands for *)
Record cb_rep (cb : circular_buffer Q) (xs : list Z) : Prop := {
  cr_len : Z.of_nat (length (cb_buffer cb)) = cb_max cb;
  cr_max : 0 < cb_max cb < 2 ^ 31;
  cr_head : 0 <= cb_head cb < cb_max cb;
  cr_size : Z.of_nat (length xs) < cb_max cb;
  cr_tail : cb_tail cb = (cb_head cb + Z.of_nat (length xs)) mod cb_max cb;
  cr_data : forall i x, xs !! i = Some x ->
    cb_buffer cb !! Z.to_nat ((cb_head cb + Z.of_nat i) mod cb_max cb) = Some x;
  cr_lock : cb_lock cb = false
}.

(** [x mod m] for an [x] at most one turn away. *)
Lemma mod_turn x m : 0 < m -> 0 <= x < 2 * m -> x mod m = if decide (x < m) then x else x - m.
Proof.
  intros. case_decide; [by apply Z.mod_small; lia|].
  replace x with ((x - m) + 1 * m) at 1 by lia. rewrite Z.mod_add by lia. apply Z.mod_small. lia.
Qed.

Ltac turns := repeat rewrite mod_turn by lia; repeat case_decide; lia.

(** Moving the lock or a wait queue does not touch the FIFO. *)
Definition same_fifo (cb cb' : circular_buffer Q) : Prop :=
  cb_buffer cb = cb_buffer cb' /\ cb_head cb = cb_head cb' /\ cb_tail cb = cb_tail cb' /\
  cb_max cb = cb_max cb' /\ cb_lock cb = cb_lock cb'.

Lemma cb_rep_same cb cb' xs : same_fifo cb cb' -> cb_rep cb xs -> cb_rep cb' xs.
Proof.
  destruct cb, cb'. intros (Hb & Hh & Ht & Hm & Hl). simpl in *. subst. intros []. by constructor.
Qed.

Lemma available_rep cb xs : cb_rep cb xs -> ring_buffer_available cb = Z.of_nat (length xs).
Proof.
  intros [_ Hm Hh Hs Ht _ _]. unfold ring_buffer_available. rewrite Ht in *.
  rewrite mod_turn in * by lia. repeat case_decide; try lia; rewrite u64_small, s32_small by lia; lia.
Qed.

Lemma writeable_rep cb xs :
  cb_rep cb xs -> ring_buffer_writeable cb = cb_max cb - 1 - Z.of_nat (length xs).
Proof.
  intros [_ Hm Hh Hs Ht _ _]. unfold ring_buffer_writeable. rewrite Ht in *.
  rewrite mod_turn in * by lia. repeat case_decide; try lia; rewrite u64_small, s32_small by lia; lia.
Qed.

(** Adding one element behind the last. *)
Lemma put_byte_rep d cb xs :
  cb_rep cb xs -> Z.of_nat (length xs) + 1 < cb_max cb ->
  exists cb', put_byte d cb = Done cb' /\ cb_rep cb' (xs ++ [d]) /\ cb_head cb' = cb_head cb /\
    cb_max cb' = cb_max cb /\ cb_wait_write cb' = cb_wait_write cb /\
    cb_wait_read cb' = cb_wait_read cb /\ cb_blocking cb' = cb_blocking cb.
Proof.
  intros [Hl Hm Hh Hs Ht Hd Hlk] Hroom. unfold put_byte, cb_spin_lock. rewrite Hlk. simpl.
  assert (Ht' : 0 <= cb_tail cb < cb_max cb) by (rewrite Ht; apply Z.mod_pos_bound; lia).
  rewrite aset_in_range by lia. simpl. rewrite u64_small by lia.
  eexists. split; [done|]. split; [|done]. constructor; simpl.
  - by rewrite length_insert.
  - lia.
  - lia.
  - rewrite length_app. simpl. lia.
  - rewrite length_app. simpl. rewrite Ht. rewrite mod_turn by lia. rewrite mod_turn by lia.
    repeat case_decide; lia.
  - intros i x Hi. apply lookup_app_Some in Hi as [Hi|[Hi Hx]].
    + rewrite list_lookup_insert_ne; [by apply Hd|]. apply lookup_lt_Some in Hi.
      rewrite Ht. turns.
    + apply list_lookup_singleton_Some in Hx as [Hx ->].
      assert (i = length xs) as -> by lia. rewrite <-Ht.
      apply list_lookup_insert_eq. lia.
  - done.
Qed.

(** The queues and the flag do not change while data moves. *)
Definition same_sides (cb cb' : circular_buffer Q) : Prop :=
  cb_max cb' = cb_max cb /\ cb_wait_write cb' = cb_wait_write cb /\
  cb_wait_read cb' = cb_wait_read cb /\ cb_blocking cb' = cb_blocking cb.

Lemma same_sides_trans a b c : same_sides a b -> same_sides b c -> same_sides a c.
Proof. intros (? & ? & ? & ?) (? & ? & ? & ?). split_and!; congruence. Qed.

Lemma write_loop_from fuel size data : forall k cb xs,
  cb_rep cb xs -> 0 <= size < 2 ^ 31 -> size <= Z.of_nat (length data) ->
  Z.of_nat k <= size -> Z.of_nat (length xs) + (size - Z.of_nat k) < cb_max cb ->
  (Z.to_nat (size - Z.of_nat k) < fuel)%nat ->
  exists cb', loop fuel (write_step size data) (Z.of_nat k, cb) = Done (size, cb') /\
    cb_rep cb' (xs ++ drop k (take (Z.to_nat size) data)) /\ same_sides cb cb'.
Proof.
  induction fuel as [|fuel IH]; intros k cb xs Hr Hsz Hdata Hk Hroom Hf; [lia|].
  simpl. rewrite (u64_small size) by lia. case_decide as E; simpl.
  - assert (Z.of_nat k = size) as -> by lia. exists cb. split; [done|].
    rewrite drop_ge by (rewrite length_take; lia). by rewrite app_nil_r.
  - destruct (aget_in_range data (Z.of_nat k)) as (d & -> & Hd); [lia|]. simpl.
    destruct (put_byte_rep d cb xs Hr) as (cb1 & -> & Hr1 & _ & Hs1); [lia|]. simpl.
    rewrite (u64_small (_ + 1)) by lia. replace (Z.of_nat k + 1) with (Z.of_nat (S k)) by lia.
    destruct (IH (S k) cb1 (xs ++ [d]) Hr1) as (cb2 & Hrun & Hr2 & Hs2); try lia.
    { rewrite length_app. simpl. destruct Hs1 as (-> & _). lia. }
    exists cb2. split; [exact Hrun|]. split; [|by eapply same_sides_trans].
    rewrite <-app_assoc in Hr2. rewrite Nat2Z.id in Hd.
    rewrite (drop_S _ d k); [done|]. rewrite lookup_take_lt by lia. done.
Qed.

Lemma write_loop_rep fuel size data cb xs :
  cb_rep cb xs -> 0 <= size <= Z.of_nat (length data) -> Z.of_nat (length xs) + size < cb_max cb ->
  (Z.to_nat size < fuel)%nat ->
  exists cb', write_loop fuel size data cb = Done (size, cb') /\
    cb_rep cb' (xs ++ take (Z.to_nat size) data) /\ same_sides cb cb'.
Proof.
  intros Hr Hsz Hroom Hf. pose proof (cr_max _ _ Hr).
  apply (write_loop_from fuel size data 0 cb xs); try done; lia.
Qed.

(** Taking the first element. *)
Lemma pop_front_rep cb x xs :
  cb_rep cb (x :: xs) ->
  aget (cb_buffer cb) (cb_head cb) = Done x /\
  cb_rep (set_buf (cb_buffer cb) (u64 (cb_head cb + 1) mod cb_max cb) (cb_tail cb) cb) xs.
Proof.
  intros [Hl Hm Hh Hs Ht Hd Hlk]. simpl in *. split.
  - apply aget_done. split; [lia|]. specialize (Hd 0%nat x eq_refl).
    by rewrite Z.add_0_r, Z.mod_small in Hd by lia.
  - rewrite u64_small by lia. constructor; simpl; try done; try lia.
    + apply Z.mod_pos_bound. lia.
    + rewrite Ht. rewrite (mod_turn (cb_head cb + 1)) by lia. case_decide; turns.
    + intros i y Hi. specialize (Hd (S i) y Hi). rewrite <-Hd. f_equal. f_equal.
      pose proof (lookup_lt_Some _ _ _ Hi).
      rewrite (mod_turn (cb_head cb + 1)) by lia. case_decide; turns.
Qed.

Lemma read_loop_from fuel size : forall k buffer cb xs,
  cb_rep (set_lock false cb) xs -> 0 <= size < 2 ^ 31 -> size <= Z.of_nat (length buffer) ->
  Z.of_nat k <= size -> (Z.to_nat (size - Z.of_nat k) < fuel)%nat ->
  let n := Z.to_nat (size - Z.of_nat k) in
  exists cb', loop fuel (read_step size) (Z.of_nat k, buffer, cb)
    = Done (Z.of_nat k + Z.of_nat (length (take n xs)),
            take k buffer ++ take n xs ++ drop (k + length (take n xs)) buffer, cb') /\
    cb_rep (set_lock false cb') (drop n xs) /\ same_sides cb cb' /\ cb_lock cb' = cb_lock cb.
Proof.
  induction fuel as [|fuel IH]; intros k buffer cb xs Hr Hsz Hbuf Hk Hf; [lia|].
  simpl. rewrite (u64_small size) by lia.
  assert (Hav : ring_buffer_available cb = Z.of_nat (length xs)) by apply (available_rep _ _ Hr).
  rewrite Hav. destruct (decide (Z.of_nat k = size)) as [Ek|Ek].
  { rewrite decide_False by lia. simpl. rewrite Ek, Z.sub_diag. simpl. rewrite Z.add_0_r, Nat.add_0_r.
    exists cb. rewrite take_drop. split; [by rewrite <-Ek|]. done. }
  destruct xs as [|x xs].
  - rewrite decide_False by (simpl; lia). rewrite take_nil, drop_nil. simpl. exists cb.
    rewrite Z.add_0_r, Nat.add_0_r, take_drop. done.
  - rewrite decide_True by (simpl; lia). destruct (pop_front_rep _ _ _ Hr) as [Hg Hr1]. simpl in Hg, Hr1.
    rewrite Hg. simpl. rewrite aset_in_range by lia. simpl. rewrite (u64_small (_ + 1)) by lia.
    replace (Z.of_nat k + 1) with (Z.of_nat (S k)) by lia. rewrite Nat2Z.id.
    destruct (IH (S k) (<[k := x]> buffer)
      (set_buf (cb_buffer cb) (u64 (cb_head cb + 1) mod cb_max cb) (cb_tail cb) cb) xs Hr1)
      as (cb2 & Hrun & Hr2 & Hs2 & Hl2); try lia; [rewrite length_insert; lia|].
    set (n' := Z.to_nat (size - Z.of_nat (S k))) in *.
    replace (Z.to_nat (size - Z.of_nat k)) with (S n') by (unfold n'; lia). simpl.
    exists cb2. split; [|split; [done|split; [|done]]].
    + rewrite Hrun. do 3 f_equal; [lia|].
      * rewrite (take_S_r _ k x) by (apply list_lookup_insert_eq; lia).
        rewrite take_insert_ge by lia. rewrite <-app_assoc. simpl. f_equal. f_equal. f_equal.
        rewrite drop_insert_lt by lia. f_equal. lia.
    + eapply same_sides_trans; [|exact Hs2]. done.
Qed.

(** What wake_side does to the queue it is called on: taken when it was free,
    released, with its sleepers scheduled, when it was held. *)
Lemma wake_side_ok fuel cur L s cb o ws rs :
  (forall m, mget L (mset L m cb) = m) -> (forall m m', mset L m (mset L m' cb) = mset L m cb) ->
  mutex_rep (mget L cb) o ws -> sched_rep s rs ws -> Forall (fun p => p <> 0) ws ->
  (length ws < fuel)%nat -> Z.of_nat (length rs) + Z.of_nat (length ws) < 2 ^ 64 - 1 ->
  exists s' m', wake_side fuel cur L s cb = Done (s', mset L m' cb) /\
    (if decide (o = 0) then s' = s /\ mutex_rep m' cur ws
     else p_flags s' = woken ws (p_flags s) /\ qrep (thread_queue s') (rs ++ ws) /\ mutex_rep m' 0 []).
Proof.
  intros Hgs Hss Hm Hs H0 Hf Hlen. unfold wake_side.
  destruct (mutex_try_ok cur _ _ _ Hm) as (m1 & -> & Hm1). simpl.
  destruct (decide (o = 0)) as [->|Ho].
  - rewrite bool_decide_true by done. exists s, m1. done.
  - rewrite bool_decide_false by done. rewrite Hgs.
    destruct (mutex_release_ok fuel s m1 o ws rs Hm1 Hs H0 Hf Hlen) as (s' & m' & -> & Hm' & Ht & Hfl).
    simpl. exists s', m'. rewrite Hss. done.
Qed.

Lemma rep_set_wait_read m cb xs : cb_rep cb xs -> cb_rep (set_wait_read m cb) xs.
Proof. by apply cb_rep_same. Qed.
Lemma rep_set_wait_write m cb xs : cb_rep cb xs -> cb_rep (set_wait_write m cb) xs.
Proof. by apply cb_rep_same. Qed.
Lemma rep_unlocked cb xs : cb_rep (set_lock false cb) xs -> cb_rep (cb_spin_unlock cb) xs.
Proof. done. Qed.
Lemma rep_locked cb xs : cb_rep cb xs -> cb_rep (set_lock false (set_lock true cb)) xs.
Proof. intros Hr. eapply cb_rep_same, Hr. pose proof (cr_lock _ _ Hr). done. Qed.

Lemma cb_spin_lock_ok cb xs : cb_rep cb xs -> cb_spin_lock cb = Done (set_lock true cb).
Proof. intros Hr. unfold cb_spin_lock. by rewrite (cr_lock _ _ Hr). Qed.

Lemma write_enqueues resume fuel cur s cb xs size data o ws rs :
  cb_rep cb xs -> mutex_rep (cb_wait_read cb) o ws -> sched_rep s rs ws ->
  Forall (fun p => p <> 0) ws -> Z.of_nat (length rs) + Z.of_nat (length ws) < 2 ^ 64 - 1 ->
  0 <= size <= Z.of_nat (length data) -> (Z.to_nat size + length ws < fuel)%nat ->
  if decide (Z.of_nat (length xs) + size < cb_max cb) then
    exists s' cb' m', ring_buffer_write resume fuel cur s cb size data = Done (size, s', cb') /\
      cb_rep cb' (xs ++ take (Z.to_nat size) data) /\ cb_wait_read cb' = m' /\
      cb_wait_write cb' = cb_wait_write cb /\
      cb_max cb' = cb_max cb /\ cb_blocking cb' = cb_blocking cb /\
      (if decide (o = 0) then s' = s /\ mutex_rep m' cur ws
       else p_flags s' = woken ws (p_flags s) /\ qrep (thread_queue s') (rs ++ ws) /\ mutex_rep m' 0 [])
  else cb_blocking cb = false -> ring_buffer_write resume fuel cur s cb size data = Done (0, s, cb).
Proof.
  intros Hr Hm Hs H0 Hlen Hsz Hf. pose proof (cr_max _ _ Hr).
  unfold ring_buffer_write. destruct fuel as [|fuel]; [lia|].
  case_decide as Hroom; simpl; rewrite (writeable_rep _ _ Hr).
  - rewrite decide_True by lia. simpl.
    destruct (write_loop_rep (S fuel) size data cb xs Hr) as (cb1 & -> & Hr1 & (Hmx & Hww & Hwr & Hbl));
      try lia. simpl.
    destruct (wake_side_ok (S fuel) cur lens_read s cb1 o ws rs)
      as (s' & m' & -> & Hcase); try done; simpl; [by rewrite Hwr|lia|].
    rewrite s32_small by lia. eexists _, _, _. split; [done|]. split; [by apply rep_set_wait_read|].
    done.
  - intros Hb. rewrite decide_False by lia. by rewrite Hb.
Qed.

Lemma read_dequeues resume fuel cur s cb xs size buffer o ws rs :
  cb_rep cb xs -> mutex_rep (cb_wait_write cb) o ws -> sched_rep s rs ws ->
  Forall (fun p => p <> 0) ws -> Z.of_nat (length rs) + Z.of_nat (length ws) < 2 ^ 64 - 1 ->
  0 < size < 2 ^ 31 -> size <= Z.of_nat (length buffer) -> xs <> [] ->
  (Z.to_nat size + length ws < fuel)%nat ->
  let n := Nat.min (Z.to_nat size) (length xs) in
  exists s' cb' m', ring_buffer_read resume fuel cur s cb size buffer
      = Done (Z.of_nat n, take n xs ++ drop n buffer, s', cb') /\
    cb_rep cb' (drop n xs) /\ cb_wait_write cb' = m' /\ cb_wait_read cb' = cb_wait_read cb /\
    cb_max cb' = cb_max cb /\ cb_blocking cb' = cb_blocking cb /\
    (if decide (o = 0) then s' = s /\ mutex_rep m' cur ws
     else p_flags s' = woken ws (p_flags s) /\ qrep (thread_queue s') (rs ++ ws) /\ mutex_rep m' 0 []).
Proof.
  intros Hr Hm Hs H0 Hlen Hsz Hbuf Hne Hf n. pose proof (cr_size _ _ Hr). pose proof (cr_max _ _ Hr).
  unfold ring_buffer_read. rewrite (cb_spin_lock_ok _ _ Hr). simpl.
  destruct (read_loop_from fuel size 0 buffer (set_lock true cb) xs)
    as (cb1 & Hrun & Hr1 & (Hmx & Hww & Hwr & Hbl) & _); try lia; [by apply rep_locked|].
  unfold read_loop. change (0, buffer, set_lock true cb) with (Z.of_nat 0, buffer, set_lock true cb).
  rewrite Hrun. simpl in *. rewrite Z.sub_0_r in *. rewrite length_take. fold n.
  assert (Hn : (0 < n)%nat) by (unfold n; destruct xs; [done|]; simpl; lia).
  rewrite decide_False by lia.
  assert (Et : take (Z.to_nat size) xs = take n xs).
  { unfold n. destruct (Nat.le_ge_cases (Z.to_nat size) (length xs)).
    - by rewrite Nat.min_l. - rewrite Nat.min_r by done. by rewrite !take_ge. }
  assert (Ed : drop (Z.to_nat size) xs = drop n xs).
  { unfold n. destruct (Nat.le_ge_cases (Z.to_nat size) (length xs)).
    - by rewrite Nat.min_l. - rewrite Nat.min_r by done. by rewrite !drop_ge. }
  rewrite Ed in Hr1. apply rep_unlocked in Hr1.
  destruct (wake_side_ok fuel cur lens_write s (cb_spin_unlock cb1) o ws rs)
    as (s' & m' & -> & Hcase); try done; simpl; [by rewrite Hww|lia|].
  rewrite s32_small, Et by lia. eexists _, _, _. split; [done|].
  split; [by apply rep_set_wait_write|]. done.
Qed.

(** What pop does whoever holds the writers' queue. *)
Lemma pop_drops_last fuel cur s cb xs o ws rs :
  cb_rep cb xs -> mutex_rep (cb_wait_write cb) o ws -> sched_rep s rs ws ->
  Forall (fun p => p <> 0) ws -> Z.of_nat (length rs) + Z.of_nat (length ws) < 2 ^ 64 - 1 ->
  (length ws < fuel)%nat -> xs <> [] ->
  exists s' cb' m', ring_buffer_pop fuel cur s cb = Done (1, s', cb') /\ cb_rep cb' (removelast xs) /\
    cb_wait_read cb' = cb_wait_read cb /\ cb_max cb' = cb_max cb /\ cb_blocking cb' = cb_blocking cb /\
    cb_wait_write cb' = m' /\
    (if decide (o = 0) then s' = s /\ mutex_rep m' cur ws
     else p_flags s' = woken ws (p_flags s) /\ qrep (thread_queue s') (rs ++ ws) /\ mutex_rep m' 0 []).
Proof.
  intros Hr Hm Hs H0 Hlen Hf Hne. pose proof Hr as [Hl Hmx Hh Hsz Ht Hd Hlk].
  destruct (last xs) as [x|] eqn:E; [|by apply last_None in E].
  apply last_Some in E as (ys & ->). rewrite removelast_last.
  unfold ring_buffer_pop. rewrite (cb_spin_lock_ok _ _ Hr). simpl.
  replace (ring_buffer_available (set_lock true cb)) with (Z.of_nat (length (ys ++ [x])))
    by (symmetry; apply (available_rep _ _ Hr)).
  rewrite length_app in *. simpl in *. rewrite decide_False by lia.
  assert (Ht' : 0 <= cb_tail cb < cb_max cb) by (rewrite Ht; apply Z.mod_pos_bound; lia).
  assert (Et : u64 (cb_tail cb - 1 + cb_max cb) mod cb_max cb
     = (cb_head cb + Z.of_nat (length ys)) mod cb_max cb).
  { rewrite u64_small by lia.
    rewrite (mod_turn (_ - 1 + _)) by lia. rewrite Ht. rewrite mod_turn by lia. case_decide; turns. }
  rewrite Et. match goal with |- context [wake_side _ _ _ _ ?c] => set (cb1 := c) end.
  destruct (wake_side_ok fuel cur lens_write s cb1 o ws rs) as (s' & m' & -> & Hcase); try done.
  simpl. eexists _, _, _. split; [done|]. split; [|done]. apply rep_set_wait_write.
  constructor; simpl; try done; try lia.
  intros i y Hi. apply Hd. rewrite lookup_app_l; [done|]. by eapply lookup_lt_Some.
Qed.

Lemma relock cb xs : cb_rep cb xs -> cb_spin_unlock (set_lock true cb) = cb.
Proof. intros Hr. pose proof (cr_lock _ _ Hr). destruct cb; simpl in *; by subst. Qed.

Lemma peek_ok cb xs k : cb_rep cb xs -> 0 <= k < 2 ^ 31 ->
  ring_buffer_peek cb k
    = Done (match xs !! Z.to_nat k with Some x => (1, Some x, cb) | None => (0, None, cb) end).
Proof.
  intros Hr Hk. pose proof Hr as [Hl Hmx Hh Hsz Ht Hd Hlk].
  unfold ring_buffer_peek. rewrite (cb_spin_lock_ok _ _ Hr). simpl. rewrite (relock _ _ Hr).
  replace (ring_buffer_available (set_lock true cb)) with (Z.of_nat (length xs))
    by (symmetry; apply (available_rep _ _ Hr)).
  destruct (xs !! Z.to_nat k) as [x|] eqn:E.
  - pose proof (lookup_lt_Some _ _ _ E). rewrite decide_False by lia. rewrite u64_small by lia.
    rewrite s32_small by (pose proof (Z.mod_pos_bound (cb_head cb + k) (cb_max cb)); lia).
    replace (aget (cb_buffer cb) ((cb_head cb + k) mod cb_max cb)) with (Done x); [done|].
    symmetry. apply aget_done. specialize (Hd _ _ E). rewrite Z2Nat.id in Hd by lia.
    split; [apply Z.mod_pos_bound; lia|done].
  - apply lookup_ge_None in E. by rewrite decide_True by lia.
Qed.

(** ** Properties *)

(** C14: ring_buffer_write is the enqueue of a bounded FIFO.  When the [size]
    bytes fit (at most max - 1 elements are ever stored) they are appended in
    order, the call returns [size] and the lock is free again; the readers'
    queue is taken if it was free and otherwise released with every sleeper
    scheduled.  When they do not fit, a non-blocking buffer is unchanged and
    the call returns 0: nothing is written partly or over unread data. *)
Theorem ring_buffer_write_enqueues resume fuel cur s cb xs size data o ws rs :
  cb_rep cb xs -> mutex_rep (cb_wait_read cb) o ws -> sched_rep s rs ws ->
  Forall (fun p => p <> 0) ws -> Z.of_nat (length rs) + Z.of_nat (length ws) < 2 ^ 64 - 1 ->
  0 <= size <= Z.of_nat (length data) -> (Z.to_nat size + length ws < fuel)%nat ->
  if decide (Z.of_nat (length xs) + size < cb_max cb) then
    exists s' cb' m', ring_buffer_write resume fuel cur s cb size data = Done (size, s', cb') /\
      cb_rep cb' (xs ++ take (Z.to_nat size) data) /\ cb_wait_read cb' = m' /\
      cb_wait_write cb' = cb_wait_write cb /\
      cb_max cb' = cb_max cb /\ cb_blocking cb' = cb_blocking cb /\
      (if decide (o = 0) then s' = s /\ mutex_rep m' cur ws
       else p_flags s' = woken ws (p_flags s) /\ qrep (thread_queue s') (rs ++ ws) /\ mutex_rep m' 0 [])
  else cb_blocking cb = false -> ring_buffer_write resume fuel cur s cb size data = Done (0, s, cb).
Proof. apply write_enqueues. Qed.

(** C21: ring_buffer_read is the dequeue of the FIFO: from a non-empty buffer it
    moves the oldest min(size, available) elements in order to the front of
    the destination, leaves the rest of the destination alone, keeps the
    remaining elements, and returns the count with the lock free. *)
Theorem ring_buffer_read_dequeues resume fuel cur s cb xs size buffer o ws rs :
  cb_rep cb xs -> mutex_rep (cb_wait_write cb) o ws -> sched_rep s rs ws ->
  Forall (fun p => p <> 0) ws -> Z.of_nat (length rs) + Z.of_nat (length ws) < 2 ^ 64 - 1 ->
  0 < size < 2 ^ 31 -> size <= Z.of_nat (length buffer) -> xs <> [] ->
  (Z.to_nat size + length ws < fuel)%nat ->
  let n := Nat.min (Z.to_nat size) (length xs) in
  exists s' cb' m', ring_buffer_read resume fuel cur s cb size buffer
      = Done (Z.of_nat n, take n xs ++ drop n buffer, s', cb') /\
    cb_rep cb' (drop n xs) /\ cb_wait_write cb' = m' /\ cb_wait_read cb' = cb_wait_read cb /\
    cb_max cb' = cb_max cb /\ cb_blocking cb' = cb_blocking cb /\
    (if decide (o = 0) then s' = s /\ mutex_rep m' cur ws
     else p_flags s' = woken ws (p_flags s) /\ qrep (thread_queue s') (rs ++ ws) /\ mutex_rep m' 0 []).
Proof. apply read_dequeues. Qed.

(** The other operations on the FIFO.  peek returns the element at the
    offset and 0 past the end, read_last the youngest element, pop removes the
    youngest, discard_readable empties the buffer; none changes another
    element, and each gives the lock back on every path. *)
Theorem ring_buffer_ends cb xs k fuel cur s ws :
  cb_rep cb xs -> mutex_rep (cb_wait_write cb) 0 ws -> 0 <= k < 2 ^ 31 ->
  ring_buffer_peek cb k = Done (match xs !! Z.to_nat k with Some x => (1, Some x, cb) | None => (0, None, cb) end) /\
  ring_buffer_read_last cb = Done (match last xs with Some x => (1, Some x, cb) | None => (0, None, cb) end) /\
  (exists s' cb', ring_buffer_pop fuel cur s cb
      = Done (match last xs with Some _ => 1 | None => 0 end, s', cb') /\
    cb_rep cb' (removelast xs)) /\
  (exists cb', ring_buffer_discard_readable cb = Done cb' /\ cb_rep cb' []).
Proof.
  intros Hr Hm Hk. pose proof Hr as [Hl Hmx Hh Hsz Ht Hd Hlk].
  pose proof (relock _ _ Hr) as Ek.
  assert (Hav : ring_buffer_available (set_lock true cb) = Z.of_nat (length xs)) by apply (available_rep _ _ Hr).
  assert (Ht' : 0 <= cb_tail cb < cb_max cb) by (rewrite Ht; apply Z.mod_pos_bound; lia).
  assert (Hlast : forall x ys, xs = ys ++ [x] ->
     u64 (cb_tail cb - 1 + cb_max cb) mod cb_max cb
     = (cb_head cb + Z.of_nat (length ys)) mod cb_max cb).
  { intros x ys ->. rewrite length_app in *. simpl in *. rewrite u64_small by lia.
    rewrite (mod_turn (_ - 1 + _)) by lia. rewrite Ht. rewrite mod_turn by lia. case_decide; turns. }
  unfold ring_buffer_read_last, ring_buffer_pop, ring_buffer_discard_readable.
  rewrite !(cb_spin_lock_ok _ _ Hr). split; [by apply peek_ok|]. simpl. rewrite !Ek, !Hav.
  split; [|split].
  - destruct (last xs) as [x|] eqn:E.
    + apply last_Some in E as (ys & ->). rewrite decide_False by (rewrite length_app; simpl; lia).
      rewrite (Hlast x ys eq_refl). pose proof (Z.mod_pos_bound (cb_head cb + Z.of_nat (length ys)) (cb_max cb)).
      rewrite s32_small by lia.
      replace (aget _ _) with (Done x); [done|]. symmetry. apply aget_done.
      split; [lia|]. apply Hd. by rewrite lookup_app_r, Nat.sub_diag by lia.
    + apply last_None in E as ->. done.
  - destruct (last xs) as [x|] eqn:E.
    + apply last_Some in E as (ys & ->). rewrite decide_False by (rewrite length_app; simpl; lia).
      rewrite (Hlast x ys eq_refl). unfold wake_side. simpl.
      destruct (mutex_try_ok cur _ _ _ Hm) as (m1 & -> & Hm1). simpl.
      eexists _, _. split; [done|]. rewrite removelast_last. apply rep_set_wait_write. rewrite length_app in *.
      simpl in *. constructor; simpl; try done; try lia.
      intros i y Hi. apply Hd. rewrite lookup_app_l; [done|]. by eapply lookup_lt_Some.
    + apply last_None in E as ->. simpl in *. eexists _, _. split; [done|]. done.
  - eexists. split; [done|]. constructor; simpl; try done; try lia.
    rewrite Z.add_0_r, Z.mod_small; lia.
Qed.

End RingBuffer.

(** A buffer of four cells that holds [7; 8], its elements across the end. *)
Definition demo_cb : circular_buffer (list Z) :=
  mk_cb [8; 0; 0; 7] 3 1 4 false (mk_mutex false 0 []) (mk_mutex false 5 [2]) false.

Lemma demo_rep : cb_rep demo_cb [7; 8].
Proof.
  constructor; simpl; try done; try lia.
  intros [|[|i]] x Hi; simpl in Hi; [injection Hi as <-; reflexivity..|done].
Qed.

Definition demo_sched : sched (list Z) := mk_sched {[2 := 10]} [].

Lemma demo_sched_rep : sched_rep demo_sched [] [2].
Proof. split; [done|]. intros p Hp. apply list_elem_of_singleton in Hp as ->. eauto. Qed.

Example ring_buffer_write_enqueues_witness :
  exists s' cb' m', ring_buffer_write (fun st => Done st) 9 1 demo_sched demo_cb 1 [9] = Done (1, s', cb') /\
      cb_rep cb' ([7; 8] ++ [9]) /\ cb_wait_read cb' = m' /\
      cb_wait_write cb' = cb_wait_write demo_cb /\
      cb_max cb' = 4 /\ cb_blocking cb' = false /\
      p_flags s' = woken [2] (p_flags demo_sched) /\ qrep (thread_queue s') ([] ++ [2]) /\ mutex_rep m' 0 [].
Proof.
  exact (ring_buffer_write_enqueues (fun st => Done st) 9 1 demo_sched demo_cb [7; 8] 1 [9] 5 [2] []
    demo_rep ltac:(done) demo_sched_rep ltac:(repeat constructor; lia) ltac:(simpl; lia)
    ltac:(simpl; lia) ltac:(simpl; lia)).
Defined.

Example ring_buffer_read_dequeues_witness :
  exists s' cb' m', ring_buffer_read (fun st => Done st) 9 1 demo_sched demo_cb 5 [0; 0; 0; 0; 1]
      = Done (2, [7; 8; 0; 0; 1], s', cb') /\
    cb_rep cb' [] /\ cb_wait_write cb' = m' /\ cb_wait_read cb' = cb_wait_read demo_cb /\
    cb_max cb' = 4 /\ cb_blocking cb' = false /\
    s' = demo_sched /\ mutex_rep m' 1 [].
Proof.
  exact (ring_buffer_read_dequeues (fun st => Done st) 9 1 demo_sched demo_cb [7; 8] 5 [0; 0; 0; 0; 1] 0 [] []
    demo_rep ltac:(done) ltac:(split; [done|intros p Hp; inversion Hp]) ltac:(constructor)
    ltac:(simpl; lia) ltac:(lia) ltac:(simpl; lia) ltac:(done) ltac:(simpl; lia)).
Defined.

Example ring_buffer_ends_witness :
  ring_buffer_peek demo_cb 1 = Done (1, Some 8, demo_cb) /\
  ring_buffer_read_last demo_cb = Done (1, Some 8, demo_cb) /\
  (exists s' cb', ring_buffer_pop 9 1 demo_sched demo_cb = Done (1, s', cb') /\ cb_rep cb' [7]) /\
  (exists cb', ring_buffer_discard_readable demo_cb = Done cb' /\ cb_rep cb' []).
Proof.
  exact (ring_buffer_ends demo_cb [7; 8] 1 9 1 demo_sched [] demo_rep ltac:(done) ltac:(lia)).
Defined.
