(* ===== verification/Signals.v ===== *)
(** Signals: kernel/proc/ipc.c and the signal frame of kernel/proc/process.c
    (process_enter_signal, process_signal_return).

    A sigset_t is its 16 words.  The signal numbers and the flag values of
    <signal.h> come from the C library's headers, outside this repository: they
    are the record [signal_abi], a parameter.  A call that does not come back
    to its caller (process_exit, the iretq into a handler) is a value of
    [sig_result]. *)
From stdpp Require Import base list gmap strings.
From Stdlib Require Import ZArith Lia.
From S2P Require Import Prelude.

#[local] Open Scope Z_scope.

(** ** Signal sets *)

Definition SIGSET_NWORDS : Z := 1024 / (8 * 8).
Abbreviation sigset := (list Z).

(** [(signum-1)/(8*sizeof(uint32_t))] and the bit inside the word. *)
Definition sig_word (signum : Z) : Z := (signum - 1) / 32.
Definition sig_bit (signum : Z) : Z := (signum - 1) mod 32.

Definition sigemptyset (set : sigset) : outcome sigset :=
  r ← for_ (Z.to_nat SIGSET_NWORDS) 0 (fun i set => s ← aset set i 0; Done (inl s)) set;
  match r with inl s => Done s | inr s => Done s end.

Definition sigfillset (set : sigset) : outcome sigset :=
  r ← for_ (Z.to_nat SIGSET_NWORDS) 0 (fun i set => s ← aset set i (u64 (-1)); Done (inl s)) set;
  match r with inl s => Done s | inr s => Done s end.

Definition sigaddset (set : sigset) (signum : Z) : outcome (Z * sigset) :=
  if decide (signum <= 0 \/ 1024 < signum) then Done (-1, set)
  else
    w ← aget set (sig_word signum);
    set ← aset set (sig_word signum) (Z.lor w (Z.shiftl 1 (sig_bit signum)));
    Done (0, set).

Definition sigdelset (set : sigset) (signum : Z) : outcome (Z * sigset) :=
  if decide (signum <= 0 \/ 1024 < signum) then Done (-1, set)
  else
    w ← aget set (sig_word signum);
    set ← aset set (sig_word signum) (Z.ldiff w (Z.shiftl 1 (sig_bit signum)));
    Done (0, set).

Definition sigismember (set : sigset) (signum : Z) : outcome Z :=
  if decide (signum <= 0 \/ 1024 < signum) then Done (-1)
  else
    w ← aget set (sig_word signum);
    Done (if decide (Z.land w (Z.shiftl 1 (sig_bit signum)) = 0) then 0 else 1).

(** ** Processes, as far as signals go *)

Record signal_handler_t := mk_sh { sh_handler : Z; sh_mask : sigset; sh_flags : Z; sh_restorer : Z }.
Record sigaction := mk_sa { sa_handler : Z; sa_mask : sigset; sa_flags : Z; sa_restorer : Z }.

Record regs_t := mk_regs {
  r15 : Z; r14 : Z; r13 : Z; r12 : Z; r11 : Z; r10 : Z; r9 : Z; r8 : Z;
  rbp : Z; rdi : Z; rsi : Z; rdx : Z; rcx : Z; rbx : Z; rax : Z;
  int_no : Z; err_code : Z; rip : Z; cs : Z; rflags : Z; rsp : Z; ss : Z
}.

Record sproc := mk_sproc {
  s_flags : Z;
  s_handlers : list signal_handler_t;
  s_blocked : sigset;
  s_pending : sigset;
  s_lock : bool;
  s_regs : regs_t
}.

Definition set_blocked (b : sigset) (p : sproc) : sproc :=
  mk_sproc (s_flags p) (s_handlers p) b (s_pending p) (s_lock p) (s_regs p).
Definition set_pending (q : sigset) (p : sproc) : sproc :=
  mk_sproc (s_flags p) (s_handlers p) (s_blocked p) q (s_lock p) (s_regs p).
Definition set_plock (l : bool) (p : sproc) : sproc :=
  mk_sproc (s_flags p) (s_handlers p) (s_blocked p) (s_pending p) l (s_regs p).
Definition set_handlers (h : list signal_handler_t) (p : sproc) : sproc :=
  mk_sproc (s_flags p) h (s_blocked p) (s_pending p) (s_lock p) (s_regs p).
Definition set_regs (r : regs_t) (p : sproc) : sproc :=
  mk_sproc (s_flags p) (s_handlers p) (s_blocked p) (s_pending p) (s_lock p) r.
Definition set_flags (f : Z) (p : sproc) : sproc :=
  mk_sproc f (s_handlers p) (s_blocked p) (s_pending p) (s_lock p) (s_regs p).

Definition p_spin_lock (p : sproc) : outcome sproc :=
  if s_lock p then Blocked else Done (set_plock true p).
Definition p_spin_unlock (p : sproc) : sproc := set_plock false p.

(** The numbers of <signal.h>. *)
Record signal_abi := mk_abi {
  SIGALRM : Z; SIGKILL : Z; SIGHUP : Z; SIGINT : Z; SIGIO : Z; SIGPIPE : Z; SIGTERM : Z;
  SIGUSR1 : Z; SIGUSR2 : Z; SIGABRT : Z; SIGFPE : Z; SIGILL : Z; SIGQUIT : Z; SIGSEGV : Z;
  SIGSTOP : Z; SIGTSTP : Z; SIGTTIN : Z; SIGTTOU : Z; SIGCONT : Z;
  SIG_DFL : Z; SA_NODEFER : Z; SIG_BLOCK : Z; SIG_UNBLOCK : Z; SIG_SETMASK : Z
}.

Definition PROC_FLAG_ON_CPU : Z := Z.shiftl 1 2.
Definition PROC_FLAG_SLEEP : Z := Z.shiftl 1 3.
Definition PROC_FLAG_FINISHED : Z := Z.shiftl 1 5.

(** How a call ends: it returns, the process exits and never runs again, or
    the processor leaves for the user handler of a signal. *)
Inductive sig_result := SReturn (p : sproc) | SExit (p : sproc) | SEnter (p : sproc) (signum : Z).

Section Signals.
Context (abi : signal_abi).
(** What happens to the process while schedule(true) runs the others. *)
Context (resume : sproc -> outcome sproc).

Definition has_pending_signals (p : sproc) : outcome Z :=
  r ← for_ (Z.to_nat SIGSET_NWORDS) 0 (fun i _ =>
    w ← aget (s_pending p) i;
    if decide (w = 0) then Done (inl tt) else Done (inr 1)) tt;
  match r with inl _ => Done 0 | inr v => Done v end.

(** One turn of each loop of process_set_signal_mask. *)
Definition block_word (new : sigset) (i : Z) (b : sigset) : outcome (sigset + unit) :=
  n ← aget new i; w ← aget b i; b ← aset b i (Z.lor n w); Done (inl b).
Definition unblock_signal (new : sigset) (i : Z) (b : sigset) : outcome (sigset + unit) :=
  v ← sigismember new i;
  if decide (v = 0) then Done (inl b) else '(_, b) ← sigdelset b i; Done (inl b).
Definition setmask_word (i : Z) (b : sigset) : outcome (sigset + unit) :=
  w ← aget b i; b ← aset b i w; Done (inl b).

Definition keep (r : sigset + unit) (b : sigset) : sigset := match r with inl b => b | inr _ => b end.

Definition process_set_signal_mask (how : Z) (new : sigset) (current : sproc) : outcome sproc :=
  let n := Z.to_nat SIGSET_NWORDS in
  b ← (if decide (how = SIG_BLOCK abi)
       then r ← for_ n 0 (block_word new) (s_blocked current); Done (keep r (s_blocked current))
       else Done (s_blocked current));
  b ← (if decide (how = SIG_UNBLOCK abi)
       then r ← for_ n 0 (unblock_signal new) b; Done (keep r b) else Done b);
  b ← (if decide (how = SIG_SETMASK abi)
       then r ← for_ n 0 setmask_word b; Done (keep r b) else Done b);
  Done (set_blocked b current).

Definition process_set_signal_handler (signum : Z) (action : sigaction) (proc : sproc) : outcome sproc :=
  proc ← p_spin_lock proc;
  h ← aget (s_handlers proc) signum;
  let rest := if decide (Z.land (sa_flags action) 0x04000000 = 0) then sh_restorer h
              else sa_restorer action in
  hs ← aset (s_handlers proc) signum (mk_sh (sa_handler action) (sa_mask action) (sa_flags action) rest);
  Done (p_spin_unlock (set_handlers hs proc)).

Definition process_get_signal_handler (signum : Z) (proc : sproc) : outcome signal_handler_t :=
  aget (s_handlers proc) signum.

(** The cases of the switch of handle_signal. *)
Definition sig_terminates (signum : Z) : Prop :=
  signum ∈ [SIGALRM abi; SIGKILL abi; SIGHUP abi; SIGINT abi; SIGIO abi; SIGPIPE abi; SIGTERM abi;
            SIGUSR1 abi; SIGUSR2 abi; SIGABRT abi; SIGFPE abi; SIGILL abi; SIGQUIT abi; SIGSEGV abi].
Definition sig_stops (signum : Z) : Prop :=
  signum ∈ [SIGSTOP abi; SIGTSTP abi; SIGTTIN abi; SIGTTOU abi].

(** [while(!has_pending_signals(process)) schedule(true);] *)
Definition stop_loop (fuel : nat) (p : sproc) : outcome sproc :=
  loop fuel (fun p =>
    v ← has_pending_signals p;
    if decide (v = 0) then p ← resume p; Done (inl p) else Done (inr p)) p.

Definition handle_signal (fuel : nat) (process : sproc) (signum : Z) : outcome sig_result :=
  h ← aget (s_handlers process) signum;
  if decide (sh_handler h = 0 /\ sig_terminates signum) then Done (SExit process)
  else
    process ← (if decide (sh_handler h = 0 /\ sig_stops signum)
               then stop_loop fuel
                 (set_flags (Z.ldiff (Z.lor (s_flags process) PROC_FLAG_SLEEP) PROC_FLAG_ON_CPU) process)
               else Done process);
    h ← aget (s_handlers process) signum;
    if decide (sh_handler h = SIG_DFL abi) then
      if decide (signum = SIGKILL abi) then Done (SExit process) else Done (SReturn process)
    else
      process ← (if decide (Z.land (sh_flags h) (SA_NODEFER abi) = 0) then Done process
                 else '(_, b) ← sigaddset (s_blocked process) signum; Done (set_blocked b process));
      Done (SEnter process signum).

Definition process_send_signal (proc : sproc) (signum : Z) : outcome sproc :=
  if decide (Z.land (s_flags proc) PROC_FLAG_FINISHED <> 0) then Done proc
  else if decide (32 < signum) then Done proc
  else
    proc ← p_spin_lock proc;
    '(_, q) ← sigaddset (s_pending proc) signum;
    Done (p_spin_unlock (set_pending q proc)).

(** One turn of the loop of process_check_signals. *)
Definition check_signal (fuel : nat) (i : Z) (current : sproc) : outcome (sproc + sig_result) :=
  m ← sigismember (s_pending current) i;
  b ← (if decide (m = 0) then Done 1 else sigismember (s_blocked current) i);
  if decide (m <> 0 /\ b = 0) then
    '(_, q) ← sigdelset (s_pending current) i;
    r ← handle_signal fuel (p_spin_unlock (set_pending q current)) i;
    match r with
    | SReturn p => Done (inl (p_spin_unlock p))
    | _ => Done (inr r)
    end
  else Done (inl (p_spin_unlock current)).

Definition process_check_signals (fuel : nat) (current : sproc) : outcome sig_result :=
  if decide (Z.land (s_flags current) PROC_FLAG_FINISHED <> 0) then Done (SReturn current)
  else
    current ← p_spin_lock current;
    r ← for_ 31 1 (check_signal fuel) current;
    match r with inl p => Done (SReturn p) | inr r => Done r end.

End Signals.

(** ** The set a sigset stands for *)

Definition sig_mem (s : sigset) (n : Z) : bool :=
  match zlookup s (sig_word n) with Some w => Z.testbit w (sig_bit n) | None => false end.

(** All 16 words are there: signals 1 to 512 have a bit. *)
Definition sig_wf (s : sigset) : Prop := length s = 16%nat.

Lemma land_shiftl_bit w k : 0 <= k -> Z.land w (Z.shiftl 1 k) = 0 <-> Z.testbit w k = false.
Proof.
  intros Hk. split; intros H1.
  - assert (Hb : Z.testbit (Z.land w (Z.shiftl 1 k)) k = false) by (rewrite H1; apply Z.bits_0).
    rewrite Z.land_spec, Z.shiftl_spec, Z.sub_diag in Hb by lia.
    by rewrite andb_true_r in Hb.
  - apply Z.bits_inj_0. intros n. destruct (Z.lt_ge_cases n 0); [by apply Z.testbit_neg_r|].
    rewrite Z.land_spec, Z.shiftl_1_l, Z.pow2_bits_eqb by lia.
    destruct (Z.eqb_spec k n); [subst; by rewrite H1|]. by rewrite andb_false_r.
Qed.

Lemma sig_pos n : 1 <= n <= 512 -> 0 <= sig_word n < 16 /\ 0 <= sig_bit n < 32 /\
  n = 32 * sig_word n + sig_bit n + 1.
Proof.
  intros. unfold sig_word, sig_bit. pose proof (Z.mod_pos_bound (n - 1) 32).
  pose proof (Z.div_mod (n - 1) 32). split_and!; lia.
Qed.

Lemma sig_get s n : sig_wf s -> 1 <= n <= 512 ->
  exists w, aget s (sig_word n) = Done w /\ zlookup s (sig_word n) = Some w.
Proof.
  intros Hs Hn. destruct (sig_pos n Hn) as (Hw & _).
  destruct (aget_in_range s (sig_word n)) as (w & Hg & Hl); [rewrite Hs; lia|].
  exists w. split; [done|]. unfold zlookup. by rewrite decide_True by lia.
Qed.

Lemma sigismember_mem s n : sig_wf s -> 1 <= n <= 512 ->
  sigismember s n = Done (if sig_mem s n then 1 else 0).
Proof.
  intros Hs Hn. destruct (sig_get s n Hs Hn) as (w & Hg & Hl). unfold sigismember, sig_mem.
  rewrite decide_False by lia. rewrite Hg, Hl. simpl. destruct (sig_pos n Hn) as (_ & Hb & _).
  case_decide as E; rewrite land_shiftl_bit in E by lia; [by rewrite E|].
  by destruct (Z.testbit w (sig_bit n)).
Qed.

(** Writing a word changes the membership of its 32 signals only. *)
Lemma sig_mem_insert s i w n' : sig_wf s -> 0 <= i < 16 -> 1 <= n' <= 512 ->
  sig_mem (<[Z.to_nat i := w]> s) n' =
    if decide (sig_word n' = i) then Z.testbit w (sig_bit n') else sig_mem s n'.
Proof.
  intros Hs Hn Hn'. destruct (sig_pos n' Hn') as (Hw' & _).
  unfold sig_mem, zlookup. rewrite !(decide_True (P := 0 <= sig_word n')) by lia. unfold sig_wf in Hs. case_decide as E.
  - rewrite E, list_lookup_insert_eq by lia. done.
  - rewrite list_lookup_insert_ne by lia. done.
Qed.

Lemma testbit_or_one w k j : 0 <= k -> 0 <= j ->
  Z.testbit (Z.lor w (Z.shiftl 1 k)) j = (k =? j) || Z.testbit w j.
Proof. intros. rewrite Z.lor_spec, Z.shiftl_1_l, Z.pow2_bits_eqb by lia. apply orb_comm. Qed.
Lemma testbit_diff_one w k j : 0 <= k -> 0 <= j ->
  Z.testbit (Z.ldiff w (Z.shiftl 1 k)) j = negb (k =? j) && Z.testbit w j.
Proof. intros. rewrite Z.ldiff_spec, Z.shiftl_1_l, Z.pow2_bits_eqb by lia. apply andb_comm. Qed.

Lemma sig_update f g s n :
  sig_wf s -> 1 <= n <= 512 ->
  (forall w j, 0 <= j -> Z.testbit (f w) j = g (sig_bit n =? j) (Z.testbit w j)) ->
  (forall b, g false b = b) ->
  exists w s', aget s (sig_word n) = Done w /\ aset s (sig_word n) (f w) = Done s' /\ sig_wf s' /\
    (forall n', 1 <= n' <= 512 -> sig_mem s' n' = g (n =? n') (sig_mem s n')).
Proof.
  intros Hs Hn Hf Hg. destruct (sig_get s n Hs Hn) as (w & Hgt & Hl).
  destruct (sig_pos n Hn) as (Hw & Hb & En).
  exists w, (<[Z.to_nat (sig_word n) := f w]> s). split; [done|].
  split; [apply aset_in_range; rewrite Hs; lia|]. split; [by unfold sig_wf; rewrite length_insert|].
  intros n' Hn'. rewrite sig_mem_insert by (done || lia). destruct (sig_pos n' Hn') as (Hw' & Hb' & En').
  case_decide as E.
  - rewrite Hf by lia. unfold sig_mem. rewrite E, Hl. f_equal.
    destruct (Z.eqb_spec (sig_bit n) (sig_bit n')); destruct (Z.eqb_spec n n'); try done; lia.
  - destruct (Z.eqb_spec n n') as [->|]; [done|]. by rewrite Hg.
Qed.

Lemma sigaddset_mem s n : sig_wf s -> 1 <= n <= 512 ->
  exists s', sigaddset s n = Done (0, s') /\ sig_wf s' /\
    (forall n', 1 <= n' <= 512 -> sig_mem s' n' = (n =? n') || sig_mem s n').
Proof.
  intros Hs Hn. destruct (sig_update (fun w => Z.lor w (Z.shiftl 1 (sig_bit n))) orb s n Hs Hn)
    as (w & s' & Hg & Hst & Hwf & Hm).
  - intros w j Hj. destruct (sig_pos n Hn). apply testbit_or_one; lia.
  - done.
  - exists s'. unfold sigaddset. rewrite decide_False by lia. rewrite Hg. simpl. rewrite Hst. done.
Qed.

Lemma sigdelset_mem s n : sig_wf s -> 1 <= n <= 512 ->
  exists s', sigdelset s n = Done (0, s') /\ sig_wf s' /\
    (forall n', 1 <= n' <= 512 -> sig_mem s' n' = negb (n =? n') && sig_mem s n').
Proof.
  intros Hs Hn. destruct (sig_update (fun w => Z.ldiff w (Z.shiftl 1 (sig_bit n))) (fun a b => negb a && b) s n Hs Hn)
    as (w & s' & Hg & Hst & Hwf & Hm).
  - intros w j Hj. destruct (sig_pos n Hn). apply testbit_diff_one; lia.
  - done.
  - exists s'. unfold sigdelset. rewrite decide_False by lia. rewrite Hg. simpl. rewrite Hst. done.
Qed.

(** The words above the sixteenth do not exist: the guard of the C code admits
    signals whose word is outside the array. *)
Lemma sig_out_of_range s n : sig_wf s -> 513 <= n <= 1024 -> aget s (sig_word n) = Fault.
Proof.
  intros Hs Hn. unfold aget, zlookup. assert (16 <= sig_word n) by (apply Z.div_le_lower_bound; lia).
  rewrite decide_True by lia. rewrite lookup_ge_None_2; [done|]. unfold sig_wf in Hs. lia.
Qed.

Lemma sig_word_get s i : sig_wf s -> 0 <= i < 16 ->
  exists w, aget s i = Done w /\
    (forall n, 1 <= n <= 512 -> sig_word n = i -> sig_mem s n = Z.testbit w (sig_bit n)).
Proof.
  intros Hs Hi. destruct (aget_in_range s i) as (w & Hg & Hl); [rewrite Hs; lia|].
  exists w. split; [done|]. intros n Hn En. unfold sig_mem, zlookup.
  rewrite decide_True by lia. by rewrite En, Hl.
Qed.

Lemma block_loop new b0 : sig_wf new -> sig_wf b0 ->
  exists b, for_ (Z.to_nat SIGSET_NWORDS) 0 (block_word new) b0 = Done (inl b) /\ sig_wf b /\
    (forall n, 1 <= n <= 512 -> sig_mem b n = sig_mem new n || sig_mem b0 n).
Proof.
  intros Hn H0.
  edestruct (for_total (A := unit) (fun k b => sig_wf b /\ forall n, 1 <= n <= 512 ->
    sig_mem b n = ((sig_word n <? k) && sig_mem new n) || sig_mem b0 n) (Z.to_nat SIGSET_NWORDS) 0)
    as (b & -> & Hb & Hm).
  2:{ split; [exact H0|]. intros n Hr. destruct (sig_pos n Hr). by rewrite (proj2 (Z.ltb_ge _ _)) by lia. }
  - intros k b Hk [Hb Hm]. change (Z.of_nat (Z.to_nat SIGSET_NWORDS)) with 16 in Hk.
    destruct (sig_word_get new k) as (w1 & Hg1 & Hw1); [done|lia|].
    destruct (sig_word_get b k) as (w2 & Hg2 & Hw2); [done|lia|].
    unfold block_word. rewrite Hg1. simpl. rewrite Hg2. simpl. rewrite aset_in_range by (rewrite Hb; lia).
    simpl. eexists. split; [done|]. split; [unfold sig_wf; by rewrite length_insert|].
    intros n Hr. rewrite sig_mem_insert by (done || lia). specialize (Hm n Hr).
    case_decide as E.
    + rewrite Z.lor_spec, <-Hw1, <-Hw2, Hm by done.
      rewrite (proj2 (Z.ltb_ge (sig_word n) k)), (proj2 (Z.ltb_lt (sig_word n) (k + 1))) by lia. done.
    + rewrite Hm. destruct (Z.ltb_spec (sig_word n) k), (Z.ltb_spec (sig_word n) (k + 1)); (done || lia).
  - exists b. split; [done|]. split; [done|]. intros n Hr. rewrite Hm by done.
    change (0 + Z.of_nat (Z.to_nat SIGSET_NWORDS)) with 16.
    destruct (sig_pos n Hr). by rewrite (proj2 (Z.ltb_lt _ _)) by lia.
Qed.

Lemma unblock_loop new b0 : sig_wf new -> sig_wf b0 ->
  exists b, for_ (Z.to_nat SIGSET_NWORDS) 0 (unblock_signal new) b0 = Done (inl b) /\ sig_wf b /\
    (forall n, 1 <= n <= 512 -> sig_mem b n = negb ((n <? 16) && sig_mem new n) && sig_mem b0 n).
Proof.
  intros Hn H0.
  edestruct (for_total (A := unit) (fun k b => sig_wf b /\ forall n, 1 <= n <= 512 ->
    sig_mem b n = negb ((n <? k) && sig_mem new n) && sig_mem b0 n) (Z.to_nat SIGSET_NWORDS) 0)
    as (b & -> & Hb & Hm).
  2:{ split; [exact H0|]. intros n Hr. by rewrite (proj2 (Z.ltb_ge _ _)) by lia. }
  - intros k b Hk [Hb Hm]. change (Z.of_nat (Z.to_nat SIGSET_NWORDS)) with 16 in Hk.
    unfold unblock_signal. destruct (decide (k = 0)) as [->|Hk0].
    + simpl. eexists. split; [done|]. split; [done|]. intros n Hr. rewrite Hm by done.
      rewrite (proj2 (Z.ltb_ge n 0)), (proj2 (Z.ltb_ge n (0 + 1))) by lia. done.
    + rewrite sigismember_mem by (done || lia). simpl. destruct (sig_mem new k) eqn:E.
      * rewrite decide_False by lia. destruct (sigdelset_mem b k Hb) as (d & -> & Hd & Hdm); [lia|].
        simpl. eexists. split; [done|]. split; [done|]. intros n Hr. rewrite Hdm, Hm by done.
        destruct (Z.eqb_spec k n) as [->|].
        -- rewrite (proj2 (Z.ltb_lt n (n + 1))) by lia. by rewrite E.
        -- destruct (Z.ltb_spec n k), (Z.ltb_spec n (k + 1)); (done || lia).
      * rewrite decide_True by lia. eexists. split; [done|]. split; [done|]. intros n Hr. rewrite Hm by done.
        destruct (decide (n = k)) as [->|]; [by rewrite E, !andb_false_r|].
        destruct (Z.ltb_spec n k), (Z.ltb_spec n (k + 1)); (done || lia).
  - exists b. done.
Qed.

Lemma setmask_loop b0 : sig_wf b0 ->
  for_ (Z.to_nat SIGSET_NWORDS) 0 setmask_word b0 = Done (inl b0).
Proof.
  intros H0.
  edestruct (for_total (A := unit) (fun _ b => b = b0) (Z.to_nat SIGSET_NWORDS) 0) as (b & -> & ->);
    [|reflexivity|reflexivity].
  intros k b Hk ->. change (Z.of_nat (Z.to_nat SIGSET_NWORDS)) with 16 in Hk. unfold setmask_word.
  destruct (aget_in_range b0 k) as (w & -> & Hl); [rewrite H0; lia|]. simpl.
  rewrite aset_in_range by (rewrite H0; lia). simpl. exists b0. by rewrite list_insert_id.
Qed.

(** ** Properties of the sets *)

(** Sigaddset, sigdelset and sigismember implement a set on the signals 1
    to 512; they return -1 and change nothing outside 1..1024; and on 513..1024,
    which their guard lets through, they access a word outside the array. *)
Theorem sigset_operations s n :
  sig_wf s ->
  if decide (n <= 0 \/ 1024 < n) then
    sigaddset s n = Done (-1, s) /\ sigdelset s n = Done (-1, s) /\ sigismember s n = Done (-1)
  else if decide (512 < n) then
    sigaddset s n = Fault /\ sigdelset s n = Fault /\ sigismember s n = Fault
  else
    sigismember s n = Done (if sig_mem s n then 1 else 0) /\
    (exists a, sigaddset s n = Done (0, a) /\ sig_wf a /\
      forall n', 1 <= n' <= 512 -> sig_mem a n' = (n =? n') || sig_mem s n') /\
    (exists d, sigdelset s n = Done (0, d) /\ sig_wf d /\
      forall n', 1 <= n' <= 512 -> sig_mem d n' = negb (n =? n') && sig_mem s n').
Proof.
  intros Hs. destruct (decide (n <= 0 \/ 1024 < n)) as [E|E]; [|destruct (decide (512 < n))].
  - unfold sigaddset, sigdelset, sigismember. by rewrite !decide_True by lia.
  - unfold sigaddset, sigdelset, sigismember. rewrite !decide_False by lia.
    by rewrite sig_out_of_range by (done || lia).
  - split; [by apply sigismember_mem; [|lia]|]. split; [apply sigaddset_mem | apply sigdelset_mem]; (done || lia).
Qed.

Example sigset_operations_witness :
  sigismember (replicate 16 4) 3 = Done 1 /\
    (exists a, sigaddset (replicate 16 4) 3 = Done (0, a) /\ sig_wf a /\
      forall n', 1 <= n' <= 512 -> sig_mem a n' = (3 =? n') || sig_mem (replicate 16 4) n') /\
    (exists d, sigdelset (replicate 16 4) 3 = Done (0, d) /\ sig_wf d /\
      forall n', 1 <= n' <= 512 -> sig_mem d n' = negb (3 =? n') && sig_mem (replicate 16 4) n').
Proof. exact (sigset_operations (replicate 16 4) 3 eq_refl). Defined.

(** Process_set_signal_mask.  SIG_BLOCK blocks the union.  SIG_UNBLOCK
    unblocks only the signals below 16: its loop counts the 16 words, not the
    signals.  SIG_SETMASK leaves the mask as it was: it assigns the old mask to
    itself.  Any other value of [how] changes nothing. *)
Theorem process_set_signal_mask_spec abi how new p :
  NoDup [SIG_BLOCK abi; SIG_UNBLOCK abi; SIG_SETMASK abi] -> sig_wf new -> sig_wf (s_blocked p) ->
  exists b, process_set_signal_mask abi how new p = Done (set_blocked b p) /\ sig_wf b /\
    (how = SIG_BLOCK abi -> forall n, 1 <= n <= 512 ->
       sig_mem b n = sig_mem new n || sig_mem (s_blocked p) n) /\
    (how = SIG_UNBLOCK abi -> forall n, 1 <= n <= 512 ->
       sig_mem b n = negb ((n <? 16) && sig_mem new n) && sig_mem (s_blocked p) n) /\
    (how <> SIG_BLOCK abi -> how <> SIG_UNBLOCK abi -> b = s_blocked p).
Proof.
  intros Hnd Hn Hb. unfold process_set_signal_mask.
  apply NoDup_cons in Hnd as [Hd1 Hnd]. apply NoDup_cons in Hnd as [Hd2 _].
  rewrite elem_of_cons, list_elem_of_singleton in Hd1. rewrite list_elem_of_singleton in Hd2.
  destruct (decide (how = SIG_BLOCK abi)) as [->|H1].
  { destruct (block_loop new (s_blocked p) Hn Hb) as (b & -> & Hwf & Hm).
    cbn [mbind outcome_bind keep]. repeat (rewrite decide_False by tauto; cbn [mbind outcome_bind keep]).
    exists b. do 2 (split; [done|]). split_and!; intros; try done; by (exfalso; naive_solver) || auto. }
  cbn [mbind outcome_bind]. destruct (decide (how = SIG_UNBLOCK abi)) as [->|H2].
  { destruct (unblock_loop new (s_blocked p) Hn Hb) as (b & -> & Hwf & Hm).
    cbn [mbind outcome_bind keep]. repeat (rewrite decide_False by tauto; cbn [mbind outcome_bind keep]).
    exists b. do 2 (split; [done|]). split_and!; intros; try done; by (exfalso; naive_solver) || auto. }
  cbn [mbind outcome_bind]. destruct (decide (how = SIG_SETMASK abi)) as [->|H3];
    [rewrite setmask_loop by done|]; cbn [mbind outcome_bind keep];
    exists (s_blocked p); split_and!; done.
Qed.

(** The numbers of the Linux headers for x86-64. *)
Definition linux_abi : signal_abi :=
  mk_abi 14 9 1 2 29 13 15 10 12 6 8 4 3 11 19 20 21 22 18 0 0x40000000 0 1 2.

Definition zero_regs : regs_t := mk_regs 0 0 0 0 0 0 0 0 0 0 0 0 0 0 0 0 0 0 0 0 0 0.

(** A process with the default handlers that blocks the signals 3 and 17. *)
Definition demo_proc : sproc :=
  mk_sproc 2 (replicate 32 (mk_sh 0 [] 0 0)) (Z.lor 4 (2 ^ 16) :: replicate 15 0) (replicate 16 0) false
    zero_regs.

Example process_set_signal_mask_spec_witness :
  exists b, process_set_signal_mask linux_abi 1 (Z.lor 4 (2 ^ 16) :: replicate 15 0) demo_proc
      = Done (set_blocked b demo_proc) /\ sig_wf b /\
    (1 = 0 -> forall n, 1 <= n <= 512 ->
       sig_mem b n = sig_mem (Z.lor 4 (2 ^ 16) :: replicate 15 0) n || sig_mem (s_blocked demo_proc) n) /\
    (1 = 1 -> forall n, 1 <= n <= 512 ->
       sig_mem b n = negb ((n <? 16) && sig_mem (Z.lor 4 (2 ^ 16) :: replicate 15 0) n)
                     && sig_mem (s_blocked demo_proc) n) /\
    (1 <> 0 -> 1 <> 1 -> b = s_blocked demo_proc).
Proof.
  apply (process_set_signal_mask_spec linux_abi 1 (Z.lor 4 (2 ^ 16) :: replicate 15 0) demo_proc);
    [|reflexivity|reflexivity].
  vm_compute. repeat constructor; rewrite ?elem_of_cons, ?elem_of_nil; intuition discriminate.
Defined.

(** ** Sending and checking *)

Definition deliverable (p : sproc) (i : Z) : bool :=
  sig_mem (s_pending p) i && negb (sig_mem (s_blocked p) i).

Record sproc_wf (p : sproc) : Prop := {
  sw_pending : sig_wf (s_pending p);
  sw_blocked : sig_wf (s_blocked p);
  sw_handlers : length (s_handlers p) = 32%nat
}.

Lemma plock_twice p : s_lock p = false -> set_plock false (set_plock true p) = p.
Proof. destruct p; simpl. by intros ->. Qed.

(** A signal that is not deliverable is passed over. *)
Lemma check_signal_skip abi resume fuel i p : sproc_wf p -> 1 <= i < 32 -> deliverable p i = false ->
  check_signal abi resume fuel i p = Done (inl (p_spin_unlock p)).
Proof.
  intros [Hp Hb _] Hi Hd. unfold check_signal, deliverable in *.
  rewrite (sigismember_mem (s_pending p)) by (done || lia). simpl.
  destruct (sig_mem (s_pending p) i); simpl in *; [|done].
  rewrite sigismember_mem by (done || lia). simpl.
  by destruct (sig_mem (s_blocked p) i).
Qed.

(** The run over a stretch without deliverable signals. *)
Lemma check_skip_run abi resume fuel p n : forall i l, sproc_wf p -> 1 <= i -> i + Z.of_nat n <= 32 ->
  (forall j, i <= j < i + Z.of_nat n -> deliverable p j = false) ->
  exists l', for_ n i (check_signal abi resume fuel) (set_plock l p) = Done (inl (set_plock l' p)) /\
    (l = false -> l' = false) /\ ((0 < n)%nat -> l' = false).
Proof.
  induction n as [|n IH]; intros i l Hwf Hi Hn Hd; simpl.
  - exists l. split_and!; try done. lia.
  - rewrite check_signal_skip; [|by destruct Hwf; constructor|lia|by apply Hd; lia]. simpl.
    destruct (IH (i + 1) false Hwf) as (l' & Hrun & H1 & _); try lia; [intros; apply Hd; lia|].
    exists l'. split; [exact Hrun|]. split; intros; by apply H1.
Qed.

Lemma for_app {St A} (n m : nat) : forall i (body : Z -> St -> outcome (St + A)) s s',
  for_ n i body s = Done (inl s') -> for_ (n + m) i body s = for_ m (i + Z.of_nat n) body s'.
Proof.
  induction n as [|n IH]; intros i body s s' Hrun; simpl in *.
  - injection Hrun as <-. by rewrite Z.add_0_r.
  - destruct (body i s) as [[s1|a]| | |]; simpl in *; try done.
    rewrite (IH _ _ _ _ Hrun). f_equal. lia.
Qed.

(** Process_send_signal makes the signals 1 to 32 pending and nothing
    else; other numbers, and a finished process, are left alone; the lock is
    given back. *)
Theorem process_send_signal_spec p n :
  sproc_wf p -> s_lock p = false ->
  if decide (Z.land (s_flags p) PROC_FLAG_FINISHED = 0 /\ 1 <= n <= 32) then
    exists q, process_send_signal p n = Done (set_pending q p) /\ sig_wf q /\
      forall n', 1 <= n' <= 512 -> sig_mem q n' = (n =? n') || sig_mem (s_pending p) n'
  else process_send_signal p n = Done p.
Proof.
  intros [Hp _ _] Hl. unfold process_send_signal. case_decide as E.
  - rewrite decide_False by tauto. rewrite decide_False by lia. unfold p_spin_lock. rewrite Hl. simpl.
    destruct (sigaddset_mem (s_pending p) n Hp) as (q & -> & Hq & Hm); [lia|]. simpl.
    exists q. split; [|done]. f_equal. unfold p_spin_unlock, set_plock, set_pending. simpl. by rewrite Hl.
  - case_decide as E1; [done|]. case_decide; [done|]. unfold p_spin_lock. rewrite Hl. simpl.
    unfold sigaddset. rewrite decide_True; [|destruct (decide (n <= 0)); [lia|]; exfalso; apply E; split; [|lia]].
    + simpl. f_equal. unfold p_spin_unlock, set_plock, set_pending. simpl. destruct p; simpl in *. by subst.
    + destruct (decide (Z.land (s_flags p) PROC_FLAG_FINISHED = 0)); tauto.
Qed.

Example process_send_signal_spec_witness :
  exists q, process_send_signal demo_proc 5 = Done (set_pending q demo_proc) /\ sig_wf q /\
      forall n', 1 <= n' <= 512 -> sig_mem q n' = (5 =? n') || sig_mem (s_pending demo_proc) n'.
Proof. exact (process_send_signal_spec demo_proc 5 ltac:(by constructor) eq_refl). Defined.

(** C22: process_check_signals.  Without a pending signal below 32 that is not
    blocked the process is unchanged.  Otherwise the lowest such signal is
    removed from the pending set, and, when a handler is set, the call leaves
    for it with the lock free, the mask growing by the signal exactly under
    SA_NODEFER; when the default action terminates, the process exits. *)
Theorem process_check_signals_spec abi resume fuel p :
  sproc_wf p -> s_lock p = false -> Z.land (s_flags p) PROC_FLAG_FINISHED = 0 -> SIG_DFL abi = 0 ->
  ((forall i, 1 <= i < 32 -> deliverable p i = false) ->
     process_check_signals abi resume fuel p = Done (SReturn p)) /\
  (forall j h, 1 <= j < 32 -> deliverable p j = true -> (forall i, 1 <= i < j -> deliverable p i = false) ->
     s_handlers p !! Z.to_nat j = Some h ->
     exists q, sig_wf q /\
       (forall n, 1 <= n <= 512 -> sig_mem q n = negb (j =? n) && sig_mem (s_pending p) n) /\
       (sh_handler h = 0 -> sig_terminates abi j ->
          process_check_signals abi resume fuel p = Done (SExit (set_pending q p))) /\
       (sh_handler h <> 0 -> exists b,
          process_check_signals abi resume fuel p = Done (SEnter (set_blocked b (set_pending q p)) j) /\
          forall n, 1 <= n <= 512 -> sig_mem b n =
            (if decide (Z.land (sh_flags h) (SA_NODEFER abi) = 0) then false else j =? n)
              || sig_mem (s_blocked p) n)).
Proof.
  intros Hwf Hl Hfl Hdfl.
  assert (Hstart : process_check_signals abi resume fuel p
    = (r ← for_ 31 1 (check_signal abi resume fuel) (set_plock true p);
       match r with inl p => Done (SReturn p) | inr r => Done r end)).
  { unfold process_check_signals, p_spin_lock. rewrite decide_False by lia. by rewrite Hl. }
  split; rewrite Hstart.
  - intros Hd. destruct (check_skip_run abi resume fuel p 31 1 true Hwf) as (l' & -> & _ & H1);
      try lia; [intros; apply Hd; lia|]. cbn [mbind outcome_bind]. rewrite H1 by lia.
    destruct p; simpl in *. by subst.
  - intros j h Hj Hdj Hlow Hh. unfold deliverable in Hdj. apply andb_true_iff in Hdj as [Hpj Hbj].
    apply negb_true_iff in Hbj. destruct Hwf as [Hp Hb Hhs].
    destruct (sigdelset_mem (s_pending p) j Hp) as (q & Hq & Hqw & Hqm); [lia|].
    exists q. split; [done|]. split; [done|].
    destruct (check_skip_run abi resume fuel p (Z.to_nat (j - 1)) 1 true) as (l & Hrun & _);
      [done|lia|lia|intros; apply Hlow; lia|].
    replace 31%nat with (Z.to_nat (j - 1) + S (Z.to_nat (31 - j)))%nat by lia.
    rewrite (for_app _ _ _ _ _ _ Hrun). replace (1 + Z.of_nat (Z.to_nat (j - 1))) with j by lia.
    simpl. assert (Hcheck : check_signal abi resume fuel j (set_plock l p)
      = (r ← handle_signal abi resume fuel (set_pending q p) j;
         match r with SReturn p => Done (inl (p_spin_unlock p)) | _ => Done (inr r) end)).
    { unfold check_signal. change (s_pending (set_plock l p)) with (s_pending p).
      change (s_blocked (set_plock l p)) with (s_blocked p). rewrite (sigismember_mem (s_pending p)), Hpj by (done || lia). simpl.
      rewrite sigismember_mem, Hbj by (done || lia). simpl. rewrite Hq. simpl.
      replace (p_spin_unlock (set_pending q (set_plock l p))) with (set_pending q p); [done|].
      unfold p_spin_unlock, set_plock, set_pending. simpl. by rewrite Hl. }
    rewrite Hcheck. assert (Hg : aget (s_handlers p) j = Done h) by (apply aget_done; split; [lia|done]).
    unfold handle_signal. simpl. rewrite Hg. simpl. split.
    + intros H0 Ht. by rewrite decide_True by done.
    + intros H0. rewrite (decide_False (P := _ /\ sig_terminates abi j)) by tauto. rewrite (decide_False (P := _ /\ sig_stops abi j)) by tauto. simpl.
      rewrite Hg. simpl. rewrite (decide_False (P := sh_handler h = SIG_DFL abi)) by congruence. case_decide; simpl.
      * exists (s_blocked p). split; [|done]. by destruct p.
      * destruct (sigaddset_mem (s_blocked p) j Hb) as (b & -> & Hbw & Hbm); [lia|]. simpl. by exists b.
Qed.

(** A caught signal 3 and a blocked signal 17 are pending. *)
Definition caught_proc : sproc :=
  mk_sproc 2 (replicate 3 (mk_sh 0 [] 0 0) ++ mk_sh 4096 [] 0 0 :: replicate 28 (mk_sh 0 [] 0 0))
    (Z.lor 4 (2 ^ 16) :: replicate 15 0) (Z.lor 8 (2 ^ 16) :: replicate 15 0) false zero_regs.

Example process_check_signals_spec_witness :
  ((forall i, 1 <= i < 32 -> deliverable caught_proc i = false) ->
     process_check_signals linux_abi (fun p => Done p) 3 caught_proc = Done (SReturn caught_proc)) /\
  (forall j h, 1 <= j < 32 -> deliverable caught_proc j = true ->
     (forall i, 1 <= i < j -> deliverable caught_proc i = false) ->
     s_handlers caught_proc !! Z.to_nat j = Some h ->
     exists q, sig_wf q /\
       (forall n, 1 <= n <= 512 -> sig_mem q n = negb (j =? n) && sig_mem (s_pending caught_proc) n) /\
       (sh_handler h = 0 -> sig_terminates linux_abi j ->
          process_check_signals linux_abi (fun p => Done p) 3 caught_proc
            = Done (SExit (set_pending q caught_proc))) /\
       (sh_handler h <> 0 -> exists b,
          process_check_signals linux_abi (fun p => Done p) 3 caught_proc
            = Done (SEnter (set_blocked b (set_pending q caught_proc)) j) /\
          forall n, 1 <= n <= 512 -> sig_mem b n =
            (if decide (Z.land (sh_flags h) (SA_NODEFER linux_abi) = 0) then false else j =? n)
              || sig_mem (s_blocked caught_proc) n)).
Proof.
  apply (process_check_signals_spec linux_abi (fun p => Done p) 3 caught_proc);
    [by constructor | reflexivity | reflexivity | reflexivity].
Defined.

(** ** The signal frame

    The user stack holds typed objects at their addresses.  PUSH_PTR moves the
    pointer down by the size of the type, then down until the bits of
    [size - 1] are clear, and stores; POP_PTR, in the source, stores too. *)
Inductive sval := VRegs (r : regs_t) | VLong (z : Z) | VSigset (s : sigset).

Definition sizeof_regs : Z := 22 * 8.
Definition sizeof_sigset : Z := 16 * 8.

Definition push_align (size stack : Z) : outcome Z :=
  loop 257 (fun s => if decide (Z.land s (size - 1) = 0) then Done (inr s) else Done (inl (s - 1))) stack.

Definition PUSH_PTR {V} (size : Z) (v : V) (st : Z * gmap Z V) : outcome (Z * gmap Z V) :=
  a ← push_align size (st.1 - size); Done (a, <[a := v]> st.2).

Definition POP_PTR (size : Z) (v : sval) (st : Z * gmap Z sval) : Z * gmap Z sval :=
  (st.1 + size, <[st.1 := v]> st.2).

(** The frame of process_enter_signal: the result is the user stack pointer
    and the handler that iretq goes to. *)
Definition process_enter_signal (current : sproc) (stack : gmap Z sval) (regs : regs_t) (signum : Z)
    : outcome (Z * gmap Z sval * Z) :=
  st ← PUSH_PTR sizeof_regs (VRegs regs) (rsp regs, stack);
  st ← PUSH_PTR 8 (VLong signum) st;
  st ← PUSH_PTR sizeof_sigset (VSigset (s_blocked current)) st;
  h ← aget (s_handlers current) signum;
  st ← PUSH_PTR 8 (VLong (sh_restorer h)) st;
  Done (st.1, st.2, sh_handler h).

(** [garbage] is the uninitialised local [regs]. *)
Definition process_signal_return (garbage : regs_t) (current : sproc) (stack : gmap Z sval)
    : Z * sproc * gmap Z sval :=
  let saved := s_regs current in
  let signum := 0 in
  let st := POP_PTR sizeof_sigset (VSigset (s_blocked current)) (rsp saved, stack) in
  let st := POP_PTR 8 (VLong signum) st in
  let st := POP_PTR sizeof_regs (VRegs garbage) st in
  let g := garbage in
  (signum,
   set_regs (mk_regs (r9 g) (r9 g) (r9 g) (r9 g) (r9 g) (r9 g) (r9 g) (r8 g)
     (rbp g) (rdi g) (rsi g) (rdx g) (rcx g) (rbx g) (rax g) (int_no saved) (err_code saved)
     (rip g) (cs saved) (Z.lor (Z.lor (rflags g) (2 ^ 9)) (2 ^ 21)) (rsp g) (ss saved)) current,
   st.2).

Lemma push_align_ok size s : 1 <= size <= 256 -> 256 <= s ->
  exists a, push_align size s = Done a /\ s - 256 < a <= s /\ Z.land a (size - 1) = 0.
Proof.
  intros Hsz Hs.
  destruct (loop_total (fun x => s - s mod 256 <= x <= s) (fun x => Z.to_nat (x - (s - s mod 256)))
    (fun a => s - 256 < a <= s /\ Z.land a (size - 1) = 0)
    (fun x => if decide (Z.land x (size - 1) = 0) then Done (inr x) else Done (inl (x - 1))) 257 s)
    as (a & Ha & HQ); [| |pose proof (Z.mod_pos_bound s 256); lia|by exists a].
  - intros x Hx. pose proof (Z.mod_pos_bound s 256). case_decide as E; [split; [lia|done]|].
    assert (x <> s - s mod 256); [|lia]. intros ->. apply E.
    replace (s - s mod 256) with (2 ^ 8 * (s / 256)) by (pose proof (Z.div_mod s 256); lia).
    rewrite Z.mul_comm, <-Z.shiftl_mul_pow2 by lia. apply Z.bits_inj_0. intros n.
    destruct (Z.lt_ge_cases n 0); [by apply Z.testbit_neg_r|]. rewrite Z.land_spec.
    destruct (Z.lt_ge_cases n 8).
    + by rewrite Z.shiftl_spec_low by lia.
    + rewrite (Z.bits_above_log2 (size - 1)), andb_false_r; [done|lia|].
      destruct (decide (size - 1 = 0)) as [->|]; [rewrite Z.log2_nonpos; lia|].
      apply Z.log2_lt_pow2; [lia|]. apply Z.lt_le_trans with (2 ^ 8); [lia|]. apply Z.pow_le_mono_r; lia.
  - pose proof (Z.mod_pos_bound s 256). lia.
Qed.

Lemma PUSH_PTR_ok {V} size (v : V) a stack : 1 <= size <= 256 -> 512 <= a ->
  exists b, PUSH_PTR size v (a, stack) = Done (b, <[b := v]> stack) /\
    a - size - 256 < b <= a - size /\ Z.land b (size - 1) = 0.
Proof.
  intros Hsz Ha. unfold PUSH_PTR. simpl. destruct (push_align_ok size (a - size)) as (b & -> & Hb & Hl);
    [lia|lia|]. exists b. done.
Qed.

(** Process_enter_signal.  With room below the user stack pointer it
    stores, each below the object before and none at or above the interrupted
    stack pointer, the saved registers, the signal number, the blocked set and
    the restorer, which is the word the handler returns to; nothing else of the
    user's stack changes. *)
Theorem process_enter_signal_frame p stack regs signum h :
  2048 <= rsp regs -> 0 <= signum -> s_handlers p !! Z.to_nat signum = Some h ->
  exists a b c d stack',
    process_enter_signal p stack regs signum = Done (d, stack', sh_handler h) /\
    d + 8 <= c /\ c + sizeof_sigset <= b /\ b + 8 <= a /\ a + sizeof_regs <= rsp regs /\
    Z.land d 7 = 0 /\
    stack' !! d = Some (VLong (sh_restorer h)) /\ stack' !! c = Some (VSigset (s_blocked p)) /\
    stack' !! b = Some (VLong signum) /\ stack' !! a = Some (VRegs regs) /\
    (forall x, rsp regs <= x -> stack' !! x = stack !! x).
Proof.
  intros Hsp Hs Hh. unfold process_enter_signal, sizeof_regs, sizeof_sigset.
  destruct (PUSH_PTR_ok (22 * 8) (VRegs regs) (rsp regs) stack) as (a & -> & Ha & _); [lia..|].
  cbn [mbind outcome_bind].
  destruct (PUSH_PTR_ok 8 (VLong signum) a (<[a:=VRegs regs]> stack)) as (b & -> & Hb & _); [lia..|].
  cbn [mbind outcome_bind].
  match goal with |- context [PUSH_PTR (16 * 8) ?v (b, ?m)] =>
    destruct (PUSH_PTR_ok (16 * 8) v b m) as (c & -> & Hc & _); [lia..|] end.
  cbn [mbind outcome_bind].
  assert (aget (s_handlers p) signum = Done h) as -> by (apply aget_done; done).
  cbn [mbind outcome_bind].
  match goal with |- context [PUSH_PTR 8 ?v (c, ?m)] =>
    destruct (PUSH_PTR_ok 8 v c m) as (d & -> & Hd & Hal); [lia..|] end.
  cbn [mbind outcome_bind fst snd].
  eexists a, b, c, d, _. split; [done|]. do 4 (split; [lia|]). split; [exact Hal|].
  split; [by rewrite lookup_insert_eq|]. do 3 (split; [by repeat first [rewrite lookup_insert_eq | rewrite lookup_insert_ne by lia]|]).
  intros x Hx. by rewrite !lookup_insert_ne by lia.
Qed.

Example process_enter_signal_frame_witness :
  exists a b c d stack',
    process_enter_signal caught_proc ∅ (mk_regs 0 0 0 0 0 0 0 0 0 0 0 0 0 0 0 0 0 0 0 0 4096 0) 3
      = Done (d, stack', 4096) /\
    d + 8 <= c /\ c + sizeof_sigset <= b /\ b + 8 <= a /\ a + sizeof_regs <= 4096 /\
    Z.land d 7 = 0 /\
    stack' !! d = Some (VLong 0) /\ stack' !! c = Some (VSigset (s_blocked caught_proc)) /\
    stack' !! b = Some (VLong 3) /\
    stack' !! a = Some (VRegs (mk_regs 0 0 0 0 0 0 0 0 0 0 0 0 0 0 0 0 0 0 0 0 4096 0)) /\
    (forall x, 4096 <= x -> stack' !! x = (∅ : gmap Z sval) !! x).
Proof.
  apply (process_enter_signal_frame caught_proc ∅
    (mk_regs 0 0 0 0 0 0 0 0 0 0 0 0 0 0 0 0 0 0 0 0 4096 0) 3 (mk_sh 4096 [] 0 0));
    [simpl; lia | lia | reflexivity].
Defined.

(** Process_signal_return does not read the frame: POP_PTR stores into the
    stack where it should load.  Whatever the stack holds, the call returns 0,
    keeps the blocked set, and loads the registers from its uninitialised local,
    r10 to r15 all from the slot of r9. *)
Theorem process_signal_return_ignores_frame garbage p stack1 stack2 :
  let '(v1, p1, st1) := process_signal_return garbage p stack1 in
  let '(v2, p2, st2) := process_signal_return garbage p stack2 in
  v1 = 0 /\ v2 = 0 /\ p1 = p2 /\ s_blocked p1 = s_blocked p /\ rip (s_regs p1) = rip garbage /\
  r10 (s_regs p1) = r9 garbage /\ r15 (s_regs p1) = r9 garbage /\
  st1 !! rsp (s_regs p) = Some (VSigset (s_blocked p)) /\
  st1 !! (rsp (s_regs p) + sizeof_sigset) = Some (VLong 0).
Proof.
  simpl. unfold sizeof_sigset. split_and!; try done.
  - rewrite !lookup_insert_ne by lia. by rewrite lookup_insert_eq.
  - rewrite lookup_insert_ne by lia. by rewrite lookup_insert_eq.
Qed.
