(* ===== verification/Pty.v ===== *)
(** Pseudo terminals: kernel/fs/pty.c, over RingBuffer.v and Mutex.v.

    One pair is a record [pty]: its data (the ring buffers, the settings, the
    session leader) and the two wait queues of the pair; [tty] is what
    terminal_putchar and terminal_swap were called with.  The flags and error
    numbers of the C library's headers (termios.h, poll.h, errno.h) are the
    parameter [tty_abi].  [edit] is the line discipline that canonical mode
    promises. *)
From stdpp Require Import base list gmap strings.
From Stdlib Require Import ZArith Lia.
From S2P Require Import Prelude KList Mutex RingBuffer.

#[local] Open Scope Z_scope.

Record tty_abi := mk_tty_abi {
  ICANON : Z; ECHO : Z; VERASE : Z; VEOF : Z; POLLIN : Z; POLLOUT : Z; EINVAL : Z; ENOSYS : Z
}.

Definition PTY_BUFFER_SIZE : Z := 1024.
Definition MAX_PTY_PAIRS : Z := 16.
Definition TCGETS : Z := 0x5401.
Definition TCSETS : Z := 0x5402.
Definition TCSETSW : Z := 0x5403.
Definition TCSETSF : Z := 0x5404.
Definition TIOCGPGRP : Z := 0x540F.
Definition TIOCSPGRP : Z := 0x5410.

(** The fields of struct termios the kernel sets or reads. *)
Record termios := mk_termios { c_lflag : Z; c_cc : gmap Z Z; ibaud : Z; obaud : Z }.

Inductive tevent := TPut (c : Z) | TSwap | TCursor (x y : Z) | TClear | TResetLine.

Record pty_data (Q : Type) := mk_pd {
  input_buffer : circular_buffer Q;
  output_buffer : circular_buffer Q;
  term_settings : termios;
  session_leader : Z;
  pty_raw : bool;
  pty_console : bool
}.
Arguments mk_pd {Q}.
Arguments input_buffer {Q}.
Arguments output_buffer {Q}.
Arguments term_settings {Q}.
Arguments session_leader {Q}.
Arguments pty_raw {Q}.
Arguments pty_console {Q}.

Record pty (Q : Type) := mk_pty {
  pd : pty_data Q;
  wait_queue_write : mutex_t Q;
  wait_queue_read : mutex_t Q;
  tty : list tevent
}.
Arguments mk_pty {Q}.
Arguments pd {Q}.
Arguments wait_queue_write {Q}.
Arguments wait_queue_read {Q}.
Arguments tty {Q}.

(** What an ioctl is given and what it leaves behind the argument pointer. *)
Inductive ioctl_data := ITermios (t : termios) | IWord (w : Z) | IWinsize (row col xp yp : Z) | INone.

Section Pty.
Context {Q : Type} `{Queue Q} (abi : tty_abi).
Context (resume : sched Q * pty Q -> outcome (sched Q * pty Q)).
Context (rb_resume : sched Q * circular_buffer Q -> outcome (sched Q * circular_buffer Q)).

Definition set_input (b : circular_buffer Q) (p : pty Q) : pty Q :=
  mk_pty (mk_pd b (output_buffer (pd p)) (term_settings (pd p)) (session_leader (pd p))
            (pty_raw (pd p)) (pty_console (pd p)))
    (wait_queue_write p) (wait_queue_read p) (tty p).
Definition set_output (b : circular_buffer Q) (p : pty Q) : pty Q :=
  mk_pty (mk_pd (input_buffer (pd p)) b (term_settings (pd p)) (session_leader (pd p))
            (pty_raw (pd p)) (pty_console (pd p)))
    (wait_queue_write p) (wait_queue_read p) (tty p).
Definition set_settings (t : termios) (p : pty Q) : pty Q :=
  mk_pty (mk_pd (input_buffer (pd p)) (output_buffer (pd p)) t (session_leader (pd p))
            (pty_raw (pd p)) (pty_console (pd p)))
    (wait_queue_write p) (wait_queue_read p) (tty p).
Definition set_leader (l : Z) (p : pty Q) : pty Q :=
  mk_pty (mk_pd (input_buffer (pd p)) (output_buffer (pd p)) (term_settings (pd p)) l
            (pty_raw (pd p)) (pty_console (pd p)))
    (wait_queue_write p) (wait_queue_read p) (tty p).
Definition set_read_queue (m : mutex_t Q) (p : pty Q) : pty Q :=
  mk_pty (pd p) (wait_queue_write p) m (tty p).
Definition emit (e : list tevent) (p : pty Q) : pty Q :=
  mk_pty (pd p) (wait_queue_write p) (wait_queue_read p) (tty p ++ e).

Definition lens_pair : mlens Q (pty Q) := mk_mlens wait_queue_read set_read_queue.

(** malloc succeeds; [garbage] is the [console] field of the fresh block, which
    only pair 0 sets. *)
Definition pty_create_pair (empty : Q) (garbage : bool) (pty_index : Z) (pairs : list (option (pty Q)))
    : outcome (Z * list (option (pty Q))) :=
  if decide (MAX_PTY_PAIRS <= pty_index) then Done (- EINVAL abi, pairs)
  else
    let rb := ring_buffer_create empty PTY_BUFFER_SIZE false in
    let m := mutex_init empty (mk_mutex false 0 empty) in
    let settings :=
      if decide (pty_index = 0)
      then mk_termios (Z.lor (ECHO abi) (ICANON abi)) (<[VEOF abi := 4]> (<[VERASE abi := 8]> ∅)) 38400 38400
      else mk_termios 0 ∅ 0 0 in
    let console := if decide (pty_index = 0) then true else garbage in
    pairs ← aset pairs pty_index (Some (mk_pty (mk_pd rb rb settings (-1) false console) m m []));
    Done (0, pairs).

(** The side effect of pty_get_slave on its pair. *)
Definition claim_session (cur_id : Z) (p : pty Q) : pty Q :=
  if decide (session_leader (pd p) = -1) then set_leader cur_id p else p.

Definition pty_get_slave (cur_id : Z) (pty_index : Z) (pairs : list (option (pty Q)))
    : outcome (option (pty Q) * list (option (pty Q))) :=
  if decide (MAX_PTY_PAIRS <= pty_index) then Done (None, pairs)
  else
    p ← aget pairs pty_index;
    p ← of_option p;
    let p := claim_session cur_id p in
    pairs ← aset pairs pty_index (Some p);
    Done (Some p, pairs).

Definition pty_get_master (pty_index : Z) (pairs : list (option (pty Q))) : outcome (option (pty Q)) :=
  if decide (MAX_PTY_PAIRS <= pty_index) then Done None else aget pairs pty_index.

(** The scan of the readable bytes: the position after the first newline. *)
Definition newline_step (i : Z) (buffer : circular_buffer Q)
    : outcome (circular_buffer Q + Z * circular_buffer Q) :=
  '(ok, c, buffer) ← ring_buffer_peek buffer i;
  if decide (ok <> 0 /\ c = Some 10) then Done (inr (i + 1, buffer)) else Done (inl buffer).

Definition find_newline (buffer : circular_buffer Q) : outcome (Z * circular_buffer Q) :=
  let available := ring_buffer_available buffer in
  r ← for_ (Z.to_nat available) 0 newline_step buffer;
  match r with inl buffer => Done (-1, buffer) | inr r => Done r end.

(** [while((newline_pos = find_newline(..)) == -1)]: sleep on the pair's queue. *)
Definition await_line (fuel : nat) (cur : Z) (s : sched Q) (p : pty Q) : outcome (Z * sched Q * pty Q) :=
  loop fuel (fun '(s, p) =>
    '(pos, b) ← find_newline (input_buffer (pd p));
    let p := set_input b p in
    if decide (pos = -1) then
      '(_, m) ← mutex_acquire_if_free cur (wait_queue_read p);
      '(s, p) ← mutex_wait resume cur lens_pair fuel (s, set_read_queue m p);
      Done (inl (s, p))
    else Done (inr (pos, s, p))) (s, p).

(** MIN compares the int position with a size_t. *)
Definition pty_slave_read (fuel : nat) (cur : Z) (s : sched Q) (p : pty Q) (buffer : list Z) (size : Z)
    : outcome (Z * list Z * sched Q * pty Q) :=
  if decide (Z.land (c_lflag (term_settings (pd p))) (ICANON abi) <> 0) then
    '(pos, s, p) ← await_line fuel cur s p;
    let n := if decide (u64 pos < size) then u64 pos else size in
    '(r, buffer, s, b) ← ring_buffer_read rb_resume fuel cur s (input_buffer (pd p)) (s32 n) buffer;
    Done (r, buffer, s, set_input b p)
  else
    '(r, buffer, s, b) ← ring_buffer_read rb_resume fuel cur s (input_buffer (pd p)) (s32 size) buffer;
    Done (r, buffer, s, set_input b p).

Definition pty_write (fuel : nat) (cur : Z) (s : sched Q) (p : pty Q) (buffer : list Z) (size : Z)
    : outcome (Z * sched Q * pty Q) :=
  '(r, s, b) ← ring_buffer_write rb_resume fuel cur s (output_buffer (pd p)) (s32 size) buffer;
  Done (r, s, set_output b p).

Definition pty_master_read (p : pty Q) : Z := 0.

Definition echo_char (fuel : nat) (cur cur_id : Z) (s : sched Q) (p : pty Q) (c : Z)
    : outcome (sched Q * pty Q) :=
  if pty_console (pd p) then Done (s, emit [TPut c; TSwap] p)
  else
    '(_, s, p) ← pty_write fuel cur s (claim_session cur_id p) [c] 1;
    Done (s, p).

Definition signal_input_ready (fuel : nat) (cur : Z) (s : sched Q) (p : pty Q) : outcome (sched Q * pty Q) :=
  '(free, m) ← mutex_acquire_if_free cur (wait_queue_read p);
  let p := set_read_queue m p in
  if (free : bool) then Done (s, p)
  else '(s, m) ← mutex_release fuel s (wait_queue_read p); Done (s, set_read_queue m p).

(** [ring_buffer_write(pty->input_buffer, 1, &c)] *)
Definition put_input (fuel : nat) (cur : Z) (s : sched Q) (p : pty Q) (c : Z)
    : outcome (Z * sched Q * pty Q) :=
  '(r, s, b) ← ring_buffer_write rb_resume fuel cur s (input_buffer (pd p)) 1 [c];
  Done (r, s, set_input b p).

Definition has_flag (p : pty Q) (f : Z) : bool :=
  negb (Z.land (c_lflag (term_settings (pd p))) f =? 0).

(** The first branch of the loop body: raw or non-canonical. *)
Definition raw_char (fuel : nat) (cur cur_id : Z) (c : Z) (st : Z * sched Q * pty Q)
    : outcome ((Z * sched Q * pty Q) + (Z * sched Q * pty Q * bool)) :=
  let '(written, s, p) := st in
  '(r, s, p) ← put_input fuel cur s p c;
  if decide (0 < r) then
    '(s, p) ← (if has_flag p (ECHO abi) && negb (c =? 8)
               then echo_char fuel cur cur_id s p c else Done (s, p));
    Done (inl (u64 (written + 1), s, p))
  else Done (inr (written, s, p, false)).

(** The switch of canonical mode; [true] on the right is [line_complete]. *)
Definition canonical_char (fuel : nat) (cur cur_id : Z) (c : Z) (st : Z * sched Q * pty Q)
    : outcome ((Z * sched Q * pty Q) + (Z * sched Q * pty Q * bool)) :=
  let '(written, s, p) := st in
  if decide (c = 8) then
    '(s, p) ← (if decide (0 < ring_buffer_available (input_buffer (pd p))) then
                 '(_, s, b) ← ring_buffer_pop fuel cur s (input_buffer (pd p));
                 let p := set_input b p in
                 if has_flag p (ECHO abi) then
                   '(s, p) ← echo_char fuel cur cur_id s p 8;
                   '(s, p) ← echo_char fuel cur cur_id s p 32;
                   echo_char fuel cur cur_id s p 8
                 else Done (s, p)
               else Done (s, p));
    Done (inl (u64 (written + 1), s, p))
  else
    '(r, s, p) ← put_input fuel cur s p c;
    if decide (0 < r) then
      '(s, p) ← (if has_flag p (ECHO abi) then echo_char fuel cur cur_id s p c else Done (s, p));
      if decide (c = 10 \/ c = 13) then Done (inr (u64 (written + 1), s, p, true))
      else Done (inl (u64 (written + 1), s, p))
    else Done (inr (written, s, p, true)).

Definition canonical (p : pty Q) : bool := has_flag p (ICANON abi) && negb (pty_raw (pd p)).

(** The loop body of pty_write_to_input. *)
Definition input_body (fuel : nat) (cur cur_id : Z) (buffer : list Z) (i : Z) (st : Z * sched Q * pty Q)
    : outcome ((Z * sched Q * pty Q) + (Z * sched Q * pty Q * bool)) :=
  c ← aget buffer i;
  if canonical st.2 then canonical_char fuel cur cur_id c st else raw_char fuel cur cur_id c st.

(** The rest of pty_write_to_input on the pair it found. *)
Definition write_to_input (fuel : nat) (cur cur_id : Z) (s : sched Q) (p : pty Q)
    (buffer : list Z) (size : Z) : outcome (Z * sched Q * pty Q) :=
  r ← for_ (Z.to_nat size) 0 (input_body fuel cur cur_id buffer) (0, s, p);
  let '(written, s, p, line_complete) :=
    match r with inl (w, s, p) => (w, s, p, false) | inr r => r end in
  '(s, p) ← (if negb (canonical p) || line_complete then signal_input_ready fuel cur s p
             else Done (s, p));
  Done (s32 written, s, p).

Definition pty_write_to_input (fuel : nat) (cur cur_id : Z) (s : sched Q) (pairs : list (option (pty Q)))
    (pty_index : Z) (buffer : list Z) (size : Z) : outcome (Z * sched Q * list (option (pty Q))) :=
  if decide (MAX_PTY_PAIRS <= pty_index) then Done (- EINVAL abi, s, pairs)
  else
    p ← aget pairs pty_index;
    p ← of_option p;
    '(r, s, p) ← write_to_input fuel cur cur_id s p buffer size;
    pairs ← aset pairs pty_index (Some p);
    Done (r, s, pairs).

Definition pty_write_char_to_input (fuel : nat) (cur cur_id : Z) (s : sched Q)
    (pairs : list (option (pty Q))) (pty_index : Z) (c : Z) :=
  pty_write_to_input fuel cur cur_id s pairs pty_index [c] 1.

(** [index] is the field of the pair's data. *)
Definition pty_master_write (fuel : nat) (cur cur_id : Z) (s : sched Q)
    (pairs : list (option (pty Q))) (index : Z) (buffer : list Z) (size : Z) :=
  pty_write_to_input fuel cur cur_id s pairs index buffer size.

(** The argument is what [args] points to; the result is what it holds after.
    TCGETS and TIOCGPGRP write it whatever it held; TCSETS and TIOCSPGRP read
    it, and an argument of another shape is outside the model. *)
Definition pty_ioctl (p : pty Q) (request : Z) (args : ioctl_data) : outcome (Z * ioctl_data * pty Q) :=
  if decide (request = TCGETS) then Done (0, ITermios (term_settings (pd p)), p)
  else if decide (request = TCSETS \/ request = TCSETSW) then
    match args with ITermios t => Done (0, args, set_settings t p) | _ => Fault end
  else if decide (request = TCSETSF) then
    b ← ring_buffer_discard_readable (input_buffer (pd p));
    match args with ITermios t => Done (0, args, set_settings t (set_input b p)) | _ => Fault end
  else if decide (request = TIOCGPGRP) then Done (0, IWord (u32 (session_leader (pd p))), p)
  else if decide (request = TIOCSPGRP) then
    match args with IWord w => Done (0, args, set_leader (s32 w) p) | _ => Fault end
  else Done (- ENOSYS abi, args, p).

Definition pty_poll (p : pty Q) (requested : Z) : outcome (Z * pty Q) :=
  if decide (Z.land requested (POLLIN abi) <> 0) then
    if decide (Z.land (c_lflag (term_settings (pd p))) (ICANON abi) <> 0) then
      '(pos, b) ← find_newline (input_buffer (pd p));
      Done (if decide (pos <> -1) then Z.lor 0 (POLLIN abi) else 0, set_input b p)
    else Done (if decide (ring_buffer_available (input_buffer (pd p)) <> 0) then Z.lor 0 (POLLIN abi) else 0, p)
  else Done (0, p).

(** ** The line discipline *)

(** What one character does to the line that is being edited. *)
Definition edit (line : list Z) (c : Z) : list Z := if decide (c = 8) then removelast line else line ++ [c].

(** The queues of the ring buffer with nobody asleep on them. *)
Definition idle (m : mutex_t Q) : Prop := exists o, mutex_rep m o [].

(** A pair in canonical mode that holds [xs] unread, with [ws] asleep on its
    read queue while [o] owns it. *)
Record canon_rep (s : sched Q) (p : pty Q) (xs rs ws : list Z) (o : Z) : Prop := {
  ca_rep : cb_rep (input_buffer (pd p)) xs;
  ca_block : cb_blocking (input_buffer (pd p)) = false;
  ca_idle_r : idle (cb_wait_read (input_buffer (pd p)));
  ca_idle_w : idle (cb_wait_write (input_buffer (pd p)));
  ca_queue : qrep (thread_queue s) rs;
  ca_mode : canonical p = true;
  ca_console : pty_console (pd p) = true;
  ca_wait : mutex_rep (wait_queue_read p) o ws
}.

(** What a step on the input leaves alone. *)
Definition pair_kept (s : sched Q) (p : pty Q) (s' : sched Q) (p' : pty Q) : Prop :=
  p_flags s' = p_flags s /\ term_settings (pd p') = term_settings (pd p) /\
  cb_max (input_buffer (pd p')) = cb_max (input_buffer (pd p)).

Lemma pair_kept_trans s p s1 p1 s2 p2 :
  pair_kept s p s1 p1 -> pair_kept s1 p1 s2 p2 -> pair_kept s p s2 p2.
Proof. intros (? & ? & ?) (? & ? & ?). split_and!; congruence. Qed.

(** The queue of the other side, whoever takes or releases it, wakes nobody. *)
Lemma idle_case m s s' m' cur rs o :
  qrep (thread_queue s) rs ->
  (if decide (o = 0) then s' = s /\ mutex_rep m' cur ([] : list Z)
   else p_flags s' = woken [] (p_flags s) /\ qrep (thread_queue s') (rs ++ []) /\ mutex_rep m' 0 []) ->
  (m' = m -> idle m) /\ idle m' /\ qrep (thread_queue s') rs /\ p_flags s' = p_flags s.
Proof.
  intros Hq Hc. rewrite app_nil_r in Hc. unfold idle. case_decide.
  - destruct Hc as [-> Hm]. split_and!; eauto. by intros <-; eauto.
  - destruct Hc as (Hf & Ht & Hm). split_and!; eauto. by intros <-; eauto.
Qed.

Lemma put_input_ok fuel cur s p xs rs ws o c :
  canon_rep s p xs rs ws o -> Z.of_nat (length xs) + 1 < cb_max (input_buffer (pd p)) ->
  Z.of_nat (length rs) < 2 ^ 64 - 1 -> (1 < fuel)%nat ->
  exists s' p', put_input fuel cur s p c = Done (1, s', p') /\ canon_rep s' p' (xs ++ [c]) rs ws o /\
    pair_kept s p s' p' /\ tty p' = tty p.
Proof.
  intros [Hr Hb [oi Hi] Hw Hq Hm Hc Hwt] Hroom Hrs Hf. unfold put_input.
  pose proof (write_enqueues rb_resume fuel cur s _ xs 1 [c] oi [] rs Hr Hi) as Hwr.
  rewrite decide_True in Hwr by done.
  destruct Hwr as (s' & b' & m' & -> & Hr' & Hm' & Hww & Hmx & Hbl & Hcase);
    [by split; [|intros ? Hin; inversion Hin]|constructor|simpl; lia|simpl; lia|simpl; lia|].
  destruct (idle_case m' s s' m' cur rs oi Hq Hcase) as (_ & Hi' & Hq' & Hfl). simpl.
  eexists _, _. split; [done|]. split; [|done].
  constructor; simpl; try done; [by rewrite Hbl|by rewrite Hm'|by rewrite Hww].
Qed.

Lemma pop_input_ok fuel cur s p xs rs ws o :
  canon_rep s p xs rs ws o -> xs <> [] -> Z.of_nat (length rs) < 2 ^ 64 - 1 -> (1 < fuel)%nat ->
  exists s' b', ring_buffer_pop fuel cur s (input_buffer (pd p)) = Done (1, s', b') /\
    canon_rep s' (set_input b' p) (removelast xs) rs ws o /\ pair_kept s p s' (set_input b' p).
Proof.
  intros [Hr Hb Hi [ow Hw] Hq Hm Hc Hwt] Hne Hrs Hf.
  destruct (pop_drops_last fuel cur s _ xs ow [] rs Hr Hw) as (s' & b' & m' & -> & Hr' & Hwr & Hmx & Hbl & Hm' & Hcase);
    [by split; [|intros ? Hin; inversion Hin]|constructor|simpl; lia|simpl; lia|done|].
  destruct (idle_case m' s s' m' cur rs ow Hq Hcase) as (_ & Hi' & Hq' & Hfl).
  exists s', b'. split; [done|]. split; [|done].
  constructor; simpl; try done; [by rewrite Hbl|by rewrite Hwr|by rewrite Hm'].
Qed.

(** The character of a console echoes without touching the buffers. *)
Lemma echo_ok fuel cur cur_id s p xs rs ws o c :
  canon_rep s p xs rs ws o ->
  echo_char fuel cur cur_id s p c = Done (s, emit [TPut c; TSwap] p) /\
  canon_rep s (emit [TPut c; TSwap] p) xs rs ws o /\ pair_kept s p s (emit [TPut c; TSwap] p).
Proof. intros [Hr Hb Hi Hw Hq Hm Hc Hwt]. unfold echo_char. rewrite Hc. by split_and!. Qed.

Lemma maybe_echo_ok fuel cur cur_id s p xs rs ws o c :
  canon_rep s p xs rs ws o ->
  exists p', (if has_flag p (ECHO abi) then echo_char fuel cur cur_id s p c else Done (s, p)) = Done (s, p') /\
    canon_rep s p' xs rs ws o /\ pair_kept s p s p'.
Proof.
  intros Hp. destruct (has_flag p (ECHO abi)); [|by exists p].
  destruct (echo_ok fuel cur cur_id s p xs rs ws o c Hp) as (? & ? & ?). eauto.
Qed.

(** One character of canonical input edits the line. *)
Lemma canonical_char_ok fuel cur cur_id s p xs rs ws o c w :
  canon_rep s p xs rs ws o -> Z.of_nat (length xs) + 1 < cb_max (input_buffer (pd p)) ->
  Z.of_nat (length rs) < 2 ^ 64 - 1 -> (1 < fuel)%nat -> 0 <= w < 2 ^ 31 ->
  exists s' p', canonical_char fuel cur cur_id c (w, s, p)
    = Done (if decide (c = 10 \/ c = 13) then inr (w + 1, s', p', true) else inl (w + 1, s', p')) /\
    canon_rep s' p' (edit xs c) rs ws o /\ pair_kept s p s' p'.
Proof.
  intros Hp Hroom Hrs Hf Hw. unfold canonical_char, edit. rewrite (u64_small (w + 1)) by lia.
  destruct (decide (c = 8)) as [->|H8].
  - destruct (decide (8 = 10 \/ 8 = 13)); [lia|].
    rewrite (available_rep _ _ (ca_rep _ _ _ _ _ _ Hp)). destruct xs as [|x xs].
    + simpl. exists s, p. done.
    + rewrite decide_True by (simpl; lia).
      destruct (pop_input_ok fuel cur s p (x :: xs) rs ws o Hp) as (s1 & b1 & -> & Hp1 & Hk1); try done.
      cbn [mbind outcome_bind]. destruct (has_flag (set_input b1 p) (ECHO abi)); simpl; [|by eexists _, _].
      destruct (echo_ok fuel cur cur_id _ _ _ _ _ _ 8 Hp1) as (-> & Hp2 & Hk2). cbn [mbind outcome_bind].
      destruct (echo_ok fuel cur cur_id _ _ _ _ _ _ 32 Hp2) as (-> & Hp3 & Hk3). cbn [mbind outcome_bind].
      destruct (echo_ok fuel cur cur_id _ _ _ _ _ _ 8 Hp3) as (-> & Hp4 & Hk4). cbn [mbind outcome_bind].
      eexists _, _. split; [done|]. split; [exact Hp4|]. by do 3 (eapply pair_kept_trans; [done|]).
  - destruct (put_input_ok fuel cur s p xs rs ws o c Hp) as (s1 & p1 & -> & Hp1 & Hk1 & _); try done.
    cbn [mbind outcome_bind]. rewrite (decide_True (P := 0 < 1)) by lia.
    destruct (maybe_echo_ok fuel cur cur_id _ _ _ _ _ _ c Hp1) as (p2 & -> & Hp2 & Hk2).
    cbn [mbind outcome_bind]. exists s1, p2. split; [by case_decide|].
    split; [done|]. by eapply pair_kept_trans.
Qed.

Lemma edit_length xs c : (length (edit xs c) <= length xs + 1)%nat.
Proof.
  unfold edit. case_decide.
  - destruct xs as [|x xs] using rev_ind; [simpl; lia|]. rewrite removelast_last, length_app. simpl. lia.
  - rewrite length_app. simpl. lia.
Qed.

Lemma canonical_run fuel cur cur_id rs ws o pre : forall before after s p xs m,
  canon_rep s p xs rs ws o -> Forall (fun c => c <> 10 /\ c <> 13) pre ->
  Z.of_nat (length xs) + Z.of_nat (length pre) < cb_max (input_buffer (pd p)) ->
  Z.of_nat (length rs) < 2 ^ 64 - 1 -> (1 < fuel)%nat ->
  Z.of_nat (length before) + Z.of_nat (length pre) < 2 ^ 31 ->
  exists s' p', canon_rep s' p' (foldl edit xs pre) rs ws o /\ pair_kept s p s' p' /\
    for_ (length pre + m) (Z.of_nat (length before)) (input_body fuel cur cur_id (before ++ pre ++ after))
      (Z.of_nat (length before), s, p)
    = for_ m (Z.of_nat (length before + length pre)) (input_body fuel cur cur_id (before ++ pre ++ after))
      (Z.of_nat (length before + length pre), s', p').
Proof.
  induction pre as [|c pre IH]; intros before after s p xs m Hp Hall Hroom Hrs Hf Hlen.
  - exists s, p. simpl. rewrite Nat.add_0_r. done.
  - inversion Hall as [|? ? [H10 H13] Hall']; subst. simpl in Hroom, Hlen.
    destruct (canonical_char_ok fuel cur cur_id s p xs rs ws o c (Z.of_nat (length before)) Hp)
      as (s1 & p1 & Hrun & Hp1 & Hk1); try lia.
    rewrite decide_False in Hrun by tauto. pose proof (edit_length xs c).
    destruct (IH (before ++ [c]) after s1 p1 (edit xs c) m Hp1) as (s2 & p2 & Hp2 & Hk2 & Hloop);
      try done; [destruct Hk1 as (_ & _ & ->); lia|rewrite length_app; simpl; lia|].
    exists s2, p2. split; [exact Hp2|]. split; [by eapply pair_kept_trans|].
    assert (Hb : input_body fuel cur cur_id (before ++ (c :: pre) ++ after) (Z.of_nat (length before))
      (Z.of_nat (length before), s, p) = Done (inl (Z.of_nat (length before) + 1, s1, p1))).
    { unfold input_body.
      assert (aget (before ++ (c :: pre) ++ after) (Z.of_nat (length before)) = Done c) as ->.
      { apply aget_done. split; [lia|]. rewrite Nat2Z.id. by apply list_lookup_middle. }
      cbn [mbind outcome_bind snd]. by rewrite (ca_mode _ _ _ _ _ _ Hp), Hrun. }
    change (length (c :: pre) + m)%nat with (S (length pre + m)). cbn [for_]. rewrite Hb.
    cbn [mbind outcome_bind]. rewrite length_app in Hloop. simpl in Hloop.
    rewrite <-app_assoc in Hloop. simpl in Hloop.
    replace (Z.of_nat (length before) + 1) with (Z.of_nat (length before + 1)) by lia.
    replace (length before + 1 + length pre)%nat with (length before + S (length pre))%nat in Hloop by lia.
    exact Hloop.
Qed.

Lemma signal_input_ready_ok fuel cur s p o ws rs :
  mutex_rep (wait_queue_read p) o ws -> sched_rep s rs ws -> Forall (fun w => w <> 0) ws ->
  (length ws < fuel)%nat -> Z.of_nat (length rs) + Z.of_nat (length ws) < 2 ^ 64 - 1 ->
  exists s' m, signal_input_ready fuel cur s p = Done (s', set_read_queue m p) /\
    (if decide (o = 0) then s' = s /\ mutex_rep m cur ws
     else p_flags s' = woken ws (p_flags s) /\ qrep (thread_queue s') (rs ++ ws) /\ mutex_rep m 0 []).
Proof.
  intros Hm Hs H0 Hf Hlen. unfold signal_input_ready.
  destruct (mutex_try_ok cur _ _ _ Hm) as (m1 & -> & Hm1). cbn [mbind outcome_bind].
  destruct (decide (o = 0)) as [->|Ho].
  - rewrite bool_decide_true by done. exists s, m1. done.
  - rewrite bool_decide_false by done. simpl.
    destruct (mutex_release_ok fuel s m1 o ws rs Hm1 Hs H0 Hf Hlen) as (s' & m' & -> & Hm' & Ht & Hfl).
    simpl. by exists s', m'.
Qed.

(** ** Reading *)

(** The index of the first newline. *)
Fixpoint newline_at (xs : list Z) : option nat :=
  match xs with
  | [] => None
  | x :: xs => if decide (x = 10) then Some 0%nat else S <$> newline_at xs
  end.

Lemma newline_at_split k xs : newline_at xs = Some k <->
  exists pre post, xs = pre ++ 10 :: post /\ length pre = k /\ Forall (fun x => x <> 10) pre.
Proof.
  revert k. induction xs as [|x xs IH]; intros k; simpl.
  - split; [done|]. by intros ([|? ?] & ? & ? & _).
  - case_decide as E.
    + subst. split; [intros [= <-]; by exists [], xs|].
      intros (pre & post & Hx & <- & Hall). destruct pre as [|y pre]; [done|].
      simplify_eq/=. inversion Hall; done.
    + split.
      * intros Hk. apply fmap_Some in Hk as (j & Hj & ->). apply IH in Hj as (pre & post & -> & <- & Hall).
        exists (x :: pre), post. split_and!; try done. by constructor.
      * intros (pre & post & Hx & <- & Hall). destruct pre as [|y pre]; [by simplify_eq/=|].
        simplify_eq/=. inversion Hall; subst.
        rewrite (proj2 (IH (length pre))); [done|]. by exists pre, post.
Qed.

Lemma newline_step_ok cb xs i x : cb_rep cb xs -> xs !! i = Some x ->
  newline_step (Z.of_nat i) cb
    = Done (if decide (x = 10) then inr (Z.of_nat i + 1, cb) else inl cb).
Proof.
  intros Hr Hx. pose proof (cr_max _ _ Hr). pose proof (cr_size _ _ Hr). pose proof (lookup_lt_Some _ _ _ Hx).
  unfold newline_step. rewrite (peek_ok cb xs (Z.of_nat i) Hr) by lia. rewrite Nat2Z.id, Hx.
  cbn [mbind outcome_bind]. destruct (decide (x = 10)) as [->|Hne]; [by rewrite decide_True|].
  by rewrite decide_False by naive_solver.
Qed.

Lemma find_newline_run m : forall cb xs i,
  cb_rep cb xs -> Z.of_nat i + Z.of_nat m = Z.of_nat (length xs) ->
  for_ m (Z.of_nat i) newline_step cb
  = match newline_at (drop i xs) with
    | Some k => Done (inr (Z.of_nat (i + k) + 1, cb))
    | None => Done (inl cb)
    end.
Proof.
  induction m as [|m IH]; intros cb xs i Hr Hlen.
  - rewrite drop_ge by lia. done.
  - destruct (lookup_lt_is_Some_2 xs i) as [x Hx]; [lia|].
    rewrite (drop_S _ _ _ Hx). cbn [for_ newline_at].
    pose proof (cr_max _ _ Hr). pose proof (cr_size _ _ Hr).
    rewrite (newline_step_ok _ _ _ _ Hr Hx).
    destruct (decide (x = 10)) as [->|Hne]; cbn [mbind outcome_bind].
    + by rewrite Nat.add_0_r.
    +      replace (Z.of_nat i + 1) with (Z.of_nat (S i)) by lia. rewrite (IH cb xs (S i) Hr) by lia.
      destruct (newline_at (drop (S i) xs)) as [k|]; simpl; [|done].
      do 4 f_equal. lia.
Qed.

Lemma find_newline_ok cb xs : cb_rep cb xs ->
  find_newline cb = Done (match newline_at xs with Some k => Z.of_nat k + 1 | None => -1 end, cb).
Proof.
  intros Hr. unfold find_newline. rewrite (available_rep _ _ Hr), Nat2Z.id.
  pose proof (find_newline_run (length xs) cb xs 0 Hr ltac:(lia)) as Hrun.
  rewrite drop_0 in Hrun. change (Z.of_nat 0) with 0 in Hrun. rewrite Hrun. by destruct (newline_at xs).
Qed.

Lemma canonical_flag p : canonical p = true -> Z.land (c_lflag (term_settings (pd p))) (ICANON abi) <> 0.
Proof.
  unfold canonical, has_flag. intros Hc. apply andb_true_iff in Hc as [Hc _].
  apply negb_true_iff, Z.eqb_neq in Hc. done.
Qed.

Lemma await_line_ok fuel cur s p xs k : cb_rep (input_buffer (pd p)) xs -> newline_at xs = Some k ->
  (0 < fuel)%nat -> await_line fuel cur s p = Done (Z.of_nat k + 1, s, set_input (input_buffer (pd p)) p).
Proof.
  intros Hr Hk Hf. destruct fuel as [|fuel]; [lia|]. unfold await_line. cbn [loop].
  rewrite (find_newline_ok _ _ Hr), Hk. cbn [mbind outcome_bind]. by rewrite decide_False by lia.
Qed.

(** ** Properties *)

(** C18: typing a line.  In canonical mode the characters up to the first
    newline or carriage return edit the unread input as the line discipline
    says (a backspace takes back the last unread character), the line end is
    appended, the rest of the buffer is not consumed, the call returns the
    number of characters consumed, and the readers asleep on the pair are made
    runnable in order when somebody holds its queue. *)
Theorem pty_canonical_editing fuel cur cur_id s p xs rs ws o pre nl rest :
  canon_rep s p xs rs ws o -> Forall (fun c => c <> 10 /\ c <> 13) pre -> nl = 10 \/ nl = 13 ->
  Z.of_nat (length xs) + Z.of_nat (length pre) + 1 < cb_max (input_buffer (pd p)) ->
  sched_rep s rs ws -> Forall (fun w => w <> 0) ws ->
  Z.of_nat (length rs) + Z.of_nat (length ws) < 2 ^ 64 - 1 -> (length ws + 1 < fuel)%nat ->
  Z.of_nat (length (pre ++ nl :: rest)) < 2 ^ 31 ->
  exists s' p',
    write_to_input fuel cur cur_id s p (pre ++ nl :: rest) (Z.of_nat (length (pre ++ nl :: rest)))
      = Done (Z.of_nat (length pre) + 1, s', p') /\
    cb_rep (input_buffer (pd p')) (foldl edit xs pre ++ [nl]) /\
    (if decide (o = 0) then p_flags s' = p_flags s /\ mutex_rep (wait_queue_read p') cur ws
     else p_flags s' = woken ws (p_flags s) /\ qrep (thread_queue s') (rs ++ ws) /\
          mutex_rep (wait_queue_read p') 0 []).
Proof.
  intros Hp Hpre Hnl Hroom Hs H0 Hrs Hf Hlen. unfold write_to_input. rewrite Nat2Z.id, length_app.
  rewrite length_app in Hlen. simpl in Hlen.
  destruct (canonical_run fuel cur cur_id rs ws o pre [] (nl :: rest) s p xs (length (nl :: rest)) Hp Hpre)
    as (s1 & p1 & Hp1 & Hk1 & Hrun); try lia; [simpl; lia|].
  change (Z.of_nat (length (@nil Z))) with 0 in Hrun. cbn [app] in Hrun. rewrite Hrun. clear Hrun.
  cbn [length for_]. change (0 + length pre)%nat with (length pre).
  assert (Hll : (length (foldl edit xs pre) <= length xs + length pre)%nat).
  { clear. revert xs. induction pre as [|c pre IH]; intros xs; simpl; [lia|].
    specialize (IH (edit xs c)). pose proof (edit_length xs c). lia. }
  destruct (canonical_char_ok fuel cur cur_id s1 p1 _ rs ws o nl (Z.of_nat (length pre)) Hp1)
    as (s2 & p2 & Hc2 & Hp2 & Hk2); try lia; [destruct Hk1 as (_ & _ & ->); lia|].
  rewrite decide_True in Hc2 by done.
  assert (Hb : input_body fuel cur cur_id (pre ++ nl :: rest) (Z.of_nat (length pre))
    (Z.of_nat (length pre), s1, p1) = Done (inr (Z.of_nat (length pre) + 1, s2, p2, true))).
  { unfold input_body.
    assert (aget (pre ++ nl :: rest) (Z.of_nat (length pre)) = Done nl) as ->.
    { apply aget_done. split; [lia|]. rewrite Nat2Z.id. by apply list_lookup_middle. }
    cbn [mbind outcome_bind snd]. by rewrite (ca_mode _ _ _ _ _ _ Hp1). }
  rewrite Hb. cbn [mbind outcome_bind]. rewrite orb_true_r.
  destruct (signal_input_ready_ok fuel cur s2 p2 o ws rs) as (s3 & m & -> & Hcase);
    [by destruct Hp2| |done|lia|lia|].
  { destruct Hs as [_ Hl]. split; [by destruct Hp2|]. destruct Hk1 as (Hf1 & _), Hk2 as (Hf2 & _).
    intros w Hw. rewrite Hf2, Hf1. by apply Hl. }
  cbn [mbind outcome_bind]. rewrite s32_small by lia. eexists _, _. split; [done|]. split.
  - destruct Hp2 as [Hr2 _ _ _ _ _ _ _]. unfold edit in Hr2.
    rewrite decide_False in Hr2 by lia. exact Hr2.
  - destruct Hk1 as (Hf1 & _), Hk2 as (Hf2 & _). rewrite Hf2, Hf1 in Hcase. case_decide; [|done].
    destruct Hcase as [-> Hm]. split; [congruence|done].
Qed.

(** Reading a line.  In canonical mode with a newline in the unread input
    pty_poll reports POLLIN and pty_slave_read returns without sleeping: it
    takes the bytes up to and including the first newline, or the first [size]
    of them, in order.  Without a newline pty_poll reports nothing, whatever
    else is unread. *)
Theorem pty_canonical_read fuel cur s p xs o ws rs size buffer :
  cb_rep (input_buffer (pd p)) xs -> canonical p = true ->
  mutex_rep (cb_wait_write (input_buffer (pd p))) o ws -> sched_rep s rs ws ->
  Forall (fun w => w <> 0) ws -> Z.of_nat (length rs) + Z.of_nat (length ws) < 2 ^ 64 - 1 ->
  0 < size < 2 ^ 31 -> size <= Z.of_nat (length buffer) -> (Z.to_nat size + length ws < fuel)%nat ->
  match newline_at xs with
  | Some k =>
      pty_poll p (POLLIN abi) = Done (if decide (POLLIN abi = 0) then 0 else POLLIN abi, p) /\
      let n := Nat.min (Z.to_nat size) (k + 1) in
      exists s' p', pty_slave_read fuel cur s p buffer size
          = Done (Z.of_nat n, take n xs ++ drop n buffer, s', p') /\
        cb_rep (input_buffer (pd p')) (drop n xs)
  | None => pty_poll p (POLLIN abi) = Done (0, p)
  end.
Proof.
  intros Hr Hc Hm Hs H0 Hrs Hsz Hbuf Hf. pose proof (canonical_flag p Hc) as Hfl.
  pose proof (cr_size _ _ Hr). pose proof (cr_max _ _ Hr).
  assert (Hid : set_input (input_buffer (pd p)) p = p) by (destruct p as [[]]; done).
  destruct (newline_at xs) as [k|] eqn:Hk.
  - assert (Hkl : (k < length xs)%nat).
    { apply newline_at_split in Hk as (pre & post & -> & <- & _). rewrite length_app. simpl. lia. }
    split.
    + unfold pty_poll. rewrite (find_newline_ok _ _ Hr), Hk. cbn [mbind outcome_bind].
      rewrite Z.land_diag, Hid. destruct (decide (POLLIN abi = 0)) as [->|Hne].
      * done.
      * rewrite decide_True by done. rewrite decide_True by done. by rewrite decide_True by lia.
    + intros n. unfold pty_slave_read. rewrite decide_True by done.
      rewrite (await_line_ok fuel cur s p xs k) by (done || lia). cbn [mbind outcome_bind]. rewrite Hid.
      rewrite (u64_small (Z.of_nat k + 1)) by lia.
      set (m := if decide (Z.of_nat k + 1 < size) then Z.of_nat k + 1 else size).
      assert (Em : m = Z.of_nat n) by (unfold m, n; case_decide; lia).
      rewrite s32_small by lia.
      destruct (read_dequeues rb_resume fuel cur s _ xs m buffer o ws rs Hr Hm)
        as (s' & b' & m' & -> & Hr' & _); try done; try lia; [by intros ->|].
      cbn [mbind outcome_bind]. replace (Nat.min (Z.to_nat m) (length xs)) with n in * by lia.
      eexists _, _. split; [done|]. exact Hr'.
  - unfold pty_poll. rewrite (find_newline_ok _ _ Hr), Hk. cbn [mbind outcome_bind].
    case_decide; [|done]. rewrite decide_True by done. by rewrite Hid.
Qed.

End Pty.

(** The first pair, as pty_create_pair makes it with the numbers of the Linux
    headers, and the same with the line [65; 10] typed. *)
Definition linux_tty : tty_abi := mk_tty_abi 2 8 2 4 1 4 22 38.

Definition demo_ring (buf : list Z) (tl : Z) : circular_buffer (list Z) :=
  mk_cb buf 0 tl 8 false (mk_mutex false 0 []) (mk_mutex false 0 []) false.

Lemma demo_ring_empty : cb_rep (demo_ring (replicate 8 0) 0) [].
Proof. constructor; simpl; (done || lia). Qed.

Lemma demo_ring_line : cb_rep (demo_ring [65; 10; 66; 0; 0; 0; 0; 0] 3) [65; 10; 66].
Proof.
  constructor; simpl; (done || lia || idtac).
  intros [|[|[|i]]] x Hi; simpl in Hi; [injection Hi as <-; reflexivity..|done].
Qed.

Definition demo_pty (r : circular_buffer (list Z)) : pty (list Z) :=
  mk_pty (mk_pd r r (mk_termios 10 ∅ 38400 38400) (-1) false true)
    (mk_mutex false 0 []) (mk_mutex false 5 [2]) [].

Definition pty_sched : sched (list Z) := mk_sched {[2 := 10]} [].

Lemma pty_sched_rep : sched_rep pty_sched [] [2].
Proof. split; [done|]. intros p Hp. apply list_elem_of_singleton in Hp as ->. eauto. Qed.

Lemma demo_canon : canon_rep linux_tty pty_sched (demo_pty (demo_ring (replicate 8 0) 0)) [] [] [2] 5.
Proof.
  constructor; simpl; (apply demo_ring_empty || done || by exists 0).
Qed.

(** Typing A, B, backspace, newline: the line A. *)
Example pty_canonical_editing_witness :
  exists s' p',
    write_to_input linux_tty (fun st => Done st) 9 1 1 pty_sched (demo_pty (demo_ring (replicate 8 0) 0))
      [65; 66; 8; 10; 67] 5 = Done (4, s', p') /\
    cb_rep (input_buffer (pd p')) [65; 10] /\
    p_flags s' = woken [2] (p_flags pty_sched) /\ qrep (thread_queue s') [2] /\
    mutex_rep (wait_queue_read p') 0 [].
Proof.
  apply (pty_canonical_editing linux_tty (fun st => Done st) (fun st => Done st) 9 1 1 pty_sched
    (demo_pty (demo_ring (replicate 8 0) 0)) [] [] [2] 5 [65; 66; 8] 10 [67]).
  - apply demo_canon.
  - repeat constructor; lia.
  - lia.
  - simpl. lia.
  - apply pty_sched_rep.
  - repeat constructor; lia.
  - simpl. lia.
  - simpl. lia.
  - simpl. lia.
Defined.

Example pty_canonical_read_witness :
  pty_poll linux_tty (demo_pty (demo_ring [65; 10; 66; 0; 0; 0; 0; 0] 3)) 1
    = Done (1, demo_pty (demo_ring [65; 10; 66; 0; 0; 0; 0; 0] 3)) /\
  exists s' p', pty_slave_read linux_tty (fun st => Done st) (fun st => Done st) 9 1 pty_sched
      (demo_pty (demo_ring [65; 10; 66; 0; 0; 0; 0; 0] 3)) [0; 0; 0; 0] 4
      = Done (2, [65; 10; 0; 0], s', p') /\
    cb_rep (input_buffer (pd p')) [66].
Proof.
  apply (pty_canonical_read linux_tty (fun st => Done st) (fun st => Done st) 9 1 pty_sched
    (demo_pty (demo_ring [65; 10; 66; 0; 0; 0; 0; 0] 3)) [65; 10; 66] 0 [] [] 4 [0; 0; 0; 0]).
  - apply demo_ring_line.
  - reflexivity.
  - by split.
  - split; [done|]. intros w Hw. inversion Hw.
  - constructor.
  - simpl. lia.
  - lia.
  - simpl. lia.
  - simpl. lia.
Defined.
