(* ===== verification/Console.v ===== *)
(** The console device: kernel/fs/console.c, over the first pair of Pty.v.

    The escape-sequence parser is a state machine on one character at a time;
    what it does to the screen is the list of calls it makes into terminal.h
    ([tevent]).  [console.params] has two cells, and a write behind them is a
    fault. *)
From stdpp Require Import base list gmap strings.
From Stdlib Require Import ZArith Lia.
From S2P Require Import Prelude KList Mutex RingBuffer Pty.

#[local] Open Scope Z_scope.

Inductive console_state := STATE_NORMAL | STATE_ESCAPE | STATE_BRACKET | STATE_PARSE_PARAMS.

Record console_data := mk_console { c_state : console_state; c_params : list Z; c_param_idx : Z }.

Definition console_start : console_data := mk_console STATE_NORMAL [0; 0] 0.

Definition with_state (s : console_state) (c : console_data) : console_data :=
  mk_console s (c_params c) (c_param_idx c).

Definition TISTTY : Z := 0x9000.
Definition TIOCGWINSZ : Z := 0x5413.
Definition TIOCSWINSZ : Z := 0x5414.

(** [char] is signed; the characters that matter are below 128.
    'H' is 72, 'J' 74, 'K' 75, '[' 91, '?' 63, ';' 59, ESC 27, '0'..'9' 48..57. *)
Definition is_digit (c : Z) : bool := (48 <=? c) && (c <=? 57).

Definition handle_escape_sequence (c : Z) (cd : console_data) : outcome (list tevent) :=
  if decide (c = 72) then
    if decide (c_param_idx cd = 0) then Done [TPut 13]
    else a ← aget (c_params cd) 0; b ← aget (c_params cd) 1; Done [TCursor (a - 1) (b - 1)]
  else if decide (c = 74) then
    a ← aget (c_params cd) 0; Done (if decide (a = 2) then [TClear] else [])
  else if decide (c = 75) then Done [TResetLine]
  else Done [].

(** The result is the returned bool, the new state and the terminal calls. *)
Definition handle_console_char (c : Z) (cd : console_data) : outcome (bool * console_data * list tevent) :=
  match c_state cd with
  | STATE_NORMAL =>
      if decide (c = 27) then Done (true, with_state STATE_ESCAPE cd, [])
      else Done (true, cd, [TPut c])
  | STATE_ESCAPE =>
      if decide (c = 91) then Done (true, mk_console STATE_BRACKET [0; 0] 0, [])
      else Done (true, with_state STATE_NORMAL cd, [])
  | STATE_BRACKET =>
      if is_digit c then
        p ← aset (c_params cd) (c_param_idx cd) (c - 48);
        Done (true, mk_console STATE_PARSE_PARAMS p (c_param_idx cd), [])
      else if decide (c = 63) then Done (false, with_state STATE_NORMAL cd, [])
      else e ← handle_escape_sequence c cd; Done (true, with_state STATE_NORMAL cd, e)
  | STATE_PARSE_PARAMS =>
      if is_digit c then
        v ← aget (c_params cd) (c_param_idx cd);
        p ← aset (c_params cd) (c_param_idx cd) (s32 (v * 10 + (c - 48)));
        Done (true, mk_console STATE_PARSE_PARAMS p (c_param_idx cd), [])
      else if decide (c = 59) then
        Done (true, mk_console STATE_PARSE_PARAMS (c_params cd) (c_param_idx cd + 1), [])
      else e ← handle_escape_sequence c cd; Done (true, with_state STATE_NORMAL cd, e)
  end.

(** The loop of console_output_write; [inr] is the break. *)
Definition output_char (buffer : list Z) (i : Z) (st : console_data * list tevent)
    : outcome ((console_data * list tevent) + (console_data * list tevent)) :=
  c ← aget buffer i;
  '(more, cd, e) ← handle_console_char c st.1;
  Done (if (more : bool) then inl (cd, st.2 ++ e) else inr (cd, st.2 ++ e)).

Definition console_output_write (cd : console_data) (buffer : list Z) (length : Z)
    : outcome (Z * console_data * list tevent) :=
  if decide (2048 < length) then Done (-1, cd, [])
  else
    r ← for_ (Z.to_nat length) 0 (output_char buffer) (cd, []);
    let '(cd, e) := match r with inl st => st | inr st => st end in
    Done (length, cd, e ++ [TSwap]).

Definition console_output_seek (offset : Z) : Z := 0.

Section Device.
Context {Q : Type} `{Queue Q} (abi : tty_abi).
Context (resume : sched Q * pty Q -> outcome (sched Q * pty Q)).
Context (rb_resume : sched Q * circular_buffer Q -> outcome (sched Q * circular_buffer Q)).

(** The slave of pair 0; a console without its pair dereferences NULL. *)
Definition slave0 (cur_id : Z) (pairs : list (option (pty Q))) : outcome (pty Q * list (option (pty Q))) :=
  '(p, pairs) ← pty_get_slave cur_id 0 pairs; p ← of_option p; Done (p, pairs).

Definition console_input_read (fuel : nat) (cur cur_id : Z) (s : sched Q) (pairs : list (option (pty Q)))
    (buffer : list Z) (length : Z) : outcome (Z * list Z * sched Q * list (option (pty Q))) :=
  '(p, pairs) ← slave0 cur_id pairs;
  '(r, buffer, s, p) ← pty_slave_read abi resume rb_resume fuel cur s p buffer length;
  pairs ← aset pairs 0 (Some p);
  Done (r, buffer, s, pairs).

Definition console_ioctl (width height cur_id : Z) (pairs : list (option (pty Q))) (operation : Z)
    (data : ioctl_data) : outcome (Z * ioctl_data * list (option (pty Q))) :=
  if decide (operation = TISTTY) then Done (1, data, pairs)
  else if decide (operation = TIOCGWINSZ) then
    Done (0, IWinsize (u16 height) (u16 width) 0 0, pairs)
  else if decide (operation = TIOCSWINSZ) then Done (- ENOSYS abi, data, pairs)
  else
    '(p, pairs) ← slave0 cur_id pairs;
    '(r, data, p) ← pty_ioctl abi p operation data;
    pairs ← aset pairs 0 (Some p);
    Done (r, data, pairs).

(** pty_get_slave is called twice: for the function pointer and for the node. *)
Definition console_poll (cur_id : Z) (pairs : list (option (pty Q))) (requested : Z)
    : outcome (Z * list (option (pty Q))) :=
  '(revents, pairs) ← (if decide (Z.land requested (POLLIN abi) <> 0) then
     '(_, pairs) ← slave0 cur_id pairs;
     '(p, pairs) ← slave0 cur_id pairs;
     '(r, p) ← pty_poll abi p requested;
     pairs ← aset pairs 0 (Some p);
     Done (Z.lor 0 r, pairs) else Done (0, pairs));
  Done (if decide (Z.land requested (POLLOUT abi) <> 0) then Z.lor revents (POLLOUT abi) else revents, pairs).

(** A key event: only a press types its key code, truncated to char. *)
Definition key_event (fuel : nat) (cur cur_id : Z) (s : sched Q) (pairs : list (option (pty Q)))
    (isDown : bool) (keyCode : Z) : outcome (sched Q * list (option (pty Q))) :=
  if isDown then
    '(_, s, pairs) ← pty_write_char_to_input abi rb_resume fuel cur cur_id s pairs 0 (u8 keyCode);
    Done (s, pairs)
  else Done (s, pairs).

End Device.

(** ** The parser run over a string *)

Definition run_chars (cs : list Z) (cd : console_data) : outcome (console_data * list tevent) :=
  r ← for_ (length cs) 0 (output_char cs) (cd, []);
  Done (match r with inl st => st | inr st => st end).

(** One character at a time, from the front: what the indexed loop computes. *)
Fixpoint feed (cs : list Z) (cd : console_data) (out : list tevent)
    : outcome ((console_data * list tevent) + (console_data * list tevent)) :=
  match cs with
  | [] => Done (inl (cd, out))
  | c :: cs =>
      '(more, cd, e) ← handle_console_char c cd;
      if (more : bool) then feed cs cd (out ++ e) else Done (inr (cd, out ++ e))
  end.

Lemma feed_for before after cs : forall cd out,
  for_ (length cs) (Z.of_nat (length before)) (output_char (before ++ cs ++ after)) (cd, out)
  = feed cs cd out.
Proof.
  revert before. induction cs as [|c cs IH]; intros before cd out; [done|]. cbn [for_ length feed].
  assert (Hb : output_char (before ++ (c :: cs) ++ after) (Z.of_nat (length before)) (cd, out)
    = ('(more, cd, e) ← handle_console_char c cd;
       Done (if (more : bool) then inl (cd, out ++ e) else inr (cd, out ++ e)))).
  { unfold output_char.
    assert (aget (before ++ (c :: cs) ++ after) (Z.of_nat (length before)) = Done c) as ->; [|done].
    apply aget_done. split; [lia|]. rewrite Nat2Z.id. by apply list_lookup_middle. }
  rewrite Hb. destruct (handle_console_char c cd) as [[[more cd'] e]| | |]; [|done..].
  cbn [mbind outcome_bind]. destruct more; cbn [mbind outcome_bind]; [|done].
  specialize (IH (before ++ [c]) cd' (out ++ e)). rewrite <-app_assoc, length_app in IH. simpl in IH.
  replace (Z.of_nat (length before) + 1) with (Z.of_nat (length before + 1)) by lia. exact IH.
Qed.

Lemma feed_app cs1 cs2 cd cd' out out' :
  feed cs1 cd out = Done (inl (cd', out')) -> feed (cs1 ++ cs2) cd out = feed cs2 cd' out'.
Proof.
  revert cd out. induction cs1 as [|c cs1 IH]; intros cd out Hf; simpl in *; [by injection Hf as -> ->|].
  destruct (handle_console_char c cd) as [[[more cd1] e]| | |]; simpl in *; try done.
  destruct more; [|done]. by apply IH.
Qed.

(** A number in decimal digits, most significant first. *)
Definition digits_value (v : Z) (ds : list Z) : Z := foldl (fun v d => v * 10 + d) v ds.
Definition digit_chars (ds : list Z) : list Z := (fun d => d + 48) <$> ds.

Lemma is_digit_of d : 0 <= d <= 9 -> is_digit (d + 48) = true.
Proof. intros. unfold is_digit. apply andb_true_iff. split; apply Z.leb_le; lia. Qed.

Lemma digits_value_ge v ds : 0 <= v -> Forall (fun d => 0 <= d <= 9) ds -> v <= digits_value v ds.
Proof.
  revert v. induction ds as [|d ds IH]; intros v Hv Hd; simpl; [lia|]. inversion Hd; subst.
  etransitivity; [|apply IH; [lia|done]]. lia.
Qed.

(** The digits accumulate in the current parameter. *)
Lemma feed_digits ds : forall p i v out, p !! Z.to_nat i = Some v -> 0 <= i ->
  0 <= v -> Forall (fun d => 0 <= d <= 9) ds -> digits_value v ds < 2 ^ 31 ->
  feed (digit_chars ds) (mk_console STATE_PARSE_PARAMS p i) out
    = Done (inl (mk_console STATE_PARSE_PARAMS (<[Z.to_nat i := digits_value v ds]> p) i, out)).
Proof.
  induction ds as [|d ds IH]; intros p i v out Hp Hi Hv Hd Hb.
  - simpl. by rewrite list_insert_id.
  - inversion Hd; subst. pose proof (lookup_lt_Some _ _ _ Hp).
    pose proof (digits_value_ge (v * 10 + d) ds ltac:(lia) ltac:(done)). simpl in Hb.
    assert (Hc : handle_console_char (d + 48) (mk_console STATE_PARSE_PARAMS p i)
      = Done (true, mk_console STATE_PARSE_PARAMS (<[Z.to_nat i := v * 10 + d]> p) i, [])).
    { unfold handle_console_char. cbn [c_state c_params c_param_idx]. rewrite is_digit_of by done.
      assert (aget p i = Done v) as -> by (apply aget_done; done). cbn [mbind outcome_bind].
      rewrite aset_in_range by lia. cbn [mbind outcome_bind].
      unfold digits_value in *. by replace (s32 _) with (v * 10 + d) by (rewrite s32_small by lia; lia). }
    change (digit_chars (d :: ds)) with ((d + 48) :: digit_chars ds). cbn [feed]. rewrite Hc.
    cbn [mbind outcome_bind]. rewrite app_nil_r.
    rewrite (IH _ i (v * 10 + d)); [|apply list_lookup_insert_eq; lia|done|lia|done|done].
    by rewrite list_insert_insert_eq.
Qed.

(** Console_output_write is the run of the parser, then one swap. *)
Lemma console_write_feed cd cs :
  Z.of_nat (length cs) <= 2048 ->
  console_output_write cd cs (Z.of_nat (length cs))
  = (r ← feed cs cd [];
     let '(cd, e) := match r with inl st => st | inr st => st end in
     Done (Z.of_nat (length cs), cd, e ++ [TSwap])).
Proof.
  intros Hl. unfold console_output_write. rewrite decide_False by lia. rewrite Nat2Z.id.
  pose proof (feed_for [] [] cs cd []) as Hf.
  change (Z.of_nat (length (@nil Z))) with 0 in Hf. cbn [app] in Hf. rewrite app_nil_r in Hf. by rewrite Hf.
Qed.

Lemma feed_plain cs : forall cd out, c_state cd = STATE_NORMAL -> Forall (fun c => c <> 27) cs ->
  feed cs cd out = Done (inl (cd, out ++ (TPut <$> cs))).
Proof.
  induction cs as [|c cs IH]; intros cd out Hs Hc; [by rewrite app_nil_r|].
  inversion Hc; subst. cbn [feed]. unfold handle_console_char. rewrite Hs, decide_False by done.
  cbn [mbind outcome_bind]. rewrite IH by done. by rewrite <-app_assoc.
Qed.

(** The parameters that a character without semicolon can reach. *)
Definition one_param (cd : console_data) : Prop := length (c_params cd) = 2%nat /\ c_param_idx cd = 0.

Lemma one_param_step c cd : one_param cd -> c <> 59 ->
  exists more cd' e, handle_console_char c cd = Done (more, cd', e) /\ one_param cd'.
Proof.
  intros [Hl Hi] Hc. destruct cd as [st p i]. simpl in *. subst i.
  destruct p as [|a [|b [|]]]; try done. unfold handle_console_char, handle_escape_sequence, one_param. simpl.
  destruct st; repeat case_decide; try done; try (destruct (is_digit c)); simpl; repeat case_decide;
    try done; eexists _, _, _; (split; [reflexivity|done]).
Qed.

Lemma feed_escape cs cd out : c_state cd = STATE_NORMAL ->
  feed (27 :: cs) cd out = feed cs (with_state STATE_ESCAPE cd) out.
Proof. intros Hs. cbn [feed]. unfold handle_console_char at 1. rewrite Hs. simpl. by rewrite app_nil_r. Qed.

(** ** Properties *)

(** Text without escape characters goes to the terminal unchanged, in
    order, followed by one swap, and console_output_write returns its length;
    more than 2048 bytes are refused with -1 and nothing is drawn. *)
Theorem console_plain_text cd cs :
  c_state cd = STATE_NORMAL -> Forall (fun c => c <> 27) cs ->
  console_output_write cd cs (Z.of_nat (length cs)) =
    if decide (2048 < Z.of_nat (length cs)) then Done (-1, cd, [])
    else Done (Z.of_nat (length cs), cd, (TPut <$> cs) ++ [TSwap]).
Proof.
  intros Hs Hc. case_decide.
  - unfold console_output_write. by rewrite decide_True by lia.
  - rewrite console_write_feed by lia. by rewrite (feed_plain cs cd [] Hs Hc).
Qed.

Example console_plain_text_witness :
  console_output_write console_start [72; 105] 2 = Done (2, console_start, [TPut 72; TPut 105; TSwap]).
Proof. exact (console_plain_text console_start [72; 105] eq_refl ltac:(repeat constructor; lia)). Defined.

(** The cursor sequence.  For all decimal numbers n and m that fit an int,
    ESC [ n ; m H calls terminal_setcursor with n - 1 and m - 1 and nothing else,
    and leaves the parser ready for text: the numbers are parsed back exactly. *)
Theorem console_cursor_sequence cd n ns m ms :
  c_state cd = STATE_NORMAL ->
  Forall (fun d => 0 <= d <= 9) (n :: ns) -> Forall (fun d => 0 <= d <= 9) (m :: ms) ->
  digits_value 0 (n :: ns) < 2 ^ 31 -> digits_value 0 (m :: ms) < 2 ^ 31 ->
  exists cd', feed ([27; 91] ++ digit_chars (n :: ns) ++ [59] ++ digit_chars (m :: ms) ++ [72]) cd []
    = Done (inl (cd', [TCursor (digits_value 0 (n :: ns) - 1) (digits_value 0 (m :: ms) - 1)])) /\
    c_state cd' = STATE_NORMAL.
Proof.
  intros Hs Hn Hm Hbn Hbm. inversion Hn; subst. simpl in Hbn.
  rewrite (feed_app [27; 91] _ cd (mk_console STATE_BRACKET [0; 0] 0) [] []).
  2:{ rewrite feed_escape by done. reflexivity. }
  rewrite (feed_app _ ([59] ++ digit_chars (m :: ms) ++ [72]) _
    (mk_console STATE_PARSE_PARAMS [digits_value 0 (n :: ns); 0] 0) [] []).
  2:{ change (digit_chars (n :: ns)) with ((n + 48) :: digit_chars ns). cbn [feed].
      unfold handle_console_char at 1. cbn [c_state]. rewrite is_digit_of by done. simpl.
      replace (n + 48 - 48) with n by lia.
      rewrite (feed_digits ns [n; 0] 0 n) by (done || lia). done. }
  rewrite (feed_app [59] _ _ (mk_console STATE_PARSE_PARAMS [digits_value 0 (n :: ns); 0] 1) [] [])
    by reflexivity.
  rewrite (feed_app _ [72] _ (mk_console STATE_PARSE_PARAMS [digits_value 0 (n :: ns); digits_value 0 (m :: ms)] 1) [] []).
  2:{ rewrite (feed_digits (m :: ms) _ 1 0) by (done || lia). done. }
  eexists. split; reflexivity.
Qed.

Example console_cursor_sequence_witness :
  exists cd', feed ([27; 91] ++ digit_chars [1; 2] ++ [59] ++ digit_chars [7] ++ [72]) console_start []
    = Done (inl (cd', [TCursor (digits_value 0 [1; 2] - 1) (digits_value 0 [7] - 1)])) /\
    c_state cd' = STATE_NORMAL.
Proof.
  apply (console_cursor_sequence console_start 1 [2] 7 []); [reflexivity|repeat constructor; lia..|reflexivity|reflexivity].
Defined.

(** The parameter array.  Output without semicolons never accesses memory
    outside the two parameters; a sequence with two semicolons before a digit
    does, whatever was printed before. *)
Theorem console_params_bound cs cd :
  one_param cd -> Forall (fun c => c <> 59) cs ->
  (exists r, feed cs cd [] = Done r) /\
  (c_state cd = STATE_NORMAL -> feed [27; 91; 49; 59; 59; 49] cd [] = Fault).
Proof.
  intros Hone Hc. split.
  - generalize (@nil tevent). revert cd Hone.
    induction cs as [|c cs IH]; intros cd Hone out; [by eexists|]. inversion Hc; subst. cbn [feed].
    destruct (one_param_step c cd Hone) as (more & cd' & e & -> & Hone'); [done|]. cbn [mbind outcome_bind].
    destruct more; [by apply IH|by eexists].
  - intros Hs. rewrite feed_escape by done. reflexivity.
Qed.

Example console_params_bound_witness :
  (exists r, feed [27; 91; 50; 74; 65] console_start [] = Done r) /\
  (c_state console_start = STATE_NORMAL -> feed [27; 91; 49; 59; 59; 49] console_start [] = Fault).
Proof.
  apply (console_params_bound [27; 91; 50; 74; 65] console_start); [by split|repeat constructor; lia].
Defined.
