(* ===== verification/Procs.v ===== *)
(** The objects of kernel/proc/process.c and process.h: processes, their
    threads, address spaces and descriptor tables, the process control block
    and the globals of the scheduler, as one state.

    Every kind of heap object is a table from addresses to live objects; an
    access to another address, NULL included, is a [Fault].  The lists of
    processes are the sequences they hold: KList proves that list_insert is the
    append and list_delete the removal.  The process tree is the node table of
    KTree, the memory manager is the [vm] of Paging, whose [pml4] is
    [pcb.current_page_map].  The signal fields of a process are in Signals. *)
From stdpp Require Import base list gmap fin_maps.
From Stdlib Require Import ZArith Lia.
From S2P Require Import Prelude Frames Paging KTree Vfs Mutex Signals.

#[local] Open Scope Z_scope.

(** ** Flags *)

Definition PROC_FLAG_KERNEL : Z := Z.shiftl 1 0.
Definition PROC_FLAG_RUNNING : Z := Z.shiftl 1 1.

(** ** Threads and the processor

    [context] is what setjmp saves of the processor: the stack pointer and the
    address its caller returns to, the FS base and the registers that a call
    preserves. *)
Record context := mk_context {
  x_rsp : Z; x_rbp : Z; x_rip : Z; x_fs : Z; x_rbx : Z; x_r12 : Z; x_r13 : Z; x_r14 : Z; x_r15 : Z
}.

Record kernel_thread := mk_kt {
  kt_rsp : Z; kt_rbp : Z; kt_rip : Z; kt_tls_base : Z;
  kt_rbx : Z; kt_rdi : Z; kt_r12 : Z; kt_r13 : Z; kt_r14 : Z; kt_r15 : Z;
  kt_tid : Z; kt_priority : Z; kt_kernel_stack : Z; kt_user_stack : Z; kt_process : Z
}.
Definition zero_thread : kernel_thread := mk_kt 0 0 0 0 0 0 0 0 0 0 0 0 0 0 0.

(** context_switch.S: r12 goes to offset 40, which is the field [rdi], and the
    registers after it one field early; longjmp reads the same offsets. *)
Definition setjmp (c : context) (t : kernel_thread) : kernel_thread :=
  mk_kt (x_rsp c) (x_rbp c) (x_rip c) (x_fs c) (x_rbx c) (x_r12 c) (x_r13 c) (x_r14 c) (x_r15 c) (kt_r15 t)
    (kt_tid t) (kt_priority t) (kt_kernel_stack t) (kt_user_stack t) (kt_process t).
Definition longjmp (t : kernel_thread) : context :=
  mk_context (kt_rsp t) (kt_rbp t) (kt_rip t) (kt_tls_base t) (kt_rbx t) (kt_rdi t) (kt_r12 t) (kt_r13 t) (kt_r14 t).

Lemma longjmp_setjmp c t : longjmp (setjmp c t) = c.
Proof. by destruct c. Qed.

(** ** Objects *)

(** [handles] is an array of pointers; an access past it is a fault. *)
Record fd_table_t := mk_fdt {
  ft_capacity : Z; ft_length : Z; ft_handles : list Z; ft_count : Z; ft_lock : bool
}.

Record mm_struct := mk_mm { mm_page_directory : Z; mm_heap : Z; mm_count : Z; mm_lock : bool }.

(** A file handle and the number of bytes that were allocated for it. *)
Record khandle := mk_kh { kh_bytes : Z; kh : file_handle }.

(** sizeof(file_handle_t), and the size of a pointer to one *)
Definition sizeof_handle : Z := 32.
Definition sizeof_pointer : Z := 8.

(** An access to [width] bytes at offset [off] of an object. *)
Definition in_object (bytes off width : Z) : outcome unit :=
  if decide (off + width <= bytes) then Done tt else Fault.

(** What the kernel stores through a stack pointer. *)
Inductive kobj := KRegs (r : regs_t) | KWord (z : Z) | KStr (s : list Z).

Record process := mk_process {
  p_id : Z; p_uid : Z; p_gid : Z; p_cpu : Z; p_tgid : Z; p_parent : Z; p_flags : Z; p_status : Z; p_sleepTick : Z;
  p_page_directory : Z; p_main_thread : kernel_thread; p_saved_registers : Z; p_fd_table : Z;
  p_cwd : option (list Z); p_cwd_file : Z; p_lock : bool
}.
(** calloc(1, sizeof(process_t)) *)
Definition zero_process : process := mk_process 0 0 0 0 0 0 0 0 0 0 zero_thread 0 0 None 0 false.

Definition set_p_flags (v : Z) (s : process) : process :=
  mk_process (p_id s) (p_uid s) (p_gid s) (p_cpu s) (p_tgid s) (p_parent s) v (p_status s) (p_sleepTick s)
    (p_page_directory s) (p_main_thread s) (p_saved_registers s) (p_fd_table s) (p_cwd s) (p_cwd_file s) (p_lock s).
Definition set_p_status (v : Z) (s : process) : process :=
  mk_process (p_id s) (p_uid s) (p_gid s) (p_cpu s) (p_tgid s) (p_parent s) (p_flags s) v (p_sleepTick s)
    (p_page_directory s) (p_main_thread s) (p_saved_registers s) (p_fd_table s) (p_cwd s) (p_cwd_file s) (p_lock s).
Definition set_p_sleepTick (v : Z) (s : process) : process :=
  mk_process (p_id s) (p_uid s) (p_gid s) (p_cpu s) (p_tgid s) (p_parent s) (p_flags s) (p_status s) v
    (p_page_directory s) (p_main_thread s) (p_saved_registers s) (p_fd_table s) (p_cwd s) (p_cwd_file s) (p_lock s).
Definition set_p_page_directory (v : Z) (s : process) : process :=
  mk_process (p_id s) (p_uid s) (p_gid s) (p_cpu s) (p_tgid s) (p_parent s) (p_flags s) (p_status s) (p_sleepTick s)
    v (p_main_thread s) (p_saved_registers s) (p_fd_table s) (p_cwd s) (p_cwd_file s) (p_lock s).
Definition set_p_main_thread (v : kernel_thread) (s : process) : process :=
  mk_process (p_id s) (p_uid s) (p_gid s) (p_cpu s) (p_tgid s) (p_parent s) (p_flags s) (p_status s) (p_sleepTick s)
    (p_page_directory s) v (p_saved_registers s) (p_fd_table s) (p_cwd s) (p_cwd_file s) (p_lock s).
Definition set_p_saved_registers (v : Z) (s : process) : process :=
  mk_process (p_id s) (p_uid s) (p_gid s) (p_cpu s) (p_tgid s) (p_parent s) (p_flags s) (p_status s) (p_sleepTick s)
    (p_page_directory s) (p_main_thread s) v (p_fd_table s) (p_cwd s) (p_cwd_file s) (p_lock s).
Definition set_p_fd_table (v : Z) (s : process) : process :=
  mk_process (p_id s) (p_uid s) (p_gid s) (p_cpu s) (p_tgid s) (p_parent s) (p_flags s) (p_status s) (p_sleepTick s)
    (p_page_directory s) (p_main_thread s) (p_saved_registers s) v (p_cwd s) (p_cwd_file s) (p_lock s).
Definition set_p_cwd (v : option (list Z)) (s : process) : process :=
  mk_process (p_id s) (p_uid s) (p_gid s) (p_cpu s) (p_tgid s) (p_parent s) (p_flags s) (p_status s) (p_sleepTick s)
    (p_page_directory s) (p_main_thread s) (p_saved_registers s) (p_fd_table s) v (p_cwd_file s) (p_lock s).
Definition set_p_cwd_file (v : Z) (s : process) : process :=
  mk_process (p_id s) (p_uid s) (p_gid s) (p_cpu s) (p_tgid s) (p_parent s) (p_flags s) (p_status s) (p_sleepTick s)
    (p_page_directory s) (p_main_thread s) (p_saved_registers s) (p_fd_table s) (p_cwd s) v (p_lock s).

Record pcb_t := mk_pcb { current_process : Z; previous_process : Z; kernel_idle_process : Z; core : Z }.

(** [calloc] of an object of a table: a fresh address. *)
Class Calloc := {
  new_key : forall {A : Type}, gmap Z A -> Z;
  new_key_fresh : forall {A : Type} (m : gmap Z A), new_key m <> 0 /\ m !! new_key m = None
}.

(** The open files a driver keeps; [close_op] is the test of file_ops.close of
    a node and, when it is set, the call. *)
Class CloseOp (D : Type) := { close_op : Z -> vfs D -> outcome (vfs D) }.

Record kstate (F D : Type) := mk_ks {
  k_procs : gmap Z process; k_mms : gmap Z mm_struct; k_fdts : gmap Z fd_table_t; k_handles : gmap Z khandle;
  k_regs_at : gmap Z regs_t; k_kmem : gmap Z kobj; k_mutexes : gmap Z (mutex_t (list Z));
  k_process_list : list Z; k_thread_queue : list Z; k_sleeping_queue : list Z;
  k_pnodes : nodes; k_process_tree : tree_t;
  k_sleep_lock : bool; k_process_lock : bool; k_queue_lock : bool;
  k_pcb : pcb_t; k_next_pid : Z; k_counter : Z; k_cpu : context; k_cr3 : Z; k_tss_rsp0 : Z; k_vmem : vm F; k_vfs : vfs D
}.
Arguments mk_ks {F D}.
Arguments k_procs {F D}.
Arguments k_mms {F D}.
Arguments k_fdts {F D}.
Arguments k_handles {F D}.
Arguments k_regs_at {F D}.
Arguments k_kmem {F D}.
Arguments k_mutexes {F D}.
Arguments k_process_list {F D}.
Arguments k_thread_queue {F D}.
Arguments k_sleeping_queue {F D}.
Arguments k_pnodes {F D}.
Arguments k_process_tree {F D}.
Arguments k_sleep_lock {F D}.
Arguments k_process_lock {F D}.
Arguments k_queue_lock {F D}.
Arguments k_pcb {F D}.
Arguments k_next_pid {F D}.
Arguments k_counter {F D}.
Arguments k_cpu {F D}.
Arguments k_cr3 {F D}.
Arguments k_tss_rsp0 {F D}.
Arguments k_vmem {F D}.
Arguments k_vfs {F D}.

Section State.
Context {F D : Type}.

Definition set_k_procs (v : gmap Z process) (s : kstate F D) : kstate F D :=
  mk_ks v (k_mms s) (k_fdts s) (k_handles s) (k_regs_at s) (k_kmem s) (k_mutexes s) (k_process_list s)
    (k_thread_queue s) (k_sleeping_queue s) (k_pnodes s) (k_process_tree s) (k_sleep_lock s) (k_process_lock s)
    (k_queue_lock s) (k_pcb s) (k_next_pid s) (k_counter s) (k_cpu s) (k_cr3 s) (k_tss_rsp0 s) (k_vmem s) (k_vfs s).
Definition set_k_mms (v : gmap Z mm_struct) (s : kstate F D) : kstate F D :=
  mk_ks (k_procs s) v (k_fdts s) (k_handles s) (k_regs_at s) (k_kmem s) (k_mutexes s) (k_process_list s)
    (k_thread_queue s) (k_sleeping_queue s) (k_pnodes s) (k_process_tree s) (k_sleep_lock s) (k_process_lock s)
    (k_queue_lock s) (k_pcb s) (k_next_pid s) (k_counter s) (k_cpu s) (k_cr3 s) (k_tss_rsp0 s) (k_vmem s) (k_vfs s).
Definition set_k_fdts (v : gmap Z fd_table_t) (s : kstate F D) : kstate F D :=
  mk_ks (k_procs s) (k_mms s) v (k_handles s) (k_regs_at s) (k_kmem s) (k_mutexes s) (k_process_list s)
    (k_thread_queue s) (k_sleeping_queue s) (k_pnodes s) (k_process_tree s) (k_sleep_lock s) (k_process_lock s)
    (k_queue_lock s) (k_pcb s) (k_next_pid s) (k_counter s) (k_cpu s) (k_cr3 s) (k_tss_rsp0 s) (k_vmem s) (k_vfs s).
Definition set_k_handles (v : gmap Z khandle) (s : kstate F D) : kstate F D :=
  mk_ks (k_procs s) (k_mms s) (k_fdts s) v (k_regs_at s) (k_kmem s) (k_mutexes s) (k_process_list s) (k_thread_queue
    s) (k_sleeping_queue s) (k_pnodes s) (k_process_tree s) (k_sleep_lock s) (k_process_lock s) (k_queue_lock s)
    (k_pcb s) (k_next_pid s) (k_counter s) (k_cpu s) (k_cr3 s) (k_tss_rsp0 s) (k_vmem s) (k_vfs s).
Definition set_k_regs_at (v : gmap Z regs_t) (s : kstate F D) : kstate F D :=
  mk_ks (k_procs s) (k_mms s) (k_fdts s) (k_handles s) v (k_kmem s) (k_mutexes s) (k_process_list s) (k_thread_queue
    s) (k_sleeping_queue s) (k_pnodes s) (k_process_tree s) (k_sleep_lock s) (k_process_lock s) (k_queue_lock s)
    (k_pcb s) (k_next_pid s) (k_counter s) (k_cpu s) (k_cr3 s) (k_tss_rsp0 s) (k_vmem s) (k_vfs s).
Definition set_k_kmem (v : gmap Z kobj) (s : kstate F D) : kstate F D :=
  mk_ks (k_procs s) (k_mms s) (k_fdts s) (k_handles s) (k_regs_at s) v (k_mutexes s) (k_process_list s)
    (k_thread_queue s) (k_sleeping_queue s) (k_pnodes s) (k_process_tree s) (k_sleep_lock s) (k_process_lock s)
    (k_queue_lock s) (k_pcb s) (k_next_pid s) (k_counter s) (k_cpu s) (k_cr3 s) (k_tss_rsp0 s) (k_vmem s) (k_vfs s).
Definition set_k_mutexes (v : gmap Z (mutex_t (list Z))) (s : kstate F D) : kstate F D :=
  mk_ks (k_procs s) (k_mms s) (k_fdts s) (k_handles s) (k_regs_at s) (k_kmem s) v (k_process_list s) (k_thread_queue
    s) (k_sleeping_queue s) (k_pnodes s) (k_process_tree s) (k_sleep_lock s) (k_process_lock s) (k_queue_lock s)
    (k_pcb s) (k_next_pid s) (k_counter s) (k_cpu s) (k_cr3 s) (k_tss_rsp0 s) (k_vmem s) (k_vfs s).
Definition set_k_process_list (v : list Z) (s : kstate F D) : kstate F D :=
  mk_ks (k_procs s) (k_mms s) (k_fdts s) (k_handles s) (k_regs_at s) (k_kmem s) (k_mutexes s) v (k_thread_queue s)
    (k_sleeping_queue s) (k_pnodes s) (k_process_tree s) (k_sleep_lock s) (k_process_lock s) (k_queue_lock s) (k_pcb
    s) (k_next_pid s) (k_counter s) (k_cpu s) (k_cr3 s) (k_tss_rsp0 s) (k_vmem s) (k_vfs s).
Definition set_k_thread_queue (v : list Z) (s : kstate F D) : kstate F D :=
  mk_ks (k_procs s) (k_mms s) (k_fdts s) (k_handles s) (k_regs_at s) (k_kmem s) (k_mutexes s) (k_process_list s) v
    (k_sleeping_queue s) (k_pnodes s) (k_process_tree s) (k_sleep_lock s) (k_process_lock s) (k_queue_lock s) (k_pcb
    s) (k_next_pid s) (k_counter s) (k_cpu s) (k_cr3 s) (k_tss_rsp0 s) (k_vmem s) (k_vfs s).
Definition set_k_sleeping_queue (v : list Z) (s : kstate F D) : kstate F D :=
  mk_ks (k_procs s) (k_mms s) (k_fdts s) (k_handles s) (k_regs_at s) (k_kmem s) (k_mutexes s) (k_process_list s)
    (k_thread_queue s) v (k_pnodes s) (k_process_tree s) (k_sleep_lock s) (k_process_lock s) (k_queue_lock s) (k_pcb
    s) (k_next_pid s) (k_counter s) (k_cpu s) (k_cr3 s) (k_tss_rsp0 s) (k_vmem s) (k_vfs s).
Definition set_k_pnodes (v : nodes) (s : kstate F D) : kstate F D :=
  mk_ks (k_procs s) (k_mms s) (k_fdts s) (k_handles s) (k_regs_at s) (k_kmem s) (k_mutexes s) (k_process_list s)
    (k_thread_queue s) (k_sleeping_queue s) v (k_process_tree s) (k_sleep_lock s) (k_process_lock s) (k_queue_lock
    s) (k_pcb s) (k_next_pid s) (k_counter s) (k_cpu s) (k_cr3 s) (k_tss_rsp0 s) (k_vmem s) (k_vfs s).
Definition set_k_process_tree (v : tree_t) (s : kstate F D) : kstate F D :=
  mk_ks (k_procs s) (k_mms s) (k_fdts s) (k_handles s) (k_regs_at s) (k_kmem s) (k_mutexes s) (k_process_list s)
    (k_thread_queue s) (k_sleeping_queue s) (k_pnodes s) v (k_sleep_lock s) (k_process_lock s) (k_queue_lock s)
    (k_pcb s) (k_next_pid s) (k_counter s) (k_cpu s) (k_cr3 s) (k_tss_rsp0 s) (k_vmem s) (k_vfs s).
Definition set_k_sleep_lock (v : bool) (s : kstate F D) : kstate F D :=
  mk_ks (k_procs s) (k_mms s) (k_fdts s) (k_handles s) (k_regs_at s) (k_kmem s) (k_mutexes s) (k_process_list s)
    (k_thread_queue s) (k_sleeping_queue s) (k_pnodes s) (k_process_tree s) v (k_process_lock s) (k_queue_lock s)
    (k_pcb s) (k_next_pid s) (k_counter s) (k_cpu s) (k_cr3 s) (k_tss_rsp0 s) (k_vmem s) (k_vfs s).
Definition set_k_process_lock (v : bool) (s : kstate F D) : kstate F D :=
  mk_ks (k_procs s) (k_mms s) (k_fdts s) (k_handles s) (k_regs_at s) (k_kmem s) (k_mutexes s) (k_process_list s)
    (k_thread_queue s) (k_sleeping_queue s) (k_pnodes s) (k_process_tree s) (k_sleep_lock s) v (k_queue_lock s)
    (k_pcb s) (k_next_pid s) (k_counter s) (k_cpu s) (k_cr3 s) (k_tss_rsp0 s) (k_vmem s) (k_vfs s).
Definition set_k_queue_lock (v : bool) (s : kstate F D) : kstate F D :=
  mk_ks (k_procs s) (k_mms s) (k_fdts s) (k_handles s) (k_regs_at s) (k_kmem s) (k_mutexes s) (k_process_list s)
    (k_thread_queue s) (k_sleeping_queue s) (k_pnodes s) (k_process_tree s) (k_sleep_lock s) (k_process_lock s) v
    (k_pcb s) (k_next_pid s) (k_counter s) (k_cpu s) (k_cr3 s) (k_tss_rsp0 s) (k_vmem s) (k_vfs s).
Definition set_k_pcb (v : pcb_t) (s : kstate F D) : kstate F D :=
  mk_ks (k_procs s) (k_mms s) (k_fdts s) (k_handles s) (k_regs_at s) (k_kmem s) (k_mutexes s) (k_process_list s)
    (k_thread_queue s) (k_sleeping_queue s) (k_pnodes s) (k_process_tree s) (k_sleep_lock s) (k_process_lock s)
    (k_queue_lock s) v (k_next_pid s) (k_counter s) (k_cpu s) (k_cr3 s) (k_tss_rsp0 s) (k_vmem s) (k_vfs s).
Definition set_k_next_pid (v : Z) (s : kstate F D) : kstate F D :=
  mk_ks (k_procs s) (k_mms s) (k_fdts s) (k_handles s) (k_regs_at s) (k_kmem s) (k_mutexes s) (k_process_list s)
    (k_thread_queue s) (k_sleeping_queue s) (k_pnodes s) (k_process_tree s) (k_sleep_lock s) (k_process_lock s)
    (k_queue_lock s) (k_pcb s) v (k_counter s) (k_cpu s) (k_cr3 s) (k_tss_rsp0 s) (k_vmem s) (k_vfs s).
Definition set_k_counter (v : Z) (s : kstate F D) : kstate F D :=
  mk_ks (k_procs s) (k_mms s) (k_fdts s) (k_handles s) (k_regs_at s) (k_kmem s) (k_mutexes s) (k_process_list s)
    (k_thread_queue s) (k_sleeping_queue s) (k_pnodes s) (k_process_tree s) (k_sleep_lock s) (k_process_lock s)
    (k_queue_lock s) (k_pcb s) (k_next_pid s) v (k_cpu s) (k_cr3 s) (k_tss_rsp0 s) (k_vmem s) (k_vfs s).
Definition set_k_cpu (v : context) (s : kstate F D) : kstate F D :=
  mk_ks (k_procs s) (k_mms s) (k_fdts s) (k_handles s) (k_regs_at s) (k_kmem s) (k_mutexes s) (k_process_list s)
    (k_thread_queue s) (k_sleeping_queue s) (k_pnodes s) (k_process_tree s) (k_sleep_lock s) (k_process_lock s)
    (k_queue_lock s) (k_pcb s) (k_next_pid s) (k_counter s) v (k_cr3 s) (k_tss_rsp0 s) (k_vmem s) (k_vfs s).
Definition set_k_cr3 (v : Z) (s : kstate F D) : kstate F D :=
  mk_ks (k_procs s) (k_mms s) (k_fdts s) (k_handles s) (k_regs_at s) (k_kmem s) (k_mutexes s) (k_process_list s)
    (k_thread_queue s) (k_sleeping_queue s) (k_pnodes s) (k_process_tree s) (k_sleep_lock s) (k_process_lock s)
    (k_queue_lock s) (k_pcb s) (k_next_pid s) (k_counter s) (k_cpu s) v (k_tss_rsp0 s) (k_vmem s) (k_vfs s).
Definition set_k_tss_rsp0 (v : Z) (s : kstate F D) : kstate F D :=
  mk_ks (k_procs s) (k_mms s) (k_fdts s) (k_handles s) (k_regs_at s) (k_kmem s) (k_mutexes s) (k_process_list s)
    (k_thread_queue s) (k_sleeping_queue s) (k_pnodes s) (k_process_tree s) (k_sleep_lock s) (k_process_lock s)
    (k_queue_lock s) (k_pcb s) (k_next_pid s) (k_counter s) (k_cpu s) (k_cr3 s) v (k_vmem s) (k_vfs s).
Definition set_k_vmem (v : vm F) (s : kstate F D) : kstate F D :=
  mk_ks (k_procs s) (k_mms s) (k_fdts s) (k_handles s) (k_regs_at s) (k_kmem s) (k_mutexes s) (k_process_list s)
    (k_thread_queue s) (k_sleeping_queue s) (k_pnodes s) (k_process_tree s) (k_sleep_lock s) (k_process_lock s)
    (k_queue_lock s) (k_pcb s) (k_next_pid s) (k_counter s) (k_cpu s) (k_cr3 s) (k_tss_rsp0 s) v (k_vfs s).
Definition set_k_vfs (v : vfs D) (s : kstate F D) : kstate F D :=
  mk_ks (k_procs s) (k_mms s) (k_fdts s) (k_handles s) (k_regs_at s) (k_kmem s) (k_mutexes s) (k_process_list s)
    (k_thread_queue s) (k_sleeping_queue s) (k_pnodes s) (k_process_tree s) (k_sleep_lock s) (k_process_lock s)
    (k_queue_lock s) (k_pcb s) (k_next_pid s) (k_counter s) (k_cpu s) (k_cr3 s) (k_tss_rsp0 s) (k_vmem s) v.

(** ** Accesses *)

Definition at_ {A} (m : gmap Z A) (p : Z) : outcome A := if decide (p = 0) then Fault else of_option (m !! p).

Definition proc_at (s : kstate F D) (p : Z) : outcome process := at_ (k_procs s) p.
Definition put_proc (p : Z) (x : process) (s : kstate F D) : kstate F D := set_k_procs (<[p := x]> (k_procs s)) s.
Definition upd_proc (p : Z) (f : process -> process) (s : kstate F D) : outcome (kstate F D) :=
  x ← proc_at s p; Done (put_proc p (f x) s).

(** [flags &= ~b] and [flags |= b] *)
Definition clear_flag (p b : Z) : kstate F D -> outcome (kstate F D) :=
  upd_proc p (fun x => set_p_flags (Z.ldiff (p_flags x) b) x).
Definition set_flag (p b : Z) : kstate F D -> outcome (kstate F D) :=
  upd_proc p (fun x => set_p_flags (Z.lor (p_flags x) b) x).

Definition set_current (p : Z) (s : kstate F D) : kstate F D :=
  set_k_pcb (mk_pcb p (previous_process (k_pcb s)) (kernel_idle_process (k_pcb s)) (core (k_pcb s))) s.
Definition set_previous (p : Z) (s : kstate F D) : kstate F D :=
  set_k_pcb (mk_pcb (current_process (k_pcb s)) p (kernel_idle_process (k_pcb s)) (core (k_pcb s))) s.
Definition set_idle (p : Z) (s : kstate F D) : kstate F D :=
  set_k_pcb (mk_pcb (current_process (k_pcb s)) (previous_process (k_pcb s)) p (core (k_pcb s))) s.

Definition get_current_process (s : kstate F D) : Z := current_process (k_pcb s).
Definition process_get_current_pml (s : kstate F D) : Z := pml4 (k_vmem s).
Definition process_set_current_pml (pml : Z) (s : kstate F D) : kstate F D :=
  let v := k_vmem s in
  set_k_vmem (mk_vm (pm v) (fr v) pml (heap_len v) (k_end v) (virt_lock v) (wild v)) s.
(** memmgr.c: page map 0 stands for the one at 0x1000. *)
Definition load_page_map (pageMap : Z) (s : kstate F D) : kstate F D :=
  set_k_cr3 (if decide (pageMap = 0) then 0x1000 else pageMap) s.
(** gdt.c *)
Definition set_stack_pointer (stack : Z) (s : kstate F D) : kstate F D := set_k_tss_rsp0 stack s.

(** The memory manager's operations, on the memory inside the state. *)
Definition with_vm (f : vm F -> outcome (vm F)) (s : kstate F D) : outcome (kstate F D) :=
  v ← f (k_vmem s); Done (set_k_vmem v s).
Definition with_vm_result {A} (f : vm F -> outcome (A * vm F)) (s : kstate F D) : outcome (A * kstate F D) :=
  '(a, v) ← f (k_vmem s); Done (a, set_k_vmem v s).

(** spin_lock(sleep_lock): held by nobody who can run, or the caller spins. *)
Definition lock_sleep (s : kstate F D) : outcome (kstate F D) :=
  l ← spin_lock (k_sleep_lock s); Done (set_k_sleep_lock l s).
Definition unlock_sleep (s : kstate F D) : kstate F D := set_k_sleep_lock (spin_unlock (k_sleep_lock s)) s.

End State.

Lemma at_done {A} (m : gmap Z A) p a : at_ m p = Done a <-> p <> 0 /\ m !! p = Some a.
Proof.
  unfold at_. case_decide as E; [split; [done|by intros [? _]]|]. destruct (m !! p); simpl; split.
  - by intros [= ->].
  - by intros [_ [= ->]].
  - done.
  - by intros [_ ?].
Qed.

Lemma at_live {A} (m : gmap Z A) p a : p <> 0 -> m !! p = Some a -> at_ m p = Done a.
Proof. intros. by apply at_done. Qed.
