(* ===== verification/Scheduler.v ===== *)
(** The scheduler: schedule, the queue of runnable threads, sleeping and the
    two ways out of it, and the timer interrupt (kernel/proc/process.c,
    kernel/arch/amd64/pit.c, context_switch.S).

    A call of schedule ends in longjmp: the state it returns is the one in which
    the next thread goes on, with its registers in [k_cpu] and its address space
    in [k_cr3].  [kept] says whether a list entry that was just freed still holds
    what list_delete left in it; get_next_process and wakeup_sleeping read such
    an entry. *)
From stdpp Require Import base list gmap fin_maps.
From Stdlib Require Import ZArith Lia.
From S2P Require Import Prelude Frames Paging KTree Vfs Mutex Signals Procs.

#[local] Open Scope Z_scope.

Section Scheduler.
Context {F D : Type} (kept : bool).
Abbreviation state := (kstate F D).

(** ** Operations *)

Definition schedule_process (p : Z) (s : state) : outcome state :=
  s ← clear_flag p PROC_FLAG_SLEEP_INTERRUPTIBLE s;
  Done (set_k_thread_queue (k_thread_queue s ++ [p]) s).

(** The entry is removed from the queue, which frees it, and then read. *)
Definition get_next_process (s : state) : outcome (Z * state) :=
  match k_thread_queue s with
  | [] => Done (0, s)
  | p :: q => if kept then Done (p, set_k_thread_queue q s) else Fault
  end.

Definition resume_thread (p : Z) (s : state) : outcome state :=
  x ← proc_at s p; Done (set_k_cpu (longjmp (p_main_thread x)) s).

Definition stack_of (p : Z) (s : state) : outcome state :=
  x ← proc_at s p; Done (set_stack_pointer (kt_kernel_stack (p_main_thread x)) s).

Definition address_space_of (p : Z) (s : state) : outcome state :=
  x ← proc_at s p;
  m ← at_ (k_mms s) (p_page_directory x);
  Done (process_set_current_pml (mm_page_directory m) s).

Definition switch_to_idle (idle : Z) (s : state) : outcome state :=
  let s := set_current idle s in
  s ← stack_of idle s;
  resume_thread idle s.

Definition switch_to (next : Z) (s : state) : outcome state :=
  s ← set_flag next PROC_FLAG_ON_CPU s;
  s ← stack_of next s;
  s ← address_space_of next s;
  resume_thread next (load_page_map (process_get_current_pml s) s).

(** setjmp of the current thread. *)
Definition store_context (p : Z) (s : state) : outcome state :=
  upd_proc p (fun x => set_p_main_thread (setjmp (k_cpu s) (p_main_thread x)) x) s.

(** The first half of schedule: the current thread gives the processor up. *)
Definition leave_cpu (sleep : bool) (s : state) : outcome state :=
  let cur := get_current_process s in
  let idle := kernel_idle_process (k_pcb s) in
  s ← (if decide (cur = idle) then Done s else store_context cur s);
  s ← clear_flag cur PROC_FLAG_ON_CPU s;
  if decide (cur <> idle /\ sleep = false) then schedule_process cur s else Done s.

Definition schedule (sleep : bool) (s : state) : outcome state :=
  let cur := get_current_process s in
  let idle := kernel_idle_process (k_pcb s) in
  if decide (cur = 0) then Done s
  else
    s ← leave_cpu sleep s;
    '(next, s) ← get_next_process (set_previous cur s);
    let s := set_current next s in
    if decide (next = 0) then switch_to_idle idle s else switch_to next s.

Definition sleep (milliseconds : Z) (s : state) : outcome state :=
  let until := u64 (k_counter s + Z.quot milliseconds 10 + 1) in
  let process := get_current_process s in
  s ← upd_proc process (set_p_sleepTick until) s;
  s ← set_flag process PROC_FLAG_SLEEP_INTERRUPTIBLE s;
  s ← clear_flag process PROC_FLAG_ON_CPU s;
  s ← lock_sleep s;
  schedule true (unlock_sleep (set_k_sleeping_queue (k_sleeping_queue s ++ [process]) s)).

(** [for(entry = head; entry; entry = entry->next)]: [pre] is what the scan has
    passed, [suf] starts at the entry it stands on. *)
Fixpoint wake_scan (now : Z) (pre suf : list Z) (s : state) : outcome state :=
  match suf with
  | [] => Done s
  | p :: suf' =>
      x ← proc_at s p;
      if decide (p_sleepTick x <= now) then
        s ← schedule_process p (set_k_sleeping_queue (pre ++ suf') s);
        if kept then Done s else Fault
      else wake_scan now (pre ++ [p]) suf' s
  end.

Definition wakeup_sleeping (s : state) : outcome state :=
  let now := k_counter s in
  s ← lock_sleep s;
  s ← wake_scan now [] (k_sleeping_queue s) s;
  Done (unlock_sleep s).

(** list_find and list_delete: the first entry of the process. *)
Fixpoint remove_first (p : Z) (l : list Z) : option (list Z) :=
  match l with
  | [] => None
  | q :: l => if decide (q = p) then Some l else r ← remove_first p l; Some (q :: r)
  end.

(** The early return leaves sleep_lock held. *)
Definition wakeup_now (p : Z) (s : state) : outcome (bool * state) :=
  s ← lock_sleep s;
  x ← proc_at s p;
  if decide (p_cpu x <> core (k_pcb s) \/ p_cpu x <> -1) then Done (false, s)
  else
    s ← match remove_first p (k_sleeping_queue s) with
        | Some l =>
            s ← upd_proc p (set_p_sleepTick 0) s;
            schedule_process p (set_k_sleeping_queue l s)
        | None => Done s
        end;
    Done (true, unlock_sleep s).

(** *** Waiting for an object *)

Definition mutex_at (s : state) (m : Z) : outcome (mutex_t (list Z)) := at_ (k_mutexes s) m.
Definition put_mutex (m : Z) (x : mutex_t (list Z)) (s : state) : state := set_k_mutexes (<[m := x]> (k_mutexes s)) s.

Definition lock_object (m : Z) (s : state) : outcome state :=
  x ← mutex_at s m; x ← lock_mutex x; Done (put_mutex m x s).
Definition unlock_object (m : Z) (s : state) : outcome state :=
  x ← mutex_at s m; Done (put_mutex m (unlock_mutex x) s).
Definition enqueue_waiting (m p : Z) (s : state) : outcome state :=
  x ← mutex_at s m; Done (put_mutex m (with_waiting (m_waiting x ++ [p]) x) s).

Definition wait_for_object (m : Z) (s : state) : outcome state :=
  s ← lock_object m s;
  let cur := get_current_process s in
  s ← enqueue_waiting m cur s;
  s ← set_flag cur PROC_FLAG_SLEEP_INTERRUPTIBLE s;
  s ← unlock_object m s;
  schedule true s.

(** Up to schedule(true); [timeout_result] is what the thread returns when it
    runs again. *)
Definition wait_for_object_timeout (m timeout : Z) (s : state) : outcome state :=
  s ← lock_object m s;
  let cur := get_current_process s in
  s ← enqueue_waiting m cur s;
  s ← set_flag cur PROC_FLAG_SLEEP_INTERRUPTIBLE s;
  s ← clear_flag cur PROC_FLAG_ON_CPU s;
  s ← upd_proc cur (set_p_sleepTick (u64 timeout)) s;
  s ← lock_sleep s;
  let s := unlock_sleep (set_k_sleeping_queue (k_sleeping_queue s ++ [cur]) s) in
  s ← unlock_object m s;
  schedule true s.
Definition timeout_result (timeout : Z) (s : state) : Z := if decide (u64 timeout < k_counter s) then 1 else 0.

(** [wakeup_waiting] of the queue of an object. *)
Fixpoint wake_all (ws : list Z) (s : state) : outcome state :=
  match ws with
  | [] => Done s
  | w :: ws => s ← (if decide (w = 0) then Done s else schedule_process w s); wake_all ws s
  end.
Definition wakeup_waiting (m : Z) (s : state) : outcome state :=
  x ← mutex_at s m;
  s ← wake_all (m_waiting x) s;
  Done (put_mutex m (with_waiting [] x) s).

(** The timer interrupt, with the code segment it interrupted. *)
Definition pit_interrupt (cs : Z) (s : state) : outcome state :=
  let s := set_k_counter (u64 (k_counter s + 1)) s in
  if decide (cs = 0x08) then Done s
  else s ← wakeup_sleeping s; schedule false s.

End Scheduler.

(** ** Steps on live processes *)

Section Lemmas.
Context {F D : Type}.
Abbreviation state := (kstate F D).
Implicit Types s : state.

Lemma upd_proc_done s p x f : p <> 0 -> k_procs s !! p = Some x -> upd_proc p f s = Done (put_proc p (f x) s).
Proof. intros Hp Hx. unfold upd_proc, proc_at. by rewrite (at_live _ _ x). Qed.

Lemma proc_at_done s p x : p <> 0 -> k_procs s !! p = Some x -> proc_at s p = Done x.
Proof. intros. by apply at_live. Qed.

Lemma put_proc_lookup s p x : k_procs (put_proc p x s) !! p = Some x.
Proof. apply lookup_insert_eq. Qed.

Lemma upd_put s p x f : p <> 0 -> upd_proc p f (put_proc p x s) = Done (put_proc p (f x) s).
Proof.
  intros Hp. rewrite (upd_proc_done _ p x) by (done || apply put_proc_lookup). unfold put_proc. simpl.
  by rewrite insert_insert_eq.
Qed.

(** The processes of [ps] are live, and so are their address spaces. *)
Definition live s (ps : list Z) : Prop :=
  forall p, p ∈ ps -> p <> 0 /\ exists x m, k_procs s !! p = Some x /\
    p_page_directory x <> 0 /\ k_mms s !! p_page_directory x = Some m.

(** Every process keeps the fields that [f] shows. *)
Definition same_field {A} (f : process -> A) s s' : Prop := forall p, f <$> k_procs s' !! p = f <$> k_procs s !! p.

Lemma put_same_field {A} (f : process -> A) s p x y : k_procs s !! p = Some x -> f y = f x ->
  same_field f s (put_proc p y s).
Proof.
  intros Hx Hf q. simpl. destruct (decide (q = p)) as [->|Hne].
  - by rewrite lookup_insert_eq, Hx; simpl; f_equal.
  - by rewrite lookup_insert_ne.
Qed.

Lemma same_field_trans {A} (f : process -> A) s1 s2 s3 : same_field f s1 s2 -> same_field f s2 s3 -> same_field f s1 s3.
Proof. intros H1 H2 p. by rewrite H2. Qed.

(** The context a process will go on with: of the current one, the registers
    of the processor; of another, what setjmp saved. *)
Definition saved s (p : Z) : option context := (fun x => longjmp (p_main_thread x)) <$> k_procs s !! p.
Definition ctx_of s (p : Z) : option context :=
  if decide (p = get_current_process s) then Some (k_cpu s) else saved s p.

(** The address space the process was given. *)
Definition space_of s (p : Z) : option Z :=
  x ← k_procs s !! p; m ← k_mms s !! p_page_directory x; Some (mm_page_directory m).

(** The fields of a process that the scheduler leaves alone: all but the saved
    context and two of the flags. *)
Definition SCHED_FLAGS : Z := Z.lor PROC_FLAG_ON_CPU PROC_FLAG_SLEEP_INTERRUPTIBLE.
Definition mask_flags (x : process) : process := set_p_flags (Z.ldiff (p_flags x) SCHED_FLAGS) x.
Definition rest_of s (p : Z) : option process := (fun x => set_p_main_thread zero_thread (mask_flags x)) <$> k_procs s !! p.

(** The tick a process sleeps until. *)
Definition tick_of s (p : Z) : option Z := p_sleepTick <$> rest_of s p.

(** All but the processes, the run queue and the processor. *)
Definition rest_of_kernel s :=
  (k_mms s, k_fdts s, k_handles s, k_regs_at s, k_kmem s, k_mutexes s, k_process_list s, k_sleeping_queue s,
   k_pnodes s, k_process_tree s, k_sleep_lock s, k_process_lock s, k_next_pid s, k_counter s, k_vfs s).

(** [cur] runs, the threads of [q] wait for the processor, in this order. *)
Record runnable s (cur : Z) (q : list Z) : Prop := {
  ru_cur : get_current_process s = cur;
  ru_queue : k_thread_queue s = q;
  ru_idle : kernel_idle_process (k_pcb s) ∉ cur :: q;
  ru_nodup : NoDup (cur :: q);
  ru_live : live s (cur :: q);
  ru_space : space_of s cur = Some (pml4 (k_vmem s))
}.

(** What a slice of a thread may change: its own registers. *)
Definition tick (run : Z -> context -> context) s : outcome state :=
  schedule true false (set_k_cpu (run (get_current_process s) (k_cpu s)) s).
Fixpoint ticks (run : Z -> context -> context) (n : nat) s : outcome state :=
  match n with
  | O => Done s
  | S n => s ← tick run s; ticks run n s
  end.

(** [s'] is [s] with other scheduling flags in its processes. *)
Record reflagged s s' : Prop := {
  rf_rest : s' = set_k_procs (k_procs s') s;
  rf_procs : same_field mask_flags s s'
}.

Lemma reflagged_refl s : reflagged s s.
Proof. split; [by destruct s|done]. Qed.

Lemma reflagged_trans s1 s2 s3 : reflagged s1 s2 -> reflagged s2 s3 -> reflagged s1 s3.
Proof.
  intros [E1 H1] [E2 H2]. split; [|by eapply same_field_trans].
  rewrite E2 at 1. rewrite E1. done.
Qed.

Lemma sched_bits_ldiff f b : Z.lor b SCHED_FLAGS = SCHED_FLAGS -> Z.ldiff (Z.ldiff f b) SCHED_FLAGS = Z.ldiff f SCHED_FLAGS.
Proof. intros Hb. by rewrite Z.ldiff_ldiff_l, Hb. Qed.

Lemma sched_bits_lor f b : Z.lor b SCHED_FLAGS = SCHED_FLAGS -> Z.ldiff (Z.lor f b) SCHED_FLAGS = Z.ldiff f SCHED_FLAGS.
Proof.
  intros <-. apply Z.bits_inj'. intros i Hi. rewrite !Z.ldiff_spec, !Z.lor_spec.
  by destruct (Z.testbit f i), (Z.testbit b i), (Z.testbit SCHED_FLAGS i).
Qed.

Lemma reflag_ok s p g : p <> 0 -> is_Some (k_procs s !! p) ->
  (forall x, Z.ldiff (g x) SCHED_FLAGS = Z.ldiff (p_flags x) SCHED_FLAGS) ->
  exists s', upd_proc p (fun x => set_p_flags (g x) x) s = Done s' /\ reflagged s s'.
Proof.
  intros Hp [x Hx] Hg. erewrite upd_proc_done by done. eexists. split; [done|].
  split; [by destruct s|]. apply put_same_field with x; [done|]. unfold mask_flags, set_p_flags. simpl. by rewrite Hg.
Qed.

Lemma clear_flag_ok s p b : p <> 0 -> is_Some (k_procs s !! p) -> Z.lor b SCHED_FLAGS = SCHED_FLAGS ->
  exists s', clear_flag p b s = Done s' /\ reflagged s s'.
Proof. intros Hp Hx Hb. apply reflag_ok; [done|done|]. intros x. by apply sched_bits_ldiff. Qed.

Lemma set_flag_ok s p b : p <> 0 -> is_Some (k_procs s !! p) -> Z.lor b SCHED_FLAGS = SCHED_FLAGS ->
  exists s', set_flag p b s = Done s' /\ reflagged s s'.
Proof. intros Hp Hx Hb. apply reflag_ok; [done|done|]. intros x. by apply sched_bits_lor. Qed.

Lemma reflagged_proc s s' p x : reflagged s s' -> k_procs s !! p = Some x ->
  exists f, k_procs s' !! p = Some (set_p_flags f x).
Proof.
  intros [_ H] Hx. specialize (H p). rewrite Hx in H. destruct (k_procs s' !! p) as [y|]; [|done].
  exists (p_flags y). destruct x, y. unfold mask_flags, set_p_flags in *. simpl in *. congruence.
Qed.

Lemma live_reflagged s s' ps : reflagged s s' -> live s ps -> live s' ps.
Proof.
  intros H Hl p Hp. destruct (Hl p Hp) as (H0 & x & m & Hx & Hd & Hm). split; [done|].
  destruct (reflagged_proc _ _ _ _ H Hx) as [f Hf]. exists (set_p_flags f x), m.
  split; [done|]. split; [done|]. by rewrite (rf_rest _ _ H).
Qed.

Lemma schedule_process_reflags s p : p <> 0 -> is_Some (k_procs s !! p) ->
  exists s', schedule_process p s = Done (set_k_thread_queue (k_thread_queue s ++ [p]) s') /\ reflagged s s'.
Proof.
  intros Hp Hx. unfold schedule_process.
  destruct (clear_flag_ok s p PROC_FLAG_SLEEP_INTERRUPTIBLE Hp Hx eq_refl) as (s' & -> & Hr).
  exists s'. split; [|done]. simpl. by rewrite (rf_rest _ _ Hr).
Qed.

(** [s'] has the threads of [s], with the same saved contexts and address
    spaces. *)
Record same_threads s s' : Prop := {
  st_saved : forall p, saved s' p = saved s p;
  st_space : forall p, space_of s' p = space_of s p;
  st_rest : forall p, rest_of s' p = rest_of s p;
  st_live : forall ps, live s ps -> live s' ps
}.

Lemma same_threads_refl s : same_threads s s.
Proof. by split. Qed.

Lemma same_threads_trans s1 s2 s3 : same_threads s1 s2 -> same_threads s2 s3 -> same_threads s1 s3.
Proof. intros [A1 B1 C1 E1] [A2 B2 C2 E2]. split; intros; [by rewrite A2|by rewrite B2|by rewrite C2|auto]. Qed.

Lemma rest_of_kernel_queues s s' : rest_of_kernel s' = rest_of_kernel s ->
  k_sleeping_queue s' = k_sleeping_queue s /\ k_sleep_lock s' = k_sleep_lock s /\ k_mutexes s' = k_mutexes s.
Proof. unfold rest_of_kernel. intros E. split; [|split]; congruence. Qed.

(** The state outside the tables of processes and address spaces is free. *)
Lemma same_tables s s' : k_procs s' = k_procs s -> k_mms s' = k_mms s -> same_threads s s'.
Proof. intros Hp Hm. split; intros; unfold saved, space_of, rest_of, live; by rewrite Hp, ?Hm. Qed.

Lemma reflagged_threads s s' : reflagged s s' -> same_threads s s'.
Proof.
  intros H.
  assert (Hf : forall A (f : process -> A) p, (forall x g, f (set_p_flags g x) = f x) -> f <$> k_procs s' !! p = f <$> k_procs s !! p).
  { intros A f p Hf. pose proof (rf_procs _ _ H p) as E. destruct (k_procs s !! p) as [x|] eqn:Hx.
    - destruct (reflagged_proc _ _ _ _ H Hx) as [g ->]. simpl. by rewrite Hf.
    - by destruct (k_procs s' !! p). }
  constructor; [..|intros ps; by apply live_reflagged].
  - intros p. by apply Hf.
  - intros p. unfold space_of. rewrite (rf_rest _ _ H). simpl. specialize (Hf _ p_page_directory p (fun _ _ => eq_refl)).
    destruct (k_procs s' !! p), (k_procs s !! p); simpl in *; congruence.
  - intros p. pose proof (rf_procs _ _ H p) as E. unfold rest_of.
    destruct (k_procs s' !! p) as [y|], (k_procs s !! p) as [x|]; try done.
    assert (E' : mask_flags y = mask_flags x) by (apply (inj Some); exact E). simpl. by rewrite E'.
Qed.

Lemma switch_to_ok s n ps : live s ps -> n ∈ ps ->
  exists s', switch_to n s = Done s' /\ same_threads s s' /\ k_pcb s' = k_pcb s /\
    k_thread_queue s' = k_thread_queue s /\ rest_of_kernel s' = rest_of_kernel s /\ saved s n = Some (k_cpu s') /\ space_of s n = Some (pml4 (k_vmem s')).
Proof.
  intros Hl Hn. destruct (Hl n Hn) as (Hn0 & x & m & Hx & Hd & Hm). unfold switch_to.
  destruct (set_flag_ok s n PROC_FLAG_ON_CPU Hn0 ltac:(by eexists) eq_refl) as (s1 & -> & Hr).
  cbn [mbind outcome_bind]. destruct (reflagged_proc _ _ _ _ Hr Hx) as [f Hf].
  unfold stack_of. rewrite (proc_at_done s1 n _ Hn0 Hf). cbn [mbind outcome_bind].
  unfold address_space_of. erewrite (proc_at_done _ n) by (exact Hn0 || exact Hf). cbn [mbind outcome_bind].
  rewrite (at_live _ _ m) by (try done; by rewrite (rf_rest _ _ Hr)). cbn [mbind outcome_bind].
  unfold resume_thread. erewrite (proc_at_done _ n) by (exact Hn0 || exact Hf). cbn [mbind outcome_bind].
  eexists. split; [done|]. split.
  { eapply same_threads_trans; [by apply reflagged_threads|by apply same_tables]. }
  rewrite (rf_rest _ _ Hr). unfold saved, space_of. rewrite Hx. simpl. by rewrite Hm.
Qed.

Lemma store_context_ok s p ps : live s ps -> p ∈ ps -> exists s', store_context p s = Done s' /\
  s' = set_k_procs (k_procs s') s /\ (forall q, saved s' q = if decide (q = p) then Some (k_cpu s) else saved s q) /\
  (forall q, space_of s' q = space_of s q) /\ (forall q, rest_of s' q = rest_of s q) /\ (forall qs, live s qs -> live s' qs).
Proof.
  intros Hl Hp. destruct (Hl p Hp) as (Hp0 & x & m & Hx & _). unfold store_context.
  erewrite upd_proc_done by done. eexists. split; [done|]. split; [by destruct s|]. split; [|split; [|split]].
  - intros q. unfold saved. simpl. destruct (decide (q = p)) as [->|Hne].
    + rewrite lookup_insert_eq. simpl. by rewrite longjmp_setjmp.
    + by rewrite lookup_insert_ne.
  - intros q. unfold space_of. simpl. destruct (decide (q = p)) as [->|Hne].
    + rewrite lookup_insert_eq, Hx. done.
    + by rewrite lookup_insert_ne.
  - by apply put_same_field with x.
  - intros qs Hqs q Hq. destruct (Hqs q Hq) as (Hq0 & y & my & Hy & Hyd & Hym). split; [done|]. simpl.
    destruct (decide (q = p)) as [->|Hne].
    + rewrite lookup_insert_eq. rewrite Hx in Hy. injection Hy as <-. eauto.
    + rewrite lookup_insert_ne by done. eauto.
Qed.

Lemma leave_cpu_ok (sl : bool) s cur q : runnable s cur q ->
  exists s', leave_cpu sl s = Done s' /\
    s' = set_k_thread_queue (if sl then q else q ++ [cur]) (set_k_procs (k_procs s') s) /\
    (forall p, saved s' p = if decide (p = cur) then Some (k_cpu s) else saved s p) /\
    (forall p, space_of s' p = space_of s p) /\ (forall p, rest_of s' p = rest_of s p) /\
    (forall ps, live s ps -> live s' ps).
Proof.
  intros [Hc Hq Hi Hnd Hl _]. unfold leave_cpu. rewrite Hc. set (idle := kernel_idle_process (k_pcb s)) in *.
  assert (Hcl : cur ∈ cur :: q) by (apply elem_of_cons; by left).
  destruct (Hl cur Hcl) as (Hc0 & _). rewrite (decide_False (P := cur = idle)) by (by intros ->).
  destruct (store_context_ok s cur _ Hl Hcl) as (s1 & -> & E1 & Hsv1 & Hsp1 & Htk1 & Hlv1). cbn [mbind outcome_bind].
  assert (Hl1 : forall s', (forall ps, live s1 ps -> live s' ps) -> is_Some (k_procs s' !! cur)).
  { intros s' Hs'. destruct (Hs' _ (Hlv1 _ Hl) cur Hcl) as (_ & x & _ & ? & _). by eexists. }
  destruct (clear_flag_ok s1 cur PROC_FLAG_ON_CPU Hc0 (Hl1 s1 (fun _ H => H)) eq_refl) as (s2 & -> & Hr2).
  cbn [mbind outcome_bind]. pose proof (reflagged_threads _ _ Hr2) as Ht2.
  assert (E2 : s2 = set_k_procs (k_procs s2) s) by (rewrite (rf_rest _ _ Hr2) at 1; by rewrite E1).
  assert (Hgoal : forall s3, same_threads s1 s3 ->
    (forall p, saved s3 p = if decide (p = cur) then Some (k_cpu s) else saved s p) /\
    (forall p, space_of s3 p = space_of s p) /\ (forall p, rest_of s3 p = rest_of s p) /\
    (forall ps, live s ps -> live s3 ps)).
  { intros s3 Ht. split_and!; intros; [by rewrite (st_saved _ _ Ht), Hsv1|by rewrite (st_space _ _ Ht), Hsp1|by rewrite (st_rest _ _ Ht), Htk1|].
    by apply (st_live _ _ Ht), Hlv1. }
  destruct sl.
  - rewrite decide_False by (intros [_ ?]; done). exists s2. split; [done|]. split; [|by apply Hgoal].
    rewrite <-Hq, E2. by destruct s.
  - rewrite decide_True by (split; [by intros ->|done]).
    destruct (schedule_process_reflags s2 cur Hc0 (Hl1 s2 (st_live _ _ Ht2))) as (s3 & -> & Hr3).
    eexists. split; [done|]. split.
    + rewrite (rf_rest _ _ Hr3), E2, <-Hq. done.
    + apply Hgoal. eapply same_threads_trans; [done|].
      eapply same_threads_trans; [by apply reflagged_threads|by apply same_tables].
Qed.

(** A thread that gives the processor up: its successor is the head of the
    queue, behind which it stands itself unless it sleeps. *)
Lemma schedule_dispatch (sl : bool) s cur q n q' : runnable s cur q -> (if sl then q else q ++ [cur]) = n :: q' ->
  exists s', schedule true sl s = Done s' /\ get_current_process s' = n /\ k_thread_queue s' = q' /\
    kernel_idle_process (k_pcb s') = kernel_idle_process (k_pcb s) /\ rest_of_kernel s' = rest_of_kernel s /\
    (forall p, ctx_of s' p = ctx_of s p) /\ (forall p, space_of s' p = space_of s p) /\
    (forall p, rest_of s' p = rest_of s p) /\ (forall ps, live s ps -> live s' ps) /\ space_of s n = Some (pml4 (k_vmem s')).
Proof.
  intros Hru Hnext. pose proof Hru as [Hc Hq Hi Hnd Hl _]. unfold schedule. rewrite Hc.
  assert (Hnl : n ∈ cur :: q).
  { assert (n ∈ n :: q') as Hn by (apply elem_of_cons; by left). rewrite <-Hnext in Hn.
    apply elem_of_cons. destruct sl; [by right|]. apply elem_of_app in Hn as [?|Hn]; [by right|].
    apply list_elem_of_singleton in Hn. by left. }
  destruct (Hl cur ltac:(apply elem_of_cons; by left)) as (Hc0 & _), (Hl n Hnl) as (Hn0 & _).
  rewrite (decide_False (P := cur = 0)) by done.
  destruct (leave_cpu_ok sl s cur q Hru) as (s3 & -> & E3 & Hsv3 & Hsp3 & Htk3 & Hlv3). cbn [mbind outcome_bind].
  unfold get_next_process. rewrite Hnext in E3.
  assert (Hq3 : k_thread_queue (set_previous cur s3) = n :: q') by (rewrite E3; done).
  rewrite Hq3. cbn [mbind outcome_bind]. rewrite decide_False by done.
  set (s4 := set_current n (set_k_thread_queue q' (set_previous cur s3))).
  assert (Ht4 : same_threads s3 s4) by by apply same_tables.
  destruct (switch_to_ok s4 n (cur :: q) (st_live _ _ Ht4 _ (Hlv3 _ Hl)) Hnl)
    as (s5 & -> & Ht5 & Hpcb & Hq5 & Ho5 & Hcpu & Hsp).
  pose proof (same_threads_trans _ _ _ Ht4 Ht5) as Ht. exists s5. split; [done|].
  unfold get_current_process in *. rewrite Hpcb, Hq5, Ho5.
  assert (Ef : rest_of_kernel s4 = rest_of_kernel s /\ kernel_idle_process (k_pcb s4) = kernel_idle_process (k_pcb s))
    by (unfold s4, rest_of_kernel; simpl; by rewrite E3).
  destruct Ef as [Ef1 Ef2]. split_and!; try done.
  - intros p. unfold ctx_of, get_current_process. rewrite Hpcb, Hc. simpl.
    destruct (decide (p = n)) as [->|Hpn].
    + rewrite <-Hcpu, (st_saved _ _ Ht4), Hsv3. done.
    + by rewrite (st_saved _ _ Ht), Hsv3.
  - intros p. by rewrite (st_space _ _ Ht), Hsp3.
  - intros p. by rewrite (st_rest _ _ Ht), Htk3.
  - intros ps Hps. by apply (st_live _ _ Ht), Hlv3.
  - rewrite <-Hsp, (st_space _ _ Ht4), Hsp3. done.
Qed.

(** One slice and the switch that ends it. *)
Lemma tick_ok run s cur q n q' : runnable s cur q -> q ++ [cur] = n :: q' ->
  exists s', tick run s = Done s' /\ runnable s' n q' /\
    (forall p, space_of s' p = space_of s p) /\
    (forall p, ctx_of s' p = if decide (p = cur) then run p <$> ctx_of s p else ctx_of s p).
Proof.
  intros Hru Hn. unfold tick. pose proof Hru as [Hc Hq Hi Hnd Hl Hsc]. rewrite Hc.
  set (s0 := set_k_cpu (run cur (k_cpu s)) s).
  assert (Hru0 : runnable s0 cur q) by by constructor.
  destruct (schedule_dispatch false s0 cur q n q' Hru0 Hn) as (s' & -> & Hc' & Hq' & Hi' & _ & Hctx & Hspc & _ & Hlv & Hsp).
  assert (Hperm : n :: q' ≡ₚ cur :: q) by (rewrite <-Hn; symmetry; apply Permutation_cons_append).
  exists s'. split; [done|]. split; [|split; [done|]].
  - split; [done|done|by rewrite Hi', Hperm|by rewrite Hperm| |].
    + intros p Hp. apply Hlv with (cur :: q); [done|by rewrite <-Hperm].
    + rewrite Hspc. exact Hsp.
  - intros p. rewrite Hctx. unfold ctx_of, get_current_process in *. simpl. rewrite Hc.
    destruct (decide (p = cur)) as [->|]; done.
Qed.

(** As many slices as there are threads in [rest] run each of them once. *)
Lemma ticks_rotate run rest : forall done_ s cur q,
  cur :: q = rest ++ done_ -> runnable s cur q -> NoDup (cur :: q) ->
  exists s', ticks run (length rest) s = Done s' /\
    (forall cur' q', cur' :: q' = done_ ++ rest -> runnable s' cur' q') /\
    (forall p, space_of s' p = space_of s p) /\
    (forall p, ctx_of s' p = if decide (p ∈ rest) then run p <$> ctx_of s p else ctx_of s p).
Proof.
  induction rest as [|r rest IH]; intros done_ s cur q E Hru Hnd.
  - exists s. split; [done|]. split; [|split; [done|]].
    + intros cur' q' E'. rewrite app_nil_r in E'. simpl in E. rewrite <-E in E'. by injection E' as -> ->.
    + intros p. by rewrite decide_False by apply not_elem_of_nil.
  - injection E as -> Eq. destruct (q ++ [r]) as [|n q'] eqn:En; [by destruct q|].
    destruct (tick_ok run s r q n q' Hru En) as (s1 & Hs1 & Hru1 & Hsp1 & Hctx1).
    assert (E1 : n :: q' = rest ++ (done_ ++ [r])) by (rewrite <-En, Eq; by rewrite <-(assoc_L (++))).
    destruct (IH (done_ ++ [r]) s1 n q' E1 Hru1 (ru_nodup _ _ _ Hru1)) as (s' & Hs' & Hru' & Hsp' & Hctx').
    exists s'. cbn [length ticks]. rewrite Hs1. cbn [mbind outcome_bind]. split; [done|]. split; [|split].
    + intros cur' q2 E'. apply Hru'. by rewrite E', <-(assoc_L (++)).
    + intros p. by rewrite Hsp', Hsp1.
    + intros p. rewrite Hctx', Hctx1. apply NoDup_cons in Hnd as [Hr Hnd].
      destruct (decide (p ∈ rest)) as [Hp|Hp].
      * assert (p <> r) by (intros ->; apply Hr; rewrite Eq; apply elem_of_app; by left).
        rewrite (decide_False (P := p = r)) by done. by rewrite decide_True by (apply elem_of_cons; by right).
      * destruct (decide (p = r)) as [->|Hpr]; [by rewrite decide_True by (apply elem_of_cons; by left)|].
        rewrite decide_False; [done|]. intros [?|?]%elem_of_cons; done.
Qed.

(** C4: Preemption is a round robin.  From a state in which [cur] runs and the
    threads of [q] wait, the slice of the k-th thread begins after k slices: it
    goes on from the context it was left with, in its own address space.  After
    one slice for each, the queue and the current thread are what they were and
    every thread has run exactly once. *)
Theorem schedule_round_robin run s cur q : runnable s cur q ->
  (forall k n, (cur :: q) !! k = Some n -> exists s', ticks run k s = Done s' /\ get_current_process s' = n /\
     ctx_of s n = Some (k_cpu s') /\ space_of s n = Some (pml4 (k_vmem s'))) /\
  (exists s', ticks run (S (length q)) s = Done s' /\ runnable s' cur q /\
     (forall p, p ∈ cur :: q -> ctx_of s' p = run p <$> ctx_of s p)).
Proof.
  intros Hru. pose proof (ru_nodup _ _ _ Hru) as Hnd. split.
  - intros k n Hk. pose proof (take_drop_middle _ _ _ Hk) as E. rewrite <-E in Hnd.
    destruct (ticks_rotate run (take k (cur :: q)) (n :: drop (S k) (cur :: q)) s cur q) as (s' & Hs' & Hru' & Hsp & Hctx);
      [by rewrite E|done|by apply Hru|].
    rewrite length_take_le in Hs' by (apply lookup_lt_Some in Hk; lia). exists s'. split; [done|].
    destruct (Hru' n (drop (S k) (cur :: q) ++ take k (cur :: q)) eq_refl) as [Hc _ _ _ _ Hspc]. split; [done|].
    apply NoDup_app in Hnd as (_ & Hdis & _). specialize (Hctx n). rewrite decide_False in Hctx
      by (intros Hn; apply (Hdis _ Hn), elem_of_cons; by left).
    split; [|by rewrite <-Hspc, Hsp]. rewrite <-Hctx. unfold ctx_of. by rewrite decide_True.
  - destruct (ticks_rotate run (cur :: q) [] s cur q) as (s' & Hs' & Hru' & Hsp & Hctx); [by rewrite app_nil_r|done|done|].
    exists s'. split; [done|]. split; [by apply Hru'|]. intros p Hp. rewrite Hctx. by rewrite decide_True.
Qed.

(** ** Sleeping *)

Definition due s (now p : Z) : Prop := p <> 0 /\ exists t, tick_of s p = Some t /\ t <= now.
Definition not_due s (now p : Z) : Prop := p <> 0 /\ exists t, tick_of s p = Some t /\ now < t.

Lemma tick_of_proc s p t : tick_of s p = Some t -> exists x, k_procs s !! p = Some x /\ p_sleepTick x = t.
Proof. unfold tick_of, rest_of. destruct (k_procs s !! p) as [x|]; [|done]. intros [= <-]. eauto. Qed.

Lemma tick_rest s s' p : (forall q, rest_of s' q = rest_of s q) -> tick_of s' p = tick_of s p.
Proof. intros H. unfold tick_of. by rewrite H. Qed.

Lemma wake_scan_skip kept now pre : forall passed suf s, (forall p, p ∈ pre -> not_due s now p) ->
  wake_scan kept now passed (pre ++ suf) s = wake_scan kept now (passed ++ pre) suf s.
Proof.
  induction pre as [|p pre IH]; intros passed suf s Hnd; [by rewrite app_nil_r|].
  destruct (Hnd p ltac:(apply elem_of_cons; by left)) as (Hp & t & Ht & Hlt).
  destruct (tick_of_proc _ _ _ Ht) as (x & Hx & <-). cbn [app wake_scan].
  rewrite (proc_at_done s p x Hp Hx). cbn [mbind outcome_bind]. rewrite decide_False by lia.
  rewrite IH by (intros q Hq; apply Hnd, elem_of_cons; by right). by rewrite <-(assoc_L (++)).
Qed.

Lemma wake_scan_due now passed p suf s : due s now p ->
  exists s', wake_scan true now passed (p :: suf) s = Done s' /\
    s' = set_k_thread_queue (k_thread_queue s ++ [p]) (set_k_sleeping_queue (passed ++ suf) (set_k_procs (k_procs s') s)) /\
    same_threads s s' /\ wake_scan false now passed (p :: suf) s = Fault.
Proof.
  intros (Hp & t & Ht & Hle). destruct (tick_of_proc _ _ _ Ht) as (x & Hx & <-). cbn [wake_scan].
  rewrite (proc_at_done s p x Hp Hx). cbn [mbind outcome_bind]. rewrite !decide_True by lia.
  destruct (schedule_process_reflags (set_k_sleeping_queue (passed ++ suf) s) p Hp ltac:(by eexists)) as (s1 & -> & Hr).
  cbn [mbind outcome_bind]. eexists. split; [done|]. split; [by rewrite (rf_rest _ _ Hr)|]. split; [|done].
  apply same_threads_trans with (set_k_sleeping_queue (passed ++ suf) s); [by apply same_tables|].
  eapply same_threads_trans; [by apply reflagged_threads|by apply same_tables].
Qed.

Lemma wakeup_sleeping_none kept s : k_sleep_lock s = false ->
  (forall p, p ∈ k_sleeping_queue s -> not_due s (k_counter s) p) -> wakeup_sleeping kept s = Done s.
Proof.
  intros Hlk Hpre. unfold wakeup_sleeping, lock_sleep. rewrite Hlk. cbn [mbind outcome_bind spin_lock].
  rewrite <-(app_nil_r (k_sleeping_queue (set_k_sleep_lock true s))). rewrite wake_scan_skip by done.
  simpl. f_equal. unfold unlock_sleep. destruct s; simpl in *. by subst.
Qed.

Lemma wakeup_sleeping_due s pre p suf : k_sleep_lock s = false -> k_sleeping_queue s = pre ++ p :: suf ->
  (forall q, q ∈ pre -> not_due s (k_counter s) q) -> due s (k_counter s) p ->
  (exists s', wakeup_sleeping true s = Done s' /\ k_sleeping_queue s' = pre ++ suf /\
     k_thread_queue s' = k_thread_queue s ++ [p] /\ k_sleep_lock s' = false /\ same_threads s s') /\
  wakeup_sleeping false s = Fault.
Proof.
  intros Hlk Hsl Hpre Hdue. unfold wakeup_sleeping, lock_sleep. rewrite Hlk. cbn [mbind outcome_bind spin_lock].
  set (s0 := set_k_sleep_lock true s). change (k_sleeping_queue s0) with (k_sleeping_queue s). rewrite Hsl.
  rewrite !wake_scan_skip by done.
  destruct (wake_scan_due (k_counter s) ([] ++ pre) p suf s0 Hdue) as (s' & -> & E & Ht & ->). split; [|done].
  eexists. split; [done|]. split; [by rewrite E|]. split; [by rewrite E|]. split; [done|].
  apply same_threads_trans with s0; [by apply same_tables|].
  eapply same_threads_trans; [exact Ht|by apply same_tables].
Qed.

(** A timer tick wakes at most one sleeper.  The scan goes past the threads that
    are not due; the first one that is leaves the sleeping queue for the end of
    the run queue, and there the scan ends, because list_delete has cleared the
    entry it continues from: a thread behind it sleeps on, even when it is due.
    That entry is freed memory; if it were reused, reading it would be a fault. *)
Theorem wakeup_sleeping_first_due s pre suf :
  k_sleep_lock s = false -> k_sleeping_queue s = pre ++ suf ->
  (forall p, p ∈ pre -> not_due s (k_counter s) p) ->
  match suf with
  | [] => forall kept, wakeup_sleeping kept s = Done s
  | p :: suf => due s (k_counter s) p ->
      (exists s', wakeup_sleeping true s = Done s' /\ k_sleeping_queue s' = pre ++ suf /\
         k_thread_queue s' = k_thread_queue s ++ [p] /\ k_sleep_lock s' = false /\ same_threads s s') /\
      wakeup_sleeping false s = Fault
  end.
Proof.
  intros Hlk Hsl Hpre. destruct suf as [|p suf].
  - intros kept. apply wakeup_sleeping_none; [done|]. rewrite Hsl, app_nil_r. done.
  - intros Hdue. by apply wakeup_sleeping_due.
Qed.

(** Setting sleepTick. *)
Lemma set_tick_ok s p t : p <> 0 -> is_Some (k_procs s !! p) ->
  exists s', upd_proc p (set_p_sleepTick t) s = Done s' /\ s' = set_k_procs (k_procs s') s /\
    tick_of s' p = Some t /\ (forall q, saved s' q = saved s q) /\ (forall q, space_of s' q = space_of s q) /\
    (forall ps, live s ps -> live s' ps) /\ (forall q, q <> p -> tick_of s' q = tick_of s q).
Proof.
  intros Hp [x Hx]. erewrite upd_proc_done by done. eexists. split; [done|]. split; [by destruct s|].
  unfold tick_of, rest_of, saved, space_of. simpl. rewrite lookup_insert_eq. split; [done|]. split; [|split; [|split; [|by intros q Hq; rewrite lookup_insert_ne by done]]].
  - intros q. destruct (decide (q = p)) as [->|]; [by rewrite lookup_insert_eq, Hx|by rewrite lookup_insert_ne].
  - intros q. destruct (decide (q = p)) as [->|]; [by rewrite lookup_insert_eq, Hx|by rewrite lookup_insert_ne].
  - intros ps Hl q Hq. destruct (Hl q Hq) as (Hq0 & y & m & Hy & Hd & Hm). split; [done|]. simpl.
    destruct (decide (q = p)) as [->|]; [|rewrite lookup_insert_ne by done; eauto].
    rewrite lookup_insert_eq. rewrite Hx in Hy. injection Hy as <-. eexists _, m. eauto.
Qed.

(** The state in which a thread that goes to sleep calls schedule. *)
Lemma runnable_update s s' cur q : runnable s cur q -> s' = set_k_procs (k_procs s') s ->
  (forall p, space_of s' p = space_of s p) -> (forall ps, live s ps -> live s' ps) -> runnable s' cur q.
Proof.
  intros [Hc Hq Hi Hnd Hl Hs] E Hsp Hlv. rewrite E. split; try done; rewrite <-?E; [by apply Hlv|]. by rewrite Hsp, E.
Qed.

Lemma live_proc s cur q : runnable s cur q -> cur <> 0 /\ is_Some (k_procs s !! cur).
Proof.
  intros Hru. destruct (ru_live _ _ _ Hru cur ltac:(apply elem_of_cons; by left)) as (? & x & _ & ? & _).
  split; [done|by eexists].
Qed.

(** The flags of a thread that goes to sleep. *)
Lemma sleep_flags s p : p <> 0 -> is_Some (k_procs s !! p) ->
  exists s', (forall A (f : state -> outcome A), (s ← set_flag p PROC_FLAG_SLEEP_INTERRUPTIBLE s;
              s ← clear_flag p PROC_FLAG_ON_CPU s; f s) = f s') /\ reflagged s s'.
Proof.
  intros Hp [x Hx].
  destruct (set_flag_ok s p PROC_FLAG_SLEEP_INTERRUPTIBLE Hp ltac:(by eexists) eq_refl) as (s1 & -> & Hr1).
  cbn [mbind outcome_bind]. destruct (reflagged_proc _ _ _ _ Hr1 Hx) as [g Hg].
  destruct (clear_flag_ok s1 p PROC_FLAG_ON_CPU Hp ltac:(by eexists) eq_refl) as (s2 & -> & Hr2).
  exists s2. split; [done|]. by eapply reflagged_trans.
Qed.

(** What sleep does before it calls schedule. *)
Lemma sleep_ready s cur q until : runnable s cur q ->
  exists s', (forall f : state -> outcome state, (s ← upd_proc cur (set_p_sleepTick until) s;
              s ← set_flag cur PROC_FLAG_SLEEP_INTERRUPTIBLE s;
              s ← clear_flag cur PROC_FLAG_ON_CPU s; f s) = f s') /\
    s' = set_k_procs (k_procs s') s /\ runnable s' cur q /\ tick_of s' cur = Some until /\
    (forall p, p <> cur -> tick_of s' p = tick_of s p).
Proof.
  intros Hru. destruct (live_proc _ _ _ Hru) as [Hc0 Hx].
  destruct (set_tick_ok s cur until Hc0 Hx) as (s1 & -> & E1 & Ht1 & Hsv1 & Hsp1 & Hl1 & Hot1). cbn [mbind outcome_bind].
  destruct (sleep_flags s1 cur Hc0) as (s2 & Hgo & Hr); [unfold tick_of, rest_of in Ht1; by destruct (k_procs s1 !! cur)|].
  pose proof (reflagged_threads _ _ Hr) as Ht.
  assert (E2 : s2 = set_k_procs (k_procs s2) s) by (rewrite (rf_rest _ _ Hr) at 1; by rewrite E1).
  exists s2. split; [exact (Hgo _)|]. split; [done|]. split; [|split; [by rewrite (tick_rest _ _ _ (st_rest _ _ Ht))|intros p Hp; rewrite (tick_rest _ _ _ (st_rest _ _ Ht)); by apply Hot1]].
  apply runnable_update with s; [done|done|..].
  - intros p. by rewrite (st_space _ _ Ht), Hsp1.
  - intros ps Hps. by apply (st_live _ _ Ht), Hl1.
Qed.

(** What wait_for_object_timeout does to the process, in its order. *)
Lemma timeout_ready s cur q until : runnable s cur q ->
  exists s', (forall f : state -> outcome state, (s ← set_flag cur PROC_FLAG_SLEEP_INTERRUPTIBLE s;
              s ← clear_flag cur PROC_FLAG_ON_CPU s;
              s ← upd_proc cur (set_p_sleepTick until) s; f s) = f s') /\
    s' = set_k_procs (k_procs s') s /\ runnable s' cur q /\ tick_of s' cur = Some until.
Proof.
  intros Hru. destruct (live_proc _ _ _ Hru) as [Hc0 Hx].
  destruct (sleep_flags s cur Hc0 Hx) as (s1 & Hgo & Hr). pose proof (reflagged_threads _ _ Hr) as Ht.
  destruct Hx as [x Hx]. destruct (reflagged_proc _ _ _ _ Hr Hx) as [g Hg].
  destruct (set_tick_ok s1 cur until Hc0 ltac:(by eexists)) as (s2 & Hs2 & E2 & Ht2 & Hsv2 & Hsp2 & Hl2 & _).
  assert (E : s2 = set_k_procs (k_procs s2) s) by (rewrite E2 at 1; by rewrite (rf_rest _ _ Hr)).
  exists s2. split; [intros f; rewrite Hgo, Hs2; done|]. split; [done|]. split; [|done].
  apply runnable_update with s; [done|done|..].
  - intros p. by rewrite Hsp2, (st_space _ _ Ht).
  - intros ps Hps. by apply Hl2, (st_live _ _ Ht).
Qed.

(** *** A sleeper among others *)

(** The sleeping threads of a list have a tick to wait for. *)
Definition waiting s (l : list Z) : Prop := forall p, p ∈ l -> p <> 0 /\ is_Some (tick_of s p).

(** What the other threads do to the sleepers between two ticks: they queue up
    behind, leave the ticks of those in the queue and give the lock back. *)
Record aside (cur : Z) s s' : Prop := {
  as_lock : k_sleep_lock s' = false;
  as_queue : exists new, k_sleeping_queue s' = k_sleeping_queue s ++ new /\ cur ∉ new /\ waiting s' new;
  as_tick : forall p, p ∈ k_sleeping_queue s -> tick_of s' p = tick_of s p
}.

(** What happens while [cur] sleeps: timer ticks, of which the counters are
    listed (the last one first), and what other threads do between them. *)
Inductive meanwhile (cur : Z) s : list Z -> state -> Prop :=
| mw_start : meanwhile cur s [] s
| mw_tick cs s1 c s2 : meanwhile cur s cs s1 -> wakeup_sleeping true (set_k_counter c s1) = Done s2 -> meanwhile cur s (c :: cs) s2
| mw_aside cs s1 s2 : meanwhile cur s cs s1 -> aside cur s1 s2 -> meanwhile cur s cs s2.

Lemma first_due s now l : waiting s l -> (forall p, p ∈ l -> not_due s now p) \/
  exists pre p suf, l = pre ++ p :: suf /\ (forall q, q ∈ pre -> not_due s now q) /\ due s now p.
Proof.
  induction l as [|x l IH]; intros Hw; [left; by intros p Hp%elem_of_nil|].
  destruct (Hw x ltac:(apply elem_of_cons; by left)) as [Hx [t Ht]]. destruct (decide (t <= now)).
  - right. exists [], x, l. split; [done|]. split; [by intros q Hq%elem_of_nil|]. split; [done|]. by exists t.
  - assert (not_due s now x) as Hnx by (split; [done|]; exists t; split; [done|lia]).
    destruct IH as [IH|(pre & p & suf & -> & Hpre & Hp)]; [intros p Hp; apply Hw, elem_of_cons; by right| |].
    + left. intros p [->|Hp]%elem_of_cons; [done|by apply IH].
    + right. exists (x :: pre), p, suf. split; [done|]. split; [|done]. intros q [->|Hq]%elem_of_cons; [done|by apply Hpre].
Qed.

Lemma due_not_due s now p : due s now p -> not_due s now p -> False.
Proof. intros (_ & t & Ht & Hle) (_ & t' & Ht' & Hlt). rewrite Ht in Ht'. injection Ht' as ->. lia. Qed.

(** One tick: nobody is due, or the first one that is leaves for the run queue. *)
Lemma tick_wakes s c : k_sleep_lock s = false -> waiting s (k_sleeping_queue s) ->
  exists s', wakeup_sleeping true (set_k_counter c s) = Done s' /\ k_sleep_lock s' = false /\ (forall p, tick_of s' p = tick_of s p) /\
    ((forall p, p ∈ k_sleeping_queue s -> not_due s c p) /\ k_sleeping_queue s' = k_sleeping_queue s /\ k_thread_queue s' = k_thread_queue s \/
     exists pre p suf, k_sleeping_queue s = pre ++ p :: suf /\ (forall q, q ∈ pre -> not_due s c q) /\ due s c p /\
       k_sleeping_queue s' = pre ++ suf /\ k_thread_queue s' = k_thread_queue s ++ [p]).
Proof.
  intros Hlk Hw. destruct (first_due s c _ Hw) as [Hn|(pre & p & suf & E & Hpre & Hp)].
  - exists (set_k_counter c s). split; [by apply wakeup_sleeping_none|]. split; [done|]. split; [done|]. by left.
  - destruct (wakeup_sleeping_due (set_k_counter c s) pre p suf Hlk E Hpre Hp) as [(s' & Hs' & Hq & Ht & Hl & Hth) _].
    exists s'. split; [done|]. split; [done|]. split; [intros q; by rewrite (tick_rest _ _ _ (st_rest _ _ Hth))|]. right. by exists pre, p, suf.
Qed.

(** Where [cur] stands after [n] ticks at or after its time, with at most [m]
    sleepers ahead of it at first. *)
Record sleeps (cur until : Z) (m n : nat) s : Prop := {
  sl_lock : k_sleep_lock s = false;
  sl_waiting : waiting s (k_sleeping_queue s);
  sl_place : (exists pre suf, k_sleeping_queue s = pre ++ cur :: suf /\ cur ∉ pre /\ cur ∉ suf /\ tick_of s cur = Some until /\ (length pre + n <= m)%nat) \/
             (cur ∉ k_sleeping_queue s /\ (0 < n)%nat)
}.

Definition hit (until c : Z) : nat := if decide (until <= c) then 1 else 0.

(** The first sleeper that is due, seen from [cur]'s place: before it, itself,
    or behind it, and then [cur] is not due. *)
Lemma place_split (pre suf pre' suf' : list Z) cur p : pre ++ cur :: suf = pre' ++ p :: suf' -> cur ∉ pre -> cur ∉ suf ->
  (exists mid, pre = pre' ++ p :: mid /\ suf' = mid ++ cur :: suf) \/ (p = cur /\ pre' = pre /\ suf' = suf) \/
  (exists mid, pre' = pre ++ cur :: mid /\ suf = mid ++ p :: suf').
Proof.
  revert pre'. induction pre as [|x pre IH]; intros [|y pre'] E Hp Hs; injection E as ->.
  - right; left. by subst.
  - right; right. exists pre'. by subst.
  - left. exists pre. by subst.
  - destruct (IH pre' ltac:(done)) as [(mid & -> & ->)|[(-> & -> & ->)|(mid & -> & ->)]]; [by intros Hin; apply Hp, elem_of_cons; right|done|..].
    + left. by exists mid.
    + right; left. done.
    + right; right. by exists mid.
Qed.

Lemma waiting_app s l1 l2 : waiting s (l1 ++ l2) <-> waiting s l1 /\ waiting s l2.
Proof. unfold waiting. setoid_rewrite elem_of_app. naive_solver. Qed.

Lemma waiting_ticks s s' l : (forall p, p ∈ l -> tick_of s' p = tick_of s p) -> waiting s l -> waiting s' l.
Proof. intros Ht Hw p Hp. rewrite Ht by done. by apply Hw. Qed.

Lemma sleeps_tick cur until m n s c s' : sleeps cur until m n s -> wakeup_sleeping true (set_k_counter c s) = Done s' ->
  sleeps cur until m (hit until c + n) s'.
Proof.
  intros [Hlk Hw Hpl] Hrun. destruct (tick_wakes s c Hlk Hw) as (s0 & Hrun' & Hlk' & Ht & Hcase). rewrite Hrun in Hrun'. injection Hrun' as <-.
  constructor; [done| |].
  { apply (waiting_ticks s); [done|]. destruct Hcase as [(_ & -> & _)|(pre & p & suf & E & _ & _ & -> & _)]; [done|].
    rewrite E in Hw. apply waiting_app in Hw as [H1 H2]. apply waiting_app. split; [done|]. intros q Hq. apply H2, elem_of_cons. by right. }
  destruct Hpl as [(pre & suf & E & Hp & Hs & Htk & Hle)|[Hno Hn]].
  - assert (Hlate : not_due s c cur -> hit until c = 0%nat).
    { intros (_ & t & Ht' & Hlt). rewrite Htk in Ht'. injection Ht' as <-. unfold hit. by rewrite decide_False by lia. }
    destruct Hcase as [(Hnd & -> & _)|(pre' & p & suf' & E' & Hpre & Hdue & -> & _)].
    + left. exists pre, suf. rewrite Hlate by (apply Hnd; rewrite E; apply elem_of_app; right; apply elem_of_cons; by left). by rewrite Ht.
    + rewrite E in E'. destruct (place_split _ _ _ _ _ _ E' Hp Hs) as [(mid & -> & ->)|[(-> & -> & ->)|(mid & -> & ->)]].
      * left. exists (pre' ++ mid), suf. rewrite <-(assoc_L (++)), Ht. split; [done|]. rewrite elem_of_app, elem_of_cons in Hp. rewrite elem_of_app.
        split; [tauto|]. split; [done|]. split; [done|]. rewrite length_app in *. cbn [length] in Hle. unfold hit. case_decide; lia.
      * right. rewrite elem_of_app. split; [tauto|]. destruct Hdue as (_ & t & Ht' & Hle'). rewrite Htk in Ht'. injection Ht' as <-.
        unfold hit. rewrite decide_True by done. lia.
      * left. exists pre, (mid ++ suf'). rewrite <-(assoc_L (++)), Ht, Hlate by (apply Hpre, elem_of_app; right; apply elem_of_cons; by left).
        rewrite elem_of_app, elem_of_cons in Hs. rewrite elem_of_app. split; [done|]. tauto.
  - right. split; [|lia]. destruct Hcase as [(_ & -> & _)|(pre' & p & suf' & E' & _ & _ & -> & _)]; [done|].
    rewrite E', elem_of_app, elem_of_cons in Hno. rewrite elem_of_app. tauto.
Qed.

Lemma sleeps_aside cur until m n s s' : sleeps cur until m n s -> aside cur s s' -> sleeps cur until m n s'.
Proof.
  intros [Hlk Hw Hpl] [Hlk' (new & E & Hnew & Hwn) Ht]. constructor; [done| |].
  - rewrite E. apply waiting_app. split; [by apply (waiting_ticks s)|done].
  - destruct Hpl as [(pre & suf & Eq & Hp & Hs & Htk & Hle)|[Hno Hn]].
    + left. exists pre, (suf ++ new). rewrite E, Eq, <-(assoc_L (++)). split; [done|]. rewrite elem_of_app.
      rewrite Ht by (rewrite Eq; apply elem_of_app; right; apply elem_of_cons; by left). tauto.
    + right. rewrite E, elem_of_app. tauto.
Qed.

Lemma sleeps_meanwhile cur until m s cs s' : sleeps cur until m 0 s -> meanwhile cur s cs s' ->
  sleeps cur until m (length (filter (fun c => until <= c) cs)) s'.
Proof.
  intros Hs Hm. induction Hm as [|cs s1 c s2 Hm IH Hrun|cs s1 s2 Hm IH Ha]; [done| |by eapply sleeps_aside].
  pose proof (sleeps_tick _ _ _ _ _ _ _ IH Hrun) as H. rewrite filter_cons. unfold hit in H. by case_decide.
Qed.

(** What one tick does to [cur]. *)
Lemma tick_place cur until m n s c : sleeps cur until m n s ->
  exists s', wakeup_sleeping true (set_k_counter c s) = Done s' /\
    forall pre suf, k_sleeping_queue s = pre ++ cur :: suf ->
      (until <= c -> (forall p, p ∈ pre -> not_due s c p) -> k_thread_queue s' = k_thread_queue s ++ [cur] /\ k_sleeping_queue s' = pre ++ suf) /\
      (c < until \/ (exists p, p ∈ pre /\ due s c p) -> cur ∈ k_sleeping_queue s' /\ (cur ∉ k_thread_queue s -> cur ∉ k_thread_queue s')).
Proof.
  intros [Hlk Hw Hpl]. destruct (tick_wakes s c Hlk Hw) as (s' & Hrun & _ & _ & Hcase). exists s'. split; [done|]. intros pre suf E.
  destruct Hpl as [(pre0 & suf0 & E0 & Hp & Hs & Htk & _)|[Hno _]]; [|exfalso; apply Hno; rewrite E; apply elem_of_app; right; apply elem_of_cons; by left].
  assert (pre = pre0 /\ suf = suf0) as [-> ->].
  { rewrite E in E0. destruct (place_split _ _ _ _ _ _ (eq_sym E0) Hp Hs) as [(mid & -> & _)|[(_ & -> & ->)|(mid & _ & ->)]]; [|done|].
    - exfalso. apply Hp, elem_of_app. right. apply elem_of_cons. by left.
    - exfalso. apply Hs, elem_of_app. right. apply elem_of_cons. by left. }
  assert (Hcp : 0 < 1 -> cur <> 0) by (intros _; apply Hw; rewrite E; apply elem_of_app; right; apply elem_of_cons; by left).
  assert (Hd : due s c cur <-> until <= c).
  { split; [intros (_ & t & Ht & Hle); rewrite Htk in Ht; by injection Ht as <-|intros Hle; split; [by apply Hcp|by exists until]]. }
  destruct Hcase as [(Hnd & Hq & Ht)|(pre' & p & suf' & E' & Hpre & Hdue & Hq & Ht)].
  - assert (Hin : not_due s c cur) by (apply Hnd; rewrite E; apply elem_of_app; right; apply elem_of_cons; by left). split.
    + intros Hle _. exfalso. apply Hd in Hle. by eapply due_not_due.
    + intros _. rewrite Hq, Ht, E. split; [apply elem_of_app; right; apply elem_of_cons; by left|done].
  - rewrite E in E'. destruct (place_split _ _ _ _ _ _ E' Hp Hs) as [(mid & -> & ->)|[(-> & -> & ->)|(mid & -> & ->)]]; split; rewrite Hq, Ht.
    + intros _ Hnd. exfalso. eapply due_not_due; [exact Hdue|]. apply Hnd, elem_of_app. right. apply elem_of_cons. by left.
    + intros _. split; [rewrite !elem_of_app, elem_of_cons; tauto|]. intros Hn [?|Hin%list_elem_of_singleton]%elem_of_app; [done|]. subst p.
      apply Hp, elem_of_app. right. apply elem_of_cons. by left.
    + intros _ _. done.
    + intros [Hlt|(p & Hin & Hpd)]; exfalso; [apply Hd in Hdue; lia|]. eapply due_not_due; [exact Hpd|by apply Hpre].
    + intros Hle _. exfalso. eapply due_not_due; [by apply Hd|]. apply Hpre, elem_of_app. right. apply elem_of_cons. by left.
    + intros _. split; [rewrite !elem_of_app, elem_of_cons; tauto|]. intros Hn [?|Hin%list_elem_of_singleton]%elem_of_app; [done|]. subst p.
      apply Hs, elem_of_app. right. apply elem_of_cons. by left.
Qed.

(** What sleep leaves behind. *)
Lemma sleep_queues ms s cur n q : runnable s cur (n :: q) -> k_sleep_lock s = false ->
  0 <= ms -> 0 <= k_counter s -> k_counter s + ms + 1 < 2 ^ 64 ->
  exists until s1, ms < 10 * (until - k_counter s) <= ms + 10 /\
    sleep true ms s = Done s1 /\ get_current_process s1 = n /\ k_thread_queue s1 = q /\ k_sleeping_queue s1 = k_sleeping_queue s ++ [cur] /\
    ctx_of s1 cur = Some (k_cpu s) /\ k_sleep_lock s1 = false /\ tick_of s1 cur = Some until /\ (forall p, p <> cur -> tick_of s1 p = tick_of s p).
Proof.
  intros Hru Hlk Hms Hcn Hbig. pose proof Hru as [Hc Hq Hi Hnd Hl Hsp].
  set (until := k_counter s + ms / 10 + 1). pose proof (Z.div_mod ms 10 ltac:(lia)). pose proof (Z.mod_pos_bound ms 10 ltac:(lia)).
  exists until. unfold sleep. rewrite Hc, Z.quot_div_nonneg, u64_small by lia. fold until.
  destruct (sleep_ready s cur (n :: q) until Hru) as (s1 & Hrun & E1 & Hru1 & Ht1 & Hot1).
  rewrite Hrun. unfold lock_sleep. assert (Hlk1 : k_sleep_lock s1 = false) by by rewrite E1. rewrite Hlk1.
  cbn [mbind outcome_bind spin_lock].
  set (s2 := unlock_sleep _). assert (Hru2 : runnable s2 cur (n :: q)) by by destruct Hru1.
  destruct (schedule_dispatch true s2 cur (n :: q) n q Hru2 eq_refl)
    as (s3 & -> & Hc3 & Hq3 & _ & Ho3 & Hctx3 & Hsp3 & Htk3 & Hl3 & _).
  pose proof (rest_of_kernel_queues _ _ Ho3) as (Hsl3 & Hlk3 & _).
  exists s3. split; [lia|]. split; [done|]. split; [done|]. split; [done|]. split; [rewrite Hsl3; simpl; by rewrite E1|]. split.
  { rewrite Hctx3. unfold ctx_of. rewrite decide_True by (by rewrite (ru_cur _ _ _ Hru2)). simpl. by rewrite E1. }
  split; [done|]. split; [rewrite <-Ht1; exact (tick_rest _ _ cur Htk3)|]. intros p Hp. rewrite <-(Hot1 p Hp). exact (tick_rest _ _ p Htk3).
Qed.

(** Schedule, and another thread that goes to sleep, are such steps. *)
Lemma schedule_aside (sl : bool) cur s c q n q' : runnable s c q -> (if sl then q else q ++ [c]) = n :: q' -> k_sleep_lock s = false ->
  exists s', schedule true sl s = Done s' /\ aside cur s s'.
Proof.
  intros Hru Hn Hlk. destruct (schedule_dispatch sl s c q n q' Hru Hn) as (s' & Hs' & _ & _ & _ & Ho & _ & _ & Htk & _).
  exists s'. split; [done|]. destruct (rest_of_kernel_queues _ _ Ho) as (Hq & Hl & _). constructor.
  - by rewrite Hl.
  - exists []. rewrite app_nil_r. split; [done|]. split; [apply not_elem_of_nil|by intros p Hp%elem_of_nil].
  - intros p _. by apply tick_rest.
Qed.

Lemma sleep_aside ms cur s c n q : runnable s c (n :: q) -> k_sleep_lock s = false -> c <> cur -> c ∉ k_sleeping_queue s ->
  0 <= ms -> 0 <= k_counter s -> k_counter s + ms + 1 < 2 ^ 64 -> exists s', sleep true ms s = Done s' /\ aside cur s s'.
Proof.
  intros Hru Hlk Hc Hno Hms Hcn Hbig. destruct (sleep_queues ms s c n q Hru Hlk Hms Hcn Hbig) as (until & s' & _ & Hs' & _ & _ & Hq & _ & Hl & Ht & Hot).
  exists s'. split; [done|]. constructor; [done|exists [c]; split; [done|]; split|].
  - intros Hin%list_elem_of_singleton. by apply Hc.
  - intros p Hp%list_elem_of_singleton. subst p. split; [by apply (live_proc _ _ _ Hru)|]. by exists until.
  - intros p Hp. apply Hot. by intros ->.
Qed.


(** Wakeup_now wakes nobody and blocks the sleeping queue for ever: its test
    fails for every process, and it returns with sleep_lock held, so the next
    sleep, timer tick or wakeup_now spins. *)
Theorem wakeup_now_blocks_sleepers kept s p x cur q ms :
  k_sleep_lock s = false -> p <> 0 -> k_procs s !! p = Some x -> 0 <= core (k_pcb s) -> runnable s cur q ->
  exists s', wakeup_now p s = Done (false, s') /\ k_thread_queue s' = k_thread_queue s /\
    k_sleeping_queue s' = k_sleeping_queue s /\
    wakeup_sleeping kept s' = Blocked /\ wakeup_now p s' = Blocked /\ sleep kept ms s' = Blocked.
Proof.
  intros Hlk Hp Hx Hcore Hru. unfold wakeup_now, lock_sleep. rewrite Hlk. cbn [mbind outcome_bind spin_lock].
  set (s' := set_k_sleep_lock true s). rewrite (proc_at_done s' p x Hp Hx). cbn [mbind outcome_bind].
  rewrite decide_True by (simpl; lia). exists s'. split; [done|]. split; [done|]. split; [done|]. split; [done|].
  split; [done|]. assert (Hru' : runnable s' cur q) by by destruct Hru. unfold sleep. rewrite (ru_cur _ _ _ Hru').
  match goal with |- context [set_p_sleepTick ?u] => destruct (sleep_ready s' cur q u Hru') as (s1 & Hrun & E1 & _) end.
  rewrite Hrun. unfold lock_sleep. by rewrite E1.
Qed.

(** A wait with a timeout stands in two queues and is taken out of one.  When
    the object is released before the deadline, the thread is runnable and still
    among the sleepers; the tick after the deadline puts it into the run queue a
    second time. *)
Theorem timeout_wait_queued_twice s m x cur n q timeout :
  runnable s cur (n :: q) -> k_sleep_lock s = false -> k_sleeping_queue s = [] ->
  m <> 0 -> k_mutexes s !! m = Some x -> m_lock x = false -> m_waiting x = [] -> 0 <= timeout < 2 ^ 64 ->
  exists s1 s2, wait_for_object_timeout true m timeout s = Done s1 /\ get_current_process s1 = n /\
    wakeup_waiting m s1 = Done s2 /\ k_thread_queue s2 = q ++ [cur] /\ k_sleeping_queue s2 = [cur] /\
    forall counter, timeout <= counter ->
      exists s3, wakeup_sleeping true (set_k_counter counter s2) = Done s3 /\ k_thread_queue s3 = q ++ [cur; cur].
Proof.
  intros Hru Hlk Hsl Hm Hx Hml Hmw Ht. unfold wait_for_object_timeout, lock_object, enqueue_waiting, unlock_object, mutex_at.
  rewrite (at_live _ _ x) by done. cbn [mbind outcome_bind]. unfold lock_mutex. rewrite Hml. cbn [mbind outcome_bind spin_lock].
  rewrite (at_live _ m (with_lock true x)) by (simpl; by rewrite ?lookup_insert_eq). cbn [mbind outcome_bind].
  set (s0 := put_mutex m _ (put_mutex m _ s)). assert (Hru0 : runnable s0 cur (n :: q)) by by destruct Hru.
  rewrite (u64_small timeout) by lia. change (get_current_process (put_mutex m _ s)) with (get_current_process s0).
  rewrite (ru_cur _ _ _ Hru0).
  destruct (timeout_ready s0 cur (n :: q) timeout Hru0) as (s1 & -> & E1 & Hru1 & Ht1).
  unfold lock_sleep. assert (Hlk1 : k_sleep_lock s1 = false) by by rewrite E1. rewrite Hlk1. cbn [mbind outcome_bind spin_lock].
  assert (Hm1 : k_mutexes s1 !! m = Some (with_waiting (m_waiting (with_lock true x) ++ [cur]) (with_lock true x))).
  { rewrite E1. simpl. rewrite lookup_insert_eq. do 4 f_equal. exact (ru_cur _ _ _ Hru). }
  erewrite (at_live _ m) by (exact Hm || exact Hm1). cbn [mbind outcome_bind]. set (s2 := put_mutex m _ _).
  assert (Hru2 : runnable s2 cur (n :: q)) by by destruct Hru1.
  destruct (schedule_dispatch true s2 cur (n :: q) n q Hru2 eq_refl)
    as (s3 & -> & Hc3 & Hq3 & _ & Ho3 & _ & Hsp3 & Htk3 & Hl3 & _).
  pose proof (rest_of_kernel_queues _ _ Ho3) as (Hsl3 & Hlk3 & Hmx3).
  assert (Hm3 : k_mutexes s3 !! m = Some (mk_mutex false (m_owner x) [cur])).
  { rewrite Hmx3. simpl. rewrite lookup_insert_eq. unfold unlock_mutex, with_lock, with_waiting. simpl. by rewrite Hmw. }
  assert (Hsl2 : k_sleeping_queue s2 = [cur]) by (simpl; by rewrite E1; simpl; rewrite Hsl).
  destruct (live_proc _ _ _ Hru) as [Hc0 _].
  destruct (Hl3 _ (ru_live _ _ _ Hru2) cur ltac:(apply elem_of_cons; by left)) as (_ & x3 & _ & Hx3 & _).
  destruct (schedule_process_reflags s3 cur Hc0 ltac:(by eexists)) as (s4 & Hs4 & Hr4).
  exists s3. eexists. split; [done|]. split; [done|]. unfold wakeup_waiting, mutex_at. rewrite (at_live _ _ _ Hm Hm3).
  cbn [mbind outcome_bind m_waiting wake_all]. rewrite decide_False by done. rewrite Hs4. cbn [mbind outcome_bind].
  split; [done|]. simpl. rewrite Hq3. split; [done|]. rewrite (rf_rest _ _ Hr4). simpl. rewrite Hsl3, Hsl2. split; [done|].
  intros counter Hle. set (s5 := set_k_counter counter _).
  destruct (wakeup_sleeping_due s5 [] cur []) as [(s6 & Hs6 & _ & Hq6 & _) _].
  - exact Hlk3.
  - change (k_sleeping_queue s3 = [cur]). by rewrite Hsl3.
  - intros p Hp. by apply elem_of_nil in Hp.
  - split; [done|]. exists timeout. split; [|done]. change (tick_of s5 cur) with (tick_of (set_k_procs (k_procs s4) s3) cur).
    rewrite <-(rf_rest _ _ Hr4), (tick_rest _ _ _ (st_rest _ _ (reflagged_threads _ _ Hr4))), (tick_rest _ _ _ Htk3). exact Ht1.
  - exists s6. split; [done|]. rewrite Hq6. simpl. by rewrite <-(assoc_L (++)).
Qed.

End Lemmas.

(** ** A machine with an idle process and three threads *)

Definition demo_thread (n : Z) : kernel_thread := mk_kt (4096 * n) 0 (100 + n) 0 0 0 0 0 0 0 0 0 (4096 * n) 0 n.
Definition demo_process (n : Z) : process :=
  mk_process n 0 0 0 n 1 PROC_FLAG_RUNNING 0 0 (20 + n) (demo_thread n) 0 0 None 0 false.
Definition demo_cpu : kstate unit unit :=
  mk_ks (list_to_map ((fun n => (n, demo_process n)) <$> [10; 11; 12; 13]))
    (list_to_map ((fun n => (20 + n, mk_mm (4096 * (20 + n)) 0 1 false)) <$> [10; 11; 12; 13])) ∅ ∅ ∅ ∅
    {[ 50 := mk_mutex false 13 [] ]} [10; 11; 12; 13] [12; 13] [] ∅ (mk_tree 0 0) false false false
    (mk_pcb 11 0 10 0) 14 100 (mk_context 1 2 3 4 5 6 7 8 9) (4096 * 31) 0
    (mk_vm (fun _ => 0) tt (4096 * 31) 0 0 false []) demo_vfs.

Lemma demo_runnable : runnable demo_cpu 11 [12; 13].
Proof.
  split; [reflexivity|reflexivity|by apply (bool_decide_unpack _)|by apply (bool_decide_unpack _)| |reflexivity].
  intros p Hp. repeat (apply elem_of_cons in Hp as [->|Hp]; [split; [done|eexists _, _; split; [reflexivity|split; [done|reflexivity]]]|]).
  by apply elem_of_nil in Hp.
Qed.

Example schedule_round_robin_witness : let run (p : Z) c := mk_context (x_rsp c - p) 0 0 0 0 0 0 0 0 in
  exists s', ticks run 3 demo_cpu = Done s' /\ runnable s' 11 [12; 13] /\
    (forall p, p ∈ [11; 12; 13] -> ctx_of s' p = run p <$> ctx_of demo_cpu p).
Proof.
  exact (proj2 (schedule_round_robin (fun p c => mk_context (x_rsp c - p) 0 0 0 0 0 0 0 0) demo_cpu 11 [12; 13] demo_runnable)).
Defined.

(** Thread 13 sleeps already and is due; then 11 goes to sleep. *)
Definition demo_one_sleeper : kstate unit unit := set_k_thread_queue [12] (set_k_sleeping_queue [13] (put_proc 13 (set_p_sleepTick 100 (demo_process 13)) demo_cpu)).

Lemma demo_one_runnable : runnable demo_one_sleeper 11 [12].
Proof.
  split; [reflexivity|reflexivity|by apply (bool_decide_unpack _)|by apply (bool_decide_unpack _)| |reflexivity].
  intros p Hp. repeat (apply elem_of_cons in Hp as [->|Hp]; [split; [done|eexists _, _; split; [reflexivity|split; [done|reflexivity]]]|]).
  by apply elem_of_nil in Hp.
Qed.


Example timeout_wait_queued_twice_witness :
  exists s1 s2, wait_for_object_timeout true 50 107 demo_cpu = Done s1 /\ get_current_process s1 = 12 /\
    wakeup_waiting 50 s1 = Done s2 /\ k_thread_queue s2 = [13; 11] /\ k_sleeping_queue s2 = [11] /\
    forall counter, 107 <= counter ->
      exists s3, wakeup_sleeping true (set_k_counter counter s2) = Done s3 /\ k_thread_queue s3 = [13; 11; 11].
Proof.
  exact (timeout_wait_queued_twice demo_cpu 50 (mk_mutex false 13 []) 11 12 [13] 107 demo_runnable
    eq_refl eq_refl ltac:(lia) eq_refl eq_refl eq_refl ltac:(lia)).
Defined.

(** Three sleepers, of whom the first is not due. *)
Definition demo_sleepers : kstate unit unit :=
  set_k_sleeping_queue [11; 12; 13] (put_proc 11 (set_p_sleepTick 101 (demo_process 11)) demo_cpu).

Example wakeup_sleeping_first_due_witness :
  (exists s', wakeup_sleeping true demo_sleepers = Done s' /\ k_sleeping_queue s' = [11; 13] /\
     k_thread_queue s' = [12; 13; 12] /\ k_sleep_lock s' = false /\ same_threads demo_sleepers s') /\
  wakeup_sleeping false demo_sleepers = Fault.
Proof.
  apply (wakeup_sleeping_first_due demo_sleepers [11] [12; 13]); [reflexivity|reflexivity| |].
  - intros p Hp. apply list_elem_of_singleton in Hp as ->. split; [lia|]. exists 101. split; [reflexivity|simpl; lia].
  - split; [lia|]. exists 0. split; [reflexivity|simpl; lia].
Defined.

Example wakeup_now_blocks_sleepers_witness :
  exists s', wakeup_now 12 demo_cpu = Done (false, s') /\ k_thread_queue s' = k_thread_queue demo_cpu /\
    k_sleeping_queue s' = k_sleeping_queue demo_cpu /\
    wakeup_sleeping true s' = Blocked /\ wakeup_now 12 s' = Blocked /\ sleep true 5 s' = Blocked.
Proof.
  exact (wakeup_now_blocks_sleepers true demo_cpu 12 (demo_process 12) 11 [12; 13] 5 eq_refl ltac:(lia) eq_refl
    ltac:(simpl; lia) demo_runnable).
Defined.
