(* ===== verification/Process.v ===== *)
(** Processes: creation, fork and clone, descriptors, exit and reaping, the
    process tree and the working directory (kernel/proc/process.c).

    The memory manager's calls are those of Paging, the process tree is a node
    table of KTree and open is that of Vfs.  A call of panic stops the machine:
    its result is [Panic].  process_create_task and execve need the loader and
    are in Exec, except for the tests with which execve begins. *)
From stdpp Require Import base list gmap fin_maps.
From Stdlib Require Import ZArith Lia.
From S2P Require Import Prelude Frames Paging CloneSpace KTree Vfs Mutex Signals Procs Scheduler.

#[local] Open Scope Z_scope.

Definition CLONE_VM : Z := 0x100.
Definition CLONE_FILES : Z := 0x400.
Definition CLONE_THREAD : Z := 0x10000.
Definition CLONE_SETTLS : Z := 0x80000.

Record clone_args := mk_clone { ca_flags : Z; ca_parent_tid : Z; ca_tls : Z }.

(** list_remove_by_index, on the sequence (KList.list_remove_by_index_spec):
    index 1 of a list of one entry faults, indices 0 and 1 are the same entry. *)
Definition seq_remove_by_index (k : Z) (l : list Z) : outcome (list Z) :=
  match l with
  | [] => Done []
  | _ =>
      if decide (k = 1 /\ length l = 1%nat) then Fault
      else Done (if decide (k = 0) then tail l
                 else if decide (k <= Z.of_nat (length l)) then base.delete (Z.to_nat (k - 1)) l else l)
  end.

(** How a call ends that may find init at its end. *)
Inductive ended (S : Type) := Panic | Ended (s : S).
Arguments Panic {S}.
Arguments Ended {S} s.

Section Process.
Context {F D : Type} `{FrameAllocator F} `{Calloc} `{CloseOp D} `{NodeAlloc}.
(** [kept]: as in Scheduler, and for the entry tree_remove has freed.  [fuel]:
    of the searches in the process tree.  The two code addresses of
    context_switch.S and process.c. *)
Context (kept : bool) (fuel : nat) (fork_exit idle_entry : Z).
Abbreviation state := (kstate F D).

(** ** Descriptors *)

Definition fdt_at (s : state) (t : Z) : outcome fd_table_t := at_ (k_fdts s) t.
Definition put_fdt (t : Z) (x : fd_table_t) (s : state) : state := set_k_fdts (<[t := x]> (k_fdts s)) s.

(** The first NULL entry below the capacity, 0 when there is none. *)
Definition free_slot (t : fd_table_t) : outcome Z :=
  r ← for_ (Z.to_nat (ft_capacity t)) 0 (fun i (_ : unit) =>
    h ← aget (ft_handles t) i; if decide (h = 0) then Done (inr i) else Done (inl tt)) tt;
  match r with inr i => Done i | inl _ => Done 0 end.

Definition process_open_fd (node mode : Z) (s : state) : outcome (Z * state) :=
  x ← proc_at s (get_current_process s);
  t ← fdt_at s (p_fd_table x);
  if decide (ft_capacity t <= ft_length t) then Done (-1, s)
  else
    l ← spin_lock (ft_lock t);
    index ← free_slot t;
    let handle := new_key (k_handles s) in
    hs ← aset (ft_handles t) index handle;
    let t := mk_fdt (ft_capacity t) (s32 (ft_length t + 1)) hs (ft_count t) (spin_unlock l) in
    Done (index, put_fdt (p_fd_table x) t
                   (set_k_handles (<[handle := mk_kh sizeof_handle (mk_fh node mode 0)]> (k_handles s)) s)).

Definition process_close_fd (fd : Z) (s : state) : outcome state :=
  x ← proc_at s (get_current_process s);
  t ← fdt_at s (p_fd_table x);
  l ← spin_lock (ft_lock t);
  handle ← aget (ft_handles t) fd;
  h ← at_ (k_handles s) handle;
  v ← close_op (h_node (kh h)) (k_vfs s);
  hs ← aset (ft_handles t) fd 0;
  let t := mk_fdt (ft_capacity t) (s32 (ft_length t - 1)) hs (ft_count t) (spin_unlock l) in
  Done (put_fdt (p_fd_table x) t (set_k_handles (base.delete handle (k_handles s)) (set_k_vfs v s))).

(** ** Creation *)

Definition process_init (s : state) : state :=
  mk_ks (k_procs s) (k_mms s) (k_fdts s) (k_handles s) (k_regs_at s) (k_kmem s) (k_mutexes s)
    [] [] [] (k_pnodes s) tree_create false false false (k_pcb s) (k_next_pid s) (k_counter s) (k_cpu s) (k_cr3 s)
    (k_tss_rsp0 s) (k_vmem s) (k_vfs s).

Definition new_mm (pd : Z) (s : state) : Z * state :=
  let m := new_key (k_mms s) in (m, set_k_mms (<[m := mk_mm pd 0 1 false]> (k_mms s)) s).

(** An empty table: [calloc], and a malloc'ed array cleared by memset. *)
Definition new_fdt (capacity length : Z) (s : state) : Z * state :=
  let t := new_key (k_fdts s) in
  (t, put_fdt t (mk_fdt capacity length (replicate (Z.to_nat capacity) 0) 0 false) s).

(** The idle thread: its stack pointer is the lowest address of its stack. *)
Definition process_create_idle (s : state) : outcome state :=
  let p := new_key (k_procs s) in
  let '(m, s) := new_mm (memmgr_get_current_pml4 (k_vmem s)) s in
  let s := set_idle p s in
  '(stack, s) ← with_vm_result (memmgr_create_stack false 4096) s;
  let '(t, s) := new_fdt 8 0 s in
  let th := mk_kt stack 0 idle_entry 0 0 0 0 0 0 0 0 0 stack 0 p in
  Done (put_proc p (mk_process 0 0 0 0 0 0 (Z.lor PROC_FLAG_KERNEL PROC_FLAG_RUNNING) 0 0 m th 0 t None 0 false) s).

(** [new->handles[i] = copy of parent->handles[i]]: the copy is allocated with
    the size of a pointer, and then written as a file handle. *)
Definition copy_handle (h : Z) (s : state) : outcome (Z * state) :=
  parentHandle ← at_ (k_handles s) h;
  let handle := new_key (k_handles s) in
  _ ← in_object sizeof_pointer 0 8;
  _ ← in_object sizeof_pointer 16 8;
  _ ← in_object sizeof_pointer 8 4;
  Done (handle, set_k_handles (<[handle := mk_kh sizeof_pointer (kh parentHandle)]> (k_handles s)) s).

Definition copy_handles (parent : fd_table_t) (hs : list Z) (s : state) : outcome (list Z * state) :=
  r ← for_ (Z.to_nat (ft_capacity parent)) 0 (fun i '(hs, s) =>
    h ← aget (ft_handles parent) i;
    if decide (h = 0) then Done (inl (hs, s))
    else
      '(n, s) ← copy_handle h s;
      hs ← aset hs i n;
      Done (inl (hs, s) : (list Z * state) + unit)) (hs, s);
  match r with inl r => Done r | inr _ => Fault end.

Definition copy_fd_table (parent : fd_table_t) (s : state) : outcome (Z * state) :=
  let '(t, s) := new_fdt (ft_capacity parent) (ft_length parent) s in
  '(hs, s) ← copy_handles parent (replicate (Z.to_nat (ft_capacity parent)) 0) s;
  Done (t, put_fdt t (mk_fdt (ft_capacity parent) (ft_length parent) hs 0 false) s).

(** A new address space, cloned from the current one. *)
Definition clone_space (s : state) : outcome (Z * state) :=
  '(frame, s) ← with_vm_result alloc_frame s;
  let '(m, s) := new_mm frame s in
  s ← with_vm (fun v => memmgr_clone_page_map (memmgr_get_current_pml4 v) (memmgr_get_from_physical frame) v) s;
  Done (m, s).

Definition insert_in_tree (node value : Z) (s : state) : outcome state :=
  '(_, ns, t) ← tree_insert_child fuel (k_pnodes s) (k_process_tree s) node value;
  Done (set_k_process_tree t (set_k_pnodes ns s)).

Definition find_in_tree (value : Z) (s : state) : outcome Z :=
  tree_find_child_root fuel (k_pnodes s) (k_process_tree s) value.

(** PUSH_PTR of a register frame. *)
Definition push_regs (sp : Z) (r : regs_t) (s : state) : outcome (Z * state) :=
  '(a, mem) ← PUSH_PTR sizeof_regs (KRegs r) (sp, k_kmem s); Done (a, set_k_kmem mem s).

Definition with_rax (v : Z) (r : regs_t) : regs_t :=
  mk_regs (r15 r) (r14 r) (r13 r) (r12 r) (r11 r) (r10 r) (r9 r) (r8 r) (rbp r) (rdi r) (rsi r) (rdx r) (rcx r) (rbx r) v
    (int_no r) (err_code r) (rip r) (cs r) (rflags r) (rsp r) (ss r).

(** [local] is the address of the variable [registers] of process_fork, which
    the child keeps as its saved_registers. *)
Definition process_fork (local : Z) (s : state) : outcome (Z * state) :=
  let parent := get_current_process s in
  let p := new_key (k_procs s) in
  x ← proc_at s parent;
  let pid := s32 (k_next_pid s + 1) in
  let s := set_k_next_pid pid s in
  '(m, s) ← clone_space s;
  '(stack, s) ← with_vm_result (memmgr_create_stack false 16384) s;
  let kstack := u64 (stack + 16384) in
  regs ← at_ (k_regs_at s) (p_saved_registers x);
  '(sp, s) ← push_regs kstack (with_rax 0 regs) s;
  let pth := p_main_thread x in
  let sv := setjmp (k_cpu s) zero_thread in
  let th := mk_kt sp sp fork_exit (kt_tls_base sv) (kt_rbx sv) (kt_rdi sv) (kt_r12 sv) (kt_r13 sv) (kt_r14 sv) (kt_r15 sv)
              0 (kt_priority pth) kstack (kt_user_stack pth) p in
  let flags := Z.ldiff (Z.ldiff (p_flags x) PROC_FLAG_RUNNING) PROC_FLAG_ON_CPU in
  pt ← fdt_at s (p_fd_table x);
  '(t, s) ← copy_fd_table pt s;
  let child := mk_process pid (p_uid x) (p_gid x) 0 pid (p_id x) flags 0 0 m th local t None 0 false in
  let s := put_proc p child s in
  let s := set_k_thread_queue (k_thread_queue s ++ [p]) (set_k_process_list (k_process_list s ++ [p]) s) in
  node ← find_in_tree parent s;
  s ← insert_in_tree (if decide (node = 0) then t_head (k_process_tree s) else node) p s;
  Done (pid, s).

(** [flags &= ~PROC_FLAG_RUNNING], where the macro is [1<<1] without
    parentheses: the mask is [(~1) << 1], and [(~1) << 2] for ON_CPU. *)
Definition clone_flags (f : Z) : Z := Z.land (Z.land f (Z.shiftl (Z.lnot 1) 1)) (Z.shiftl (Z.lnot 1) 2).

(** The registers are copied from the new process, which has none yet. *)
Definition process_clone (args : clone_args) (local : Z) (s : state) : outcome (Z * state) :=
  let parent := get_current_process s in
  let p := new_key (k_procs s) in
  x ← proc_at s parent;
  let pid := s32 (k_next_pid s + 1) in
  let s := set_k_next_pid pid s in
  let tgid := if decide (Z.land (ca_flags args) CLONE_THREAD = 0) then 0 else p_tgid x in
  '(m, s) ← (if decide (Z.land (ca_flags args) CLONE_VM = 0) then clone_space s
             else
               mm ← at_ (k_mms s) (p_page_directory x);
               l ← spin_lock (mm_lock mm);
               let mm := mk_mm (mm_page_directory mm) (mm_heap mm) (mm_count mm + 1) (spin_unlock l) in
               Done (p_page_directory x, set_k_mms (<[p_page_directory x := mm]> (k_mms s)) s));
  let new := zero_process in
  regs ← at_ (k_regs_at s) (p_saved_registers new);
  let stack := new_key (k_kmem s) in
  '(sp, s) ← push_regs (u64 (stack + 16384)) (with_rax 0 regs) s;
  pt ← fdt_at s (p_fd_table x);
  '(t, s) ← (if decide (Z.land (ca_flags args) CLONE_FILES = 0) then copy_fd_table pt s
             else
               l ← spin_lock (ft_lock pt);
               Done (p_fd_table x, put_fdt (p_fd_table x)
                 (mk_fdt (ft_capacity pt) (ft_length pt) (ft_handles pt) (ft_count pt + 1) (spin_unlock l)) s));
  let pth := p_main_thread x in
  let sv := setjmp (k_cpu s) zero_thread in
  let tls := if decide (Z.land (ca_flags args) CLONE_SETTLS = 0) then kt_tls_base sv else ca_tls args in
  let th := mk_kt (kt_user_stack pth) (kt_rbp sv) fork_exit tls (kt_rbx sv) (kt_rdi sv) (kt_r12 sv) (kt_r13 sv)
              (kt_r14 sv) (kt_r15 sv) 0 (kt_priority pth) sp (kt_user_stack pth) p in
  let s := if decide (ca_parent_tid args = 0) then s else set_k_kmem (<[ca_parent_tid args := KWord pid]> (k_kmem s)) s in
  let s := put_proc p (mk_process pid (p_uid x) (p_gid x) 0 tgid (p_id x) (clone_flags (p_flags x)) 0 0 m th 0 t None 0 false) s in
  let s := set_k_process_list (k_process_list s ++ [p]) s in
  s ← insert_in_tree 0 p s;
  Done (pid, set_k_thread_queue (k_thread_queue s ++ [p]) s).

(** The tests with which execve begins: the error it returns, or [None] when it
    goes on to open the file. *)
Definition execve_refuses (EINVAL : Z) (s : state) : outcome (option Z) :=
  if decide (get_current_process s = 0) then Done (Some (- EINVAL))
  else
    x ← proc_at s (get_current_process s);
    if decide (p_tgid x <> 0) then Done (Some (-2)) else Done None.

(** ** Exit *)

(** The loop that frees the open handles: [length] of them are left, [i] is the
    slot it looks at. *)
Definition exit_step (capacity : Z) (st : Z * Z * list Z * gmap Z khandle)
    : outcome (Z * Z * list Z * gmap Z khandle + list Z * gmap Z khandle) :=
  let '(length, i, hs, kh) := st in
  if decide (length <= 0) then Done (inr (hs, kh))
  else
    h ← aget hs i;
    if decide (h = 0) then Done (inl (length, i + 1, hs, kh))
    else
      _ ← at_ kh h;
      hs ← aset hs i 0;
      let kh := base.delete h kh in
      if decide (capacity < i + 1) then Done (inr (hs, kh)) else Done (inl (length - 1, i + 1, hs, kh)).

(** The table is freed when it has open descriptors, and only then. *)
Definition free_descriptors (n : nat) (p : Z) (s : state) : outcome state :=
  x ← proc_at s p;
  t ← fdt_at s (p_fd_table x);
  if decide (0 < ft_length t) then
    _ ← spin_lock (ft_lock t);
    '(_, kh) ← loop n (exit_step (ft_capacity t)) (ft_length t, 0, ft_handles t, k_handles s);
    upd_proc p (set_p_fd_table 0) (set_k_fdts (base.delete (p_fd_table x) (k_fdts s)) (set_k_handles kh s))
  else Done s.

Definition finish (p retval : Z) (s : state) : outcome state :=
  upd_proc p (fun x => set_p_flags PROC_FLAG_FINISHED (set_p_status retval x)) s.

Definition process_terminate (n : nat) (p retval : Z) (s : state) : outcome (ended state) :=
  x ← proc_at s p;
  if decide (p_id x = 1) then Done Panic
  else
    s ← upd_proc p (set_p_status retval) s;
    s ← free_descriptors n p s;
    s ← upd_proc p (set_p_flags PROC_FLAG_FINISHED) s;
    Done (Ended s).

(** [for(entry = parent->children->head; ...)]: the values of the list are tree
    nodes, which the code takes for processes; offset 16, the tgid of a process,
    is the parent pointer of a node. *)
Fixpoint kill_threads (n : nat) (p retval : Z) (cs : list Z) (s : state) : outcome (ended state) :=
  match cs with
  | [] => Done (Ended s)
  | c :: cs =>
      node ← node_at (k_pnodes s) c;
      x ← proc_at s p;
      if decide (s32 (t_parent node) = p_id x /\ Z.land (p_flags x) PROC_FLAG_FINISHED = 0) then
        r ← process_terminate n c retval s;
        match r with
        | Panic => Done Panic
        | Ended s => kill_threads n p retval cs s
        end
      else kill_threads n p retval cs s
  end.

Definition process_exit (n : nat) (retval : Z) (s : state) : outcome (ended state) :=
  let p := get_current_process s in
  x ← proc_at s p;
  if decide (p_id x = 1) then Done Panic
  else
    s ← upd_proc p (set_p_status retval) s;
    s ← free_descriptors n p s;
    s ← upd_proc p (set_p_cwd None) s;
    s ← upd_proc p (set_p_flags PROC_FLAG_FINISHED) s;
    r ← (if decide (1 < Z.of_nat (length (k_process_list s))) then
           node ← find_in_tree p s;
           nd ← node_at (k_pnodes s) node;
           kill_threads n p retval (t_children nd) s
         else Done (Ended s));
    match r with
    | Panic => Done Panic
    | Ended s => s ← schedule kept true s; Done (Ended s)
    end.

Definition process_thread_exit (retval : Z) (s : state) : outcome (ended state) :=
  let p := get_current_process s in
  x ← proc_at s p;
  if decide (p_id x = 1) then Done Panic
  else
    s ← finish p retval s;
    s ← with_vm (fun v => each_page 5 0 (fun i v =>
      memmgr_delete_page (u64 (kt_kernel_stack (p_main_thread x) - 0x5000 + 0x1000 * i)) v) v) s;
    s ← schedule kept true s;
    Done (Ended s).

(** [while(listEntry) { listEntry = listEntry->prev; i++; }] from the first entry
    of the process: its place, counted from 1. *)
Fixpoint list_place (p : Z) (l : list Z) (i : Z) : option Z :=
  match l with
  | [] => None
  | q :: l => if decide (q = p) then Some i else list_place p l (i + 1)
  end.

Definition remove_from_tree (p : Z) (s : state) : outcome state :=
  node ← find_in_tree p s;
  if decide (node = 0) then Done s
  else
    '(ns, t) ← tree_remove kept fuel (k_pnodes s) (k_process_tree s) node;
    Done (set_k_process_tree t (set_k_pnodes ns s)).

Definition remove_from_list (p : Z) (s : state) : outcome state :=
  match list_place p (k_process_list s) 1 with
  | None => Done s
  | Some i => l ← seq_remove_by_index i (k_process_list s); Done (set_k_process_list l s)
  end.

(** The address space is freed with its lock held. *)
Definition drop_space (m : Z) (s : state) : outcome state :=
  mm ← at_ (k_mms s) m;
  let count := mm_count mm - 1 in
  let s := set_k_mms (<[m := mk_mm (mm_page_directory mm) (mm_heap mm) count (mm_lock mm)]> (k_mms s)) s in
  if decide (count <= 0) then
    _ ← spin_lock (mm_lock mm);
    s ← with_vm (memmgr_clear_page_map (mm_page_directory mm)) s;
    Done (set_k_mms (base.delete m (k_mms s)) s)
  else Done s.

Definition process_reap (p : Z) (s : state) : outcome state :=
  x ← proc_at s p;
  if decide (Z.land (p_flags x) PROC_FLAG_FINISHED = 0) then Done s
  else
    s ← remove_from_tree p s;
    s ← remove_from_list p s;
    s ← drop_space (p_page_directory x) s;
    Done (set_k_procs (base.delete p (k_procs s)) s).

(** ** Looking processes up *)

Fixpoint process_get_children_recur (n : nat) (ns : nodes) (node : Z) (out : list Z) : outcome (list Z) :=
  match n with
  | O => OutOfFuel
  | S n =>
      nd ← node_at ns node;
      each_child (fun c out => cn ← node_at ns c; process_get_children_recur n ns c (out ++ [t_value cn])) (t_children nd) out
  end.

Definition process_get_all_children (p : Z) (s : state) : outcome (option (list Z)) :=
  node ← find_in_tree p s;
  if decide (node = 0) then Done None
  else l ← process_get_children_recur fuel (k_pnodes s) node []; Done (Some l).

Fixpoint find_pid (ps : list Z) (pid : Z) (s : state) : outcome Z :=
  match ps with
  | [] => Done 0
  | p :: ps => x ← proc_at s p; if decide (p_id x = pid) then Done p else find_pid ps pid s
  end.
Definition get_process_by_id (pid : Z) (s : state) : outcome Z := find_pid (k_process_list s) pid s.

Definition acquire_process_tree_lock (s : state) : outcome (tree_t * state) :=
  l ← spin_lock (k_process_lock s); Done (k_process_tree s, set_k_process_lock l s).
Definition release_process_tree_lock (s : state) : state :=
  set_k_process_lock (spin_unlock (k_process_lock s)) s.

End Process.

(** ** The working directory

    open resolves relative to get_cwd_name, which opens the working directory
    when the process has no node for it yet. *)
Section Cwd.
Context {F D : Type} `{Drivers D} `{NodeAlloc}.
Context (fuel : nat).
Abbreviation state := (kstate F D).

Definition open_in (cwd_name path : list Z) (mode : Z) (s : state) : outcome (Z * state) :=
  let v := k_vfs s in
  '(f, v) ← Vfs.open fuel path mode
      (mk_vfs (tnodes v) (file_tree v) (files v) (root_node v) (id_generator v) cwd_name (drv v));
  Done (f, set_k_vfs v s).

(** [if(cwd == NULL) cwd = "/"] *)
Definition default_cwd (p : Z) (s : state) : outcome (list Z * state) :=
  x ← proc_at s p;
  match p_cwd x with
  | Some path => Done (path, s)
  | None => Done ([47], put_proc p (set_p_cwd (Some [47]) x) s)
  end.

(** open of a path other than the root begins with get_cwd_name. *)
Fixpoint get_cwd_name (n : nat) (s : state) : outcome (list Z * state) :=
  match n with
  | O => OutOfFuel
  | S n =>
      let cur := get_current_process s in
      if decide (cur = 0) then Done ([47], s)
      else
        '(path, s) ← default_cwd cur s;
        x ← proc_at s cur;
        if decide (p_cwd_file x <> 0) then Done (path, s)
        else
          '(name, s) ← (if decide (path = [47]) then Done ([47], s) else get_cwd_name n s);
          '(f, s) ← open_in name path 0 s;
          if decide (f = 0) then Done ([47], s)
          else s ← upd_proc cur (set_p_cwd_file f) s; Done (path, s)
  end.

(** [open(path, mode)] as the kernel calls it. *)
Definition open_file (n : nat) (path : list Z) (mode : Z) (s : state) : outcome (Z * state) :=
  if decide (path = [47]) then open_in [47] path mode s
  else '(name, s) ← get_cwd_name n s; open_in name path mode s.

Definition get_cwd (n : nat) (s : state) : outcome (Z * state) :=
  let cur := get_current_process s in
  if decide (cur = 0) then Done (0, s)
  else
    '(path, s) ← default_cwd cur s;
    x ← proc_at s cur;
    if decide (p_cwd_file x <> 0) then Done (p_cwd_file x, s)
    else
      '(f, s) ← open_file n path 0 s;
      if decide (f = 0) then open_file n [47] 0 s
      else s ← upd_proc cur (set_p_cwd_file f) s; Done (f, s).

Lemma default_cwd_ok s x : get_current_process s <> 0 -> k_procs s !! get_current_process s = Some x ->
  exists s', default_cwd (get_current_process s) s = Done (default [47] (p_cwd x), s') /\
    get_current_process s' = get_current_process s /\ k_vfs s' = k_vfs s /\
    k_procs s' !! get_current_process s = Some (set_p_cwd (Some (default [47] (p_cwd x))) x).
Proof.
  intros Hc Hx. unfold default_cwd. rewrite (proc_at_done s _ x) by done. cbn [mbind outcome_bind].
  destruct (p_cwd x) as [path|] eqn:E.
  - exists s. split; [done|]. split; [done|]. split; [done|]. simpl. rewrite Hx, <-E. by destruct x.
  - eexists. split; [done|]. split; [done|]. split; [done|]. simpl. apply lookup_insert_eq.
Qed.

Lemma open_root name s : open_in name [47] 0 s = Done (root_node (k_vfs s), set_k_vfs
  (mk_vfs (tnodes (k_vfs s)) (file_tree (k_vfs s)) (files (k_vfs s)) (root_node (k_vfs s)) (id_generator (k_vfs s)) name (drv (k_vfs s))) s).
Proof. done. Qed.

(** Get_cwd_name and open call each other.  The recursion ends at the first
    call when the process has a node for its directory or its directory is the
    root, and never otherwise: opening any other directory asks for its name
    again. *)
Theorem get_cwd_name_terminates s x n : get_current_process s <> 0 -> k_procs s !! get_current_process s = Some x ->
  let path := default [47] (p_cwd x) in
  if decide (p_cwd_file x <> 0 \/ path = [47]) then exists s', get_cwd_name (S n) s = Done (path, s')
  else get_cwd_name n s = OutOfFuel.
Proof.
  intros Hc Hx path. destruct (decide _) as [Hgo|Hstop].
  - cbn [get_cwd_name]. rewrite decide_False by done.
    destruct (default_cwd_ok s x Hc Hx) as (s1 & -> & Hc1 & Hv1 & Hx1). cbn [mbind outcome_bind].
    rewrite (proc_at_done s1 _ _ Hc Hx1). cbn [mbind outcome_bind]. change (p_cwd_file (set_p_cwd _ x)) with (p_cwd_file x).
    fold path. destruct (decide (p_cwd_file x <> 0)) as [|Hf]; [by eexists|].
    destruct Hgo as [?|Hp]; [done|]. rewrite Hp, (decide_True (P := [47] = [47])) by done. cbn [mbind outcome_bind].
    rewrite open_root. cbn [mbind outcome_bind]. destruct (decide (root_node (k_vfs s1) = 0)); [by eexists|].
    erewrite upd_proc_done by (done || exact Hx1). by eexists.
  - revert s x path Hc Hx Hstop. induction n as [|n IH]; intros s x path Hc Hx Hstop; [done|].
    cbn [get_cwd_name]. rewrite decide_False by done.
    destruct (default_cwd_ok s x Hc Hx) as (s1 & -> & Hc1 & _ & Hx1). cbn [mbind outcome_bind].
    rewrite (proc_at_done s1 _ _ Hc Hx1). cbn [mbind outcome_bind]. change (p_cwd_file (set_p_cwd _ x)) with (p_cwd_file x).
    fold path. rewrite (decide_False (P := p_cwd_file x <> 0)), (decide_False (P := path = [47])) by tauto.
    rewrite <-Hc1 in Hx1. rewrite (IH s1 _ ltac:(by rewrite Hc1) Hx1); [done|exact Hstop].
Qed.

End Cwd.

(** ** Descriptor tables *)

Section Descriptors.
Context {F D : Type} {CA : Calloc} {CO : CloseOp D}.
Abbreviation state := (kstate F D).
Implicit Types s : state.

(** The slots in use. *)
Definition used (hs : list Z) : list Z := filter (fun h => h <> 0) hs.

(** The table of a process: the length counts the slots in use, and every one
    of them holds a handle of its own. *)
Record table_ok s (t : fd_table_t) : Prop := {
  tb_capacity : ft_capacity t = Z.of_nat (length (ft_handles t));
  tb_small : ft_capacity t < 2 ^ 31;
  tb_length : ft_length t = Z.of_nat (length (used (ft_handles t)));
  tb_live : forall h, h ∈ used (ft_handles t) -> exists x, k_handles s !! h = Some x /\ kh_bytes x = sizeof_handle;
  tb_nodup : NoDup (used (ft_handles t))
}.

(** The current process [x] has the table [t], and nobody holds its lock. *)
Record has_table s (x : process) (t : fd_table_t) : Prop := {
  ht_cur : get_current_process s <> 0;
  ht_proc : k_procs s !! get_current_process s = Some x;
  ht_fdt : p_fd_table x <> 0;
  ht_table : k_fdts s !! p_fd_table x = Some t;
  ht_lock : ft_lock t = false;
  ht_ok : table_ok s t
}.

Lemma used_app a b : used (a ++ b) = used a ++ used b.
Proof. apply filter_app. Qed.

Lemma used_cons h hs : used (h :: hs) = if decide (h = 0) then used hs else h :: used hs.
Proof. unfold used. rewrite filter_cons. destruct (decide (h <> 0)), (decide (h = 0)); done || lia. Qed.

Lemma used_length hs : (length (used hs) <= length hs)%nat.
Proof. apply length_filter. Qed.

(** A list with fewer used slots than entries has a first NULL entry. *)
Lemma first_null hs : (length (used hs) < length hs)%nat ->
  exists pre post, hs = pre ++ 0 :: post /\ used pre = pre.
Proof.
  induction hs as [|h hs IH]; simpl; [lia|]. rewrite used_cons. destruct (decide (h = 0)) as [->|Hh]; intros Hl.
  - by exists [], hs.
  - simpl in Hl. destruct IH as (pre & post & -> & Hp); [lia|]. exists (h :: pre), post. split; [done|].
    rewrite used_cons, decide_False by done. by rewrite Hp.
Qed.

Lemma used_id_nonnull pre h : used pre = pre -> h ∈ pre -> h <> 0.
Proof. intros Hu Hh. rewrite <-Hu in Hh. by apply list_elem_of_filter in Hh as [? _]. Qed.

Lemma all_used hs : length (used hs) = length hs -> used hs = hs.
Proof.
  induction hs as [|h hs IH]; [done|]. rewrite used_cons. destruct (decide (h = 0)); simpl; intros Hl.
  - pose proof (used_length hs). lia.
  - by rewrite IH by lia.
Qed.

(** The scan of process_open_fd. *)
Lemma for_scan_null pre : forall hs i, used pre = pre ->
  (forall k h, pre !! k = Some h -> aget hs (i + Z.of_nat k) = Done h) ->
  aget hs (i + Z.of_nat (length pre)) = Done 0 ->
  forall n, (length pre < n)%nat ->
  for_ n i (fun i (_ : unit) => h ← aget hs i; if decide (h = 0) then Done (inr i) else Done (inl tt)) tt
  = Done (inr (i + Z.of_nat (length pre))).
Proof.
  induction pre as [|h pre IH]; intros hs i Hu Hp H0 [|n] Hn; simpl in Hn; try lia.
  - cbn [for_]. rewrite Z.add_0_r in H0. simpl in H0. rewrite H0. simpl. by rewrite Z.add_0_r.
  - assert (Hh : h <> 0) by (apply (used_id_nonnull (h :: pre)); [done|apply elem_of_cons; by left]).
    pose proof (Hp 0%nat h eq_refl) as Hget. rewrite Z.add_0_r in Hget. cbn [for_]. rewrite Hget.
    cbn [mbind outcome_bind]. rewrite decide_False by done. cbn [mbind outcome_bind].
    replace (i + Z.of_nat (length (h :: pre))) with (i + 1 + Z.of_nat (length pre)) in * by (simpl; lia).
    apply IH; [|..|done|lia].
    + rewrite used_cons, decide_False in Hu by done. by injection Hu.
    + intros k x Hk. replace (i + 1 + Z.of_nat k) with (i + Z.of_nat (S k)) by lia. by apply Hp.
Qed.

Lemma aget_app (pre : list Z) h post : aget (pre ++ h :: post) (Z.of_nat (length pre)) = Done h.
Proof. apply aget_done. split; [lia|]. rewrite Nat2Z.id. by apply list_lookup_middle. Qed.

Lemma aset_app (pre : list Z) h post v : aset (pre ++ h :: post) (Z.of_nat (length pre)) v = Done (pre ++ v :: post).
Proof.
  rewrite aset_in_range by (rewrite length_app; simpl; lia). rewrite Nat2Z.id. f_equal.
  rewrite insert_app_r_alt by lia. by rewrite Nat.sub_diag.
Qed.

Lemma free_slot_first t pre post : ft_capacity t = Z.of_nat (length (ft_handles t)) ->
  ft_handles t = pre ++ 0 :: post -> used pre = pre -> free_slot t = Done (Z.of_nat (length pre)).
Proof.
  intros Hc Hh Hu. unfold free_slot. rewrite Hc, Hh, Nat2Z.id.
  rewrite (for_scan_null pre (pre ++ 0 :: post) 0); [done|done|..].
  - intros k x Hk. apply aget_done. split; [lia|]. rewrite Z.add_0_l, Nat2Z.id. by apply lookup_app_l_Some.
  - rewrite Z.add_0_l. apply aget_app.
  - rewrite length_app. simpl. lia.
Qed.

(** Both operations begin by reading the current process and its table. *)
Lemma read_table {A} s x t (f : process -> fd_table_t -> outcome A) : has_table s x t ->
  (x ← proc_at s (get_current_process s); t ← fdt_at s (p_fd_table x); f x t) = f x t.
Proof.
  intros [Hc0 Hx Hf0 Ht _ _]. rewrite (proc_at_done s _ x) by done. cbn [mbind outcome_bind]. unfold fdt_at.
  by rewrite (at_live _ _ t).
Qed.

(** What process_open_fd does on a table with a free slot. *)
Lemma open_fd_ok s x t pre post node mode : has_table s x t -> ft_handles t = pre ++ 0 :: post -> used pre = pre ->
  let h := new_key (k_handles s) in
  process_open_fd node mode s = Done (Z.of_nat (length pre),
    put_fdt (p_fd_table x) (mk_fdt (ft_capacity t) (ft_length t + 1) (pre ++ h :: post) (ft_count t) false)
      (set_k_handles (<[h := mk_kh sizeof_handle (mk_fh node mode 0)]> (k_handles s)) s)).
Proof.
  intros Hht Hh Hu h. pose proof Hht as [Hc0 Hx Hf0 Ht Hl [Hcap Hsm Hlen Hlv Hnd]].
  unfold process_open_fd. rewrite (read_table s x t) by done.
  assert (Hroom : ft_length t < ft_capacity t).
  { rewrite Hlen, Hcap, Hh, used_app, used_cons, decide_True, !length_app by done. simpl.
    pose proof (used_length pre). pose proof (used_length post). lia. }
  rewrite decide_False by lia. rewrite Hl. cbn [mbind outcome_bind spin_lock].
  rewrite (free_slot_first t pre post) by done. cbn [mbind outcome_bind]. rewrite Hh, aset_app. cbn [mbind outcome_bind].
  rewrite s32_small by lia. done.
Qed.

(** The state after it is well formed again. *)
Lemma open_fd_table s x t pre post node mode : has_table s x t -> ft_handles t = pre ++ 0 :: post ->
  let h := new_key (k_handles s) in
  has_table (put_fdt (p_fd_table x) (mk_fdt (ft_capacity t) (ft_length t + 1) (pre ++ h :: post) (ft_count t) false)
      (set_k_handles (<[h := mk_kh sizeof_handle (mk_fh node mode 0)]> (k_handles s)) s)) x
    (mk_fdt (ft_capacity t) (ft_length t + 1) (pre ++ h :: post) (ft_count t) false).
Proof.
  intros [Hc0 Hx Hf0 Ht Hl [Hcap Hsm Hlen Hlv Hnd]] Hh h.
  destruct (new_key_fresh (k_handles s)) as [Hnz Hfr]. fold h in Hnz, Hfr.
  assert (Hu : used (pre ++ h :: post) ≡ₚ h :: used (ft_handles t)).
  { rewrite Hh, !used_app, !used_cons, decide_False, decide_True by done. symmetry. apply Permutation_middle. }
  split; simpl; try done; [apply lookup_insert_eq|]. split; simpl.
  - rewrite Hcap, Hh, !length_app. simpl. lia.
  - done.
  - rewrite Hu, Hlen. simpl. lia.
  - intros g. rewrite Hu. intros [->|Hg]%elem_of_cons; [rewrite lookup_insert_eq; eauto|].
    destruct (Hlv g Hg) as (y & Hy & Hb). rewrite lookup_insert_ne by congruence. eauto.
  - rewrite Hu. apply NoDup_cons. split; [|done]. intros Hg. destruct (Hlv h Hg) as (y & Hy & _). congruence.
Qed.

(** What process_close_fd does on a slot in use. *)
Definition closed (x : process) (t : fd_table_t) (pre post : list Z) (h : Z) (v : vfs D) s : state :=
  put_fdt (p_fd_table x) (mk_fdt (ft_capacity t) (ft_length t - 1) (pre ++ 0 :: post) (ft_count t) false)
    (set_k_handles (base.delete h (k_handles s)) (set_k_vfs v s)).

Lemma close_fd_ok s x t pre h post y v : has_table s x t -> ft_handles t = pre ++ h :: post -> h <> 0 ->
  k_handles s !! h = Some y -> close_op (h_node (kh y)) (k_vfs s) = Done v ->
  process_close_fd (Z.of_nat (length pre)) s = Done (closed x t pre post h v s).
Proof.
  intros Hht Hh Hh0 Hy Hv. pose proof Hht as [Hc0 Hx Hf0 Ht Hl [Hcap Hsm Hlen Hlv Hnd]].
  unfold process_close_fd. rewrite (read_table s x t) by done.
  rewrite Hl. cbn [mbind outcome_bind spin_lock]. rewrite Hh, aget_app. cbn [mbind outcome_bind].
  rewrite (at_live _ _ y) by done. cbn [mbind outcome_bind]. rewrite Hv. cbn [mbind outcome_bind].
  rewrite aset_app. cbn [mbind outcome_bind]. rewrite s32_small; [done|]. pose proof (used_length (ft_handles t)). lia.
Qed.

Lemma close_fd_table s x t pre h post v : has_table s x t -> ft_handles t = pre ++ h :: post -> h <> 0 ->
  has_table (closed x t pre post h v s) x (mk_fdt (ft_capacity t) (ft_length t - 1) (pre ++ 0 :: post) (ft_count t) false).
Proof.
  intros [Hc0 Hx Hf0 Ht Hl [Hcap Hsm Hlen Hlv Hnd]] Hh Hh0.
  assert (Hu : used (ft_handles t) ≡ₚ h :: used (pre ++ 0 :: post)).
  { rewrite Hh, !used_app, !used_cons, decide_False, decide_True by done. symmetry. apply Permutation_middle. }
  rewrite Hu in Hlen, Hnd. apply NoDup_cons in Hnd as [Hni Hnd].
  split; simpl; try done; [apply lookup_insert_eq|]. split; simpl.
  - rewrite Hcap, Hh, !length_app. done.
  - done.
  - simpl in Hlen. lia.
  - intros g Hg. destruct (Hlv g) as (y & Hy & Hb); [rewrite Hu; apply elem_of_cons; by right|].
    exists y. split; [|done]. rewrite lookup_delete_ne; [done|]. by intros ->.
  - done.
Qed.

(** A slot in use, split off. *)
Lemma split_at (hs : list Z) i h : hs !! i = Some h -> exists pre post, hs = pre ++ h :: post /\ length pre = i.
Proof.
  intros Hi. exists (take i hs), (drop (S i) hs). split; [by rewrite take_drop_middle|].
  apply length_take_le. apply lookup_lt_Some in Hi. lia.
Qed.

Lemma has_free_slot s x t : has_table s x t -> ft_length t < ft_capacity t ->
  exists pre post, ft_handles t = pre ++ 0 :: post /\ used pre = pre.
Proof. intros [_ _ _ _ _ [Hcap _ Hlen _ _]] Hroom. apply first_null. lia. Qed.

(** Process_open_fd gives the lowest free descriptor, with a new handle at
    offset 0, and fails only when every slot is in use; the table is well formed
    after it. *)
Theorem process_open_fd_lowest s x t node mode : has_table s x t ->
  if decide (ft_length t < ft_capacity t) then
    exists i s' t' h, process_open_fd node mode s = Done (Z.of_nat i, s') /\
      ft_handles t !! i = Some 0 /\ (forall j, (j < i)%nat -> ft_handles t !! j <> Some 0) /\
      has_table s' x t' /\ ft_handles t' = <[i := h]> (ft_handles t) /\ k_handles s !! h = None /\
      k_handles s' = <[h := mk_kh sizeof_handle (mk_fh node mode 0)]> (k_handles s)
  else process_open_fd node mode s = Done (-1, s) /\ 0 ∉ ft_handles t.
Proof.
  intros Ht. destruct (decide (ft_length t < ft_capacity t)) as [Hroom|Hfull].
  - destruct (has_free_slot s x t Ht Hroom) as (pre & post & Hh & Hu).
    exists (length pre). eexists _, _, (new_key (k_handles s)). split; [by eapply open_fd_ok|].
    split; [rewrite Hh; by apply list_lookup_middle|]. split; [|split; [by apply open_fd_table|]].
    + intros j Hj E. rewrite Hh, lookup_app_l in E by done. apply list_elem_of_lookup_2 in E.
      by apply (used_id_nonnull pre 0).
    + simpl. rewrite Hh, insert_app_r_alt, Nat.sub_diag by lia. split; [done|]. split; [apply new_key_fresh|done].
  - pose proof Ht as [_ _ _ _ _ [Hcap Hsm Hlen Hlv Hnd]]. unfold process_open_fd. rewrite (read_table s x t) by done.
    rewrite decide_True by lia. split; [done|]. intros H0.
    pose proof (used_length (ft_handles t)). rewrite <-all_used in H0 by lia. by apply list_elem_of_filter in H0 as [? _].
Qed.

(** C38: Process_close_fd on a descriptor in use closes the file, frees the handle
    and its slot; on a free slot or outside the table it reads through a pointer
    that is not a handle. *)
Theorem process_close_fd_spec s x t fd : has_table s x t -> 0 <= fd ->
  match ft_handles t !! Z.to_nat fd with
  | Some h => if decide (h = 0) then process_close_fd fd s = Fault
              else exists y, k_handles s !! h = Some y /\
                forall v, close_op (h_node (kh y)) (k_vfs s) = Done v ->
                exists s' t', process_close_fd fd s = Done s' /\ has_table s' x t' /\ k_vfs s' = v /\
                  ft_handles t' = <[Z.to_nat fd := 0]> (ft_handles t) /\ k_handles s' = base.delete h (k_handles s)
  | None => process_close_fd fd s = Fault
  end.
Proof.
  intros Ht Hfd. destruct (ft_handles t !! Z.to_nat fd) as [h|] eqn:E.
  - destruct (split_at _ _ _ E) as (pre & post & Hh & Hlen). destruct (decide (h = 0)) as [->|Hh0].
    + unfold process_close_fd. rewrite (read_table s x t), (ht_lock _ _ _ Ht) by done. cbn [mbind outcome_bind spin_lock]. by rewrite (proj2 (aget_done _ _ 0) (conj Hfd E)).
    + assert (Hu : h ∈ used (ft_handles t)) by (apply list_elem_of_filter; split; [done|by apply list_elem_of_lookup_2 with (Z.to_nat fd)]).
      destruct (tb_live _ _ (ht_ok _ _ _ Ht) h Hu) as (y & Hy & _). exists y. split; [done|]. intros v Hv.
      pose proof (close_fd_ok s x t pre h post y v Ht Hh Hh0 Hy Hv) as Hrun.
      replace (Z.of_nat (length pre)) with fd in Hrun by lia. eexists _, _. split; [exact Hrun|].
      split; [by apply close_fd_table|]. split; [done|]. split; [|done]. simpl.
      rewrite Hh, insert_app_r_alt, Hlen, Nat.sub_diag by lia. done.
  - unfold process_close_fd. rewrite (read_table s x t), (ht_lock _ _ _ Ht) by done. cbn [mbind outcome_bind spin_lock]. unfold aget, zlookup. rewrite decide_True by done. by rewrite E.
Qed.

(** Closing the descriptor that was just opened undoes the open, up to what the
    driver's close does to the file system. *)
Theorem process_open_close s x t node mode fd s1 v : has_table s x t ->
  process_open_fd node mode s = Done (fd, s1) -> fd <> -1 -> close_op node (k_vfs s) = Done v ->
  process_close_fd fd s1 = Done (set_k_vfs v s).
Proof.
  intros Ht Hrun Hfd Hv. destruct (decide (ft_length t < ft_capacity t)) as [Hroom|Hfull].
  - destruct (has_free_slot s x t Ht Hroom) as (pre & post & Hh & Hu).
    rewrite (open_fd_ok s x t pre post node mode Ht Hh Hu) in Hrun. injection Hrun as <- <-.
    destruct (new_key_fresh (k_handles s)) as [Hnz Hfr]. set (h := new_key (k_handles s)) in *.
    erewrite close_fd_ok; [..|by apply open_fd_table| | | |]; [|simpl; done|done|simpl; apply lookup_insert_eq|exact Hv].
    f_equal. unfold closed. simpl. rewrite Z.add_simpl_r, <-Hh. destruct Ht as [_ _ _ Htb Hl _].
    replace (mk_fdt (ft_capacity t) (ft_length t) (ft_handles t) (ft_count t) false) with t by (destruct t; simpl in *; by subst).
    unfold put_fdt. simpl. rewrite insert_insert_eq, insert_id, delete_insert_id by done. by destruct s.
  - revert Hrun. unfold process_open_fd. rewrite (read_table s x t) by done.
    rewrite decide_True by lia. by intros [= <- <-].
Qed.

(** *** Any sequence of calls *)

Inductive fd_call s : state -> Prop :=
| call_open node mode fd s' : process_open_fd node mode s = Done (fd, s') -> fd_call s s'
| call_close fd s' : process_close_fd fd s = Done s' -> fd_call s s'.

Lemma fd_call_keeps s s' x t : has_table s x t -> fd_call s s' -> exists t', has_table s' x t'.
Proof.
  intros Ht [node mode fd s2 Hrun|fd s2 Hrun].
  - destruct (decide (ft_length t < ft_capacity t)) as [Hroom|Hfull].
    + destruct (has_free_slot s x t Ht Hroom) as (pre & post & Hh & Hu).
      rewrite (open_fd_ok s x t pre post node mode Ht Hh Hu) in Hrun. injection Hrun as _ <-.
      eexists. by apply open_fd_table.
    + revert Hrun. unfold process_open_fd. rewrite (read_table s x t) by done. rewrite decide_True by lia.
      intros [= _ <-]. by exists t.
  - pose proof Hrun as Hrun'. revert Hrun'. unfold process_close_fd at 1. rewrite (read_table s x t) by done. intros Hrun'.
    apply outcome_bind_done in Hrun' as (l & _ & Hrun'). apply outcome_bind_done in Hrun' as (h & Hget & Hrun').
    apply outcome_bind_done in Hrun' as (y & Hy & Hrun'). apply outcome_bind_done in Hrun' as (v & Hv & _).
    apply at_done in Hy as [Hh0 Hy]. apply aget_done in Hget as [Hfd Hget].
    destruct (split_at _ _ _ Hget) as (pre & post & Hh & Hlen).
    pose proof (close_fd_ok s x t pre h post y v Ht Hh Hh0 Hy Hv) as E. rewrite Hlen, Z2Nat.id, Hrun in E by done.
    injection E as ->. eexists. by apply close_fd_table.
Qed.

(** C37: The descriptor table stays well formed: whatever descriptors are opened and
    closed, in any order, the length is the number of slots in use, every slot
    in use has a live handle of full size and no two share one. *)
Theorem fd_table_invariant s s' x t : has_table s x t -> rtc fd_call s s' -> exists t', has_table s' x t'.
Proof.
  intros Ht Hcalls. revert t Ht. induction Hcalls as [s|s s1 s2 Hcall _ IH]; intros t Ht; [by exists t|].
  destruct (fd_call_keeps _ _ _ _ Ht Hcall) as [t1 Ht1]. by apply (IH t1).
Qed.

End Descriptors.

(** ** fork and clone *)

Section Fork.
Context {F D : Type} {FA : FrameAllocator F} {CA : Calloc} {NA : NodeAlloc}.
Context (fuel : nat) (fork_exit : Z).
Abbreviation state := (kstate F D).
Implicit Types s : state.

(** A new address space changes nothing else. *)
Lemma clone_space_rest s m s1 : clone_space s = Done (m, s1) -> s1 = set_k_mms (k_mms s1) (set_k_vmem (k_vmem s1) s).
Proof.
  unfold clone_space, with_vm_result, with_vm. intros Hrun.
  apply outcome_bind_done in Hrun as ([a sa] & Ha & Hrun). apply outcome_bind_done in Ha as ([b vb] & _ & [= <- <-]).
  destruct (new_mm b (set_k_vmem vb s)) as [m' sm] eqn:Em. unfold new_mm in Em. injection Em as <- <-.
  apply outcome_bind_done in Hrun as (sc & Hc & [= <- <-]). apply outcome_bind_done in Hc as (vc & _ & [= <-]). done.
Qed.

(** What it is: a new structure for a copy of the current space. *)
Lemma clone_space_copies s m s1 : clone_space s = Done (m, s1) -> exists pd, k_mms s !! m = None /\
  k_mms s1 = <[m := mk_mm pd 0 1 false]> (k_mms s) /\ (clonable (k_vmem s) -> space_copied (k_vmem s) (k_vmem s1) pd).
Proof.
  unfold clone_space, with_vm_result, with_vm, alloc_frame. intros Hrun.
  apply outcome_bind_done in Hrun as ([pd sa] & Ha & Hrun). apply outcome_bind_done in Ha as ([b vb] & Ha & [= <- <-]).
  apply outcome_bind_done in Ha as ([c fr'] & Ha & [= <- <-]). destruct (new_mm c _) as [m' sm] eqn:Em. unfold new_mm in Em. injection Em as <- <-.
  apply outcome_bind_done in Hrun as (sc & Hc & [= <- <-]). apply outcome_bind_done in Hc as (vc & Hc & [= <-]). exists c.
  split; [apply new_key_fresh|]. split; [done|]. intros Hcl.
  destruct (memmgr_clone_page_map_copies (k_vmem s) Hcl) as (pd & f' & v' & Ha' & Hrun & Hsp). rewrite Ha in Ha'. injection Ha' as <- <-.
  cbn [k_vmem set_k_mms set_k_vmem] in Hc. unfold memmgr_get_current_pml4 in *. cbn [pml4 set_fr] in Hc. rewrite Hrun in Hc. by injection Hc as <-.
Qed.

(** The copy of a handle is written past its end. *)
Lemma copy_handle_faults h s r : copy_handle h s <> Done r.
Proof. unfold copy_handle. by destruct (at_ (k_handles s) h). Qed.

Lemma copy_loop_faults (t : fd_table_t) : forall n i0 i h (st : list Z * state) r,
  i0 <= i < i0 + Z.of_nat n -> aget (ft_handles t) i = Done h -> h <> 0 ->
  for_ n i0 (fun i '(hs, s) =>
    h ← aget (ft_handles t) i;
    if decide (h = 0) then Done (inl (hs, s))
    else '(n, s) ← copy_handle h s; hs ← aset hs i n; Done (inl (hs, s) : (list Z * state) + unit)) st <> Done r.
Proof.
  induction n as [|n IH]; intros i0 i h [hs s] r Hi Hget Hh; [lia|]. cbn [for_].
  destruct (decide (i = i0)) as [->|Hne].
  - rewrite Hget. cbn [mbind outcome_bind]. rewrite decide_False by done.
    destruct (copy_handle h s) as [c| | |] eqn:Ec; [|done..]. by apply copy_handle_faults in Ec.
  - destruct (aget (ft_handles t) i0) as [g| | |]; [|done..]. cbn [mbind outcome_bind].
    destruct (decide (g = 0)); cbn [mbind outcome_bind]; [apply IH with i h; [lia|done|done]|].
    destruct (copy_handle g s) as [c| | |] eqn:Ec; [|done..]. by apply copy_handle_faults in Ec.
Qed.

Lemma copy_fd_table_faults t s h r : h ∈ used (ft_handles t) -> ft_capacity t = Z.of_nat (length (ft_handles t)) ->
  copy_fd_table t s <> Done r.
Proof.
  intros Hh Hcap Hrun. apply list_elem_of_filter in Hh as [Hh0 Hh].
  apply list_elem_of_lookup in Hh as [i Hi]. pose proof (lookup_lt_Some _ _ _ Hi).
  unfold copy_fd_table, copy_handles in Hrun. destruct (new_fdt _ _ s) as [a sa].
  apply outcome_bind_done in Hrun as ([hs sb] & Hrun & _). apply outcome_bind_done in Hrun as (o & Hrun & _).
  revert Hrun. apply copy_loop_faults with (Z.of_nat i) h; [lia| |done].
  apply aget_done. split; [lia|]. by rewrite Nat2Z.id.
Qed.

(** A process that has a file open cannot fork: each handle is copied into an
    allocation of the size of a pointer, and the offset is stored behind it. *)
Theorem process_fork_overflows local s x t h r : has_table s x t -> h ∈ used (ft_handles t) ->
  process_fork fuel fork_exit local s <> Done r.
Proof.
  intros Ht Hh Hrun. unfold process_fork in Hrun.
  rewrite (proc_at_done s _ x) in Hrun by apply Ht. cbn [mbind outcome_bind] in Hrun.
  apply outcome_bind_done in Hrun as ([m s1] & Hc & Hrun). apply clone_space_rest in Hc.
  apply outcome_bind_done in Hrun as ([stack s2] & Hst & Hrun). apply outcome_bind_done in Hst as ([b vb] & _ & [= <- <-]).
  apply outcome_bind_done in Hrun as (regs & _ & Hrun).
  apply outcome_bind_done in Hrun as ([sp s3] & Hp & Hrun). apply outcome_bind_done in Hp as ([c mem] & _ & [= <- <-]).
  apply outcome_bind_done in Hrun as (pt & Hpt & Hrun). apply outcome_bind_done in Hrun as ([a s4] & Hcp & _).
  assert (pt = t) as ->.
  { apply at_done in Hpt as [_ Hpt]. rewrite Hc in Hpt. simpl in Hpt. rewrite (ht_table _ _ _ Ht) in Hpt. by injection Hpt. }
  revert Hcp. apply copy_fd_table_faults with h; [done|]. apply (ht_ok _ _ _ Ht).
Qed.

(** Clone never returns: it reads the saved registers of the process it has
    just allocated, which are at NULL. *)
Theorem process_clone_faults args local s r : process_clone fuel fork_exit args local s <> Done r.
Proof.
  intros Hrun. unfold process_clone in Hrun. apply outcome_bind_done in Hrun as (x & _ & Hrun).
  apply outcome_bind_done in Hrun as ([m s1] & _ & Hrun). by apply outcome_bind_done in Hrun as (regs & Hr & _).
Qed.

(** An empty table is copied. *)
Lemma copy_loop_empty (t : fd_table_t) : forall n i0 (st : list Z * state), 0 <= i0 ->
  (Z.to_nat i0 + n <= length (ft_handles t))%nat -> used (ft_handles t) = [] ->
  for_ n i0 (fun i '(hs, s) =>
    h ← aget (ft_handles t) i;
    if decide (h = 0) then Done (inl (hs, s))
    else '(n, s) ← copy_handle h s; hs ← aset hs i n; Done (inl (hs, s) : (list Z * state) + unit)) st = Done (inl st).
Proof.
  induction n as [|n IH]; intros i0 [hs s] Hi Hn Hu; [done|]. cbn [for_].
  destruct (aget_in_range (ft_handles t) i0) as (h & -> & Hh); [lia|]. cbn [mbind outcome_bind].
  assert (h = 0) as ->.
  { destruct (decide (h = 0)); [done|]. assert (Hin : h ∈ used (ft_handles t)).
    { apply list_elem_of_filter. split; [done|]. by apply list_elem_of_lookup_2 in Hh. }
    rewrite Hu in Hin. by apply elem_of_nil in Hin. }
  rewrite decide_True by done. cbn [mbind outcome_bind]. apply IH; [lia|lia|done].
Qed.

Lemma copy_fd_table_empty t s : used (ft_handles t) = [] -> ft_capacity t = Z.of_nat (length (ft_handles t)) ->
  exists a fd, copy_fd_table t s = Done (a, put_fdt a fd s) /\ k_fdts s !! a = None /\
    ft_handles fd = replicate (length (ft_handles t)) 0 /\ ft_capacity fd = ft_capacity t.
Proof.
  intros Hu Hcap. unfold copy_fd_table, copy_handles, new_fdt. rewrite Hcap, Nat2Z.id.
  rewrite copy_loop_empty by (simpl; lia || done). cbn [mbind outcome_bind].
  eexists _, _. split; [unfold put_fdt; simpl; rewrite insert_insert_eq; done|]. split; [apply new_key_fresh|done].
Qed.

Lemma find_in_tree_node s l node p : tree_rep (k_pnodes s) (k_process_tree s) l -> NoDup l.*2 -> (node, p) ∈ l ->
  (length l <= fuel)%nat -> find_in_tree fuel p s = Done node.
Proof.
  intros Hrep Hnd Hin Hf. assert (Hk : node ∈ l.*1) by by apply (list_elem_of_fmap_2 fst _ (node, p)).
  destruct (tree_rep_node _ _ _ _ Hrep Hk) as (_ & n & Hn & Hv & _).
  assert (p = t_value n) as ->.
  { destruct (list_elem_of_lookup_1 _ _ Hin) as [i Hi], (list_elem_of_lookup_1 _ _ Hv) as [j Hj].
    assert (i = j) as ->.
    { apply (NoDup_lookup l.*1 _ _ node (tr_nodup _ _ _ Hrep)); rewrite list_lookup_fmap; [by rewrite Hi|by rewrite Hj]. }
    rewrite Hi in Hj. by injection Hj. }
  by apply (find_child_root_unique fuel _ _ l).
Qed.


End Fork.

(** ** Exit *)

Section Exit.
Context {F D : Type} {FA : FrameAllocator F} {CA : Calloc} {NA : NodeAlloc}.
Context (fuel : nat).
Abbreviation state := (kstate F D).
Implicit Types s : state.

Definition free_all (hs : list Z) (kh : gmap Z khandle) : gmap Z khandle := foldl (fun m h => base.delete h m) kh hs.

Lemma free_all_lookup hs : forall kh g, free_all hs kh !! g = if decide (g ∈ hs) then None else kh !! g.
Proof.
  induction hs as [|h hs IH]; intros kh g; simpl; [done|]. rewrite IH. destruct (decide (g ∈ hs)) as [Hg|Hg].
  - by rewrite decide_True by (apply elem_of_cons; by right).
  - destruct (decide (g = h)) as [->|Hne].
    + rewrite lookup_delete_eq, decide_True; [done|]. apply elem_of_cons. by left.
    + rewrite lookup_delete_ne by done. rewrite decide_False; [done|]. intros [?|?]%elem_of_cons; done.
Qed.

Lemma exit_step_eq capacity length i hs kh : exit_step capacity (length, i, hs, kh) =
  if decide (length <= 0) then Done (inr (hs, kh))
  else
    h ← aget hs i;
    if decide (h = 0) then Done (inl (length, i + 1, hs, kh))
    else
      _ ← at_ kh h; hs ← aset hs i 0;
      if decide (capacity < i + 1) then Done (inr (hs, base.delete h kh))
      else Done (inl (length - 1, i + 1, hs, base.delete h kh)).
Proof. done. Qed.

(** The loop of process_exit ends: one unit of fuel for each slot and one more
    are enough, and the open handles are freed, each once. *)
Lemma exit_loop rest : forall done_ kh n, (length rest < n)%nat -> NoDup (used rest) ->
  (forall h, h ∈ used rest -> is_Some (kh !! h)) ->
  exists hs, loop n (exit_step (Z.of_nat (length done_ + length rest)))
      (Z.of_nat (length (used rest)), Z.of_nat (length done_), done_ ++ rest, kh)
    = Done (hs, free_all (used rest) kh).
Proof.
  induction rest as [|h rest IH]; intros done_ kh [|n] Hn Hnd Hlv; simpl in Hn; try lia; cbn [loop]; rewrite exit_step_eq.
  - simpl. by eexists.
  - rewrite used_cons in *. destruct (decide (h = 0)) as [->|Hh].
    + destruct (decide (Z.of_nat (length (used rest)) <= 0)) as [Hz|Hz].
      { assert (used rest = []) as -> by (apply nil_length_inv; lia). simpl. by eexists. }
      rewrite aget_app. cbn [mbind outcome_bind]. rewrite decide_True by done. cbn [mbind outcome_bind].
      destruct (IH (done_ ++ [0]) kh n) as [hs Hrun]; [lia|done|done|]. exists hs. rewrite <-Hrun, length_app, <-(assoc_L (++)).
      simpl. do 2 f_equal; [f_equal; lia|]. f_equal. f_equal. f_equal. lia.
    + rewrite decide_False by (simpl; lia). rewrite aget_app. cbn [mbind outcome_bind]. rewrite decide_False by done.
      apply NoDup_cons in Hnd as [Hni Hnd]. destruct (Hlv h ltac:(apply elem_of_cons; by left)) as [y Hy].
      rewrite (at_live _ _ y) by done. cbn [mbind outcome_bind]. rewrite aset_app. cbn [mbind outcome_bind].
      rewrite decide_False by (simpl; lia). cbn [mbind outcome_bind].
      destruct (IH (done_ ++ [0]) (base.delete h kh) n) as [hs Hrun]; [lia|done| |].
      { intros g Hg. rewrite lookup_delete_ne by (by intros ->). apply Hlv, elem_of_cons. by right. }
      exists hs. etransitivity; [|exact Hrun]. rewrite length_app, <-(assoc_L (++)).
      simpl. do 2 f_equal; [f_equal; lia|]. do 3 f_equal; lia.
Qed.

Lemma free_descriptors_ok n s p x t : p <> 0 -> k_procs s !! p = Some x -> p_fd_table x <> 0 ->
  k_fdts s !! p_fd_table x = Some t -> ft_lock t = false -> table_ok s t -> (length (ft_handles t) < n)%nat ->
  free_descriptors n p s = Done
    (put_proc p (set_p_fd_table (if decide (0 < ft_length t) then 0 else p_fd_table x) x)
      (set_k_fdts (if decide (0 < ft_length t) then base.delete (p_fd_table x) (k_fdts s) else k_fdts s)
        (set_k_handles (free_all (used (ft_handles t)) (k_handles s)) s))).
Proof.
  intros Hp Hx Hf Ht Hl [Hcap Hsm Hlen Hlv Hnd] Hn. unfold free_descriptors, fdt_at.
  rewrite (proc_at_done s p x) by done. cbn [mbind outcome_bind]. rewrite (at_live _ _ t) by done. cbn [mbind outcome_bind].
  destruct (decide (0 < ft_length t)).
  - rewrite Hl. cbn [mbind outcome_bind spin_lock]. rewrite Hcap, Hlen.
    destruct (exit_loop (ft_handles t) [] (k_handles s) n Hn Hnd) as [hs Hrun].
    { intros h Hh. destruct (Hlv h Hh) as (y & Hy & _). by eexists. }
    cbn [length app Nat.add] in Hrun. change (Z.of_nat 0) with 0 in Hrun. rewrite Hrun. cbn [mbind outcome_bind]. by erewrite upd_proc_done by done.
  - assert (used (ft_handles t) = []) as -> by (apply nil_length_inv; lia).
    assert (set_p_fd_table (p_fd_table x) x = x) as -> by by destruct x. unfold put_proc. simpl. rewrite insert_id by done.
    by destruct s.
Qed.

(** The threads that process_exit means to kill live on: the flag it tests has
    been set just before. *)
Lemma kill_threads_none n p ret x cs s : p <> 0 -> k_procs s !! p = Some x -> Z.land (p_flags x) PROC_FLAG_FINISHED <> 0 ->
  (forall c, c ∈ cs -> is_Some (k_pnodes s !! c)) -> kill_threads n p ret cs s = Done (Ended s).
Proof.
  intros Hp Hx Hfin. induction cs as [|c cs IH]; intros Hlv; [done|]. cbn [kill_threads].
  destruct (Hlv c ltac:(apply elem_of_cons; by left)) as [nd Hnd]. rewrite (node_at_done _ _ _ Hnd). cbn [mbind outcome_bind].
  rewrite (proc_at_done s p x) by done. cbn [mbind outcome_bind]. rewrite decide_False by tauto.
  apply IH. intros d Hd. apply Hlv, elem_of_cons. by right.
Qed.

(** Another record for the current process, with the same address space. *)
Lemma runnable_replace s s' cur q x y : runnable s cur q -> k_procs s !! cur = Some x ->
  p_page_directory y = p_page_directory x -> k_procs s' = <[cur := y]> (k_procs s) -> k_mms s' = k_mms s ->
  k_pcb s' = k_pcb s -> k_thread_queue s' = k_thread_queue s -> k_vmem s' = k_vmem s -> runnable s' cur q.
Proof.
  intros [Hc Hq Hi Hnd Hl Hs] Hx Hpd Hp Hm Hpcb Htq Hv. unfold get_current_process, live, space_of in *.
  split; unfold get_current_process, live, space_of; rewrite ?Hpcb, ?Htq, ?Hp, ?Hm, ?Hv; try done.
  - intros p Hin. destruct (Hl p Hin) as (Hp0 & z & m & Hz & Hd & Hzm). split; [done|].
    destruct (decide (p = cur)) as [->|Hne]; [|rewrite lookup_insert_ne by done; eauto].
    rewrite Hx in Hz. injection Hz as <-. exists y, m. rewrite lookup_insert_eq, Hpd. done.
  - rewrite lookup_insert_eq. simpl. rewrite Hpd. by rewrite Hx in Hs.
Qed.

(** What is left of a process that has exited. *)
Definition exited (x : process) (t : fd_table_t) (ret : Z) : process :=
  set_p_flags PROC_FLAG_FINISHED (set_p_cwd None
    (set_p_fd_table (if decide (0 < ft_length t) then 0 else p_fd_table x) (set_p_status ret x))).

Lemma mask_exited x t ret : mask_flags (exited x t ret) = exited x t ret.
Proof. unfold mask_flags, exited, set_p_flags. simpl. reflexivity. Qed.

(** The children list that process_exit walks. *)
Definition in_tree s (p : Z) : Prop := exists l node, tree_rep (k_pnodes s) (k_process_tree s) l /\ NoDup l.*2 /\
  (node, p) ∈ l /\ (length l <= fuel)%nat.

Lemma kill_scan n p ret x s : p <> 0 -> k_procs s !! p = Some x -> Z.land (p_flags x) PROC_FLAG_FINISHED <> 0 ->
  (1 < Z.of_nat (length (k_process_list s)) -> in_tree s p) ->
  (if decide (1 < Z.of_nat (length (k_process_list s))) then
     node ← find_in_tree fuel p s; nd ← node_at (k_pnodes s) node; kill_threads n p ret (t_children nd) s
   else Done (Ended s)) = Done (Ended s).
Proof.
  intros Hp Hx Hfin Htree. destruct (decide _) as [Hlen|]; [|done].
  destruct (Htree Hlen) as (l & node & Hrep & Hnd & Hin & Hf). rewrite (find_in_tree_node fuel s l node) by done.
  cbn [mbind outcome_bind]. assert (Hk : node ∈ l.*1) by by apply (list_elem_of_fmap_2 fst _ (node, p)).
  destruct (tree_rep_node _ _ _ _ Hrep Hk) as (_ & nd & Hnode & _ & Hcs).
  rewrite (node_at_done _ _ _ Hnode). cbn [mbind outcome_bind]. apply kill_threads_none with x; [done..|].
  intros c Hc. destruct (tree_rep_node _ _ _ _ Hrep (Hcs c Hc)) as (_ & m & Hm & _). by eexists.
Qed.

(** C32: A process that exits leaves the processor for good: the next runnable thread
    goes on, and the process stands in no queue.  All its open handles are freed,
    in a loop that ends after at most one round per slot, and with them the
    table, unless no descriptor was open, when the table is never freed.  The
    other processes, its own threads among them, are not touched. *)
Theorem process_exit_spec n ret s x t nx q :
  runnable s (get_current_process s) (nx :: q) -> has_table s x t -> p_id x <> 1 -> (length (ft_handles t) < n)%nat ->
  (1 < Z.of_nat (length (k_process_list s)) -> in_tree s (get_current_process s)) ->
  exists s', process_exit true fuel n ret s = Done (Ended s') /\
    get_current_process s' = nx /\ k_thread_queue s' = q /\
    rest_of s' (get_current_process s) = Some (set_p_main_thread zero_thread (exited x t ret)) /\
    (forall p, p <> get_current_process s -> rest_of s' p = rest_of s p /\ ctx_of s' p = ctx_of s p) /\
    (forall h, k_handles s' !! h = if decide (h ∈ used (ft_handles t)) then None else k_handles s !! h) /\
    k_fdts s' = if decide (0 < ft_length t) then base.delete (p_fd_table x) (k_fdts s) else k_fdts s.
Proof.
  intros Hru Ht Hid Hn Htree. set (cur := get_current_process s) in *. pose proof Ht as [Hc0 Hx Hf0 Htb Hl Hok].
  fold cur in Hc0, Hx. unfold process_exit. fold cur. rewrite (proc_at_done s cur x) by done. cbn [mbind outcome_bind].
  rewrite decide_False by done. erewrite upd_proc_done by done. cbn [mbind outcome_bind].
  set (s1 := put_proc cur (set_p_status ret x) s).
  rewrite (free_descriptors_ok n s1 cur (set_p_status ret x) t Hc0 (put_proc_lookup _ _ _) Hf0 Htb Hl ltac:(by destruct Hok) Hn).
  cbn [mbind outcome_bind]. rewrite upd_put by done. cbn [mbind outcome_bind]. rewrite upd_put by done. cbn [mbind outcome_bind].
  match goal with |- context [kill_threads n cur ret _ ?s0] => set (s2 := s0) end.
  assert (Hp2 : k_procs s2 = <[cur := exited x t ret]> (k_procs s)) by (unfold s2, s1; simpl; by rewrite insert_insert_eq).
  assert (Hh2 : k_handles s2 = free_all (used (ft_handles t)) (k_handles s)) by done.
  assert (Hf2 : k_fdts s2 = if decide (0 < ft_length t) then base.delete (p_fd_table x) (k_fdts s) else k_fdts s) by done.
  assert (E2 : k_mms s2 = k_mms s /\ k_pcb s2 = k_pcb s /\ k_thread_queue s2 = k_thread_queue s /\ k_vmem s2 = k_vmem s /\
    k_pnodes s2 = k_pnodes s /\ k_process_tree s2 = k_process_tree s /\ k_process_list s2 = k_process_list s) by done.
  clearbody s2. destruct E2 as (Em2 & Epcb2 & Eq2 & Ev2 & En2 & Et2 & El2).
  rewrite (kill_scan n cur ret (exited x t ret) s2 Hc0); [|by rewrite Hp2, lookup_insert_eq|done|].
  2:{ unfold in_tree. by rewrite En2, Et2, El2. }
  cbn [mbind outcome_bind].
  assert (Hru2 : runnable s2 cur (nx :: q)) by by apply (runnable_replace s s2 cur (nx :: q) x (exited x t ret)).
  destruct (schedule_dispatch true s2 cur (nx :: q) nx q Hru2 eq_refl)
    as (s3 & -> & Hc3 & Hq3 & _ & Ho3 & Hctx3 & _ & Hr3 & _ & _).
  cbn [mbind outcome_bind]. exists s3. split; [done|]. split; [done|]. split; [done|].
  assert (Eh : k_handles s3 = k_handles s2 /\ k_fdts s3 = k_fdts s2) by (unfold rest_of_kernel in Ho3; split; congruence).
  destruct Eh as [Eh Ef]. split; [|split; [|split]].
  - rewrite Hr3. unfold rest_of. rewrite Hp2, lookup_insert_eq. simpl. by rewrite mask_exited.
  - intros p Hp. rewrite Hr3, Hctx3. unfold rest_of, ctx_of, saved. rewrite Hp2, lookup_insert_ne by done.
    split; [done|]. rewrite (ru_cur _ _ _ Hru2), !decide_False by done. done.
  - intros h. rewrite Eh, Hh2. apply free_all_lookup.
  - by rewrite Ef, Hf2.
Qed.

End Exit.

(** ** The process tree *)

Section Tree.
Context {F D : Type}.
Abbreviation state := (kstate F D).
Implicit Types s : state.

Lemma children_recur ns :
  (forall par p l, tree_at ns par p l -> forall n out, (length l <= n)%nat ->
     process_get_children_recur n ns p out = Done (out ++ tail l.*2)) /\
  (forall par cs l, forest_at ns par cs l -> forall n out, (length l <= n)%nat ->
     each_child (fun c out => cn ← node_at ns c; process_get_children_recur n ns c (out ++ [t_value cn])) cs out
     = Done (out ++ l.*2)).
Proof.
  apply tree_forest_ind.
  - intros par p v cs l Hp Hl _ IH [|n] out Hn; simpl in Hn; [lia|]. cbn [process_get_children_recur].
    rewrite (node_at_done _ _ _ Hl). cbn [mbind outcome_bind]. apply IH. lia.
  - intros par n out _. by rewrite app_nil_r.
  - intros par c cs l1 l2 Ht IH1 _ IH2 n out Hn. rewrite length_app in Hn. cbn [each_child].
    inversion Ht as [? ? v cs' l Hc Hl Hf]; subst. rewrite (node_at_done _ _ _ Hl). cbn [mbind outcome_bind t_value].
    rewrite IH1 by lia. cbn [mbind outcome_bind]. rewrite IH2 by lia. rewrite fmap_app. simpl.
    by rewrite <-!(assoc_L (++)).
Qed.

(** Process_get_all_children lists the descendants of a process, each before its
    own children and in the order they were created: the preorder of its
    subtree without the root.  A process that is not in the tree has no list. *)
Theorem process_get_all_children_preorder fuel s p l : tree_rep (k_pnodes s) (k_process_tree s) l ->
  t_head (k_process_tree s) <> 0 -> NoDup l.*2 -> (length l <= fuel)%nat ->
  (forall par node sub, tree_at (k_pnodes s) par node ((node, p) :: sub) -> (node, p) ∈ l -> (length sub < fuel)%nat ->
     process_get_all_children fuel p s = Done (Some sub.*2)) /\
  (p ∉ l.*2 -> process_get_all_children fuel p s = Done None).
Proof.
  intros Hrep Hh Hnd Hf. unfold process_get_all_children. split.
  - intros par node sub Ht Hin Hsub. rewrite (find_in_tree_node fuel s l node) by done. cbn [mbind outcome_bind].
    rewrite decide_False by (by inversion Ht).
    rewrite (proj1 (children_recur _) _ _ _ Ht) by (simpl; lia). done.
  - intros Hp. unfold find_in_tree. destruct (tree_find_child_root_spec fuel _ _ l p Hrep Hh Hf) as (-> & Hiff & _).
    cbn [mbind outcome_bind]. by rewrite decide_True by by apply Hiff.
Qed.

End Tree.

(** ** Reaping *)

Section Reap.
Context {F D : Type} {FA : FrameAllocator F}.
Abbreviation state := (kstate F D).
Implicit Types s : state.

Lemma list_place_first p pre post : forall i, p ∉ pre -> list_place p (pre ++ p :: post) i = Some (i + Z.of_nat (length pre)).
Proof.
  induction pre as [|q pre IH]; intros i Hp; simpl.
  - rewrite decide_True by done. f_equal. lia.
  - apply not_elem_of_cons in Hp as [Hq Hp]. rewrite decide_False by done. rewrite IH by done. f_equal. lia.
Qed.

(** The index is one too large for an index from 0, and list_remove_by_index
    counts from 1. *)
Lemma remove_from_list_ok s p pre post : k_process_list s = pre ++ p :: post -> p ∉ pre ->
  remove_from_list p s = if decide (pre ++ post = []) then Fault else Done (set_k_process_list (pre ++ post) s).
Proof.
  intros El Hp. unfold remove_from_list. rewrite El, list_place_first by done. unfold seq_remove_by_index.
  assert (Hlen : length (pre ++ p :: post) = S (length (pre ++ post))) by (rewrite !length_app; simpl; lia).
  destruct (pre ++ p :: post) as [|y l] eqn:E; [by destruct pre|]. rewrite <-E in *. clear E y l. rewrite Hlen.
  destruct (decide (pre ++ post = [])) as [Hnil|Hne].
  - apply app_nil in Hnil as [-> ->]. by rewrite decide_True by (simpl; lia).
  - rewrite (decide_False (P := _ /\ _)) by (intros [_ ?]; apply Hne, nil_length_inv; lia).
    rewrite (decide_False (P := 1 + _ = 0)), decide_True by (rewrite ?length_app; lia). cbn [mbind outcome_bind].
    do 2 f_equal. replace (Z.to_nat (1 + Z.of_nat (length pre) - 1)) with (length pre) by lia. by apply delete_middle.
Qed.

(** Reaping a finished process whose address space others still use: it leaves
    the process list, its node leaves the tree with the whole subtree below it,
    the space has one user less and the process is freed.  Reaping a process
    that has not finished does nothing; reaping the only entry of the process
    list dereferences NULL. *)
Theorem process_reap_spec fuel s p x mm l node nd pre post :
  p <> 0 -> k_procs s !! p = Some x -> k_process_list s = pre ++ p :: post -> p ∉ pre ->
  tree_rep (k_pnodes s) (k_process_tree s) l -> NoDup l.*2 -> (node, p) ∈ l -> node <> t_head (k_process_tree s) ->
  k_pnodes s !! node = Some nd -> (length l <= fuel)%nat ->
  p_page_directory x <> 0 -> k_mms s !! p_page_directory x = Some mm -> 1 < mm_count mm ->
  if decide (Z.land (p_flags x) PROC_FLAG_FINISHED = 0) then process_reap true fuel p s = Done s
  else if decide (pre ++ post = []) then process_reap true fuel p s = Fault
  else exists s' l1 lq l2, process_reap true fuel p s = Done s' /\
    k_procs s' = base.delete p (k_procs s) /\ k_process_list s' = pre ++ post /\
    l = l1 ++ lq ++ l2 /\ tree_at (k_pnodes s') 0 node lq /\ tree_rep (k_pnodes s') (k_process_tree s') (l1 ++ l2) /\
    mm_count <$> k_mms s' !! p_page_directory x = Some (mm_count mm - 1).
Proof.
  intros Hp Hx El Hpre Hrep Hnd Hin Hhd Hnode Hf Hpd Hmm Hcnt. unfold process_reap.
  rewrite (proc_at_done s p x) by done. cbn [mbind outcome_bind]. destruct (decide (Z.land _ _ = 0)); [done|].
  unfold remove_from_tree. rewrite (find_in_tree_node fuel s l node) by done. cbn [mbind outcome_bind].
  assert (Hk : node ∈ l.*1) by by apply (list_elem_of_fmap_2 fst _ (node, p)).
  rewrite (decide_False (P := node = 0)) by (apply (tree_rep_node _ _ _ _ Hrep Hk)).
  destruct (tree_remove_rep fuel _ _ l node nd Hrep Hk Hhd Hnode Hf) as [(ns' & h & l1 & lq & l2 & -> & _ & El2 & Hq & Hrep') _].
  cbn [mbind outcome_bind]. rewrite (remove_from_list_ok _ p pre post) by done.
  destruct (decide (pre ++ post = [])); [done|]. cbn [mbind outcome_bind]. unfold drop_space. simpl.
  rewrite (at_live _ _ mm) by done. cbn [mbind outcome_bind]. rewrite decide_False by lia. cbn [mbind outcome_bind].
  eexists _, l1, lq, l2. split; [done|]. simpl. rewrite lookup_insert_eq. done.
Qed.

End Reap.

(** ** A machine with two threads *)

#[export] Instance bump_calloc : Calloc.
Proof. refine {| new_key := fun A m => next_key m |}. intros A m. apply next_key_fresh. Defined.

(** A driver whose close does nothing. *)
#[export] Instance no_close : CloseOp unit := {| close_op := fun _ v => Done v |}.

Definition blank_regs : regs_t := mk_regs 0 0 0 0 0 0 0 0 0 0 0 0 0 0 7 0 0 0 0 0 0 0.
Definition demo_table (hs : list Z) : fd_table_t := mk_fdt 4 (Z.of_nat (length (used hs))) hs 0 false.
Definition demo_user : process := mk_process 11 0 0 0 11 1 PROC_FLAG_RUNNING 0 0 31 (demo_thread 11) 80 60 None 0 false.
Definition demo_machine (hs : list Z) : kstate frames unit :=
  mk_ks {[ 10 := demo_process 10; 11 := demo_user; 12 := demo_process 12 ]}
    {[ 30 := mk_mm 4096 0 1 false; 31 := mk_mm 4096 0 1 false; 32 := mk_mm 4096 0 1 false ]}
    {[ 60 := demo_table hs ]} {[ 70 := mk_kh sizeof_handle (mk_fh 5 0 0); 71 := mk_kh sizeof_handle (mk_fh 6 0 0) ]}
    {[ 80 := blank_regs ]} ∅ ∅ [10; 11; 12] [12] [] {[ 1 := mk_tn 11 [2] 0; 2 := mk_tn 12 [] 1 ]} (mk_tree 1 2)
    false false false (mk_pcb 11 0 10 0) 12 100 (mk_context 1 2 3 4 5 6 7 8 9) 4096 0 boot_kernel demo_vfs.

Lemma demo_has_table hs : length hs = 4%nat -> NoDup (used hs) -> (forall h, h ∈ used hs -> h = 70 \/ h = 71) ->
  has_table (demo_machine hs) demo_user (demo_table hs).
Proof.
  intros Hl Hnd Hin. split; try done. split; simpl; try done; [by rewrite Hl|].
  intros h Hh. destruct (Hin h Hh) as [->| ->]; by eexists.
Qed.

Lemma demo_process_tree : tree_rep {[ 1 := mk_tn 11 [2] 0; 2 := mk_tn 12 [] 1 ]} (mk_tree 1 2) [(1, 11); (2, 12)].
Proof.
  constructor; [|apply (bool_decide_unpack _); reflexivity]. right. econstructor; [done|reflexivity|].
  apply (forest_cons _ _ 2 [] [(2, 12)] []); [|constructor]. econstructor; [done|reflexivity|constructor].
Qed.

Lemma demo_runs hs : runnable (demo_machine hs) 11 [12].
Proof.
  split; [reflexivity|reflexivity|by apply (bool_decide_unpack _)|by apply (bool_decide_unpack _)| |reflexivity].
  intros p Hp. repeat (apply elem_of_cons in Hp as [->|Hp]; [split; [done|eexists _, _; split; [reflexivity|split; [done|reflexivity]]]|]).
  by apply elem_of_nil in Hp.
Qed.

Definition demo_slots : list Z := [70; 0; 71; 0].
Lemma demo_slots_table : has_table (demo_machine demo_slots) demo_user (demo_table demo_slots).
Proof.
  apply demo_has_table; [done|by apply (bool_decide_unpack _)|].
  intros h Hh. change (used demo_slots) with [70; 71] in Hh. apply elem_of_cons in Hh as [->|Hh]; [by left|].
  apply list_elem_of_singleton in Hh as ->. by right.
Qed.

Example process_open_fd_lowest_witness :
  exists i s' t' h, process_open_fd 5 0 (demo_machine demo_slots) = Done (Z.of_nat i, s') /\
    demo_slots !! i = Some 0 /\ (forall j, (j < i)%nat -> demo_slots !! j <> Some 0) /\
    has_table s' demo_user t' /\ ft_handles t' = <[i := h]> demo_slots /\ k_handles (demo_machine demo_slots) !! h = None /\
    k_handles s' = <[h := mk_kh sizeof_handle (mk_fh 5 0 0)]> (k_handles (demo_machine demo_slots)).
Proof. exact (process_open_fd_lowest (demo_machine demo_slots) demo_user (demo_table demo_slots) 5 0 demo_slots_table). Defined.

Example process_close_fd_spec_witness :
  exists y, k_handles (demo_machine demo_slots) !! 71 = Some y /\
    forall v, close_op (h_node (kh y)) (k_vfs (demo_machine demo_slots)) = Done v ->
    exists s' t', process_close_fd 2 (demo_machine demo_slots) = Done s' /\ has_table s' demo_user t' /\ k_vfs s' = v /\
      ft_handles t' = [70; 0; 0; 0] /\ k_handles s' = base.delete 71 (k_handles (demo_machine demo_slots)).
Proof. exact (process_close_fd_spec (demo_machine demo_slots) demo_user (demo_table demo_slots) 2 demo_slots_table ltac:(lia)). Defined.

Example process_open_close_witness :
  process_open_fd 5 0 (demo_machine demo_slots)
    = Done (1, put_fdt 60 (mk_fdt 4 3 [70; 72; 71; 0] 0 false)
                 (set_k_handles (<[72 := mk_kh 32 (mk_fh 5 0 0)]> (k_handles (demo_machine demo_slots))) (demo_machine demo_slots))) /\
  process_close_fd 1 (put_fdt 60 (mk_fdt 4 3 [70; 72; 71; 0] 0 false)
                 (set_k_handles (<[72 := mk_kh 32 (mk_fh 5 0 0)]> (k_handles (demo_machine demo_slots))) (demo_machine demo_slots)))
    = Done (set_k_vfs demo_vfs (demo_machine demo_slots)).
Proof.
  assert (E : process_open_fd 5 0 (demo_machine demo_slots) = Done (1, put_fdt 60 (mk_fdt 4 3 [70; 72; 71; 0] 0 false)
      (set_k_handles (<[72 := mk_kh 32 (mk_fh 5 0 0)]> (k_handles (demo_machine demo_slots))) (demo_machine demo_slots)))) by reflexivity.
  split; [exact E|].
  exact (process_open_close (demo_machine demo_slots) demo_user (demo_table demo_slots) 5 0 1 _ demo_vfs demo_slots_table E
    ltac:(lia) eq_refl).
Defined.

Example fd_table_invariant_witness : exists s' t',
  rtc fd_call (demo_machine demo_slots) s' /\ has_table s' demo_user t' /\ get_current_process s' = 11.
Proof.
  destruct (process_close_fd 2 (demo_machine demo_slots)) as [s'| | |] eqn:E; [|discriminate E..].
  assert (Hr : rtc fd_call (demo_machine demo_slots) s') by (apply rtc_once; by apply (call_close _ 2)).
  destruct (fd_table_invariant (demo_machine demo_slots) s' demo_user (demo_table demo_slots) demo_slots_table Hr) as [t' Ht].
  exists s', t'. split; [exact Hr|]. split; [exact Ht|]. revert E. by intros [= <-].
Defined.

Example process_fork_overflows_witness :
  70 ∈ used demo_slots /\ forall r, process_fork 5 9 90 (demo_machine demo_slots) <> Done r.
Proof.
  assert (H : 70 ∈ used demo_slots) by by apply (bool_decide_unpack _). split; [exact H|]. intros r.
  exact (process_fork_overflows 5 9 90 (demo_machine demo_slots) demo_user (demo_table demo_slots) 70 r demo_slots_table H).
Defined.

(** No open files, and a page of the program at 0x400000. *)
Definition demo_empty : kstate frames unit := set_k_vmem loaded_kernel (demo_machine [0; 0; 0; 0]).

Lemma demo_empty_table : has_table demo_empty demo_user (demo_table [0; 0; 0; 0]).
Proof.
  assert (H : has_table (demo_machine [0; 0; 0; 0]) demo_user (demo_table [0; 0; 0; 0])).
  { apply demo_has_table; [reflexivity|constructor|]. intros h Hh. change (used [0; 0; 0; 0]) with (@nil Z) in Hh. by apply elem_of_nil in Hh. }
  destruct H as [? ? ? ? ? []]. constructor; [assumption..|]. constructor; assumption.
Qed.

(** The calls of the memory manager that fork makes on it return. *)
Lemma demo_fork_memory : exists m s1 stack v,
  clone_space (set_k_next_pid 13 demo_empty) = Done (m, s1) /\
  memmgr_create_stack false 16384 (k_vmem s1) = Done (stack, v) /\ 0 <= stack < 2 ^ 64 - 16384.
Proof.
  assert (H : match clone_space (set_k_next_pid 13 demo_empty) with
              | Done (m, s1) => match memmgr_create_stack false 16384 (k_vmem s1) with
                                | Done (stack, v) => (0 <=? stack) && (stack <? 2 ^ 64 - 16384)
                                | _ => false
                                end
              | _ => false
              end = true) by (vm_compute; reflexivity).
  destruct (clone_space _) as [[m s1]| | |]; [|discriminate H..].
  destruct (memmgr_create_stack _ _ _) as [[stack v]| | |] eqn:E; [|discriminate H..].
  exists m, s1, stack, v. split; [done|]. split; [exact E|]. apply andb_true_iff in H as [H1%Z.leb_le H2%Z.ltb_lt]. lia.
Qed.


Example process_exit_spec_witness : exists s', process_exit true 5 5 3 (demo_machine demo_slots) = Done (Ended s') /\
    get_current_process s' = 12 /\ k_thread_queue s' = [] /\
    rest_of s' 11 = Some (set_p_main_thread zero_thread (exited demo_user (demo_table demo_slots) 3)) /\
    (forall p, p <> 11 -> rest_of s' p = rest_of (demo_machine demo_slots) p /\ ctx_of s' p = ctx_of (demo_machine demo_slots) p) /\
    (forall h, k_handles s' !! h = if decide (h ∈ [70; 71]) then None else k_handles (demo_machine demo_slots) !! h) /\
    k_fdts s' = base.delete 60 (k_fdts (demo_machine demo_slots)).
Proof.
  apply (process_exit_spec 5 5 3 (demo_machine demo_slots) demo_user (demo_table demo_slots) 12 [] (demo_runs _) demo_slots_table);
    [done|simpl; lia|].
  intros _. exists [(1, 11); (2, 12)], 1. split; [exact demo_process_tree|].
  split; [apply (bool_decide_unpack _); reflexivity|]. split; [apply elem_of_cons; by left|simpl; lia].
Defined.

Example process_get_all_children_preorder_witness :
  process_get_all_children 5 11 demo_empty = Done (Some [12]) /\ process_get_all_children 5 99 demo_empty = Done None.
Proof.
  split.
  - apply (proj1 (process_get_all_children_preorder 5 demo_empty 11 [(1, 11); (2, 12)] demo_process_tree
      ltac:(done) ltac:(apply (bool_decide_unpack _); reflexivity) ltac:(simpl; lia)) 0 1 [(2, 12)]).
    + destruct (tr_root _ _ _ demo_process_tree) as [[? _]|Ht]; [done|exact Ht].
    + apply elem_of_cons. by left.
    + simpl. lia.
  - apply (proj2 (process_get_all_children_preorder 5 demo_empty 99 [(1, 11); (2, 12)] demo_process_tree
      ltac:(done) ltac:(apply (bool_decide_unpack _); reflexivity) ltac:(simpl; lia))).
    apply (bool_decide_unpack _). reflexivity.
Defined.

(** Process 12 has finished; its address space has another user. *)
Definition demo_zombie : kstate frames unit :=
  set_k_mms (<[32 := mk_mm 4096 0 2 false]> (k_mms demo_empty))
    (put_proc 12 (set_p_flags PROC_FLAG_FINISHED (demo_process 12)) demo_empty).

Example process_reap_spec_witness : exists s' l1 lq l2, process_reap true 5 12 demo_zombie = Done s' /\
    k_procs s' = base.delete 12 (k_procs demo_zombie) /\ k_process_list s' = [10; 11] /\
    [(1, 11); (2, 12)] = l1 ++ lq ++ l2 /\ tree_at (k_pnodes s') 0 2 lq /\
    tree_rep (k_pnodes s') (k_process_tree s') (l1 ++ l2) /\ mm_count <$> k_mms s' !! 32 = Some 1.
Proof.
  apply (process_reap_spec 5 demo_zombie 12 (set_p_flags PROC_FLAG_FINISHED (demo_process 12)) (mk_mm 4096 0 2 false)
    [(1, 11); (2, 12)] 2 (mk_tn 12 [] 1) [10; 11] []); try reflexivity.
  - done.
  - by apply (bool_decide_unpack _).
  - exact demo_process_tree.
  - apply (bool_decide_unpack _). reflexivity.
  - apply elem_of_cons. right. apply elem_of_cons. by left.
  - done.
  - simpl. lia.
  - done.
Defined.

Example get_cwd_name_terminates_witness : exists s', get_cwd_name 5 1 demo_empty = Done ([47], s').
Proof. exact (get_cwd_name_terminates 5 demo_empty demo_user 0 ltac:(done) eq_refl). Defined.
