(* ===== verification/UserMem.v ===== *)
(** The user memory as the kernel reaches it through pointer arguments: little-
    endian fields, buffers and strings (used by kernel/sys/syscall.c).

    The bytes are those of Memory; an access outside the mapped bytes is a
    fault.  A field that was stored is read back, and a store leaves every
    other field alone. *)
From stdpp Require Import base list gmap fin_sets.
From Stdlib Require Import ZArith Lia.
From S2P Require Import Prelude Memory.

#[local] Open Scope Z_scope.

(** ** Accesses *)

Fixpoint load_bytes (n : nat) (m : mem) (p : Z) : outcome (list Z) :=
  match n with O => Done [] | S n => b ← load m p; l ← load_bytes n m (p + 1); Done (b :: l) end.
Definition load_le (n : nat) (m : mem) (p : Z) : outcome Z := l ← load_bytes n m p; Done (le l).
Definition store_le (n : nat) (m : mem) (p v : Z) : outcome mem := _ ← load_bytes n m p; Done (write_bytes m p (to_le n v)).

(** An array of [n] longs, as a sigset_t is. *)
Fixpoint load_words (n : nat) (m : mem) (p : Z) : outcome (list Z) :=
  match n with O => Done [] | S n => w ← load_le 8 m p; l ← load_words n m (p + 8); Done (w :: l) end.
Fixpoint store_words (l : list Z) (m : mem) (p : Z) : outcome mem :=
  match l with [] => Done m | w :: l => m ← store_le 8 m p w; store_words l m (p + 8) end.

(** The mapped bytes from [p] on, at most [n] of them: the part of a buffer that
    a driver can touch without a fault. *)
Fixpoint run_at (n : nat) (m : mem) (p : Z) : list Z :=
  match n with O => [] | S n => match m !! p with Some b => b :: run_at n m (p + 1) | None => [] end end.
Definition user_buffer (m : mem) (p size : Z) : list Z := run_at (Z.to_nat (Z.min size (Z.of_nat (base.size (dom m))))) m p.

(** A C string, up to its terminator. *)
Fixpoint user_chars (n : nat) (m : mem) (p : Z) : outcome (list Z) :=
  match n with
  | O => OutOfFuel
  | S n => c ← load m p; if decide (c = 0) then Done [] else l ← user_chars n m (p + 1); Done (c :: l)
  end.
Definition user_string (m : mem) (p : Z) : outcome (list Z) := user_chars (S (base.size (dom m))) m p.

(** ** Bytes *)

Lemma load_bytes_done n m p l : load_bytes n m p = Done l <-> bytes_at m p l /\ length l = n.
Proof.
  revert p l. induction n as [|n IH]; intros p l; cbn [load_bytes].
  - split; [intros [= <-]; split; [apply bytes_at_nil|done]|]. by intros [_ ->%nil_length_inv].
  - split.
    + rewrite outcome_bind_done. intros (b & Hb & (r & Hr & [= <-])%outcome_bind_done). apply IH in Hr as [Hr Hl].
      unfold load in Hb. destruct (m !! p) as [c|] eqn:E; [|done]. injection Hb as ->. split; [by apply bytes_at_cons|simpl; lia].
    + intros [H Hl]. destruct l as [|b l]; [done|]. apply bytes_at_cons in H as [Hb H]. rewrite (load_done _ _ b) by done.
      cbn [mbind outcome_bind]. assert (Hr : load_bytes n m (p + 1) = Done l) by (apply IH; split; [done|simpl in Hl; lia]). by rewrite Hr.
Qed.

Lemma load_bytes_mapped n m p : mapped m p (Z.of_nat n) -> exists l, load_bytes n m p = Done l.
Proof.
  revert p. induction n as [|n IH]; intros p H; [by eexists|]. destruct (H p) as [b Hb]; [lia|].
  destruct (IH (p + 1)) as [l Hl]; [intros q Hq; apply H; lia|]. exists (b :: l). cbn [load_bytes]. rewrite (load_done _ _ b) by done. by rewrite Hl.
Qed.

(** ** Fields *)

Lemma le_to_le_mod n v : le (to_le n v) = v mod 256 ^ Z.of_nat n.
Proof.
  revert v. induction n as [|n IH]; intros v; [by rewrite Z.mod_1_r|]. cbn [to_le le foldr]. fold (le (to_le n (v / 256))). rewrite IH.
  rewrite Nat2Z.inj_succ, Z.pow_succ_r by lia. rewrite Z.rem_mul_r by lia. lia.
Qed.

Lemma store_le_done n m p v : mapped m p (Z.of_nat n) -> store_le n m p v = Done (write_bytes m p (to_le n v)).
Proof. intros H. unfold store_le. by destruct (load_bytes_mapped n m p H) as [l ->]. Qed.

Lemma load_le_stored n m p v : load_le n (write_bytes m p (to_le n v)) p = Done (v mod 256 ^ Z.of_nat n).
Proof.
  unfold load_le. rewrite (proj2 (load_bytes_done n _ p (to_le n v))) by (split; [apply write_bytes_at|apply to_le_length]).
  cbn [mbind outcome_bind]. by rewrite le_to_le_mod.
Qed.

Lemma load_bytes_agree n m m' p : (forall q, p <= q < p + Z.of_nat n -> m' !! q = m !! q) -> load_bytes n m' p = load_bytes n m p.
Proof.
  revert p. induction n as [|n IH]; intros p H; [done|]. cbn [load_bytes]. unfold load. rewrite (H p) by lia. rewrite IH by (intros; apply H; lia). done.
Qed.

Lemma load_le_out n m p q l : p + Z.of_nat (length l) <= q \/ q + Z.of_nat n <= p -> load_le n (write_bytes m p l) q = load_le n m q.
Proof. intros H. unfold load_le. rewrite (load_bytes_agree n m); [done|]. intros r Hr. apply write_bytes_lookup_out. lia. Qed.

(** ** Buffers *)

Lemma mapped_size m p n : 0 <= n -> mapped m p n -> n <= Z.of_nat (base.size (dom m)).
Proof.
  intros Hn H. assert (Hs : list_to_set (seqZ p n) ⊆ dom m).
  { intros q Hq. apply elem_of_list_to_set, elem_of_seqZ in Hq. apply elem_of_dom. apply H. lia. }
  apply subseteq_size in Hs. rewrite size_list_to_set in Hs by apply NoDup_seqZ. rewrite length_seqZ in Hs. lia.
Qed.

Lemma run_at_length n m p : mapped m p (Z.of_nat n) -> length (run_at n m p) = n.
Proof.
  revert p. induction n as [|n IH]; intros p H; [done|]. cbn [run_at]. destruct (H p) as [b ->]; [lia|]. cbn [length]. rewrite IH; [done|].
  intros q Hq. apply H. lia.
Qed.

Lemma user_buffer_length m p n : 0 <= n -> mapped m p n -> length (user_buffer m p n) = Z.to_nat n.
Proof.
  intros Hn H. pose proof (mapped_size m p n Hn H). unfold user_buffer. rewrite Z.min_l by lia. apply run_at_length. by rewrite Z2Nat.id by lia.
Qed.

Lemma user_chars_done n m p s : cstring m p s -> (length s < n)%nat -> user_chars n m p = Done s.
Proof.
  revert p s. induction n as [|n IH]; intros p s Hs Hl; [lia|]. cbn [user_chars]. rewrite (load_done _ _ (default 0 (head s))) by (by apply cstring_head).
  cbn [mbind outcome_bind]. destruct s as [|c s]; simpl; [done|]. apply cstring_cons in Hs as (_ & Hc & Hs). rewrite decide_False by lia.
  rewrite (IH (p + 1) s) by (done || (simpl in Hl; lia)). done.
Qed.

Lemma user_string_done m p s : cstring m p s -> user_string m p = Done s.
Proof.
  intros Hs. apply user_chars_done; [done|]. destruct Hs as [Hb _]. apply bytes_at_mapped in Hb. apply mapped_size in Hb; [|lia].
  rewrite length_app in Hb. simpl in Hb. lia.
Qed.
