(* ===== verification/SysFiles.v ===== *)
(** kernel/sys/syscall.c, the calls on files: descriptors, paths, stat, vectors.

    [sys] is the state a system call runs in: the kernel of Procs, the bytes of
    the user memory of the process that calls, the signal state of every process
    and the waiters of sys_futex.  A pointer argument is an address of the user
    memory; an access outside of it is a fault.  What mlibc, which is not part
    of the repository, fixes - error numbers, flag values, the places of the
    fields of its structures - is the interface [SysAbi].  The user memory is
    that of the calling process and does not change its extent in a call. *)
From stdpp Require Import base list gmap.
From Stdlib Require Import ZArith Lia.
From S2P Require Import Prelude Memory UserMem HashTable Frames Paging KTree Vfs Tarfs Mutex Signals Procs Scheduler Process.

#[local] Open Scope Z_scope.

(** ** What mlibc fixes *)

Inductive stat_field :=
  | st_dev | st_ino | st_nlink | st_mode | st_uid | st_gid | st_blksize | st_size | st_blocks
  | st_atim_sec | st_atim_nsec | st_mtim_sec | st_mtim_nsec | st_ctim_sec | st_ctim_nsec.
#[export] Instance stat_field_eq : EqDecision stat_field.
Proof. solve_decision. Defined.

(** [stat_at]: the offset and the width of a field of struct stat.  The other
    structures have fields of the widths that POSIX gives them on this machine:
    8 for a pointer, a size or a long, 4 for an int, 2 for a short. *)
Class SysAbi := mk_sys_abi {
  EFAULT : Z; ESPIPE : Z; ERANGE : Z; ENOSYS : Z; ENOTTY : Z; ENOSPC : Z; ERESTART : Z; EINTR : Z; EAGAIN : Z;
  S_IRWXU : Z; S_IRWXG : Z; SEEK_SET : Z; SEEK_CUR : Z; SEEK_END : Z;
  F_OK : Z; R_OK : Z; W_OK : Z; X_OK : Z;
  S_IRUSR : Z; S_IWUSR : Z; S_IXUSR : Z; S_IRGRP : Z; S_IWGRP : Z; S_IXGRP : Z; S_IROTH : Z; S_IWOTH : Z; S_IXOTH : Z;
  POLLIN : Z; POLLOUT : Z; POLLNVAL : Z; O_TRUNC : Z; WNOHANG : Z; SA_RESTART : Z;
  stat_at : stat_field -> Z * nat;
  sizeof_iovec : Z; iov_base_at : Z; iov_len_at : Z;
  sizeof_pollfd : Z; pfd_fd_at : Z; pfd_events_at : Z; pfd_revents_at : Z;
  tv_sec_at : Z; tv_nsec_at : Z;
  sa_handler_at : Z; sa_mask_at : Z; sa_flags_at : Z; sa_restorer_at : Z
}.

(** The ioctl of a node: none when the pointer in its file_ops is NULL. *)
Class IoctlOp (D : Type) := { ioctl_op : Z -> Z -> Z -> mem * vfs D -> outcome (option (Z * (mem * vfs D))) }.

(** ** State *)

(** The rest of a process_t: signalHandlers, blocked_signals, pending_signals,
    and the number of the interrupted system call. *)
Record sig_state := mk_sig { g_handlers : list signal_handler_t; g_blocked : sigset; g_pending : sigset; g_syscall : Z }.

Record sys (F D : Type) := mk_sys {
  y_k : kstate F D; y_mem : mem; y_frames : gmap Z sval; y_sigs : gmap Z sig_state; futex_queue : hashtable; futex_lock : bool
}.
Arguments mk_sys {F D}.
Arguments y_k {F D}.
Arguments y_mem {F D}.
Arguments y_frames {F D}.
Arguments y_sigs {F D}.
Arguments futex_queue {F D}.
Arguments futex_lock {F D}.

Definition set_k {F D} (k : kstate F D) (y : sys F D) : sys F D :=
  mk_sys k (y_mem y) (y_frames y) (y_sigs y) (futex_queue y) (futex_lock y).
Definition set_mem {F D} (m : mem) (y : sys F D) : sys F D :=
  mk_sys (y_k y) m (y_frames y) (y_sigs y) (futex_queue y) (futex_lock y).
Definition set_sigs {F D} (g : gmap Z sig_state) (y : sys F D) : sys F D :=
  mk_sys (y_k y) (y_mem y) (y_frames y) g (futex_queue y) (futex_lock y).
Definition set_futex {F D} (q : hashtable) (l : bool) (y : sys F D) : sys F D :=
  mk_sys (y_k y) (y_mem y) (y_frames y) (y_sigs y) q l.

(** ** The calls *)

Definition FILE_TYPE_NAMED_PIPE : Z := 0x6.
Definition FILE_TYPE_SOCKET : Z := 0x10.
Definition S_IFSOCK : Z := 0xC000.
Definition S_IFREG : Z := 0x8000.
Definition S_IFBLK : Z := 0x6000.
Definition S_IFDIR : Z := 0x4000.
Definition S_IFCHR : Z := 0x2000.
Definition S_IFIFO : Z := 0x1000.

(** The type bits that the switch of the three stat calls gives. *)
Definition type_bits (type : Z) : Z :=
  if decide (type = FILE_TYPE_MOUNT_POINT \/ type = FILE_TYPE_DIR) then S_IFDIR
  else if decide (type = FILE_TYPE_FILE) then S_IFREG
  else if decide (type = FILE_TYPE_VIRTUAL_DEVICE) then S_IFCHR
  else if decide (type = FILE_TYPE_BLOCK_DEVICE) then S_IFBLK
  else if decide (type = FILE_TYPE_NAMED_PIPE) then S_IFIFO
  else if decide (type = FILE_TYPE_SOCKET) then S_IFSOCK
  else S_IFREG.

Section Files.
Context {F D : Type} `{FA : FrameAllocator F} `{CA : Calloc} `{CO : CloseOp D} `{NA : NodeAlloc} `{Drv : Drivers D}
  `{Env : VfsEnv D} `{Abi : SysAbi} `{IO : IoctlOp D}.
(** [fuel]: of the searches in the file tree and the path loops; [depth]: of the
    recursion between open and get_cwd_name (Process.get_cwd_name_terminates);
    [stale], [junk]: as in Vfs. *)
Context (fuel depth : nat) (stale : bool) (junk : Z).
Abbreviation state := (sys F D).

(** CHECK_PTR: the comparison is unsigned. *)
Definition CHECK_PTR (ptr : Z) (y : state) : bool :=
  bool_decide (u64 ptr < 0xfffffe0000000000) && memmgr_check_user (u64 ptr) (k_vmem (y_k y)).

Definition current (y : state) : outcome process := proc_at (y_k y) (get_current_process (y_k y)).
Definition table_of (y : state) : outcome fd_table_t := x ← current y; fdt_at (y_k y) (p_fd_table x).

(** The test and the array access with which the calls on a descriptor begin. *)
Inductive fd_lookup := NoFd | FdHandle (h : Z).
Definition handle_of (fd : Z) (y : state) : outcome fd_lookup :=
  t ← table_of y;
  if decide (ft_capacity t < fd) then Done NoFd
  else h ← aget (ft_handles t) fd; Done (if decide (h = 0) then NoFd else FdHandle h).

Definition handle_at (h : Z) (y : state) : outcome file_handle := x ← at_ (k_handles (y_k y)) h; Done (kh x).
Definition put_handle (h : Z) (f : file_handle) (y : state) : outcome state :=
  x ← at_ (k_handles (y_k y)) h; Done (set_k (set_k_handles (<[h := mk_kh (kh_bytes x) f]> (k_handles (y_k y))) (y_k y)) y).
Definition set_offset (o : Z) (f : file_handle) : file_handle := mk_fh (h_node f) (h_mode f) o.

(** read and write of vfs.c on a buffer in user memory; the result is an int. *)
Definition user_read (f : file_handle) (buffer size : Z) (y : state) : outcome (Z * state) :=
  '(r, bytes, v) ← Vfs.read f (user_buffer (y_mem y) buffer (u64 size)) (u64 size) (k_vfs (y_k y));
  Done (s32 r, set_mem (write_bytes (y_mem y) buffer bytes) (set_k (set_k_vfs v (y_k y)) y)).
Definition user_write (f : file_handle) (buffer size : Z) (y : state) : outcome (Z * file_handle * state) :=
  '(r, f, v) ← Vfs.write f (user_buffer (y_mem y) buffer (u64 size)) (u64 size) (k_vfs (y_k y));
  Done (s32 r, f, set_k (set_k_vfs v (y_k y)) y).

(** [handle->offset += read(handle, ...)] and the same of write, whose handle
    the write may have moved to the end of the file. *)
Definition read_move (h buffer size : Z) (y : state) : outcome (Z * state) :=
  f ← handle_at h y;
  '(readBytes, y) ← user_read f buffer size y;
  f ← handle_at h y;
  y ← put_handle h (set_offset (u64 (h_offset f + readBytes)) f) y;
  Done (readBytes, y).
Definition write_move (h buffer size : Z) (y : state) : outcome (Z * state) :=
  f ← handle_at h y;
  '(written, f, y) ← user_write f buffer size y;
  y ← put_handle h (set_offset (u64 (h_offset f + written)) f) y;
  Done (written, y).

(** sys_read reads the array before it tests the bound. *)
Definition sys_read (fd buffer size : Z) (y : state) : outcome (Z * state) :=
  t ← table_of y;
  handle ← aget (ft_handles t) fd;
  if decide (ft_capacity t < fd) then Done (-1, y)
  else if decide (handle = 0) then Done (-1, y)
  else if negb (CHECK_PTR buffer y) then Done (-1, y)
  else read_move handle buffer size y.

Definition sys_write (fd buffer size : Z) (y : state) : outcome (Z * state) :=
  h ← handle_of fd y;
  match h with
  | NoFd => Done (-1, y)
  | FdHandle handle => if negb (CHECK_PTR buffer y) then Done (-1, y) else write_move handle buffer size y
  end.

(** open of vfs.c on a path in user memory. *)
Definition user_open (path mode : Z) (y : state) : outcome (Z * state) :=
  name ← user_string (y_mem y) path;
  '(node, k) ← open_file fuel depth name (s32 mode) (y_k y);
  Done (node, set_k k y).

(** The pointer is not checked: the string is read first. *)
Definition sys_open (ptr mode : Z) (y : state) : outcome (Z * state) :=
  name ← user_string (y_mem y) ptr;
  if decide (4096 < s32 (Z.of_nat (length name))) then Done (- EFAULT, y)
  else
    '(node, y) ← user_open ptr mode y;
    if decide (node = 0) then Done (- ENOENT, y)
    else '(fd, k) ← process_open_fd node (s32 mode) (y_k y); Done (fd, set_k k y).

Definition sys_close (fd : Z) (y : state) : outcome (Z * state) :=
  k ← process_close_fd (s32 fd) (y_k y); Done (0, set_k k y).

(** *** stat *)

(** The stores into the struct, in order. *)
Definition stat_values (type size : Z) : list (stat_field * Z) :=
  [(st_dev, 0); (st_ino, 0); (st_nlink, 0); (st_mode, Z.lor (type_bits type) (Z.lor S_IRWXU S_IRWXG)); (st_uid, 0); (st_gid, 0);
   (st_blksize, 512); (st_size, size); (st_blocks, size / 512); (st_atim_sec, 0); (st_atim_nsec, 0); (st_mtim_sec, 0);
   (st_mtim_nsec, 0); (st_ctim_sec, 0); (st_ctim_nsec, 0)].

Fixpoint store_fields (statbuf : Z) (l : list (stat_field * Z)) (m : mem) : outcome mem :=
  match l with
  | [] => Done m
  | (f, v) :: l => m ← store_le (stat_at f).2 m (statbuf + (stat_at f).1) v; store_fields statbuf l m
  end.

Definition fill_stat (node statbuf : Z) (y : state) : outcome state :=
  f ← file_at (k_vfs (y_k y)) node;
  m ← store_fields statbuf (stat_values (f_type f) (f_size f)) (y_mem y);
  Done (set_mem m y).

Definition sys_stat (path statbuf : Z) (y : state) : outcome (Z * state) :=
  if negb (CHECK_PTR path y) || negb (CHECK_PTR statbuf y) then Done (- EINVAL, y)
  else
    '(node, y) ← user_open path 0 y;
    if decide (node = 0) then Done (- ENOENT, y) else y ← fill_stat node statbuf y; Done (0, y).

(** Symbolic links do not exist: the same body. *)
Definition sys_lstat (path statbuf : Z) (y : state) : outcome (Z * state) :=
  if negb (CHECK_PTR path y) || negb (CHECK_PTR statbuf y) then Done (- EINVAL, y)
  else
    '(node, y) ← user_open path 0 y;
    if decide (node = 0) then Done (- ENOENT, y) else y ← fill_stat node statbuf y; Done (0, y).

Definition sys_fstat (fd statbuf : Z) (y : state) : outcome (Z * state) :=
  if negb (CHECK_PTR statbuf y) then Done (- EINVAL, y)
  else
    t ← table_of y;
    if decide (ft_capacity t < fd) then Done (-1, y)
    else
      handle ← aget (ft_handles t) fd;
      if decide (handle = 0) then Done (- EINVAL, y)
      else f ← handle_at handle y; y ← fill_stat (h_node f) statbuf y; Done (0, y).

(** *** Offsets *)

Definition sys_lseek (fd offset whence : Z) (y : state) : outcome (Z * state) :=
  h ← handle_of fd y;
  match h with
  | NoFd => Done (-1, y)
  | FdHandle h =>
      f ← handle_at h y;
      n ← file_at (k_vfs (y_k y)) (h_node f);
      if decide (f_type n = FILE_TYPE_VIRTUAL_DEVICE \/ f_type n = FILE_TYPE_NAMED_PIPE) then Done (- ESPIPE, y)
      else
        let o := if decide (whence = SEEK_SET) then u64 offset
                 else if decide (whence = SEEK_CUR) then u64 (h_offset f + offset)
                 else if decide (whence = SEEK_END) then u64 (f_size n + offset) else h_offset f in
        y ← put_handle h (set_offset o f) y;
        Done (s32 o, y)
  end.

(** A handle of its own carries the offset. *)
Definition sys_pread64 (fd buffer size offset : Z) (y : state) : outcome (Z * state) :=
  h ← handle_of fd y;
  match h with
  | NoFd => Done (-1, y)
  | FdHandle h =>
      if negb (CHECK_PTR buffer y) then Done (-1, y)
      else f ← handle_at h y; user_read (set_offset (u64 offset) f) buffer size y
  end.

Definition sys_pwrite64 (fd buffer size offset : Z) (y : state) : outcome (Z * state) :=
  h ← handle_of fd y;
  match h with
  | NoFd => Done (-1, y)
  | FdHandle h =>
      if negb (CHECK_PTR buffer y) then Done (-1, y)
      else f ← handle_at h y; '(written, _, y) ← user_write (set_offset (u64 offset) f) buffer size y; Done (written, y)
  end.

(** *** Vectors: the addresses in the vector are not checked *)

Definition vector_loop (step : Z -> Z -> state -> outcome (Z * state)) (iov iovcnt : Z) (y : state) : outcome (Z * state) :=
  r ← for_ (A := unit) (Z.to_nat (s32 iovcnt)) 0 (fun i '(total, y) =>
    base ← load_le 8 (y_mem y) (iov + sizeof_iovec * i + iov_base_at);
    len ← load_le 8 (y_mem y) (iov + sizeof_iovec * i + iov_len_at);
    '(n, y) ← step base len y;
    Done (inl (s32 (total + n), y))) (0, y);
  match r with inl r => Done r | inr _ => Fault end.

Definition sys_readv (fd iov iovcnt : Z) (y : state) : outcome (Z * state) :=
  h ← handle_of fd y;
  match h with
  | NoFd => Done (-1, y)
  | FdHandle h => if negb (CHECK_PTR iov y) then Done (- EINVAL, y) else vector_loop (read_move h) iov iovcnt y
  end.

Definition sys_writev (fd iov iovcnt : Z) (y : state) : outcome (Z * state) :=
  h ← handle_of fd y;
  match h with
  | NoFd => Done (-1, y)
  | FdHandle h => if negb (CHECK_PTR iov y) then Done (- EINVAL, y) else vector_loop (write_move h) iov iovcnt y
  end.

(** *** Paths *)

(** The permission bits of one class of users against [mode]. *)
Definition denies (mode access_mask r w x : Z) : bool :=
  bool_decide ((Z.land mode R_OK <> 0 /\ Z.land access_mask r = 0) \/ (Z.land mode W_OK <> 0 /\ Z.land access_mask w = 0) \/
               (Z.land mode X_OK <> 0 /\ Z.land access_mask x = 0)).

(** The checks behind the lookup, with the owner, the group and the permission
    bits of the node. *)
Definition access_check (mode uid gid owner owner_group access_mask : Z) : Z :=
  if decide (uid = 0 \/ gid = 0) then 0
  else if decide (mode = F_OK) then 0
  else if decide (owner = u64 uid) then (if denies mode access_mask S_IRUSR S_IWUSR S_IXUSR then - EACCES else 0)
  else if decide (owner_group = u64 gid) then (if denies mode access_mask S_IRGRP S_IWGRP S_IXGRP then - EACCES else 0)
  else (if denies mode access_mask S_IROTH S_IWOTH S_IXOTH then - EACCES else 0).

(** Nodes are calloc'ed and nothing in the kernel writes the three fields. *)
Definition sys_access (pathPtr mode : Z) (y : state) : outcome (Z * state) :=
  if negb (CHECK_PTR pathPtr y) then Done (- EFAULT, y)
  else
    '(node, y) ← user_open pathPtr 0 y;
    if decide (node = 0) then Done (- ENOENT, y)
    else process ← current y; Done (access_check mode (p_uid process) (p_gid process) 0 0 0, y).

(** [strlen(cwd) > size] is unsigned, and the terminator is not counted. *)
Definition sys_getcwd (buf size : Z) (y : state) : outcome (Z * state) :=
  if negb (CHECK_PTR buf y) then Done (- EFAULT, y)
  else if decide (size = 0 \/ buf = 0) then Done (- EINVAL, y)
  else
    '(cwd, k) ← get_cwd_name fuel depth (y_k y);
    let y := set_k k y in
    if decide (u64 size < Z.of_nat (length cwd)) then Done (- ERANGE, y)
    else _ ← load_bytes (S (length cwd)) (y_mem y) buf; Done (0, set_mem (write_bytes (y_mem y) buf (cwd ++ [0])) y).

(** A function of vfs.c that resolves [path] from the working directory. *)
Definition from_cwd {A} (path : list Z) (f : vfs D -> outcome (A * vfs D)) (y : state) : outcome (A * state) :=
  '(name, k) ← (if decide (path = [47]) then Done ([47], y_k y) else get_cwd_name fuel depth (y_k y));
  let v := k_vfs k in
  '(r, v) ← f (mk_vfs (tnodes v) (file_tree v) (files v) (root_node v) (id_generator v) name (drv v));
  Done (r, set_k (set_k_vfs v k) y).

Definition sys_rename (oldpathptr newpathptr : Z) (y : state) : outcome (Z * state) :=
  if negb (CHECK_PTR oldpathptr y) || negb (CHECK_PTR newpathptr y) then Done (- EFAULT, y)
  else
    '(old, y) ← user_open oldpathptr 0 y;
    if decide (old = 0) then Done (- ENOENT, y)
    else new ← user_string (y_mem y) newpathptr; from_cwd new (move_file fuel stale junk old new 0) y.

Definition sys_mkdir (pathptr : Z) (y : state) : outcome (Z * state) :=
  if negb (CHECK_PTR pathptr y) then Done (- EFAULT, y)
  else
    '(node, y) ← user_open pathptr 0 y;
    if decide (node <> 0) then Done (- EEXIST, y)
    else
      path ← user_string (y_mem y) pathptr;
      '(node, y) ← (if short_name path then Done (0, y) else from_cwd path (mkdir fuel path) y);
      Done (if decide (node = 0) then - ENOSPC else 0, y).

Definition sys_rmdir (pathptr : Z) (y : state) : outcome (Z * state) :=
  if negb (CHECK_PTR pathptr y) then Done (- EFAULT, y)
  else
    '(node, y) ← user_open pathptr 0 y;
    if decide (node = 0) then Done (- ENOENT, y)
    else
      f ← file_at (k_vfs (y_k y)) node;
      if decide (f_type f <> FILE_TYPE_DIR) then Done (- ENOTDIR, y)
      else path ← user_string (y_mem y) pathptr; from_cwd path (Vfs.delete fuel stale path) y.

Definition sys_create (pathptr : Z) (y : state) : outcome (Z * state) :=
  sys_open pathptr (Z.lor (Z.lor O_CREAT O_WRONLY) O_TRUNC) y.

Definition sys_link (fd pathptr : Z) (y : state) : outcome (Z * state) :=
  if negb (CHECK_PTR pathptr y) then Done (- EFAULT, y)
  else
    '(node, y) ← user_open pathptr 0 y;
    if decide (node <> 0) then Done (- EEXIST, y)
    else
      h ← handle_of fd y;
      match h with
      | NoFd => Done (- EFAULT, y)
      | FdHandle h => f ← handle_at h y; path ← user_string (y_mem y) pathptr; from_cwd path (link fuel junk f path) y
      end.

Definition sys_unlink (pathptr : Z) (y : state) : outcome (Z * state) :=
  if negb (CHECK_PTR pathptr y) then Done (- EFAULT, y)
  else
    '(node, y) ← user_open pathptr 0 y;
    if decide (node = 0) then Done (- ENOENT, y)
    else path ← user_string (y_mem y) pathptr; from_cwd path (Vfs.delete fuel stale path) y.

(** *** Descriptors *)

(** The flags of a handle are never set: the mode of the copy is 0.  A full
    table gives descriptor -1, whose slot is read all the same. *)
Definition sys_dup (fd : Z) (y : state) : outcome (Z * state) :=
  h ← handle_of fd y;
  match h with
  | NoFd => Done (-1, y)
  | FdHandle h =>
      f ← handle_at h y;
      '(newfd, k) ← process_open_fd (h_node f) 0 (y_k y);
      let y := set_k k y in
      t ← table_of y;
      newHandle ← aget (ft_handles t) newfd;
      f ← handle_at h y;
      g ← handle_at newHandle y;
      y ← put_handle newHandle (set_offset (h_offset f) g) y;
      Done (newfd, y)
  end.

Definition sys_ioctl (fd operation args : Z) (y : state) : outcome (Z * state) :=
  if negb (CHECK_PTR args y) then Done (- EFAULT, y)
  else
    h ← handle_of fd y;
    match h with
    | NoFd => Done (-1, y)
    | FdHandle h =>
        f ← handle_at h y;
        r ← ioctl_op (h_node f) operation args (y_mem y, k_vfs (y_k y));
        match r with
        | None => Done (- ENOTTY, y)
        | Some (r, (m, v)) => Done (s32 r, set_mem m (set_k (set_k_vfs v (y_k y)) y))
        end
    end.
End Files.

(** ** Open descriptors *)

Section Facts.
Context {F D : Type} `{FA : FrameAllocator F} `{CA : Calloc} `{CO : CloseOp D} `{NA : NodeAlloc} `{Drv : Drivers D}
  `{Env : VfsEnv D} `{Abi : SysAbi} `{IO : IoctlOp D}.
Context (fuel depth : nat) (stale : bool) (junk : Z).
Abbreviation state := (sys F D).
Implicit Types y : state.

(** The descriptor [fd] of the current process is open: its slot holds the
    handle [h], whose contents are [f]. *)
Definition opened y (fd h : Z) (f : file_handle) : Prop :=
  exists t, table_of y = Done t /\ 0 <= fd < ft_capacity t /\ ft_handles t !! Z.to_nat fd = Some h /\ h <> 0 /\
    exists n, k_handles (y_k y) !! h = Some (mk_kh n f).

Lemma table_of_has y x t : has_table (y_k y) x t -> table_of y = Done t.
Proof.
  intros [Hc Hx Hf Ht _ _]. unfold table_of, current. rewrite (proc_at_done _ _ x) by done. cbn [mbind outcome_bind]. by apply at_live.
Qed.

Lemma handle_of_opened y fd h f : opened y fd h f -> handle_of fd y = Done (FdHandle h).
Proof.
  intros (t & Ht & Hfd & Hh & Hn & _). unfold handle_of. rewrite Ht. cbn [mbind outcome_bind]. rewrite decide_False by lia.
  rewrite (proj2 (aget_done _ _ h)) by (split; [lia|done]). cbn [mbind outcome_bind]. by rewrite decide_False.
Qed.

Lemma handle_at_opened y fd h f : opened y fd h f -> handle_at h y = Done f.
Proof. intros (t & _ & _ & _ & Hn & n & Hh). unfold handle_at. by rewrite (at_live _ _ (mk_kh n f)). Qed.

(** What put_handle leaves. *)
Definition with_handle (h : Z) (f : file_handle) y : state :=
  match k_handles (y_k y) !! h with
  | Some x => set_k (set_k_handles (<[h := mk_kh (kh_bytes x) f]> (k_handles (y_k y))) (y_k y)) y
  | None => y
  end.

Lemma put_handle_opened y fd h f g : opened y fd h f -> put_handle h g y = Done (with_handle h g y).
Proof. intros (t & _ & _ & _ & Hn & n & Hh). unfold put_handle, with_handle. rewrite (at_live _ _ (mk_kh n f)) by done. by rewrite Hh. Qed.

Lemma with_handle_opened y fd h f g : opened y fd h f -> opened (with_handle h g y) fd h g.
Proof.
  intros (t & Ht & Hfd & Hh & Hn & n & Hk). unfold with_handle. rewrite Hk. exists t. do 4 (split; [done|]). exists n. simpl. apply lookup_insert_eq.
Qed.

(** An operation on memory and files only. *)
Definition with_io (m : mem) (v : vfs D) y : state := set_mem m (set_k (set_k_vfs v (y_k y)) y).

Lemma with_io_opened m v y fd h f : opened y fd h f -> opened (with_io m v y) fd h f.
Proof. done. Qed.

(** Sys_read on an open descriptor is the read of the file, and a move of the
    offset by its result. *)
Lemma sys_read_ok y fd h f buffer size r bytes v : opened y fd h f -> CHECK_PTR buffer y = true ->
  Vfs.read f (user_buffer (y_mem y) buffer (u64 size)) (u64 size) (k_vfs (y_k y)) = Done (r, bytes, v) ->
  sys_read fd buffer size y = Done (s32 r, with_handle h (set_offset (u64 (h_offset f + s32 r)) f) (with_io (write_bytes (y_mem y) buffer bytes) v y)).
Proof.
  intros Ho Hc Hr. pose proof Ho as (t & Ht & Hfd & Hh & Hn & n & Hk). unfold sys_read. rewrite Ht. cbn [mbind outcome_bind].
  rewrite (proj2 (aget_done _ _ h)) by (split; [lia|done]). cbn [mbind outcome_bind]. rewrite decide_False by lia. rewrite decide_False by done.
  rewrite Hc. cbn [negb]. unfold read_move. rewrite (handle_at_opened y fd h f Ho). cbn [mbind outcome_bind]. unfold user_read. rewrite Hr. cbn [mbind outcome_bind].
  fold (with_io (write_bytes (y_mem y) buffer bytes) v y). rewrite (handle_at_opened _ fd h f) by done. cbn [mbind outcome_bind].
  by rewrite (put_handle_opened _ fd h f).
Qed.

(** ** Reading a file to its end *)

(** The contract of a file that is a sequence of bytes: the read of its driver
    gives the bytes from the offset on, as many as were asked for and are there. *)
Definition file_serves (node : Z) (content : list Z) (v : vfs D) : Prop :=
  exists n, file_at v node = Done n /\ op_read (file_ops n) <> 0 /\
    forall buf off len, 0 <= off -> 0 <= len -> off + len < 2 ^ 64 -> (length (take (Z.to_nat len) (drop (Z.to_nat off) content)) <= length buf)%nat ->
      call_read (op_read (file_ops n)) node buf off len v =
        Done (Z.of_nat (length (take (Z.to_nat len) (drop (Z.to_nat off) content))),
              take (Z.to_nat len) (drop (Z.to_nat off) content) ++ drop (length (take (Z.to_nat len) (drop (Z.to_nat off) content))) buf, v).

(** The loop of a program that reads until the call gives no more bytes. *)
Fixpoint read_all (n : nat) (fd buffer chunk : Z) (y : state) : outcome (list Z * state) :=
  match n with
  | O => OutOfFuel
  | S n =>
      '(r, y) ← sys_read fd buffer chunk y;
      if decide (r <= 0) then Done ([], y)
      else
        bytes ← load_bytes (Z.to_nat r) (y_mem y) buffer;
        '(rest, y) ← read_all n fd buffer chunk y;
        Done (bytes ++ rest, y)
  end.

(** One turn, at offset [o]. *)
Lemma sys_read_serves y fd h f buffer chunk content : opened y fd h f -> CHECK_PTR buffer y = true -> file_serves (h_node f) content (k_vfs (y_k y)) ->
  Z.land (h_mode f) O_WRONLY = 0 -> mapped (y_mem y) buffer chunk -> 0 <= chunk < 2 ^ 31 -> 0 <= h_offset f -> h_offset f + chunk < 2 ^ 64 ->
  let data := take (Z.to_nat chunk) (drop (Z.to_nat (h_offset f)) content) in
  exists m, sys_read fd buffer chunk y = Done (Z.of_nat (length data),
      with_handle h (set_offset (h_offset f + Z.of_nat (length data)) f) (with_io m (k_vfs (y_k y)) y)) /\
    load_bytes (length data) m buffer = Done data /\ mapped m buffer chunk.
Proof.
  intros Ho Hc (n & Hn & Hop & Hs) Hm Hmap Hch Hoff Hend data.
  assert (Hlen : (length data <= Z.to_nat chunk)%nat) by (unfold data; rewrite length_take; lia).
  set (buf := user_buffer (y_mem y) buffer chunk). assert (Hbuf : length buf = Z.to_nat chunk) by (apply user_buffer_length; [lia|done]).
  exists (write_bytes (y_mem y) buffer (data ++ drop (length data) buf)).
  assert (Hu : u64 chunk = chunk) by (apply u64_small; lia).
  split; [|split; [|by apply mapped_write_bytes]].
  - rewrite (sys_read_ok y fd h f buffer chunk (Z.of_nat (length data)) (data ++ drop (length data) buf) (k_vfs (y_k y))); [|done|done|].
    + rewrite s32_small by lia. by rewrite u64_small by lia.
    + rewrite Hu. fold buf. unfold Vfs.read. rewrite decide_False by lia. rewrite Hn. cbn [mbind outcome_bind]. rewrite decide_False by done.
      apply Hs; try lia. fold data. lia.
  - apply load_bytes_done. split; [|done]. rewrite write_bytes_app. apply bytes_at_write_out; [right; lia|]. apply write_bytes_at.
Qed.

Lemma take_drop_taken {A} n (l : list A) : take n l ++ drop (length (take n l)) l = l.
Proof.
  rewrite length_take. destruct (decide (n <= length l)%nat); [rewrite Nat.min_l by lia; apply take_drop|].
  rewrite Nat.min_r, take_ge, drop_ge, app_nil_r by lia. done.
Qed.

Lemma with_handle_vfs h f y : k_vfs (y_k (with_handle h f y)) = k_vfs (y_k y).
Proof. unfold with_handle. by destruct (k_handles (y_k y) !! h). Qed.

Lemma with_handle_mem h f y : y_mem (with_handle h f y) = y_mem y.
Proof. unfold with_handle. by destruct (k_handles (y_k y) !! h). Qed.

Lemma with_handle_check h f y p : CHECK_PTR p (with_handle h f y) = CHECK_PTR p y.
Proof. unfold with_handle. by destruct (k_handles (y_k y) !! h). Qed.

Lemma read_all_ok n y fd h f buffer chunk content : opened y fd h f -> CHECK_PTR buffer y = true -> file_serves (h_node f) content (k_vfs (y_k y)) ->
  Z.land (h_mode f) O_WRONLY = 0 -> mapped (y_mem y) buffer chunk -> 0 < chunk < 2 ^ 31 -> Z.of_nat (length content) < 2 ^ 31 ->
  0 <= h_offset f <= Z.of_nat (length content) -> Z.of_nat (length content) - h_offset f <= (Z.of_nat n - 1) * chunk ->
  exists y', read_all n fd buffer chunk y = Done (drop (Z.to_nat (h_offset f)) content, y') /\
    opened y' fd h (set_offset (Z.of_nat (length content)) f) /\ k_vfs (y_k y') = k_vfs (y_k y).
Proof.
  revert y f. induction n as [|n IH]; intros y f Ho Hc Hs Hm Hmap Hch Hlen Hoff Hn; [lia|]. cbn [read_all].
  destruct (sys_read_serves y fd h f buffer chunk content) as (m & Hr & Hl & Hmap'); try done; try lia. rewrite Hr. cbn [mbind outcome_bind].
  set (data := take (Z.to_nat chunk) (drop (Z.to_nat (h_offset f)) content)) in *.
  assert (Hd : length data = Nat.min (Z.to_nat chunk) (length content - Z.to_nat (h_offset f))) by (unfold data; by rewrite length_take, length_drop).
  set (y1 := with_handle h _ (with_io m _ y)) in *. assert (Ho1 : opened y1 fd h (set_offset (h_offset f + Z.of_nat (length data)) f)) by (by apply (with_handle_opened _ fd h f)).
  assert (Hv1 : k_vfs (y_k y1) = k_vfs (y_k y)) by (unfold y1; by rewrite with_handle_vfs).
  destruct (decide (Z.of_nat (length data) <= 0)) as [H0|H0].
  - exists y1. split; [by rewrite drop_ge by lia|]. split; [|done]. by replace (Z.of_nat (length content)) with (h_offset f + Z.of_nat (length data)) by lia.
  - rewrite Nat2Z.id. assert (Hmem : y_mem y1 = m) by (unfold y1; by rewrite with_handle_mem). rewrite Hmem, Hl. cbn [mbind outcome_bind].
    destruct (IH y1 (set_offset (h_offset f + Z.of_nat (length data)) f)) as (y' & Hy & Ho' & Hv'); try done; cbn [set_offset h_offset h_node h_mode]; try lia.
    + unfold y1. by rewrite with_handle_check.
    + cbn [set_offset h_node]. by rewrite Hv1.
    + by rewrite Hmem.
    + rewrite Nat2Z.inj_succ in Hn. destruct (decide (Z.of_nat (length data) = chunk)) as [->|]; [lia|].
      destruct n as [|n]; [lia|]. assert (0 <= Z.of_nat n * chunk) by (apply Z.mul_nonneg_nonneg; lia). lia.
    + exists y'. rewrite Hy. cbn [mbind outcome_bind]. split; [|split; [done|by rewrite Hv']]. do 2 f_equal. cbn [set_offset h_offset].
      rewrite Z2Nat.inj_add, Nat2Z.id, <-drop_drop by lia.
      apply take_drop_taken.
Qed.

(** C30: Opening a path and reading in chunks until a read gives nothing: the path
    gets the lowest free descriptor, and the reads, of any chunk size, yield the
    bytes of the file from its first to its last, once each, and end. *)
Theorem open_then_read_all n y path name mode node k x t content chunk buffer : cstring (y_mem y) path name -> (length name <= 4096)%nat ->
  open_file fuel depth name (s32 mode) (y_k y) = Done (node, k) -> node <> 0 -> has_table k x t -> ft_length t < ft_capacity t -> Z.land (s32 mode) O_WRONLY = 0 ->
  file_serves node content (k_vfs k) -> Z.of_nat (length content) < 2 ^ 31 -> CHECK_PTR buffer (set_k k y) = true -> mapped (y_mem y) buffer chunk -> 0 < chunk < 2 ^ 31 ->
  Z.of_nat (length content) <= (Z.of_nat n - 1) * chunk ->
  exists fd y1 y2, sys_open fuel depth path mode y = Done (Z.of_nat fd, y1) /\ ft_handles t !! fd = Some 0 /\
    (forall j, (j < fd)%nat -> ft_handles t !! j <> Some 0) /\ read_all n (Z.of_nat fd) buffer chunk y1 = Done (content, y2).
Proof.
  intros Hp Hname Hopen Hnode Ht Hroom Hmode Hs Hlen Hc Hmap Hch Hn. destruct (has_free_slot k x t Ht Hroom) as (pre & post & Hh & Hu).
  pose proof (open_fd_ok k x t pre post node (s32 mode) Ht Hh Hu) as Hfd. pose proof (open_fd_table k x t pre post node (s32 mode) Ht Hh) as Ht1. cbn zeta in Hfd, Ht1.
  set (h := new_key (k_handles k)) in *. set (k1 := put_fdt _ _ _) in *. destruct (new_key_fresh (k_handles k)) as [Hh0 _]. fold h in Hh0.
  assert (Ho : opened (set_k k1 y) (Z.of_nat (length pre)) h (mk_fh node (s32 mode) 0)).
  { eexists. split; [by eapply table_of_has|]. cbn [ft_capacity ft_handles]. pose proof Ht as [_ _ _ _ _ [Hcap _ _ _ _]]. rewrite Hcap, Hh, length_app. cbn [length].
    split; [lia|]. rewrite Nat2Z.id. split; [by apply list_lookup_middle|]. split; [done|]. exists sizeof_handle. apply lookup_insert_eq. }
  destruct (read_all_ok n (set_k k1 y) (Z.of_nat (length pre)) h (mk_fh node (s32 mode) 0) buffer chunk content) as (y2 & Hy2 & _); try done; cbn [h_offset]; try lia.
  exists (length pre), (set_k k1 y), y2. split; [|split; [rewrite Hh; by apply list_lookup_middle|split; [|done]]].
  - unfold sys_open, user_open. rewrite (user_string_done _ _ name) by done. cbn [mbind outcome_bind]. rewrite s32_small by lia. rewrite decide_False by lia.
    rewrite Hopen. cbn [mbind outcome_bind]. rewrite decide_False by done. cbn [set_k y_k]. rewrite Hfd. done.
  - intros j Hj E. rewrite Hh, lookup_app_l in E by done. apply list_elem_of_lookup_2 in E. by apply (used_id_nonnull pre 0).
Qed.

(** ** Reading at an offset *)

(** The file handles as they were. *)
Definition restore_handles y0 y : state := set_k (set_k_handles (k_handles (y_k y0)) (y_k y)) y.

Lemma user_read_offset y fd h f g buffer size : opened y fd h f ->
  user_read g buffer size y = ('(r, y1) ← user_read g buffer size (with_handle h g y); Done (r, restore_handles y y1)).
Proof.
  intros (t & _ & _ & _ & _ & n & Hk). unfold user_read, with_handle, restore_handles. rewrite Hk. cbn [set_k y_mem y_k k_vfs set_k_handles].
  destruct (Vfs.read g _ _ _) as [[[r b] v]| | |]; done.
Qed.

(** C36: Sys_pread64 is a seek to the offset and a read, except that the offset of
    the handle stays: with every outcome of the driver. *)
Theorem pread_is_seek_and_read y fd h f n buffer size offset : opened y fd h f -> CHECK_PTR buffer y = true -> file_at (k_vfs (y_k y)) (h_node f) = Done n ->
  f_type n <> FILE_TYPE_VIRTUAL_DEVICE -> f_type n <> FILE_TYPE_NAMED_PIPE ->
  exists y0, sys_lseek fd offset SEEK_SET y = Done (s32 (u64 offset), y0) /\
    sys_pread64 fd buffer size offset y = ('(r, y1) ← sys_read fd buffer size y0; Done (r, restore_handles y y1)).
Proof.
  intros Ho Hc Hn Hd Hp. set (g := set_offset (u64 offset) f). exists (with_handle h g y). split.
  - unfold sys_lseek. rewrite (handle_of_opened y fd h f Ho). cbn [mbind outcome_bind]. rewrite (handle_at_opened y fd h f Ho). cbn [mbind outcome_bind].
    rewrite Hn. cbn [mbind outcome_bind]. rewrite (decide_False (P := _ \/ _)) by (by intros [?|?]). rewrite (decide_True (P := SEEK_SET = SEEK_SET)) by done. cbn zeta.
    fold g. rewrite (put_handle_opened y fd h f g Ho). done.
  - pose proof (with_handle_opened y fd h f g Ho) as Ho'. unfold sys_pread64. rewrite (handle_of_opened y fd h f Ho). cbn [mbind outcome_bind]. rewrite Hc. cbn [negb].
    rewrite (handle_at_opened y fd h f Ho). cbn [mbind outcome_bind]. fold g. rewrite (user_read_offset y fd h f g) by done.
    pose proof (handle_at_opened _ fd h g Ho') as Hat. unfold sys_read. destruct Ho' as (t & Ht & Hfd & Hh & Hn0 & k & Hk). rewrite Ht. cbn [mbind outcome_bind].
    rewrite (proj2 (aget_done _ _ h)) by (split; [lia|done]). cbn [mbind outcome_bind]. rewrite decide_False by lia. rewrite decide_False by done.
    rewrite with_handle_check, Hc. cbn [negb]. unfold read_move. rewrite Hat. cbn [mbind outcome_bind].
    destruct (user_read g buffer size (with_handle h g y)) as [[r y1]| | |] eqn:E; try done. cbn [mbind outcome_bind].
    assert (Hk1 : k_handles (y_k y1) = k_handles (y_k (with_handle h g y))).
    { unfold user_read in E. destruct (Vfs.read _ _ _ _) as [[[? ?] ?]| | |]; [|done..]. cbn [mbind outcome_bind] in E. by injection E as _ <-. }
    assert (Hat1 : handle_at h y1 = Done g) by (unfold handle_at in *; by rewrite Hk1). rewrite Hat1. cbn [mbind outcome_bind].
    unfold put_handle. rewrite Hk1, (at_live _ _ (mk_kh k g)) by done. done.
Qed.

(** ** Descriptors outside the table *)

(** The bound is tested with the wrong comparison, sys_read tests it too late,
    and none of the calls tests for a negative descriptor: the descriptor equal
    to the capacity and every negative one reach outside the array. *)
Theorem descriptor_bounds y x t fd p n o : has_table (y_k y) x t -> CHECK_PTR p y = true ->
  (fd < 0 \/ fd = ft_capacity t ->
     sys_read fd p n y = Fault /\ sys_write fd p n y = Fault /\ sys_lseek fd n o y = Fault /\ sys_pread64 fd p n o y = Fault /\
     sys_pwrite64 fd p n o y = Fault /\ sys_readv fd p n y = Fault /\ sys_writev fd p n y = Fault /\ sys_fstat fd p y = Fault /\
     sys_dup fd y = Fault /\ sys_ioctl fd n p y = Fault) /\
  (ft_capacity t < fd ->
     sys_read fd p n y = Fault /\ sys_write fd p n y = Done (-1, y) /\ sys_lseek fd n o y = Done (-1, y) /\ sys_fstat fd p y = Done (-1, y) /\
     sys_dup fd y = Done (-1, y)).
Proof.
  intros Ht Hc. pose proof (table_of_has y x t Ht) as Htb. pose proof Ht as [_ _ _ _ _ [Hcap _ _ _ _]].
  assert (Hget : fd < 0 \/ ft_capacity t <= fd -> aget (ft_handles t) fd = Fault).
  { intros Hfd. unfold aget, zlookup. case_decide; [|done]. by rewrite lookup_ge_None_2 by lia. }
  split; intros Hfd.
  - assert (Hno : handle_of fd y = Fault) by (unfold handle_of; rewrite Htb; cbn [mbind outcome_bind]; rewrite decide_False by lia; by rewrite Hget by lia).
    unfold sys_read, sys_write, sys_lseek, sys_pread64, sys_pwrite64, sys_readv, sys_writev, sys_fstat, sys_dup, sys_ioctl. rewrite Hno, Htb, Hc. cbn [negb mbind outcome_bind].
    rewrite Hget by lia. rewrite decide_False by lia. done.
  - assert (Hno : handle_of fd y = Done NoFd) by (unfold handle_of; rewrite Htb; cbn [mbind outcome_bind]; by rewrite decide_True by lia).
    unfold sys_read, sys_write, sys_lseek, sys_fstat, sys_dup. rewrite Hno, Htb, Hc. cbn [negb mbind outcome_bind]. rewrite Hget by lia. rewrite decide_True by lia. done.
Qed.

(** Sys_dup gives the lowest free descriptor, on the file and at the offset of
    the old one, but for a mode of 0: what was opened for writing only can be
    read through it.  With a full table it reads the slot -1. *)
Theorem sys_dup_drops_mode y x t fd h f : has_table (y_k y) x t -> opened y fd h f ->
  if decide (ft_length t < ft_capacity t) then
    exists i y' g, sys_dup fd y = Done (Z.of_nat i, y') /\ ft_handles t !! i = Some 0 /\ (forall j, (j < i)%nat -> ft_handles t !! j <> Some 0) /\
      opened y' (Z.of_nat i) g (mk_fh (h_node f) 0 (h_offset f)) /\ opened y' fd h f
  else sys_dup fd y = Fault.
Proof.
  intros Ht Ho. pose proof (table_of_has y x t Ht) as Htb. unfold sys_dup. rewrite (handle_of_opened y fd h f Ho). cbn [mbind outcome_bind]. rewrite (handle_at_opened y fd h f Ho). cbn [mbind outcome_bind].
  destruct Ho as (t0 & Ht0 & Hfd & Hsl & Hn & n & Hk). rewrite Htb in Ht0. injection Ht0 as <-.
  destruct (decide (ft_length t < ft_capacity t)) as [Hroom|Hfull].
  - destruct (has_free_slot (y_k y) x t Ht Hroom) as (pre & post & Hh & Hu). pose proof (open_fd_ok (y_k y) x t pre post (h_node f) 0 Ht Hh Hu) as Hop.
    pose proof (open_fd_table (y_k y) x t pre post (h_node f) 0 Ht Hh) as Ht1. cbn zeta in Hop, Ht1. rewrite Hop. cbn [mbind outcome_bind].
    destruct (new_key_fresh (k_handles (y_k y))) as [Hh0 Hfr]. set (nh := new_key (k_handles (y_k y))) in *. set (k1 := put_fdt _ _ _) in *.
    pose proof Ht as [_ _ _ _ _ [Hcap _ _ _ _]]. assert (Hlen : length (ft_handles t) = (length pre + S (length post))%nat) by (rewrite Hh, length_app; done).
    assert (Htb1 : table_of (set_k k1 y) = Done (mk_fdt (ft_capacity t) (ft_length t + 1) (pre ++ nh :: post) (ft_count t) false)) by (by eapply table_of_has).
    assert (Hne : nh <> h) by congruence. assert (Hnf : fd <> Z.of_nat (length pre)).
    { intros ->. rewrite Nat2Z.id, Hh, list_lookup_middle in Hsl by done. congruence. }
    assert (Hoh : opened (set_k k1 y) fd h f).
    { eexists. split; [exact Htb1|]. split; [done|]. cbn [ft_handles]. split; [|split; [done|exists n; cbn; by rewrite lookup_insert_ne]].
      rewrite Hh in Hsl. destruct (decide (Z.to_nat fd < length pre)%nat); [by rewrite lookup_app_l in Hsl |- * by done|].
      rewrite lookup_app_r in Hsl |- * by lia. destruct (Z.to_nat fd - length pre)%nat eqn:E; [lia|done]. }
    assert (Hon : opened (set_k k1 y) (Z.of_nat (length pre)) nh (mk_fh (h_node f) 0 0)).
    { eexists. split; [exact Htb1|]. cbn [ft_handles ft_capacity]. rewrite Hcap, Hlen, Nat2Z.id. split; [lia|]. split; [by apply list_lookup_middle|]. split; [done|].
      exists sizeof_handle. apply lookup_insert_eq. }
    rewrite Htb1. cbn [mbind outcome_bind ft_handles]. rewrite aget_app. cbn [mbind outcome_bind].
    rewrite (handle_at_opened _ fd h f Hoh), (handle_at_opened _ _ nh _ Hon). cbn [mbind outcome_bind]. rewrite (put_handle_opened _ _ nh _ _ Hon). cbn [mbind outcome_bind].
    exists (length pre), (with_handle nh (mk_fh (h_node f) 0 (h_offset f)) (set_k k1 y)), nh. split; [done|]. split; [rewrite Hh; by apply list_lookup_middle|]. split; [|split].
    + intros j Hj E. rewrite Hh, lookup_app_l in E by done. apply list_elem_of_lookup_2 in E. by apply (used_id_nonnull pre 0).
    + by apply (with_handle_opened _ _ nh (mk_fh (h_node f) 0 0)).
    + destruct Hoh as (t1 & H1 & H2 & H3 & H4 & n1 & H5). unfold with_handle. destruct (k_handles (y_k (set_k k1 y)) !! nh) as [z|]; [|by exists t1; eauto 10].
      exists t1. do 4 (split; [done|]). exists n1. cbn. by rewrite lookup_insert_ne.
  - pose proof Ht as [Hc0 Hx Hf0 Htt Hl [Hcap Hsm Hlen _ _]]. assert (Hop : process_open_fd (h_node f) 0 (y_k y) = Done (-1, y_k y)).
    { unfold process_open_fd. rewrite (read_table (y_k y) x t) by done. by rewrite decide_True by lia. }
    rewrite Hop. cbn [mbind outcome_bind]. assert (Hs : set_k (y_k y) y = y) by (by destruct y). rewrite Hs, Htb. cbn [mbind outcome_bind]. done.
Qed.

(** ** struct stat *)

Definition field_bytes (f : stat_field) : Z := Z.of_nat (stat_at f).2.
Definition apart (f g : stat_field) : Prop :=
  (stat_at f).1 + field_bytes f <= (stat_at g).1 \/ (stat_at g).1 + field_bytes g <= (stat_at f).1.

(** The fields lie inside a struct of [n] bytes and do not overlap. *)
Record stat_layout (n : Z) : Prop := {
  sl_inside : forall f, 0 <= (stat_at f).1 /\ (stat_at f).1 + field_bytes f <= n;
  sl_apart : forall f g, f <> g -> apart f g
}.

Definition holds_field (m : mem) (statbuf : Z) (f : stat_field) (v : Z) : Prop :=
  load_le (stat_at f).2 m (statbuf + (stat_at f).1) = Done (v mod 256 ^ field_bytes f).

Lemma store_fields_ok n statbuf l m : stat_layout n -> NoDup l.*1 -> mapped m statbuf n ->
  exists m', store_fields statbuf l m = Done m' /\ (forall f v, (f, v) ∈ l -> holds_field m' statbuf f v) /\
    (forall f v, f ∉ l.*1 -> holds_field m statbuf f v -> holds_field m' statbuf f v).
Proof.
  intros [Hin Hap]. revert m. induction l as [|[f v] l IH]; intros m Hnd Hm; [exists m; split; [done|]; split; [by intros ? ? ?%not_elem_of_nil|done]|].
  cbn [store_fields]. destruct (Hin f) as [Hf0 Hf1]. unfold field_bytes in Hf1.
  rewrite store_le_done by (apply (mapped_weaken _ statbuf n); [done|lia|lia]). cbn [mbind outcome_bind]. apply NoDup_cons in Hnd as [Hni Hnd].
  destruct (IH (write_bytes m (statbuf + (stat_at f).1) (to_le (stat_at f).2 v)) Hnd) as (m' & Hs & Hl & Hk); [by apply mapped_write_bytes|].
  exists m'. split; [done|]. split.
  - intros g w [[= -> ->]|Hg]%elem_of_cons; [|by apply Hl]. apply Hk; [done|]. apply load_le_stored.
  - intros g w Hg Hw. apply not_elem_of_cons in Hg as [Hgf Hg]. apply Hk; [done|]. unfold holds_field. rewrite load_le_out; [done|]. rewrite to_le_length.
    destruct (Hap f g) as [?|?]; [done|unfold field_bytes in *; lia..].
Qed.

Lemma stat_values_nodup type size : NoDup (stat_values type size).*1.
Proof. apply (bool_decide_unpack _). reflexivity. Qed.

Lemma type_bits_value type : type_bits type =
  match type with 3 => 0x6000 | 4 => 0x2000 | 5 | 7 => 0x4000 | 6 => 0x1000 | 16 => 0xC000 | _ => 0x8000 end.
Proof.
  unfold type_bits, FILE_TYPE_MOUNT_POINT, FILE_TYPE_DIR, FILE_TYPE_FILE, FILE_TYPE_VIRTUAL_DEVICE, FILE_TYPE_BLOCK_DEVICE, FILE_TYPE_NAMED_PIPE, FILE_TYPE_SOCKET.
  case_decide as H1; [by destruct H1 as [-> | ->]|]. repeat (case_decide; [by subst|]).
  destruct type as [|p|p]; try done. do 5 (try destruct p as [p|p|]); try done; exfalso; lia.
Qed.

(** Nothing outside the struct is stored to. *)
Lemma store_fields_frame n statbuf l : forall m m', stat_layout n -> store_fields statbuf l m = Done m' ->
  forall q, q < statbuf \/ statbuf + n <= q -> m' !! q = m !! q.
Proof.
  induction l as [|[f v] l IH]; intros m m' Hl; cbn [store_fields]; [by intros [= ->]|]. intros (m1 & Hs & Hr)%outcome_bind_done q Hq.
  rewrite (IH m1 m' Hl Hr q Hq). unfold store_le in Hs. apply outcome_bind_done in Hs as (bs & _ & [= <-]).
  destruct (sl_inside _ Hl f) as [H1 H2]. unfold field_bytes in H2. apply write_bytes_lookup_out. rewrite to_le_length. lia.
Qed.

(** C35: Sys_fstat fills in the struct.  Read at its place and in its width, st_size
    is the file's size and st_blocks the whole blocks of 512 bytes in it, st_blksize
    is 512; st_mode has the bits of the file's type (block device, character
    device, directory or mount point, pipe, socket, and regular for all else)
    with all rights of the user and the group; the other eleven fields are 0.
    No byte outside of the struct is stored to, and nothing else changes. *)
Theorem fstat_fields_read_back y fd h f n statbuf bytes : opened y fd h f -> CHECK_PTR statbuf y = true -> file_at (k_vfs (y_k y)) (h_node f) = Done n ->
  stat_layout bytes -> mapped (y_mem y) statbuf bytes ->
  exists m, sys_fstat fd statbuf y = Done (0, set_mem m y) /\
    holds_field m statbuf st_size (f_size n) /\ holds_field m statbuf st_blocks (f_size n / 512) /\ holds_field m statbuf st_blksize 512 /\
    holds_field m statbuf st_mode (Z.lor (match f_type n with 3 => 0x6000 | 4 => 0x2000 | 5 | 7 => 0x4000 | 6 => 0x1000 | 16 => 0xC000 | _ => 0x8000 end) (Z.lor S_IRWXU S_IRWXG)) /\
    (forall field, field <> st_size -> field <> st_blocks -> field <> st_blksize -> field <> st_mode -> holds_field m statbuf field 0) /\
    (forall q, q < statbuf \/ statbuf + bytes <= q -> m !! q = y_mem y !! q).
Proof.
  intros Ho Hc Hn Hl Hm. destruct (store_fields_ok bytes statbuf (stat_values (f_type n) (f_size n)) (y_mem y) Hl (stat_values_nodup _ _) Hm) as (m & Hs & Hv & _).
  assert (Hin : forall field v, In (field, v) (stat_values (f_type n) (f_size n)) -> holds_field m statbuf field v) by (intros field v Hi; by apply Hv, list_elem_of_In).
  exists m. split; [|rewrite <-type_bits_value; split_and!; [apply Hin; cbn; tauto..| |by apply (store_fields_frame _ _ _ _ _ Hl Hs)]].
  - pose proof (handle_at_opened y fd h f Ho) as Hh. destruct Ho as (t & Ht & Hfd & Hsl & Hz & k & Hk). unfold sys_fstat. rewrite Hc. cbn [negb].
    rewrite Ht. cbn [mbind outcome_bind]. rewrite decide_False by lia. rewrite (proj2 (aget_done _ _ h)) by (split; [lia|done]). cbn [mbind outcome_bind].
    rewrite decide_False by done. rewrite Hh. cbn [mbind outcome_bind]. unfold fill_stat. rewrite Hn. cbn [mbind outcome_bind]. by rewrite Hs.
  - intros field H1 H2 H3 H4. apply Hin. destruct field; try done; cbn; tauto.
Qed.

(** ** The name of the working directory *)

(** Sys_getcwd stores the name with its terminator whenever the name alone
    fits: with a buffer of exactly as many bytes as the name it stores a byte
    behind the buffer. *)
Theorem getcwd_overflows_by_one y buf size cwd k : get_cwd_name fuel depth (y_k y) = Done (cwd, k) -> CHECK_PTR buf y = true -> buf <> 0 -> 0 < size < 2 ^ 63 ->
  mapped (y_mem y) buf (size + 1) ->
  if decide (size < Z.of_nat (length cwd)) then sys_getcwd fuel depth buf size y = Done (- ERANGE, set_k k y)
  else sys_getcwd fuel depth buf size y = Done (0, set_mem (write_bytes (y_mem y) buf (cwd ++ [0])) (set_k k y)) /\
    (Z.of_nat (length cwd) = size -> write_bytes (y_mem y) buf (cwd ++ [0]) !! (buf + size) = Some 0).
Proof.
  intros Hk Hc Hb Hs Hm. unfold sys_getcwd. rewrite Hc. cbn [negb]. rewrite (decide_False (P := size = 0 \/ buf = 0)) by lia. rewrite Hk. cbn [mbind outcome_bind].
  rewrite u64_small by lia. destruct (decide (size < Z.of_nat (length cwd))) as [Hlt|Hge]; [done|]. split.
  - destruct (load_bytes_mapped (S (length cwd)) (y_mem y) buf) as [l Hl]; [apply (mapped_weaken _ buf (size + 1)); [done|lia|lia]|].
    cbn [set_k y_mem]. rewrite Hl. done.
  - intros Heq. rewrite write_bytes_snoc, Heq. apply lookup_insert_eq.
Qed.
End Facts.

(** ** A process with a file of a tar archive *)

(** The numbers of Linux. *)
Definition linux_stat_at (f : stat_field) : Z * nat :=
  match f with
  | st_dev => (0, 8%nat) | st_ino => (8, 8%nat) | st_nlink => (16, 8%nat) | st_mode => (24, 4%nat) | st_uid => (28, 4%nat) | st_gid => (32, 4%nat)
  | st_size => (48, 8%nat) | st_blksize => (56, 8%nat) | st_blocks => (64, 8%nat) | st_atim_sec => (72, 8%nat) | st_atim_nsec => (80, 8%nat)
  | st_mtim_sec => (88, 8%nat) | st_mtim_nsec => (96, 8%nat) | st_ctim_sec => (104, 8%nat) | st_ctim_nsec => (112, 8%nat)
  end.
#[export] Instance linux_sys : SysAbi := mk_sys_abi 14 29 34 38 25 28 85 4 11 448 56 0 1 2 0 4 2 1 256 128 64 32 16 8 4 2 1 1 4 32 512 1 0x10000000
  linux_stat_at 16 0 8 8 0 4 6 0 8 0 8 136 144.
#[export] Instance no_ioctl D : IoctlOp D := {| ioctl_op := fun _ _ _ _ => Done None |}.

(** Its memory: a path at 512 and a buffer of 200 bytes at 1024, below a user
    mapping of the first 512 GiB.  The file is in the tree already. *)
Definition user_vm : vm frames := mk_vm (fun a => if decide (a = 0x1000) then 0x2087 else 0) demo_frames 0x1000 0 0x1000000 false [].
Definition hello_vfs : vfs tarfs := mk_vfs (<[1 := mk_tn 100 [2] 0]> (<[2 := mk_tn 101 [] 1]> ∅)) (mk_tree 1 2) (files demo_tarfs) 100 4 [47] (drv demo_tarfs).
Definition sys_kernel {D} (hs : list Z) (v : vfs D) : kstate frames D :=
  mk_ks {[ 10 := demo_process 10; 11 := mk_process 11 0 0 0 11 1 PROC_FLAG_RUNNING 0 0 31 (demo_thread 11) 80 60 (Some [47]) 100 false; 12 := demo_process 12 ]}
    {[ 30 := mk_mm 4096 0 1 false; 31 := mk_mm 4096 0 1 false; 32 := mk_mm 4096 0 1 false ]}
    {[ 60 := demo_table hs ]} {[ 70 := mk_kh sizeof_handle (mk_fh 101 0 1); 71 := mk_kh sizeof_handle (mk_fh 101 1 0) ]}
    {[ 80 := blank_regs ]} ∅ ∅ [10; 11; 12] [12] [] {[ 1 := mk_tn 11 [2] 0; 2 := mk_tn 12 [] 1 ]} (mk_tree 1 2)
    false false false (mk_pcb 11 0 10 0) 12 100 (mk_context 1 2 3 4 5 6 7 8 9) 4096 0 user_vm v.
Definition user_bytes : mem := write_bytes (write_bytes ∅ 512 (47 :: str_hello ++ [0])) 1024 (replicate 200 7).
Definition demo_sig : sig_state := mk_sig (replicate 32 (mk_sh 0 (replicate 16 0) 0 0)) (replicate 16 0) (replicate 16 0) 0.
Definition demo_sys (hs : list Z) : sys frames tarfs := mk_sys (sys_kernel hs hello_vfs) user_bytes ∅ {[ 11 := demo_sig ]} (ht_create 32) false.
Definition sys_user : process := mk_process 11 0 0 0 11 1 PROC_FLAG_RUNNING 0 0 31 (demo_thread 11) 80 60 (Some [47]) 100 false.

Lemma sys_has_table {D} hs (v : vfs D) : length hs = 4%nat -> NoDup (used hs) -> (forall h, h ∈ used hs -> h = 70 \/ h = 71) ->
  has_table (sys_kernel hs v) sys_user (demo_table hs).
Proof.
  intros Hl Hnd Hin. split; try done. split; simpl; try done; [by rewrite Hl|].
  intros h Hh. destruct (Hin h Hh) as [->| ->]; by eexists.
Qed.

Lemma slots_table {D} (v : vfs D) : has_table (sys_kernel [70; 0; 71; 0] v) sys_user (demo_table [70; 0; 71; 0]).
Proof.
  apply sys_has_table; [done|by apply (bool_decide_unpack _)|].
  intros h Hh. change (used [70; 0; 71; 0]) with [70; 71] in Hh. apply elem_of_cons in Hh as [->|Hh]; [by left|].
  apply list_elem_of_singleton in Hh as ->. by right.
Qed.

#[local] Instance hello_drivers : Drivers tarfs := tarfs_drivers 5 0 0.

Lemma hello_serves : file_serves 101 [104; 105; 33] hello_vfs.
Proof.
  exists demo_hello. split; [done|]. split; [done|]. intros buf off len Ho Hl Hol Hb.
  apply (tarfs_read_file hello_vfs 101 4096 demo_files (mk_tfile str_hello 48 [104; 105; 33])); try done; [|apply demo_valid].
  exists demo_hello, (mk_ctx demo_tfs (Some 1%nat)), 1%nat. by split_and!.
Qed.

Lemma hello_opened : opened (demo_sys [70; 0; 71; 0]) 0 70 (mk_fh 101 0 1).
Proof. exists (demo_table [70; 0; 71; 0]). split; [reflexivity|]. do 3 (split; [done|]). by exists sizeof_handle. Qed.

Lemma open_then_read_all_witness : exists fd y1 y2, sys_open 5 5 512 0 (demo_sys [70; 0; 71; 0]) = Done (Z.of_nat fd, y1) /\
  [70; 0; 71; 0] !! fd = Some 0 /\ (forall j, (j < fd)%nat -> [70; 0; 71; 0] !! j <> Some 0) /\ read_all 3 (Z.of_nat fd) 1024 2 y1 = Done ([104; 105; 33], y2).
Proof.
  apply (open_then_read_all 5 5 3 (demo_sys [70; 0; 71; 0]) 512 (47 :: str_hello) 0 101 (sys_kernel [70; 0; 71; 0] hello_vfs) sys_user (demo_table [70; 0; 71; 0])
    [104; 105; 33] 2 1024); try done; try (simpl; lia).
  - solve_cstring.
  - apply slots_table.
  - apply hello_serves.
  - by apply (mapped_b_spec _ _ 2).
Defined.

Lemma pread_is_seek_and_read_witness : exists y0, sys_lseek 0 2 SEEK_SET (demo_sys [70; 0; 71; 0]) = Done (2, y0) /\
  sys_pread64 0 1024 4 2 (demo_sys [70; 0; 71; 0]) = ('(r, y1) ← sys_read 0 1024 4 y0; Done (r, restore_handles (demo_sys [70; 0; 71; 0]) y1)).
Proof. by apply (pread_is_seek_and_read (demo_sys [70; 0; 71; 0]) 0 70 (mk_fh 101 0 1) demo_hello 1024 4 2 hello_opened). Defined.

Lemma descriptor_bounds_witness : sys_read 4 1024 2 (demo_sys [70; 0; 71; 0]) = Fault /\ sys_write (-1) 1024 2 (demo_sys [70; 0; 71; 0]) = Fault /\
  sys_read 5 1024 2 (demo_sys [70; 0; 71; 0]) = Fault /\ sys_write 5 1024 2 (demo_sys [70; 0; 71; 0]) = Done (-1, demo_sys [70; 0; 71; 0]).
Proof.
  split_and!.
  - destruct (descriptor_bounds (demo_sys [70; 0; 71; 0]) sys_user (demo_table [70; 0; 71; 0]) 4 1024 2 0 (slots_table _) eq_refl) as [H _]. apply H. by right.
  - destruct (descriptor_bounds (demo_sys [70; 0; 71; 0]) sys_user (demo_table [70; 0; 71; 0]) (-1) 1024 2 0 (slots_table _) eq_refl) as [H _]. apply H. by left.
  - destruct (descriptor_bounds (demo_sys [70; 0; 71; 0]) sys_user (demo_table [70; 0; 71; 0]) 5 1024 2 0 (slots_table _) eq_refl) as [_ H]. by apply H.
  - destruct (descriptor_bounds (demo_sys [70; 0; 71; 0]) sys_user (demo_table [70; 0; 71; 0]) 5 1024 2 0 (slots_table _) eq_refl) as [_ H]. by apply H.
Defined.

Lemma sys_dup_drops_mode_witness : exists i y' g, sys_dup 0 (demo_sys [70; 0; 71; 0]) = Done (Z.of_nat i, y') /\
  [70; 0; 71; 0] !! i = Some 0 /\ (forall j, (j < i)%nat -> [70; 0; 71; 0] !! j <> Some 0) /\
  opened y' (Z.of_nat i) g (mk_fh 101 0 1) /\ opened y' 0 70 (mk_fh 101 0 1).
Proof. apply (sys_dup_drops_mode (demo_sys [70; 0; 71; 0]) sys_user (demo_table [70; 0; 71; 0]) 0 70 (mk_fh 101 0 1) (slots_table _) hello_opened). Defined.

Lemma linux_layout : stat_layout 144.
Proof.
  split; [intros []; unfold field_bytes; simpl; lia|]. intros [] [] H; try done; unfold apart, field_bytes; simpl; lia.
Qed.

Lemma fstat_fields_read_back_witness : exists m, sys_fstat 0 1024 (demo_sys [70; 0; 71; 0]) = Done (0, set_mem m (demo_sys [70; 0; 71; 0])) /\
  load_le 8 m (1024 + 48) = Done 3 /\ load_le 4 m (1024 + 24) = Done 0x81f8 /\ load_le 8 m (1024 + 64) = Done 0 /\ m !! (1024 + 144) = Some 7.
Proof.
  destruct (fstat_fields_read_back (demo_sys [70; 0; 71; 0]) 0 70 (mk_fh 101 0 1) demo_hello 1024 144 hello_opened) as (m & H1 & H2 & H3 & _ & H5 & _ & H7);
    [done|done|apply linux_layout|by apply (mapped_b_spec _ _ 144)|].
  exists m. split; [exact H1|]. split; [exact H2|]. split; [exact H5|]. split; [exact H3|]. rewrite H7 by lia. reflexivity.
Defined.

Lemma getcwd_overflows_by_one_witness : exists k m, sys_getcwd 5 5 1024 1 (demo_sys [70; 0; 71; 0]) = Done (0, set_mem m (set_k k (demo_sys [70; 0; 71; 0]))) /\
  m !! 1025 = Some 0.
Proof.
  destruct (getcwd_overflows_by_one 5 5 (demo_sys [70; 0; 71; 0]) 1024 1 [47] (y_k (demo_sys [70; 0; 71; 0]))) as [H1 H2]; try done; [by apply (mapped_b_spec _ _ 2)|].
  eexists _, _. split; [exact H1|]. by apply H2.
Defined.
