(* ===== verification/SysCalls.v ===== *)
(** kernel/sys/syscall.c, the other calls and the dispatch: memory, signals,
    processes, time, poll, futex, the table and syscall_entry.

    A call that sleeps goes on when the thread runs again: [others] is what the
    other threads have done to the state by then.  [kept], [fuel], [depth],
    [stale], [junk], [fork_exit] and the local of process_fork are those of the
    components below.  The values the code leaves undefined are parameters:
    [no_value] is what sys_nanosleep, which has no return statement, leaves in
    rax, [r9_left] the sixth argument of sys_mmap, which syscall_entry does not
    pass, [garbage] the locals of process_signal_return.  [image] is execve
    behind its tests, [execve_body] of Exec: it is reached with a tgid of 0
    only. *)
From stdpp Require Import base list gmap.
From Stdlib Require Import ZArith Lia.
From S2P Require Import Prelude Memory UserMem Format HashTable Frames Paging KTree Vfs Tarfs Mutex Signals Procs Scheduler Process SysFiles.

#[local] Open Scope Z_scope.

Definition FUTEX_WAIT : Z := 0.
Definition FUTEX_WAKE : Z := 1.

Section Calls.
Context {F D : Type} `{FA : FrameAllocator F} `{CA : Calloc} `{CO : CloseOp D} `{NA : NodeAlloc} `{Drv : Drivers D}
  `{Env : VfsEnv D} `{Abi : SysAbi} `{IO : IoctlOp D}.
Context (abi : signal_abi) (kept : bool) (fuel depth : nat) (stale : bool) (junk fork_exit local no_value r9_left : Z) (garbage : regs_t).
Context (image : Z -> Z -> Z -> sys F D -> outcome (Z * sys F D)) (others : sys F D -> outcome (sys F D)).
Abbreviation state := (sys F D).

(** schedule from a system call, up to the moment the thread runs again. *)
Definition pause (sleep : bool) (y : state) : outcome state := k ← schedule kept sleep (y_k y); others (set_k k y).
Definition sleep_for (milliseconds : Z) (y : state) : outcome state := k ← sleep kept milliseconds (y_k y); others (set_k k y).

(** ** Memory *)

(** The lock of the address space is taken, and released nowhere. *)
Definition sys_brk (increment size : Z) (y : state) : outcome (Z * state) :=
  if decide (get_current_process (y_k y) = 0) then Done (-1, y)
  else
    proc ← current y;
    mm ← at_ (k_mms (y_k y)) (p_page_directory proc);
    l ← spin_lock (mm_lock mm);
    let k := set_k_mms (<[p_page_directory proc := mk_mm (mm_page_directory mm) (mm_heap mm) (mm_count mm) l]> (k_mms (y_k y))) (y_k y) in
    let heap := mm_heap mm in
    if decide (increment = 1) then '(r, k) ← with_vm_result (mmap heap (u64 size) false) k; Done (s64 r, set_k k y)
    else if decide (u64 size < heap) then k ← with_vm (munmap (u64 size) (u64 (heap - size))) k; Done (size, set_k k y)
    else
      '(result, k) ← with_vm_result (mmap heap (u64 (size - heap)) false) k;
      Done (if decide (result = UINT64_MAX) then 1 else 0, set_k k y).

Definition sys_mmap (address length prot flags fd offset : Z) (y : state) : outcome (Z * state) :=
  if decide (fd <> 0 \/ offset <> 0) then Done (- ENOSYS, y)
  else '(r, k) ← with_vm_result (mmap (u64 address) (u64 length) false) (y_k y); Done (s64 r, set_k k y).

Definition sys_mprotect (address size prot : Z) (y : state) : outcome (Z * state) := Done (- ENOSYS, y).

Definition sys_munmap (address length : Z) (y : state) : outcome (Z * state) :=
  k ← with_vm (munmap (u64 address) (u64 length)) (y_k y); Done (0, set_k k y).

(** wrmsr writes the FS base. *)
Definition with_fs_base (v : Z) (c : context) : context :=
  mk_context (x_rsp c) (x_rbp c) (x_rip c) v (x_rbx c) (x_r12 c) (x_r13 c) (x_r14 c) (x_r15 c).
Definition with_tls (v : Z) (t : kernel_thread) : kernel_thread :=
  mk_kt (kt_rsp t) (kt_rbp t) (kt_rip t) v (kt_rbx t) (kt_rdi t) (kt_r12 t) (kt_r13 t) (kt_r14 t) (kt_r15 t)
    (kt_tid t) (kt_priority t) (kt_kernel_stack t) (kt_user_stack t) (kt_process t).
Definition sys_tcb_set (tcb : Z) (y : state) : outcome (Z * state) :=
  if negb (CHECK_PTR tcb y) then Done (- EFAULT, y)
  else
    k ← upd_proc (get_current_process (y_k y)) (fun x => set_p_main_thread (with_tls (u64 tcb) (p_main_thread x)) x) (y_k y);
    Done (0, set_k (set_k_cpu (with_fs_base (u64 tcb) (k_cpu k)) k) y).

(** ** Signals *)

(** The current process as Signals sees it, and back. *)
Definition sig_view (y : state) : outcome sproc :=
  proc ← current y;
  g ← at_ (y_sigs y) (get_current_process (y_k y));
  r ← at_ (k_regs_at (y_k y)) (p_saved_registers proc);
  Done (mk_sproc (p_flags proc) (g_handlers g) (g_blocked g) (g_pending g) (p_lock proc) r).

Definition with_p_lock (l : bool) (x : process) : process :=
  mk_process (p_id x) (p_uid x) (p_gid x) (p_cpu x) (p_tgid x) (p_parent x) (p_flags x) (p_status x) (p_sleepTick x)
    (p_page_directory x) (p_main_thread x) (p_saved_registers x) (p_fd_table x) (p_cwd x) (p_cwd_file x) l.
Definition put_view (p : sproc) (y : state) : outcome state :=
  proc ← current y;
  g ← at_ (y_sigs y) (get_current_process (y_k y));
  let k := put_proc (get_current_process (y_k y)) (with_p_lock (s_lock p) (set_p_flags (s_flags p) proc)) (y_k y) in
  let k := set_k_regs_at (<[p_saved_registers proc := s_regs p]> (k_regs_at k)) k in
  Done (set_sigs (<[get_current_process (y_k y) := mk_sig (s_handlers p) (s_blocked p) (s_pending p) (g_syscall g)]> (y_sigs y)) (set_k k y)).

Definition load_action (m : mem) (p : Z) : outcome sigaction :=
  handler ← load_le 8 m (p + sa_handler_at);
  mask ← load_words 16 m (p + sa_mask_at);
  flags ← load_le 4 m (p + sa_flags_at);
  restorer ← load_le 8 m (p + sa_restorer_at);
  Done (mk_sa handler mask (s32 flags) restorer).

Definition sys_rt_sigaction (signum newact oldact : Z) (y : state) : outcome (Z * state) :=
  if decide (get_current_process (y_k y) = 0) then Done (-1, y)
  else if negb (CHECK_PTR newact y) || negb (CHECK_PTR oldact y) || bool_decide (32 < signum) then Done (- EINVAL, y)
  else
    p ← sig_view y;
    m ← (if decide (oldact <> 0) then
           h ← process_get_signal_handler (s32 signum) p;
           m ← store_le 8 (y_mem y) (oldact + sa_handler_at) (sh_handler h);
           m ← store_words (sh_mask h) m (oldact + sa_mask_at);
           store_le 4 m (oldact + sa_flags_at) (sh_flags h)
         else Done (y_mem y));
    let y := set_mem m y in
    handler ← load_le 8 (y_mem y) (newact + sa_handler_at);
    if decide (handler <> 0) then
      action ← load_action (y_mem y) newact;
      p ← process_set_signal_handler (s32 signum) action p;
      y ← put_view p y; Done (0, y)
    else Done (0, y).

(** sys_rt_sigprocmask, with the sets where its pointers say: [new] reads the
    new set, [old] stores the old one; the second test of the pointers repeats
    the first. *)
Definition sigprocmask (how newsigset : Z) (new : state -> outcome sigset) (old : option (sigset -> state -> outcome state)) (y : state)
    : outcome (Z * state) :=
  if decide (get_current_process (y_k y) = 0) then Done (-1, y)
  else if negb (CHECK_PTR newsigset y) || negb (CHECK_PTR newsigset y) then Done (- EINVAL, y)
  else
    p ← sig_view y;
    y ← match old with Some store => store (s_blocked p) y | None => Done y end;
    set ← new y;
    p ← sig_view y;
    p ← process_set_signal_mask abi (s32 how) set p;
    y ← put_view p y;
    Done (0, y).

Definition sys_rt_sigprocmask (how newsigset oldsigset : Z) (y : state) : outcome (Z * state) :=
  sigprocmask how newsigset (fun y => load_words 16 (y_mem y) newsigset)
    (if decide (oldsigset <> 0) then Some (fun set y => m ← store_words set (y_mem y) oldsigset; Done (set_mem m y)) else None) y.

Definition sys_rt_sigreturn (y : state) : outcome (Z * state) :=
  p ← sig_view y;
  let '(r, p, frames) := process_signal_return garbage p (y_frames y) in
  y ← put_view p (mk_sys (y_k y) (y_mem y) frames (y_sigs y) (futex_queue y) (futex_lock y));
  Done (r, y).

(** ** Processes *)

(** The end of a call: it returns to its caller, or the thread is gone. *)
Inductive call_end := Return (r : Z) (y : state) | NoReturn (e : ended state).
Definition ended_call (y : state) (e : ended (kstate F D)) : call_end :=
  NoReturn match e with Panic => Panic | Ended k => Ended (set_k k y) end.

Definition sys_exit (exitCode : Z) (y : state) : outcome call_end :=
  e ← process_thread_exit kept (s32 exitCode) (y_k y); Done (ended_call y e).
Definition sys_exit_group (exitCode : Z) (y : state) : outcome call_end :=
  e ← process_exit kept fuel fuel (s32 exitCode) (y_k y); Done (ended_call y e).

Definition is_selected (pid : Z) (proc parent : process) : bool :=
  if decide (pid < -1) then bool_decide (p_tgid proc = - pid)
  else if decide (pid = 0) then bool_decide (p_tgid proc = p_id parent)
  else if decide (0 < pid) then bool_decide (p_id proc = pid)
  else true.

(** The scan of the children: a finished one is reaped, a selected one ends the
    call as it is. *)
Fixpoint wait_scan (pid : Z) (list : list Z) (k : kstate F D) : outcome (option Z * kstate F D) :=
  match list with
  | [] => Done (None, k)
  | child :: list =>
      process ← proc_at k child;
      if decide (Z.land (p_flags process) PROC_FLAG_FINISHED <> 0) then
        k ← process_reap kept fuel child k; Done (Some (p_id process), k)
      else
        parent ← proc_at k (get_current_process k);
        if is_selected pid process parent then Done (Some (p_id process), k) else wait_scan pid list k
  end.

Definition wait_step (pid : Z) (y : state) : outcome (state + Z * state) :=
  '(_, k) ← acquire_process_tree_lock (y_k y);
  my_node ← find_in_tree fuel (get_current_process k) k;
  nd ← node_at (k_pnodes k) my_node;
  if decide (length (t_children nd) = 0%nat) then Done (inr (-1, set_k (release_process_tree_lock k) y))
  else
    list ← process_get_all_children fuel (get_current_process k) k;
    list ← of_option list;
    '(r, k) ← wait_scan pid list k;
    let y := set_k (release_process_tree_lock k) y in
    match r with
    | Some r => Done (inr (r, y))
    | None => y ← pause true y; Done (inl y)
    end.

(** With WNOHANG the loop does not run. *)
Definition sys_wait4 (pid status flags rusage : Z) (y : state) : outcome (Z * state) :=
  if decide (Z.land (s32 flags) WNOHANG <> 0) then Done (0, y) else loop fuel (wait_step (s32 pid)) y.

Definition sys_getpid (y : state) : outcome (Z * state) :=
  proc ← current y; Done (if decide (p_tgid proc <> 0) then p_tgid proc else p_id proc, y).
Definition sys_getpgrp (y : state) : outcome (Z * state) :=
  proc ← current y; Done (if decide (p_tgid proc <> 0) then p_tgid proc else p_id proc, y).
Definition sys_getppid (y : state) : outcome (Z * state) := proc ← current y; Done (p_parent proc, y).
Definition sys_getuid (y : state) : outcome (Z * state) := proc ← current y; Done (p_uid proc, y).
Definition sys_getgid (y : state) : outcome (Z * state) := proc ← current y; Done (p_gid proc, y).

Definition sys_fork (y : state) : outcome (Z * state) :=
  '(pid, k) ← process_fork fuel fork_exit local (y_k y); Done (pid, set_k k y).

(** Every argument is taken for a pointer, the flags too. *)
Definition sys_clone (flags stack parent_tid child_tid tls : Z) (y : state) : outcome (Z * state) :=
  if negb (CHECK_PTR flags y && CHECK_PTR stack y && CHECK_PTR parent_tid y && CHECK_PTR child_tid y && CHECK_PTR tls y) then Done (- EFAULT, y)
  else
    '(pid, k) ← process_clone fuel fork_exit (mk_clone (u64 flags) (u64 parent_tid) (u64 tls)) local (y_k y);
    Done (pid, set_k k y).

(** [arg = args[0]; while(arg != NULL) { if(i > 65536) return; i++; arg = args[i]; }]:
    are there too many? *)
Definition too_many (args : Z) (y : state) : outcome bool :=
  if decide (args = 0) then Done false
  else loop (Z.to_nat 65540) (fun i =>
    arg ← load_le 8 (y_mem y) (args + 8 * i);
    if decide (arg <> 0) then if decide (65536 < i) then Done (inr true) else Done (inl (i + 1)) else Done (inr false)) 0.

Definition execve (path argv envp : Z) (y : state) : outcome (Z * state) :=
  e ← execve_refuses EINVAL (y_k y);
  match e with Some e => Done (e, y) | None => image path argv envp y end.

(** One good pointer is enough for the test. *)
Definition sys_execve (pathname argv envp : Z) (y : state) : outcome (Z * state) :=
  if negb (CHECK_PTR pathname y || CHECK_PTR argv y || CHECK_PTR envp y) then Done (- EINVAL, y)
  else if decide (pathname = 0) then Done (- EINVAL, y)
  else
    a ← too_many argv y;
    if (a : bool) then Done (- EINVAL, y)
    else
      e ← too_many envp y;
      if (e : bool) then Done (- EINVAL, y) else execve pathname argv envp y.

(** ** Time *)

(** tv_sec * 1000 + tv_nsec / 1000000 *)
Definition timespec_ms (m : mem) (p : Z) : outcome Z :=
  nsec ← load_le 8 m (p + tv_nsec_at);
  sec ← load_le 8 m (p + tv_sec_at);
  Done (s64 sec * 1000 + Z.quot (s64 nsec) 1000000).

Definition sys_nanosleep (timespec : Z) (y : state) : outcome (Z * state) :=
  if negb (CHECK_PTR timespec y) then Done (- EFAULT, y)
  else ms ← timespec_ms (y_mem y) timespec; y ← sleep_for (ms + 1) y; Done (no_value, y).

Definition sys_yield (y : state) : outcome (Z * state) := y ← pause false y; Done (0, y).

(** ** Poll *)

Definition revents_at (pollfds : Z) : Z := pollfds + pfd_revents_at.
Definition ready_bits (revents : Z) : bool := bool_decide (Z.land revents (Z.lor POLLIN POLLOUT) <> 0).

(** One entry of the array; a negative descriptor reads outside the table. *)
Definition poll_one (pollfds : Z) (one_ready : bool) (y : state) : outcome (bool * state) :=
  fd ← load_le 4 (y_mem y) (pollfds + pfd_fd_at);
  h ← handle_of (s32 fd) y;
  match h with
  | NoFd => m ← store_le 2 (y_mem y) (revents_at pollfds) POLLNVAL; Done (one_ready, set_mem m y)
  | FdHandle h =>
      f ← handle_at h y;
      events ← load_le 2 (y_mem y) (pollfds + pfd_events_at);
      '(r, v) ← fpoll f (sw 16 events) (k_vfs (y_k y));
      m ← store_le 2 (y_mem y) (revents_at pollfds) r;
      Done (one_ready || ready_bits (sw 16 r), set_mem m (set_k (set_k_vfs v (y_k y)) y))
  end.

Definition poll_pass (fdbuf nfds : Z) (y : state) : outcome (bool * state) :=
  r ← for_ (A := unit) (Z.to_nat nfds) 0 (fun i '(one_ready, y) =>
    st ← poll_one (fdbuf + sizeof_pollfd * i) one_ready y; Done (inl st)) (false, y);
  match r with inl st => Done st | inr _ => Fault end.

(** One turn of [while(!one_ready)]: on to the count, or the value to return. *)
Definition poll_step (fdbuf nfds timeout time_end : Z) (y : state) : outcome (state + option Z * state) :=
  p ← sig_view y;
  pending ← has_pending_signals p;
  if decide (pending <> 0) then Done (inr (Some (- ERESTART), y))
  else
    '(one_ready, y) ← poll_pass fdbuf nfds y;
    if (one_ready : bool) then Done (inr (None, y))
    else if decide (timeout = 0) then Done (inr (Some 0, y))
    else if decide (0 <= timeout /\ time_end < k_counter (y_k y)) then Done (inr (Some 0, y))
    else y ← pause false y; Done (inl y).

Definition count_ready (fdbuf nfds : Z) (y : state) : outcome Z :=
  r ← for_ (A := unit) (Z.to_nat nfds) 0 (fun i countChanged =>
    revents ← load_le 2 (y_mem y) (revents_at (fdbuf + sizeof_pollfd * i));
    Done (inl (if ready_bits (sw 16 revents) then countChanged + 1 else countChanged))) 0;
  match r with inl n => Done n | inr _ => Fault end.

(** [for(i = 0; i < nfds; i++) if(!CHECK_PTR(pollfds)) ...]: are all entries good? *)
Definition entries_good (fdbuf nfds : Z) (y : state) : outcome bool :=
  r ← for_ (Z.to_nat nfds) 0 (fun i (_ : unit) =>
    Done (if CHECK_PTR (fdbuf + sizeof_pollfd * i) y then inl tt else inr tt)) tt;
  Done match r with inl _ => true | inr _ => false end.

Definition time_limit (timeout now : Z) : Z := if decide (0 < timeout) then u64 (now + timeout / 10 + 1) else UINT64_MAX.

Definition sys_poll (fdbuf nfds timeout : Z) (y : state) : outcome (Z * state) :=
  good ← entries_good fdbuf nfds y;
  if negb good then Done (- EFAULT, y)
  else
    let time_end := time_limit timeout (k_counter (y_k y)) in
    '(r, y) ← loop fuel (poll_step fdbuf nfds timeout time_end) y;
    match r with
    | Some r => Done (r, y)
    | None => n ← count_ready fdbuf nfds y; Done (n, y)
    end.

(** [kstack]: the address of the local old_sigset.  The second call passes it as
    a user pointer. *)
Definition sys_ppoll (kstack : Z) (fdbuf nfds timespec sigmask : Z) (y : state) : outcome (Z * state) :=
  if negb (CHECK_PTR sigmask y) then Done (- EFAULT, y)
  else if bool_decide (timespec <> 0) && negb (CHECK_PTR timespec y) then Done (- EFAULT, y)
  else
    timeout ← (if decide (timespec <> 0) then timespec_ms (y_mem y) timespec else Done (-1));
    p ← sig_view y;
    let old_sigset := s_blocked p in
    '(_, y) ← sigprocmask (SIG_SETMASK abi) sigmask (fun y => load_words 16 (y_mem y) sigmask) (Some (fun _ y => Done y)) y;
    '(result, y) ← sys_poll fdbuf nfds (s32 timeout) y;
    '(_, y) ← sigprocmask (SIG_SETMASK abi) kstack (fun _ => Done old_sigset) None y;
    Done (result, y).

(** ** Futex *)

(** The text of a number: the first call of snprintf, on no buffer, gives the
    size.  malloc does not fail. *)
Definition long_to_string (id : Z) : outcome (list Z) :=
  '(n, _) ← snprintf 100 [] 0 [37; 108; 100; 0] [ALong id];
  '(_, str) ← snprintf 100 (replicate (Z.to_nat (n + 1)) 0) (n + 1) [37; 108; 100; 0] [ALong id];
  Done (c_str str).

Fixpoint wake_values (values : list Z) (k : kstate F D) : outcome (kstate F D) :=
  match values with
  | [] => Done k
  | p :: values => '(_, k) ← wakeup_now p k; wake_values values k
  end.

Definition sys_futex (pointer action val timeout : Z) (y : state) : outcome (Z * state) :=
  if negb (CHECK_PTR pointer y) || negb (CHECK_PTR timeout y) then Done (- EINVAL, y)
  else
    '(page, k) ← with_vm_result (memmgr_create_or_get_page (u64 pointer) 0 0) (y_k y);
    let y := set_k k y in
    if decide (page = 0) then Done (- EINVAL, y)
    else if decide (action = FUTEX_WAIT) then
      w ← load_le 4 (y_mem y) pointer;
      if decide (w = val) then
        id ← long_to_string pointer;
        l ← spin_lock (futex_lock y);
        q ← ht_insert (futex_queue y) id (get_current_process (y_k y));
        let y := set_futex q (spin_unlock l) y in
        ms ← timespec_ms (y_mem y) timeout;
        y ← sleep_for (ms + 1) y;
        l ← spin_lock (futex_lock y);
        '(_, q) ← ht_remove_by_key_and_value (futex_queue y) id (get_current_process (y_k y));
        Done (- ENOSYS, set_futex q (spin_unlock l) y)
      else Done (- EAGAIN, y)
    else if decide (action = FUTEX_WAKE) then
      id ← long_to_string pointer;
      list ← ht_get_all_values (futex_queue y) id;
      k ← match list with Some values => wake_values values (y_k y) | None => Done (y_k y) end;
      Done (- EAGAIN, set_k k y)
    else Done (- ENOSYS, y).

Definition sys_stub (y : state) : outcome (Z * state) := Done (- ENOSYS, y).

(** ** Dispatch *)

Definition syscall_t := Z -> Z -> Z -> Z -> Z -> state -> outcome call_end.

Definition returns (o : outcome (Z * state)) : outcome call_end := '(r, y) ← o; Done (Return r y).
Definition call0 (f : state -> outcome (Z * state)) : syscall_t := fun _ _ _ _ _ y => returns (f y).
Definition call1 (f : Z -> state -> outcome (Z * state)) : syscall_t := fun a _ _ _ _ y => returns (f a y).
Definition call2 (f : Z -> Z -> state -> outcome (Z * state)) : syscall_t := fun a b _ _ _ y => returns (f a b y).
Definition call3 (f : Z -> Z -> Z -> state -> outcome (Z * state)) : syscall_t := fun a b c _ _ y => returns (f a b c y).
Definition call4 (f : Z -> Z -> Z -> Z -> state -> outcome (Z * state)) : syscall_t := fun a b c d _ y => returns (f a b c d y).
Definition stubs (n : nat) : list syscall_t := replicate n (call0 sys_stub).

(** Entries 0 to 127; sys_poll takes an int. *)
Definition syscall_table_low : list syscall_t :=
  [call3 sys_read; call3 sys_write; call2 (sys_open fuel depth); call1 sys_close; call2 (sys_stat fuel depth); call2 sys_fstat; call2 (sys_lstat fuel depth);
   call3 (fun a b c => sys_poll a b (s32 c)); call3 sys_lseek;
   (fun a b c d e y => returns (sys_mmap a b c d e r9_left y)); call3 sys_mprotect; call2 sys_munmap; call2 sys_brk; call3 sys_rt_sigaction;
   call3 sys_rt_sigprocmask; call0 sys_rt_sigreturn; call3 sys_ioctl; call4 sys_pread64; call4 sys_pwrite64; call3 sys_readv; call3 sys_writev;
   call2 (sys_access fuel depth)] ++ stubs 2 ++
  [call0 sys_yield] ++ stubs 4 ++ [call1 sys_tcb_set] ++ stubs 2 ++ [call1 sys_dup] ++ stubs 2 ++ [call1 sys_nanosleep] ++ stubs 3 ++
  [call0 sys_getpid] ++ stubs 16 ++
  [(fun a b c d e y => returns (sys_clone a b c d e y)); call0 sys_fork] ++ stubs 1 ++
  [call3 sys_execve; (fun a _ _ _ _ y => sys_exit a y); call4 sys_wait4] ++ stubs 17 ++
  [call2 (sys_getcwd fuel depth)] ++ stubs 2 ++
  [call2 (sys_rename fuel depth stale junk); call1 (sys_mkdir fuel depth); call1 (sys_rmdir fuel depth stale); call1 (sys_create fuel depth);
   call2 (sys_link fuel depth junk); call1 (sys_unlink fuel depth stale)] ++ stubs 14 ++
  [call0 sys_getuid] ++ stubs 1 ++ [call0 sys_getgid] ++ stubs 4 ++ [call0 sys_getpgrp; call0 sys_getppid; call0 sys_getpgrp] ++ stubs 16.

(** Entries 128 to 271. *)
Definition syscall_table_high (kstack : Z) : list syscall_t :=
  stubs 74 ++ [call4 sys_futex] ++ stubs 28 ++ [(fun a _ _ _ _ y => sys_exit_group a y)] ++ stubs 39 ++ [call4 (sys_ppoll kstack)].

Definition syscall_table (kstack : Z) : list syscall_t := syscall_table_low ++ syscall_table_high kstack.

(** [get_current_process()->saved_registers = regs] *)
Definition save_registers (regs : Z) (y : state) : outcome state :=
  k ← upd_proc (get_current_process (y_k y)) (set_p_saved_registers regs) (y_k y); Done (set_k k y).
Definition set_rax (regs v : Z) (y : state) : outcome state :=
  r ← at_ (k_regs_at (y_k y)) regs; Done (set_k (set_k_regs_at (<[regs := with_rax v r]> (k_regs_at (y_k y))) (y_k y)) y).

(** The number is not compared with the size of the table, of which no entry is
    NULL; the results are kept in an int. *)
Definition syscall_entry (kstack regs : Z) (y : state) : outcome call_end :=
  r ← at_ (k_regs_at (y_k y)) regs;
  let syscallNo := rax r in
  f ← aget (syscall_table kstack) syscallNo;
  y ← save_registers regs y;
  e ← f (s64 (rdi r)) (s64 (rsi r)) (s64 (rdx r)) (s64 (r10 r)) (s64 (r8 r)) y;
  match e with
  | NoReturn e => Done (NoReturn e)
  | Return returnCode y => if decide (syscallNo = 15) then Done (Return 0 y) else y ← set_rax regs (u64 (s32 returnCode)) y; Done (Return 0 y)
  end.

(** Nothing calls it, and nothing sets the number of an interrupted call. *)
Definition set_syscall (n : Z) (y : state) : outcome state :=
  g ← at_ (y_sigs y) (get_current_process (y_k y));
  Done (set_sigs (<[get_current_process (y_k y) := mk_sig (g_handlers g) (g_blocked g) (g_pending g) n]> (y_sigs y)) y).
Definition restart_syscall (kstack regs signum : Z) (y : state) : outcome call_end :=
  g ← at_ (y_sigs y) (get_current_process (y_k y));
  r ← at_ (k_regs_at (y_k y)) regs;
  if decide (0 < g_syscall g /\ rax r = u64 (- ERESTART)) then
    h ← (if decide (signum = SIGCONT abi) then Done SA_RESTART else h ← aget (g_handlers g) signum; Done (Z.land (sh_flags h) SA_RESTART));
    if decide (signum = SIGCONT abi \/ h <> 0) then
      y ← set_rax regs (g_syscall g) y;
      y ← set_syscall 0 y;
      syscall_entry kstack regs y
    else
      y ← set_syscall 0 y;
      y ← set_rax regs (u64 (- EINTR)) y;
      Done (Return 0 y)
  else Done (Return 0 y).

Definition syscall_init (y : state) : state := set_futex (ht_create 32) false y.
End Calls.

(** ** Facts *)

Section Facts.
Context {F D : Type} `{FA : FrameAllocator F} `{CA : Calloc} `{CO : CloseOp D} `{NA : NodeAlloc} `{Drv : Drivers D}
  `{Env : VfsEnv D} `{Abi : SysAbi} `{IO : IoctlOp D}.
Context (abi : signal_abi) (kept : bool) (fuel depth : nat) (stale : bool) (junk fork_exit local no_value r9_left : Z) (garbage : regs_t).
Context (image : Z -> Z -> Z -> sys F D -> outcome (Z * sys F D)) (others : sys F D -> outcome (sys F D)).
Abbreviation state := (sys F D).
Abbreviation sys_entry := (syscall_entry abi kept fuel depth stale junk fork_exit local no_value r9_left garbage image others).
Abbreviation table := (syscall_table abi kept fuel depth stale junk fork_exit local no_value r9_left garbage image others).
Implicit Types y : state.

(** *** Dispatch *)

(** The numbers with a function of their own. *)
Definition implemented (n : Z) : Prop :=
  n ∈ ((Z.of_nat <$> seq 0 22) ++ [24; 29; 32; 35; 39; 56; 57; 59; 60; 61; 79; 82; 83; 84; 85; 86; 87; 102; 104; 109; 110; 111; 202; 231; 271]).
#[local] Instance implemented_dec n : Decision (implemented n).
Proof. unfold implemented. apply _. Defined.

(** The registers at [regs] belong to the current process [x]. *)
Record entering y (regs : Z) (r : regs_t) (x : process) : Prop := {
  en_regs : regs <> 0;
  en_at : k_regs_at (y_k y) !! regs = Some r;
  en_cur : get_current_process (y_k y) <> 0;
  en_proc : k_procs (y_k y) !! get_current_process (y_k y) = Some x
}.

(** What syscall_entry leaves but for the work of the call itself. *)
Definition entered y (regs : Z) (x : process) : state :=
  set_k (put_proc (get_current_process (y_k y)) (set_p_saved_registers regs x) (y_k y)) y.
Definition answered y (regs v : Z) (r : regs_t) : state :=
  set_k (set_k_regs_at (<[regs := with_rax v r]> (k_regs_at (y_k y))) (y_k y)) y.

Lemma entry_unfold kstack y regs r x f : entering y regs r x -> aget (table kstack) (rax r) = Done f ->
  sys_entry kstack regs y = (e ← f (s64 (rdi r)) (s64 (rsi r)) (s64 (rdx r)) (s64 (r10 r)) (s64 (r8 r)) (entered y regs x);
    match e with
    | NoReturn e => Done (NoReturn e)
    | Return c y => if decide (rax r = 15) then Done (Return 0 y) else y ← set_rax regs (u64 (s32 c)) y; Done (Return 0 y)
    end).
Proof.
  intros [Hr Hat Hc Hx] Hf. unfold syscall_entry. rewrite (at_live _ _ r) by done. cbn [mbind outcome_bind]. rewrite Hf. cbn [mbind outcome_bind].
  unfold save_registers. rewrite (upd_proc_done _ _ x) by done. done.
Qed.

Lemma set_rax_done y regs v r : regs <> 0 -> k_regs_at (y_k y) !! regs = Some r -> set_rax regs v y = Done (answered y regs v r).
Proof. intros Hr Hat. unfold set_rax. by rewrite (at_live _ _ r). Qed.

Lemma table_length kstack : length (table kstack) = 272%nat.
Proof. reflexivity. Qed.

Lemma stub_entry kstack n : (n < 272)%nat -> ~ implemented (Z.of_nat n) -> table kstack !! n = Some (call0 sys_stub).
Proof.
  intros Hn Hi. assert (H : forall k, (k < 272)%nat -> bool_decide (implemented (Z.of_nat k)) = true \/ table kstack !! k = Some (call0 sys_stub)).
  - clear. intros k Hk. do 272 (destruct k as [|k]; [first [left; vm_compute; reflexivity|right; reflexivity]|]). lia.
  - destruct (H n Hn) as [E|E]; [by apply bool_decide_eq_true_1 in E|done].
Qed.

(** A number that stands for no call is answered with ENOSYS, and nothing else
    of the state changes; a number behind the table reads outside of it. *)
Theorem unimplemented_calls kstack y regs r x : entering y regs r x -> 0 <= rax r ->
  (rax r < 272 -> ~ implemented (rax r) -> sys_entry kstack regs y = Done (Return 0 (answered (entered y regs x) regs (u64 (s32 (- ENOSYS))) r))) /\
  (272 <= rax r -> sys_entry kstack regs y = Fault).
Proof.
  intros He H0. pose proof He as [Hr Hat Hc Hx]. split; intros Hn.
  - intros Hi. assert (Hf : aget (table kstack) (rax r) = Done (call0 sys_stub)).
    { apply aget_done. split; [done|]. apply stub_entry; [lia|by rewrite Z2Nat.id]. }
    rewrite (entry_unfold kstack y regs r x _ He Hf). cbn [call0 returns sys_stub mbind outcome_bind].
    rewrite decide_False; [|intros E; apply Hi; rewrite E; by apply (bool_decide_unpack _)]. by rewrite (set_rax_done _ _ _ r).
  - unfold syscall_entry. rewrite (at_live _ _ r) by done. cbn [mbind outcome_bind]. unfold aget, zlookup. rewrite decide_True by done.
    rewrite lookup_ge_None_2; [done|]. rewrite table_length. lia.
Qed.

(** The value of mmap passes through an int: an address from 2 GiB on does not
    reach the program. *)
Theorem mmap_result_truncated kstack y regs r x a v : entering y regs r x -> rax r = 9 -> r8 r = 0 -> r9_left = 0 ->
  mmap (u64 (s64 (rdi r))) (u64 (s64 (rsi r))) false (k_vmem (y_k y)) = Done (a, v) -> 0 <= a < 2 ^ 63 ->
  exists y', sys_entry kstack regs y = Done (Return 0 y') /\ k_vmem (y_k y') = v /\ k_regs_at (y_k y') !! regs = Some (with_rax (u64 (s32 a)) r) /\
    (2 ^ 31 <= a -> u64 (s32 a) <> a).
Proof.
  intros He Hrax Hr8 Hr9 Hm Ha. pose proof He as [Hr Hat Hc Hx].
  rewrite (entry_unfold kstack y regs r x (fun a b c d e y => returns (sys_mmap a b c d e r9_left y)) He) by (by rewrite Hrax).
  unfold sys_mmap. rewrite Hr8, Hr9. rewrite (decide_False (P := _ \/ _)) by (intros [E|E]; [by vm_compute in E|done]).
  unfold with_vm_result. change (k_vmem (y_k (entered y regs x))) with (k_vmem (y_k y)). rewrite Hm. cbn [mbind outcome_bind returns]. rewrite (decide_False (P := rax r = 15)) by lia.
  rewrite (set_rax_done _ _ _ r) by done. cbn [mbind outcome_bind]. rewrite (s64_small a) by lia. eexists. split; [reflexivity|]. split; [done|].
  split; [apply lookup_insert_eq|]. intros Hbig. unfold u64, s32, sw. pose proof (Z.mod_pos_bound (a + 2 ^ (32 - 1)) (2 ^ 32) ltac:(lia)) as Hb.
  set (b := (a + 2 ^ (32 - 1)) mod 2 ^ 32) in *. change (2 ^ (32 - 1)) with (2 ^ 31) in *. destruct (decide (2 ^ 31 <= b)).
  - rewrite Z.mod_small by lia. lia.
  - replace (b - 2 ^ 31) with (b - 2 ^ 31 + 2 ^ 64 + (-1) * 2 ^ 64) by lia. rewrite Z.mod_add by lia. rewrite Z.mod_small by lia. lia.
Qed.

(** *** The program break *)

Lemma sys_brk_locks increment size y r y1 x mm : current y = Done x -> p_page_directory x <> 0 -> k_mms (y_k y) !! p_page_directory x = Some mm ->
  get_current_process (y_k y) <> 0 -> sys_brk increment size y = Done (r, y1) ->
  mm_lock mm = false /\ current y1 = Done x /\ get_current_process (y_k y1) = get_current_process (y_k y) /\
  exists mm1, k_mms (y_k y1) !! p_page_directory x = Some mm1 /\ mm_lock mm1 = true /\ mm_heap mm1 = mm_heap mm.
Proof.
  intros Hx Hp Hm Hc. unfold sys_brk. rewrite decide_False by done. rewrite Hx. cbn [mbind outcome_bind]. rewrite (at_live _ _ mm) by done. cbn [mbind outcome_bind].
  destruct (mm_lock mm) eqn:El; [done|]. cbn [spin_lock mbind outcome_bind]. set (k := set_k_mms _ _). unfold with_vm_result, with_vm.
  assert (Hk : forall v, (current (set_k (set_k_vmem v k) y) = Done x /\ get_current_process (set_k_vmem v k) = get_current_process (y_k y)) /\
    exists mm1, k_mms (set_k_vmem v k) !! p_page_directory x = Some mm1 /\ mm_lock mm1 = true /\ mm_heap mm1 = mm_heap mm).
  { intros v. split; [split; done|]. eexists. split; [apply lookup_insert_eq|]. done. }
  intros Hr. split; [done|]. destruct (decide (increment = 1)); [|destruct (decide (u64 size < mm_heap mm))].
  - destruct (mmap _ _ _ _) as [[a v]| | |]; try done. cbn [mbind outcome_bind] in Hr. injection Hr as _ <-. destruct (Hk v) as [[? ?] ?]. done.
  - destruct (munmap _ _ _) as [v| | |]; try done. cbn [mbind outcome_bind] in Hr. injection Hr as _ <-. destruct (Hk v) as [[? ?] ?]. done.
  - destruct (mmap _ _ _ _) as [[a v]| | |]; try done. cbn [mbind outcome_bind] in Hr. injection Hr as _ <-. destruct (Hk v) as [[? ?] ?]. done.
Qed.

(** A process can use sys_brk once: the call leaves the lock of its address
    space taken, and each later call waits for it for ever.  The break itself
    is not recorded. *)
Theorem brk_once increment size y r y1 x mm : current y = Done x -> p_page_directory x <> 0 -> k_mms (y_k y) !! p_page_directory x = Some mm ->
  get_current_process (y_k y) <> 0 -> sys_brk increment size y = Done (r, y1) ->
  (exists mm1, k_mms (y_k y1) !! p_page_directory x = Some mm1 /\ mm_heap mm1 = mm_heap mm) /\ forall increment' size', sys_brk increment' size' y1 = Blocked.
Proof.
  intros Hx Hp Hm Hc Hr. destruct (sys_brk_locks increment size y r y1 x mm Hx Hp Hm Hc Hr) as (_ & Hx1 & Hc1 & mm1 & Hm1 & Hl1 & Hh1).
  split; [by exists mm1|]. intros i' s'. unfold sys_brk. rewrite decide_False by congruence. rewrite Hx1. cbn [mbind outcome_bind].
  rewrite (at_live _ _ mm1) by done. cbn [mbind outcome_bind]. by rewrite Hl1.
Qed.

(** *** Pointers that are taken for granted *)

(** The first page is not mapped, so NULL fails every pointer check: the calls
    refuse the optional arguments that a program leaves out, and sys_clone
    refuses its flags unless they are the address of a mapped page. *)
Theorem null_is_refused y p q n kstack : get_current_process (y_k y) <> 0 -> CHECK_PTR 0 y = false ->
  sys_rt_sigaction n p 0 y = Done (- EINVAL, y) /\ sys_rt_sigaction n 0 p y = Done (- EINVAL, y) /\ sys_rt_sigprocmask abi n 0 p y = Done (- EINVAL, y) /\
  sys_futex kept others p n q 0 y = Done (- EINVAL, y) /\ sys_ppoll abi kept fuel others kstack p n q 0 y = Done (- EFAULT, y) /\
  sys_clone fuel fork_exit local n p 0 0 0 y = Done (- EFAULT, y) /\
  (CHECK_PTR n y = false -> sys_clone fuel fork_exit local n p q q q y = Done (- EFAULT, y)).
Proof.
  intros Hc H0. unfold sys_rt_sigaction, sys_rt_sigprocmask, sigprocmask, sys_futex, sys_ppoll, sys_clone. rewrite H0. cbn [negb].
  rewrite !orb_true_r, !orb_true_l, !andb_false_r. rewrite !(decide_False (P := get_current_process _ = 0)) by done. do 6 (split; [done|]). by intros ->.
Qed.

(** Execve refuses every process that can call it: fork gives the child its own
    id for a group, init has the group 1. *)
Theorem execve_refuses_every_process y x pathname argv envp na ne : current y = Done x -> get_current_process (y_k y) <> 0 -> p_tgid x <> 0 ->
  too_many argv y = Done na -> too_many envp y = Done ne ->
  sys_execve image pathname argv envp y = Done (- EINVAL, y) \/ sys_execve image pathname argv envp y = Done (-2, y).
Proof.
  intros Hx Hc Ht Ha Hn. unfold sys_execve, execve, execve_refuses. destruct (negb _); [by left|]. destruct (decide (pathname = 0)); [by left|].
  rewrite Ha, Hn. cbn [mbind outcome_bind]. destruct na; [by left|]. destruct ne; [by left|]. right. rewrite decide_False by done.
  unfold current in Hx. rewrite Hx. cbn [mbind outcome_bind]. by rewrite decide_True.
Qed.

(** *** Waiting for children *)

Lemma sys_eta y : set_k (y_k y) y = y.
Proof. by destruct y. Qed.

Lemma unlock_tree (k : kstate F D) : k_process_lock k = false -> release_process_tree_lock (set_k_process_lock true k) = k.
Proof. intros H. destruct k. simpl in *. by subst. Qed.

Lemma forest_empty ns par cs l : forest_at ns par cs l -> l = [] <-> cs = [].
Proof.
  intros H. inversion H as [|? c cs' l1 l2 Ht Hf]; subst; [done|]. split; [|done]. inversion Ht; subst. done.
Qed.

(** Neither finished nor selected. *)
Definition passed_over (k : kstate F D) (pid : Z) (parent : process) (c : Z) : Prop :=
  c <> 0 /\ exists xc, k_procs k !! c = Some xc /\ Z.land (p_flags xc) PROC_FLAG_FINISHED = 0 /\ is_selected pid xc parent = false.

Lemma wait_scan_passes (k : kstate F D) pid x pre rest : get_current_process k <> 0 -> k_procs k !! get_current_process k = Some x ->
  Forall (passed_over k pid x) pre -> wait_scan kept fuel pid (pre ++ rest) k = wait_scan kept fuel pid rest k.
Proof.
  intros Hc Hx. induction 1 as [|c pre (Hc0 & xc & Hxc & Hf & Hs) _ IH]; [done|]. cbn [app wait_scan].
  rewrite (proc_at_done k c xc) by done. cbn [mbind outcome_bind]. rewrite decide_False by lia. rewrite (proc_at_done k _ x) by done. cbn [mbind outcome_bind].
  rewrite Hs. apply IH.
Qed.

(** Sys_wait4 returns the first process below the caller, in the order of the
    tree, that is finished or selected: it does not wait for the selected
    process to finish, and with WNOHANG it does not look. *)
Theorem wait4_does_not_wait y pid status rusage l par node sub x : current y = Done x -> get_current_process (y_k y) <> 0 ->
  k_process_lock (y_k y) = false -> tree_rep (k_pnodes (y_k y)) (k_process_tree (y_k y)) l -> NoDup l.*2 -> (length l <= fuel)%nat -> (node, get_current_process (y_k y)) ∈ l ->
  tree_at (k_pnodes (y_k y)) par node ((node, get_current_process (y_k y)) :: sub) -> (length sub < fuel)%nat -> Z.land 0 WNOHANG = 0 ->
  (sub = [] -> sys_wait4 kept fuel others pid status 0 rusage y = Done (-1, y)) /\
  (forall pre c post xc, sub.*2 = pre ++ c :: post -> Forall (passed_over (y_k y) (s32 pid) x) pre -> c <> 0 -> k_procs (y_k y) !! c = Some xc ->
     Z.land (p_flags xc) PROC_FLAG_FINISHED = 0 -> is_selected (s32 pid) xc x = true -> sys_wait4 kept fuel others pid status 0 rusage y = Done (p_id xc, y)) /\
  (forall flags, Z.land (s32 flags) WNOHANG <> 0 -> sys_wait4 kept fuel others pid status flags rusage y = Done (0, y)).
Proof.
  intros Hx Hc Hl Hrep Hnd Hf Hin Ht Hsub Hw. set (k1 := set_k_process_lock true (y_k y)). assert (Hcp : k_procs (y_k y) !! get_current_process (y_k y) = Some x) by (by apply at_done in Hx as [_ Hx]).
  inversion Ht as [? ? v cs ? Hn0 Hnode Hforest]; subst v.
  assert (Hstep : wait_step kept fuel others (s32 pid) y = (
      if decide (length cs = 0%nat) then Done (inr (-1, set_k (release_process_tree_lock k1) y))
      else
        list ← process_get_all_children fuel (get_current_process k1) k1; list ← of_option list;
        '(r, k) ← wait_scan kept fuel (s32 pid) list k1;
        let y := set_k (release_process_tree_lock k) y in
        match r with Some r => Done (inr (r, y)) | None => y ← pause kept others true y; Done (inl y) end)).
  { unfold wait_step, acquire_process_tree_lock. rewrite Hl. cbn [spin_lock mbind outcome_bind]. fold k1. rewrite (find_in_tree_node fuel k1 l node) by done.
    cbn [mbind outcome_bind]. by rewrite (node_at_done (k_pnodes k1) _ _ Hnode). }
  assert (Hloop : forall r, wait_step kept fuel others (s32 pid) y = Done (inr r) -> sys_wait4 kept fuel others pid status 0 rusage y = Done r).
  { intros r Hr. unfold sys_wait4. rewrite decide_False by (change (s32 0) with 0; lia). destruct fuel as [|fuel']; [lia|]. cbn [loop]. by rewrite Hr. }
  split_and!.
  - intros ->. apply Hloop. rewrite (proj1 (forest_empty _ _ _ _ Hforest) eq_refl) in Hstep. rewrite Hstep. rewrite decide_True by done. unfold k1. by rewrite unlock_tree, sys_eta.
  - intros pre c post xc Hs Hpre Hc0 Hxc Hfin Hsel. apply Hloop. rewrite Hstep. rewrite decide_False by (intros E; apply nil_length_inv in E as ->; rewrite (proj2 (forest_empty _ _ _ _ Hforest) eq_refl) in Hs; by destruct pre).
    assert (Hall : process_get_all_children fuel (get_current_process k1) k1 = Done (Some sub.*2)).
    { unfold process_get_all_children. rewrite (find_in_tree_node fuel k1 l node) by done. cbn [mbind outcome_bind]. rewrite decide_False by done.
      rewrite (proj1 (children_recur _) _ _ _ Ht) by (simpl; lia). done. }
    rewrite Hall. cbn [mbind outcome_bind of_option]. rewrite Hs. rewrite (wait_scan_passes k1 (s32 pid) x pre) by done. cbn [wait_scan].
    rewrite (proc_at_done k1 c xc) by done. cbn [mbind outcome_bind]. rewrite decide_False by lia. rewrite (proc_at_done k1 _ x) by done. cbn [mbind outcome_bind].
    rewrite Hsel. cbn [mbind outcome_bind]. cbn zeta. unfold k1. by rewrite unlock_tree, sys_eta.
  - intros flags Hfl. unfold sys_wait4. by rewrite decide_True.
Qed.

(** *** Poll *)

(** In the states of [I] no signal is pending, no entry of the array is ready,
    and time passes while the others run. *)
Definition poll_quiet (I : state -> Prop) (fdbuf nfds : Z) : Prop := forall y, I y ->
  exists p y1 y2, sig_view y = Done p /\ has_pending_signals p = Done 0 /\ poll_pass fdbuf nfds y = Done (false, y1) /\ k_counter (y_k y1) = k_counter (y_k y) /\
    pause kept others false y1 = Done y2 /\ I y2 /\ k_counter (y_k y) < k_counter (y_k y2).

Lemma poll_step_quiet (I : state -> Prop) fdbuf nfds timeout limit y : poll_quiet I fdbuf nfds -> I y ->
  exists y1 y2, k_counter (y_k y1) = k_counter (y_k y) /\ I y2 /\ k_counter (y_k y) < k_counter (y_k y2) /\
    poll_step kept others fdbuf nfds timeout limit y =
      if decide (timeout = 0 \/ 0 <= timeout /\ limit < k_counter (y_k y)) then Done (inr (Some 0, y1)) else Done (inl y2).
Proof.
  intros Hq HI. destruct (Hq y HI) as (p & y1 & y2 & Hp & Hs & Hpass & Hc & Hpause & HI2 & Hlt). exists y1, y2. do 3 (split; [done|]).
  unfold poll_step. rewrite Hp. cbn [mbind outcome_bind]. rewrite Hs. cbn [mbind outcome_bind]. rewrite (decide_False (P := 0 <> 0)) by lia.
  rewrite Hpass. cbn [mbind outcome_bind]. rewrite Hc. destruct (decide (timeout = 0)) as [->|Hne]; [by rewrite decide_True by (by left)|].
  destruct (decide (0 <= timeout /\ _)) as [Hl|Hl]; [by rewrite decide_True by (by right)|]. rewrite decide_False by (by intros [?|?]). by rewrite Hpause.
Qed.

(** C34: With nothing ready, sys_poll returns 0: at once when it may not wait, and
    after its time, when that is bounded; with a negative timeout it never
    returns, also when no descriptor of the array is open. *)
Theorem poll_waits_for_its_time I fdbuf nfds timeout y : poll_quiet I fdbuf nfds -> I y -> entries_good fdbuf nfds y = Done true -> 0 <= k_counter (y_k y) ->
  (timeout = 0 -> (0 < fuel)%nat -> exists y', sys_poll kept fuel others fdbuf nfds timeout y = Done (0, y') /\ k_counter (y_k y') = k_counter (y_k y)) /\
  (0 < timeout -> k_counter (y_k y) + timeout / 10 + 1 < 2 ^ 64 -> (Z.to_nat (timeout / 10 + 2) < fuel)%nat ->
     exists y', sys_poll kept fuel others fdbuf nfds timeout y = Done (0, y') /\ k_counter (y_k y) + timeout / 10 + 1 < k_counter (y_k y')) /\
  (timeout < 0 -> sys_poll kept fuel others fdbuf nfds timeout y = OutOfFuel).
Proof.
  intros Hq HI Hg Hc0. unfold sys_poll. rewrite Hg. cbn [mbind outcome_bind negb]. cbn zeta. split_and!; intros Ht.
  - intros Hf. destruct fuel as [|n]; [lia|]. cbn [loop]. destruct (poll_step_quiet I fdbuf nfds timeout (time_limit timeout (k_counter (y_k y))) y Hq HI) as (y1 & y2 & Hc & _ & _ & ->).
    rewrite decide_True by (by left). cbn [mbind outcome_bind]. by exists y1.
  - intros Hend Hf. pose proof (Z.div_pos timeout 10 ltac:(lia) ltac:(lia)). unfold time_limit. rewrite decide_True by done. rewrite u64_small by lia.
    set (limit := k_counter (y_k y) + timeout / 10 + 1) in *.
    destruct (loop_total I (fun z => Z.to_nat (limit + 1 - k_counter (y_k z))) (fun r => r.1 = Some 0 /\ limit < k_counter (y_k r.2)) (poll_step kept others fdbuf nfds timeout limit) fuel y)
      as ([r y'] & Hl & Hr & Hy'); [|done|unfold limit; lia|].
    + intros z Hz. destruct (poll_step_quiet I fdbuf nfds timeout limit z Hq Hz) as (y1 & y2 & Hc & HI2 & Hlt & ->).
      destruct (decide _) as [[?|[_ Hd]]|Hd]; [lia|split; [done|simpl; lia]|]. split; [done|]. assert (k_counter (y_k z) <= limit) by lia. lia.
    + rewrite Hl. simpl in Hr. subst r. cbn [mbind outcome_bind]. by exists y'.
  - assert (Hl : forall n z, I z -> loop n (poll_step kept others fdbuf nfds timeout (time_limit timeout (k_counter (y_k y)))) z = OutOfFuel).
    { induction n as [|n IH]; intros z Hz; [done|]. cbn [loop]. destruct (poll_step_quiet I fdbuf nfds timeout (time_limit timeout (k_counter (y_k y))) z Hq Hz) as (y1 & y2 & _ & HI2 & _ & ->).
      rewrite decide_False by lia. cbn [mbind outcome_bind]. by apply IH. }
    by rewrite Hl.
Qed.

(** *** The mask of ppoll *)

Lemma put_view_same y p : sig_view y = Done p -> put_view p y = Done y.
Proof.
  unfold sig_view, put_view. destruct (current y) as [x| | |] eqn:Hx; try done. cbn [mbind outcome_bind].
  destruct (at_ (y_sigs y) _) as [g| | |] eqn:Hg; try done. cbn [mbind outcome_bind]. destruct (at_ (k_regs_at _) _) as [r| | |] eqn:Hr; try done. cbn [mbind outcome_bind].
  intros [= <-]. apply at_done in Hx as [_ Hx], Hg as [_ Hg], Hr as [_ Hr]. cbn [s_lock s_flags s_regs s_handlers s_blocked s_pending].
  destruct y as [k m fr sg q l]. cbn [y_k y_mem y_frames y_sigs futex_queue futex_lock] in *. unfold set_sigs, set_k, put_proc. cbn [y_k y_mem y_frames y_sigs futex_queue futex_lock].
  assert (Ex : with_p_lock (p_lock x) (set_p_flags (p_flags x) x) = x) by (by destruct x). assert (Eg : mk_sig (g_handlers g) (g_blocked g) (g_pending g) (g_syscall g) = g) by (by destruct g).
  rewrite Ex, Eg. rewrite (insert_id sg) by done. do 2 f_equal. destruct k. cbn in *. by rewrite !insert_id.
Qed.

(** Sys_ppoll is sys_poll: the mask it is given never takes effect, since
    SIG_SETMASK copies the blocked signals to themselves, and the call that
    should bring the old mask back is refused, with an address of the kernel's
    stack for a user pointer. *)
Theorem ppoll_ignores_its_mask kstack fdbuf nfds timespec sigmask ms set p y : get_current_process (y_k y) <> 0 -> CHECK_PTR sigmask y = true ->
  (if decide (timespec <> 0) then CHECK_PTR timespec y = true /\ timespec_ms (y_mem y) timespec = Done ms else ms = -1) ->
  sig_view y = Done p -> sig_wf (s_blocked p) -> load_words 16 (y_mem y) sigmask = Done set -> 0xfffffe0000000000 <= u64 kstack ->
  s32 (SIG_SETMASK abi) = SIG_SETMASK abi -> SIG_SETMASK abi <> SIG_BLOCK abi -> SIG_SETMASK abi <> SIG_UNBLOCK abi ->
  sys_ppoll abi kept fuel others kstack fdbuf nfds timespec sigmask y = sys_poll kept fuel others fdbuf nfds (s32 ms) y.
Proof.
  intros Hc Hm Ht Hp Hwf Hset Hk Hs Hb Hu. assert (Hbad : forall z : state, CHECK_PTR kstack z = false) by (intros z; unfold CHECK_PTR; rewrite bool_decide_eq_false_2 by lia; done).
  assert (Hms : (if decide (timespec <> 0) then timespec_ms (y_mem y) timespec else Done (-1)) = Done ms) by (destruct (decide (timespec <> 0)); [by destruct Ht|by rewrite Ht]).
  assert (Hts : bool_decide (timespec <> 0) && negb (CHECK_PTR timespec y) = false) by (destruct (decide (timespec <> 0)) as [Hn|Hn]; [destruct Ht as [-> _]; by rewrite andb_false_r|by rewrite bool_decide_eq_false_2]).
  assert (Hmask : process_set_signal_mask abi (s32 (SIG_SETMASK abi)) set p = Done p).
  { unfold process_set_signal_mask. rewrite Hs. rewrite (decide_False (P := SIG_SETMASK abi = SIG_BLOCK abi)) by done. cbn [mbind outcome_bind]. rewrite (decide_False (P := SIG_SETMASK abi = SIG_UNBLOCK abi)) by done.
    cbn [mbind outcome_bind]. rewrite (decide_True (P := SIG_SETMASK abi = SIG_SETMASK abi)) by done. rewrite setmask_loop by done.
    cbn [mbind outcome_bind keep]. by destruct p. }
  assert (Hfirst : sigprocmask abi (SIG_SETMASK abi) sigmask (fun y => load_words 16 (y_mem y) sigmask) (Some (fun _ y => Done y)) y = Done (0, y)).
  { unfold sigprocmask. rewrite decide_False by done. rewrite Hm. cbn [negb orb]. rewrite Hp. cbn [mbind outcome_bind]. rewrite Hset. cbn [mbind outcome_bind]. rewrite Hp. cbn [mbind outcome_bind].
    rewrite Hmask. cbn [mbind outcome_bind]. by rewrite put_view_same. }
  assert (Hsecond : forall z : state, exists c, sigprocmask abi (SIG_SETMASK abi) kstack (fun _ => Done (s_blocked p)) None z = Done (c, z)).
  { intros z. unfold sigprocmask. rewrite Hbad. cbn [negb orb]. destruct (decide (get_current_process (y_k z) = 0)); by eexists. }
  unfold sys_ppoll. rewrite Hm, Hts. cbn [negb]. rewrite Hms. cbn [mbind outcome_bind]. rewrite Hp. cbn [mbind outcome_bind]. cbn zeta. rewrite Hfirst. cbn [mbind outcome_bind].
  destruct (sys_poll kept fuel others fdbuf nfds (s32 ms) y) as [[r z]| | |]; try done. cbn [mbind outcome_bind]. by destruct (Hsecond z) as [c ->].
Qed.

(** *** Futex *)

Lemma sys_futex_result pointer action val timeout y r y' : sys_futex kept others pointer action val timeout y = Done (r, y') ->
  r = - EINVAL \/ r = - EAGAIN \/ r = - ENOSYS.
Proof.
  unfold sys_futex. destruct (_ || _); [intros [= <- _]; by left|]. intros ([page k] & _ & H)%outcome_bind_done. destruct (decide (page = 0)); [injection H as <- _; by left|].
  destruct (decide (action = FUTEX_WAIT)).
  - apply outcome_bind_done in H as (w & _ & H). destruct (decide (w = val)); [|injection H as <- _; by right; left].
    apply outcome_bind_done in H as (id & _ & H). apply outcome_bind_done in H as (l & _ & H). apply outcome_bind_done in H as (q & _ & H).
    apply outcome_bind_done in H as (ms & _ & H). apply outcome_bind_done in H as (z & _ & H). apply outcome_bind_done in H as (l' & _ & H).
    apply outcome_bind_done in H as ([b q'] & _ & H). injection H as <- _. by right; right.
  - destruct (decide (action = FUTEX_WAKE)); [|injection H as <- _; by right; right].
    apply outcome_bind_done in H as (id & _ & H). apply outcome_bind_done in H as (list & _ & H). apply outcome_bind_done in H as (k' & _ & H). injection H as <- _. by right; left.
Qed.

(** No call of sys_futex succeeds.  FUTEX_WAKE with a waiter wakes nobody, and
    leaves sleep_lock taken: every later sleep and every wake of a waiter waits
    for it for ever. *)
Theorem futex_wakes_nobody pointer val timeout y k page id w x : CHECK_PTR pointer y = true -> CHECK_PTR timeout y = true ->
  with_vm_result (memmgr_create_or_get_page (u64 pointer) 0 0) (y_k y) = Done (page, k) -> page <> 0 -> long_to_string pointer = Done id ->
  ht_get_all_values (futex_queue y) id = Done (Some [w]) -> w <> 0 -> k_procs k !! w = Some x -> k_sleep_lock k = false -> 0 <= core (k_pcb k) ->
  (forall action val' timeout' r y', sys_futex kept others pointer action val' timeout' y = Done (r, y') -> r = - EINVAL \/ r = - EAGAIN \/ r = - ENOSYS) /\
  sys_futex kept others pointer FUTEX_WAKE val timeout y = Done (- EAGAIN, set_k (set_k_sleep_lock true k) y) /\
  wakeup_now w (set_k_sleep_lock true k) = Blocked /\ wakeup_sleeping kept (set_k_sleep_lock true k) = Blocked.
Proof.
  intros Hp Ht Hpage Hpg Hid Hv Hw Hx Hl Hcore. split; [intros; by eapply sys_futex_result|]. split; [|done].
  unfold sys_futex. rewrite Hp, Ht. cbn [negb orb]. rewrite Hpage. cbn [mbind outcome_bind]. rewrite decide_False by done. rewrite decide_False by done. rewrite decide_True by done.
  rewrite Hid. cbn [mbind outcome_bind]. cbn [set_k futex_queue y_k]. rewrite Hv. cbn [mbind outcome_bind wake_values]. unfold wakeup_now, lock_sleep. rewrite Hl. cbn [spin_lock mbind outcome_bind].
  rewrite (proc_at_done _ w x) by done. cbn [mbind outcome_bind]. rewrite decide_True by (simpl; lia). done.
Qed.
End Facts.

(** ** Calls of a small process *)

Definition demo_call (n arg0 arg1 : Z) : regs_t := mk_regs 0 0 0 0 0 0 0 0 0 arg0 arg1 0 0 0 n 0 0 0 0 0 0 0.
Definition demo_slots4 : list Z := [70; 0; 71; 0].
Definition calling (n arg0 arg1 : Z) : sys frames tarfs :=
  set_k (set_k_regs_at {[ 80 := demo_call n arg0 arg1 ]} (sys_kernel demo_slots4 hello_vfs)) (demo_sys demo_slots4).
(** The others leave everything as it was and take a tick. *)
Definition waited (n : Z) : sys frames tarfs := set_k (set_k_counter n (sys_kernel demo_slots4 hello_vfs)) (demo_sys demo_slots4).
Definition one_tick (y : sys frames tarfs) : outcome (sys frames tarfs) := Done (waited (k_counter (y_k y) + 1)).
Definition no_image (_ _ _ : Z) (y : sys frames tarfs) : outcome (Z * sys frames tarfs) := Done (-1, y).

(** tarfs sets no close operation. *)
#[export] Instance tarfs_close : CloseOp tarfs := {| close_op := fun _ v => Done v |}.
#[local] Instance hello_files : Drivers tarfs := tarfs_drivers 5 0 0.
Abbreviation demo_entry := (syscall_entry linux_abi true 5 5 false 0 0 0 0 0 zero_regs no_image one_tick).

Lemma calling_enters n arg0 arg1 : entering (calling n arg0 arg1) 80 (demo_call n arg0 arg1) sys_user.
Proof. by split. Qed.

Lemma unimplemented_calls_witness :
  demo_entry 0xffffff0000000000 80 (calling 62 0 0) = Done (Return 0 (answered (entered (calling 62 0 0) 80 sys_user) 80 (u64 (-38)) (demo_call 62 0 0))) /\
  demo_entry 0xffffff0000000000 80 (calling 272 0 0) = Fault.
Proof.
  split.
  - destruct (unimplemented_calls linux_abi true 5 5 false 0 0 0 0 0 zero_regs no_image one_tick 0xffffff0000000000 (calling 62 0 0) 80 (demo_call 62 0 0) sys_user (calling_enters _ _ _)) as [H _]; [done|].
    apply H; [done|]. by apply (bool_decide_unpack _).
  - destruct (unimplemented_calls linux_abi true 5 5 false 0 0 0 0 0 zero_regs no_image one_tick 0xffffff0000000000 (calling 272 0 0) 80 (demo_call 272 0 0) sys_user (calling_enters _ _ _)) as [_ H]; [done|].
    by apply H.
Defined.

Lemma mmap_result_truncated_witness : exists y' v, demo_entry 0xffffff0000000000 80 (calling 9 0x8000000000 4096) = Done (Return 0 y') /\
  k_vmem (y_k y') = v /\ k_regs_at (y_k y') !! 80 = Some (with_rax 0 (demo_call 9 0x8000000000 4096)).
Proof.
  destruct (mmap 0x8000000000 4096 false user_vm) as [[a v]| | |] eqn:Hm;
    apply (f_equal (fun o => match o with Done (a, _) => Some a | _ => None end)) in Hm as Ha; vm_compute in Ha; try discriminate Ha. injection Ha as <-.
  destruct (mmap_result_truncated linux_abi true 5 5 false 0 0 0 0 0 zero_regs no_image one_tick 0xffffff0000000000 (calling 9 0x8000000000 4096) 80
    (demo_call 9 0x8000000000 4096) sys_user 0x8000000000 v (calling_enters _ _ _) eq_refl eq_refl eq_refl Hm) as (y' & H1 & H2 & H3 & _); [lia|].
  exists y', v. split; [exact H1|]. split; [exact H2|]. exact H3.
Defined.

Lemma brk_once_witness : exists y1, sys_brk 0 0 (calling 12 0 0) = Done (0, y1) /\ sys_brk 1 4096 y1 = Blocked.
Proof.
  destruct (sys_brk 0 0 (calling 12 0 0)) as [[r y1]| | |] eqn:E;
    apply (f_equal (fun o => match o with Done (r, _) => Some r | _ => None end)) in E as Er; vm_compute in Er; try discriminate Er. assert (r = 0) as -> by congruence.
  exists y1. split; [done|]. refine (proj2 (brk_once 0 0 (calling 12 0 0) 0 y1 sys_user (mk_mm 4096 0 1 false) eq_refl _ eq_refl _ E) 1 4096); done.
Defined.

(** No page mapped for the user. *)
Definition unmapped : sys frames tarfs := set_k (set_k_vmem boot_kernel (sys_kernel demo_slots4 hello_vfs)) (demo_sys demo_slots4).
Lemma null_is_refused_witness : sys_rt_sigaction 2 512 0 unmapped = Done (-22, unmapped) /\ sys_futex true one_tick 512 FUTEX_WAIT 0 0 unmapped = Done (-22, unmapped) /\
  sys_clone 5 0 0 CLONE_VM 512 0 0 0 unmapped = Done (-14, unmapped).
Proof.
  destruct (null_is_refused linux_abi true 5 0 0 one_tick unmapped 512 0 2 0) as (H1 & _); [done|done|].
  destruct (null_is_refused linux_abi true 5 0 0 one_tick unmapped 512 0 FUTEX_WAIT 0) as (_ & _ & _ & H2 & _); [done|done|].
  destruct (null_is_refused linux_abi true 5 0 0 one_tick unmapped 512 0 CLONE_VM 0) as (_ & _ & _ & _ & _ & H3 & _); [done|done|].
  split; [exact H1|]. split; [exact H2|exact H3].
Defined.

Lemma execve_refuses_every_process_witness : sys_execve no_image 512 0 0 (demo_sys demo_slots4) = Done (-22, demo_sys demo_slots4) \/
  sys_execve no_image 512 0 0 (demo_sys demo_slots4) = Done (-2, demo_sys demo_slots4).
Proof. exact (execve_refuses_every_process no_image (demo_sys demo_slots4) sys_user 512 0 0 false false eq_refl ltac:(done) ltac:(done) eq_refl eq_refl). Defined.

(** The child 12 of the process 11 is running. *)
Lemma wait4_does_not_wait_witness : sys_wait4 true 5 one_tick (-1) 0 0 0 (demo_sys demo_slots4) = Done (12, demo_sys demo_slots4) /\
  k_procs (y_k (demo_sys demo_slots4)) !! 12 = Some (demo_process 12) /\ Z.land (p_flags (demo_process 12)) PROC_FLAG_FINISHED = 0.
Proof.
  split; [|split; reflexivity].
  destruct (wait4_does_not_wait true 5 one_tick (demo_sys demo_slots4) (-1) 0 0 [(1, 11); (2, 12)] 0 1 [(2, 12)] sys_user) as (_ & H & _);
    [done|done|done|apply demo_process_tree|apply (bool_decide_unpack _); reflexivity|simpl; lia|by left| |simpl; lia|done|].
  - econstructor; [done|reflexivity|]. apply (forest_cons _ _ 2 [] [(2, 12)] []); [|constructor]. econstructor; [done|reflexivity|constructor].
  - apply (H [] 12 [] (demo_process 12)); try done; by constructor.
Defined.

(** An array of one entry, for the free descriptor 1; its result comes back. *)
Definition poll_entry : list Z := to_le 4 1 ++ to_le 2 5 ++ to_le 2 0.
Definition polling (n : Z) : sys frames tarfs := set_mem (write_bytes user_bytes 1024 poll_entry) (waited n).
Definition poll_tick (y : sys frames tarfs) : outcome (sys frames tarfs) := Done (polling (k_counter (y_k y) + 1)).

Lemma polling_quiet : poll_quiet true poll_tick (fun y => exists n, y = polling n) 1024 1.
Proof.
  intros y [n ->]. eexists _, _, (polling (n + 1)). split; [reflexivity|]. split; [reflexivity|]. split; [reflexivity|]. split; [reflexivity|].
  split; [reflexivity|]. split; [by eexists|]. simpl. lia.
Qed.

Lemma poll_waits_for_its_time_witness : (exists y', sys_poll true 50 poll_tick 1024 1 30 (polling 100) = Done (0, y') /\ 104 < k_counter (y_k y')) /\
  sys_poll true 50 poll_tick 1024 1 (-1) (polling 100) = OutOfFuel.
Proof.
  split.
  - destruct (poll_waits_for_its_time true 50 poll_tick _ 1024 1 30 (polling 100) polling_quiet) as (_ & H & _); [by eexists|reflexivity|done|].
    apply H; [lia|done|]. by apply (bool_decide_unpack _).
  - destruct (poll_waits_for_its_time true 50 poll_tick _ 1024 1 (-1) (polling 100) polling_quiet) as (_ & _ & H); [by eexists|reflexivity|done|].
    by apply H.
Defined.

Lemma ppoll_ignores_its_mask_witness : sys_ppoll linux_abi true 50 poll_tick 0xffffff0000000000 1024 1 0 1040 (polling 100) = sys_poll true 50 poll_tick 1024 1 (-1) (polling 100).
Proof.
  refine (ppoll_ignores_its_mask linux_abi true 50 poll_tick 0xffffff0000000000 1024 1 0 1040 (-1) (replicate 16 0x0707070707070707) _ (polling 100) _ eq_refl eq_refl eq_refl eq_refl _ _ eq_refl _ _);
    first [done|reflexivity|by vm_compute].
Defined.

(** The first page mapped by itself, and the thread 12 waiting at 1024. *)
Definition small_pages : vm frames :=
  mk_vm (fun a => if decide (a = 0x1000) then 0x2007 else if decide (a = 0x2000) then 0x3007 else if decide (a = 0x3000) then 0x4007 else if decide (a = 0x4000) then 0x5007 else 0)
    demo_frames 0x1000 0 0x1000000 false [].
Definition key_1024 : list Z := [49; 48; 50; 52].
Definition with_waiter (q : hashtable) : sys frames tarfs :=
  set_futex q false (set_k (set_k_vmem small_pages (sys_kernel demo_slots4 hello_vfs)) (demo_sys demo_slots4)).

Lemma futex_wakes_nobody_witness : exists q k, ht_insert (ht_create 32) key_1024 12 = Done q /\
  sys_futex true one_tick 1024 FUTEX_WAKE 0 1040 (with_waiter q) = Done (-11, set_k (set_k_sleep_lock true k) (with_waiter q)) /\ wakeup_now 12 (set_k_sleep_lock true k) = Blocked.
Proof.
  eexists _, (y_k (with_waiter (ht_create 32))). split; [vm_compute; reflexivity|].
  match goal with |- context [with_waiter ?q] => set (t := q) end.
  assert (Hpage : with_vm_result (memmgr_create_or_get_page (u64 1024) 0 0) (y_k (with_waiter t)) = Done (0x5000, y_k (with_waiter t))) by (vm_compute; reflexivity).
  refine (let H := futex_wakes_nobody true one_tick 1024 0 1040 (with_waiter t) (y_k (with_waiter t)) 0x5000 key_1024 12 (demo_process 12) eq_refl eq_refl Hpage _ _ _ _ _ eq_refl _ in
    conj (proj1 (proj2 H)) (proj1 (proj2 (proj2 H)))); first [done|by vm_compute].
Defined.
