(* ===== verification/Elf.v ===== *)
(** kernel/program/elf.c and the symbol table of kernel/kernel.c: programs and
    modules.

    A program is read through the file system (Vfs.read), its pages come from
    mmap (Paging), its bytes go to the memory of the address space (Memory);
    [space] holds the three.  The contents of a local that a short read leaves,
    of malloc'ed bytes and of a page that mmap picks itself are parameters.
    The main theorem is that exec_elf builds the memory image the program
    headers describe, on top of the contracts of the driver and of mmap
    (PageTree). *)
From stdpp Require Import base list gmap.
From Stdlib Require Import ZArith Lia.
From S2P Require Import Prelude Memory CString UserMem Format HashTable Frames Paging PageTree KTree Vfs Tarfs Mutex Signals Procs Scheduler Process SysFiles.

#[local] Open Scope Z_scope.

(** ** The file format *)

(** A little-endian le_field of [n] bytes at offset [off]. *)
Definition le_field (off n : nat) (bytes : list Z) : Z := le (take n (drop off bytes)).

Definition sizeof_Ehdr : Z := 64.
Definition sizeof_phdr : Z := 56.
Definition sizeof_Shdr : Z := 64.
Definition sizeof_Sym : Z := 24.

Definition e_type (h : list Z) : Z := le_field 16 2 h.
Definition e_entry (h : list Z) : Z := le_field 24 8 h.
Definition e_phoff (h : list Z) : Z := le_field 32 8 h.
Definition e_shoff (h : list Z) : Z := le_field 40 8 h.
Definition e_phentsize (h : list Z) : Z := le_field 54 2 h.
Definition e_phnum (h : list Z) : Z := le_field 56 2 h.
Definition e_shentsize (h : list Z) : Z := le_field 58 2 h.
Definition e_shnum (h : list Z) : Z := le_field 60 2 h.

Record program_header := mk_ph { ph_type : Z; ph_offset : Z; ph_vaddr : Z; ph_filesz : Z; ph_memsz : Z }.
Definition phdr_of (b : list Z) : program_header := mk_ph (le_field 0 4 b) (le_field 8 8 b) (le_field 16 8 b) (le_field 32 8 b) (le_field 40 8 b).

Definition PT_LOAD : Z := 1.
Definition SHT_SYMTAB : Z := 2.
Definition SHT_RELA : Z := 4.
Definition SHT_NOBITS : Z := 8.
Definition R_X86_64_64 : Z := 1.
Definition R_X86_64_PC32 : Z := 2.
Definition R_X86_64_32 : Z := 10.
Definition ELF64_R_SYM (i : Z) : Z := Z.shiftr i 32.
Definition ELF64_R_TYPE (i : Z) : Z := Z.land i 0xFFFFFFFF.

Record elf_t := mk_elf { elf_header : list Z; elf_handle : file_handle; elf_entrypoint : Z }.

Definition seek (o : Z) (f : file_handle) : file_handle := mk_fh (h_node f) (h_mode f) o.
Definition at_offset (o : Z) (e : elf_t) : elf_t := mk_elf (elf_header e) (seek o (elf_handle e)) (elf_entrypoint e).

(** The address space: bytes, page map, and the files behind it. *)
Record space (F D : Type) := mk_space { sp_mem : mem; sp_vm : vm F; sp_vfs : vfs D }.
Arguments mk_space {F D}.
Arguments sp_mem {F D}.
Arguments sp_vm {F D}.
Arguments sp_vfs {F D}.

(** malloc, as a block of bytes that belonged to no object; its content is
    left as it was found. *)
Class ByteAlloc := {
  balloc : mem -> Z -> Z;
  bjunk : Z -> list Z;
  balloc_fresh : forall m n, 0 < balloc m n /\ forall q, balloc m n <= q < balloc m n + n -> m !! q = None;
  bjunk_length : forall n, length (bjunk n) = Z.to_nat n
}.

Section Loader.
Context {F D : Type} `{FA : FrameAllocator F} `{NA : NodeAlloc} `{Drv : Drivers D} `{Env : VfsEnv D}.
(** [local i]: the program header variable in round [i] before the read;
    [picked]: the content of a page at an address of mmap's choice. *)
Context (fuel : nat) (local : Z -> list Z) (picked : list Z).
Abbreviation state := (space F D).

Definition put_mem (m : mem) (s : state) : state := mk_space m (sp_vm s) (sp_vfs s).

(** read into user memory; the result is ignored by all callers here. *)
Definition read_to (h : file_handle) (p n : Z) (s : state) : outcome state :=
  '(_, bytes, v) ← Vfs.read h (user_buffer (sp_mem s) p n) n (sp_vfs s);
  Done (mk_space (write_bytes (sp_mem s) p bytes) (sp_vm s) v).

(** mmap((void* )ptr, 0x1000, false); the result is ignored. *)
Definition map_page (ptr : Z) (s : state) : outcome state :=
  '(r, v) ← mmap ptr 0x1000 false (sp_vm s);
  let content := if decide (align_down ptr = 0) then picked else replicate 4096 0 in
  Done (mk_space (if decide (r = 0) then sp_mem s else write_bytes (sp_mem s) r content) v (sp_vfs s)).

(** ** load_elf and exec_elf *)

Definition load_elf (handle : file_handle) (s : state) : outcome (option elf_t * state) :=
  '(_, header, v) ← Vfs.read handle (replicate 64 0) sizeof_Ehdr (sp_vfs s);
  let s := mk_space (sp_mem s) (sp_vm s) v in
  if negb (bool_decide (take 4 header = [0x7F; 69; 76; 70])) then Done (None, s)
  else if decide (header !! 4%nat <> Some 2) then Done (None, s)
  else Done (Some (mk_elf header handle 0), s).

Definition map_segment (vaddr memsz : Z) (s : state) : outcome state :=
  loop fuel (fun '(ptr, s) =>
    if decide (ptr < u64 (vaddr + memsz)) then s ← map_page ptr s; Done (inl (u64 (ptr + 0x1000), s))
    else Done (inr s)) (vaddr, s).

(** The body of the if: map, read, clear the rest. *)
Definition load_segment (h : file_handle) (ph : program_header) (s : state) : outcome state :=
  s ← map_segment (ph_vaddr ph) (ph_memsz ph) s;
  s ← read_to (seek (ph_offset ph) h) (ph_vaddr ph) (ph_filesz ph) s;
  m ← memset (sp_mem s) (u64 (ph_vaddr ph + ph_filesz ph)) 0 (u64 (ph_memsz ph - ph_filesz ph));
  Done (put_mem m s).

Definition exec_step (i : Z) (st : elf_t * state) : outcome ((elf_t * state) + unit) :=
  let '(elf, s) := st in
  let elf := at_offset (u64 (e_phoff (elf_header elf) + s32 (i * e_phentsize (elf_header elf)))) elf in
  '(_, bytes, v) ← Vfs.read (elf_handle elf) (local i) sizeof_phdr (sp_vfs s);
  let s := mk_space (sp_mem s) (sp_vm s) v in
  let ph := phdr_of bytes in
  if decide (ph_type ph = PT_LOAD) then
    s ← load_segment (elf_handle elf) ph s;
    Done (inl (at_offset (ph_offset ph) elf, s))
  else Done (inl (elf, s)).

Definition exec_elf (elf : elf_t) (s : state) : outcome (Z * elf_t * state) :=
  r ← for_ (Z.to_nat (e_phnum (elf_header elf))) 0 exec_step (elf, s);
  match r with
  | inl (elf, s) => Done (0, mk_elf (elf_header elf) (elf_handle elf) (e_entry (elf_header elf)), s)
  | inr _ => Fault
  end.
End Loader.

(** ** Symbols (kernel/kernel.c) *)

Module Symbols.
Definition MAX_SYMBOLS : Z := 1024.
Record kernel_symbol := mk_ks { ks_value : Z; ks_name : list Z }.
Record symtab := mk_st { ksymtab : hashtable; num_symbols : Z; st_objects : gmap Z kernel_symbol }.

Section Symbols.
Context (calloc_symbol : gmap Z kernel_symbol -> Z).

Definition register_symbol (name : list Z) (value : Z) (t : symtab) : outcome (Z * symtab) :=
  if decide (MAX_SYMBOLS <= num_symbols t) then Done (-1, t)
  else
    let kernelSymbol := calloc_symbol (st_objects t) in
    h ← ht_insert (ksymtab t) name kernelSymbol;
    Done (0, mk_st h (num_symbols t + 1) (<[kernelSymbol := mk_ks value name]> (st_objects t))).

Definition find_symbol (name : list Z) (t : symtab) : outcome Z := ht_lookup (ksymtab t) name.

(** [syms] is what lies between __start___ksymtab and __stop___ksymtab. *)
Fixpoint register_all (syms : list kernel_symbol) (t : symtab) : outcome symtab :=
  match syms with
  | [] => Done t
  | sym :: syms => '(_, t) ← register_symbol (ks_name sym) (ks_value sym) t; register_all syms t
  end.
Definition init_kernel_symbols (syms : list kernel_symbol) (t : symtab) : outcome symtab :=
  register_all syms (mk_st (ht_create MAX_SYMBOLS) (num_symbols t) (st_objects t)).
End Symbols.
End Symbols.

(** ** Modules

    [void*] arithmetic counts bytes, [Elf64_Shdr*] arithmetic counts headers:
    the two forms of the address of a section header.  [st_shndx] is unsigned,
    so that the last branch of the symbol loop is never taken. *)
Module Modules.
Section Modules.
Context {F D : Type} `{FA : FrameAllocator F} `{NA : NodeAlloc} `{Drv : Drivers D} `{Env : VfsEnv D} `{BA : ByteAlloc}.
(** [call_init]: the init function of a module, by address. *)
Context (call_init : Z -> space F D * option hashtable -> outcome (Z * (space F D * option hashtable))).
Abbreviation state := (space F D).

Definition malloc_bytes (n : Z) (m : mem) : Z * mem := (balloc m n, write_bytes m (balloc m n) (bjunk n)).
Definition calloc_bytes (n : Z) (m : mem) : Z * mem := (balloc m n, write_bytes m (balloc m n) (replicate (Z.to_nat n) 0)).
Fixpoint free_bytes (n : nat) (p : Z) (m : mem) : mem := match n with O => m | S n => free_bytes n (p + 1) (base.delete p m) end.

(** [module_space + (e_shoff + i * e_shentsize)] *)
Definition shdr_at (module_space : Z) (header : list Z) (i : Z) : Z := u64 (module_space + u64 (e_shoff header + i)).
(** [(Elf64_Shdr* )module_space + (e_shoff + i * e_shentsize)] *)
Definition shdr_scaled (module_space : Z) (header : list Z) (i : Z) : Z := u64 (module_space + sizeof_Shdr * u64 (e_shoff header + i)).

Definition sh_type (m : mem) (shdr : Z) : outcome Z := load_le 4 m (shdr + 4).
Definition sh_addr (m : mem) (shdr : Z) : outcome Z := load_le 8 m (shdr + 16).
Definition sh_offset (m : mem) (shdr : Z) : outcome Z := load_le 8 m (shdr + 24).
Definition sh_size (m : mem) (shdr : Z) : outcome Z := load_le 8 m (shdr + 32).
Definition sh_link (m : mem) (shdr : Z) : outcome Z := load_le 4 m (shdr + 40).
Definition sh_info (m : mem) (shdr : Z) : outcome Z := load_le 4 m (shdr + 44).

(** First loop: memory for the sections without contents, addresses for all. *)
Definition place_section (module_space : Z) (header : list Z) (i : Z) (st : mem * Z) : outcome ((mem * Z) + unit) :=
  let '(m, size) := st in
  let shdr := shdr_at module_space header (s32 (i * e_shentsize header)) in
  type ← sh_type m shdr;
  if decide (type = SHT_NOBITS) then
    n ← sh_size m shdr;
    let '(p, m) := malloc_bytes n m in
    m ← store_le 8 m (shdr + 16) p;
    n ← sh_size m shdr;
    addr ← sh_addr m shdr;
    m ← memset m addr 0 n;
    Done (inl (m, u64 (size + n)))
  else
    off ← sh_offset m shdr;
    m ← store_le 8 m (shdr + 16) (u64 (module_space + off));
    Done (inl (m, size)).

(** Second loop: one symbol. *)
Definition resolve_symbol (module_space : Z) (header : list Z) (ksyms : Symbols.symtab) (stringTable symbolTable sym : Z) (st : mem * Z)
    : outcome ((mem * Z) + unit) :=
  let '(m, moduleDefinition) := st in
  let entry := symbolTable + sizeof_Sym * sym in
  shndx ← load_le 2 m (entry + 6);
  m ← (if decide (0 < shndx) then
         value ← load_le 8 m (entry + 8);
         base ← sh_addr m (shdr_scaled module_space header (s32 (shndx * e_shentsize header)));
         store_le 8 m (entry + 8) (u64 (value + base))
       else
         st_name ← load_le 4 m entry;
         name ← user_string m (stringTable + st_name);
         p ← Symbols.find_symbol name ksyms;
         store_le 8 m (entry + 8) p);
  st_name ← load_le 4 m entry;
  if decide (st_name = 0) then Done (inl (m, moduleDefinition))
  else
    name ← user_string m (stringTable + st_name);
    if decide (name = [109; 111; 100; 117; 108; 101]) then value ← load_le 8 m (entry + 8); Done (inl (m, value))
    else Done (inl (m, moduleDefinition)).

Definition resolve_section (module_space : Z) (header : list Z) (ksyms : Symbols.symtab) (i : Z) (st : mem * Z) : outcome ((mem * Z) + unit) :=
  let '(m, moduleDefinition) := st in
  let shdr := shdr_at module_space header (s32 (i * e_shentsize header)) in
  type ← sh_type m shdr;
  if decide (type <> SHT_SYMTAB) then Done (inl (m, moduleDefinition))
  else
    link ← sh_link m shdr;
    stringTable ← sh_addr m (shdr_at module_space header (u32 (link * e_shentsize header)));
    symbolTable ← sh_addr m shdr;
    size ← sh_size m shdr;
    for_ (Z.to_nat (u32 (size / sizeof_Sym))) 0 (resolve_symbol module_space header ksyms stringTable symbolTable) (m, moduleDefinition).

(** Third loop: the store of one relocation, S + A or S + A - P. *)
Definition apply_relocation (type target value addend : Z) (m : mem) : outcome mem :=
  if decide (type = R_X86_64_32) then store_le 4 m target (u64 (value + addend))
  else if decide (type = R_X86_64_64) then store_le 8 m target (u64 (value + addend))
  else if decide (type = R_X86_64_PC32) then store_le 4 m target (u64 (value + addend - target))
  else Done m.

Definition relocate (section symbolTable relocationTable relocation : Z) (m : mem) : outcome (mem + unit) :=
  let r := relocationTable + 24 * relocation in
  base ← sh_addr m section;
  r_offset ← load_le 8 m r;
  r_info ← load_le 8 m (r + 8);
  let type := ELF64_R_TYPE r_info in
  if decide (type = R_X86_64_32 \/ type = R_X86_64_64 \/ type = R_X86_64_PC32) then
    value ← load_le 8 m (symbolTable + sizeof_Sym * ELF64_R_SYM r_info + 8);
    r_addend ← load_le 8 m (r + 16);
    m ← apply_relocation type (u64 (base + r_offset)) value r_addend m;
    Done (inl m)
  else Done (inl m).

Definition relocate_section (module_space : Z) (header : list Z) (i : Z) (m : mem) : outcome (mem + unit) :=
  let shdr := shdr_at module_space header (s32 (i * e_shentsize header)) in
  type ← sh_type m shdr;
  if decide (type <> SHT_RELA) then Done (inl m)
  else
    relocationTable ← sh_addr m shdr;
    info ← sh_info m shdr;
    let section := shdr_scaled module_space header (u32 (info * e_shentsize header)) in
    link ← sh_link m shdr;
    symbolTable ← sh_addr m (shdr_scaled module_space header (u32 (link * e_shentsize header)));
    size ← sh_size m shdr;
    for_ (Z.to_nat (u32 (size / sizeof_Sym))) 0 (relocate section symbolTable relocationTable) m.

Definition end_loop {A} (r : A + unit) : outcome A := match r with inl a => Done a | inr _ => Fault end.

(** [modules] is the global table; nothing creates it ([None] is NULL). *)
Definition module_elf (ksyms : Symbols.symtab) (elf : elf_t) (s : state) (modules : option hashtable) : outcome (Z * (state * option hashtable)) :=
  let header := elf_header elf in
  if decide (e_type header <> 1) then Done (-1, (s, modules))
  else
    f ← file_at (sp_vfs s) (h_node (elf_handle elf));
    let '(module_space, m) := malloc_bytes (f_size f) (sp_mem s) in
    s ← read_to (elf_handle elf) module_space (f_size f) (put_mem m s);
    r ← for_ (Z.to_nat (e_shnum header)) 0 (place_section module_space header) (sp_mem s, f_size f);
    '(m, size) ← end_loop r;
    r ← for_ (Z.to_nat (e_shnum header)) 0 (resolve_section module_space header ksyms) (m, 0);
    '(m, moduleDefinition) ← end_loop r;
    if decide (moduleDefinition = 0) then Done (-1, (put_mem (free_bytes (Z.to_nat (f_size f)) module_space m) s, modules))
    else
      r ← for_ (Z.to_nat (e_shnum header)) 0 (relocate_section module_space header) m;
      m ← end_loop r;
      let '(module, m) := calloc_bytes 24 m in
      m ← store_le 8 m module moduleDefinition;
      m ← store_le 8 m (module + 8) module_space;
      m ← store_le 8 m (module + 16) size;
      p ← load_le 8 m moduleDefinition;
      match modules with
      | None => Fault
      | Some t =>
          name ← user_string m p;
          t ← ht_insert t name module;
          init ← load_le 8 m (moduleDefinition + 8);
          call_init init (put_mem m s, Some t)
      end.
End Modules.
End Modules.

(** ** Facts *)

#[local] Ltac Zify.zify_post_hook ::= Z.to_euclidean_division_equations.

Lemma align_down_page a : 0 <= a < 2 ^ 64 -> align_down a = a / 4096 * 4096.
Proof.
  intros Ha. unfold align_down. replace (u64 (Z.lnot (PAGE_SIZE - 1))) with PAGE_MASK by reflexivity. by rewrite land_mask, Z.mod_small by lia.
Qed.

Lemma memset_done m p n : 0 <= n -> mapped m p n -> memset m p 0 n = Done (write_bytes m p (replicate (Z.to_nat n) 0)).
Proof.
  intros Hn Hm. unfold memset. destruct (for_total (A := mem) (fun i m' => m' = write_bytes m p (replicate (Z.to_nat i) 0)) (Z.to_nat n) 0
    (fun i m => m' ← store m (p + i) (u8 0); mret (inl m')) m) as (m' & -> & ->); [|done|by rewrite Z.add_0_l, Z2Nat.id by lia].
  intros i ? Hi ->. assert (Hs : is_Some (write_bytes m p (replicate (Z.to_nat i) 0) !! (p + i))) by (apply (mapped_write_bytes _ _ _ p n); [done|lia]).
  rewrite (store_done _ _ _ Hs). cbn [mbind outcome_bind]. eexists. split; [done|]. replace (Z.to_nat (i + 1)) with (S (Z.to_nat i)) by lia.
  rewrite replicate_S_end, write_bytes_snoc, length_replicate. by rewrite Z2Nat.id by lia.
Qed.

Lemma memset_faults m p n q : 0 <= q < n -> m !! (p + q) = None -> memset m p 0 n = Fault.
Proof.
  intros Hq Hno. unfold memset.
  assert (H : forall c i m, i <= q < i + Z.of_nat c -> m !! (p + q) = None -> for_ (A := mem) c i (fun i m => m' ← store m (p + i) (u8 0); mret (inl m')) m = Fault).
  { clear Hno. induction c as [|c IH]; intros i m0 Hi Hno; [lia|]. cbn [for_]. destruct (decide (i = q)) as [->|Hne]; [unfold store; by rewrite Hno|].
    unfold store. destruct (m0 !! (p + i)); [|done]. cbn [mbind outcome_bind]. unfold mret, outcome_ret. apply IH; [lia|]. by rewrite lookup_insert_ne by lia. }
  by rewrite H by (done || lia).
Qed.

Section Facts.
Context {F D : Type} `{FA : FrameAllocator F} `{NA : NodeAlloc} `{Drv : Drivers D} `{Env : VfsEnv D}.
Context (fuel : nat) (local : Z -> list Z) (picked : list Z).
Implicit Types s : space F D.

(** *** Pages of the address space

    Page [n] is backed when it is mapped to a frame and its bytes are there;
    it is ready when mmap will make it so. *)

Definition backed s (n : Z) : Prop := 0 <= n < 2 ^ 36 /\ (exists p, p <> 0 /\ walk (sp_vm s) (4096 * n) = WPage p) /\ mapped (sp_mem s) (4096 * n) 4096.
Definition ready s (n : Z) : Prop := walk (sp_vm s) (4096 * n) = WMiss \/ backed s n.

(** A page map with frames for [k] more pages. *)
Record roomy (k : nat) s : Prop := { rm_inv : tables_inv (sp_vm s); rm_tree : tree (sp_vm s); rm_rich : rich (4 * k) (fr (sp_vm s)) }.

(** The pages of [P] were mapped; the others, and those that were backed, are
    untouched. *)
Record maps (P : Z -> Prop) s s' : Prop := {
  mp_vfs : sp_vfs s' = sp_vfs s;
  mp_walk : forall n, 0 <= n < 2 ^ 36 -> ~ P n \/ backed s n -> walk (sp_vm s') (4096 * n) = walk (sp_vm s) (4096 * n);
  mp_mem : forall q, ~ P (q / 4096) \/ backed s (q / 4096) -> sp_mem s' !! q = sp_mem s !! q
}.

Lemma page_in n q : 4096 * n <= q < 4096 * n + 4096 -> q / 4096 = n.
Proof. intros H. symmetry. apply (Z.div_unique _ _ _ (q - 4096 * n)); lia. Qed.

Lemma maps_backed P s s' n : maps P s s' -> backed s n -> backed s' n.
Proof.
  intros [_ Hw Hm] Hb. pose proof Hb as (Hn & (p & Hp & Hwp) & Hmap). split; [done|]. split; [exists p; split; [done|by rewrite Hw by auto]|].
  intros q Hq. pose proof (page_in n q Hq) as E. rewrite Hm by (rewrite E; by right). by apply Hmap.
Qed.

Lemma maps_ready P s s' n : 0 <= n < 2 ^ 36 -> maps P s s' -> ~ P n -> ready s n -> ready s' n.
Proof.
  intros Hn H Hp [Hr|Hr]; [left|right; by eapply maps_backed]. by rewrite (mp_walk _ _ _ H) by auto.
Qed.

Lemma maps_refl P s : maps P s s.
Proof. by constructor. Qed.

Lemma maps_trans P Q s1 s2 s3 : maps P s1 s2 -> maps Q s2 s3 -> maps (fun n => P n \/ Q n) s1 s3.
Proof.
  intros H1 H2. constructor; [by rewrite (mp_vfs _ _ _ H2), (mp_vfs _ _ _ H1)| |].
  - intros n Hn [Hno|Hb].
    + rewrite (mp_walk _ _ _ H2), (mp_walk _ _ _ H1); tauto.
    + rewrite (mp_walk _ _ _ H2), (mp_walk _ _ _ H1); try tauto. right. by eapply maps_backed.
  - intros q [Hno|Hb].
    + rewrite (mp_mem _ _ _ H2), (mp_mem _ _ _ H1); tauto.
    + rewrite (mp_mem _ _ _ H2), (mp_mem _ _ _ H1); try tauto. right. by eapply maps_backed.
Qed.

Lemma maps_weaken (P Q : Z -> Prop) s s' : (forall n, P n -> Q n) -> maps P s s' -> maps Q s s'.
Proof.
  intros HPQ [Hv Hw Hm]. constructor; [done| |].
  - intros n Hn [Hno|Hb]; apply Hw; auto.
  - intros q [Hno|Hb]; apply Hm; auto.
Qed.

(** *** One page *)

Lemma mmap_align ptr (v : vm F) : 0 <= ptr < 2 ^ 64 -> mmap ptr 0x1000 false v = mmap (align_down ptr) 0x1000 false v.
Proof.
  intros Hp. unfold mmap. destruct (decide (ptr <> 0 /\ ptr mod PAGE_SIZE <> 0)) as [|Hno].
  - rewrite (decide_False (P := align_down ptr <> 0 /\ _)); [done|]. rewrite align_down_page by done. unfold PAGE_SIZE. rewrite Z.mod_mul; lia.
  - assert (E : align_down ptr = ptr) by (rewrite align_down_page by done; unfold PAGE_SIZE in Hno; assert (ptr mod 4096 = 0) by (destruct (decide (ptr = 0)) as [->|]; [done|tauto || lia]); pose proof (Z.div_mod ptr 4096 ltac:(lia)); lia).
    rewrite E. by rewrite (decide_False _ _ Hno).
Qed.

Lemma map_page_ok s ptr k : roomy (S k) s -> 4096 <= ptr < 2 ^ 48 -> ready s (ptr / 4096) ->
  exists s', map_page picked ptr s = Done s' /\ roomy k s' /\ maps (fun n => n = ptr / 4096) s s' /\ backed s' (ptr / 4096).
Proof.
  intros [Hinv Htr Hr] Hp Hready. set (n := ptr / 4096) in *. assert (Hn : 1 <= n < 2 ^ 36).
  { unfold n. split; [apply Z.div_le_lower_bound; lia|apply Z.div_lt_upper_bound; lia]. }
  assert (Ea : align_down ptr = 4096 * n) by (rewrite align_down_page by lia; unfold n; lia).
  assert (Hal : (4096 * n) mod 4096 = 0) by (rewrite Z.mul_comm; apply Z.mod_mul; lia).
  unfold map_page. rewrite mmap_align, Ea by lia. rewrite (decide_False (P := 4096 * n = 0)) by lia.
  destruct Hready as [Hw|(_ & (p & Hpz & Hw) & Hm)].
  - destruct (mmap_makes (sp_vm s) (4096 * n) (4 * k)) as (p & v & Hrun & Hwp & Hpz & Hinv' & Htr' & Hr' & Ho); try done; [|lia|].
    { replace (4 + 4 * k)%nat with (4 * S k)%nat by lia. done. }
    rewrite Hrun. cbn [mbind outcome_bind]. rewrite (decide_False (P := 4096 * n = 0)) by lia. eexists. split; [done|]. split; [by constructor|]. split; [constructor; [done| |]|].
    + intros j Hj [Hne|(_ & (p' & Hp' & Hw') & _)]; cbn [sp_vm].
      * apply Ho; [lia|]. rewrite !(Z.mul_comm 4096), !Z.div_mul by lia. done.
      * destruct (decide (j = n)) as [->|]; [congruence|]. apply Ho; [lia|]. by rewrite !(Z.mul_comm 4096), !Z.div_mul by lia.
    + intros q Hq. cbn [sp_mem]. apply write_bytes_lookup_out. rewrite length_replicate. intros Hin. pose proof (page_in n q ltac:(lia)) as E.
      destruct Hq as [Hno|(_ & (p' & _ & Hw') & _)]; [done|]. rewrite E in Hw'. congruence.
    + split; [lia|]. split; [by exists p|]. cbn [sp_mem].
      apply (bytes_at_mapped _ _ (replicate 4096 0)), write_bytes_at.
  - rewrite (mmap_there _ _ p) by (done || lia). cbn [mbind outcome_bind]. rewrite (decide_True (P := 0 = 0)) by done. exists s. split; [by destruct s|]. split.
    + constructor; [done|done|]. apply (rich_less (4 * k) (4 * S k)); [lia|done].
    + split; [apply maps_refl|]. split; [lia|]. split; [by exists p|done].
Qed.

(** *** A segment *)

Definition page_total (memsz : Z) : nat := Z.to_nat ((memsz + 4095) / 4096).
Definition pages_of (ph : program_header) (n : Z) : Prop := ph_vaddr ph / 4096 <= n < ph_vaddr ph / 4096 + Z.of_nat (page_total (ph_memsz ph)).
Definition seg_image (content : list Z) (ph : program_header) : list Z :=
  take (Z.to_nat (ph_filesz ph)) (drop (Z.to_nat (ph_offset ph)) content) ++ replicate (Z.to_nat (ph_memsz ph - ph_filesz ph)) 0.

(** [so_pages]: counting in pages from the unaligned start reaches the last
    byte. *)
Record seg_ok (content : list Z) (ph : program_header) : Prop := {
  so_addr : 4096 <= ph_vaddr ph;
  so_end : ph_vaddr ph + ph_memsz ph + 4096 <= 2 ^ 47;
  so_size : 0 <= ph_filesz ph <= ph_memsz ph /\ 0 < ph_memsz ph;
  so_file : 0 <= ph_offset ph /\ ph_offset ph + ph_filesz ph <= Z.of_nat (length content);
  so_pages : ph_vaddr ph mod 4096 + (ph_memsz ph - 1) mod 4096 < 4096
}.

Lemma map_loop_ok c : forall fuel ptr stop s k, roomy (c + k) s -> 4096 <= ptr -> ptr + 4096 * Z.of_nat c <= 2 ^ 47 ->
  stop <= ptr + 4096 * Z.of_nat c -> (c <> O -> ptr + 4096 * (Z.of_nat c - 1) < stop) -> (c < fuel)%nat ->
  (forall n, ptr / 4096 <= n < ptr / 4096 + Z.of_nat c -> ready s n) ->
  exists s', loop fuel (fun '(ptr, s) => if decide (ptr < stop) then s ← map_page picked ptr s; Done (inl (u64 (ptr + 0x1000), s)) else Done (inr s)) (ptr, s) = Done s' /\
    roomy k s' /\ maps (fun n => ptr / 4096 <= n < ptr / 4096 + Z.of_nat c) s s' /\
    forall n, ptr / 4096 <= n < ptr / 4096 + Z.of_nat c -> backed s' n.
Proof.
  induction c as [|c IH]; intros [|fl] ptr stop s k Hr Hp Hend Hs Hlast Hf Hready; try lia; cbn [loop].
  - rewrite decide_False by lia. exists s. split; [done|]. split; [done|]. split; [apply maps_refl|]. lia.
  - rewrite decide_True by lia. destruct (map_page_ok s ptr (c + k)) as (s1 & -> & Hr1 & Hm1 & Hb1); [done|lia|apply Hready; lia|].
    cbn [mbind outcome_bind]. rewrite u64_small by lia. assert (E : (ptr + 4096) / 4096 = ptr / 4096 + 1) by (rewrite <-(Z.div_add ptr 1) by lia; f_equal; lia).
    destruct (IH fl (ptr + 4096) stop s1 k) as (s2 & Hrun & Hr2 & Hm2 & Hb2); try done; try lia.
    { intros n Hn. rewrite E in Hn. assert (0 <= n < 2 ^ 36) by lia. apply (maps_ready (fun n => n = ptr / 4096) s); try done; [lia|]. apply Hready. lia. }
    exists s2. rewrite E in *. split; [done|]. split; [done|]. split.
    + eapply maps_weaken; [|by eapply maps_trans]. cbn. intros n [->|Hn]; lia.
    + intros n Hn. destruct (decide (n = ptr / 4096)) as [->|]; [by eapply maps_backed|apply Hb2; lia].
Qed.

Lemma backed_mapped s ph content : seg_ok content ph -> (forall n, pages_of ph n -> backed s n) -> mapped (sp_mem s) (ph_vaddr ph) (ph_memsz ph).
Proof.
  intros [Ha He Hz _ Hp] Hb q Hq. destruct (Hb (q / 4096)) as (_ & _ & Hm); [unfold pages_of, page_total; lia|]. apply Hm. lia.
Qed.

Lemma read_to_serves s handle content p off n : file_serves (h_node handle) content (sp_vfs s) -> Z.land (h_mode handle) O_WRONLY = 0 ->
  0 <= off -> 0 <= n -> off + n <= Z.of_nat (length content) -> off + n < 2 ^ 64 -> mapped (sp_mem s) p n ->
  read_to (seek off handle) p n s = Done (mk_space (write_bytes (sp_mem s) p (take (Z.to_nat n) (drop (Z.to_nat off) content))) (sp_vm s) (sp_vfs s)).
Proof.
  intros (f & Hf & Hop & Hs) Hmode Ho Hn Hc Hoff Hm. pose proof (user_buffer_length _ _ _ Hn Hm) as Hl.
  assert (Hd : length (take (Z.to_nat n) (drop (Z.to_nat off) content)) = Z.to_nat n) by (rewrite length_take, length_drop; lia).
  unfold read_to, Vfs.read. cbn [seek h_mode h_node h_offset]. rewrite decide_False by (rewrite Hmode; tauto). rewrite Hf. cbn [mbind outcome_bind].
  rewrite decide_False by done. rewrite Hs by (lia || rewrite Hd; lia). cbn [mbind outcome_bind]. rewrite (drop_ge (user_buffer _ _ _)) by (rewrite Hd; lia). by rewrite app_nil_r.
Qed.

(** What load_segment leaves: the pages mapped, the image in them. *)
Definition loads (content : list Z) (ph : program_header) s s' : Prop :=
  exists s1, maps (pages_of ph) s s1 /\ (forall n, pages_of ph n -> backed s1 n) /\
    s' = mk_space (write_bytes (sp_mem s1) (ph_vaddr ph) (seg_image content ph)) (sp_vm s1) (sp_vfs s).

Lemma load_segment_ok s handle content ph k : seg_ok content ph -> file_serves (h_node handle) content (sp_vfs s) -> Z.land (h_mode handle) O_WRONLY = 0 ->
  Z.of_nat (length content) < 2 ^ 63 -> (page_total (ph_memsz ph) < fuel)%nat -> roomy (page_total (ph_memsz ph) + k) s -> (forall n, pages_of ph n -> ready s n) ->
  exists s', load_segment fuel picked handle ph s = Done s' /\ loads content ph s s' /\ roomy k s'.
Proof.
  intros Hok Hf Hmode Hlen Hfu Hr Hready. pose proof Hok as [Ha He [Hz Hz'] [Ho Hfile] Hp].
  unfold load_segment, map_segment. rewrite (u64_small (ph_vaddr ph + ph_memsz ph)) by lia.
  destruct (map_loop_ok (page_total (ph_memsz ph)) fuel (ph_vaddr ph) (ph_vaddr ph + ph_memsz ph) s k) as (s1 & Hrun & Hr1 & Hm & Hb); try done; try (unfold page_total; lia).
  rewrite Hrun. cbn [mbind outcome_bind]. pose proof (backed_mapped s1 ph content Hok Hb) as Hmap.
  assert (Hvfs : sp_vfs s1 = sp_vfs s) by apply Hm. rewrite (read_to_serves s1 handle content) by (rewrite ?Hvfs; done || lia || (eapply mapped_weaken; [exact Hmap|lia..])).
  cbn [mbind outcome_bind sp_mem put_mem sp_vm sp_vfs]. rewrite !u64_small by lia. set (data := take _ _).
  assert (Hd : Z.of_nat (length data) = ph_filesz ph) by (unfold data; rewrite length_take, length_drop; lia).
  rewrite memset_done by (lia || (apply mapped_write_bytes; eapply mapped_weaken; [exact Hmap|lia..])). cbn [mbind outcome_bind]. eexists. split; [done|]. split.
  - exists s1. split; [done|]. split; [done|]. unfold put_mem. cbn [sp_vm sp_vfs]. rewrite Hvfs. f_equal. unfold seg_image. fold data. by rewrite write_bytes_app, Hd.
  - by destruct Hr1.
Qed.

(** *** Several segments *)

Lemma image_length content ph : seg_ok content ph -> Z.of_nat (length (seg_image content ph)) = ph_memsz ph.
Proof. intros [_ _ Hz Hf _]. unfold seg_image. rewrite length_app, length_take, length_drop, length_replicate. lia. Qed.

Lemma loads_vfs content ph s s' : loads content ph s s' -> sp_vfs s' = sp_vfs s.
Proof. by intros (? & _ & _ & ->). Qed.

Lemma backed_write s n p l : backed s n -> backed (mk_space (write_bytes (sp_mem s) p l) (sp_vm s) (sp_vfs s)) n.
Proof. intros (Hn & Hw & Hm). split; [done|]. split; [done|]. by apply mapped_write_bytes. Qed.

Lemma loads_backed content ph s s' n : loads content ph s s' -> backed s n \/ pages_of ph n -> backed s' n.
Proof.
  intros (s1 & Hm & Hb & ->) H. assert (Hb1 : backed s1 n) by (destruct H; [by eapply maps_backed|by apply Hb]).
  destruct Hb1 as (Hn & Hw & Hmap). split; [done|]. split; [done|]. by apply mapped_write_bytes.
Qed.

Lemma loads_ready content ph s s' n : 0 <= n < 2 ^ 36 -> loads content ph s s' -> ready s n -> ready s' n.
Proof.
  intros Hn Hl Hr. destruct (decide (ph_vaddr ph / 4096 <= n < ph_vaddr ph / 4096 + Z.of_nat (page_total (ph_memsz ph)))) as [Hp|Hp].
  - right. eapply loads_backed; [done|by right].
  - destruct Hr as [Hw|Hb]; [|right; eapply loads_backed; [done|by left]]. left. destruct Hl as (s1 & Hm & _ & ->). cbn [sp_vm]. by rewrite (mp_walk _ _ _ Hm) by auto.
Qed.

Lemma loads_keeps content ph s s' q : seg_ok content ph -> loads content ph s s' -> ~ (ph_vaddr ph <= q < ph_vaddr ph + ph_memsz ph) ->
  ~ pages_of ph (q / 4096) \/ backed s (q / 4096) -> sp_mem s' !! q = sp_mem s !! q.
Proof.
  intros Hok (s1 & Hm & _ & ->) Hq Hp. cbn [sp_mem]. rewrite write_bytes_lookup_out by (by rewrite (image_length _ _ Hok)). by apply (mp_mem _ _ _ Hm).
Qed.

Lemma loads_image content ph s s' : loads content ph s s' -> bytes_at (sp_mem s') (ph_vaddr ph) (seg_image content ph).
Proof. intros (s1 & _ & _ & ->). apply write_bytes_at. Qed.

(** *** The program *)

Definition prog_header (content : list Z) : list Z := take 64 content.
Definition phdr_pos (content : list Z) (i : Z) : Z := e_phoff (prog_header content) + i * e_phentsize (prog_header content).
Definition seg (content : list Z) (i : Z) : program_header := phdr_of (take 56 (drop (Z.to_nat (phdr_pos content i)) content)).
Definition phnum (content : list Z) : Z := e_phnum (prog_header content).
Definition load_index (content : list Z) (i : Z) : Prop := 0 <= i < phnum content /\ ph_type (seg content i) = PT_LOAD.

Definition disjoint_segs (p q : program_header) : Prop := ph_vaddr p + ph_memsz p <= ph_vaddr q \/ ph_vaddr q + ph_memsz q <= ph_vaddr p.

Record program_ok (content : list Z) : Prop := {
  po_size : 64 <= Z.of_nat (length content) < 2 ^ 63;
  po_off : 0 <= e_phoff (prog_header content);
  po_table : forall i, 0 <= i < phnum content -> 0 <= i * e_phentsize (prog_header content) < 2 ^ 31 /\ phdr_pos content i + 56 <= Z.of_nat (length content);
  po_segs : forall i, load_index content i -> seg_ok content (seg content i);
  po_apart : forall i j, load_index content i -> load_index content j -> i <> j -> disjoint_segs (seg content i) (seg content j)
}.

(** The pages the segments from [i] on, [n] of them, need. *)
Fixpoint pages_from (content : list Z) (i : Z) (n : nat) : nat :=
  match n with
  | O => O
  | S n => ((if decide (ph_type (seg content i) = PT_LOAD) then page_total (ph_memsz (seg content i)) else 0) + pages_from content (i + 1) n)%nat
  end.

(** The state before round [i]. *)
Record exec_inv (content : list Z) (handle : file_handle) (k : nat) s0 (i : Z) (st : elf_t * space F D) : Prop := {
  xi_header : elf_header st.1 = prog_header content;
  xi_node : h_node (elf_handle st.1) = h_node handle /\ h_mode (elf_handle st.1) = h_mode handle;
  xi_vfs : sp_vfs st.2 = sp_vfs s0;
  xi_room : roomy (pages_from content i (Z.to_nat (phnum content - i)) + k) st.2;
  xi_ready : forall j n, load_index content j -> pages_of (seg content j) n -> ready st.2 n;
  xi_back : forall j n, load_index content j -> j < i -> pages_of (seg content j) n -> backed st.2 n;
  xi_image : forall j, load_index content j -> j < i -> bytes_at (sp_mem st.2) (ph_vaddr (seg content j)) (seg_image content (seg content j));
  xi_frame : forall q, (forall j, load_index content j -> ~ pages_of (seg content j) (q / 4096)) -> sp_mem st.2 !! q = sp_mem s0 !! q
}.

Lemma page_total_bound content j n : program_ok content -> load_index content j -> pages_of (seg content j) n -> 0 <= n < 2 ^ 36.
Proof. intros Hp Hj Hn. destruct (po_segs _ Hp j Hj) as [? ? ? _ _]. unfold pages_of, page_total in Hn. lia. Qed.

Lemma seg_page content j q : program_ok content -> load_index content j ->
  ph_vaddr (seg content j) <= q < ph_vaddr (seg content j) + ph_memsz (seg content j) -> pages_of (seg content j) (q / 4096).
Proof. intros Hp Hj Hq. destruct (po_segs _ Hp j Hj) as [? ? ? _ ?]. unfold pages_of, page_total. lia. Qed.

Lemma read_phdr elf content i s : program_ok content -> 0 <= i < phnum content -> elf_header elf = prog_header content ->
  file_serves (h_node (elf_handle elf)) content (sp_vfs s) -> Z.land (h_mode (elf_handle elf)) O_WRONLY = 0 -> length (local i) = 56%nat ->
  exists r, Vfs.read (elf_handle (at_offset (u64 (e_phoff (elf_header elf) + s32 (i * e_phentsize (elf_header elf)))) elf)) (local i) sizeof_phdr (sp_vfs s) =
    Done (r, take 56 (drop (Z.to_nat (phdr_pos content i)) content), sp_vfs s).
Proof.
  intros Hp Hi Hh (f & Hf & Hop & Hs) Hmode Hl. destruct (po_table _ Hp i Hi) as [Hm Hpos]. pose proof (po_size _ Hp). pose proof (po_off _ Hp).
  rewrite Hh, s32_small by lia. fold (phdr_pos content i). unfold phdr_pos in *. rewrite u64_small by lia. fold (phdr_pos content i) in *.
  unfold Vfs.read, at_offset. cbn [elf_handle seek h_mode h_node h_offset]. rewrite decide_False by (rewrite Hmode; tauto). rewrite Hf. cbn [mbind outcome_bind].
  rewrite decide_False by done. assert (0 <= phdr_pos content i) by (unfold phdr_pos; lia).
  assert (Hd : length (take (Z.to_nat sizeof_phdr) (drop (Z.to_nat (phdr_pos content i)) content)) = 56%nat).
  { unfold sizeof_phdr. rewrite length_take, length_drop. unfold phdr_pos in *. lia. }
  unfold sizeof_phdr in *. rewrite Hs by (lia || (rewrite Hd, Hl; lia)). eexists. rewrite Hd, (drop_ge (local i)) by lia. by rewrite app_nil_r.
Qed.

Lemma exec_step_ok content handle k s0 i st : program_ok content -> file_serves (h_node handle) content (sp_vfs s0) -> Z.land (h_mode handle) O_WRONLY = 0 ->
  (forall i, length (local i) = 56%nat) -> (forall j, load_index content j -> (page_total (ph_memsz (seg content j)) < fuel)%nat) ->
  0 <= i < phnum content -> exec_inv content handle k s0 i st ->
  exists st', exec_step fuel local picked i st = Done (inl st') /\ exec_inv content handle k s0 (i + 1) st'.
Proof.
  intros Hp Hserves Hmode Hlocal Hfuel Hi [Hh [Hn Hm] Hv Hroom Hready Hback Himg Hframe]. destruct st as [elf s]. cbn [fst snd] in *.
  destruct (read_phdr elf content i s Hp Hi Hh) as (r & Hr); [by rewrite Hn, Hv|by rewrite Hm|done|].
  unfold exec_step. rewrite Hr. cbn [mbind outcome_bind]. fold (seg content i).
  replace (Z.to_nat (phnum content - i)) with (S (Z.to_nat (phnum content - (i + 1)))) in Hroom by lia. cbn [pages_from] in Hroom.
  replace (mk_space (sp_mem s) (sp_vm s) (sp_vfs s)) with s by by destruct s.
  destruct (decide (ph_type (seg content i) = PT_LOAD)) as [Hty|Hty].
  - assert (Hli : load_index content i) by done. pose proof (po_segs _ Hp i Hli) as Hok. rewrite <-Nat.add_assoc in Hroom.
    destruct (load_segment_ok s (elf_handle (at_offset (u64 (e_phoff (elf_header elf) + s32 (i * e_phentsize (elf_header elf)))) elf)) content (seg content i) (pages_from content (i + 1) (Z.to_nat (phnum content - (i + 1))) + k)) as (s' & -> & Hl & Hroom'); try done.
    { cbn. by rewrite Hn, Hv. } { cbn. by rewrite Hm. } { apply (po_size _ Hp). } { by apply Hfuel. } { intros n. by apply Hready. }
    cbn [mbind outcome_bind]. eexists. split; [done|]. constructor; cbn [fst snd at_offset elf_header elf_handle seek h_node h_mode]; try done.
    + by rewrite (loads_vfs _ _ _ _ Hl).
    + intros j n Hj Hpn. eapply loads_ready; [by eapply page_total_bound|done|by eapply Hready].
    + intros j n Hj Hlt Hpn. eapply loads_backed; [done|]. destruct (decide (j = i)) as [->|]; [by right|left; apply (Hback j); [done|lia|done]].
    + intros j Hj Hlt. destruct (decide (j = i)) as [->|Hne]; [by eapply loads_image|]. eapply bytes_at_agree; [|apply Himg; [done|lia]].
      rewrite (image_length _ _ (po_segs _ Hp j Hj)). intros q Hq. apply (loads_keeps content (seg content i)); [done|done| |].
      * destruct (po_apart _ Hp i j Hli Hj ltac:(done)); lia.
      * right. apply (Hback j); [done|lia|by apply seg_page].
    + intros q Hq. rewrite <-Hframe by done. apply (loads_keeps content (seg content i)); [done|done| |left; by apply Hq].
      intros Hin. by apply (Hq i), seg_page.
  - eexists. split; [done|]. assert (Hno : forall j, load_index content j -> j < i + 1 -> j < i) by (intros j [? Ht] ?; destruct (decide (j = i)); [congruence|lia]).
    constructor; cbn [fst snd at_offset elf_header elf_handle seek h_node h_mode]; try done; intros j; [intros n ??; apply Hback; auto|intros ??; apply Himg; auto].
Qed.

(** C7: Load_elf and exec_elf build the image that the program headers
    describe.  For a program file whose loadable segments lie apart, whose
    pages are mapped by counting from the segment's start (so_pages) and either
    are there or can be made, with frames for all of them, exec_elf returns 0
    and the entry point of the header; afterwards every loadable segment has
    its bytes of the file at its address, followed by zeros up to its size in
    memory, in pages that are mapped, whatever order the headers have and
    whichever pages the segments share; nothing outside the segments' pages and
    none of the files has changed. *)
Theorem exec_elf_loads content handle s k : program_ok content -> take 4 content = [0x7F; 69; 76; 70] -> content !! 4%nat = Some 2 ->
  file_serves (h_node handle) content (sp_vfs s) -> Z.land (h_mode handle) O_WRONLY = 0 -> h_offset handle = 0 ->
  (forall i, length (local i) = 56%nat) -> (forall j, load_index content j -> (page_total (ph_memsz (seg content j)) < fuel)%nat) ->
  0 <= phnum content -> roomy (pages_from content 0 (Z.to_nat (phnum content)) + k) s -> (forall j n, load_index content j -> pages_of (seg content j) n -> ready s n) ->
  exists elf elf' s', load_elf handle s = Done (Some elf, s) /\ exec_elf fuel local picked elf s = Done (0, elf', s') /\
    elf_entrypoint elf' = e_entry content /\
    (forall j, load_index content j -> bytes_at (sp_mem s') (ph_vaddr (seg content j)) (seg_image content (seg content j)) /\
       forall n, pages_of (seg content j) n -> backed s' n) /\
    (forall q, (forall j, load_index content j -> ~ pages_of (seg content j) (q / 4096)) -> sp_mem s' !! q = sp_mem s !! q) /\
    sp_vfs s' = sp_vfs s /\ roomy k s'.
Proof.
  intros Hp Hmagic Hclass Hserves Hmode Hoff Hlocal Hfuel Hnum Hroom Hready. pose proof (po_size _ Hp) as Hsz.
  destruct (for_total (A := unit) (exec_inv content handle k s) (Z.to_nat (phnum content)) 0 (exec_step fuel local picked) (mk_elf (prog_header content) handle 0, s))
    as ([elf' s'] & Hrun & [Hh _ Hv Hroom' _ Hback Himg Hframe]).
  { intros i st Hi. apply exec_step_ok; done || lia. }
  { constructor; cbn [fst snd]; try done; [by rewrite Z.sub_0_r|intros j n [[??] _]; lia|intros j [[??] _]; lia]. }
  cbn [fst snd] in *. rewrite Z.add_0_l, Z2Nat.id in * by done. exists (mk_elf (prog_header content) handle 0). eexists _, s'. split; [|split].
  - destruct Hserves as (f & Hf & Hop & Hs). unfold load_elf, Vfs.read. rewrite decide_False by (rewrite Hmode; tauto). rewrite Hf. cbn [mbind outcome_bind].
    rewrite decide_False by done. rewrite Hoff, Hs by (unfold sizeof_Ehdr; rewrite ?length_take, ?length_replicate; lia).
    cbn [mbind outcome_bind]. change (Z.to_nat sizeof_Ehdr) with 64%nat. change (Z.to_nat 0) with 0%nat. rewrite drop_0.
    assert (Hl : length (take 64 content) = 64%nat) by (rewrite length_take; lia).
    rewrite Hl, (drop_ge (replicate _ _)), app_nil_r by (rewrite length_replicate; lia). rewrite take_take. change (4 `min` 64)%nat with 4%nat.
    rewrite Hmagic. rewrite bool_decide_true by done. cbn [negb]. rewrite lookup_take_lt by lia. rewrite Hclass. rewrite decide_False by (intros H; by apply H).
    by destruct s.
  - unfold exec_elf. cbn [elf_header]. fold (phnum content). rewrite Hrun. done.
  - cbn [elf_entrypoint]. split; [rewrite Hh; unfold e_entry, le_field, prog_header; by rewrite skipn_firstn_comm, firstn_firstn|]. split.
    + intros j Hj. pose proof Hj as [[??] _]. split; [by apply Himg|]. intros n. by apply Hback.
    + split; [done|]. split; [done|]. by rewrite Z.sub_diag in Hroom'.
Qed.

(** The page count of exec_elf.  The loop over the pages starts at the
    segment's own, possibly unaligned address, so that a segment that begins
    late in a page and ends early in another does not get its last page: with a
    .bss in that page, and nothing there before, the program is not loaded; the
    memset runs into memory that is not there. *)
Theorem load_segment_misses_page s handle content ph k : 4096 <= ph_vaddr ph -> ph_vaddr ph + ph_memsz ph + 4096 <= 2 ^ 47 ->
  0 <= ph_filesz ph < ph_memsz ph -> 0 <= ph_offset ph -> ph_offset ph + ph_filesz ph <= Z.of_nat (length content) < 2 ^ 63 ->
  4096 <= ph_vaddr ph mod 4096 + (ph_memsz ph - 1) mod 4096 -> ph_vaddr ph + ph_filesz ph <= 4096 * ((ph_vaddr ph + ph_memsz ph - 1) / 4096) ->
  sp_mem s !! (ph_vaddr ph + ph_memsz ph - 1) = None ->
  file_serves (h_node handle) content (sp_vfs s) -> Z.land (h_mode handle) O_WRONLY = 0 -> (page_total (ph_memsz ph) < fuel)%nat ->
  roomy (page_total (ph_memsz ph) + k) s -> (forall n, pages_of ph n -> ready s n) ->
  load_segment fuel picked handle ph s = Fault.
Proof.
  intros Ha He Hz Ho Hfile Hp Hlast Hno Hf Hmode Hfu Hr Hready. unfold load_segment, map_segment. rewrite (u64_small (ph_vaddr ph + ph_memsz ph)) by lia.
  destruct (map_loop_ok (page_total (ph_memsz ph)) fuel (ph_vaddr ph) (ph_vaddr ph + ph_memsz ph) s k) as (s1 & Hrun & _ & Hm & Hb); try done; try (unfold page_total; lia).
  rewrite Hrun. cbn [mbind outcome_bind]. assert (Hvfs : sp_vfs s1 = sp_vfs s) by apply Hm.
  assert (Hmap : mapped (sp_mem s1) (ph_vaddr ph) (ph_filesz ph)).
  { intros q Hq. destruct (Hb (q / 4096)) as (_ & _ & Hq'); [unfold page_total; lia|]. apply Hq'. lia. }
  rewrite (read_to_serves s1 handle content) by (rewrite ?Hvfs; done || lia). cbn [mbind outcome_bind sp_mem sp_vm sp_vfs]. rewrite !u64_small by lia.
  rewrite (memset_faults _ _ _ (ph_memsz ph - ph_filesz ph - 1)); [done|lia|].
  replace (ph_vaddr ph + ph_filesz ph + (ph_memsz ph - ph_filesz ph - 1)) with (ph_vaddr ph + ph_memsz ph - 1) by lia.
  rewrite write_bytes_lookup_out by (rewrite length_take, length_drop; lia). rewrite (mp_mem _ _ _ Hm); [done|]. left. unfold page_total. lia.
Qed.
End Facts.

(** *** The symbol table *)

Section SymbolFacts.
Import Symbols.
Context (calloc_symbol : gmap Z kernel_symbol -> Z).
Hypothesis calloc_fresh : forall m, calloc_symbol m <> 0 /\ m !! calloc_symbol m = None.

(** The last symbol of that name. *)
Definition last_named (name : list Z) (syms : list kernel_symbol) : option kernel_symbol := last (filter (fun x => ks_name x = name) syms).

Definition serves (syms : list kernel_symbol) (t : symtab) : Prop :=
  exists M, ht_abs (ksymtab t) M /\ forall name,
    match last_named name syms with None => M !! name = None | Some x => exists p, M !! name = Some p /\ p <> 0 /\ st_objects t !! p = Some x end.

Lemma register_serves pre x t : serves pre t -> wf_key (ks_name x) -> num_symbols t < MAX_SYMBOLS ->
  exists t', register_symbol calloc_symbol (ks_name x) (ks_value x) t = Done (0, t') /\ serves (pre ++ [x]) t' /\ num_symbols t' = num_symbols t + 1.
Proof.
  intros (M & Habs & HM) Hk Hn. unfold register_symbol. rewrite decide_False by lia.
  destruct (calloc_fresh (st_objects t)) as [Hz Hnew]. set (p := calloc_symbol (st_objects t)) in *.
  destruct (ht_insert_abs _ M (ks_name x) p Habs Hk) as (h & -> & Habs'). cbn [mbind outcome_bind]. eexists. split; [done|]. split; [|done].
  exists (<[ks_name x := p]> M). split; [done|]. intros name. unfold last_named. rewrite filter_app. cbn [st_objects].
  destruct (decide (ks_name x = name)) as [<-|Hne].
  - rewrite (filter_cons_True _ x []), filter_nil, last_snoc by done. exists p. rewrite !lookup_insert_eq. by destruct x.
  - rewrite (filter_cons_False _ x []), filter_nil, app_nil_r by done. rewrite lookup_insert_ne by done. specialize (HM name). fold (last_named name pre).
    destruct (last_named name pre) as [y|]; [|done]. destruct HM as (q & Hq & Hqz & Ho). exists q. split_and!; try done.
    rewrite lookup_insert_ne; [done|]. congruence.
Qed.

Lemma register_all_serves syms : forall pre t, serves pre t -> Forall (fun x => wf_key (ks_name x)) syms -> num_symbols t + Z.of_nat (length syms) <= MAX_SYMBOLS ->
  exists t', register_all calloc_symbol syms t = Done t' /\ serves (pre ++ syms) t'.
Proof.
  induction syms as [|x syms IH]; intros pre t Hs Hk Hn; cbn [register_all]; [exists t; by rewrite app_nil_r|].
  apply Forall_cons in Hk as [Hx Hk]. cbn [length] in Hn. destruct (register_serves pre x t Hs Hx) as (t1 & -> & Hs1 & Hn1); [lia|]. cbn [mbind outcome_bind].
  destruct (IH (pre ++ [x]) t1) as (t2 & Hrun & Hs2); [done|done|lia|]. exists t2. split; [done|]. by rewrite <-app_assoc in Hs2.
Qed.

(** The symbol table of the kernel.  init_kernel_symbols registers every
    exported symbol that the table has room for; afterwards find_symbol gives,
    for the name of a symbol, an object with the value it was exported with
    (the last one, should a name be exported twice), and NULL for any other
    name. *)
Theorem kernel_symbols_found syms t : Forall (fun x => wf_key (ks_name x)) syms -> num_symbols t + Z.of_nat (length syms) <= MAX_SYMBOLS ->
  exists t', init_kernel_symbols calloc_symbol syms t = Done t' /\ forall name, wf_key name ->
    exists p, find_symbol name t' = Done p /\ (p = 0 <-> forall x, x ∈ syms -> ks_name x <> name) /\
      (p <> 0 -> st_objects t' !! p = last_named name syms).
Proof.
  intros Hk Hn. unfold init_kernel_symbols. destruct (register_all_serves syms [] (mk_st (ht_create MAX_SYMBOLS) (num_symbols t) (st_objects t))) as (t' & -> & M & Habs & HM); try done.
  { exists ∅. split; [by apply ht_create_abs|]. intros name. apply lookup_empty. }
  exists t'. split; [done|]. intros name Hname. unfold find_symbol. rewrite (ht_lookup_abs _ M) by done. eexists. split; [done|]. specialize (HM name).
  cbn [app] in HM. unfold last_named in *. destruct (last (filter _ syms)) as [x|] eqn:E.
  - destruct HM as (p & -> & Hp & Ho). cbn [default from_option id]. split; [|by rewrite Ho]. split; [done|]. intros H. exfalso.
    apply last_Some in E as (l & E). assert (Hx : x ∈ filter (fun x => ks_name x = name) syms) by (rewrite E; apply elem_of_app; right; by apply list_elem_of_singleton).
    apply list_elem_of_filter in Hx as [Hx1 Hx2]. by apply (H x).
  - rewrite HM. cbn [default from_option]. split; [|done]. split; [|done]. intros _ x Hx Hxn. apply last_None in E.
    assert (Hin : x ∈ filter (fun x => ks_name x = name) syms) by (by apply list_elem_of_filter). rewrite E in Hin. by apply not_elem_of_nil in Hin.
Qed.
End SymbolFacts.

(** *** Relocations *)

Section ModuleFacts.
Import Modules.

(** The width and the value of a relocation. *)
Definition reloc_width (type : Z) : nat := if decide (type = R_X86_64_64) then 8%nat else 4%nat.
Definition reloc_value (type target value addend : Z) : Z := if decide (type = R_X86_64_PC32) then value + addend - target else value + addend.

(** One relocation.  For the three types the loader knows, the place is
    read back as S + A (S + A - P for R_X86_64_PC32) at the width of the type,
    whatever the sign of the addend or the displacement, and no byte outside
    the place changes; an unknown type changes nothing. *)
Theorem apply_relocation_stores type target value addend m :
  (type = R_X86_64_32 \/ type = R_X86_64_64 \/ type = R_X86_64_PC32 -> mapped m target (Z.of_nat (reloc_width type)) ->
   exists m', apply_relocation type target value addend m = Done m' /\
     load_le (reloc_width type) m' target = Done (reloc_value type target value addend mod 256 ^ Z.of_nat (reloc_width type)) /\
     forall q, ~ (target <= q < target + Z.of_nat (reloc_width type)) -> m' !! q = m !! q) /\
  (type <> R_X86_64_32 -> type <> R_X86_64_64 -> type <> R_X86_64_PC32 -> apply_relocation type target value addend m = Done m).
Proof.
  assert (Hmod : forall w v, (w = 4 \/ w = 8)%nat -> u64 v mod 256 ^ Z.of_nat w = v mod 256 ^ Z.of_nat w).
  { intros w v Hw. unfold u64. destruct Hw as [-> | ->]; [|change (256 ^ Z.of_nat 8) with (2 ^ 64); apply Z.mod_mod; lia].
    change (256 ^ Z.of_nat 4) with (2 ^ 32). apply Z.mod_mod_divide. by exists (2 ^ 32). }
  split.
  - intros Ht Hm. assert (E : apply_relocation type target value addend m = store_le (reloc_width type) m target (u64 (reloc_value type target value addend))).
    { unfold apply_relocation, reloc_width, reloc_value. destruct Ht as [->|[->| ->]]; reflexivity. }
    assert (Hw : (reloc_width type = 4 \/ reloc_width type = 8)%nat) by (unfold reloc_width; case_decide; auto).
    rewrite E, (store_le_done _ _ _ _ Hm). eexists. split; [done|]. rewrite load_le_stored, Hmod by done. split; [done|].
    intros q Hq. apply write_bytes_lookup_out. by rewrite to_le_length.
  - intros H1 H2 H3. unfold apply_relocation. by rewrite !decide_False by done.
Qed.

(** The address of the header of section [n] and the one the symbol loop reads. *)
Lemma shdr_forms space header n : 0 <= space -> 0 <= e_shoff header + n -> space + 64 * (e_shoff header + n) < 2 ^ 64 ->
  shdr_at space header n = space + (e_shoff header + n) /\ shdr_scaled space header n = space + 64 * (e_shoff header + n).
Proof. intros. unfold shdr_at, shdr_scaled, sizeof_Shdr. rewrite !(u64_small (e_shoff header + n)) by lia. split; apply u64_small; lia. Qed.

(** A symbol that a section defines.  The header of its section is looked
    up at 64 times its offset in the file, behind the file unless the loader's
    memory goes on there: where there is no memory, a module with such a symbol
    is not loaded, the access faults. *)
Theorem resolve_symbol_scales space header ksyms strings symtab sym m def shndx value : 0 <= space ->
  load_le 2 m (symtab + 24 * sym + 6) = Done shndx -> 0 < shndx -> load_le 8 m (symtab + 24 * sym + 8) = Done value ->
  0 <= shndx * e_shentsize header < 2 ^ 31 -> 0 <= e_shoff header -> space + 64 * (e_shoff header + shndx * e_shentsize header) < 2 ^ 64 ->
  m !! (space + 64 * (e_shoff header + shndx * e_shentsize header) + 16) = None ->
  resolve_symbol space header ksyms strings symtab sym (m, def) = Fault.
Proof.
  intros Hsp Hx Hpos Hv Hn Ho He Hno. unfold resolve_symbol, sizeof_Sym. rewrite Hx. cbn [mbind outcome_bind]. rewrite decide_True by done. rewrite Hv. cbn [mbind outcome_bind].
  rewrite s32_small by lia. destruct (shdr_forms space header (shndx * e_shentsize header)) as [_ ->]; [done|lia|done|].
  unfold sh_addr, load_le. cbn [load_bytes]. unfold load. by rewrite Hno.
Qed.
End ModuleFacts.

Section Unregistered.
Import Modules.
Context {F D : Type} `{FA : FrameAllocator F} `{NA : NodeAlloc} `{Drv : Drivers D} `{Env : VfsEnv D} `{BA : ByteAlloc}.

(** The table of the modules is never created.  With the global as the
    program leaves it, NULL, module_elf returns only to refuse: it gives -1, and
    no module's init function runs. *)
Theorem module_elf_never_registers call_init ksyms (elf : elf_t) (s : space F D) r st :
  module_elf call_init ksyms elf s None = Done (r, st) -> r = -1 /\ st.2 = None.
Proof.
  unfold module_elf. case_decide as Ht; [by intros [= <- <-]|].
  intros (f & _ & H)%outcome_bind_done. destruct (malloc_bytes _ _) as [sp m]. apply outcome_bind_done in H as (s1 & _ & H).
  apply outcome_bind_done in H as (r1 & _ & H). apply outcome_bind_done in H as ([m1 size] & _ & H).
  apply outcome_bind_done in H as (r2 & _ & H). apply outcome_bind_done in H as ([m2 def] & _ & H).
  destruct (decide (def = 0)); [by injection H as <- <-|].
  apply outcome_bind_done in H as (r3 & _ & H). apply outcome_bind_done in H as (m3 & _ & H). destruct (calloc_bytes _ _) as [md m4].
  do 4 (apply outcome_bind_done in H as (? & _ & H)). done.
Qed.
End Unregistered.

(** ** Examples

    A file of 123 bytes behind a driver that serves its bytes: one segment at
    0x400000, three bytes of the file in eight of memory. *)

Definition bytes_read (buf : list Z) (off len : Z) (v : vfs (list Z)) : outcome (Z * list Z * vfs (list Z)) :=
  let d := take (Z.to_nat len) (drop (Z.to_nat off) (drv v)) in Done (Z.of_nat (length d), d ++ drop (length d) buf, v).

#[local] Instance bytes_driver : Drivers (list Z) := {|
  call_find_dir := fun _ _ _ _ => Fault; call_create := fun _ _ _ _ _ => Fault; call_mkdir := fun _ _ _ _ => Fault; Vfs.call_open := fun _ _ _ _ => Fault;
  call_read_dir := fun _ _ _ _ _ => Fault; call_get_size := fun _ _ _ => Fault; call_read := fun _ _ buf off len v => bytes_read buf off len v;
  call_write := fun _ _ _ _ _ _ => Fault; call_poll := fun _ _ _ _ => Fault; call_delete := fun _ _ _ => Fault; call_rename := fun _ _ _ _ => Fault;
  call_link := fun _ _ _ _ => Fault; fs_owner := fun _ _ => 0
|}.

Definition demo_ehdr : list Z := [0x7F; 69; 76; 70; 2; 1; 1; 0] ++ replicate 8 0 ++ to_le 2 2 ++ to_le 2 62 ++ to_le 4 1 ++ to_le 8 0x400000 ++ to_le 8 64
  ++ to_le 8 0 ++ to_le 4 0 ++ to_le 2 64 ++ to_le 2 56 ++ to_le 2 1 ++ replicate 6 0.
Definition demo_phdr (vaddr filesz memsz : Z) : list Z := to_le 4 1 ++ to_le 4 5 ++ to_le 8 120 ++ to_le 8 vaddr ++ to_le 8 0 ++ to_le 8 filesz ++ to_le 8 memsz ++ to_le 8 4096.
Definition demo_program : list Z := demo_ehdr ++ demo_phdr 0x400000 3 8 ++ [11; 22; 33].

Definition demo_node : file_node := mk_fn [] 0 0 123 false 0 (mk_ops 1 0 0 0 0 0 0 0 0 0 0 0) 0.
Definition demo_files_of (content : list Z) : vfs (list Z) := mk_vfs ∅ (mk_tree 0 0) {[ 7 := demo_node ]} 0 0 [] content.
Definition demo_handle : file_handle := mk_fh 7 4 0.
Definition demo_space (content : list Z) : space frames (list Z) := mk_space ∅ boot_vm (demo_files_of content).

Lemma demo_symtab_serves content : file_serves 7 content (demo_files_of content).
Proof. exists demo_node. split; [done|]. split; [done|]. intros buf off len _ _ _ _. reflexivity. Qed.

Lemma demo_room k content : Z.of_nat k < 200 -> roomy k (demo_space content).
Proof. intros Hk. constructor; cbn [sp_vm demo_space]; [apply boot_inv|apply boot_tree|apply boot_richer; lia]. Qed.

Lemma demo_ready n content : ready (demo_space content) n.
Proof. left. apply boot_miss. Qed.

Lemma demo_only j : load_index demo_program j -> j = 0.
Proof. intros [Hj _]. assert (phnum demo_program = 1) as E by by vm_compute. rewrite E in Hj. lia. Qed.

Lemma demo_seg : seg demo_program 0 = mk_ph 1 120 0x400000 3 8.
Proof. by vm_compute. Qed.

Lemma demo_program_ok : program_ok demo_program.
Proof.
  constructor.
  - by vm_compute.
  - by vm_compute.
  - intros i Hi. assert (phnum demo_program = 1) as E by by vm_compute. rewrite E in Hi. assert (i = 0) as -> by lia. by vm_compute.
  - intros i ->%demo_only. rewrite demo_seg. constructor; by vm_compute.
  - intros i j ->%demo_only ->%demo_only. done.
Qed.

Lemma exec_elf_loads_witness : exists elf elf' s', load_elf demo_handle (demo_space demo_program) = Done (Some elf, demo_space demo_program) /\
  exec_elf 5 (fun _ => replicate 56 0) [] elf (demo_space demo_program) = Done (0, elf', s') /\ elf_entrypoint elf' = 0x400000 /\
  bytes_at (sp_mem s') 0x400000 [11; 22; 33; 0; 0; 0; 0; 0].
Proof.
  destruct (exec_elf_loads 5 (fun _ => replicate 56 0) [] demo_program demo_handle (demo_space demo_program) 0 demo_program_ok) as (elf & elf' & s' & H1 & H2 & H3 & H4 & _).
  - reflexivity.
  - reflexivity.
  - apply demo_symtab_serves.
  - reflexivity.
  - reflexivity.
  - intros i. apply length_replicate.
  - intros j ->%demo_only. rewrite demo_seg. change (page_total _) with 1%nat. lia.
  - by vm_compute.
  - change (pages_from _ _ _ + 0)%nat with 1%nat. apply demo_room. lia.
  - intros j n _ _. apply demo_ready.
  - exists elf, elf', s'. split; [exact H1|]. split; [exact H2|]. split; [rewrite H3; reflexivity|].
    destruct (H4 0) as [Hb _]; [by vm_compute|]. rewrite demo_seg in Hb. exact Hb.
Defined.

(** A segment that begins 256 bytes before the end of a page. *)
Definition demo_late : program_header := mk_ph 1 120 0x400f00 3 0x200.

Lemma load_segment_misses_page_witness : load_segment 5 [] demo_handle demo_late (demo_space demo_program) = Fault.
Proof.
  apply (load_segment_misses_page 5 (fun _ => []) [] (demo_space demo_program) demo_handle demo_program demo_late 0); cbn [demo_late ph_vaddr ph_memsz ph_filesz ph_offset]; try lia; try reflexivity.
  - by vm_compute.
  - apply demo_symtab_serves.
  - change (page_total _) with 1%nat. lia.
  - change (page_total _ + 0)%nat with 1%nat. apply demo_room. lia.
  - intros n _. apply demo_ready.
Defined.

Definition demo_symbols : list Symbols.kernel_symbol := [Symbols.mk_ks 0x1000 [112; 97; 110; 105; 99]; Symbols.mk_ks 0x2000 [102]].

Lemma kernel_symbols_found_witness : exists t', Symbols.init_kernel_symbols next_key demo_symbols (Symbols.mk_st (ht_create 1) 0 ∅) = Done t' /\
  exists p, Symbols.find_symbol [102] t' = Done p /\ p <> 0 /\ Symbols.st_objects t' !! p = Some (Symbols.mk_ks 0x2000 [102]).
Proof.
  destruct (kernel_symbols_found next_key (fun m => next_key_fresh m) demo_symbols (Symbols.mk_st (ht_create 1) 0 ∅)) as (t' & Hr & Hf).
  - repeat constructor; cbn; lia.
  - cbn. unfold Symbols.MAX_SYMBOLS. lia.
  - exists t'. split; [exact Hr|]. destruct (Hf [102]) as (p & Hp & Hz & Ho); [split; [repeat constructor; lia|cbn; lia]|]. exists p. split; [exact Hp|].
    assert (p <> 0). { intros E. apply (proj1 Hz E (Symbols.mk_ks 0x2000 [102])); [|done]. by apply list_elem_of_lookup_2 with 1%nat. }
    split; [done|]. rewrite Ho by done. reflexivity.
Defined.

Lemma apply_relocation_stores_witness : exists m', Modules.apply_relocation R_X86_64_PC32 4096 5000 (2 ^ 64 - 4) (write_bytes ∅ 4096 [0; 0; 0; 0]) = Done m' /\
  load_le 4 m' 4096 = Done 900.
Proof.
  destruct (apply_relocation_stores R_X86_64_PC32 4096 5000 (2 ^ 64 - 4) (write_bytes ∅ 4096 [0; 0; 0; 0])) as [H _].
  destruct H as (m' & H1 & H2 & _); [by right; right|exact (mapped_b_spec (write_bytes ∅ 4096 [0; 0; 0; 0]) 4096 4 eq_refl)|].
  exists m'. split; [exact H1|]. change (reloc_width R_X86_64_PC32) with 4%nat in H2. rewrite H2. reflexivity.
Defined.

(** A symbol of section 1 at 4096, of a file whose section headers begin at
    128: the header that is read would lie at 16384. *)
Definition demo_sym : mem := write_bytes ∅ 4096 (to_le 4 1 ++ [0; 0] ++ to_le 2 1 ++ to_le 8 16 ++ to_le 8 0).
Definition demo_object : list Z := replicate 40 0 ++ to_le 8 128 ++ replicate 10 0 ++ to_le 2 64 ++ to_le 2 3 ++ to_le 2 2.

Lemma resolve_symbol_scales_witness :
  Modules.resolve_symbol 4096 demo_object (Symbols.mk_st (ht_create 1) 0 ∅) 0 4096 0 (demo_sym, 0) = Fault.
Proof.
  apply (resolve_symbol_scales 4096 demo_object (Symbols.mk_st (ht_create 1) 0 ∅) 0 4096 0 demo_sym 0 1 16); try reflexivity; try lia; by vm_compute.
Defined.

#[local, refine] Instance demo_balloc : ByteAlloc := {| balloc := fun m _ => next_key m; bjunk := fun n => replicate (Z.to_nat n) 0 |}.
Proof.
  - intros m n. assert (H : forall q b, m !! q = Some b -> q < next_key m).
    { unfold next_key. intros q b. revert q b. apply (map_fold_weak_ind (fun a (m : gmap Z Z) => forall q b, m !! q = Some b -> q < a)); [intros q b; by rewrite lookup_empty|].
      intros i x m' r _ IH q b [[-> _]|[_ Hq]]%lookup_insert_Some; [lia|]. specialize (IH q b Hq). lia. }
    assert (0 < next_key m) by (unfold next_key; apply (map_fold_weak_ind (fun a (m : gmap Z Z) => 0 < a)); intros; lia).
    split; [done|]. intros q Hq. destruct (m !! q) eqn:E; [|done]. apply H in E. lia.
  - intros n. apply length_replicate.
Defined.

Lemma module_elf_never_registers_witness :
  (-1 = -1) /\ (demo_space demo_object, @None hashtable).2 = None.
Proof.
  apply (module_elf_never_registers (fun _ _ => Fault) (Symbols.mk_st (ht_create 1) 0 ∅) (mk_elf demo_object demo_handle 0) (demo_space demo_object)).
  reflexivity.
Defined.
