(* ===== verification/Ports.v ===== *)
(** The devices behind the processor's ports: the interrupt controllers
    (kernel/arch/amd64/pic.c), the timer (pit.c), the keyboard (hid/ps2.c) and
    the serial line (kernel/serial.c).

    [PortBus] is what the instructions of io.h do to the devices; which device
    answers is a parameter, and a theorem that needs to know how a chip behaves
    takes its documented behaviour as hypotheses ([Pic8259], [Uart]).  Port
    values are bytes, words and double words as Z. *)
From stdpp Require Import base list.
From Stdlib Require Import ZArith Lia.
From S2P Require Import Prelude.

#[local] Open Scope Z_scope.

(** ** Port instructions *)

Class PortBus (B : Type) := {
  outb : Z -> Z -> B -> B;
  outw : Z -> Z -> B -> B;
  outl : Z -> Z -> B -> B;
  inb : Z -> B -> Z * B;
  inl_ : Z -> B -> Z * B
}.

(** A write to an unused port, for the time it takes. *)
Definition io_wait {B} `{PortBus B} (b : B) : B := outb 0x80 0 b.

(** ** Interrupt controllers *)

Module Pic.
Definition PIC1_COMMAND : Z := 0x20.
Definition PIC1_DATA : Z := 0x21.
Definition PIC2_COMMAND : Z := 0xA0.
Definition PIC2_DATA : Z := 0xA1.
Definition PIC_EOI : Z := 0x20.
Definition ICW1_INIT : Z := 0x10.
Definition ICW1_ICW4 : Z := 0x01.
Definition ICW4_8086 : Z := 0x01.

Section Pic.
Context {B : Type} `{PB : PortBus B}.

Definition pic_sendEOI (irq : Z) (b : B) : B :=
  let b := if decide (8 <= irq) then outb PIC2_COMMAND PIC_EOI b else b in
  outb PIC1_COMMAND PIC_EOI b.

Definition pic_disable (b : B) : B := outb PIC2_DATA 0xff (outb PIC1_DATA 0xff b).

(** [data &= ~bitMask] on bytes. *)
Definition clear_bits (data bitMask : Z) : Z := u8 (Z.land data (Z.lnot bitMask)).
Definition unmask (port bitMask : Z) (b : B) : B := let '(data, b) := inb port b in outb port (clear_bits data bitMask) b.

Definition pic_enableInterrupt (irq : Z) (b : B) : B :=
  let b := if decide (8 <= irq) then unmask PIC2_DATA (u8 (Z.shiftl 1 (irq - 8))) b else b in
  unmask PIC1_DATA (u8 (Z.shiftl 1 irq)) b.

Definition pic_setup (b : B) : B :=
  let b := io_wait (outb PIC1_COMMAND (Z.lor ICW1_INIT ICW1_ICW4) b) in
  let b := io_wait (outb PIC2_COMMAND (Z.lor ICW1_INIT ICW1_ICW4) b) in
  let b := io_wait (outb PIC1_DATA 0x20 b) in
  let b := io_wait (outb PIC2_DATA 0x28 b) in
  let b := io_wait (outb PIC1_DATA 4 b) in
  let b := io_wait (outb PIC2_DATA 2 b) in
  let b := io_wait (outb PIC1_DATA ICW4_8086 b) in
  let b := outb PIC2_DATA ICW4_8086 b in
  let b := io_wait b in
  outb PIC1_DATA 0xfc b.
End Pic.
End Pic.

(** ** The timer *)

Module Timer.
Definition PIT0 : Z := 0x40.
Definition PIT_CMD : Z := 0x43.
Definition PIT_MASK : Z := 0xFF.
Definition PIT_SCALE : Z := 1193180.

Section Timer.
Context {B : Type} `{PB : PortBus B}.

(** The port writes of timer_init; the handler is installed by
    irq_install_handler. *)
Definition timer_program (b : B) : B :=
  let counter := PIT_SCALE / 100 in
  let b := outb PIT_CMD 0x34 b in
  let b := outb PIT0 (Z.land counter PIT_MASK) b in
  outb PIT0 (u8 (Z.shiftr counter 8)) b.
End Timer.

(** [int endCounter = (milliseconds / 10) + 1 + counter], and the comparison of
    the unsigned counter with it.  [ticks] is the counter after each hlt: the
    interrupt that ends it is the timer's. *)
Definition end_counter (milliseconds counter : Z) : Z := s32 (u64 (Z.quot milliseconds 10 + 1 + counter)).
Fixpoint ksleep_from (stop : Z) (ticks : list Z) : outcome (list Z) :=
  match ticks with
  | [] => Blocked
  | counter :: ticks => if decide (u64 stop <= counter) then Done (counter :: ticks) else ksleep_from stop ticks
  end.
Definition ksleep (milliseconds : Z) (counter : Z) (ticks : list Z) : outcome (list Z) :=
  ksleep_from (end_counter milliseconds counter) (counter :: ticks).
End Timer.

(** ** The keyboard *)

Module Keyboard.
Definition KEY_UP_MASK : Z := 0x80.
Definition KEY_CTRL : Z := 0x1D.
Definition KEY_LSHIFT : Z := 0x2A.

Definition kbd : list Z :=
  [0; 27; 49; 50; 51; 52; 53; 54; 55; 56; 57; 48; 45; 61; 8; 9;
   81; 87; 69; 82; 84; 89; 85; 73; 79; 80; 91; 93; 10;
   0; 65; 83; 68; 70; 71; 72; 74; 75; 76; 59; 39; 96; 0; 92;
   90; 88; 67; 86; 66; 78; 77; 44; 46; 47; 0; 42; 0; 32; 0].

Record keyboard_state := mk_kb {
  kbd_extended_state : Z; lshift : bool; lctrl : bool; lalt : bool; rshift : bool; rctrl : bool; ralt : bool;
  keyboardEventHandler : list Z
}.
Record key_event_t := mk_ev { keyCode : Z; isDown : bool }.

Definition set_lshift (v : bool) (s : keyboard_state) : keyboard_state :=
  mk_kb (kbd_extended_state s) v (lctrl s) (lalt s) (rshift s) (rctrl s) (ralt s) (keyboardEventHandler s).
Definition set_lctrl (v : bool) (s : keyboard_state) : keyboard_state :=
  mk_kb (kbd_extended_state s) (lshift s) v (lalt s) (rshift s) (rctrl s) (ralt s) (keyboardEventHandler s).
Definition set_rctrl (v : bool) (s : keyboard_state) : keyboard_state :=
  mk_kb (kbd_extended_state s) (lshift s) (lctrl s) (lalt s) (rshift s) v (ralt s) (keyboardEventHandler s).
Definition set_extended (s : keyboard_state) : keyboard_state :=
  mk_kb 1 (lshift s) (lctrl s) (lalt s) (rshift s) (rctrl s) (ralt s) (keyboardEventHandler s).
Definition put_handlers (l : list Z) (s : keyboard_state) : keyboard_state :=
  mk_kb (kbd_extended_state s) (lshift s) (lctrl s) (lalt s) (rshift s) (rctrl s) (ralt s) l.

(** The first free of the 64 slots; a handler that finds none is dropped. *)
Fixpoint first_slot (handler : Z) (l : list Z) : list Z :=
  match l with [] => [] | h :: l => if decide (h = 0) then handler :: l else h :: first_slot handler l end.
Definition registerKeyEventHandler (handler : Z) (s : keyboard_state) : keyboard_state :=
  put_handlers (first_slot handler (keyboardEventHandler s)) s.

Section Keyboard.
Context {B K : Type} `{PB : PortBus B}.
(** [behind i]: the char at index [i] of the table when it lies outside it;
    [call_handler]: a registered function. *)
Context (behind : Z -> outcome Z) (call_handler : Z -> key_event_t -> K -> outcome K).

Definition table_at (code : Z) : outcome Z := if decide (code < 59) then aget kbd code else behind code.

Fixpoint notify (handlers : list Z) (e : key_event_t) (k : K) : outcome K :=
  match handlers with
  | [] => Done k
  | h :: handlers => k ← (if decide (h = 0) then Done k else call_handler h e k); notify handlers e k
  end.

(** The work on a scan code. *)
Definition key_code (code : Z) (s : keyboard_state) (k : K) : outcome (keyboard_state * K) :=
  let s := if decide (code = 0xE0) then set_extended s else s in
  keyCode ← table_at code;
  let isup := bool_decide (Z.land code KEY_UP_MASK <> 0) in
  let s := if decide (code = KEY_CTRL) then (if decide (kbd_extended_state s <> 0) then set_rctrl (negb isup) s else set_lctrl (negb isup) s)
           else if decide (code = KEY_LSHIFT) then set_lshift (negb isup) s else s in
  if decide (kbd_extended_state s = 0) then
    let shift := lshift s || rshift s in
    let keyCode := if negb shift && bool_decide (65 <= keyCode) then s8 (keyCode + 32) else keyCode in
    if isup then Done (s, k) else k ← notify (keyboardEventHandler s) (mk_ev keyCode true) k; Done (s, k)
  else Done (s, k).

Definition keyboard_handler (st : B * keyboard_state * K) : outcome (B * keyboard_state * K) :=
  let '(b, s, k) := st in
  let '(code, b) := inb 0x60 b in
  let b := Pic.pic_sendEOI 1 b in
  '(s, k) ← key_code (u8 code) s k;
  Done (b, s, k).
End Keyboard.
End Keyboard.

(** ** The serial line *)

Module Serial.
Definition PORT : Z := 0x3f8.

Section Serial.
Context {B : Type} `{PB : PortBus B}.
Context (fuel : nat).

Definition serial_init (b : B) : Z * B :=
  let b := outb (PORT + 1) 0x00 b in
  let b := outb (PORT + 3) 0x80 b in
  let b := outb (PORT + 0) 0x03 b in
  let b := outb (PORT + 1) 0x00 b in
  let b := outb (PORT + 3) 0x03 b in
  let b := outb (PORT + 2) 0xC7 b in
  let b := outb (PORT + 4) 0x0B b in
  let b := outb (PORT + 4) 0x1E b in
  let b := outb (PORT + 0) 0xAE b in
  let '(c, b) := inb (PORT + 0) b in
  if decide (c <> 0xAE) then (1, b) else (0, outb (PORT + 4) 0x0F b).

Definition serial_received (b : B) : Z * B := let '(v, b) := inb (PORT + 5) b in (Z.land v 1, b).
Definition is_transmit_empty (b : B) : Z * B := let '(v, b) := inb (PORT + 5) b in (Z.land v 0x20, b).

(** [while (poll() == 0);] *)
Definition wait_until (poll : B -> Z * B) (b : B) : outcome B :=
  loop fuel (fun b => let '(v, b) := poll b in Done (if decide (v = 0) then inl b else inr b)) b.

Definition read_serial (b : B) : outcome (Z * B) :=
  b ← wait_until serial_received b; let '(v, b) := inb PORT b in Done (s8 v, b).
Definition write_serial (a : Z) (b : B) : outcome B :=
  b ← wait_until is_transmit_empty b; Done (outb PORT (u8 a) b).

(** The bytes of [data]; it always returns true. *)
Fixpoint serial_print (data : list Z) (b : B) : outcome B :=
  match data with
  | [] => Done b
  | c :: data =>
      b ← (if decide (c = 10) then b ← write_serial 13 b; write_serial 10 b else write_serial c b);
      serial_print data b
  end.
End Serial.
End Serial.

(** ** The 8259 pair, as documented

    A controller has an interrupt mask and, while it is initialised, the number
    of initialisation words it still expects on its data port. *)

Record chip := mk_chip { imr : Z; icw : nat }.
Definition chip_command (v : Z) (c : chip) : chip := if decide (Z.land v 0x10 <> 0) then mk_chip 0 3 else c.
Definition chip_data (v : Z) (c : chip) : chip := match icw c with O => mk_chip v 0 | S n => mk_chip (imr c) n end.
Definition pair_out (port v : Z) (p : chip * chip) : chip * chip :=
  if decide (port = Pic.PIC1_COMMAND) then (chip_command v p.1, p.2)
  else if decide (port = Pic.PIC1_DATA) then (chip_data v p.1, p.2)
  else if decide (port = Pic.PIC2_COMMAND) then (p.1, chip_command v p.2)
  else if decide (port = Pic.PIC2_DATA) then (p.1, chip_data v p.2)
  else p.

Class Pic8259 (B : Type) `{PortBus B} := {
  pics : B -> chip * chip;
  pics_out : forall port v b, pics (outb port v b) = pair_out port v (pics b);
  pics_in1 : forall b, icw (pics b).1 = O -> (inb Pic.PIC1_DATA b).1 = imr (pics b).1 /\ pics (inb Pic.PIC1_DATA b).2 = pics b;
  pics_in2 : forall b, icw (pics b).2 = O -> (inb Pic.PIC2_DATA b).1 = imr (pics b).2 /\ pics (inb Pic.PIC2_DATA b).2 = pics b
}.

(** A request on a line reaches the processor: the second controller's requests
    come in on line 2 of the first. *)
Definition line_open (p : chip * chip) (irq : Z) : bool :=
  if decide (irq < 8) then negb (Z.testbit (imr p.1) irq) else negb (Z.testbit (imr p.2) (irq - 8)) && negb (Z.testbit (imr p.1) 2).

Definition ready_pics (p : chip * chip) : Prop := icw p.1 = O /\ icw p.2 = O /\ 0 <= imr p.1 < 256 /\ 0 <= imr p.2 < 256.

Section PicFacts.
Import Pic.
Context {B : Type} `{PB : PortBus B} `{PP : !Pic8259 B}.

Lemma pic_setup_state b : pics (pic_setup b) = (mk_chip 0xfc 0, mk_chip 0 0).
Proof. unfold pic_setup, io_wait. rewrite !pics_out. by destruct (pics b) as [[??] [??]]. Qed.

Lemma clear_bits_testbit data n i : 0 <= data < 256 -> 0 <= n < 8 -> 0 <= i ->
  Z.testbit (clear_bits data (Z.shiftl 1 n)) i = Z.testbit data i && negb (bool_decide (i = n)).
Proof.
  intros Hd Hn Hi. unfold clear_bits, u8. destruct (Z.lt_ge_cases i 8).
  - rewrite Z.mod_pow2_bits_low, Z.land_spec, Z.lnot_spec by lia. f_equal. f_equal. rewrite Z.shiftl_1_l, Z.pow2_bits_eqb by lia.
    case_bool_decide; [subst; apply Z.eqb_refl|by apply Z.eqb_neq].
  - rewrite Z.mod_pow2_bits_high by lia. rewrite (Z.bits_above_log2 data i); [done|lia|].
    destruct (decide (data = 0)) as [->|]; [cbn; lia|]. apply Z.log2_lt_pow2; [lia|]. apply Z.lt_le_trans with (2 ^ 8); [lia|]. apply Z.pow_le_mono_r; lia.
Qed.

Lemma clear_bits_none data : 0 <= data < 256 -> clear_bits data 0 = data.
Proof. intros Hd. unfold clear_bits. rewrite Z.land_m1_r. by apply u8_small. Qed.

Lemma clear_bits_byte data m : 0 <= clear_bits data m < 256.
Proof. apply u8_range. Qed.

Lemma bit_byte n : 0 <= n < 8 -> u8 (Z.shiftl 1 n) = Z.shiftl 1 n.
Proof.
  intros Hn. apply u8_small. rewrite Z.shiftl_1_l. split; [apply Z.pow_nonneg; lia|]. apply Z.lt_le_trans with (2 ^ (n + 1)); [apply Z.pow_lt_mono_r; lia|].
  change 256 with (2 ^ 8). apply Z.pow_le_mono_r; lia.
Qed.

Lemma bit_gone n : 8 <= n -> u8 (Z.shiftl 1 n) = 0.
Proof. intros Hn. unfold u8. rewrite Z.shiftl_1_l. replace n with (n - 8 + 8) by lia. rewrite Z.pow_add_r by lia. apply Z.mod_mul. lia. Qed.

Lemma unmask1 b m : icw (pics b).1 = O -> pics (unmask PIC1_DATA m b) = (mk_chip (clear_bits (imr (pics b).1) m) 0, (pics b).2).
Proof.
  intros Hi. destruct (pics_in1 b Hi) as [Hv Hp]. unfold unmask. destruct (inb PIC1_DATA b) as [data b']. cbn [fst snd] in *. subst.
  rewrite pics_out, Hp. unfold pair_out, chip_data. by rewrite Hi.
Qed.

Lemma unmask2 b m : icw (pics b).2 = O -> pics (unmask PIC2_DATA m b) = ((pics b).1, mk_chip (clear_bits (imr (pics b).2) m) 0).
Proof.
  intros Hi. destruct (pics_in2 b Hi) as [Hv Hp]. unfold unmask. destruct (inb PIC2_DATA b) as [data b']. cbn [fst snd] in *. subst.
  rewrite pics_out, Hp. unfold pair_out, chip_data. by rewrite Hi.
Qed.

Lemma enable_first b irq : ready_pics (pics b) -> 0 <= irq < 8 ->
  pics (pic_enableInterrupt irq b) = (mk_chip (clear_bits (imr (pics b).1) (Z.shiftl 1 irq)) 0, (pics b).2).
Proof. intros (H1 & H2 & _) Hi. unfold pic_enableInterrupt. rewrite (decide_False (P := 8 <= irq)) by lia. by rewrite unmask1, bit_byte by done. Qed.

Lemma enable_second b irq : ready_pics (pics b) -> 8 <= irq < 16 ->
  pics (pic_enableInterrupt irq b) = ((pics b).1, mk_chip (clear_bits (imr (pics b).2) (Z.shiftl 1 (irq - 8))) 0).
Proof.
  intros (H1 & H2 & Hr1 & _) Hi. unfold pic_enableInterrupt. rewrite (decide_True (P := 8 <= irq)) by lia. rewrite bit_gone by lia.
  rewrite unmask1; rewrite unmask2 by done; [|done]. cbn [fst snd]. rewrite bit_byte, clear_bits_none by (done || lia). f_equal. destruct (pics b) as [[??] ?]. cbn in *. by subst.
Qed.

Lemma enable_ready b irq : ready_pics (pics b) -> 0 <= irq < 16 -> ready_pics (pics (pic_enableInterrupt irq b)).
Proof.
  intros H Hi. pose proof H as (H1 & H2 & H3 & H4). destruct (Z.lt_ge_cases irq 8); [rewrite enable_first by (done || lia)|rewrite enable_second by (done || lia)].
  - unfold ready_pics. cbn [fst snd imr icw]. pose proof (clear_bits_byte (imr (pics b).1) (Z.shiftl 1 irq)). tauto.
  - unfold ready_pics. cbn [fst snd imr icw]. pose proof (clear_bits_byte (imr (pics b).2) (Z.shiftl 1 (irq - 8))). tauto.
Qed.

(** Pic_enableInterrupt.  On initialised controllers it clears the mask bit
    of its line and no other bit of either mask.  A line of the first
    controller is then open; one of the second is open only if line 2 of the
    first was: that line is not enabled with it. *)
Theorem pic_enable_line b irq : ready_pics (pics b) -> 0 <= irq < 16 ->
  ready_pics (pics (pic_enableInterrupt irq b)) /\
  line_open (pics (pic_enableInterrupt irq b)) irq = (bool_decide (irq < 8) || negb (Z.testbit (imr (pics b).1) 2)) /\
  (forall i, 0 <= i < 8 -> i <> irq -> Z.testbit (imr (pics (pic_enableInterrupt irq b)).1) i = Z.testbit (imr (pics b).1) i) /\
  (forall i, 0 <= i < 8 -> i <> irq - 8 -> Z.testbit (imr (pics (pic_enableInterrupt irq b)).2) i = Z.testbit (imr (pics b).2) i).
Proof.
  intros H Hi. split; [by apply enable_ready|]. pose proof H as (_ & _ & H3 & H4). unfold line_open. destruct (Z.lt_ge_cases irq 8) as [Hl|Hl].
  - rewrite enable_first by (done || lia). rewrite (decide_True (P := irq < 8)) by done. cbn [fst snd imr]. split; [|split; [|done]].
    + rewrite clear_bits_testbit by lia. rewrite (bool_decide_true (irq = irq)), (bool_decide_true (irq < 8)) by done. by rewrite andb_false_r.
    + intros i Hi' Hne. rewrite clear_bits_testbit by lia. by rewrite bool_decide_false, andb_true_r.
  - rewrite enable_second by (done || lia). rewrite (decide_False (P := irq < 8)) by lia. cbn [fst snd imr]. split; [|split; [done|]].
    + rewrite clear_bits_testbit by lia. rewrite (bool_decide_true (irq - 8 = irq - 8)), (bool_decide_false (irq < 8)) by lia. by rewrite andb_false_r.
    + intros i Hi' Hne. rewrite clear_bits_testbit by lia. by rewrite bool_decide_false, andb_true_r.
Qed.

(** The enabling of one line after the other. *)
Definition enable_all (irqs : list Z) (b : B) : B := foldl (fun b irq => pic_enableInterrupt irq b) b irqs.

(** The lines of the second controller.  After pic_setup, whatever lines
    from 8 on are enabled, by pic_enableInterrupt, none of them is open: the
    mask that pic_setup writes closes line 2 of the first controller, and
    nothing opens it. *)
Theorem second_controller_closed irqs irq b : Forall (fun i => 8 <= i < 16) irqs -> 8 <= irq < 16 ->
  line_open (pics (enable_all irqs (pic_setup b))) irq = false.
Proof.
  intros Hall Hi. assert (H : ready_pics (pics (pic_setup b)) /\ Z.testbit (imr (pics (pic_setup b)).1) 2 = true).
  { rewrite pic_setup_state. split; [split_and!; cbn; lia|reflexivity]. }
  revert H. generalize (pic_setup b). induction Hall as [|i irqs Hir Hall IH]; intros b0 [Hr Hb]; cbn [enable_all foldl].
  - unfold line_open. rewrite (decide_False (P := irq < 8)) by lia. rewrite Hb. apply andb_false_r.
  - apply IH. split; [apply enable_ready; done || lia|]. by rewrite enable_second.
Qed.
End PicFacts.

(** ** The keyboard *)

Section KeyFacts.
Import Keyboard.
Context {K : Type}.
Context (behind : Z -> outcome Z) (call_handler : Z -> key_event_t -> K -> outcome K).
Abbreviation press := (key_code behind call_handler).

(** The codes as they come in. *)
Fixpoint key_run (codes : list Z) (s : keyboard_state) (k : K) : outcome (keyboard_state * K) :=
  match codes with [] => Done (s, k) | code :: codes => '(s, k) ← press code s k; key_run codes s k end.

Lemma key_code_sticks code s k s' k' : press code s k = Done (s', k') ->
  keyboardEventHandler s' = keyboardEventHandler s /\ (lshift s = true -> lshift s' = true) /\ (lctrl s = true -> lctrl s' = true) /\
  (kbd_extended_state s <> 0 -> kbd_extended_state s' <> 0 /\ k' = k).
Proof.
  unfold key_code. intros (c & _ & Hk)%outcome_bind_done.
  set (s1 := if decide (code = 0xE0) then set_extended s else s) in Hk.
  assert (H1 : keyboardEventHandler s1 = keyboardEventHandler s /\ lshift s1 = lshift s /\ lctrl s1 = lctrl s /\ (kbd_extended_state s <> 0 -> kbd_extended_state s1 <> 0))
    by (unfold s1; destruct (decide (code = 0xE0)); cbn; repeat split; intros; done || lia).
  set (s2 := if decide (code = KEY_CTRL) then _ else _) in Hk.
  assert (H2 : keyboardEventHandler s2 = keyboardEventHandler s1 /\ (lshift s1 = true -> lshift s2 = true) /\ (lctrl s1 = true -> lctrl s2 = true) /\ kbd_extended_state s2 = kbd_extended_state s1).
  { clear Hk. unfold s2. destruct (decide (code = KEY_CTRL)) as [->|]; [by destruct (decide (kbd_extended_state s1 <> 0))|].
    by destruct (decide (code = KEY_LSHIFT)) as [->|]. }
  clearbody s1 s2. destruct H1 as (A1 & A2 & A3 & A4), H2 as (B1 & B2 & B3 & B4).
  destruct (decide (kbd_extended_state s2 = 0)) as [E|E].
  - assert (Hs : s' = s2) by (destruct (bool_decide (Z.land code KEY_UP_MASK <> 0)); [by injection Hk|apply outcome_bind_done in Hk as (? & _ & Hk); by injection Hk]). subst s'.
    split; [congruence|]. split; [intros; apply B2; congruence|]. split; [intros; apply B3; congruence|]. intros Hx. exfalso. apply A4 in Hx. congruence.
  - injection Hk as <- <-. split; [congruence|]. split; [intros; apply B2; congruence|]. split; [intros; apply B3; congruence|]. by split.
Qed.

(** The modifier keys stay down.  A scan code with the release bit matches
    none of the cases of the switch: once the left shift key (or left control)
    has been pressed it counts as pressed whatever codes follow, its release
    included; and once the code 0xE0 of an extended key has been seen, no key
    of any kind is reported to a handler again. *)
Theorem keyboard_modifiers_stick codes s k s' k' : key_run codes s k = Done (s', k') ->
  (lshift s = true -> lshift s' = true) /\ (lctrl s = true -> lctrl s' = true) /\ (kbd_extended_state s <> 0 -> kbd_extended_state s' <> 0 /\ k' = k).
Proof.
  revert s k. induction codes as [|code codes IH]; intros s k; cbn [key_run]; [by intros [= <- <-]|].
  intros ([s1 k1] & H1 & H2)%outcome_bind_done. apply key_code_sticks in H1 as (_ & S1 & C1 & X1). apply IH in H2 as (S2 & C2 & X2).
  split; [auto|]. split; [auto|]. intros Hx. destruct (X1 Hx) as [Hx1 ->]. destruct (X2 Hx1) as [? ->]. done.
Qed.

(** The character a key stands for: with a shift key down that of the table,
    otherwise the table's with 32 added from 'A' on. *)
Definition key_char (shift : bool) (code : Z) : Z :=
  match zlookup kbd code with Some c => if shift then c else if decide (65 <= c) then s8 (c + 32) else c | None => 0 end.

(** A key press.  A make code of the table, of a key that is no modifier,
    is reported once to every registered handler, in the order of their slots,
    as a press of the key's character under the shift state; the state of the
    keyboard does not change.  A release code changes and reports nothing. *)
Theorem key_press_reported code s k : kbd_extended_state s = 0 -> code <> KEY_CTRL -> code <> KEY_LSHIFT ->
  (0 <= code < 59 -> press code s k =
     (k ← notify call_handler (keyboardEventHandler s) (mk_ev (key_char (lshift s || rshift s) code) true) k; Done (s, k))) /\
  (128 <= code < 256 -> code <> 0xE0 -> press code s k = (_ ← behind code; Done (s, k))).
Proof.
  intros Hx Hc Hs. split; intros Hr; [|intros He]; unfold key_code.
  - rewrite (decide_False (P := code = 0xE0)) by lia. unfold table_at. rewrite (decide_True (P := code < 59)) by lia.
    destruct (aget_in_range kbd code) as (c & Hg & Hl); [cbn; lia|]. rewrite Hg. cbn [mbind outcome_bind].
    rewrite (decide_False (P := code = KEY_CTRL)), (decide_False (P := code = KEY_LSHIFT)) by done. rewrite (decide_True (P := kbd_extended_state s = 0)) by done.
    assert (Hb : Z.land code KEY_UP_MASK = 0).
    { apply Z.bits_inj_0. intros n. rewrite Z.land_spec. unfold KEY_UP_MASK. change 0x80 with (2 ^ 7). destruct (Z.lt_ge_cases n 0); [by rewrite Z.testbit_neg_r|].
      rewrite Z.pow2_bits_eqb by lia. destruct (Z.eqb_spec 7 n) as [<-|]; [|apply andb_false_r]. rewrite andb_true_r.
      destruct (decide (code = 0)) as [->|]; [done|]. apply Z.bits_above_log2; [lia|]. apply Z.log2_lt_pow2; lia. }
    rewrite Hb, bool_decide_false by tauto. unfold key_char, zlookup. rewrite (decide_True (P := 0 <= code)) by lia. rewrite Hl.
    destruct (lshift s || rshift s); cbn [negb andb]; [done|]. unfold bool_decide. destruct (decide_rel _ 65 c) as [E|E]; destruct (decide (65 <= c)); done.
  - rewrite (decide_False (P := code = 0xE0)) by lia. unfold table_at. rewrite (decide_False (P := code < 59)) by lia. destruct (behind code); [|done..]. cbn [mbind outcome_bind].
    rewrite (decide_False (P := code = KEY_CTRL)), (decide_False (P := code = KEY_LSHIFT)) by done. rewrite (decide_True (P := kbd_extended_state s = 0)) by done.
    rewrite bool_decide_true; [done|]. intros E. assert (Z.testbit (Z.land code KEY_UP_MASK) 7 = false) as Eb by (rewrite E; apply Z.testbit_0_l).
    rewrite Z.land_spec in Eb. change (Z.testbit KEY_UP_MASK 7) with true in Eb. rewrite andb_true_r in Eb. rewrite Z.testbit_eqb in Eb by lia.
    change (2 ^ 7) with 128 in Eb. rewrite <-(Z.div_unique code 128 1 (code - 128)) in Eb by lia. done.
Qed.
End KeyFacts.

(** ** The serial line *)

(** A UART as documented: the line status register says when the chip takes a
    byte, after [tx_wait] polls at most; a write to the data port is sent. *)
Class Uart (B : Type) `{PB : PortBus B} := {
  sent : B -> list Z;
  tx_wait : B -> nat;
  uart_poll : forall b, let '(v, b') := inb (Serial.PORT + 5) b in sent b' = sent b /\
    match tx_wait b with O => Z.land v 0x20 <> 0 /\ tx_wait b' = O | S n => Z.land v 0x20 = 0 /\ tx_wait b' = n end;
  uart_send : forall v b, sent (outb Serial.PORT v b) = sent b ++ [v]
}.

Section SerialFacts.
Import Serial.
Context {B : Type} `{PB : PortBus B} `{U : !Uart B}.
Context (fuel : nat) (Hpoll : forall b : B, (tx_wait b < fuel)%nat).

Lemma wait_ready b : exists b', wait_until fuel is_transmit_empty b = Done b' /\ sent b' = sent b.
Proof.
  assert (H : forall n f b, tx_wait b = n -> (n < f)%nat -> exists b', wait_until f is_transmit_empty b = Done b' /\ sent b' = sent b).
  { induction n as [|n IH]; intros [|f] b0 Hb Hf; try lia; unfold wait_until; cbn [loop]; unfold is_transmit_empty; pose proof (uart_poll b0) as Hp;
      destruct (inb (PORT + 5) b0) as [v b1]; rewrite Hb in Hp; destruct Hp as [Hs [Hv Hw]]; cbn [mbind outcome_bind].
    - rewrite decide_False by done. by exists b1.
    - rewrite decide_True by done. destruct (IH f b1 Hw ltac:(lia)) as (b2 & Hr & Hs2). exists b2. split; [exact Hr|congruence]. }
  by apply (H (tx_wait b)).
Qed.

Lemma write_serial_sends a b : exists b', write_serial fuel a b = Done b' /\ sent b' = sent b ++ [u8 a].
Proof.
  destruct (wait_ready b) as (b1 & Hw & Hs). unfold write_serial. rewrite Hw. cbn [mbind outcome_bind]. eexists. split; [done|]. by rewrite uart_send, Hs.
Qed.

(** A line feed goes out as carriage return and line feed. *)
Definition crlf (data : list Z) : list Z := data ≫= (fun c => if decide (c = 10) then [13; 10] else [u8 c]).

(** Serial_print.  On a UART that takes a byte after at most as many polls
    as the fuel, serial_print returns, and what has been sent is what was sent
    before and then the bytes of the data in order, each line feed preceded by
    a carriage return. *)
Lemma serial_print_sends data b : exists b', serial_print fuel data b = Done b' /\ sent b' = sent b ++ crlf data.
Proof.
  revert b. induction data as [|c data IH]; intros b; cbn [serial_print]; [exists b; by rewrite app_nil_r|].
  change (crlf (c :: data)) with ((if decide (c = 10) then [13; 10] else [u8 c]) ++ crlf data). destruct (decide (c = 10)).
  - destruct (write_serial_sends 13 b) as (b1 & Hw1 & Hs1). destruct (write_serial_sends 10 b1) as (b2 & Hw2 & Hs2).
    rewrite Hw1. cbn [mbind outcome_bind]. rewrite Hw2. cbn [mbind outcome_bind]. destruct (IH b2) as (b3 & Hr & Hs3). exists b3. split; [done|].
    rewrite Hs3, Hs2, Hs1. rewrite <-!app_assoc. done.
  - destruct (write_serial_sends c b) as (b1 & Hw1 & Hs1). rewrite Hw1. cbn [mbind outcome_bind]. destruct (IH b1) as (b2 & Hr & Hs2). exists b2. split; [done|].
    by rewrite Hs2, Hs1, <-app_assoc.
Qed.
End SerialFacts.

(** ** The timer *)

Section TimerFacts.
Import Timer.

(** The rate that is programmed: 11931 clocks, low byte first. *)
Lemma timer_rate {B} `{PortBus B} (b : B) : timer_program b = outb PIT0 (11931 / 256) (outb PIT0 (11931 mod 256) (outb PIT_CMD 0x34 b)).
Proof. reflexivity. Qed.

Lemma ksleep_skip stop ticks rest : Forall (fun c => c < u64 stop) ticks -> ksleep_from stop (ticks ++ rest) = ksleep_from stop rest.
Proof. induction 1 as [|c ticks Hc _ IH]; [done|]. cbn [app ksleep_from]. by rewrite decide_False by lia. Qed.

(** Ksleep.  With the timer running it returns at the tick whose number is
    milliseconds / 10 + 1 past the one it was called at and at no earlier one,
    as long as that number fits an int; from 2^31 ticks of uptime on (248 days)
    the int is negative, and no tick below 2^63 ends the wait. *)
Theorem ksleep_ticks milliseconds counter n : 0 <= milliseconds < 2 ^ 31 -> 0 <= counter ->
  (counter + milliseconds / 10 + 1 < 2 ^ 31 -> (Z.to_nat (milliseconds / 10 + 1) < n)%nat ->
   ksleep milliseconds counter (Z.of_nat <$> seq (S (Z.to_nat counter)) n) =
     Done (Z.of_nat <$> seq (Z.to_nat (counter + milliseconds / 10 + 1)) (n - Z.to_nat (milliseconds / 10)))) /\
  (2 ^ 31 <= counter + milliseconds / 10 + 1 < 2 ^ 32 -> forall ticks, Forall (fun c => c < 2 ^ 63) ticks -> counter < 2 ^ 63 -> ksleep milliseconds counter ticks = Blocked).
Proof.
  intros Hms Hc. assert (Hq : Z.quot milliseconds 10 = milliseconds / 10) by (apply Z.quot_div_nonneg; lia).
  assert (Hd : 0 <= milliseconds / 10 < 2 ^ 31) by (split; [apply Z.div_pos; lia|apply Z.div_lt_upper_bound; lia]).
  unfold ksleep, end_counter. rewrite Hq. set (d := milliseconds / 10) in *. replace (d + 1 + counter) with (counter + d + 1) by lia. split.
  - intros He Hn. rewrite (u64_small (counter + d + 1)), s32_small by lia.
    replace (counter :: (Z.of_nat <$> seq (S (Z.to_nat counter)) n)) with (Z.of_nat <$> seq (Z.to_nat counter) (S n)) by (cbn [seq fmap list_fmap]; by rewrite Z2Nat.id by lia).
    replace (S n) with (Z.to_nat (d + 1) + (n - Z.to_nat d))%nat by lia. rewrite seq_app, fmap_app, ksleep_skip.
    + replace (Z.to_nat counter + Z.to_nat (d + 1))%nat with (Z.to_nat (counter + d + 1)) by lia.
      destruct (n - Z.to_nat d)%nat as [|m] eqn:Em; [lia|]. cbn [seq fmap list_fmap ksleep_from]. rewrite decide_True; [done|]. rewrite u64_small by lia. lia.
    + apply Forall_fmap, Forall_forall. intros x Hx%elem_of_seq. cbn. rewrite u64_small by lia. lia.
  - intros He ticks Ht Hcb. rewrite (u64_small (counter + d + 1)) by lia. assert (Hs : u64 (s32 (counter + d + 1)) = counter + d + 1 + 2 ^ 64 - 2 ^ 32).
    { unfold s32, sw. replace (counter + d + 1 + 2 ^ (32 - 1)) with (counter + d + 1 - 2 ^ 31 + 1 * 2 ^ 32) by lia.
      rewrite Z.mod_add, Z.mod_small by lia. unfold u64. symmetry. apply (Z.mod_unique _ _ (-1)); lia. }
    rewrite <-(app_nil_r (counter :: ticks)), ksleep_skip; [done|]. constructor; [cbv beta; rewrite Hs; lia|]. eapply Forall_impl; [done|]. intros c Hlt. cbv beta in *. rewrite Hs. lia.
Qed.
End TimerFacts.

(** ** An example: a machine with both chips *)

Record bench := mk_bench { bn_pics : chip * chip; bn_sent : list Z; bn_busy : bool }.

#[export] Instance bench_bus : PortBus bench := {|
  outb := fun port v b => mk_bench (pair_out port v (bn_pics b)) (if decide (port = Serial.PORT) then bn_sent b ++ [v] else bn_sent b)
    (bool_decide (port = Serial.PORT) || bn_busy b);
  outw := fun _ _ b => b;
  outl := fun _ _ b => b;
  inb := fun port b =>
    if decide (port = Pic.PIC1_DATA) then (imr (bn_pics b).1, b)
    else if decide (port = Pic.PIC2_DATA) then (imr (bn_pics b).2, b)
    else if decide (port = Serial.PORT + 5) then (if bn_busy b then 0 else 0x20, mk_bench (bn_pics b) (bn_sent b) false)
    else (0, b);
  inl_ := fun _ b => (0, b)
|}.

#[export, refine] Instance bench_pics : Pic8259 bench := {| pics := bn_pics |}.
Proof. all: done. Defined.

#[export, refine] Instance bench_uart : Uart bench := {| sent := bn_sent; tx_wait := fun b => if bn_busy b then 1%nat else 0%nat |}.
Proof. all: [>intros [p l [|]]; done|done]. Defined.

Definition demo_bench : bench := mk_bench (mk_chip 0xff 0, mk_chip 0xff 0) [] true.

Lemma pic_enable_line_witness : line_open (pics (Pic.pic_enableInterrupt 1 demo_bench)) 1 = true /\ line_open (pics (Pic.pic_enableInterrupt 12 demo_bench)) 12 = false.
Proof.
  assert (H : ready_pics (pics demo_bench)) by (split; [reflexivity|]; split; [reflexivity|]; cbn; lia). split.
  - destruct (pic_enable_line demo_bench 1 H ltac:(lia)) as (_ & E & _). exact E.
  - destruct (pic_enable_line demo_bench 12 H ltac:(lia)) as (_ & E & _). exact E.
Defined.

Lemma second_controller_closed_witness : line_open (pics (enable_all [10; 12] (Pic.pic_setup demo_bench))) 10 = false.
Proof. apply (second_controller_closed [10; 12] 10 demo_bench); [repeat constructor; lia|lia]. Defined.

Definition demo_keyboard : Keyboard.keyboard_state := Keyboard.mk_kb 0 false false false false false false [5; 0; 7].
Definition note (h : Z) (e : Keyboard.key_event_t) (k : list (Z * Z)) : outcome (list (Z * Z)) := Done (k ++ [(h, Keyboard.keyCode e)]).

(** Shift down, 'a', shift up, 'a' again: both are capitals. *)
Lemma keyboard_modifiers_stick_witness : exists s, key_run (fun _ => Done 0) note [0x1E; 0x2A + 0x80; 0x1E] (Keyboard.set_lshift true demo_keyboard) [] = Done (s, [(5, 65); (7, 65); (5, 65); (7, 65)]) /\
  Keyboard.lshift s = true.
Proof.
  eexists. split; [reflexivity|]. eapply (keyboard_modifiers_stick (fun _ => Done 0) note [0x1E; 0x2A + 0x80; 0x1E] (Keyboard.set_lshift true demo_keyboard) []); reflexivity.
Defined.

(** The key of '[' without shift. *)
Lemma key_press_reported_witness : Keyboard.key_code (fun _ => Fault) note 26 demo_keyboard [] = Done (demo_keyboard, [(5, 123); (7, 123)]).
Proof. destruct (key_press_reported (fun _ => Fault) note 26 demo_keyboard []) as [H _]; [reflexivity|discriminate|discriminate|]. rewrite H by lia. reflexivity. Defined.

Lemma ksleep_ticks_witness : Timer.ksleep 25 7 (Z.of_nat <$> seq 8 5) = Done [10; 11; 12].
Proof. destruct (ksleep_ticks 25 7 5) as [H _]; [lia|lia|]. apply H; [reflexivity|]. change (Z.to_nat (25 / 10 + 1)) with 3%nat. lia. Defined.

Lemma bench_short (b : bench) : (tx_wait b < 2)%nat.
Proof. cbn. destruct (bn_busy b); lia. Qed.
