(* ===== verification/Interrupts.v ===== *)
(** Descriptor tables and the dispatch of interrupts (kernel/arch/amd64/gdt.c
    and idt.c).

    A descriptor is the record of its fields; [gate_target] and [tss_base] are
    what the processor puts together from them.  The functions the dispatch
    calls belong to other components: they are reached through the class
    [TrapTargets] over the machine, so that its theorems hold of any.  The
    interrupt flag and the GS bases are part of the machine; what the stubs of
    idt.S and the processor do between a trap and exception_handler, and behind
    it, is [isr_common], [deliver] and [int_instruction]. *)
From stdpp Require Import base list.
From Stdlib Require Import ZArith Lia.
From S2P Require Import Prelude Signals.

#[local] Open Scope Z_scope.

(** ** The task state segment *)

Module Gdt.
Record tss_descriptor := mk_td {
  limit_low : Z; base_low : Z; base_middle : Z; td_access : Z; td_granularity : Z; base_high : Z; base_top : Z; td_reserved : Z
}.
Record tss_entry := mk_tss { tss_rsp : list Z; tss_ist : list Z; iomap_base : Z }.

(** 4 + 3 * 8 + 8 + 7 * 8 + 8 + 2 + 2 *)
Definition sizeof_tss : Z := 104.

(** The descriptor that start.S left is kept but for the limit and the base;
    [addr] is the address of tss, [stack_top] what lies at that symbol. *)
Definition gdt_install (addr stack_top : Z) (st : tss_descriptor * tss_entry) : outcome (tss_descriptor * tss_entry) :=
  let '(d, t) := st in
  let d := mk_td sizeof_tss (Z.land addr 0xFFFF) (Z.land (Z.shiftr addr 16) 0xFF) (td_access d) (td_granularity d)
             (Z.land (Z.shiftr addr 24) 0xFF) (Z.land (Z.shiftr addr 32) 0xFFFFFFFF) (td_reserved d) in
  rsp ← aset (tss_rsp t) 0 stack_top;
  Done (d, mk_tss rsp (tss_ist t) sizeof_tss).

Definition set_tss_stack (stack : Z) (t : tss_entry) : outcome tss_entry :=
  rsp ← aset (tss_rsp t) 0 stack; Done (mk_tss rsp (tss_ist t) (iomap_base t)).
Definition set_ist (index stack : Z) (t : tss_entry) : outcome tss_entry :=
  ist ← aset (tss_ist t) index stack; Done (mk_tss (tss_rsp t) ist (iomap_base t)).

(** The base that the processor reads. *)
Definition tss_base (d : tss_descriptor) : Z :=
  base_low d + Z.shiftl (base_middle d) 16 + Z.shiftl (base_high d) 24 + Z.shiftl (base_top d) 32.
End Gdt.

(** ** The interrupt descriptor table *)

Module Idt.
Record idt_entry := mk_ie { isr_low : Z; kernel_cs : Z; ist : Z; attributes : Z; isr_mid : Z; isr_high : Z; ie_reserved : Z }.
Definition zero_entry : idt_entry := mk_ie 0 0 0 0 0 0 0.
Record idtr := mk_idtr { idtr_limit : Z; idtr_base : Z }.

Definition with_ist (i : Z) (e : idt_entry) : idt_entry := mk_ie (isr_low e) (kernel_cs e) i (attributes e) (isr_mid e) (isr_high e) (ie_reserved e).

Definition idt_set_descriptor (vector isr flags : Z) (idt : list idt_entry) : outcome (list idt_entry) :=
  aset idt vector (mk_ie (Z.land isr 0xFFFF) 0x08 0 flags (Z.land (Z.shiftr isr 16) 0xFFFF) (Z.land (Z.shiftr isr 32) 0xFFFFFFFF) 0).

(** [isr_stub_table] has 49 entries (idt.S). *)
Definition idt_install (isr_stub_table : list Z) (base : Z) (idt : list idt_entry) : outcome (idtr * list idt_entry) :=
  r ← for_ 48 0 (fun vector idt => isr ← aget isr_stub_table vector; idt ← idt_set_descriptor vector isr 0x8E idt; Done (inl (B := unit) idt)) idt;
  match r with
  | inr _ => Fault
  | inl idt =>
      e ← aget idt 0xD;
      idt ← aset idt 0xD (with_ist 1 e);
      isr ← aget isr_stub_table 48;
      idt ← idt_set_descriptor 0x80 isr (Z.lor 0x8E 0x60) idt;
      Done (mk_idtr (u16 (16 * 256 - 1)) base, idt)
  end.

(** What the processor makes of a gate. *)
Definition gate_target (e : idt_entry) : Z := isr_low e + Z.shiftl (isr_mid e) 16 + Z.shiftl (isr_high e) 32.
Definition gate_dpl (e : idt_entry) : Z := Z.land (Z.shiftr (attributes e) 5) 3.
Definition gate_present (e : idt_entry) : bool := Z.testbit (attributes e) 7.
Definition gate_type (e : idt_entry) : Z := Z.land (attributes e) 0xF.

(** irqHandlers is not indexed with care: an irq from 16 on is outside. *)
Definition irq_install_handler (irq handler : Z) (irqHandlers : list Z) : outcome (list Z) :=
  h ← aget irqHandlers irq;
  if decide (h = 0) then aset irqHandlers irq handler else Done irqHandlers.

Definition irq_install {K} (k : K) : K := k.

(** ** The dispatch *)

(** The interrupt flag, the pair of the two GS bases (GS_BASE, KERNEL_GS_BASE)
    and the rest. *)
Record machine (K : Type) := mk_mc { mc_if : bool; mc_gs : Z * Z; mc_irqs : list Z; mc_kernel : K }.
Arguments mk_mc {K}.
Arguments mc_if {K}.
Arguments mc_gs {K}.
Arguments mc_irqs {K}.
Arguments mc_kernel {K}.

(** The functions of other components: they get the saved registers, which lie
    on the stack and which they may change, and the whole machine, interrupt
    flag and GS bases included. *)
Class TrapTargets (K : Type) := {
  call_irq : Z -> regs_t -> machine K -> outcome (regs_t * machine K);
  call_syscall : regs_t -> machine K -> outcome (regs_t * machine K);
  has_process : K -> bool;
  check_signals : regs_t -> machine K -> outcome (regs_t * machine K)
}.

(** The handler returns to the stub, or the processor stands still. *)
Inductive trap_end (K : Type) := Resumed (regs : regs_t) (m : machine K) | Halted (m : machine K).
Arguments Resumed {K}.
Arguments Halted {K}.

Section Dispatch.
Context {K : Type} `{TT : TrapTargets K}.

Definition with_if (b : bool) (m : machine K) : machine K := mk_mc b (mc_gs m) (mc_irqs m) (mc_kernel m).
Definition cli (m : machine K) : bool * machine K := (mc_if m, with_if false m).
Definition sti (rflags : bool) (m : machine K) : machine K := with_if rflags m.

Definition finish_trap (regs : regs_t) (m : machine K) : outcome (trap_end K) :=
  '(regs, m) ← (if has_process (mc_kernel m) then check_signals regs m else Done (regs, m));
  Done (Resumed regs (sti true m)).

Definition exception_handler (regs : regs_t) (m : machine K) : outcome (trap_end K) :=
  if decide (int_no regs < 32) then
    if decide (int_no regs = 1) then Done (Resumed regs (sti true m)) else Done (Halted (cli m).2)
  else if decide (32 <= int_no regs < 48) then
    h ← aget (mc_irqs m) (int_no regs - 32);
    '(regs, m) ← (if decide (h = 0) then Done (regs, m) else call_irq h regs m);
    finish_trap regs m
  else if decide (int_no regs = 0x80) then
    let m := sti true m in
    '(regs, m) ← call_syscall regs m;
    finish_trap regs m
  else finish_trap regs m.

(** *** The stubs (idt.S) *)

Definition swapgs_if_necessary (regs : regs_t) (m : machine K) : machine K :=
  if decide (cs regs = 8) then m else mk_mc (mc_if m) ((mc_gs m).2, (mc_gs m).1) (mc_irqs m) (mc_kernel m).

(** The end is iretq, which takes the flags from the stack. *)
Definition isr_common (regs : regs_t) (m : machine K) : outcome (trap_end K) :=
  r ← exception_handler regs (swapgs_if_necessary regs m);
  Done (match r with
        | Resumed regs m => Resumed regs (with_if (Z.testbit (rflags regs) 9) (swapgs_if_necessary regs m))
        | Halted m => Halted m
        end).

(** The stub at each place of isr_stub_table: the number it pushes, and
    whether it leaves the error code to the processor. *)
Definition stub_number (i : Z) : Z := if decide (i = 48) then 128 else i.
Definition isr_err_stub (i : Z) : bool := bool_decide (i ∈ [8; 10; 11; 12; 13; 14; 17; 30]).

Definition with_trap (no err : Z) (r : regs_t) : regs_t :=
  mk_regs (r15 r) (r14 r) (r13 r) (r12 r) (r11 r) (r10 r) (r9 r) (r8 r) (rbp r) (rdi r) (rsi r) (rdx r) (rcx r) (rbx r) (rax r)
    no err (rip r) (cs r) (rflags r) (rsp r) (ss r).

(** [pushed]: the error code if the processor has pushed one.  A stub that does
    not fit makes a wrong frame. *)
Definition isr_stub (i : Z) (pushed : option Z) (regs : regs_t) (m : machine K) : outcome (trap_end K) :=
  match pushed, isr_err_stub i with
  | Some code, true => isr_common (with_trap (stub_number i) code regs) m
  | None, false => isr_common (with_trap (stub_number i) 0 regs) m
  | _, _ => Fault
  end.

(** *** The processor *)

(** A trap of a vector: the gate must be present, an interrupt gate clears the
    interrupt flag, and the code at the gate's target runs.  [regs] is the
    interrupted context, the numbers in it are still to be pushed. *)
Definition deliver (table : list Z) (idt : list idt_entry) (vector : Z) (pushed : option Z) (regs : regs_t) (m : machine K) : outcome (trap_end K) :=
  e ← aget idt vector;
  if negb (gate_present e) then Fault
  else
    let m := if decide (gate_type e = 0xE) then with_if false m else m in
    '(i, _) ← of_option (list_find (fun a => a = gate_target e) table);
    isr_stub (Z.of_nat i) pushed regs m.

(** The instruction int: a gate of a lower ring is refused with a general
    protection fault, whose error code names the gate. *)
Definition int_instruction (table : list Z) (idt : list idt_entry) (vector : Z) (regs : regs_t) (m : machine K) : outcome (trap_end K) :=
  e ← aget idt vector;
  if decide (gate_dpl e < Z.land (cs regs) 3) then deliver table idt 13 (Some (8 * vector + 2)) regs m
  else deliver table idt vector None regs m.
End Dispatch.
End Idt.

(** ** Facts *)

Lemma low_part a n : 0 <= n -> a = Z.land a (Z.ones n) + Z.shiftl (Z.shiftr a n) n.
Proof.
  intros Hn. rewrite Z.land_ones, Z.shiftr_div_pow2, Z.shiftl_mul_pow2 by lia. rewrite Z.add_comm, Z.mul_comm. apply Z.div_mod. apply Z.pow_nonzero; lia.
Qed.

Lemma top_part a k n : 0 <= k -> 0 <= n -> 0 <= a < 2 ^ (k + n) -> Z.land (Z.shiftr a k) (Z.ones n) = Z.shiftr a k.
Proof.
  intros Hk Hn Ha. rewrite Z.land_ones, Z.shiftr_div_pow2 by lia. apply Z.mod_small. split; [apply Z.div_pos; lia|].
  apply Z.div_lt_upper_bound; [lia|]. rewrite <-Z.pow_add_r by lia. lia.
Qed.

Section IdtFacts.
Import Idt.

Definition gate (isr flags i : Z) : idt_entry :=
  mk_ie (Z.land isr 0xFFFF) 0x08 i flags (Z.land (Z.shiftr isr 16) 0xFFFF) (Z.land (Z.shiftr isr 32) 0xFFFFFFFF) 0.

Lemma gate_reads_back isr flags i : 0 <= isr < 2 ^ 64 -> gate_target (gate isr flags i) = isr.
Proof.
  intros H. unfold gate_target, gate. cbn [isr_low isr_mid isr_high]. change 0xFFFF with (Z.ones 16). change 0xFFFFFFFF with (Z.ones 32).
  rewrite (top_part isr 32 32) by lia. pose proof (low_part isr 16 ltac:(lia)) as E1. pose proof (low_part (Z.shiftr isr 16) 16 ltac:(lia)) as E2.
  rewrite Z.shiftr_shiftr in E2 by lia. change (16 + 16) with 32 in E2. rewrite !Z.shiftl_mul_pow2 in * by lia. lia.
Qed.

Lemma set_descriptor_done idt v isr flags : 0 <= v < Z.of_nat (length idt) -> idt_set_descriptor v isr flags idt = Done (<[Z.to_nat v := gate isr flags 0]> idt).
Proof. intros H. unfold idt_set_descriptor. by rewrite aset_in_range. Qed.

Lemma install_loop table n : forall i idt, (Z.to_nat i + n <= length table)%nat -> (Z.to_nat i + n <= length idt)%nat -> 0 <= i -> Forall (fun x => 0 <= x < 2 ^ 64) table ->
  exists idt', for_ n i (fun vector idt => isr ← aget table vector; idt ← idt_set_descriptor vector isr 0x8E idt; Done (inl (B := unit) idt)) idt = Done (inl idt') /\
    length idt' = length idt /\ forall v : nat, idt' !! v = if decide (Z.to_nat i <= v < Z.to_nat i + n)%nat then (fun isr => gate isr 0x8E 0) <$> table !! v else idt !! v.
Proof.
  induction n as [|n IH]; intros i idt Ht Hl Hi Hall; cbn [for_].
  - exists idt. split; [done|]. split; [done|]. intros v. by rewrite decide_False by lia.
  - destruct (aget_in_range table i) as (isr & Hg & Hlk); [lia|]. rewrite Hg. cbn [mbind outcome_bind].
    rewrite set_descriptor_done by lia. cbn [mbind outcome_bind].
    destruct (IH (i + 1) (<[Z.to_nat i := gate isr 0x8E 0]> idt)) as (idt' & Hrun & Hlen & Hv); [lia|rewrite length_insert; lia|lia|done|].
    exists idt'. split; [exact Hrun|]. split; [by rewrite Hlen, length_insert|]. intros v. rewrite Hv. destruct (decide (v = Z.to_nat i)) as [->|Hne].
    + rewrite (decide_False (P := (Z.to_nat (i + 1) <= _ < _)%nat)), decide_True by lia. rewrite list_lookup_insert_eq by lia. by rewrite Hlk.
    + rewrite list_lookup_insert_ne by done. destruct (decide (Z.to_nat (i + 1) <= v < Z.to_nat (i + 1) + n)%nat); [by rewrite decide_True by lia|by rewrite decide_False by lia].
Qed.

(** The interrupt table.  With the 49 stubs of idt.S and the table of 256
    entries, idt_install succeeds; the gate of every vector below 48 is present,
    leads to its stub with interrupts off at ring 0 level and runs on the current stack, except
    vector 13, which runs on the first interrupt stack; vector 128 leads to the
    last stub and may be raised from ring 3; every other gate is as before.
    The page fault is vector 14: it has no stack of its own. *)
Theorem idt_install_gates table base idt0 : length table = 49%nat -> length idt0 = 256%nat -> Forall (fun x => 0 <= x < 2 ^ 64) table ->
  exists idt, idt_install table base idt0 = Done (mk_idtr 4095 base, idt) /\
    (forall (v : nat) isr, (v < 48)%nat -> table !! v = Some isr -> exists e, idt !! v = Some e /\ gate_target e = isr /\ gate_present e = true /\ gate_dpl e = 0 /\ gate_type e = 0xE /\
       kernel_cs e = 8 /\ ist e = if decide (v = 13%nat) then 1 else 0) /\
    (exists e isr, idt !! 128%nat = Some e /\ table !! 48%nat = Some isr /\ gate_target e = isr /\ gate_present e = true /\ gate_dpl e = 3 /\ gate_type e = 0xE /\ ist e = 0) /\
    (forall v : nat, (48 <= v)%nat -> v <> 128%nat -> idt !! v = idt0 !! v).
Proof.
  intros Ht Hi Hall. destruct (install_loop table 48 0 idt0) as (idt & Hrun & Hlen & Hv); [lia|lia|done|done|].
  assert (Hb : forall v x, table !! v = Some x -> 0 <= x < 2 ^ 64) by (intros v x Hx; exact (Forall_lookup_1 _ _ _ _ Hall Hx)).
  destruct (lookup_lt_is_Some_2 table 13) as [s13 H13]; [lia|]. destruct (lookup_lt_is_Some_2 table 48) as [s48 H48]; [lia|].
  pose proof (Hv 13%nat) as G13. rewrite decide_True, H13 in G13 by lia. cbn [fmap option_fmap option_map] in G13.
  unfold idt_install. rewrite Hrun. cbn [mbind outcome_bind]. rewrite (proj2 (aget_done idt 13 (gate s13 0x8E 0))) by done. cbn [mbind outcome_bind].
  rewrite aset_in_range by lia. cbn [mbind outcome_bind]. rewrite (proj2 (aget_done table 48 s48)) by done. cbn [mbind outcome_bind].
  rewrite set_descriptor_done by (rewrite length_insert; lia). cbn [mbind outcome_bind]. eexists. split; [done|].
  change (Z.to_nat 0x80) with 128%nat. change (Z.to_nat 13) with 13%nat. split; [|split].
  - intros v isr Hvl Hs. rewrite list_lookup_insert_ne by lia. destruct (decide (v = 13%nat)) as [->|Hne].
    + rewrite list_lookup_insert_eq by lia. eexists. split; [done|]. rewrite H13 in Hs. injection Hs as ->.
      split; [exact (gate_reads_back isr 0x8E 1 (Hb _ _ H13))|done].
    + rewrite list_lookup_insert_ne by done. rewrite Hv, decide_True, Hs by lia. eexists. split; [done|]. split; [apply gate_reads_back; by eapply Hb|done].
  - eexists _, s48. rewrite list_lookup_insert_eq by (rewrite length_insert; lia). split; [done|]. split; [done|].
    split; [exact (gate_reads_back s48 0xEE 0 (Hb _ _ H48))|done].
  - intros v Hge Hne. rewrite !list_lookup_insert_ne by lia. by rewrite Hv, decide_False by lia.
Qed.

(** The handler of a line.  irq_install_handler keeps the first handler of
    a line: a later one is ignored without a word, and the caller is not told;
    the other lines keep theirs. *)
Theorem irq_handler_first irq h1 h2 hs : 0 <= irq < Z.of_nat (length hs) -> hs !! Z.to_nat irq = Some 0 -> h1 <> 0 ->
  exists hs', irq_install_handler irq h1 hs = Done hs' /\ irq_install_handler irq h2 hs' = Done hs' /\ hs' !! Z.to_nat irq = Some h1 /\
    forall i, i <> Z.to_nat irq -> hs' !! i = hs !! i.
Proof.
  intros Hr Hz Hh. exists (<[Z.to_nat irq := h1]> hs). unfold irq_install_handler.
  rewrite (proj2 (aget_done hs irq 0)) by (split; [lia|done]). cbn [mbind outcome_bind]. rewrite decide_True, aset_in_range by done. split; [done|].
  rewrite (proj2 (aget_done (<[Z.to_nat irq := h1]> hs) irq h1)) by (split; [lia|apply list_lookup_insert_eq; lia]). cbn [mbind outcome_bind].
  rewrite decide_False by done. split; [done|]. split; [apply list_lookup_insert_eq; lia|]. intros i Hi. by rewrite list_lookup_insert_ne.
Qed.
End IdtFacts.

Section TrapFacts.
Import Idt.
Context {K : Type} `{TT : TrapTargets K}.
Implicit Types m : machine K.

(** *** The handlers that were installed *)

Fixpoint install_all (installs : list (Z * Z)) (irqHandlers : list Z) : outcome (list Z) :=
  match installs with
  | [] => Done irqHandlers
  | (irq, h) :: l => irqHandlers ← irq_install_handler irq h irqHandlers; install_all l irqHandlers
  end.

(** The first handler of a line, 0 when it has none. *)
Fixpoint first_installed (line : Z) (installs : list (Z * Z)) : Z :=
  match installs with [] => 0 | (irq, h) :: l => if decide (irq = line) then h else first_installed line l end.

Lemma install_all_ok installs : forall hs, length hs = 16%nat -> Forall (fun p => 0 <= p.1 < 16 /\ p.2 <> 0) installs ->
  exists hs', install_all installs hs = Done hs' /\ length hs' = 16%nat /\
    forall (i : nat) h, hs !! i = Some h -> hs' !! i = Some (if decide (h = 0) then first_installed (Z.of_nat i) installs else h).
Proof.
  induction installs as [|[irq h] l IH]; intros hs Hl Hall; cbn [install_all first_installed].
  { exists hs. split; [done|]. split; [done|]. intros i h Hh. rewrite Hh. case_decide; congruence. }
  apply Forall_cons in Hall as [[Hr Hh] Hall]. cbn [fst snd] in *. unfold irq_install_handler.
  destruct (aget_in_range hs irq) as (old & -> & Hold); [lia|]. cbn [mbind outcome_bind]. destruct (decide (old = 0)) as [->|Hne].
  - rewrite aset_in_range by lia. cbn [mbind outcome_bind]. destruct (IH (<[Z.to_nat irq := h]> hs)) as (hs' & Hrun & Hl' & Hs'); [by rewrite length_insert|done|].
    exists hs'. split; [done|]. split; [done|]. intros i x Hx. destruct (decide (i = Z.to_nat irq)) as [->|Hi].
    + rewrite Hold in Hx. injection Hx as <-. rewrite (Hs' _ h) by (apply list_lookup_insert_eq; lia). rewrite decide_False by done.
      by rewrite decide_True, decide_True by (done || lia).
    + rewrite (Hs' _ x) by (by rewrite list_lookup_insert_ne). case_decide; [|done]. by rewrite decide_False by lia.
  - cbn [mbind outcome_bind]. destruct (IH hs Hl Hall) as (hs' & Hrun & Hl' & Hs'). exists hs'. split; [done|]. split; [done|]. intros i x Hx.
    rewrite (Hs' _ x Hx). case_decide as E; [|done]. rewrite decide_False; [done|]. intros ->. rewrite Nat2Z.id in Hold. rewrite Hx in Hold. congruence.
Qed.

(** *** From a vector to exception_handler *)

(** The vectors with which the processor pushes an error code (but 21 and 29,
    which belong to features that are not switched on). *)
Definition has_code (v : Z) : Prop := v ∈ [8; 10; 11; 12; 13; 14; 17; 30].
#[local] Instance has_code_dec v : Decision (has_code v).
Proof. unfold has_code. apply _. Defined.

(** What the handler finds on the stack, and the GS bases: those of the kernel
    are loaded when the trap came from a program. *)
Definition frame_of (v code : Z) (r : regs_t) : regs_t := with_trap v (if decide (has_code v) then code else 0) r.
Definition swapped (r : regs_t) (gs : Z * Z) : Z * Z := if decide (cs r = 8) then gs else (gs.2, gs.1).

(** Behind the work of a trap: the signals of a current process and only then,
    the flags and the GS bases of the context that is resumed. *)
Definition then_signals (x : outcome (regs_t * machine K)) : outcome (trap_end K) :=
  '(r, m) ← x;
  '(r, m) ← (if has_process (mc_kernel m) then check_signals r m else Done (r, m));
  Done (Resumed r (mk_mc (Z.testbit (rflags r) 9) (swapped r (mc_gs m)) (mc_irqs m) (mc_kernel m))).

Lemma swap_swapped r m : swapgs_if_necessary r m = mk_mc (mc_if m) (swapped r (mc_gs m)) (mc_irqs m) (mc_kernel m).
Proof. unfold swapgs_if_necessary, swapped. case_decide; [by destruct m|done]. Qed.

Lemma finish_then_signals r m : (x ← finish_trap r m; Done (match x with
    | Resumed regs m => Resumed regs (with_if (Z.testbit (rflags regs) 9) (swapgs_if_necessary regs m)) | Halted m => Halted m end)) = then_signals (Done (r, m)).
Proof.
  unfold finish_trap, then_signals. cbn [mbind outcome_bind].
  destruct (if has_process (mc_kernel m) then check_signals r m else Done (r, m)) as [[r2 m2]| | |]; try done.
  cbn [mbind outcome_bind]. by rewrite swap_swapped.
Qed.

Lemma then_signals_bind (x : outcome (regs_t * machine K)) : then_signals x = ('(r, m) ← x; then_signals (Done (r, m))).
Proof. by destruct x as [[r m]| | |]. Qed.

(** What a frame with the number of a vector runs. *)
Lemma isr_common_runs v r flag gs hs k : int_no r = v -> 0 <= v < 48 \/ v = 128 -> length hs = 16%nat ->
  isr_common r (mk_mc flag gs hs k) =
    if decide (v = 1) then Done (Resumed r (mk_mc (Z.testbit (rflags r) 9) (swapped r (swapped r gs)) hs k))
    else if decide (v < 32) then Done (Halted (mk_mc false (swapped r gs) hs k))
    else if decide (v = 128) then then_signals (call_syscall r (mk_mc true (swapped r gs) hs k))
    else match hs !! Z.to_nat (v - 32) with
         | Some h => then_signals (if decide (h = 0) then Done (r, mk_mc flag (swapped r gs) hs k) else call_irq h r (mk_mc flag (swapped r gs) hs k))
         | None => Fault
         end.
Proof.
  intros Hno Hv Hl. unfold isr_common. rewrite swap_swapped. cbn [mc_if mc_gs mc_irqs mc_kernel]. unfold exception_handler. rewrite Hno.
  destruct (decide (v = 1)) as [->|H1]; [|destruct (decide (v < 32)) as [H2|H2]; [|destruct (decide (v = 128)) as [->|H3]]].
  - rewrite (decide_True (P := 1 < 32)) by lia. cbn [mbind outcome_bind]. by rewrite swap_swapped.
  - done.
  - cbn. destruct (call_syscall r _) as [[r2 m2]| | |]; try done. cbn [mbind outcome_bind]. apply finish_then_signals.
  - rewrite (decide_True (P := 32 <= v < 48)) by lia. cbn [mc_irqs]. destruct (aget_in_range hs (v - 32)) as (h & -> & ->); [lia|]. cbn [mbind outcome_bind].
    rewrite (then_signals_bind (if decide (h = 0) then _ else _)). destruct (if decide (h = 0) then _ else _) as [[r2 m2]| | |]; try done.
    cbn [mbind outcome_bind]. apply finish_then_signals.
Qed.

(** A gate that leads to the stub of its vector. *)
Lemma deliver_runs table idt v i e a code r m : NoDup table -> idt !! Z.to_nat v = Some e -> 0 <= v -> table !! i = Some a -> gate_target e = a ->
  gate_present e = true -> gate_type e = 0xE -> stub_number (Z.of_nat i) = v -> (has_code v <-> isr_err_stub (Z.of_nat i) = true) ->
  deliver table idt v (if decide (has_code v) then Some code else None) r m = isr_common (frame_of v code r) (with_if false m).
Proof.
  intros Hnd He Hv Ha Ht Hp Hty Hs Hc. unfold deliver. rewrite (proj2 (aget_done idt v e)) by (split; [lia|done]). cbn [mbind outcome_bind]. rewrite Hp. cbn [negb].
  rewrite (decide_True (P := gate_type e = 0xE)) by done.
  assert (list_find (fun x => x = gate_target e) table = Some (i, a)) as ->.
  { apply list_find_Some. split; [done|]. split; [done|]. intros j y Hj Hlt ->. rewrite Ht in Hj. pose proof (NoDup_lookup _ _ _ _ Hnd Ha Hj). lia. }
  cbn [of_option mbind outcome_bind]. unfold isr_stub, frame_of. rewrite Hs. case_decide as E.
  - by rewrite (proj1 Hc E).
  - destruct (isr_err_stub (Z.of_nat i)); [by destruct E; apply Hc|done].
Qed.

Lemma stub_codes (i : nat) : (i < 48)%nat -> has_code (Z.of_nat i) <-> isr_err_stub (Z.of_nat i) = true.
Proof. intros _. unfold isr_err_stub, has_code. by rewrite bool_decide_eq_true. Qed.

(** The interrupt table leads each of its vectors to exception_handler with the
    number of the vector and interrupts off. *)
Lemma installed_delivers stubs base idt0 : length stubs = 49%nat -> NoDup stubs -> Forall (fun x => 0 <= x < 2 ^ 64) stubs -> length idt0 = 256%nat ->
  exists idt, idt_install stubs base idt0 = Done (mk_idtr 4095 base, idt) /\
    (forall v code r m, 0 <= v < 48 \/ v = 128 ->
       deliver stubs idt v (if decide (has_code v) then Some code else None) r m = isr_common (frame_of v code r) (with_if false m)) /\
    (forall v, 0 <= v < 48 -> exists e, aget idt v = Done e /\ gate_dpl e = 0) /\ (exists e, aget idt 128 = Done e /\ gate_dpl e = 3).
Proof.
  intros Hl Hnd Hall Hl0. destruct (idt_install_gates stubs base idt0 Hl Hl0 Hall) as (idt & Hrun & Hlow & (e128 & s48 & H128 & H48 & Hts & Hp & Hd & Hty & _) & _).
  exists idt. split; [done|]. assert (Hg : forall v, 0 <= v < 48 -> exists e a, idt !! Z.to_nat v = Some e /\ stubs !! Z.to_nat v = Some a /\
    gate_target e = a /\ gate_present e = true /\ gate_dpl e = 0 /\ gate_type e = 0xE).
  { intros v Hv. destruct (lookup_lt_is_Some_2 stubs (Z.to_nat v)) as [a Ha]; [lia|]. destruct (Hlow (Z.to_nat v) a) as (e & ? & ? & ? & ? & ? & _); [lia|done|].
    by exists e, a. }
  split; [|split].
  - intros v code r m [Hv| ->].
    + destruct (Hg v Hv) as (e & a & He & Ha & Htg & Hpr & _ & Hgt). apply (deliver_runs stubs idt v (Z.to_nat v) e a); rewrite ?Z2Nat.id by lia; try done; try lia.
      * unfold stub_number. by rewrite decide_False by lia.
      * rewrite <-(Z2Nat.id v) by lia. apply stub_codes. lia.
    + apply (deliver_runs stubs idt 128 48 e128 s48); try done. unfold isr_err_stub, has_code. rewrite bool_decide_eq_true.
      split; intros H; exfalso; repeat (apply elem_of_cons in H as [?|H]; [lia|]); by apply elem_of_nil in H.
  - intros v Hv. destruct (Hg v Hv) as (e & a & He & _ & _ & _ & Hdp & _). exists e. split; [|done]. apply aget_done. split; [lia|done].
  - exists e128. split; [|done]. apply aget_done. split; [lia|done].
Qed.
(** C23: The dispatch of a trap, from the gate to the return.  Let the interrupt
    table be made by idt_install and the handlers be installed in any order.
    Then a trap of vector [v], whatever the interrupt flag was, ends as follows.
    A processor exception other than 1 stops the machine with interrupts off and
    nothing called, whichever ring it came from; exception 1 is passed over.
    Line [i] (vector 32 + i) runs the handler that was installed first for it,
    once, with interrupts off, and nothing when there is none.  Vector 128 runs
    the system call with interrupts on.  Behind these two, with a current
    process and only then, the signals are delivered; then the interrupted
    context goes on with the flag and the GS bases that belong to it.  What is
    called finds the vector (and the error code, if it has one) in the frame
    and the GS base of the kernel loaded, also when the trap came from a program.
    A program that uses the instruction int gets through with 128 only: with
    any of the 48 others it stops the machine. *)
Theorem exception_handler_dispatch stubs base idt0 installs : length stubs = 49%nat -> NoDup stubs -> Forall (fun x => 0 <= x < 2 ^ 64) stubs ->
  length idt0 = 256%nat -> Forall (fun p => 0 <= p.1 < 16 /\ p.2 <> 0) installs ->
  exists idt hs, idt_install stubs base idt0 = Done (mk_idtr 4095 base, idt) /\ install_all installs (replicate 16 0) = Done hs /\
    forall code r flag gs k,
      let trap v := deliver stubs idt v (if decide (has_code v) then Some code else None) r (mk_mc flag gs hs k) in
      let frame v := frame_of v code r in
      let entered b := mk_mc b (swapped r gs) hs k in
      (forall v, 0 <= v < 32 -> v <> 1 -> trap v = Done (Halted (entered false))) /\
      trap 1 = Done (Resumed (frame 1) (mk_mc (Z.testbit (rflags r) 9) gs hs k)) /\
      (forall i, 0 <= i < 16 -> trap (32 + i) =
         let h := first_installed i installs in
         then_signals (if decide (h = 0) then Done (frame (32 + i), entered false) else call_irq h (frame (32 + i)) (entered false))) /\
      trap 128 = then_signals (call_syscall (frame 128) (entered true)) /\
      (Z.land (cs r) 3 = 3 ->
         int_instruction stubs idt 128 r (mk_mc flag gs hs k) = then_signals (call_syscall (frame_of 128 0 r) (entered true)) /\
         forall v, 0 <= v < 48 -> int_instruction stubs idt v r (mk_mc flag gs hs k) = Done (Halted (entered false))).
Proof.
  intros Hl Hnd Hall Hl0 Hin. destruct (installed_delivers stubs base idt0 Hl Hnd Hall Hl0) as (idt & Hrun & Hdel & Hlow & e128 & H128 & Hd128).
  destruct (install_all_ok installs (replicate 16 0)) as (hs & Hhs & Hlh & Hfirst); [done|done|]. exists idt, hs. split; [done|]. split; [done|].
  intros code r flag gs k. cbn zeta.
  assert (Hrun_v : forall v c, 0 <= v < 48 \/ v = 128 -> deliver stubs idt v (if decide (has_code v) then Some c else None) r (mk_mc flag gs hs k) = isr_common (frame_of v c r) (mk_mc false gs hs k))
    by (intros v c Hv; by rewrite Hdel).
  assert (Hsw : forall v c x, swapped (frame_of v c r) x = swapped r x) by done. assert (Hsw2 : swapped r (swapped r gs) = gs) by (unfold swapped; case_decide; by destruct gs).
  assert (Hhalt : forall v c, 0 <= v < 32 -> v <> 1 -> deliver stubs idt v (if decide (has_code v) then Some c else None) r (mk_mc flag gs hs k) = Done (Halted (mk_mc false (swapped r gs) hs k))).
  { intros v c Hv H1. rewrite Hrun_v by lia. rewrite (isr_common_runs v) by (done || lia). by rewrite (decide_False (P := v = 1)), (decide_True (P := v < 32)) by lia. }
  assert (Hsys : forall c, deliver stubs idt 128 (if decide (has_code 128) then Some c else None) r (mk_mc flag gs hs k) = then_signals (call_syscall (frame_of 128 c r) (mk_mc true (swapped r gs) hs k))).
  { intros c. rewrite Hrun_v by lia. rewrite (isr_common_runs 128) by (done || lia). done. }
  split; [intros v Hv H1; by apply Hhalt|]. split; [|split; [|split; [done|]]].
  - rewrite Hrun_v by lia. rewrite (isr_common_runs 1) by (done || lia). rewrite decide_True by done. by rewrite !Hsw, Hsw2.
  - intros i Hi. rewrite Hrun_v by lia. rewrite (isr_common_runs (32 + i)) by (done || lia).
    rewrite (decide_False (P := 32 + i = 1)), (decide_False (P := 32 + i < 32)), (decide_False (P := 32 + i = 128)) by lia. replace (32 + i - 32) with i by lia.
    rewrite (Hfirst (Z.to_nat i) 0) by (apply lookup_replicate; split; [done|lia]). rewrite (decide_True (P := (0 : Z) = 0)) by done. by rewrite Z2Nat.id by lia.
  - intros Hring. unfold int_instruction. rewrite H128. cbn [mbind outcome_bind]. rewrite Hd128, Hring. split; [exact (Hsys 0)|].
    intros v Hv. destruct (Hlow v Hv) as (e & -> & Hd). cbn [mbind outcome_bind]. rewrite Hd. apply (Hhalt 13); lia.
Qed.
End TrapFacts.

(** The task state segment.  After gdt_install the processor reads the
    address of tss back from the descriptor's four parts, and the ring 0 stack
    is the one given; access rights and granularity are kept. *)
Theorem gdt_install_base addr stack d t : 0 <= addr < 2 ^ 64 -> length (Gdt.tss_rsp t) = 3%nat ->
  exists d' t', Gdt.gdt_install addr stack (d, t) = Done (d', t') /\ Gdt.tss_base d' = addr /\ Gdt.limit_low d' = Gdt.sizeof_tss /\
    Gdt.td_access d' = Gdt.td_access d /\ Gdt.td_granularity d' = Gdt.td_granularity d /\
    Gdt.tss_rsp t' !! 0%nat = Some stack /\ Gdt.tss_ist t' = Gdt.tss_ist t.
Proof.
  intros Ha Hl. unfold Gdt.gdt_install. rewrite aset_in_range by lia. cbn [mbind outcome_bind]. eexists _, _. split; [done|].
  split; [|split; [done|split; [done|split; [done|split; [apply list_lookup_insert_eq; lia|done]]]]].
  unfold Gdt.tss_base. cbn [Gdt.base_low Gdt.base_middle Gdt.base_high Gdt.base_top]. change 0xFFFF with (Z.ones 16). change 0xFF with (Z.ones 8). change 0xFFFFFFFF with (Z.ones 32).
  rewrite (top_part addr 32 32) by lia. pose proof (low_part addr 16 ltac:(lia)) as E1. pose proof (low_part (Z.shiftr addr 16) 8 ltac:(lia)) as E2.
  pose proof (low_part (Z.shiftr addr 24) 8 ltac:(lia)) as E3. rewrite Z.shiftr_shiftr in E2, E3 by lia. change (16 + 8) with 24 in E2. change (24 + 8) with 32 in E3.
  rewrite !Z.shiftl_mul_pow2 in * by lia. lia.
Qed.

(** ** Examples *)

Definition demo_stubs : list Z := (fun i => 0x200000 + 16 * Z.of_nat i) <$> seq 0 49.

(** A kernel that notes what it is asked to do, and with which interrupt flag. *)
Definition note (x : Z) (r : regs_t) (m : Idt.machine (list (Z * bool))) : outcome (regs_t * Idt.machine (list (Z * bool))) :=
  Done (r, Idt.mk_mc (Idt.mc_if m) (Idt.mc_gs m) (Idt.mc_irqs m) (Idt.mc_kernel m ++ [(x, Idt.mc_if m)])).
#[local] Instance noting : Idt.TrapTargets (list (Z * bool)) := {|
  Idt.call_irq := fun h r m => note h r m;
  Idt.call_syscall := fun r m => note (1000 + rax r) r m;
  Idt.has_process := fun _ => true;
  Idt.check_signals := fun r m => note 9 r m
|}.

(** A program that was interrupted, with its interrupt flag set. *)
Definition demo_regs : regs_t := mk_regs 0 0 0 0 0 0 0 0 0 0 0 0 0 0 39 0 0 0x400000 0x1b 0x202 0 0x23.

Lemma exception_handler_dispatch_witness : exists idt hs,
  Idt.idt_install demo_stubs 0x9000 (replicate 256 Idt.zero_entry) = Done (Idt.mk_idtr 4095 0x9000, idt) /\
  install_all [(0, 77); (11, 500); (0, 78)] (replicate 16 0) = Done hs /\
  Idt.deliver demo_stubs idt 32 None demo_regs (Idt.mk_mc true (1, 2) hs []) =
    Done (Idt.Resumed (frame_of 32 0 demo_regs) (Idt.mk_mc true (1, 2) hs [(77, false); (9, false)])) /\
  Idt.int_instruction demo_stubs idt 128 demo_regs (Idt.mk_mc true (1, 2) hs []) =
    Done (Idt.Resumed (frame_of 128 0 demo_regs) (Idt.mk_mc true (1, 2) hs [(1039, true); (9, true)])) /\
  Idt.deliver demo_stubs idt 14 (Some 6) demo_regs (Idt.mk_mc true (1, 2) hs []) = Done (Idt.Halted (Idt.mk_mc false (2, 1) hs [])) /\
  Idt.int_instruction demo_stubs idt 32 demo_regs (Idt.mk_mc true (1, 2) hs []) = Done (Idt.Halted (Idt.mk_mc false (2, 1) hs [])).
Proof.
  destruct (exception_handler_dispatch demo_stubs 0x9000 (replicate 256 Idt.zero_entry) [(0, 77); (11, 500); (0, 78)]) as (idt & hs & H1 & H2 & H).
  - reflexivity.
  - apply (bool_decide_unpack _). vm_compute. reflexivity.
  - repeat constructor; lia.
  - reflexivity.
  - repeat constructor; cbn; lia.
  - exists idt, hs. split; [exact H1|]. split; [exact H2|]. split; [|split; [|split]].
    + destruct (H 0 demo_regs true (1, 2) []) as (_ & _ & Hirq & _). exact (Hirq 0 ltac:(lia)).
    + destruct (H 0 demo_regs true (1, 2) []) as (_ & _ & _ & _ & Hint). exact (proj1 (Hint eq_refl)).
    + destruct (H 6 demo_regs true (1, 2) []) as (Hex & _). exact (Hex 14 ltac:(lia) ltac:(lia)).
    + destruct (H 0 demo_regs true (1, 2) []) as (_ & _ & _ & _ & Hint). exact (proj2 (Hint eq_refl) 32 ltac:(lia)).
Defined.

Lemma idt_install_gates_witness : exists idt, Idt.idt_install demo_stubs 0x9000 (replicate 256 Idt.zero_entry) = Done (Idt.mk_idtr 4095 0x9000, idt) /\
  exists e, idt !! 14%nat = Some e /\ Idt.gate_target e = 0x2000e0 /\ Idt.ist e = 0.
Proof.
  destruct (idt_install_gates demo_stubs 0x9000 (replicate 256 Idt.zero_entry)) as (idt & Hr & Hg & _); [reflexivity|reflexivity|repeat constructor; lia|].
  exists idt. split; [exact Hr|]. destruct (Hg 14%nat 0x2000e0) as (e & He & Ht & _ & _ & _ & _ & Hi); [lia|reflexivity|]. by exists e.
Defined.

Lemma irq_handler_first_witness : exists hs', Idt.irq_install_handler 11 500 (replicate 16 0) = Done hs' /\ Idt.irq_install_handler 11 600 hs' = Done hs' /\ hs' !! 11%nat = Some 500.
Proof.
  destruct (irq_handler_first 11 500 600 (replicate 16 0)) as (hs' & H1 & H2 & H3 & _); [cbn; lia|reflexivity|lia|]. by exists hs'.
Defined.

Lemma gdt_install_base_witness : exists d' t', Gdt.gdt_install 0xffffff8000123450 0x7000 (Gdt.mk_td 0 0 0 0x89 0 0 0 0, Gdt.mk_tss [0; 0; 0] (replicate 7 0) 0) = Done (d', t') /\
  Gdt.tss_base d' = 0xffffff8000123450.
Proof.
  destruct (gdt_install_base 0xffffff8000123450 0x7000 (Gdt.mk_td 0 0 0 0x89 0 0 0 0) (Gdt.mk_tss [0; 0; 0] (replicate 7 0) 0)) as (d' & t' & H1 & H2 & _); [lia|reflexivity|].
  by exists d', t'.
Defined.
