(* ===== verification/Terminal.v ===== *)
(** kernel/kernel.c: the terminal and the kernel's printf.

    In text mode the screen is the list of its 80 x 25 cells; in framebuffer
    mode glyphs are drawn by ssfn_putc, a third-party function and so a
    parameter, into the back buffer that terminal_swap copies to the screen.
    [ssfn_dst] is the drawing state of that library; the variable [buf] of the
    file is only written by code that is not compiled and stays zero.  printf
    and serial_printf are one loop over a sink; their texts are those of
    [krenders]. *)
From stdpp Require Import base list.
From Stdlib Require Import ZArith Lia.
From S2P Require Import Prelude Format Ports.

#[local] Open Scope Z_scope.

(** ** The state *)

Definition VGA_WIDTH : Z := 80.
Definition VGA_HEIGHT : Z := 25.
Definition VGA_COLOR_BLACK : Z := 0.
Definition VGA_COLOR_LIGHT_GREY : Z := 7.

Definition vga_entry_color (fg bg : Z) : Z := u8 (Z.lor fg (Z.shiftl bg 4)).
Definition vga_entry (uc color : Z) : Z := u16 (Z.lor (u8 uc) (Z.shiftl color 8)).

Record ssfn_buf := mk_sb { d_w : Z; d_h : Z; d_p : Z; d_x : Z; d_y : Z; d_fg : Z; d_bg : Z }.

(** terminal_width and terminal_height are never written. *)
Record terminal := mk_term {
  use_framebuffer : bool;
  terminal_row : Z; terminal_column : Z; terminal_width : Z; terminal_height : Z;
  char_width : Z; terminal_color : Z;
  cells : list Z;
  front : list Z; back_buffer : list Z;
  ssfn_dst : ssfn_buf; font_height : Z
}.

Definition set_pos (row col : Z) (t : terminal) : terminal :=
  mk_term (use_framebuffer t) row col (terminal_width t) (terminal_height t) (char_width t) (terminal_color t) (cells t) (front t) (back_buffer t) (ssfn_dst t) (font_height t).
Definition set_cells (c : list Z) (t : terminal) : terminal :=
  mk_term (use_framebuffer t) (terminal_row t) (terminal_column t) (terminal_width t) (terminal_height t) (char_width t) (terminal_color t) c (front t) (back_buffer t) (ssfn_dst t) (font_height t).
Definition set_color (c : Z) (t : terminal) : terminal :=
  mk_term (use_framebuffer t) (terminal_row t) (terminal_column t) (terminal_width t) (terminal_height t) (char_width t) c (cells t) (front t) (back_buffer t) (ssfn_dst t) (font_height t).
Definition set_front (f : list Z) (t : terminal) : terminal :=
  mk_term (use_framebuffer t) (terminal_row t) (terminal_column t) (terminal_width t) (terminal_height t) (char_width t) (terminal_color t) (cells t) f (back_buffer t) (ssfn_dst t) (font_height t).
Definition set_drawing (d : ssfn_buf) (b : list Z) (t : terminal) : terminal :=
  mk_term (use_framebuffer t) (terminal_row t) (terminal_column t) (terminal_width t) (terminal_height t) (char_width t) (terminal_color t) (cells t) (front t) b d (font_height t).
Definition set_pen (x y : Z) (d : ssfn_buf) : ssfn_buf := mk_sb (d_w d) (d_h d) (d_p d) x y (d_fg d) (d_bg d).
Definition set_bg (bg : Z) (d : ssfn_buf) : ssfn_buf := mk_sb (d_w d) (d_h d) (d_p d) (d_x d) (d_y d) (d_fg d) bg.

(** ssfn_putc: the error code and what it drew. *)
Class Ssfn := { ssfn_putc : Z -> ssfn_buf * list Z -> Z * (ssfn_buf * list Z) }.

(** ** wc_memcpy

    Eight bytes at a time: four words in a round, all read before they are
    written, then the rest one by one; a rest of fewer than eight bytes is not
    copied. *)

Definition qword_at (s : list Z) (i : Z) : outcome (list Z) :=
  if decide (0 <= i /\ 8 * i + 8 <= Z.of_nat (length s)) then Done (take 8 (drop (Z.to_nat (8 * i)) s)) else Fault.
Definition put_word (d : list Z) (i : Z) (w : list Z) : outcome (list Z) :=
  if decide (0 <= i /\ 8 * i + 8 <= Z.of_nat (length d)) then Done (overwrite d (8 * i) w) else Fault.

Definition wc_group (s : list Z) (st : Z * Z * list Z) : outcome ((Z * Z * list Z) + (Z * Z * list Z)) :=
  let '(count, i, d) := st in
  if decide (4 <= count) then
    v1 ← qword_at s i; v2 ← qword_at s (i + 1); v3 ← qword_at s (i + 2); v4 ← qword_at s (i + 3);
    d ← put_word d i v1; d ← put_word d (i + 1) v2; d ← put_word d (i + 2) v3; d ← put_word d (i + 3) v4;
    Done (inl (count - 4, i + 4, d))
  else Done (inr (count, i, d)).
Definition wc_word (s : list Z) (i : Z) (d : list Z) : outcome (list Z + unit) := v ← qword_at s i; d ← put_word d i v; Done (inl d).
Definition wc_memcpy (fuel : nat) (d s : list Z) (n : Z) : outcome (list Z) :=
  '(count, i, d) ← loop fuel (wc_group s) (n / 8, 0, d);
  r ← for_ (Z.to_nat count) i (wc_word s) d;
  match r with inl d => Done d | inr _ => Fault end.

Section Terminal.
Context `{SF : Ssfn}.
(** The fuel of wc_memcpy. *)
Context (fuel : nat).

(** ** Text mode *)

Definition terminal_putentryat (c color x y : Z) (t : terminal) : outcome terminal :=
  if decide (c = 10) then Done t
  else l ← aset (cells t) (y * VGA_WIDTH + x) (vga_entry c color); Done (set_cells l t).

(** [for(x = 0; x < VGA_WIDTH; x++) terminal_buffer[y * VGA_WIDTH + x] = blank] *)
Definition blank_row (y : Z) (t : terminal) : outcome terminal :=
  r ← for_ 80 0 (fun x l => l ← aset l (y * VGA_WIDTH + x) (vga_entry 32 (terminal_color t)); Done (inl (B := unit) l)) (cells t);
  match r with inl l => Done (set_cells l t) | inr _ => Fault end.

(** The body of terminal_rollover in text mode: the framebuffer branch is not
    compiled. *)
Definition terminal_rollover (t : terminal) : outcome terminal :=
  if use_framebuffer t then Done t
  else
    r ← for_ 24 1 (fun y l =>
      for_ 80 0 (fun x l => v ← aget l (y * VGA_WIDTH + x); l ← aset l ((y - 1) * VGA_WIDTH + x) v; Done (inl (B := unit) l)) l) (cells t);
    match r with inl l => blank_row 24 (set_cells l t) | inr _ => Fault end.

Definition clear_cells (t : terminal) : outcome terminal :=
  r ← for_ 25 0 (fun y t => t ← blank_row y t; Done (inl (B := unit) t)) t;
  match r with inl t => Done t | inr _ => Fault end.

(** ** The terminal calls *)

(** [zeroed] is the calloc'ed back buffer. *)
Definition terminal_initialize (sizeX sizeY bytesPerLine : Z) (t : terminal) : outcome terminal :=
  if use_framebuffer t then
    Done (set_drawing (mk_sb sizeX sizeY (u16 bytesPerLine) 0 0 0xFFFFFFFF 0) (replicate (Z.to_nat (u64 (s32 (sizeY * bytesPerLine)))) 0) (set_color 0 (set_pos 0 0 t)))
  else clear_cells (set_color (vga_entry_color VGA_COLOR_LIGHT_GREY VGA_COLOR_BLACK) (set_pos 0 0 t)).

Definition terminal_setcolor (color : Z) (t : terminal) : terminal := set_color (u8 color) t.

Definition terminal_swap (t : terminal) : outcome terminal :=
  if use_framebuffer t then
    f ← wc_memcpy fuel (front t) (back_buffer t) (s32 (d_h (ssfn_dst t) * d_p (ssfn_dst t))); Done (set_front f t)
  else Done t.

Definition draw (c : Z) (t : terminal) : terminal :=
  let '(_, (d, b)) := ssfn_putc c (ssfn_dst t, back_buffer t) in set_drawing d b t.

(** A negative result of ssfn_putc is reported on the serial line. *)
Definition terminal_putchar (c : Z) (t : terminal) : outcome terminal :=
  if use_framebuffer t then
    if decide (c = 8) then
      let x := s32 (d_x (ssfn_dst t) - char_width t) in
      let '(x, y) := if decide (x < 0) then (0, let y := s32 (d_y (ssfn_dst t) - font_height t) in if decide (y < 0) then 0 else y) else (x, d_y (ssfn_dst t)) in
      Done (set_drawing (set_pen x y (ssfn_dst t)) (back_buffer t) t)
    else if decide (c = 7) then Done t
    else if decide (c = 32) then
      let t := draw 32 (set_drawing (set_bg 0xFF000000 (ssfn_dst t)) (back_buffer t) t) in
      Done (set_drawing (set_bg 0 (ssfn_dst t)) (back_buffer t) t)
    else Done (draw (u32 (s8 c)) t)
  else
    t ← terminal_putentryat c (terminal_color t) (terminal_column t) (terminal_row t) t;
    let t := set_pos (terminal_row t) (u64 (terminal_column t + 1)) t in
    if decide (terminal_column t = VGA_WIDTH \/ c = 10) then
      let t := set_pos (u64 (terminal_row t + 1)) 0 t in
      if decide (terminal_row t = VGA_HEIGHT) then t ← terminal_rollover t; Done (set_pos (VGA_HEIGHT - 1) (terminal_column t) t)
      else Done t
    else Done t.

(** print, and the loop of terminal_write. *)
Fixpoint print (data : list Z) (t : terminal) : outcome terminal :=
  match data with [] => Done t | c :: data => t ← terminal_putchar c t; print data t end.

Definition terminal_write (data : list Z) (t : terminal) : outcome terminal := t ← print data t; terminal_swap t.
Definition terminal_writestring (data : list Z) (t : terminal) : outcome terminal := len ← str_len data; terminal_write (take (Z.to_nat len) data) t.

(** In framebuffer mode the size is that of the variable [buf], which is zero. *)
Definition terminal_clear (t : terminal) : outcome terminal :=
  if use_framebuffer t then terminal_swap t else clear_cells t.

Definition terminal_setcursor (x y : Z) (t : terminal) : outcome terminal :=
  if use_framebuffer t then
    if decide (terminal_width t = 0 \/ terminal_height t = 0) then Fault
    else Done (set_drawing (set_pen (s32 (u64 (d_w (ssfn_dst t)) / terminal_width t * x)) (s32 (u64 (d_h (ssfn_dst t)) / terminal_height t * y)) (ssfn_dst t)) (back_buffer t) t)
  else Done (set_pos (u64 y) (u64 x) t).

Definition terminal_resetline (t : terminal) : outcome terminal :=
  if use_framebuffer t then
    let t := set_drawing (set_bg 0xFF000000 (set_pen 0 (d_y (ssfn_dst t)) (ssfn_dst t))) (back_buffer t) t in
    r ← for_ (Z.to_nat (d_p (ssfn_dst t))) 0 (fun _ t => Done (inl (B := unit) (draw 32 t))) t;
    match r with
    | inl t => Done (set_drawing (set_pen 0 (d_y (ssfn_dst t)) (set_bg 0 (ssfn_dst t))) (back_buffer t) t)
    | inr _ => Fault
    end
  else blank_row (terminal_row t) (set_pos (terminal_row t) 0 t).
End Terminal.

(** ** printf

    The local [buf] of 255 bytes is [scratch] before itoa_k fills it. *)

Definition itoa_k (fuel : nat) (buf : list Z) (base d : Z) : outcome (list Z) := long_to_str fuel d buf base.

Section Printf.
Context {S : Type} (emit : list Z -> S -> outcome S) (swap : S -> outcome S) (scratch : list Z).

Definition kprintf_step (st : list Z * list arg * Z * S) : outcome ((list Z * list arg * Z * S) + (Z * S)) :=
  let '(format, args, written, s) := st in
  c ← deref format;
  if decide (c = 0) then s ← swap s; Done (inr (written, s))
  else
    let maxrem := u64 (INT_MAX - written) in
    c1 ← (if decide (c <> 37) then Done 0 else deref (tail format));
    if decide (c <> 37 \/ c1 = 37) then
      let format := if decide (c = 37) then tail format else format in
      n ← run_length (tail format);
      let amount := n + 1 in
      if decide (maxrem < amount) then Done (inr (-1, s))
      else s ← emit (take (Z.to_nat amount) format) s; Done (inl (drop (Z.to_nat amount) format, args, s32 (written + amount), s))
    else
      let begun := format in
      let format := tail format in
      if decide (c1 = 99) then
        '(ch, args) ← va_char args;
        if decide (maxrem = 0) then s ← swap s; Done (inr (-1, s))
        else s ← emit [ch] s; Done (inl (tail format, args, s32 (written + 1), s))
      else if decide (c1 = 115) then
        '(str, args) ← va_str args;
        len ← str_len str;
        if decide (maxrem < len) then s ← swap s; Done (inr (-1, s))
        else s ← emit (take (Z.to_nat len) str) s; Done (inl (tail format, args, s32 (written + len), s))
      else if decide (c1 = 100 \/ c1 = 120 \/ c1 = 117) then
        '(i, args) ← va_long args;
        if decide (maxrem = 0) then Done (inr (-1, s))
        else
          buf ← itoa_k 22 scratch c1 i;
          len ← str_len buf;
          s ← emit (take (Z.to_nat len) buf) s; Done (inl (tail format, args, s32 (written + len), s))
      else
        len ← str_len begun;
        if decide (maxrem < len) then s ← swap s; Done (inr (-1, s))
        else s ← emit (take (Z.to_nat len) begun) s; Done (inl (drop (Z.to_nat len) begun, args, s32 (written + len), s)).

Definition kprintf (fuel : nat) (format : list Z) (args : list arg) (s : S) : outcome (Z * S) := loop fuel kprintf_step (format, args, 0, s).
End Printf.

Section Sinks.
Context {B : Type} `{PB : PortBus B} `{SF : Ssfn}.
Context (fuel : nat) (scratch : list Z).

(** print, then serial_print, of the same bytes. *)
Definition emit_both (data : list Z) (s : terminal * B) : outcome (terminal * B) :=
  t ← print data s.1; b ← Serial.serial_print fuel data s.2; Done (t, b).
Definition swap_both (s : terminal * B) : outcome (terminal * B) := t ← terminal_swap fuel s.1; Done (t, s.2).

(** The kernel's own printf; it hides the one of libc. *)
Definition printf_k (n : nat) (format : list Z) (args : list arg) (s : terminal * B) : outcome (Z * (terminal * B)) :=
  kprintf emit_both swap_both scratch n format args s.
Definition serial_printf (n : nat) (format : list Z) (args : list arg) (b : B) : outcome (Z * B) :=
  kprintf (Serial.serial_print fuel) Done scratch n format args b.
End Sinks.

(** ** Facts on text mode *)

(** A page of any number of finished rows and the row being written. *)
Definition page : Type := list (list Z) * list Z.

(** The reference: a row ends at a line feed or with its 80th cell. *)
Definition type_char (color : Z) (p : page) (c : Z) : page :=
  if decide (c = 10) then (p.1 ++ [p.2], [])
  else let row := p.2 ++ [vga_entry c color] in
    if decide (length row = 80%nat) then (p.1 ++ [row], []) else (p.1, row).
Definition layout (color : Z) (data : list Z) : page := foldl (type_char color) ([], []) data.

(** The last 25 rows, and a cell of them. *)
Definition shown_rows (p : page) : list (list Z) := drop (length p.1 - 24) p.1 ++ [p.2].
Definition shown_cell (blank : Z) (p : page) (r c : nat) : Z :=
  match shown_rows p !! r with Some row => default blank (row !! c) | None => blank end.

Definition blank_of (t : terminal) : Z := vga_entry 32 (terminal_color t).

Record shows (p : page) (t : terminal) : Prop := {
  sh_mode : use_framebuffer t = false;
  sh_len : length (cells t) = 2000%nat;
  sh_row : terminal_row t = Z.of_nat (Nat.min (length p.1) 24);
  sh_col : terminal_column t = Z.of_nat (length p.2);
  sh_short : (length p.2 < 80)%nat;
  sh_cells : forall r c, (r < 25)%nat -> (c < 80)%nat -> cells t !! (80 * r + c)%nat = Some (shown_cell (blank_of t) p r c)
}.

Lemma cell_index r c r' c' : (c < 80)%nat -> (c' < 80)%nat -> (80 * r + c = 80 * r' + c')%nat -> r = r' /\ c = c'.
Proof. lia. Qed.

Section RowLoops.
Context (t : terminal).

(** One row blanked. *)
Lemma blank_row_ok y : length (cells t) = 2000%nat -> 0 <= y < 25 ->
  exists l, blank_row y t = Done (set_cells l t) /\ length l = 2000%nat /\
    forall r c, (c < 80)%nat -> l !! (80 * r + c)%nat = if decide (r = Z.to_nat y) then Some (blank_of t) else cells t !! (80 * r + c)%nat.
Proof.
  intros Hl Hy. unfold blank_row.
  destruct (for_total (A := unit) (fun x l => length l = 2000%nat /\ forall r c, (c < 80)%nat -> l !! (80 * r + c)%nat = if decide (r = Z.to_nat y /\ (c < Z.to_nat x)%nat) then Some (blank_of t) else cells t !! (80 * r + c)%nat)
    80 0 (fun x l => l ← aset l (y * VGA_WIDTH + x) (vga_entry 32 (terminal_color t)); Done (inl (B := unit) l)) (cells t)) as (l & Hrun & Hlen & Hv).
  - intros x l Hx [Hlen Hv]. unfold VGA_WIDTH. rewrite aset_in_range by lia. cbn [mbind outcome_bind]. eexists. split; [done|]. split; [by rewrite length_insert|].
    intros r c Hc. replace (Z.to_nat (y * 80 + x)) with (80 * Z.to_nat y + Z.to_nat x)%nat by lia.
    destruct (decide (r = Z.to_nat y /\ c = Z.to_nat x)) as [[-> ->]|Hne].
    + rewrite list_lookup_insert_eq by lia. by rewrite decide_True by lia.
    + rewrite list_lookup_insert_ne by (intros E; apply Hne; apply cell_index in E; lia). rewrite Hv by done.
      destruct (decide (r = Z.to_nat y /\ (c < Z.to_nat x)%nat)); [by rewrite decide_True by lia|by rewrite decide_False by lia].
  - split; [done|]. intros r c _. by rewrite decide_False by lia.
  - rewrite Hrun. cbn [mbind outcome_bind]. exists l. split; [done|]. split; [done|]. intros r c Hc. rewrite Hv by done.
    destruct (decide (r = Z.to_nat y)); [by rewrite decide_True by lia|by rewrite decide_False by tauto].
Qed.
End RowLoops.

(** Terminal_rollover moves every row up and blanks the last. *)
Lemma rollover_ok t : use_framebuffer t = false -> length (cells t) = 2000%nat ->
  exists l, terminal_rollover t = Done (set_cells l t) /\ length l = 2000%nat /\
    forall r c, (r < 25)%nat -> (c < 80)%nat -> l !! (80 * r + c)%nat = if decide (r = 24%nat) then Some (blank_of t) else cells t !! (80 * S r + c)%nat.
Proof.
  intros Hm Hl. unfold terminal_rollover. rewrite Hm. set (old := cells t) in *.
  set (moved := fun (y x : Z) (l : list Z) => length l = 2000%nat /\
    forall k, l !! k = if decide (k < Z.to_nat (80 * (y - 1) + x))%nat then old !! (k + 80)%nat else old !! k).
  destruct (for_total (A := unit) (fun y l => moved y 0 l) 24 1
    (fun y l => for_ 80 0 (fun x l => v ← aget l (y * VGA_WIDTH + x); l ← aset l ((y - 1) * VGA_WIDTH + x) v; Done (inl (B := unit) l)) l) old) as (l & Hrun & Hlen & Hv).
  - intros y l Hy Hmv. destruct (for_total (A := unit) (fun x l => moved y x l) 80 0
      (fun x l => v ← aget l (y * VGA_WIDTH + x); l ← aset l ((y - 1) * VGA_WIDTH + x) v; Done (inl (B := unit) l)) l) as (l2 & Hrun & Hmv2).
    + intros x l1 Hx [Hlen Hv]. unfold VGA_WIDTH. destruct (aget_in_range l1 (y * 80 + x)) as (v & Hg & Hlk); [lia|]. rewrite Hg. cbn [mbind outcome_bind].
      rewrite aset_in_range by lia. cbn [mbind outcome_bind]. eexists. split; [done|]. split; [by rewrite length_insert|]. intros k.
      rewrite Hv in Hlk. rewrite decide_False in Hlk by lia. destruct (decide (k = Z.to_nat ((y - 1) * 80 + x))) as [->|Hne].
      * rewrite list_lookup_insert_eq by lia. rewrite decide_True by lia. rewrite <-Hlk. f_equal. lia.
      * rewrite list_lookup_insert_ne by done. rewrite Hv. destruct (decide (k < Z.to_nat (80 * (y - 1) + x))%nat); [by rewrite decide_True by lia|by rewrite decide_False by lia].
    + done.
    + exists l2. split; [exact Hrun|]. unfold moved in *. destruct Hmv2 as [? Hv2]. split; [done|]. intros k. rewrite Hv2. by replace (80 * (y - 1) + (0 + Z.of_nat 80)) with (80 * (y + 1 - 1) + 0) by lia.
  - split; [done|]. intros k. by rewrite decide_False by lia.
  - rewrite Hrun. cbn [mbind outcome_bind]. destruct (blank_row_ok (set_cells l t) 24) as (l2 & Hb & Hlen2 & Hv2); [done|lia|].
    rewrite Hb. exists l2. split; [done|]. split; [done|]. intros r c Hr Hc. rewrite Hv2 by done. change (Z.to_nat 24) with 24%nat.
    destruct (decide (r = 24%nat)); [done|]. cbn [cells set_cells]. rewrite Hv, decide_True by lia. f_equal. lia.
Qed.

(** ** The page *)

Lemma shown_scroll (p : page) row : (24 <= length p.1)%nat -> forall r, (r < 24)%nat -> shown_rows (p.1 ++ [row], []) !! r = (drop (length p.1 - 24) p.1 ++ [row]) !! S r.
Proof.
  intros Hp r Hr. unfold shown_rows. cbn [fst snd]. rewrite length_app. cbn [length]. replace (length p.1 + 1 - 24)%nat with (S (length p.1 - 24)) by lia.
  rewrite lookup_app_l by (rewrite length_drop, length_app; cbn; lia). rewrite <-(drop_app_le p.1 [row]) by lia. rewrite !lookup_drop. f_equal. lia.
Qed.

(** A row without further cells. *)
Lemma shown_last blank (p : page) r c : (Nat.min (length p.1) 24 <= r)%nat -> shown_cell blank p r c = if decide (r = Nat.min (length p.1) 24) then default blank (p.2 !! c) else blank.
Proof.
  intros Hr. unfold shown_cell, shown_rows. assert (Hl : length (drop (length p.1 - 24) p.1) = Nat.min (length p.1) 24) by (rewrite length_drop; lia).
  rewrite lookup_app_r by lia. rewrite Hl. destruct (decide (r = _)) as [->|Hne]; [by rewrite Nat.sub_diag|].
  destruct (r - Nat.min (length p.1) 24)%nat as [|n] eqn:E; [lia|]. done.
Qed.

Lemma shown_before blank (p : page) r c : (r < Nat.min (length p.1) 24)%nat -> shown_cell blank p r c = match drop (length p.1 - 24) p.1 !! r with Some row => default blank (row !! c) | None => blank end.
Proof. intros Hr. unfold shown_cell, shown_rows. rewrite lookup_app_l; [done|]. rewrite length_drop. lia. Qed.

(** The cell of a character. *)
Lemma write_cell p t c t' : shows p t -> c <> 10 -> terminal_putentryat c (terminal_color t) (terminal_column t) (terminal_row t) t = Done t' ->
  forall r k, (r < 25)%nat -> (k < 80)%nat -> cells t' !! (80 * r + k)%nat = Some (shown_cell (blank_of t) (p.1, p.2 ++ [vga_entry c (terminal_color t)]) r k).
Proof.
  intros [Hm Hl Hr Hc Hs Hv] Hne. unfold terminal_putentryat. rewrite decide_False by done. rewrite Hr, Hc. unfold VGA_WIDTH.
  rewrite aset_in_range by lia. cbn [mbind outcome_bind]. intros [= <-] r k Hrr Hk. cbn [cells set_cells].
  set (row := Nat.min (length p.1) 24) in *. replace (Z.to_nat (Z.of_nat row * 80 + Z.of_nat (length p.2))) with (80 * row + length p.2)%nat by lia.
  destruct (decide (r = row)) as [->|Hrow].
  - rewrite shown_last by done. cbn [fst snd]. fold row. rewrite decide_True by done. destruct (decide (k = length p.2)) as [->|Hkk].
    + rewrite list_lookup_insert_eq by lia. by rewrite list_lookup_middle.
    + rewrite list_lookup_insert_ne by lia. rewrite Hv by done. rewrite shown_last by done. fold row. rewrite decide_True by done. f_equal.
      destruct (decide (k < length p.2)%nat); [by rewrite lookup_app_l|]. rewrite !lookup_ge_None_2; [done|rewrite length_app; cbn; lia|lia].
  - rewrite list_lookup_insert_ne by (intros E; apply Hrow; apply cell_index in E; lia). rewrite Hv by done. f_equal.
    destruct (decide (r < row)%nat); [by rewrite !shown_before|]. rewrite !shown_last by (cbn [fst]; lia). cbn [fst]. fold row. by rewrite !decide_False by done.
Qed.

(** The end of a row: the cells are those of the page [q] with its last row. *)
Lemma end_row (q : page) t : use_framebuffer t = false -> length (cells t) = 2000%nat -> terminal_row t = Z.of_nat (Nat.min (length q.1) 24) ->
  (forall r c, (r < 25)%nat -> (c < 80)%nat -> cells t !! (80 * r + c)%nat = Some (shown_cell (blank_of t) q r c)) ->
  exists t', (let t := set_pos (u64 (terminal_row t + 1)) 0 t in
     if decide (terminal_row t = VGA_HEIGHT) then t ← terminal_rollover t; Done (set_pos (VGA_HEIGHT - 1) (terminal_column t) t) else Done t) = Done t' /\
    shows (q.1 ++ [q.2], []) t' /\ terminal_color t' = terminal_color t.
Proof.
  intros Hm Hl Hr Hv. cbv zeta. rewrite u64_small by lia. cbn [terminal_row set_pos]. unfold VGA_HEIGHT. destruct (decide (terminal_row t + 1 = 25)) as [E|E].
  - destruct (rollover_ok (set_pos (terminal_row t + 1) 0 t)) as (l & Hrun & Hlen & Hlv); [done|done|]. rewrite Hrun. cbn [mbind outcome_bind].
    eexists. split; [done|]. split; [|done]. constructor; cbn [use_framebuffer cells set_pos set_cells terminal_row terminal_column fst snd length]; try done; try lia.
    { rewrite length_app. cbn. lia. }
    intros r c Hrr Hcc. rewrite Hlv by done. change (blank_of (set_pos (25 - 1) _ _)) with (blank_of t). change (blank_of (set_pos _ _ t)) with (blank_of t).
    destruct (decide (r = 24%nat)) as [->|Hne].
    + rewrite shown_last by (cbn; rewrite length_app; cbn; lia). cbn [fst snd]. rewrite length_app. cbn [length]. rewrite decide_True by lia. done.
    + cbn [cells set_pos]. rewrite Hv by lia. f_equal. unfold shown_cell. rewrite shown_scroll by lia. done.
  - eexists. split; [done|]. split; [|done]. constructor; cbn [use_framebuffer cells set_pos terminal_row terminal_column fst snd length]; try done; try lia.
    { rewrite Hr, length_app. cbn. lia. }
    intros r c Hrr Hcc. rewrite Hv by done. f_equal. change (blank_of (set_pos _ _ t)) with (blank_of t). unfold shown_cell, shown_rows. cbn [fst snd].
    replace (length (q.1 ++ [q.2]) - 24)%nat with 0%nat by (rewrite length_app; cbn; lia). replace (length q.1 - 24)%nat with 0%nat by lia. rewrite !drop_0.
    destruct (decide (r < length (q.1 ++ [q.2]))%nat) as [Hin|Hout]; [by rewrite (lookup_app_l (q.1 ++ [q.2]))|].
    rewrite (lookup_ge_None_2 (q.1 ++ [q.2]) r) by lia. rewrite lookup_app_r by lia. by destruct (r - length (q.1 ++ [q.2]))%nat as [|[|n]].
Qed.

Section Page.
Context `{SF : Ssfn}.

Lemma putchar_shows p t c : shows p t -> exists t', terminal_putchar c t = Done t' /\ shows (type_char (terminal_color t) p c) t' /\ terminal_color t' = terminal_color t.
Proof.
  intros Hsh. pose proof Hsh as [Hm Hl Hr Hc Hs Hv]. unfold terminal_putchar, type_char. rewrite Hm.
  destruct (decide (c = 10)) as [->|Hne].
  - unfold terminal_putentryat. rewrite (decide_True (P := 10 = 10)) by done. cbn [mbind outcome_bind].
    rewrite (decide_True (P := terminal_column _ = VGA_WIDTH \/ 10 = 10)) by (by right). by apply (end_row p (set_pos (terminal_row t) (u64 (terminal_column t + 1)) t)).
  - destruct (terminal_putentryat c (terminal_color t) (terminal_column t) (terminal_row t) t) as [t1| | |] eqn:E.
    2-4: exfalso; unfold terminal_putentryat in E; rewrite decide_False in E by done; rewrite Hr, Hc in E; unfold VGA_WIDTH in E; rewrite aset_in_range in E by lia; done.
    pose proof (write_cell p t c t1 Hsh Hne E) as Hcells. unfold terminal_putentryat in E. rewrite decide_False in E by done.
    apply outcome_bind_done in E as (l & Hset & [= <-]). assert (Hlen : length l = 2000%nat).
    { rewrite Hr, Hc in Hset. unfold VGA_WIDTH in Hset. rewrite aset_in_range in Hset by lia. injection Hset as <-. by rewrite length_insert. }
    cbn [mbind outcome_bind terminal_row terminal_column set_cells set_pos]. rewrite Hc, u64_small by lia. rewrite length_app. cbn [length].
    unfold VGA_WIDTH. destruct (decide (length p.2 + 1 = 80)%nat) as [Ef|Ef].
    + rewrite decide_True by lia. apply (end_row (p.1, p.2 ++ [vga_entry c (terminal_color t)]) (set_pos (terminal_row t) (Z.of_nat (length p.2) + 1) (set_cells l t))); done.
    + rewrite decide_False by (intros [?|?]; lia). eexists. split; [done|]. split; [|done].
      constructor; cbn [use_framebuffer cells set_pos set_cells terminal_row terminal_column fst snd]; try done; rewrite ?length_app; cbn; lia.
Qed.

Lemma print_shows data : forall p t, shows p t -> exists t', print data t = Done t' /\ shows (foldl (type_char (terminal_color t)) p data) t'.
Proof.
  induction data as [|c data IH]; intros p t Hsh; cbn [print foldl]; [by exists t|].
  destruct (putchar_shows p t c Hsh) as (t1 & -> & Hsh1 & Hcol). cbn [mbind outcome_bind]. destruct (IH _ _ Hsh1) as (t2 & H2 & S2). rewrite Hcol in S2. by exists t2.
Qed.

Lemma clear_cells_ok t : use_framebuffer t = false -> length (cells t) = 2000%nat ->
  exists t', clear_cells t = Done t' /\ t' = set_cells (cells t') t /\ length (cells t') = 2000%nat /\
    forall r c, (r < 25)%nat -> (c < 80)%nat -> cells t' !! (80 * r + c)%nat = Some (blank_of t).
Proof.
  intros Hm Hl. unfold clear_cells.
  destruct (for_total (A := unit) (fun y t' => t' = set_cells (cells t') t /\ length (cells t') = 2000%nat /\
      forall r c, (r < Z.to_nat y)%nat -> (c < 80)%nat -> cells t' !! (80 * r + c)%nat = Some (blank_of t))
    25 0 (fun y t => t ← blank_row y t; Done (inl (B := unit) t)) t) as (t' & Hrun & Ht & Hlen & Hv).
  - intros y t1 Hy (Ht & Hlen & Hv). destruct (blank_row_ok t1 y) as (l & Hb & Hl2 & Hlv); [done|lia|]. rewrite Hb. cbn [mbind outcome_bind].
    eexists. split; [done|]. cbn [cells set_cells]. split; [by rewrite Ht|]. split; [done|]. intros r c Hr Hc. rewrite Hlv by done.
    destruct (decide (r = Z.to_nat y)) as [->|]; [by rewrite Ht|]. apply Hv; lia.
  - split; [by destruct t|]. split; [done|]. intros r c Hr. lia.
  - rewrite Hrun. cbn [mbind outcome_bind]. exists t'. split; [done|]. split; [done|]. split; [done|]. intros r c Hr Hc. apply Hv; lia.
Qed.

Lemma initialize_shows a b c t : use_framebuffer t = false -> length (cells t) = 2000%nat ->
  exists t', terminal_initialize a b c t = Done t' /\ shows ([], []) t' /\ terminal_color t' = 7.
Proof.
  intros Hm Hl. unfold terminal_initialize. rewrite Hm. destruct (clear_cells_ok (set_color (vga_entry_color VGA_COLOR_LIGHT_GREY VGA_COLOR_BLACK) (set_pos 0 0 t)) Hm Hl) as (t' & -> & Ht & Hlen & Hv).
  exists t'. split; [done|]. split; [|by rewrite Ht]. constructor; [by rewrite Ht|done|by rewrite Ht|by rewrite Ht|cbn; lia|].
  intros r k Hr Hk. rewrite Hv by done. f_equal. replace (blank_of t') with (vga_entry 32 7) by (unfold blank_of; by rewrite Ht). change (blank_of _) with (vga_entry 32 7).
  rewrite shown_last by (cbn; lia). cbn. by destruct (decide (r = 0%nat)).
Qed.

(** C17: The text screen.  After terminal_initialize in text mode, writing any
    text never leaves the 80 x 25 cells, and the screen shows the last 25 rows
    of the text laid out in rows that end at a line feed or after 80
    characters, each character a cell of its code and the colour, every other
    cell blank; the cursor stands in the row being written behind its last
    cell.  Scrolling loses nothing but the rows that leave at the top. *)
Theorem terminal_shows_text fuel a b c data t : use_framebuffer t = false -> length (cells t) = 2000%nat ->
  exists t0 t', terminal_initialize a b c t = Done t0 /\ terminal_write fuel data t0 = Done t' /\
    (forall r k, (r < 25)%nat -> (k < 80)%nat -> cells t' !! (80 * r + k)%nat = Some (shown_cell (vga_entry 32 7) (layout 7 data) r k)) /\
    terminal_row t' = Z.of_nat (Nat.min (length (layout 7 data).1) 24) /\ terminal_column t' = Z.of_nat (length (layout 7 data).2) /\
    length (cells t') = 2000%nat.
Proof.
  intros Hm Hl. destruct (initialize_shows a b c t Hm Hl) as (t0 & H0 & Hsh & Hcol). destruct (print_shows data _ _ Hsh) as (t' & Hp & Hsh').
  exists t0, t'. split; [done|]. rewrite Hcol in Hsh'. fold (layout 7 data) in Hsh'. destruct Hsh' as [Hm' Hl' Hr Hc _ Hv].
  assert (Hcol' : terminal_color t' = 7).
  { assert (H : forall data p t t', shows p t -> print data t = Done t' -> terminal_color t' = terminal_color t).
    { induction data0 as [|x xs IH]; intros p1 t1 t2 Hs1; cbn [print]; [by intros [= <-]|]. destruct (putchar_shows p1 t1 x Hs1) as (t3 & -> & Hs3 & Hc3).
      cbn [mbind outcome_bind]. intros H. by rewrite (IH _ _ _ Hs3 H). }
    by rewrite (H data _ t0 t' Hsh Hp). }
  split; [unfold terminal_write; rewrite Hp; cbn [mbind outcome_bind]; unfold terminal_swap; by rewrite Hm'|]. split; [|done].
  intros r k Hrr Hk. rewrite Hv by done. unfold blank_of. by rewrite Hcol'.
Qed.
End Page.

(** ** The copy to the screen *)

Section Copy.
Context (s d0 : list Z).

(** The first [8 * i] bytes are copied. *)
Definition copied (i : Z) (d : list Z) : Prop := d = take (Z.to_nat (8 * i)) s ++ drop (Z.to_nat (8 * i)) d0.

Lemma copied_length i d : copied i d -> 0 <= i -> 8 * i <= Z.of_nat (length s) -> 8 * i <= Z.of_nat (length d0) -> length d = length d0.
Proof. intros -> Hi Hs Hd. rewrite length_app, length_take, length_drop. lia. Qed.

Lemma copied_word i d : copied i d -> 0 <= i -> 8 * i + 8 <= Z.of_nat (length s) -> 8 * i + 8 <= Z.of_nat (length d0) ->
  exists w d', qword_at s i = Done w /\ put_word d i w = Done d' /\ copied (i + 1) d'.
Proof.
  intros Hc Hi Hs Hd. pose proof (copied_length i d Hc Hi ltac:(lia) ltac:(lia)) as Hl. unfold qword_at, put_word.
  exists (take 8 (drop (Z.to_nat (8 * i)) s)), (overwrite d (8 * i) (take 8 (drop (Z.to_nat (8 * i)) s))).
  split; [by rewrite decide_True by lia|]. split; [by rewrite decide_True by lia|]. unfold copied, overwrite in *. subst d.
  set (w := take 8 (drop (Z.to_nat (8 * i)) s)). assert (Hw : length w = 8%nat) by (unfold w; rewrite length_take, length_drop; lia).
  rewrite take_app_length' by (rewrite length_take; lia). rewrite Hw, drop_app_ge by (rewrite length_take; lia). rewrite drop_drop, length_take.
  replace (Z.to_nat (8 * (i + 1))) with (Z.to_nat (8 * i) + 8)%nat by lia.
  replace (Z.to_nat (8 * i) + (Z.to_nat (8 * i) + 8 - Z.to_nat (8 * i) `min` length s))%nat with (Z.to_nat (8 * i) + 8)%nat by lia.
  rewrite app_assoc. f_equal. unfold w. by rewrite take_take_drop.
Qed.
End Copy.

Lemma wc_group_ok s d0 n st : 0 <= n -> 8 * n <= Z.of_nat (length s) -> 8 * n <= Z.of_nat (length d0) ->
  st.1.1 + st.1.2 = n -> 0 <= st.1.1 -> 0 <= st.1.2 -> copied s d0 st.1.2 st.2 -> 4 <= st.1.1 ->
  exists d', wc_group s st = Done (inl (st.1.1 - 4, st.1.2 + 4, d')) /\ copied s d0 (st.1.2 + 4) d'.
Proof.
  destruct st as [[count i] d]. cbn [fst snd]. intros Hn Hs Hd Hsum Hc Hi Hcp H4. unfold wc_group. rewrite decide_True by done.
  destruct (copied_word s d0 i d) as (w1 & d1 & R1 & P1 & C1); [done|lia..|].
  destruct (copied_word s d0 (i + 1) d1) as (w2 & d2 & R2 & P2 & C2); [done|lia..|].
  destruct (copied_word s d0 (i + 1 + 1) d2) as (w3 & d3 & R3 & P3 & C3); [done|lia..|].
  destruct (copied_word s d0 (i + 1 + 1 + 1) d3) as (w4 & d4 & R4 & P4 & C4); [done|lia..|].
  replace (i + 1 + 1 + 1) with (i + 3) in R4, P4 by lia. replace (i + 1 + 1) with (i + 2) in R3, P3 by lia.
  rewrite R1, R2, R3, R4. cbn [mbind outcome_bind]. rewrite P1. cbn [mbind outcome_bind]. rewrite P2. cbn [mbind outcome_bind].
  rewrite P3. cbn [mbind outcome_bind]. rewrite P4. cbn [mbind outcome_bind]. exists d4. split; [done|].
  by replace (i + 4) with (i + 1 + 1 + 1 + 1) by lia.
Qed.

(** Wc_memcpy, the copy of the back buffer to the screen.  Of two buffers
    of at least n bytes it copies the first 8 * (n / 8) bytes, four words in a
    round and then the rest word by word, and writes nothing behind them: the
    last n mod 8 bytes are not copied. *)
Theorem wc_memcpy_copies fuel d0 s n : 0 <= n -> n <= Z.of_nat (length s) -> n <= Z.of_nat (length d0) -> (Z.to_nat (n / 32) < fuel)%nat ->
  wc_memcpy fuel d0 s n = Done (take (Z.to_nat (8 * (n / 8))) s ++ drop (Z.to_nat (8 * (n / 8))) d0).
Proof.
  intros Hn Hs Hd Hf. pose proof (Z.div_mod n 8 ltac:(lia)). pose proof (Z.mod_pos_bound n 8 ltac:(lia)). pose proof (Z.div_pos n 8 ltac:(lia) ltac:(lia)).
  assert (H32 : n / 32 = n / 8 / 4) by (by rewrite Z.div_div). unfold wc_memcpy.
  destruct (loop_total (fun st : Z * Z * list Z => st.1.1 + st.1.2 = n / 8 /\ 0 <= st.1.1 /\ 0 <= st.1.2 /\ copied s d0 st.1.2 st.2)
    (fun st => Z.to_nat (st.1.1 / 4)) (fun st => st.1.1 + st.1.2 = n / 8 /\ 0 <= st.1.1 /\ 0 <= st.1.2 /\ copied s d0 st.1.2 st.2)
    (wc_group s) fuel (n / 8, 0, d0)) as ([[count i] d] & Hrun & Hsum & Hc & Hi & Hcp).
  - intros st (Hsum & Hc & Hi & Hcp). destruct (decide (4 <= st.1.1)) as [H4|H4].
    + destruct (wc_group_ok s d0 (n / 8) st) as (d' & -> & Hcp'); [lia..|done|done|]. cbn [fst snd]. split; [split_and!; [lia..|done]|].
      replace (st.1.1) with ((st.1.1 - 4) + 1 * 4) at 2 by lia. rewrite Z.div_add by lia. pose proof (Z.div_pos (st.1.1 - 4) 4 ltac:(lia) ltac:(lia)). lia.
    + destruct st as [[count i] d]. unfold wc_group. by rewrite decide_False by done.
  - cbn [fst snd]. split_and!; [lia..|]. unfold copied. by rewrite Z.mul_0_r.
  - cbn [fst snd]. by rewrite <-H32.
  - cbn [fst snd] in *. rewrite Hrun. cbn [mbind outcome_bind].
    destruct (for_total (A := unit) (fun k d => copied s d0 k d) (Z.to_nat count) i (wc_word s) d) as (d' & -> & Hfin); [|done|].
    + intros k d1 Hk Hcp1. destruct (copied_word s d0 k d1) as (w & d2 & R & P & C); [done|lia..|]. unfold wc_word. rewrite R. cbn [mbind outcome_bind].
      rewrite P. cbn [mbind outcome_bind]. by exists d2.
    + cbn [mbind outcome_bind]. f_equal. rewrite Z2Nat.id in Hfin by lia. by replace (n / 8) with (i + count) by lia.
Qed.

(** ** The text of printf *)

(** The digits of a number, most significant first, without leading zeros. *)
Definition digits_for (b n : Z) (ds : list Z) : Prop :=
  ds <> [] /\ Forall (fun d => 0 <= d < b) ds /\ value b ds = n /\ (ds = [0] \/ head ds <> Some 0).

Lemma value_snoc b ds d : value b (ds ++ [d]) = value b ds * b + d.
Proof. unfold value. by rewrite foldl_app. Qed.

Lemma value_pos b ds : 0 < b -> Forall (fun d => 0 <= d < b) ds -> 0 <= value b ds /\ (head ds <> Some 0 -> ds <> [] -> 0 < value b ds).
Proof.
  intros Hb. induction ds as [|d ds IH] using rev_ind; [done|]. rewrite Forall_app, Forall_singleton. intros (Hds & Hd). rewrite value_snoc.
  destruct (IH Hds) as (H1 & H2). split; [nia|]. intros Hh _. destruct ds as [|x ds]; [cbn in *; assert (d <> 0) by congruence; lia|].
  specialize (H2 Hh ltac:(done)). nia.
Qed.

(** Without leading zeros the digits are unique. *)
Lemma value_inj b : 0 < b -> forall ds ds', Forall (fun d => 0 <= d < b) ds -> Forall (fun d => 0 <= d < b) ds' ->
  head ds <> Some 0 -> head ds' <> Some 0 -> value b ds = value b ds' -> ds = ds'.
Proof.
  intros Hb ds. induction ds as [|d ds IH] using rev_ind; intros ds' HF HF' Hh Hh' Hv.
  - destruct ds' as [|x ds']; [done|]. destruct (value_pos b _ Hb HF') as (_ & Hp). specialize (Hp Hh' ltac:(done)). rewrite <-Hv in Hp. cbn in Hp. lia.
  - destruct ds' as [|x ds' _] using rev_ind.
    + destruct (value_pos b _ Hb HF) as (_ & Hp). specialize (Hp Hh). rewrite Hv in Hp. assert (ds ++ [d] <> []) as Hne by (by destruct ds). specialize (Hp Hne). cbn in Hp. lia.
    + rewrite Forall_app, Forall_singleton in HF, HF'. destruct HF as (HF & Hd). destruct HF' as (HF' & Hx). rewrite !value_snoc in Hv.
      assert (value b ds = value b ds') by nia. assert (d = x) by nia. subst x. f_equal. apply IH; try done.
      * intros E. apply Hh. by destruct ds.
      * intros E. apply Hh'. by destruct ds'.
Qed.

Lemma digits_for_unique b n ds ds' : 0 < b -> digits_for b n ds -> digits_for b n ds' -> ds = ds'.
Proof.
  intros Hb (Hn & HF & Hv & Hc) (Hn' & HF' & Hv' & Hc').
  assert (Hz : forall ds, Forall (fun d => 0 <= d < b) ds -> ds <> [] -> head ds <> Some 0 -> 0 < value b ds) by (intros; by apply value_pos).
  destruct Hc as [->|Hc], Hc' as [->|Hc']; [done|..].
  - specialize (Hz ds' HF' Hn' Hc'). rewrite Hv', <-Hv in Hz. cbn in Hz. lia.
  - specialize (Hz ds HF Hn Hc). rewrite Hv, <-Hv' in Hz. cbn in Hz. lia.
  - apply (value_inj b); [done..|]. by rewrite Hv, Hv'.
Qed.

(** [numeral c z text]: the text of [z] under %d, %u or %x: a minus for a
    negative %d, then the digits of the magnitude, which is the unsigned 64-bit
    value for %u and %x. *)
Definition numeral (c z : Z) (text : list Z) : Prop :=
  exists ds, digits_for (if c =? 120 then 16 else 10) (if decide (c = 100 /\ z < 0) then - z else u64 z) ds /\
    text = (if decide (c = 100 /\ z < 0) then [45] else []) ++ (digit_char <$> ds).

Lemma str_len_text text rest : Forall (fun c => c <> 0) text -> str_len (text ++ 0 :: rest) = Done (Z.of_nat (length text)).
Proof.
  induction 1 as [|c text Hc _ IH]; cbn [app str_len length]; [done|]. rewrite decide_False by done. rewrite IH. cbn [mbind outcome_bind]. f_equal. lia.
Qed.

Lemma itoa_numeral scratch c z text : numeral c z text -> - 2 ^ 63 <= z < 2 ^ 63 -> (22 <= length scratch)%nat ->
  exists rest, itoa_k 22 scratch c z = Done (text ++ 0 :: rest) /\ Forall (fun c => c <> 0) text.
Proof.
  intros (ds & Hds & ->) Hz Hl. unfold itoa_k, long_to_str.
  assert (Hgo : forall (neg : bool) n, 0 <= n < 2 ^ 64 -> digits_for (if negb neg && (c =? 120) then 16 else 10) n ds ->
    exists rest, number_to_str 22 neg n c scratch = Done (((if neg then [45] else []) ++ (digit_char <$> ds)) ++ 0 :: rest) /\
      Forall (fun c => c <> 0) ((if neg then [45] else []) ++ (digit_char <$> ds))).
  { intros neg n Hn Hd. destruct (number_to_str_ok 19 22 neg n c scratch) as (ds' & Hlen & HF & Hv & Hcan & Hrun).
    - assert (2 ^ 64 < (if negb neg && (c =? 120) then 16 else 10) ^ Z.of_nat 20) by (destruct (negb neg && _); reflexivity). lia.
    - destruct neg; lia.
    - lia.
    - assert (ds' = ds) as ->.
      { apply (digits_for_unique (if negb neg && (c =? 120) then 16 else 10) n); [by destruct (_ && _)| |done]. split; [intros ->; cbn in Hlen; lia|]. done. }
      eexists. split; [rewrite Hrun, <-app_assoc; done|]. apply Forall_app. split; [destruct neg; [constructor; [done|]|]; constructor|].
      apply Forall_fmap. eapply Forall_impl; [apply HF|]. intros d Hd'. cbn in Hd' |- *. unfold digit_char. assert (0 <= d) by (destruct Hd'; done). destruct (decide (d < 10)); lia. }
  destruct (decide (c = 100 /\ z < 0)) as [[-> Hneg]|Hno].
  - destruct (Hgo true (- z)) as (rest & Hrun & HF); [lia|done|]. rewrite u64_small by lia. by exists rest.
  - destruct (Hgo false (u64 z)) as (rest & Hrun & HF); [apply u64_range|done|]. by exists rest.
Qed.

(** [krenders format args out]: the bytes a format of the kernel's printf
    stands for. *)
Inductive krenders : list Z -> list arg -> list Z -> Prop :=
| k_end rest args : krenders (0 :: rest) args []
| k_text c f args o : c <> 0 -> c <> 37 -> krenders f args o -> krenders (c :: f) args (c :: o)
| k_percent f args o : krenders f args o -> krenders (37 :: 37 :: f) args (37 :: o)
| k_char f ch args o : krenders f args o -> krenders (37 :: 99 :: f) (AChar ch :: args) (ch :: o)
| k_str f s args n o : str_len s = Done n -> krenders f args o -> krenders (37 :: 115 :: f) (AStr s :: args) (take (Z.to_nat n) s ++ o)
| k_num c f z args text o : c = 100 \/ c = 120 \/ c = 117 -> - 2 ^ 63 <= z < 2 ^ 63 -> numeral c z text -> krenders f args o ->
    krenders (37 :: c :: f) (ALong z :: args) (text ++ o)
| k_other c f args n : c <> 37 -> c <> 99 -> c <> 115 -> c <> 100 -> c <> 120 -> c <> 117 -> str_len (37 :: c :: f) = Done n ->
    krenders (37 :: c :: f) args (take (Z.to_nat n) (37 :: c :: f)).

Lemma run_length_krenders f args o : krenders f args o ->
  exists n o', run_length f = Done (Z.of_nat n) /\ (n <= length f)%nat /\ o = take n f ++ o' /\ krenders (drop n f) args o'.
Proof.
  induction 1 as [rest args|c f args o H0 H37 Hr IH|f args o Hr IH|f ch args o Hr IH|f s args n o Hs Hr IH|c f z args t o Hc Hz Ht Hr IH|c f args n];
    try (eexists 0%nat, _; cbn [run_length]; rewrite decide_False by lia; split; [done|]; split; [lia|];
         split; [reflexivity|]; rewrite drop_0; eauto using krenders; done).
  destruct IH as (n & o' & Hn & Hpos & -> & Hr'). exists (S n), o'. cbn [run_length].
  rewrite decide_True, Hn by done. cbn [mbind outcome_bind]. split_and!; [f_equal; lia|cbn; lia|done|done].
Qed.

Section KPrintf.
Context {T : Type} (emit : list Z -> T -> outcome T) (swap : T -> outcome T) (scratch : list Z).
(** A sink that takes its bytes one after the other. *)
Context (emit_nil : forall s, emit [] s = Done s) (emit_app : forall a b s, emit (a ++ b) s = (s ← emit a s; emit b s)).
Context (big : (22 <= length scratch)%nat).
#[local] Notation step := (kprintf_step emit swap scratch).

Definition ends_with (w : Z) (o : list Z) (s : T) : outcome (Z * T) := s ← emit o s; s ← swap s; Done (w + Z.of_nat (length o), s).

(** One conversion: [a] goes out, the rest of the format follows. *)
Lemma kprintf_conv fuel w a o s f args : (forall s, loop fuel step (f, args, w + Z.of_nat (length a), s) = ends_with (w + Z.of_nat (length a)) o s) ->
  (r ← (s ← emit a s; Done (inl (B := Z * T) (f, args, w + Z.of_nat (length a), s))); match r with inl s' => loop fuel step s' | inr x => Done x end) = ends_with w (a ++ o) s.
Proof.
  intros IH. unfold ends_with. rewrite emit_app. destruct (emit a s) as [s1| | |]; cbn [mbind outcome_bind]; try done. rewrite IH. unfold ends_with.
  destruct (emit o s1) as [s2| | |]; cbn [mbind outcome_bind]; try done. destruct (swap s2); cbn [mbind outcome_bind]; try done. rewrite length_app. do 2 f_equal. lia.
Qed.

(** What a call of the step does: it sends the bytes [a] and goes on, or ends. *)
Definition converts (f : list Z) (args : list arg) (o : list Z) (w : Z) : Prop :=
  (exists rest, f = 0 :: rest /\ o = []) \/
  exists a o' f' args', o = a ++ o' /\ krenders f' args' o' /\ (length f' < length f)%nat /\
    forall s, step (f, args, w, s) = (s ← emit a s; Done (inl (f', args', w + Z.of_nat (length a), s))).

Lemma text_converts f args o w n o' c g : run_length f = Done (Z.of_nat n) -> (n <= length f)%nat -> o = take n f ++ o' -> krenders (drop n f) args o' ->
  0 <= w -> w + Z.of_nat (length (c :: o)) <= INT_MAX -> (g = c :: f /\ c <> 0 /\ c <> 37 \/ g = 37 :: 37 :: f /\ c = 37) ->
  converts g args (c :: o) w.
Proof.
  unfold INT_MAX. intros Hn Hle -> Hr Hw Hmax Hg. right. exists (c :: take n f), o', (drop n f), args. split; [done|]. split; [done|].
  cbn [length] in *. rewrite length_app, length_take, Nat.min_l in * by done.
  assert (Hgo : forall s, (if decide (u64 (2147483647 - w) < Z.of_nat n + 1) then Done (inr (-1, s))
      else s ← emit (take (Z.to_nat (Z.of_nat n + 1)) (c :: f)) s; Done (inl (drop (Z.to_nat (Z.of_nat n + 1)) (c :: f), args, s32 (w + (Z.of_nat n + 1)), s)))
    = (s ← emit (c :: take n f) s; Done (inl (B := Z * T) (drop n f, args, w + Z.of_nat (S n), s)))).
  { intros s. rewrite u64_small by lia. rewrite decide_False by lia. rewrite s32_small by lia. replace (Z.to_nat (Z.of_nat n + 1)) with (S n) by lia. cbn [take drop].
    by replace (w + (Z.of_nat n + 1)) with (w + Z.of_nat (S n)) by lia. }
  split; [destruct Hg as [(-> & _)|(-> & _)]; cbn [length]; rewrite length_drop; lia|].
  intros s. destruct Hg as [(-> & H0 & H37)|(-> & ->)]; unfold kprintf_step; cbn [deref head tail of_option mbind outcome_bind].
  - rewrite (decide_False (P := c = 0)), (decide_True (P := c <> 37)) by done. cbn [mbind outcome_bind].
    rewrite (decide_True (P := c <> 37 \/ 0 = 37)), (decide_False (P := c = 37)) by lia. cbn [tail]. rewrite Hn. cbn [mbind outcome_bind]. apply Hgo.
  - rewrite (decide_False (P := 37 = 0)), (decide_False (P := 37 <> 37)) by lia. cbn [mbind outcome_bind].
    rewrite (decide_True (P := 37 <> 37 \/ 37 = 37)), (decide_True (P := 37 = 37)) by lia. cbn [tail]. rewrite Hn. cbn [mbind outcome_bind]. apply Hgo.
Qed.

(** The guards of a conversion that is no text. *)
Ltac conversion c := unfold kprintf_step; cbn [deref head tail of_option mbind outcome_bind];
  rewrite (decide_False (P := 37 = 0)), (decide_False (P := 37 <> 37)) by lia; cbn [mbind outcome_bind];
  rewrite (decide_False (P := 37 <> 37 \/ c = 37)) by lia; cbn [deref head tail of_option mbind outcome_bind].

Lemma num_converts f args o w c z text : c = 100 \/ c = 120 \/ c = 117 -> - 2 ^ 63 <= z < 2 ^ 63 -> numeral c z text -> krenders f args o ->
  0 <= w -> w + Z.of_nat (length (text ++ o)) <= INT_MAX -> converts (37 :: c :: f) (ALong z :: args) (text ++ o) w.
Proof.
  unfold INT_MAX. intros Hc Hz Ht Hr Hw Hmax. right. exists text, o, f, args. split; [done|]. split; [done|]. split; [cbn; lia|]. intros s.
  rewrite length_app in Hmax. destruct (itoa_numeral scratch c z text Ht Hz big) as (rest & Hrun & HF).
  assert (Hpos : (0 < length text)%nat).
  { destruct Ht as (ds & (Hne & _) & ->). rewrite length_app, length_fmap. destruct ds; [done|]. cbn; lia. }
  conversion c. rewrite (decide_False (P := c = 99)), (decide_False (P := c = 115)), (decide_True (P := c = 100 \/ c = 120 \/ c = 117)) by lia.
  cbn [va_long mbind outcome_bind]. unfold INT_MAX. rewrite u64_small by lia. rewrite (decide_False (P := 2147483647 - w = 0)) by lia. rewrite Hrun. cbn [mbind outcome_bind].
  rewrite str_len_text by done. cbn [mbind outcome_bind]. rewrite s32_small by lia. rewrite Nat2Z.id. by rewrite take_app_length.
Qed.

Lemma krenders_converts f args o w : krenders f args o -> 0 <= w -> w + Z.of_nat (length o) <= INT_MAX -> converts f args o w.
Proof.
  intros Hr Hw Hmax. destruct Hr as [rest args|c f args o H0 H37 Hr|f args o Hr|f ch args o Hr|f s args n o Hs Hr|c f z args t o Hc Hz Ht Hr|c f args n H37 H99 H115 H100 H120 H117 Hs].
  - left. by exists rest.
  - destruct (run_length_krenders f args o Hr) as (n & o' & Hn & Hle & Ho & Hr'). eapply text_converts; try done. left. done.
  - destruct (run_length_krenders f args o Hr) as (n & o' & Hn & Hle & Ho & Hr'). eapply text_converts; try done. right. done.
  - right. exists [ch], o, f, args. split; [done|]. split; [done|]. split; [cbn; lia|]. intros s. unfold INT_MAX in *. cbn [length] in Hmax.
    conversion 99. rewrite (decide_True (P := 99 = 99)) by done. cbn [va_char mbind outcome_bind]. unfold INT_MAX. rewrite u64_small by lia.
    rewrite decide_False by lia. rewrite s32_small by lia. done.
  - right. exists (take (Z.to_nat n) s), o, f, args. split; [done|]. split; [done|]. split; [cbn; lia|]. intros s0. unfold INT_MAX in *. rewrite length_app in Hmax.
    destruct (str_len_drop s n Hs) as (_ & Hn0 & Hnl).
    conversion 115. rewrite (decide_False (P := 115 = 99)), (decide_True (P := 115 = 115)) by lia. cbn [va_str mbind outcome_bind]. rewrite Hs. cbn [mbind outcome_bind].
    unfold INT_MAX. rewrite u64_small by lia. rewrite decide_False by lia. rewrite s32_small by lia. by rewrite <-Hnl.
  - by apply num_converts.
  - right. destruct (str_len_drop _ n Hs) as (Hh & Hn0 & Hnl). exists (take (Z.to_nat n) (37 :: c :: f)), [], (drop (Z.to_nat n) (37 :: c :: f)), args.
    split; [by rewrite app_nil_r|]. assert (Hd : exists rest, drop (Z.to_nat n) (37 :: c :: f) = 0 :: rest).
    { destruct (drop (Z.to_nat n) (37 :: c :: f)) as [|x rest]; [done|]. injection Hh as ->. by exists rest. }
    destruct Hd as (rest & Hd). split; [rewrite Hd; constructor|].
    split; [assert (n <> 0) by (intros ->; by cbn in Hd; injection Hd); rewrite length_drop; cbn; lia|].
    intros s. unfold INT_MAX in *. conversion c. rewrite (decide_False (P := c = 99)), (decide_False (P := c = 115)), (decide_False (P := c = 100 \/ c = 120 \/ c = 117)) by lia.
    rewrite Hs. cbn [mbind outcome_bind]. unfold INT_MAX. rewrite u64_small by lia. rewrite decide_False by lia. rewrite s32_small by lia. by rewrite <-Hnl.
Qed.

Lemma kprintf_run : forall fuel f args o w s, krenders f args o -> (length f < fuel)%nat -> 0 <= w -> w + Z.of_nat (length o) <= INT_MAX ->
  loop fuel step (f, args, w, s) = ends_with w o s.
Proof.
  induction fuel as [|fuel IH]; intros f args o w s Hr Hf Hw Hmax; [lia|]. cbn [loop].
  destruct (krenders_converts f args o w Hr Hw Hmax) as [(rest & -> & ->)|(a & o' & f' & args' & -> & Hr' & Hlt & Hstep)].
  - unfold ends_with. rewrite emit_nil. cbn [mbind outcome_bind]. unfold kprintf_step. cbn [deref head of_option mbind outcome_bind]. rewrite decide_True by done.
    destruct (swap s); cbn [mbind outcome_bind]; try done. do 2 f_equal. cbn. lia.
  - rewrite Hstep. apply kprintf_conv. intros s'. rewrite length_app in Hmax. apply IH; [done|lia..].
Qed.
End KPrintf.

(** ** printf on the screen and the serial line *)

Section Printed.
Context {B : Type} `{PB : PortBus B} `{U : !Uart B} `{SF : Ssfn}.
Context (fuel : nat) (Hpoll : forall b : B, (tx_wait b < fuel)%nat).

Lemma print_app a : forall b t, print (a ++ b) t = (t ← print a t; print b t).
Proof. induction a as [|c a IH]; intros b t; cbn [app print]; [done|]. destruct (terminal_putchar c t); cbn [mbind outcome_bind]; [apply IH|done..]. Qed.

Lemma serial_print_app a : forall b s, Serial.serial_print fuel (a ++ b) s = (s ← Serial.serial_print fuel a s; Serial.serial_print fuel b s).
Proof.
  induction a as [|c a IH]; intros b s; cbn [app Serial.serial_print]; [done|]. destruct (decide (c = 10)).
  - destruct (Serial.write_serial fuel 13 s) as [s1| | |]; cbn [mbind outcome_bind]; try done.
    destruct (Serial.write_serial fuel 10 s1); cbn [mbind outcome_bind]; [apply IH|done..].
  - destruct (Serial.write_serial fuel c s); cbn [mbind outcome_bind]; [apply IH|done..].
Qed.

Lemma emit_both_app a b s : emit_both fuel (a ++ b) s = (s ← emit_both fuel a s; emit_both fuel b s).
Proof.
  destruct s as [t s]. unfold emit_both. cbn [fst snd]. rewrite print_app, serial_print_app.
  destruct (serial_print_sends fuel Hpoll a s) as (s1 & -> & _). destruct (print a t) as [t1| | |]; cbn [mbind outcome_bind fst snd]; done.
Qed.

(** C16: The kernel's printf, on the text screen and the serial line.  For every
    format whose conversions have their arguments it returns the number of
    bytes of its text (the literal text, %c and %s, numbers under %d, %u and
    %x as sign and digits without leading zeros, and the rest of the format
    from the first conversion it does not know); afterwards the screen shows
    the page it showed with that text typed behind it, and exactly the text,
    line feeds with a carriage return, has gone out on the serial line. *)
Theorem printf_shows n scratch format args o p t b : shows p t -> (22 <= length scratch)%nat ->
  krenders format args o -> (length format < n)%nat -> Z.of_nat (length o) <= INT_MAX ->
  exists t' b', printf_k fuel scratch n format args (t, b) = Done (Z.of_nat (length o), (t', b')) /\
    shows (foldl (type_char (terminal_color t)) p o) t' /\ sent b' = sent b ++ crlf o.
Proof.
  intros Hsh Hbig Hr Hn Hmax. unfold printf_k, kprintf. rewrite (kprintf_run (emit_both fuel) (swap_both fuel) scratch) with (o := o); try done.
  - unfold ends_with, emit_both. cbn [fst snd]. destruct (print_shows o p t Hsh) as (t' & -> & Hsh'). cbn [mbind outcome_bind].
    destruct (serial_print_sends fuel Hpoll o b) as (b' & -> & Hs). cbn [mbind outcome_bind]. unfold swap_both, terminal_swap. cbn [fst snd].
    rewrite (sh_mode _ _ Hsh'). cbn [mbind outcome_bind]. by exists t', b'.
  - by intros [].
  - apply emit_both_app.
Qed.

(** Serial_printf sends the same text to the line alone. *)
Lemma serial_printf_sends n scratch format args o b : (22 <= length scratch)%nat -> krenders format args o -> (length format < n)%nat -> Z.of_nat (length o) <= INT_MAX ->
  exists b', serial_printf fuel scratch n format args b = Done (Z.of_nat (length o), b') /\ sent b' = sent b ++ crlf o.
Proof.
  intros Hbig Hr Hn Hmax. unfold serial_printf, kprintf. rewrite (kprintf_run (Serial.serial_print fuel) Done scratch) with (o := o); try done.
  - unfold ends_with. destruct (serial_print_sends fuel Hpoll o b) as (b' & -> & Hs). cbn [mbind outcome_bind]. by exists b'.
  - apply serial_print_app.
Qed.
End Printed.

(** ** Concrete runs *)

(** A font that draws nothing, and the screen before terminal_initialize. *)
#[export] Instance no_font : Ssfn := {| ssfn_putc := fun _ st => (0, st) |}.
Definition demo_screen : terminal := mk_term false 0 0 0 0 0 7 (replicate 2000 (vga_entry 32 7)) [] [] (mk_sb 0 0 0 0 0 0 0) 0.

Example terminal_shows_text_witness : exists t0 t', terminal_initialize 0 0 0 demo_screen = Done t0 /\ terminal_write 1 [104; 10; 105] t0 = Done t' /\
  (forall r k, (r < 25)%nat -> (k < 80)%nat -> cells t' !! (80 * r + k)%nat = Some (shown_cell (vga_entry 32 7) (layout 7 [104; 10; 105]) r k)) /\
  terminal_row t' = Z.of_nat (Nat.min (length (layout 7 [104; 10; 105]).1) 24) /\ terminal_column t' = Z.of_nat (length (layout 7 [104; 10; 105]).2) /\
  length (cells t') = 2000%nat.
Proof. exact (terminal_shows_text 1 0 0 0 [104; 10; 105] demo_screen eq_refl eq_refl). Defined.

Example wc_memcpy_copies_witness : wc_memcpy 2 (replicate 46 0) (replicate 46 1) 45 = Done (take 40 (replicate 46 1) ++ drop 40 (replicate 46 0)).
Proof. apply (wc_memcpy_copies 2 (replicate 46 0) (replicate 46 1) 45); [lia|cbn; lia|cbn; lia|change (45 / 32) with 1; lia]. Defined.

Lemma demo_shows : shows ([], []) demo_screen.
Proof.
  constructor; try done; [cbn; lia|]. intros r c Hr Hc. change (cells demo_screen) with (replicate 2000 (vga_entry 32 7)).
  rewrite lookup_replicate_2 by lia. change (blank_of demo_screen) with (vga_entry 32 7). f_equal. rewrite shown_last by (cbn; lia). cbn. by destruct (decide (r = 0%nat)).
Qed.

Example printf_shows_witness : exists t' b', printf_k 2 (replicate 255 0) 9 [97; 37; 100; 37; 120; 10; 0] [ALong (-12); ALong 255] (demo_screen, demo_bench)
    = Done (7, (t', b')) /\ shows (foldl (type_char 7) ([], []) [97; 45; 49; 50; 102; 102; 10]) t' /\ sent b' = [] ++ crlf [97; 45; 49; 50; 102; 102; 10].
Proof.
  apply (printf_shows 2 bench_short 9 (replicate 255 0) [97; 37; 100; 37; 120; 10; 0] [ALong (-12); ALong 255] [97; 45; 49; 50; 102; 102; 10] ([], []) demo_screen demo_bench).
  - exact demo_shows.
  - cbn; lia.
  - apply k_text; [lia|lia|]. apply (k_num 100 _ (-12) _ [45; 49; 50]); [lia|lia| |].
    + exists [1; 2]. split; [|reflexivity]. split; [done|]. split; [repeat constructor; lia|]. split; [reflexivity|by right].
    + apply (k_num 120 _ 255 _ [102; 102]); [lia|lia| |].
      * exists [15; 15]. split; [|reflexivity]. split; [done|]. split; [repeat constructor; lia|]. split; [reflexivity|by right].
      * apply k_text; [lia|lia|]. constructor.
  - cbn; lia.
  - unfold INT_MAX. cbn; lia.
Defined.
