(* ===== verification/Pci.v ===== *)
(** kernel/pci/pci.c: the configuration space of PCI through the two ports
    0xCF8 and 0xCFC and through memory, the scan of the bus, the table of
    devices, and the ACPI tables that say where the configuration space is.

    The port bus is that of Ports; a memory bus with word accesses is the class
    [MmioBus].  [ConfigPorts] and [Ecam] say what the two ways to the
    configuration space do on real hardware.  The driver of the disk controller
    that pci_init calls is the class [DiskDriver]; the ACPI tables are bytes of
    memory.  Messages on the screen are left out. *)
From stdpp Require Import base list gmap.
From Stdlib Require Import ZArith Lia.
From S2P Require Import Prelude Memory Paging UserMem Ports.

#[local] Open Scope Z_scope.

(** ** The buses *)

(** Volatile accesses of 16 and 32 bits at an address. *)
Class MmioBus (B : Type) := {
  readw : Z -> B -> Z * B;
  readl : Z -> B -> Z * B;
  writew : Z -> Z -> B -> B;
  writel : Z -> Z -> B -> B
}.

(** ahci_setup of the disk controller at [abar]. *)
Class DiskDriver (B : Type) := { setup_controller : Z -> Z -> B -> outcome B }.

(** ** The table of devices *)

Record pci_device := mk_pd {
  pd_type : Z; pd_subclass : Z; pd_bus : Z; pd_slot : Z; pd_function : Z; pd_progif : Z; pd_vendorId : Z; pd_deviceId : Z
}.
Definition zero_device : pci_device := mk_pd 0 0 0 0 0 0 0 0.

(** The globals of the file with the state of the buses; a slot of pciDevices
    that was never written is zero. *)
Record pci (B : Type) := mk_pci { p_bus : B; pciDevices : gmap Z pci_device; pciBase : Z }.
Arguments mk_pci {B}. Arguments p_bus {B}. Arguments pciDevices {B}. Arguments pciBase {B}.

Definition device_index (bus device function : Z) : Z := 256 * bus + 32 * device + function.

Section Pci.
Context {B : Type} `{PB : PortBus B} `{MB : MmioBus B} `{DD : DiskDriver B}.

Definition set_bus (b : B) (s : pci B) : pci B := mk_pci b (pciDevices s) (pciBase s).
Definition set_devices (d : gmap Z pci_device) (s : pci B) : pci B := mk_pci (p_bus s) d (pciBase s).
Definition set_base (base : Z) (s : pci B) : pci B := mk_pci (p_bus s) (pciDevices s) base.
(** A read of the bus in the state. *)
Definition on_bus {A} (f : B -> A * B) (s : pci B) : A * pci B := let '(v, b) := f (p_bus s) in (v, set_bus b s).

Definition device_at (i : Z) (s : pci B) : outcome pci_device :=
  if decide (0 <= i < 65536) then Done (default zero_device (pciDevices s !! i)) else Fault.
Definition put_device (i : Z) (d : pci_device) (s : pci B) : outcome (pci B) :=
  if decide (0 <= i < 65536) then Done (set_devices (<[i := d]> (pciDevices s)) s) else Fault.

(** ** The configuration space through the ports *)

Definition config_address (bus slot func offset : Z) : Z :=
  u32 (Z.lor (Z.lor (Z.lor (Z.lor (u32 (Z.shiftl bus 16)) (u32 (Z.shiftl slot 11))) (u32 (Z.shiftl func 8))) (Z.land offset 0xFC)) 0x80000000).

Definition pciConfigReadWord (bus slot func offset : Z) (b : B) : Z * B :=
  let '(v, b) := inl_ 0xCFC (outl 0xCF8 (config_address bus slot func offset) b) in
  (Z.land (Z.shiftr v (Z.land offset 2 * 8)) 0xFFFF, b).
Definition pciConfigWriteDword (bus slot func offset value : Z) (b : B) : B :=
  outl 0xCFC value (outl 0xCF8 (config_address bus slot func offset) b).
Definition pciConfigWriteWord (bus slot func offset value : Z) (b : B) : B :=
  outw 0xCFC value (outl 0xCF8 (config_address bus slot func offset) b).
Definition pciConfigWriteByte (bus slot func offset value : Z) (b : B) : B :=
  outb 0xCFC value (outl 0xCF8 (config_address bus slot func offset) b).

Definition pciCheckVendor (bus slot : Z) (b : B) : bool * B :=
  let '(vendor, b) := pciConfigReadWord bus slot 0 0 b in (bool_decide (vendor <> 0xFFFF), b).
Definition getVendorID (bus device function : Z) (b : B) : Z * B := pciConfigReadWord bus device function 0 b.
Definition getHeaderType (bus device function : Z) (b : B) : Z * B :=
  let '(out, b) := pciConfigReadWord bus device function 0x3C b in (u8 (Z.land out 0xFF), b).
Definition getBaseClass (bus device function : Z) (b : B) : Z * B :=
  let '(out, b) := pciConfigReadWord bus device function 0x28 b in (u8 (Z.land (Z.shiftr out 8) 0xFF), b).
Definition getSubClass (bus device function : Z) (b : B) : Z * B :=
  let '(out, b) := pciConfigReadWord bus device function 0x28 b in (u8 (Z.land out 0xFF), b).

(** The six stores into the slot of the table; progif and deviceId stay. *)
Definition checkFunction (bus device function : Z) (s : pci B) : outcome (pci B) :=
  let '(baseClass, s) := on_bus (getBaseClass bus device function) s in
  let '(subClass, s) := on_bus (getSubClass bus device function) s in
  let '(vendorId, s) := on_bus (getVendorID bus device function) s in
  d ← device_at (device_index bus device function) s;
  put_device (device_index bus device function) (mk_pd baseClass subClass bus device function (pd_progif d) (u8 vendorId) (pd_deviceId d)) s.

(** The functions 1 to 7 of a device, with the check of the function. *)
Definition other_functions (bus device : Z) (check : Z -> pci B -> outcome (pci B)) (s : pci B) : outcome (pci B) :=
  r ← for_ 7 1 (fun function s =>
    let '(v, s) := on_bus (getVendorID bus device function) s in
    s ← (if decide (v <> 0xFFFF) then check function s else Done s); Done (inl (B := unit) s)) s;
  match r with inl s => Done s | inr _ => Fault end.

Definition checkDevice (bus device : Z) (s : pci B) : outcome (pci B) :=
  let '(vendorId, s) := on_bus (getVendorID bus device 0) s in
  if decide (vendorId = 0xFFFF) then Done s
  else
    s ← checkFunction bus device 0 s;
    let '(headerType, s) := on_bus (getHeaderType bus device 0) s in
    if decide (Z.land headerType 0x80 <> 0) then other_functions bus device (checkFunction bus device) s else Done s.

(** [for(device = 0; device < 32; device++) check(bus, device)] *)
Definition every_device (check : Z -> pci B -> outcome (pci B)) (s : pci B) : outcome (pci B) :=
  r ← for_ 32 0 (fun device s => s ← check device s; Done (inl (B := unit) s)) s;
  match r with inl s => Done s | inr _ => Fault end.
Definition checkBus (bus : Z) (s : pci B) : outcome (pci B) := every_device (checkDevice bus) s.

(** The loop over several host controllers: it ends at the first function
    that is there. *)
Definition host_loop (scan : Z -> pci B -> outcome (pci B)) (s : pci B) : outcome (pci B) :=
  r ← for_ 8 0 (fun function s =>
    let '(v, s) := on_bus (getVendorID 0 0 function) s in
    if decide (v <> 0xFFFF) then Done (inr s) else s ← scan function s; Done (inl s)) s;
  match r with inl s => Done s | inr s => Done s end.

Definition pci_probe_legacy (s : pci B) : outcome (pci B) :=
  let '(headerType, s) := on_bus (getHeaderType 0 0 0) s in
  if decide (Z.land headerType 0x80 = 0) then checkBus 0 s else host_loop checkBus s.

(** No value is returned when nothing matches: [None]. *)
Definition pci_find_first_by_type (type subtype : Z) (s : pci B) : outcome (option pci_device) :=
  r ← for_ (Z.to_nat 65536) 0 (fun i _ =>
    d ← device_at i s;
    if decide (pd_type d <> type) then Done (inl ())
    else if decide (pd_subclass d <> subtype) then Done (inl ())
    else Done (inr d)) ();
  match r with inl _ => Done None | inr d => Done (Some d) end.

(** ** The configuration space in memory *)

Definition ecam_address (bus slot func offset base : Z) : Z := u64 (((bus * 256 + slot * 8 + func) * 4096 + offset) + base).

Section Ecam.
Context (bus slot func offset base : Z).
#[local] Notation address := (ecam_address bus slot func offset base).
Definition pcieConfigReadByte (b : B) : Z * B := let '(v, b) := readw address b in (u8 v, b).
Definition pcieConfigReadWord (b : B) : Z * B := readw address b.
Definition pcieConfigReadDWord (b : B) : Z * B := readl address b.
(** The pointer is one to 16 bits in the byte access too. *)
Definition pcieConfigWriteByte (value : Z) (b : B) : B := writew address value b.
Definition pcieConfigWriteWord (value : Z) (b : B) : B := writew address value b.
Definition pcieConfigWriteDWord (value : Z) (b : B) : B := writel address value b.
End Ecam.

Definition low_byte (out : Z) : Z := u8 (Z.land out 0xFF).
Definition high_byte (out : Z) : Z := u8 (Z.land (Z.shiftr out 8) 0xFF).

Section Fields.
Context (bus device function : Z).
#[local] Notation config_word offset s := (on_bus (pcieConfigReadWord bus device function offset (pciBase s)) s).
Definition pcieGetVendorID (s : pci B) : Z * pci B := config_word 0 s.
Definition pcieGetHeaderType (s : pci B) : Z * pci B := let '(out, s) := config_word 0xe s in (low_byte out, s).
Definition pcieGetBaseClass (s : pci B) : Z * pci B := let '(out, s) := config_word 0xa s in (high_byte out, s).
Definition pcieGetSubClass (s : pci B) : Z * pci B := let '(out, s) := config_word 0xa s in (low_byte out, s).
Definition pcieGetProgIf (s : pci B) : Z * pci B := let '(out, s) := config_word 0x8 s in (high_byte out, s).
Definition pcieBusGetPrimary (s : pci B) : Z * pci B := let '(out, s) := config_word 0x18 s in (low_byte out, s).
Definition pcieBusGetSecondary (s : pci B) : Z * pci B := let '(out, s) := config_word 0x18 s in (high_byte out, s).
End Fields.

(** Behind a bridge the devices are looked for through the ports. *)
Definition checkFunctionPCIe (bus device function : Z) (s : pci B) : outcome (pci B) :=
  let '(baseClass, s) := pcieGetBaseClass bus device function s in
  let '(subClass, s) := pcieGetSubClass bus device function s in
  let '(vendorId, s) := pcieGetVendorID bus device function s in
  let '(progIf, s) := pcieGetProgIf bus device function s in
  s ← (if decide (baseClass = 0x6 /\ subClass = 0x4) then
         let '(secondaryBus, s) := pcieBusGetSecondary bus device function s in
         let '(_, s) := pcieBusGetPrimary bus device function s in
         every_device (checkDevice secondaryBus) s
       else Done s);
  d ← device_at (device_index bus device function) s;
  put_device (device_index bus device function) (mk_pd baseClass subClass bus device function progIf (u8 vendorId) (pd_deviceId d)) s.

Definition checkDevicePCIe (bus device : Z) (s : pci B) : outcome (pci B) :=
  let '(vendorId, s) := pcieGetVendorID bus device 0 s in
  if decide (vendorId = 0xFFFF) then Done s
  else
    s ← checkFunctionPCIe bus device 0 s;
    let '(headerType, s) := pcieGetHeaderType bus device 0 s in
    if decide (Z.land headerType 0x80 <> 0) then other_functions bus device (checkFunctionPCIe bus device) s else Done s.

(** ** The ACPI tables *)

(** The sum of [n] bytes, as an unsigned char. *)
Definition byte_sum (n p : Z) (m : mem) : outcome Z :=
  r ← for_ (Z.to_nat n) 0 (fun i sum => c ← load m (p + i); Done (inl (B := unit) (u8 (sum + s8 c)))) 0;
  match r with inl sum => Done sum | inr _ => Fault end.

Definition sizeof_SDTHeader : Z := 36.
Definition sizeof_RSDP : Z := 20.
Definition sizeof_XSDP : Z := 36.

Definition doChecksum (tableHeader : Z) (m : mem) : outcome bool :=
  len ← load_le 4 m (tableHeader + 4); sum ← byte_sum len tableHeader m; Done (bool_decide (sum = 0)).
Definition doChecksumXSDP (tableHeader : Z) (m : mem) : outcome bool :=
  sum ← byte_sum sizeof_RSDP tableHeader m;
  if decide (sum <> 0) then Done false
  else sum ← byte_sum (sizeof_XSDP - sizeof_RSDP) (tableHeader + sizeof_RSDP) m; Done (bool_decide (sum = 0)).
Definition doChecksumRSDP (tableHeader : Z) (m : mem) : outcome bool :=
  sum ← byte_sum sizeof_RSDP tableHeader m; Done (bool_decide (sum = 0)).

(** [!strncmp(p, sig, n)] for a literal without a terminator. *)
Fixpoint has_signature (sig : list Z) (p : Z) (m : mem) : outcome bool :=
  match sig with
  | [] => Done true
  | c :: sig => x ← load m p; if decide (x = c) then has_signature sig (p + 1) m else Done false
  end.

(** The entries of an MCFG table; the last one stays. *)
Definition mcfg_bases (mcfg : Z) (m : mem) (s : pci B) : outcome (pci B) :=
  len ← load_le 4 m (mcfg + 4);
  r ← for_ (Z.to_nat (u32 (len - 44) / 16)) 0 (fun j s =>
    base ← load_le 8 m (mcfg + 44 + 16 * j); Done (inl (B := unit) (set_base (memmgr_get_from_physical base) s))) s;
  match r with inl s => Done s | inr _ => Fault end.

Definition table_step (rsdt : Z) (m : mem) (i : Z) (s : pci B) : outcome (pci B + pci B) :=
  p ← load_le 4 m (rsdt + sizeof_SDTHeader + 4 * i);
  let h := memmgr_get_from_physical p in
  found ← has_signature [77; 67; 70; 71] h m;
  if (found : bool) then
    ok ← doChecksum h m;
    if (ok : bool) then s ← mcfg_bases h m s; Done (inl s) else Done (inr s)
  else Done (inl s).

(** ** pci_init *)

Definition unclassified (s : pci B) : outcome (pci B) :=
  r ← for_ (Z.to_nat 65536) 0 (fun i s =>
    d ← device_at i s;
    s ← put_device i (mk_pd 0xFF (pd_subclass d) (pd_bus d) (pd_slot d) (pd_function d) (pd_progif d) (pd_vendorId d) (pd_deviceId d)) s;
    Done (inl (B := unit) s)) s;
  match r with inl s => Done s | inr _ => Fault end.

Definition probe (s : pci B) : outcome (pci B) :=
  let '(headerType, s) := pcieGetHeaderType 0 0 0 s in
  if decide (Z.land headerType 0x80 = 0) then every_device (checkDevicePCIe 0) s
  else host_loop (fun bus => every_device (checkDevicePCIe bus)) s.

Definition PCI_COMMAND_MEMORY_SPACE : Z := Z.shiftl 1 1.
Definition PCI_COMMAND_BUS_MASTER : Z := Z.shiftl 1 2.

(** Bus mastering and memory accesses on, interrupts not disabled. *)
Definition command_value (command : Z) : Z :=
  Z.land (u16 (Z.lor command (Z.lor PCI_COMMAND_BUS_MASTER PCI_COMMAND_MEMORY_SPACE))) (Z.lnot (Z.shiftl 1 10)).

(** The read of the word at 0x24 through the ports has no use. *)
Definition setup_device (device : pci_device) (s : pci B) : outcome (pci B) :=
  let '(bus, slot, function, base) := (pd_bus device, pd_slot device, pd_function device, pciBase s) in
  let '(command, b) := pcieConfigReadWord bus slot function 0x4 base (p_bus s) in
  let b := pcieConfigWriteWord bus slot function 0x4 base (command_value command) b in
  let '(interruptLine, b) := pcieConfigReadWord bus slot function 0x3C base b in
  let '(abar, b) := pcieConfigReadDWord bus slot function 0x24 base b in
  let '(_, b) := pciConfigReadWord bus slot function 0x24 b in
  b ← setup_controller abar (Z.land interruptLine 0xFF) b; Done (set_bus b s).

Definition setup_devices (s : pci B) : outcome (pci B) :=
  r ← for_ (Z.to_nat 65536) 0 (fun i s =>
    device ← device_at i s;
    if decide (pd_type device = 1 /\ pd_subclass device = 6 /\ pd_progif device = 1) then s ← setup_device device s; Done (inl (B := unit) s)
    else Done (inl s)) s;
  match r with inl s => Done s | inr _ => Fault end.

Definition pci_init (rsdp : Z) (m : mem) (s : pci B) : outcome (pci B) :=
  ok ← doChecksumRSDP rsdp m;
  if negb ok then Done s
  else
    address ← load_le 4 m (rsdp + 16);
    let rsdt := memmgr_get_from_physical address in
    ok ← doChecksum rsdt m;
    if negb ok then Done s
    else
      len ← load_le 4 m (rsdt + 4);
      r ← for_ (Z.to_nat (u64 (len - sizeof_SDTHeader) / 4)) 0 (table_step rsdt m) s;
      match r with
      | inr s => Done s
      | inl s => s ← unclassified s; s ← probe s; setup_devices s
      end.
End Pci.

(** ** Facts on the configuration address *)

Lemma lor_add a b k : 0 <= k -> a mod 2 ^ k = 0 -> 0 <= b < 2 ^ k -> Z.lor a b = a + b.
Proof.
  intros Hk Ha Hb. rewrite <-Z.lxor_lor, <-Z.add_nocarry_lxor; [done| |].
  all: apply Z.bits_inj_0; intros i; rewrite Z.land_spec; destruct (decide (i < 0)); [by rewrite Z.testbit_neg_r by lia|].
  all: destruct (decide (i < k)); [rewrite <-(Z.mod_pow2_bits_low a k i), Ha, Z.bits_0 by lia; done|].
  all: rewrite <-(Z.mod_small b (2 ^ k)), Z.mod_pow2_bits_high by lia; apply andb_false_r.
Qed.

(** The register of an offset. *)
Definition register (offset : Z) : Z := offset / 4 * 4.

Lemma land_fc o : 0 <= o < 256 -> Z.land o 0xFC = register o.
Proof.
  intros Ho. unfold register. change 0xFC with (Z.shiftl (Z.ones 6) 2). change 4 with (2 ^ 2). rewrite <-Z.shiftr_div_pow2, <-Z.shiftl_mul_pow2 by lia.
  apply Z.bits_inj'. intros i Hi. rewrite Z.land_spec, !Z.shiftl_spec by done. destruct (decide (i < 2)).
  - rewrite !(Z.testbit_neg_r _ (i - 2)) by lia. apply andb_false_r.
  - rewrite Z.shiftr_spec by lia. replace (i - 2 + 2) with i by lia. rewrite Z.testbit_ones by lia.
    destruct (decide (i < 8)); [rewrite (proj2 (Z.leb_le 0 (i - 2))), (proj2 (Z.ltb_lt (i - 2) 6)) by lia; apply andb_true_r|].
    rewrite <-(Z.mod_small o (2 ^ 8)), Z.mod_pow2_bits_high by lia. done.
Qed.

Definition function_ok (bus slot func offset : Z) : Prop := 0 <= bus < 256 /\ 0 <= slot < 32 /\ 0 <= func < 8 /\ 0 <= offset < 256.

Lemma config_address_value bus slot func offset : function_ok bus slot func offset ->
  config_address bus slot func offset = 2 ^ 31 + bus * 65536 + slot * 2048 + func * 256 + register offset.
Proof.
  intros (Hb & Hs & Hf & Ho). unfold config_address. rewrite land_fc by done. rewrite !Z.shiftl_mul_pow2 by lia.
  change (2 ^ 16) with 65536. change (2 ^ 11) with 2048. change (2 ^ 8) with 256. change 0x80000000 with (2 ^ 31). rewrite (u32_small (bus * 65536)), (u32_small (slot * 2048)), (u32_small (func * 256)) by lia.
  assert (Hr : 0 <= register offset < 256) by (unfold register; pose proof (Z.div_pos offset 4); pose proof (Z.mul_div_le offset 4); lia).
  rewrite (lor_add (bus * 65536) (slot * 2048) 16) by (first [lia | change (2 ^ 16) with 65536; rewrite ?Z.mod_mul; lia]).
  rewrite (lor_add (bus * 65536 + slot * 2048) (func * 256) 11); [|lia| |lia].
  2: { replace (bus * 65536 + slot * 2048) with ((bus * 32 + slot) * 2 ^ 11) by lia. apply Z.mod_mul. lia. }
  rewrite (lor_add (bus * 65536 + slot * 2048 + func * 256) (register offset) 8); [|lia| |lia].
  2: { replace (bus * 65536 + slot * 2048 + func * 256) with ((bus * 256 + slot * 8 + func) * 2 ^ 8) by lia. apply Z.mod_mul. lia. }
  rewrite Z.lor_comm, (lor_add (2 ^ 31) _ 31); [|lia|apply Z.mod_same; lia|lia]. rewrite u32_small; lia.
Qed.

Lemma config_address_inj bus slot func offset bus' slot' func' offset' : function_ok bus slot func offset -> function_ok bus' slot' func' offset' ->
  config_address bus slot func offset = config_address bus' slot' func' offset' -> bus = bus' /\ slot = slot' /\ func = func' /\ register offset = register offset'.
Proof.
  intros H H' E. rewrite !config_address_value in E by done. destruct H as (Hb & Hs & Hf & Ho), H' as (Hb' & Hs' & Hf' & Ho').
  assert (Hr : 0 <= register offset < 256) by (unfold register; pose proof (Z.div_pos offset 4); pose proof (Z.mul_div_le offset 4); lia).
  assert (Hr' : 0 <= register offset' < 256) by (unfold register; pose proof (Z.div_pos offset' 4); pose proof (Z.mul_div_le offset' 4); lia). lia.
Qed.

(** ** The ports as documented

    A write to 0xCF8 selects a register of 32 bits; accesses of 0xCFC are
    accesses of that register, narrower ones of its low part. *)
Class ConfigPorts (B : Type) `{PB : PortBus B} := {
  latch : B -> Z;
  conf : B -> Z -> Z;
  conf_range : forall b a, 0 <= conf b a < 2 ^ 32;
  cp_select : forall v b, latch (outl 0xCF8 v b) = v /\ forall a, conf (outl 0xCF8 v b) a = conf b a;
  cp_read : forall b, let '(v, b') := inl_ 0xCFC b in v = conf b (latch b) /\ latch b' = latch b /\ forall a, conf b' a = conf b a;
  cp_write_dword : forall v b a, conf (outl 0xCFC v b) a = if decide (a = latch b) then u32 v else conf b a;
  cp_write_word : forall v b a, conf (outw 0xCFC v b) a = if decide (a = latch b) then conf b a / 2 ^ 16 * 2 ^ 16 + u16 v else conf b a;
  cp_write_byte : forall v b a, conf (outb 0xCFC v b) a = if decide (a = latch b) then conf b a / 2 ^ 8 * 2 ^ 8 + u8 v else conf b a
}.

Section Ports.
Context {B : Type} `{PB : PortBus B} `{CP : !ConfigPorts B}.

(** The half of a register that an offset means. *)
Definition half (offset v : Z) : Z := if decide (offset mod 4 < 2) then v mod 2 ^ 16 else v / 2 ^ 16.

Lemma half_shift offset v : 0 <= v < 2 ^ 32 -> Z.land (Z.shiftr v (Z.land offset 2 * 8)) 0xFFFF = half offset v.
Proof.
  intros Hv. unfold half. change 0xFFFF with (Z.ones 16). rewrite Z.land_ones by lia.
  assert (E : Z.land offset 2 = if decide (offset mod 4 < 2) then 0 else 2).
  { change (Z.land offset 2) with (Z.land offset (2 ^ 1)). assert (Ht : Z.testbit offset 1 = negb (bool_decide (offset mod 4 < 2))).
    { rewrite <-(Z.mod_pow2_bits_low offset 2 1) by lia. change (2 ^ 2) with 4. pose proof (Z.mod_pos_bound offset 4 ltac:(lia)).
      assert (offset mod 4 = 0 \/ offset mod 4 = 1 \/ offset mod 4 = 2 \/ offset mod 4 = 3) as [-> | [-> | [-> | ->]]] by lia; done. }
    apply Z.bits_inj'. intros i Hi. rewrite Z.land_spec, Z.pow2_bits_eqb by lia. destruct (decide (i = 1)) as [->|Hne].
    - rewrite Ht, andb_true_r. case_bool_decide; [rewrite decide_True by done|rewrite decide_False by done]; done.
    - rewrite (proj2 (Z.eqb_neq 1 i)) by done. rewrite andb_false_r. destruct (decide (offset mod 4 < 2)); [by rewrite Z.bits_0|].
      change 2 with (2 ^ 1). rewrite Z.pow2_bits_eqb by lia. by rewrite (proj2 (Z.eqb_neq 1 i)). }
  rewrite E. destruct (decide (offset mod 4 < 2)); cbn -[Z.pow].
  - by rewrite Z.shiftr_0_r.
  - rewrite Z.shiftr_div_pow2 by lia. rewrite Z.mod_small; [done|]. split; [apply Z.div_pos; lia|apply Z.div_lt_upper_bound; lia].
Qed.

Lemma read_word_value bus slot func offset b : let '(v, b') := pciConfigReadWord bus slot func offset b in
  v = half offset (conf b (config_address bus slot func offset)) /\ forall a, conf b' a = conf b a.
Proof.
  unfold pciConfigReadWord. destruct (cp_select (config_address bus slot func offset) b) as (Hl & Hc). pose proof (cp_read (outl 0xCF8 (config_address bus slot func offset) b)) as Hr.
  destruct (inl_ 0xCFC _) as [v b']. destruct Hr as (-> & _ & Hc'). rewrite Hl, Hc. rewrite half_shift by apply conf_range. split; [done|]. intros a. by rewrite Hc', Hc.
Qed.
End Ports.

Section PortFacts.
Context {B : Type} `{PB : PortBus B} `{CP : !ConfigPorts B}.

(** The configuration space through the ports.  A double word written to a
    register of a function is what the words of that register read afterwards,
    each its own half; the words of every other register, and of every other
    function, read as before. *)
Theorem config_write_read bus slot func offset value bus' slot' func' offset' (b : B) :
  function_ok bus slot func offset -> function_ok bus' slot' func' offset' ->
  (pciConfigReadWord bus' slot' func' offset' (pciConfigWriteDword bus slot func offset value b)).1 =
    if decide (bus' = bus /\ slot' = slot /\ func' = func /\ register offset' = register offset) then half offset' (u32 value)
    else (pciConfigReadWord bus' slot' func' offset' b).1.
Proof.
  intros H H'. pose proof (read_word_value bus' slot' func' offset' b) as Hr. pose proof (read_word_value bus' slot' func' offset' (pciConfigWriteDword bus slot func offset value b)) as Hw.
  destruct (pciConfigReadWord bus' slot' func' offset' b) as [v b1]. destruct (pciConfigReadWord _ _ _ _ (pciConfigWriteDword _ _ _ _ _ _)) as [w b2]. cbn [fst].
  destruct Hr as (-> & _), Hw as (-> & _). unfold pciConfigWriteDword. rewrite cp_write_dword. destruct (cp_select (config_address bus slot func offset) b) as (Hl & Hc). rewrite Hl, Hc.
  destruct (decide (config_address bus' slot' func' offset' = config_address bus slot func offset)) as [E|E].
  - by rewrite decide_True by by apply config_address_inj.
  - rewrite decide_False; [done|]. intros (-> & -> & -> & Er). apply E. rewrite !config_address_value by done. by rewrite Er.
Qed.

(** A word at an offset with bit 1 set, such as the upper half of a
    register, is not written by pciConfigWriteWord: it reads as before, and the
    word below it has the value instead. *)
Theorem config_write_word_misplaced bus slot func offset value (b : B) : function_ok bus slot func offset -> 2 <= offset mod 4 ->
  let b' := pciConfigWriteWord bus slot func offset value b in
  (pciConfigReadWord bus slot func offset b').1 = (pciConfigReadWord bus slot func offset b).1 /\
  (pciConfigReadWord bus slot func (register offset) b').1 = u16 value.
Proof.
  intros H Hm. cbn zeta. assert (Hro : 0 <= register offset /\ register offset <= offset /\ register offset mod 4 = 0 /\ register (register offset) = register offset).
  { destruct H as (_ & _ & _ & Ho). unfold register. rewrite Z.mod_mul, Z.div_mul by lia. pose proof (Z.div_pos offset 4). pose proof (Z.mul_div_le offset 4). lia. }
  assert (H' : function_ok bus slot func (register offset)) by (destruct H as (? & ? & ? & ?); repeat split; lia).
  assert (Ea : config_address bus slot func (register offset) = config_address bus slot func offset) by (rewrite !config_address_value by done; destruct Hro as (_ & _ & _ & ->); done).
  set (b' := pciConfigWriteWord bus slot func offset value b). set (a := config_address bus slot func offset).
  assert (Hv : conf b' a = conf b a / 2 ^ 16 * 2 ^ 16 + u16 value).
  { unfold b', pciConfigWriteWord. fold a. rewrite cp_write_word. destruct (cp_select a b) as (Hl & Hc). rewrite Hl, Hc. by rewrite decide_True by done. }
  assert (Hu : 0 <= u16 value < 2 ^ 16) by (apply Z.mod_pos_bound; lia). pose proof (read_word_value bus slot func offset b) as Hr. pose proof (read_word_value bus slot func offset b') as Hw.
  pose proof (read_word_value bus slot func (register offset) b') as Hl.
  destruct (pciConfigReadWord bus slot func offset b) as [v b1], (pciConfigReadWord bus slot func offset b') as [w b2], (pciConfigReadWord bus slot func (register offset) b') as [x b3].
  destruct Hr as (-> & _), Hw as (-> & _), Hl as (-> & _). cbn [fst]. rewrite Ea. fold a. rewrite Hv. unfold half. destruct Hro as (_ & _ & Hz & _). rewrite Hz.
  rewrite !(decide_False (P := offset mod 4 < 2)) by lia. rewrite (decide_True (P := 0 < 2)) by lia. split.
  - rewrite Z.div_add_l by lia. rewrite (Z.div_small (u16 value)) by done. lia.
  - rewrite Z.add_comm, Z.mod_add by lia. by apply Z.mod_small.
Qed.
End PortFacts.

(** ** The configuration space in memory as documented

    [cfg] is the byte at an address; word and double word accesses are those of
    its bytes, and reading changes nothing. *)
Class Ecam (B : Type) `{MB : MmioBus B} := {
  cfg : B -> Z -> Z;
  cfg_range : forall b a, 0 <= cfg b a < 256;
  ecam_readw : forall a b, readw a b = (cfg b a + 256 * cfg b (a + 1), b);
  ecam_readl : forall a b, readl a b = (cfg b a + 256 * cfg b (a + 1) + 65536 * cfg b (a + 2) + 16777216 * cfg b (a + 3), b);
  ecam_writew : forall a v b x, cfg (writew a v b) x = if decide (x = a) then v mod 256 else if decide (x = a + 1) then v / 256 mod 256 else cfg b x;
  ecam_writel : forall a v b x, cfg (writel a v b) x = if decide (a <= x < a + 4) then v / 256 ^ (x - a) mod 256 else cfg b x
}.

Section EcamFacts.
Context {B : Type} `{MB : MmioBus B} `{EC : !Ecam B}.

Definition place_ok (bus slot func offset base : Z) : Prop :=
  0 <= bus < 256 /\ 0 <= slot < 32 /\ 0 <= func < 8 /\ 0 <= offset < 4096 /\ 0 <= base /\ base + 2 ^ 28 <= 2 ^ 64.

Lemma ecam_address_value bus slot func offset base : place_ok bus slot func offset base ->
  ecam_address bus slot func offset base = base + bus * 2 ^ 20 + slot * 2 ^ 15 + func * 2 ^ 12 + offset.
Proof. intros (Hb & Hs & Hf & Ho & Hp & Hm). unfold ecam_address. rewrite u64_small by lia. lia. Qed.

(** The configuration space in memory.  A byte written by
    pcieConfigWriteByte reads back, but the write has 16 bits: the byte behind
    it becomes 0.  Every other byte of every function, the functions being
    apart by their pages, stays. *)
Theorem ecam_byte_write_spills bus slot func offset base value bus' slot' func' offset' (b : B) :
  place_ok bus slot func offset base -> place_ok bus' slot' func' offset' base -> offset < 4095 -> 0 <= value < 256 ->
  (pcieConfigReadByte bus' slot' func' offset' base (pcieConfigWriteByte bus slot func offset base value b)).1 =
    if decide ((bus', slot', func') = (bus, slot, func) /\ offset' = offset) then value
    else if decide ((bus', slot', func') = (bus, slot, func) /\ offset' = offset + 1) then 0
    else (pcieConfigReadByte bus' slot' func' offset' base b).1.
Proof.
  intros H H' Hlast Hv. assert (Hread : forall (b : B), (pcieConfigReadByte bus' slot' func' offset' base b).1 = cfg b (ecam_address bus' slot' func' offset' base)).
  { intros b0. unfold pcieConfigReadByte. rewrite ecam_readw. cbn [fst]. unfold u8. pose proof (cfg_range b0 (ecam_address bus' slot' func' offset' base)).
    rewrite (Z.mul_comm 256), Z.mod_add by lia. by apply Z.mod_small. }
  rewrite !Hread. unfold pcieConfigWriteByte. rewrite ecam_writew, !ecam_address_value by done. rewrite (Z.mod_small value), Z.div_small by lia.
  destruct H as (Hb & Hs & Hf & Ho & _), H' as (Hb' & Hs' & Hf' & Ho' & _).
  destruct (decide (base + bus' * 2 ^ 20 + slot' * 2 ^ 15 + func' * 2 ^ 12 + offset' = base + bus * 2 ^ 20 + slot * 2 ^ 15 + func * 2 ^ 12 + offset)) as [E|E].
  { rewrite decide_True; [done|]. assert (bus' = bus) as -> by lia. assert (slot' = slot) as -> by lia. assert (func' = func) as -> by lia. split; [done|lia]. }
  rewrite (decide_False (P := _ /\ offset' = offset)) by (intros ([= -> -> ->] & ->); lia).
  destruct (decide (base + bus' * 2 ^ 20 + slot' * 2 ^ 15 + func' * 2 ^ 12 + offset' = base + bus * 2 ^ 20 + slot * 2 ^ 15 + func * 2 ^ 12 + offset + 1)) as [E'|E'].
  { rewrite decide_True; [done|]. assert (bus' = bus) as -> by lia. assert (slot' = slot) as -> by lia. assert (func' = func) as -> by lia. split; [done|lia]. }
  by rewrite decide_False by (intros ([= -> -> ->] & ->); lia).
Qed.
End EcamFacts.

(** ** The scan of a bus *)

Section Scan.
Context {B : Type} `{PB : PortBus B} `{MB : MmioBus B} `{EC : !Ecam B}.
Context (b : B) (base : Z) (base_ok : 0 <= base /\ base + 2 ^ 28 <= 2 ^ 64).

(** A byte of the configuration space of function 0 of a slot of bus 0. *)
Definition config_byte (slot off : Z) : Z := cfg b (base + slot * 2 ^ 15 + off).
Definition in_slot (slot : Z) : bool := bool_decide (config_byte slot 0 + 256 * config_byte slot 1 <> 0xFFFF).
(** What the table gets for a slot. *)
Definition slot_device (slot : Z) : pci_device :=
  mk_pd (config_byte slot 0xb) (config_byte slot 0xa) 0 slot 0 (config_byte slot 0x9) (config_byte slot 0) 0.
(** One function and no bridge. *)
Definition plain_slot (slot : Z) : Prop :=
  Z.land (config_byte slot 0xe) 0x80 = 0 /\ ~ (config_byte slot 0xb = 6 /\ config_byte slot 0xa = 4).

#[local] Notation st devs := (mk_pci b devs base).

Lemma low_high x y : 0 <= x < 256 -> 0 <= y < 256 -> low_byte (x + 256 * y) = x /\ high_byte (x + 256 * y) = y.
Proof.
  intros Hx Hy. unfold low_byte, high_byte. change 0xFF with (Z.ones 8). rewrite !Z.land_ones, Z.shiftr_div_pow2 by lia.
  change (2 ^ 8) with 256. rewrite (Z.mul_comm 256 y), Z.mod_add, Z.div_add, (Z.div_small x), (Z.mod_small x), Z.add_0_l, (Z.mod_small y) by lia.
  by rewrite !u8_small by lia.
Qed.

Lemma config_word_read slot off devs : 0 <= slot < 32 -> 0 <= off < 4096 ->
  on_bus (pcieConfigReadWord 0 slot 0 off base) (st devs) = (config_byte slot off + 256 * config_byte slot (off + 1), st devs).
Proof.
  intros Hs Ho. unfold on_bus, pcieConfigReadWord. cbn [p_bus]. rewrite ecam_readw, ecam_address_value by (repeat split; lia).
  unfold config_byte. rewrite Z.mul_0_l, !Z.add_0_r. by rewrite Z.add_assoc.
Qed.

Lemma slot_fields slot devs : 0 <= slot < 32 ->
  pcieGetVendorID 0 slot 0 (st devs) = (config_byte slot 0 + 256 * config_byte slot 1, st devs) /\
  pcieGetHeaderType 0 slot 0 (st devs) = (config_byte slot 0xe, st devs) /\
  pcieGetBaseClass 0 slot 0 (st devs) = (config_byte slot 0xb, st devs) /\
  pcieGetSubClass 0 slot 0 (st devs) = (config_byte slot 0xa, st devs) /\
  pcieGetProgIf 0 slot 0 (st devs) = (config_byte slot 0x9, st devs).
Proof.
  intros Hs. unfold pcieGetVendorID, pcieGetHeaderType, pcieGetBaseClass, pcieGetSubClass, pcieGetProgIf. cbn [pciBase]. rewrite !config_word_read by lia.
  assert (Hlh : forall off, low_byte (config_byte slot off + 256 * config_byte slot (off + 1)) = config_byte slot off /\
    high_byte (config_byte slot off + 256 * config_byte slot (off + 1)) = config_byte slot (off + 1)) by (intros; apply low_high; apply cfg_range).
  split; [done|]. rewrite (proj1 (Hlh 0xe)), (proj2 (Hlh 0xa)), (proj1 (Hlh 0xa)), (proj2 (Hlh 0x8)). done.
Qed.

Definition put_slot (slot : Z) (devs : gmap Z pci_device) : gmap Z pci_device :=
  <[32 * slot := mk_pd (config_byte slot 0xb) (config_byte slot 0xa) 0 slot 0 (config_byte slot 0x9) (config_byte slot 0) (pd_deviceId (default zero_device (devs !! (32 * slot))))]> devs.
Definition with_slot (slot : Z) (devs : gmap Z pci_device) : gmap Z pci_device := if in_slot slot then put_slot slot devs else devs.

Lemma check_function slot devs : 0 <= slot < 32 -> plain_slot slot -> checkFunctionPCIe 0 slot 0 (st devs) = Done (st (put_slot slot devs)).
Proof.
  intros Hs (_ & Hbr). destruct (slot_fields slot devs Hs) as (Hv & _ & Hc & Hsc & Hpi). unfold checkFunctionPCIe. rewrite Hc, Hsc, Hv, Hpi.
  rewrite (decide_False (P := _ /\ _)) by done. cbn [mbind outcome_bind]. unfold device_at, put_device, device_index.
  replace (256 * 0 + 32 * slot + 0) with (32 * slot) by lia. rewrite (decide_True (P := 0 <= 32 * slot < 65536)) by lia. cbn [mbind outcome_bind]. rewrite (decide_True (P := 0 <= 32 * slot < 65536)) by lia.
  unfold set_devices, put_slot. cbn [p_bus pciDevices pciBase].
  assert (E : u8 (config_byte slot 0 + 256 * config_byte slot 1) = config_byte slot 0); [|by rewrite E].
  unfold u8. rewrite (Z.mul_comm 256), Z.mod_add by lia. apply Z.mod_small, cfg_range.
Qed.

Lemma check_slot slot devs : 0 <= slot < 32 -> (in_slot slot = true -> plain_slot slot) -> checkDevicePCIe 0 slot (st devs) = Done (st (with_slot slot devs)).
Proof.
  intros Hs Hp. destruct (slot_fields slot devs Hs) as (Hv & _). unfold checkDevicePCIe, with_slot. rewrite Hv. unfold in_slot in *.
  destruct (decide (config_byte slot 0 + 256 * config_byte slot 1 = 0xFFFF)) as [E|E]; [by rewrite bool_decide_eq_false_2 by (intros Hne; by apply Hne)|].
  rewrite bool_decide_eq_true_2 in Hp |- * by done. specialize (Hp eq_refl). rewrite check_function by done. cbn [mbind outcome_bind].
  destruct (slot_fields slot (put_slot slot devs) Hs) as (_ & Hh & _). rewrite Hh. destruct Hp as (-> & _). by rewrite decide_False by (intros Hne; by apply Hne).
Qed.

(** The table after the first [k] slots. *)
Definition slots_in (k : Z) (old devs : gmap Z pci_device) : Prop := forall i, 0 <= i < 65536 ->
  default zero_device (devs !! i) =
    if decide (i mod 32 = 0 /\ i / 32 < k /\ in_slot (i / 32) = true) then
      mk_pd (config_byte (i / 32) 0xb) (config_byte (i / 32) 0xa) 0 (i / 32) 0 (config_byte (i / 32) 0x9) (config_byte (i / 32) 0) (pd_deviceId (default zero_device (old !! i)))
    else default zero_device (old !! i).

Lemma with_slot_in k old devs : 0 <= k < 32 -> slots_in k old devs -> slots_in (k + 1) old (with_slot k devs).
Proof.
  intros Hk Hs i Hi. unfold with_slot, put_slot. pose proof (Z.div_mod i 32 ltac:(lia)) as Hd. pose proof (Z.mod_pos_bound i 32 ltac:(lia)) as Hm.
  pose proof (Hs i Hi) as Hsi. destruct (decide (i = 32 * k)) as [->|Hne].
  - assert (E1 : 32 * k / 32 = k) by (rewrite Z.mul_comm; apply Z.div_mul; lia). assert (E2 : (32 * k) mod 32 = 0) by (rewrite Z.mul_comm; apply Z.mod_mul; lia).
    rewrite E1, E2 in *. rewrite decide_False in Hsi by lia. destruct (in_slot k) eqn:Ein.
    + rewrite lookup_insert_eq. cbn [default]. rewrite decide_True by (split; [done|split; [lia|done]]). by rewrite Hsi.
    + rewrite decide_False by (intros (_ & _ & ?); done). done.
  - assert (E : default zero_device ((if in_slot k then put_slot k devs else devs) !! i) = default zero_device (devs !! i)).
    { unfold put_slot. destruct (in_slot k); [|done]. by rewrite lookup_insert_ne by lia. }
    unfold put_slot in E. rewrite E, Hsi. destruct (decide (i mod 32 = 0 /\ i / 32 < k /\ in_slot (i / 32) = true)) as [Hy|Hn].
    + rewrite decide_True by (destruct Hy as (? & ? & ?); split_and!; [done|lia|done]). done.
    + rewrite decide_False; [done|]. intros (H1 & H2 & H3). apply Hn. split_and!; [done|lia|done].
Qed.

Lemma scan_bus old : (forall slot, 0 <= slot < 32 -> in_slot slot = true -> plain_slot slot) ->
  exists devs, every_device (checkDevicePCIe 0) (st old) = Done (st devs) /\ slots_in 32 old devs.
Proof.
  intros Hp. unfold every_device.
  destruct (for_total (A := unit) (fun k s => exists devs, s = st devs /\ slots_in k old devs) 32 0
    (fun device s => s ← checkDevicePCIe 0 device s; Done (inl s)) (st old)) as (s' & Hrun & devs & -> & Hin).
  - intros k s Hk (devs & -> & Hin). rewrite check_slot by (lia || (intros; apply Hp; [lia|done])). cbn [mbind outcome_bind].
    eexists. split; [done|]. eexists. split; [done|]. apply with_slot_in; [lia|done].
  - exists old. split; [done|]. intros i Hi. rewrite decide_False; [done|]. pose proof (Z.div_pos i 32). lia.
  - rewrite Hrun. cbn [mbind outcome_bind]. by exists devs.
Qed.

Lemma unclassified_all old : exists devs, unclassified (st old) = Done (st devs) /\
  forall i, 0 <= i < 65536 -> pd_type (default zero_device (devs !! i)) = 0xFF /\ pd_deviceId (default zero_device (devs !! i)) = pd_deviceId (default zero_device (old !! i)).
Proof.
  unfold unclassified.
  match goal with |- context [for_ ?n 0 ?body _] => destruct (for_total (A := unit) (fun k s => exists devs, s = st devs /\
      forall i, 0 <= i < 65536 -> (i < k -> pd_type (default zero_device (devs !! i)) = 0xFF) /\ pd_deviceId (default zero_device (devs !! i)) = pd_deviceId (default zero_device (old !! i)))
    n 0 body (st old)) as (s' & Hrun & devs & -> & Hall) end.
  - intros k s Hk (devs & -> & Hin). unfold device_at, put_device. cbn [pciDevices]. rewrite decide_True by lia. cbn [mbind outcome_bind].
    rewrite decide_True by lia. cbn [mbind outcome_bind]. eexists. split; [done|]. eexists. split; [done|]. intros i Hi.
    destruct (decide (i = k)) as [->|Hne].
    + rewrite lookup_insert_eq. cbn [default pd_type pd_deviceId]. split; [done|]. by apply Hin.
    + rewrite lookup_insert_ne by done. split; [|by apply Hin]. intros Hlt. apply Hin; lia.
  - exists old. split; [done|]. intros i Hi. split; [lia|done].
  - rewrite Hrun. cbn [mbind outcome_bind]. exists devs. split; [done|]. intros i Hi. split; [apply Hall; lia|by apply Hall].
Qed.

(** The first slot of a class. *)
Definition of_class (type subtype : Z) (slot : Z) : Prop := in_slot slot = true /\ config_byte slot 0xb = type /\ config_byte slot 0xa = subtype.

Lemma find_first type subtype (s : pci B) : exists r, pci_find_first_by_type type subtype s = Done r /\
  match r with
  | Some x => exists i, 0 <= i < 65536 /\ x = default zero_device (pciDevices s !! i) /\ pd_type x = type /\ pd_subclass x = subtype /\
      forall j, 0 <= j < i -> ~ (pd_type (default zero_device (pciDevices s !! j)) = type /\ pd_subclass (default zero_device (pciDevices s !! j)) = subtype)
  | None => forall j, 0 <= j < 65536 -> ~ (pd_type (default zero_device (pciDevices s !! j)) = type /\ pd_subclass (default zero_device (pciDevices s !! j)) = subtype)
  end.
Proof.
  unfold pci_find_first_by_type.
  match goal with |- context [for_ ?n 0 ?body ()] => pose proof (for_inv (fun k _ => forall j, 0 <= j < k -> ~ (pd_type (default zero_device (pciDevices s !! j)) = type /\ pd_subclass (default zero_device (pciDevices s !! j)) = subtype))
    (fun x => exists i, 0 <= i < 65536 /\ x = default zero_device (pciDevices s !! i) /\ pd_type x = type /\ pd_subclass x = subtype /\
      forall j, 0 <= j < i -> ~ (pd_type (default zero_device (pciDevices s !! j)) = type /\ pd_subclass (default zero_device (pciDevices s !! j)) = subtype)) n 0 body ()) as H end.
  destruct (for_ _ _ _ _) as [[u|x]| | |]; cbn [mbind outcome_bind]; try (exfalso; apply H; [|intros j Hj; lia]; clear H).
  1: exists None; split; [done|]; apply H; [|intros j Hj; lia]; clear H.
  2: exists (Some x); split; [done|]; apply H; [|intros j Hj; lia]; clear H.
  all: intros k _ Hk Hno; unfold device_at; rewrite decide_True by lia; cbn [mbind outcome_bind].
  all: destruct (decide (pd_type (default zero_device (pciDevices s !! k)) <> type)) as [Ht|Ht];
    [intros j Hj; destruct (decide (j = k)) as [->|]; [by intros (? & _)|apply Hno; lia]|].
  all: destruct (decide (pd_subclass (default zero_device (pciDevices s !! k)) <> subtype)) as [Hs|Hs];
    [intros j Hj; destruct (decide (j = k)) as [->|]; [by intros (_ & ?)|apply Hno; lia]|].
  all: exists k; split; [lia|]; split; [done|]; split; [by apply dec_stable|]; split; [by apply dec_stable|]; done.
Qed.
End Scan.

Section ScanClaim.
Context {B : Type} `{PB : PortBus B} `{MB : MmioBus B} `{EC : !Ecam B}.

(** C24: The scan and the search.  On a machine with one host bridge whose
    devices on bus 0 have one function each and are no bridges, the part of
    pci_init that clears the table and probes the bus returns and does nothing
    to the hardware; afterwards pci_find_first_by_type finds for every class
    but 0xFF the present device with the lowest slot of that class, with its
    slot, programming interface and the low byte of its vendor, and nothing
    exactly when there is none. *)
Theorem scan_then_find (b : B) base old type subtype : 0 <= base /\ base + 2 ^ 28 <= 2 ^ 64 ->
  (forall i, pd_deviceId (default zero_device (old !! i)) = 0) -> Z.land (config_byte b base 0 0xe) 0x80 = 0 ->
  (forall slot, 0 <= slot < 32 -> in_slot b base slot = true -> plain_slot b base slot) -> type <> 0xFF ->
  exists s1 devs r, unclassified (mk_pci b old base) = Done s1 /\ probe s1 = Done (mk_pci b devs base) /\
    pci_find_first_by_type type subtype (mk_pci b devs base) = Done r /\
    match r with
    | Some x => exists slot, 0 <= slot < 32 /\ of_class b base type subtype slot /\ x = slot_device b base slot /\
        forall slot', 0 <= slot' < slot -> ~ of_class b base type subtype slot'
    | None => forall slot, 0 <= slot < 32 -> ~ of_class b base type subtype slot
    end.
Proof.
  intros Hbase Hid Hhost Hplain Htype. destruct (unclassified_all b base old) as (devs1 & Hu & Hff).
  destruct (scan_bus b base Hbase devs1 Hplain) as (devs & Hscan & Hin). destruct (find_first type subtype (mk_pci b devs base)) as (r & Hfind & Hr).
  exists (mk_pci b devs1 base), devs, r. split; [done|]. split.
  { unfold probe. destruct (slot_fields b base Hbase 0 devs1 ltac:(lia)) as (_ & -> & _). by rewrite decide_True by done. }
  split; [done|]. cbn [pciDevices] in Hr.
  assert (Hentry : forall i, 0 <= i < 65536 -> pd_type (default zero_device (devs !! i)) = type -> i mod 32 = 0 /\ 0 <= i / 32 < 32 /\ in_slot b base (i / 32) = true /\
      default zero_device (devs !! i) = slot_device b base (i / 32)).
  { intros i Hi Ht. rewrite (Hin i Hi) in Ht |- *. destruct (decide _) as [(H1 & H2 & H3)|_]; [|exfalso; apply Htype; rewrite <-Ht; by apply Hff].
    assert (0 <= i / 32 < 32) by (split; [apply Z.div_pos; lia|exact H2]). split; [exact H1|]. split; [assumption|]. split; [exact H3|]. unfold slot_device. destruct (Hff i Hi) as (_ & E). rewrite E, Hid. reflexivity. }
  assert (Hslot : forall slot, 0 <= slot < 32 -> in_slot b base slot = true -> default zero_device (devs !! (32 * slot)) = slot_device b base slot).
  { intros slot Hs Hp. rewrite (Hin (32 * slot)) by lia. assert (E1 : 32 * slot / 32 = slot) by (rewrite Z.mul_comm; apply Z.div_mul; lia).
    assert (E2 : (32 * slot) mod 32 = 0) by (rewrite Z.mul_comm; apply Z.mod_mul; lia). rewrite E1, E2. rewrite decide_True by (split_and!; [done|lia|done]).
    unfold slot_device. destruct (Hff (32 * slot) ltac:(lia)) as (_ & ->). by rewrite Hid. }
  destruct r as [x|].
  - destruct Hr as (i & Hi & -> & Ht & Hs & Hfirst). destruct (Hentry i Hi Ht) as (Hm & Hd & Hp & Ex). rewrite Ex in Ht, Hs |- *. cbn in Ht, Hs.
    exists (i / 32). split; [exact Hd|]. split; [exact (conj Hp (conj Ht Hs))|]. split; [reflexivity|]. intros slot' Hsl (Hp' & Ht' & Hs'). pose proof (Z.div_mod i 32 ltac:(lia)).
    apply (Hfirst (32 * slot')); [lia|]. rewrite Hslot; [exact (conj Ht' Hs')|lia|exact Hp'].
  - intros slot Hs (Hp & Ht & Hsub). apply (Hr (32 * slot)); [lia|]. rewrite Hslot; [exact (conj Ht Hsub)|exact Hs|exact Hp].
Qed.
End ScanClaim.

(** ** Several hosts, and the places of the table *)

Section Hosts.
Context {B : Type} `{PB : PortBus B} `{MB : MmioBus B} `{EC : !Ecam B} `{CP : !ConfigPorts B}.

(** A machine with several host bridges.  When the header of 0:0.0 says
    that it has several functions and the function is there, which it is, the
    probe ends at once: no device enters the table. *)
Theorem several_hosts_found_none (b : B) devs base : 0 <= base /\ base + 2 ^ 28 <= 2 ^ 64 -> Z.land (config_byte b base 0 0xe) 0x80 <> 0 ->
  conf b (config_address 0 0 0 0) mod 2 ^ 16 <> 0xFFFF ->
  exists b', probe (mk_pci b devs base) = Done (mk_pci b' devs base).
Proof.
  intros Hbase Hh Hv. unfold probe. destruct (slot_fields b base Hbase 0 devs ltac:(lia)) as (_ & -> & _). rewrite decide_False by exact Hh.
  unfold host_loop. cbn [for_]. unfold on_bus, getVendorID. cbn [p_bus]. pose proof (read_word_value 0 0 0 0 b) as Hr. destruct (pciConfigReadWord 0 0 0 0 b) as [v b'].
  destruct Hr as (Hval & _). assert (Hne : v <> 0xFFFF) by (rewrite Hval; exact Hv). rewrite (decide_True (P := v <> 0xFFFF)) by exact Hne.
  cbn [mbind outcome_bind]. by exists b'.
Qed.
End Hosts.

Section Places.
Context {B : Type} `{PB : PortBus B} `{MB : MmioBus B}.

Lemma put_device_outside i d (s : pci B) : 65536 <= i -> device_at i s = Fault /\ put_device i d s = Fault.
Proof. intros Hi. unfold device_at, put_device. by rewrite !decide_False by lia. Qed.

(** The places of the table.  The functions of the slots 0 to 7 have places
    of their own inside the table.  The place of a function in a higher slot is
    that of a slot of the next bus, and on bus 255 it is behind the table:
    recording it there is a fault. *)
Theorem device_places bus slot func bus' slot' func' (s : pci B) : 0 <= bus < 256 -> 0 <= slot < 32 -> 0 <= func < 8 -> 0 <= bus' < 256 -> 0 <= slot' < 8 -> 0 <= func' < 8 ->
  (slot < 8 -> 0 <= device_index bus slot func < 65536 /\
     (device_index bus slot func = device_index bus' slot' func' -> bus = bus' /\ slot = slot' /\ func = func')) /\
  (8 <= slot -> device_index bus slot func = device_index (bus + 1) (slot - 8) func) /\
  (8 <= slot -> bus = 255 -> checkFunction bus slot func s = Fault).
Proof.
  unfold device_index. intros Hb Hs Hf Hb' Hs' Hf'. split; [intros H8; split; [lia|intros E; lia]|]. split; [lia|]. intros H8 ->. unfold checkFunction.
  destruct (on_bus (getBaseClass 255 slot func) s) as [c s1]. destruct (on_bus (getSubClass 255 slot func) s1) as [c2 s2]. destruct (on_bus (getVendorID 255 slot func) s2) as [v s3].
  unfold device_index. by rewrite (proj1 (put_device_outside (256 * 255 + 32 * slot + func) zero_device s3 ltac:(lia))).
Qed.
End Places.

(** ** The checksum *)

Lemma byte_sum_ok n p m l : bytes_at m p l -> Z.of_nat (length l) = n -> Forall (fun c => 0 <= c < 256) l ->
  byte_sum n p m = Done (foldr Z.add 0 l mod 256).
Proof.
  intros Hb <- HF. unfold byte_sum. rewrite Nat2Z.id.
  destruct (for_total (A := unit) (fun k sum => sum = foldr Z.add 0 (take (Z.to_nat k) l) mod 256) (length l) 0
    (fun i sum => c ← load m (p + i); Done (inl (u8 (sum + s8 c)))) 0) as (s' & Hrun & ->).
  - intros k sum Hk ->. destruct (lookup_lt_is_Some_2 l (Z.to_nat k) ltac:(lia)) as [c Hc].
    rewrite (load_done m (p + k) c). 2: { rewrite <-(Hb _ _ Hc). f_equal. lia. }
    cbn [mbind outcome_bind]. eexists. split; [done|]. replace (Z.to_nat (k + 1)) with (S (Z.to_nat k)) by lia. rewrite (take_S_r _ _ _ Hc).
    assert (Hadd : forall a b, foldr Z.add 0 (a ++ b) = foldr Z.add 0 a + foldr Z.add 0 b) by (induction a as [|x a IH]; intros b; cbn; [lia|rewrite IH; lia]).
    rewrite Hadd. cbn [foldr]. unfold u8. rewrite Z.add_0_r, Zplus_mod_idemp_l. unfold s8. rewrite Forall_lookup in HF. specialize (HF _ _ Hc). cbn in HF.
    unfold sw. assert (E : ((c + 2 ^ (8 - 1)) mod 2 ^ 8 - 2 ^ (8 - 1)) mod 2 ^ 8 = c mod 2 ^ 8).
    { rewrite Zminus_mod_idemp_l. f_equal. lia. }
    rewrite Z.add_mod, E, <-Z.add_mod by lia. done.
  - done.
  - rewrite Hrun. cbn [mbind outcome_bind]. by rewrite Z.add_0_l, Nat2Z.id, firstn_all.
Qed.

(** The checksums of the ACPI tables.  A table of the length in its header
    passes exactly when its bytes add up to 0 modulo 256; of a root pointer
    the first 20 bytes count, and the extended one needs its other 16 bytes to
    add up as well. *)
Theorem checksums p m l : bytes_at m p l -> Forall (fun c => 0 <= c < 256) l ->
  (load_le 4 m (p + 4) = Done (Z.of_nat (length l)) -> doChecksum p m = Done (bool_decide (foldr Z.add 0 l mod 256 = 0))) /\
  (length l = 20%nat -> doChecksumRSDP p m = Done (bool_decide (foldr Z.add 0 l mod 256 = 0))) /\
  (length l = 36%nat -> doChecksumXSDP p m = Done (bool_decide (foldr Z.add 0 (take 20 l) mod 256 = 0 /\ foldr Z.add 0 (drop 20 l) mod 256 = 0))).
Proof.
  intros Hb HF. split; [|split].
  - intros Hl. unfold doChecksum. rewrite Hl. cbn [mbind outcome_bind]. by rewrite (byte_sum_ok _ _ _ l).
  - intros Hl. unfold doChecksumRSDP. by rewrite (byte_sum_ok _ _ _ l) by (done || by rewrite Hl).
  - intros Hl. unfold doChecksumXSDP, sizeof_XSDP, sizeof_RSDP. rewrite <-(take_drop 20 l) in Hb, HF. apply bytes_at_app in Hb as (H1 & H2).
    apply Forall_app in HF as (F1 & F2). rewrite length_take, Hl in H2. rewrite (byte_sum_ok 20 p m (take 20 l)) by (done || (rewrite length_take, Hl; done)).
    cbn [mbind outcome_bind]. destruct (decide (foldr Z.add 0 (take 20 l) mod 256 <> 0)) as [E|E].
    + rewrite bool_decide_eq_false_2; [done|]. intros (E' & _). by apply E.
    + rewrite (byte_sum_ok _ _ m (drop 20 l)) by (done || (rewrite length_drop, Hl; done)). cbn [mbind outcome_bind]. f_equal. apply bool_decide_ext. split; [|by intros (_ & ?)].
      intros E'. split; [by apply dec_stable|done].
Qed.

(** ** A concrete machine *)

Record config_bus := mk_cb { cb_latch : Z; cb_regs : Z -> Z; cb_space : Z -> Z }.

#[export] Instance config_bus_ports : PortBus config_bus := {|
  outb := fun p v b => if decide (p = 0xCFC) then mk_cb (cb_latch b) (fun a => if decide (a = cb_latch b) then u32 (cb_regs b a) / 2 ^ 8 * 2 ^ 8 + u8 v else cb_regs b a) (cb_space b) else b;
  outw := fun p v b => if decide (p = 0xCFC) then mk_cb (cb_latch b) (fun a => if decide (a = cb_latch b) then u32 (cb_regs b a) / 2 ^ 16 * 2 ^ 16 + u16 v else cb_regs b a) (cb_space b) else b;
  outl := fun p v b => if decide (p = 0xCF8) then mk_cb v (cb_regs b) (cb_space b)
    else if decide (p = 0xCFC) then mk_cb (cb_latch b) (fun a => if decide (a = cb_latch b) then u32 v else cb_regs b a) (cb_space b) else b;
  inb := fun _ b => (0xFF, b);
  inl_ := fun p b => if decide (p = 0xCFC) then (u32 (cb_regs b (cb_latch b)), b) else (0xFFFFFFFF, b)
|}.

#[export] Instance config_bus_mmio : MmioBus config_bus := {|
  readw := fun a b => (u8 (cb_space b a) + 256 * u8 (cb_space b (a + 1)), b);
  readl := fun a b => (u8 (cb_space b a) + 256 * u8 (cb_space b (a + 1)) + 65536 * u8 (cb_space b (a + 2)) + 16777216 * u8 (cb_space b (a + 3)), b);
  writew := fun a v b => mk_cb (cb_latch b) (cb_regs b) (fun x => if decide (x = a) then v mod 256 else if decide (x = a + 1) then v / 256 mod 256 else cb_space b x);
  writel := fun a v b => mk_cb (cb_latch b) (cb_regs b) (fun x => if decide (a <= x < a + 4) then v / 256 ^ (x - a) mod 256 else cb_space b x)
|}.

Lemma low_replaced r v w : 0 <= w <= 32 -> 0 <= v < 2 ^ w -> u32 (u32 r / 2 ^ w * 2 ^ w + v) = u32 r / 2 ^ w * 2 ^ w + v.
Proof.
  intros Hw Hv. apply Z.mod_small. pose proof (u32_range r) as Hr. assert (Hp : 0 < 2 ^ w) by (apply Z.pow_pos_nonneg; lia).
  pose proof (Z.mul_div_le (u32 r) (2 ^ w) Hp). pose proof (Z.div_pos (u32 r) (2 ^ w)).
  assert (Hdiv : u32 r / 2 ^ w < 2 ^ (32 - w)) by (apply Z.div_lt_upper_bound; [done|rewrite <-Z.pow_add_r by lia; replace (w + (32 - w)) with 32 by lia; lia]).
  assert (H32 : 2 ^ 32 = 2 ^ (32 - w) * 2 ^ w) by (rewrite <-Z.pow_add_r by lia; f_equal; lia). split; nia.
Qed.

#[export, refine] Instance config_bus_documented : ConfigPorts config_bus := {| latch := cb_latch; conf := fun b a => u32 (cb_regs b a) |}.
Proof.
  - intros. apply u32_range.
  - intros v b. done.
  - intros b. done.
  - intros v b a. change (cb_regs (outl 0xCFC v b) a) with (if decide (a = cb_latch b) then u32 v else cb_regs b a).
    destruct (decide (a = cb_latch b)); [|done]. apply Z.mod_mod. lia.
  - intros v b a. change (cb_regs (outw 0xCFC v b) a) with (if decide (a = cb_latch b) then u32 (cb_regs b a) / 2 ^ 16 * 2 ^ 16 + u16 v else cb_regs b a).
    destruct (decide (a = cb_latch b)); [|done]. apply low_replaced; [lia|apply Z.mod_pos_bound; lia].
  - intros v b a. change (cb_regs (outb 0xCFC v b) a) with (if decide (a = cb_latch b) then u32 (cb_regs b a) / 2 ^ 8 * 2 ^ 8 + u8 v else cb_regs b a).
    destruct (decide (a = cb_latch b)); [|done]. apply low_replaced; [lia|apply Z.mod_pos_bound; lia].
Defined.

#[export, refine] Instance config_bus_ecam : Ecam config_bus := {| cfg := fun b a => u8 (cb_space b a) |}.
Proof.
  - intros. apply u8_range.
  - done.
  - done.
  - intros a v b x. change (cb_space (writew a v b) x) with (if decide (x = a) then v mod 256 else if decide (x = a + 1) then v / 256 mod 256 else cb_space b x).
    destruct (decide (x = a)); [apply Z.mod_mod; lia|]. destruct (decide (x = a + 1)); [apply Z.mod_mod; lia|done].
  - intros a v b x. change (cb_space (writel a v b) x) with (if decide (a <= x < a + 4) then v / 256 ^ (x - a) mod 256 else cb_space b x).
    destruct (decide (a <= x < a + 4)); [apply Z.mod_mod; lia|done].
Defined.

(** A host bridge in slot 0 and a disk controller in slot 2. *)
Definition demo_space (a : Z) : Z :=
  let '(slot, off) := (a / 2 ^ 15, a mod 2 ^ 15) in
  if decide (slot = 0) then (if decide (off = 0) then 0x86 else if decide (off = 1) then 0x80 else if decide (off = 0xb) then 6 else 0)
  else if decide (slot = 2) then (if decide (off = 0) then 0x22 else if decide (off = 1) then 0x29 else if decide (off = 0xb) then 1 else if decide (off = 0xa) then 6 else if decide (off = 9) then 1 else 0)
  else 0xFF.
Definition demo_bus : config_bus := mk_cb 0 (fun _ => 0) demo_space.

Lemma config_write_read_witness : (pciConfigReadWord 0 2 0 6 (pciConfigWriteDword 0 2 0 4 0x12345678 demo_bus)).1 = 0x1234.
Proof.
  rewrite (config_write_read 0 2 0 4 0x12345678 0 2 0 6 demo_bus); [reflexivity|unfold function_ok; lia|unfold function_ok; lia].
Defined.

Lemma config_write_word_misplaced_witness : (pciConfigReadWord 0 2 0 6 (pciConfigWriteWord 0 2 0 6 7 demo_bus)).1 = 0.
Proof. rewrite (proj1 (config_write_word_misplaced 0 2 0 6 7 demo_bus ltac:(unfold function_ok; lia) ltac:(by vm_compute))). reflexivity. Defined.

Lemma ecam_byte_write_spills_witness : (pcieConfigReadByte 0 2 0 0x3d 0 (pcieConfigWriteByte 0 2 0 0x3c 0 5 demo_bus)).1 = 0.
Proof.
  rewrite (ecam_byte_write_spills 0 2 0 0x3c 0 5 0 2 0 0x3d demo_bus); [reflexivity|unfold place_ok; lia|unfold place_ok; lia|lia|lia].
Defined.

Lemma scan_then_find_witness : exists s1 devs r, unclassified (mk_pci demo_bus ∅ 0) = Done s1 /\ probe s1 = Done (mk_pci demo_bus devs 0) /\
  pci_find_first_by_type 1 6 (mk_pci demo_bus devs 0) = Done r /\
  match r with
  | Some x => exists slot, 0 <= slot < 32 /\ of_class demo_bus 0 1 6 slot /\ x = slot_device demo_bus 0 slot /\
      forall slot', 0 <= slot' < slot -> ~ of_class demo_bus 0 1 6 slot'
  | None => forall slot, 0 <= slot < 32 -> ~ of_class demo_bus 0 1 6 slot
  end.
Proof.
  apply (scan_then_find demo_bus 0 ∅ 1 6); [lia| |reflexivity| |lia].
  - intros i. by rewrite lookup_empty.
  - intros slot Hs Hin. assert (Hcase : Forall (fun k => in_slot demo_bus 0 (Z.of_nat k) = true -> plain_slot demo_bus 0 (Z.of_nat k)) (seq 0 32)).
    { repeat (apply Forall_cons; split; [first [by intros [=] | intros _; split; [reflexivity|intros (H1 & H2); vm_compute in H1, H2; congruence]]|]). constructor. }
    rewrite Forall_forall in Hcase. rewrite <-(Z2Nat.id slot) in Hin |- * by lia. apply Hcase; [|done]. apply elem_of_seq. lia.
Defined.

Lemma several_hosts_found_none_witness : exists b', probe (mk_pci (mk_cb 0 (fun _ => 0) (fun a => if decide (a = 0xe) then 0x80 else 0)) ∅ 0) = Done (mk_pci b' ∅ 0).
Proof. apply several_hosts_found_none; [lia|vm_compute; discriminate|vm_compute; discriminate]. Defined.

Lemma device_places_witness : device_index 0 8 0 = device_index 1 0 0 /\ checkFunction 255 8 0 (mk_pci demo_bus ∅ 0) = Fault.
Proof.
  split.
  - destruct (device_places 0 8 0 0 0 0 (mk_pci demo_bus ∅ 0)) as (_ & H & _); try lia. apply H. lia.
  - destruct (device_places 255 8 0 0 0 0 (mk_pci demo_bus ∅ 0)) as (_ & _ & H); try lia. apply H; lia.
Defined.

Lemma checksums_witness : doChecksumRSDP 64 (write_bytes ∅ 64 (replicate 16 16 ++ [0; 0; 0; 0])) = Done true.
Proof.
  destruct (checksums 64 (write_bytes ∅ 64 (replicate 16 16 ++ [0; 0; 0; 0])) (replicate 16 16 ++ [0; 0; 0; 0])) as (_ & H & _).
  - apply write_bytes_at.
  - repeat constructor; lia.
  - rewrite H by reflexivity. reflexivity.
Defined.
