(* ===== verification/Boot.v ===== *)
(** What kernel_main and memmgr_init set up before the other parts run:
    kernel/kernel.c and kernel/arch/amd64/memmgr.c.

    The boot information is bytes of memory: a list of tags, of which the
    modules, the memory map, the framebuffer and the ACPI root pointer count.
    memmgr_init marks the frames the map reserves and the low ones, fills the
    table that maps all physical memory to KERNEL_MEMORY, and makes the stack of
    the first interrupt stack entry.  The place of that table is chosen by the
    linker and a parameter, as is the fuel of the loops. *)
From stdpp Require Import base list gmap.
From Stdlib Require Import ZArith Lia.
From S2P Require Import Prelude Memory Frames Paging UserMem Interrupts Terminal.

#[local] Open Scope Z_scope.

(** ** The boot information *)

Definition MULTIBOOT_TAG_TYPE_END : Z := 0.
Definition MULTIBOOT_TAG_TYPE_MODULE : Z := 3.
Definition MULTIBOOT_TAG_TYPE_MMAP : Z := 6.
Definition MULTIBOOT_TAG_TYPE_FRAMEBUFFER : Z := 8.
Definition MULTIBOOT_TAG_TYPE_ACPI_OLD : Z := 14.
Definition MULTIBOOT_MEMORY_AVAILABLE : Z := 1.

(** [tag->type] and the other fields, by their offsets. *)
Definition tag_type (m : mem) (tag : Z) : outcome Z := load_le 4 m tag.
Definition tag_size (m : mem) (tag : Z) : outcome Z := load_le 4 m (tag + 4).
Definition mod_start (m : mem) (tag : Z) : outcome Z := load_le 4 m (tag + 8).
Definition mod_end (m : mem) (tag : Z) : outcome Z := load_le 4 m (tag + 12).
Definition framebuffer_type (m : mem) (tag : Z) : outcome Z := load_le 1 m (tag + 29).

(** The variables of kernel_main that the tags set; a pointer that no tag sets
    stays uninitialised. *)
Record boot := mk_boot { kernel_end : Z; b_mmap : option Z; b_tagfb : option Z; b_rsdp : option Z; b_terminal : terminal }.

Definition use_fb (t : terminal) : terminal :=
  mk_term true (terminal_row t) (terminal_column t) (terminal_width t) (terminal_height t) (char_width t) (terminal_color t) (cells t) (front t) (back_buffer t) (ssfn_dst t) (font_height t).

Definition next_tag (tag size : Z) : Z := u64 (tag + Z.land (u32 (size + 7)) (u32 (Z.lnot 7))).

Section Tags.
Context (fuel : nat).

(** The body of the switch; the tags that are only printed do nothing. *)
Definition tag_switch (m : mem) (tag type : Z) (s : boot) : outcome boot :=
  if decide (type = MULTIBOOT_TAG_TYPE_MODULE) then
    e ← mod_end m tag;
    Done (if decide (kernel_end s < e) then mk_boot e (b_mmap s) (b_tagfb s) (b_rsdp s) (b_terminal s) else s)
  else if decide (type = MULTIBOOT_TAG_TYPE_MMAP) then Done (mk_boot (kernel_end s) (Some tag) (b_tagfb s) (b_rsdp s) (b_terminal s))
  else if decide (type = MULTIBOOT_TAG_TYPE_FRAMEBUFFER) then
    ty ← framebuffer_type m tag;
    t ← (if decide (ty = 2) then terminal_initialize 80 25 0 (b_terminal s) else Done (use_fb (b_terminal s)));
    Done (mk_boot (kernel_end s) (b_mmap s) (Some tag) (b_rsdp s) t)
  else if decide (type = MULTIBOOT_TAG_TYPE_ACPI_OLD) then Done (mk_boot (kernel_end s) (b_mmap s) (b_tagfb s) (Some (u64 (tag + 8))) (b_terminal s))
  else Done s.

Definition tag_step (m : mem) (st : Z * boot) : outcome (Z * boot + boot) :=
  let '(tag, s) := st in
  type ← tag_type m tag;
  if decide (type = MULTIBOOT_TAG_TYPE_END) then Done (inr s)
  else s ← tag_switch m tag type s; size ← tag_size m tag; Done (inl (next_tag tag size, s)).

Definition parse_tags (header : Z) (m : mem) (s : boot) : outcome boot := loop fuel (tag_step m) (u64 (header + 8), s).

(** ** The memory map *)

Definition region_step (last : Z) (st : Z * frames) : outcome (Z * frames + frames) :=
  let '(i, f) := st in
  if decide (i < last) then f ← memmgr_phys_mark_page (s32 (ADDRESS_TO_PAGE i)) f; Done (inl (u64 (i + 0x1000), f))
  else Done (inr f).
Definition mark_region (addr len : Z) (f : frames) : outcome frames := loop fuel (region_step (u64 (addr + len))) (addr, f).

Definition map_step (tag : Z) (m : mem) (st : Z * frames) : outcome (Z * frames + frames) :=
  let '(mmap, f) := st in
  size ← tag_size m tag;
  if decide (mmap < u64 (tag + size)) then
    type ← load_le 4 m (mmap + 16);
    f ← (if decide (type <> MULTIBOOT_MEMORY_AVAILABLE) then
           addr ← load_le 8 m mmap; len ← load_le 8 m (mmap + 8); mark_region addr len f
         else Done f);
    entry_size ← load_le 4 m (tag + 8);
    Done (inl (u64 (mmap + entry_size), f))
  else Done (inr f).

(** [for(int i = 0x0; i < 0x1001000; i += 0x1000)] *)
Definition mark_low (f : frames) : outcome frames :=
  r ← for_ 0x1001 0 (fun k f => f ← memmgr_phys_mark_page (ADDRESS_TO_PAGE (0x1000 * k)) f; Done (inl (B := unit) f)) f;
  match r with inl f => Done f | inr _ => Fault end.

(** The part of memmgr_init under the lock of the frames. *)
Definition reserve_frames (tag : Z) (m : mem) (f : frames) : outcome frames :=
  f ← loop fuel (map_step tag m) (u64 (tag + 16), with_plock false f);
  f ← mark_low f; Done (with_plock false f).

(** ** memmgr_init *)

Section Init.
Context {F : Type} `{FA : FrameAllocator F}.
(** IDENTITY_MAP_PD_TEMP: where the linker put the table. *)
Context (identity_pd : Z).

Definition identity_entry (i : Z) : Z := Z.lor (Z.lor (Z.lor (u64 (i * 0x40000000)) PAGE_PRESENT) PAGE_WRITABLE) PAGE_LARGE.
Definition identity_map (s : vm F) : outcome (vm F) :=
  r ← for_ 512 0 (fun i s => Done (inl (B := unit) (wr identity_pd i 0 s))) s;
  s ← match r with inl s => Done s | inr _ => Fault end;
  r ← for_ 512 0 (fun i s => Done (inl (B := unit) (wr identity_pd i (identity_entry i) s))) s;
  s ← match r with inl s => Done s | inr _ => Fault end;
  Done (wr 0x1000 509 (Z.lor (Z.lor identity_pd PAGE_PRESENT) PAGE_WRITABLE) s).

Definition set_kend (e : Z) (s : vm F) : vm F := mk_vm (pm s) (fr s) (pml4 s) (heap_len s) e (virt_lock s) (wild s).

(** What follows the marking of the frames. *)
Definition set_interrupt_stack (s : vm F) (t : Gdt.tss_entry) : outcome (vm F * Gdt.tss_entry) :=
  '(stack, s) ← memmgr_create_stack false 16384 s; t ← Gdt.set_ist 0 stack t; Done (s, t).
End Init.

Definition memmgr_init (identity_pd tag kend : Z) (m : mem) (s : vm frames) (t : Gdt.tss_entry) : outcome (vm frames * Gdt.tss_entry) :=
  let s := set_kend (Z.lor kend KERNEL_ENTRY) s in
  f ← reserve_frames tag m (fr s);
  s ← identity_map identity_pd (set_fr f s);
  set_interrupt_stack (set_heap 0 s) t.

(** The frames of a module, once the file system is there. *)
Definition mark_module (tag : Z) (m : mem) (f : frames) : outcome frames :=
  a ← mod_start m tag; e ← mod_end m tag;
  r ← for_ (Z.to_nat ((u32 (e - a) + 4095) / 4096)) 0 (fun k f =>
    f ← memmgr_phys_mark_page (s32 (ADDRESS_TO_PAGE (u64 (a + 4096 * k)))) f; Done (inl (B := unit) f)) f;
  match r with inl f => Done f | inr _ => Fault end.
End Tags.

(** ** Facts on the marking *)

Section Marks.
Context (fuel : nat).

(** The page [j] is one that the loop over a region reaches. *)
Definition reached_page (addr len j : Z) : Prop := addr / 4096 <= j /\ 4096 * (j - addr / 4096) < len.

Lemma mark_one i f : 0 <= i -> exists f', memmgr_phys_mark_page i f = Done f' /\ idx f' = idx f /\ phys_lock f' = phys_lock f /\
  forall j, 0 <= j < BITMAP_SIZE -> (in_use f' j <-> in_use f j \/ j = i).
Proof.
  intros Hi. unfold memmgr_phys_mark_page. destruct (decide (BITMAP_SIZE <= i)) as [Hb|Hb].
  - exists f. split_and!; try done. intros j Hj. split; [by left|]. intros [?| ->]; [done|lia].
  - rewrite decide_False by lia. eexists. split_and!; [done..|]. intros j Hj. unfold in_use, frame_word. cbn. destruct (decide (j = i)) as [->|Hne].
    + rewrite lookup_insert_eq. cbn. split; [by right|]. intros _. lia.
    + rewrite lookup_insert_ne by done. split; [by left|]. intros [?|?]; [done|lia].
Qed.

Lemma page_of_address i : 0 <= i < 2 ^ 43 -> s32 (ADDRESS_TO_PAGE i) = i / 4096.
Proof.
  intros Hi. unfold ADDRESS_TO_PAGE. rewrite Z.shiftr_div_pow2 by lia. change (2 ^ 12) with 4096. apply s32_small.
  assert (0 <= i / 4096 < 2 ^ 31); [|lia]. split; [apply Z.div_pos; lia|apply Z.div_lt_upper_bound; lia].
Qed.

Lemma mark_region_ok addr len f : 0 <= addr -> 0 <= len -> addr + len < 2 ^ 43 -> len / 4096 + 1 < Z.of_nat fuel ->
  exists f', mark_region fuel addr len f = Done f' /\ idx f' = idx f /\ phys_lock f' = phys_lock f /\
    forall j, 0 <= j < BITMAP_SIZE -> (in_use f' j <-> in_use f j \/ reached_page addr len j).
Proof.
  intros Ha Hl Hal Hf. unfold mark_region. rewrite u64_small by lia.
  destruct (loop_total (fun st : Z * frames => exists k, 0 <= k /\ st.1 = addr + 4096 * k /\ (k = 0 \/ 4096 * (k - 1) < len) /\ idx st.2 = idx f /\ phys_lock st.2 = phys_lock f /\
      forall j, 0 <= j < BITMAP_SIZE -> (in_use st.2 j <-> in_use f j \/ (addr / 4096 <= j < addr / 4096 + k)))
    (fun st => Z.to_nat ((addr + len - st.1 + 4095) / 4096))
    (fun f' => idx f' = idx f /\ phys_lock f' = phys_lock f /\ forall j, 0 <= j < BITMAP_SIZE -> (in_use f' j <-> in_use f j \/ reached_page addr len j))
    (region_step (addr + len)) fuel (addr, f)) as (f' & Hrun & Hf').
  - intros [i g] (k & Hk & Hi & Hprev & Hidx & Hlock & Hu). cbn [fst snd] in *. unfold region_step. destruct (decide (i < addr + len)) as [Hlt|Hge].
    + rewrite page_of_address by lia. assert (Hpage : i / 4096 = addr / 4096 + k) by (rewrite Hi, (Z.mul_comm 4096), Z.div_add by lia; done).
      destruct (mark_one (i / 4096) g) as (g' & Hm & Hidx' & Hlock' & Hu'); [apply Z.div_pos; lia|]. rewrite Hm. cbn [mbind outcome_bind]. split.
      * exists (k + 1). cbn [fst snd]. rewrite u64_small by lia. split_and!; [lia|lia|right; lia|congruence|congruence|]. intros j Hj. rewrite (Hu' j Hj), (Hu j Hj), Hpage.
        split; [intros [[?|?]|?]; [by left|right; lia|right; lia]|intros [?|?]; [by left; left|]]. destruct (decide (j = addr / 4096 + k)); [by right|left; right; lia].
      * cbn [fst]. rewrite u64_small by lia. replace (addr + len - (i + 4096) + 4095) with (addr + len - i + 4095 + (-1) * 4096) by lia. rewrite Z.div_add by lia.
        assert (1 <= (addr + len - i + 4095) / 4096) by (apply Z.div_le_lower_bound; lia). lia.
    + split_and!; [done..|]. intros j Hj. rewrite (Hu j Hj). unfold reached_page. split.
      * intros [?|Hr]; [by left|right]. split; [lia|]. destruct Hprev as [-> |Hprev]; lia.
      * intros [?|(H1 & H2)]; [by left|right]. split; [lia|]. lia.
  - exists 0. cbn [fst snd]. split_and!; [lia|lia|by left|done|done|]. intros j Hj. split; [by left|]. intros [?|?]; [done|lia].
  - cbn [fst]. replace (addr + len - addr + 4095) with (len + 4095) by lia. assert ((len + 4095) / 4096 <= len / 4096 + 1); [|pose proof (Z.div_pos (len + 4095) 4096); lia].
    rewrite <-Z.div_add by lia. apply Z.div_le_mono; lia.
  - exists f'. split; [done|]. done.
Qed.

Lemma mark_low_ok f : exists f', mark_low f = Done f' /\ idx f' = idx f /\ phys_lock f' = phys_lock f /\
  forall j, 0 <= j < BITMAP_SIZE -> (in_use f' j <-> in_use f j \/ j < 0x1001).
Proof.
  unfold mark_low.
  destruct (for_total (A := unit) (fun k g => idx g = idx f /\ phys_lock g = phys_lock f /\ forall j, 0 <= j < BITMAP_SIZE -> (in_use g j <-> in_use f j \/ j < k)) 0x1001 0
    (fun k f => f ← memmgr_phys_mark_page (ADDRESS_TO_PAGE (0x1000 * k)) f; Done (inl f)) f) as (f' & -> & Hidx & Hlock & Hu).
  - intros k g Hk (Hidx & Hlock & Hu). assert (E : ADDRESS_TO_PAGE (0x1000 * k) = k).
    { unfold ADDRESS_TO_PAGE. rewrite Z.shiftr_div_pow2 by lia. rewrite Z.mul_comm. apply Z.div_mul. lia. }
    rewrite E. destruct (mark_one k g) as (g' & -> & Hidx' & Hlock' & Hu'); [lia|]. cbn [mbind outcome_bind]. exists g'. split; [done|]. split_and!; [congruence..|].
    intros j Hj. rewrite (Hu' j Hj), (Hu j Hj). split; [intros [[?|?]|?]; [by left|right; lia|right; lia]|intros [?|?]; [by left; left|]].
    destruct (decide (j = k)); [by right|left; right; lia].
  - split_and!; [done..|]. intros j Hj. split; [by left|]. intros [?|?]; [done|lia].
  - cbn [mbind outcome_bind]. exists f'. split; [done|]. split_and!; [done..|]. intros j Hj. rewrite (Hu j Hj). done.
Qed.

(** A region: its address, length and type. *)
Definition region : Type := Z * Z * Z.
Definition reserved (r : region) : Prop := r.2 <> MULTIBOOT_MEMORY_AVAILABLE.

(** The map of a tag lists the regions. *)
Record map_holds (m : mem) (tag es : Z) (regions : list region) : Prop := {
  mh_size : tag_size m tag = Done (16 + es * Z.of_nat (length regions));
  mh_entry : load_le 4 m (tag + 8) = Done es;
  mh_step : 0 < es;
  mh_place : 0 <= tag /\ tag + 16 + es * Z.of_nat (length regions) + es < 2 ^ 64;
  mh_read : forall k a l ty, regions !! k = Some (a, l, ty) ->
    load_le 8 m (tag + 16 + es * Z.of_nat k) = Done a /\ load_le 8 m (tag + 16 + es * Z.of_nat k + 8) = Done l /\ load_le 4 m (tag + 16 + es * Z.of_nat k + 16) = Done ty;
  mh_fits : forall k a l ty, regions !! k = Some (a, l, ty) -> ty <> MULTIBOOT_MEMORY_AVAILABLE -> 0 <= a /\ 0 <= l /\ a + l < 2 ^ 43 /\ l / 4096 + 1 < Z.of_nat fuel
}.

Definition in_reserved (regions : list region) (j : Z) : Prop :=
  exists a l ty, (a, l, ty) ∈ regions /\ ty <> MULTIBOOT_MEMORY_AVAILABLE /\ reached_page a l j.

Lemma in_reserved_snoc regions r j : in_reserved (regions ++ [r]) j <-> in_reserved regions j \/ (reserved r /\ reached_page r.1.1 r.1.2 j).
Proof.
  unfold in_reserved, reserved. destruct r as [[a l] ty]. cbn [fst snd]. setoid_rewrite elem_of_app. setoid_rewrite list_elem_of_singleton. split.
  - intros (a' & l' & ty' & [Hin|[= -> -> ->]] & Ht & Hr); [left; by exists a', l', ty'|by right].
  - intros [(a' & l' & ty' & Hin & Ht & Hr)|(Ht & Hr)]; [exists a', l', ty'; split; [by left|done]|exists a, l, ty; split; [by right|done]].
Qed.

Lemma map_step_ok m tag es regions k r f : map_holds m tag es regions -> regions !! k = Some r ->
  exists f', map_step fuel tag m (tag + 16 + es * Z.of_nat k, f) = Done (inl (tag + 16 + es * Z.of_nat (S k), f')) /\ idx f' = idx f /\ phys_lock f' = phys_lock f /\
    forall j, 0 <= j < BITMAP_SIZE -> (in_use f' j <-> in_use f j \/ (reserved r /\ reached_page r.1.1 r.1.2 j)).
Proof.
  intros Hm Hk. destruct r as [[a l] ty]. pose proof (lookup_lt_Some _ _ _ Hk) as Hlt. destruct (mh_read _ _ _ _ Hm _ _ _ _ Hk) as (Ra & Rl & Rt).
  pose proof (mh_fits _ _ _ _ Hm _ _ _ _ Hk) as Hfits. destruct (mh_place _ _ _ _ Hm) as (Ht & Hend). pose proof (mh_step _ _ _ _ Hm) as Hes.
  replace (tag + 16 + es * Z.of_nat (S k)) with (tag + 16 + es * Z.of_nat k + es) by lia.
  unfold map_step. rewrite (mh_size _ _ _ _ Hm). cbn [mbind outcome_bind]. rewrite (u64_small (tag + _)) by nia. rewrite (decide_True (P := _ < _)) by nia. rewrite Rt. cbn [mbind outcome_bind fst snd].
  unfold reserved. cbn [snd]. destruct (decide (ty <> MULTIBOOT_MEMORY_AVAILABLE)) as [Hty|Hty].
  - destruct (Hfits Hty) as (Ha & Hl & Hal & Hf). rewrite Ra. cbn [mbind outcome_bind]. rewrite Rl. cbn [mbind outcome_bind]. destruct (mark_region_ok a l f Ha Hl Hal Hf) as (f' & -> & Hidx & Hlock & Hu). cbn [mbind outcome_bind].
    rewrite (mh_entry _ _ _ _ Hm). cbn [mbind outcome_bind]. rewrite u64_small by nia. exists f'. split; [reflexivity|]. split; [done|]. split; [done|].
    intros j Hj. rewrite (Hu j Hj). tauto.
  - cbn [mbind outcome_bind]. rewrite (mh_entry _ _ _ _ Hm). cbn [mbind outcome_bind]. rewrite u64_small by nia. exists f. split; [reflexivity|]. split; [done|]. split; [done|].
    intros j Hj. tauto.
Qed.

Lemma identity_loop_ok m tag es regions f : map_holds m tag es regions -> (length regions < fuel)%nat ->
  exists f', loop fuel (map_step fuel tag m) (tag + 16, f) = Done f' /\ idx f' = idx f /\ phys_lock f' = phys_lock f /\
    forall j, 0 <= j < BITMAP_SIZE -> (in_use f' j <-> in_use f j \/ in_reserved regions j).
Proof.
  intros Hm Hfuel. destruct (mh_place _ _ _ _ Hm) as (Ht & Hend). pose proof (mh_step _ _ _ _ Hm) as Hes.
  destruct (loop_total (fun st : Z * frames => exists k, (k <= length regions)%nat /\ st.1 = tag + 16 + es * Z.of_nat k /\ idx st.2 = idx f /\ phys_lock st.2 = phys_lock f /\
      forall j, 0 <= j < BITMAP_SIZE -> (in_use st.2 j <-> in_use f j \/ in_reserved (take k regions) j))
    (fun st => Z.to_nat ((tag + 16 + es * Z.of_nat (length regions) - st.1) / es))
    (fun f' => idx f' = idx f /\ phys_lock f' = phys_lock f /\ forall j, 0 <= j < BITMAP_SIZE -> (in_use f' j <-> in_use f j \/ in_reserved regions j))
    (map_step fuel tag m) fuel (tag + 16, f)) as (f' & Hrun & Hf').
  - intros [i g] (k & Hk & Hi & Hidx & Hlock & Hu). cbn [fst snd] in *. subst i. destruct (decide (k < length regions)%nat) as [Hlt|Hge].
    + destruct (lookup_lt_is_Some_2 regions k Hlt) as [r Hr]. destruct (map_step_ok m tag es regions k r g Hm Hr) as (g' & -> & Hidx' & Hlock' & Hu'). split.
      * exists (S k). cbn [fst snd]. split_and!; [lia|done|congruence|congruence|]. intros j Hj. rewrite (Hu' j Hj), (Hu j Hj), (take_S_r _ _ _ Hr), in_reserved_snoc. intuition.
      * cbn [fst]. replace (tag + 16 + es * Z.of_nat (length regions) - (tag + 16 + es * Z.of_nat (S k))) with (Z.of_nat (length regions - S k) * es) by nia.
        replace (tag + 16 + es * Z.of_nat (length regions) - (tag + 16 + es * Z.of_nat k)) with (Z.of_nat (length regions - k) * es) by nia.
        rewrite !Z.div_mul by lia. lia.
    + assert (k = length regions) as -> by lia. unfold map_step. rewrite (mh_size _ _ _ _ Hm). cbn [mbind outcome_bind]. rewrite (u64_small (tag + _)) by nia.
      rewrite decide_False by lia. split_and!; [done..|]. intros j Hj. rewrite (Hu j Hj). by rewrite firstn_all.
  - exists 0%nat. cbn [fst snd]. split_and!; [lia|lia|done|done|]. intros j Hj. rewrite take_0. split; [by left|]. intros [?|(a & l & ty & Hin & _)]; [done|by apply elem_of_nil in Hin].
  - cbn [fst]. replace (tag + 16 + es * Z.of_nat (length regions) - (tag + 16)) with (Z.of_nat (length regions) * es) by lia. rewrite Z.div_mul by lia. lia.
  - exists f'. split; [done|]. done.
Qed.

(** What an allocator hands out was free. *)
Lemma alloc_fresh {F} `{FrameAllocator F} (f : F) a f' : fr_ok f -> fr_alloc f = Done (a, f') -> a <> 0 -> ~ fr_used f a /\ fr_used f' a.
Proof.
  intros Hok Hal Hne. destruct (fr_alloc_ok _ Hok) as (a0 & f0 & Hal0 & _ & Hcase & Hused). rewrite Hal in Hal0. injection Hal0 as <- <-.
  destruct Hcase as [E0|(_ & _ & Hnot)]; [done|]. split; [done|]. apply Hused. by right.
Qed.

Lemma alloc_gives_free f a f' : fr_ok f -> fr_alloc f = Done (a, f') -> a <> 0 -> exists i, a = i * 4096 /\ 0 <= i < BITMAP_SIZE /\ ~ in_use f i.
Proof.
  intros Hok Hal Hne. destruct (alloc_fresh f a f' Hok Hal Hne) as (Hnot & Hused). clear Hal Hok.
  destruct Hused as (i & Ei & Hi & _). exists i. split; [exact Ei|]. split; [exact Hi|].
  intros Hin. apply Hnot. exists i. split; [exact Ei|]. split; [exact Hi|exact Hin].
Qed.

Lemma bind_done {A B} (a : A) (k : A -> outcome B) : Done a ≫= k = k a.
Proof. reflexivity. Qed.

Lemma reserve_run m tag f f1 f2 : 0 <= tag -> tag + 16 < 2 ^ 64 -> loop fuel (map_step fuel tag m) (tag + 16, with_plock false f) = Done f1 -> mark_low f1 = Done f2 ->
  reserve_frames fuel tag m f = Done (with_plock false f2).
Proof. intros Ht Ht' H1 H2. unfold reserve_frames. rewrite u64_small by lia. rewrite H1, bind_done, H2, bind_done. reflexivity. Qed.

Lemma ready_frames f : 0 <= idx f <= BITMAP_SIZE -> phys_lock f = false -> in_use f 0 -> fr_ok f.
Proof. intros Hi Hl Hu. split; [by constructor|exact Hu]. Qed.

(** C9: The frames memmgr_init leaves.  With any memory map of regions below
    2^43 the marking ends; a frame is then in use exactly if it was before,
    lies below 0x1001000, or is a page the loop over a region that is not
    available reaches.  So the allocator's precondition holds, and no frame it
    hands out afterwards is one of them.  Of a reserved region that begins on a
    page every byte is covered. *)
Theorem reserve_frames_marks m tag es regions f : map_holds m tag es regions -> (length regions < fuel)%nat -> 0 <= idx f <= BITMAP_SIZE ->
  exists f', reserve_frames fuel tag m f = Done f' /\ fr_ok f' /\
    (forall j, 0 <= j < BITMAP_SIZE -> (in_use f' j <-> in_use f j \/ j < 0x1001 \/ in_reserved regions j)) /\
    (forall a f'', fr_alloc f' = Done (a, f'') -> a <> 0 -> 0x1001000 <= a /\ ~ in_reserved regions (a / 4096)) /\
    (forall a l ty x, (a, l, ty) ∈ regions -> ty <> MULTIBOOT_MEMORY_AVAILABLE -> a mod 4096 = 0 -> a <= x < a + l -> 0 <= a -> x / 4096 < BITMAP_SIZE -> in_use f' (x / 4096)).
Proof.
  intros Hm Hfuel Hidx. destruct (mh_place _ _ _ _ Hm) as (Ht & Hend). pose proof (mh_step _ _ _ _ Hm) as Hes.
  destruct (identity_loop_ok m tag es regions (with_plock false f) Hm Hfuel) as (f1 & Hrun1 & Hidx1 & Hlock1 & Hu1). destruct (mark_low_ok f1) as (f2 & Hrun2 & Hidx2 & Hlock2 & Hu2).
  exists (with_plock false f2). split; [apply (reserve_run m tag f f1 f2); [lia|nia|exact Hrun1|exact Hrun2]|].
  assert (Hall : forall j, 0 <= j < BITMAP_SIZE -> (in_use (with_plock false f2) j <-> in_use f j \/ j < 0x1001 \/ in_reserved regions j)).
  { intros j Hj. change (in_use (with_plock false f2) j) with (in_use f2 j). rewrite (Hu2 j Hj), (Hu1 j Hj). change (in_use (with_plock false f) j) with (in_use f j). intuition. }
  assert (Hok : fr_ok (with_plock false f2)).
  { apply ready_frames; [cbn; rewrite Hidx2, Hidx1; exact Hidx|reflexivity|]. apply Hall; [unfold BITMAP_SIZE; lia|]. right; left; lia. }
  split; [exact Hok|]. split; [exact Hall|]. split.
  - intros a f'' Hal Hne. destruct (alloc_gives_free _ a f'' Hok Hal Hne) as (i & Ei & Hi & Hfree). clear Hal Hok.
    assert (Hai : a / 4096 = i) by (rewrite Ei; apply Z.div_mul; lia). rewrite Hai. rewrite (Hall i Hi) in Hfree. split; [|intros Hr; apply Hfree; right; right; exact Hr].
    destruct (decide (i < 0x1001)); [exfalso; apply Hfree; right; left; assumption|lia].
  - intros a l ty x Hin Hty Hmod Hx Ha Hb. pose proof (Z.div_mod a 4096 ltac:(lia)). pose proof (Z.div_mod x 4096 ltac:(lia)). pose proof (Z.mod_pos_bound x 4096 ltac:(lia)).
    apply Hall; [split; [apply Z.div_pos; lia|done]|]. right; right. exists a, l, ty. split; [done|]. split; [done|]. unfold reached_page. split; [apply Z.div_le_mono; lia|lia].
Qed.
End Marks.

(** ** The map of physical memory *)

Section DirectMap.
Context {F : Type} `{FA : FrameAllocator F}.
Context (identity_pd : Z) (pd_place : 0x2000 <= identity_pd < 2 ^ 39) (pd_aligned : identity_pd mod 4096 = 0).

Lemma identity_entry_bits i : 0 <= i < 512 -> identity_entry i = Z.lor (i * 2 ^ 30) 0x83.
Proof. intros Hi. unfold identity_entry. rewrite u64_small by lia. rewrite <-!Z.lor_assoc. done. Qed.

Lemma identity_map_ok (s : vm F) : exists s', identity_map identity_pd s = Done s' /\ pml4 s' = pml4 s /\ fr s' = fr s /\
  entry s' 0x1000 509 = Z.lor identity_pd 3 /\ forall i, 0 <= i < 512 -> entry s' identity_pd i = identity_entry i.
Proof.
  unfold identity_map.
  destruct (for_total (A := unit) (fun _ g => pml4 g = pml4 s /\ fr g = fr s) 512 0 (fun i s => Done (inl (wr identity_pd i 0 s))) s) as (s1 & -> & Hp1 & Hf1).
  { intros k g _ (Hp & Hf). by eexists. }
  { done. }
  cbn [mbind outcome_bind].
  destruct (for_total (A := unit) (fun k g => pml4 g = pml4 s /\ fr g = fr s /\ forall j, 0 <= j < k -> entry g identity_pd j = identity_entry j) 512 0
    (fun i s => Done (inl (wr identity_pd i (identity_entry i) s))) s1) as (s2 & -> & Hp2 & Hf2 & He2).
  { intros k g Hk (Hp & Hf & He). eexists. split; [done|]. split; [done|]. split; [done|]. intros j Hj. unfold entry, wr, set_pm. cbn [pm]. rewrite phys_small by lia.
    destruct (decide (identity_pd + 8 * j = identity_pd + 8 * k)) as [E|E]; [by assert (j = k) as -> by lia|]. apply He. lia. }
  { split; [done|]. split; [done|]. intros j Hj. lia. }
  cbn [mbind outcome_bind]. eexists. split; [done|]. split; [done|]. split; [done|]. unfold entry, wr, set_pm. cbn [pm]. rewrite phys_small by lia. split.
  - rewrite decide_True by lia. by rewrite <-Z.lor_assoc.
  - intros i Hi. rewrite decide_False by lia. apply He2. lia.
Qed.

Lemma kernel_address p : 0 <= p < 2 ^ 39 -> Z.lor p KERNEL_MEMORY = KERNEL_MEMORY + p.
Proof.
  intros Hp. rewrite Z.lor_comm. rewrite <-Z.lxor_lor, <-Z.add_nocarry_lxor; [done| |].
  all: rewrite kernel_bits; apply Z.bits_inj_0; intros i; rewrite Z.land_spec; destruct (decide (i < 39)) as [Hlt|Hge];
    [rewrite Z.shiftl_spec_low by done; done|]; rewrite <-(Z.mod_small p (2 ^ 39)), Z.mod_pow2_bits_high by lia; apply andb_false_r.
Qed.

(** C10: The map that the page tables rely on.  Once memmgr_init has filled the
    table of large pages, the address memmgr_get_from_physical makes for any
    physical address below 512 GiB (but 0x1000, which it leaves) is translated by
    the processor, for reading and for writing, through the entry 509 of the
    boot tables and a 1 GiB page, to that physical address: both entries are
    present and writable. *)
Theorem physical_memory_mapped (s : vm F) p : pml4 s = 0x1000 -> 0 <= p < 2 ^ 39 -> p <> 0x1000 ->
  exists s', identity_map identity_pd s = Done s' /\ translate 2 s' (memmgr_get_from_physical p) = Some p.
Proof.
  intros Hpml Hp Hne. destruct (identity_map_ok s) as (s' & Hrun & Hp' & _ & Hroot & Hent). exists s'. split; [done|].
  assert (Hva : memmgr_get_from_physical p = KERNEL_MEMORY + p) by (unfold memmgr_get_from_physical; rewrite decide_False by done; by apply kernel_address).
  assert (Hi4 : PML4_INDEX (KERNEL_MEMORY + p) = 509).
  { unfold PML4_INDEX. change 0x1FF with (Z.ones 9). rewrite Z.land_ones, Z.shiftr_div_pow2 by lia.
    replace (KERNEL_MEMORY + p) with (p + KERNEL_MEMORY / 2 ^ 39 * 2 ^ 39) by (rewrite Z.add_comm; reflexivity). rewrite Z.div_add, (Z.div_small p) by lia. reflexivity. }
  assert (Hi3 : PDP_INDEX (KERNEL_MEMORY + p) = p / 2 ^ 30).
  { unfold PDP_INDEX. change 0x1FF with (Z.ones 9). rewrite Z.land_ones, Z.shiftr_div_pow2 by lia.
    replace (KERNEL_MEMORY + p) with (p + KERNEL_MEMORY / 2 ^ 39 * 512 * 2 ^ 30) by (rewrite Z.add_comm; reflexivity). rewrite Z.div_add, Z.mod_add by lia. apply Z.mod_small.
    split; [apply Z.div_pos; lia|apply Z.div_lt_upper_bound; lia]. }
  assert (Hr : 0 <= p / 2 ^ 30 < 512) by (split; [apply Z.div_pos; lia|apply Z.div_lt_upper_bound; lia]).
  assert (He4 : phys (memmgr_get_from_physical (Z.land (entry s' 0x1000 509) PAGE_MASK)) = identity_pd).
  { rewrite Hroot, land_frame_bits by lia. by rewrite phys_from_physical, phys_small by lia. }
  assert (He3 : Z.land (identity_entry (p / 2 ^ 30)) PAGE_MASK = p / 2 ^ 30 * 2 ^ 30).
  { rewrite identity_entry_bits by done. apply land_frame_bits; [lia| |lia]. replace (p / 2 ^ 30 * 2 ^ 30) with (p / 2 ^ 30 * 2 ^ 18 * 4096) by lia. apply Z.mod_mul. lia. }
  assert (Hlarge : Z.land (identity_entry (p / 2 ^ 30)) PAGE_LARGE <> 0).
  { rewrite identity_entry_bits by done. intros E. apply (f_equal (fun z => Z.testbit z 7)) in E. rewrite Z.land_spec, Z.lor_spec, Z.bits_0 in E.
    change (Z.testbit 0x83 7) with true in E. change (Z.testbit PAGE_LARGE 7) with true in E. by rewrite orb_true_r in E. }
  assert (Hg4 : grants 2 (entry s' 0x1000 509) = true) by (rewrite Hroot; by apply grants_lor).
  assert (Hg3 : grants 2 (identity_entry (p / 2 ^ 30)) = true) by (rewrite identity_entry_bits by done; by apply grants_lor).
  unfold translate. rewrite Hva, Hi4, Hi3. unfold memmgr_get_current_pml4. rewrite Hp', Hpml.
  change (rd (memmgr_get_from_physical 0x1000) 509 s') with (entry s' 0x1000 509).
  rewrite Hg4. cbn [negb]. set (pdp := memmgr_get_from_physical (Z.land (entry s' 0x1000 509) PAGE_MASK)) in *.
  change (rd pdp (p / 2 ^ 30) s') with (entry s' (phys pdp) (p / 2 ^ 30)). rewrite He4, (Hent _ Hr), Hg3. cbn [negb]. rewrite decide_True by exact Hlarge.
  f_equal. rewrite He3, Z.div_mul by lia. replace (KERNEL_MEMORY + p) with (p + KERNEL_MEMORY / 2 ^ 30 * 2 ^ 30) by (rewrite Z.add_comm; reflexivity).
  rewrite Z.mod_add by lia. pose proof (Z.div_mod p (2 ^ 30) ltac:(lia)). lia.
Qed.
End DirectMap.

(** ** The tags *)

Section TagFacts.
Context (fuel : nat) (m : mem).

(** The tags from an address to the end tag: address and type. *)
Inductive tags_at : Z -> list (Z * Z) -> Prop :=
| ta_end p : tag_type m p = Done MULTIBOOT_TAG_TYPE_END -> tags_at p []
| ta_tag p ty size l : tag_type m p = Done ty -> ty <> MULTIBOOT_TAG_TYPE_END -> tag_size m p = Done size -> tags_at (next_tag p size) l -> tags_at p ((p, ty) :: l).

(** The end of the module at an address. *)
Context (ends : Z -> Z).

Definition last_end (k : Z) (tags : list (Z * Z)) : Z := foldl (fun k t => if decide (t.2 = MULTIBOOT_TAG_TYPE_MODULE) then Z.max k (ends t.1) else k) k tags.
Definition last_of (type : Z) (f : Z -> Z) (o : option Z) (tags : list (Z * Z)) : option Z :=
  foldl (fun o t => if decide (t.2 = type) then Some (f t.1) else o) o tags.

(** The boot information.  Over any list of tags without a text
    framebuffer the loop of kernel_main ends; kernel_end is then the highest of
    its old value and the ends of the modules, and the memory map and the ACPI
    root pointer are those of the last tags of their types, or as they were. *)
Theorem parse_tags_spec header tags s : tags_at (u64 (header + 8)) tags -> (length tags < fuel)%nat ->
  Forall (fun t => t.2 <> MULTIBOOT_TAG_TYPE_FRAMEBUFFER /\ (t.2 = MULTIBOOT_TAG_TYPE_MODULE -> mod_end m t.1 = Done (ends t.1))) tags ->
  exists s', parse_tags fuel header m s = Done s' /\ kernel_end s' = last_end (kernel_end s) tags /\
    b_mmap s' = last_of MULTIBOOT_TAG_TYPE_MMAP id (b_mmap s) tags /\
    b_rsdp s' = last_of MULTIBOOT_TAG_TYPE_ACPI_OLD (fun p => u64 (p + 8)) (b_rsdp s) tags /\
    b_tagfb s' = b_tagfb s /\ b_terminal s' = b_terminal s.
Proof.
  unfold parse_tags. intros Ht. remember (u64 (header + 8)) as p eqn:Ep. clear Ep. revert fuel s.
  induction Ht as [p Hty|p ty size l Hty Hne Hsize Hl IH]; intros fuel s Hfuel HF; (destruct fuel as [|fuel]; [cbn in Hfuel; lia|]); cbn [loop].
  - unfold tag_step. rewrite Hty. cbn [mbind outcome_bind]. rewrite decide_True by done. cbn [mbind outcome_bind]. by exists s.
  - apply Forall_cons in HF as ((Hnf & Hmod) & HF). cbn [fst snd] in *. assert (Hsw : exists s1, tag_switch m p ty s = Done s1 /\ kernel_end s1 = (if decide (ty = MULTIBOOT_TAG_TYPE_MODULE) then Z.max (kernel_end s) (ends p) else kernel_end s) /\
      b_mmap s1 = (if decide (ty = MULTIBOOT_TAG_TYPE_MMAP) then Some p else b_mmap s) /\
      b_rsdp s1 = (if decide (ty = MULTIBOOT_TAG_TYPE_ACPI_OLD) then Some (u64 (p + 8)) else b_rsdp s) /\ b_tagfb s1 = b_tagfb s /\ b_terminal s1 = b_terminal s).
    { unfold tag_switch. destruct (decide (ty = MULTIBOOT_TAG_TYPE_MODULE)) as [->|H3].
      - rewrite Hmod by done. cbn [mbind outcome_bind]. destruct (decide (kernel_end s < ends p)); (eexists; split; [done|]; cbn; split; [lia|done]).
      - destruct (decide (ty = MULTIBOOT_TAG_TYPE_MMAP)) as [->|H6]; [by eexists|]. rewrite (decide_False (P := ty = MULTIBOOT_TAG_TYPE_FRAMEBUFFER)) by done.
        destruct (decide (ty = MULTIBOOT_TAG_TYPE_ACPI_OLD)); by eexists. }
    destruct Hsw as (s1 & Hsw & Hk & Hm & Hr & Hfb & Htm).
    assert (Hstep : tag_step m (p, s) = Done (inl (next_tag p size, s1))).
    { unfold tag_step. rewrite Hty. cbn [mbind outcome_bind]. rewrite (decide_False (P := ty = MULTIBOOT_TAG_TYPE_END)) by done. rewrite Hsw. cbn [mbind outcome_bind]. by rewrite Hsize. }
    rewrite Hstep. cbn [mbind outcome_bind].
    destruct (IH fuel s1) as (s' & Hrun & Hk' & Hm' & Hr' & Hfb' & Htm'); [cbn in Hfuel; lia|done|]. exists s'. split; [exact Hrun|].
    cbn [last_end last_of foldl fst snd]. rewrite Hk', Hm', Hr', Hfb', Htm', Hk, Hm, Hr. done.
Qed.
End TagFacts.

(** ** A concrete boot *)

Definition demo_info : mem := write_bytes ∅ 0x9008 (to_le 4 6 ++ to_le 4 64 ++ to_le 4 24 ++ to_le 4 0 ++ to_le 8 0 ++ to_le 8 0x9fc00 ++ to_le 4 1 ++ to_le 4 0 ++
  to_le 8 0x2000000 ++ to_le 8 0x3000 ++ to_le 4 2 ++ to_le 4 0 ++ to_le 4 3 ++ to_le 4 24 ++ to_le 4 0x200000 ++ to_le 4 0x300000 ++ replicate 8 0 ++ to_le 4 0 ++ to_le 4 8).
Definition demo_regions : list region := [(0, 0x9fc00, 1); (0x2000000, 0x3000, 2)].

Lemma demo_map : map_holds 100 demo_info 0x9008 24 demo_regions.
Proof.
  constructor; [vm_compute; reflexivity|vm_compute; reflexivity|lia|cbn; lia| |].
  - intros [|[|k]] a l ty Hk; [injection Hk as <- <- <-|injection Hk as <- <- <-|done]; (split; [vm_compute; reflexivity|]; split; vm_compute; reflexivity).
  - intros [|[|k]] a l ty Hk Hty; [injection Hk as <- <- <-; by vm_compute in Hty|injection Hk as <- <- <-|done]. repeat split; vm_compute; congruence.
Qed.

Example reserve_frames_marks_witness : exists f', reserve_frames 100 0x9008 demo_info (mk_frames ∅ 0 false) = Done f' /\ in_use f' 0x2002 /\ ~ in_use f' 0x1800.
Proof.
  destruct (reserve_frames_marks 100 demo_info 0x9008 24 demo_regions (mk_frames ∅ 0 false) demo_map ltac:(cbn; lia) ltac:(cbn; unfold BITMAP_SIZE; lia)) as (f' & Hrun & _ & Hall & _).
  exists f'. split; [exact Hrun|]. split.
  - apply (Hall 0x2002); [unfold BITMAP_SIZE; lia|]. right; right. exists 0x2000000, 0x3000, 2. split; [right; left|]. split; [vm_compute; congruence|]. split; vm_compute; congruence.
  - intros Hin. apply (Hall 0x1800) in Hin; [|unfold BITMAP_SIZE; lia]. destruct Hin as [Hin|[Hin|(a & l & ty & Hin & Hty & Hr)]]; [by apply Hin|lia|].
    apply elem_of_cons in Hin as [[= -> -> ->]|Hin]; [by apply Hty|]. apply list_elem_of_singleton in Hin as [= -> -> ->]. destruct Hr as (Hr & _). vm_compute in Hr. by apply Hr.
Defined.

Definition demo_vm : vm frames := mk_vm (fun _ => 0) (mk_frames ∅ 0 false) 0x1000 0 0 false [].
Example physical_memory_mapped_witness : exists s', identity_map 0x5000 demo_vm = Done s' /\ translate 2 s' (memmgr_get_from_physical 0x40001234) = Some 0x40001234.
Proof. apply (physical_memory_mapped 0x5000 ltac:(lia) ltac:(reflexivity) demo_vm 0x40001234); [reflexivity|lia|lia]. Defined.

Definition demo_tags : list (Z * Z) := [(0x9008, 6); (0x9048, 3)].
Example parse_tags_spec_witness : exists s', parse_tags 9 0x9000 demo_info (mk_boot 0x250000 None None None demo_screen) = Done s' /\ kernel_end s' = 0x300000 /\ b_mmap s' = Some 0x9008.
Proof.
  destruct (parse_tags_spec 9 demo_info (fun _ => 0x300000) 0x9000 demo_tags (mk_boot 0x250000 None None None demo_screen)) as (s' & Hrun & Hk & Hm & _).
  - apply (ta_tag _ _ 6 64); [vm_compute; reflexivity|vm_compute; congruence|vm_compute; reflexivity|].
    apply (ta_tag _ 0x9048 3 24); [vm_compute; reflexivity|vm_compute; congruence|vm_compute; reflexivity|]. apply ta_end. vm_compute. reflexivity.
  - cbn; lia.
  - repeat constructor; try (vm_compute; congruence). all: intros ?; try (vm_compute in H; congruence). all: vm_compute; reflexivity.
  - exists s'. split; [exact Hrun|]. split; [rewrite Hk; reflexivity|rewrite Hm; reflexivity].
Defined.
