(* ===== verification/Exec.v ===== *)
(** The start of a program: process_create_task, execve and the user stack they
    build (kernel/proc/process.c).

    The state is that of the processes with the bytes of user memory; loading
    the file is that of Elf on the page tables and files of the same state.
    [stack_page] is what the pages of a new stack hold, [boot_mem] the user
    bytes of a copy of the boot tables.  The messages are left out. *)
From stdpp Require Import base list gmap.
From Stdlib Require Import ZArith Lia.
From S2P Require Import Prelude Memory CString UserMem Frames Paging KTree Vfs Mutex Signals Procs Scheduler Process SysFiles Elf.

#[local] Open Scope Z_scope.

(** ** The user stack *)

(** memcpy of bytes to user memory. *)
Definition copy_out (m : mem) (p : Z) (l : list Z) : outcome mem := _ ← load_bytes (length l) m p; Done (write_bytes m p l).

Definition push_string_to_userstack (str : list Z) (st : Z * mem) : outcome (Z * mem) :=
  let '(stack, m) := st in
  let len := Z.of_nat (length str) + 1 in
  let stack := Z.land (u64 (stack - len)) 0xFFFFFFFFFFFFFFF8 in
  m ← copy_out m stack (str ++ [0]); Done (stack, m).

(** [while (stack & 7) stack--]: at most seven rounds. *)
Definition align_step (stack : Z) : outcome (Z + Z) := if decide (Z.land stack 7 <> 0) then Done (inl (u64 (stack - 1))) else Done (inr stack).
Definition PUSH_PTR (value : Z) (st : Z * mem) : outcome (Z * mem) :=
  let '(stack, m) := st in
  stack ← loop 9 align_step (u64 (stack - 8));
  m ← store_le 8 m stack value; Done (stack, m).

Definition str_path : list Z := [80; 65; 84; 72; 61; 47; 117; 115; 114; 47; 98; 105; 110].
Definition str_term : list Z := [84; 69; 82; 77; 61; 110; 105; 103; 104; 116; 111; 115].

(** The stack of the first program: the environment, no arguments. *)
Definition first_stack (st : Z * mem) : outcome (Z * mem) :=
  st ← push_string_to_userstack str_path st; let envp0 := st.1 in
  st ← push_string_to_userstack str_term st; let envp1 := st.1 in
  st ← PUSH_PTR 0 st; st ← PUSH_PTR envp1 st; st ← PUSH_PTR envp0 st; st ← PUSH_PTR 0 st; PUSH_PTR 0 st.

(** ** The arguments of execve *)

(** [char* arg = malloc(strlen + 1)], the copy, and the terminator one behind
    the block. *)
Definition copy_arg (junk : Z -> list Z) (s : list Z) : outcome (list Z) :=
  let len := Z.of_nat (length s) in
  _ ← in_object (len + 1) 0 len;
  _ ← in_object (len + 1) (len + 1) 1;
  aset (overwrite (junk (len + 1)) 0 s) (len + 1) 0.

Fixpoint copy_args (junk : Z -> list Z) (ss : list (list Z)) : outcome (list (list Z)) :=
  match ss with [] => Done [] | s :: ss => a ← copy_arg junk s; l ← copy_args junk ss; Done (a :: l) end.

(** [final[i]] of an array of [n] bytes. *)
Definition set_final (n i v : Z) (final : list Z) : outcome (list Z) := _ ← in_object n (8 * i) 8; aset final i v.

(** The strings go on the stack, their addresses into [final]. *)
Fixpoint push_strings (n i : Z) (ss : list (list Z)) (final : list Z) (st : Z * mem) : outcome (list Z * (Z * mem)) :=
  match ss with
  | [] => Done (final, st)
  | s :: ss =>
      len ← Format.str_len s;
      st ← push_string_to_userstack (take (Z.to_nat len) s) st; final ← set_final n i st.1 final; push_strings n (i + 1) ss final st
  end.

(** [for(int i = 0; i < envc; i++) PUSH_PTR(final_argv[i])]: of both lists. *)
Definition push_finals (argc envc : Z) (final_argv : list Z) (st : Z * mem) : outcome (Z * mem) :=
  r ← for_ (Z.to_nat envc) 0 (fun i st => _ ← in_object argc (8 * i) 8; v ← aget final_argv i; st ← PUSH_PTR v st; Done (inl (B := unit) st)) st;
  match r with inl st => Done st | inr _ => Fault end.

Definition exec_stack (argv envp : list (list Z)) (st : Z * mem) : outcome (Z * mem) :=
  let argc := Z.of_nat (length argv) in
  let envc := Z.of_nat (length envp) in
  '(_, st) ← push_strings envc 0 envp (replicate (length envp) 0) st;
  '(final_argv, st) ← push_strings argc 0 argv (replicate (length argv) 0) st;
  st ← PUSH_PTR 0 st; st ← push_finals argc envc final_argv st;
  st ← PUSH_PTR 0 st; st ← push_finals argc envc final_argv st;
  PUSH_PTR argc st.

Section Exec.
Context {F D : Type} `{FA : FrameAllocator F} `{NA : NodeAlloc} `{Drv : Drivers D} `{Env : VfsEnv D} `{CA : Calloc} `{CO : CloseOp D}.
Context (fuel : nat) (local : Z -> list Z) (picked stack_pages : list Z) (junk : Z -> list Z) (boot_mem : mem).
(** With user memory. *)
Abbreviation state := (kstate F D * mem)%type.

(** What Elf does to the memory, the page tables and the files of the state. *)
Definition on_space {A} (f : space F D -> outcome (A * space F D)) (s : state) : outcome (A * state) :=
  '(a, sp) ← f (mk_space s.2 (k_vmem s.1) (k_vfs s.1));
  Done (a, (set_k_vfs (sp_vfs sp) (set_k_vmem (sp_vm sp) s.1), sp_mem sp)).
Definition on_k {A} (f : kstate F D -> outcome (A * kstate F D)) (s : state) : outcome (A * state) := '(a, k) ← f s.1; Done (a, (k, s.2)).
Definition with_k (f : kstate F D -> kstate F D) (s : state) : state := (f s.1, s.2).

(** load_elf, then exec_elf: its header is read through the result. *)
Definition run_elf (handle : file_handle) (s : state) : outcome (Z * elf_t * state) :=
  '(elf, s) ← on_space (load_elf handle) s;
  elf ← of_option elf;
  '(r, s) ← on_space (exec_elf fuel local picked elf) s; Done (r, s).

(** The stack of the user, at its highest address. *)
Definition user_stack_of (p : Z) (s : state) : Z * state := (u64 (p + 16384), (s.1, write_bytes s.2 p stack_pages)).

Definition upd (p : Z) (f : process -> process) (s : state) : outcome state := k ← upd_proc p f s.1; Done (k, s.2).

Definition set_thread (t : kernel_thread) : process -> process := set_p_main_thread t.
Definition set_rsp (user_stack rsp : Z) (t : kernel_thread) : kernel_thread :=
  mk_kt rsp (kt_rbp t) (kt_rip t) (kt_tls_base t) (kt_rbx t) (kt_rdi t) (kt_r12 t) (kt_r13 t) (kt_r14 t) (kt_r15 t) (kt_tid t) (kt_priority t) (kt_kernel_stack t) user_stack (kt_process t).

(** Three descriptors for the console. *)
Definition open_console (s : state) : outcome state :=
  '(console, s) ← on_k (open_file fuel fuel [47; 100; 101; 118; 47; 116; 116; 121] 0) s;
  '(_, s) ← on_k (process_open_fd console 0) s; '(_, s) ← on_k (process_open_fd console 0) s; '(_, s) ← on_k (process_open_fd console 0) s;
  Done s.

(** The address and the stack to enter, with the state; [panic] does not
    return. *)
Definition process_create_task (path : list Z) (is_kernel : bool) (s : state) : outcome (option (Z * Z) * state) :=
  '(node, s) ← on_k (open_file fuel fuel path 0) s;
  if decide (node = 0) then Blocked
  else
    let p := new_key (k_procs s.1) in
    let '(m, k) := new_mm 0x1000 s.1 in
    let s := (put_proc p (mk_process 1 0 0 0 1 0 0 0 0 m zero_thread 0 0 None 0 false) (set_k_pcb (mk_pcb p (previous_process (k_pcb k)) (kernel_idle_process (k_pcb k)) 0) (process_set_current_pml 0x1000 k)), s.2) in
    '(r, s) ← run_elf (create_handle node) s;
    if decide (r.1 <> 0) then Done (None, s)
    else
      '(ustack, s) ← on_k (with_vm_result (memmgr_create_stack true 16384)) s;
      let '(ustack, s) := user_stack_of ustack s in
      '(kstack, s) ← on_k (with_vm_result (memmgr_create_stack false 16384)) s;
      let kstack := u64 (kstack + 16384) in
      let th := mk_kt 0 0 (elf_entrypoint r.2) 0 0 0 0 0 0 0 0 0 kstack ustack p in
      s ← upd p (fun x => set_p_flags (Z.lor (if is_kernel then PROC_FLAG_KERNEL else 0) PROC_FLAG_RUNNING) (set_thread th x)) s;
      '(root, s) ← on_k (open_file fuel fuel [47] 0) s;
      s ← upd p (fun x => set_p_cwd (Some [47]) (set_p_cwd_file root x)) s;
      let '(t, k) := new_fdt 32 0 s.1 in
      s ← upd p (set_p_fd_table t) (k, s.2);
      s ← open_console s;
      let s := with_k (set_stack_pointer kstack) s in
      let s := with_k (fun k => set_k_process_list (k_process_list k ++ [p]) k) s in
      k ← insert_in_tree fuel 0 p s.1;
      '(userStack, m) ← first_stack (ustack, s.2);
      let rsp := if is_kernel then kstack else userStack in
      s ← upd p (set_thread (set_rsp userStack rsp th)) (k, m);
      Done (Some (elf_entrypoint r.2, rsp), s).

(** ** execve, after its tests *)

Section Body.
Context (EFAULT : Z) (check_ptr : Z -> state -> bool).

(** The strings of a vector up to its NULL: their addresses. *)
Definition vector_step (v : Z) (s : state) (l : list Z) : outcome (list Z + option (list Z)) :=
  a ← load_le 8 s.2 (v + 8 * Z.of_nat (length l));
  if decide (a = 0) then Done (inr (Some l)) else if check_ptr a s then Done (inl (l ++ [a])) else Done (inr None).
Definition vector_of (v : Z) (s : state) : outcome (option (list Z)) := if decide (v = 0) then Done (Some []) else loop fuel (vector_step v s) [].

Fixpoint strings_at (ps : list Z) (m : mem) : outcome (list (list Z)) :=
  match ps with [] => Done [] | p :: ps => s ← user_string m p; l ← strings_at ps m; Done (s :: l) end.

(** [for(i < capacity)]: the file of every handle is asked for, a NULL one as
    well. *)
Definition close_step (table : Z) (i : Z) (k : kstate F D) : outcome (kstate F D + unit) :=
  t ← fdt_at k table;
  handle ← aget (ft_handles t) i;
  h ← at_ (k_handles k) handle;
  v ← close_op (h_node (kh h)) (k_vfs k);
  hs ← aset (ft_handles t) i 0;
  Done (inl (put_fdt table (mk_fdt (ft_capacity t) (s32 (ft_length t - 1)) hs (ft_count t) (ft_lock t)) (set_k_handles (base.delete handle (k_handles k)) (set_k_vfs v k)))).
Definition close_all (table : Z) (k : kstate F D) : outcome (kstate F D) :=
  t ← fdt_at k table;
  if decide (0 < ft_length t) then
    r ← for_ (Z.to_nat (ft_capacity t)) 0 (close_step table) k;
    match r with inl k => Done (set_k_fdts (base.delete table (k_fdts k)) k) | inr _ => Fault end
  else Done k.

(** A copy of the boot tables in a new frame; the lock of the new address space
    stays taken. *)
Definition new_space (p old : Z) (s : state) : outcome state :=
  mm ← at_ (k_mms s.1) old;
  _ ← spin_lock (mm_lock mm);
  let k := load_page_map 0 s.1 in
  k ← (if decide (mm_count mm = 1) then k ← with_vm (memmgr_clear_page_map (mm_page_directory mm)) k; Done (set_k_mms (base.delete old (k_mms k)) k)
       else Done (set_k_mms (<[old := mk_mm (mm_page_directory mm) (mm_heap mm) (mm_count mm) true]> (k_mms k)) k));
  '(frame, k) ← with_vm_result alloc_frame k;
  let m := new_key (k_mms k) in
  let k := set_k_mms (<[m := mk_mm frame 0 1 true]> (k_mms k)) k in
  k ← upd_proc p (set_p_page_directory m) k;
  k ← with_vm (memmgr_clone_page_map 0x1000 (memmgr_get_from_physical frame)) k;
  Done (load_page_map frame (process_set_current_pml frame k), boot_mem).

Definition execve_body (path : list Z) (argv envp : Z) (s : state) : outcome (Z + (Z * Z) * state) :=
  '(node, s) ← on_k (open_file fuel fuel path 0) s;
  if decide (node = 0) then Done (inl (-1))
  else
    args ← vector_of argv s;
    match args with
    | None => Done (inl (- EFAULT))
    | Some args =>
        envs ← vector_of envp s;
        match envs with
        | None => Done (inl (- EFAULT))
        | Some envs =>
            args ← strings_at args s.2; new_argv ← copy_args junk args;
            envs ← strings_at envs s.2; new_envp ← copy_args junk envs;
            let p := get_current_process s.1 in
            x ← proc_at s.1 p;
            s ← new_space p (p_page_directory x) s;
            k ← close_all (p_fd_table x) s.1;
            '(r, s) ← run_elf (create_handle node) (k, s.2);
            if decide (r.1 <> 0) then Done (inl (-1))
            else
              '(ustack, s) ← on_k (with_vm_result (mmap 0 16384 false)) s;
              let '(ustack, s) := user_stack_of ustack s in
              let t := p_main_thread x in
              let th := mk_kt (kt_rsp t) (kt_rbp t) (elf_entrypoint r.2) (kt_tls_base t) (kt_rbx t) (kt_rdi t) (kt_r12 t) (kt_r13 t) (kt_r14 t) (kt_r15 t) (kt_tid t) 0 (kt_kernel_stack t) ustack p in
              s ← upd p (fun x => set_p_flags (Z.lor (if decide (Z.land (p_flags x) PROC_FLAG_KERNEL <> 0) then PROC_FLAG_KERNEL else 0) PROC_FLAG_RUNNING) (set_thread th x)) s;
              '(root, s) ← on_k (open_file fuel fuel [47] 0) s;
              s ← upd p (fun x => set_p_cwd (Some [47]) (set_p_cwd_file root x)) s;
              let '(tb, k) := new_fdt 32 0 s.1 in
              s ← upd p (set_p_fd_table tb) (k, s.2);
              s ← open_console s;
              let s := with_k (set_stack_pointer (kt_kernel_stack th)) s in
              '(userStack, m) ← exec_stack new_argv new_envp (ustack, s.2);
              s ← upd p (set_thread (set_rsp userStack userStack th)) (s.1, m);
              Done (inr (elf_entrypoint r.2, userStack, s))
        end
    end.
End Body.
End Exec.

(** ** Facts on the stack *)

Lemma land_7 a : Z.land a 7 = a mod 8.
Proof. change 7 with (Z.ones 3). by rewrite Z.land_ones by lia. Qed.

Lemma align_down_8 a : 0 <= a < 2 ^ 64 -> Z.land a 0xFFFFFFFFFFFFFFF8 = a / 8 * 8.
Proof.
  intros Ha. change 0xFFFFFFFFFFFFFFF8 with (Z.shiftl (Z.ones 61) 3). change 8 with (2 ^ 3). rewrite <-Z.shiftr_div_pow2, <-Z.shiftl_mul_pow2 by lia.
  apply Z.bits_inj'. intros i Hi. rewrite Z.land_spec, !Z.shiftl_spec by lia. destruct (decide (i < 3)).
  - rewrite !(Z.testbit_neg_r _ (i - 3)) by lia. apply andb_false_r.
  - rewrite Z.shiftr_spec by lia. replace (i - 3 + 3) with i by lia. destruct (decide (i < 64)).
    + rewrite Z.ones_spec_low by lia. apply andb_true_r.
    + rewrite <-(Z.mod_small a (2 ^ 64)), Z.mod_pow2_bits_high by lia. done.
Qed.

Lemma push_ptr_done v stack m : stack mod 8 = 0 -> 8 <= stack < 2 ^ 64 -> mapped m (stack - 8) 8 ->
  PUSH_PTR v (stack, m) = Done (stack - 8, write_bytes m (stack - 8) (to_le 8 v)).
Proof.
  intros Hal Hs Hm. unfold PUSH_PTR. rewrite u64_small by lia.
  assert (Hstep : align_step (stack - 8) = Done (inr (stack - 8))).
  { unfold align_step. rewrite land_7. rewrite decide_False; [done|]. replace (stack - 8) with (stack + (-1) * 8) by lia. rewrite Z.mod_add by lia. by intros Hne. }
  cbn [loop]. rewrite Hstep. cbn [mbind outcome_bind]. by rewrite (store_le_done 8 m (stack - 8) v Hm).
Qed.

Lemma push_string_done str stack m : let a := (stack - (Z.of_nat (length str) + 1)) / 8 * 8 in
  0 <= stack - (Z.of_nat (length str) + 1) -> stack < 2 ^ 64 -> mapped m a (Z.of_nat (length str) + 1) ->
  push_string_to_userstack str (stack, m) = Done (a, write_bytes m a (str ++ [0])).
Proof.
  cbn zeta. intros H0 Hs Hm. unfold push_string_to_userstack. rewrite u64_small by lia. rewrite align_down_8 by lia. unfold copy_out.
  destruct (load_bytes_mapped (length (str ++ [0])) m ((stack - (Z.of_nat (length str) + 1)) / 8 * 8)) as [l Hl].
  - rewrite length_app. cbn [length]. by replace (Z.of_nat (length str + 1)) with (Z.of_nat (length str) + 1) by lia.
  - by rewrite Hl.
Qed.

(** A run of pushes. *)
Fixpoint push_all (ws : list Z) (st : Z * mem) : outcome (Z * mem) :=
  match ws with [] => Done st | w :: ws => st ← PUSH_PTR w st; push_all ws st end.

Lemma load_words_snoc n m p l w : load_words n m p = Done l -> load_le 8 m (p + 8 * Z.of_nat n) = Done w -> load_words (S n) m p = Done (l ++ [w]).
Proof.
  revert p l. induction n as [|n IH]; intros p l Hl Hw.
  - injection Hl as <-. cbn [load_words]. rewrite Z.mul_0_r, Z.add_0_r in Hw. by rewrite Hw.
  - cbn [load_words] in Hl. destruct (load_le 8 m p) as [w0| | |] eqn:E0; try done. cbn [mbind outcome_bind] in Hl.
    destruct (load_words n m (p + 8)) as [l0| | |] eqn:El; try done. injection Hl as <-.
    change (load_words (S (S n)) m p) with (w ← load_le 8 m p; l ← load_words (S n) m (p + 8); Done (w :: l)). rewrite E0. cbn [mbind outcome_bind].
    rewrite (IH (p + 8) l0 El); [done|]. by replace (p + 8 + 8 * Z.of_nat n) with (p + 8 * Z.of_nat (S n)) by lia.
Qed.

Lemma push_all_done ws : forall stack m, stack mod 8 = 0 -> stack < 2 ^ 64 -> 0 <= stack - 8 * Z.of_nat (length ws) ->
  mapped m (stack - 8 * Z.of_nat (length ws)) (8 * Z.of_nat (length ws)) ->
  exists m', push_all ws (stack, m) = Done (stack - 8 * Z.of_nat (length ws), m') /\
    load_words (length ws) m' (stack - 8 * Z.of_nat (length ws)) = Done (u64 <$> reverse ws) /\
    forall q, ~ (stack - 8 * Z.of_nat (length ws) <= q < stack) -> m' !! q = m !! q.
Proof.
  induction ws as [|w ws IH]; intros stack m Hal Hs H0 Hm; cbn [length push_all] in *.
  - exists m. replace (stack - 8 * Z.of_nat 0) with stack by lia. done.
  - rewrite (push_ptr_done w stack m Hal) by (first [lia | eapply mapped_weaken; [exact Hm|lia..]]). cbn [mbind outcome_bind].
    set (m1 := write_bytes m (stack - 8) (to_le 8 w)).
    destruct (IH (stack - 8) m1) as (m' & Hrun & Hl & Hout).
    + replace (stack - 8) with (stack + (-1) * 8) by lia. by rewrite Z.mod_add by lia.
    + lia.
    + lia.
    + apply mapped_write_bytes. eapply mapped_weaken; [exact Hm|lia..].
    + exists m'. replace (stack - 8 * Z.of_nat (S (length ws))) with (stack - 8 - 8 * Z.of_nat (length ws)) by lia. split; [exact Hrun|]. split.
      * rewrite reverse_cons, fmap_app. apply load_words_snoc; [exact Hl|]. replace (stack - 8 - 8 * Z.of_nat (length ws) + 8 * Z.of_nat (length ws)) with (stack - 8) by lia.
        assert (E : load_le 8 m' (stack - 8) = load_le 8 m1 (stack - 8)).
        { unfold load_le. rewrite (load_bytes_agree 8 m1); [done|]. intros q Hq. apply Hout. lia. }
        rewrite E. unfold m1. rewrite load_le_stored. done.
      * intros q Hq. rewrite Hout by lia. unfold m1. apply write_bytes_lookup_out. rewrite to_le_length. lia.
Qed.

Lemma cstring_kept m m' p s : cstring m p s -> (forall q, p <= q < p + Z.of_nat (length s) + 1 -> m' !! q = m !! q) -> cstring m' p s.
Proof.
  intros (Hb & HF) Hk. split; [|done]. intros i b Hi. rewrite Hk; [by apply Hb|]. apply lookup_lt_Some in Hi. rewrite length_app in Hi. cbn in Hi. lia.
Qed.

(** C8: The stack of the first program.  Below the aligned top that
    process_create_task gives it, the program finds at its stack pointer the
    number of arguments 0, the NULL of the argument vector, the addresses of
    two strings and the NULL of the environment; the strings are PATH=/usr/bin
    and TERM=nightos; and nothing outside these 72 bytes has changed. *)
Theorem first_stack_layout m top : top mod 8 = 0 -> 72 <= top < 2 ^ 64 -> mapped m (top - 72) 72 ->
  exists m', first_stack (top, m) = Done (top - 72, m') /\ load_words 5 m' (top - 72) = Done [0; 0; top - 16; top - 32; 0] /\
    cstring m' (top - 16) str_path /\ cstring m' (top - 32) str_term /\ forall q, ~ (top - 72 <= q < top) -> m' !! q = m !! q.
Proof.
  intros Hal Ht Hm. unfold first_stack.
  assert (E1 : (top - (Z.of_nat (length str_path) + 1)) / 8 * 8 = top - 16).
  { change (Z.of_nat (length str_path)) with 13. pose proof (Z.div_mod top 8 ltac:(lia)). replace (top - (13 + 1)) with ((top / 8 - 2) * 8 + 2) by lia. rewrite Z.div_add_l by lia. change (2 / 8) with 0. lia. }
  assert (E2 : (top - 16 - (Z.of_nat (length str_term) + 1)) / 8 * 8 = top - 32).
  { change (Z.of_nat (length str_term)) with 12. pose proof (Z.div_mod top 8 ltac:(lia)). replace (top - 16 - (12 + 1)) with ((top / 8 - 4) * 8 + 3) by lia. rewrite Z.div_add_l by lia. change (3 / 8) with 0. lia. }
  assert (Hmod : forall k, (top - 8 * k) mod 8 = 0) by (intros k; replace (top - 8 * k) with (top + (- k) * 8) by lia; by rewrite Z.mod_add by lia).
  rewrite (push_string_done str_path top m); [|cbn; lia|lia|rewrite E1; eapply mapped_weaken; [exact Hm|lia|cbn; lia]].
  rewrite E1. cbn [mbind outcome_bind fst]. set (m1 := write_bytes m (top - 16) _). assert (Hm1 : mapped m1 (top - 72) 72) by (by apply mapped_write_bytes).
  rewrite (push_string_done str_term (top - 16) m1); [|cbn; lia|lia|rewrite E2; eapply mapped_weaken; [exact Hm1|lia|cbn; lia]].
  rewrite E2. cbn [mbind outcome_bind fst]. set (m2 := write_bytes m1 (top - 32) _). assert (Hm2 : mapped m2 (top - 72) 72) by (by apply mapped_write_bytes).
  destruct (push_all_done [0; top - 32; top - 16; 0; 0] (top - 32) m2) as (m' & Hrun & Hl & Hout); [exact (Hmod 4)|lia|cbn; lia|eapply mapped_weaken; [exact Hm2|cbn; lia..]|].
  cbn [length push_all] in *. replace (top - 32 - 8 * Z.of_nat 5) with (top - 72) in * by lia. exists m'. split.
  { rewrite <-Hrun. do 4 (match goal with |- context [PUSH_PTR ?v ?st] => destruct (PUSH_PTR v st) as [[? ?]| | |]; cbn [mbind outcome_bind]; try done end).
    destruct (PUSH_PTR 0 _); done. }
  split; [rewrite Hl; cbn; rewrite !u64_small by lia; done|].
  assert (Hs1 : cstring m1 (top - 16) str_path) by (split; [apply write_bytes_at|unfold str_path; repeat constructor; lia]).
  assert (Hs2 : cstring m2 (top - 32) str_term) by (split; [apply write_bytes_at|unfold str_term; repeat constructor; lia]).
  assert (Hl1 : length (str_path ++ [0]) = 14%nat) by done. assert (Hl2 : length (str_term ++ [0]) = 13%nat) by done. split; [|split].
  - apply (cstring_kept m1); [done|]. cbn [length str_path]. intros q Hq. rewrite Hout by (cbn in Hq; lia). apply write_bytes_lookup_out. rewrite Hl2. cbn in Hq; lia.
  - apply (cstring_kept m2); [done|]. intros q Hq. apply Hout. lia.
  - intros q Hq. rewrite Hout by lia. unfold m2. rewrite write_bytes_lookup_out by (rewrite Hl2; lia). unfold m1. apply write_bytes_lookup_out. rewrite Hl1. lia.
Qed.

(** The arguments of execve.  Copying any argument or environment string
    writes its terminator behind the block allocated for it: a call with a
    string in either vector does not get to the new program. *)
Theorem copy_args_overruns junk s ss : copy_args junk (s :: ss) = Fault.
Proof.
  cbn [copy_args]. unfold copy_arg, in_object.
  destruct (decide (0 + Z.of_nat (length s) <= Z.of_nat (length s) + 1)); [|done]. cbn [mbind outcome_bind].
  destruct (decide (Z.of_nat (length s) + 1 + 1 <= Z.of_nat (length s) + 1)); [lia|done].
Qed.

(** A stack of 128 bytes. *)
Example first_stack_layout_witness : exists m', first_stack (4224, write_bytes ∅ 4096 (replicate 128 7)) = Done (4152, m') /\
  load_words 5 m' 4152 = Done [0; 0; 4208; 4192; 0] /\ cstring m' 4208 str_path /\ cstring m' 4192 str_term /\
  forall q, ~ (4152 <= q < 4224) -> m' !! q = write_bytes ∅ 4096 (replicate 128 7) !! q.
Proof.
  apply (first_stack_layout (write_bytes ∅ 4096 (replicate 128 7)) 4224); [reflexivity|lia|].
  apply (mapped_weaken _ 4096 128); [|lia|lia]. apply (bytes_at_mapped _ _ (replicate 128 7)), write_bytes_at.
Defined.
