(* ===== verification/Ahci.v ===== *)
(** kernel/pci/ahci.c: the disk controller, its commands, and the set-up of its
    ports.

    The registers of the controller are words on the memory bus of Pci, so a
    read of one may move the controller on.  The controller reads and writes the
    memory of the machine itself; [DmaRam] gives the bytes of that memory, by
    physical address, inside the state of the bus.  [phys_of] is the translation
    of kernel addresses in force while the driver runs: it is what
    memmgr_get_page_physical returns, and what the processor uses when the driver
    follows a pointer.  malloc and calloc of a buffer are the class
    [BufferAlloc]; an io_request is the value of its fields.  A call of panic
    does not return ([Blocked]).  Messages are left out. *)
From stdpp Require Import base list gmap.
From Stdlib Require Import ZArith Lia.
From S2P Require Import Prelude Memory UserMem Format Frames Paging KTree Vfs Ports Interrupts Pci.

#[local] Open Scope Z_scope.

(** ** Registers and structures (ahci.h) *)

Definition SATA_SIG_ATA : Z := 0x00000101.
Definition ATA_SR_BSY : Z := 0x80.
Definition ATA_SR_DF : Z := 0x20.
Definition ATA_SR_DRQ : Z := 0x08.
Definition ATA_SR_ERR : Z := 0x01.
Definition ATA_CMD_READ_DMA_EXT : Z := 0x25.
Definition ATA_CMD_WRITE_DMA_EXT : Z := 0x35.
Definition ATA_CMD_IDENTIFY : Z := 0xEC.
Definition FIS_TYPE_REG_H2D : Z := 0x27.
Definition HBA_PxCMD_ST : Z := 0x0001.
Definition HBA_PxCMD_FRE : Z := 0x0010.
Definition HBA_PxCMD_CR : Z := 0x8000.
Definition HBA_PxIS_TFES : Z := 0x40000000.
Definition HBA_MEM_CAP2_BOH : Z := Z.shiftl 1 0.
Definition HBA_MEM_BOHC_OOS : Z := Z.shiftl 1 1.
Definition HBA_MEM_BOHC_BB : Z := Z.shiftl 1 4.

(** Offsets in an HBA_PORT, and the place of a port in the HBA_MEM. *)
Definition PxCLB : Z := 0x00.
Definition PxCLBU : Z := 0x04.
Definition PxFB : Z := 0x08.
Definition PxFBU : Z := 0x0C.
Definition PxIS : Z := 0x10.
Definition PxCMD : Z := 0x18.
Definition PxTFD : Z := 0x20.
Definition PxSIG : Z := 0x24.
Definition PxSSTS : Z := 0x28.
Definition PxSACT : Z := 0x34.
Definition PxCI : Z := 0x38.
Definition port_at (hba port : Z) : Z := hba + 0x100 + 0x80 * port.

(** Offsets in the HBA_MEM, and the fields of its bit fields. *)
Definition HBA_CAP : Z := 0x00.
Definition HBA_GHC : Z := 0x04.
Definition HBA_PI : Z := 0x0C.
Definition HBA_CAP2 : Z := 0x24.
Definition HBA_BOHC : Z := 0x28.
Definition GHC_HR : Z := 0.
Definition GHC_IE : Z := 1.
Definition GHC_AE : Z := 31.
Definition CAP_NP (cap : Z) : Z := Z.land cap 0x1F.
Definition CAP_S64A (cap : Z) : Z := Z.shiftr cap 31.

(** Sizes and offsets of a command header, a command table and the data of
    IDENTIFY. *)
Definition sizeof_CMD_HEADER : Z := 32.
Definition sizeof_FIS_REG_D2H : Z := 20.
Definition CMD_prdtl : Z := 2.
Definition CMD_ctba : Z := 8.
Definition CMD_ctbau : Z := 12.
Definition TBL_prdt : Z := 0x80.
Definition INFO_capacitySectors : Z := 114.

Record io_request := mk_io { io_buffer : Z; io_count : Z; io_offset : Z }.
Record sata_device := mk_sata { sd_port : Z; sd_size : Z; sd_node : Z }.

(** ** Memory *)

Class DmaRam (B : Type) := { ram : B -> mem; put_ram : mem -> B -> B }.
Class Translation := { phys_of : Z -> Z }.
Class BufferAlloc := { alloc_buffer : Z -> mem -> outcome (Z * mem); free_buffer : Z -> mem -> mem }.

Section Access.
Context `{Translation}.

(** Bytes at a kernel address. *)
Fixpoint get_bytes (n : nat) (v : Z) (m : mem) : outcome (list Z) :=
  match n with O => Done [] | S n => b ← load m (phys_of v); l ← get_bytes n (v + 1) m; Done (b :: l) end.
Fixpoint put_bytes (l : list Z) (v : Z) (m : mem) : outcome mem :=
  match l with [] => Done m | b :: l => _ ← load m (phys_of v); put_bytes l (v + 1) (<[phys_of v := b]> m) end.
Definition get_le (n : nat) (v : Z) (m : mem) : outcome Z := l ← get_bytes n v m; Done (le l).
Definition set_le (n : nat) (v x : Z) (m : mem) : outcome mem := put_bytes (to_le n x) v m.

(** A bit field of the byte or word at [v]: the bits of [mask] become [x]. *)
Definition set_field (n : nat) (v mask x : Z) (m : mem) : outcome mem :=
  old ← get_le n v m; set_le n v (Z.lor (Z.land old (Z.lnot mask)) (Z.land x mask)) m.

Fixpoint set_fields (fields : list (Z * Z)) (v : Z) (m : mem) : outcome mem :=
  match fields with [] => Done m | (off, x) :: fields => m ← put_bytes [x] (v + off) m; set_fields fields v m end.
End Access.

(** ** Commands *)

(** [for(int i = 0; i < 32; i++)] with [slots >>= 1]. *)
Fixpoint slot_loop (n : nat) (i slots : Z) : Z :=
  match n with O => -1 | S n => if decide (Z.land slots 1 = 0) then i else slot_loop n (i + 1) (Z.shiftr slots 1) end.

Section Commands.
Context {B : Type} `{MB : MmioBus B} `{RB : DmaRam B} `{TR : Translation} `{BA : BufferAlloc}.
Context (fuel : nat).

Definition get_next_free (port : Z) (b : B) : Z * B :=
  let '(sact, b) := readl (port + PxSACT) b in
  let '(ci, b) := readl (port + PxCI) b in
  (slot_loop 32 0 (Z.lor sact ci), b).

(** The stores to the command FIS behind the bit field of its second byte. *)
Definition fis_stores (offset count ataCommand : Z) : list (Z * Z) :=
  let data := bool_decide (ataCommand <> ATA_CMD_IDENTIFY) in
  [(11, 0); (3, 0); (4, u8 offset); (5, u8 (Z.shiftr offset 8)); (6, u8 (Z.shiftr offset 16));
   (7, if data then 64 else 0);
   (8, u8 (Z.shiftr offset 24)); (9, u8 (Z.shiftr offset 32)); (10, u8 (Z.shiftr offset 40));
   (12, if data then Z.land (count / 512) 0xFF else 0);
   (13, if data then Z.land (Z.shiftr (count / 512) 8) 0xFF else 0)].

(** An entry of the descriptor table: address and byte count. *)
Definition set_prdt (entry physical dbc : Z) (m : mem) : outcome mem :=
  m ← set_le 4 entry (u32 physical) m;
  m ← set_le 4 (entry + 4) (Z.shiftr physical 32) m;
  set_field 4 (entry + 12) 0x3FFFFF dbc m.

(** Every round stores to entry 0. *)
Definition prdt_round (table buffer i : Z) (st : mem * Z) : outcome (mem * Z) :=
  let '(m, remaining) := st in
  let count := if decide (4096 < remaining) then 4096 else remaining in
  m ← set_prdt (table + TBL_prdt) (phys_of (buffer + i * 4096)) (Z.lor (count - 1) 1) m; Done (m, s32 (remaining - count)).

(** [None] when the request is too large. *)
Definition fill_prdt (table buffer count : Z) (m : mem) : outcome (option mem) :=
  if decide (count < 4096) then
    m ← set_prdt (table + TBL_prdt) (phys_of buffer) (Z.lor (u64 (count - 1)) 1) m; Done (Some m)
  else
    let countOfPRDTs := s32 (count / 4096) in
    if decide (8 < countOfPRDTs) then Done None
    else
      r ← for_ (Z.to_nat countOfPRDTs) 0 (fun i st => st ← prdt_round table buffer i st; Done (inl (B := unit) st)) (m, s32 count);
      match r with inl (m, _) => Done (Some m) | inr _ => Fault end.

(** The header, the FIS and the descriptors of a command in slot [cmdIndex] of
    the list at [list]. *)
Definition build_command (list cmdIndex : Z) (ioRequest : io_request) (ataCommand : Z) (m : mem) : outcome (option mem) :=
  let offset := io_offset ioRequest / 512 in
  let cmdHeader := memmgr_get_from_physical list + sizeof_CMD_HEADER * cmdIndex in
  ctbau ← get_le 4 (cmdHeader + CMD_ctbau) m; ctba ← get_le 4 (cmdHeader + CMD_ctba) m;
  let cmdTable := memmgr_get_from_physical (Z.lor (Z.shiftl ctbau 32) ctba) in
  m ← put_bytes (replicate 20 0) cmdTable m;
  m ← set_field 1 cmdHeader 0x1F (sizeof_FIS_REG_D2H / 4) m;
  m ← set_le 2 (cmdHeader + CMD_prdtl) 1 m;
  m ← set_field 1 cmdHeader 0x40 0 m;
  m ← set_fields [(0, FIS_TYPE_REG_H2D); (2, ataCommand)] cmdTable m;
  m ← set_field 1 (cmdTable + 1) 0x80 0x80 m;
  m ← set_fields (fis_stores offset (io_count ioRequest) ataCommand) cmdTable m;
  fill_prdt cmdTable (io_buffer ioRequest) (io_count ioRequest) m.

(** [while((port->tfd & (BSY | DRQ)) && spin < 1000000) spin++] *)
Definition spin_step (port : Z) (st : Z * B) : outcome (Z * B + Z * B) :=
  let '(spin, b) := st in
  let '(tfd, b) := readl (port + PxTFD) b in
  if decide (Z.land tfd (Z.lor ATA_SR_BSY ATA_SR_DRQ) <> 0 /\ spin < 1000000) then Done (inl (spin + 1, b)) else Done (inr (spin, b)).

(** The wait for the end of the command; an error in the task file panics. *)
Definition complete_step (port cmdIndex : Z) (b : B) : outcome (B + B) :=
  let '(ci, b) := readl (port + PxCI) b in
  if decide (Z.land ci (u32 (Z.shiftl 1 cmdIndex)) = 0) then Done (inr b)
  else
    let '(is_, b) := readl (port + PxIS) b in
    if decide (Z.land is_ HBA_PxIS_TFES <> 0) then Blocked else Done (inl b).

(** The two reads of the status for the message. *)
Definition report (port : Z) (b : B) : B :=
  let '(tfd, b) := readl (port + PxTFD) b in
  if decide (Z.land tfd (Z.lor ATA_SR_ERR ATA_SR_DF) <> 0) then (readl (port + PxTFD) (readl (port + PxTFD) b).2).2 else b.

Definition issue_command (port cmdIndex : Z) (b : B) : outcome B :=
  '(spin, b) ← loop fuel (spin_step port) (0, b);
  if decide (spin = 1000000) then Done b
  else
    let b := writel (port + PxIS) 0xFFFFFFFF b in
    let '(ci, b) := readl (port + PxCI) b in
    let b := writel (port + PxCI) (Z.lor ci (u32 (Z.shiftl 1 cmdIndex))) b in
    b ← loop fuel (complete_step port cmdIndex) b;
    Done (report port b).

(** [port] is the register block of the port of the global sataDevice. *)
Definition ahci_send_command (port : Z) (ioRequest : io_request) (ataCommand : Z) (b : B) : outcome B :=
  let '(cmdIndex, b) := get_next_free port b in
  if decide (cmdIndex = -1) then Done b
  else
    let '(clbu, b) := readl (port + PxCLBU) b in
    let '(clb, b) := readl (port + PxCLB) b in
    m ← build_command (Z.lor (Z.shiftl clbu 32) clb) cmdIndex ioRequest ataCommand (ram b);
    match m with None => Done b | Some m => issue_command port cmdIndex (put_ram m b) end.

(** calloc(1, n) *)
Definition calloc_buffer (n : Z) (m : mem) : outcome (Z * mem) :=
  '(p, m) ← alloc_buffer n m; m ← put_bytes (replicate (Z.to_nat n) 0) p m; Done (p, m).

Definition ahci_read (port buf offset length : Z) (b : B) : outcome (Z * B) :=
  '(buffer, m) ← calloc_buffer length (ram b);
  b ← ahci_send_command port (mk_io buffer length offset) ATA_CMD_READ_DMA_EXT (put_ram m b);
  data ← get_bytes (Z.to_nat length) buffer (ram b);
  m ← put_bytes data buf (ram b);
  Done (s32 length, put_ram (free_buffer buffer m) b).

Definition ahci_write (port buf offset length : Z) (b : B) : outcome (Z * B) :=
  '(buffer, m) ← calloc_buffer length (ram b);
  data ← get_bytes (Z.to_nat length) buf m;
  m ← put_bytes data buffer m;
  b ← ahci_send_command port (mk_io buffer length offset) ATA_CMD_WRITE_DMA_EXT (put_ram m b);
  Done (s32 length, put_ram (free_buffer buffer (ram b)) b).
End Commands.

(** ** The set-up *)

(** The drivers of vfs.c by the numbers of their functions. *)
Definition AHCI_READ : Z := 80.
Definition AHCI_WRITE : Z := 81.
Definition ahci_ops : file_operations := mk_ops AHCI_READ AHCI_WRITE 0 0 0 0 0 0 0 0 0 0.
Definition FLAG_UCMINUS : Z := 0x10.
Definition ahci_interrupt_handler : Z := 82.

Section Setup.
Context {B F D : Type} `{MB : MmioBus B} `{PB : PortBus B} `{RB : DmaRam B} `{TR : Translation} `{BA : BufferAlloc}.
Context `{FA : FrameAllocator F} `{NA : NodeAlloc} `{Drv : Drivers D} `{Env : VfsEnv D}.
(** [new_sata] is calloc of a sata_device_t. *)
Context (fuel : nat) (new_sata : gmap Z sata_device -> Z).

(** The globals of the file, with the parts of the kernel it calls; [c_ticks]
    begins with the counter of the timer, and goes on with its later values. *)
Record controller := mk_ctl {
  c_bus : B; c_vm : vm F; c_vfs : vfs D; c_irqs : list Z; c_ticks : list Z;
  c_hba : Z; c_sata : Z; c_devices : gmap Z sata_device
}.
Definition set_c_bus (b : B) (c : controller) : controller := mk_ctl b (c_vm c) (c_vfs c) (c_irqs c) (c_ticks c) (c_hba c) (c_sata c) (c_devices c).
Definition set_c_vm (s : vm F) (c : controller) : controller := mk_ctl (c_bus c) s (c_vfs c) (c_irqs c) (c_ticks c) (c_hba c) (c_sata c) (c_devices c).
Definition set_c_vfs (v : vfs D) (c : controller) : controller := mk_ctl (c_bus c) (c_vm c) v (c_irqs c) (c_ticks c) (c_hba c) (c_sata c) (c_devices c).
Definition set_c_irqs (l : list Z) (c : controller) : controller := mk_ctl (c_bus c) (c_vm c) (c_vfs c) l (c_ticks c) (c_hba c) (c_sata c) (c_devices c).
Definition set_c_ticks (l : list Z) (c : controller) : controller := mk_ctl (c_bus c) (c_vm c) (c_vfs c) (c_irqs c) l (c_hba c) (c_sata c) (c_devices c).
Definition set_c_hba (h : Z) (c : controller) : controller := mk_ctl (c_bus c) (c_vm c) (c_vfs c) (c_irqs c) (c_ticks c) h (c_sata c) (c_devices c).
Definition set_c_sata (p : Z) (d : gmap Z sata_device) (c : controller) : controller := mk_ctl (c_bus c) (c_vm c) (c_vfs c) (c_irqs c) (c_ticks c) (c_hba c) p d.

Definition read_reg (r : Z) (c : controller) : Z * controller := let '(v, b) := readl r (c_bus c) in (v, set_c_bus b c).
Definition write_reg (r v : Z) (c : controller) : controller := set_c_bus (writel r v (c_bus c)) c.
(** [reg |= bits]; a bit field that is set to 1 is the same. *)
Definition or_reg (r bits : Z) (c : controller) : controller := let '(v, c) := read_reg r c in write_reg r (Z.lor v bits) c.
Definition sleep_ms (ms : Z) (c : controller) : outcome controller :=
  match c_ticks c with [] => Blocked | counter :: ticks => l ← Timer.ksleep ms counter ticks; Done (set_c_ticks l c) end.
Definition new_frame (c : controller) : outcome (Z * controller) := '(a, s) ← alloc_frame (c_vm c); Done (a, set_c_vm s c).
Definition on_ram (f : mem -> outcome mem) (c : controller) : outcome controller := m ← f (ram (c_bus c)); Done (set_c_bus (put_ram m (c_bus c)) c).

(** A wait with a limit: past [limit] sleeps of [ms] the code panics. *)
Definition sleep_step (r mask ms limit : Z) (st : Z * controller) : outcome (Z * controller + controller) :=
  let '(sleepCount, c) := st in
  let '(v, c) := read_reg r c in
  if decide (Z.land v mask = mask) then
    c ← sleep_ms ms c;
    if decide (limit < sleepCount + 1) then Blocked else Done (inl (sleepCount + 1, c))
  else Done (inr c).

(** The hand-over from the firmware. *)
Definition take_over (hba : Z) (c : controller) : outcome controller :=
  let '(cap2, c) := read_reg (hba + HBA_CAP2) c in
  if decide (Z.land cap2 HBA_MEM_CAP2_BOH = 1) then
    c ← sleep_ms 25 (or_reg (hba + HBA_BOHC) HBA_MEM_BOHC_OOS c);
    loop fuel (sleep_step (hba + HBA_BOHC) HBA_MEM_BOHC_BB 2000 4) (0, c)
  else Done c.

Definition reset_hba (hba : Z) (c : controller) : outcome controller :=
  let c := or_reg (hba + HBA_GHC) (Z.shiftl 1 GHC_AE) c in
  let c := or_reg (hba + HBA_GHC) (Z.shiftl 1 GHC_HR) c in
  loop fuel (sleep_step (hba + HBA_GHC) (Z.shiftl 1 GHC_HR) 1000 2) (0, c).

(** The header at [commandList] gets the address of a new command table. *)
Definition add_table (commandList : Z) (c : controller) : outcome controller :=
  '(frame, c) ← new_frame c;
  let table := memmgr_get_from_virtual (memmgr_get_from_physical frame) in
  c ← on_ram (set_le 4 (commandList + CMD_ctba) (Z.land table 0xffffffff)) c;
  on_ram (set_le 4 (commandList + CMD_ctbau) (Z.shiftr table 32)) c.

(** [commandList += j] in every round: the pointer is not that of header j. *)
Definition table_round (j : Z) (st : Z * controller) : outcome (Z * controller + unit) :=
  let '(commandList, c) := st in
  let commandList := commandList + sizeof_CMD_HEADER * j in
  c ← add_table commandList c; Done (inl (commandList, c)).

(** The list, the received FIS, and the registers that say where they are. *)
Definition place_structures (port : Z) (c : controller) : outcome controller :=
  '(frame, c) ← new_frame c;
  r ← for_ 32 0 table_round (memmgr_get_from_physical frame, c);
  match r with
  | inr _ => Fault
  | inl (commandList, c) =>
      '(fis, c) ← new_frame c;
      let list := memmgr_get_from_virtual commandList in
      let receivedFIS := memmgr_get_from_virtual (memmgr_get_from_physical fis) in
      let c := write_reg (port + PxCLB) (Z.land list 0xffffffff) c in
      let c := write_reg (port + PxCLBU) (Z.shiftr list 32) c in
      let c := write_reg (port + PxFB) (Z.land receivedFIS 0xffffffff) c in
      Done (write_reg (port + PxFBU) (Z.shiftr receivedFIS 32) c)
  end.

Definition stopped_step (port : Z) (c : controller) : outcome (controller + controller) :=
  let '(cmd, c) := read_reg (port + PxCMD) c in
  if decide (Z.land cmd HBA_PxCMD_CR <> 0) then Done (inl c) else Done (inr c).

(** The node of a disk: its name and size are those of the record before they
    are set. *)
Definition create_ahci_device (sata : Z) (c : controller) : outcome (Z * controller) :=
  d ← of_option (c_devices c !! sata);
  '(_, name) ← snprintf 6 zero_name 16 [104; 100; 37; 100; 0] [ALong (sd_port d)];
  let node := falloc (files (c_vfs c)) in
  Done (node, set_c_vfs (put_file node (mk_fn name 0 FILE_TYPE_BLOCK_DEVICE (sd_size d) false sata ahci_ops 0) (c_vfs c)) c).

(** The registers of the port of sataDevice. *)
Definition current_port (c : controller) : outcome Z := d ← of_option (c_devices c !! c_sata c); Done (port_at (c_hba c) (sd_port d)).

(** A disk that answers: IDENTIFY, the node, its place in the tree. *)
Definition add_disk (i : Z) (c : controller) : outcome controller :=
  let sata := new_sata (c_devices c) in
  let c := set_c_sata sata (<[sata := mk_sata 0 0 0]> (c_devices c)) c in
  '(buffer, m) ← alloc_buffer 512 (ram (c_bus c));
  m ← put_bytes (replicate 512 0) buffer m;
  port ← current_port c;
  b ← ahci_send_command fuel port (mk_io buffer 512 0) ATA_CMD_IDENTIFY (put_ram m (c_bus c));
  '(node, c) ← create_ahci_device sata (set_c_bus b c);
  f ← of_option (files (c_vfs c) !! node);
  '(_, path) ← snprintf 8 (replicate 32 0) 32 [47; 37; 115; 47; 37; 115; 0] [AStr [100; 101; 118; 0]; AStr (f_name f)];
  plen ← str_len path;
  capacitySectors ← get_le 4 (buffer + INFO_capacitySectors) (ram (c_bus c));
  let c := set_c_sata sata (<[sata := mk_sata i (u32 (capacitySectors * 512)) node]> (c_devices c)) c in
  '(_, v) ← mount_directly fuel (take (Z.to_nat plen) path) node (c_vfs c);
  Done (set_c_vfs v c).

Definition setup_port (i : Z) (c : controller) : outcome controller :=
  let hba := c_hba c in
  let port := port_at hba i in
  let '(pi, c) := read_reg (hba + HBA_PI) c in
  if decide (Z.land (Z.shiftr pi i) 1 = 0) then Done c
  else
    c ← place_structures port c;
    c ← loop fuel (stopped_step port) c;
    let c := or_reg (port + PxCMD) HBA_PxCMD_FRE c in
    let c := or_reg (port + PxCMD) HBA_PxCMD_ST c in
    let c := (read_reg (port + PxSSTS) (read_reg (port + PxSSTS) c).2).2 in
    let c := (read_reg (port + PxSIG) (read_reg (port + PxSSTS) c).2).2 in
    let '(sig, c) := read_reg (port + PxSIG) c in
    if decide (sig = SATA_SIG_ATA) then add_disk i c else Done c.

Definition ahci_setup (abar interruptVector : Z) (c : controller) : outcome controller :=
  '(hba, s) ← memmgr_map_mmio abar 0x2000 FLAG_UCMINUS true (c_vm c);
  let c := set_c_hba hba (set_c_vm s c) in
  c ← take_over hba c;
  let '(oldPI, c) := read_reg (hba + HBA_PI) c in
  c ← reset_hba hba c;
  let c := or_reg (hba + HBA_GHC) (Z.shiftl 1 GHC_AE) c in
  let c := write_reg (hba + HBA_PI) oldPI c in
  let c := or_reg (hba + HBA_GHC) (Z.shiftl 1 GHC_IE) c in
  let c := set_c_bus (Pic.pic_enableInterrupt interruptVector (c_bus c)) c in
  irqs ← Idt.irq_install_handler interruptVector ahci_interrupt_handler (c_irqs c);
  let c := set_c_irqs irqs c in
  let '(cap, c) := read_reg (hba + HBA_CAP) c in
  if decide (CAP_S64A cap = 0) then Blocked
  else
    let '(cap, c) := read_reg (hba + HBA_CAP) c in
    let '(_, c) := read_reg (hba + HBA_PI) c in
    r ← for_ (Z.to_nat (CAP_NP cap + 1)) 0 (fun i c => c ← setup_port i c; Done (inl (B := unit) c)) c;
    match r with inl c => Done c | inr _ => Fault end.
End Setup.

(** ** Facts on memory *)

Section MemoryFacts.
Context `{Translation}.

(** The [n] bytes at the kernel address [v] lie at [p] and behind it. *)
Definition straight (v p n : Z) : Prop := forall i, 0 <= i < n -> phys_of (v + i) = p + i.

Lemma straight_sub v p n off k : straight v p n -> 0 <= off -> off + k <= n -> straight (v + off) (p + off) k.
Proof. intros Hs Ho Hk i Hi. replace (v + off + i) with (v + (off + i)) by lia. rewrite Hs by lia. lia. Qed.

Lemma straight_head v p n : straight v p n -> 0 < n -> phys_of v = p.
Proof. intros Hs Hn. specialize (Hs 0 ltac:(lia)). by rewrite !Z.add_0_r in Hs. Qed.

Lemma get_bytes_straight n v p m : straight v p (Z.of_nat n) -> get_bytes n v m = load_bytes n m p.
Proof.
  revert v p. induction n as [|n IH]; intros v p Hs; [done|]. cbn [get_bytes load_bytes]. rewrite (straight_head v p _ Hs) by lia.
  rewrite (IH (v + 1) (p + 1)); [done|]. eapply straight_sub; [exact Hs|lia..].
Qed.

Lemma set_bytes_straight l v p m : straight v p (Z.of_nat (length l)) -> mapped m p (Z.of_nat (length l)) -> put_bytes l v m = Done (write_bytes m p l).
Proof.
  revert v p m. induction l as [|b l IH]; intros v p m Hs Hm; [done|]. cbn [put_bytes write_bytes length] in *. rewrite (straight_head v p _ Hs) by lia.
  destruct (Hm p) as [c Hc]; [lia|]. rewrite (load_done _ _ c) by done. cbn [mbind outcome_bind]. apply IH.
  - eapply straight_sub; [exact Hs|lia..].
  - apply mapped_insert. eapply mapped_weaken; [exact Hm|lia..].
Qed.

(** What a store may change. *)
Definition writes (m m' : mem) (p n : Z) : Prop :=
  (forall q, ~ (p <= q < p + n) -> m' !! q = m !! q) /\ forall q k, mapped m q k -> mapped m' q k.

Lemma writes_write m p l : writes m (write_bytes m p l) p (Z.of_nat (length l)).
Proof. split; [intros q Hq; apply write_bytes_lookup_out; lia|intros q k; apply mapped_write_bytes]. Qed.

Lemma writes_trans m m1 m2 p n : writes m m1 p n -> writes m1 m2 p n -> writes m m2 p n.
Proof. intros [H1 H1'] [H2 H2']. split; [intros q Hq; by rewrite H2, H1 by done|auto]. Qed.

Lemma writes_wider m m' p n p' n' : writes m m' p n -> p' <= p -> p + n <= p' + n' -> writes m m' p' n'.
Proof. intros [H1 H2] Hp Hn. split; [intros q Hq; apply H1; lia|done]. Qed.

Lemma writes_bytes_at m m' p n q l : writes m m' p n -> bytes_at m q l -> q + Z.of_nat (length l) <= p \/ p + n <= q -> bytes_at m' q l.
Proof. intros [Hw _] Hb Ha. eapply bytes_at_agree; [|exact Hb]. intros r Hr. apply Hw. lia. Qed.

Lemma writes_load_le m m' p n k q : writes m m' p n -> q + Z.of_nat k <= p \/ p + n <= q -> load_le k m' q = load_le k m q.
Proof. intros [Hw _] Ha. unfold load_le. rewrite (load_bytes_agree k m); [done|]. intros r Hr. apply Hw. lia. Qed.

Lemma get_le_straight n v p m : straight v p (Z.of_nat n) -> get_le n v m = load_le n m p.
Proof. intros Hs. unfold get_le. by rewrite (get_bytes_straight n v p m Hs). Qed.

Lemma set_le_done n v p x m : straight v p (Z.of_nat n) -> mapped m p (Z.of_nat n) ->
  exists m', set_le n v x m = Done m' /\ writes m m' p (Z.of_nat n) /\ load_le n m' p = Done (x mod 256 ^ Z.of_nat n).
Proof.
  intros Hs Hm. exists (write_bytes m p (to_le n x)). unfold set_le. split.
  - apply set_bytes_straight; by rewrite to_le_length.
  - split; [|apply load_le_stored]. pose proof (writes_write m p (to_le n x)) as Hw. by rewrite to_le_length in Hw.
Qed.

(** A bit field of [n] bytes. *)
Lemma land_256 n v : Z.land v (256 ^ Z.of_nat n - 1) = v mod 256 ^ Z.of_nat n.
Proof.
  replace (256 ^ Z.of_nat n) with (2 ^ (8 * Z.of_nat n)) by (rewrite Z.pow_mul_r by lia; done).
  rewrite <-Z.land_ones by lia. by rewrite Z.ones_equiv, Z.sub_1_r.
Qed.

Lemma land_mod_mask n v mask : 0 <= mask < 256 ^ Z.of_nat n -> Z.land (v mod 256 ^ Z.of_nat n) mask = Z.land v mask.
Proof.
  intros Hm. rewrite <-land_256, <-Z.land_assoc. f_equal. rewrite Z.land_comm, land_256. by apply Z.mod_small.
Qed.

Lemma field_bits o mask x : Z.land (Z.lor (Z.land o (Z.lnot mask)) (Z.land x mask)) mask = Z.land x mask.
Proof.
  rewrite Z.land_lor_distr_l, <-!Z.land_assoc, Z.land_diag, (Z.land_comm (Z.lnot mask)), Z.land_lnot_diag, Z.land_0_r. done.
Qed.

Lemma field_others o mask x mask' : Z.land mask mask' = 0 -> Z.land (Z.lor (Z.land o (Z.lnot mask)) (Z.land x mask)) mask' = Z.land o mask'.
Proof.
  intros Hd. rewrite Z.land_lor_distr_l, <-!Z.land_assoc, Hd, Z.land_0_r, Z.lor_0_r. f_equal. apply Z.bits_inj'. intros i Hi.
  rewrite Z.land_spec, Z.lnot_spec by done. apply (f_equal (fun z => Z.testbit z i)) in Hd. rewrite Z.land_spec, Z.bits_0 in Hd.
  destruct (Z.testbit mask i), (Z.testbit mask' i); done.
Qed.

Definition field_value (n : nat) (old mask x : Z) : Z := Z.lor (Z.land old (Z.lnot mask)) (Z.land x mask) mod 256 ^ Z.of_nat n.

Lemma field_value_mask n old mask x : 0 <= mask < 256 ^ Z.of_nat n -> Z.land (field_value n old mask x) mask = Z.land x mask.
Proof. intros Hk. unfold field_value. rewrite land_mod_mask by done. apply field_bits. Qed.

Lemma field_value_others n old mask x mask' : 0 <= mask' < 256 ^ Z.of_nat n -> Z.land mask mask' = 0 ->
  Z.land (field_value n old mask x) mask' = Z.land old mask'.
Proof. intros Hk Hd. unfold field_value. rewrite land_mod_mask by done. by apply field_others. Qed.

Lemma set_field_done n v p mask x m old : straight v p (Z.of_nat n) -> load_le n m p = Done old ->
  exists m', set_field n v mask x m = Done m' /\ writes m m' p (Z.of_nat n) /\ load_le n m' p = Done (field_value n old mask x).
Proof.
  intros Hs Ho. unfold set_field. rewrite (get_le_straight n v p m Hs), Ho. cbn [mbind outcome_bind]. apply (set_le_done n v p _ m Hs).
  unfold load_le in Ho. apply outcome_bind_done in Ho as (l & Hl & _). apply load_bytes_done in Hl as [Hb <-]. by apply bytes_at_mapped.
Qed.

Lemma load_le_mapped n m p : mapped m p (Z.of_nat n) -> exists v, load_le n m p = Done v.
Proof. intros Hm. unfold load_le. destruct (load_bytes_mapped n m p Hm) as [l ->]. by eexists. Qed.

Lemma poke_bytes_at m m' p off x l : writes m m' (p + Z.of_nat off) 1 -> load_le 1 m' (p + Z.of_nat off) = Done x -> bytes_at m p l ->
  bytes_at m' p (<[off := x]> l).
Proof.
  intros [Hw _] Hx Hb i b Hi. destruct (decide (i = off)) as [->|Hne].
  - rewrite list_lookup_insert_eq in Hi by (apply lookup_lt_Some in Hi; by rewrite length_insert in Hi). injection Hi as <-.
    unfold load_le in Hx. apply outcome_bind_done in Hx as (r & Hr & [= <-]). apply load_bytes_done in Hr as [Hr Hl].
    destruct r as [|c [|]]; [done| |done]. apply bytes_at_cons in Hr as [Hc _]. rewrite Hc. cbn [le foldr]. f_equal. lia.
  - rewrite list_lookup_insert_ne in Hi by done. rewrite Hw by lia. by apply Hb.
Qed.

(** Single bytes of a block. *)
Definition put_fields (fields : list (Z * Z)) (l : list Z) : list Z := foldl (fun l f => <[Z.to_nat f.1 := f.2]> l) l fields.

Lemma set_fields_done fields v p n l m : straight v p n -> Z.of_nat (length l) = n -> bytes_at m p l -> Forall (fun f => 0 <= f.1 < n) fields ->
  exists m', set_fields fields v m = Done m' /\ writes m m' p n /\ bytes_at m' p (put_fields fields l).
Proof.
  intros Hs Hn Hb Hf. revert l m Hn Hb. induction Hf as [|[off x] fields Ho Hf IH]; intros l m Hn Hb; cbn [fst snd] in *.
  - exists m. split; [done|]. split; [by split|done].
  - cbn [set_fields put_fields foldl fst snd]. pose proof (bytes_at_mapped _ _ _ Hb) as Hm.
    rewrite (set_bytes_straight [x] (v + off) (p + off) m);
      [|eapply straight_sub; [exact Hs|lia|cbn [length]; lia]|eapply mapped_weaken; [exact Hm|lia|cbn [length]; lia]].
    cbn [mbind outcome_bind]. destruct (IH (<[Z.to_nat off := x]> l) (write_bytes m (p + off) [x])) as (m' & Hrun & Hw & Hb').
    + by rewrite length_insert.
    + cbn [write_bytes]. intros i b Hi. destruct (decide (i = Z.to_nat off)) as [->|Hne].
      * rewrite list_lookup_insert_eq in Hi by lia. injection Hi as ->. by rewrite Z2Nat.id, lookup_insert_eq by lia.
      * rewrite list_lookup_insert_ne in Hi by done. rewrite lookup_insert_ne by lia. by apply Hb.
    + exists m'. split; [exact Hrun|]. split; [|exact Hb']. eapply writes_trans; [|exact Hw].
      eapply writes_wider; [apply writes_write|lia|cbn [length]; lia].
Qed.

(** Bytes anywhere: what was stored is read back when no two of the addresses
    name the same byte. *)
Definition one_to_one (v n : Z) : Prop := forall i j, 0 <= i < n -> 0 <= j < n -> phys_of (v + i) = phys_of (v + j) -> i = j.
Definition reachable (m : mem) (v n : Z) : Prop := forall i, 0 <= i < n -> is_Some (m !! phys_of (v + i)).

Lemma set_get l v m : one_to_one v (Z.of_nat (length l)) -> reachable m v (Z.of_nat (length l)) ->
  exists m', put_bytes l v m = Done m' /\ get_bytes (length l) v m' = Done l /\
    forall q, (forall i, 0 <= i < Z.of_nat (length l) -> q <> phys_of (v + i)) -> m' !! q = m !! q.
Proof.
  revert v m. induction l as [|b l IH]; intros v m Ho Hr; [by exists m|]. cbn [put_bytes get_bytes length] in *.
  destruct (Hr 0) as [c Hc]; [lia|]. rewrite Z.add_0_r in Hc. rewrite (load_done _ _ c) by done. cbn [mbind outcome_bind].
  destruct (IH (v + 1) (<[phys_of v := b]> m)) as (m' & Hs & Hg & Hout).
  - intros i j Hi Hj E. specialize (Ho (1 + i) (1 + j) ltac:(lia) ltac:(lia)). rewrite !Z.add_assoc in Ho. specialize (Ho E). lia.
  - intros i Hi. destruct (Hr (1 + i)) as [d Hd]; [lia|]. rewrite Z.add_assoc in Hd.
    destruct (decide (phys_of v = phys_of (v + 1 + i))) as [<-|]; [rewrite lookup_insert_eq; by eexists|rewrite lookup_insert_ne by done; by exists d].
  - exists m'. split; [exact Hs|]. split.
    + rewrite (load_done _ _ b); [cbn [mbind outcome_bind]; by rewrite Hg|]. rewrite Hout; [by rewrite lookup_insert_eq|].
      intros i Hi E. specialize (Ho 0 (1 + i) ltac:(lia) ltac:(lia)). rewrite Z.add_0_r, Z.add_assoc in Ho. specialize (Ho E). lia.
    + intros q Hq. rewrite Hout.
      * apply lookup_insert_ne. intros E. apply (Hq 0); [lia|]. by rewrite Z.add_0_r.
      * intros i Hi E. apply (Hq (1 + i)); [lia|]. by rewrite Z.add_assoc.
Qed.
End MemoryFacts.

(** ** The command in memory *)

Definition data_command (cmd : Z) : bool := bool_decide (cmd <> ATA_CMD_IDENTIFY).

(** The FIS of a command of [n] sectors from [lba] on: type, command bit,
    command, the address in two parts, LBA mode, the count. *)
Definition command_fis (lba n cmd : Z) : list Z :=
  [FIS_TYPE_REG_H2D; 0x80; cmd; 0] ++ take 3 (to_le 6 lba) ++ [64] ++ drop 3 (to_le 6 lba) ++ [0] ++ to_le 2 n ++ replicate 6 0.

(** The command that the header at [h] and the table at [t] describe: from the
    device to the memory, with one descriptor of [len] bytes at [a]. *)
Record issued (m : mem) (h t : Z) (fis : list Z) (a len : Z) : Prop := {
  is_flags : exists fl, load_le 1 m h = Done fl /\ Z.land fl 0x1F = 5 /\ Z.land fl 0x40 = 0;
  is_prdtl : load_le 2 m (h + CMD_prdtl) = Done 1;
  is_ctba : load_le 4 m (h + CMD_ctba) = Done (t mod 2 ^ 32);
  is_ctbau : load_le 4 m (h + CMD_ctbau) = Done (t / 2 ^ 32);
  is_fis : bytes_at m t fis;
  is_dba : load_le 4 m (t + TBL_prdt) = Done (a mod 2 ^ 32);
  is_dbau : load_le 4 m (t + TBL_prdt + 4) = Done (a / 2 ^ 32);
  is_dbc : exists d, load_le 4 m (t + TBL_prdt + 12) = Done d /\ Z.land d 0x3FFFFF = len - 1
}.

Section CommandFacts.
Context `{TR : Translation} `{BA : BufferAlloc}.

(** The header and the table of a slot, as the processor and the device see
    them. *)
Record command_place (m : mem) (list slot h t : Z) : Prop := {
  cp_header : straight (memmgr_get_from_physical list + sizeof_CMD_HEADER * slot) h 32;
  cp_table : straight (memmgr_get_from_physical t) t 0x90;
  cp_header_mapped : mapped m h 32;
  cp_table_mapped : mapped m t 0x90;
  cp_apart : h + 32 <= t \/ t + 0x90 <= h;
  cp_range : 0 <= t < 2 ^ 64;
  cp_ctba : load_le 4 m (h + CMD_ctba) = Done (t mod 2 ^ 32);
  cp_ctbau : load_le 4 m (h + CMD_ctbau) = Done (t / 2 ^ 32)
}.

Lemma u8_shiftr x k : 0 <= k -> u8 (Z.shiftr x k) = x / 2 ^ k mod 256.
Proof. intros Hk. unfold u8. by rewrite Z.shiftr_div_pow2 by done. Qed.

Lemma to_le_6 x : to_le 6 x = [u8 x; u8 (Z.shiftr x 8); u8 (Z.shiftr x 16); u8 (Z.shiftr x 24); u8 (Z.shiftr x 32); u8 (Z.shiftr x 40)].
Proof.
  rewrite !u8_shiftr by lia. cbn [to_le]. rewrite !Z.div_div by lia. done.
Qed.

Lemma fis_stored lba count cmd n : cmd <> ATA_CMD_IDENTIFY -> count / 512 = n ->
  put_fields (fis_stores lba count cmd) (<[1%nat := 0x80]> (put_fields [(0, FIS_TYPE_REG_H2D); (2, cmd)] (replicate 20 0))) = command_fis lba n cmd.
Proof.
  intros Hc Hn. unfold command_fis, fis_stores. rewrite bool_decide_true, to_le_6, Hn by done. cbn [to_le].
  assert (E : Z.land n 0xFF = n mod 256) by (change 0xFF with (Z.ones 8); by rewrite Z.land_ones by lia).
  assert (E' : Z.land (Z.shiftr n 8) 0xFF = n / 256 mod 256) by (change 0xFF with (Z.ones 8); by rewrite Z.land_ones, Z.shiftr_div_pow2 by lia).
  rewrite E, E'. reflexivity.
Qed.

Lemma set_prdt_done v p phys dbc m : straight v p 16 -> mapped m p 16 ->
  exists m' d, set_prdt v phys dbc m = Done m' /\ writes m m' p 16 /\ load_le 4 m' p = Done (phys mod 2 ^ 32) /\
    load_le 4 m' (p + 4) = Done (phys / 2 ^ 32 mod 2 ^ 32) /\ load_le 4 m' (p + 12) = Done d /\ Z.land d 0x3FFFFF = Z.land dbc 0x3FFFFF.
Proof.
  intros Hs Hm. unfold set_prdt.
  destruct (set_le_done 4 v p (u32 phys) m) as (m1 & -> & W1 & L1); [intros i Hi; apply Hs; lia|eapply mapped_weaken; [exact Hm|lia..]|]. cbn [mbind outcome_bind].
  destruct (set_le_done 4 (v + 4) (p + 4) (Z.shiftr phys 32) m1) as (m2 & -> & W2 & L2);
    [eapply straight_sub; [exact Hs|lia..]|apply W1; eapply mapped_weaken; [exact Hm|lia..]|]. cbn [mbind outcome_bind].
  assert (Hm2 : mapped m2 (p + 12) 4) by (apply W2, W1; eapply mapped_weaken; [exact Hm|lia..]). destruct (load_le_mapped 4 m2 (p + 12) Hm2) as [old Hold].
  destruct (set_field_done 4 (v + 12) (p + 12) 0x3FFFFF dbc m2 old) as (m3 & -> & W3 & L3); [eapply straight_sub; [exact Hs|lia..]|exact Hold|].
  exists m3, (field_value 4 old 0x3FFFFF dbc). split; [done|]. split; [|split; [|split; [|split]]].
  - apply (writes_trans _ m1); [eapply writes_wider; [exact W1|lia..]|]. apply (writes_trans _ m2); [eapply writes_wider; [exact W2|lia..]|eapply writes_wider; [exact W3|lia..]].
  - rewrite (writes_load_le _ _ _ _ _ _ W3), (writes_load_le _ _ _ _ _ _ W2), L1 by lia. f_equal. unfold u32. apply Z.mod_mod. lia.
  - rewrite (writes_load_le _ _ _ _ _ _ W3), L2 by lia. by rewrite Z.shiftr_div_pow2 by lia.
  - exact L3.
  - apply field_value_mask. done.
Qed.

(** The one descriptor the code fills, after the rounds: that of the last page. *)
Lemma fill_prdt_large table t buffer k m : straight (table + TBL_prdt) (t + TBL_prdt) 16 -> mapped m (t + TBL_prdt) 16 -> 1 <= k <= 8 ->
  exists m' d, fill_prdt table buffer (4096 * k) m = Done (Some m') /\ writes m m' (t + TBL_prdt) 16 /\
    load_le 4 m' (t + TBL_prdt) = Done (phys_of (buffer + (k - 1) * 4096) mod 2 ^ 32) /\
    load_le 4 m' (t + TBL_prdt + 4) = Done (phys_of (buffer + (k - 1) * 4096) / 2 ^ 32 mod 2 ^ 32) /\
    load_le 4 m' (t + TBL_prdt + 12) = Done d /\ Z.land d 0x3FFFFF = 4095.
Proof.
  intros Hs Hm Hk. unfold fill_prdt. rewrite decide_False by lia. rewrite (Z.mul_comm 4096 k), Z.div_mul, !s32_small by lia. rewrite decide_False by lia.
  set (I := fun i (st : mem * Z) => 0 <= i /\ writes m st.1 (t + TBL_prdt) 16 /\ st.2 = k * 4096 - i * 4096 /\ (0 < i -> exists d,
     load_le 4 st.1 (t + TBL_prdt) = Done (phys_of (buffer + (i - 1) * 4096) mod 2 ^ 32) /\
     load_le 4 st.1 (t + TBL_prdt + 4) = Done (phys_of (buffer + (i - 1) * 4096) / 2 ^ 32 mod 2 ^ 32) /\
     load_le 4 st.1 (t + TBL_prdt + 12) = Done d /\ Z.land d 0x3FFFFF = 4095)).
  destruct (for_total I (Z.to_nat k) 0 (fun i st => st ← prdt_round table buffer i st; Done (inl (B := unit) st)) (m, k * 4096)) as ([m' rem] & Hrun & _ & Hw & _ & Hd).
  - intros i [m1 rem] Hi (_ & Hw & Hrem & _). cbn [fst snd] in *. unfold prdt_round. subst rem.
    assert (Hc : (if decide (4096 < k * 4096 - i * 4096) then 4096 else k * 4096 - i * 4096) = 4096) by (case_decide; lia). rewrite Hc.
    change (Z.lor (4096 - 1) 1) with 4095.
    destruct (set_prdt_done (table + TBL_prdt) (t + TBL_prdt) (phys_of (buffer + i * 4096)) 4095 m1 Hs) as (m2 & d & -> & W & L1 & L2 & L3 & Ld); [by apply Hw|].
    cbn [mbind outcome_bind]. eexists. split; [reflexivity|]. rewrite s32_small by lia. unfold I. cbn [fst snd]. split; [lia|]. split; [exact (writes_trans _ _ _ _ _ Hw W)|]. split; [lia|]. intros _. exists d.
    replace (i + 1 - 1) with i by lia. by split_and!.
  - unfold I. cbn [fst snd]. split; [lia|]. split; [by split|]. split; [lia|]. lia.
  - rewrite Hrun. cbn [mbind outcome_bind]. cbn [fst snd] in *. rewrite Z.add_0_l, Z2Nat.id in Hd by lia. destruct (Hd ltac:(lia)) as (d & L1 & L2 & L3 & Ld).
    exists m', d. by split_and!.
Qed.

Lemma flags_of old : Z.land (field_value 1 (field_value 1 old 0x1F 5) 0x40 0) 0x1F = 5 /\ Z.land (field_value 1 (field_value 1 old 0x1F 5) 0x40 0) 0x40 = 0.
Proof. split; [rewrite field_value_others by done; by rewrite field_value_mask|by rewrite field_value_mask]. Qed.

Lemma odd_count n : 0 < n < 8 -> Z.land (Z.lor (u64 (512 * n - 1)) 1) 0x3FFFFF = 512 * n - 1.
Proof.
  intros Hn. assert (E : n = 1 \/ n = 2 \/ n = 3 \/ n = 4 \/ n = 5 \/ n = 6 \/ n = 7) by lia.
  repeat destruct E as [-> | E]; try reflexivity. by subst n.
Qed.

Lemma table_address t : 0 <= t -> Z.lor (Z.shiftl (t / 2 ^ 32) 32) (t mod 2 ^ 32) = t.
Proof.
  intros Ht. rewrite <-Z.shiftr_div_pow2, <-Z.land_ones by lia. apply Z.bits_inj'. intros i Hi.
  rewrite Z.lor_spec, Z.land_spec, Z.shiftl_spec, Z.testbit_ones_nonneg by lia. destruct (decide (i < 32)) as [Hl|Hl].
  - rewrite (Z.testbit_neg_r _ (i - 32)) by lia. rewrite (proj2 (Z.ltb_lt i 32)) by lia. by rewrite andb_true_r.
  - rewrite Z.shiftr_spec by lia. rewrite (proj2 (Z.ltb_ge i 32)) by lia. rewrite andb_false_r, orb_false_r. f_equal. lia.
Qed.

(** The stores to the header, whatever comes after them. *)
Lemma header_done {A} hv h m (K : mem -> outcome A) : straight hv h 32 -> mapped m h 32 ->
  exists m' fl, (m ← set_field 1 hv 0x1F (sizeof_FIS_REG_D2H / 4) m; m ← set_le 2 (hv + CMD_prdtl) 1 m; m ← set_field 1 hv 0x40 0 m; K m) = K m' /\
    writes m m' h 4 /\ load_le 1 m' h = Done fl /\ Z.land fl 0x1F = 5 /\ Z.land fl 0x40 = 0 /\ load_le 2 m' (h + CMD_prdtl) = Done 1.
Proof.
  intros Hh Hm. unfold CMD_prdtl. assert (Hh1 : straight hv h 1) by (intros i Hi; apply Hh; lia).
  destruct (load_le_mapped 1 m h) as [f0 F0]; [eapply mapped_weaken; [exact Hm|lia..]|].
  destruct (set_field_done 1 hv h 0x1F (sizeof_FIS_REG_D2H / 4) m f0 Hh1 F0) as (m2 & -> & W2 & L2). cbn [mbind outcome_bind].
  destruct (set_le_done 2 (hv + 2) (h + 2) 1 m2) as (m3 & -> & W3 & L3); [eapply straight_sub; [exact Hh|lia..]|apply W2; eapply mapped_weaken; [exact Hm|lia..]|].
  cbn [mbind outcome_bind]. rewrite <-(writes_load_le _ _ _ _ 1 h W3) in L2 by lia.
  destruct (set_field_done 1 hv h 0x40 0 m3 _ Hh1 L2) as (m4 & -> & W4 & L4). cbn [mbind outcome_bind].
  exists m4, (field_value 1 (field_value 1 f0 0x1F 5) 0x40 0). destruct (flags_of f0) as [E1 E2]. split; [done|]. split; [|split; [exact L4|split; [exact E1|split; [exact E2|]]]].
  - apply (writes_trans _ m2); [eapply writes_wider; [exact W2|lia..]|]. apply (writes_trans _ m3); [eapply writes_wider; [exact W3|lia..]|eapply writes_wider; [exact W4|lia..]].
  - rewrite (writes_load_le _ _ _ _ _ _ W4) by lia. exact L3.
Qed.

(** The stores to the FIS, on the cleared bytes. *)
Lemma fis_done {A} tv t lba n cmd m (K : mem -> outcome A) : straight tv t 20 -> bytes_at m t (replicate 20 0) -> cmd <> ATA_CMD_IDENTIFY ->
  exists m', (m ← set_fields [(0, FIS_TYPE_REG_H2D); (2, cmd)] tv m; m ← set_field 1 (tv + 1) 0x80 0x80 m; m ← set_fields (fis_stores lba (512 * n) cmd) tv m; K m) = K m' /\
    writes m m' t 20 /\ bytes_at m' t (command_fis lba n cmd).
Proof.
  intros Ht B4 Hcmd.
  destruct (set_fields_done [(0, FIS_TYPE_REG_H2D); (2, cmd)] tv t 20 (replicate 20 0) m Ht eq_refl B4) as (m5 & -> & W5 & B5); [repeat constructor; cbn; lia|]. cbn [mbind outcome_bind].
  assert (C0 : load_le 1 m5 (t + 1) = Done 0).
  { unfold load_le, load_bytes. by rewrite (load_done _ _ 0) by (apply (B5 1%nat); reflexivity). }
  destruct (set_field_done 1 (tv + 1) (t + 1) 0x80 0x80 m5 0) as (m6 & -> & W6 & L6); [eapply straight_sub; [exact Ht|lia..]|exact C0|]. cbn [mbind outcome_bind].
  assert (B6 := poke_bytes_at m5 m6 t 1 0x80 _ W6 L6 B5).
  assert (Hl6 : Z.of_nat (length (<[1%nat := 0x80]> (put_fields [(0, FIS_TYPE_REG_H2D); (2, cmd)] (replicate 20 0)))) = 20) by done.
  destruct (set_fields_done (fis_stores lba (512 * n) cmd) tv t 20 _ m6 Ht Hl6 B6) as (m7 & -> & W7 & B7); [repeat constructor; cbn; lia|]. cbn [mbind outcome_bind].
  rewrite (fis_stored lba (512 * n) cmd n) in B7 by (done || (rewrite Z.mul_comm, Z.div_mul; lia)).
  exists m7. split; [done|]. split; [|exact B7]. apply (writes_trans _ m5); [exact W5|]. apply (writes_trans _ m6); [eapply writes_wider; [exact W6|lia..]|exact W7].
Qed.

(** Up to a page the header, the FIS and the descriptor are filled as they are
    meant. *)
Lemma build_command_done list slot req cmd m h t n lba : command_place m list slot h t -> io_count req = 512 * n -> 0 < n < 8 ->
  io_offset req = 512 * lba -> cmd <> ATA_CMD_IDENTIFY -> 0 <= phys_of (io_buffer req) < 2 ^ 64 ->
  exists m', build_command list slot req cmd m = Done (Some m') /\ issued m' h t (command_fis lba n cmd) (phys_of (io_buffer req)) (512 * n) /\
    (forall q, ~ (h <= q < h + 32) -> ~ (t <= q < t + 0x90) -> m' !! q = m !! q) /\ forall q k, mapped m q k -> mapped m' q k.
Proof.
  intros [Hh Ht Hmh Hmt Hap Hr Hlo Hhi] Hcount Hn Hoff Hcmd Hbuf. unfold build_command.
  replace (io_offset req / 512) with lba by (rewrite Hoff, Z.mul_comm, Z.div_mul; lia). rewrite Hcount.
  set (hv := memmgr_get_from_physical list + _) in *.
  rewrite (get_le_straight 4 (hv + CMD_ctbau) (h + CMD_ctbau)) by (eapply straight_sub; [exact Hh|done..]). rewrite Hhi. cbn [mbind outcome_bind].
  rewrite (get_le_straight 4 (hv + CMD_ctba) (h + CMD_ctba)) by (eapply straight_sub; [exact Hh|done..]). rewrite Hlo. cbn [mbind outcome_bind].
  rewrite table_address by lia. set (tv := memmgr_get_from_physical t) in *.
  assert (Ht20 : straight tv t 20) by (intros i Hi; apply Ht; lia).
  rewrite (set_bytes_straight (replicate 20 0) tv t m) by (first [exact Ht20 | eapply mapped_weaken; [exact Hmt|lia|cbn; lia]]). cbn [mbind outcome_bind].
  pose proof (writes_write m t (replicate 20 0)) as W1. set (m1 := write_bytes m t _) in *. change (Z.of_nat (length (replicate 20 0))) with 20 in W1.
  match goal with |- context [set_field 1 hv 0x1F _ _ ≫= fun m => set_le 2 _ 1 m ≫= fun m => set_field 1 hv 0x40 0 m ≫= ?K] => destruct (header_done hv h m1 K Hh) as (m4 & fl & -> & W4 & L4 & E1 & E2 & L3) end.
  { by apply W1. }
  assert (B4 : bytes_at m4 t (replicate 20 0)) by (apply (writes_bytes_at _ _ _ _ _ _ W4 (write_bytes_at _ _ _)); cbn; lia).
  match goal with |- context [set_fields _ tv m4 ≫= fun m => set_field 1 _ 0x80 0x80 m ≫= fun m => set_fields _ tv m ≫= ?K] => destruct (fis_done tv t lba n cmd m4 K Ht20 B4 Hcmd) as (m7 & -> & W7 & B7) end.
  unfold fill_prdt. rewrite decide_True by lia.
  destruct (set_prdt_done (tv + TBL_prdt) (t + TBL_prdt) (phys_of (io_buffer req)) (Z.lor (u64 (512 * n - 1)) 1) m7) as (m8 & d & -> & W8 & D1 & D2 & D3 & D4);
    [eapply straight_sub; [exact Ht|done..]|apply W7, W4, W1; eapply mapped_weaken; [exact Hmt|unfold TBL_prdt; lia..]|]. cbn [mbind outcome_bind].
  assert (W48 : writes m4 m8 t 0x90) by (apply (writes_trans _ m7); [eapply writes_wider; [exact W7|lia..]|eapply writes_wider; [exact W8|unfold TBL_prdt; lia..]]).
  exists m8. split; [done|]. unfold CMD_prdtl, CMD_ctba, CMD_ctbau, TBL_prdt in *. split; [|split].
  - split; unfold CMD_prdtl, CMD_ctba, CMD_ctbau, TBL_prdt; try (rewrite !(writes_load_le _ _ _ _ _ _ W48) by lia).
    + by exists fl.
    + exact L3.
    + by rewrite (writes_load_le _ _ _ _ _ _ W4), (writes_load_le _ _ _ _ _ _ W1) by lia.
    + by rewrite (writes_load_le _ _ _ _ _ _ W4), (writes_load_le _ _ _ _ _ _ W1) by lia.
    + apply (writes_bytes_at _ _ _ _ _ _ W8 B7). left. change (Z.of_nat (length (command_fis lba n cmd))) with 20. lia.
    + exact D1.
    + rewrite D2. f_equal. apply Z.mod_small. split; [apply Z.div_pos; lia|apply Z.div_lt_upper_bound; lia].
    + exists d. split; [exact D3|]. rewrite D4. by apply odd_count.
  - intros q Hq1 Hq2. rewrite (proj1 W48), (proj1 W4), (proj1 W1) by lia. done.
  - intros q k Hq. apply W48, W4, W1, Hq.
Qed.
End CommandFacts.

(** ** The device *)

(** The polls of the driver until the bit of the command is clear, at most
    [n] of them before that. *)
Inductive finishes {B} `{MB : MmioBus B} (port slot : Z) : nat -> B -> B -> Prop :=
| finishes_now n b ci b' : readl (port + PxCI) b = (ci, b') -> Z.land ci (2 ^ slot) = 0 -> finishes port slot n b b'
| finishes_later n b ci b1 i b2 b' : readl (port + PxCI) b = (ci, b1) -> Z.land ci (2 ^ slot) <> 0 ->
    readl (port + PxIS) b1 = (i, b2) -> Z.land i HBA_PxIS_TFES = 0 -> finishes port slot n b2 b' -> finishes port slot (S n) b b'.

(** What the AHCI specification says of a port with a disk.  While it is quiet
    no command is issued and none has failed; stores to memory and clearing the
    interrupt status leave it quiet.  A command to read [n] sectors from [lba] on
    that is issued in a slot is done after some polls: the bytes of the disk are
    in the memory at the address of the descriptor; besides them the device
    writes the byte count of the header and the area for received FISes. *)
Class AhciDevice (B : Type) `{MB : MmioBus B} `{RB : DmaRam B} := {
  dev_port : Z;
  dev_quiet : B -> Prop;
  dev_disk : B -> Z -> Z;
  dev_list : B -> Z;
  dev_fis : B -> Z;
  dev_polls : nat;
  dev_ram_put : forall m b, ram (put_ram m b) = m;
  dev_put : forall m b, dev_quiet b -> dev_quiet (put_ram m b) /\ dev_disk (put_ram m b) = dev_disk b /\
    dev_list (put_ram m b) = dev_list b /\ dev_fis (put_ram m b) = dev_fis b;
  dev_idle : forall b, dev_quiet b -> readl (dev_port + PxSACT) b = (0, b) /\ readl (dev_port + PxCI) b = (0, b) /\
    readl (dev_port + PxCLB) b = (dev_list b mod 2 ^ 32, b) /\ readl (dev_port + PxCLBU) b = (dev_list b / 2 ^ 32, b) /\
    exists tfd, readl (dev_port + PxTFD) b = (tfd, b) /\ Z.land tfd (Z.lor (Z.lor ATA_SR_BSY ATA_SR_DRQ) (Z.lor ATA_SR_ERR ATA_SR_DF)) = 0;
  dev_list_range : forall b, 0 <= dev_list b < 2 ^ 64;
  dev_clear : forall v b, dev_quiet b -> let b' := writel (dev_port + PxIS) v b in
    dev_quiet b' /\ ram b' = ram b /\ dev_disk b' = dev_disk b /\ dev_list b' = dev_list b /\ dev_fis b' = dev_fis b;
  dev_read : forall b slot t lba n a, dev_quiet b -> 0 <= slot < 32 -> 0 <= lba < 2 ^ 48 -> 0 < n < 8192 -> 0 <= t -> 0 <= a ->
    issued (ram b) (dev_list b + sizeof_CMD_HEADER * slot) t (command_fis lba n ATA_CMD_READ_DMA_EXT) a (512 * n) -> mapped (ram b) a (512 * n) ->
    exists b', finishes dev_port slot dev_polls (writel (dev_port + PxCI) (2 ^ slot) b) b' /\ dev_quiet b' /\ dev_disk b' = dev_disk b /\
      (forall q k, mapped (ram b) q k -> mapped (ram b') q k) /\
      forall q, ~ (dev_list b + sizeof_CMD_HEADER * slot + 4 <= q < dev_list b + sizeof_CMD_HEADER * slot + 8) -> ~ (dev_fis b <= q < dev_fis b + 256) ->
        ram b' !! q = write_bytes (ram b) a (dev_disk b <$> seqZ (512 * lba) (512 * n)) !! q
}.

Section ReadFacts.
Context {B : Type} `{MB : MmioBus B} `{RB : DmaRam B} `{TR : Translation} `{BA : BufferAlloc}.
Context (fuel : nat).

Lemma command_bit slot : 0 <= slot < 32 -> u32 (Z.shiftl 1 slot) = 2 ^ slot.
Proof.
  intros Hs. rewrite Z.shiftl_1_l. apply u32_small. split; [apply Z.pow_nonneg; lia|change 4294967296 with (2 ^ 32); apply Z.pow_lt_mono_r; lia].
Qed.

Lemma finishes_loop port slot n b b' f : finishes port slot n b b' -> 0 <= slot < 32 -> (n < f)%nat -> loop f (complete_step port slot) b = Done b'.
Proof.
  intros Hf Hs. revert f. induction Hf as [n b ci b' Hci Hz|n b ci b1 i b2 b' Hci Hz Hi Ht Hf IH]; intros f Hn; (destruct f as [|f]; [lia|]).
  - cbn [loop]. unfold complete_step. rewrite Hci, command_bit, decide_True by done. done.
  - assert (E : complete_step port slot b = Done (inl b2)).
    { unfold complete_step. rewrite Hci, command_bit, decide_False, Hi by done. rewrite decide_False by lia. done. }
    cbn [loop]. rewrite E. cbn [mbind outcome_bind]. apply IH. lia.
Qed.

Lemma land_part tfd mask part : Z.land tfd mask = 0 -> Z.land mask part = part -> Z.land tfd part = 0.
Proof. intros H0 Hp. by rewrite <-Hp, Z.land_assoc, H0. Qed.

Lemma command_place_writes m m' list slot h t p n : command_place m list slot h t -> writes m m' p n ->
  (h + 32 <= p \/ p + n <= h) -> (t + 0x90 <= p \/ p + n <= t) -> command_place m' list slot h t.
Proof.
  intros [Hh Ht Hmh Hmt Hap Hr Hlo Hhi] W Ah At. split; [done|done|by apply W|by apply W|done|done| |].
  - rewrite (writes_load_le _ _ _ _ _ _ W); [done|unfold CMD_ctba; lia].
  - rewrite (writes_load_le _ _ _ _ _ _ W); [done|unfold CMD_ctbau; lia].
Qed.

(** The buffer of a request, and the copy out of it. *)
Lemma calloc_done n m buffer m1 a : alloc_buffer n m = Done (buffer, m1) -> 0 <= n -> straight buffer a n -> mapped m1 a n ->
  exists m2, calloc_buffer n m = Done (buffer, m2) /\ writes m1 m2 a n /\ bytes_at m2 a (replicate (Z.to_nat n) 0).
Proof.
  intros Ha Hn Hs Hm. unfold calloc_buffer. rewrite Ha. cbn [mbind outcome_bind].
  assert (Hlen : Z.of_nat (length (replicate (Z.to_nat n) 0)) = n) by (rewrite length_replicate; lia).
  rewrite (set_bytes_straight _ buffer a m1) by (by rewrite Hlen). exists (write_bytes m1 a (replicate (Z.to_nat n) 0)). split; [done|].
  split; [|apply write_bytes_at]. pose proof (writes_write m1 a (replicate (Z.to_nat n) 0)) as W. by rewrite Hlen in W.
Qed.

Lemma deliver {A} n buffer a dest data m (K : mem -> outcome A) : 0 <= n -> straight buffer a n -> bytes_at m a data -> length data = Z.to_nat n ->
  one_to_one dest n -> reachable m dest n ->
  exists m', (l ← get_bytes (Z.to_nat n) buffer m; m' ← put_bytes l dest m; K m') = K m' /\ get_bytes (Z.to_nat n) dest m' = Done data.
Proof.
  intros Hn Hs Hb Hl Ho Hr. rewrite (get_bytes_straight _ buffer a) by (by rewrite Z2Nat.id by lia). rewrite (proj2 (load_bytes_done _ _ _ data)) by done.
  cbn [mbind outcome_bind]. destruct (set_get data dest m) as (m' & -> & Hg & _); [by rewrite Hl, Z2Nat.id by lia..|].
  exists m'. split; [done|]. by rewrite <-Hl.
Qed.

Lemma reachable_kept m m' v n : reachable m v n -> (forall q k, mapped m q k -> mapped m' q k) -> reachable m' v n.
Proof.
  intros Hr Hk i Hi. destruct (Hr i Hi) as [c Hc]. apply (Hk (phys_of (v + i)) 1); [|lia]. intros q Hq. replace q with (phys_of (v + i)) by lia. by exists c.
Qed.

Section Device.
Context `{AD : !AhciDevice B}.

(** A free slot is found and the command built: the rest is the device's. *)
Lemma issue_quiet b slot b' : dev_quiet b -> 0 <= slot < 32 -> (dev_polls < fuel)%nat ->
  (let c := writel (dev_port + PxIS) 0xFFFFFFFF b in finishes dev_port slot dev_polls (writel (dev_port + PxCI) (2 ^ slot) c) b') -> dev_quiet b' ->
  issue_command fuel dev_port slot b = Done b'.
Proof.
  intros Hq Hs Hf Hfin Hq'. unfold issue_command. destruct (dev_idle b Hq) as (_ & _ & _ & _ & tfd & Htfd & Hz).
  assert (E : spin_step dev_port (0, b) = Done (inr (0, b))).
  { unfold spin_step. rewrite Htfd. rewrite decide_False by (intros [H1 _]; apply H1; by apply (land_part _ _ _ Hz)). done. }
  assert (L : loop fuel (spin_step dev_port) (0, b) = Done (0, b)) by (destruct fuel; [lia|]; cbn [loop]; by rewrite E).
  rewrite L. cbn [mbind outcome_bind]. rewrite decide_False by done.
  destruct (dev_clear 0xFFFFFFFF b Hq) as (Hq1 & _). destruct (dev_idle _ Hq1) as (_ & Hci & _). rewrite Hci, Z.lor_0_l, command_bit by done.
  rewrite (finishes_loop dev_port slot dev_polls _ b' fuel Hfin Hs Hf). cbn [mbind outcome_bind]. f_equal. unfold report.
  destruct (dev_idle b' Hq') as (_ & _ & _ & _ & tfd' & Htfd' & Hz'). rewrite Htfd'. rewrite decide_False; [done|]. intros H1. apply H1. by apply (land_part _ _ _ Hz').
Qed.

Lemma send_read b t lba n buffer a : dev_quiet b -> 0 <= lba < 2 ^ 48 -> 0 < n < 8 -> (dev_polls < fuel)%nat ->
  command_place (ram b) (dev_list b) 0 (dev_list b) t -> phys_of buffer = a -> 0 <= a < 2 ^ 64 -> mapped (ram b) a (512 * n) ->
  (a + 512 * n <= dev_list b \/ dev_list b + 32 <= a) -> (a + 512 * n <= t \/ t + 0x90 <= a) -> (a + 512 * n <= dev_fis b \/ dev_fis b + 256 <= a) ->
  exists b', ahci_send_command fuel dev_port (mk_io buffer (512 * n) (512 * lba)) ATA_CMD_READ_DMA_EXT b = Done b' /\ dev_quiet b' /\ dev_disk b' = dev_disk b /\
    (forall q k, mapped (ram b) q k -> mapped (ram b') q k) /\ bytes_at (ram b') a (dev_disk b <$> seqZ (512 * lba) (512 * n)).
Proof.
  intros Hq Hlba Hn Hf Hp Ha Har Hm Al At Af. unfold ahci_send_command, get_next_free.
  destruct (dev_idle b Hq) as (-> & -> & Hclb & Hclbu & _). change (slot_loop 32 0 (Z.lor 0 0)) with 0. rewrite decide_False by done. rewrite Hclbu, Hclb.
  rewrite table_address by apply dev_list_range.
  destruct (build_command_done (dev_list b) 0 (mk_io buffer (512 * n) (512 * lba)) ATA_CMD_READ_DMA_EXT (ram b) (dev_list b) t n lba Hp) as (m' & -> & Hi & Hout & Hmap);
    [done|done|done|done|cbn [io_buffer]; by rewrite Ha|]. cbn [mbind outcome_bind]. cbn [io_buffer] in Hi. rewrite Ha in Hi.
  destruct (dev_put m' b Hq) as (Hq1 & Hd1 & Hl1 & Hf1). set (b1 := put_ram m' b) in *. assert (Hr1 : ram b1 = m') by apply dev_ram_put.
  destruct (dev_clear 0xFFFFFFFF b1 Hq1) as (Hq2 & Hr2 & Hd2 & Hl2 & Hf2). set (b2 := writel (dev_port + PxIS) 0xFFFFFFFF b1) in *.
  destruct (dev_read b2 0 t lba n a Hq2) as (b' & Hfin & Hq' & Hd' & Hmap' & Hout'); [done|done|lia|apply (cp_range _ _ _ _ _ Hp)|lia| | |].
  { rewrite Hr2, Hr1, Hl2, Hl1. rewrite Z.mul_0_r, Z.add_0_r. exact Hi. }
  { rewrite Hr2, Hr1. by apply Hmap. }
  exists b'. split; [by apply issue_quiet|]. split; [done|]. split; [congruence|]. rewrite Hr2, Hr1, Hl2, Hl1, Hf2, Hf1, Hd2, Hd1 in *. split; [auto|].
  eapply bytes_at_agree; [|apply write_bytes_at]. intros q Hqr. rewrite length_fmap, length_seqZ in Hqr. unfold sizeof_CMD_HEADER in Hout'. apply Hout'; lia.
Qed.

(** C26: Reading from the disk.  When the port is quiet and its command list and
    table are in place, ahci_read of one to seven sectors returns their length,
    and the destination holds the bytes of the disk from the offset on; the disk
    is as before and the port quiet again. *)
Theorem ahci_read_sectors b buffer a m1 dest t lba n : dev_quiet b -> (dev_polls < fuel)%nat -> 0 <= lba < 2 ^ 48 -> 0 < n < 8 ->
  alloc_buffer (512 * n) (ram b) = Done (buffer, m1) -> command_place m1 (dev_list b) 0 (dev_list b) t ->
  straight buffer a (512 * n) -> 0 <= a < 2 ^ 64 -> mapped m1 a (512 * n) ->
  (a + 512 * n <= dev_list b \/ dev_list b + 32 <= a) -> (a + 512 * n <= t \/ t + 0x90 <= a) -> (a + 512 * n <= dev_fis b \/ dev_fis b + 256 <= a) ->
  one_to_one dest (512 * n) -> reachable m1 dest (512 * n) ->
  (forall m, get_bytes (Z.to_nat (512 * n)) dest (free_buffer buffer m) = get_bytes (Z.to_nat (512 * n)) dest m) ->
  exists b', ahci_read fuel dev_port dest (512 * lba) (512 * n) b = Done (512 * n, b') /\
    get_bytes (Z.to_nat (512 * n)) dest (ram b') = Done (dev_disk b <$> seqZ (512 * lba) (512 * n)) /\ dev_quiet b' /\ dev_disk b' = dev_disk b.
Proof.
  intros Hq Hf Hlba Hn Halloc Hp Hs Har Hm Al At Af Ho Hr Hfree. unfold ahci_read.
  destruct (calloc_done _ _ _ _ a Halloc) as (m2 & -> & W & _); [lia|done..|]. cbn [mbind outcome_bind].
  destruct (dev_put m2 b Hq) as (Hq1 & Hd1 & Hl1 & Hf1). set (b1 := put_ram m2 b) in *. assert (Hr1 : ram b1 = m2) by apply dev_ram_put.
  destruct (send_read b1 t lba n buffer a Hq1 Hlba Hn Hf) as (b' & -> & Hq' & Hd' & Hmap & Hdata);
    [rewrite Hr1, Hl1; eapply command_place_writes; [exact Hp|exact W|lia..]|apply (straight_head _ _ _ Hs); lia|done|rewrite Hr1; by apply W|by rewrite Hl1|done|by rewrite Hf1|].
  cbn [mbind outcome_bind]. rewrite Hd1 in Hdata, Hd'.
  match goal with |- context [get_bytes _ buffer _ ≫= fun data => put_bytes data dest _ ≫= ?K] => destruct (deliver (512 * n) buffer a dest _ (ram b') K ltac:(lia) Hs Hdata) as (m' & -> & Hg) end.
  { by rewrite length_fmap, length_seqZ. } { done. } { apply (reachable_kept m1); [done|]. intros q k Hqk. apply Hmap. rewrite Hr1. by apply W. }
  rewrite s32_small by lia. destruct (dev_put (free_buffer buffer m') b' Hq') as (Hq2 & Hd2 & _).
  eexists. split; [reflexivity|]. rewrite dev_ram_put, Hfree. split; [done|]. split; [done|]. congruence.
Qed.
End Device.

(** ** A port that does not answer *)

(** No command is outstanding, and the status stays busy. *)
Record hung_port (port list : Z) (hung : B -> Prop) : Prop := {
  hp_put : forall m b, ram (put_ram m b) = m /\ (hung b -> hung (put_ram m b));
  hp_read : forall r v, (r = PxSACT /\ v = 0) \/ (r = PxCI /\ v = 0) \/ (r = PxCLB /\ v = list mod 2 ^ 32) \/ (r = PxCLBU /\ v = list / 2 ^ 32) ->
    forall b, hung b -> exists b', readl (port + r) b = (v, b') /\ hung b' /\ ram b' = ram b;
  hp_busy : forall b, hung b -> exists tfd b', readl (port + PxTFD) b = (tfd, b') /\ Z.land tfd (Z.lor ATA_SR_BSY ATA_SR_DRQ) <> 0 /\ hung b' /\ ram b' = ram b
}.

Lemma spin_hung port list hung b : hung_port port list hung -> hung b -> 1000000 < Z.of_nat fuel ->
  exists b', loop fuel (spin_step port) (0, b) = Done (1000000, b') /\ hung b' /\ ram b' = ram b.
Proof.
  intros Hp Hb Hf.
  destruct (loop_total (fun st : Z * B => 0 <= st.1 <= 1000000 /\ hung st.2 /\ ram st.2 = ram b) (fun st => Z.to_nat (1000000 - st.1))
    (fun st : Z * B => st.1 = 1000000 /\ hung st.2 /\ ram st.2 = ram b) (spin_step port) fuel (0, b)) as ([spin b'] & Hrun & Hs & Hb' & Hr).
  - intros [spin c] (Hs & Hc & Hr). cbn [fst snd] in *. unfold spin_step. destruct (hp_busy _ _ _ Hp c Hc) as (tfd & c' & -> & Hz & Hc' & Hr').
    destruct (decide (Z.land tfd (Z.lor ATA_SR_BSY ATA_SR_DRQ) <> 0 /\ spin < 1000000)) as [[_ Hl]|Hl]; cbn [fst snd].
    + split; [|lia]. split; [lia|]. split; [done|congruence].
    + assert (~ spin < 1000000) by tauto. split; [lia|]. split; [done|congruence].
  - cbn [fst snd]. split; [lia|done].
  - cbn [fst snd]. lia.
  - cbn [fst snd] in *. subst spin. by exists b'.
Qed.

(** Reading from a port that hangs.  When the status of the port stays busy
    the read returns the length that was asked for, as a read that succeeds
    does, and the destination is filled with zeros. *)
Theorem ahci_read_hung port list hung b buffer a m1 dest h t lba n : hung_port port list hung -> hung b -> 1000000 < Z.of_nat fuel -> 0 <= list -> 0 < n < 8 ->
  alloc_buffer (512 * n) (ram b) = Done (buffer, m1) -> command_place m1 list 0 h t -> straight buffer a (512 * n) -> 0 <= a < 2 ^ 64 -> mapped m1 a (512 * n) ->
  (a + 512 * n <= h \/ h + 32 <= a) -> (a + 512 * n <= t \/ t + 0x90 <= a) -> one_to_one dest (512 * n) -> reachable m1 dest (512 * n) ->
  (forall m, get_bytes (Z.to_nat (512 * n)) dest (free_buffer buffer m) = get_bytes (Z.to_nat (512 * n)) dest m) ->
  exists b', ahci_read fuel port dest (512 * lba) (512 * n) b = Done (512 * n, b') /\
    get_bytes (Z.to_nat (512 * n)) dest (ram b') = Done (replicate (Z.to_nat (512 * n)) 0).
Proof.
  intros Hh Hb Hf Hl Hn Halloc Hp Hs Har Hm Ah At Ho Hr Hfree. unfold ahci_read.
  destruct (calloc_done _ _ _ _ a Halloc) as (m2 & -> & W & Z2); [lia|done..|]. cbn [mbind outcome_bind].
  destruct (hp_put _ _ _ Hh m2 b) as (R1 & H1). specialize (H1 Hb). set (b1 := put_ram m2 b) in *. unfold ahci_send_command, get_next_free.
  destruct (hp_read _ _ _ Hh PxSACT 0 ltac:(auto) b1 H1) as (b2 & -> & H2 & R2). destruct (hp_read _ _ _ Hh PxCI 0 ltac:(auto) b2 H2) as (b3 & -> & H3 & R3).
  change (slot_loop 32 0 (Z.lor 0 0)) with 0. rewrite decide_False by done.
  destruct (hp_read _ _ _ Hh PxCLBU _ ltac:(auto) b3 H3) as (b4 & -> & H4 & R4). destruct (hp_read _ _ _ Hh PxCLB _ ltac:(auto 6) b4 H4) as (b5 & -> & H5 & R5).
  rewrite table_address by done. assert (E : ram b5 = m2) by congruence. rewrite E.
  destruct (build_command_done list 0 (mk_io buffer (512 * n) (512 * lba)) ATA_CMD_READ_DMA_EXT m2 h t n lba) as (m3 & -> & _ & Hout & Hmap);
    [eapply command_place_writes; [exact Hp|exact W|lia..]|done..|cbn [io_buffer]; rewrite (straight_head _ _ _ Hs); lia|]. cbn [mbind outcome_bind].
  destruct (hp_put _ _ _ Hh m3 b5) as (R6 & H6). specialize (H6 H5). unfold issue_command.
  destruct (spin_hung port list hung (put_ram m3 b5) Hh H6 Hf) as (b' & -> & Hb' & R'). cbn [mbind outcome_bind]. rewrite decide_True by done. cbn [mbind outcome_bind].
  assert (Hz : bytes_at (ram b') a (replicate (Z.to_nat (512 * n)) 0)).
  { rewrite R', R6. eapply bytes_at_agree; [|exact Z2]. rewrite length_replicate. intros q Hq. apply Hout; lia. }
  match goal with |- context [get_bytes _ buffer _ ≫= fun data => put_bytes data dest _ ≫= ?K] => destruct (deliver (512 * n) buffer a dest _ (ram b') K ltac:(lia) Hs Hz) as (m' & -> & Hg) end.
  { by rewrite length_replicate. } { done. } { apply (reachable_kept m1); [done|]. intros q k Hqk. rewrite R', R6. apply Hmap. by apply W. }
  rewrite s32_small by lia. eexists. split; [reflexivity|]. by rewrite (proj1 (hp_put _ _ _ Hh _ _)), Hfree.
Qed.
End ReadFacts.

(** ** Slots and the command list *)

(** The slot of a command is the lowest one that is neither active nor
    issued; with all 32 in use there is none. *)
Lemma slot_loop_lowest n i slots :
  (exists k, i <= k < i + Z.of_nat n /\ slot_loop n i slots = k /\ Z.testbit slots (k - i) = false /\ forall j, i <= j < k -> Z.testbit slots (j - i) = true) \/
  (slot_loop n i slots = -1 /\ forall j, i <= j < i + Z.of_nat n -> Z.testbit slots (j - i) = true).
Proof.
  revert i slots. induction n as [|n IH]; intros i slots; [right; split; [done|lia]|]. cbn [slot_loop].
  assert (E : Z.land slots 1 = 0 <-> Z.testbit slots 0 = false).
  { change 1 with (Z.ones 1). rewrite Z.land_ones by lia. rewrite <-Z.bit0_mod. by destruct (Z.testbit slots 0). }
  destruct (decide (Z.land slots 1 = 0)) as [Hz|Hz].
  - left. exists i. split; [lia|]. split; [done|]. rewrite Z.sub_diag. split; [by apply E|lia].
  - assert (H0 : Z.testbit slots 0 = true) by (destruct (Z.testbit slots 0) eqn:?; [done|by destruct Hz; apply E]).
    assert (Hs : forall j, i < j -> Z.testbit (Z.shiftr slots 1) (j - (i + 1)) = Z.testbit slots (j - i)).
    { intros j Hj. rewrite Z.shiftr_spec by lia. f_equal. lia. }
    destruct (IH (i + 1) (Z.shiftr slots 1)) as [(k & Hk & -> & Hb & Hl)|[-> Hl]]; [left; exists k|right].
    + split; [lia|]. split; [done|]. rewrite <-Hs by lia. split; [done|]. intros j Hj.
      destruct (decide (j = i)) as [->|]; [by rewrite Z.sub_diag|]. rewrite <-Hs by lia. apply Hl. lia.
    + split; [done|]. intros j Hj. destruct (decide (j = i)) as [->|]; [by rewrite Z.sub_diag|]. rewrite <-Hs by lia. apply Hl. lia.
Qed.

Section ListFacts.
Context {B F D : Type} `{MB : MmioBus B} `{RB : DmaRam B} `{TR : Translation} `{FA : FrameAllocator F}.

(** The command list of a port.  The 32 rounds over a fresh list go to the
    headers 0, 1, 3, 6, ...: the pointer that is then written to the register of
    the port is 15872 bytes behind the start, and the last rounds write behind
    the frame of 4096 bytes. *)
Theorem command_list_leaves_frame (c : controller (B := B) (F := F) (D := D)) v p : (forall m (b : B), ram (put_ram m b) = m) -> fr_ok (fr (c_vm c)) ->
  straight v p 15904 -> mapped (ram (c_bus c)) p 15904 ->
  exists c' frame, for_ 32 0 table_round (v, c) = Done (inl (v + 15872, c')) /\
    load_le 4 (ram (c_bus c')) (p + 15872 + CMD_ctba) = Done (memmgr_get_from_virtual (memmgr_get_from_physical frame) mod 2 ^ 32).
Proof.
  intros Hput Hok Hs Hm.
  destruct (for_total (fun j (st : Z * controller) => 0 <= j /\ st.1 = v + 16 * j * (j - 1) /\ fr_ok (fr (c_vm st.2)) /\ mapped (ram (c_bus st.2)) p 15904 /\
      (0 < j -> exists frame, load_le 4 (ram (c_bus st.2)) (p + 16 * j * (j - 1) + CMD_ctba) = Done (memmgr_get_from_virtual (memmgr_get_from_physical frame) mod 2 ^ 32)))
    32 0 table_round (v, c)) as ([v' c'] & Hrun & _ & Hv & _ & _ & Hl).
  - intros j [w d] Hj (_ & Hw & Hf & Hmd & _). cbn [fst snd] in *. unfold table_round, add_table, new_frame, alloc_frame.
    destruct (fr_alloc_ok _ Hf) as (frame & f' & -> & Hf' & _). cbn [mbind outcome_bind]. unfold on_ram. cbn [c_bus set_c_vm].
    replace (w + sizeof_CMD_HEADER * j) with (v + 16 * (j + 1) * j) by (unfold sizeof_CMD_HEADER; lia). set (off := 16 * (j + 1) * j).
    assert (Hoff : 0 <= off <= 15872) by (unfold off; nia). set (table := memmgr_get_from_virtual _). unfold CMD_ctba, CMD_ctbau.
    destruct (set_le_done 4 (v + off + 8) (p + off + 8) (Z.land table 0xffffffff) (ram (c_bus d))) as (m1 & -> & W1 & L1);
      [rewrite <-!Z.add_assoc; eapply straight_sub; [exact Hs|lia..]|eapply mapped_weaken; [exact Hmd|lia..]|]. cbn [mbind outcome_bind c_bus set_c_bus]. rewrite Hput.
    destruct (set_le_done 4 (v + off + 12) (p + off + 12) (Z.shiftr table 32) m1) as (m2 & -> & W2 & L2);
      [rewrite <-!Z.add_assoc; eapply straight_sub; [exact Hs|lia..]|apply W1; eapply mapped_weaken; [exact Hmd|lia..]|]. cbn [mbind outcome_bind c_bus set_c_bus].
    eexists. split; [reflexivity|]. cbn [fst snd c_bus set_c_bus c_vm set_c_vm]. rewrite Hput. split; [lia|]. split; [unfold off; lia|]. split; [exact Hf'|]. split; [by apply W2, W1|].
    intros _. exists frame. replace (p + 16 * (j + 1) * (j + 1 - 1) + 8) with (p + off + 8) by (unfold off; lia).
    rewrite (writes_load_le _ _ _ _ _ _ W2), L1 by lia. f_equal. fold table. change 0xffffffff with (Z.ones 32). rewrite Z.land_ones by lia. by apply Z.mod_mod.
  - cbn [fst snd]. split; [lia|]. split; [lia|]. split; [done|]. split; [done|lia].
  - cbn [fst snd] in *. destruct (Hl ltac:(lia)) as [frame Hframe]. exists c', frame. split; [rewrite Hrun; repeat f_equal; lia|].
    replace (p + 15872) with (p + 16 * (0 + Z.of_nat 32) * (0 + Z.of_nat 32 - 1)) by lia. exact Hframe.
Qed.
End ListFacts.

(** ** A device *)

(** A port whose disk answers at once: its command list is at 0x2000, received
    FISes go to 0x4000. *)
Record sim := mk_sim { sim_ram : mem; sim_disk : Z -> Z; sim_busy : bool }.
Definition sim_read (r : Z) (s : sim) : Z * sim :=
  (if decide (r = PxCLB) then 0x2000 else if decide (r = PxTFD) then if sim_busy s then 0x80 else 0x50 else 0, s).
Definition sim_transfer (slot : Z) (s : sim) : outcome mem :=
  let h := 0x2000 + sizeof_CMD_HEADER * slot in
  lo ← load_le 4 (sim_ram s) (h + CMD_ctba); hi ← load_le 4 (sim_ram s) (h + CMD_ctbau);
  let t := Z.lor (Z.shiftl hi 32) lo in
  fis ← load_bytes 20 (sim_ram s) t;
  lo ← load_le 4 (sim_ram s) (t + TBL_prdt); hi ← load_le 4 (sim_ram s) (t + TBL_prdt + 4);
  Done (write_bytes (sim_ram s) (Z.lor (Z.shiftl hi 32) lo) (sim_disk s <$> seqZ (512 * le (take 3 (drop 4 fis) ++ take 3 (drop 8 fis))) (512 * le (take 2 (drop 12 fis))))).
Definition sim_write (r v : Z) (s : sim) : sim :=
  if decide (r = PxCI) then match sim_transfer (Z.log2 v) s with Done m => mk_sim m (sim_disk s) (sim_busy s) | _ => s end else s.

#[export] Instance sim_bus : MmioBus sim := {| readw := sim_read; readl := sim_read; writew := sim_write; writel := sim_write |}.
#[export] Instance sim_dma : DmaRam sim := {| ram := sim_ram; put_ram := fun m s => mk_sim m (sim_disk s) (sim_busy s) |}.

Lemma fis_parts lba n cmd : le (take 3 (drop 4 (command_fis lba n cmd)) ++ take 3 (drop 8 (command_fis lba n cmd))) = lba mod 256 ^ 6 /\
  le (take 2 (drop 12 (command_fis lba n cmd))) = n mod 256 ^ 2.
Proof. split; [exact (le_to_le_mod 6 lba)|exact (le_to_le_mod 2 n)]. Qed.

#[export, program] Instance sim_device : AhciDevice sim := {|
  dev_port := 0; dev_quiet := fun s => sim_busy s = false; dev_disk := sim_disk; dev_list := fun _ => 0x2000; dev_fis := fun _ => 0x4000; dev_polls := 0%nat
|}.
Next Obligation. done. Qed.
Next Obligation. by intros m []. Qed.
Next Obligation. intros s Hs. cbn. unfold sim_read. rewrite Hs. split_and!; try done. by exists 0x50. Qed.
Next Obligation. intros s. lia. Qed.
Next Obligation. by intros v s Hs. Qed.
Next Obligation.
  cbn -[write_bytes seqZ command_fis]. intros s slot t lba n a Hq Hs Hl Hn Ht Ha Hi Hm. destruct Hi as [_ _ Hlo Hhi Hfis Hd1 Hd2 _].
  assert (E : sim_transfer slot s = Done (write_bytes (sim_ram s) a (sim_disk s <$> seqZ (512 * lba) (512 * n)))).
  { unfold sim_transfer. rewrite Hlo, Hhi. cbn [mbind outcome_bind]. rewrite table_address by done. rewrite (proj2 (load_bytes_done 20 _ t _)) by (by split; [exact Hfis|]).
    cbn [mbind outcome_bind]. rewrite Hd1, Hd2. cbn [mbind outcome_bind]. rewrite table_address by done. destruct (fis_parts lba n ATA_CMD_READ_DMA_EXT) as [-> ->].
    by rewrite !Z.mod_small by lia. }
  exists (mk_sim (write_bytes (sim_ram s) a (sim_disk s <$> seqZ (512 * lba) (512 * n))) (sim_disk s) (sim_busy s)). split; [|split; [done|split; [done|split]]].
  - unfold sim_write. change (0 + PxCI) with PxCI. rewrite decide_True by done. rewrite Z.log2_pow2, E by lia. by apply (finishes_now 0 slot 0 _ 0).
  - intros q k. apply mapped_write_bytes.
  - done.
Qed.

#[export] Instance sim_translation : Translation := {| phys_of := fun v => v mod 2 ^ 39 |}.
#[export] Instance sim_alloc : BufferAlloc := {| alloc_buffer := fun _ m => Done (memmgr_get_from_physical 0x8000, m); free_buffer := fun _ m => m |}.

Lemma sim_straight v p n : v mod 2 ^ 39 = p -> p + n <= 2 ^ 39 -> straight v p n.
Proof.
  intros Hv Hn i Hi. cbn [phys_of sim_translation]. pose proof (Z.mod_pos_bound v (2 ^ 39) ltac:(lia)).
  rewrite <-Zplus_mod_idemp_l, Hv. apply Z.mod_small. lia.
Qed.

Lemma straight_one_to_one v p n : straight v p n -> one_to_one v n.
Proof. intros Hs i j Hi Hj E. rewrite !Hs in E by done. lia. Qed.

Lemma straight_reachable v p n m : straight v p n -> mapped m p n -> reachable m v n.
Proof. intros Hs Hm i Hi. rewrite Hs by done. apply Hm. lia. Qed.

(** A header that leads to a table at 0x3000, the table, a buffer at 0x8000 and
    a destination at 0x9000. *)
Definition demo_header : list Z := replicate 8 0 ++ to_le 4 0x3000 ++ replicate 20 0.
Definition demo_blocks : list (Z * list Z) := [(0x9000, replicate 512 7); (0x8000, replicate 512 0); (0x3000, replicate 144 0); (0x2000, demo_header)].
Definition demo_ram_at (blocks : list (Z * list Z)) : mem := foldr (fun b m => write_bytes m b.1 b.2) ∅ blocks.
Definition demo_port_ram : mem := demo_ram_at demo_blocks.

Lemma demo_ram_mapped blocks p l : (p, l) ∈ blocks -> mapped (demo_ram_at blocks) p (Z.of_nat (length l)).
Proof.
  induction blocks as [|b blocks IH]; intros Hin; [by apply elem_of_nil in Hin|]. cbn [demo_ram_at foldr]. apply elem_of_cons in Hin as [<-|Hin].
  - apply (bytes_at_mapped _ _ l), write_bytes_at.
  - apply mapped_write_bytes. by apply IH.
Qed.

Lemma demo_place : command_place demo_port_ram 0x2000 0 0x2000 0x3000.
Proof.
  split.
  - apply sim_straight; [vm_compute; reflexivity|lia].
  - apply sim_straight; [vm_compute; reflexivity|lia].
  - apply (demo_ram_mapped demo_blocks 0x2000 demo_header). unfold demo_blocks. set_solver.
  - apply (demo_ram_mapped demo_blocks 0x3000 (replicate 144 0)). unfold demo_blocks. set_solver.
  - lia.
  - lia.
  - vm_compute. reflexivity.
  - vm_compute. reflexivity.
Qed.

Lemma demo_mapped p l : (p, l) ∈ demo_blocks -> length l = 512%nat -> mapped demo_port_ram p 512.
Proof. intros Hin Hl. pose proof (demo_ram_mapped _ _ _ Hin) as Hm. by rewrite Hl in Hm. Qed.

(** Sector 2 of a disk whose byte at [q] is [q] modulo 251. *)
Lemma ahci_read_sectors_witness : exists b', ahci_read 1 0 (memmgr_get_from_physical 0x9000) 1024 512 (mk_sim demo_port_ram (fun q => q mod 251) false) = Done (512, b') /\
  get_bytes 512 (memmgr_get_from_physical 0x9000) (sim_ram b') = Done ((fun q => q mod 251) <$> seqZ 1024 512) /\ sim_busy b' = false.
Proof.
  assert (Hdest : straight (memmgr_get_from_physical 0x9000) 0x9000 512) by (apply sim_straight; [vm_compute; reflexivity|lia]).
  destruct (ahci_read_sectors 1 (mk_sim demo_port_ram (fun q => q mod 251) false) (memmgr_get_from_physical 0x8000) 0x8000 demo_port_ram
    (memmgr_get_from_physical 0x9000) 0x3000 2 1) as (b' & Hrun & Hdata & Hq & _).
  - reflexivity.
  - cbn [dev_polls sim_device]. lia.
  - lia.
  - lia.
  - reflexivity.
  - exact demo_place.
  - apply sim_straight; [vm_compute; reflexivity|lia].
  - lia.
  - apply (demo_mapped 0x8000 (replicate 512 0)); [unfold demo_blocks; set_solver|reflexivity].
  - right. cbn [dev_list sim_device]. lia.
  - lia.
  - right. cbn [dev_fis sim_device]. lia.
  - exact (straight_one_to_one _ _ _ Hdest).
  - apply (straight_reachable _ _ _ _ Hdest). apply (demo_mapped 0x9000 (replicate 512 7)); [unfold demo_blocks; set_solver|reflexivity].
  - intros m. reflexivity.
  - exists b'. split; [exact Hrun|]. split; [exact Hdata|exact Hq].
Defined.

Lemma ahci_read_hung_witness : exists b', ahci_read (Z.to_nat 1000001) 0 (memmgr_get_from_physical 0x9000) 1024 512 (mk_sim demo_port_ram (fun q => q mod 251) true) = Done (512, b') /\
  get_bytes 512 (memmgr_get_from_physical 0x9000) (sim_ram b') = Done (replicate 512 0).
Proof.
  assert (Hdest : straight (memmgr_get_from_physical 0x9000) 0x9000 512) by (apply sim_straight; [vm_compute; reflexivity|lia]).
  destruct (ahci_read_hung (Z.to_nat 1000001) 0 0x2000 (fun s => sim_busy s = true) (mk_sim demo_port_ram (fun q => q mod 251) true) (memmgr_get_from_physical 0x8000) 0x8000 demo_port_ram
    (memmgr_get_from_physical 0x9000) 0x2000 0x3000 2 1) as (b' & Hrun & Hdata).
  - split.
    + intros m s. by split.
    + intros r v Hr s Hs. exists s. cbn [readl sim_bus]. unfold sim_read. by destruct Hr as [[-> ->]|[[-> ->]|[[-> ->]|[-> ->]]]].
    + intros s Hs. exists 0x80, s. cbn [readl sim_bus]. unfold sim_read. rewrite Hs. done.
  - reflexivity.
  - lia.
  - lia.
  - lia.
  - reflexivity.
  - exact demo_place.
  - apply sim_straight; [vm_compute; reflexivity|lia].
  - lia.
  - apply (demo_mapped 0x8000 (replicate 512 0)); [unfold demo_blocks; set_solver|reflexivity].
  - lia.
  - lia.
  - exact (straight_one_to_one _ _ _ Hdest).
  - apply (straight_reachable _ _ _ _ Hdest). apply (demo_mapped 0x9000 (replicate 512 7)); [unfold demo_blocks; set_solver|reflexivity].
  - intros m. reflexivity.
  - exists b'. split; [exact Hrun|exact Hdata].
Defined.

Definition demo_list_ram : mem := write_bytes ∅ 0x10000 (replicate (Z.to_nat 15904) 0).
Definition demo_controller : controller (B := sim) (F := frames) (D := unit) :=
  mk_ctl (mk_sim demo_list_ram (fun _ => 0) false) (mk_vm (fun _ => 0) (mk_frames {[0 := 1]} 0 false) 0x1000 0 0 false []) (mk_vfs ∅ (mk_tree 0 0) ∅ 0 0 [] tt) [] [] 0 0 ∅.

Lemma command_list_leaves_frame_witness : exists c' frame, for_ 32 0 table_round (memmgr_get_from_physical 0x10000, demo_controller) = Done (inl (memmgr_get_from_physical 0x10000 + 15872, c')) /\
  load_le 4 (ram (c_bus c')) (0x10000 + 15872 + CMD_ctba) = Done (memmgr_get_from_virtual (memmgr_get_from_physical frame) mod 2 ^ 32).
Proof.
  apply (command_list_leaves_frame demo_controller (memmgr_get_from_physical 0x10000) 0x10000).
  - intros m s. reflexivity.
  - split; [split; [cbn [idx]; pose proof bitmap_pos; cbn; lia|reflexivity]|done].
  - apply sim_straight; [vm_compute; reflexivity|lia].
  - pose proof (bytes_at_mapped _ _ _ (write_bytes_at ∅ 0x10000 (replicate (Z.to_nat 15904) 0))) as Hm. rewrite length_replicate, Z2Nat.id in Hm by lia. exact Hm.
Defined.
