(* ===== verification/TimedMutex.v ===== *)
(** mutex_acquire_timeout (kernel/sys/mutex.c), on the scheduler of the kernel
    state.

    A thread that sleeps leaves the processor in wait_for_object_timeout;
    [resume] is what the other threads do to the state until it runs again, and
    the theorem holds for every one of them. *)
From stdpp Require Import base list gmap.
From Stdlib Require Import ZArith Lia.
From S2P Require Import Prelude Mutex Signals Procs Scheduler.

#[local] Open Scope Z_scope.

Section Timed.
Context {F D : Type} (kept : bool) (fuel : nat) (ETIMEDOUT : Z).
Abbreviation state := (kstate F D).
Context (resume : state -> outcome state).

(** One round of [while(mutex->owner)]: [inr] carries the error, or nothing when
    the mutex is free; the lock is then held. *)
Definition acquire_round (m timeout_ms start_time : Z) (s : state) : outcome (state + option Z * state) :=
  x ← mutex_at s m;
  if decide (m_owner x = 0) then Done (inr (None, s))
  else
    s ← unlock_object m s;
    let remaining := u64 (timeout_ms - u64 (k_counter s - start_time)) in
    s ← wait_for_object_timeout kept m remaining s;
    s ← resume s;
    if decide (timeout_result remaining s <> 0) then Done (inr (Some (- ETIMEDOUT), s))
    else
      s ← lock_object m s;
      if decide (timeout_ms <= u64 (k_counter s - start_time)) then s ← unlock_object m s; Done (inr (Some (- ETIMEDOUT), s))
      else Done (inl s).

Definition mutex_acquire_timeout (m timeout_ms : Z) (s : state) : outcome (Z * state) :=
  let start_time := k_counter s in
  s ← lock_object m s;
  '(r, s) ← loop fuel (acquire_round m timeout_ms start_time) s;
  match r with
  | Some e => Done (e, s)
  | None => x ← mutex_at s m; s ← unlock_object m (put_mutex m (with_owner (get_current_process s) x) s); Done (0, s)
  end.

Lemma put_mutex_twice m x y (s : state) : put_mutex m x (put_mutex m y s) = put_mutex m x s.
Proof. unfold put_mutex. destruct s. cbn. by rewrite insert_insert_eq. Qed.

Lemma put_mutex_same m x (s : state) : k_mutexes s !! m = Some x -> put_mutex m x s = s.
Proof. intros Hx. unfold put_mutex. destruct s. cbn in *. by rewrite insert_id. Qed.

Lemma mutex_at_put m x (s : state) : m <> 0 -> mutex_at (put_mutex m x s) m = Done x.
Proof. intros Hm. unfold mutex_at. by rewrite (at_live _ m x) by (done || (cbn; by rewrite lookup_insert_eq)). Qed.

(** Acquiring with a limit.  A free mutex is taken at once.  When the mutex
    is owned and the machine has been up for more ticks than the limit, the call
    sleeps once and then gives up, whatever the other threads have done: the
    remaining time is stored as the tick to wake up at, and that tick has passed
    before the call began.  The mutex is not taken, even if its owner has
    released it. *)
Theorem acquire_timeout_gives_up m timeout_ms s x : (0 < fuel)%nat -> m <> 0 -> k_mutexes s !! m = Some x -> m_lock x = false ->
  0 <= timeout_ms < 2 ^ 64 -> 0 <= k_counter s < 2 ^ 64 ->
  (m_owner x = 0 -> mutex_acquire_timeout m timeout_ms s = Done (0, put_mutex m (with_owner (get_current_process s) x) s)) /\
  forall s1 s2, m_owner x <> 0 -> timeout_ms < k_counter s -> wait_for_object_timeout kept m timeout_ms s = Done s1 -> resume s1 = Done s2 ->
    k_counter s <= k_counter s2 -> mutex_acquire_timeout m timeout_ms s = Done (- ETIMEDOUT, s2).
Proof.
  intros Hf Hm Hx Hl Ht Hc. unfold mutex_acquire_timeout, lock_object.
  assert (E : mutex_at s m = Done x) by (unfold mutex_at; by rewrite (at_live _ m x)). rewrite E. cbn [mbind outcome_bind].
  unfold lock_mutex. rewrite Hl. cbn [mbind outcome_bind spin_lock]. set (s' := put_mutex m (with_lock true x) s).
  assert (E' : mutex_at s' m = Done (with_lock true x)) by by apply mutex_at_put.
  assert (Hback : put_mutex m (unlock_mutex (with_lock true x)) s' = s).
  { unfold s'. rewrite put_mutex_twice. apply put_mutex_same. rewrite Hx. f_equal. destruct x. cbn in *. by rewrite Hl. }
  destruct fuel as [|f]; [lia|]. cbn [loop]. split.
  - intros Ho. assert (R : acquire_round m timeout_ms (k_counter s) s' = Done (inr (None, s'))).
    { unfold acquire_round. rewrite E'. cbn [mbind outcome_bind m_owner with_lock]. by rewrite decide_True by done. }
    rewrite R. cbn [mbind outcome_bind]. rewrite E'. cbn [mbind outcome_bind]. unfold unlock_object. rewrite mutex_at_put by done. cbn [mbind outcome_bind].
    unfold s'. rewrite !put_mutex_twice. do 3 f_equal. destruct x. cbn in *. by rewrite Hl.
  - intros s1 s2 Ho Hup Hwait Hres Hc2. assert (R : acquire_round m timeout_ms (k_counter s) s' = Done (inr (Some (- ETIMEDOUT), s2))).
    { unfold acquire_round. rewrite E'. cbn [mbind outcome_bind m_owner with_lock]. rewrite decide_False by done.
      unfold unlock_object. rewrite E'. cbn [mbind outcome_bind]. rewrite Hback, Z.sub_diag, (u64_small 0), Z.sub_0_r, u64_small by lia.
      rewrite Hwait. cbn [mbind outcome_bind]. rewrite Hres. cbn [mbind outcome_bind].
      unfold timeout_result. rewrite u64_small by lia. by rewrite (decide_True (P := timeout_ms < k_counter s2)) by lia. }
    by rewrite R.
Qed.
End Timed.

(** The mutex of thread 13 on the machine of Scheduler, after 100 ticks: a limit
    of 50 is over at once, though the owner releases the mutex in tick 101. *)
Lemma acquire_timeout_gives_up_witness : exists s2, mutex_acquire_timeout true 2 110 (fun s => Done (set_k_counter 101 (put_mutex 50 (mk_mutex false 0 []) s))) 50 50 demo_cpu = Done (-110, s2) /\
  mutex_at s2 50 = Done (mk_mutex false 0 []).
Proof.
  destruct (timeout_wait_queued_twice demo_cpu 50 (mk_mutex false 13 []) 11 12 [13] 50 demo_runnable eq_refl eq_refl ltac:(lia) eq_refl eq_refl eq_refl ltac:(lia)) as (s1 & _ & Hw & _).
  exists (set_k_counter 101 (put_mutex 50 (mk_mutex false 0 []) s1)). split; [|exact (mutex_at_put 50 (mk_mutex false 0 []) s1 ltac:(lia))].
  refine (proj2 (acquire_timeout_gives_up true 2 110 (fun s => Done (set_k_counter 101 (put_mutex 50 (mk_mutex false 0 []) s))) 50 50 demo_cpu (mk_mutex false 13 []) _ _ _ _ _ _) s1 _ _ _ Hw eq_refl _);
    [lia|lia|reflexivity|reflexivity|lia|cbn; lia|done|cbn; lia|cbn; lia].
Defined.
