(* ===== verification/ConsoleInit.v ===== *)
(** console_init (kernel/fs/console.c): the node of the console, the first
    terminal pair, the handler of the keyboard and the place /dev/tty.

    The state puts together those of Console, Pty, Ports and Vfs. *)
From stdpp Require Import base list gmap.
From Stdlib Require Import ZArith Lia.
From S2P Require Import Prelude KList KTree Vfs Mutex RingBuffer Pty Console Ports.

#[local] Open Scope Z_scope.

(** "tty", and the numbers of the functions of the console. *)
Definition CONSOLE_NAME : list Z := [116; 116; 121].
Definition CONSOLE_READ : Z := 90.
Definition CONSOLE_WRITE : Z := 91.
Definition CONSOLE_POLL : Z := 92.
Definition KEY_EVENT : Z := 93.
Definition console_ops : file_operations := mk_ops CONSOLE_READ CONSOLE_WRITE 0 0 0 0 0 0 CONSOLE_POLL 0 0 0.

Section Init.
Context {Q D : Type} `{Queue Q} `{NA : NodeAlloc} `{Drv : Drivers D} `{Env : VfsEnv D}.
Context (fuel : nat) (abi : tty_abi) (empty : Q) (garbage : bool).

Record tty := mk_tty {
  tty_console : console_data; terminalWidth : Z; terminalHeight : Z; pty_pairs : list (option (pty Q)); tty_keys : Keyboard.keyboard_state; tty_vfs : vfs D
}.

Definition pty_init : list (option (pty Q)) := replicate (Z.to_nat MAX_PTY_PAIRS) None.

Definition console_init (terminalWidthIn terminalHeightIn : Z) (s : tty) : outcome tty :=
  let console := with_state STATE_NORMAL (tty_console s) in
  let node := falloc (files (tty_vfs s)) in
  let '(id, v) := get_next_file_id (tty_vfs s) in
  name ← overlay CONSOLE_NAME zero_name;
  let v := put_file node (mk_fn name (u64 id) FILE_TYPE_VIRTUAL_DEVICE 0 false 0 console_ops 0) v in
  '(_, pairs) ← pty_create_pair abi empty garbage 0 pty_init;
  let keys := Keyboard.registerKeyEventHandler KEY_EVENT (tty_keys s) in
  '(_, v) ← mount_directly fuel [47; 100; 101; 118; 47; 116; 116; 121] node v;
  Done (mk_tty console terminalWidthIn terminalHeightIn pairs keys v).
End Init.

(** ** The console after its set-up *)

Lemma first_slot_free handler pre post : Forall (fun h => h <> 0) pre -> Keyboard.first_slot handler (pre ++ 0 :: post) = pre ++ handler :: post.
Proof.
  induction 1 as [|h pre Hh _ IH]; cbn [Keyboard.first_slot app]; [by rewrite decide_True by done|]. by rewrite decide_False, IH by done.
Qed.

Section Facts.
Context {Q D : Type} `{Queue Q} `{NA : NodeAlloc} `{Drv : Drivers D} `{Env : VfsEnv D}.
Context (fuel : nat) (abi : tty_abi) (empty : Q) (garbage : bool).

(** The node that is mounted, in the state it is mounted in. *)
Definition console_node (v : vfs D) : file_node := mk_fn (CONSOLE_NAME ++ drop 3 zero_name) (u64 (id_generator v)) FILE_TYPE_VIRTUAL_DEVICE 0 false 0 console_ops 0.
Definition with_console (v : vfs D) : vfs D := put_file (falloc (files v)) (console_node v) (set_id (s32 (id_generator v + 1)) v).

(** The console after console_init.  The mounted node is a new file, so
    every file there was is kept; reads, polls and typed keys find the first
    terminal pair, whose session the first process takes, with an empty line in
    canonical mode with echo; and the first free slot of the keyboard's handlers
    is the console's, the others being as before. *)
Theorem console_init_ready w h pre post s r v' cur : Forall (fun k => k <> 0) pre -> Keyboard.keyboardEventHandler (tty_keys s) = pre ++ 0 :: post ->
  mount_directly fuel [47; 100; 101; 118; 47; 116; 116; 121] (falloc (files (tty_vfs s))) (with_console (tty_vfs s)) = Done (r, v') ->
  exists s' p pairs', console_init fuel abi empty garbage w h s = Done s' /\ tty_vfs s' = v' /\
    (forall f n, files (tty_vfs s) !! f = Some n -> files (with_console (tty_vfs s)) !! f = Some n) /\
    Keyboard.keyboardEventHandler (tty_keys s') = pre ++ KEY_EVENT :: post /\
    slave0 cur (pty_pairs s') = Done (p, pairs') /\ session_leader (pd p) = cur /\ ring_buffer_available (input_buffer (pd p)) = 0 /\
    c_lflag (term_settings (pd p)) = Z.lor (ECHO abi) (ICANON abi) /\ c_state (tty_console s') = STATE_NORMAL.
Proof.
  intros Hpre Hk Hm. unfold console_init. unfold get_next_file_id. change (overlay CONSOLE_NAME zero_name) with (Done (CONSOLE_NAME ++ drop 3 zero_name)). cbn [mbind outcome_bind].
  set (p0 := mk_pty (mk_pd (ring_buffer_create empty PTY_BUFFER_SIZE false) (ring_buffer_create empty PTY_BUFFER_SIZE false)
    (mk_termios (Z.lor (ECHO abi) (ICANON abi)) (<[VEOF abi := 4]> (<[VERASE abi := 8]> ∅)) 38400 38400) (-1) false true) (mutex_init empty (mk_mutex false 0 empty)) (mutex_init empty (mk_mutex false 0 empty)) []).
  assert (Ep : pty_create_pair abi empty garbage 0 pty_init = Done (0, Some p0 :: replicate 15 None)) by reflexivity. rewrite Ep. cbn [mbind outcome_bind].
  unfold with_console in Hm. unfold console_node in Hm. rewrite Hm. cbn [mbind outcome_bind].
  eexists. exists (claim_session cur p0), (Some (claim_session cur p0) :: replicate 15 None). split; [reflexivity|]. split; [done|]. split; [|split; [|split; [reflexivity|split_and!; reflexivity]]].
  - intros f n Hf. change (files (with_console (tty_vfs s))) with (<[falloc (files (tty_vfs s)) := console_node (tty_vfs s)]> (files (tty_vfs s))). destruct (falloc_fresh (files (tty_vfs s))) as [_ Hn]. rewrite lookup_insert_ne; [done|]. intros E. rewrite E in Hn. congruence.
  - cbn [tty_keys]. unfold Keyboard.registerKeyEventHandler, Keyboard.put_handlers. cbn [Keyboard.keyboardEventHandler]. rewrite Hk. by apply first_slot_free.
Qed.
End Facts.

(** The console on the small tree of Vfs, whose /dev has no console yet. *)
Definition demo_tty : tty (Q := list Z) (D := unit) :=
  mk_tty console_start 0 0 [] (Keyboard.mk_kb 0 false false false false false false (replicate 64 0)) demo_vfs.

Lemma console_init_ready_witness : exists s' p pairs', console_init 20 linux_tty [] false 80 25 demo_tty = Done s' /\
  head (Keyboard.keyboardEventHandler (tty_keys s')) = Some KEY_EVENT /\ slave0 7 (pty_pairs s') = Done (p, pairs') /\ session_leader (pd p) = 7.
Proof.
  destruct (mount_directly 20 [47; 100; 101; 118; 47; 116; 116; 121] (falloc (D := unit) (files (tty_vfs demo_tty))) (with_console (tty_vfs demo_tty))) as [[r v']| | |] eqn:E; [|by vm_compute in E..].
  destruct (console_init_ready 20 linux_tty [] false 80 25 [] (replicate 63 0) demo_tty r v' 7 ltac:(constructor) eq_refl E) as (s' & p & pairs' & H1 & _ & _ & H2 & H3 & H4 & _).
  exists s', p, pairs'. split; [exact H1|]. split; [by rewrite H2|]. split; [exact H3|exact H4].
Defined.
